(* ===== verification/_CoqProject ===== *)
-Q . S2P
Prelude.v
Ring.v
Fifo.v
ShmQueue.v
ShmUniqQueue.v
ShmSpsc.v
MmapQueue.v
Wire.v
HashList.v
LockedHash.v
Sweep.v
Kernel.v
ConnInfo.v
BusState.v
BusConn.v
BusRoute.v
BusFacts.v
BusRun.v
BusProps.v
IniFile.v
ConnState.v
ConnServe.v
ConnRun.v
ConnFacts.v
ConnInv.v
ConnSteps.v
ConnDeal.v
ConnSync.v
ConnLoop.v
ConnEvents.v
ConnReach.v
ConnStart.v
ConnExample.v
ConnProps.v
EndToEnd.v
UserState.v
UserServe.v
UserSpec.v
UserFacts.v
UserLoop.v
Mysql.v
Conf.v
UserStore.v
UserStoreFacts.v
UserLoad.v
UserExample.v
UserProps.v
AuthServe.v
AuthFacts.v
AuthLoop.v
AuthExample.v
AuthProps.v
LogFile.v
LogFileFacts.v
LogServe.v
LogServeFacts.v
LogLoop.v
LogRun.v
LogClient.v
LogInit.v
LogSim.v
LogClientFacts.v
LogInitFacts.v
LogExample.v
LogProps.v
BusInit.v
BusInitProps.v
ConnInit.v
ConnInitProps.v
ServerInit.v
ServerInitProps.v
MemPool.v
MemPoolFacts.v
MemPoolSpec.v
MemPoolProps.v
Md5.v
Md5Props.v
Uuid.v
StrTool.v
StrToolProps.v
