(* ===== verification/Prelude.v ===== *)
(** * bus: a message bus for game servers, and the servers on it

    The program is a set of daemons.  On every machine one [bus] (src/bus)
    moves messages between the servers of that machine and to the buses of
    other machines ("clusters") over TCP.  A server and its bus share queues
    in shared memory (src/mmlib/shm_queue): one to the bus, common to all
    servers (GCIM), and one to each server.  A connection server [conn]
    (src/conn) stands between the clients, which speak TCP, and the bus; it
    keeps a table (GNS) of where every user is logged in, in shared memory
    (src/mmlib/hash_list), and tells the other connection servers about it.
    The user server (src/user) and the authentication server (src/auth)
    answer requests that arrive in their queues; all daemons send their log
    lines over a queue to the log server (src/logsvr).

    ** How the code is translated

    Every operation is a function on explicit state with the outcome type of
    this file: [Ok] with the state afterwards and what the C++ function
    returns, [Fault] where the code leaves an object or divides by zero,
    [Spin] where a loop of the model used up its fuel.  Theorems that say the
    result is [Ok] therefore say that memory is safe and loops end.  Machine
    integers are [Z] with the wrap-around of [u8] .. [i64] written where the
    code converts or adds; buffers are lists of bytes with [memcpy] on
    offsets.  The calls that write log lines are left out of the daemons and
    modelled by themselves (the Log files); messages on a terminal are left
    out everywhere.

    ** Parts, files and source

    - Prelude, Ring, Fifo: outcomes, integers, memory, byte regions that wrap
      around the end of an array; what a message queue promises
      ([FifoQueue]), against which bus and servers are proved.
    - ShmQueue, ShmUniqQueue ([CShmQueue], [CShmUniqQueue],
      mmlib/shm_queue): every operation over the bytes of the segment, and
      the refinement of a bounded FIFO.  ShmSpsc: one producer and one
      consumer, cut at their memory accesses, the copies of both in pieces of
      any size, interleaved in any order.
    - MmapQueue ([CMmapQueue], mmlib/mmap_queue): the framed ring with its
      semaphore.
    - Wire ([CBuffTool] of mmlib/util; include/bus_header.h, header.h):
      integers in buffers and the three headers.
    - HashList ([CHashListNoLock], mmlib/hash_list/hash_list_nolock.h): index
      and data nodes in a block of memory, refining a finite map.
      LockedHash ([CHashList], [CHashListMMap]): the same operations under
      locks on parts of the block, cut at their locks and run by several
      processes, with the one read the code makes without a lock (of the
      number of indexes, in [Hash]); with locks that do nothing they are those of HashList
      ([unlocked_Insert] and its like).
    - Kernel: sockets, epoll and clocks as a class with laws, and the
      simulated kernel the witnesses run on.
    - ConnInfo ([CConnInfo] of bus/bus.cpp): one TCP connection with what was
      read and not processed and what is still to be sent.
    - BusState, BusConn (connections and clusters of [CBus]), BusRoute,
      BusFacts ([ProcessPkg], [ForwardMsg], [Send2Cluster], state and hello
      messages), BusRun ([Run] and [OnReadable]), BusProps (its properties).
    - IniFile ([CIniFile], mmlib/ini_file): searching a configuration file.
      Conf: what any such file gives, and the queues whose keys it names.
    - BusInit, BusInitProps ([CBus::Init]): clusters, servers
      and groups from the configuration, queues and listening sockets.
    - ConnState, ConnServe, ConnRun: the operations of [CConn]
      (conn/conn.cpp), on connections, on packages and the GNS table, and its
      loop.  ConnFacts, ConnInv, ConnSteps, ConnDeal, ConnSync, ConnLoop,
      ConnEvents, ConnReach, ConnStart: what they do, the invariant
      [serving], and that every step keeps it.  ConnExample: a concrete
      server.  ConnProps: the properties.  ConnInit,
      ConnInitProps ([CConn::Init]): from the configuration to [serving].
    - EndToEnd: client, connection server, bus and server queue composed.
    - Sweep: upkeep that looks at one index of a table per call, shared by the
      two servers that do so.
    - UserState ([CUserShmApi] of user/user_shm_api.cpp): the shared table of
      users.  UserServe ([CUser] of user/user_proc.cpp): registrations,
      requests for friendship, the queues to loader and writer, the loop.
      UserSpec: what it promises, on a map of users and three streams of
      messages.  UserFacts, UserLoop: that it does so.
    - Mysql ([CMySQL], mmlib/mysql): queries over the C interface of MySQL as
      a class, with laws about the two statements the servers send, and a
      small database.  UserStore, UserStoreFacts ([CLoaderUser],
      [CWriterUser] of user/loader_user.cpp, writer_user.cpp).
    - UserLoad: the user server with its loader and writer.  UserExample:
      concrete ones.  UserProps: the properties.
    - AuthServe ([CAuth], auth/auth_proc.cpp): logins and registrations, whose
      statements are texts made of what clients send.  AuthFacts, AuthLoop:
      what they do to a database of passwords (the class [AuthDB]).
      AuthExample: a concrete one.  AuthProps: the properties, also of the
      authentication server with the connection server.
    - ServerInit, ServerInitProps: [CUser::Init],
      [CUserShmApi::Init], [CLoaderUser::Init], [CWriterUser::Init],
      [CAuth::Init], [CMySQL::Connect].
    - LogFile, LogFileFacts: the functions on log files that mmlib/log/log.cpp
      and logsvr/logsvr_proc.cpp share, over a class of file systems.
      LogServe, LogServeFacts, LogLoop, LogRun ([CLogSvrProc]): lines from the
      queue to the files of modules, numbers and users, and the loop.
      LogClient, LogClientFacts ([CLog]): whether a line is wanted, its
      message, the local files.  LogInit, LogInitFacts: the start of both and
      the configuration they share.  LogSim, LogExample, LogProps: a disk, a
      server and a client, and the properties.
    - MemPool, MemPoolFacts ([CFixedsizeMemPool], mmlib/mem_pool): nodes with
      marks and a ring of free ones.  MemPoolSpec,
      MemPoolProps ([CMemPool]): maps as chains of its nodes, refining finite
      maps under handles, when the block is as large as its nodes need; sizes
      that wrap around and clear past the block are faults.
    - Md5, Md5Props ([MD5], mmlib/md5): digests of what is fed in
      pieces, against [RFC1321], a definition of its own from the text of the
      RFC (the functions on single bits, the table from the sine, padding).
    - Uuid ([SimpleUUID64], mmlib/simple_uuid64).
    - StrTool, StrToolProps ([CStrTool] of
      mmlib/util/util.cpp): replacing, splitting, joining, numbers and bytes as
      texts.

    ** How the parts meet

    The daemons are Sections over a queue type [Q] with [FifoOps]; the laws of
    [FifoQueue] are the hypotheses of their theorems, and ShmQueue gives the
    instance.  In the same way they are Sections over a kernel state [K] with
    [Kernel], [KernelClock] and [KernelLaws] (sockets are byte streams,
    [write] takes a prefix, clocks do not go back during a call), with the
    instance [Sim].  Protocol Buffers code is generated and not in the
    repository: [BusProto] and [ConnProto] have the messages' encoders and
    parsers ([UserProto] and [StoreProto] those of the user server and its
    database, [AuthProto] those of the authentication server), their laws are
    the round trip and the size, and the witnesses use small codecs.  The GNS
    table of [CConn] is the very hash list of HashList, so its capacity and its
    failures are those of the code; so is the shared table of users.

    The start of a daemon reads any files with [CIniFile] and makes its queues
    from the keys it finds ([QueueInit]); what a queue holds then is a function
    of its key ([q_stored]), so two entries of a configuration with one key,
    which would share a queue, are two queues here.  The GNS table and
    the table of users are what was left in memory: any table that represents a
    map.  Configuration files are missing, or texts that are not empty, have no
    NUL and do not begin with a capital letter (those of the repository begin
    with two semicolons): [conf_files].  The theorems on starting end in the
    invariants from which the theorems on serving begin.

    The log server and its clients work on a file system with the laws
    [FilesLaws]: what was written is there, and nobody else changes the log
    files.  The environment variable that [CLog::Open] reads is an argument of
    each call.

    ** What is shown

    - Queues: each operation has the result of the FIFO specification on every
      branch; messages come out once, whole and in order, also with producer
      and consumer interleaved; attaching finds the messages that were left.
    - Hash list: any sequence of calls behaves as a bounded finite map.  With
      locks: whoever works on a part holds a lock that covers it, and processes
      do not wait for each other for ever.
    - Wire: reading inverts writing, in network order, without touching the
      rest of the buffer.
    - Connections: what was sent is a prefix of what was to be sent, in order;
      receiving never leaves its buffer.
    - Bus: however TCP cuts a stream, every message is delivered once, to its
      destination's queue; the members of a group get one copy each, over the
      connections to their clusters too; connections stay consistent while
      number 299999 is not released; free numbers are found; what [Init]
      builds from its files fits together.
    - Connection server: an invariant (one connection per user, the GNS table
      agreeing with it) holds in every state the loop, the clients, the other
      servers and the kernel can bring about while the tables have room, and
      the handlers return in it, but for packages that are too long or too
      short; rounds of the loop in which nothing arrives do the upkeep; silent
      connections and forgotten users are cleaned up in bounded time;
      the GNS table does not depend on the order of the news of logins when
      no two of one user are of one second; [Init] leads to the invariant from
      the configuration and a table left in memory.
    - User server: every package has exactly the effect of the specification;
      its loop serves for ever; users gone for a day leave memory, and no
      others; a request for friendship across two servers does what one server
      with both users would do.  With the loader: a package that needs a user
      who is not in memory is dealt with in the end as if he had been, when it
      is the only one that waits.  With the writer: what of a user survives
      being written and loaded.  [Init] leads to a server that serves.
    - Authentication server: a login is let in only with the stored password,
      and at the connection server only the connection that asked is; who
      registers is let in afterwards; the loop deals with all that waits.
    - Logging: a line that a client wants goes through the queue to the log of
      its module, level and hour, from the configuration file on; the server's
      loop writes every line, and what a log loses by renaming is the oldest,
      with as much left as its numbered files hold.
    - Composition: a client's request is found in the user server's queue as
      sent, with the identity the connection server knows.
    - Memory pool: in a block of the size it needs, and for callers that keep
      to its rules, its maps are finite maps, no block is lost or shared, and it
      passes its own check.  Digests: those of RFC 1321 in
      whatever pieces.  Texts: replacing ends when it can, splitting undoes
      joining, every int is printed within its buffer; generated numbers differ.
    - Where the code does not do what it means to (ring lengths near 2^32, a
      semaphore never released, packages of negative length, connection
      299999, a package as long as the buffer, a second login on one
      connection, requests for friendship that replace each other, packages
      lost in the loader, registrations that fail unnoticed, names used as
      formats, passwords that are read as SQL, full tables of open logs, a bus
      that listens nowhere, a second digest, a replacement that never ends), the
      theorem states what it does.

    ** Bounds and fuel

    Loops over a received buffer have the number of bytes plus one as fuel,
    and every package is at least one byte when they go on; walks of a hash
    chain or a chain of blocks have the number of nodes; searches for a free
    number have the size of the range and a theorem that it is enough; the
    search of a configuration file and the splitting of a text have its length,
    the blocks of a digest that of the piece.  [recv_loop], [Run] and the like
    over several rounds take the number of rounds as an argument, for every
    value of it.  [Spin] never appears in a theorem's conclusion except in
    [mmap_OutQueue_deadlocks], where it is a lock that nobody will release, and
    in [replace_ends], where it is for every fuel.

    ** Not modelled

    Third-party and vendored code (AMF, QuickLZ, base64, zlib, the MySQL
    client, Protocol Buffers); wrappers of single system calls (semaphores,
    shared memory, mapped files, file locks, processes), whose results are
    arguments; main functions, signals and daemonizing; the arguments of log
    lines, which are formatted by the C library, and the diagnostics the logging
    code keeps of itself; the client-side sockets of mmlib and the test client,
    which no daemon uses; dates, character sets and random choices of mmlib/util,
    which are calls of the C library; [CTimerPool], which names a namespace that
    does not exist and is not compiled; the order of bytes of machines other than
    little-endian ones. *)
From Stdlib Require Export ZArith Lia.
From stdpp Require Export base tactics numbers list.

#[global] Open Scope Z_scope.

(** * Outcomes of C++ code

    [Ok a] is a normal result.  [Fault] is undefined behaviour the code does
    not guard against: an access outside an object, a division by zero.
    [Spin] is a loop that used up the fuel of its model. *)
Inductive outcome (A : Type) : Type :=
  | Ok (a : A)
  | Fault
  | Spin.
Arguments Ok {A} a.
Arguments Fault {A}.
Arguments Spin {A}.

#[export] Instance outcome_ret : MRet outcome := λ A a, Ok a.
#[export] Instance outcome_bind : MBind outcome := λ A B f m,
  match m with Ok a => f a | Fault => Fault | Spin => Spin end.

#[export] Instance outcome_eq_dec `{EqDecision A} : EqDecision (outcome A).
Proof.
  intros [a| |] [b| |]; try (by right); try (by left).
  destruct (decide (a = b)); [left|right]; congruence.
Defined.

(** The two ways a computation can go wrong, as one test. *)
Definition is_ok {A} (m : outcome A) : bool :=
  match m with Ok _ => true | _ => false end.

Lemma bind_Ok {A B} (m : outcome A) (f : A → outcome B) b :
  (m ≫= f) = Ok b ↔ ∃ a, m = Ok a ∧ f a = Ok b.
Proof. destruct m; cbn; naive_solver. Qed.

Lemma bind_fault {A B} (m : outcome A) (f : A → outcome B) :
  m = Fault → (m ≫= f) = Fault.
Proof. by intros ->. Qed.

(** A failing assertion of the machine model. *)
Definition guard_ub (b : bool) : outcome unit := if b then Ok () else Fault.

(** * Fixed-width integers *)
Definition u8 (x : Z) : Z := x mod 2 ^ 8.
Definition u16 (x : Z) : Z := x mod 2 ^ 16.
Definition u32 (x : Z) : Z := x mod 2 ^ 32.
Definition u64 (x : Z) : Z := x mod 2 ^ 64.
Definition i8 (x : Z) : Z := (x + 2 ^ 7) mod 2 ^ 8 - 2 ^ 7.
Definition i16 (x : Z) : Z := (x + 2 ^ 15) mod 2 ^ 16 - 2 ^ 15.
Definition i32 (x : Z) : Z := (x + 2 ^ 31) mod 2 ^ 32 - 2 ^ 31.
Definition i64 (x : Z) : Z := (x + 2 ^ 63) mod 2 ^ 64 - 2 ^ 63.

(** [a % b] of unsigned operands: a zero divisor is undefined. *)
Definition umod (a b : Z) : outcome Z :=
  if b =? 0 then Fault else Ok (a mod b).

Lemma u32_small x : 0 ≤ x < 2 ^ 32 → u32 x = x.
Proof. intros. unfold u32. apply Z.mod_small. lia. Qed.
Lemma u32_range x : 0 ≤ u32 x < 2 ^ 32.
Proof. apply Z.mod_pos_bound. lia. Qed.
Lemma u16_small x : 0 ≤ x < 2 ^ 16 → u16 x = x.
Proof. intros. unfold u16. apply Z.mod_small. lia. Qed.
Lemma u16_range x : 0 ≤ u16 x < 2 ^ 16.
Proof. apply Z.mod_pos_bound. lia. Qed.
Lemma u8_small x : 0 ≤ x < 2 ^ 8 → u8 x = x.
Proof. intros. unfold u8. apply Z.mod_small. lia. Qed.
Lemma u8_range x : 0 ≤ u8 x < 2 ^ 8.
Proof. apply Z.mod_pos_bound. lia. Qed.
Lemma u64_small x : 0 ≤ x < 2 ^ 64 → u64 x = x.
Proof. intros. unfold u64. apply Z.mod_small. lia. Qed.
Lemma i32_small x : - 2 ^ 31 ≤ x < 2 ^ 31 → i32 x = x.
Proof. intros. unfold i32. rewrite Z.mod_small; lia. Qed.
Lemma i32_range x : - 2 ^ 31 ≤ i32 x < 2 ^ 31.
Proof. unfold i32. pose proof (Z.mod_pos_bound (x + 2 ^ 31) (2 ^ 32)). lia. Qed.

Lemma mod_sub_once x n : n ≤ x < 2 * n → x mod n = x - n.
Proof.
  intros. replace x with (x - n + 1 * n) at 1 by lia.
  rewrite Z.mod_add, Z.mod_small; lia.
Qed.

Lemma umod_pos a b : 0 < b → umod a b = Ok (a mod b).
Proof. intros. unfold umod. destruct (Z.eqb_spec b 0); [lia|done]. Qed.

Create Rewrite HintDb width.
#[export] Hint Rewrite u8_small u16_small u32_small u64_small i32_small
  using lia : width.

(** * Bytes and multi-byte integers *)
Definition byte_ok (b : Z) : Prop := 0 ≤ b < 2 ^ 8.

(** The length of a buffer, as the code counts it. *)
Definition zlen {A} (l : list A) : Z := Z.of_nat (length l).

(** The bytes of the [n]-byte object that holds [x] on a little-endian
    machine, lowest address first, and the value read back from them. *)
Fixpoint le_enc (n : nat) (x : Z) : list Z :=
  match n with
  | O => []
  | S n => x mod 2 ^ 8 :: le_enc n (x / 2 ^ 8)
  end.

Fixpoint le_dec (l : list Z) : Z :=
  match l with
  | [] => 0
  | b :: l => b + 2 ^ 8 * le_dec l
  end.

Lemma length_le_enc n x : length (le_enc n x) = n.
Proof. revert x. induction n; intros; cbn; auto. Qed.

Lemma zlen_le_enc n x : zlen (le_enc n x) = Z.of_nat n.
Proof. unfold zlen. by rewrite length_le_enc. Qed.

Lemma le_enc_bytes n x : Forall byte_ok (le_enc n x).
Proof.
  revert x. induction n; intros x; constructor; [|apply IHn].
  apply Z.mod_pos_bound. lia.
Qed.

Lemma le_dec_enc n x : 0 ≤ x < 2 ^ (8 * Z.of_nat n) → le_dec (le_enc n x) = x.
Proof.
  revert x. induction n as [|n IH]; intros x Hx.
  { cbn in *. lia. }
  cbn [le_enc le_dec]. rewrite IH.
  - rewrite Z.add_comm, <- Z.div_mod; lia.
  - replace (8 * Z.of_nat (S n)) with (8 + 8 * Z.of_nat n) in Hx by lia.
    rewrite Z.pow_add_r in Hx by lia.
    split; [apply Z.div_pos; lia|]. apply Z.div_lt_upper_bound; lia.
Qed.

Lemma le_dec_bound l : Forall byte_ok l → 0 ≤ le_dec l < 2 ^ (8 * zlen l).
Proof.
  unfold zlen. induction 1 as [|b l Hb Hl IH]; cbn [le_dec length].
  { cbn. lia. }
  replace (8 * Z.of_nat (S (length l))) with (8 + 8 * Z.of_nat (length l)) by lia.
  rewrite Z.pow_add_r by lia. unfold byte_ok in Hb. lia.
Qed.

Lemma le_enc_dec l : Forall byte_ok l → le_enc (length l) (le_dec l) = l.
Proof.
  induction 1 as [|b l Hb Hl IH]; cbn [le_dec le_enc length]; [done|].
  unfold byte_ok in Hb. f_equal.
  - rewrite Z.mul_comm, Z.mod_add by lia. by apply Z.mod_small.
  - rewrite Z.add_comm, Z.mul_comm, Z.div_add_l by lia.
    by rewrite Z.div_small, Z.add_0_r by lia.
Qed.

(** * Memory objects

    A memory object is the list of its bytes.  [mread] and [mwrite] are
    [memcpy] out of and into it; both fault outside the object, as [memcpy]
    with a negative (so huge) size does. *)
Definition in_bounds {A} (m : list A) (off len : Z) : bool :=
  (0 <=? off) && (0 <=? len) && (off + len <=? zlen m).

Definition mread {A} (m : list A) (off len : Z) : outcome (list A) :=
  if in_bounds m off len
  then Ok (take (Z.to_nat len) (drop (Z.to_nat off) m)) else Fault.

Definition mwrite {A} (m : list A) (off : Z) (d : list A) : outcome (list A) :=
  if in_bounds m off (zlen d)
  then Ok (take (Z.to_nat off) m ++ d ++ drop (Z.to_nat off + length d) m)
  else Fault.

(** [memcpy(dst + off, src + soff, len)]. *)
Definition memcpy {A} (dst : list A) (off : Z) (src : list A) (soff len : Z)
    : outcome (list A) :=
  d ← mread src soff len; mwrite dst off d.

(** An array element read or written by index. *)
Definition aget {A} (a : list A) (i : Z) : outcome A :=
  if 0 <=? i then
    match a !! Z.to_nat i with Some x => Ok x | None => Fault end
  else Fault.

Definition aset {A} (a : list A) (i : Z) (x : A) : outcome (list A) :=
  if (0 <=? i) && (i <? zlen a) then Ok (<[Z.to_nat i := x]> a) else Fault.

Arguments memcpy : simpl never.
Arguments mread : simpl never.
Arguments mwrite : simpl never.
Arguments aget : simpl never.
Arguments aset : simpl never.
Arguments umod : simpl never.
Arguments u8 : simpl never.
Arguments u16 : simpl never.
Arguments u32 : simpl never.
Arguments u64 : simpl never.
Arguments i8 : simpl never.
Arguments i16 : simpl never.
Arguments i32 : simpl never.
Arguments i64 : simpl never.
Arguments zlen : simpl never.

Lemma in_bounds_spec {A} (m : list A) off len :
  in_bounds m off len = true ↔ 0 ≤ off ∧ 0 ≤ len ∧ off + len ≤ zlen m.
Proof. unfold in_bounds. rewrite !andb_true_iff, !Z.leb_le. tauto. Qed.

Lemma mread_ok {A} (m : list A) off len :
  0 ≤ off → 0 ≤ len → off + len ≤ zlen m →
  mread m off len = Ok (take (Z.to_nat len) (drop (Z.to_nat off) m)).
Proof.
  intros. unfold mread. by rewrite (proj2 (in_bounds_spec m off len)).
Qed.

Lemma mwrite_ok {A} (m d : list A) off :
  0 ≤ off → off + zlen d ≤ zlen m →
  mwrite m off d
  = Ok (take (Z.to_nat off) m ++ d ++ drop (Z.to_nat off + length d) m).
Proof.
  intros. unfold mwrite.
  rewrite (proj2 (in_bounds_spec m off (zlen d))); [done|].
  split_and!; [done| unfold zlen; lia |done].
Qed.

Lemma mread_all {A} (m : list A) : mread m 0 (zlen m) = Ok m.
Proof.
  rewrite mread_ok by (unfold zlen; lia). unfold zlen.
  by rewrite Nat2Z.id, take_ge.
Qed.

Lemma mread_fault {A} (m : list A) off len :
  off < 0 ∨ len < 0 ∨ zlen m < off + len → mread m off len = Fault.
Proof.
  intros Hb. unfold mread. destruct (in_bounds m off len) eqn:E; [|done].
  apply in_bounds_spec in E. lia.
Qed.

Lemma aget_ok {A} (a : list A) i x :
  0 ≤ i → a !! Z.to_nat i = Some x → aget a i = Ok x.
Proof. intros ? Hx. unfold aget. rewrite (proj2 (Z.leb_le _ _)), Hx; auto. Qed.

Lemma aset_ok {A} (a : list A) i x :
  0 ≤ i < zlen a → aset a i x = Ok (<[Z.to_nat i := x]> a).
Proof.
  intros. unfold aset. rewrite (proj2 (Z.leb_le _ _)), (proj2 (Z.ltb_lt _ _)); auto; lia.
Qed.

Create HintDb mem.
#[export] Hint Resolve Z.leb_le Z.ltb_lt : mem.

Lemma zlen_nil {A} : zlen (@nil A) = 0.
Proof. done. Qed.
Lemma zlen_cons {A} (x : A) l : zlen (x :: l) = 1 + zlen l.
Proof. unfold zlen. cbn [length]. lia. Qed.
Lemma zlen_app {A} (l k : list A) : zlen (l ++ k) = zlen l + zlen k.
Proof. unfold zlen. rewrite length_app. lia. Qed.
Lemma zlen_take {A} (l : list A) n :
  0 ≤ n → zlen (take (Z.to_nat n) l) = Z.min n (zlen l).
Proof. unfold zlen. rewrite length_take. lia. Qed.
Lemma zlen_drop {A} (l : list A) n :
  0 ≤ n → zlen (drop (Z.to_nat n) l) = Z.max 0 (zlen l - n).
Proof. unfold zlen. rewrite length_drop. lia. Qed.
Lemma zlen_insert {A} (l : list A) i x : zlen (<[i:=x]> l) = zlen l.
Proof. unfold zlen. by rewrite length_insert. Qed.
Lemma zlen_replicate {A} n (x : A) : zlen (replicate n x) = Z.of_nat n.
Proof. unfold zlen. by rewrite length_replicate. Qed.
Lemma zlen_nonneg {A} (l : list A) : 0 ≤ zlen l.
Proof. unfold zlen. lia. Qed.

Create Rewrite HintDb zlen.
#[export] Hint Rewrite @zlen_nil @zlen_cons @zlen_app @zlen_insert
  @zlen_replicate zlen_le_enc : zlen.
#[export] Hint Rewrite @zlen_take @zlen_drop using lia : zlen.

(** A buffer split after its first [n] cells. *)
Lemma split_at {A} (l : list A) n :
  0 ≤ n ≤ zlen l → ∃ l1 l2, l = l1 ++ l2 ∧ zlen l1 = n ∧ zlen l2 = zlen l - n.
Proof.
  intros. exists (take (Z.to_nat n) l), (drop (Z.to_nat n) l).
  rewrite take_drop. split_and!; [done| |]; autorewrite with zlen; lia.
Qed.

(** Writes and reads next to each other. *)
Lemma mwrite_app {A} (m a b : list A) o :
  (m' ← mwrite m o a; mwrite m' (o + zlen a) b) = mwrite m o (a ++ b).
Proof.
  pose proof (zlen_nonneg a). pose proof (zlen_nonneg b). unfold mwrite.
  destruct (in_bounds m o (zlen a)) eqn:Ha; cbn.
  - apply in_bounds_spec in Ha as (Ho & _ & Hm).
    set (m' := take _ m ++ _).
    assert (zlen m' = zlen m) as Hm'.
    { unfold m', zlen in *. rewrite !length_app, length_take, length_drop. lia. }
    destruct (in_bounds m' (o + zlen a) (zlen b)) eqn:Hb;
      destruct (in_bounds m o (zlen (a ++ b))) eqn:Hab; try done.
    + f_equal. apply in_bounds_spec in Hb as (_ & _ & Hb). rewrite Hm' in Hb. unfold m', zlen in *.
      replace (Z.to_nat (o + Z.of_nat (length a))) with (Z.to_nat o + length a)%nat by lia.
      rewrite (app_assoc (take (Z.to_nat o) m) a (drop _ m)), take_app_length', drop_app_ge,
        drop_drop by (rewrite ?length_app, ?length_take; lia).
      rewrite length_app, length_app, length_take, <- !app_assoc.
      do 3 f_equal. f_equal. lia.
    + exfalso. apply in_bounds_spec in Hb. rewrite Hm' in Hb.
      assert (in_bounds m o (zlen (a ++ b)) = true)
        by (apply in_bounds_spec; rewrite zlen_app; lia). congruence.
    + exfalso. apply in_bounds_spec in Hab. rewrite zlen_app in Hab.
      assert (in_bounds m' (o + zlen a) (zlen b) = true)
        by (apply in_bounds_spec; lia). congruence.
  - destruct (in_bounds m o (zlen (a ++ b))) eqn:Hab; [exfalso|done].
    apply in_bounds_spec in Hab. rewrite zlen_app in Hab.
    assert (in_bounds m o (zlen a) = true) by (apply in_bounds_spec; lia). congruence.
Qed.

Lemma mread_app {A} (m a b : list A) o n1 n2 :
  0 ≤ n1 → 0 ≤ n2 → zlen a = n1 → mread m o (n1 + n2) = Ok (a ++ b) →
  mread m o n1 = Ok a ∧ mread m (o + n1) n2 = Ok b.
Proof.
  intros ? ? Ha. unfold mread.
  destruct (in_bounds m o (n1 + n2)) eqn:Hab; [|done].
  apply in_bounds_spec in Hab. intros [= Hd].
  rewrite (proj2 (in_bounds_spec m o n1)), (proj2 (in_bounds_spec m (o + n1) n2)) by lia.
  unfold zlen in *. rewrite !Z2Nat.inj_add in * by lia.
  rewrite <- drop_drop. set (x := drop (Z.to_nat o) m) in *.
  assert (length (take (Z.to_nat n1) x) = Z.to_nat n1) as Hl
    by (rewrite length_take; unfold x; rewrite length_drop; lia).
  rewrite <- take_take_drop in Hd. apply app_inj_1 in Hd as [-> ->]; [done|lia].
Qed.

Lemma mread_total {A} (m : list A) o n :
  0 ≤ o → 0 ≤ n → o + n ≤ zlen m → ∃ d, mread m o n = Ok d ∧ zlen d = n.
Proof.
  intros. rewrite mread_ok by done. eexists. split; [done|].
  rewrite zlen_take, zlen_drop by lia. lia.
Qed.

Lemma mwrite_total {A} (m d : list A) o :
  0 ≤ o → o + zlen d ≤ zlen m → ∃ m', mwrite m o d = Ok m' ∧ zlen m' = zlen m.
Proof.
  intros. rewrite mwrite_ok by done. eexists. split; [done|]. unfold zlen in *.
  rewrite !length_app, length_take, length_drop. lia.
Qed.

Lemma mread_zlen {A} (m d : list A) o n : mread m o n = Ok d → zlen d = n.
Proof.
  unfold mread. destruct (in_bounds m o n) eqn:E; [|done].
  apply in_bounds_spec in E. intros [= <-]. rewrite zlen_take, zlen_drop by lia. lia.
Qed.

Lemma mwrite_mread {A} (m d : list A) o : mread m o (zlen d) = Ok d → mwrite m o d = Ok m.
Proof.
  unfold mread, mwrite. destruct (in_bounds m o (zlen d)) eqn:E; [|done].
  apply in_bounds_spec in E. intros [= Hd]. f_equal.
  rewrite <- Hd at 1. unfold zlen in *. rewrite Nat2Z.id, <- drop_drop, !take_drop. done.
Qed.

Lemma mread_mwrite {A} (m m' d : list A) o :
  mwrite m o d = Ok m' → mread m' o (zlen d) = Ok d.
Proof.
  unfold mwrite. destruct (in_bounds m o (zlen d)) eqn:E; [|done].
  apply in_bounds_spec in E. intros [= <-]. unfold zlen in *.
  rewrite mread_ok; [|lia..|unfold zlen; rewrite !length_app, length_take, length_drop; lia].
  rewrite Nat2Z.id, drop_app_length', take_app_length by (rewrite length_take; lia). done.
Qed.

Lemma mread_Forall {A} (P : A → Prop) m o n d :
  Forall P m → mread m o n = Ok d → Forall P d.
Proof.
  intros Hm. unfold mread. destruct (in_bounds m o n); [|done]. intros [= <-].
  by apply Forall_take, Forall_drop.
Qed.

(** * Counting loops: [for (int i = lo; i < lo + n; i++)] over a state. *)
Fixpoint for_n {S} (n : nat) (i : Z) (f : Z → S → outcome S) (s : S) : outcome S :=
  match n with
  | O => Ok s
  | Datatypes.S n => s ← f i s; for_n n (i + 1) f s
  end.

Definition for_range {S} (lo hi : Z) (f : Z → S → outcome S) (s : S) : outcome S :=
  for_n (Z.to_nat (hi - lo)) lo f s.

Lemma for_n_inv {S} (P : Z → S → Prop) n i (f : Z → S → outcome S) s :
  P i s →
  (∀ j s, i ≤ j < i + Z.of_nat n → P j s → ∃ s', f j s = Ok s' ∧ P (j + 1) s') →
  ∃ s', for_n n i f s = Ok s' ∧ P (i + Z.of_nat n) s'.
Proof.
  revert i s. induction n as [|n IH]; intros i s Hs Hf; cbn [for_n].
  { exists s. by rewrite Z.add_0_r. }
  destruct (Hf i s) as (s1 & -> & Hs1); [lia|done|]. cbn.
  destruct (IH (i + 1) s1 Hs1) as (s2 & -> & Hs2); [intros; apply Hf; [lia|done]|].
  exists s2. split; [done|]. by replace (i + Z.of_nat (Datatypes.S n)) with (i + 1 + Z.of_nat n) by lia.
Qed.

Lemma for_range_inv {S} (P : Z → S → Prop) lo hi (f : Z → S → outcome S) s :
  lo ≤ hi → P lo s →
  (∀ j s, lo ≤ j < hi → P j s → ∃ s', f j s = Ok s' ∧ P (j + 1) s') →
  ∃ s', for_range lo hi f s = Ok s' ∧ P hi s'.
Proof.
  intros ? Hs Hf. unfold for_range.
  destruct (for_n_inv P (Z.to_nat (hi - lo)) lo f s) as (s' & Hr & Hp); [done| |].
  { intros j t ? ?. apply Hf; [lia|done]. }
  exists s'. split; [done|]. by replace hi with (lo + Z.of_nat (Z.to_nat (hi - lo))) by lia.
Qed.

(** Arrays read and written by index. *)
Lemma aget_Some {A} (a : list A) i x :
  aget a i = Ok x ↔ 0 ≤ i ∧ a !! Z.to_nat i = Some x.
Proof.
  unfold aget. destruct (Z.leb_spec 0 i); [|split; [done|lia]].
  destruct (a !! Z.to_nat i); split; naive_solver.
Qed.

Lemma aget_lt {A} (a : list A) i x : aget a i = Ok x → 0 ≤ i < zlen a.
Proof.
  intros [? Hx]%aget_Some. apply lookup_lt_Some in Hx. unfold zlen. lia.
Qed.

Lemma aget_total {A} (a : list A) i : 0 ≤ i < zlen a → ∃ x, aget a i = Ok x.
Proof.
  intros. destruct (lookup_lt_is_Some_2 a (Z.to_nat i)) as [x Hx]; [unfold zlen in *; lia|].
  exists x. apply aget_Some. split; [lia|done].
Qed.

Lemma aset_total {A} (a : list A) i x :
  0 ≤ i < zlen a → ∃ a', aset a i x = Ok a' ∧ zlen a' = zlen a ∧ aget a' i = Ok x ∧
    (∀ j, j ≠ i → aget a' j = aget a j).
Proof.
  intros. rewrite aset_ok by done. eexists. split; [done|]. rewrite zlen_insert.
  split; [done|]. split.
  - apply aget_Some. split; [lia|]. apply list_lookup_insert_eq. unfold zlen in *. lia.
  - intros j Hj. unfold aget. destruct (Z.leb_spec 0 j); [|done].
    rewrite list_lookup_insert_ne by lia. done.
Qed.

Lemma aget_insert {A} (a : list A) i j x :
  0 ≤ i < zlen a →
  aget (<[Z.to_nat i := x]> a) j = if decide (j = i) then Ok x else aget a j.
Proof.
  intros. destruct (decide (j = i)) as [->|Hj].
  - apply aget_Some. split; [lia|]. apply list_lookup_insert_eq. unfold zlen in *. lia.
  - unfold aget. destruct (Z.leb_spec 0 j); [|done].
    by rewrite list_lookup_insert_ne by lia.
Qed.

(** Replacing one of the lists of a concatenation. *)
Lemma concat_insert {A} (ls : list (list A)) (i : nat) l l' :
  ls !! i = Some l → concat (<[i := l']> ls) ++ l ≡ₚ concat ls ++ l'.
Proof.
  revert i. induction ls as [|k ls IH]; intros [|i] Hi; cbn; try done.
  - injection Hi as ->. solve_Permutation.
  - rewrite <- !app_assoc, IH by done. done.
Qed.

Lemma concat_length_ge {A} (ls : list (list A)) (i : nat) (l : list A) :
  ls !! i = Some l → (length l ≤ length (concat ls))%nat.
Proof.
  revert i. induction ls as [|k ls IH]; intros [|i] Hi; cbn; try done.
  - injection Hi as ->. rewrite length_app. lia.
  - apply IH in Hi. rewrite length_app. lia.
Qed.

Lemma elem_of_concat_lookup {A} (ls : list (list A)) (i : nat) (l : list A) (x : A) :
  ls !! i = Some l → x ∈ l → x ∈ concat ls.
Proof.
  intros Hl Hx. apply list_elem_of_In, in_concat. exists l.
  rewrite <- !list_elem_of_In. split; [by apply list_elem_of_lookup_2 in Hl|done].
Qed.

Lemma concat_NoDup_disjoint {A} (ls : list (list A)) (i j : nat) (l k : list A) (x : A) :
  NoDup (concat ls) → i ≠ j → ls !! i = Some l → ls !! j = Some k → x ∈ l → x ∉ k.
Proof.
  revert i j. induction ls as [|l0 ls IH]; intros i j Hn Hij Hi Hj Hx Hx'; [done|].
  cbn in Hn. apply NoDup_app in Hn as (_ & Hd & Hn).
  destruct i as [|i], j as [|j]; cbn in Hi, Hj; [done|simplify_eq..|].
  - apply (Hd x Hx). by apply (elem_of_concat_lookup _ j k).
  - apply (Hd x Hx'). by apply (elem_of_concat_lookup _ i l).
  - apply (IH i j); auto.
Qed.

Lemma mread_head {A} (a d : list A) : mread (a ++ d) 0 (zlen a) = Ok a.
Proof.
  rewrite mread_ok by (rewrite ?zlen_app; pose proof (zlen_nonneg a); pose proof (zlen_nonneg d); lia).
  unfold zlen. by rewrite drop_0, Nat2Z.id, take_app_length.
Qed.

Lemma mwrite_head {A} (d m : list A) :
  zlen d ≤ zlen m → mwrite m 0 d = Ok (d ++ drop (length d) m).
Proof. intros. rewrite mwrite_ok by (unfold zlen in *; lia). by rewrite take_0, Nat.add_0_l. Qed.

Lemma mwrite_none (m : list Z) : mwrite m 0 [] = Ok m.
Proof. apply (mwrite_head []). apply zlen_nonneg. Qed.

(** Closes a decidable fact about closed values by evaluating it. *)
Ltac concrete :=
  repeat split; vm_compute; first [reflexivity | intros; discriminate].
