(* ===== verification/Ring.v ===== *)
(** Ring buffers: reading and writing a byte region that wraps around the end
    of an array, and the pieces (one [memcpy] or two) the queues do it in. *)
From S2P Require Import Prelude.

Section ring.
#[local] Open Scope nat_scope.
Context {A : Type}.
Implicit Types (m d : list A) (o n i j : nat).

(** Index [i] of an array of [n] cells, taken once round. *)
Definition wrap (n i : nat) : nat := if i <? n then i else i - n.

(** The [n] cells that start at [o]. *)
Definition ring_read m o n : list A := take n (drop o m ++ take o m).

(** The array after the cells that start at [o] are overwritten by [d]. *)
Definition ring_write m o d : list A :=
  if o + length d <=? length m
  then take o m ++ d ++ drop (o + length d) m
  else let k := length m - o in
       drop k d ++ drop (length d - k) (take o m) ++ take k d.

Lemma wrap_lt n i : i < n → wrap n i = i.
Proof. unfold wrap. destruct (Nat.ltb_spec i n); lia. Qed.
Lemma wrap_ge n i : n ≤ i → wrap n i = i - n.
Proof. unfold wrap. destruct (Nat.ltb_spec i n); lia. Qed.
Lemma wrap_bound n i : i < 2 * n → wrap n i < n.
Proof. unfold wrap. destruct (Nat.ltb_spec i n); lia. Qed.
Lemma wrap_mod n i : i < 2 * n → wrap n i = i mod n.
Proof.
  intros. unfold wrap. destruct (Nat.ltb_spec i n).
  - by rewrite Nat.mod_small.
  - replace i with (i - n + 1 * n) at 2 by lia.
    rewrite Nat.Div0.mod_add, Nat.mod_small; lia.
Qed.

Lemma length_ring_read m o n : n ≤ length m → length (ring_read m o n) = n.
Proof.
  intros. unfold ring_read.
  rewrite length_take, length_app, length_drop, length_take. lia.
Qed.

Lemma length_ring_write m o d :
  o ≤ length m → length d ≤ length m → length (ring_write m o d) = length m.
Proof.
  intros. unfold ring_write. destruct (Nat.leb_spec (o + length d) (length m));
    cbv zeta; repeat rewrite ?length_app, ?length_drop, ?length_take; lia.
Qed.

Lemma lookup_ring_read m o n i :
  o ≤ length m → n ≤ length m → i < n →
  ring_read m o n !! i = m !! wrap (length m) (o + i).
Proof.
  intros. unfold ring_read. rewrite lookup_take_lt by lia.
  destruct (decide (o + i < length m)).
  - rewrite wrap_lt, lookup_app_l, lookup_drop; rewrite ?length_drop; auto; lia.
  - rewrite wrap_ge, lookup_app_r, length_drop by (rewrite ?length_drop; lia).
    rewrite lookup_take_lt by lia. f_equal. lia.
Qed.

(** Position of cell [j] counted from [o]. *)
Definition ring_dist (n o j : nat) : nat := if o <=? j then j - o else j + n - o.

Lemma lookup_ring_write m o d j :
  o ≤ length m → length d ≤ length m → j < length m →
  ring_write m o d !! j =
    if ring_dist (length m) o j <? length d
    then d !! ring_dist (length m) o j else m !! j.
Proof.
  intros. unfold ring_write, ring_dist.
  destruct (Nat.leb_spec (o + length d) (length m)), (Nat.leb_spec o j); cbv zeta;
  match goal with |- context [?x <? length d] => destruct (Nat.ltb_spec x (length d)) end;
  repeat first
    [ lia
    | rewrite lookup_app_l by (rewrite ?length_app, ?length_drop, ?length_take; lia)
    | rewrite lookup_app_r by (rewrite ?length_app, ?length_drop, ?length_take; lia)
    | rewrite lookup_drop | rewrite lookup_take_lt by lia
    | rewrite length_drop | rewrite length_take
    | progress f_equal ].
Qed.

(** Splits the boolean comparisons of a goal, then closes a goal that two
    lookups agree by showing they read the same index of the same list. *)
Ltac if_free t :=
  lazymatch t with context [if _ then _ else _] => fail | _ => idtac end.

Ltac ring_cases :=
  unfold ring_dist, wrap in *;
  repeat match goal with
  | |- context [Nat.ltb ?x ?y] => if_free x; destruct (Nat.ltb_spec x y)
  | |- context [Nat.leb ?x ?y] => if_free y; destruct (Nat.leb_spec x y)
  end; try lia.

Ltac same_cell :=
  repeat first [rewrite lookup_app_l by lia | rewrite lookup_app_r by lia];
  intros;
  match goal with
  | H1 : ?a = Some ?x, H2 : ?b = Some ?y |- ?x = ?y =>
      enough (a = b) by congruence; f_equal; lia
  end.

Lemma ring_read_write m o d :
  o ≤ length m → length d ≤ length m →
  ring_read (ring_write m o d) o (length d) = d.
Proof.
  intros. apply list_eq_same_length with (length d);
    [done|by rewrite length_ring_read; rewrite ?length_ring_write|].
  intros i x y Hi. rewrite lookup_ring_read by (rewrite ?length_ring_write; lia).
  rewrite length_ring_write by lia.
  destruct (decide (o + i < length m)); rewrite ?wrap_lt, ?wrap_ge by lia;
    (rewrite lookup_ring_write by lia); ring_cases; same_cell.
Qed.

Lemma ring_read_write_disjoint m h n d :
  h < length m → n + length d ≤ length m →
  ring_read (ring_write m (wrap (length m) (h + n)) d) h n = ring_read m h n.
Proof.
  intros. assert (wrap (length m) (h + n) < length m) by (apply wrap_bound; lia).
  apply list_eq_same_length with n;
    [by rewrite length_ring_read by lia
    |by rewrite length_ring_read; rewrite ?length_ring_write; lia|].
  intros i x y Hi.
  rewrite !lookup_ring_read by (rewrite ?length_ring_write; lia).
  rewrite length_ring_write by lia.
  rewrite lookup_ring_write by (try apply wrap_bound; lia).
  ring_cases; same_cell.
Qed.

Lemma ring_read_app m o a b :
  o < length m → a + b ≤ length m →
  ring_read m o (a + b)
  = ring_read m o a ++ ring_read m (wrap (length m) (o + a)) b.
Proof.
  intros. assert (wrap (length m) (o + a) < length m) by (apply wrap_bound; lia).
  apply list_eq_same_length with (a + b);
    [by rewrite length_app, !length_ring_read; lia
    |by rewrite length_ring_read; lia|].
  intros i x y Hi. rewrite lookup_ring_read by lia.
  destruct (decide (i < a)).
  - rewrite lookup_app_l, lookup_ring_read by (rewrite ?length_ring_read; lia).
    same_cell.
  - rewrite lookup_app_r, lookup_ring_read by (rewrite ?length_ring_read; lia).
    rewrite length_ring_read by lia. ring_cases; same_cell.
Qed.

Lemma ring_write_app m o d e :
  o < length m → length d + length e ≤ length m →
  ring_write m o (d ++ e)
  = ring_write (ring_write m o d) (wrap (length m) (o + length d)) e.
Proof.
  intros. assert (wrap (length m) (o + length d) < length m) by (apply wrap_bound; lia).
  apply list_eq_same_length with (length m);
    [by rewrite !length_ring_write; rewrite ?length_ring_write; lia
    |by rewrite !length_ring_write; rewrite ?length_app; lia|].
  intros j x y Hj.
  rewrite !lookup_ring_write by (rewrite ?length_ring_write, ?length_app; lia).
  rewrite length_ring_write, length_app by lia.
  ring_cases; same_cell.
Qed.

Lemma ring_read_nil m o : ring_read m o 0 = [].
Proof. done. Qed.

Lemma ring_write_nil m o : o ≤ length m → ring_write m o [] = m.
Proof.
  intros. unfold ring_write. cbn. rewrite (proj2 (Nat.leb_le _ _)) by lia.
  by rewrite Nat.add_0_r, take_drop.
Qed.

Lemma ring_read_wrapped m n :
  ring_read m (length m) n = ring_read m 0 n.
Proof.
  unfold ring_read. rewrite drop_all, (take_ge m) by lia. cbn.
  by rewrite drop_0, app_nil_r.
Qed.

End ring.

(** * The same with the integer offsets of the code

    [o] is an offset below the size of the region, [(o + n) mod size] the
    offset [n] cells further. *)
Section zring.
Context {A : Type}.
Implicit Types (m d e : list A) (o n a b h : Z).

Definition rget m o n : list A := ring_read m (Z.to_nat o) (Z.to_nat n).
Definition rput m o d : list A := ring_write m (Z.to_nat o) d.

Lemma wrap_to_nat N o n :
  0 ≤ o < N → 0 ≤ n ≤ N →
  wrap (Z.to_nat N) (Z.to_nat o + Z.to_nat n) = Z.to_nat ((o + n) mod N).
Proof.
  intros. unfold wrap. destruct (Nat.ltb_spec (Z.to_nat o + Z.to_nat n) (Z.to_nat N)).
  - rewrite Z.mod_small; lia.
  - replace (o + n) with (o + n - N + 1 * N) by lia.
    rewrite Z.mod_add, Z.mod_small; lia.
Qed.

Lemma zlen_rget m o n : 0 ≤ n ≤ zlen m → zlen (rget m o n) = n.
Proof. unfold zlen, rget. intros. rewrite length_ring_read; lia. Qed.

Lemma zlen_rput m o d :
  0 ≤ o ≤ zlen m → zlen d ≤ zlen m → zlen (rput m o d) = zlen m.
Proof. unfold zlen, rput. intros. rewrite length_ring_write; lia. Qed.

Lemma rget_app m o a b :
  0 ≤ o < zlen m → 0 ≤ a → 0 ≤ b → a + b ≤ zlen m →
  rget m o (a + b) = rget m o a ++ rget m ((o + a) mod zlen m) b.
Proof.
  intros. unfold rget. rewrite Z2Nat.inj_add, ring_read_app; unfold zlen in *; try lia.
  rewrite <- wrap_to_nat, Nat2Z.id by lia. done.
Qed.

Lemma rput_app m o d e :
  0 ≤ o < zlen m → zlen d + zlen e ≤ zlen m →
  rput m o (d ++ e) = rput (rput m o d) ((o + zlen d) mod zlen m) e.
Proof.
  intros. unfold rput. rewrite ring_write_app; unfold zlen in *; try lia.
  rewrite <- wrap_to_nat, !Nat2Z.id by lia. done.
Qed.

(** The same two, for an offset [o'] the caller has worked out. *)
Lemma mod_once N x y :
  0 ≤ y < N → x = y ∨ x = y + N ∨ x = y - N → x mod N = y.
Proof.
  intros ? [->|[->| ->]]; [by rewrite Z.mod_small by lia| |].
  - replace (y + N) with (y + 1 * N) by lia.
    by rewrite Z.mod_add, Z.mod_small by lia.
  - replace (y - N) with (y + (-1) * N) by lia.
    by rewrite Z.mod_add, Z.mod_small by lia.
Qed.

Lemma mod_cases N x :
  0 ≤ x < 2 * N → x mod N = x ∧ x < N ∨ x mod N = x - N ∧ N ≤ x.
Proof.
  intros. destruct (Z.lt_ge_cases x N); [left|right]; split; auto; apply mod_once; lia.
Qed.

Lemma rget_app_at m o o' a b :
  0 ≤ o < zlen m → 0 ≤ o' < zlen m → o + a = o' ∨ o + a = o' + zlen m →
  0 ≤ a → 0 ≤ b → a + b ≤ zlen m →
  rget m o (a + b) = rget m o a ++ rget m o' b.
Proof.
  intros. rewrite rget_app by lia. do 2 f_equal. apply mod_once; lia.
Qed.

Lemma rget_split m o n :
  0 ≤ o < zlen m → zlen m - o ≤ n ≤ zlen m →
  rget m o n = rget m o (zlen m - o) ++ rget m 0 (n - (zlen m - o)).
Proof. intros. rewrite <- (rget_app_at m o 0) by lia. f_equal. lia. Qed.

Lemma rput_app_at m o o' d e :
  0 ≤ o < zlen m → 0 ≤ o' < zlen m →
  o + zlen d = o' ∨ o + zlen d = o' + zlen m → zlen d + zlen e ≤ zlen m →
  rput m o (d ++ e) = rput (rput m o d) o' e.
Proof.
  intros. rewrite rput_app by lia. f_equal. apply mod_once; lia.
Qed.

Lemma rget_rput m o d :
  0 ≤ o ≤ zlen m → zlen d ≤ zlen m → rget (rput m o d) o (zlen d) = d.
Proof. unfold rget, rput, zlen. intros. rewrite Nat2Z.id. apply ring_read_write; lia. Qed.

Lemma rget_rput_disjoint m h n d :
  0 ≤ h < zlen m → 0 ≤ n → n + zlen d ≤ zlen m →
  rget (rput m ((h + n) mod zlen m) d) h n = rget m h n.
Proof.
  intros. unfold rget, rput, zlen in *.
  rewrite <- wrap_to_nat, Nat2Z.id by lia.
  apply ring_read_write_disjoint; lia.
Qed.

Lemma rget_0 m o : rget m o 0 = [].
Proof. done. Qed.
Lemma rput_nil m o : 0 ≤ o ≤ zlen m → rput m o [] = m.
Proof. intros. apply ring_write_nil. unfold zlen in *. lia. Qed.

Lemma rget_end m n : rget m (zlen m) n = rget m 0 n.
Proof. unfold rget, zlen. rewrite Nat2Z.id. apply ring_read_wrapped. Qed.

(** A region that does not wrap is what one [memcpy] reads or writes. *)
Lemma mread_rget m o n :
  0 ≤ o → 0 ≤ n → o + n ≤ zlen m → mread m o n = Ok (rget m o n).
Proof.
  intros. rewrite mread_ok by done. unfold rget, ring_read, zlen in *. f_equal.
  by rewrite take_app_le by (rewrite length_drop; lia).
Qed.

Lemma mwrite_rput m o d :
  0 ≤ o → o + zlen d ≤ zlen m → mwrite m o d = Ok (rput m o d).
Proof.
  intros. rewrite mwrite_ok by done. unfold rput, ring_write, zlen in *.
  by rewrite (proj2 (Nat.leb_le _ _)) by lia.
Qed.

(** Likewise for [memcpy] from all or part of a source object. *)
Lemma memcpy_rput m o d :
  0 ≤ o → o + zlen d ≤ zlen m → memcpy m o d 0 (zlen d) = Ok (rput m o d).
Proof. intros. unfold memcpy. rewrite mread_all. by apply mwrite_rput. Qed.

Lemma memcpy_fault (m d : list A) o s n :
  0 ≤ o → zlen m < o + n → memcpy m o d s n = Fault.
Proof.
  intros. unfold memcpy, mread. destruct (in_bounds d s n) eqn:E; cbn; [|done].
  apply in_bounds_spec in E. unfold mwrite.
  destruct (in_bounds m o _) eqn:E'; [|done]. apply in_bounds_spec in E'.
  rewrite zlen_take, zlen_drop in E' by lia. lia.
Qed.

Lemma memcpy_app_l m o d e n :
  n = zlen d → 0 ≤ o → o + zlen d ≤ zlen m →
  memcpy m o (d ++ e) 0 n = Ok (rput m o d).
Proof.
  intros -> ? ?. unfold memcpy. pose proof (zlen_nonneg e).
  rewrite mread_ok by (rewrite ?zlen_app; unfold zlen; lia). cbn.
  unfold zlen at 1. rewrite Nat2Z.id, drop_0, take_app_length. by apply mwrite_rput.
Qed.

Lemma memcpy_app_r m o d e s n :
  s = zlen d → n = zlen e → 0 ≤ o → o + zlen e ≤ zlen m →
  memcpy m o (d ++ e) s n = Ok (rput m o e).
Proof.
  intros -> -> ? ?. unfold memcpy.
  rewrite mread_ok by (rewrite ?zlen_app; unfold zlen; lia). cbn.
  unfold zlen at 1 2. rewrite !Nat2Z.id, drop_app_length, take_ge by lia.
  by apply mwrite_rput.
Qed.

Lemma memcpy_len (m d m' : list A) o s n :
  memcpy m o d s n = Ok m' → zlen m' = zlen m.
Proof.
  unfold memcpy. destruct (mread d s n) as [x| |]; cbn; [|done..].
  unfold mwrite. destruct (in_bounds m o (zlen x)) eqn:E; [|done].
  apply in_bounds_spec in E. intros [= <-]. unfold zlen in *.
  rewrite !length_app, length_take, length_drop. lia.
Qed.

Lemma memcpy_not_spin (m d : list A) o s n : memcpy m o d s n ≠ Spin.
Proof.
  unfold memcpy, mread, mwrite. destruct (in_bounds d s n); cbn; [|done].
  by destruct (in_bounds m o _).
Qed.

(** A write at [o], in one piece if [left] cells remain there and else in two,
    and the read that undoes it.  After a write that ends exactly at the end of
    the array the code goes on at 0 with nothing left, which is as good. *)
Definition wrap_left m o left : Prop :=
  0 ≤ o < zlen m ∧ (left = zlen m - o ∨ o = 0 ∧ left = 0).

Lemma memcpy_wrap m o left d :
  wrap_left m o left → zlen d ≤ zlen m →
  (if zlen d <=? left then memcpy m o d 0 (zlen d)
   else m' ← memcpy m o d 0 left; memcpy m' 0 d left (zlen d - left))
  = Ok (rput m o d).
Proof.
  intros [? Hl] ?. pose proof (zlen_nonneg d). destruct (Z.leb_spec (zlen d) left).
  { apply memcpy_rput; lia. }
  destruct Hl as [-> | [-> ->]].
  - destruct (split_at d (zlen m - o)) as (d1 & d2 & -> & ? & ?); [lia|].
    rewrite zlen_app in *. rewrite memcpy_app_l by lia. cbn.
    rewrite memcpy_app_r by (rewrite ?zlen_rput; lia).
    by rewrite (rput_app_at m o 0) by lia.
  - pose proof (memcpy_app_l m 0 [] d 0) as He. pose proof (zlen_nil (A := A)).
    rewrite app_nil_l in He. rewrite He by lia. cbn. rewrite rput_nil, Z.sub_0_r by lia. apply memcpy_rput; lia.
Qed.

Lemma mread_wrap m o left n :
  wrap_left m o left → 0 ≤ n ≤ zlen m →
  (if n <=? left then mread m o n
   else d1 ← mread m o left; d2 ← mread m 0 (n - left); Ok (d1 ++ d2))
  = Ok (rget m o n).
Proof.
  intros [? Hl] ?. destruct (Z.leb_spec n left); [apply mread_rget; lia|].
  destruct Hl as [-> | [-> ->]]; rewrite !mread_rget by lia; cbn.
  - by rewrite <- rget_split by lia.
  - by rewrite Z.sub_0_r, rget_0.
Qed.

(** Forgetting the first [a] cells of a region. *)
Lemma rget_drop m o a n :
  0 ≤ o < zlen m → 0 ≤ a ≤ n → n ≤ zlen m →
  rget m ((o + a) mod zlen m) (n - a) = drop (Z.to_nat a) (rget m o n).
Proof.
  intros. replace n with (a + (n - a)) at 2 by lia. rewrite rget_app by lia.
  rewrite drop_app_length'; [done|].
  unfold rget, zlen in *. rewrite length_ring_read; lia.
Qed.

Lemma rget_take m o a n :
  0 ≤ o < zlen m → 0 ≤ a ≤ n → n ≤ zlen m →
  rget m o a = take (Z.to_nat a) (rget m o n).
Proof.
  intros. replace n with (a + (n - a)) by lia. rewrite rget_app by lia.
  rewrite take_app_length'; [done|].
  unfold rget, zlen in *. rewrite length_ring_read; lia.
Qed.

End zring.

(** Linear arithmetic over the lengths of written and read regions. *)
Ltac ring_lia :=
  autorewrite with zlen;
  repeat (rewrite zlen_rput by ring_lia);
  repeat (rewrite zlen_rget by ring_lia);
  lia.
