(* ===== verification/Fifo.v ===== *)
(** What a message queue promises its clients: a FIFO of byte strings with a
    bound on what it holds.  [CShmQueue] and [CMmapQueue] are instances; the
    router and the deduplicating queue are proved against this interface. *)
From S2P Require Import Prelude.

(** The calls of a queue whose locks can be taken: [q_in q pData uiDataLen] is
    the queue afterwards and the result, [q_out q len] adds the reported
    length and the bytes copied out. *)
Class FifoOps (Q : Type) : Type := {
  q_in : Q → list Z → Z → outcome (Q * Z);
  q_out : Q → Z → outcome (Q * Z * Z * list Z);
}.

Definition Q_OK : Z := 0.
Definition Q_FULL : Z := -604.
Definition Q_EMPTY : Z := -605.

(** [q_rep q ms]: [q] holds [ms], oldest first.  [q_cap] is what a call never
    changes, [q_fits] tells whether a message is let in. *)
Class FifoQueue (Q : Type) `{FifoOps Q} : Type := {
  q_rep : Q → list (list Z) → Prop;
  q_cap : Q → Z;
  q_max : Z;
  q_fits : Z → list (list Z) → list Z → bool;
  q_in_fits q ms d :
    q_rep q ms → 0 < zlen d ≤ q_max → q_fits (q_cap q) ms d = true →
    ∃ q', q_in q d (zlen d) = Ok (q', Q_OK) ∧ q_rep q' (ms ++ [d]) ∧ q_cap q' = q_cap q;
  q_in_full q ms d :
    q_rep q ms → 0 < zlen d ≤ q_max → q_fits (q_cap q) ms d = false →
    ∃ q', q_in q d (zlen d) = Ok (q', Q_FULL) ∧ q_rep q' ms ∧ q_cap q' = q_cap q;
  q_out_empty q n :
    q_rep q [] → 0 < n →
    ∃ q' m, q_out q n = Ok (q', Q_EMPTY, m, []) ∧ q_rep q' [] ∧ q_cap q' = q_cap q;
  q_out_ok q d ms n :
    q_rep q (d :: ms) → zlen d ≤ n < 2 ^ 31 →
    ∃ q', q_out q n = Ok (q', Q_OK, zlen d, d) ∧ q_rep q' ms ∧ q_cap q' = q_cap q;
  q_rep_bounds q ms : q_rep q ms → Forall (λ d, 0 < zlen d ≤ q_max) ms;
}.

(** * Histories of calls *)
Inductive q_call : Type :=
  | CallIn (d : list Z)
  | CallOut (n : Z).

Inductive q_reply : Type :=
  | ReplyIn (ret : Z)
  | ReplyOut (ret : Z) (d : list Z).

Section history.
Context {Q : Type} `{FifoQueue Q}.
Implicit Types (q : Q) (ms : list (list Z)) (cs : list q_call).

Fixpoint q_run q cs : outcome (Q * list q_reply) :=
  match cs with
  | [] => Ok (q, [])
  | CallIn d :: cs =>
      '(q, r) ← q_in q d (zlen d);
      '(q, rs) ← q_run q cs; Ok (q, ReplyIn r :: rs)
  | CallOut n :: cs =>
      '(q, r, _, d) ← q_out q n;
      '(q, rs) ← q_run q cs; Ok (q, ReplyOut r d :: rs)
  end.

(** The same history on a plain list of messages. *)
Fixpoint spec_run (cap : Z) ms cs : list (list Z) * list q_reply :=
  match cs with
  | [] => (ms, [])
  | CallIn d :: cs =>
      if q_fits cap ms d then
        let '(ms, rs) := spec_run cap (ms ++ [d]) cs in (ms, ReplyIn Q_OK :: rs)
      else let '(ms, rs) := spec_run cap ms cs in (ms, ReplyIn Q_FULL :: rs)
  | CallOut n :: cs =>
      match ms with
      | [] => let '(ms, rs) := spec_run cap [] cs in (ms, ReplyOut Q_EMPTY [] :: rs)
      | d :: ms => let '(ms, rs) := spec_run cap ms cs in (ms, ReplyOut Q_OK d :: rs)
      end
  end.

(** Calls the interface covers: nonempty messages within the limit, and
    buffers that hold any message. *)
Definition call_ok (c : q_call) : Prop :=
  match c with
  | CallIn d => 0 < zlen d ≤ q_max
  | CallOut n => 0 < n < 2 ^ 31 ∧ q_max ≤ n
  end.

Lemma q_run_spec q ms cs :
  q_rep q ms → Forall call_ok cs →
  ∃ q', q_run q cs = Ok (q', (spec_run (q_cap q) ms cs).2) ∧
        q_rep q' (spec_run (q_cap q) ms cs).1 ∧ q_cap q' = q_cap q.
Proof.
  revert q ms. induction cs as [|c cs IH]; intros q ms Hr Hcs; [by exists q|].
  apply Forall_cons in Hcs as [Hc Hcs]. destruct c as [d|n]; cbn in *.
  - destruct (q_fits (q_cap q) ms d) eqn:Hf.
    + destruct (q_in_fits q ms d) as (q1 & -> & Hr1 & <-); [done..|]. cbn.
      destruct (IH _ _ Hr1 Hcs) as (q2 & -> & ? & ?).
      destruct (spec_run _ _ cs). cbn in *. eauto.
    + destruct (q_in_full q ms d) as (q1 & -> & Hr1 & <-); [done..|]. cbn.
      destruct (IH _ _ Hr1 Hcs) as (q2 & -> & ? & ?).
      destruct (spec_run _ _ cs). cbn in *. eauto.
  - destruct ms as [|d ms].
    + destruct (q_out_empty q n) as (q1 & m & -> & Hr1 & <-); [done|lia|]. cbn.
      destruct (IH _ _ Hr1 Hcs) as (q2 & -> & ? & ?).
      destruct (spec_run _ _ cs). cbn in *. eauto.
    + pose proof (q_rep_bounds _ _ Hr) as [? _]%Forall_cons.
      destruct (q_out_ok q d ms n) as (q1 & -> & Hr1 & <-); [done|lia|]. cbn.
      destruct (IH _ _ Hr1 Hcs) as (q2 & -> & ? & ?).
      destruct (spec_run _ _ cs). cbn in *. eauto.
Qed.

(** Messages a history let in, and messages it handed out. *)
Fixpoint accepted cs (rs : list q_reply) : list (list Z) :=
  match cs, rs with
  | CallIn d :: cs, ReplyIn r :: rs => (if r =? Q_OK then [d] else []) ++ accepted cs rs
  | CallOut _ :: cs, _ :: rs => accepted cs rs
  | _, _ => []
  end.

Fixpoint delivered (rs : list q_reply) : list (list Z) :=
  match rs with
  | ReplyOut r d :: rs => (if r =? Q_OK then [d] else []) ++ delivered rs
  | ReplyIn _ :: rs => delivered rs
  | [] => []
  end.

Lemma spec_run_fifo cap ms cs :
  ms ++ accepted cs (spec_run cap ms cs).2
  = delivered (spec_run cap ms cs).2 ++ (spec_run cap ms cs).1.
Proof.
  revert ms. induction cs as [|c cs IH]; intros ms; [by rewrite app_nil_r|].
  destruct c as [d|n]; cbn.
  - destruct (q_fits cap ms d).
    + specialize (IH (ms ++ [d])). destruct (spec_run cap (ms ++ [d]) cs). cbn in *.
      by rewrite <- IH, <- app_assoc.
    + specialize (IH ms). by destruct (spec_run cap ms cs).
  - destruct ms as [|d ms].
    + specialize (IH []). by destruct (spec_run cap [] cs).
    + specialize (IH ms). destruct (spec_run cap ms cs). cbn in *. by rewrite IH.
Qed.

(** Whatever is called in whatever order, the messages handed out are the
    messages let in, in that order, and the rest is still in the queue. *)
Lemma q_run_fifo q ms cs :
  q_rep q ms → Forall call_ok cs →
  ∃ q' rs left, q_run q cs = Ok (q', rs) ∧ q_rep q' left ∧
    ms ++ accepted cs rs = delivered rs ++ left.
Proof.
  intros Hr Hcs. destruct (q_run_spec q ms cs Hr Hcs) as (q' & ? & ? & _).
  eexists _, _, _. split_and!; [done..|]. apply spec_run_fifo.
Qed.
End history.
