(* ===== verification/ShmQueue.v ===== *)
(** [CShmQueue] (mmlib/shm_queue): a ring of length-prefixed messages in a
    shared memory segment.

    The data region [m_pQueueDataStart .. m_pQueueDataEnd) is the list
    [m_pQueueData]; [uiHead] and [uiTail] are offsets into it.  Every [memcpy]
    of the code is a [memcpy] of the model, so that leaving the region is a
    [Fault].  A semaphore call is a parameter: [lock_ret] is what
    [CSemLockPro::lock] returns. *)
From S2P Require Import Prelude Ring Fifo.

Module CShmQueue.

Definition SUCCESS : Z := 0.
Definition E_SHM_QUEUE_SEMINIT : Z := -601.
Definition E_SHM_QUEUE_AT_SHM : Z := -602.
Definition E_SHM_QUEUE_GET_SHM : Z := -603.
Definition E_SHM_QUEUE_FULL : Z := -604.
Definition E_SHM_QUEUE_EMPTY : Z := -605.
Definition E_SHM_QUEUE_DATALEN : Z := -606.
Definition E_SHM_QUEUE_INLOCK : Z := -607.
Definition E_SHM_QUEUE_OUTLOCK : Z := -608.
Definition E_SHM_QUEUE_PARAM : Z := -609.
Definition E_SHM_QUEUE_MALLOC : Z := -610.
Definition E_SHM_QUEUE_INQUEUE_LEN : Z := -611.

(** The object and the shared memory behind it.  [m_pMsgPeekBuf] is the
    buffer [MsgPeek] allocates for a message that wraps. *)
Record t : Type := mk {
  uiHead : Z;
  uiTail : Z;
  m_QueueDataSize : Z;
  m_pQueueData : list Z;
  m_pMsgPeekBuf : option (list Z);
}.

Definition set_head (q : t) (h : Z) : t :=
  mk h (uiTail q) (m_QueueDataSize q) (m_pQueueData q) (m_pMsgPeekBuf q).
Definition set_tail (q : t) (x : Z) : t :=
  mk (uiHead q) x (m_QueueDataSize q) (m_pQueueData q) (m_pMsgPeekBuf q).
Definition set_data (q : t) (m : list Z) : t :=
  mk (uiHead q) (uiTail q) (m_QueueDataSize q) m (m_pMsgPeekBuf q).
Definition set_peek (q : t) (b : option (list Z)) : t :=
  mk (uiHead q) (uiTail q) (m_QueueDataSize q) (m_pQueueData q) b.

(** The bytes of an [unsigned int] in memory. *)
Definition uint_bytes (x : Z) : list Z := le_enc 4 x.
Arguments uint_bytes : simpl never.

Definition FreeSpace (q : t) (head tail : Z) : Z :=
  if head <=? tail then u32 (m_QueueDataSize q - (tail - head) - 1)
  else u32 (head - tail - 1).

Definition UsedSpace (q : t) (head tail : Z) : Z :=
  if head <=? tail then u32 (tail - head)
  else u32 (m_QueueDataSize q - (head - tail)).

(** The compare-and-swap always succeeds here: only the holder of the lock
    for its end of the queue moves an offset. *)
Definition AddOffset (q : t) (poffset size : Z) : outcome Z :=
  umod (u32 (poffset + size)) (m_QueueDataSize q).

Definition AddHead (q : t) (size : Z) : outcome t :=
  h ← AddOffset q (uiHead q) size; Ok (set_head q h).

Definition AddTail (q : t) (size : Z) : outcome t :=
  x ← AddOffset q (uiTail q) size; Ok (set_tail q x).

Definition CopyDataInQueue (q : t) (pData : list Z) (uiDataLen offset : Z)
    : outcome t :=
  let end_free := u32 (m_QueueDataSize q - offset) in
  m ← (if 4 <=? end_free then
         m ← memcpy (m_pQueueData q) offset (uint_bytes uiDataLen) 0 4;
         let end_free := end_free - 4 in
         if uiDataLen <=? end_free then
           memcpy m (offset + 4) pData 0 uiDataLen
         else if 0 <? end_free then
           m ← memcpy m (offset + 4) pData 0 end_free;
           memcpy m 0 pData end_free (uiDataLen - end_free)
         else
           memcpy m 0 pData 0 uiDataLen
       else
         let remain_size := 4 - end_free in
         m ← memcpy (m_pQueueData q) offset (uint_bytes uiDataLen) 0 end_free;
         m ← memcpy m 0 (uint_bytes uiDataLen) end_free remain_size;
         memcpy m remain_size pData 0 uiDataLen);
  Ok (set_data q m).

(** [InQueue(pData, uiDataLen, lock)]: the queue afterwards and the result. *)
Definition InQueue (q : t) (pData : list Z) (uiDataLen : Z)
    (lock : bool) (lock_ret : Z) : outcome (t * Z) :=
  if lock && negb (lock_ret =? 0) then Ok (q, E_SHM_QUEUE_INLOCK) else
  if uiDataLen =? 0 then Ok (q, E_SHM_QUEUE_INQUEUE_LEN) else
  let node_size := u32 (uiDataLen + 4) in
  if FreeSpace q (uiHead q) (uiTail q) <? node_size then
    Ok (q, E_SHM_QUEUE_FULL)
  else
    q ← CopyDataInQueue q pData uiDataLen (uiTail q);
    q ← AddTail q node_size;
    Ok (q, SUCCESS).

(** The length word at [offset], and where the data after it starts and how
    many bytes of it lie before the end of the region. *)
Definition DataLen (q : t) (offset : Z) : outcome Z :=
  let end_used := u32 (m_QueueDataSize q - offset) in
  if 4 <=? end_used then
    l ← mread (m_pQueueData q) offset 4; Ok (le_dec l)
  else
    let remain_size := 4 - end_used in
    l1 ← mread (m_pQueueData q) offset end_used;
    l2 ← mread (m_pQueueData q) 0 remain_size;
    Ok (le_dec (l1 ++ l2)).

(** [CopyDataOutQueue(pData, &uiDataLen, offset)]: its result, the length it
    stores into [*uiDataLen] and the bytes it copies to [pData]. *)
Definition CopyDataOutQueue (q : t) (uiDataLen offset : Z)
    : outcome (Z * Z * list Z) :=
  let m := m_pQueueData q in
  let end_used := u32 (m_QueueDataSize q - offset) in
  '(len, p_data_start, end_used) ←
    (if 4 <=? end_used then
       l ← mread m offset 4;
       let end_used := end_used - 4 in
       Ok (le_dec l, if end_used =? 0 then 0 else offset + 4, end_used)
     else
       let remain_size := 4 - end_used in
       l1 ← mread m offset end_used;
       l2 ← mread m 0 remain_size;
       Ok (le_dec (l1 ++ l2), remain_size, 0));
  if uiDataLen <? len then Ok (E_SHM_QUEUE_DATALEN, len, [])
  else if len <=? end_used then
    d ← mread m p_data_start len; Ok (SUCCESS, len, d)
  else if 0 <? end_used then
    d1 ← mread m p_data_start end_used;
    d2 ← mread m 0 (len - end_used);
    Ok (SUCCESS, len, d1 ++ d2)
  else
    d ← mread m p_data_start len; Ok (SUCCESS, len, d).

(** What an [OutQueue] call leaves behind: the queue, the result, the value of
    [*uiDataLen] and the bytes written to [pData]. *)
Record out : Type := mk_out {
  o_queue : t; o_ret : Z; o_len : Z; o_data : list Z;
}.

(** [OutQueue(char *, unsigned int *, bool)]. *)
Definition OutQueue (q : t) (uiDataLen : Z) (lock : bool) (lock_ret : Z)
    : outcome out :=
  if lock && negb (lock_ret =? 0)
  then Ok (mk_out q E_SHM_QUEUE_OUTLOCK uiDataLen []) else
  let used_space := UsedSpace q (uiHead q) (uiTail q) in
  if used_space <? 4 then Ok (mk_out q E_SHM_QUEUE_EMPTY uiDataLen []) else
  '(iret, len, d) ← CopyDataOutQueue q uiDataLen (uiHead q);
  let need_add_head := u32 (len + 4) in
  if iret =? E_SHM_QUEUE_DATALEN then
    q ← AddHead q need_add_head; Ok (mk_out q iret len d)
  else
    q ← AddHead q need_add_head; Ok (mk_out q SUCCESS len d).

(** [OutQueue(char *, int *, bool)]: the length stays as it was on an error. *)
Definition OutQueueInt (q : t) (iDataLen : Z) (lock : bool) (lock_ret : Z)
    : outcome out :=
  if 0 <? iDataLen then
    r ← OutQueue q (u32 iDataLen) lock lock_ret;
    if negb (o_ret r =? 0) then Ok (mk_out (o_queue r) (o_ret r) iDataLen (o_data r))
    else Ok (mk_out (o_queue r) SUCCESS (i32 (o_len r)) (o_data r))
  else Ok (mk_out q E_SHM_QUEUE_PARAM iDataLen []).

(** Where [MsgPeek] points its caller: into the data region, or at the
    private copy of a message that wraps. *)
Inductive msg_ptr : Type :=
  | InQueuePtr (offset : Z)
  | InPeekBuf.

(** [MsgPeek(ppDate, piDataLen)]: the queue object, the result, [*ppDate] and
    [*piDataLen].  [malloc_ok] says whether [malloc] succeeds. *)
Definition MsgPeek (q : t) (malloc_ok : bool)
    : outcome (t * Z * option msg_ptr * Z) :=
  let m := m_pQueueData q in
  let head := uiHead q in
  if UsedSpace q head (uiTail q) <? 4 then Ok (q, E_SHM_QUEUE_EMPTY, None, 0) else
  let end_used := u32 (m_QueueDataSize q - head) in
  if 4 <=? end_used then
    l ← mread m head 4;
    let len := le_dec l in
    let end_used := end_used - 4 in
    if end_used =? 0 then Ok (q, SUCCESS, Some (InQueuePtr 0), len)
    else if end_used <? len then
      if negb malloc_ok then Ok (set_peek q None, E_SHM_QUEUE_MALLOC, None, len) else
      d1 ← mread m (head + 4) end_used;
      d2 ← mread m 0 (len - end_used);
      Ok (set_peek q (Some (d1 ++ d2)), SUCCESS, Some InPeekBuf, len)
    else Ok (q, SUCCESS, Some (InQueuePtr (head + 4)), len)
  else
    let remain_size := 4 - end_used in
    l1 ← mread m head end_used;
    l2 ← mread m 0 remain_size;
    Ok (q, SUCCESS, Some (InQueuePtr remain_size), le_dec (l1 ++ l2)).

(** The bytes a caller of [MsgPeek] reads through the pointer it got. *)
Definition peek_bytes (q : t) (p : msg_ptr) (len : Z) : outcome (list Z) :=
  match p, m_pMsgPeekBuf q with
  | InQueuePtr offset, _ => mread (m_pQueueData q) offset len
  | InPeekBuf, Some b => mread b 0 len
  | InPeekBuf, None => Fault
  end.

Definition ReleaseMsg (q : t) : outcome t :=
  if UsedSpace q (uiHead q) (uiTail q) <? 4 then Ok q else
  len ← DataLen q (uiHead q);
  q ← AddHead q (u32 (len + 4));
  Ok (set_peek q None).

(** The loop of [GetNum]; a message takes at least five bytes, so the size of
    the region is fuel enough. *)
Fixpoint GetNum_loop (fuel : nat) (q : t) (offset_head num : Z) : outcome Z :=
  if UsedSpace q offset_head (uiTail q) <? 4 then Ok num else
  match fuel with
  | O => Spin
  | S fuel =>
      len ← DataLen q offset_head;
      o ← AddOffset q offset_head (u32 (len + 4));
      GetNum_loop fuel q o (num + 1)
  end.

Definition GetNum (q : t) : outcome Z :=
  GetNum_loop (Z.to_nat (m_QueueDataSize q)) q (uiHead q) 0.

(** The data of the message at [offset_head], as [GetAllQueueData] takes it. *)
Definition MsgAt (q : t) (offset_head len : Z) : outcome (list Z) :=
  let m := m_pQueueData q in
  if offset_head + 4 + len <=? m_QueueDataSize q then
    mread m (offset_head + 4) len
  else if offset_head + 4 <? m_QueueDataSize q then
    let end_len := u32 (m_QueueDataSize q - offset_head - 4) in
    d1 ← mread m (offset_head + 4) end_len;
    d2 ← mread m 0 (u32 (len - end_len));
    Ok (d1 ++ d2)
  else
    let start_len := u32 (4 - (m_QueueDataSize q - offset_head)) in
    mread m start_len len.

Fixpoint GetAll_loop (fuel : nat) (q : t) (offset_head : Z)
    (vsAllData : list (list Z)) : outcome (list (list Z)) :=
  if UsedSpace q offset_head (uiTail q) <? 4 then Ok vsAllData else
  match fuel with
  | O => Spin
  | S fuel =>
      len ← DataLen q offset_head;
      str ← MsgAt q offset_head len;
      o ← AddOffset q offset_head (u32 (len + 4));
      GetAll_loop fuel q o (vsAllData ++ [str])
  end.

(** [GetAllQueueData(vsAllData)] takes both locks; [in_ret] and [out_ret] are
    what the two [lock] calls return. *)
Definition GetAllQueueData (q : t) (in_ret out_ret : Z) (vsAllData : list (list Z))
    : outcome (Z * list (list Z)) :=
  if negb (in_ret =? 0) then Ok (E_SHM_QUEUE_INLOCK, vsAllData) else
  if negb (out_ret =? 0) then Ok (E_SHM_QUEUE_INLOCK, vsAllData) else
  v ← GetAll_loop (Z.to_nat (m_QueueDataSize q)) q (uiHead q) vsAllData;
  Ok (SUCCESS, v).

(** [GetHeadTail(head, tail, len, data_len)]. *)
Definition GetHeadTail (q : t) : outcome (Z * Z * Z * Z) :=
  len ← DataLen q (uiHead q);
  Ok (uiHead q, uiTail q, m_QueueDataSize q, len).

Definition Clean (q : t) : t := set_tail (set_head q 0) 0.

Definition UsedSpaceInternal (q : t) : Z :=
  if uiHead q <=? uiTail q then u32 (uiTail q - uiHead q)
  else u32 (m_QueueDataSize q - (uiHead q - uiTail q)).

Definition TotalSpaceInternal (q : t) : Z := m_QueueDataSize q.

(** [CShareMem]'s results for [Create]. *)
Definition SHM_EXIST : Z := 1.

(** [Init(aiShmKey, aiSize)] on an object [q]: [create_ret], [attach_ret] and
    [sem_ret] are the results of [CShareMem::Create], [CShareMem::Attach] and
    [CSemLockPro::creat], [seg] the bytes of the attached segment. *)
Definition Init (q : t) (create_ret attach_ret sem_ret : Z) (seg : list Z)
    (aiSize : Z) : outcome (t * Z) :=
  let size := Z.abs aiSize in
  if negb (create_ret =? SHM_EXIST) && negb (create_ret =? 0) then
    Ok (q, E_SHM_QUEUE_GET_SHM)
  else if negb (attach_ret =? 0) then Ok (q, E_SHM_QUEUE_AT_SHM)
  else
    hd ← (if create_ret =? SHM_EXIST then mread seg 0 4 else Ok (uint_bytes 0));
    tl ← (if create_ret =? SHM_EXIST then mread seg 4 4 else Ok (uint_bytes 0));
    data ← mread seg 8 (size - 8);
    let q := mk (le_dec hd) (le_dec tl) (u32 (size - 8)) data (m_pMsgPeekBuf q) in
    if negb (sem_ret =? 0) then Ok (q, E_SHM_QUEUE_SEMINIT) else Ok (q, SUCCESS).

Arguments InQueue : simpl never.
Arguments GetAllQueueData : simpl never.
Arguments GetNum : simpl never.
Arguments MsgPeek : simpl never.
Arguments OutQueue : simpl never.
Arguments OutQueueInt : simpl never.
Arguments CopyDataInQueue : simpl never.
Arguments CopyDataOutQueue : simpl never.

End CShmQueue.

(** Two messages through a region of sixteen bytes; the second one wraps. *)
Module CShmQueueExample.
Import CShmQueue.
Definition q0 : t := mk 9 9 16 (replicate 16 0) None.
Definition q2 : outcome t :=
  '(q, _) ← InQueue q0 [1; 2] 2 true 0;
  '(q, _) ← InQueue q [7; 8; 9] 3 true 0; Ok q.
Example q2_all : (q ← q2; GetAllQueueData q 0 0 []) = Ok (0, [[1; 2]; [7; 8; 9]]).
Proof. reflexivity. Qed.
Example q2_full : (q ← q2; '(_, r) ← InQueue q [1] 1 true 0; Ok r) = Ok E_SHM_QUEUE_FULL.
Proof. reflexivity. Qed.
(** The state [q2] computes to. *)
Definition q_wrapped : t :=
  mk 9 6 16 [0; 0; 0; 7; 8; 9; 0; 0; 0; 2; 0; 0; 0; 1; 2; 3] None.
Example q2_wrapped : q2 = Ok q_wrapped.
Proof. reflexivity. Qed.
End CShmQueueExample.
(** * The queue as a FIFO of byte strings *)
Section facts.
Import CShmQueue.
Implicit Types (q : CShmQueue.t) (d : list Z) (ms : list (list Z)).

(** A message as it lies in the ring. *)
Definition frame d : list Z := uint_bytes (zlen d) ++ d.
Definition frames ms : list Z := concat (frame <$> ms).

(** The bytes between head and tail. *)
Definition used q : Z := (uiTail q - uiHead q) mod m_QueueDataSize q.

(** [Init] makes regions below 2^31 bytes, as its size is an [int]. *)
Record wf q : Prop := {
  wf_size : m_QueueDataSize q = zlen (m_pQueueData q);
  wf_pos : 0 < zlen (m_pQueueData q) < 2 ^ 31;
  wf_head : 0 ≤ uiHead q < zlen (m_pQueueData q);
  wf_tail : 0 ≤ uiTail q < zlen (m_pQueueData q);
}.

(** [rep q ms]: the queue holds the messages [ms], oldest first. *)
Record rep q ms : Prop := {
  rep_wf : wf q;
  rep_pos : Forall (λ d, 0 < zlen d) ms;
  rep_used : used q = zlen (frames ms);
  rep_data : rget (m_pQueueData q) (uiHead q) (used q) = frames ms;
}.

Lemma sub_mod_cases N t h :
  0 ≤ t < N → 0 ≤ h < N →
  (t - h) mod N = if h <=? t then t - h else N - (h - t).
Proof. intros. destruct (Z.leb_spec h t); apply mod_once; lia. Qed.

Lemma UsedSpace_mod q h t :
  wf q → 0 ≤ h < zlen (m_pQueueData q) → 0 ≤ t < zlen (m_pQueueData q) →
  UsedSpace q h t = (t - h) mod m_QueueDataSize q.
Proof.
  intros [Hs ? _ _] ? ?. unfold UsedSpace. rewrite Hs, sub_mod_cases by lia.
  destruct (Z.leb_spec h t); rewrite u32_small; lia.
Qed.

Lemma FreeSpace_mod q h t :
  wf q → 0 ≤ h < zlen (m_pQueueData q) → 0 ≤ t < zlen (m_pQueueData q) →
  FreeSpace q h t = m_QueueDataSize q - 1 - (t - h) mod m_QueueDataSize q.
Proof.
  intros [Hs ? _ _] ? ?. unfold FreeSpace. rewrite Hs, sub_mod_cases by lia.
  destruct (Z.leb_spec h t); rewrite u32_small; lia.
Qed.

Lemma used_bounds q : wf q → 0 ≤ used q < zlen (m_pQueueData q).
Proof. intros [Hs ? _ _]. unfold used. rewrite Hs. apply Z.mod_pos_bound. lia. Qed.

Lemma AddOffset_mod q o n :
  wf q → 0 ≤ o < zlen (m_pQueueData q) → 0 ≤ n ≤ zlen (m_pQueueData q) →
  AddOffset q o n = Ok ((o + n) mod zlen (m_pQueueData q)).
Proof.
  intros [Hs ? _ _] ? ?. unfold AddOffset. rewrite u32_small, Hs, umod_pos by lia.
  done.
Qed.

Lemma zlen_uint_bytes x : zlen (uint_bytes x) = 4.
Proof. apply zlen_le_enc. Qed.
Lemma zlen_frame d : zlen (frame d) = 4 + zlen d.
Proof. unfold frame. by rewrite zlen_app, zlen_uint_bytes. Qed.
Lemma frames_cons d ms : frames (d :: ms) = frame d ++ frames ms.
Proof. done. Qed.
Lemma frames_snoc d ms : frames (ms ++ [d]) = frames ms ++ frame d.
Proof. unfold frames. by rewrite fmap_app, concat_app; cbn; rewrite app_nil_r. Qed.

(** [CopyDataInQueue] writes the frame of a message, wherever it wraps. *)
Lemma CopyDataInQueue_frame q d o :
  wf q → 0 ≤ o < zlen (m_pQueueData q) → 0 < zlen d →
  4 + zlen d ≤ zlen (m_pQueueData q) →
  CopyDataInQueue q d (zlen d) o
  = Ok (set_data q (rput (m_pQueueData q) o (frame d))).
Proof.
  destruct q as [hd tl N m pk]; intros [Hs ? _ _] ? ? ?; cbn in *; subst N.
  unfold CopyDataInQueue; cbn. rewrite u32_small by lia.
  pose proof (zlen_uint_bytes (zlen d)) as Hu. unfold frame.
  generalize dependent (uint_bytes (zlen d)). intros w Hu.
  destruct (Z.leb_spec 4 (zlen m - o)).
  - rewrite <- Hu, memcpy_rput, Hu by lia; cbn.
    destruct (Z.leb_spec (zlen d) (zlen m - o - 4));
      [|destruct (Z.ltb_spec 0 (zlen m - o - 4))].
    + rewrite memcpy_rput by ring_lia. cbn.
      by rewrite (rput_app_at m o (o + 4)) by lia.
    + destruct (split_at d (zlen m - o - 4)) as (d1 & d2 & -> & ? & ?); [lia|].
      rewrite zlen_app in *.
      rewrite memcpy_app_l by ring_lia. cbn.
      rewrite memcpy_app_r by ring_lia. cbn.
      by rewrite (rput_app_at m o (o + 4)), (rput_app_at (rput m o w) _ 0)
        by ring_lia.
    + rewrite memcpy_rput by ring_lia. cbn.
      by rewrite (rput_app_at m o 0) by lia.
  - destruct (split_at w (zlen m - o)) as (w1 & w2 & -> & ? & ?); [lia|].
    rewrite zlen_app in *.
    rewrite memcpy_app_l by ring_lia. cbn.
    rewrite memcpy_app_r by ring_lia. cbn.
    rewrite memcpy_rput by ring_lia. cbn.
    by rewrite <- app_assoc, (rput_app_at m o 0), (rput_app_at (rput m o w1) _ (4 - (zlen m - o)))
        by ring_lia.
Qed.

(** What lies at [o]: the frame of [d], perhaps around the end. *)
Record frame_at q (o : Z) d : Prop := {
  fa_wf : wf q;
  fa_off : 0 ≤ o < zlen (m_pQueueData q);
  fa_pos : 0 < zlen d;
  fa_room : 4 + zlen d ≤ zlen (m_pQueueData q);
  fa_len : rget (m_pQueueData q) o 4 = uint_bytes (zlen d);
  fa_data : rget (m_pQueueData q) ((o + 4) mod zlen (m_pQueueData q)) (zlen d) = d;
}.

Lemma frame_at_intro q o n d rest :
  wf q → 0 ≤ o < zlen (m_pQueueData q) → 0 < zlen d → n ≤ zlen (m_pQueueData q) →
  n = zlen (frame d ++ rest) → rget (m_pQueueData q) o n = frame d ++ rest →
  frame_at q o d.
Proof.
  intros Hwf ? ? ? Hn Hr. rewrite zlen_app, zlen_frame in Hn.
  pose proof (zlen_nonneg rest).
  assert (rget (m_pQueueData q) o (4 + zlen d) = uint_bytes (zlen d) ++ d) as Hf.
  { rewrite (rget_take _ _ _ n), Hr by lia. rewrite take_app_length'; [done|].
    pose proof (zlen_frame d). unfold zlen in *. lia. }
  rewrite rget_app in Hf by lia.
  apply app_inj_1 in Hf as [? ?]; [by constructor; auto; lia|].
  pose proof (zlen_uint_bytes (zlen d)).
  pose proof (zlen_rget (m_pQueueData q) o 4). unfold zlen in *. lia.
Qed.

Lemma le_dec_uint_bytes x : 0 ≤ x < 2 ^ 32 → le_dec (uint_bytes x) = x.
Proof. intros. apply le_dec_enc. lia. Qed.

Lemma DataLen_frame q o d : frame_at q o d → DataLen q o = Ok (zlen d).
Proof.
  intros [[Hs ? ? ?] ? ? ? Hl _]. unfold DataLen. rewrite Hs, u32_small by lia.
  destruct (Z.leb_spec 4 (zlen (m_pQueueData q) - o)).
  - rewrite mread_rget, Hl by lia. cbn. by rewrite le_dec_uint_bytes by lia.
  - rewrite !mread_rget by lia. cbn. rewrite <- rget_split, Hl by lia.
    by rewrite le_dec_uint_bytes by lia.
Qed.

(** The data of the frame, read in one piece or in two. *)
Lemma frame_data_nowrap q o d :
  frame_at q o d → o + 4 + zlen d ≤ zlen (m_pQueueData q) →
  mread (m_pQueueData q) (o + 4) (zlen d) = Ok d.
Proof.
  intros [? ? ? ? _ Hd] ?. rewrite mread_rget by lia.
  by rewrite Z.mod_small in Hd by lia; rewrite Hd.
Qed.

Lemma frame_data_start q o d :
  frame_at q o d → zlen (m_pQueueData q) ≤ o + 4 →
  mread (m_pQueueData q) (o + 4 - zlen (m_pQueueData q)) (zlen d) = Ok d.
Proof.
  intros [? ? ? ? _ Hd] ?. rewrite mread_rget by lia.
  by rewrite (mod_once _ _ (o + 4 - zlen (m_pQueueData q))) in Hd by lia; rewrite Hd.
Qed.

Lemma frame_data_split q o d :
  frame_at q o d → o + 4 < zlen (m_pQueueData q) ≤ o + 4 + zlen d →
  ∃ d1 d2, d = d1 ++ d2 ∧
    mread (m_pQueueData q) (o + 4) (zlen (m_pQueueData q) - (o + 4)) = Ok d1 ∧
    mread (m_pQueueData q) 0 (zlen d - (zlen (m_pQueueData q) - (o + 4))) = Ok d2.
Proof.
  intros [? ? ? ? _ Hd] ?. rewrite !mread_rget by lia.
  rewrite Z.mod_small, rget_split in Hd by lia. eauto.
Qed.

Lemma CopyDataOutQueue_frame q o d n :
  frame_at q o d →
  CopyDataOutQueue q n o =
    if n <? zlen d then Ok (E_SHM_QUEUE_DATALEN, zlen d, [])
    else Ok (SUCCESS, zlen d, d).
Proof.
  intros Hf. pose proof Hf as [[Hs ? ? ?] ? ? ? Hl _].
  unfold CopyDataOutQueue. rewrite Hs, u32_small by lia.
  destruct (Z.leb_spec 4 (zlen (m_pQueueData q) - o)); cbn.
  - rewrite mread_rget, Hl by lia. cbn. rewrite le_dec_uint_bytes by lia.
    destruct (Z.ltb_spec n (zlen d)); [done|].
    destruct (Z.leb_spec (zlen d) (zlen (m_pQueueData q) - o - 4)),
      (Z.eqb_spec (zlen (m_pQueueData q) - o - 4) 0); try lia.
    + by rewrite frame_data_nowrap by (done || lia).
    + pose proof (frame_data_start q o d) as Hst.
      replace (o + 4 - zlen (m_pQueueData q)) with 0 in Hst by lia.
      destruct (Z.ltb_spec 0 (zlen (m_pQueueData q) - o - 4)); [lia|].
      by rewrite Hst by (done || lia).
    + destruct (Z.ltb_spec 0 (zlen (m_pQueueData q) - o - 4)); [|lia].
      destruct (frame_data_split q o d) as (d1 & d2 & Hd & Hd1 & Hd2); [done|lia|].
      rewrite Z.sub_add_distr in Hd1, Hd2. rewrite Hd1; cbn; rewrite Hd2; cbn.
      by rewrite Hd.
  - rewrite !mread_rget by lia. cbn. rewrite <- rget_split, Hl by lia.
    rewrite le_dec_uint_bytes by lia.
    destruct (Z.ltb_spec n (zlen d)); [done|].
    pose proof (frame_data_start q o d) as Hst.
    replace (o + 4 - zlen (m_pQueueData q)) with (4 - (zlen (m_pQueueData q) - o)) in Hst by lia.
    destruct (Z.leb_spec (zlen d) 0); [lia|]. by rewrite Hst by (done || lia).
Qed.

Lemma used_cases q :
  wf q → uiTail q = uiHead q + used q ∨
         uiTail q = uiHead q + used q - zlen (m_pQueueData q).
Proof.
  intros [Hs ? ? ?]. unfold used. rewrite Hs, sub_mod_cases by lia.
  destruct (Z.leb_spec (uiHead q) (uiTail q)); lia.
Qed.

Lemma used_unique q n :
  wf q → 0 ≤ n < zlen (m_pQueueData q) →
  uiTail q = uiHead q + n ∨ uiTail q = uiHead q + n - zlen (m_pQueueData q) →
  used q = n.
Proof. intros [Hs ? ? ?] ? ?. unfold used. rewrite Hs. apply mod_once; lia. Qed.

Lemma used_UsedSpace q : wf q → UsedSpace q (uiHead q) (uiTail q) = used q.
Proof. intros Hq. apply UsedSpace_mod; [done|apply Hq..]. Qed.

(** The queue with its tail moved on over the frame of [d], and with its head
    moved on past it. *)
Definition pushed q d : CShmQueue.t :=
  set_tail (set_data q (rput (m_pQueueData q) (uiTail q) (frame d)))
    ((uiTail q + (4 + zlen d)) mod zlen (m_pQueueData q)).
Definition popped q d : CShmQueue.t :=
  set_head q ((uiHead q + (4 + zlen d)) mod zlen (m_pQueueData q)).

Lemma zlen_pushed q d :
  wf q → 4 + zlen d ≤ zlen (m_pQueueData q) →
  zlen (m_pQueueData (pushed q d)) = zlen (m_pQueueData q).
Proof. intros [? ? ? ?] ?. cbn. pose proof (zlen_frame d). ring_lia. Qed.

Lemma rep_pushed q ms d :
  rep q ms → 0 < zlen d → used q + (4 + zlen d) < zlen (m_pQueueData q) →
  rep (pushed q d) (ms ++ [d]).
Proof.
  intros [Hwf Hpos Hu Hd] ? ?. pose proof (used_cases q Hwf).
  pose proof (used_bounds q Hwf). pose proof (zlen_frame d).
  pose proof Hwf as [Hs ? ? ?].
  pose proof (mod_cases (zlen (m_pQueueData q)) (uiTail q + (4 + zlen d))).
  pose proof (zlen_pushed q d Hwf) as Hz.
  assert (wf (pushed q d)) as Hwf'.
  { split; rewrite ?Hz by lia; cbn; lia. }
  assert (used (pushed q d) = used q + (4 + zlen d)) as Hu'.
  { apply used_unique; rewrite ?Hz by lia; cbn in *; [done|lia..]. }
  split; [done| |by rewrite Hu', frames_snoc, zlen_app; lia|].
  { apply Forall_app; auto. }
  rewrite Hu', frames_snoc, rget_app; rewrite ?Hz by lia; cbn; try lia.
  replace (uiTail q) with ((uiHead q + used q) mod zlen (m_pQueueData q))
    by (apply mod_once; lia).
  rewrite rget_rput_disjoint, Hd by lia. f_equal.
  replace (4 + zlen d) with (zlen (frame d)) by lia.
  apply rget_rput; [|lia]. pose proof (Z.mod_pos_bound (uiHead q + used q) (zlen (m_pQueueData q))). lia.
Qed.

Lemma rep_head q d ms :
  rep q (d :: ms) →
  frame_at q (uiHead q) d ∧ 5 ≤ 4 + zlen d ≤ used q ∧ used q < zlen (m_pQueueData q).
Proof.
  intros [Hwf Hpos Hu Hd]. pose proof (used_bounds q Hwf).
  apply Forall_cons in Hpos as [? ?]. rewrite frames_cons in Hu, Hd.
  pose proof (zlen_frame d). pose proof (zlen_nonneg (frames ms)).
  rewrite zlen_app in Hu. split; [|lia].
  apply (frame_at_intro q (uiHead q) (used q) d (frames ms));
    rewrite ?zlen_app; try done; try apply Hwf; lia.
Qed.

Lemma rep_popped q d ms : rep q (d :: ms) → rep (popped q d) ms.
Proof.
  intros Hr. pose proof (rep_head _ _ _ Hr) as (_ & ? & ?).
  destruct Hr as [Hwf Hpos Hu Hd]. pose proof Hwf as [Hs ? ? ?].
  apply Forall_cons in Hpos as [? ?]. rewrite frames_cons in Hu, Hd.
  pose proof (zlen_frame d). rewrite zlen_app in Hu.
  pose proof (used_cases q Hwf).
  pose proof (mod_cases (zlen (m_pQueueData q)) (uiHead q + (4 + zlen d))).
  assert (wf (popped q d)) as Hwf' by (split; cbn; lia).
  assert (used (popped q d) = used q - (4 + zlen d)) as Hu'.
  { apply used_unique; cbn in *; [done|lia..]. }
  split; [done|done|lia|]. rewrite Hu'. cbn.
  rewrite rget_drop, Hd by lia. apply drop_app_length'.
  unfold zlen in *. lia.
Qed.

Lemma AddHead_popped q d ms :
  rep q (d :: ms) → AddHead q (u32 (zlen d + 4)) = Ok (popped q d).
Proof.
  intros Hr. pose proof (rep_head _ _ _ Hr) as (_ & ? & ?).
  destruct Hr as [Hwf _ _ _]. pose proof Hwf as [Hs ? ? ?].
  unfold AddHead. rewrite u32_small, AddOffset_mod by (done || lia). cbn.
  unfold popped. do 3 f_equal. lia.
Qed.

(** ** What each operation does *)

(** The result of [InQueue] of [d] into a region of [size] bytes that holds
    [ms], and the messages afterwards.  One byte of the region stays free. *)
Definition in_spec (size : Z) ms d (locked : bool) : list (list Z) * Z :=
  if negb locked then (ms, E_SHM_QUEUE_INLOCK)
  else if zlen d =? 0 then (ms, E_SHM_QUEUE_INQUEUE_LEN)
  else if size - 1 - zlen (frames ms) <? 4 + zlen d then (ms, E_SHM_QUEUE_FULL)
  else (ms ++ [d], SUCCESS).

(** The same for [OutQueue] with a buffer of [n] bytes: messages, result,
    reported length, data.  A message too long for the buffer is dropped. *)
Definition out_spec ms (n : Z) (locked : bool) : list (list Z) * (Z * Z * list Z) :=
  if negb locked then (ms, (E_SHM_QUEUE_OUTLOCK, n, []))
  else match ms with
  | [] => ([], (E_SHM_QUEUE_EMPTY, n, []))
  | d :: ms =>
      if n <? zlen d then (ms, (E_SHM_QUEUE_DATALEN, zlen d, []))
      else (ms, (SUCCESS, zlen d, d))
  end.

(** The lock was taken, or was not asked for. *)
Definition is_locked (lock : bool) (lock_ret : Z) : bool :=
  negb lock || (lock_ret =? 0).

Lemma lock_test lock ret : lock && negb (ret =? 0) = negb (is_locked lock ret).
Proof. unfold is_locked. by destruct lock, (ret =? 0). Qed.

Lemma InQueue_in_spec q ms d lock ret :
  rep q ms → zlen d + 4 < 2 ^ 32 →
  InQueue q d (zlen d) lock ret =
    Ok (match in_spec (m_QueueDataSize q) ms d (is_locked lock ret) with
        | (_, r) => (if r =? SUCCESS then pushed q d else q, r)
        end).
Proof.
  intros Hr ?. pose proof Hr as [Hwf ? Hu Hd]. pose proof Hwf as [Hs ? ? ?].
  pose proof (zlen_nonneg d). unfold InQueue, in_spec. rewrite lock_test.
  destruct (is_locked lock ret); [cbn|done].
  destruct (Z.eqb_spec (zlen d) 0); [done|].
  rewrite u32_small by lia. pose proof (used_bounds q Hwf).
  rewrite FreeSpace_mod by (done || apply Hwf). fold (used q). rewrite Hs.
  replace (zlen d + 4) with (4 + zlen d) by lia. rewrite Hu.
  destruct (Z.ltb_spec (zlen (m_pQueueData q) - 1 - zlen (frames ms)) (4 + zlen d)); [done|].
  rewrite CopyDataInQueue_frame by (done || lia). cbn.
  unfold AddTail. cbn.
  replace (AddOffset _ _ _) with
    (AddOffset q (uiTail q) (4 + zlen d)) by done.
  by rewrite AddOffset_mod by (done || lia).
Qed.

Lemma rep_in_spec q ms d locked :
  rep q ms →
  match in_spec (m_QueueDataSize q) ms d locked with
  | (ms', r) => rep (if r =? SUCCESS then pushed q d else q) ms'
  end.
Proof.
  intros Hr. pose proof Hr as [[Hs ? ? ?] ? Hu _]. pose proof (zlen_nonneg d).
  unfold in_spec. destruct locked; cbn; [|done].
  destruct (Z.eqb_spec (zlen d) 0); [done|].
  destruct (Z.ltb_spec (m_QueueDataSize q - 1 - zlen (frames ms)) (4 + zlen d)); [done|].
  apply rep_pushed; [done|lia|]. lia.
Qed.

Lemma OutQueue_out_spec q ms n lock ret :
  rep q ms →
  OutQueue q n lock ret =
    Ok (match out_spec ms n (is_locked lock ret) with
        | (ms', (r, len, dd)) =>
            mk_out (if is_locked lock ret
                    then match ms with d :: _ => popped q d | [] => q end else q) r len dd
        end).
Proof.
  intros Hr. pose proof Hr as [Hwf ? Hu Hd].
  unfold OutQueue, out_spec. rewrite lock_test.
  destruct (is_locked lock ret); [cbn|done]. rewrite used_UsedSpace by done.
  destruct ms as [|d ms]; [by rewrite Hu|].
  pose proof (rep_head _ _ _ Hr) as (Hf & ? & ?).
  destruct (Z.ltb_spec (used q) 4); [lia|].
  rewrite (CopyDataOutQueue_frame _ _ d) by done.
  destruct (Z.ltb_spec n (zlen d)); cbn;
    by rewrite (AddHead_popped _ _ ms) by done.
Qed.

Lemma rep_nil_used q : rep q [] ↔ wf q ∧ used q = 0.
Proof.
  split; [by intros []|]. intros [? Hu]. split; auto. by rewrite Hu.
Qed.

(** The peek buffer is no part of the contents. *)
Lemma rep_set_peek q ms b : rep (set_peek q b) ms ↔ rep q ms.
Proof.
  destruct q. split; intros [[? ? ? ?] ? ? ?]; (split; [by split|done..]).
Qed.

(** ** Walking the messages *)
Lemma frames_ge ms : Forall (λ d, 0 < zlen d) ms → 5 * zlen ms ≤ zlen (frames ms).
Proof.
  induction 1 as [|d ms ? ? IH]; [done|].
  rewrite frames_cons, zlen_app, zlen_frame, zlen_cons. lia.
Qed.

Lemma rep_length_fuel q ms : rep q ms → (length ms ≤ Z.to_nat (m_QueueDataSize q))%nat.
Proof.
  intros [Hwf Hpos Hu _]. pose proof (frames_ge ms Hpos).
  pose proof (used_bounds q Hwf). destruct Hwf as [Hs ? ? ?].
  unfold zlen in *. lia.
Qed.

(** One step of a walk: the message at [o] and the offset after it. *)
Lemma walk_nil q o : rep (set_head q o) [] → UsedSpace q o (uiTail q) < 4.
Proof.
  intros Hr. pose proof (used_UsedSpace (set_head q o)) as Hu.
  apply rep_nil_used in Hr as [Hwf H0]. cbn in Hu.
  change (UsedSpace q o (uiTail q)) with (UsedSpace (set_head q o) o (uiTail q)).
  rewrite Hu by done. lia.
Qed.

Lemma walk_cons q o d ms :
  rep (set_head q o) (d :: ms) →
  4 ≤ UsedSpace q o (uiTail q) ∧ DataLen q o = Ok (zlen d) ∧
  frame_at (set_head q o) o d ∧
  ∃ o', AddOffset q o (u32 (zlen d + 4)) = Ok o' ∧ rep (set_head q o') ms.
Proof.
  intros Hr. pose proof (rep_head _ _ _ Hr) as (Hf & ? & ?).
  pose proof Hr as [Hwf _ _ _]. pose proof (used_UsedSpace _ Hwf) as Hu. cbn in Hu, Hf.
  split_and!.
  - change (UsedSpace q o (uiTail q)) with (UsedSpace (set_head q o) o (uiTail q)).
    rewrite Hu. lia.
  - by apply (DataLen_frame (set_head q o)).
  - done.
  - pose proof (AddHead_popped _ _ _ Hr) as Ha. unfold AddHead in Ha.
    change (AddOffset (set_head q o) (uiHead (set_head q o)))
      with (AddOffset q o) in Ha.
    destruct (AddOffset q o _) as [o'| |]; cbn in Ha; try done.
    injection Ha as Ha. exists o'. split; [done|]. rewrite Ha.
    by apply (rep_popped _ _ _ Hr).
Qed.

Lemma GetNum_loop_rep fuel q o ms n :
  rep (set_head q o) ms → (length ms ≤ fuel)%nat →
  GetNum_loop fuel q o n = Ok (n + zlen ms).
Proof.
  revert o ms n. induction fuel as [|fuel IH]; intros o ms n Hr Hl; cbn;
    (destruct ms as [|d ms];
     [pose proof (walk_nil _ _ Hr); destruct (Z.ltb_spec (UsedSpace q o (uiTail q)) 4);
      [rewrite zlen_nil; f_equal; lia|lia]|]); [cbn in Hl; lia|].
  apply walk_cons in Hr as (Hu & -> & _ & o' & Ho & Hr).
  destruct (Z.ltb_spec (UsedSpace q o (uiTail q)) 4); [lia|]. cbn.
  rewrite Ho. cbn. rewrite (IH _ ms) by (done || (cbn in Hl; lia)).
  rewrite zlen_cons. f_equal. lia.
Qed.

Lemma MsgAt_frame q o d : frame_at q o d → MsgAt q o (zlen d) = Ok d.
Proof.
  intros Hf. pose proof Hf as [[Hs ? ? ?] ? ? ? _ _]. unfold MsgAt. rewrite Hs.
  destruct (Z.leb_spec (o + 4 + zlen d) (zlen (m_pQueueData q))).
  { by rewrite frame_data_nowrap by (done || lia). }
  destruct (Z.ltb_spec (o + 4) (zlen (m_pQueueData q))).
  - destruct (frame_data_split q o d) as (d1 & d2 & Hd & Hd1 & Hd2); [done|lia|].
    rewrite <- Z.sub_add_distr.
    rewrite (u32_small (zlen (m_pQueueData q) - (o + 4))) by lia.
    rewrite u32_small by lia. rewrite Hd1. cbn. rewrite Hd2. cbn. by rewrite Hd.
  - rewrite u32_small by lia. pose proof (frame_data_start q o d) as Hst.
    replace (4 - (zlen (m_pQueueData q) - o)) with (o + 4 - zlen (m_pQueueData q)) by lia.
    by rewrite Hst by (done || lia).
Qed.

Lemma GetAll_loop_rep fuel q o ms v :
  rep (set_head q o) ms → (length ms ≤ fuel)%nat →
  GetAll_loop fuel q o v = Ok (v ++ ms).
Proof.
  revert o ms v. induction fuel as [|fuel IH]; intros o ms v Hr Hl; cbn;
    (destruct ms as [|d ms];
     [pose proof (walk_nil _ _ Hr); destruct (Z.ltb_spec (UsedSpace q o (uiTail q)) 4);
      [by rewrite app_nil_r|lia]|]); [cbn in Hl; lia|].
  apply walk_cons in Hr as (Hu & -> & Hf & o' & Ho & Hr).
  destruct (Z.ltb_spec (UsedSpace q o (uiTail q)) 4); [lia|]. cbn.
  change (MsgAt q o) with (MsgAt (set_head q o) o).
  rewrite MsgAt_frame by done. cbn. rewrite Ho. cbn.
  rewrite (IH _ ms) by (done || (cbn in Hl; lia)). by rewrite <- app_assoc.
Qed.

Lemma set_head_same q : set_head q (uiHead q) = q.
Proof. by destruct q. Qed.

Lemma popped_size q d : m_QueueDataSize (popped q d) = m_QueueDataSize q.
Proof. done. Qed.

Lemma rep_msg_bound q ms : rep q ms → Forall (λ d, 0 < zlen d ≤ 2 ^ 31 - 1) ms.
Proof.
  intros [Hwf Hpos Hu _]. pose proof (used_bounds q Hwf). destruct Hwf as [_ ? _ _].
  assert (zlen (frames ms) < 2 ^ 31) as Hb by lia. clear Hu.
  revert Hb. induction Hpos as [|d ms ? ? IH]; [done|].
  rewrite frames_cons, zlen_app, zlen_frame. pose proof (zlen_nonneg (frames ms)).
  pose proof (zlen_nonneg d). intros. constructor; [lia|apply IH; lia].
Qed.

End facts.

(** ** The queue implements the FIFO interface *)
#[export] Instance shm_fifo_ops : FifoOps CShmQueue.t := {
  q_in q pData uiDataLen := CShmQueue.InQueue q pData uiDataLen true 0;
  q_out q n := r ← CShmQueue.OutQueueInt q n true 0;
               Ok (CShmQueue.o_queue r, CShmQueue.o_ret r, CShmQueue.o_len r,
                   CShmQueue.o_data r);
}.

Definition shm_fits (cap : Z) (ms : list (list Z)) (d : list Z) : bool :=
  4 + zlen d <=? cap - 1 - zlen (frames ms).

Section instance.
Import CShmQueue.

Lemma in_spec_fits cap ms d :
  0 < zlen d →
  in_spec cap ms d true = if shm_fits cap ms d then (ms ++ [d], SUCCESS)
                          else (ms, E_SHM_QUEUE_FULL).
Proof.
  intros. unfold in_spec, shm_fits. cbn. destruct (Z.eqb_spec (zlen d) 0); [lia|].
  by destruct (Z.ltb_spec (cap - 1 - zlen (frames ms)) (4 + zlen d)),
    (Z.leb_spec (4 + zlen d) (cap - 1 - zlen (frames ms))); try lia.
Qed.

Lemma InQueue_fits q ms d :
  rep q ms → 0 < zlen d → zlen d + 4 < 2 ^ 32 →
  InQueue q d (zlen d) true 0 =
    Ok (if shm_fits (m_QueueDataSize q) ms d then (pushed q d, SUCCESS)
        else (q, E_SHM_QUEUE_FULL)).
Proof.
  intros Hr ? ?. rewrite (InQueue_in_spec q ms) by done.
  change (is_locked true 0) with true. rewrite in_spec_fits by done.
  by destruct (shm_fits _ ms d).
Qed.

Lemma OutQueueInt_out_spec q ms n lock ret :
  rep q ms → 0 < n < 2 ^ 31 →
  OutQueueInt q n lock ret =
    (r ← OutQueue q n lock ret;
     Ok (mk_out (o_queue r) (o_ret r)
           (if o_ret r =? 0 then o_len r else n) (o_data r))).
Proof.
  intros Hr ?. unfold OutQueueInt. destruct (Z.ltb_spec 0 n); [|lia].
  rewrite u32_small, (OutQueue_out_spec q ms) by (done || lia). cbn.
  unfold out_spec. destruct (is_locked lock ret); [cbn|done].
  destruct ms as [|d ms]; cbn; [done|].
  destruct (Z.ltb_spec n (zlen d)); cbn; [done|].
  apply rep_msg_bound, Forall_cons in Hr as [? _]. rewrite i32_small by lia. done.
Qed.

#[export] Program Instance shm_fifo : FifoQueue CShmQueue.t := {
  q_rep := rep;
  q_cap := m_QueueDataSize;
  q_max := 2 ^ 31 - 1;
  q_fits := shm_fits;
}.
Next Obligation.
  intros q ms d Hr ? Hf. exists (pushed q d). cbn.
  rewrite (InQueue_fits q ms), Hf by (done || lia). split; [done|].
  pose proof (rep_in_spec q ms d true Hr) as Hr'.
  rewrite in_spec_fits, Hf in Hr' by lia. done.
Qed.
Next Obligation.
  intros q ms d Hr ? Hf. exists q. cbn.
  rewrite (InQueue_fits q ms), Hf by (done || lia). done.
Qed.
Next Obligation.
  intros q n Hr ?. exists q, n. cbn. unfold OutQueueInt.
  destruct (Z.ltb_spec 0 n); [|lia].
  rewrite (OutQueue_out_spec q []) by done. done.
Qed.
Next Obligation.
  intros q d ms n Hr ?. exists (popped q d). cbn.
  pose proof (rep_msg_bound _ _ Hr) as [? _]%Forall_cons.
  rewrite (OutQueueInt_out_spec q (d :: ms)), (OutQueue_out_spec q (d :: ms))
    by (done || lia). cbn.
  destruct (Z.ltb_spec n (zlen d)); [lia|]. cbn.
  split; [done|]. split; [by apply (rep_popped _ _ _ Hr)|done].
Qed.
Next Obligation. apply rep_msg_bound. Qed.
End instance.

(** * Properties *)
Section props.
Import CShmQueue.
Implicit Types (q : CShmQueue.t) (d : list Z) (ms : list (list Z)).

(** What [MsgPeek] hands out is the oldest message, in the data region or in
    the private buffer. *)
Lemma MsgPeek_cons q d ms :
  rep q (d :: ms) →
  ∃ b p, MsgPeek q true = Ok (set_peek q b, SUCCESS, Some p, zlen d) ∧
         peek_bytes (set_peek q b) p (zlen d) = Ok d.
Proof.
  intros Hr. pose proof (rep_head _ _ _ Hr) as (Hf & ? & ?).
  pose proof Hf as [Hwf ? ? ? Hl _]. pose proof Hwf as [Hs ? ? ?].
  unfold MsgPeek. cbv zeta. rewrite used_UsedSpace, Hs, u32_small by (done || lia).
  destruct (Z.ltb_spec (used q) 4); [lia|].
  assert (set_peek q (m_pMsgPeekBuf q) = q) as Hid by (by destruct q).
  destruct (Z.leb_spec 4 (zlen (m_pQueueData q) - uiHead q)).
  - rewrite (mread_rget _ (uiHead q) 4), Hl by lia. cbn. rewrite le_dec_uint_bytes by lia.
    destruct (Z.eqb_spec (zlen (m_pQueueData q) - uiHead q - 4) 0);
      [|destruct (Z.ltb_spec (zlen (m_pQueueData q) - uiHead q - 4) (zlen d))].
    + exists (m_pMsgPeekBuf q), (InQueuePtr 0). rewrite Hid. split; [done|].
      pose proof (frame_data_start q (uiHead q) d) as Hst. cbn.
      replace (uiHead q + 4 - zlen (m_pQueueData q)) with 0 in Hst by lia.
      apply Hst; [done|lia].
    + destruct (frame_data_split q (uiHead q) d) as (d1 & d2 & Hd & Hd1 & Hd2); [done|lia|].
      rewrite Z.sub_add_distr in Hd1, Hd2. rewrite Hd1; cbn; rewrite Hd2; cbn.
      exists (Some (d1 ++ d2)), InPeekBuf. split; [done|].
      rewrite Hd. apply mread_all.
    + exists (m_pMsgPeekBuf q), (InQueuePtr (uiHead q + 4)). rewrite Hid. split; [done|].
      by apply frame_data_nowrap; [|lia].
  - rewrite (mread_rget _ (uiHead q)), (mread_rget _ 0) by lia. cbn.
    rewrite <- rget_split, Hl by lia.
    rewrite le_dec_uint_bytes by lia.
    exists (m_pMsgPeekBuf q), (InQueuePtr (4 - (zlen (m_pQueueData q) - uiHead q))).
    rewrite Hid. split; [done|].
    pose proof (frame_data_start q (uiHead q) d) as Hst. cbn.
    replace (4 - _) with (uiHead q + 4 - zlen (m_pQueueData q)) by lia.
    apply Hst; [done|lia].
Qed.

Lemma ReleaseMsg_cons q d ms :
  rep q (d :: ms) → ReleaseMsg q = Ok (set_peek (popped q d) None).
Proof.
  intros Hr. pose proof (rep_head _ _ _ Hr) as (Hf & ? & ?).
  pose proof Hf as [Hwf _ _ _ _ _].
  unfold ReleaseMsg. rewrite used_UsedSpace by done.
  destruct (Z.ltb_spec (used q) 4); [lia|].
  rewrite (DataLen_frame _ _ _ Hf). cbn. by rewrite (AddHead_popped _ _ _ Hr).
Qed.

Lemma Init_attached q q0 ms :
  rep q ms →
  ∃ q', Init q0 SHM_EXIST 0 0
          (uint_bytes (uiHead q) ++ uint_bytes (uiTail q) ++ m_pQueueData q)
          (m_QueueDataSize q + 8) = Ok (q', SUCCESS) ∧ rep q' ms.
Proof.
  intros Hr. pose proof Hr as [[Hs ? ? ?] _ _ _].
  pose proof (zlen_uint_bytes (uiHead q)). pose proof (zlen_uint_bytes (uiTail q)).
  exists (set_peek q (m_pMsgPeekBuf q0)). split; [|by apply rep_set_peek].
  unfold Init. cbn. rewrite Z.abs_eq by lia.
  rewrite !mread_ok by (repeat rewrite zlen_app; lia). cbn.
  rewrite drop_0, take_app_length' by (unfold zlen in *; lia).
  rewrite drop_app_length', take_app_length' by (unfold zlen in *; lia).
  rewrite app_assoc, drop_app_length' by (rewrite length_app; unfold zlen in *; lia).
  rewrite take_ge by (unfold zlen in *; lia).
  rewrite !le_dec_uint_bytes, u32_small by lia.
  replace (m_QueueDataSize q + 8 - 8) with (m_QueueDataSize q) by lia. done.
Qed.

Lemma GetAll_rep q ms v :
  rep q ms → GetAllQueueData q 0 0 v = Ok (SUCCESS, v ++ ms).
Proof.
  intros Hr. pose proof (rep_length_fuel q ms Hr).
  rewrite <- (set_head_same q) in Hr.
  unfold GetAllQueueData. cbn. by rewrite (GetAll_loop_rep _ _ _ ms).
Qed.

Lemma AddHead_size q n q' : AddHead q n = Ok q' → m_QueueDataSize q' = m_QueueDataSize q.
Proof.
  unfold AddHead. destruct (AddOffset _ _ _); cbn; [|done..]. by intros [= <-].
Qed.

Lemma OutQueueInt_size q n lock ret o :
  OutQueueInt q n lock ret = Ok o → m_QueueDataSize (o_queue o) = m_QueueDataSize q.
Proof.
  unfold OutQueueInt. destruct (0 <? n); [|by intros [= <-]].
  destruct (OutQueue _ _ _ _) as [o'| |] eqn:Ho; cbn; [|done..].
  assert (m_QueueDataSize (o_queue o') = m_QueueDataSize q) as <-.
  { unfold OutQueue in Ho. destruct (_ && _); [by simplify_eq|].
    destruct (_ <? 4); [by simplify_eq|].
    destruct (CopyDataOutQueue _ _ _) as [[[r l] d]| |]; cbn in Ho; [|done..].
    destruct (AddHead q _) as [q'| |] eqn:Ha; cbn in Ho;
      [apply AddHead_size in Ha|by destruct (r =? _)..].
    by destruct (r =? _); simplify_eq. }
  destruct (negb _); by intros [= <-].
Qed.

(** C1: [InQueue] on a queue that holds [ms] never leaves the shared region
    (no [Fault]) and returns exactly what the FIFO specification says: an error
    code with the messages unchanged, or success with the message appended. *)
Theorem InQueue_refines q ms d lock ret :
  rep q ms → zlen d + 4 < 2 ^ 32 →
  ∃ q', InQueue q d (zlen d) lock ret =
          Ok (q', (in_spec (m_QueueDataSize q) ms d (is_locked lock ret)).2) ∧
        rep q' (in_spec (m_QueueDataSize q) ms d (is_locked lock ret)).1 ∧
        m_QueueDataSize q' = m_QueueDataSize q.
Proof.
  intros Hr ?. rewrite (InQueue_in_spec q ms) by done.
  pose proof (rep_in_spec q ms d (is_locked lock ret) Hr).
  destruct (in_spec _ _ _ _) as [ms' r].
  eexists. split; [done|]. cbn. by destruct (r =? SUCCESS).
Qed.

(** C4: [OutQueue] hands out the oldest message, byte for byte, and removes it;
    a message longer than the caller's buffer is removed and reported with
    [E_SHM_QUEUE_DATALEN] and its length; an empty or locked queue is left as
    it is. *)
Theorem OutQueue_refines q ms n lock ret :
  rep q ms →
  ∃ q', OutQueue q n lock ret =
          (let '(_, (r, len, d)) := out_spec ms n (is_locked lock ret) in
           Ok (mk_out q' r len d)) ∧
        rep q' (out_spec ms n (is_locked lock ret)).1.
Proof.
  intros Hr. rewrite (OutQueue_out_spec q ms) by done. unfold out_spec.
  destruct (is_locked lock ret); cbn; [|eauto].
  destruct ms as [|d ms]; [eauto|]. pose proof (rep_popped _ _ _ Hr).
  destruct (n <? zlen d); cbn; eauto.
Qed.

(** Peeking at the oldest message and then releasing it is the same as
    taking it out: the bytes seen through the pointer are the message, peeking
    does not change the queue's contents, and afterwards the rest is left. *)
Theorem MsgPeek_ReleaseMsg q d ms :
  rep q (d :: ms) →
  ∃ q1 p q2, MsgPeek q true = Ok (q1, SUCCESS, Some p, zlen d) ∧
    peek_bytes q1 p (zlen d) = Ok d ∧ rep q1 (d :: ms) ∧
    ReleaseMsg q1 = Ok q2 ∧ rep q2 ms.
Proof.
  intros Hr. destruct (MsgPeek_cons q d ms Hr) as (b & p & Hp & Hb).
  assert (rep (set_peek q b) (d :: ms)) as Hr' by by apply rep_set_peek.
  eexists _, p, _. split_and!; [done..| |].
  - apply (ReleaseMsg_cons _ d ms), Hr'.
  - apply rep_set_peek, (rep_popped _ _ _ Hr').
Qed.

(** The two walks over the ring terminate within the size of the region
    and see every message once: [GetNum] counts them, [GetAllQueueData]
    appends them, oldest first. *)
Theorem GetAllQueueData_all q ms v :
  rep q ms → GetNum q = Ok (zlen ms) ∧ GetAllQueueData q 0 0 v = Ok (SUCCESS, v ++ ms).
Proof.
  intros Hr. pose proof (rep_length_fuel q ms Hr).
  rewrite <- (set_head_same q) in Hr. split.
  - by apply (GetNum_loop_rep _ _ _ ms).
  - rewrite set_head_same in Hr. by apply GetAll_rep.
Qed.

(** A process that attaches to a segment another one created sees that
    one's queue: [Init] on the bytes of the existing segment gives an object
    with the same messages. *)
Theorem Init_attach q q0 ms :
  rep q ms →
  ∃ q', Init q0 SHM_EXIST 0 0
          (uint_bytes (uiHead q) ++ uint_bytes (uiTail q) ++ m_pQueueData q)
          (m_QueueDataSize q + 8) = Ok (q', SUCCESS) ∧ rep q' ms.
Proof. apply Init_attached. Qed.

(** A fresh segment starts out as an empty queue, whatever its bytes. *)
Theorem Init_fresh q0 seg size :
  8 < Z.abs size < 2 ^ 31 → zlen seg = Z.abs size →
  ∃ q, Init q0 0 0 0 seg size = Ok (q, SUCCESS) ∧ rep q [] ∧
       m_QueueDataSize q = Z.abs size - 8.
Proof.
  intros ? Hz. unfold Init. cbn. rewrite mread_ok by lia. cbn.
  rewrite u32_small by lia. eexists. split; [done|]. split; [|done].
  apply rep_nil_used. unfold used. cbn. change (le_dec (uint_bytes 0)) with 0.
  rewrite Z.mod_0_l by lia. split; [|done].
  assert (zlen (take (Z.to_nat (Z.abs size - 8)) (drop (Z.to_nat 8) seg))
          = Z.abs size - 8) as Hd by (autorewrite with zlen; lia).
  split; cbn; rewrite ?Hd; lia.
Qed.

(** C39: an [InQueue] whose length lies within four of 2^32 passes the test for
    free space, because [uiDataLen + 4] wraps around, and then writes beyond
    the shared memory region. *)
Theorem InQueue_len_wraps q ms pData len :
  rep q ms → 2 ^ 32 - 4 ≤ len < 2 ^ 32 →
  len + 4 - 2 ^ 32 ≤ m_QueueDataSize q - 1 - zlen (frames ms) →
  InQueue q pData len true 0 = Fault.
Proof.
  intros Hr ? ?. pose proof Hr as [Hwf _ Hu _]. pose proof Hwf as [Hs ? ? ?].
  unfold InQueue. cbn. destruct (Z.eqb_spec len 0); [lia|].
  rewrite FreeSpace_mod by (done || apply Hwf). fold (used q).
  assert (u32 (len + 4) = len + 4 - 2 ^ 32) as -> by (apply mod_once; lia).
  destruct (Z.ltb_spec (m_QueueDataSize q - 1 - used q) (len + 4 - 2 ^ 32)); [lia|].
  apply bind_fault. unfold CopyDataInQueue. rewrite Hs, u32_small by lia.
  apply bind_fault.
  pose proof (zlen_uint_bytes len) as Hl.
  destruct (Z.leb_spec 4 (zlen (m_pQueueData q) - uiTail q)).
  - replace 4 with (zlen (uint_bytes len)) by lia.
    rewrite memcpy_rput by lia. cbn. rewrite Hl.
    destruct (Z.leb_spec len (zlen (m_pQueueData q) - uiTail q - 4)); [lia|].
    destruct (Z.ltb_spec 0 (zlen (m_pQueueData q) - uiTail q - 4)).
    + destruct (memcpy _ (uiTail q + 4) _ _ _) as [m1| |] eqn:Hm; [cbn|done|].
      * apply memcpy_len in Hm. apply memcpy_fault; [lia|].
        rewrite Hm, zlen_rput by lia. lia.
      * by apply memcpy_not_spin in Hm.
    + apply memcpy_fault; rewrite ?zlen_rput; lia.
  - destruct (memcpy _ (uiTail q) _ _ _) as [m1| |] eqn:Hm;
      [cbn|done|by apply memcpy_not_spin in Hm].
    apply memcpy_len in Hm.
    destruct (memcpy m1 0 _ _ _) eqn:Hm'; [cbn|done|by apply memcpy_not_spin in Hm'].
    apply memcpy_len in Hm'. apply memcpy_fault; lia.
Qed.

(** Whatever sequence of calls one process makes, the messages it gets out
    are exactly the ones it put in successfully, in the same order, and the
    rest are still in the ring. *)
Theorem shm_history_fifo q ms cs :
  rep q ms → Forall (call_ok (Q := CShmQueue.t)) cs →
  ∃ q' rs left, q_run q cs = Ok (q', rs) ∧ rep q' left ∧
    ms ++ accepted cs rs = delivered rs ++ left.
Proof. exact (q_run_fifo (Q := CShmQueue.t) q ms cs). Qed.
End props.

(** * The properties at concrete queues *)
Section examples.
Import CShmQueue CShmQueueExample.

Lemma ex_rep_wrapped : rep q_wrapped [[1; 2]; [7; 8; 9]].
Proof.
  split; [split; concrete| |reflexivity|reflexivity].
  repeat (constructor; [concrete|]). constructor.
Qed.

Lemma ex_rep_q0 : rep q0 [].
Proof. split; [split; concrete|constructor|reflexivity|reflexivity]. Qed.

Lemma InQueue_refines_witness :
  ∃ q', InQueue q0 [7; 8; 9] 3 true 0 = Ok (q', SUCCESS) ∧ rep q' [[7; 8; 9]].
Proof.
  destruct (InQueue_refines q0 [] [7; 8; 9] true 0) as (q' & H1 & H2 & _);
    [apply ex_rep_q0|reflexivity|].
  exists q'. split; [exact H1|exact H2].
Defined.

Lemma OutQueue_refines_witness :
  ∃ q', OutQueue q_wrapped 2 true 0 = Ok (mk_out q' SUCCESS 2 [1; 2]) ∧
        rep q' [[7; 8; 9]].
Proof.
  destruct (OutQueue_refines q_wrapped _ 2 true 0 ex_rep_wrapped) as (q' & H1 & H2).
  exists q'. split; [exact H1|exact H2].
Defined.

Lemma MsgPeek_ReleaseMsg_witness :
  ∃ q1 p q2, MsgPeek q_wrapped true = Ok (q1, SUCCESS, Some p, 2) ∧
    peek_bytes q1 p 2 = Ok [1; 2] ∧ rep q1 [[1; 2]; [7; 8; 9]] ∧
    ReleaseMsg q1 = Ok q2 ∧ rep q2 [[7; 8; 9]].
Proof. exact (MsgPeek_ReleaseMsg q_wrapped _ _ ex_rep_wrapped). Defined.

Lemma GetAllQueueData_all_witness :
  GetNum q_wrapped = Ok 2 ∧
  GetAllQueueData q_wrapped 0 0 [] = Ok (SUCCESS, [[1; 2]; [7; 8; 9]]).
Proof. exact (GetAllQueueData_all q_wrapped _ [] ex_rep_wrapped). Defined.

Lemma Init_attach_witness :
  ∃ q', Init q0 SHM_EXIST 0 0
          (uint_bytes 9 ++ uint_bytes 6 ++ m_pQueueData q_wrapped) 24
        = Ok (q', SUCCESS) ∧ rep q' [[1; 2]; [7; 8; 9]].
Proof. exact (Init_attach q_wrapped q0 _ ex_rep_wrapped). Defined.

Lemma Init_fresh_witness :
  ∃ q, Init q0 0 0 0 (replicate 20 255) (-20) = Ok (q, SUCCESS) ∧ rep q [] ∧
       m_QueueDataSize q = 12.
Proof. apply (Init_fresh q0 (replicate 20 255) (-20)); [lia|reflexivity]. Defined.

Lemma InQueue_len_wraps_witness : InQueue q_wrapped [1; 2; 3] (2 ^ 32 - 3) true 0 = Fault.
Proof.
  apply (InQueue_len_wraps q_wrapped _ [1; 2; 3] (2 ^ 32 - 3) ex_rep_wrapped);
    concrete.
Defined.

Lemma shm_history_fifo_witness :
  ∃ q' rs left,
    q_run q_wrapped [CallOut (2 ^ 31 - 1); CallIn [5]; CallOut (2 ^ 31 - 1)]
      = Ok (q', rs) ∧ rep q' left ∧
    [[1; 2]; [7; 8; 9]] ++ accepted [CallOut (2 ^ 31 - 1); CallIn [5]; CallOut (2 ^ 31 - 1)] rs
      = delivered rs ++ left.
Proof.
  apply (shm_history_fifo q_wrapped _
           [CallOut (2 ^ 31 - 1); CallIn [5]; CallOut (2 ^ 31 - 1)] ex_rep_wrapped).
  repeat (constructor; [concrete|]). constructor.
Defined.
End examples.
