(* ===== verification/ShmUniqQueue.v ===== *)
(** [CShmUniqQueue] (mmlib/shm_queue/shm_uniq_queue): a [CShmQueue] that keeps
    the messages it holds in a [std::map] and lets none in twice. *)
From stdpp Require Import gmap.
From S2P Require Import Prelude Ring Fifo ShmQueue.

Module CShmUniqQueue.

Definition E_SHM_QUEUE_DATAEXIST : Z := -701.

(** The values of the map are always 0: it is a set of byte strings. *)
Record t : Type := mk {
  m_mQueueDataMap : gset (list Z);
  m_ShmQueue : CShmQueue.t;
}.

(** [Init]: the results of the system calls behind [CShmQueue::Init] and of
    the two locks of [GetAllQueueData] are parameters. *)
Definition Init (q : t) (create_ret attach_ret sem_ret : Z) (seg : list Z)
    (aiSize in_ret out_ret : Z) : outcome (t * Z) :=
  '(sq, Ret) ← CShmQueue.Init (m_ShmQueue q) create_ret attach_ret sem_ret seg aiSize;
  if negb (Ret =? 0) then Ok (mk ∅ sq, Ret) else
  '(Ret, vsAllData) ← CShmQueue.GetAllQueueData sq in_ret out_ret [];
  if negb (Ret =? 0) then Ok (mk ∅ sq, Ret) else
  Ok (mk (list_to_set vsAllData) sq, CShmQueue.SUCCESS).

(** [pData] is [None] for [NULL]. *)
Definition InQueue (q : t) (pData : option (list Z)) (iDataLen : Z)
    (lock : bool) (lock_ret : Z) : outcome (t * Z) :=
  match pData with
  | None => Ok (q, CShmQueue.E_SHM_QUEUE_DATALEN)
  | Some pData =>
      if iDataLen <=? 0 then Ok (q, CShmQueue.E_SHM_QUEUE_DATALEN) else
      TmpData ← mread pData 0 iDataLen;
      if decide (TmpData ∈ m_mQueueDataMap q) then Ok (q, E_SHM_QUEUE_DATAEXIST)
      else
        '(sq, Ret) ← CShmQueue.InQueue (m_ShmQueue q) pData (u32 iDataLen) lock lock_ret;
        if Ret =? 0 then Ok (mk ({[ TmpData ]} ∪ m_mQueueDataMap q) sq, Ret)
        else Ok (mk (m_mQueueDataMap q) sq, Ret)
  end.

(** The queue, the result, [*iBufLen] and the bytes written to [pBuf]. *)
Definition OutQueue (q : t) (iBufLen : Z) (lock : bool) (lock_ret : Z)
    : outcome (t * Z * Z * list Z) :=
  r ← CShmQueue.OutQueueInt (m_ShmQueue q) iBufLen lock lock_ret;
  let sq := CShmQueue.o_queue r in
  let Ret := CShmQueue.o_ret r in
  if Ret =? 0 then
    TmpData ← mread (CShmQueue.o_data r) 0 (CShmQueue.o_len r);
    Ok (mk (m_mQueueDataMap q ∖ {[ TmpData ]}) sq, Ret, CShmQueue.o_len r,
        CShmQueue.o_data r)
  else Ok (mk (m_mQueueDataMap q) sq, Ret, CShmQueue.o_len r, CShmQueue.o_data r).

Definition GetNum (q : t) : outcome Z := CShmQueue.GetNum (m_ShmQueue q).

Definition UsedSpaceInternal (q : t) : Z := CShmQueue.UsedSpaceInternal (m_ShmQueue q).

Definition TotalSpaceInternal (q : t) : Z := CShmQueue.TotalSpaceInternal (m_ShmQueue q).

End CShmUniqQueue.

Section facts.
Import CShmUniqQueue.
Implicit Types (q : CShmUniqQueue.t) (d : list Z) (ms : list (list Z)).

(** The queue holds [ms], no message twice, and the map knows exactly them. *)
Record uniq_rep q ms : Prop := {
  ur_queue : rep (m_ShmQueue q) ms;
  ur_nodup : NoDup ms;
  ur_map : m_mQueueDataMap q = list_to_set ms;
}.

(** What [InQueue] of a valid message does to the messages, and its result. *)
Definition uniq_in_spec (size : Z) ms d (locked : bool) : list (list Z) * Z :=
  if decide (d ∈ ms) then (ms, E_SHM_QUEUE_DATAEXIST) else in_spec size ms d locked.

Lemma in_spec_cases size ms d locked :
  0 < zlen d →
  in_spec size ms d locked = (ms ++ [d], CShmQueue.SUCCESS) ∨
  ∃ r, in_spec size ms d locked = (ms, r) ∧ r ≠ 0.
Proof.
  intros. unfold in_spec. destruct locked; cbn; [|eauto].
  destruct (zlen d =? 0); [eauto|]. destruct (_ <? _); eauto.
Qed.

Lemma uniq_InQueue_spec q ms d lock ret :
  uniq_rep q ms → 0 < zlen d < 2 ^ 31 →
  ∃ q', InQueue q (Some d) (zlen d) lock ret =
          Ok (q', (uniq_in_spec (CShmQueue.m_QueueDataSize (m_ShmQueue q)) ms d
                     (is_locked lock ret)).2) ∧
        uniq_rep q' (uniq_in_spec (CShmQueue.m_QueueDataSize (m_ShmQueue q)) ms d
                     (is_locked lock ret)).1.
Proof.
  intros [Hr Hn Hm] ?. unfold InQueue, uniq_in_spec.
  destruct (Z.leb_spec (zlen d) 0); [lia|]. rewrite mread_all. cbn.
  rewrite Hm. destruct (decide (d ∈ ms)) as [Hin|Hin].
  { rewrite decide_True by set_solver. by exists q. }
  rewrite decide_False by set_solver.
  rewrite u32_small, (InQueue_in_spec _ ms) by (done || lia).
  pose proof (rep_in_spec (m_ShmQueue q) ms d (is_locked lock ret) Hr) as Hr'.
  destruct (in_spec_cases (CShmQueue.m_QueueDataSize (m_ShmQueue q)) ms d
              (is_locked lock ret)) as [Hs|(r & Hs & Hr0)]; [lia|..];
    rewrite Hs in Hr' |- *; cbn in *.
  - eexists. split; [done|]. split; cbn; [done| |].
    + apply NoDup_app. split_and!; [done| |apply NoDup_singleton]. set_solver.
    + rewrite list_to_set_app_L. set_solver.
  - change CShmQueue.SUCCESS with 0 in *. apply Z.eqb_neq in Hr0.
    rewrite Hr0 in *. eexists. split; [done|]. by split.
Qed.

Lemma uniq_OutQueue_spec q d ms n :
  uniq_rep q (d :: ms) → zlen d ≤ n < 2 ^ 31 →
  ∃ q', OutQueue q n true 0 = Ok (q', CShmQueue.SUCCESS, zlen d, d) ∧ uniq_rep q' ms.
Proof.
  intros [Hr Hn Hm] ?. pose proof (rep_msg_bound _ _ Hr) as [? _]%Forall_cons.
  unfold OutQueue. rewrite (OutQueueInt_out_spec _ (d :: ms)),
    (OutQueue_out_spec _ (d :: ms)) by (done || lia). cbn.
  destruct (Z.ltb_spec n (zlen d)); [lia|]. cbn. rewrite mread_all. cbn.
  apply NoDup_cons in Hn as [? ?].
  eexists. split; [done|]. split; [by apply (rep_popped _ _ _ Hr)|done|].
  cbn. rewrite Hm. cbn. apply set_eq. set_solver.
Qed.

Lemma uniq_OutQueue_size q n q' r l d :
  OutQueue q n true 0 = Ok (q', r, l, d) →
  CShmQueue.m_QueueDataSize (m_ShmQueue q') = CShmQueue.m_QueueDataSize (m_ShmQueue q).
Proof.
  unfold OutQueue.
  destruct (CShmQueue.OutQueueInt (m_ShmQueue q) n true 0) as [o| |] eqn:Ho; cbn; [|done..].
  apply OutQueueInt_size in Ho.
  destruct (_ =? 0); cbn.
  - destruct (mread _ _ _); cbn; [|done..]. intros. by simplify_eq.
  - intros. by simplify_eq.
Qed.

Lemma uniq_OutQueue_empty q n lock ret :
  uniq_rep q [] → 0 < n < 2 ^ 31 → is_locked lock ret = true →
  OutQueue q n lock ret = Ok (q, CShmQueue.E_SHM_QUEUE_EMPTY, n, []).
Proof.
  intros [Hr _ _] ? Hl. unfold OutQueue.
  rewrite (OutQueueInt_out_spec _ []), (OutQueue_out_spec _ []) by (done || lia).
  rewrite Hl. cbn. by destruct q.
Qed.

End facts.

(** * Properties *)
Section props.
Import CShmUniqQueue.
Implicit Types (q : CShmUniqQueue.t) (d : list Z) (ms : list (list Z)).

(** A message is let in iff the queue does not hold it already and the
    underlying queue takes it; the queue never holds a message twice, and the
    map keeps knowing exactly what the queue holds, on every error too. *)
Theorem uniq_InQueue_refines q ms d lock ret :
  uniq_rep q ms → 0 < zlen d < 2 ^ 31 →
  ∃ q', InQueue q (Some d) (zlen d) lock ret =
          Ok (q', (uniq_in_spec (CShmQueue.m_QueueDataSize (m_ShmQueue q)) ms d
                     (is_locked lock ret)).2) ∧
        uniq_rep q' (uniq_in_spec (CShmQueue.m_QueueDataSize (m_ShmQueue q)) ms d
                     (is_locked lock ret)).1.
Proof. apply uniq_InQueue_spec. Qed.

(** Taking a message out makes room for it again: it is the oldest one,
    the map forgets it, and when the ring has room the same message goes back
    in at the end. *)
Theorem uniq_Out_then_In q d ms n :
  uniq_rep q (d :: ms) → zlen d ≤ n < 2 ^ 31 →
  ∃ q1 q2, OutQueue q n true 0 = Ok (q1, CShmQueue.SUCCESS, zlen d, d) ∧
    uniq_rep q1 ms ∧
    InQueue q1 (Some d) (zlen d) true 0 = Ok (q2, CShmQueue.SUCCESS) ∧
    uniq_rep q2 (ms ++ [d]).
Proof.
  intros Hq ?. pose proof Hq as [Hr Hn _].
  pose proof (rep_msg_bound _ _ Hr) as [? _]%Forall_cons.
  apply NoDup_cons in Hn as [? _].
  destruct (uniq_OutQueue_spec q d ms n Hq) as (q1 & Ho & Hq1); [done|].
  destruct (uniq_InQueue_spec q1 ms d true 0 Hq1) as (q2 & Hi & Hq2); [lia|].
  assert (uniq_in_spec (CShmQueue.m_QueueDataSize (m_ShmQueue q1)) ms d (is_locked true 0)
          = (ms ++ [d], CShmQueue.SUCCESS)) as Hs.
  { unfold uniq_in_spec. rewrite decide_False by done.
    change (is_locked true 0) with true. rewrite in_spec_fits by lia. unfold shm_fits.
    destruct (Z.leb_spec (4 + zlen d)
      (CShmQueue.m_QueueDataSize (m_ShmQueue q1) - 1 - zlen (frames ms))); [done|exfalso].
    assert (CShmQueue.m_QueueDataSize (m_ShmQueue q1)
            = CShmQueue.m_QueueDataSize (m_ShmQueue q)) as Hsz.
    { apply (uniq_OutQueue_size _ _ _ _ _ _ Ho). }
    pose proof (rep_head _ _ _ Hr) as (_ & _ & Hu).
    destruct Hr as [[Hs _ _ _] _ Hf _].
    rewrite frames_cons, zlen_app, zlen_frame in Hf. lia. }
  rewrite Hs in *. eauto 8.
Qed.

(** [Init] on an existing segment recovers the set of queued messages, so
    that duplicates stay excluded across a restart. *)
Theorem uniq_Init_recovers sq q0 ms :
  rep sq ms → NoDup ms →
  ∃ q, Init q0 CShmQueue.SHM_EXIST 0 0
         (CShmQueue.uint_bytes (CShmQueue.uiHead sq) ++
          CShmQueue.uint_bytes (CShmQueue.uiTail sq) ++ CShmQueue.m_pQueueData sq)
         (CShmQueue.m_QueueDataSize sq + 8) 0 0 = Ok (q, CShmQueue.SUCCESS) ∧
       uniq_rep q ms.
Proof.
  intros Hr Hn. destruct (Init_attached sq (m_ShmQueue q0) ms Hr) as (q' & Hi & Hr').
  unfold Init. rewrite Hi. cbn. rewrite (GetAll_rep q' ms) by done. cbn.
  eexists. split; [done|]. by split.
Qed.

(** An [OutQueue] whose buffer is too short drops the message from the
    ring but leaves it in the map: the queue no longer holds it, and yet a
    later [InQueue] of it is refused as a duplicate. *)
Theorem uniq_OutQueue_short_buffer q d ms n :
  uniq_rep q (d :: ms) → 0 < n < zlen d →
  ∃ q', OutQueue q n true 0 = Ok (q', CShmQueue.E_SHM_QUEUE_DATALEN, n, []) ∧
    rep (m_ShmQueue q') ms ∧ (d ∉ ms) ∧
    InQueue q' (Some d) (zlen d) true 0 = Ok (q', E_SHM_QUEUE_DATAEXIST).
Proof.
  intros [Hr Hn Hm] ?. pose proof (rep_msg_bound _ _ Hr) as [? _]%Forall_cons.
  unfold OutQueue. rewrite (OutQueueInt_out_spec _ (d :: ms)),
    (OutQueue_out_spec _ (d :: ms)) by (done || lia). cbn.
  destruct (Z.ltb_spec n (zlen d)); [|lia]. cbn.
  apply NoDup_cons in Hn as [? ?].
  eexists. split_and!; [done|by apply (rep_popped _ _ _ Hr)|done|].
  unfold InQueue. destruct (Z.leb_spec (zlen d) 0); [lia|].
  rewrite mread_all. cbn. rewrite decide_True; [done|]. rewrite Hm. set_solver.
Qed.
End props.

(** * The properties at a concrete queue *)
Section examples.
Import CShmUniqQueue.

Definition ex_uniq : CShmUniqQueue.t :=
  mk {[ [1; 2]; [7; 8; 9] ]} CShmQueueExample.q_wrapped.

Lemma ex_uniq_rep : uniq_rep ex_uniq [[1; 2]; [7; 8; 9]].
Proof.
  split; [apply ex_rep_wrapped| |].
  - apply (bool_decide_unpack _). vm_compute. done.
  - cbn. set_solver.
Qed.

Lemma uniq_InQueue_refines_witness :
  ∃ q', InQueue ex_uniq (Some [1; 2]) 2 true 0 = Ok (q', E_SHM_QUEUE_DATAEXIST) ∧
        uniq_rep q' [[1; 2]; [7; 8; 9]].
Proof.
  destruct (uniq_InQueue_refines ex_uniq _ [1; 2] true 0 ex_uniq_rep) as (q' & H1 & H2);
    [concrete|].
  exists q'. split; [exact H1|exact H2].
Defined.

Lemma uniq_Out_then_In_witness :
  ∃ q1 q2, OutQueue ex_uniq 10 true 0 = Ok (q1, CShmQueue.SUCCESS, 2, [1; 2]) ∧
    uniq_rep q1 [[7; 8; 9]] ∧
    InQueue q1 (Some [1; 2]) 2 true 0 = Ok (q2, CShmQueue.SUCCESS) ∧
    uniq_rep q2 [[7; 8; 9]; [1; 2]].
Proof. apply (uniq_Out_then_In ex_uniq _ _ 10 ex_uniq_rep). concrete. Defined.

Lemma uniq_Init_recovers_witness :
  ∃ q, Init ex_uniq CShmQueue.SHM_EXIST 0 0
         (CShmQueue.uint_bytes 9 ++ CShmQueue.uint_bytes 6 ++
          CShmQueue.m_pQueueData CShmQueueExample.q_wrapped) 24 0 0
       = Ok (q, CShmQueue.SUCCESS) ∧ uniq_rep q [[1; 2]; [7; 8; 9]].
Proof.
  apply (uniq_Init_recovers CShmQueueExample.q_wrapped ex_uniq); [apply ex_rep_wrapped|].
  apply (bool_decide_unpack _). vm_compute. done.
Defined.

Lemma uniq_OutQueue_short_buffer_witness :
  ∃ q', OutQueue ex_uniq 1 true 0 = Ok (q', CShmQueue.E_SHM_QUEUE_DATALEN, 1, []) ∧
    rep (m_ShmQueue q') [[7; 8; 9]] ∧ ([1; 2] ∉ [[7; 8; 9]]) ∧
    InQueue q' (Some [1; 2]) 2 true 0 = Ok (q', E_SHM_QUEUE_DATAEXIST).
Proof. apply (uniq_OutQueue_short_buffer ex_uniq _ _ 1 ex_uniq_rep). concrete. Defined.
End examples.
