(* ===== verification/ShmSpsc.v ===== *)
(** A producer and a consumer of one [CShmQueue], in two processes.

    The two ends of the ring have a lock each, so [InQueue] and [OutQueue] run
    at the same time.  Here each of them is cut where it touches the shared
    memory, and the steps of the two processes interleave in any order.  No copy
    is atomic: while the producer copies, its part of the ring may hold anything,
    and the consumer reads what it copies in pieces of any sizes, with the
    producer's steps between them. *)
From stdpp Require Import relations.
From S2P Require Import Prelude Ring Fifo ShmQueue.

Module CShmSpsc.
Import CShmQueue.

(** What is left of a [CopyDataOutQueue]: its result, or the next [memcpy] from
    the segment and what is done with the bytes. *)
Inductive reader : Type :=
  | Done (iret len : Z) (d : list Z)
  | Read (offset n : Z) (k : list Z → reader).

(** [CopyDataOutQueue(pData, &uiDataLen, offset)] with its reads of the segment
    one after the other; [size] is [m_QueueDataSize]. *)
Definition CopyData (uiDataLen len p_data_start end_used : Z) : reader :=
  if uiDataLen <? len then Done E_SHM_QUEUE_DATALEN len []
  else if len <=? end_used then Read p_data_start len (λ d, Done SUCCESS len d)
  else if 0 <? end_used then
    Read p_data_start end_used (λ d1, Read 0 (len - end_used) (λ d2, Done SUCCESS len (d1 ++ d2)))
  else Read p_data_start len (λ d, Done SUCCESS len d).
Definition CopyOut (size uiDataLen offset : Z) : reader :=
  let end_used := u32 (size - offset) in
  if 4 <=? end_used then
    Read offset 4 (λ l, CopyData uiDataLen (le_dec l) (if end_used - 4 =? 0 then 0 else offset + 4) (end_used - 4))
  else
    let remain_size := 4 - end_used in
    Read offset end_used (λ l1, Read 0 remain_size (λ l2, CopyData uiDataLen (le_dec (l1 ++ l2)) remain_size 0)).

(** All reads of the same memory. *)
Fixpoint run (r : reader) (m : list Z) : outcome (Z * Z * list Z) :=
  match r with
  | Done iret len d => Ok (iret, len, d)
  | Read offset n k => bytes ← mread m offset n; run (k bytes) m
  end.

(** Where the producer is inside [InQueue]: outside of it, past the test for
    free space, or past [CopyDataInQueue]. *)
Inductive producer : Type :=
  | PIdle
  | PChecked (d : list Z)
  | PCopied (d : list Z).

(** Where the consumer is inside [OutQueue] with a buffer of [n] bytes: outside of
    it, or past the test for an empty queue, with what is left to read. *)
Inductive consumer : Type :=
  | CIdle
  | CReading (n : Z) (r : reader).

(** The shared segment, the two processes, the messages put in so far, and what
    the calls of [OutQueue] that found one returned: the size of the buffer, the
    result, the length stored and the bytes in the buffer. *)
Record state : Type := mk_state {
  s_q : CShmQueue.t;
  s_prod : producer;
  s_cons : consumer;
  s_in : list (list Z);
  s_out : list (Z * (Z * Z * list Z));
}.

Inductive step : state → state → Prop :=
  | step_in_check q c ins outs (d : list Z) :
      0 < zlen d → zlen d + 4 < 2 ^ 32 →
      (FreeSpace q (uiHead q) (uiTail q) <? u32 (zlen d + 4)) = false →
      step (mk_state q PIdle c ins outs) (mk_state q (PChecked d) c ins outs)
  | step_in_full q c ins outs (d : list Z) :
      (FreeSpace q (uiHead q) (uiTail q) <? u32 (zlen d + 4)) = true →
      step (mk_state q PIdle c ins outs) (mk_state q PIdle c ins outs)
  | step_scribble q c ins outs (d x : list Z) :
      zlen x ≤ 4 + zlen d →
      step (mk_state q (PChecked d) c ins outs)
           (mk_state (set_data q (rput (m_pQueueData q) (uiTail q) x))
              (PChecked d) c ins outs)
  | step_in_copy q q' c ins outs (d : list Z) :
      CopyDataInQueue q d (zlen d) (uiTail q) = Ok q' →
      step (mk_state q (PChecked d) c ins outs)
           (mk_state q' (PCopied d) c ins outs)
  | step_in_tail q q' c ins outs (d : list Z) :
      AddTail q (u32 (zlen d + 4)) = Ok q' →
      step (mk_state q (PCopied d) c ins outs)
           (mk_state q' PIdle c (ins ++ [d]) outs)
  | step_out_check q p ins outs n :
      (UsedSpace q (uiHead q) (uiTail q) <? 4) = false →
      step (mk_state q p CIdle ins outs)
           (mk_state q p (CReading n (CopyOut (m_QueueDataSize q) n (uiHead q))) ins outs)
  | step_out_empty q p ins outs :
      (UsedSpace q (uiHead q) (uiTail q) <? 4) = true →
      step (mk_state q p CIdle ins outs) (mk_state q p CIdle ins outs)
  | step_out_piece q p ins outs n offset a b k piece :
      0 ≤ a → 0 ≤ b →
      mread (m_pQueueData q) offset a = Ok piece →
      step (mk_state q p (CReading n (Read offset (a + b) k)) ins outs)
           (mk_state q p (CReading n (Read (offset + a) b (λ rest, k (piece ++ rest)))) ins outs)
  | step_out_read q p ins outs n offset len k bytes :
      mread (m_pQueueData q) offset len = Ok bytes →
      step (mk_state q p (CReading n (Read offset len k)) ins outs)
           (mk_state q p (CReading n (k bytes)) ins outs)
  | step_out_head q q' p ins outs n iret len d :
      AddHead q (u32 (len + 4)) = Ok q' →
      step (mk_state q p (CReading n (Done iret len d)) ins outs)
           (mk_state q' p CIdle ins
              (outs ++ [(n, (if iret =? E_SHM_QUEUE_DATALEN then iret else SUCCESS, len, d))])).

End CShmSpsc.

Section facts.
Import CShmQueue CShmSpsc.
Implicit Types (q : CShmQueue.t) (d x : list Z) (ms : list (list Z)) (s : state) (r : reader).

(** The reads of the code, made at once, are [CopyDataOutQueue]. *)
Lemma run_CopyOut q n offset :
  run (CopyOut (m_QueueDataSize q) n offset) (m_pQueueData q) = CopyDataOutQueue q n offset.
Proof.
  assert (∀ len start e, run (CopyData n len start e) (m_pQueueData q) =
    if n <? len then Ok (E_SHM_QUEUE_DATALEN, len, [])
    else if len <=? e then d ← mread (m_pQueueData q) start len; Ok (SUCCESS, len, d)
    else if 0 <? e then
      d1 ← mread (m_pQueueData q) start e; d2 ← mread (m_pQueueData q) 0 (len - e); Ok (SUCCESS, len, d1 ++ d2)
    else d ← mread (m_pQueueData q) start len; Ok (SUCCESS, len, d)) as E.
  { intros len start e. unfold CopyData. by repeat case_match. }
  unfold CopyOut, CopyDataOutQueue. cbv zeta. destruct (4 <=? u32 (m_QueueDataSize q - offset)); cbn [run].
  - destruct (mread _ offset 4); cbn [mbind outcome_bind]; [apply E|done|done].
  - destruct (mread _ offset _); cbn [mbind outcome_bind]; [|done|done].
    destruct (mread _ 0 _); cbn [mbind outcome_bind]; [apply E|done|done].
Qed.

(** What [OutQueue] with a buffer of [n] bytes returns for a message: one that is
    longer is dropped and its length reported. *)
Definition answer (n : Z) d : Z * Z * list Z :=
  if n <? zlen d then (E_SHM_QUEUE_DATALEN, zlen d, []) else (SUCCESS, zlen d, d).

(** In every memory with [P], the reads of [r] are in bounds and find the same
    bytes, and they end with [res]. *)
Fixpoint settled (P : list Z → Prop) (res : Z * Z * list Z) (r : reader) : Prop :=
  match r with
  | Done iret len d => (iret, len, d) = res
  | Read offset n k => ∃ bytes, (∀ m, P m → mread m offset n = Ok bytes) ∧ settled P res (k bytes)
  end.

(** The memory holds the frame of [d] at [h]. *)
Definition framed (size h : Z) d (m : list Z) : Prop :=
  zlen m = size ∧ rget m h 4 = uint_bytes (zlen d) ∧ rget m ((h + 4) mod size) (zlen d) = d.

Lemma framed_at q o d m : frame_at q o d → framed (m_QueueDataSize q) o d m → frame_at (set_data q m) o d.
Proof.
  intros [[Hs ? ? ?] ? ? ? _ _] (Hz & Hl & Hd). rewrite Hs in *. split; [split; cbn; lia|cbn; lia|done|cbn; lia|done|]. cbn. by rewrite Hz.
Qed.

Lemma at_framed q o d : frame_at q o d → framed (m_QueueDataSize q) o d (m_pQueueData q).
Proof. intros [[Hs ? ? ?] ? ? ? Hl Hd]. split; [done|]. split; [done|]. by rewrite Hs. Qed.

Lemma settled_run P res r m : settled P res r → P m → run r m = Ok res.
Proof.
  induction r as [iret len d|offset n k IH]; cbn [settled run]; [by intros -> _|].
  intros (bytes & Hm & Hs) HP. rewrite (Hm m HP). by apply IH.
Qed.

(** A part of a read that is settled is settled, and so is the rest. *)
Lemma settled_piece P res offset a b k m piece :
  0 ≤ a → 0 ≤ b → P m → mread m offset a = Ok piece → settled P res (Read offset (a + b) k) →
  settled P res (Read (offset + a) b (λ rest, k (piece ++ rest))).
Proof.
  intros Ha Hb HP Hp (bytes & Hm & Hs). pose proof (mread_zlen _ _ _ _ (Hm m HP)) as Hz.
  destruct (split_at bytes a) as (x & y & -> & Hx & Hy); [lia|].
  assert (∀ m', P m' → mread m' offset a = Ok x ∧ mread m' (offset + a) b = Ok y) as Hc.
  { intros m' HP'. by apply mread_app; auto. }
  destruct (Hc m HP) as [Ex _]. rewrite Hp in Ex. injection Ex as ->. exists y. split; [|done]. intros m' HP'. by apply Hc.
Qed.

(** From the frame of a message the copy is settled. *)
Lemma CopyData_settled d n start e (P : list Z → Prop) :
  0 < zlen d →
  (zlen d ≤ e → ∀ m, P m → mread m start (zlen d) = Ok d) →
  (0 < e < zlen d → ∃ d1 d2, d = d1 ++ d2 ∧ ∀ m, P m → mread m start e = Ok d1 ∧ mread m 0 (zlen d - e) = Ok d2) →
  (e ≤ 0 → ∀ m, P m → mread m start (zlen d) = Ok d) →
  settled P (answer n d) (CopyData n (zlen d) start e).
Proof.
  intros Hd H1 H2 H3. unfold CopyData, answer. destruct (Z.ltb_spec n (zlen d)); [done|].
  destruct (Z.leb_spec (zlen d) e); [exists d; split; [by apply H1|done]|].
  destruct (Z.ltb_spec 0 e); [|exists d; split; [by apply H3|done]].
  destruct H2 as (d1 & d2 & E & Hm); [lia|]. exists d1. split; [intros m HP; apply (Hm m HP)|]. exists d2. split; [intros m HP; apply (Hm m HP)|].
  cbn. by rewrite <- E.
Qed.

Lemma split_uniform q o d :
  frame_at q o d → o + 4 < zlen (m_pQueueData q) ≤ o + 4 + zlen d →
  ∃ d1 d2, d = d1 ++ d2 ∧ ∀ m, framed (m_QueueDataSize q) o d m →
    mread m (o + 4) (zlen (m_pQueueData q) - o - 4) = Ok d1 ∧ mread m 0 (zlen d - (zlen (m_pQueueData q) - o - 4)) = Ok d2.
Proof.
  intros Hf Hs. pose proof Hf as [[Hsz ? ? ?] ? ? ? _ _].
  destruct (split_at d (zlen (m_pQueueData q) - o - 4)) as (d1 & d2 & E & Hz & _); [lia|]. exists d1, d2. split; [done|].
  intros m Hm. pose proof Hm as (Hzm & _ & _). rewrite Hsz in Hzm.
  destruct (frame_data_split (set_data q m) o d) as (e1 & e2 & E' & H1 & H2); cbn in *; [by apply framed_at|lia|].
  rewrite Hzm, Z.sub_add_distr in H1, H2. pose proof (mread_zlen _ _ _ _ H1).
  assert (e1 = d1 ∧ e2 = d2) as [-> ->]; [|done]. apply app_inj_1; [unfold zlen in *; lia|by rewrite <- E'].
Qed.

Lemma CopyOut_settled q o d n :
  frame_at q o d → settled (framed (m_QueueDataSize q) o d) (answer n d) (CopyOut (m_QueueDataSize q) n o).
Proof.
  intros Hf. pose proof Hf as [[Hs ? ? ?] ? ? ? _ _]. unfold CopyOut. rewrite u32_small by lia. cbv zeta.
  destruct (Z.leb_spec 4 (m_QueueDataSize q - o)).
  - exists (uint_bytes (zlen d)). split.
    { intros m (Hz & Hl & _). by rewrite mread_rget, Hl by lia. }
    rewrite le_dec_uint_bytes by lia. destruct (Z.eqb_spec (m_QueueDataSize q - o - 4) 0).
    + apply CopyData_settled; [done|lia|lia|]. intros _ m Hm. pose proof Hm as (Hz & _ & _).
      pose proof (frame_data_start (set_data q m) o d (framed_at _ _ _ _ Hf Hm)) as Hst. cbn in Hst. rewrite Hz in Hst.
      replace (o + 4 - m_QueueDataSize q) with 0 in Hst by lia. apply Hst. lia.
    + apply CopyData_settled; [done| | |lia].
      * intros ? m Hm. pose proof Hm as (Hz & _ & _). apply (frame_data_nowrap (set_data q m)); [by apply framed_at|cbn; lia].
      * intros ?. rewrite Hs in *. destruct (split_uniform q o d Hf) as (d1 & d2 & E & Hm); [lia|]. rewrite Hs in Hm. by exists d1, d2.
  - destruct (split_at (uint_bytes (zlen d)) (m_QueueDataSize q - o)) as (l1 & l2 & E & Hz1 & Hz2).
    { rewrite zlen_uint_bytes. lia. }
    rewrite zlen_uint_bytes in Hz2.
    assert (∀ m, framed (m_QueueDataSize q) o d m → mread m o (m_QueueDataSize q - o) = Ok l1 ∧ mread m 0 (4 - (m_QueueDataSize q - o)) = Ok l2) as Hl.
    { intros m (Hz & Hl & _). rewrite !mread_rget by lia. rewrite rget_split in Hl by lia. rewrite Hz, E in Hl.
      apply app_inj_1 in Hl as [-> ->]; [done|]. pose proof (zlen_rget m o (m_QueueDataSize q - o)). unfold zlen in *. lia. }
    exists l1. split; [intros m HP; apply (Hl m HP)|]. exists l2. split; [intros m HP; apply (Hl m HP)|].
    rewrite <- E, le_dec_uint_bytes by lia. apply CopyData_settled; [done|lia|lia|]. intros _ m Hm. pose proof Hm as (Hz & _ & _).
    pose proof (frame_data_start (set_data q m) o d (framed_at _ _ _ _ Hf Hm)) as Hst. cbn in Hst. rewrite Hz in Hst.
    replace (o + 4 - m_QueueDataSize q) with (4 - (m_QueueDataSize q - o)) in Hst by lia. apply Hst. lia.
Qed.

(** Writing behind the tail, within the free space, changes no message. *)
Lemma rep_scribble q ms x :
  rep q ms → used q + zlen x < zlen (m_pQueueData q) →
  rep (set_data q (rput (m_pQueueData q) (uiTail q) x)) ms.
Proof.
  intros [Hwf Hpos Hu Hd] Hx. pose proof (used_cases q Hwf).
  pose proof (used_bounds q Hwf). pose proof Hwf as [Hs ? ? ?].
  pose proof (zlen_nonneg x).
  assert (zlen (rput (m_pQueueData q) (uiTail q) x) = zlen (m_pQueueData q)) as Hz
    by (apply zlen_rput; lia).
  split; [split; cbn; lia|done|done|]. cbn.
  change (used (set_data q _)) with (used q).
  replace (uiTail q) with ((uiHead q + used q) mod zlen (m_pQueueData q))
    by (apply mod_once; lia).
  by rewrite rget_rput_disjoint by lia.
Qed.

(** Moving the tail over a frame that lies there appends its message. *)
Lemma rep_publish q ms d :
  rep q ms → 0 < zlen d → used q + (4 + zlen d) < zlen (m_pQueueData q) →
  rget (m_pQueueData q) (uiTail q) (4 + zlen d) = frame d →
  rep (set_tail q ((uiTail q + (4 + zlen d)) mod zlen (m_pQueueData q))) (ms ++ [d]).
Proof.
  intros [Hwf Hpos Hu Hd] ? ? Hf. pose proof (used_cases q Hwf).
  pose proof (used_bounds q Hwf). pose proof (zlen_frame d).
  pose proof Hwf as [Hs ? ? ?].
  pose proof (mod_cases (zlen (m_pQueueData q)) (uiTail q + (4 + zlen d))).
  set (q' := set_tail _ _).
  assert (wf q') as Hwf' by (split; cbn; lia).
  assert (used q' = used q + (4 + zlen d)) as Hu'.
  { apply used_unique; cbn in *; [done|lia..]. }
  split; [done| |by rewrite Hu', frames_snoc, zlen_app; lia|].
  { apply Forall_app; auto. }
  rewrite Hu', frames_snoc, (rget_app_at _ _ (uiTail q)); cbn; try lia.
  by rewrite Hd, Hf.
Qed.

Definition prod_ok q (p : producer) : Prop :=
  match p with
  | PIdle => True
  | PChecked d => 0 < zlen d ∧ used q + (4 + zlen d) < zlen (m_pQueueData q)
  | PCopied d =>
      0 < zlen d ∧ used q + (4 + zlen d) < zlen (m_pQueueData q) ∧
      rget (m_pQueueData q) (uiTail q) (4 + zlen d) = frame d
  end.

Definition cons_ok q ms (c : consumer) : Prop :=
  match c with
  | CIdle => True
  | CReading n r => ∃ d rest, ms = d :: rest ∧ settled (framed (m_QueueDataSize q) (uiHead q) d) (answer n d) r
  end.

(** The messages that were taken out, and what the calls returned for them. *)
Definition answered (ds : list (list Z)) (outs : list (Z * (Z * Z * list Z))) : Prop :=
  Forall2 (λ d o, o.2 = answer o.1 d) ds outs.

(** What every interleaving keeps: the ring holds [ms], the messages put in
    and not yet taken out. *)
Record inv s ms : Prop := {
  inv_rep : rep (s_q s) ms;
  inv_fifo : ∃ ds, s_in s = ds ++ ms ∧ answered ds (s_out s);
  inv_prod : prod_ok (s_q s) (s_prod s);
  inv_cons : cons_ok (s_q s) ms (s_cons s);
}.

Lemma rep_used_nil q ms : rep q ms → UsedSpace q (uiHead q) (uiTail q) < 4 ↔ ms = [].
Proof.
  intros Hr. pose proof Hr as [Hwf _ _ _]. rewrite used_UsedSpace by done. split.
  - destruct ms as [|d ms]; [done|]. apply rep_head in Hr. lia.
  - intros ->. apply rep_nil_used in Hr. lia.
Qed.

Lemma prod_ok_popped q d p ms :
  rep q (d :: ms) → prod_ok q p → prod_ok (popped q d) p.
Proof.
  intros Hr. pose proof (rep_head _ _ _ Hr) as (_ & ? & ?).
  assert (used (popped q d) ≤ used q).
  { destruct (rep_popped _ _ _ Hr) as [_ _ -> _]. destruct Hr as [_ _ -> _].
    rewrite frames_cons, zlen_app. pose proof (zlen_nonneg (frame d)). lia. }
  destruct p; cbn; [done|lia|]. intros (? & ? & ?). split_and!; [lia..|done].
Qed.

Lemma copied_frame q d :
  wf q → 0 < zlen d → used q + (4 + zlen d) < zlen (m_pQueueData q) →
  CopyDataInQueue q d (zlen d) (uiTail q)
    = Ok (set_data q (rput (m_pQueueData q) (uiTail q) (frame d))) ∧
  rget (rput (m_pQueueData q) (uiTail q) (frame d)) (uiTail q) (4 + zlen d) = frame d.
Proof.
  intros Hwf ? ?. pose proof (used_bounds q Hwf). pose proof Hwf as [? ? ? ?].
  pose proof (zlen_frame d). split; [apply CopyDataInQueue_frame; auto; lia|].
  replace (4 + zlen d) with (zlen (frame d)) by lia. apply rget_rput; lia.
Qed.

Lemma AddTail_publish q d :
  wf q → 0 < zlen d → used q + (4 + zlen d) < zlen (m_pQueueData q) →
  AddTail q (u32 (zlen d + 4))
  = Ok (set_tail q ((uiTail q + (4 + zlen d)) mod zlen (m_pQueueData q))).
Proof.
  intros Hwf ? ?. pose proof (used_bounds q Hwf). pose proof Hwf as [? ? ? ?].
  unfold AddTail. rewrite u32_small, AddOffset_mod by (done || lia). cbn.
  do 3 f_equal. lia.
Qed.

Lemma free_room q ms d :
  rep q ms → 0 < zlen d → zlen d + 4 < 2 ^ 32 →
  (FreeSpace q (uiHead q) (uiTail q) <? u32 (zlen d + 4)) = false →
  used q + (4 + zlen d) < zlen (m_pQueueData q).
Proof.
  intros [Hwf _ _ _] ? ?. pose proof Hwf as [Hs ? ? ?].
  rewrite FreeSpace_mod, u32_small by (done || lia). fold (used q).
  intros ?%Z.ltb_ge. lia.
Qed.

(** The oldest message lies in the ring. *)
Lemma rep_framed q d ms : rep q (d :: ms) → framed (m_QueueDataSize q) (uiHead q) d (m_pQueueData q).
Proof. intros Hr. by apply at_framed, (rep_head _ _ _ Hr). Qed.

(** A message put in behind the others does not disturb the consumer. *)
Lemma cons_ok_tail q ms (t : Z) d c : cons_ok q ms c → cons_ok (set_tail q t) (ms ++ [d]) c.
Proof. destruct c as [|n r]; [done|]. intros (e & rest & -> & Hs). by exists e, (rest ++ [d]). Qed.

(** Every step of either process keeps the invariant. *)
Lemma step_inv s s' ms : inv s ms → step s s' → ∃ ms', inv s' ms'.
Proof.
  intros [Hr Hio Hp Hc] Hst.
  destruct Hst as [q c ins outs d Hd Hd' Hfree|q c ins outs d Hfull|q c ins outs d x Hx
    |q q' c ins outs d Hcp|q q' c ins outs d Hadd|q p ins outs n Hne|q p ins outs He
    |q p ins outs n offset a b k piece Ha Hb Hrd|q p ins outs n offset len k bytes Hrd|q q' p ins outs n iret len d Hadd];
    cbn [s_q s_prod s_cons s_in s_out] in *; pose proof Hr as [Hwf _ _ _].
  - exists ms. split; cbn; auto. split; [lia|]. apply (free_room q ms); auto; lia.
  - by exists ms.
  - destruct Hp as [? ?]. exists ms. split; cbn; auto; [apply rep_scribble; auto; lia|].
    rewrite zlen_rput by (pose proof (used_bounds q Hwf); destruct Hwf; lia). done.
  - destruct Hp as [? ?]. destruct (copied_frame q d) as [Hcp' Hg]; [done|lia..|].
    rewrite Hcp' in Hcp. injection Hcp as <-. exists ms. pose proof (zlen_frame d).
    split; cbn; auto; [apply rep_scribble; auto; lia|].
    by rewrite zlen_rput by (pose proof (used_bounds q Hwf); destruct Hwf; lia).
  - destruct Hp as (? & ? & Hf). rewrite AddTail_publish in Hadd by (done || lia).
    injection Hadd as <-. exists (ms ++ [d]). destruct Hio as (ds & -> & Ha). split; cbn; auto.
    + by apply rep_publish; [|lia|lia|].
    + exists ds. by rewrite <- app_assoc.
    + by apply cons_ok_tail.
  - exists ms. split; cbn; auto. destruct ms as [|d ms].
    { pose proof (proj2 (rep_used_nil q [] Hr) eq_refl) as Hlt. apply Z.ltb_ge in Hne. lia. }
    exists d, ms. split; [done|]. apply CopyOut_settled, (rep_head _ _ _ Hr).
  - by exists ms.
  - destruct Hc as (d & rest & -> & Hs). exists (d :: rest). split; cbn; auto. exists d, rest. split; [done|].
    by apply (settled_piece _ _ _ _ _ _ (m_pQueueData q)); [| |apply (rep_framed _ _ _ Hr)| |].
  - destruct Hc as (d & rest & -> & bytes' & Hm & Hs). rewrite (Hm _ (rep_framed _ _ _ Hr)) in Hrd. injection Hrd as <-.
    exists (d :: rest). split; cbn; auto. by exists d, rest.
  - destruct Hc as (e & rest & -> & Hs). cbn in Hs. assert (len = zlen e) as -> by (unfold answer in Hs; by case_match; injection Hs).
    rewrite (AddHead_popped q e rest) in Hadd by done. injection Hadd as <-. exists rest. destruct Hio as (ds & -> & Ha). split; cbn; auto.
    + by apply (rep_popped q e).
    + exists (ds ++ [e]). split; [by rewrite <- app_assoc|]. apply Forall2_app; [done|]. constructor; [|constructor].
      cbn. rewrite <- Hs. unfold answer in Hs. by case_match; injection Hs as -> ->.
    + by apply (prod_ok_popped q e p rest).
Qed.

Definition init_state q : state := mk_state q PIdle CIdle [] [].

Lemma reach_inv q s : rep q [] → rtc step (init_state q) s → ∃ ms, inv s ms.
Proof.
  intros Hr Hs.
  assert (∃ ms, inv (init_state q) ms) as Hi by (exists []; split; cbn; auto; exists []; split; [done|constructor]).
  revert Hi. induction Hs as [s|s1 s2 s3 H12 _ IH]; [done|].
  intros [ms Hms]. apply IH. by apply (step_inv s1 s2 ms).
Qed.

End facts.

(** * Properties *)
Section props.
Import CShmQueue CShmSpsc.

(** C8: in every interleaving of a producer and a consumer, where neither copy is
    atomic, the messages taken out are the ones put in, in order: each call of
    [OutQueue] that found a message returns the next one intact, or, if it is
    longer than the buffer of that call, drops it and returns its length and
    [E_SHM_QUEUE_DATALEN].  The ring holds exactly the messages put in and not
    taken out.  (Messages have fewer than 2^32 - 4 bytes.) *)
Theorem spsc_fifo q s :
  rep q [] → rtc step (init_state q) s →
  ∃ ds ms, s_in s = ds ++ ms ∧ answered ds (s_out s) ∧ rep (s_q s) ms.
Proof.
  intros Hr Hs. destruct (reach_inv q s Hr Hs) as [ms [Hr' (ds & Hi & Ha) _ _]]. eauto.
Qed.

(** C11: no interleaving gets stuck or faults: wherever the two processes are,
    the next memory access of each is in bounds, and a consumer that found the
    queue nonempty, however much of the message it has read, ends its copy with
    what the oldest message is answered with, whatever the producer does
    meanwhile. *)
Theorem spsc_progress q s :
  rep q [] → rtc step (init_state q) s →
  (∀ d, s_prod s = PChecked d →
     is_ok (CopyDataInQueue (s_q s) d (zlen d) (uiTail (s_q s))) = true) ∧
  (∀ d, s_prod s = PCopied d → is_ok (AddTail (s_q s) (u32 (zlen d + 4))) = true) ∧
  (∀ n r, s_cons s = CReading n r → ∃ ds d rest,
     s_in s = ds ++ d :: rest ∧ answered ds (s_out s) ∧
     run r (m_pQueueData (s_q s)) = Ok (answer n d) ∧
     match r with
     | Done iret len _ => is_ok (AddHead (s_q s) (u32 (len + 4))) = true
     | Read offset len k => ∃ bytes, mread (m_pQueueData (s_q s)) offset len = Ok bytes
     end).
Proof.
  intros Hr Hs. destruct (reach_inv q s Hr Hs) as [ms [Hr' (ds & Hi & Ha) Hp Hc]].
  pose proof Hr' as [Hwf _ _ _]. split_and!.
  - intros d Hd. rewrite Hd in Hp. destruct Hp as [? ?].
    by destruct (copied_frame (s_q s) d) as [-> _]; [|lia..|].
  - intros d Hd. rewrite Hd in Hp. destruct Hp as (? & ? & _).
    by rewrite AddTail_publish by (done || lia).
  - intros n r Hd. rewrite Hd in Hc. destruct Hc as (d & rest & -> & Hst). exists ds, d, rest.
    pose proof (rep_framed _ _ _ Hr') as Hf. split; [done|]. split; [done|]. split; [by apply (settled_run _ _ _ _ Hst)|].
    destruct r as [iret len e|offset len k].
    + cbn in Hst. assert (len = zlen d) as -> by (unfold answer in Hst; by case_match; injection Hst).
      by rewrite (AddHead_popped _ d rest).
    + destruct Hst as (bytes & Hm & _). exists bytes. by apply Hm.
Qed.
End props.

(** The calls of [InQueue] and [OutQueue], made with nothing between their
    accesses, are such steps. *)
Section calls.
Import CShmQueue CShmSpsc.
Implicit Types (q : CShmQueue.t) (d : list Z).

Lemma InQueue_steps q q' c ins outs d :
  0 < zlen d → zlen d + 4 < 2 ^ 32 → InQueue q d (zlen d) false 0 = Ok (q', SUCCESS) →
  rtc step (mk_state q PIdle c ins outs) (mk_state q' PIdle c (ins ++ [d]) outs).
Proof.
  intros ? ? Hin. unfold InQueue in Hin. cbn [andb] in Hin. rewrite (proj2 (Z.eqb_neq (zlen d) 0)) in Hin by lia. cbv zeta in Hin.
  destruct (FreeSpace q (uiHead q) (uiTail q) <? u32 (zlen d + 4)) eqn:Hf; [done|].
  destruct (CopyDataInQueue q d (zlen d) (uiTail q)) as [q1| |] eqn:Hc; [|done..].
  cbn [mbind outcome_bind] in Hin. destruct (AddTail q1 (u32 (zlen d + 4))) as [q2| |] eqn:Ha; [|done..].
  injection Hin as <-. eapply rtc_l; [by apply (step_in_check q c ins outs d)|]. eapply rtc_l; [by apply step_in_copy|].
  eapply rtc_l; [by apply step_in_tail|]. apply rtc_refl.
Qed.

Lemma reads_steps q p ins outs n r iret len d :
  run r (m_pQueueData q) = Ok (iret, len, d) →
  rtc step (mk_state q p (CReading n r) ins outs) (mk_state q p (CReading n (Done iret len d)) ins outs).
Proof.
  induction r as [iret' len' d'|offset m k IH]; cbn [run]; [intros [= -> -> ->]; apply rtc_refl|].
  destruct (mread (m_pQueueData q) offset m) as [bytes| |] eqn:Hr; [|done..]. cbn [mbind outcome_bind]. intros Hk.
  eapply rtc_l; [by apply step_out_read|]. by apply IH.
Qed.

Lemma OutQueue_steps q p ins outs n o :
  OutQueue q n false 0 = Ok o → o_ret o ≠ E_SHM_QUEUE_EMPTY →
  rtc step (mk_state q p CIdle ins outs)
    (mk_state (o_queue o) p CIdle ins (outs ++ [(n, (o_ret o, o_len o, o_data o))])).
Proof.
  intros Ho Hne. unfold OutQueue in Ho. cbn [andb] in Ho. cbv zeta in Ho.
  destruct (UsedSpace q (uiHead q) (uiTail q) <? 4) eqn:Hu; [by injection Ho as <-|].
  rewrite <- run_CopyOut in Ho. destruct (run _ _) as [[[iret len] d]| |] eqn:Hr; [|done..]. cbn [mbind outcome_bind] in Ho.
  eapply rtc_l; [by apply (step_out_check q p ins outs n)|]. etrans; [by apply reads_steps|].
  destruct (AddHead q (u32 (len + 4))) as [q'| |] eqn:Ha; cbn [mbind outcome_bind] in Ho; [|by case_match..].
  eapply rtc_l; [by apply step_out_head|].
  destruct (Z.eqb_spec iret E_SHM_QUEUE_DATALEN); injection Ho as <-; cbn; apply rtc_refl.
Qed.
End calls.

(** * The properties along a concrete interleaving *)
Section examples.
Import CShmQueue CShmSpsc CShmQueueExample.

(** The consumer looks at the empty queue; the producer starts to copy, writes a
    byte of its message, and puts it in; the consumer sees it with a buffer of one
    byte and reads a byte of its length; the producer writes a part of its next
    message.  Then the consumer is still to read what drops the first one. *)
Lemma ex_spsc_run : ∃ s r, rtc step (init_state q0) s ∧
  s_cons s = CReading 1 r ∧ s_prod s = PChecked [1] ∧ s_in s = [[5; 6]].
Proof.
  eexists _, _. split.
  - eapply rtc_l; [by apply step_out_empty|].
    eapply rtc_l; [apply (step_in_check _ _ _ _ [5; 6]); concrete|].
    eapply rtc_l; [apply (step_scribble _ _ _ _ [5; 6] [99]); concrete|].
    eapply rtc_l; [by apply step_in_copy|].
    eapply rtc_l; [by apply step_in_tail|].
    eapply rtc_l; [apply (step_in_check _ _ _ _ [1]); concrete|].
    eapply rtc_l; [by apply (step_out_check _ _ _ _ 1)|].
    eapply rtc_l; [apply (step_out_piece _ _ _ _ 1 9 1 3 _ [2]); [lia|lia|vm_compute; reflexivity]|].
    eapply rtc_l; [apply (step_scribble _ _ _ _ [1] [98; 97]); concrete|].
    apply rtc_refl.
  - done.
Qed.

(** Two messages: the first is longer than the buffer of the call that finds it. *)
Lemma ex_spsc_taken : ∃ s, rtc step (init_state q0) s ∧ s_in s = [[5; 6]; [1]] ∧
  s_out s = [(1, (E_SHM_QUEUE_DATALEN, 2, [])); (8, (SUCCESS, 1, [1]))].
Proof.
  eexists. split.
  - etrans; [eapply (InQueue_steps _ _ _ _ _ [5; 6]); [concrete|concrete|vm_compute; reflexivity]|].
    etrans; [eapply (OutQueue_steps _ _ _ _ 1); [vm_compute; reflexivity|done]|].
    etrans; [eapply (InQueue_steps _ _ _ _ _ [1]); [concrete|concrete|vm_compute; reflexivity]|].
    eapply (OutQueue_steps _ _ _ _ 8); [vm_compute; reflexivity|done].
  - split; reflexivity.
Qed.

Lemma spsc_fifo_witness : ∃ s, rtc step (init_state q0) s ∧ s_in s = [[5; 6]; [1]] ∧
  s_out s = [(1, (E_SHM_QUEUE_DATALEN, 2, [])); (8, (SUCCESS, 1, [1]))] ∧
  ∃ ds ms, s_in s = ds ++ ms ∧ answered ds (s_out s) ∧ rep (s_q s) ms.
Proof.
  destruct ex_spsc_taken as (s & Hs & Hin & Hout). exists s. split; [exact Hs|].
  split; [exact Hin|]. split; [exact Hout|].
  apply (spsc_fifo q0 s); [exact ex_rep_q0|exact Hs].
Defined.

Lemma spsc_progress_witness : ∃ s r ds d rest, rtc step (init_state q0) s ∧
  s_in s = ds ++ d :: rest ∧ run r (m_pQueueData (s_q s)) = Ok (answer 1 d).
Proof.
  destruct ex_spsc_run as (s & r & Hs & Hc & _ & _).
  destruct (spsc_progress q0 s) as (_ & _ & Hp); [exact ex_rep_q0|exact Hs|].
  destruct (Hp 1 r Hc) as (ds & d & rest & H1 & _ & H2 & _). exists s, r, ds, d, rest. auto.
Defined.
End examples.
