(* ===== verification/MmapQueue.v ===== *)
(** [CMmapQueue] (mmlib/mmap_queue): a ring of framed messages in anonymous
    shared memory, one semaphore around every operation.

    [m_pMem] is the data area in front of the [QueueHead]; leaving it is a
    [Fault] here (in memory the header would be overwritten).  [sem_held] says
    that some process is between [Lock] and [Release]; a [Lock] that nobody
    will end does not return, which is [Spin]. *)
From S2P Require Import Prelude Ring Fifo.

Module CMmapQueue.

Definition SUCCESS : Z := 0.
Definition ERROR : Z := -1.
Definition E_MMAP_QUEUE_ERROR : Z := -603.
Definition E_MMAP_QUEUE_FULL : Z := -604.
Definition E_MMAP_QUEUE_EMPTY : Z := -605.

(** [QueueHead], the data area, [m_iQueueSize] and the semaphore. *)
Record t : Type := mk {
  iLen : Z;
  iHead : Z;
  iTail : Z;
  iNum : Z;
  m_pMem : list Z;
  m_iQueueSize : Z;
  sem_held : bool;
}.

Definition Lock (q : t) : outcome t :=
  if sem_held q then Spin
  else Ok (mk (iLen q) (iHead q) (iTail q) (iNum q) (m_pMem q) (m_iQueueSize q) true).

Definition Release (q : t) : t :=
  mk (iLen q) (iHead q) (iTail q) (iNum q) (m_pMem q) (m_iQueueSize q) false.

(** [sizeof(BlockHead)], its last two bytes being padding, and
    [sizeof(szTail)]. *)
Definition SIZEOF_BLOCKHEAD : Z := 8.
Definition SIZEOF_TAIL : Z := 6.
Definition szTail : list Z := [170; 170; 170; 170; 170; 170].

(** [memcpy] of a [BlockHead]: [iIndex], [iLen] as [unsigned short], and what
    the padding [pad] happens to be. *)
Definition BlockHead (index len : Z) (pad : list Z) : list Z :=
  le_enc 4 index ++ le_enc 2 (u16 len) ++ pad.

(** [Init] after the semaphore and the mapping were had: all bytes zero. *)
Definition Init (aiSize : Z) : t :=
  mk aiSize 0 0 0 (replicate (Z.to_nat aiSize) 0) aiSize false.

Definition FreeSpace (q : t) : Z :=
  if (iHead q <? iTail q) || ((iHead q =? iTail q) && (iNum q =? 0)) then
    u32 (iLen q - (iTail q - iHead q))
  else if iTail q <? iHead q then u32 (iHead q - iTail q)
  else 0.

(** The branch of [InQueue] for a block that may wrap around: its three parts
    one after the other, each with the area, [liIndex] and [liLeft]. *)
Definition put_head (q : t) (stHead : list Z) : outcome (list Z * Z * Z) :=
  let liLeft := u32 (iLen q - iTail q) in
  if SIZEOF_BLOCKHEAD <=? liLeft then
    m ← memcpy (m_pMem q) (iTail q) stHead 0 SIZEOF_BLOCKHEAD;
    i ← umod (iTail q + SIZEOF_BLOCKHEAD) (iLen q);
    Ok (m, i, liLeft - SIZEOF_BLOCKHEAD)
  else
    m ← memcpy (m_pMem q) (iTail q) stHead 0 liLeft;
    m ← memcpy m 0 stHead liLeft (SIZEOF_BLOCKHEAD - liLeft);
    i ← umod (SIZEOF_BLOCKHEAD - liLeft) (iLen q);
    Ok (m, i, u32 (iLen q - i)).

Definition put_data (N : Z) (m : list Z) (liIndex liLeft : Z) (pData : list Z)
    (iDataLen : Z) : outcome (list Z * Z * Z) :=
  if iDataLen <=? i32 liLeft then
    m ← memcpy m liIndex pData 0 iDataLen;
    i ← umod (u32 (liIndex + iDataLen)) N;
    Ok (m, i, u32 (liLeft - iDataLen))
  else
    m ← memcpy m liIndex pData 0 liLeft;
    m ← memcpy m 0 pData liLeft (u32 (iDataLen - liLeft));
    i ← umod (u32 (iDataLen - liLeft)) N;
    Ok (m, i, u32 (N - i)).

Definition put_tail (m : list Z) (liIndex liLeft : Z) : outcome (list Z) :=
  if SIZEOF_TAIL <=? liLeft then memcpy m liIndex szTail 0 SIZEOF_TAIL
  else
    m ← memcpy m liIndex szTail 0 liLeft;
    memcpy m 0 szTail liLeft (SIZEOF_TAIL - liLeft).

Definition InQueue_split (q : t) (stHead pData : list Z) (iDataLen : Z)
    : outcome (list Z) :=
  '(m, liIndex, liLeft) ← put_head q stHead;
  '(m, liIndex, liLeft) ← put_data (iLen q) m liIndex liLeft pData iDataLen;
  put_tail m liIndex liLeft.

(** [InQueue(pData, iDataLen)]; [pad] is the padding of its [BlockHead]. *)
Definition InQueue (q : t) (pad pData : list Z) (iDataLen : Z) : outcome (t * Z) :=
  q ← Lock q;
  let need := u64 (iDataLen + SIZEOF_BLOCKHEAD + SIZEOF_TAIL) in
  if FreeSpace q <? need then Ok (Release q, E_MMAP_QUEUE_FULL)
  else
    let liLeft := u32 (iLen q - iTail q) in
    let stHead := BlockHead (iTail q) iDataLen pad in
    m ← (if (iTail q <? iHead q) || (need <=? liLeft) then
           m ← memcpy (m_pMem q) (iTail q) stHead 0 SIZEOF_BLOCKHEAD;
           m ← memcpy m (iTail q + SIZEOF_BLOCKHEAD) pData 0 iDataLen;
           memcpy m (u32 (iTail q + SIZEOF_BLOCKHEAD + iDataLen)) szTail 0 SIZEOF_TAIL
         else InQueue_split q stHead pData iDataLen);
    x ← umod (u32 (iTail q + iDataLen) + SIZEOF_BLOCKHEAD + SIZEOF_TAIL) (iLen q);
    Ok (Release (mk (iLen q) (iHead q) x (u32 (iNum q + 1)) m (m_iQueueSize q)
                   (sem_held q)), SUCCESS).

(** The [BlockHead] at the head of the queue: [iIndex], [iLen] and the index
    after it. *)
Definition ReadBlockHead (q : t) : outcome (Z * Z * Z) :=
  let liLeft := u32 (iLen q - iHead q) in
  '(hb, i) ←
    (if liLeft <? SIZEOF_BLOCKHEAD then
       b1 ← mread (m_pMem q) (iHead q) liLeft;
       b2 ← mread (m_pMem q) 0 (SIZEOF_BLOCKHEAD - liLeft);
       i ← umod (SIZEOF_BLOCKHEAD - liLeft) (iLen q);
       Ok (b1 ++ b2, i)
     else
       b ← mread (m_pMem q) (iHead q) SIZEOF_BLOCKHEAD;
       i ← umod (iHead q + SIZEOF_BLOCKHEAD) (iLen q);
       Ok (b, i));
  Ok (le_dec (take 4 hb), le_dec (take 2 (drop 4 hb)), i).

(** The data of a block, the index and the room after it, and the six bytes
    that should be the tail flag. *)
Definition get_data (q : t) (liIndex len : Z) : outcome (list Z * Z * Z) :=
  let liLeft := u32 (iLen q - liIndex) in
  if liLeft <? len then
    d1 ← mread (m_pMem q) liIndex liLeft;
    d2 ← mread (m_pMem q) 0 (len - liLeft);
    i ← umod (u32 (len - liLeft)) (iLen q);
    Ok (d1 ++ d2, i, u32 (iLen q - i))
  else
    d ← mread (m_pMem q) liIndex len;
    i ← umod (u32 (liIndex + len)) (iLen q);
    Ok (d, i, u32 (liLeft - len)).

Definition get_tail (q : t) (liIndex liLeft : Z) : outcome (list Z) :=
  if SIZEOF_TAIL <=? liLeft then mread (m_pMem q) liIndex SIZEOF_TAIL
  else
    t1 ← mread (m_pMem q) liIndex liLeft;
    t2 ← mread (m_pMem q) 0 (SIZEOF_TAIL - liLeft);
    Ok (t1 ++ t2).

(** [OutQueue(pBuf, &iBufLen)]: the queue, the result, [*iBufLen] and the bytes
    written to [pBuf]; [have_buf] says that [pBuf] is not [NULL]. *)
Definition OutQueue (q : t) (iBufLen : Z) (have_buf : bool)
    : outcome (t * Z * Z * list Z) :=
  q ← Lock q;
  if (0 <? iNum q) || negb (iHead q =? iTail q) then
    '(index, len, liIndex) ← ReadBlockHead q;
    if (iBufLen <? len) || negb (index =? iHead q) || negb have_buf then
      Ok (mk (m_iQueueSize q) 0 0 0 (m_pMem q) (m_iQueueSize q) (sem_held q),
          E_MMAP_QUEUE_ERROR, iBufLen, [])
    else
      '(d, liIndex, liLeft) ← get_data q liIndex len;
      szGetData ← get_tail q liIndex liLeft;
      h ← umod (u32 (iHead q + len) + SIZEOF_BLOCKHEAD + SIZEOF_TAIL) (iLen q);
      let q := mk (iLen q) h (iTail q) (u32 (iNum q - 1)) (m_pMem q)
                 (m_iQueueSize q) (sem_held q) in
      Ok (Release q, if decide (szGetData = szTail) then SUCCESS else ERROR, len, d)
  else Ok (Release q, E_MMAP_QUEUE_EMPTY, iBufLen, []).

Definition GetNum (q : t) : outcome (t * Z) :=
  q ← Lock q; Ok (Release q, i32 (iNum q)).

Arguments InQueue : simpl never.
Arguments OutQueue : simpl never.
Arguments InQueue_split : simpl never.
Arguments ReadBlockHead : simpl never.
Arguments put_head : simpl never.
Arguments put_data : simpl never.
Arguments put_tail : simpl never.
Arguments get_data : simpl never.
Arguments get_tail : simpl never.
Arguments BlockHead : simpl never.

End CMmapQueue.

(** Two messages through a region of forty bytes; the second one wraps. *)
Module CMmapQueueExample.
Import CMmapQueue.
Definition q2 : outcome t :=
  '(q, _) ← InQueue (Init 40) [7; 7] [1; 2; 3] 3;
  '(q, _, _, d) ← OutQueue q 10 true;
  '(q, _) ← InQueue q [7; 7] [4; 5; 6] 3;
  '(q, _) ← InQueue q [7; 7] [7] 1; Ok q.
Example q2_out :
  (q ← q2; '(q, r, _, d) ← OutQueue q 10 true; '(q, r', _, d') ← OutQueue q 10 true;
   Ok (r, d, r', d')) = Ok (0, [4; 5; 6], 0, [7]).
Proof. reflexivity. Qed.
End CMmapQueueExample.

(** * The queue as a FIFO of byte strings *)
Section facts.
Import CMmapQueue.
Implicit Types (q : CMmapQueue.t) (d pad : list Z) (ms : list (list Z)).

(** A block as it lies in the ring, at index [o]; [len] is what its head says. *)
Definition block (o len : Z) pad d : list Z := BlockHead o len pad ++ d ++ szTail.
Definition block_size d : Z := 14 + zlen d.
Fixpoint blocks_size ms : Z :=
  match ms with [] => 0 | d :: ms => block_size d + blocks_size ms end.

(** The blocks of [ms] from index [o] on, in a ring of [N] bytes. *)
Inductive blocks (N : Z) : Z → list (list Z) → list Z → Prop :=
  | blocks_nil o : blocks N o [] []
  | blocks_cons o d pad ms bs :
      zlen pad = 2 → zlen d < 2 ^ 16 →
      blocks N ((o + block_size d) mod N) ms bs →
      blocks N o (d :: ms) (block o (zlen d) pad d ++ bs).

Record mwf q : Prop := {
  mwf_len : iLen q = zlen (m_pMem q);
  mwf_size : m_iQueueSize q = zlen (m_pMem q);
  mwf_pos : 0 < zlen (m_pMem q) < 2 ^ 31;
  mwf_head : 0 ≤ iHead q < zlen (m_pMem q);
  mwf_tail : 0 ≤ iTail q < zlen (m_pMem q);
  mwf_free : sem_held q = false;
}.

(** [mrep q ms]: nobody holds the semaphore and the queue holds [ms]. *)
Record mrep q ms : Prop := {
  mrep_wf : mwf q;
  mrep_fit : blocks_size ms ≤ zlen (m_pMem q);
  mrep_num : iNum q = zlen ms;
  mrep_tail : iTail q = (iHead q + blocks_size ms) mod zlen (m_pMem q);
  mrep_data : blocks (zlen (m_pMem q)) (iHead q) ms
                (rget (m_pMem q) (iHead q) (blocks_size ms));
}.

Lemma blocks_size_ge ms : 14 * zlen ms ≤ blocks_size ms.
Proof.
  induction ms as [|d ms IH]; [done|]. cbn. unfold block_size.
  rewrite zlen_cons. pose proof (zlen_nonneg d). lia.
Qed.

Lemma blocks_size_snoc ms d : blocks_size (ms ++ [d]) = blocks_size ms + block_size d.
Proof. induction ms as [|e ms IH]; cbn; [lia|]. rewrite IH. lia. Qed.

Lemma zlen_BlockHead o len pad : zlen pad = 2 → zlen (BlockHead o len pad) = 8.
Proof. intros. unfold BlockHead. autorewrite with zlen. lia. Qed.

Lemma zlen_block o len pad d : zlen pad = 2 → zlen (block o len pad d) = block_size d.
Proof.
  intros. unfold block, block_size. rewrite !zlen_app, zlen_BlockHead by done.
  change (zlen szTail) with 6. lia.
Qed.

Lemma blocks_zlen N o ms bs : blocks N o ms bs → zlen bs = blocks_size ms.
Proof.
  induction 1 as [|o d pad ms bs Hp _ _ IH]; [done|].
  rewrite zlen_app, zlen_block, IH by done. done.
Qed.

Lemma blocks_snoc N o ms bs d pad :
  0 ≤ o < N → zlen pad = 2 → zlen d < 2 ^ 16 → blocks N o ms bs →
  blocks N o (ms ++ [d]) (bs ++ block ((o + blocks_size ms) mod N) (zlen d) pad d).
Proof.
  intros HN Hp Hd Hb. revert HN. induction Hb as [o|o e pad' ms bs ? ? _ IH]; intros HN; cbn.
  - rewrite Z.add_0_r, Z.mod_small by done. rewrite <- (app_nil_r (block _ _ _ _)).
    constructor; auto. constructor.
  - specialize (IH (Z.mod_pos_bound _ N ltac:(lia))). rewrite <- app_assoc. constructor; auto. rewrite Z.add_mod_idemp_l in IH by lia.
    by rewrite Z.add_assoc.
Qed.

(** The free space the code works out is what the blocks leave. *)
Lemma FreeSpace_mrep q ms :
  mrep q ms → FreeSpace q = zlen (m_pMem q) - blocks_size ms.
Proof.
  intros [[Hl _ ? ? ? _] ? Hn Ht _]. unfold FreeSpace. rewrite Hl, Hn.
  pose proof (blocks_size_ge ms). pose proof (zlen_nonneg ms).
  assert (ms = [] ∨ 1 ≤ zlen ms) as [-> | ?].
  { destruct ms; [by left|right]. rewrite zlen_cons. pose proof (zlen_nonneg ms). lia. }
  - cbn in *. rewrite Z.add_0_r, Z.mod_small in Ht by lia. rewrite Ht.
    rewrite Z.ltb_irrefl, Z.eqb_refl, zlen_nil. cbn. rewrite u32_small; lia.
  - destruct (mod_cases (zlen (m_pMem q)) (iHead q + blocks_size ms)) as [[He ?]|[He ?]];
      [lia|rewrite He in Ht..];
      (destruct (Z.eqb_spec (zlen ms) 0); [lia|]); rewrite andb_false_r, orb_false_r;
      (destruct (Z.ltb_spec (iHead q) (iTail q)); [rewrite u32_small; lia|]);
      (destruct (Z.ltb_spec (iTail q) (iHead q)); [rewrite u32_small; lia|lia]).
Qed.

(** After [n] bytes written or read from [o] on: the index, and what is left. *)
Lemma wrap_left_next {A} (m : list A) o left n :
  wrap_left m o left → 0 ≤ n ≤ zlen m →
  wrap_left m ((o + n) mod zlen m)
    (if n <=? left then left - n else zlen m - (n - left)).
Proof.
  intros [? Hl] ?. unfold wrap_left.
  pose proof (mod_cases (zlen m) (o + n)).
  destruct (Z.leb_spec n left); destruct Hl as [-> | [-> ->]]; lia.
Qed.

Lemma put_head_spec q hd :
  mwf q → zlen hd = 8 → 8 ≤ zlen (m_pMem q) →
  ∃ l, put_head q hd = Ok (rput (m_pMem q) (iTail q) hd,
                           (iTail q + 8) mod zlen (m_pMem q), l) ∧
       wrap_left (m_pMem q) ((iTail q + 8) mod zlen (m_pMem q)) l.
Proof.
  intros [Hl _ ? ? ? _] Hz ?.
  assert (wrap_left (m_pMem q) (iTail q) (zlen (m_pMem q) - iTail q)) as Hw
    by (unfold wrap_left; lia).
  pose proof (wrap_left_next _ _ _ 8 Hw ltac:(lia)) as Hn.
  pose proof (memcpy_wrap _ _ _ hd Hw ltac:(lia)) as Hm. rewrite Hz in Hm.
  pose proof (mod_cases (zlen (m_pMem q)) (iTail q + 8)).
  unfold put_head, SIZEOF_BLOCKHEAD. rewrite Hl, u32_small by lia.
  destruct (Z.leb_spec 8 (zlen (m_pMem q) - iTail q)).
  - rewrite Hm. cbn. rewrite umod_pos by lia. eexists. by split.
  - destruct (memcpy (m_pMem q) (iTail q) hd 0 _) as [m1| |]; cbn in Hm |- *; [|done..].
    rewrite Hm. cbn. rewrite umod_pos by lia. cbn.
    rewrite (Z.mod_small (8 - _)), u32_small by lia.
    replace ((iTail q + 8) mod zlen (m_pMem q))
      with (8 - (zlen (m_pMem q) - iTail q)) in * by lia. eauto.
Qed.

Lemma put_data_spec m i l d :
  wrap_left m i l → zlen d ≤ zlen m → zlen m < 2 ^ 31 →
  ∃ l', put_data (zlen m) m i l d (zlen d)
          = Ok (rput m i d, (i + zlen d) mod zlen m, l') ∧
        wrap_left m ((i + zlen d) mod zlen m) l'.
Proof.
  intros Hw ? ?. pose proof (zlen_nonneg d).
  pose proof (wrap_left_next _ _ _ (zlen d) Hw ltac:(lia)) as Hn.
  pose proof (memcpy_wrap _ _ _ d Hw ltac:(lia)) as Hm.
  pose proof Hw as [? Hl]. unfold put_data.
  pose proof (mod_cases (zlen m) (i + zlen d)). rewrite i32_small by lia.
  destruct (Z.leb_spec (zlen d) l).
  - rewrite Hm. cbn. rewrite !u32_small, umod_pos by lia. eexists. by split.
  - rewrite u32_small by lia.
    destruct (memcpy m i d 0 l) as [m1| |]; cbn in Hm |- *; [|done..].
    rewrite Hm. cbn. rewrite umod_pos by lia. cbn.
    pose proof (mod_cases (zlen m) (zlen d - l)).
    assert ((i + zlen d) mod zlen m = (zlen d - l) mod zlen m) as He by lia.
    rewrite u32_small, He by lia. eexists. split; [done|]. unfold wrap_left. lia.
Qed.

Lemma put_tail_spec m i l :
  wrap_left m i l → 6 ≤ zlen m → put_tail m i l = Ok (rput m i szTail).
Proof. intros Hw ?. by apply (memcpy_wrap m i l szTail Hw). Qed.

Lemma put_block q d pad :
  mwf q → zlen pad = 2 → block_size d ≤ zlen (m_pMem q) →
  InQueue_split q (BlockHead (iTail q) (zlen d) pad) d (zlen d)
  = Ok (rput (m_pMem q) (iTail q) (block (iTail q) (zlen d) pad d)).
Proof.
  unfold block_size. intros Hwf Hp ?. pose proof Hwf as [Hl _ ? ? ? _].
  pose proof (zlen_nonneg d).
  set (hd := BlockHead _ _ _). assert (zlen hd = 8) as Hz by by apply zlen_BlockHead.
  assert (zlen (rput (m_pMem q) (iTail q) hd) = zlen (m_pMem q)) as Hz1
    by (apply zlen_rput; lia).
  unfold InQueue_split. destruct (put_head_spec q hd) as (l & -> & Hw); [done|lia..|].
  cbn. rewrite Hl, <- Hz1.
  destruct (put_data_spec (rput (m_pMem q) (iTail q) hd)
              ((iTail q + 8) mod zlen (m_pMem q)) l d) as (l' & Hd & Hw'); [|lia..|].
  { unfold wrap_left in *. by rewrite Hz1. }
  rewrite Hz1 in *. rewrite Hd. cbn.
  set (i := (iTail q + 8) mod zlen (m_pMem q)) in *.
  pose proof (Z.mod_pos_bound (iTail q + 8) (zlen (m_pMem q)) ltac:(lia)).
  assert (zlen (rput (rput (m_pMem q) (iTail q) hd) i d) = zlen (m_pMem q)) as Hz2
    by (rewrite zlen_rput; lia).
  rewrite put_tail_spec;
    [|unfold wrap_left in *; rewrite Hz2; rewrite Hz1 in Hw'; exact Hw'|lia].
  unfold block. fold hd. change (zlen szTail) with 6 in *.
  rewrite (rput_app (m_pMem q)) by (rewrite ?zlen_app; change (zlen szTail) with 6; lia).
  rewrite Hz. fold i. rewrite (rput_app (rput _ _ _) i) by (change (zlen szTail) with 6; lia).
  by rewrite Hz1.
Qed.

Lemma put_block_flat q d pad :
  mwf q → zlen pad = 2 → iTail q + block_size d ≤ zlen (m_pMem q) →
  (m ← memcpy (m_pMem q) (iTail q) (BlockHead (iTail q) (zlen d) pad) 0 8;
   m ← memcpy m (iTail q + 8) d 0 (zlen d);
   memcpy m (u32 (iTail q + 8 + zlen d)) szTail 0 6)
  = Ok (rput (m_pMem q) (iTail q) (block (iTail q) (zlen d) pad d)).
Proof.
  unfold block_size. intros Hwf Hp ?. pose proof Hwf as [Hl _ ? ? ? _].
  pose proof (zlen_nonneg d). unfold block.
  set (hd := BlockHead _ _ _). assert (zlen hd = 8) as Hz by by apply zlen_BlockHead.
  pose proof (eq_refl : zlen szTail = 6) as Hs.
  rewrite <- Hz, memcpy_rput, Hz by lia. cbn.
  rewrite memcpy_rput by (rewrite ?zlen_rput; lia). cbn. rewrite u32_small by lia.
  rewrite <- Hs, memcpy_rput by (repeat rewrite zlen_rput by (rewrite ?zlen_rput; lia); lia).
  rewrite (rput_app_at _ (iTail q) (iTail q + 8))
    by (rewrite ?zlen_app; lia).
  by rewrite (rput_app_at _ (iTail q + 8) (iTail q + 8 + zlen d))
    by (rewrite ?zlen_rput; lia).
Qed.

(** The queue after the block of [d], and after the block at its head. *)
Definition mpushed q pad d : CMmapQueue.t :=
  mk (iLen q) (iHead q) ((iTail q + block_size d) mod zlen (m_pMem q)) (iNum q + 1)
     (rput (m_pMem q) (iTail q) (block (iTail q) (zlen d) pad d)) (m_iQueueSize q) false.
Definition mpopped q d : CMmapQueue.t :=
  mk (iLen q) ((iHead q + block_size d) mod zlen (m_pMem q)) (iTail q) (iNum q - 1)
     (m_pMem q) (m_iQueueSize q) false.

Lemma Lock_mwf q : mwf q → Lock q = Ok (mk (iLen q) (iHead q) (iTail q) (iNum q) (m_pMem q) (m_iQueueSize q) true).
Proof. intros [_ _ _ _ _ Hf]. unfold Lock. by rewrite Hf. Qed.

Lemma Release_mwf q :
  mwf q →
  Release (mk (iLen q) (iHead q) (iTail q) (iNum q) (m_pMem q) (m_iQueueSize q) true) = q.
Proof. unfold Release. cbn. intros [_ _ _ _ _ Hf]. destruct q. cbn in *. by rewrite Hf. Qed.

Lemma InQueue_mrep q ms d pad :
  mrep q ms → zlen pad = 2 → zlen d < 2 ^ 31 →
  InQueue q pad d (zlen d) =
    Ok (if zlen (m_pMem q) - blocks_size ms <? block_size d
        then (q, E_MMAP_QUEUE_FULL) else (mpushed q pad d, SUCCESS)).
Proof.
  intros Hr Hp ?. pose proof (FreeSpace_mrep _ _ Hr) as Hf.
  pose proof Hr as [Hwf Hfit Hn Ht _]. pose proof Hwf as [Hl _ ? ? ? _].
  pose proof (zlen_nonneg d). pose proof (blocks_size_ge ms). pose proof (zlen_nonneg ms).
  unfold InQueue, SIZEOF_BLOCKHEAD, SIZEOF_TAIL. rewrite Lock_mwf by done. cbn.
  change (FreeSpace _) with (FreeSpace q). rewrite Hf, u64_small by lia.
  replace (zlen d + 8 + 6) with (block_size d) by (unfold block_size; lia).
  destruct (Z.ltb_spec (zlen (m_pMem q) - blocks_size ms) (block_size d)).
  { by rewrite Release_mwf. }
  pose proof (mod_cases (zlen (m_pMem q)) (iHead q + blocks_size ms)).
  assert (∀ m,
    (x ← umod (u32 (iTail q + zlen d) + 8 + 6) (iLen q);
     Ok (Release (mk (iLen q) (iHead q) x (u32 (iNum q + 1)) m (m_iQueueSize q) true), SUCCESS))
    = Ok (mk (iLen q) (iHead q) ((iTail q + block_size d) mod zlen (m_pMem q))
            (iNum q + 1) m (m_iQueueSize q) false, SUCCESS)) as Hend.
  { intros m. unfold block_size in *. rewrite !u32_small, umod_pos by lia. cbn.
    rewrite Hl. by replace (iTail q + zlen d + 8 + 6) with (iTail q + (14 + zlen d)) by lia. }
  pose proof (put_block_flat q d pad Hwf Hp) as Hflat.
  pose proof (put_block q d pad Hwf Hp) as Hsplit.
  change (InQueue_split (mk _ _ _ _ _ _ _)) with (InQueue_split q).
  replace (u32 (iLen q - iTail q)) with (zlen (m_pMem q) - iTail q)
    by (rewrite Hl, u32_small; lia).
  destruct (Z.ltb_spec (iTail q) (iHead q)), (Z.leb_spec (block_size d) (zlen (m_pMem q) - iTail q));
    cbn [orb]; rewrite ?Hsplit, ?Hflat by lia; apply Hend.
Qed.

Lemma mrep_pushed q ms d pad :
  mrep q ms → zlen pad = 2 → zlen d < 2 ^ 16 →
  blocks_size ms + block_size d ≤ zlen (m_pMem q) →
  mrep (mpushed q pad d) (ms ++ [d]).
Proof.
  intros [Hwf Hfit Hn Ht Hb] Hp Hd ?. pose proof Hwf as [Hl Hs ? ? ? _].
  pose proof (blocks_size_ge ms). pose proof (zlen_nonneg ms). pose proof (zlen_nonneg d).
  pose proof (zlen_block (iTail q) (zlen d) pad d Hp) as Hz.
  assert (14 ≤ block_size d) by (unfold block_size; lia).
  assert (zlen (m_pMem (mpushed q pad d)) = zlen (m_pMem q)) as Hm
    by (cbn; apply zlen_rput; lia).
  pose proof (Z.mod_pos_bound (iTail q + block_size d) (zlen (m_pMem q)) ltac:(lia)).
  split; rewrite ?blocks_size_snoc, ?Hm.
  - split; rewrite ?Hm; cbn; (lia || done).
  - lia.
  - rewrite zlen_app, zlen_cons, zlen_nil. cbn. lia.
  - cbn. rewrite Ht, Z.add_mod_idemp_l by lia. by rewrite Z.add_assoc.
  - cbn. rewrite rget_app; rewrite ?zlen_rput by lia; [|lia..].
    rewrite <- Ht. rewrite Ht at 1. rewrite rget_rput_disjoint by lia.
    replace (block_size d) with (zlen (block (iTail q) (zlen d) pad d)) by done.
    rewrite rget_rput by lia. rewrite Ht. by apply blocks_snoc.
Qed.

(** The parts of the block at the head. *)
Lemma block_parts q n len pad d rest :
  mwf q → zlen pad = 2 → n ≤ zlen (m_pMem q) → n = block_size d + zlen rest →
  rget (m_pMem q) (iHead q) n = block (iHead q) len pad d ++ rest →
  rget (m_pMem q) (iHead q) 8 = BlockHead (iHead q) len pad ∧
  rget (m_pMem q) ((iHead q + 8) mod zlen (m_pMem q)) (zlen d + 6) = d ++ szTail ∧
  rget (m_pMem q) ((iHead q + block_size d) mod zlen (m_pMem q)) (n - block_size d) = rest.
Proof.
  intros [? ? ? ? ? _] Hp ? Hn Hr. pose proof (zlen_nonneg rest). pose proof (zlen_nonneg d).
  pose proof (zlen_block (iHead q) len pad d Hp) as Hz.
  pose proof (zlen_BlockHead (iHead q) len pad Hp) as Hz8.
  assert (0 ≤ block_size d) by (unfold block_size; lia).
  replace n with (block_size d + (n - block_size d)) in Hr by lia.
  rewrite rget_app in Hr by lia.
  apply app_inj_1 in Hr as [Hr ->];
    [|pose proof (zlen_rget (m_pMem q) (iHead q) (block_size d)); unfold zlen in *; lia].
  replace (block_size d) with (8 + (zlen d + 6)) in Hr by (unfold block_size; lia).
  unfold block_size in *. rewrite rget_app in Hr by lia. unfold block in Hr.
  apply app_inj_1 in Hr as [-> ->]; [done|].
  pose proof (zlen_rget (m_pMem q) (iHead q) 8). unfold zlen in *. lia.
Qed.

Lemma ReadBlockHead_spec q len pad :
  mwf q → 8 ≤ zlen (m_pMem q) → zlen pad = 2 →
  rget (m_pMem q) (iHead q) 8 = BlockHead (iHead q) len pad →
  ReadBlockHead q = Ok (iHead q, u16 len, (iHead q + 8) mod zlen (m_pMem q)).
Proof.
  intros [Hl _ ? ? ? _] ? Hp Hr.
  assert (wrap_left (m_pMem q) (iHead q) (zlen (m_pMem q) - iHead q)) as Hw
    by (unfold wrap_left; lia).
  pose proof (mread_wrap _ _ _ 8 Hw ltac:(lia)) as Hm. rewrite Hr in Hm.
  assert (∀ i : Z, Ok (le_dec (take 4 (BlockHead (iHead q) len pad)),
                   le_dec (take 2 (drop 4 (BlockHead (iHead q) len pad))), i)
             = Ok (iHead q, u16 len, i)) as Hparse.
  { intros i. unfold BlockHead. rewrite take_app_length', drop_app_length',
      take_app_length' by (by rewrite length_le_enc).
    pose proof (u16_range len). by rewrite !le_dec_enc by lia. }
  pose proof (mod_cases (zlen (m_pMem q)) (iHead q + 8)).
  unfold ReadBlockHead, SIZEOF_BLOCKHEAD. rewrite Hl, u32_small by lia.
  destruct (Z.ltb_spec (zlen (m_pMem q) - iHead q) 8),
    (Z.leb_spec 8 (zlen (m_pMem q) - iHead q)); try lia.
  - destruct (mread _ (iHead q) _) as [b1| |]; cbn in Hm |- *; [|done..].
    destruct (mread _ 0 _) as [b2| |]; cbn in Hm |- *; [|done..].
    injection Hm as ->. rewrite umod_pos by lia. cbn. rewrite Hparse.
    rewrite Z.mod_small by lia. do 2 f_equal. lia.
  - rewrite Hm. cbn. rewrite umod_pos by lia. cbn. apply Hparse.
Qed.

Lemma get_data_spec q i n :
  mwf q → 0 ≤ i < zlen (m_pMem q) → 0 ≤ n ≤ zlen (m_pMem q) →
  ∃ l, get_data q i n = Ok (rget (m_pMem q) i n, (i + n) mod zlen (m_pMem q), l) ∧
       wrap_left (m_pMem q) ((i + n) mod zlen (m_pMem q)) l.
Proof.
  intros [Hl _ ? ? ? _] ? ?.
  assert (wrap_left (m_pMem q) i (zlen (m_pMem q) - i)) as Hw by (unfold wrap_left; lia).
  pose proof (mread_wrap _ _ _ n Hw ltac:(lia)) as Hm.
  pose proof (wrap_left_next _ _ _ n Hw ltac:(lia)) as Hn.
  pose proof (mod_cases (zlen (m_pMem q)) (i + n)).
  unfold get_data. rewrite Hl, u32_small by lia.
  destruct (Z.ltb_spec (zlen (m_pMem q) - i) n), (Z.leb_spec n (zlen (m_pMem q) - i)); try lia.
  - destruct (mread _ i _) as [b1| |]; cbn in Hm |- *; [|done..].
    destruct (mread _ 0 _) as [b2| |]; cbn in Hm |- *; [|done..].
    injection Hm as <-. rewrite (u32_small (n - _)), umod_pos by lia. cbn.
    rewrite (Z.mod_small (n - _)), u32_small by lia.
    replace ((i + n) mod zlen (m_pMem q)) with (n - (zlen (m_pMem q) - i)) in * by lia. eauto.
  - rewrite Hm. cbn. rewrite !u32_small, umod_pos by lia. cbn. eauto.
Qed.

Lemma get_tail_spec q i l :
  wrap_left (m_pMem q) i l → 6 ≤ zlen (m_pMem q) → get_tail q i l = Ok (rget (m_pMem q) i 6).
Proof. intros Hw ?. by apply (mread_wrap _ _ _ 6 Hw). Qed.

(** [OutQueue] on whatever block head lies at the head of the ring. *)
Definition mreset q : CMmapQueue.t :=
  mk (m_iQueueSize q) 0 0 0 (m_pMem q) (m_iQueueSize q) true.

Lemma OutQueue_head q n have_buf len pad :
  mwf q → zlen pad = 2 → 0 < iNum q < 2 ^ 32 → 14 + u16 len ≤ zlen (m_pMem q) →
  rget (m_pMem q) (iHead q) 8 = BlockHead (iHead q) len pad →
  OutQueue q n have_buf =
    Ok (if (n <? u16 len) || negb have_buf then (mreset q, E_MMAP_QUEUE_ERROR, n, [])
        else (mk (iLen q) ((iHead q + (14 + u16 len)) mod zlen (m_pMem q)) (iTail q)
                (iNum q - 1) (m_pMem q) (m_iQueueSize q) false,
              if decide (rget (m_pMem q)
                  ((iHead q + (8 + u16 len)) mod zlen (m_pMem q)) 6 = szTail)
              then SUCCESS else ERROR,
              u16 len,
              rget (m_pMem q) ((iHead q + 8) mod zlen (m_pMem q)) (u16 len))).
Proof.
  intros Hwf Hp ? ? Hr. pose proof Hwf as [Hl _ ? ? ? _]. pose proof (u16_range len).
  unfold OutQueue. rewrite Lock_mwf by done. cbn.
  destruct (Z.ltb_spec 0 (iNum q)); [cbn|lia].
  change (ReadBlockHead _) with (ReadBlockHead q).
  rewrite (ReadBlockHead_spec q len pad) by (done || lia). cbn.
  rewrite Z.eqb_refl, orb_false_r.
  destruct ((n <? u16 len) || negb have_buf); [done|].
  pose proof (Z.mod_pos_bound (iHead q + 8) (zlen (m_pMem q)) ltac:(lia)).
  destruct (get_data_spec q ((iHead q + 8) mod zlen (m_pMem q)) (u16 len))
    as (l & Hd & Hw); [done|lia..|].
  change (get_data (mk _ _ _ _ _ _ _)) with (get_data q). rewrite Hd. cbn.
  change (get_tail (mk _ _ _ _ _ _ _)) with (get_tail q).
  rewrite get_tail_spec by (done || lia). cbn. unfold SIZEOF_BLOCKHEAD, SIZEOF_TAIL.
  rewrite !u32_small, umod_pos by lia. cbn. rewrite Hl, Z.add_mod_idemp_l by lia.
  unfold Release. cbn.
  replace (iHead q + u16 len + 8 + 6) with (iHead q + (14 + u16 len)) by lia.
  by rewrite <- Z.add_assoc.
Qed.

(** The message at the head of a queue, in the terms of [OutQueue_head]. *)
Lemma mrep_head q d ms :
  mrep q (d :: ms) →
  zlen d < 2 ^ 16 ∧ 0 < iNum q < 2 ^ 32 ∧ 14 + zlen d ≤ zlen (m_pMem q) ∧
  (∃ pad, zlen pad = 2 ∧ rget (m_pMem q) (iHead q) 8 = BlockHead (iHead q) (zlen d) pad) ∧
  rget (m_pMem q) ((iHead q + 8) mod zlen (m_pMem q)) (zlen d) = d ∧
  rget (m_pMem q) ((iHead q + (8 + zlen d)) mod zlen (m_pMem q)) 6 = szTail ∧
  mrep (mpopped q d) ms.
Proof.
  intros [Hwf Hfit Hn Ht Hb]. pose proof Hwf as [? ? ? ? ? _].
  pose proof (blocks_size_ge ms). pose proof (zlen_nonneg ms). pose proof (zlen_nonneg d).
  cbn in Hfit, Ht, Hb. rewrite zlen_cons in Hn.
  remember (rget (m_pMem q) (iHead q) (block_size d + blocks_size ms)) as bs eqn:Hbs.
  inversion Hb as [|o e pad ms' bs' Hp Hd Hb' Ho He Hbs']; subst.
  pose proof (blocks_zlen _ _ _ _ Hb').
  pose proof (eq_refl : block_size d = 14 + zlen d).
  destruct (block_parts q (block_size d + blocks_size ms) (zlen d) pad d bs')
    as (Hp1 & Hp2 & Hp3); [done|done|lia..|done|].
  pose proof (Z.mod_pos_bound (iHead q + 8) (zlen (m_pMem q)) ltac:(lia)).
  rewrite rget_app, Z.add_mod_idemp_l, <- Z.add_assoc in Hp2 by lia.
  apply app_inj_1 in Hp2 as [Hp2 Hp4];
    [|pose proof (zlen_rget (m_pMem q) ((iHead q + 8) mod zlen (m_pMem q)) (zlen d));
      unfold zlen in *; lia].
  split_and!; [done|lia|lia|lia|eauto|done|done|].
  pose proof (Z.mod_pos_bound (iHead q + block_size d) (zlen (m_pMem q)) ltac:(lia)).
  split; cbn; [by split|lia|lia| |].
  - rewrite Z.add_mod_idemp_l by lia. by rewrite Ht, Z.add_assoc.
  - by replace (blocks_size ms) with (block_size d + blocks_size ms - block_size d) by lia;
      rewrite Hp3.
Qed.

Lemma OutQueue_mrep q d ms n :
  mrep q (d :: ms) → zlen d ≤ n →
  OutQueue q n true = Ok (mpopped q d, SUCCESS, zlen d, d).
Proof.
  intros Hr ?. pose proof Hr as [Hwf _ _ _ _]. pose proof (zlen_nonneg d).
  destruct (mrep_head q d ms Hr) as (? & ? & ? & (pad & Hp & Hh) & Hd & Ht & _).
  rewrite (OutQueue_head q n true (zlen d) pad) by (done || rewrite ?u16_small; lia).
  rewrite u16_small by lia.
  destruct (Z.ltb_spec n (zlen d)); [lia|]. cbn. rewrite Ht, Hd, decide_True by done. done.
Qed.

(** ** The tail flag of the oldest block, whatever is there *)
Definition flag_at q d : Z := (iHead q + (8 + zlen d)) mod zlen (m_pMem q).
Definition flagged q d (t : list Z) : CMmapQueue.t :=
  mk (iLen q) (iHead q) (iTail q) (iNum q) (rput (m_pMem q) (flag_at q d) t) (m_iQueueSize q) (sem_held q).

Lemma rget_rput_before (m x : list Z) h n a :
  0 ≤ h < zlen m → 0 ≤ a ≤ n → n + zlen x ≤ zlen m → rget (rput m ((h + n) mod zlen m) x) h a = rget m h a.
Proof.
  intros ? ? ?. pose proof (zlen_nonneg x). pose proof (Z.mod_pos_bound (h + n) (zlen m) ltac:(lia)).
  rewrite (rget_take _ h a n), (rget_take m h a n) by (rewrite ?zlen_rput; lia).
  by rewrite rget_rput_disjoint by lia.
Qed.

Lemma flagged_head q d ms t :
  mrep q (d :: ms) → zlen t = 6 →
  mwf (flagged q d t) ∧ zlen (m_pMem (flagged q d t)) = zlen (m_pMem q) ∧
  rget (m_pMem (flagged q d t)) (iHead q) 8 = rget (m_pMem q) (iHead q) 8 ∧
  rget (m_pMem (flagged q d t)) ((iHead q + 8) mod zlen (m_pMem q)) (zlen d) = d ∧
  rget (m_pMem (flagged q d t)) (flag_at q d) 6 = t ∧
  mrep (mpopped (flagged q d t) d) ms.
Proof.
  intros Hr Ht6. pose proof (mrep_head _ _ _ Hr) as (_ & _ & Hfit & _ & Hd & _ & Hr').
  pose proof Hr as [Hwf Hsz _ _ _]. pose proof Hwf as [? ? ? ? ? ?]. cbn in Hsz. pose proof (zlen_nonneg d).
  pose proof (blocks_size_ge ms). pose proof (zlen_nonneg ms).
  pose proof (Z.mod_pos_bound (iHead q + (8 + zlen d)) (zlen (m_pMem q)) ltac:(lia)) as Hfl.
  pose proof (Z.mod_pos_bound (iHead q + 8) (zlen (m_pMem q)) ltac:(lia)).
  assert (zlen (m_pMem (flagged q d t)) = zlen (m_pMem q)) as Hz by (cbn; apply zlen_rput; unfold flag_at; lia).
  split; [split; rewrite ?Hz; done|]. split; [done|]. cbn [flagged m_pMem]. unfold flag_at. split; [|split; [|split]].
  - by apply rget_rput_before; lia.
  - rewrite <- Hd at 3. replace ((iHead q + (8 + zlen d)) mod zlen (m_pMem q)) with (((iHead q + 8) mod zlen (m_pMem q) + zlen d) mod zlen (m_pMem q))
      by (rewrite Z.add_mod_idemp_l by lia; f_equal; lia). by apply rget_rput_before; lia.
  - rewrite <- Ht6. apply rget_rput; lia.
  - destruct Hr' as [[? ? ? ? ? ?] ? ? ? Hb]. cbn [mpopped m_pMem iHead iTail iNum iLen m_iQueueSize sem_held flagged] in *.
    split; [split|..]; cbn [mpopped m_pMem iHead iTail iNum iLen m_iQueueSize sem_held flagged]; fold (flag_at q d) in *; cbn [flagged m_pMem] in Hz;
      rewrite ?Hz; try done.
    unfold flag_at. set (h := (iHead q + block_size d) mod zlen (m_pMem q)) in *.
    assert (((h + (zlen (m_pMem q) - 6)) mod zlen (m_pMem q)) = (iHead q + (8 + zlen d)) mod zlen (m_pMem q)) as <-.
    { unfold h, block_size. rewrite Z.add_mod_idemp_l by lia. replace (iHead q + (14 + zlen d) + (zlen (m_pMem q) - 6))
        with (iHead q + (8 + zlen d) + 1 * zlen (m_pMem q)) by lia. by rewrite Z.mod_add by lia. }
    rewrite rget_rput_before; [done|done|unfold block_size in *; lia|lia].
Qed.

Lemma OutQueue_flagged q d ms t n :
  mrep q (d :: ms) → zlen t = 6 → zlen d ≤ n →
  OutQueue (flagged q d t) n true =
    Ok (mpopped (flagged q d t) d, if decide (t = szTail) then SUCCESS else ERROR, zlen d, d).
Proof.
  intros Hr Ht6 Hn. destruct (flagged_head q d ms t Hr Ht6) as (Hwf & Hz & Hh & Hd & Hf & _).
  destruct (mrep_head q d ms Hr) as (? & ? & ? & (pad & Hp & Hb) & _). pose proof (zlen_nonneg d).
  change (iNum q) with (iNum (flagged q d t)) in *. change (iHead q) with (iHead (flagged q d t)) in Hb, Hh. rewrite Hb in Hh.
  rewrite (OutQueue_head _ n true (zlen d) pad) by (done || (rewrite u16_small, Hz by lia; lia)).
  rewrite u16_small by lia. destruct (Z.ltb_spec n (zlen d)); [lia|]. cbn [orb negb]. unfold mpopped. rewrite Hz.
  change (iHead (flagged q d t)) with (iHead q). fold (flag_at q d). by rewrite Hf, Hd.
Qed.

Lemma OutQueue_mrep_nil q n have_buf :
  mrep q [] → OutQueue q n have_buf = Ok (q, E_MMAP_QUEUE_EMPTY, n, []).
Proof.
  intros [Hwf _ Hn Ht _]. pose proof Hwf as [? ? ? ? ? _]. cbn in Ht.
  rewrite Z.add_0_r, Z.mod_small in Ht by lia.
  unfold OutQueue. rewrite Lock_mwf by done. cbn. rewrite zlen_nil in Hn.
  destruct (Z.ltb_spec 0 (iNum q)); [lia|]. destruct (Z.eqb_spec (iHead q) (iTail q)); [|lia].
  cbn. by rewrite Release_mwf.
Qed.

Lemma GetNum_mrep q ms : mrep q ms → GetNum q = Ok (q, zlen ms).
Proof.
  intros [Hwf Hfit Hnum _ _]. pose proof Hwf as [? ? ? ? ? _].
  pose proof (blocks_size_ge ms). pose proof (zlen_nonneg ms).
  unfold GetNum. rewrite Lock_mwf by done. cbn.
  rewrite Release_mwf, Hnum, i32_small by (done || lia). done.
Qed.

Lemma mreset_mrep q : mwf q → mrep (Release (mreset q)) [].
Proof. intros [? ? ? ? ? _]. split; [split; cbn; lia|cbn; lia|done|done|constructor]. Qed.

Lemma mrep_msgs q ms : mrep q ms → Forall (λ d, zlen d < 2 ^ 16) ms.
Proof.
  intros [_ _ _ _ Hb]. by induction Hb as [|o d pad ms bs ? ? _ IH]; constructor.
Qed.

Lemma Init_mrep size : 0 < size < 2 ^ 31 → mrep (Init size) [].
Proof.
  intros ?. assert (zlen (m_pMem (Init size)) = size) as Hz
    by (cbn; rewrite zlen_replicate; lia).
  split; [split|..]; rewrite ?Hz; cbn; try lia; try done. constructor.
Qed.
End facts.

(** ** The queue implements the FIFO interface *)
#[export] Instance mmap_fifo_ops : FifoOps CMmapQueue.t := {
  q_in q pData iDataLen := CMmapQueue.InQueue q [0; 0] pData iDataLen;
  q_out q n := CMmapQueue.OutQueue q n true;
}.

Definition mmap_fits (cap : Z) (ms : list (list Z)) (d : list Z) : bool :=
  block_size d <=? cap - blocks_size ms.

Section instance.
Import CMmapQueue.

(** Empty messages are outside the interface, though this queue takes them. *)
Record mrep_pos (q : CMmapQueue.t) ms : Prop := {
  mp_rep : mrep q ms;
  mp_pos : Forall (λ d, 0 < zlen d) ms;
}.

#[export] Program Instance mmap_fifo : FifoQueue CMmapQueue.t := {
  q_rep := mrep_pos;
  q_cap q := zlen (m_pMem q);
  q_max := 2 ^ 16 - 1;
  q_fits := mmap_fits;
}.
Next Obligation.
  intros q ms d [Hr Hpos] ? Hf. exists (mpushed q [0; 0] d). cbn.
  apply Z.leb_le in Hf. pose proof (zlen_nonneg d).
  pose proof (zlen_block (iTail q) (zlen d) [0; 0] d eq_refl).
  rewrite (InQueue_mrep q ms) by (done || lia).
  destruct (Z.ltb_spec (zlen (m_pMem q) - blocks_size ms) (block_size d)); [lia|].
  pose proof Hr as [[? ? ? ? ? _] _ _ _ _].
  pose proof (blocks_size_ge ms). pose proof (zlen_nonneg ms).
  split; [done|]. split; [split|].
  - apply mrep_pushed; (done || lia).
  - apply Forall_app; split; [done|]. constructor; [lia|done].
  - apply zlen_rput; lia.
Qed.
Next Obligation.
  intros q ms d [Hr Hpos] ? Hf. exists q. cbn. apply Z.leb_gt in Hf.
  rewrite (InQueue_mrep q ms) by (done || lia).
  by destruct (Z.ltb_spec (zlen (m_pMem q) - blocks_size ms) (block_size d)); [|lia].
Qed.
Next Obligation.
  intros q n [Hr Hpos] ?. exists q, n. cbn. by rewrite OutQueue_mrep_nil.
Qed.
Next Obligation.
  intros q d ms n [Hr Hpos] ?. exists (mpopped q d). cbn.
  rewrite (OutQueue_mrep q d ms) by (done || lia). apply Forall_cons in Hpos as [? ?].
  apply mrep_head in Hr as (_ & _ & _ & _ & _ & _ & ?). done.
Qed.
Next Obligation.
  intros q ms [Hr Hpos]. apply mrep_msgs in Hr.
  induction Hpos as [|d ms ? _ IH]; [done|]. apply Forall_cons in Hr as [? ?].
  constructor; [lia|by apply IH].
Qed.
End instance.

(** * Properties *)
Section props.
Import CMmapQueue.
Implicit Types (q : CMmapQueue.t) (d pad : list Z) (ms : list (list Z)).

(** C20: [InQueue] of a message of fewer than 2^16 bytes stays inside the data
    area and either refuses it, leaving everything as it was, exactly when the
    blocks leave no room for it, or appends it; whatever the padding of the
    block head, wherever the block wraps. *)
Theorem mmap_InQueue_refines q ms d pad :
  mrep q ms → zlen pad = 2 → zlen d < 2 ^ 16 →
  if zlen (m_pMem q) - blocks_size ms <? block_size d
  then InQueue q pad d (zlen d) = Ok (q, E_MMAP_QUEUE_FULL)
  else ∃ q', InQueue q pad d (zlen d) = Ok (q', SUCCESS) ∧ mrep q' (ms ++ [d]).
Proof.
  intros Hr Hp ?. rewrite (InQueue_mrep q ms) by (done || lia).
  destruct (Z.ltb_spec (zlen (m_pMem q) - blocks_size ms) (block_size d)); [done|].
  eexists. split; [done|]. by apply mrep_pushed; [| |lia|lia].
Qed.

(** C24: [OutQueue] hands out the oldest message, verifies its tail flag and
    removes it.  On an empty queue it reports so and changes nothing.  A message
    longer than the buffer is an error after which the queue is empty, and the
    semaphore still held.  Whatever six bytes [t] are where the tail flag of the
    oldest message should be, [OutQueue] succeeds just when they are the flag, and
    otherwise returns [ERROR] with the message, and the others stay. *)
Theorem mmap_OutQueue_refines q ms n :
  mrep q ms →
  match ms with
  | [] => OutQueue q n true = Ok (q, E_MMAP_QUEUE_EMPTY, n, [])
  | d :: ms =>
      if n <? zlen d then
        ∃ q', OutQueue q n true = Ok (q', E_MMAP_QUEUE_ERROR, n, []) ∧ sem_held q' = true ∧ mrep (Release q') []
      else
        (∃ q', OutQueue q n true = Ok (q', SUCCESS, zlen d, d) ∧ mrep q' ms ∧ GetNum q' = Ok (q', zlen ms)) ∧
        (∀ t, zlen t = 6 → ∃ q', OutQueue (flagged q d t) n true =
           Ok (q', if decide (t = szTail) then SUCCESS else ERROR, zlen d, d) ∧ mrep q' ms ∧ GetNum q' = Ok (q', zlen ms))
  end.
Proof.
  intros Hr. destruct ms as [|d ms]; [by apply OutQueue_mrep_nil|].
  destruct (Z.ltb_spec n (zlen d)) as [Hlt|Hge].
  { pose proof Hr as [Hwf _ _ _ _]. pose proof (zlen_nonneg d).
    destruct (mrep_head q d ms Hr) as (? & ? & ? & (pad & Hp & Hh) & _).
    rewrite (OutQueue_head q n true (zlen d) pad) by (done || rewrite ?u16_small; lia).
    rewrite u16_small by lia. destruct (Z.ltb_spec n (zlen d)); [|lia]. eexists. split; [done|]. split; [done|by apply mreset_mrep]. }
  assert (∀ q', mrep q' ms → GetNum q' = Ok (q', zlen ms)) as Hnum by (intros; by apply GetNum_mrep).
  split.
  - pose proof (mrep_head _ _ _ Hr) as (_ & _ & _ & _ & _ & _ & Hr').
    exists (mpopped q d). split; [by apply (OutQueue_mrep q d ms)|]. auto.
  - intros t Ht. pose proof (flagged_head q d ms t Hr Ht) as (_ & _ & _ & _ & _ & Hr').
    exists (mpopped (flagged q d t) d). split; [by apply (OutQueue_flagged q d ms)|]. auto.
Qed.

(** Whatever sequence of calls is made, messages come out in the order
    they went in, none lost, repeated or altered. *)
Theorem mmap_history_fifo q ms cs :
  mrep_pos q ms → Forall (call_ok (Q := CMmapQueue.t)) cs →
  ∃ q' rs left, q_run q cs = Ok (q', rs) ∧ mrep_pos q' left ∧
    ms ++ accepted cs rs = delivered rs ++ left.
Proof. exact (q_run_fifo (Q := CMmapQueue.t) q ms cs). Qed.

(** An [OutQueue] with a buffer too short for the oldest message drops all
    messages and returns without releasing the semaphore: from then on every
    operation, of any process, blocks forever. *)
Theorem mmap_OutQueue_deadlocks q d ms n :
  mrep q (d :: ms) → n < zlen d →
  ∃ q', OutQueue q n true = Ok (q', E_MMAP_QUEUE_ERROR, n, []) ∧
    iNum q' = 0 ∧ GetNum q' = Spin ∧
    (∀ n' b, OutQueue q' n' b = Spin) ∧
    (∀ pad e len, InQueue q' pad e len = Spin).
Proof.
  intros Hr ?. pose proof Hr as [Hwf _ _ _ _]. pose proof (zlen_nonneg d).
  destruct (mrep_head q d ms Hr) as (? & ? & ? & (pad & Hp & Hh) & _).
  rewrite (OutQueue_head q n true (zlen d) pad) by (done || rewrite ?u16_small; lia).
  rewrite u16_small by lia. destruct (Z.ltb_spec n (zlen d)); [|lia].
  eexists. split; [done|]. by split_and!.
Qed.

(** The length field of a block has 16 bits: a message of 2^16 bytes or
    more that fits is accepted, and comes out cut to its length modulo 2^16. *)
Theorem mmap_InQueue_truncates q d pad n :
  mrep q [] → zlen pad = 2 → 2 ^ 16 ≤ zlen d → block_size d ≤ zlen (m_pMem q) →
  2 ^ 16 ≤ n →
  ∃ q', InQueue q pad d (zlen d) = Ok (q', SUCCESS) ∧
  ∃ q'' r d', OutQueue q' n true = Ok (q'', r, u16 (zlen d), d') ∧
    zlen d' = u16 (zlen d) ∧ d' ≠ d.
Proof.
  intros Hr Hp ? ? ?. pose proof Hr as [Hwf Hfit Hn Ht _].
  pose proof Hwf as [Hl Hs ? ? ? _]. cbn in Ht. pose proof (u16_range (zlen d)).
  pose proof (eq_refl : block_size d = 14 + zlen d).
  rewrite Z.add_0_r, Z.mod_small in Ht by lia. rewrite zlen_nil in Hn.
  rewrite (InQueue_mrep q []) by (done || lia). cbn -[block_size].
  destruct (Z.ltb_spec (zlen (m_pMem q) - 0) (block_size d)); [lia|].
  eexists. split; [done|].
  pose proof (zlen_block (iTail q) (zlen d) pad d Hp).
  assert (zlen (m_pMem (mpushed q pad d)) = zlen (m_pMem q)) as Hm
    by (cbn; apply zlen_rput; lia).
  pose proof (Z.mod_pos_bound (iTail q + block_size d) (zlen (m_pMem q)) ltac:(lia)).
  assert (mwf (mpushed q pad d)) as Hwf' by (split; rewrite ?Hm; cbn; (lia || done)).
  destruct (block_parts (mpushed q pad d) (block_size d) (zlen d) pad d []) as (Hh & _ & _);
    [done|done|lia|rewrite zlen_nil; lia| |].
  { rewrite app_nil_r. cbn. rewrite <- Ht.
    replace (block_size d) with (zlen (block (iTail q) (zlen d) pad d)) at 1 by done.
    apply rget_rput; lia. }
  rewrite (OutQueue_head _ n true (zlen d) pad)
    by (done || (cbn; lia) || (rewrite Hm; lia)).
  destruct (Z.ltb_spec n (u16 (zlen d))); [lia|].
  eexists _, _, _. split; [done|].
  assert (∀ o, zlen (rget (m_pMem (mpushed q pad d)) o (u16 (zlen d))) = u16 (zlen d))
    as Hz by (intros; apply zlen_rget; lia).
  split; [apply Hz|]. intros He. apply (f_equal zlen) in He. rewrite Hz in He. lia.
Qed.
End props.

(** * The properties at concrete queues *)
Section examples.
Import CMmapQueue.

Definition ex_mmap : CMmapQueue.t := mpushed (Init 40) [9; 9] [4; 5; 6].

Lemma ex_mmap_rep : mrep ex_mmap [[4; 5; 6]].
Proof. apply (mrep_pushed (Init 40) []); [apply Init_mrep; lia|concrete..]. Qed.

Lemma mmap_InQueue_refines_witness :
  InQueue ex_mmap [1; 2] (replicate 10 7) 10 = Ok (ex_mmap, E_MMAP_QUEUE_FULL) ∧
  ∃ q', InQueue ex_mmap [1; 2] [8; 8] 2 = Ok (q', SUCCESS) ∧ mrep q' [[4; 5; 6]; [8; 8]].
Proof.
  split.
  - exact (mmap_InQueue_refines ex_mmap _ (replicate 10 7) [1; 2] ex_mmap_rep eq_refl eq_refl).
  - exact (mmap_InQueue_refines ex_mmap _ [8; 8] [1; 2] ex_mmap_rep eq_refl eq_refl).
Defined.

Lemma mmap_OutQueue_refines_witness :
  (∃ q', OutQueue ex_mmap 100 true = Ok (q', SUCCESS, 3, [4; 5; 6]) ∧ mrep q' [] ∧ GetNum q' = Ok (q', 0)) ∧
  (∃ q', OutQueue (flagged ex_mmap [4; 5; 6] (replicate 6 0)) 100 true = Ok (q', ERROR, 3, [4; 5; 6]) ∧ mrep q' [] ∧
     GetNum q' = Ok (q', 0)) ∧
  (∃ q', OutQueue ex_mmap 2 true = Ok (q', E_MMAP_QUEUE_ERROR, 2, []) ∧ sem_held q' = true ∧ mrep (Release q') []).
Proof.
  pose proof (mmap_OutQueue_refines ex_mmap _ 100 ex_mmap_rep) as [H1 H2].
  pose proof (mmap_OutQueue_refines ex_mmap _ 2 ex_mmap_rep) as H3.
  split; [exact H1|]. split; [exact (H2 (replicate 6 0) eq_refl)|exact H3].
Defined.

Lemma mmap_history_fifo_witness :
  ∃ q' rs left, q_run (Init 40) [CallIn [1]; CallOut (2 ^ 17); CallIn [2; 3]] = Ok (q', rs) ∧
    mrep_pos q' left ∧
    [] ++ accepted [CallIn [1]; CallOut (2 ^ 17); CallIn [2; 3]] rs = delivered rs ++ left.
Proof.
  apply (mmap_history_fifo (Init 40) [] [CallIn [1]; CallOut (2 ^ 17); CallIn [2; 3]]).
  - split; [apply Init_mrep; lia|constructor].
  - repeat (constructor; [concrete|]). constructor.
Defined.

Lemma mmap_OutQueue_deadlocks_witness :
  ∃ q', OutQueue ex_mmap 2 true = Ok (q', E_MMAP_QUEUE_ERROR, 2, []) ∧
    iNum q' = 0 ∧ GetNum q' = Spin ∧
    (∀ n' b, OutQueue q' n' b = Spin) ∧
    (∀ pad e len, InQueue q' pad e len = Spin).
Proof. apply (mmap_OutQueue_deadlocks ex_mmap _ _ 2 ex_mmap_rep). concrete. Defined.

Lemma mmap_InQueue_truncates_witness :
  let d := replicate (Z.to_nat (2 ^ 16)) 0 in
  ∃ q', InQueue (Init (2 ^ 17)) [0; 0] d (zlen d) = Ok (q', SUCCESS) ∧
  ∃ q'' r d', OutQueue q' (2 ^ 16) true = Ok (q'', r, u16 (zlen d), d') ∧
    zlen d' = u16 (zlen d) ∧ d' ≠ d.
Proof.
  apply (mmap_InQueue_truncates (Init (2 ^ 17)) (replicate (Z.to_nat (2 ^ 16)) 0) [0; 0]);
    [apply Init_mrep; lia|done|..]; unfold block_size, Init; cbn [m_pMem];
    rewrite ?zlen_replicate, ?Z2Nat.id by lia; lia.
Defined.
End examples.
