(* ===== verification/Wire.v ===== *)
(** The wire formats: [CBuffTool] (mmlib/util), the header of the bus
    (include/bus_header.h) and the two headers behind it (include/header.h).

    A buffer is a memory object and an offset into it.  The machine is
    little-endian; [htonl] and its kin reverse the bytes of an integer. *)
From S2P Require Import Prelude.

Definition bswap (n : nat) (x : Z) : Z := le_dec (rev (le_enc n x)).
Arguments bswap : simpl never.
Definition htonl (x : Z) : Z := bswap 4 x.
Definition ntohl (x : Z) : Z := bswap 4 x.
Definition htons (x : Z) : Z := bswap 2 x.
Definition ntohs (x : Z) : Z := bswap 2 x.

(** mmlib/util/util.h: [llHost] is cut in two [int]s; [ntohl] gives an
    unsigned result, which [long long] holds without a sign. *)
Definition htonll (llHost : Z) : Z :=
  let tmpLow := i64 (Z.shiftl (ntohl (i32 llHost)) 32) in
  let tmpHigh := ntohl (i32 (Z.shiftr llHost 32)) in
  Z.lor tmpLow tmpHigh.

Definition ntohll (llNet : Z) : Z :=
  let tmpLow := i64 (Z.shiftl (ntohl (i32 llNet)) 32) in
  let tmpHigh := ntohl (i32 (Z.shiftr llNet 32)) in
  Z.lor tmpLow tmpHigh.

Module CBuffTool.

(** Reads give the value and the bytes read, writes the buffer and the bytes
    written.  [order] is the code's [iToHostOrder == 1], and the suffix [_s]
    marks the overload for a signed destination. *)
Definition ReadByte (m : list Z) (o : Z) : outcome (Z * Z) :=
  b ← mread m o 1; Ok (le_dec b, 1).
Definition ReadByte_s (m : list Z) (o : Z) : outcome (Z * Z) :=
  b ← mread m o 1; Ok (i8 (le_dec b), 1).
Definition WriteByte (m : list Z) (o ucVal : Z) : outcome (list Z * Z) :=
  m ← mwrite m o (le_enc 1 ucVal); Ok (m, 1).

Definition ReadShort (order : bool) (m : list Z) (o : Z) : outcome (Z * Z) :=
  b ← mread m o 2;
  let ushVal := le_dec b in
  Ok (if order then ntohs ushVal else ushVal, 2).
Definition ReadShort_s (order : bool) (m : list Z) (o : Z) : outcome (Z * Z) :=
  b ← mread m o 2;
  let shVal := i16 (le_dec b) in
  Ok (if order then i16 (ntohs shVal) else shVal, 2).
Definition WriteShort (order : bool) (m : list Z) (o ushVal : Z) : outcome (list Z * Z) :=
  let ushVal := if order then htons ushVal else ushVal in
  m ← mwrite m o (le_enc 2 ushVal); Ok (m, 2).

Definition ReadInt (order : bool) (m : list Z) (o : Z) : outcome (Z * Z) :=
  b ← mread m o 4;
  let uiVal := le_dec b in
  Ok (if order then ntohl uiVal else uiVal, 4).
Definition ReadInt_s (order : bool) (m : list Z) (o : Z) : outcome (Z * Z) :=
  b ← mread m o 4;
  let iVal := i32 (le_dec b) in
  Ok (if order then i32 (ntohl iVal) else iVal, 4).
Definition WriteInt (order : bool) (m : list Z) (o uiVal : Z) : outcome (list Z * Z) :=
  let uiVal := if order then htonl uiVal else uiVal in
  m ← mwrite m o (le_enc 4 uiVal); Ok (m, 4).

(** A [long] travels as four bytes. *)
Definition ReadLong (order : bool) (m : list Z) (o : Z) : outcome (Z * Z) :=
  b ← mread m o 4;
  let uiVal := le_dec b in
  Ok (if order then ntohl uiVal else uiVal, 4).
Definition ReadLong_s (order : bool) (m : list Z) (o : Z) : outcome (Z * Z) :=
  b ← mread m o 4;
  let iVal := i32 (le_dec b) in
  Ok (if order then i32 (ntohl iVal) else iVal, 4).
Definition WriteLong (order : bool) (m : list Z) (o ulVal : Z) : outcome (list Z * Z) :=
  let uiVal := u32 ulVal in
  let uiVal := if order then htonl uiVal else uiVal in
  m ← mwrite m o (le_enc 4 uiVal); Ok (m, 4).

(** The default of [order] is false here, and true for the shorter types. *)
Definition ReadLongLong (order : bool) (m : list Z) (o : Z) : outcome (Z * Z) :=
  b ← mread m o 8;
  let ullVal := le_dec b in
  Ok (if order then u64 (ntohll (i64 ullVal)) else ullVal, 8).
Definition ReadLongLong_s (order : bool) (m : list Z) (o : Z) : outcome (Z * Z) :=
  b ← mread m o 8;
  let llVal := i64 (le_dec b) in
  Ok (if order then ntohll llVal else llVal, 8).
Definition WriteLongLong (order : bool) (m : list Z) (o ullVal : Z) : outcome (list Z * Z) :=
  let ullVal := if order then u64 (htonll (i64 ullVal)) else ullVal in
  m ← mwrite m o (le_enc 8 ullVal); Ok (m, 8).

(** [ReadString], [WriteString], [ReadBuf] and [WriteBuf] are one [memcpy]. *)
Definition ReadBuf (src : list Z) (so : Z) (dst : list Z) (o iLen : Z) : outcome (list Z * Z) :=
  m ← memcpy dst o src so iLen; Ok (m, iLen).
Definition WriteBuf (dst : list Z) (o : Z) (src : list Z) (so iLen : Z) : outcome (list Z * Z) :=
  m ← memcpy dst o src so iLen; Ok (m, iLen).
Definition ReadString := ReadBuf.
Definition WriteString := WriteBuf.

Arguments ReadByte : simpl never.
Arguments ReadByte_s : simpl never.
Arguments WriteByte : simpl never.
Arguments ReadShort : simpl never.
Arguments WriteShort : simpl never.
Arguments ReadInt : simpl never.
Arguments WriteInt : simpl never.
Arguments ReadLongLong : simpl never.
Arguments WriteLongLong : simpl never.

End CBuffTool.

(** * Headers *)
Module BusHeader.
Import CBuffTool.

Record t : Type := mk {
  PkgLen : Z; CmdID : Z; SrcID : Z; DstID : Z; PkgTime : Z; SendType : Z; Flag : Z;
}.

Definition init : t := mk 0 0 0 0 0 0 0.
Definition GetHeaderLen : Z := 26.

Definition Write (h : t) (Buff : list Z) (o : Z) : outcome (list Z * Z) :=
  let Offset := 0 in
  '(Buff, k) ← WriteInt true Buff (o + Offset) (PkgLen h); let Offset := Offset + k in
  '(Buff, k) ← WriteInt true Buff (o + Offset) (CmdID h); let Offset := Offset + k in
  '(Buff, k) ← WriteInt true Buff (o + Offset) (SrcID h); let Offset := Offset + k in
  '(Buff, k) ← WriteInt true Buff (o + Offset) (DstID h); let Offset := Offset + k in
  '(Buff, k) ← WriteLongLong false Buff (o + Offset) (PkgTime h); let Offset := Offset + k in
  '(Buff, k) ← WriteByte Buff (o + Offset) (SendType h); let Offset := Offset + k in
  '(Buff, k) ← WriteByte Buff (o + Offset) (Flag h); let Offset := Offset + k in
  Ok (Buff, Offset).

Definition Read (Buff : list Z) (o : Z) : outcome (t * Z) :=
  let Offset := 0 in
  '(pkglen, k) ← ReadInt true Buff (o + Offset); let Offset := Offset + k in
  '(cmd, k) ← ReadInt true Buff (o + Offset); let Offset := Offset + k in
  '(src, k) ← ReadInt true Buff (o + Offset); let Offset := Offset + k in
  '(dst, k) ← ReadInt true Buff (o + Offset); let Offset := Offset + k in
  '(time, k) ← ReadLongLong false Buff (o + Offset); let Offset := Offset + k in
  '(sendtype, k) ← ReadByte_s Buff (o + Offset); let Offset := Offset + k in
  '(flag, k) ← ReadByte_s Buff (o + Offset); let Offset := Offset + k in
  Ok (mk pkglen cmd src dst time sendtype flag, Offset).

End BusHeader.

Module XYHeader.
Import CBuffTool.

Record t : Type := mk {
  PkgLen : Z; CmdID : Z; SN : Z; CkSum : Z; Ret : Z; Compresse : Z;
}.

Definition init : t := mk 0 0 0 0 0 0.
Definition GetHeadLen : Z := 17.

Definition Write (h : t) (Buff : list Z) (o : Z) : outcome (list Z * Z) :=
  let Offset := 0 in
  '(Buff, k) ← WriteInt true Buff (o + Offset) (PkgLen h); let Offset := Offset + k in
  '(Buff, k) ← WriteInt true Buff (o + Offset) (CmdID h); let Offset := Offset + k in
  '(Buff, k) ← WriteInt true Buff (o + Offset) (SN h); let Offset := Offset + k in
  '(Buff, k) ← WriteShort true Buff (o + Offset) (CkSum h); let Offset := Offset + k in
  '(Buff, k) ← WriteShort true Buff (o + Offset) (Ret h); let Offset := Offset + k in
  '(Buff, k) ← WriteByte Buff (o + Offset) (Compresse h); let Offset := Offset + k in
  Ok (Buff, Offset).

Definition Read (Buff : list Z) (o : Z) : outcome (t * Z) :=
  let Offset := 0 in
  '(pkglen, k) ← ReadInt true Buff (o + Offset); let Offset := Offset + k in
  '(cmd, k) ← ReadInt true Buff (o + Offset); let Offset := Offset + k in
  '(sn, k) ← ReadInt true Buff (o + Offset); let Offset := Offset + k in
  '(cksum, k) ← ReadShort true Buff (o + Offset); let Offset := Offset + k in
  '(ret, k) ← ReadShort true Buff (o + Offset); let Offset := Offset + k in
  '(compresse, k) ← ReadByte_s Buff (o + Offset); let Offset := Offset + k in
  Ok (mk pkglen cmd sn cksum ret compresse, Offset).

End XYHeader.

Module XYHeaderIn.
Import CBuffTool.

Record t : Type := mk {
  SrcID : Z; CmdID : Z; SN : Z; ConnPos : Z; UserID : Z; PkgTime : Z; Ret : Z;
}.

Definition init : t := mk 0 0 0 0 0 0 0.
Definition Copy (o : t) : t :=
  mk (SrcID o) (CmdID o) (SN o) (ConnPos o) (UserID o) (PkgTime o) (Ret o).
Definition GetHeaderLen : Z := 34.

Definition Write (h : t) (Buff : list Z) (o : Z) : outcome (list Z * Z) :=
  let Offset := 0 in
  '(Buff, k) ← WriteInt true Buff (o + Offset) (SrcID h); let Offset := Offset + k in
  '(Buff, k) ← WriteInt true Buff (o + Offset) (CmdID h); let Offset := Offset + k in
  '(Buff, k) ← WriteInt true Buff (o + Offset) (SN h); let Offset := Offset + k in
  '(Buff, k) ← WriteInt true Buff (o + Offset) (ConnPos h); let Offset := Offset + k in
  '(Buff, k) ← WriteLongLong false Buff (o + Offset) (UserID h); let Offset := Offset + k in
  '(Buff, k) ← WriteLongLong false Buff (o + Offset) (PkgTime h); let Offset := Offset + k in
  '(Buff, k) ← WriteShort true Buff (o + Offset) (Ret h); let Offset := Offset + k in
  Ok (Buff, Offset).

Definition Read (Buff : list Z) (o : Z) : outcome (t * Z) :=
  let Offset := 0 in
  '(src, k) ← ReadInt true Buff (o + Offset); let Offset := Offset + k in
  '(cmd, k) ← ReadInt true Buff (o + Offset); let Offset := Offset + k in
  '(sn, k) ← ReadInt true Buff (o + Offset); let Offset := Offset + k in
  '(connpos, k) ← ReadInt true Buff (o + Offset); let Offset := Offset + k in
  '(userid, k) ← ReadLongLong false Buff (o + Offset); let Offset := Offset + k in
  '(time, k) ← ReadLongLong false Buff (o + Offset); let Offset := Offset + k in
  '(ret, k) ← ReadShort true Buff (o + Offset); let Offset := Offset + k in
  Ok (mk src cmd sn connpos userid time ret, Offset).

(** [CoverToXYHeader(PkgLen)]: the header of the same package on its way to a
    client, whose length changes with the header. *)
Definition CoverToXYHeader (h : t) (PkgLen : Z) : XYHeader.t :=
  XYHeader.mk (u32 (PkgLen - GetHeaderLen + XYHeader.GetHeadLen)) (CmdID h) (SN h) 0 (Ret h) 0.

End XYHeaderIn.

(** * Byte orders *)
Section order.

(** The big-endian bytes of an integer. *)
Definition be_enc (n : nat) (x : Z) : list Z := rev (le_enc n x).

#[local] Arguments be_enc : simpl never.

Lemma zlen_be_enc n x : zlen (be_enc n x) = Z.of_nat n.
Proof. unfold be_enc, zlen. by rewrite length_rev, length_le_enc. Qed.

Lemma Forall_rev_bytes l : Forall byte_ok l → Forall byte_ok (rev l).
Proof. apply List.Forall_rev. Qed.

Lemma le_enc_bswap n x : le_enc n (bswap n x) = be_enc n x.
Proof.
  unfold bswap, be_enc. rewrite <- (length_le_enc n x) at 1.
  rewrite <- length_rev. apply le_enc_dec, Forall_rev_bytes, le_enc_bytes.
Qed.

Lemma bswap_be_dec n x :
  0 ≤ x < 2 ^ (8 * Z.of_nat n) → bswap n (le_dec (be_enc n x)) = x.
Proof.
  intros. unfold bswap, be_enc. rewrite <- (length_le_enc n x) at 1.
  rewrite <- length_rev, le_enc_dec, rev_involutive by apply Forall_rev_bytes, le_enc_bytes.
  by apply le_dec_enc.
Qed.

Lemma be_enc_bswap_dec d :
  Forall byte_ok d → be_enc (length d) (bswap (length d) (le_dec d)) = d.
Proof.
  intros Hd. unfold be_enc. rewrite le_enc_bswap. unfold be_enc.
  by rewrite le_enc_dec, rev_involutive.
Qed.

Lemma bswap_range n x : 0 ≤ bswap n x < 2 ^ (8 * Z.of_nat n).
Proof.
  pose proof (le_dec_bound (be_enc n x)) as H. rewrite zlen_be_enc in H.
  apply H, Forall_rev_bytes, le_enc_bytes.
Qed.

Lemma i8_le_dec x : - 2 ^ 7 ≤ x < 2 ^ 7 → i8 (le_dec (le_enc 1 x)) = x.
Proof.
  intros. cbn. rewrite Z.add_0_r. unfold i8.
  rewrite Z.add_mod_idemp_l, Z.mod_small by lia. lia.
Qed.

Lemma le_enc_i8 d : Forall byte_ok d → length d = 1%nat → le_enc 1 (i8 (le_dec d)) = d.
Proof.
  intros Hd Hl. destruct d as [|b [|]]; try done. apply Forall_cons in Hd as [Hb _].
  unfold byte_ok in Hb. cbn. unfold i8. rewrite Z.add_0_r. f_equal.
  destruct (Z.lt_ge_cases b (2 ^ 7)).
  - rewrite (Z.mod_small (b + 2 ^ 7)) by lia.
    replace (b + 2 ^ 7 - 2 ^ 7) with b by lia. by apply Z.mod_small.
  - rewrite (mod_sub_once (b + 2 ^ 7)) by lia.
    replace (b + 2 ^ 7 - 2 ^ 8 - 2 ^ 7) with (b + (-1) * 2 ^ 8) by lia.
    rewrite Z.mod_add by lia. by apply Z.mod_small.
Qed.

Lemma le_enc_app n k x :
  le_enc (n + k) x = le_enc n x ++ le_enc k (x / 2 ^ (8 * Z.of_nat n)).
Proof.
  revert x. induction n as [|n IH]; intros x; cbn [le_enc Nat.add app].
  - by rewrite Z.mul_0_r, Z.pow_0_r, Z.div_1_r.
  - rewrite IH, Z.div_div by lia. do 4 f_equal.
    rewrite <- Z.pow_add_r by lia. f_equal. lia.
Qed.

Lemma le_enc_add n x k : le_enc n (x + k * 2 ^ (8 * Z.of_nat n)) = le_enc n x.
Proof.
  revert x k. induction n as [|n IH]; intros x k; cbn [le_enc]; [done|].
  replace (8 * Z.of_nat (S n)) with (8 * Z.of_nat n + 8) by lia.
  rewrite Z.pow_add_r, Z.mul_assoc by lia. f_equal.
  - by rewrite Z.mod_add.
  - by rewrite Z.div_add, IH by lia.
Qed.

Lemma le_enc_mod n x : le_enc n (x mod 2 ^ (8 * Z.of_nat n)) = le_enc n x.
Proof.
  rewrite <- (le_enc_add n (x mod _) (x / 2 ^ (8 * Z.of_nat n))). f_equal.
  rewrite (Z_div_mod_eq_full x (2 ^ (8 * Z.of_nat n))) at 3. lia.
Qed.

Lemma le_enc_cong n x y :
  x mod 2 ^ (8 * Z.of_nat n) = y mod 2 ^ (8 * Z.of_nat n) → le_enc n x = le_enc n y.
Proof. intros H. rewrite <- (le_enc_mod n x), H. apply le_enc_mod. Qed.

Lemma le_dec_app a b : le_dec (a ++ b) = le_dec a + 2 ^ (8 * zlen a) * le_dec b.
Proof.
  induction a as [|x a IH]; cbn [le_dec app].
  - change (zlen (@nil Z)) with 0. rewrite Z.mul_0_r, Z.pow_0_r. lia.
  - rewrite IH, zlen_cons. replace (8 * (1 + zlen a)) with (8 + 8 * zlen a) by lia.
    rewrite Z.pow_add_r by (unfold zlen; lia). lia.
Qed.

Lemma lor_shifted a b : 0 ≤ b < 2 ^ 32 → Z.lor (a * 2 ^ 32) b = a * 2 ^ 32 + b.
Proof.
  intros. rewrite <- Z.shiftl_mul_pow2 by lia. symmetry. apply Z.add_nocarry_lor.
  apply Z.bits_inj_0. intros n. rewrite Z.land_spec.
  destruct (Z.lt_ge_cases n 0); [by rewrite Z.testbit_neg_r|].
  destruct (Z.lt_ge_cases n 32); [by rewrite Z.shiftl_spec_low|].
  rewrite (Z.bits_above_log2 b), andb_false_r; [done|lia|].
  destruct (Z.eq_dec b 0) as [->|]; [cbn; lia|]. apply Z.log2_lt_pow2; [lia|].
  pose proof (Z.pow_le_mono_r 2 32 n). lia.
Qed.
End order.

Section longlong.
Lemma bswap_cong n x y :
  x mod 2 ^ (8 * Z.of_nat n) = y mod 2 ^ (8 * Z.of_nat n) → bswap n x = bswap n y.
Proof. intros H. unfold bswap. by rewrite (le_enc_cong n x y). Qed.

Lemma i64_cases x : 0 ≤ x < 2 ^ 64 → i64 x = x ∨ i64 x = x - 2 ^ 64.
Proof.
  intros. unfold i64. destruct (Z.lt_ge_cases x (2 ^ 63)); [left|right].
  - rewrite Z.mod_small; lia.
  - rewrite mod_sub_once; lia.
Qed.

Lemma i32_mod x : i32 x mod 2 ^ 32 = x mod 2 ^ 32.
Proof.
  unfold i32. rewrite <- Zminus_mod_idemp_l, Z.mod_mod, Zminus_mod_idemp_l by lia.
  f_equal. lia.
Qed.

Lemma bswap_8 x : bswap 8 x = bswap 4 x * 2 ^ 32 + bswap 4 (x / 2 ^ 32).
Proof.
  unfold bswap. rewrite (le_enc_app 4 4). rewrite rev_app_distr, le_dec_app.
  change (8 * Z.of_nat 4) with 32.
  replace (zlen (rev (le_enc 4 (x / 2 ^ 32)))) with 4 by (symmetry; apply (zlen_be_enc 4)).
  lia.
Qed.

(** [htonll] reverses the bytes of its argument, whatever its sign. *)
Lemma htonll_bswap x : 0 ≤ x < 2 ^ 64 → u64 (htonll (i64 x)) = bswap 8 x.
Proof.
  intros Hx. unfold htonll, ntohl.
  assert (∃ k, i64 x = x + k * 2 ^ 64) as [k Hk].
  { destruct (i64_cases x Hx); [exists 0|exists (-1)]; lia. }
  rewrite (bswap_cong 4 (i32 (i64 x)) x).
  2: { rewrite i32_mod, Hk. replace (x + k * 2 ^ 64) with (x + k * 2 ^ 32 * 2 ^ 32) by lia.
       by apply Z.mod_add. }
  rewrite (bswap_cong 4 (i32 (Z.shiftr (i64 x) 32)) (x / 2 ^ 32)).
  2: { rewrite i32_mod, Z.shiftr_div_pow2, Hk by lia.
       replace (x + k * 2 ^ 64) with (x + k * 2 ^ 32 * 2 ^ 32) by lia.
       rewrite Z.div_add by lia. by apply Z.mod_add. }
  rewrite bswap_8, Z.shiftl_mul_pow2 by lia.
  pose proof (bswap_range 4 x) as Ha. pose proof (bswap_range 4 (x / 2 ^ 32)) as Hb.
  change (8 * Z.of_nat 4) with 32 in *.
  assert (∃ j, i64 (bswap 4 x * 2 ^ 32) = (bswap 4 x + j * 2 ^ 32) * 2 ^ 32) as [j ->].
  { destruct (i64_cases (bswap 4 x * 2 ^ 32)); [lia|exists 0|exists (-1)]; lia. }
  rewrite lor_shifted by done. unfold u64.
  replace (_ + bswap 4 (x / 2 ^ 32))
    with (bswap 4 x * 2 ^ 32 + bswap 4 (x / 2 ^ 32) + j * 2 ^ 64) by lia.
  rewrite Z.mod_add by lia. apply Z.mod_small. lia.
Qed.

Lemma ntohll_htonll x : ntohll x = htonll x.
Proof. done. Qed.
End longlong.

(** * Fields and headers in a buffer *)
Section fields.
Import CBuffTool.

Lemma mwrite_app_inv {A} (m a b : list A) o m' :
  mwrite m o (a ++ b) = Ok m' →
  ∃ m1, mwrite m o a = Ok m1 ∧ mwrite m1 (o + zlen a) b = Ok m'.
Proof.
  rewrite <- mwrite_app. destruct (mwrite m o a) as [m1| |]; cbn; [|done..]. eauto.
Qed.

(** What writing a field does to the buffer, and what reading it gives. *)
Lemma WriteInt_be m o x m' : mwrite m o (be_enc 4 x) = Ok m' → WriteInt true m o x = Ok (m', 4).
Proof. intros H. unfold WriteInt, htonl. rewrite le_enc_bswap. by rewrite H. Qed.
Lemma WriteShort_be m o x m' : mwrite m o (be_enc 2 x) = Ok m' → WriteShort true m o x = Ok (m', 2).
Proof. intros H. unfold WriteShort, htons. rewrite le_enc_bswap. by rewrite H. Qed.
Lemma WriteLongLong_le m o x m' :
  mwrite m o (le_enc 8 x) = Ok m' → WriteLongLong false m o x = Ok (m', 8).
Proof. intros H. unfold WriteLongLong. by rewrite H. Qed.
Lemma WriteByte_le m o x m' : mwrite m o (le_enc 1 x) = Ok m' → WriteByte m o x = Ok (m', 1).
Proof. intros H. unfold WriteByte. by rewrite H. Qed.

Lemma ReadInt_raw m o d : mread m o 4 = Ok d → ReadInt true m o = Ok (bswap 4 (le_dec d), 4).
Proof. intros H. unfold ReadInt. by rewrite H. Qed.
Lemma ReadShort_raw m o d : mread m o 2 = Ok d → ReadShort true m o = Ok (bswap 2 (le_dec d), 2).
Proof. intros H. unfold ReadShort. by rewrite H. Qed.
Lemma ReadLongLong_raw m o d : mread m o 8 = Ok d → ReadLongLong false m o = Ok (le_dec d, 8).
Proof. intros H. unfold ReadLongLong. by rewrite H. Qed.
Lemma ReadByte_raw m o d : mread m o 1 = Ok d → ReadByte_s m o = Ok (i8 (le_dec d), 1).
Proof. intros H. unfold ReadByte_s. by rewrite H. Qed.

(** Cuts the read of a whole header into the reads of its fields. *)
Lemma mread_cut {A} (m d : list A) o n1 n2 :
  0 ≤ n1 → 0 ≤ n2 → mread m o (n1 + n2) = Ok d →
  ∃ d1 d2, d = d1 ++ d2 ∧ zlen d1 = n1 ∧ mread m o n1 = Ok d1 ∧ mread m (o + n1) n2 = Ok d2.
Proof.
  intros ? ? Hd.
  pose proof (mread_zlen _ _ _ _ Hd) as Hz.
  destruct (split_at d n1) as (d1 & d2 & -> & ? & ?); [lia|].
  destruct (mread_app m d1 d2 o n1 n2) as [? ?]; [done..|]. eauto 10.
Qed.

End fields.

(** Moves the offset of the next field access of the goal to [o]. *)
Ltac at_offset off o := replace off with o by lia.

(** The next field of a header write; [H] says what the rest writes. *)
Ltac write_step m o H1 :=
  lazymatch goal with
  | |- context [CBuffTool.WriteInt true m ?off _] =>
      at_offset off o; rewrite (WriteInt_be _ _ _ _ H1)
  | |- context [CBuffTool.WriteShort true m ?off _] =>
      at_offset off o; rewrite (WriteShort_be _ _ _ _ H1)
  | |- context [CBuffTool.WriteLongLong false m ?off _] =>
      at_offset off o; rewrite (WriteLongLong_le _ _ _ _ H1)
  | |- context [CBuffTool.WriteByte m ?off _] =>
      at_offset off o; rewrite (WriteByte_le _ _ _ _ H1)
  end; cbn.

Ltac write_fields H :=
  let m1 := fresh "m" in let H1 := fresh "Hw" in
  first
  [ apply mwrite_app_inv in H as (m1 & H1 & H);
    rewrite ?zlen_be_enc, ?zlen_le_enc in H; cbn [Z.of_nat] in H;
    lazymatch type of H1 with mwrite ?m ?o _ = _ => write_step m o H1 end;
    write_fields H
  | lazymatch type of H with mwrite ?m ?o _ = _ => write_step m o H end ].

(** The next field of a header read; [H] says what the rest reads. *)
Ltac read_step o H1 :=
  lazymatch goal with
  | |- context [CBuffTool.ReadInt true _ ?off] =>
      at_offset off o; rewrite (ReadInt_raw _ _ _ H1)
  | |- context [CBuffTool.ReadShort true _ ?off] =>
      at_offset off o; rewrite (ReadShort_raw _ _ _ H1)
  | |- context [CBuffTool.ReadLongLong false _ ?off] =>
      at_offset off o; rewrite (ReadLongLong_raw _ _ _ H1)
  | |- context [CBuffTool.ReadByte_s _ ?off] =>
      at_offset off o; rewrite (ReadByte_raw _ _ _ H1)
  end; cbn.

(** Equal concatenations of pieces of the same lengths have equal pieces. *)
Ltac split_fields H :=
  repeat (let Hf := fresh "Hf" in
    apply app_inj_1 in H as [Hf H];
    [|apply Nat2Z.inj; fold (@zlen Z); unfold zlen in *;
      rewrite ?length_rev, ?length_le_enc; unfold be_enc;
      rewrite ?length_rev, ?length_le_enc; lia]).

(** The values of fields of a given length. *)
Section values.
Lemma be_field n x : 0 ≤ x < 2 ^ (8 * Z.of_nat n) → bswap n (le_dec (be_enc n x)) = x.
Proof. apply bswap_be_dec. Qed.

Lemma field_be n d : Forall byte_ok d → zlen d = Z.of_nat n → be_enc n (bswap n (le_dec d)) = d.
Proof. intros Hd Hl. replace n with (length d) by (unfold zlen in *; lia). by apply be_enc_bswap_dec. Qed.

Lemma field_le n d : Forall byte_ok d → zlen d = Z.of_nat n → le_enc n (le_dec d) = d.
Proof. intros Hd Hl. replace n with (length d) by (unfold zlen in *; lia). by apply le_enc_dec. Qed.

Lemma field_i8 d : Forall byte_ok d → zlen d = 1 → le_enc 1 (i8 (le_dec d)) = d.
Proof. intros Hd Hl. apply le_enc_i8; [done|]. unfold zlen in *. lia. Qed.

Lemma le_field_range d n : Forall byte_ok d → zlen d = n → 0 ≤ le_dec d < 2 ^ (8 * n).
Proof. intros Hd <-. by apply le_dec_bound. Qed.

Lemma i8_range x : - 2 ^ 7 ≤ i8 x < 2 ^ 7.
Proof. unfold i8. pose proof (Z.mod_pos_bound (x + 2 ^ 7) (2 ^ 8)). lia. Qed.
End values.

Ltac field_values :=
  rewrite ?be_field by (cbn; lia); rewrite ?le_dec_enc by (cbn; lia); rewrite ?i8_le_dec by lia.

Ltac field_range :=
  first [ apply (bswap_range 4) | apply (bswap_range 2) | apply i8_range
        | apply (le_field_range _ 8); done ].

Ltac field_bytes :=
  first [ by apply (field_be 4) | by apply (field_be 2) | by apply (field_le 8)
        | by apply field_i8 ].

Section bus_header.
Import BusHeader.
Implicit Types (h : BusHeader.t).

(** The 26 bytes of a bus header: integers big-endian, the time as it lies in
    memory. *)
Definition bus_bytes h : list Z :=
  be_enc 4 (PkgLen h) ++ be_enc 4 (CmdID h) ++ be_enc 4 (SrcID h) ++ be_enc 4 (DstID h) ++
  le_enc 8 (PkgTime h) ++ le_enc 1 (SendType h) ++ le_enc 1 (Flag h).

Record bus_ok h : Prop := {
  bus_len : 0 ≤ PkgLen h < 2 ^ 32;
  bus_cmd : 0 ≤ CmdID h < 2 ^ 32;
  bus_src : 0 ≤ SrcID h < 2 ^ 32;
  bus_dst : 0 ≤ DstID h < 2 ^ 32;
  bus_time : 0 ≤ PkgTime h < 2 ^ 64;
  bus_type : - 2 ^ 7 ≤ SendType h < 2 ^ 7;
  bus_flag : - 2 ^ 7 ≤ Flag h < 2 ^ 7;
}.

Lemma zlen_bus_bytes h : zlen (bus_bytes h) = 26.
Proof. unfold bus_bytes. rewrite !zlen_app, !zlen_be_enc, !zlen_le_enc. done. Qed.

Lemma bus_Write_bytes h m o m' : mwrite m o (bus_bytes h) = Ok m' → Write h m o = Ok (m', 26).
Proof. intros H. unfold bus_bytes in H. unfold Write. cbv zeta. write_fields H. done. Qed.

(** A read takes the header apart into its fields. *)
Lemma bus_Read_fields m o d :
  mread m o 26 = Ok d →
  ∃ d1 d2 d3 d4 d5 d6 d7, d = d1 ++ d2 ++ d3 ++ d4 ++ d5 ++ d6 ++ d7 ∧
    zlen d1 = 4 ∧ zlen d2 = 4 ∧ zlen d3 = 4 ∧ zlen d4 = 4 ∧ zlen d5 = 8 ∧ zlen d6 = 1 ∧
    zlen d7 = 1 ∧
    Read m o = Ok (mk (bswap 4 (le_dec d1)) (bswap 4 (le_dec d2)) (bswap 4 (le_dec d3))
                     (bswap 4 (le_dec d4)) (le_dec d5) (i8 (le_dec d6)) (i8 (le_dec d7)), 26).
Proof.
  intros H.
  apply (mread_cut m d o 4 22) in H as (d1 & e1 & -> & ? & Hr1 & H); [|lia..].
  apply (mread_cut m e1 _ 4 18) in H as (d2 & e2 & -> & ? & Hr2 & H); [|lia..].
  apply (mread_cut m e2 _ 4 14) in H as (d3 & e3 & -> & ? & Hr3 & H); [|lia..].
  apply (mread_cut m e3 _ 4 10) in H as (d4 & e4 & -> & ? & Hr4 & H); [|lia..].
  apply (mread_cut m e4 _ 8 2) in H as (d5 & e5 & -> & ? & Hr5 & H); [|lia..].
  apply (mread_cut m e5 _ 1 1) in H as (d6 & d7 & -> & ? & Hr6 & Hr7); [|lia..].
  exists d1, d2, d3, d4, d5, d6, d7. split_and!; try done.
  { apply mread_zlen in Hr7. lia. }
  unfold Read. cbv zeta.
  read_step o Hr1. read_step (o + 4) Hr2. read_step (o + 4 + 4) Hr3. read_step (o + 4 + 4 + 4) Hr4.
  read_step (o + 4 + 4 + 4 + 4) Hr5. read_step (o + 4 + 4 + 4 + 4 + 8) Hr6.
  read_step (o + 4 + 4 + 4 + 4 + 8 + 1) Hr7. done.
Qed.

Lemma bus_Read_bytes h m o :
  bus_ok h → mread m o 26 = Ok (bus_bytes h) → Read m o = Ok (h, 26).
Proof.
  intros [] Hd. destruct (bus_Read_fields m o _ Hd)
    as (d1 & d2 & d3 & d4 & d5 & d6 & d7 & Hb & ? & ? & ? & ? & ? & ? & ? & Hr).
  unfold bus_bytes in Hb. split_fields Hb. subst. rewrite Hr. field_values. by destruct h.
Qed.

(** Reading any bytes gives a header that is written as the same bytes. *)
Lemma bus_Read_Write m o d :
  Forall byte_ok d → mread m o 26 = Ok d →
  ∃ h, Read m o = Ok (h, 26) ∧ bus_ok h ∧ bus_bytes h = d.
Proof.
  intros Hb Hd. destruct (bus_Read_fields m o d Hd)
    as (d1 & d2 & d3 & d4 & d5 & d6 & d7 & -> & ? & ? & ? & ? & ? & ? & ? & Hr).
  repeat (apply Forall_app in Hb as [? Hb]).
  eexists. split; [exact Hr|]. split; [split; field_range|].
  unfold bus_bytes. repeat (f_equal; [field_bytes|]). field_bytes.
Qed.
End bus_header.

Section xy_header.
Import XYHeader.
Implicit Types (h : XYHeader.t).

Definition xy_bytes h : list Z :=
  be_enc 4 (PkgLen h) ++ be_enc 4 (CmdID h) ++ be_enc 4 (SN h) ++ be_enc 2 (CkSum h) ++ be_enc 2 (Ret h) ++ le_enc 1 (Compresse h).

Record xy_ok h : Prop := {
  xy_PkgLen : 0 ≤ PkgLen h < 2 ^ 32;
  xy_CmdID : 0 ≤ CmdID h < 2 ^ 32;
  xy_SN : 0 ≤ SN h < 2 ^ 32;
  xy_CkSum : 0 ≤ CkSum h < 2 ^ 16;
  xy_Ret : 0 ≤ Ret h < 2 ^ 16;
  xy_Compresse : - 2 ^ 7 ≤ Compresse h < 2 ^ 7;
}.

Lemma zlen_xy_bytes h : zlen (xy_bytes h) = 17.
Proof. unfold xy_bytes. rewrite !zlen_app, !zlen_be_enc, !zlen_le_enc. done. Qed.

Lemma xy_Write_bytes h m o m' : mwrite m o (xy_bytes h) = Ok m' → Write h m o = Ok (m', 17).
Proof. intros H. unfold xy_bytes in H. unfold Write. cbv zeta. write_fields H. done. Qed.

Lemma xy_Read_fields m o d :
  mread m o 17 = Ok d →
  ∃ d1 d2 d3 d4 d5 d6, d = d1 ++ d2 ++ d3 ++ d4 ++ d5 ++ d6 ∧
    zlen d1 = 4 ∧ zlen d2 = 4 ∧ zlen d3 = 4 ∧ zlen d4 = 2 ∧ zlen d5 = 2 ∧ zlen d6 = 1 ∧
    Read m o = Ok (mk (bswap 4 (le_dec d1)) (bswap 4 (le_dec d2)) (bswap 4 (le_dec d3)) (bswap 2 (le_dec d4)) (bswap 2 (le_dec d5)) (i8 (le_dec d6)), 17).
Proof.
  intros H.
  apply (mread_cut m d o 4 13) in H as (d1 & e1 & -> & ? & Hr1 & H); [|lia..].
  apply (mread_cut m e1 _ 4 9) in H as (d2 & e2 & -> & ? & Hr2 & H); [|lia..].
  apply (mread_cut m e2 _ 4 5) in H as (d3 & e3 & -> & ? & Hr3 & H); [|lia..].
  apply (mread_cut m e3 _ 2 3) in H as (d4 & e4 & -> & ? & Hr4 & H); [|lia..].
  apply (mread_cut m e4 _ 2 1) in H as (d5 & d6 & -> & ? & Hr5 & Hr6); [|lia..].
  exists d1, d2, d3, d4, d5, d6. split_and!; try done.
  { apply mread_zlen in Hr6. lia. }
  unfold Read. cbv zeta.
  read_step (o) Hr1.
  read_step (o + 4) Hr2.
  read_step (o + 4 + 4) Hr3.
  read_step (o + 4 + 4 + 4) Hr4.
  read_step (o + 4 + 4 + 4 + 2) Hr5.
  read_step (o + 4 + 4 + 4 + 2 + 2) Hr6.
  done.
Qed.

Lemma xy_Read_bytes h m o :
  xy_ok h → mread m o 17 = Ok (xy_bytes h) → Read m o = Ok (h, 17).
Proof.
  intros [] Hd. destruct (xy_Read_fields m o _ Hd)
    as (d1 & d2 & d3 & d4 & d5 & d6 & Hb & ? & ? & ? & ? & ? & ? & Hr).
  unfold xy_bytes in Hb. split_fields Hb. subst. rewrite Hr. field_values. by destruct h.
Qed.

(** Reading any bytes gives a header that is written as the same bytes. *)
Lemma xy_Read_Write m o d :
  Forall byte_ok d → mread m o 17 = Ok d →
  ∃ h, Read m o = Ok (h, 17) ∧ xy_ok h ∧ xy_bytes h = d.
Proof.
  intros Hb Hd. destruct (xy_Read_fields m o d Hd)
    as (d1 & d2 & d3 & d4 & d5 & d6 & -> & ? & ? & ? & ? & ? & ? & Hr).
  repeat (apply Forall_app in Hb as [? Hb]).
  eexists. split; [exact Hr|]. split; [split; field_range|].
  unfold xy_bytes. repeat (f_equal; [field_bytes|]). field_bytes.
Qed.
End xy_header.

Section xyin_header.
Import XYHeaderIn.
Implicit Types (h : XYHeaderIn.t).

Definition xyin_bytes h : list Z :=
  be_enc 4 (SrcID h) ++ be_enc 4 (CmdID h) ++ be_enc 4 (SN h) ++ be_enc 4 (ConnPos h) ++ le_enc 8 (UserID h) ++ le_enc 8 (PkgTime h) ++ be_enc 2 (Ret h).

Record xyin_ok h : Prop := {
  xyin_SrcID : 0 ≤ SrcID h < 2 ^ 32;
  xyin_CmdID : 0 ≤ CmdID h < 2 ^ 32;
  xyin_SN : 0 ≤ SN h < 2 ^ 32;
  xyin_ConnPos : 0 ≤ ConnPos h < 2 ^ 32;
  xyin_UserID : 0 ≤ UserID h < 2 ^ 64;
  xyin_PkgTime : 0 ≤ PkgTime h < 2 ^ 64;
  xyin_Ret : 0 ≤ Ret h < 2 ^ 16;
}.

Lemma zlen_xyin_bytes h : zlen (xyin_bytes h) = 34.
Proof. unfold xyin_bytes. rewrite !zlen_app, !zlen_be_enc, !zlen_le_enc. done. Qed.

Lemma xyin_Write_bytes h m o m' : mwrite m o (xyin_bytes h) = Ok m' → Write h m o = Ok (m', 34).
Proof. intros H. unfold xyin_bytes in H. unfold Write. cbv zeta. write_fields H. done. Qed.

Lemma xyin_Read_fields m o d :
  mread m o 34 = Ok d →
  ∃ d1 d2 d3 d4 d5 d6 d7, d = d1 ++ d2 ++ d3 ++ d4 ++ d5 ++ d6 ++ d7 ∧
    zlen d1 = 4 ∧ zlen d2 = 4 ∧ zlen d3 = 4 ∧ zlen d4 = 4 ∧ zlen d5 = 8 ∧ zlen d6 = 8 ∧ zlen d7 = 2 ∧
    Read m o = Ok (mk (bswap 4 (le_dec d1)) (bswap 4 (le_dec d2)) (bswap 4 (le_dec d3)) (bswap 4 (le_dec d4)) (le_dec d5) (le_dec d6) (bswap 2 (le_dec d7)), 34).
Proof.
  intros H.
  apply (mread_cut m d o 4 30) in H as (d1 & e1 & -> & ? & Hr1 & H); [|lia..].
  apply (mread_cut m e1 _ 4 26) in H as (d2 & e2 & -> & ? & Hr2 & H); [|lia..].
  apply (mread_cut m e2 _ 4 22) in H as (d3 & e3 & -> & ? & Hr3 & H); [|lia..].
  apply (mread_cut m e3 _ 4 18) in H as (d4 & e4 & -> & ? & Hr4 & H); [|lia..].
  apply (mread_cut m e4 _ 8 10) in H as (d5 & e5 & -> & ? & Hr5 & H); [|lia..].
  apply (mread_cut m e5 _ 8 2) in H as (d6 & d7 & -> & ? & Hr6 & Hr7); [|lia..].
  exists d1, d2, d3, d4, d5, d6, d7. split_and!; try done.
  { apply mread_zlen in Hr7. lia. }
  unfold Read. cbv zeta.
  read_step (o) Hr1.
  read_step (o + 4) Hr2.
  read_step (o + 4 + 4) Hr3.
  read_step (o + 4 + 4 + 4) Hr4.
  read_step (o + 4 + 4 + 4 + 4) Hr5.
  read_step (o + 4 + 4 + 4 + 4 + 8) Hr6.
  read_step (o + 4 + 4 + 4 + 4 + 8 + 8) Hr7.
  done.
Qed.

Lemma xyin_Read_bytes h m o :
  xyin_ok h → mread m o 34 = Ok (xyin_bytes h) → Read m o = Ok (h, 34).
Proof.
  intros [] Hd. destruct (xyin_Read_fields m o _ Hd)
    as (d1 & d2 & d3 & d4 & d5 & d6 & d7 & Hb & ? & ? & ? & ? & ? & ? & ? & Hr).
  unfold xyin_bytes in Hb. split_fields Hb. subst. rewrite Hr. field_values. by destruct h.
Qed.

(** Reading any bytes gives a header that is written as the same bytes. *)
Lemma xyin_Read_Write m o d :
  Forall byte_ok d → mread m o 34 = Ok d →
  ∃ h, Read m o = Ok (h, 34) ∧ xyin_ok h ∧ xyin_bytes h = d.
Proof.
  intros Hb Hd. destruct (xyin_Read_fields m o d Hd)
    as (d1 & d2 & d3 & d4 & d5 & d6 & d7 & -> & ? & ? & ? & ? & ? & ? & ? & Hr).
  repeat (apply Forall_app in Hb as [? Hb]).
  eexists. split; [exact Hr|]. split; [split; field_range|].
  unfold xyin_bytes. repeat (f_equal; [field_bytes|]). field_bytes.
Qed.
End xyin_header.

(** * Properties *)

(** C29: a bus header that is written into a buffer and read back is the same
    header, it takes the 26 bytes [GetHeaderLen] says, in network order but for
    the time, and nothing else of the buffer changes; and any 26 bytes are a
    header that is written back as the same bytes. *)
Theorem BusHeader_roundtrip (h : BusHeader.t) m o :
  bus_ok h → Forall byte_ok m → 0 ≤ o → o + BusHeader.GetHeaderLen ≤ zlen m →
  (∃ m', BusHeader.Write h m o = Ok (m', BusHeader.GetHeaderLen) ∧ mwrite m o (bus_bytes h) = Ok m' ∧
         BusHeader.Read m' o = Ok (h, BusHeader.GetHeaderLen)) ∧
  (∃ h', BusHeader.Read m o = Ok (h', BusHeader.GetHeaderLen) ∧ bus_ok h' ∧
         BusHeader.Write h' m o = Ok (m, BusHeader.GetHeaderLen)).
Proof.
  unfold BusHeader.GetHeaderLen. intros Hh Hm ? ?. split.
  - destruct (mwrite_total m (bus_bytes h) o) as (m' & Hw & _);
      [lia|rewrite zlen_bus_bytes; lia|].
    exists m'. split; [by apply bus_Write_bytes|]. split; [done|].
    apply bus_Read_bytes; [done|]. rewrite <- (zlen_bus_bytes h). by apply (mread_mwrite m).
  - destruct (mread_total m o 26) as (d & Hd & Hz); [lia..|].
    destruct (bus_Read_Write m o d) as (h' & Hr & Hok & Hb);
      [by apply (mread_Forall _ m o 26)|done|].
    exists h'. split; [done|]. split; [done|]. apply bus_Write_bytes, mwrite_mread.
    by rewrite Hb, Hz.
Qed.

(** The same for the header that travels to and from clients, of 17 bytes. *)
Theorem XYHeader_roundtrip (h : XYHeader.t) m o :
  xy_ok h → Forall byte_ok m → 0 ≤ o → o + XYHeader.GetHeadLen ≤ zlen m →
  (∃ m', XYHeader.Write h m o = Ok (m', XYHeader.GetHeadLen) ∧ mwrite m o (xy_bytes h) = Ok m' ∧
         XYHeader.Read m' o = Ok (h, XYHeader.GetHeadLen)) ∧
  (∃ h', XYHeader.Read m o = Ok (h', XYHeader.GetHeadLen) ∧ xy_ok h' ∧
         XYHeader.Write h' m o = Ok (m, XYHeader.GetHeadLen)).
Proof.
  unfold XYHeader.GetHeadLen. intros Hh Hm ? ?. split.
  - destruct (mwrite_total m (xy_bytes h) o) as (m' & Hw & _);
      [lia|rewrite zlen_xy_bytes; lia|].
    exists m'. split; [by apply xy_Write_bytes|]. split; [done|].
    apply xy_Read_bytes; [done|]. rewrite <- (zlen_xy_bytes h). by apply (mread_mwrite m).
  - destruct (mread_total m o 17) as (d & Hd & Hz); [lia..|].
    destruct (xy_Read_Write m o d) as (h' & Hr & Hok & Hb);
      [by apply (mread_Forall _ m o 17)|done|].
    exists h'. split; [done|]. split; [done|]. apply xy_Write_bytes, mwrite_mread.
    by rewrite Hb, Hz.
Qed.

(** The same for the header that travels between servers, of 34 bytes. *)
Theorem XYHeaderIn_roundtrip (h : XYHeaderIn.t) m o :
  xyin_ok h → Forall byte_ok m → 0 ≤ o → o + XYHeaderIn.GetHeaderLen ≤ zlen m →
  (∃ m', XYHeaderIn.Write h m o = Ok (m', XYHeaderIn.GetHeaderLen) ∧ mwrite m o (xyin_bytes h) = Ok m' ∧
         XYHeaderIn.Read m' o = Ok (h, XYHeaderIn.GetHeaderLen)) ∧
  (∃ h', XYHeaderIn.Read m o = Ok (h', XYHeaderIn.GetHeaderLen) ∧ xyin_ok h' ∧
         XYHeaderIn.Write h' m o = Ok (m, XYHeaderIn.GetHeaderLen)).
Proof.
  unfold XYHeaderIn.GetHeaderLen. intros Hh Hm ? ?. split.
  - destruct (mwrite_total m (xyin_bytes h) o) as (m' & Hw & _);
      [lia|rewrite zlen_xyin_bytes; lia|].
    exists m'. split; [by apply xyin_Write_bytes|]. split; [done|].
    apply xyin_Read_bytes; [done|]. rewrite <- (zlen_xyin_bytes h). by apply (mread_mwrite m).
  - destruct (mread_total m o 34) as (d & Hd & Hz); [lia..|].
    destruct (xyin_Read_Write m o d) as (h' & Hr & Hok & Hb);
      [by apply (mread_Forall _ m o 34)|done|].
    exists h'. split; [done|]. split; [done|]. apply xyin_Write_bytes, mwrite_mread.
    by rewrite Hb, Hz.
Qed.

(** With byte order conversion asked for, a 64-bit integer is written most
    significant byte first, and read back as it was, for every value. *)
Theorem LongLong_network_order m o x :
  0 ≤ x < 2 ^ 64 → 0 ≤ o → o + 8 ≤ zlen m →
  ∃ m', CBuffTool.WriteLongLong true m o x = Ok (m', 8) ∧
        mread m' o 8 = Ok (be_enc 8 x) ∧ CBuffTool.ReadLongLong true m' o = Ok (x, 8).
Proof.
  intros Hx ? ?. unfold CBuffTool.WriteLongLong. rewrite htonll_bswap, le_enc_bswap by done.
  destruct (mwrite_total m (be_enc 8 x) o) as (m' & Hw & _); [lia|rewrite zlen_be_enc; lia|].
  rewrite Hw. exists m'. split; [done|].
  pose proof (mread_mwrite _ _ _ _ Hw) as Hr. rewrite zlen_be_enc in Hr.
  split; [done|]. unfold CBuffTool.ReadLongLong. change (Z.of_nat 8) with 8 in Hr. rewrite Hr. cbn [mbind outcome_bind].
  pose proof (le_dec_bound (be_enc 8 x)) as Hb. rewrite zlen_be_enc in Hb.
  rewrite ntohll_htonll, htonll_bswap by (apply Hb, Forall_rev_bytes, le_enc_bytes).
  by rewrite be_field.
Qed.

(** * The properties at concrete buffers *)
Section examples.
Lemma BusHeader_roundtrip_witness :
  let h := BusHeader.mk 300 7 201 401 1700000000 2 (-1) in
  (∃ m', BusHeader.Write h (replicate 30 0) 2 = Ok (m', 26) ∧
         mwrite (replicate 30 0) 2 (bus_bytes h) = Ok m' ∧
         BusHeader.Read m' 2 = Ok (h, 26)) ∧
  (∃ h', BusHeader.Read (replicate 30 0) 2 = Ok (h', 26) ∧ bus_ok h' ∧
         BusHeader.Write h' (replicate 30 0) 2 = Ok (replicate 30 0, 26)).
Proof.
  apply (BusHeader_roundtrip (BusHeader.mk 300 7 201 401 1700000000 2 (-1)));
    [split; cbn; lia|apply Forall_replicate; by unfold byte_ok|lia|concrete].
Defined.

Lemma XYHeader_roundtrip_witness :
  let h := XYHeader.mk 117 65537 3 65535 0 1 in
  (∃ m', XYHeader.Write h (replicate 20 255) 3 = Ok (m', 17) ∧
         mwrite (replicate 20 255) 3 (xy_bytes h) = Ok m' ∧
         XYHeader.Read m' 3 = Ok (h, 17)) ∧
  (∃ h', XYHeader.Read (replicate 20 255) 3 = Ok (h', 17) ∧ xy_ok h' ∧
         XYHeader.Write h' (replicate 20 255) 3 = Ok (replicate 20 255, 17)).
Proof.
  apply (XYHeader_roundtrip (XYHeader.mk 117 65537 3 65535 0 1));
    [split; cbn; lia|apply Forall_replicate; by unfold byte_ok|lia|concrete].
Defined.

Lemma XYHeaderIn_roundtrip_witness :
  let h := XYHeaderIn.mk 401 131073 9 77 12345678901234 1700000000 65535 in
  (∃ m', XYHeaderIn.Write h (replicate 34 128) 0 = Ok (m', 34) ∧
         mwrite (replicate 34 128) 0 (xyin_bytes h) = Ok m' ∧
         XYHeaderIn.Read m' 0 = Ok (h, 34)) ∧
  (∃ h', XYHeaderIn.Read (replicate 34 128) 0 = Ok (h', 34) ∧ xyin_ok h' ∧
         XYHeaderIn.Write h' (replicate 34 128) 0 = Ok (replicate 34 128, 34)).
Proof.
  apply (XYHeaderIn_roundtrip (XYHeaderIn.mk 401 131073 9 77 12345678901234 1700000000 65535));
    [split; cbn; lia|apply Forall_replicate; by unfold byte_ok|lia|concrete].
Defined.

Lemma LongLong_network_order_witness :
  ∃ m', CBuffTool.WriteLongLong true (replicate 8 0) 0 (2 ^ 64 - 2) = Ok (m', 8) ∧
        mread m' 0 8 = Ok (be_enc 8 (2 ^ 64 - 2)) ∧
        CBuffTool.ReadLongLong true m' 0 = Ok (2 ^ 64 - 2, 8).
Proof. apply LongLong_network_order; [lia|lia|concrete]. Defined.
End examples.
