(* ===== verification/HashList.v ===== *)
(** [CHashListNoLock] (mmlib/hash_list/hash_list_nolock.h): a hash table in a
    block of memory, with chains of nodes linked by index and a list of free
    nodes.  Node 0 is never used: index 0 is the end of a chain. *)
From stdpp Require Import gmap.
From S2P Require Import Prelude.

(** What a KEYTYPE needs: [Key % n], and the key whose bytes are all zero. *)
Class HashKey (KEY : Type) : Type := {
  key_zero : KEY;
  key_mod : KEY → Z → Z;
  key_mod_bound k n : 0 < n → 0 ≤ key_mod k n < n;
}.

(** An unsigned integer. *)
#[export] Program Instance Z_key : HashKey Z := {| key_zero := 0; key_mod := Z.modulo |}.
Next Obligation. intros k n Hn. by apply Z.mod_pos_bound. Qed.

Module CHashListNoLock.

Definition SUCCESS : Z := 0.
Definition ERROR : Z := -1.
Definition E_HASH_LIST_MEM_SIZE : Z := -101.
Definition E_HASH_LIST_INDEX_NUM : Z := -102.
Definition E_HASH_LIST_DATA_NUM : Z := -103.
Definition E_HASH_LIST_NO_SPACE : Z := -104.
Definition E_HASH_LIST_NO_NODE : Z := -105.
Definition E_HASH_LIST_NODE_EXIST : Z := -106.
Definition E_HASH_LIST_VERIFY_INDEX_HASHVAL : Z := -108.
Definition E_HASH_LIST_VERIFY_INDEX_DATANUM : Z := -109.
Definition E_HASH_LIST_VERIFY_DATA_PTR : Z := -110.
Definition E_HASH_LIST_VERIFY_HEAD_USEDDATANUM : Z := -111.
Definition E_HASH_LIST_VERIFY_HEAD_TOTALDATANUM : Z := -113.

(** [KEY] is the code's KEYTYPE, [A] its DATATYPE. *)
Record IndexNode : Type := mk_index {
  iHashVal : Z;
  iDataNodeNum : Z;
  ipDataNodeList : Z;
}.

Record DataNode (KEY A : Type) : Type := mk_node {
  KeyVal : KEY;
  ipNextDataNode : Z;
  Data : A;
}.
Arguments mk_node {KEY A} _ _ _.
Arguments KeyVal {KEY A} _.
Arguments ipNextDataNode {KEY A} _.
Arguments Data {KEY A} _.

(** [Head] and the two arrays behind it. *)
Record table (KEY A : Type) : Type := mk {
  iSize : Z;
  iTotalDataNodeNum : Z;
  iUsedDataNodeNum : Z;
  iIndexNodeNum : Z;
  ipFreeDataNodeList : Z;
  m_pstIndex : list IndexNode;
  m_pstData : list (DataNode KEY A);
}.
Arguments mk {KEY A} _ _ _ _ _ _ _.
Arguments iSize {KEY A} _.
Arguments iTotalDataNodeNum {KEY A} _.
Arguments iUsedDataNodeNum {KEY A} _.
Arguments iIndexNodeNum {KEY A} _.
Arguments ipFreeDataNodeList {KEY A} _.
Arguments m_pstIndex {KEY A} _.
Arguments m_pstData {KEY A} _.

Section ops.
Context {KEY A : Type} `{EqDecision KEY} `{HashKey KEY}.
Implicit Types (h : table KEY A) (Key : KEY).

Definition set_index h (ix : list IndexNode) : table KEY A :=
  mk (iSize h) (iTotalDataNodeNum h) (iUsedDataNodeNum h) (iIndexNodeNum h)
     (ipFreeDataNodeList h) ix (m_pstData h).
Definition set_data h (d : list (DataNode KEY A)) : table KEY A :=
  mk (iSize h) (iTotalDataNodeNum h) (iUsedDataNodeNum h) (iIndexNodeNum h)
     (ipFreeDataNodeList h) (m_pstIndex h) d.
Definition set_free h (used free : Z) : table KEY A :=
  mk (iSize h) (iTotalDataNodeNum h) used (iIndexNodeNum h) free (m_pstIndex h) (m_pstData h).

(** [Init] on the memory [h] of an earlier run (or of anything): only the
    sizes are written.  The code computes the sum of the sizes in an [int]; here it
    is unbounded, which is the same for tables of less than 2^31 bytes. *)
Definition Init (HEAD_SIZE INDEX_NODE_SIZE DATA_NODE_SIZE : Z) h
    (iMemSize iIndexNum iDataNum : Z) : table KEY A * Z :=
  let iTotalMemSize :=
    HEAD_SIZE + iIndexNum * INDEX_NODE_SIZE + iDataNum * DATA_NODE_SIZE in
  if iMemSize <? iTotalMemSize then (h, E_HASH_LIST_MEM_SIZE)
  else if iIndexNum <? 1 then (h, E_HASH_LIST_INDEX_NUM)
  else if iDataNum <? 2 then (h, E_HASH_LIST_DATA_NUM)
  else (mk iMemSize iDataNum (iUsedDataNodeNum h) iIndexNum (ipFreeDataNodeList h)
           (m_pstIndex h) (m_pstData h), SUCCESS).

(** [Clear]; [zero] is a DATATYPE whose bytes are all zero. *)
Definition Clear (zero : A) h : outcome (table KEY A) :=
  let d := replicate (Z.to_nat (iTotalDataNodeNum h)) (mk_node key_zero 0 zero) in
  let ix := replicate (Z.to_nat (iIndexNodeNum h)) (mk_index 0 0 0) in
  ix ← for_range 0 (iIndexNodeNum h) (λ i ix, aset ix i (mk_index i 0 0)) ix;
  d ← for_range 1 (iTotalDataNodeNum h) (λ i d,
         nd ← aget d i; aset d i (mk_node (KeyVal nd) (i + 1) (Data nd))) d;
  nd ← aget d (iTotalDataNodeNum h - 1);
  d ← aset d (iTotalDataNodeNum h - 1) (mk_node (KeyVal nd) 0 (Data nd));
  Ok (mk (iSize h) (iTotalDataNodeNum h) 1 (iIndexNodeNum h) 1 ix d).

Definition Hash h Key : outcome Z :=
  if iIndexNodeNum h =? 0 then Fault else Ok (key_mod Key (iIndexNodeNum h)).

(** The loop every operation starts with: from [ipData] along the chain to the
    node of [Key] or to the end, with the node before it. *)
Fixpoint find_loop (fuel : nat) (d : list (DataNode KEY A)) Key (ipData ipLastData : Z)
    : outcome (Z * Z) :=
  if ipData =? 0 then Ok (ipData, ipLastData) else
  nd ← aget d ipData;
  if bool_decide (KeyVal nd = Key) then Ok (ipData, ipLastData) else
  match fuel with
  | O => Spin
  | S fuel => find_loop fuel d Key (ipNextDataNode nd) ipData
  end.

(** The index node of [Key] and where the loop ends.  No chain has more nodes
    than the table. *)
Definition Find h Key : outcome (Z * IndexNode * Z * Z) :=
  iHashVal ← Hash h Key;
  ix ← aget (m_pstIndex h) iHashVal;
  '(ipData, ipLastData) ←
    find_loop (length (m_pstData h)) (m_pstData h) Key (ipDataNodeList ix) 0;
  Ok (iHashVal, ix, ipData, ipLastData).

(** [GetFreeNode]: a node, or a negative error. *)
Definition GetFreeNode h : outcome (table KEY A * Z) :=
  let iFreeNodeNum := iTotalDataNodeNum h - iUsedDataNodeNum h in
  let iFreeNode := ipFreeDataNodeList h in
  if (iFreeNodeNum <=? 0) || (iFreeNode <=? 0) then Ok (h, E_HASH_LIST_NO_SPACE)
  else
    nd ← aget (m_pstData h) iFreeNode;
    Ok (set_free h (iUsedDataNodeNum h + 1) (ipNextDataNode nd), iFreeNode).

Definition RecycleNode h (iNode : Z) : outcome (table KEY A * Z) :=
  if (0 =? iNode) || (iTotalDataNodeNum h <? iNode) then Ok (h, ERROR)
  else
    nd ← aget (m_pstData h) iNode;
    d ← aset (m_pstData h) iNode (mk_node (KeyVal nd) (ipFreeDataNodeList h) (Data nd));
    Ok (set_free (set_data h d) (iUsedDataNodeNum h - 1) iNode, SUCCESS).

Definition Insert h Key (Data : A) : outcome (table KEY A * Z) :=
  '(iHashVal, _, ipData, _) ← Find h Key;
  if 0 <? ipData then Ok (h, E_HASH_LIST_NODE_EXIST)
  else
    '(h, ipFreeNode) ← GetFreeNode h;
    if 0 <? ipFreeNode then
      ix ← aget (m_pstIndex h) iHashVal;
      d ← aset (m_pstData h) ipFreeNode (mk_node Key (ipDataNodeList ix) Data);
      i ← aset (m_pstIndex h) iHashVal
            (mk_index (CHashListNoLock.iHashVal ix) (iDataNodeNum ix + 1) ipFreeNode);
      Ok (set_index (set_data h d) i, SUCCESS)
    else Ok (h, ipFreeNode).

(** [InsertWithRet]: when the key exists, its data too. *)
Definition InsertWithRet h Key (Data : A) : outcome (table KEY A * Z * A) :=
  '(iHashVal, _, ipData, _) ← Find h Key;
  if 0 <? ipData then
    nd ← aget (m_pstData h) ipData; Ok (h, E_HASH_LIST_NODE_EXIST, CHashListNoLock.Data nd)
  else
    '(h, ipFreeNode) ← GetFreeNode h;
    if 0 <? ipFreeNode then
      ix ← aget (m_pstIndex h) iHashVal;
      d ← aset (m_pstData h) ipFreeNode (mk_node Key (ipDataNodeList ix) Data);
      i ← aset (m_pstIndex h) iHashVal
            (mk_index (CHashListNoLock.iHashVal ix) (iDataNodeNum ix + 1) ipFreeNode);
      Ok (set_index (set_data h d) i, SUCCESS, Data)
    else Ok (h, ipFreeNode, Data).

Definition Update h Key (Data : A) : outcome (table KEY A * Z) :=
  '(_, _, ipData, _) ← Find h Key;
  if 0 <? ipData then
    nd ← aget (m_pstData h) ipData;
    d ← aset (m_pstData h) ipData (mk_node (KeyVal nd) (ipNextDataNode nd) Data);
    Ok (set_data h d, SUCCESS)
  else Ok (h, E_HASH_LIST_NO_NODE).

Definition Remove h Key : outcome (table KEY A * Z) :=
  '(iHashVal, ix, ipData, ipLastData) ← Find h Key;
  if 0 <? ipData then
    nd ← aget (m_pstData h) ipData;
    h ← (if 0 =? ipLastData then
           i ← aset (m_pstIndex h) iHashVal
                 (mk_index (CHashListNoLock.iHashVal ix) (iDataNodeNum ix) (ipNextDataNode nd));
           Ok (set_index h i)
         else
           last ← aget (m_pstData h) ipLastData;
           d ← aset (m_pstData h) ipLastData
                 (mk_node (KeyVal last) (ipNextDataNode nd) (Data last));
           Ok (set_data h d));
    ix ← aget (m_pstIndex h) iHashVal;
    i ← aset (m_pstIndex h) iHashVal
          (mk_index (CHashListNoLock.iHashVal ix) (iDataNodeNum ix - 1) (ipDataNodeList ix));
    RecycleNode (set_index h i) ipData
  else Ok (h, E_HASH_LIST_NO_NODE).

(** [Get(Key)], a pointer to the data of a node: here the node's index. *)
Definition GetP h Key : outcome (option Z) :=
  '(_, _, ipData, _) ← Find h Key;
  Ok (if 0 <? ipData then Some ipData else None).

(** Reading and writing through such a pointer. *)
Definition deref h (ip : Z) : outcome A :=
  nd ← aget (m_pstData h) ip; Ok (Data nd).
Definition store h (ip : Z) (Data : A) : outcome (table KEY A) :=
  nd ← aget (m_pstData h) ip;
  d ← aset (m_pstData h) ip (mk_node (KeyVal nd) (ipNextDataNode nd) Data);
  Ok (set_data h d).

(** [Get(Key, Data)]. *)
Definition Get h Key (Data : A) : outcome (Z * A) :=
  '(_, _, ipData, _) ← Find h Key;
  if 0 <? ipData then
    nd ← aget (m_pstData h) ipData; Ok (SUCCESS, CHashListNoLock.Data nd)
  else Ok (E_HASH_LIST_NO_NODE, Data).

(** [ProcessAll(iIndex, CallBackFunc, pPrivateData)]: the callback gets the
    table (it may change or remove the node it is called for), the node and its
    own state. *)
Fixpoint process_loop {P} (fuel : nat) (cb : table KEY A → Z → P → outcome (table KEY A * P)) h
    (ipData : Z) (p : P) : outcome (table KEY A * P) :=
  if ipData =? 0 then Ok (h, p) else
  match fuel with
  | O => Spin
  | S fuel =>
      nd ← aget (m_pstData h) ipData;
      '(h, p) ← cb h ipData p;
      process_loop fuel cb h (ipNextDataNode nd) p
  end.

Definition ProcessAll {P} h (iIndex : Z) (cb : table KEY A → Z → P → outcome (table KEY A * P)) (p : P)
    : outcome (table KEY A * P * Z) :=
  ix ← aget (m_pstIndex h) iIndex;
  if 0 <? iDataNodeNum ix then
    '(h, p) ← process_loop (length (m_pstData h)) cb h (ipDataNodeList ix) p;
    Ok (h, p, SUCCESS)
  else Ok (h, p, SUCCESS).

(** The walks of [Verify]: the number of nodes of a chain, or an error. *)
Fixpoint count_loop (fuel : nat) h (ipData n : Z) : outcome (Z + Z) :=
  if ipData =? 0 then Ok (inl n) else
  if iTotalDataNodeNum h <? ipData then Ok (inr E_HASH_LIST_VERIFY_DATA_PTR) else
  match fuel with
  | O => Spin
  | S fuel =>
      nd ← aget (m_pstData h) ipData;
      count_loop fuel h (ipNextDataNode nd) (n + 1)
  end.

(** One round of [Verify]'s loop over the index: the nodes counted so far, or
    the error found. *)
Definition verify_index h (i : Z) (s : Z + Z) : outcome (Z + Z) :=
  match s with
  | inr e => Ok (inr e)
  | inl iRealUsedDataNodeNum =>
      ix ← aget (m_pstIndex h) i;
      if negb (iHashVal ix =? i) then Ok (inr E_HASH_LIST_VERIFY_INDEX_HASHVAL) else
      r ← count_loop (length (m_pstData h)) h (ipDataNodeList ix) 0;
      match r with
      | inr e => Ok (inr e)
      | inl n =>
          if negb (n =? iDataNodeNum ix) then Ok (inr E_HASH_LIST_VERIFY_INDEX_DATANUM)
          else Ok (inl (iRealUsedDataNodeNum + n))
      end
  end.

Definition Verify h : outcome Z :=
  r ← for_range 0 (iIndexNodeNum h) (verify_index h) (inl 1);
  match r with
  | inr e => Ok e
  | inl n =>
      if negb (n =? iUsedDataNodeNum h) then Ok E_HASH_LIST_VERIFY_HEAD_USEDDATANUM else
      r ← count_loop (length (m_pstData h)) h (ipFreeDataNodeList h) 0;
      match r with
      | inr e => Ok e
      | inl f =>
          if negb (f + iUsedDataNodeNum h =? iTotalDataNodeNum h)
          then Ok E_HASH_LIST_VERIFY_HEAD_TOTALDATANUM else Ok 0
      end
  end.

Definition GetIndexNum h : Z := iIndexNodeNum h.
Definition GetUsedDataNum h : Z := iUsedDataNodeNum h.
Definition GetHeadInfo h : Z * Z * Z * Z :=
  (iSize h, iTotalDataNodeNum h, iIndexNodeNum h, iUsedDataNodeNum h).
Definition CalcSize (HEAD_SIZE INDEX_NODE_SIZE DATA_NODE_SIZE iIndexNum iNodeNum : Z) : Z :=
  HEAD_SIZE + iIndexNum * INDEX_NODE_SIZE + iNodeNum * DATA_NODE_SIZE.

End ops.

(** The tables of the servers have integers as keys. *)
Notation t := (table Z).
End CHashListNoLock.

(** Three keys in two chains of a table of four nodes, one of them never used. *)
Module CHashListExample.
Import CHashListNoLock.
Definition h0 : outcome (t Z) :=
  Clear 0 (mk 0 4 0 2 0 [] []).
Definition h3 : outcome (t Z) :=
  h ← h0; '(h, _) ← Insert h 10 100; '(h, _) ← Insert h 11 110; '(h, _) ← Insert h 12 120; Ok h.
Example h3_full : (h ← h3; '(_, r) ← Insert h 13 0; Ok r) = Ok E_HASH_LIST_NO_SPACE.
Proof. reflexivity. Qed.
Example h3_remove :
  (h ← h3; '(h, _) ← Remove h 10; '(h, r) ← Insert h 14 140; g ← Get h 12 0; v ← Verify h;
   Ok (r, g, v)) = Ok (0, (0, 120), 0).
Proof. reflexivity. Qed.
End CHashListExample.

(** * The table as a finite map *)
Section facts.
Import CHashListNoLock.
Context {KEY A : Type} `{Countable KEY} `{HashKey KEY}.
#[local] Arguments Z.eqb : simpl never.
#[local] Arguments Z.add : simpl never.
Implicit Types (h : table KEY A) (d : list (DataNode KEY A)) (k : KEY) (p x : Z)
  (l c : list Z) (e : list (KEY * A)).

(** [chain d p l e]: from [p] on, the nodes [l] are linked, and they hold the
    keys and values [e]. *)
Inductive chain d : Z → list Z → list (KEY * A) → Prop :=
  | chain_nil : chain d 0 [] []
  | chain_cons p nd l e :
      0 < p → aget d p = Ok nd → chain d (ipNextDataNode nd) l e →
      chain d p (p :: l) ((KeyVal nd, Data nd) :: e).

(** The node before the end of [l], when [p] comes before [l]. *)
Fixpoint last_node p l : Z := match l with [] => p | x :: l => last_node x l end.

(** The links are what the index and the head say: [cs] are the chains, one
    per index node, [es] their entries, [fr] the list of free nodes. *)
Record hinv h (cs : list (list Z)) (es : list (list (KEY * A))) fr : Prop := {
  hi_total : iTotalDataNodeNum h = zlen (m_pstData h);
  hi_index : iIndexNodeNum h = zlen (m_pstIndex h);
  hi_index_pos : 0 < zlen (m_pstIndex h);
  hi_cs : zlen cs = zlen (m_pstIndex h);
  hi_es : zlen es = zlen (m_pstIndex h);
  hi_chain b ix c e :
    aget (m_pstIndex h) b = Ok ix → aget cs b = Ok c → aget es b = Ok e →
    iHashVal ix = b ∧ iDataNodeNum ix = zlen c ∧ chain (m_pstData h) (ipDataNodeList ix) c e ∧
    NoDup e.*1 ∧ Forall (λ k, key_mod k (zlen (m_pstIndex h)) = b) e.*1;
  hi_free : ∃ fe, chain (m_pstData h) (ipFreeDataNodeList h) fr fe;
  hi_nodup : NoDup (fr ++ concat cs);
  hi_count : zlen (fr ++ concat cs) = zlen (m_pstData h) - 1;
  hi_used : iUsedDataNodeNum h = 1 + zlen (concat cs);
}.

(** [hrep h m]: the table is sound and holds the map [m]. *)
Definition hrep h (m : gmap KEY A) : Prop :=
  ∃ cs es fr, hinv h cs es fr ∧
    (∀ k e, aget es (key_mod k (zlen (m_pstIndex h))) = Ok e →
            m !! k = (list_to_map e : gmap KEY A) !! k) ∧
    iUsedDataNodeNum h = 1 + Z.of_nat (size m).

Lemma chain_0 d p l e : chain d p l e → p = 0 ↔ l = [].
Proof. destruct 1; [done|]. split; [lia|done]. Qed.

Lemma chain_length d p l e : chain d p l e → length l = length e.
Proof. induction 1; cbn; auto. Qed.

Lemma chain_nonneg d p l e : chain d p l e → 0 ≤ p.
Proof. destruct 1; lia. Qed.

Lemma chain_range d p l e x : chain d p l e → x ∈ l → 0 < x < zlen d.
Proof.
  induction 1 as [|p nd l e Hp Hnd _ IH]; [by intros []%elem_of_nil|].
  intros [-> | ?]%elem_of_cons; [|auto]. apply aget_lt in Hnd. lia.
Qed.

(** A node outside a chain can change without the chain noticing. *)
Lemma chain_frame d d' p l e :
  chain d p l e → (∀ x, x ∈ l → aget d' x = aget d x) → chain d' p l e.
Proof.
  induction 1 as [|p nd l e Hp Hnd _ IH]; intros Hd; [constructor|].
  constructor; [done| |].
  - rewrite Hd by set_solver. done.
  - apply IH. intros. apply Hd. set_solver.
Qed.

(** ** Finding a key *)

(** The loop stops at the node of the key, which cuts the chain in two, or at
    the end of a chain that does not have it. *)
Lemma find_loop_chain fuel d k p last l e :
  chain d p l e → (length l ≤ fuel)%nat →
  (find_loop fuel d k p last = Ok (0, last_node last l) ∧ (k ∉ e.*1)) ∨
  ∃ l1 x l2 e1 v e2, l = l1 ++ x :: l2 ∧ e = e1 ++ (k, v) :: e2 ∧ length l1 = length e1 ∧
    (k ∉ e1.*1) ∧ find_loop fuel d k p last = Ok (x, last_node last l1).
Proof.
  intros Hc. revert fuel last. induction Hc as [|p nd l e Hp Hnd _ IH]; intros fuel last Hl.
  { left. destruct fuel; (split; [done|apply not_elem_of_nil]). }
  destruct fuel as [|fuel]; [cbn in Hl; lia|]. cbn [find_loop].
  destruct (Z.eqb_spec p 0); [lia|]. rewrite Hnd. cbn.
  destruct (bool_decide_reflect (KeyVal nd = k)) as [Hk|Hk].
  { right. exists [], p, l, [], (Data nd), e. rewrite Hk. split_and!; try done.
    apply not_elem_of_nil. }
  destruct (IH fuel p) as [[-> Hn]|(l1 & x & l2 & e1 & v & e2 & -> & -> & ? & ? & ->)];
    [cbn in Hl; lia|left|right].
  - split; [done|]. cbn. by apply not_elem_of_cons.
  - exists (p :: l1), x, l2, ((KeyVal nd, Data nd) :: e1), v, e2. cbn.
    split_and!; [done|done|lia|by apply not_elem_of_cons|done].
Qed.

Lemma hinv_chain h cs es fr k :
  hinv h cs es fr →
  ∃ ix c e, Hash h k = Ok (key_mod k (zlen (m_pstIndex h))) ∧
    aget (m_pstIndex h) (key_mod k (zlen (m_pstIndex h))) = Ok ix ∧
    aget cs (key_mod k (zlen (m_pstIndex h))) = Ok c ∧
    aget es (key_mod k (zlen (m_pstIndex h))) = Ok e.
Proof.
  intros [_ Hi Hp Hc He _ _ _ _ _].
  pose proof (key_mod_bound k (zlen (m_pstIndex h)) Hp) as Hb.
  destruct (aget_total (m_pstIndex h) _ Hb) as [ix ?].
  destruct (aget_total cs (key_mod k (zlen (m_pstIndex h)))) as [c ?]; [lia|].
  destruct (aget_total es (key_mod k (zlen (m_pstIndex h)))) as [e ?]; [lia|].
  exists ix, c, e. split; [|done]. unfold Hash. rewrite Hi, (proj2 (Z.eqb_neq _ _)) by lia. done.
Qed.

Lemma hinv_fuel h cs es fr b c :
  hinv h cs es fr → aget cs b = Ok c → (length c ≤ length (m_pstData h))%nat.
Proof.
  intros [_ _ _ _ _ _ _ _ Hn _] [_ Hc]%aget_Some.
  apply concat_length_ge in Hc. unfold zlen in Hn. rewrite length_app in Hn. lia.
Qed.

(** ** Changing one chain *)

(** The table after the chain of index [b], the free list and their nodes have
    changed, and nothing else. *)
Lemma hinv_update h cs es fr b ix c e d' ix' c' e' fr' used' free' :
  hinv h cs es fr →
  aget (m_pstIndex h) b = Ok ix → aget cs b = Ok c → aget es b = Ok e →
  zlen d' = zlen (m_pstData h) →
  (∀ x, x ∉ fr ++ c → aget d' x = aget (m_pstData h) x) →
  iHashVal ix' = b → iDataNodeNum ix' = zlen c' → chain d' (ipDataNodeList ix') c' e' →
  NoDup e'.*1 → Forall (λ k, key_mod k (zlen (m_pstIndex h)) = b) e'.*1 →
  (∃ fe, chain d' free' fr' fe) →
  fr' ++ c' ≡ₚ fr ++ c →
  used' = iUsedDataNodeNum h + zlen c' - zlen c →
  hinv (mk (iSize h) (iTotalDataNodeNum h) used' (iIndexNodeNum h) free'
          (<[Z.to_nat b := ix']> (m_pstIndex h)) d')
    (<[Z.to_nat b := c']> cs) (<[Z.to_nat b := e']> es) fr'.
Proof.
  intros [Ht Hi Hp Hcs Hes Hch Hfr Hnd Hn Hu] Hix Hc He Hd Hfrm Hb Hbn Hchain Hnk Hk Hfree Hperm ->.
  pose proof (aget_lt _ _ _ Hix) as Hlt. pose proof Hc as [_ Hc']%aget_Some.
  pose proof (concat_insert cs (Z.to_nat b) c c' Hc') as Hcc.
  assert (fr' ++ concat (<[Z.to_nat b := c']> cs) ≡ₚ fr ++ concat cs) as Hall.
  { apply (Permutation_app_inv_r c). rewrite <- app_assoc, Hcc.
    transitivity ((fr' ++ c') ++ concat cs); [solve_Permutation|].
    rewrite Hperm. solve_Permutation. }
  split; cbn; rewrite ?zlen_insert; try done; try lia.
  - intros j ixj cj ej. rewrite !aget_insert by lia.
    destruct (decide (j = b)) as [->|Hj]; [by intros [= <-] [= <-] [= <-]|].
    intros Hixj Hcj Hej. destruct (Hch j ixj cj ej) as (? & ? & Hchj & ? & ?); [done..|].
    split_and!; try done. apply (chain_frame (m_pstData h)); [done|].
    intros x Hx. apply Hfrm. intros [Hxf|Hxc]%elem_of_app.
    + apply NoDup_app in Hnd as (_ & Hnd & _). apply (Hnd x); [done|].
      apply aget_Some in Hcj as [_ Hcj]. by apply (elem_of_concat_lookup _ (Z.to_nat j) cj).
    + apply NoDup_app in Hnd as (_ & _ & Hnd).
      apply aget_Some in Hcj as [? Hcj]. apply aget_lt in Hix.
      apply (concat_NoDup_disjoint cs (Z.to_nat j) (Z.to_nat b) cj c x); (done || lia).
  - by rewrite Hall.
  - unfold zlen in *. by rewrite (Permutation_length Hall), Hd.
  - apply Permutation_length in Hcc. rewrite !length_app in Hcc. unfold zlen in *. lia.
Qed.

Lemma hrep_update h (m : gmap KEY A) cs es fr b ix c e d' ix' c' e' fr' used' free' (m' : gmap KEY A) :
  hinv h cs es fr →
  (∀ k e, aget es (key_mod k (zlen (m_pstIndex h))) = Ok e →
          m !! k = (list_to_map e : gmap KEY A) !! k) →
  aget (m_pstIndex h) b = Ok ix → aget cs b = Ok c → aget es b = Ok e →
  zlen d' = zlen (m_pstData h) →
  (∀ x, x ∉ fr ++ c → aget d' x = aget (m_pstData h) x) →
  iHashVal ix' = b → iDataNodeNum ix' = zlen c' → chain d' (ipDataNodeList ix') c' e' →
  NoDup e'.*1 → Forall (λ k, key_mod k (zlen (m_pstIndex h)) = b) e'.*1 →
  (∃ fe, chain d' free' fr' fe) →
  fr' ++ c' ≡ₚ fr ++ c →
  used' = iUsedDataNodeNum h + zlen c' - zlen c →
  (∀ k, key_mod k (zlen (m_pstIndex h)) = b → m' !! k = (list_to_map e' : gmap KEY A) !! k) →
  (∀ k, key_mod k (zlen (m_pstIndex h)) ≠ b → m' !! k = m !! k) →
  used' = 1 + Z.of_nat (size m') →
  hrep (mk (iSize h) (iTotalDataNodeNum h) used' (iIndexNodeNum h) free'
          (<[Z.to_nat b := ix']> (m_pstIndex h)) d') m'.
Proof.
  intros Hi Hm Hix Hc He. intros. eexists _, _, _. split; [by apply (hinv_update h cs es fr b ix c e)|].
  split; [|done]. cbn. rewrite zlen_insert. intros k e0.
  pose proof (aget_lt _ _ _ He). rewrite aget_insert by done.
  destruct (decide _) as [Hk|Hk]; [intros [= <-]; auto|]. intros He0.
  rewrite <- (Hm k e0) by done. auto.
Qed.

(** What [Find] finds. *)
Lemma chain_split d p l1 x l2 e1 k v e2 :
  chain d p (l1 ++ x :: l2) (e1 ++ (k, v) :: e2) → length l1 = length e1 →
  ∃ nd, 0 < x ∧ aget d x = Ok nd ∧ KeyVal nd = k ∧ Data nd = v ∧
        chain d (ipNextDataNode nd) l2 e2.
Proof.
  revert p e1. induction l1 as [|y l1 IH]; intros p [|e0 e1] Hc Hl; cbn in Hl; try done.
  - inversion Hc; subst. eexists. by split_and!.
  - inversion Hc; subst. by apply (IH (ipNextDataNode nd) e1); [|lia].
Qed.

Lemma Find_spec h cs es fr k :
  hinv h cs es fr →
  let b := key_mod k (zlen (m_pstIndex h)) in
  ∃ ix c e, aget (m_pstIndex h) b = Ok ix ∧ aget cs b = Ok c ∧ aget es b = Ok e ∧
    ((Find h k = Ok (b, ix, 0, last_node 0 c) ∧ (k ∉ e.*1)) ∨
     ∃ l1 x l2 e1 v e2 nd, c = l1 ++ x :: l2 ∧ e = e1 ++ (k, v) :: e2 ∧ length l1 = length e1 ∧
       (k ∉ e1.*1) ∧ Find h k = Ok (b, ix, x, last_node 0 l1) ∧
       0 < x ∧ aget (m_pstData h) x = Ok nd ∧ KeyVal nd = k ∧ Data nd = v ∧
       chain (m_pstData h) (ipNextDataNode nd) l2 e2).
Proof.
  intros Hi b. destruct (hinv_chain h cs es fr k Hi) as (ix & c & e & Hh & Hix & Hc & He).
  destruct (hi_chain _ _ _ _ Hi _ _ _ _ Hix Hc He) as (_ & _ & Hch & _ & _).
  pose proof (hinv_fuel _ _ _ _ _ _ Hi Hc) as Hfuel.
  exists ix, c, e. split_and!; [done..|]. unfold Find. rewrite Hh. cbn. rewrite Hix. cbn.
  destruct (find_loop_chain (length (m_pstData h)) (m_pstData h) k (ipDataNodeList ix) 0 c e Hch)
    as [[-> ?]|(l1 & x & l2 & e1 & v & e2 & -> & -> & Hl & ? & ->)]; [done|left|right]; [done|].
  destruct (chain_split _ _ _ _ _ _ _ _ _ Hch Hl) as (nd & ? & ? & ? & ? & ?).
  exists l1, x, l2, e1, v, e2, nd. by split_and!.
Qed.

Lemma list_to_map_mid (e1 e2 : list (KEY * A)) k v k' :
  NoDup (e1 ++ (k, v) :: e2).*1 →
  (list_to_map (e1 ++ (k, v) :: e2) : gmap KEY A) !! k' =
  if decide (k' = k) then Some v else (list_to_map (e1 ++ e2) : gmap KEY A) !! k'.
Proof.
  intros Hn.
  rewrite <- (list_to_map_proper ((k, v) :: e1 ++ e2)); [|by rewrite Permutation_middle
    |by rewrite Permutation_middle].
  cbn. destruct (decide (k' = k)) as [->|]; [apply lookup_insert_eq|by apply lookup_insert_ne].
Qed.

(** The same about the map the table holds. *)
Lemma Find_hrep h (m : gmap KEY A) k :
  hrep h m →
  (∃ b ix last, Find h k = Ok (b, ix, 0, last) ∧ m !! k = None) ∨
  (∃ b ix x last nd, Find h k = Ok (b, ix, x, last) ∧ 0 < x ∧
     aget (m_pstData h) x = Ok nd ∧ KeyVal nd = k ∧ m !! k = Some (Data nd)).
Proof.
  intros (cs & es & fr & Hi & Hm & _).
  destruct (Find_spec h cs es fr k Hi) as (ix & c & e & Hix & Hc & He &
    [[-> Hn]|(l1 & x & l2 & e1 & v & e2 & nd & -> & -> & Hl & Hn & -> & ? & ? & ? & <- & _)]).
  - left. eexists _, _, _. split; [done|]. rewrite (Hm _ _ He). by apply not_elem_of_list_to_map_1.
  - right. eexists _, _, _, _, nd. split_and!; [done..|]. rewrite (Hm _ _ He), list_to_map_mid.
    + by rewrite decide_True.
    + by destruct (hi_chain _ _ _ _ Hi _ _ _ _ Hix Hc He) as (_ & _ & _ & ? & _).
Qed.

(** ** The operations *)
Lemma GetFreeNode_spec h cs es fr :
  hinv h cs es fr →
  (fr = [] ∧ iUsedDataNodeNum h = iTotalDataNodeNum h ∧
   GetFreeNode h = Ok (h, E_HASH_LIST_NO_SPACE)) ∨
  (∃ f fr' fe nd, fr = f :: fr' ∧ iUsedDataNodeNum h < iTotalDataNodeNum h ∧ 0 < f ∧
     aget (m_pstData h) f = Ok nd ∧ chain (m_pstData h) (ipNextDataNode nd) fr' fe ∧
     GetFreeNode h = Ok (set_free h (iUsedDataNodeNum h + 1) (ipNextDataNode nd), f)).
Proof.
  intros [Ht _ _ _ _ _ [fe Hfr] _ Hn Hu]. rewrite zlen_app in Hn.
  pose proof (zlen_nonneg fr). unfold GetFreeNode. destruct Hfr as [|f nd fr fe Hf Hnd Hfr].
  - left. rewrite zlen_nil in Hn. split; [done|]. split; [lia|].
    destruct (Z.leb_spec (iTotalDataNodeNum h - iUsedDataNodeNum h) 0); [done|lia].
  - right. rewrite zlen_cons in *. pose proof (zlen_nonneg fr).
    exists f, fr, fe, nd. split_and!; [done|lia|done..|].
    destruct (Z.leb_spec (iTotalDataNodeNum h - iUsedDataNodeNum h) 0); [lia|].
    destruct (Z.leb_spec f 0); [lia|]. cbn. by rewrite Hnd.
Qed.

Lemma hinv_nodup_free h cs es f fr b c :
  hinv h cs es (f :: fr) → aget cs b = Ok c → f ∉ fr ++ c.
Proof.
  intros [_ _ _ _ _ _ _ Hnd _ _] [_ Hc]%aget_Some. cbn in Hnd.
  apply NoDup_cons in Hnd as [Hf _]. intros [?|?]%elem_of_app; apply Hf; apply elem_of_app;
    [by left|right]. by apply (elem_of_concat_lookup _ (Z.to_nat b) c).
Qed.

Lemma hinv_nodup_chain h cs es fr b c :
  hinv h cs es fr → aget cs b = Ok c → NoDup (fr ++ c).
Proof.
  intros [_ _ _ _ _ _ _ Hnd _ _] [_ Hc]%aget_Some.
  apply NoDup_app in Hnd as (? & Hd & Hn). apply NoDup_app. split; [done|]. split.
  - intros x Hx Hxc. apply (Hd x Hx). by apply (elem_of_concat_lookup _ (Z.to_nat b) c).
  - clear -Hn Hc. revert Hc. generalize (Z.to_nat b). induction cs as [|c' cs IH];
      intros [|n] Hc; cbn in *; try done; apply NoDup_app in Hn as (? & _ & ?);
      [by simplify_eq|by apply (IH H0 n)].
Qed.

(** [Insert] of a new key, and of a key the table has. *)
Lemma Insert_hrep h (m : gmap KEY A) k v :
  hrep h m →
  match m !! k with
  | Some _ => Insert h k v = Ok (h, E_HASH_LIST_NODE_EXIST)
  | None =>
      if iUsedDataNodeNum h =? iTotalDataNodeNum h
      then Insert h k v = Ok (h, E_HASH_LIST_NO_SPACE)
      else ∃ h', Insert h k v = Ok (h', SUCCESS) ∧ hrep h' (<[k := v]> m) ∧
                 iTotalDataNodeNum h' = iTotalDataNodeNum h
  end.
Proof.
  intros Hr. destruct (Find_hrep h m k Hr)
    as [(b0 & ix0 & last0 & HF & Hk)|(b0 & ix0 & x & last0 & nd & HF & ? & _ & _ & Hk)];
    rewrite Hk; unfold Insert; rewrite HF; cbn.
  2: { destruct (Z.ltb_spec 0 x); [done|lia]. }
  destruct Hr as (cs & es & fr & Hi & Hm & Hs).
  destruct (Find_spec h cs es fr k Hi) as (ix & c & e & Hix & Hc & He & HF').
  destruct HF' as [[HF' Hn]|(l1 & x & l2 & e1 & v' & e2 & nd & _ & _ & _ & _ & HF' & ? & _)];
    rewrite HF in HF'; [|simplify_eq; lia].
  injection HF' as -> -> _.
  destruct (GetFreeNode_spec h cs es fr Hi)
    as [(-> & Hfull & ->)|(f & fr' & fe & nd & -> & Hfree & Hf & Hnd & Hfe & ->)]; cbn.
  { rewrite Hfull, Z.eqb_refl. done. }
  destruct (Z.eqb_spec (iUsedDataNodeNum h) (iTotalDataNodeNum h)); [lia|].
  destruct (Z.ltb_spec 0 f); [|lia]. rewrite Hix. cbn.
  destruct (aset_total (m_pstData h) f (mk_node k (ipDataNodeList ix) v))
    as (d' & Hd' & Hz' & Hf' & Hne'); [by apply aget_lt in Hnd|].
  rewrite Hd'. cbn. rewrite aset_ok by by apply aget_lt in Hix. cbn.
  eexists. split; [done|]. split; [|done].
  destruct (hi_chain _ _ _ _ Hi _ _ _ _ Hix Hc He) as (Hb & Hbn & Hch & Hnk & Hhk).
  pose proof (hinv_nodup_free _ _ _ _ _ _ _ Hi Hc) as Hfc. apply not_elem_of_app in Hfc as [Hff Hfc].
  eapply (hrep_update h m cs es (f :: fr') _ ix c e d' _ (f :: c) ((k, v) :: e) fr');
    try done; cbn.
  - intros x Hx. apply Hne'. intros ->. apply Hx. by left.
  - rewrite zlen_cons. lia.
  - apply (chain_cons d' f _ c e Hf Hf'). cbn.
    apply (chain_frame (m_pstData h)); [done|]. intros x Hx. apply Hne'. congruence.
  - by apply NoDup_cons.
  - by apply Forall_cons.
  - exists fe. apply (chain_frame (m_pstData h)); [done|]. intros x Hx. apply Hne'. congruence.
  - solve_Permutation.
  - rewrite zlen_cons. lia.
  - intros k' Hk'. destruct (decide (k' = k)) as [->|].
    + by rewrite !lookup_insert_eq.
    + rewrite !lookup_insert_ne by done. apply Hm. by rewrite Hk'.
  - intros k' Hk'. rewrite lookup_insert_ne by by intros ->. done.
  - rewrite map_size_insert, Hk. lia.
Qed.

Lemma chain_store d d' p l1 x l2 e1 k v e2 nd v' :
  chain d p (l1 ++ x :: l2) (e1 ++ (k, v) :: e2) → length l1 = length e1 →
  NoDup (l1 ++ x :: l2) → aget d x = Ok nd →
  aget d' x = Ok (mk_node (KeyVal nd) (ipNextDataNode nd) v') →
  (∀ j, j ≠ x → aget d' j = aget d j) →
  chain d' p (l1 ++ x :: l2) (e1 ++ (k, v') :: e2).
Proof.
  revert p e1. induction l1 as [|y l1 IH]; intros p [|e0 e1] Hc Hl Hnd Hx Hx' Hd;
    cbn in *; try done; apply NoDup_cons in Hnd as [Hy Hnd];
    inversion Hc as [|? nd0 ? ? ? Hnd0 Hch0]; subst.
  - assert (nd0 = nd) as -> by congruence.
    refine (chain_cons d' x _ l2 e2 _ Hx' _); [done|]. cbn.
    apply (chain_frame d); [done|]. intros j Hj. apply Hd. congruence.
  - apply chain_cons; [done| |].
    + rewrite Hd; [done|]. intros ->. apply Hy. set_solver.
    + by apply IH; [|lia|..].
Qed.

(** Writing through the pointer to the data of a key. *)
Lemma store_hrep h (m : gmap KEY A) k b ix x last v :
  hrep h m → Find h k = Ok (b, ix, x, last) → 0 < x →
  ∃ h', store h x v = Ok h' ∧ hrep h' (<[k := v]> m) ∧
        iTotalDataNodeNum h' = iTotalDataNodeNum h.
Proof.
  intros (cs & es & fr & Hi & Hm & Hs) HF Hx0.
  destruct (Find_spec h cs es fr k Hi) as (ix' & c & e & Hix & Hc & He & HF').
  destruct HF' as [[HF' _]|(l1 & x' & l2 & e1 & v' & e2 & nd & Hl & Hle & Hlen & _ & HF' & _ &
    Hnd & Hkey & Hval & _)]; rewrite HF in HF'; simplify_eq; [lia|].
  destruct (hi_chain _ _ _ _ Hi _ _ _ _ Hix Hc He) as (Hb & Hbn & Hch & Hnk & Hhk).
  unfold store. rewrite Hnd. cbn.
  destruct (aset_total (m_pstData h) x' (mk_node (KeyVal nd) (ipNextDataNode nd) v))
    as (d' & Hd' & Hz' & Hx' & Hne'); [by apply aget_lt in Hnd|].
  rewrite Hd'. cbn. eexists. split; [done|]. split; [|done].
  pose proof (hinv_nodup_chain _ _ _ _ _ _ Hi Hc) as Hndc.
  apply NoDup_app in Hndc as (_ & Hdisj & Hndc).
  assert (x' ∈ l1 ++ x' :: l2) as Hxin by set_solver.
  assert (m_pstIndex h = <[Z.to_nat (key_mod (KeyVal nd) (zlen (m_pstIndex h))) := ix']> (m_pstIndex h))
    as Hid by (symmetry; apply list_insert_id; by apply aget_Some in Hix as [_ ?]).
  unfold set_data. rewrite Hid at 1.
  eapply (hrep_update h m cs es fr _ ix' _ _ d' ix' (l1 ++ x' :: l2)
            (e1 ++ (KeyVal nd, v) :: e2) fr); try done.
  - intros y Hy. apply Hne'. intros ->. apply Hy. set_solver.
  - by apply (chain_store (m_pstData h) d' _ l1 x' l2 e1 _ (Data nd) e2 nd v).
  - rewrite fmap_app in Hnk |- *. done.
  - rewrite fmap_app in Hhk |- *. done.
  - destruct (hi_free _ _ _ _ Hi) as [fe Hfe]. exists fe. apply (chain_frame (m_pstData h)); [done|].
    intros y Hy. apply Hne'. intros ->. by apply (Hdisj x').
  - lia.
  - intros k' Hk'. rewrite list_to_map_mid by (rewrite fmap_app in Hnk |- *; done).
    destruct (decide (k' = KeyVal nd)) as [->|]; [by rewrite lookup_insert_eq|].
    rewrite lookup_insert_ne by done. rewrite (Hm k' _) by by rewrite Hk'.
    rewrite list_to_map_mid by done. by rewrite decide_False.
  - intros k' Hk'. rewrite lookup_insert_ne by congruence. done.
  - rewrite map_size_insert. rewrite (Hm _ _ He), list_to_map_mid, decide_True by done. done.
Qed.

Lemma Update_store h k v :
  Update h k v =
    '(_, _, ipData, _) ← Find h k;
    if 0 <? ipData then h' ← store h ipData v; Ok (h', SUCCESS)
    else Ok (h, E_HASH_LIST_NO_NODE).
Proof.
  unfold Update, store. destruct (Find h k) as [[[[b ix] x] last]| |]; cbn; [|done..].
  destruct (0 <? x); [|done]. destruct (aget (m_pstData h) x); cbn; [|done..].
  by destruct (aset (m_pstData h) x _).
Qed.

Lemma last_node_app p l y : last_node p (l ++ [y]) = y.
Proof. revert p. induction l as [|z l IH]; intros p; cbn; auto. Qed.

(** Making the node before [x] skip it. *)
Lemma chain_unlink d d' p l1 y x l2 e1 ey ex e2 ndy ndx :
  chain d p (l1 ++ y :: x :: l2) (e1 ++ ey :: ex :: e2) → length l1 = length e1 →
  NoDup (l1 ++ y :: x :: l2) → aget d y = Ok ndy → aget d x = Ok ndx →
  aget d' y = Ok (mk_node (KeyVal ndy) (ipNextDataNode ndx) (Data ndy)) →
  (∀ j, j ≠ y → aget d' j = aget d j) →
  chain d' p (l1 ++ y :: l2) (e1 ++ ey :: e2).
Proof.
  revert p e1. induction l1 as [|z l1 IH]; intros p [|e0 e1] Hc Hl Hnd Hy Hx Hy' Hd;
    cbn in *; try done; apply NoDup_cons in Hnd as [Hz Hnd];
    inversion Hc as [|? nd0 ? ? Hp Hnd0 Hch0]; subst.
  - assert (nd0 = ndy) as -> by congruence.
    inversion Hch0 as [|? nd1 ? ? Hp1 Hnd1 Hch1 He]; subst.
    assert (nd1 = ndx) as -> by congruence.
    refine (chain_cons d' y _ l2 e2 _ Hy' _); [done|]. cbn.
    apply (chain_frame d); [done|]. intros j Hj. apply Hd. intros ->. apply Hz. set_solver.
  - apply chain_cons; [done| |].
    + rewrite Hd; [done|]. intros ->. apply Hz. set_solver.
    + by apply IH; [|lia|..].
Qed.

Lemma unlink_chain d p l1 x l2 e1 k v e2 nd :
  chain d p (l1 ++ x :: l2) (e1 ++ (k, v) :: e2) → length l1 = length e1 →
  NoDup (l1 ++ x :: l2) → aget d x = Ok nd →
  ∃ p1 d1, chain d1 p1 (l1 ++ l2) (e1 ++ e2) ∧ zlen d1 = zlen d ∧ aget d1 x = Ok nd ∧
    (∀ j, j ∉ l1 → aget d1 j = aget d j) ∧
    (if 0 =? last_node 0 l1 then p1 = ipNextDataNode nd ∧ d1 = d
     else p1 = p ∧ ∃ ndy, aget d (last_node 0 l1) = Ok ndy ∧
       aset d (last_node 0 l1) (mk_node (KeyVal ndy) (ipNextDataNode nd) (Data ndy)) = Ok d1).
Proof.
  intros Hc Hl Hn Hx. destruct l1 as [|y l1 _] using rev_ind.
  - destruct e1 as [|]; [|done].
    destruct (chain_split d p [] x l2 [] k v e2 Hc) as (nd' & _ & Hnd' & _ & _ & Hc'); [done|].
    assert (nd' = nd) as -> by congruence.
    exists (ipNextDataNode nd), d. cbn. by split_and!.
  - destruct e1 as [|ey e1 _] using rev_ind; [rewrite length_app in Hl; cbn in Hl; lia|].
    rewrite !length_app in Hl. cbn in Hl. rewrite <- !app_assoc in *. cbn [app] in *.
    rewrite last_node_app. assert (length l1 = length e1) as Hl' by lia.
    destruct ey as [ky vy].
    destruct (chain_split d p l1 y (x :: l2) e1 ky vy _ Hc Hl') as (ndy & Hy0 & Hy & _ & _ & _).
    destruct (aset_total d y (mk_node (KeyVal ndy) (ipNextDataNode nd) (Data ndy)))
      as (d1 & Hd1 & Hz & Hy1 & Hne); [by apply aget_lt in Hy|].
    assert (x ≠ y) as Hxy.
    { apply NoDup_app in Hn as (_ & _ & Hn). apply NoDup_cons in Hn as [Hn _].
      intros ->. apply Hn. by left. }
    exists p, d1. split_and!; [|done|by rewrite Hne| |].
    + by apply (chain_unlink d d1 p l1 y x l2 e1 (ky, vy) (k, v) e2 ndy nd).
    + intros j Hj. apply Hne. intros ->. apply Hj, elem_of_app. right. by left.
    + destruct (Z.eqb_spec 0 y); [lia|]. split; [done|]. by exists ndy.
Qed.

(** The chain of an index. *)
Definition bucket h (b : Z) l e : Prop :=
  ∃ ix, aget (m_pstIndex h) b = Ok ix ∧ chain (m_pstData h) (ipDataNodeList ix) l e.

(** What keeps the sizes of a table. *)
Definition same_size h h' : Prop :=
  iTotalDataNodeNum h' = iTotalDataNodeNum h ∧ iIndexNodeNum h' = iIndexNodeNum h.

(** [Remove] unlinks the node of the key and gives it back to the free list. *)
Lemma Remove_chain h (m : gmap KEY A) k a :
  hrep h m → m !! k = Some a →
  ∃ h' l1 x l2 e1 e2, Remove h k = Ok (h', SUCCESS) ∧ hrep h' (delete k m) ∧ same_size h h' ∧
    bucket h (key_mod k (zlen (m_pstIndex h))) (l1 ++ x :: l2) (e1 ++ (k, a) :: e2) ∧
    length l1 = length e1 ∧ NoDup (l1 ++ x :: l2) ∧
    bucket h' (key_mod k (zlen (m_pstIndex h))) (l1 ++ l2) (e1 ++ e2) ∧
    (∀ y, y ∉ l1 → y ≠ x → aget (m_pstData h') y = aget (m_pstData h) y).
Proof.
  intros Hr Hka. destruct (Find_hrep h m k Hr)
    as [(b0 & ix0 & last0 & HF & Hk)|(b0 & ix0 & x0 & last0 & nd0 & HF & Hx0 & Hnd0 & Hkey0 & Hk)];
    [congruence|]. assert (Data nd0 = a) as Hda by congruence.
  unfold Remove; rewrite HF; cbn.
  destruct (Z.ltb_spec 0 x0); [|lia].
  destruct Hr as (cs & es & fr & Hi & Hm & Hs).
  destruct (Find_spec h cs es fr k Hi) as (ix & c & e & Hix & Hc & He & HF').
  destruct HF' as [[HF' _]|(l1 & x & l2 & e1 & v & e2 & nd & -> & -> & Hlen & _ & HF' & _ &
    Hnd & Hkey & Hval & _)]; rewrite HF in HF'; [simplify_eq; lia|].
  injection HF' as -> -> -> ->. rewrite Hnd0 in Hnd. injection Hnd as ->. rename Hnd0 into Hnd.
  rewrite Hnd. cbn.
  destruct (hi_chain _ _ _ _ Hi _ _ _ _ Hix Hc He) as (Hb & Hbn & Hch & Hnk & Hhk).
  pose proof (hinv_nodup_chain _ _ _ _ _ _ Hi Hc) as Hndc.
  apply NoDup_app in Hndc as (Hnf & Hdisj & Hndc).
  assert (x ∈ l1 ++ x :: l2) as Hxin by (apply elem_of_app; right; by left).
  assert (x ∉ l1 ++ l2) as Hxout.
  { rewrite <- Permutation_middle in Hndc. by apply NoDup_cons in Hndc as [? _]. }
  destruct (unlink_chain _ _ _ _ _ _ _ _ _ _ Hch Hlen Hndc Hnd)
    as (p1 & d1 & Hc1 & Hz1 & Hx1 & Hf1 & Hif).
  set (b := key_mod k (zlen (m_pstIndex h))) in *. pose proof (aget_lt _ _ _ Hix) as Hbl.
  match goal with |- context [if 0 =? last_node 0 l1 then ?u else ?w] =>
    assert ((if 0 =? last_node 0 l1 then u else w) = Ok (set_index (set_data h d1)
      (<[Z.to_nat b := mk_index b (iDataNodeNum ix) p1]> (m_pstIndex h)))) as -> end.
  { destruct (Z.eqb_spec 0 (last_node 0 l1)).
    - destruct Hif as [-> ->]. rewrite Hb, aset_ok by done. done.
    - destruct Hif as (-> & ndy & Hy & Hd1). rewrite Hy. cbn. rewrite Hd1. cbn.
      assert (mk_index b (iDataNodeNum ix) (ipDataNodeList ix) = ix) as ->
        by (rewrite <- Hb; clear; by destruct ix).
      rewrite list_insert_id; [done|]. by apply aget_Some in Hix as [_ Hix]. }
  cbn. rewrite aget_insert, decide_True by done. cbn.
  rewrite aset_ok by (by rewrite zlen_insert). cbn. rewrite list_insert_insert_eq.
  pose proof (chain_range _ _ _ _ _ Hch Hxin) as Hxr.
  unfold RecycleNode. cbn. rewrite (hi_total _ _ _ _ Hi).
  destruct (Z.eqb_spec 0 x); [lia|]. destruct (Z.ltb_spec (zlen (m_pstData h)) x); [lia|]. cbn.
  rewrite Hx1. cbn.
  destruct (aset_total d1 x (mk_node (KeyVal nd) (ipFreeDataNodeList h) (Data nd)))
    as (d2 & Hd2 & Hz2 & Hx2 & Hne2); [lia|].
  rewrite Hd2. cbn.
  assert (∀ j, j ∉ l1 → j ≠ x → aget d2 j = aget (m_pstData h) j) as Hfrm.
  { intros j Hj1 Hjx. rewrite Hne2 by done. by apply Hf1. }
  assert (chain d2 p1 (l1 ++ l2) (e1 ++ e2)) as Hch2.
  { apply (chain_frame d1); [done|]. intros j Hj. apply Hne2. by intros ->. }
  eexists _, l1, x, l2, e1, e2. split; [done|]. split.
  2:{ split; [by split; cbn; rewrite ?(hi_total _ _ _ _ Hi)|]. split_and!; [|done|done| |exact Hfrm].
      - exists ix. split; [done|]. rewrite <- Hval, Hda in Hch. exact Hch.
      - eexists. cbn. split; [by rewrite aget_insert, decide_True|]. done. }
  unfold set_free, set_data. cbn.
  eapply (hrep_update h m cs es fr b ix _ _ d2 _ (l1 ++ l2) (e1 ++ e2) (x :: fr)); try done; cbn.
  - lia.
  - intros j Hj. apply not_elem_of_app in Hj as [_ Hj]. apply not_elem_of_app in Hj as [Hj1 Hj2].
    apply Hfrm; [done|]. intros ->. apply Hj2. by left.
  - rewrite Hbn. rewrite !zlen_app, zlen_cons. lia.
  - rewrite fmap_app in Hnk |- *. cbn in Hnk. apply NoDup_app in Hnk as (? & Hd & Hn2).
    apply NoDup_cons in Hn2 as [? ?]. apply NoDup_app. split_and!; [done| |done].
    intros j Hj Hj2. apply (Hd j Hj). by right.
  - rewrite fmap_app in Hhk |- *. apply Forall_app in Hhk as [? Hhk]. cbn in Hhk.
    apply Forall_cons in Hhk as [_ ?]. by apply Forall_app.
  - destruct (hi_free _ _ _ _ Hi) as [fe Hfe]. eexists.
    refine (chain_cons d2 x _ fr fe _ Hx2 _); [lia|]. cbn.
    apply (chain_frame (m_pstData h)); [done|]. intros j Hj.
    apply Hfrm; [intros Hj1; apply (Hdisj j Hj), elem_of_app; by left|].
    intros ->. by apply (Hdisj x Hj).
  - solve_Permutation.
  - rewrite !zlen_app, zlen_cons. lia.
  - intros k' Hk'. destruct (decide (k' = k)) as [->|].
    + rewrite lookup_delete_eq. symmetry. apply not_elem_of_list_to_map_1.
      rewrite fmap_app in Hnk |- *. cbn in Hnk. rewrite <- Permutation_middle in Hnk.
      by apply NoDup_cons in Hnk as [? _].
    + rewrite lookup_delete_ne by done. rewrite (Hm k' _) by by rewrite Hk'.
      rewrite list_to_map_mid by done. by rewrite decide_False.
  - intros k' Hk'. rewrite lookup_delete_ne by by intros ->. done.
  - rewrite map_size_delete, Hk. pose proof (map_size_ne_0_lookup_2 m k). 
    assert (size m ≠ 0%nat) by (apply map_size_ne_0_lookup_2 with k; by rewrite Hk). lia.
Qed.

Lemma Remove_hrep h (m : gmap KEY A) k :
  hrep h m →
  match m !! k with
  | None => Remove h k = Ok (h, E_HASH_LIST_NO_NODE)
  | Some _ => ∃ h', Remove h k = Ok (h', SUCCESS) ∧ hrep h' (delete k m) ∧
                    iTotalDataNodeNum h' = iTotalDataNodeNum h
  end.
Proof.
  intros Hr. destruct (m !! k) as [a|] eqn:Hk.
  - destruct (Remove_chain h m k a Hr Hk) as (h' & ? & ? & ? & ? & ? & ? & ? & [? _] & _). by exists h'.
  - destruct (Find_hrep h m k Hr) as [(b & ix & last & HF & _)|(b & ix & x & last & nd & _ & _ & _ & _ & ?)];
      [|congruence]. unfold Remove. by rewrite HF.
Qed.

(** ** Clearing, checking and walking *)
Lemma chain_fresh (zero : A) d T n p :
  0 < p → p + Z.of_nat n = T - 1 → zlen d = T →
  (∀ j, 1 ≤ j < T - 1 → aget d j = Ok (mk_node key_zero (j + 1) zero)) →
  aget d (T - 1) = Ok (mk_node key_zero 0 zero) →
  chain d p (seqZ p (Z.of_nat n + 1)) (replicate (S n) (key_zero, zero)).
Proof.
  intros Hp Hn Hz Hd Hlast. revert p Hp Hn. induction n as [|n IH]; intros p Hp Hn.
  - rewrite seqZ_cons by lia. cbn. replace p with (T - 1) by lia.
    refine (chain_cons d (T - 1) _ [] [] _ Hlast _); [lia|constructor].
  - rewrite seqZ_cons by lia. cbn [replicate].
    refine (chain_cons d p _ _ _ _ (Hd p _) _); [lia|lia|]. cbn [ipNextDataNode].
    replace (Z.pred (Z.of_nat (S n) + 1)) with (Z.of_nat n + 1) by lia.
    apply (IH (p + 1)); lia.
Qed.

Lemma Clear_index N :
  0 ≤ N →
  ∃ ix, for_range 0 N (λ i ix, aset ix i (mk_index i 0 0))
          (replicate (Z.to_nat N) (mk_index 0 0 0)) = Ok ix ∧
    zlen ix = N ∧ ∀ j, 0 ≤ j < N → aget ix j = Ok (mk_index j 0 0).
Proof.
  intros HN.
  destruct (for_range_inv (λ i ix, zlen ix = N ∧ ∀ j, 0 ≤ j < i → aget ix j = Ok (mk_index j 0 0))
    0 N (λ i ix, aset ix i (mk_index i 0 0)) (replicate (Z.to_nat N) (mk_index 0 0 0)))
    as (ix & -> & Hz & Hix); [lia| | |by exists ix].
  { split; [rewrite zlen_replicate; lia|lia]. }
  intros i ix Hi [Hz Hix].
  destruct (aset_total ix i (mk_index i 0 0)) as (ix' & -> & Hz' & Hi' & Hne); [lia|].
  exists ix'. split; [done|]. split; [lia|]. intros j Hj.
  destruct (decide (j = i)) as [->|]; [done|]. rewrite Hne by done. apply Hix. lia.
Qed.

Lemma Clear_data (zero : A) T :
  2 ≤ T →
  ∃ d, for_range 1 T (λ i d, nd ← aget d i; aset d i (mk_node (KeyVal nd) (i + 1) (Data nd)))
         (replicate (Z.to_nat T) (mk_node key_zero 0 zero)) = Ok d ∧
    zlen d = T ∧ ∀ j, 1 ≤ j < T → aget d j = Ok (mk_node key_zero (j + 1) zero).
Proof.
  intros HT.
  destruct (for_range_inv (λ i (d : list (DataNode KEY A)), zlen d = T ∧
      (∀ j, 1 ≤ j < i → aget d j = Ok (mk_node key_zero (j + 1) zero)) ∧
      (∀ j, i ≤ j < T → aget d j = Ok (mk_node key_zero 0 zero)))
    1 T (λ i d, nd ← aget d i; aset d i (mk_node (KeyVal nd) (i + 1) (Data nd)))
    (replicate (Z.to_nat T) (mk_node key_zero 0 zero)))
    as (d & -> & Hz & Hd & _); [lia| | |by exists d].
  { split_and!; [rewrite zlen_replicate; lia|lia|]. intros j Hj. apply aget_Some.
    split; [lia|]. apply lookup_replicate_2. lia. }
  intros i d Hi (Hz & Hd & Hr). rewrite Hr by lia. cbn.
  destruct (aset_total d i (mk_node key_zero (i + 1) zero)) as (d' & -> & Hz' & Hi' & Hne); [lia|].
  exists d'. split; [done|]. split_and!; [lia| |].
  - intros j Hj. destruct (decide (j = i)) as [->|]; [done|]. rewrite Hne by done. apply Hd. lia.
  - intros j Hj. rewrite Hne by lia. apply Hr. lia.
Qed.

Lemma Clear_hrep (zero : A) h :
  1 ≤ iIndexNodeNum h → 2 ≤ iTotalDataNodeNum h →
  ∃ h', Clear zero h = Ok h' ∧ hrep h' ∅ ∧ iTotalDataNodeNum h' = iTotalDataNodeNum h.
Proof.
  intros HN HT. unfold Clear.
  destruct (Clear_index (iIndexNodeNum h)) as (ix & -> & Hzi & Hix); [lia|].
  destruct (Clear_data zero (iTotalDataNodeNum h)) as (d & Hd & Hzd & Hdj); [lia|].
  cbn. rewrite Hd. cbn. rewrite Hdj by lia. cbn.
  destruct (aset_total d (iTotalDataNodeNum h - 1) (mk_node key_zero 0 zero))
    as (d' & -> & Hz' & Hl' & Hne); [lia|]. cbn.
  eexists. split; [done|]. split; [|done].
  set (N := iIndexNodeNum h) in *. set (T := iTotalDataNodeNum h) in *.
  assert (∀ B b (c : list B), aget (replicate (Z.to_nat N) []) b = Ok c → c = []) as Hrep.
  { intros B b c [_ Hc]%aget_Some. by apply lookup_replicate in Hc as [-> _]. }
  assert (∀ B n, concat (replicate n (@nil B)) = []) as Hconcat by (intros B n; by induction n).
  exists (replicate (Z.to_nat N) []), (replicate (Z.to_nat N) []), (seqZ 1 (T - 1)).
  split; [split; cbn; rewrite ?zlen_replicate, ?Hconcat, ?app_nil_r; try lia|].
  - intros b x c e Hx Hc%Hrep He%Hrep. subst. pose proof (aget_lt _ _ _ Hx).
    rewrite Hix in Hx by lia. injection Hx as <-. split_and!; try done; constructor.
  - exists (replicate (S (Z.to_nat (T - 2))) (key_zero, zero)).
    replace (T - 1) with (Z.of_nat (Z.to_nat (T - 2)) + 1) by lia.
    apply (chain_fresh zero d' T); [lia..| |done].
    intros j Hj. rewrite Hne by lia. apply Hdj. lia.
  - apply NoDup_seqZ.
  - unfold zlen in *. rewrite length_seqZ. lia.
  - done.
  - split; [|done]. intros k e He%Hrep. by subst.
Qed.

Lemma count_loop_chain fuel h p l e n :
  iTotalDataNodeNum h = zlen (m_pstData h) →
  chain (m_pstData h) p l e → (length l ≤ fuel)%nat →
  count_loop fuel h p n = Ok (inl (n + zlen l)).
Proof.
  intros Ht Hc. revert fuel n. induction Hc as [|p nd l e Hp Hnd _ IH]; intros fuel n Hl.
  { destruct fuel; cbn; do 2 f_equal; rewrite zlen_nil; lia. }
  destruct fuel as [|fuel]; [cbn in Hl; lia|]. cbn.
  destruct (Z.eqb_spec p 0); [lia|]. pose proof (aget_lt _ _ _ Hnd).
  destruct (Z.ltb_spec (iTotalDataNodeNum h) p); [lia|]. rewrite Hnd. cbn.
  rewrite IH by (cbn in Hl; lia). rewrite zlen_cons. do 2 f_equal. lia.
Qed.

(** [Verify] accepts every sound table. *)
Lemma Verify_hinv h cs es fr : hinv h cs es fr → Verify h = Ok 0.
Proof.
  intros Hi. pose proof Hi as [Ht HN HNp Hcs Hes Hch [fe Hfr] Hnd Hn Hu].
  unfold Verify.
  destruct (for_range_inv (λ i s, s = inl (1 + zlen (concat (take (Z.to_nat i) cs))))
    0 (iIndexNodeNum h) (verify_index h) (inl 1)) as (s & -> & ->); [lia|done| |].
  - intros i s Hib ->. unfold verify_index.
    destruct (aget_total (m_pstIndex h) i) as [ix Hix]; [lia|].
    destruct (aget_total cs i) as [c Hc]; [lia|].
    destruct (aget_total es i) as [e He]; [lia|].
    destruct (Hch i ix c e Hix Hc He) as (Hb & Hbn & Hchain & _ & _).
    rewrite Hix. cbn. rewrite Hb, Z.eqb_refl. cbn.
    rewrite (count_loop_chain _ h _ c e) by (done || by apply (hinv_fuel h cs es fr i)).
    cbn. rewrite Hbn, Z.eqb_refl. cbn. eexists. split; [done|]. f_equal.
    apply aget_Some in Hc as [_ Hc].
    replace (Z.to_nat (i + 1)) with (S (Z.to_nat i)) by lia.
    rewrite (take_S_r _ _ c) by done. rewrite concat_app, zlen_app. cbn. rewrite app_nil_r. lia.
  - cbn. rewrite take_ge by (unfold zlen in *; lia).
    rewrite Hu, Z.eqb_refl. cbn. rewrite zlen_app in Hn.
    assert (length fr ≤ length (m_pstData h))%nat by (unfold zlen in *; lia).
    rewrite (count_loop_chain _ h _ fr fe) by done. cbn.
    rewrite Ht. replace (0 + zlen fr + (1 + zlen (concat cs))) with (zlen (m_pstData h)) by lia.
    by rewrite Z.eqb_refl.
Qed.

(** A callback that looks at a node and leaves the table alone sees the whole
    chain, in order. *)
Lemma process_loop_visit {P} fuel (cb : table KEY A → Z → P → outcome (table KEY A * P))
    (f : P → KEY * A → P) h p l e s :
  (∀ s x nd, aget (m_pstData h) x = Ok nd → cb h x s = Ok (h, f s (KeyVal nd, Data nd))) →
  chain (m_pstData h) p l e → (length l ≤ fuel)%nat →
  process_loop fuel cb h p s = Ok (h, foldl f s e).
Proof.
  intros Hcb Hc. revert fuel s. induction Hc as [|p nd l e Hp Hnd _ IH]; intros fuel s Hl.
  { by destruct fuel. }
  destruct fuel as [|fuel]; [cbn in Hl; lia|]. cbn.
  destruct (Z.eqb_spec p 0); [lia|]. rewrite Hnd. cbn. rewrite (Hcb s p nd) by done. cbn.
  apply IH. cbn in Hl. lia.
Qed.

(** The callback of the programs: it appends what it sees to a vector. *)
Definition collect h (x : Z) (v : list (KEY * A)) : outcome (table KEY A * list (KEY * A)) :=
  nd ← aget (m_pstData h) x; Ok (h, v ++ [(KeyVal nd, Data nd)]).

Lemma foldl_snoc {B} (v e : list B) : foldl (λ s (y : B), s ++ [y]) v e = v ++ e.
Proof.
  revert v. induction e as [|y e IH]; intros v; cbn; [by rewrite app_nil_r|].
  by rewrite IH, <- app_assoc.
Qed.

(** A walk over one index with such a callback. *)
Lemma ProcessAll_fold {P} (cb : table KEY A → Z → P → outcome (table KEY A * P))
    (f : P → KEY * A → P) h (m : gmap KEY A) b s :
  (∀ s x nd, aget (m_pstData h) x = Ok nd → cb h x s = Ok (h, f s (KeyVal nd, Data nd))) →
  hrep h m → 0 ≤ b < zlen (m_pstIndex h) →
  ∃ e, ProcessAll h b cb s = Ok (h, foldl f s e, SUCCESS) ∧ NoDup e.*1 ∧
    (∀ k a, (k, a) ∈ e ↔ m !! k = Some a ∧ key_mod k (zlen (m_pstIndex h)) = b).
Proof.
  intros Hcb (cs & es & fr & Hi & Hm & _) Hb.
  destruct (aget_total (m_pstIndex h) b Hb) as [ix Hix].
  destruct (aget_total cs b) as [c Hc]; [rewrite (hi_cs _ _ _ _ Hi); done|].
  destruct (aget_total es b) as [e He]; [rewrite (hi_es _ _ _ _ Hi); done|].
  destruct (hi_chain _ _ _ _ Hi _ _ _ _ Hix Hc He) as (Hbh & Hbn & Hch & Hnk & Hhk).
  exists e. split; [|split; [done|]].
  - unfold ProcessAll. rewrite Hix. cbn. rewrite Hbn. destruct (Z.ltb_spec 0 (zlen c)).
    + by rewrite (process_loop_visit _ _ f h _ c e) by (done || by apply (hinv_fuel h cs es fr b)).
    + destruct c as [|]; [|rewrite zlen_cons in *; pose proof (zlen_nonneg c); lia].
      apply chain_length in Hch. by destruct e.
  - intros k a. rewrite (elem_of_list_to_map (M := gmap KEY) e) by done. split.
    + intros Hka. assert (key_mod k (zlen (m_pstIndex h)) = b) as Hk; [|split; [|done]].
      * rewrite Forall_forall in Hhk. apply Hhk.
        apply elem_of_list_to_map_2, (list_elem_of_fmap_2 fst) in Hka. done.
      * rewrite <- Hka. apply Hm. by rewrite Hk.
    + intros [Hka Hk]. rewrite <- Hka. symmetry. apply Hm. by rewrite Hk.
Qed.

Lemma ProcessAll_visit h (m : gmap KEY A) b v :
  hrep h m → 0 ≤ b < zlen (m_pstIndex h) →
  ∃ e, ProcessAll h b collect v = Ok (h, v ++ e, SUCCESS) ∧ NoDup e.*1 ∧
    (∀ k a, (k, a) ∈ e ↔ m !! k = Some a ∧ key_mod k (zlen (m_pstIndex h)) = b).
Proof.
  intros Hr Hb. destruct (ProcessAll_fold collect (λ s y, s ++ [y]) h m b v) as (e & Hp & ?); try done.
  { intros s x nd Hx. unfold collect. by rewrite Hx. }
  exists e. by rewrite foldl_snoc in Hp.
Qed.

(** ** Pointers *)
Lemma same_size_refl h : same_size h h.
Proof. done. Qed.

Lemma same_size_trans h1 h2 h3 : same_size h1 h2 → same_size h2 h3 → same_size h1 h3.
Proof. intros [] []. split; congruence. Qed.

(** A table found in memory is used as it is. *)
Lemma Init_hrep HEAD INDEX NODE h (m : gmap KEY A) size n :
  hrep h m → iTotalDataNodeNum h = n → iIndexNodeNum h = n → 2 ≤ n →
  CalcSize HEAD INDEX NODE n n ≤ size →
  ∃ h', Init HEAD INDEX NODE h size n n = (h', SUCCESS) ∧ hrep h' m ∧
    iTotalDataNodeNum h' = n ∧ iIndexNodeNum h' = n.
Proof.
  intros (cs & es & fr & [] & Hm & Hu) Ht Hx Hn Hsz. unfold Init, CalcSize in *.
  destruct (Z.ltb_spec size (HEAD + n * INDEX + n * NODE)); [lia|].
  destruct (Z.ltb_spec n 1); [lia|]. destruct (Z.ltb_spec n 2); [lia|].
  eexists. split; [done|]. split; [|done]. exists cs, es, fr. split; [|done].
  constructor; cbn; first [done|congruence].
Qed.

Lemma Clear_fresh (zero : A) h :
  1 ≤ iIndexNodeNum h → 2 ≤ iTotalDataNodeNum h →
  ∃ h', Clear zero h = Ok h' ∧ hrep h' ∅ ∧ same_size h h' ∧ iUsedDataNodeNum h' ≠ iTotalDataNodeNum h'.
Proof.
  intros HN HT. destruct (Clear_hrep zero h HN HT) as (h' & Hc & Hr & Ht). exists h'.
  assert (iIndexNodeNum h' = iIndexNodeNum h) as Hx.
  { unfold Clear in Hc. apply bind_Ok in Hc as (ix & _ & Hc). apply bind_Ok in Hc as (d & _ & Hc).
    apply bind_Ok in Hc as (nd & _ & Hc). apply bind_Ok in Hc as (d2 & _ & [= <-]). done. }
  split_and!; [done..|]. destruct Hr as (? & ? & ? & _ & _ & ->). rewrite map_size_empty. lia.
Qed.

Lemma GetFreeNode_size h h' r : GetFreeNode h = Ok (h', r) → same_size h h'.
Proof.
  unfold GetFreeNode. destruct (_ || _); [by intros [= <- _]|].
  destruct (aget _ _); cbn; [|done..]. by intros [= <- _].
Qed.

Lemma Insert_size h k v h' r : Insert h k v = Ok (h', r) → same_size h h'.
Proof.
  unfold Insert. destruct (Find h k) as [[[[b ix] x] last]| |]; cbn; [|done..].
  destruct (0 <? x); [by intros [= <- _]|].
  destruct (GetFreeNode h) as [[h1 f]| |] eqn:E; cbn; [|done..]. apply GetFreeNode_size in E.
  destruct (0 <? f); [|by intros [= <- _]].
  destruct (aget (m_pstIndex h1) b); cbn; [|done..]. destruct (aset (m_pstData h1) f _); cbn; [|done..].
  destruct (aset (m_pstIndex h1) b _); cbn; [|done..]. by intros [= <- _].
Qed.

Lemma store_size h ip v h' : store h ip v = Ok h' → same_size h h'.
Proof.
  unfold store. destruct (aget _ _); cbn; [|done..]. destruct (aset _ _ _); cbn; [|done..].
  by intros [= <-].
Qed.

Lemma find_loop_store fuel d ip nd v k p last :
  aget d ip = Ok nd →
  find_loop fuel (<[Z.to_nat ip := mk_node (KeyVal nd) (ipNextDataNode nd) v]> d) k p last
  = find_loop fuel d k p last.
Proof.
  intros Hnd. revert p last. induction fuel as [|fuel IH]; intros p last; cbn [find_loop];
    (destruct (p =? 0); [done|]); rewrite aget_insert by (by eapply aget_lt);
    (destruct (decide (p = ip)) as [->|]; [rewrite Hnd; cbn|destruct (aget d p); cbn; [|done..]]);
    (destruct (bool_decide (_ = k)); [done|]); auto.
Qed.

(** Writing through a pointer leaves every pointer valid. *)
Lemma store_GetP h ip v h' k : store h ip v = Ok h' → GetP h' k = GetP h k.
Proof.
  unfold store. destruct (aget (m_pstData h) ip) as [nd| |] eqn:Hnd; cbn; [|done..].
  rewrite aset_ok by (by eapply aget_lt). cbn. intros [= <-].
  unfold GetP, Find, Hash. cbn. rewrite length_insert.
  destruct (iIndexNodeNum h =? 0); [done|]. cbn.
  destruct (aget (m_pstIndex h) _) as [ix| |]; cbn; [|done..].
  by rewrite find_loop_store.
Qed.

(** What a pointer from [Get] is good for. *)
Lemma GetP_hrep h (m : gmap KEY A) k :
  hrep h m →
  match m !! k with
  | None => GetP h k = Ok None
  | Some a => ∃ ip, GetP h k = Ok (Some ip) ∧ deref h ip = Ok a ∧
      ∀ v, ∃ h', store h ip v = Ok h' ∧ hrep h' (<[k := v]> m)
  end.
Proof.
  intros Hr. unfold GetP, deref.
  destruct (Find_hrep h m k Hr) as [(b & ix & last & -> & ->)|(b & ix & x & last & nd & HF & Hx &
    Hnd & _ & ->)]; [done|]. rewrite HF. cbn.
  destruct (Z.ltb_spec 0 x); [|lia]. exists x. rewrite Hnd. split_and!; [done..|].
  intros v. destruct (store_hrep h m k b ix x last v Hr HF Hx) as (h' & Hs & ? & ?). by exists h'.
Qed.

(** ** A walk that removes entries *)
Lemma chain_det d p l e l' e' : chain d p l e → chain d p l' e' → l = l' ∧ e = e'.
Proof.
  intros Hc. revert l' e'. induction Hc as [|p nd l e Hp Hnd _ IH]; intros l' e'.
  - inversion 1; subst; [done|lia].
  - inversion 1 as [|? nd' l2 e2 ? Hnd' Hc2]; subst; [lia|].
    rewrite Hnd in Hnd'. injection Hnd' as <-. by destruct (IH _ _ Hc2) as [-> ->].
Qed.

Lemma bucket_det h b l e l' e' : bucket h b l e → bucket h b l' e' → l = l' ∧ e = e'.
Proof.
  intros (ix & Hix & Hc) (ix' & Hix' & Hc'). rewrite Hix in Hix'. injection Hix' as <-.
  by apply (chain_det _ _ _ _ _ _ Hc).
Qed.

Lemma app_key_inj {B} (e1 e2 e1' e2' : list (KEY * B)) k a a' :
  e1 ++ (k, a) :: e2 = e1' ++ (k, a') :: e2' → NoDup (e1 ++ (k, a) :: e2).*1 →
  e1 = e1' ∧ a = a' ∧ e2 = e2'.
Proof.
  revert e1'. induction e1 as [|[k1 a1] e1 IH]; intros [|[k2 a2] e1'] He Hnd; cbn in *.
  - by injection He as -> ->.
  - injection He as -> -> ->. apply NoDup_cons in Hnd as [Hn _]. exfalso. apply Hn.
    rewrite fmap_app. set_solver.
  - injection He as -> -> <-. apply NoDup_cons in Hnd as [Hn _]. exfalso. apply Hn.
    rewrite fmap_app. set_solver.
  - injection He as -> -> He. apply NoDup_cons in Hnd as [_ Hnd].
    destruct (IH e1' He Hnd) as (-> & -> & ->). done.
Qed.

Section prune.
Context {P : Type} (R : P → P → Prop) `{!PreOrder R} (test : P → KEY * A → P * bool)
  (cb : table KEY A → Z → P → outcome (table KEY A * P)).
Hypothesis Hcb : ∀ h x s nd, aget (m_pstData h) x = Ok nd →
  R s (test s (KeyVal nd, Data nd)).1 ∧
  cb h x s = (if (test s (KeyVal nd, Data nd)).2
              then '(h, _) ← Remove h (KeyVal nd); Ok (h, (test s (KeyVal nd, Data nd)).1)
              else Ok (h, (test s (KeyVal nd, Data nd)).1)).

(** The entry of [k] was tested, at some time from [s] to [s']. *)
Definition tested s s' (k : KEY) (a : A) (m' : gmap KEY A) : Prop :=
  ∃ s1, R s s1 ∧ R (test s1 (k, a)).1 s' ∧ m' !! k = if (test s1 (k, a)).2 then None else Some a.

(** [m'] is [m] after the entries [e] were tested, in order. *)
Definition pruned (m : gmap KEY A) s (e : list (KEY * A)) s' (m' : gmap KEY A) : Prop :=
  (∀ k, k ∉ e.*1 → m' !! k = m !! k) ∧ (∀ k a, (k, a) ∈ e → tested s s' k a m') ∧ R s s'.

Lemma process_prune fuel h m b l1 l e1 e p s :
  hrep h m → bucket h b (l1 ++ l) (e1 ++ e) → length l1 = length e1 →
  NoDup (l1 ++ l) → NoDup (e1 ++ e).*1 → Forall (λ k, key_mod k (zlen (m_pstIndex h)) = b) (e1 ++ e).*1 →
  (∀ k a, (k, a) ∈ e → m !! k = Some a) →
  chain (m_pstData h) p l e → (length l ≤ fuel)%nat →
  ∃ h' s' m', process_loop fuel cb h p s = Ok (h', s') ∧ hrep h' m' ∧ pruned m s e s' m' ∧
    same_size h h'.
Proof.
  revert h m l1 l e1 e p s. induction fuel as [|fuel IH]; intros h m l1 l e1 e p s Hr Hb Hl Hnl Hne
    Hmod Hm Hc Hf.
  { inversion Hc; subst; [|cbn in *; lia]. exists h, s, m. cbn. split_and!; try done.
    split_and!; [done| |done]. intros k a Hk. by apply not_elem_of_nil in Hk. }
  inversion Hc as [|? nd l2 e2 Hp Hnd Hc2]; subst.
  { exists h, s, m. cbn. split_and!; try done.
    split_and!; [done| |done]. intros k a Hk. by apply not_elem_of_nil in Hk. }
  cbn [process_loop]. destruct (Z.eqb_spec p 0); [lia|]. rewrite Hnd. cbn [mbind outcome_bind].
  destruct (Hcb h p s nd Hnd) as [HR ->]. set (s1 := (test s _).1) in *.
  assert (∀ m2 s' m', m2 !! KeyVal nd = (if (test s (KeyVal nd, Data nd)).2 then None else Some (Data nd)) →
    (∀ k, k ≠ KeyVal nd → m2 !! k = m !! k) → pruned m2 s1 e2 s' m' → pruned m s ((KeyVal nd, Data nd) :: e2) s' m') as Hpr.
  { intros m2 s' m' Hk2 Hk2' (Hp1 & Hp2 & Hp3). rewrite fmap_app in Hne. apply NoDup_app in Hne as (_ & _ & Hne).
    cbn in Hne. apply NoDup_cons in Hne as [Hkn _]. split_and!; [| |by trans s1].
    - intros k Hk. cbn in Hk. apply not_elem_of_cons in Hk as [? ?]. rewrite Hp1 by done. by apply Hk2'.
    - intros k a [[= -> ->]|Hk]%elem_of_cons; [exists s; split_and!; [done|done|by rewrite Hp1]|].
      destruct (Hp2 k a Hk) as (s2 & ? & ? & ?). exists s2. split_and!; [by trans s1|done..]. }
  assert (NoDup (l1 ++ p :: l2)) as Hnl' by done. assert (NoDup (e1 ++ (KeyVal nd, Data nd) :: e2).*1) as Hne' by done.
  destruct (test s (KeyVal nd, Data nd)).2 eqn:Et.
  - destruct (Remove_chain h m (KeyVal nd) (Data nd) Hr)
      as (h1 & l1' & x & l2' & e1' & e2' & -> & Hr1 & Hs1 & Hb1 & Hl1 & _ & Hb1' & Hfr);
      [apply Hm; by left|]. cbn [mbind outcome_bind].
    assert (key_mod (KeyVal nd) (zlen (m_pstIndex h)) = b) as Hkb.
    { rewrite Forall_forall in Hmod. apply Hmod. rewrite fmap_app. set_solver. }
    rewrite Hkb in *. destruct (bucket_det _ _ _ _ _ _ Hb Hb1) as [Hll Hee].
    apply app_key_inj in Hee as (-> & _ & ->); [|done].
    apply app_inj_1 in Hll as [-> Hll]; [|congruence]. injection Hll as <- <-.
    destruct (IH h1 (delete (KeyVal nd) m) l1' l2 e1' e2' (ipNextDataNode nd) s1)
      as (h' & s' & m' & -> & ? & ? & Hs2); try done.
    + rewrite <- Permutation_middle in Hnl'. by apply NoDup_cons in Hnl' as [_ ?].
    + rewrite fmap_app in Hne' |- *. cbn in Hne'. rewrite <- Permutation_middle in Hne'.
      by apply NoDup_cons in Hne' as [_ ?].
    + destruct Hr as (? & ? & ? & Hi0 & _), Hr1 as (? & ? & ? & Hi1 & _).
      rewrite <- (hi_index _ _ _ _ Hi1), (proj2 Hs1), (hi_index _ _ _ _ Hi0).
      rewrite fmap_app in Hmod |- *. apply Forall_app in Hmod as [? Hmod]. apply Forall_cons in Hmod as [_ ?].
      by apply Forall_app.
    + intros k a Hk. rewrite lookup_delete_ne; [apply Hm; by right|].
      intros <-. rewrite fmap_app in Hne'. apply NoDup_app in Hne' as (_ & _ & Hne').
      apply NoDup_cons in Hne' as [Hn _]. apply Hn. by apply (list_elem_of_fmap_2 fst) in Hk.
    + apply (chain_frame (m_pstData h)); [done|]. intros y Hy. apply NoDup_app in Hnl' as (_ & Hd & Hnl').
      apply NoDup_cons in Hnl' as [Hn _]. apply Hfr; [|by intros ->]. intros Hy1. apply (Hd y Hy1). by right.
    + cbn in Hf. lia.
    + exists h', s', m'. split_and!; try done; [|by eapply same_size_trans].
      apply (Hpr (delete (KeyVal nd) m) s'); [by rewrite lookup_delete_eq| |done].
      intros k ?. by rewrite lookup_delete_ne.
  - cbn [mbind outcome_bind].
    destruct (IH h m (l1 ++ [p]) l2 (e1 ++ [(KeyVal nd, Data nd)]) e2 (ipNextDataNode nd) s1)
      as (h' & s' & m' & -> & ? & ? & Hs2); try done.
    + by rewrite <- !app_assoc.
    + rewrite !length_app. cbn. lia.
    + by rewrite <- app_assoc.
    + by rewrite <- app_assoc.
    + by rewrite <- app_assoc.
    + intros k a Hk. apply Hm. by right.
    + cbn in Hf. lia.
    + exists h', s', m'. split_and!; try done. apply (Hpr m s'); [|done..]. apply Hm. by left.
Qed.

(** Over one index: the entries of the index are tested, the others stay. *)
Lemma ProcessAll_prune h m b s :
  hrep h m → 0 ≤ b < iIndexNodeNum h →
  ∃ h' s' m', ProcessAll h b cb s = Ok (h', s', SUCCESS) ∧ R s s' ∧ hrep h' m' ∧ same_size h h' ∧
    (∀ k, key_mod k (iIndexNodeNum h) ≠ b → m' !! k = m !! k) ∧ (∀ k, m !! k = None → m' !! k = None) ∧
    (∀ k a, m !! k = Some a → key_mod k (iIndexNodeNum h) = b → tested s s' k a m').
Proof.
  intros Hr Hbr. pose proof Hr as (cs & es & fr & Hi & Hm & _). rewrite (hi_index _ _ _ _ Hi) in *.
  destruct (aget_total (m_pstIndex h) b Hbr) as [ix Hix].
  destruct (aget_total cs b) as [c Hc]; [rewrite (hi_cs _ _ _ _ Hi); done|].
  destruct (aget_total es b) as [e He]; [rewrite (hi_es _ _ _ _ Hi); done|].
  destruct (hi_chain _ _ _ _ Hi _ _ _ _ Hix Hc He) as (Hbh & Hbn & Hch & Hnk & Hhk).
  assert (∀ k a, (k, a) ∈ e ↔ m !! k = Some a ∧ key_mod k (zlen (m_pstIndex h)) = b) as Hin.
  { intros k a. rewrite (elem_of_list_to_map (M := gmap KEY) e) by done. split.
    - intros Hka. assert (key_mod k (zlen (m_pstIndex h)) = b) as Hk; [|split; [|done]].
      + rewrite Forall_forall in Hhk. apply Hhk.
        apply elem_of_list_to_map_2, (list_elem_of_fmap_2 fst) in Hka. done.
      + rewrite <- Hka. apply Hm. by rewrite Hk.
    - intros [Hka Hk]. rewrite <- Hka. symmetry. apply Hm. by rewrite Hk. }
  unfold ProcessAll. rewrite Hix. cbn [mbind outcome_bind]. rewrite Hbn.
  assert (∃ h' s' m', process_loop (length (m_pstData h)) cb h (ipDataNodeList ix) s = Ok (h', s') ∧
    hrep h' m' ∧ pruned m s e s' m' ∧ same_size h h') as (h' & s' & m' & Hp & ? & (Hp1 & Hp2 & ?) & ?).
  { apply (process_prune (length (m_pstData h)) h m b [] c [] e); try done.
    - by exists ix.
    - pose proof (hinv_nodup_chain _ _ _ _ _ _ Hi Hc) as Hnd. by apply NoDup_app in Hnd as (_ & _ & ?).
    - intros k a Hk. by apply Hin.
    - by apply (hinv_fuel h cs es fr b). }
  assert (∀ k, k ∉ e.*1 ↔ m !! k = None ∨ key_mod k (zlen (m_pstIndex h)) ≠ b) as Hout.
  { intros k. split.
    - intros Hk. destruct (decide (key_mod k (zlen (m_pstIndex h)) = b)) as [Hkb|]; [left|by right].
      destruct (m !! k) as [a|] eqn:Ea; [|done]. exfalso. apply Hk.
      apply (list_elem_of_fmap_2 fst e (k, a)). by apply Hin.
    - intros Hor Hk. apply list_elem_of_fmap in Hk as ([k' a] & -> & Hk). apply Hin in Hk as [? ?].
      cbn in Hor; destruct Hor; [congruence|done]. }
  destruct (Z.ltb_spec 0 (zlen c)).
  - rewrite Hp. cbn [mbind outcome_bind]. exists h', s', m'. split_and!; try done.
    + intros k Hk. apply Hp1, Hout. by right.
    + intros k Hk. rewrite Hp1; [done|]. apply Hout. by left.
    + intros k a Hk Hkb. apply Hp2. by apply Hin.
  - assert (e = []) as ->.
    { destruct c as [|]; [|rewrite zlen_cons in *; pose proof (zlen_nonneg c); lia].
      apply chain_length in Hch. by destruct e. }
    exists h, s, m. split_and!; try done. intros k a Hk Hkb.
    assert ((k, a) ∈ @nil (KEY * A)) as Hn by by apply Hin. by apply not_elem_of_nil in Hn.
Qed.
End prune.

Lemma Get_hrep h (m : gmap KEY A) k v :
  hrep h m →
  Get h k v = Ok (match m !! k with
                  | Some a => (SUCCESS, a) | None => (E_HASH_LIST_NO_NODE, v) end).
Proof.
  intros Hr. unfold Get.
  destruct (Find_hrep h m k Hr) as [(b & ix & last & -> & ->)|(b & ix & x & last & nd & -> & ? &
    Hnd & _ & ->)]; cbn; [done|].
  destruct (Z.ltb_spec 0 x); [|lia]. by rewrite Hnd.
Qed.

Lemma Update_hrep h (m : gmap KEY A) k v :
  hrep h m →
  match m !! k with
  | None => Update h k v = Ok (h, E_HASH_LIST_NO_NODE)
  | Some _ => ∃ h', Update h k v = Ok (h', SUCCESS) ∧ hrep h' (<[k := v]> m) ∧
                    iTotalDataNodeNum h' = iTotalDataNodeNum h
  end.
Proof.
  intros Hr. rewrite Update_store.
  destruct (Find_hrep h m k Hr) as [(b & ix & last & HF & ->)|(b & ix & x & last & nd & HF & Hx &
    Hnd & _ & ->)]; rewrite HF; cbn; [done|].
  destruct (Z.ltb_spec 0 x); [|lia].
  destruct (store_hrep h m k b ix x last v Hr HF Hx) as (h' & -> & ? & ?). cbn. eauto.
Qed.

(** * Histories of calls *)
Inductive hl_call : Type :=
  | HInsert k (v : A)
  | HUpdate k (v : A)
  | HRemove k
  | HGet k (v : A).

(** A call on the table, and on a map of at most [cap] keys: the result, and
    for [HGet] the data. *)
Definition hl_step h (c : hl_call) : outcome (table KEY A * (Z * option A)) :=
  match c with
  | HInsert k v => '(h, r) ← Insert h k v; Ok (h, (r, None))
  | HUpdate k v => '(h, r) ← Update h k v; Ok (h, (r, None))
  | HRemove k => '(h, r) ← Remove h k; Ok (h, (r, None))
  | HGet k v => '(r, a) ← Get h k v; Ok (h, (r, Some a))
  end.

Definition map_step (cap : Z) (m : gmap KEY A) (c : hl_call) : gmap KEY A * (Z * option A) :=
  match c with
  | HInsert k v =>
      match m !! k with
      | Some _ => (m, (E_HASH_LIST_NODE_EXIST, None))
      | None => if Z.of_nat (size m) =? cap then (m, (E_HASH_LIST_NO_SPACE, None))
                else (<[k := v]> m, (SUCCESS, None))
      end
  | HUpdate k v =>
      match m !! k with
      | Some _ => (<[k := v]> m, (SUCCESS, None))
      | None => (m, (E_HASH_LIST_NO_NODE, None))
      end
  | HRemove k =>
      match m !! k with
      | Some _ => (delete k m, (SUCCESS, None))
      | None => (m, (E_HASH_LIST_NO_NODE, None))
      end
  | HGet k v =>
      match m !! k with
      | Some a => (m, (SUCCESS, Some a))
      | None => (m, (E_HASH_LIST_NO_NODE, Some v))
      end
  end.

Fixpoint hl_run h (cs : list hl_call) : outcome (table KEY A * list (Z * option A)) :=
  match cs with
  | [] => Ok (h, [])
  | c :: cs => '(h, r) ← hl_step h c; '(h, rs) ← hl_run h cs; Ok (h, r :: rs)
  end.

Fixpoint map_run (cap : Z) (m : gmap KEY A) (cs : list hl_call) : gmap KEY A * list (Z * option A) :=
  match cs with
  | [] => (m, [])
  | c :: cs => let '(m, r) := map_step cap m c in
               let '(m, rs) := map_run cap m cs in (m, r :: rs)
  end.

Lemma hl_step_refines h (m : gmap KEY A) (c : hl_call) :
  hrep h m →
  ∃ h', hl_step h c = Ok (h', (map_step (iTotalDataNodeNum h - 1) m c).2) ∧
        hrep h' (map_step (iTotalDataNodeNum h - 1) m c).1 ∧
        iTotalDataNodeNum h' = iTotalDataNodeNum h.
Proof.
  intros Hr. destruct c as [k v|k v|k|k v]; cbn.
  - pose proof (Insert_hrep h m k v Hr) as HI. destruct (m !! k); [rewrite HI; cbn; eauto|].
    pose proof Hr as (_ & _ & _ & _ & _ & Hs).
    replace (Z.of_nat (size m) =? iTotalDataNodeNum h - 1)
      with (iUsedDataNodeNum h =? iTotalDataNodeNum h)
      by (destruct (Z.eqb_spec (iUsedDataNodeNum h) (iTotalDataNodeNum h)),
            (Z.eqb_spec (Z.of_nat (size m)) (iTotalDataNodeNum h - 1)); lia || done).
    destruct (_ =? _); [rewrite HI; cbn; eauto|]. destruct HI as (h' & -> & ? & ?). cbn. eauto.
  - pose proof (Update_hrep h m k v Hr) as HI. destruct (m !! k); [|rewrite HI; cbn; eauto].
    destruct HI as (h' & -> & ? & ?). cbn. eauto.
  - pose proof (Remove_hrep h m k Hr) as HI. destruct (m !! k); [|rewrite HI; cbn; eauto].
    destruct HI as (h' & -> & ? & ?). cbn. eauto.
  - rewrite (Get_hrep h m k v Hr). destruct (m !! k); cbn; eauto.
Qed.

Lemma hl_run_refines h (m : gmap KEY A) (cs : list hl_call) :
  hrep h m →
  ∃ h', hl_run h cs = Ok (h', (map_run (iTotalDataNodeNum h - 1) m cs).2) ∧
        hrep h' (map_run (iTotalDataNodeNum h - 1) m cs).1.
Proof.
  revert h m. induction cs as [|c cs IH]; intros h m Hr; [by exists h|]. cbn.
  destruct (hl_step_refines h m c Hr) as (h1 & -> & Hr1 & Ht1). cbn.
  destruct (map_step _ m c) as [m1 r]. cbn in *.
  destruct (IH h1 m1 Hr1) as (h2 & -> & Hr2). cbn. rewrite Ht1 in *.
  destruct (map_run _ m1 cs) as [m2 rs]. cbn in *. eauto.
Qed.
End facts.

(** * Properties *)
Section props.
Import CHashListNoLock.
Context {KEY A : Type} `{Countable KEY} `{HashKey KEY}.
Implicit Types (h : table KEY A) (m : gmap KEY A) (k : KEY) (v zero : A).

(** C13: after [Clear], any sequence of calls has the results it would have on
    a finite map that holds one key less than the table has nodes: the table
    never leaves its memory, never loses a node and never loops. *)
Theorem hash_list_refines_map zero h cs :
  1 ≤ iIndexNodeNum h → 2 ≤ iTotalDataNodeNum h →
  ∃ h0 h', Clear zero h = Ok h0 ∧
    hl_run h0 cs = Ok (h', (map_run (iTotalDataNodeNum h - 1) ∅ cs).2) ∧
    hrep h' (map_run (iTotalDataNodeNum h - 1) ∅ cs).1.
Proof.
  intros HN HT. destruct (Clear_hrep zero h HN HT) as (h0 & Hc & Hr & <-).
  destruct (hl_run_refines h0 ∅ cs Hr) as (h' & ? & ?). eauto.
Qed.

(** [Insert] of a key the table has changes nothing; of a new key it adds
    the entry, unless all nodes are in use, and then it changes nothing. *)
Theorem hash_Insert_spec h m k v :
  hrep h m →
  match m !! k with
  | Some _ => Insert h k v = Ok (h, E_HASH_LIST_NODE_EXIST)
  | None =>
      if GetUsedDataNum h =? iTotalDataNodeNum h
      then Insert h k v = Ok (h, E_HASH_LIST_NO_SPACE)
      else ∃ h', Insert h k v = Ok (h', SUCCESS) ∧ hrep h' (<[k := v]> m) ∧
                 iTotalDataNodeNum h' = iTotalDataNodeNum h
  end.
Proof. apply Insert_hrep. Qed.

(** [Remove] takes exactly the entry of its key out of the table, wherever
    in its chain it is, and its node can be used again. *)
Theorem hash_Remove_spec h m k :
  hrep h m →
  match m !! k with
  | None => Remove h k = Ok (h, E_HASH_LIST_NO_NODE)
  | Some v => ∃ h', Remove h k = Ok (h', SUCCESS) ∧ hrep h' (delete k m) ∧
      ∃ h'', Insert h' k v = Ok (h'', SUCCESS) ∧ hrep h'' m
  end.
Proof.
  intros Hr. pose proof (Remove_hrep h m k Hr) as HR.
  destruct (m !! k) as [v|] eqn:Hk; [|done]. destruct HR as (h' & HR & Hr' & Ht).
  exists h'. split_and!; [done..|].
  pose proof (Insert_hrep h' (delete k m) k v Hr') as HI. rewrite lookup_delete_eq in HI.
  pose proof Hr as (cs & es & fr & Hi & _ & Hs). pose proof Hr' as (_ & _ & _ & _ & _ & Hs').
  pose proof (hi_count _ _ _ _ Hi) as Hn. pose proof (hi_used _ _ _ _ Hi) as Hu.
  pose proof (hi_total _ _ _ _ Hi) as Htot.
  rewrite zlen_app in Hn. pose proof (zlen_nonneg fr).
  rewrite map_size_delete, Hk in Hs'.
  assert (size m ≠ 0%nat) by (apply map_size_ne_0_lookup_2 with k; by rewrite Hk).
  destruct (Z.eqb_spec (iUsedDataNodeNum h') (iTotalDataNodeNum h')); [lia|].
  destruct HI as (h'' & ? & Hr'' & _). exists h''. split; [done|].
  by rewrite insert_delete_id in Hr''.
Qed.

(** [Get] returns a pointer exactly for the keys of the table; it points
    at the data of that key, and what is written through it is what the table
    holds for the key afterwards, and for no other. *)
Theorem hash_Get_pointer h m k v :
  hrep h m →
  match m !! k with
  | None => GetP h k = Ok None
  | Some a => ∃ ip h', GetP h k = Ok (Some ip) ∧ deref h ip = Ok a ∧
                       store h ip v = Ok h' ∧ hrep h' (<[k := v]> m)
  end.
Proof.
  intros Hr. pose proof (GetP_hrep h m k Hr) as HG.
  destruct (m !! k) as [a|]; [|done]. destruct HG as (ip & ? & ? & Hs).
  destruct (Hs v) as (h' & ? & ?). by exists ip, h'.
Qed.

(** [Verify] reports no error for any table the operations can produce. *)
Theorem hash_Verify_sound h m : hrep h m → Verify h = Ok 0.
Proof. intros (cs & es & fr & Hi & _). by apply (Verify_hinv h cs es fr). Qed.

(** [ProcessAll] calls back once for every entry whose key belongs to the
    index, and for no other: over all indexes, for every entry of the table. *)
Theorem hash_ProcessAll_visits h m b (v : list (KEY * A)) :
  hrep h m → 0 ≤ b < zlen (m_pstIndex h) →
  ∃ e, ProcessAll h b collect v = Ok (h, v ++ e, SUCCESS) ∧ NoDup e.*1 ∧
    (∀ k a, (k, a) ∈ e ↔ m !! k = Some a ∧ Hash h k = Ok b).
Proof.
  intros Hr Hb. destruct (ProcessAll_visit h m b v Hr Hb) as (e & ? & ? & He).
  exists e. split_and!; [done..|]. intros k a. rewrite He.
  destruct Hr as (cs & es & fr & Hi & _). unfold Hash.
  rewrite (hi_index _ _ _ _ Hi), (proj2 (Z.eqb_neq _ _)) by lia. naive_solver.
Qed.
End props.

(** * The properties at a concrete table *)
Section examples.
Import CHashListNoLock.

Definition ex_calls : list (hl_call (KEY := Z) (A := Z)) :=
  [HInsert 10 100; HInsert 11 110; HInsert 12 120].
Definition ex_map : gmap Z Z := (map_run 3 ∅ ex_calls).1.
Definition ex_table : CHashListNoLock.t Z :=
  mk 0 4 4 2 0 [mk_index 0 2 3; mk_index 1 1 2]
     [mk_node 0 0 0; mk_node 10 0 100; mk_node 11 0 110; mk_node 12 1 120].

Lemma ex_table_rep : hrep ex_table ex_map.
Proof.
  destruct (Clear_hrep 0 (mk 0 4 0 2 0 [] [])) as (h0 & Hc & Hr & _); [cbn; lia..|].
  vm_compute in Hc. injection Hc as <-.
  destruct (hl_run_refines _ ∅ ex_calls Hr) as (h' & Hrun & Hr').
  vm_compute in Hrun. injection Hrun as <-. exact Hr'.
Qed.

Lemma hash_list_refines_map_witness :
  ∃ h0 h', Clear 0 (mk 0 4 0 2 0 [] []) = Ok h0 ∧
    hl_run h0 [HInsert 5 50; HGet 5 0; HRemove 7] =
      Ok (h', [(SUCCESS, None); (SUCCESS, Some 50); (E_HASH_LIST_NO_NODE, None)]) ∧
    hrep h' {[ 5 := 50 ]}.
Proof.
  destruct (hash_list_refines_map (KEY := Z) 0 (mk 0 4 0 2 0 [] []) [HInsert 5 50; HGet 5 0; HRemove 7])
    as (h0 & h' & Hc & Hr & Hm); [cbn; lia..|].
  exists h0, h'. split; [exact Hc|]. split; [exact Hr|exact Hm].
Defined.

Lemma hash_Insert_spec_witness :
  Insert ex_table 10 5 = Ok (ex_table, E_HASH_LIST_NODE_EXIST) ∧
  Insert ex_table 13 5 = Ok (ex_table, E_HASH_LIST_NO_SPACE).
Proof.
  split.
  - exact (hash_Insert_spec ex_table ex_map 10 5 ex_table_rep).
  - exact (hash_Insert_spec ex_table ex_map 13 5 ex_table_rep).
Defined.

Lemma hash_Remove_spec_witness :
  ∃ h', Remove ex_table 10 = Ok (h', SUCCESS) ∧ hrep h' (delete 10 ex_map) ∧
    ∃ h'', Insert h' 10 100 = Ok (h'', SUCCESS) ∧ hrep h'' ex_map.
Proof. exact (hash_Remove_spec ex_table ex_map 10 ex_table_rep). Defined.

Lemma hash_Get_pointer_witness :
  ∃ ip h', GetP ex_table 12 = Ok (Some ip) ∧ deref ex_table ip = Ok 120 ∧
           store ex_table ip 7 = Ok h' ∧ hrep h' (<[12 := 7]> ex_map).
Proof. exact (hash_Get_pointer ex_table ex_map 12 7 ex_table_rep). Defined.

Lemma hash_Verify_sound_witness : Verify ex_table = Ok 0.
Proof. exact (hash_Verify_sound ex_table ex_map ex_table_rep). Defined.

Lemma hash_ProcessAll_visits_witness :
  ∃ e, ProcessAll ex_table 0 collect [] = Ok (ex_table, [] ++ e, SUCCESS) ∧ NoDup e.*1 ∧
    (∀ k a, (k, a) ∈ e ↔ ex_map !! k = Some a ∧ Hash ex_table k = Ok 0).
Proof.
  apply (hash_ProcessAll_visits ex_table ex_map 0 [] ex_table_rep). concrete.
Defined.
End examples.
