(* ===== verification/LockedHash.v ===== *)
(** [CHashList] (mmlib/hash_list/hash_list.h): the hash table of
    hash_list_nolock.h, where every operation locks the part of the block it
    works on, and the part that is in a mapped file ([CHashListMMap],
    hash_list_mmap.h), where the locks are those of a file. *)
From stdpp Require Import gmap.
From S2P Require Import Prelude HashList.

#[local] Arguments Z.add : simpl never.
#[local] Arguments Z.mul : simpl never.
#[local] Arguments Z.eqb : simpl never.
#[local] Arguments Z.ltb : simpl never.

Module CHashList.
Export CHashListNoLock.

Definition HASH_LIST_LOCK_READ : Z := 1.
Definition HASH_LIST_LOCK_WRITE : Z := 2.

(** Parts of the block: the head; of the head, what tells which nodes are free; the
    chain of an index; all of it. *)
Inductive part : Type := PHead | PFree | PIndex (i : Z) | PAll.

(** What an operation does to locks, and what it works on; [ReadIndexNum] is the
    access of [Hash] to [iIndexNodeNum] in the head, for which nothing is locked. *)
Inductive event : Type :=
  | Acquire (iType iOffSet iSize : Z)
  | Release (iOffSet iSize : Z)
  | Touch (p : part)
  | ReadIndexNum.

(** A computation that leaves events behind. *)
Definition L (X : Type) : Type := list event → outcome (X * list event).
#[export] Instance L_ret : MRet L := λ X x tr, Ok (x, tr).
#[export] Instance L_bind : MBind L := λ X Y f m tr, '(x, tr) ← m tr; f x tr.
Definition lift {X} (m : outcome X) : L X := λ tr, x ← m; Ok (x, tr).
Definition emit (e : event) : L unit := λ tr, Ok (tt, tr ++ [e]).

(** The result, where locks do nothing, as in [CHashList] itself. *)
Definition unlocked {X} (m : L X) : outcome X := '(x, _) ← m []; Ok x.

Section ops.
Context {KEY A : Type} `{EqDecision KEY} `{HashKey KEY}.
Context (HEAD_SIZE INDEX_NODE_SIZE DATA_NODE_SIZE : Z).
Implicit Types (h : table KEY A) (Key : KEY).

Definition CalcSize (iIndexNum iNodeNum : Z) : Z :=
  HEAD_SIZE + iIndexNum * INDEX_NODE_SIZE + iNodeNum * DATA_NODE_SIZE.

Definition Lock (iType iOffSet iSize : Z) : L unit := emit (Acquire iType iOffSet iSize).
Definition UnLock (iOffSet iSize : Z) : L unit := emit (Release iOffSet iSize).
Definition LockHead (iType : Z) : L unit := Lock iType 0 HEAD_SIZE.
Definition UnLockHead : L unit := UnLock 0 HEAD_SIZE.
Definition LockIndex (iType iOffSet : Z) : L unit :=
  Lock iType (HEAD_SIZE + iOffSet * INDEX_NODE_SIZE) INDEX_NODE_SIZE.
Definition UnLockIndex (iOffSet : Z) : L unit :=
  UnLock (HEAD_SIZE + iOffSet * INDEX_NODE_SIZE) INDEX_NODE_SIZE.
Definition LockAll (iType : Z) h : L unit :=
  Lock iType 0 (HEAD_SIZE + iIndexNodeNum h * INDEX_NODE_SIZE + iTotalDataNodeNum h * DATA_NODE_SIZE).
Definition UnLockAll h : L unit :=
  UnLock 0 (HEAD_SIZE + iIndexNodeNum h * INDEX_NODE_SIZE + iTotalDataNodeNum h * DATA_NODE_SIZE).
Definition touch (p : part) : L unit := emit (Touch p).

Definition Hash h Key : L Z := emit ReadIndexNum;; lift (CHashListNoLock.Hash h Key).

(** [Init]: only the sizes are written; the locks are those of the head. *)
Definition Init h (iMemSize iIndexNum iDataNum : Z) : L (table KEY A * Z) :=
  let iTotalMemSize := CalcSize iIndexNum iDataNum in
  if iMemSize <? iTotalMemSize then mret (h, E_HASH_LIST_MEM_SIZE)
  else if iIndexNum <? 1 then mret (h, E_HASH_LIST_INDEX_NUM)
  else if iDataNum <? 2 then mret (h, E_HASH_LIST_DATA_NUM)
  else
    LockHead HASH_LIST_LOCK_WRITE;; touch PHead;; UnLockHead;;
    mret (mk iMemSize iDataNum (iUsedDataNodeNum h) iIndexNum (ipFreeDataNodeList h)
             (m_pstIndex h) (m_pstData h), SUCCESS).

Definition Clear (zero : A) h : L (table KEY A) :=
  LockAll HASH_LIST_LOCK_WRITE h;; touch PAll;;
  h' ← lift (CHashListNoLock.Clear zero h);
  UnLockAll h;; mret h'.

Definition Verify h : L Z :=
  LockAll HASH_LIST_LOCK_READ h;; touch PAll;;
  r ← lift (CHashListNoLock.Verify h);
  UnLockAll h;; mret r.

(** From the index node along the chain, to the node of the key. *)
Definition search (iHashVal : Z) h Key : L (IndexNode * Z * Z) :=
  touch (PIndex iHashVal);;
  ix ← lift (aget (m_pstIndex h) iHashVal);
  '(ipData, ipLastData) ← lift (find_loop (length (m_pstData h)) (m_pstData h) Key (ipDataNodeList ix) 0);
  mret (ix, ipData, ipLastData).

Definition GetFreeNode h : L (table KEY A * Z) :=
  LockHead HASH_LIST_LOCK_WRITE;; touch PFree;;
  r ← lift (CHashListNoLock.GetFreeNode h);
  UnLockHead;; mret r.

Definition RecycleNode h (iNode : Z) : L (table KEY A * Z) :=
  LockHead HASH_LIST_LOCK_WRITE;; touch PFree;;
  r ← lift (CHashListNoLock.RecycleNode h iNode);
  UnLockHead;; mret r.

Definition Insert h Key (Data : A) : L (table KEY A * Z) :=
  iHashVal ← Hash h Key;
  LockIndex HASH_LIST_LOCK_WRITE iHashVal;;
  '(_, ipData, _) ← search iHashVal h Key;
  r ← (if 0 <? ipData then mret (h, E_HASH_LIST_NODE_EXIST)
       else
         '(h, ipFreeNode) ← GetFreeNode h;
         if 0 <? ipFreeNode then
           touch (PIndex iHashVal);;
           ix ← lift (aget (m_pstIndex h) iHashVal);
           d ← lift (aset (m_pstData h) ipFreeNode (mk_node Key (ipDataNodeList ix) Data));
           i ← lift (aset (m_pstIndex h) iHashVal
                 (mk_index (CHashListNoLock.iHashVal ix) (iDataNodeNum ix + 1) ipFreeNode));
           mret (set_index (set_data h d) i, SUCCESS)
         else mret (h, ipFreeNode));
  UnLockIndex iHashVal;; mret r.

Definition InsertWithRet h Key (Data : A) : L (table KEY A * Z * A) :=
  iHashVal ← Hash h Key;
  LockIndex HASH_LIST_LOCK_WRITE iHashVal;;
  '(_, ipData, _) ← search iHashVal h Key;
  r ← (if 0 <? ipData then
         nd ← lift (aget (m_pstData h) ipData); mret (h, E_HASH_LIST_NODE_EXIST, CHashListNoLock.Data nd)
       else
         '(h, ipFreeNode) ← GetFreeNode h;
         if 0 <? ipFreeNode then
           touch (PIndex iHashVal);;
           ix ← lift (aget (m_pstIndex h) iHashVal);
           d ← lift (aset (m_pstData h) ipFreeNode (mk_node Key (ipDataNodeList ix) Data));
           i ← lift (aset (m_pstIndex h) iHashVal
                 (mk_index (CHashListNoLock.iHashVal ix) (iDataNodeNum ix + 1) ipFreeNode));
           mret (set_index (set_data h d) i, SUCCESS, Data)
         else mret (h, ipFreeNode, Data));
  UnLockIndex iHashVal;; mret r.

Definition Update h Key (Data : A) : L (table KEY A * Z) :=
  iHashVal ← Hash h Key;
  LockIndex HASH_LIST_LOCK_WRITE iHashVal;;
  '(_, ipData, _) ← search iHashVal h Key;
  r ← (if 0 <? ipData then
         nd ← lift (aget (m_pstData h) ipData);
         d ← lift (aset (m_pstData h) ipData (mk_node (KeyVal nd) (ipNextDataNode nd) Data));
         mret (set_data h d, SUCCESS)
       else mret (h, E_HASH_LIST_NO_NODE));
  UnLockIndex iHashVal;; mret r.

Definition Remove h Key : L (table KEY A * Z) :=
  iHashVal ← Hash h Key;
  LockIndex HASH_LIST_LOCK_WRITE iHashVal;;
  '(ix, ipData, ipLastData) ← search iHashVal h Key;
  r ← (if 0 <? ipData then
         nd ← lift (aget (m_pstData h) ipData);
         h ← lift (if 0 =? ipLastData then
                i ← aset (m_pstIndex h) iHashVal
                      (mk_index (CHashListNoLock.iHashVal ix) (iDataNodeNum ix) (ipNextDataNode nd));
                Ok (set_index h i)
              else
                last ← aget (m_pstData h) ipLastData;
                d ← aset (m_pstData h) ipLastData
                      (mk_node (KeyVal last) (ipNextDataNode nd) (CHashListNoLock.Data last));
                Ok (set_data h d));
         ix ← lift (aget (m_pstIndex h) iHashVal);
         i ← lift (aset (m_pstIndex h) iHashVal
               (mk_index (CHashListNoLock.iHashVal ix) (iDataNodeNum ix - 1) (ipDataNodeList ix)));
         RecycleNode (set_index h i) ipData
       else mret (h, E_HASH_LIST_NO_NODE));
  UnLockIndex iHashVal;; mret r.

Definition Get h Key (Data : A) : L (Z * A) :=
  iHashVal ← Hash h Key;
  LockIndex HASH_LIST_LOCK_READ iHashVal;;
  '(_, ipData, _) ← search iHashVal h Key;
  r ← (if 0 <? ipData then
         nd ← lift (aget (m_pstData h) ipData); mret (SUCCESS, CHashListNoLock.Data nd)
       else mret (E_HASH_LIST_NO_NODE, Data));
  UnLockIndex iHashVal;; mret r.

Definition GetIndexNum h : Z := iIndexNodeNum h.
Definition GetUsedDataNum h : Z := iUsedDataNodeNum h.
End ops.
End CHashList.

(** * The tables are those of hash_list_nolock.h *)
Section same.
Import CHashList.
Context {KEY A : Type} `{EqDecision KEY} `{HashKey KEY}.
Context (HS IS DS : Z).
Implicit Types (h : table KEY A) (k : KEY) (v : A).

#[local] Ltac same :=
  cbv [unlocked mbind L_bind mret L_ret lift emit touch LockIndex UnLockIndex LockHead UnLockHead LockAll
       UnLockAll Lock UnLock outcome_bind outcome_ret CHashList.Hash search Find CHashList.GetFreeNode CHashList.RecycleNode
       CHashList.Clear CHashList.Verify CHashList.Insert CHashListNoLock.Insert CHashList.InsertWithRet
       CHashListNoLock.InsertWithRet CHashList.Update
       CHashListNoLock.Update CHashList.Get CHashListNoLock.Get CHashList.Remove CHashListNoLock.Remove];
  repeat (case_match; simplify_eq/=; try done).

Lemma unlocked_Clear zero h : unlocked (CHashList.Clear HS IS DS zero h) = CHashListNoLock.Clear zero h.
Proof. same. Qed.
Lemma unlocked_Verify h : unlocked (CHashList.Verify HS IS DS h) = CHashListNoLock.Verify h.
Proof. same. Qed.
Lemma unlocked_Insert h k v : unlocked (CHashList.Insert HS IS h k v) = CHashListNoLock.Insert h k v.
Proof. same. Qed.
Lemma unlocked_InsertWithRet h k v :
  unlocked (CHashList.InsertWithRet HS IS h k v) = CHashListNoLock.InsertWithRet h k v.
Proof. same. Qed.
Lemma unlocked_Update h k v : unlocked (CHashList.Update HS IS h k v) = CHashListNoLock.Update h k v.
Proof. same. Qed.
Lemma unlocked_Get h k v : unlocked (CHashList.Get HS IS h k v) = CHashListNoLock.Get h k v.
Proof. same. Qed.
Lemma unlocked_Remove h k : unlocked (CHashList.Remove HS IS h k) = CHashListNoLock.Remove h k.
Proof. same. Qed.
End same.

(** * The locks *)
Section locks.
Import CHashList.

(** A lock that is held. *)
Record hold : Type := Hold { h_type : Z; h_off : Z; h_size : Z }.

Definition overlap (a b : hold) : bool :=
  (h_off a <? h_off b + h_size b) && (h_off b <? h_off a + h_size a).
(** Two readers do not disturb each other. *)
Definition conflict (a b : hold) : bool :=
  overlap a b && negb ((h_type a =? HASH_LIST_LOCK_READ) && (h_type b =? HASH_LIST_LOCK_READ)).

(** The sizes of the head, of an index node and of the whole block. *)
Context (HS IS TOT : Z).

Definition region (p : part) : hold :=
  match p with
  | PHead | PFree => Hold 0 0 HS
  | PIndex i => Hold 0 (HS + i * IS) IS
  | PAll => Hold 0 0 TOT
  end.
Definition covers (p : part) (l : hold) : bool :=
  (h_off l <=? h_off (region p)) && (h_off (region p) + h_size (region p) <=? h_off l + h_size l).

(** The number of indexes is a part of it. *)
Definition with_index_num (p : part) : bool := match p with PHead | PAll => true | _ => false end.
Definition is_head (p : part) : bool := match p with PHead => true | _ => false end.

(** The discipline: locks are taken from the end of the block to its start, the
    last one taken is the first released, nothing is worked on without the lock of
    that part, but for the number of indexes, which [Hash] reads, and the sizes in
    the head are changed only with all of the block ([Init] is no operation on a
    block in use).  What is held after the events, if they keep to it. *)
Fixpoint guarded (held : list hold) (tr : list event) : option (list hold) :=
  match tr with
  | [] => Some held
  | Acquire t o n :: tr =>
      if (0 <? n) && forallb (λ l, o + n <=? h_off l) held then guarded (Hold t o n :: held) tr else None
  | Release o n :: tr =>
      match held with
      | l :: held => if (h_off l =? o) && (h_size l =? n) then guarded held tr else None
      | [] => None
      end
  | Touch p :: tr => if negb (is_head p) && existsb (covers p) held then guarded held tr else None
  | ReadIndexNum :: tr => guarded held tr
  end.

(** ** Processes that share the block *)

(** What a process holds, and what it has still to do. *)
Record proc : Type := Proc { p_held : list hold; p_rest : list event }.

(** Process [i] goes on, unless it has to wait. *)
Definition others (ps : list proc) (i : nat) : list proc := take i ps ++ drop (S i) ps.
Definition proc_step (ps : list proc) (i : nat) : option (list proc) :=
  p ← ps !! i;
  match p_rest p with
  | [] => None
  | Acquire t o n :: tr =>
      if existsb (λ q, existsb (conflict (Hold t o n)) (p_held q)) (others ps i) then None
      else Some (<[i := Proc (Hold t o n :: p_held p) tr]> ps)
  | Release _ _ :: tr => Some (<[i := Proc (tail (p_held p)) tr]> ps)
  | Touch _ :: tr | ReadIndexNum :: tr => Some (<[i := Proc (p_held p) tr]> ps)
  end.
Definition procs_step (ps ps' : list proc) : Prop := ∃ i, proc_step ps i = Some ps'.

Definition disciplined (p : proc) : Prop := guarded (p_held p) (p_rest p) = Some [].
Definition finished (p : proc) : Prop := p_rest p = [].

Lemma others_elem ps i q : q ∈ others ps i → ∃ j, j ≠ i ∧ ps !! j = Some q.
Proof.
  unfold others. intros [(j & Hj & Hlt)%elem_of_take|[j Hj]%list_elem_of_lookup]%elem_of_app.
  - exists j. split; [lia|done].
  - rewrite lookup_drop in Hj. exists (S i + j)%nat. split; [lia|done].
Qed.

Lemma elem_of_others ps i j q : j ≠ i → ps !! j = Some q → q ∈ others ps i.
Proof.
  intros Hne Hj. unfold others. apply elem_of_app. destruct (decide (j < i)%nat).
  - left. apply elem_of_take. by exists j.
  - right. apply list_elem_of_lookup. exists (j - S i)%nat. rewrite lookup_drop, <- Hj. f_equal. lia.
Qed.

Lemma disciplined_step ps ps' :
  Forall (disciplined) ps → procs_step ps ps' → Forall (disciplined) ps'.
Proof.
  intros Hps [i Hi]. unfold proc_step in Hi. destruct (ps !! i) as [[held rest]|] eqn:Ei; [|done].
  pose proof (Forall_lookup_1 _ _ _ _ Hps Ei) as Hp. unfold disciplined in Hp. cbn [p_held p_rest mbind option_bind] in *.
  destruct rest as [|[t o n|o n|q|] tr]; [done| | | |]; cbn [guarded] in Hp.
  - destruct (existsb _ _); [done|]. injection Hi as <-. apply Forall_insert; [done|].
    destruct (_ && _); [exact Hp|done].
  - injection Hi as <-. apply Forall_insert; [done|]. destruct held as [|l held]; [done|].
    destruct (_ && _); [exact Hp|done].
  - injection Hi as <-. apply Forall_insert; [done|]. destruct (_ && _); [exact Hp|done].
  - injection Hi as <-. by apply Forall_insert.
Qed.

Lemma disciplined_holds p : disciplined p → p_held p ≠ [] → ¬ finished p.
Proof. unfold disciplined, finished. intros Hd Hh Hr. rewrite Hr in Hd. cbn in Hd. congruence. Qed.

(** The least offset a process holds a lock at. *)
Definition low (p : proc) (x : Z) : Prop := (∃ l, l ∈ p_held p ∧ h_off l = x) ∧ ∀ l, l ∈ p_held p → x ≤ h_off l.

Lemma low_exists p : p_held p ≠ [] → ∃ x, low p x.
Proof.
  unfold low. induction (p_held p) as [|l ls IH]; [done|]. intros _. destruct ls as [|l2 ls].
  - exists (h_off l). split; [exists l; split; [by left|done]|]. intros l' ->%list_elem_of_singleton. done.
  - destruct IH as (x & (l' & Hin & Hl') & Hmin); [done|]. exists (Z.min x (h_off l)). split.
    + destruct (Z.min_spec x (h_off l)) as [[_ ->]|[_ ->]].
      * exists l'. split; [by right|done].
      * exists l. split; [by left|done].
    + intros l3 [->|H3]%elem_of_cons; [lia|]. apply Hmin in H3. lia.
Qed.

Lemma low_least (ps : list proc) :
  (∃ p, p ∈ ps ∧ p_held p ≠ []) →
  ∃ i p x, ps !! i = Some p ∧ low p x ∧ ∀ q l, q ∈ ps → l ∈ p_held q → x ≤ h_off l.
Proof.
  induction ps as [|p ps IH]; [by intros (p & Hp%not_elem_of_nil & _)|]. intros Hex.
  destruct (decide (Exists (λ q, p_held q ≠ []) ps)) as [He|He].
  - apply Exists_exists in He. destruct (IH He) as (i & q & x & Hq & Hx & Hmin).
    destruct (decide (p_held p = [])) as [Hp|Hp].
    + exists (S i), q, x. split; [done|]. split; [done|]. intros q' l [->|Hq']%elem_of_cons Hl; [|by eapply Hmin].
      rewrite Hp in Hl. by apply not_elem_of_nil in Hl.
    + destruct (low_exists p Hp) as [y Hy]. destruct (Z.le_gt_cases x y).
      * exists (S i), q, x. split; [done|]. split; [done|]. intros q' l [->|Hq']%elem_of_cons Hl; [|by eapply Hmin].
        apply Hy in Hl. lia.
      * exists 0%nat, p, y. split; [done|]. split; [done|]. intros q' l [->|Hq']%elem_of_cons Hl; [by apply Hy|].
        pose proof (Hmin q' l Hq' Hl). lia.
  - assert (∀ q, q ∈ ps → p_held q = []) as Hno.
    { intros q Hq. destruct (decide (p_held q = [])) as [|Hn]; [done|]. exfalso. apply He, Exists_exists. by exists q. }
    destruct Hex as (q & [->|Hq]%elem_of_cons & Hn); [|by apply Hno in Hq].
    destruct (low_exists p Hn) as [y Hy]. exists 0%nat, p, y. split; [done|]. split; [done|].
    intros q' l [->|Hq']%elem_of_cons Hl; [by apply Hy|]. rewrite (Hno q' Hq') in Hl. by apply not_elem_of_nil in Hl.
Qed.

(** Somebody can always go on: of those who hold locks, the one who holds the
    least, as all he may wait for is below. *)
Lemma disciplined_progress ps :
  Forall (disciplined) ps → Forall finished ps ∨ ∃ ps', procs_step ps ps'.
Proof.
  intros Hps. destruct (decide (Exists (λ q, p_held q ≠ []) ps)) as [He|He].
  - right. apply Exists_exists in He. destruct (low_least ps He) as (i & p & x & Hp & Hx & Hmin).
    pose proof (Forall_lookup_1 _ _ _ _ Hps Hp) as Hd. destruct p as [held rest].
    assert (held ≠ []) as Hne by (intros ->; destruct Hx as [(l & Hl%not_elem_of_nil & _) _]; done).
    pose proof (disciplined_holds _ Hd Hne) as Hnf. unfold finished, disciplined in *. cbn [p_held p_rest] in *.
    unfold procs_step, proc_step. destruct rest as [|[t o n|o n|q|] tr]; [done| | | |];
      [|eexists _, i; rewrite Hp; reflexivity..].
    cbn [guarded] in Hd. destruct (0 <? n) eqn:En; [|done]. apply Z.ltb_lt in En.
    destruct (forallb _ held) eqn:Hf; [|done]. rewrite forallb_forall in Hf.
    eexists _, i. rewrite Hp. cbn [mbind option_bind p_rest p_held].
    destruct (existsb _ _) eqn:Eb; [exfalso|reflexivity]. apply existsb_exists in Eb as (q & Hq & Eb).
    apply existsb_exists in Eb as (l & Hl & Hc). apply list_elem_of_In in Hq, Hl.
    destruct (others_elem ps i q Hq) as (j & _ & Hqp%list_elem_of_lookup_2).
    pose proof (Hmin q l Hqp Hl). destruct Hx as [(l0 & Hl0 & <-) _]. apply list_elem_of_In, Hf, Z.leb_le in Hl0.
    unfold conflict, overlap in Hc. cbn [h_off h_size] in Hc.
    apply andb_prop in Hc as [[_ Hc%Z.ltb_lt]%andb_prop _]. lia.
  - assert (∀ q, q ∈ ps → p_held q = []) as Hno.
    { intros q Hq. destruct (decide (p_held q = [])) as [|Hn]; [done|]. exfalso. apply He, Exists_exists. by exists q. }
    destruct (decide (Exists (λ q, p_rest q ≠ []) ps)) as [Hr|Hr]; [right|left].
    + apply Exists_exists in Hr as (p & [i Hi]%list_elem_of_lookup & Hp).
      unfold procs_step, proc_step. destruct p as [held [|[t o n|o n|q|] tr]]; [done| | | |];
        [|eexists _, i; rewrite Hi; reflexivity..].
      eexists _, i. rewrite Hi. cbn [mbind option_bind p_rest p_held].
      destruct (existsb _ _) eqn:Eb; [exfalso|reflexivity]. apply existsb_exists in Eb as (q & Hq & Eb).
      apply existsb_exists in Eb as (l & Hl & _). apply list_elem_of_In in Hq, Hl.
      destruct (others_elem ps i q Hq) as (j & _ & Hqp%list_elem_of_lookup_2).
      rewrite (Hno q Hqp) in Hl. by apply not_elem_of_nil in Hl.
    + apply Forall_forall. intros q Hq. unfold finished.
      destruct (decide (p_rest q = [])) as [|Hn]; [done|]. exfalso. apply Hr, Exists_exists. by exists q.
Qed.

(** ** Whoever holds a lock holds it alone *)
Definition exclusive (ps : list proc) : Prop :=
  ∀ i j p q a b, i ≠ j → ps !! i = Some p → ps !! j = Some q → a ∈ p_held p → b ∈ p_held q → conflict a b = false.

Lemma conflict_sym a b : conflict a b = conflict b a.
Proof. unfold conflict, overlap. by rewrite (andb_comm (_ <? _)), (andb_comm (_ =? _)). Qed.

Lemma exclusive_less ps i p p' :
  exclusive ps → ps !! i = Some p → (∀ l, l ∈ p_held p' → l ∈ p_held p) → exclusive (<[i := p']> ps).
Proof.
  intros Hex Hi Hsub j k pj pk a b Hne Hj Hk Ha Hb.
  apply list_lookup_insert_Some in Hj as [(-> & <- & _)|[_ Hj]], Hk as [(-> & <- & _)|[_ Hk]]; [done| | |].
  - by apply (Hex j k p pk a b Hne Hi Hk); [apply Hsub|].
  - by apply (Hex j k pj p a b Hne Hj Hi); [|apply Hsub].
  - by apply (Hex j k pj pk a b Hne Hj Hk).
Qed.

Lemma exclusive_step ps ps' : exclusive ps → procs_step ps ps' → exclusive ps'.
Proof.
  intros Hex [i Hi]. unfold proc_step in Hi. destruct (ps !! i) as [[held rest]|] eqn:Ei; [|done].
  cbn [p_held p_rest mbind option_bind] in *. destruct rest as [|[t o n|o n|q|] tr]; [done| | | |].
  - destruct (existsb _ _) eqn:Ec; [done|]. injection Hi as <-.
    assert (∀ j q b, j ≠ i → ps !! j = Some q → b ∈ p_held q → conflict (Hold t o n) b = false) as Hno.
    { intros j q b Hj Hq Hb. destruct (conflict _ b) eqn:E; [|done]. exfalso. apply not_true_iff_false in Ec.
      apply Ec, existsb_exists. exists q. split; [by apply list_elem_of_In, (elem_of_others _ _ j)|].
      apply existsb_exists. exists b. split; [by apply list_elem_of_In|done]. }
    intros j k pj pk a b Hne Hj Hk Ha Hb.
    apply list_lookup_insert_Some in Hj as [(-> & <- & _)|[_ Hj]], Hk as [(-> & <- & _)|[_ Hk]]; [done| | |].
    + apply elem_of_cons in Ha as [->|Ha]; [by apply (Hno k pk)|by apply (Hex j k _ pk a b Hne Ei Hk)].
    + apply elem_of_cons in Hb as [->|Hb]; [rewrite conflict_sym; by apply (Hno j pj)|by apply (Hex j k pj _ a b Hne Hj Ei)].
    + by apply (Hex j k pj pk a b Hne Hj Hk).
  - injection Hi as <-. apply (exclusive_less _ _ _ _ Hex Ei). intros l Hl. destruct held; [done|by right].
  - injection Hi as <-. by apply (exclusive_less _ _ _ _ Hex Ei).
  - injection Hi as <-. by apply (exclusive_less _ _ _ _ Hex Ei).
Qed.

(** Two processes about to work on parts that overlap only read. *)
Lemma exclusive_touch ps i j hi hj p q ti tj :
  Forall disciplined ps → exclusive ps → i ≠ j →
  ps !! i = Some (Proc hi (Touch p :: ti)) → ps !! j = Some (Proc hj (Touch q :: tj)) →
  overlap (region p) (region q) = true →
  ∃ a b, a ∈ hi ∧ b ∈ hj ∧ covers p a = true ∧ covers q b = true ∧
    h_type a = HASH_LIST_LOCK_READ ∧ h_type b = HASH_LIST_LOCK_READ.
Proof.
  intros Hd Hex Hne Hi Hj Ho.
  pose proof (Forall_lookup_1 _ _ _ _ Hd Hi) as Hpi. pose proof (Forall_lookup_1 _ _ _ _ Hd Hj) as Hpj.
  unfold disciplined in *. cbn [p_held p_rest guarded] in *.
  destruct (existsb (covers p) hi) eqn:Ei; [|by rewrite andb_false_r in Hpi].
  destruct (existsb (covers q) hj) eqn:Ej; [|by rewrite andb_false_r in Hpj].
  apply existsb_exists in Ei as (a & Ha%list_elem_of_In & Hca), Ej as (b & Hb%list_elem_of_In & Hcb).
  exists a, b. split_and!; try done.
  all: pose proof (Hex i j _ _ a b Hne Hi Hj Ha Hb) as Hc; unfold conflict in Hc;
    assert (overlap a b = true) as Hov;
    [unfold overlap, covers in *;
     apply andb_prop in Ho as [?%Z.ltb_lt ?%Z.ltb_lt], Hca as [?%Z.leb_le ?%Z.leb_le], Hcb as [?%Z.leb_le ?%Z.leb_le];
     apply andb_true_intro; split; apply Z.ltb_lt; lia|];
    rewrite Hov in Hc; cbn [andb] in Hc; apply negb_false_iff, andb_prop in Hc as [?%Z.eqb_eq ?%Z.eqb_eq]; done.
Qed.

(** What [Hash] reads is worked on only with a lock of all of the block. *)
Lemma index_num_touch ps j hj q tj :
  Forall disciplined ps → ps !! j = Some (Proc hj (Touch q :: tj)) → with_index_num q = true →
  q = PAll ∧ ∃ b, b ∈ hj ∧ covers PAll b = true.
Proof.
  intros Hd Hj Hq. pose proof (Forall_lookup_1 _ _ _ _ Hd Hj) as Hpj. unfold disciplined in Hpj.
  cbn [p_held p_rest guarded] in Hpj. destruct q; try done. cbn [is_head negb andb] in Hpj.
  destruct (existsb (covers PAll) hj) eqn:Ej; [|done]. apply existsb_exists in Ej as (b & Hb%list_elem_of_In & Hc). eauto.
Qed.
End locks.

(** * The operations keep to the discipline *)
Section calls.
Import CHashList.
Context {KEY A : Type} `{EqDecision KEY} `{HashKey KEY}.
Context (HS IS DS TOT : Z).
Hypotheses (HHS : 0 < HS) (HIS : 0 < IS) (HTOT : HS ≤ TOT).
Implicit Types (h : table KEY A).

Inductive call : Type :=
  | CInsert (k : KEY) (v : A)
  | CInsertWithRet (k : KEY) (v : A)
  | CUpdate (k : KEY) (v : A)
  | CRemove (k : KEY)
  | CGet (k : KEY) (v : A)
  | CClear (zero : A)
  | CVerify.

(** What the call does to the locks. *)
Definition call_events h (c : call) : outcome (list event) :=
  '(_, tr) ← (match c with
    | CInsert k v => CHashList.Insert HS IS h k v;; mret tt
    | CInsertWithRet k v => CHashList.InsertWithRet HS IS h k v;; mret tt
    | CUpdate k v => CHashList.Update HS IS h k v;; mret tt
    | CRemove k => CHashList.Remove HS IS h k;; mret tt
    | CGet k v => CHashList.Get HS IS h k v;; mret tt
    | CClear zero => CHashList.Clear HS IS DS zero h;; mret tt
    | CVerify => CHashList.Verify HS IS DS h;; mret tt
    end : L unit) [];
  Ok tr.

Definition idx_lock (t b : Z) : hold := Hold t (HS + b * IS) IS.

Lemma covers_idx t b : covers HS IS TOT (PIndex b) (idx_lock t b) = true.
Proof. unfold covers. cbn. by rewrite !Z.leb_refl. Qed.

Lemma guard_head t b tr :
  0 ≤ b →
  guarded HS IS TOT [idx_lock t b] (Acquire HASH_LIST_LOCK_WRITE 0 HS :: Touch PFree :: Release 0 HS :: tr) =
  guarded HS IS TOT [idx_lock t b] tr.
Proof.
  intros Hb. assert (0 ≤ b * IS) by (apply Z.mul_nonneg_nonneg; lia).
  cbn [guarded forallb]. rewrite (proj2 (Z.ltb_lt _ _)) by done. cbn [idx_lock h_off].
  rewrite (proj2 (Z.leb_le (0 + HS) _)) by lia. cbn [andb existsb]. unfold covers at 1. cbn [region h_off h_size].
  rewrite !Z.leb_refl. cbn [andb orb]. by rewrite !Z.eqb_refl.
Qed.

Lemma guard_touch t b tr :
  guarded HS IS TOT [idx_lock t b] (Touch (PIndex b) :: tr) = guarded HS IS TOT [idx_lock t b] tr.
Proof. cbn [guarded existsb]. by rewrite covers_idx. Qed.

Lemma guard_read held tr : guarded HS IS TOT held (ReadIndexNum :: tr) = guarded HS IS TOT held tr.
Proof. done. Qed.

Lemma guard_release t b : guarded HS IS TOT [idx_lock t b] [Release (HS + b * IS) IS] = Some [].
Proof. cbn. by rewrite !Z.eqb_refl. Qed.

Lemma guard_acquire t b tr :
  guarded HS IS TOT [] (Acquire t (HS + b * IS) IS :: tr) = guarded HS IS TOT [idx_lock t b] tr.
Proof. cbn [guarded forallb]. by rewrite (proj2 (Z.ltb_lt _ _)) by done. Qed.

Lemma guard_all t n :
  n = TOT → guarded HS IS TOT [] [Acquire t 0 n; Touch PAll; Release 0 n] = Some [].
Proof.
  intros ->. cbn. rewrite (proj2 (Z.ltb_lt _ _)) by lia. cbn. unfold covers. cbn. rewrite !Z.leb_refl. cbn.
  by rewrite !Z.eqb_refl.
Qed.

#[local] Ltac keeps :=
  repeat (rewrite guard_read || rewrite guard_acquire || rewrite guard_touch || (rewrite guard_head by done) || rewrite guard_release); done.

Lemma call_guarded h c tr :
  0 < iIndexNodeNum h → call_events h c = Ok tr →
  TOT = HS + iIndexNodeNum h * IS + iTotalDataNodeNum h * DS → guarded HS IS TOT [] tr = Some [].
Proof.
  intros Hn. assert (∀ k b, CHashListNoLock.Hash h k = Ok b → 0 ≤ b) as Hb.
  { unfold CHashListNoLock.Hash. intros k b. rewrite (proj2 (Z.eqb_neq _ _)) by lia. intros [= <-]. by apply key_mod_bound. }
  unfold call_events. destruct c as [k v|k v|k v|k|k v|zero|].
  all: cbv [mbind L_bind mret L_ret lift emit touch LockIndex UnLockIndex LockHead UnLockHead LockAll
       UnLockAll Lock UnLock outcome_bind outcome_ret CHashList.Hash search CHashList.GetFreeNode CHashList.RecycleNode
       CHashList.Clear CHashList.Verify CHashList.Insert CHashList.InsertWithRet CHashList.Update
       CHashList.Get CHashList.Remove].
  all: try (destruct (CHashListNoLock.Hash h k) as [b| |] eqn:Eh; [|done..]; apply Hb in Eh).
  all: repeat (case_match; simplify_eq; try done); intros [= <-] HT; cbn [app]; try keeps; by apply guard_all.
Qed.

Lemma guarded_app held tr1 held' tr2 :
  guarded HS IS TOT held tr1 = Some held' → guarded HS IS TOT held (tr1 ++ tr2) = guarded HS IS TOT held' tr2.
Proof.
  revert held. induction tr1 as [|[t o n|o n|p|] tr1 IH]; intros held; cbn [guarded app].
  - by intros [= ->].
  - destruct (_ && _); [apply IH|done].
  - destruct held as [|l held]; [done|]. destruct (_ && _); [apply IH|done].
  - destruct (_ && _); [apply IH|done].
  - apply IH.
Qed.

(** A process that makes calls, on whatever it finds in the block. *)
Definition makes_calls (p : proc) : Prop :=
  p_held p = [] ∧ ∃ trs, p_rest p = concat trs ∧
    Forall (λ tr, ∃ h c, call_events h c = Ok tr ∧ 0 < iIndexNodeNum h ∧
                         TOT = HS + iIndexNodeNum h * IS + iTotalDataNodeNum h * DS) trs.

Lemma makes_calls_disciplined p : makes_calls p → disciplined HS IS TOT p.
Proof.
  intros [Hh (trs & Hr & Hcs)]. unfold disciplined. rewrite Hh, Hr. clear Hh Hr p.
  induction Hcs as [|tr trs (h & c & Hc & Hn & HT) _ IH]; [done|]. cbn [concat].
  rewrite (guarded_app [] tr []); [exact IH|]. by apply (call_guarded h c tr Hn Hc).
Qed.
End calls.

(** * The claims *)
Section props.
Import CHashList.
Context {KEY A : Type} `{EqDecision KEY} `{HashKey KEY}.

(** C30: processes that share a hash list with locks never wait for each other
    for ever, whatever calls they make and however they take turns: until all
    calls are done, one of them can go on. *)
Theorem hash_locks_progress HS IS DS TOT ps ps' :
  0 < HS → 0 < IS → HS ≤ TOT → Forall (makes_calls (KEY := KEY) (A := A) HS IS DS TOT) ps →
  rtc procs_step ps ps' → Forall finished ps' ∨ ∃ ps'', procs_step ps' ps''.
Proof.
  intros HH HI HT Hps Hrun. apply (disciplined_progress HS IS TOT).
  assert (Forall (disciplined HS IS TOT) ps) as Hd.
  { eapply Forall_impl; [exact Hps|]. intros p. by apply makes_calls_disciplined. }
  clear Hps. induction Hrun as [|ps ps1 ps' Hs _ IH]; [done|]. by apply IH, (disciplined_step _ _ _ ps).
Qed.

(** C34: two of the processes about to access the block.  When both work on parts
    under locks, and the parts overlap, both hold read locks of their parts.  The
    access left over is that of [Hash], which reads the number of indexes in the
    head without a lock: the other one is then about to work on that number only in
    a [Clear] or a [Verify], under its lock of all of the block (the first writes it:
    [hash_meets_clear] below); no insertion or removal does. *)
Theorem hash_locks_exclude HS IS DS TOT ps ps' i j hi hj e f ti tj :
  0 < HS → 0 < IS → HS ≤ TOT → Forall (makes_calls (KEY := KEY) (A := A) HS IS DS TOT) ps →
  rtc procs_step ps ps' → i ≠ j →
  ps' !! i = Some (Proc hi (e :: ti)) → ps' !! j = Some (Proc hj (f :: tj)) →
  match e, f with
  | Touch p, Touch q =>
      overlap (region HS IS TOT p) (region HS IS TOT q) = true →
      ∃ a b, a ∈ hi ∧ b ∈ hj ∧ covers HS IS TOT p a = true ∧ covers HS IS TOT q b = true ∧
        h_type a = HASH_LIST_LOCK_READ ∧ h_type b = HASH_LIST_LOCK_READ
  | ReadIndexNum, Touch q =>
      with_index_num q = true → q = PAll ∧ ∃ b, b ∈ hj ∧ covers HS IS TOT PAll b = true
  | _, _ => True
  end.
Proof.
  intros HH HI HT Hps Hrun.
  assert (Forall (disciplined HS IS TOT) ps ∧ exclusive ps) as Hd.
  { split; [eapply Forall_impl; [exact Hps|]; intros x; by apply makes_calls_disciplined|].
    intros x y px py a b _ Hx _ Ha _. pose proof (Forall_lookup_1 _ _ _ _ Hps Hx) as [He _].
    rewrite He in Ha. by apply not_elem_of_nil in Ha. }
  clear Hps. intros Hne Hi Hj. assert (Forall (disciplined HS IS TOT) ps' ∧ exclusive ps') as [Hd' Hex].
  { induction Hrun as [|ps ps1 ps' Hs _ IH]; [done|]. destruct Hd as [Hd Hex]. apply IH; [|done..].
    split; [by apply (disciplined_step _ _ _ ps)|by apply (exclusive_step ps)]. }
  destruct e as [t o n|o n|p|], f as [t' o' n'|o' n'|q|]; try done.
  - intros Ho. by apply (exclusive_touch HS IS TOT ps' i j hi hj p q ti tj).
  - intros Hq. by apply (index_num_touch HS IS TOT ps' j hj q tj).
Qed.
End props.

(** * The claims at work *)
Section examples.
Import CHashList.

(** Head, index node and data node of 20, 12 and 16 bytes. *)
Definition ex_events (c : call (KEY := Z) (A := Z)) : list event :=
  match call_events 20 12 16 ex_table c with Ok tr => tr | _ => [] end.
(** One process removes a key and inserts another, one reads, one verifies. *)
Definition ex_proc (cs : list call) : proc := Proc [] (concat (ex_events <$> cs)).
Definition ex_procs : list proc :=
  [ex_proc [CRemove 10; CInsert 14 140]; ex_proc [CGet 11 0]; ex_proc [CVerify]].

Lemma ex_proc_calls cs :
  forallb (λ c, is_ok (call_events 20 12 16 ex_table c)) cs = true →
  makes_calls (KEY := Z) (A := Z) 20 12 16 108 (ex_proc cs).
Proof.
  intros Hcs. split; [done|]. exists (ex_events <$> cs). split; [done|]. apply Forall_fmap, Forall_forall.
  intros c Hc. rewrite forallb_forall in Hcs. apply list_elem_of_In, Hcs in Hc. exists ex_table, c.
  split; [|by split]. cbn. unfold ex_events. by destruct (call_events _ _ _ _ c).
Qed.

Lemma ex_procs_call : Forall (makes_calls (KEY := Z) (A := Z) 20 12 16 108) ex_procs.
Proof. repeat (apply Forall_cons; split; [apply ex_proc_calls; vm_compute; reflexivity|]). apply Forall_nil_2. Qed.

Lemma hash_locks_progress_witness :
  Forall finished ex_procs ∨ ∃ ps, procs_step ex_procs ps.
Proof.
  apply (hash_locks_progress (KEY := Z) (A := Z) 20 12 16 108 ex_procs ex_procs); [lia..|exact ex_procs_call|reflexivity].
Defined.

(** The processes with these numbers go on, one after the other. *)
Fixpoint turns (order : list nat) (ps : list proc) : option (list proc) :=
  match order with [] => Some ps | i :: order => ps ← proc_step ps i; turns order ps end.
Lemma turns_rtc order ps ps' : turns order ps = Some ps' → rtc procs_step ps ps'.
Proof.
  revert ps. induction order as [|i order IH]; intros ps; cbn [turns]; [intros [= ->]; apply rtc_refl|].
  destruct (proc_step ps i) as [ps1|] eqn:E; [|done]. intros Ht. eapply rtc_l; [by exists i|]. by apply IH.
Qed.

(** The second and the third hold their locks. *)
Definition ex_reading : list proc := default [] (turns [1; 1; 2]%nat ex_procs).

(** A process looks up a key while another one has locked all of the block and is
    about to clear it, the number of indexes with the rest. *)
Lemma hash_meets_clear :
  ∃ ps hi ti, rtc procs_step [ex_proc [CGet 11 0]; ex_proc [CClear 0]] ps ∧
    ps !! 0%nat = Some (Proc [] (ReadIndexNum :: ti)) ∧ ps !! 1%nat = Some (Proc [hi] [Touch PAll; Release 0 108]) ∧
    h_type hi = HASH_LIST_LOCK_WRITE.
Proof.
  eexists _, _, _. split; [apply (turns_rtc [1%nat]); vm_compute; reflexivity|]. split; [reflexivity|]. split; reflexivity.
Qed.

Lemma hash_locks_exclude_witness :
  ∃ hi hj ti tj, ex_reading !! 1%nat = Some (Proc hi (Touch (PIndex 1) :: ti)) ∧
    ex_reading !! 2%nat = Some (Proc hj (Touch PAll :: tj)) ∧
    ∃ a b, a ∈ hi ∧ b ∈ hj ∧ h_type a = HASH_LIST_LOCK_READ ∧ h_type b = HASH_LIST_LOCK_READ.
Proof.
  assert (rtc procs_step ex_procs ex_reading) as Hrun.
  { apply (turns_rtc [1; 1; 2]%nat). vm_compute. reflexivity. }
  eexists _, _, _, _. split; [vm_compute; reflexivity|]. split; [vm_compute; reflexivity|].
  destruct (hash_locks_exclude (KEY := Z) (A := Z) 20 12 16 108 ex_procs ex_reading 1 2
    [Hold 1 32 12] [Hold 1 0 108] (Touch (PIndex 1)) (Touch PAll) [Release 32 12] [Release 0 108]) as (a & b & Ha & Hb & _ & _ & Hr).
  - lia.
  - lia.
  - lia.
  - exact ex_procs_call.
  - exact Hrun.
  - done.
  - vm_compute. reflexivity.
  - vm_compute. reflexivity.
  - reflexivity.
  - exists a, b. split; [exact Ha|]. split; [exact Hb|exact Hr].
Defined.
End examples.
