(* ===== verification/Sweep.v ===== *)
(** Upkeep of a table that looks at one index per call, round and round: after as
    many calls as the table has indexes, all that was stale is gone. *)
From stdpp Require Import gmap.
From S2P Require Import Prelude.

Lemma mod_step a b N : 0 < N → (a - b) mod N ≠ 0 → (a - (b + 1) mod N) mod N = (a - b) mod N - 1.
Proof.
  intros HN Hne. pose proof (Z.mod_pos_bound (a - b) N HN).
  rewrite Zminus_mod_idemp_r. replace (a - (b + 1)) with (a - b - 1) by lia.
  rewrite <- (Zminus_mod_idemp_l (a - b) 1). apply Z.mod_small. lia.
Qed.

Section sweep.
Context {A : Type}.
Implicit Types (g : gmap Z A) (i : A) (u lo hi : Z).

(** Entries are left but for those that may go. *)
Definition purged g g' (gone : A → Prop) : Prop :=
  g' ⊆ g ∧ ∀ u i, g !! u = Some i → g' !! u = Some i ∨ gone i.

Lemma purged_refl g gone : purged g g gone.
Proof. split; [done|by left]. Qed.

Lemma purged_none g g' gone u : purged g g' gone → g !! u = None → g' !! u = None.
Proof.
  intros [Hs _] Hu. apply eq_None_not_Some. intros [j Hj]. apply (lookup_weaken _ _ _ _ Hj) in Hs. congruence.
Qed.

Lemma purged_same g g' gone u i j : purged g g' gone → g !! u = Some i → g' !! u = Some j → j = i.
Proof. intros [Hs _] Hi Hj. apply (lookup_weaken _ _ _ _ Hj) in Hs. congruence. Qed.

(** [N] is the number of indexes; what is stale at a time stays so. *)
Context (N : Z) (stale : Z → A → Prop).
Hypothesis HN : 0 < N.
Hypothesis Hstale : ∀ lo hi i, lo ≤ hi → stale lo i → stale hi i.

(** The index at [pos] was looked at, from time [lo] to [hi]. *)
Definition looked_at (pos lo hi : Z) g g' : Prop :=
  purged g g' (stale hi) ∧
  ∀ u i, g !! u = Some i → u mod N = pos → stale lo i → g' !! u = None.

(** [n] indexes from [pos] on were. *)
Definition swept (n : nat) (pos lo hi : Z) g g' : Prop :=
  purged g g' (stale hi) ∧
  ∀ u i, g !! u = Some i → stale lo i → (u mod N - pos) mod N < Z.of_nat n → g' !! u = None.

Lemma swept_O pos lo hi g : swept 0 pos lo hi g g.
Proof.
  split; [apply purged_refl|]. intros u i _ _ Hu.
  pose proof (Z.mod_pos_bound (u mod N - pos) N HN). lia.
Qed.

Lemma swept_S n pos lo mid hi g g1 g2 :
  lo ≤ mid ≤ hi → 0 ≤ pos < N → looked_at pos lo mid g g1 → swept n ((pos + 1) mod N) mid hi g1 g2 →
  swept (S n) pos lo hi g g2.
Proof.
  intros Ht Hpos [Hp1 Hd1] [Hp2 Hd2]. split; [split; [trans g1; [apply Hp2|apply Hp1]|]|].
  - intros u i Hi. destruct (proj2 Hp1 u i Hi) as [Hi1|]; [by apply (proj2 Hp2)|].
    right. apply (Hstale mid); [lia|done].
  - intros u i Hi Hst Hu. destruct (g1 !! u) as [i1|] eqn:Hi1; [|by eapply purged_none].
    pose proof (purged_same _ _ _ _ _ _ Hp1 Hi Hi1) as ->.
    apply (Hd2 u i Hi1); [apply (Hstale lo); [lia|done]|].
    assert ((u mod N - pos) mod N ≠ 0) as Hne; [|rewrite mod_step by done; lia].
    intros H0. assert (u mod N = pos) as Hub; [|specialize (Hd1 u i Hi Hub Hst); congruence].
    pose proof (Z.mod_pos_bound u N HN). destruct (decide (pos ≤ u mod N)).
    + rewrite Z.mod_small in H0; lia.
    + rewrite <- (Z.mod_add _ 1), Z.mod_small in H0; lia.
Qed.

(** After a whole round. *)
Lemma swept_all pos lo hi g g' :
  swept (Z.to_nat N) pos lo hi g g' →
  g' ⊆ g ∧ (∀ u i, g !! u = Some i → stale lo i → g' !! u = None) ∧
  (∀ u i, g !! u = Some i → g' !! u = None → stale hi i).
Proof.
  intros [[Hsub Hp] Hd]. split_and!; [done| |].
  - intros u i Hi Hst. apply (Hd u i Hi Hst). rewrite Z2Nat.id by lia. apply Z.mod_pos_bound. lia.
  - intros u i Hi Hn. destruct (Hp u i Hi) as [?|?]; [congruence|done].
Qed.
End sweep.
