(* ===== verification/Kernel.v ===== *)
(** The operating system as the daemons use it: system calls as functions on a
    kernel state, which the development never defines.  [Kernel] lists the
    calls with what they return, [KernelLaws] states what the code relies on
    of sockets: each is a pair of byte streams.  [Sim] is one concrete kernel,
    with which the witnesses run the code. *)
From stdpp Require Import gmap.
From S2P Require Import Prelude.

(** Calls return the kernel afterwards, the C return value, and where the code
    looks at it, [errno] or the data returned. *)
Class Kernel (K : Type) : Type := {
  k_read : K → Z → Z → K * Z * Z * list Z;          (** fd, length: ret, errno, bytes *)
  k_write : K → Z → list Z → K * Z * Z;             (** fd, bytes: ret, errno *)
  k_close : K → Z → K;
  k_socket : K → Z → K * Z;                         (** type: fd *)
  k_setsockopt : K → Z → Z → K * Z;                 (** fd, option: ret *)
  k_bind : K → Z → Z → Z → K * Z;                   (** fd, address, port: ret *)
  k_listen : K → Z → K * Z;
  k_connect : K → Z → Z → Z → K * Z;                (** fd, address, port: ret *)
  k_getsockname : K → Z → K * Z * (Z * Z);
  k_accept : K → Z → K * Z * (Z * Z);               (** fd: ret, peer *)
  k_fcntl : K → Z → Z → Z → K * Z;                  (** fd, command, argument: ret *)
  k_epoll_ctl : K → Z → Z → Z → Z → K * Z;          (** op, fd, events, data: ret *)
  k_recvfrom : K → Z → Z → K * Z * list Z;          (** fd, length: ret, bytes *)
  k_sendto : K → Z → list Z → Z → Z → K * Z;        (** fd, bytes, address, port: ret *)
  k_time : K → K * Z;
  k_rand : K → K * Z;
}.

Definition EAGAIN : Z := 11.
Definition EWOULDBLOCK : Z := 11.
Definition SOCK_STREAM : Z := 1.
Definition SOCK_DGRAM : Z := 2.
Definition SO_REUSEADDR : Z := 2.
Definition SO_RCVTIMEO : Z := 20.
Definition F_GETFL : Z := 3.
Definition F_SETFL : Z := 4.
Definition O_NONBLOCK : Z := 2048.
Definition EPOLL_CTL_ADD : Z := 1.
Definition EPOLL_CTL_DEL : Z := 2.
Definition EPOLL_CTL_MOD : Z := 3.
Definition EPOLLIN : Z := 1.
Definition EPOLLOUT : Z := 4.
Definition EPOLLERR : Z := 8.
Definition EPOLLHUP : Z := 16.

(** [k_out k fd] is what [fd] has accepted for sending, [k_in k fd] what is
    still to be read from it. *)
Class KernelLaws (K : Type) `{Kernel K} : Type := {
  k_out : K → Z → list Z;
  k_in : K → Z → list Z;
  k_write_law k fd d k' r e :
    k_write k fd d = (k', r, e) →
    r ≤ zlen d ∧ k_out k' fd = k_out k fd ++ take (Z.to_nat r) d ∧
    (∀ x, x ≠ fd → k_out k' x = k_out k x) ∧ (∀ x, k_in k' x = k_in k x);
  k_read_law k fd n k' r e d :
    k_read k fd n = (k', r, e, d) → 0 ≤ n →
    zlen d = Z.max 0 r ∧ r ≤ n ∧ k_in k fd = d ++ k_in k' fd ∧
    (∀ x, x ≠ fd → k_in k' x = k_in k x) ∧ (∀ x, k_out k' x = k_out k x);
  k_time_law k k' t :
    k_time k = (k', t) → (∀ x, k_in k' x = k_in k x) ∧ (∀ x, k_out k' x = k_out k x);
  k_epoll_law k op fd ev c k' r :
    k_epoll_ctl k op fd ev c = (k', r) →
    (∀ x, k_in k' x = k_in k x) ∧ (∀ x, k_out k' x = k_out k x);
  k_rand_law k k' r : k_rand k = (k', r) → 0 ≤ r < 2 ^ 31;
}.

(** The clock does not go backwards, whatever the daemons do. *)
Class KernelClock (K : Type) `{Kernel K} : Type := {
  k_now : K → Z;
  k_time_now k k' t : k_time k = (k', t) → k_now k ≤ t ≤ k_now k';
  k_epoll_now k op fd ev c k' r : k_epoll_ctl k op fd ev c = (k', r) → k_now k ≤ k_now k';
  k_close_now k fd : k_now k ≤ k_now (k_close k fd);
}.

(** * A kernel to run the code with

    Every socket call moves at most [s_chunk] bytes; a socket in [s_full]
    takes none. *)
Module Sim.
Record t : Type := mk {
  s_in : gmap Z (list Z);
  s_out : gmap Z (list Z);
  s_chunk : Z;
  s_full : list Z;
  s_fd : Z;
  s_now : Z;
  s_rand : Z;
}.

Definition stream (m : gmap Z (list Z)) (fd : Z) : list Z := default [] (m !! fd).

#[global] Instance kernel : Kernel t := {
  k_read k fd n :=
    let av := stream (s_in k) fd in
    let c := Z.max 0 (Z.min n (Z.min (s_chunk k) (zlen av))) in
    if c =? 0 then (k, (if n =? 0 then 0 else -1), EAGAIN, [])
    else (mk (<[fd := drop (Z.to_nat c) av]> (s_in k)) (s_out k) (s_chunk k) (s_full k)
             (s_fd k) (s_now k) (s_rand k), c, 0, take (Z.to_nat c) av);
  k_write k fd d :=
    let c := Z.max 0 (Z.min (s_chunk k) (zlen d)) in
    if bool_decide (fd ∈ s_full k) || (c =? 0) then (k, -1, EAGAIN)
    else (mk (s_in k) (<[fd := stream (s_out k) fd ++ take (Z.to_nat c) d]> (s_out k))
             (s_chunk k) (s_full k) (s_fd k) (s_now k) (s_rand k), c, 0);
  k_close k fd := k;
  k_socket k ty := (mk (s_in k) (s_out k) (s_chunk k) (s_full k)
                       (s_fd k + 1) (s_now k) (s_rand k), s_fd k);
  k_setsockopt k fd o := (k, 0);
  k_bind k fd a p := (k, 0);
  k_listen k fd := (k, 0);
  k_connect k fd a p := (k, 0);
  k_getsockname k fd := (k, 0, (0, 0));
  k_accept k fd := (mk (s_in k) (s_out k) (s_chunk k) (s_full k)
                       (s_fd k + 1) (s_now k) (s_rand k), s_fd k, (0, 0));
  k_fcntl k fd c a := (k, 0);
  k_epoll_ctl k op fd ev c := (k, 0);
  k_recvfrom k fd n :=
    let d := take (Z.to_nat n) (stream (s_in k) fd) in
    (mk (<[fd := []]> (s_in k)) (s_out k) (s_chunk k) (s_full k)
        (s_fd k) (s_now k) (s_rand k), zlen d, d);
  k_sendto k fd d a p :=
    (mk (s_in k) (<[a := stream (s_out k) a ++ d]> (s_out k)) (s_chunk k) (s_full k)
        (s_fd k) (s_now k) (s_rand k), zlen d);
  k_time k := (k, s_now k);
  k_rand k := (k, s_rand k mod 2 ^ 31);
}.

Lemma stream_insert m fd x d : stream (<[fd := d]> m) x = if decide (x = fd) then d else stream m x.
Proof.
  unfold stream. destruct (decide (x = fd)) as [->|].
  - by rewrite lookup_insert_eq.
  - by rewrite lookup_insert_ne by done.
Qed.

Lemma drop_take_stream (l : list Z) n : take n l ++ drop n l = l.
Proof. apply take_drop. Qed.

#[global] Program Instance laws : KernelLaws t := {
  k_out k := stream (s_out k);
  k_in k := stream (s_in k);
}.
Next Obligation.
  intros k fd d k' r e. cbn -[Z.min Z.max Z.eqb]. intros Hw.
  pose proof (zlen_nonneg d).
  destruct (bool_decide _ || _) eqn:E; injection Hw as <- <- <-.
  { cbn. rewrite take_0, app_nil_r. split_and!; auto; lia. }
  apply orb_false_iff in E as [_ E%Z.eqb_neq].
  cbn. split_and!; [lia| | |done].
  - by rewrite stream_insert, decide_True.
  - intros x ?. by rewrite stream_insert, decide_False.
Qed.
Next Obligation.
  intros k fd n k' r e d. cbn -[Z.min Z.max Z.eqb]. intros Hr Hn.
  destruct (Z.max 0 _ =? 0) eqn:E; injection Hr as <- <- <- <-.
  { unfold zlen. cbn -[Z.max]. destruct (Z.eqb_spec n 0); split_and!; auto; lia. }
  apply Z.eqb_neq in E. cbn -[Z.min Z.max].
  pose proof (zlen_nonneg (stream (s_in k) fd)).
  split_and!; [rewrite zlen_take by lia; lia|lia| | |done].
  - by rewrite stream_insert, decide_True, take_drop.
  - intros x ?. by rewrite stream_insert, decide_False.
Qed.
Next Obligation. intros k k' t [= <- <-]. done. Qed.
Next Obligation. intros k op fd ev c k' r [= <- <-]. done. Qed.
Next Obligation. intros k k' r [= <- <-]. apply Z.mod_pos_bound. lia. Qed.

#[global] Program Instance clock : KernelClock t := { k_now := s_now }.
Next Obligation. intros k k' t [= <- <-]. lia. Qed.
Next Obligation. intros k op fd ev c k' r [= <- <-]. lia. Qed.
Next Obligation. intros k fd. cbn. lia. Qed.
End Sim.
