(* ===== verification/ConnInfo.v ===== *)
(** One TCP connection of the bus ([CConnInfo] of bus/bus.cpp): a socket with
    the bytes read but not yet processed and the bytes still to be sent. *)
From S2P Require Import Prelude Kernel.

Definition XY_MAXBUFF_LEN : Z := 2048000.
Definition XY_PKG_MAX_LEN : Z := 2048000.

Module CConnInfo.

(** Addresses are an IP and a port, as [sockaddr_in] holds them. *)
Record t : Type := mk {
  m_ConnPos : Z; m_SockID : Z; m_RemoteAddr : Z * Z; m_LocalAddr : Z * Z;
  m_LastActTime : Z; m_RemainSendData : list Z; m_RemainRecvData : list Z }.

Definition set_time (c : t) (now : Z) : t :=
  mk (m_ConnPos c) (m_SockID c) (m_RemoteAddr c) (m_LocalAddr c) now
     (m_RemainSendData c) (m_RemainRecvData c).
Definition set_send (c : t) (d : list Z) : t :=
  mk (m_ConnPos c) (m_SockID c) (m_RemoteAddr c) (m_LocalAddr c) (m_LastActTime c)
     d (m_RemainRecvData c).
Definition set_recv (c : t) (d : list Z) : t :=
  mk (m_ConnPos c) (m_SockID c) (m_RemoteAddr c) (m_LocalAddr c) (m_LastActTime c)
     (m_RemainSendData c) d.

Section operations.
Context {K : Type} `{Kernel K}.
Implicit Types (k : K) (c : t).

(** The constructor. *)
Definition New k (ConnPos SockID : Z) (pRemoteAddr pLocalAddr : Z * Z) : K * t :=
  let '(k, now) := k_time k in
  (k, mk ConnPos SockID pRemoteAddr pLocalAddr now [] []).

Definition empty (d : list Z) : bool := match d with [] => true | _ => false end.

Definition would_block (errno : Z) : bool := (errno =? EAGAIN) || (errno =? EWOULDBLOCK).

(** The kept bytes put in front of what was read into [pBuff]. *)
Definition PrependRemain c (pBuff : list Z) (Len : Z) : outcome (t * list Z * Z) :=
  if negb (empty (m_RemainRecvData c)) then
    b ← mwrite pBuff 0 (m_RemainRecvData c);
    Ok (set_recv c [], b, u32 (Len + zlen (m_RemainRecvData c)))
  else Ok (c, pBuff, Len).

(** The kernel, the connection, the buffer, [*pLen] and the result. *)
Definition Recv k c (pBuff : list Z) (pLen : Z) : outcome (K * t * list Z * Z * Z) :=
  let remain := zlen (m_RemainRecvData c) in
  if negb (empty (m_RemainRecvData c)) && (XY_MAXBUFF_LEN <? remain)
  then Ok (k, c, pBuff, pLen, -1)
  else
    let '(pos, RecvBuffLen) :=
      if negb (empty (m_RemainRecvData c)) then (remain, u32 (pLen - remain))
      else (0, pLen) in
    let '(k, RecvBytes, errno, d) := k_read k (m_SockID c) RecvBuffLen in
    b ← mwrite pBuff pos d;
    if 0 <? RecvBytes then
      let '(k, now) := k_time k in
      '(c, b, len) ← PrependRemain (set_time c now) b RecvBytes;
      Ok (k, c, b, len, 0)
    else if RecvBytes =? 0 then Ok (k, c, b, pLen, 1)
    else if would_block errno then
      '(c, b, len) ← PrependRemain c b 0;
      Ok (k, c, b, len, 0)
    else Ok (k, c, b, pLen, -1).

(** The second half of [Send]: the new bytes, once nothing is left over. *)
Definition SendNew k c (d : list Z) : K * t * Z :=
  let '(k, WriteBytes, errno) := k_write k (m_SockID c) d in
  if 0 <? WriteBytes then
    let '(k, now) := k_time k in (k, set_time c now, WriteBytes)
  else if would_block errno then (k, c, 0)
  else (k, c, -1).

(** [pBuff] points at offset [off] of a buffer. *)
Definition Send k c (pBuff : list Z) (off Len : Z) : outcome (K * t * Z) :=
  d ← mread pBuff off Len;
  if negb (empty (m_RemainSendData c)) then
    let rest := m_RemainSendData c in
    let '(k, WriteBytes, errno) := k_write k (m_SockID c) rest in
    if (0 <? WriteBytes) && (WriteBytes <? i32 (zlen rest)) then
      let '(k, now) := k_time k in
      Ok (k, set_send (set_time c now) (drop (Z.to_nat WriteBytes) rest), 0)
    else if WriteBytes =? i32 (zlen rest) then Ok (SendNew k (set_send c []) d)
    else if WriteBytes <=? 0 then
      if would_block errno then Ok (k, c, 0) else Ok (k, c, -1)
    else Ok (SendNew k c d)
  else Ok (SendNew k c d).

Definition AddRecvData c (pBuff : list Z) (off Len : Z) : outcome (t * Z) :=
  d ← mread pBuff off Len;
  if negb (empty (m_RemainRecvData c)) then
    if XY_MAXBUFF_LEN <? zlen (m_RemainRecvData c) + Len then Ok (c, -1)
    else Ok (set_recv c (m_RemainRecvData c ++ d), 0)
  else if XY_MAXBUFF_LEN <? Len then Ok (c, -1)
  else Ok (set_recv c d, 0).

Definition AddSendData c (pBuff : list Z) (off Len : Z) : outcome (t * Z) :=
  d ← mread pBuff off Len;
  if negb (empty (m_RemainSendData c)) then
    if XY_MAXBUFF_LEN <? zlen (m_RemainSendData c) + Len then Ok (c, -1)
    else Ok (set_send c (m_RemainSendData c ++ d), 0)
  else if XY_MAXBUFF_LEN <? Len then Ok (c, -1)
  else Ok (set_send c d, 0).

Definition SendRemainData k c : K * t * Z :=
  let rest := m_RemainSendData c in
  if negb (empty rest) then
    let '(k, WriteBytes, errno) := k_write k (m_SockID c) rest in
    if (0 <? WriteBytes) && (WriteBytes <? i32 (zlen rest)) then
      let '(k, now) := k_time k in
      (k, set_send (set_time c now) (drop (Z.to_nat WriteBytes) rest), 1)
    else if WriteBytes =? i32 (zlen rest) then (k, set_send c [], 0)
    else if WriteBytes <=? 0 then
      if would_block errno then (k, c, 1) else (k, c, -1)
    else (k, c, 0)
  else (k, c, 0).

(** What [CBus::Send2Cluster] does with a message of [Len] bytes: send what
    the socket takes and keep the rest.  0: all sent, 1: the rest was kept,
    -2: it could not be kept, -3: the socket failed. *)
Definition SendOrKeep k c (pSendBuff : list Z) (SendBuffLen : Z) : outcome (K * t * Z) :=
  '(k, c, Ret2) ← Send k c pSendBuff 0 SendBuffLen;
  if (0 <=? Ret2) && (Ret2 <? SendBuffLen) then
    '(c, Ret3) ← AddSendData c pSendBuff Ret2 (SendBuffLen - Ret2);
    if negb (Ret3 =? 0) then Ok (k, c, -2) else Ok (k, c, 1)
  else if Ret2 <? 0 then Ok (k, c, -3)
  else Ok (k, c, 0).

End operations.

(** The life of a connection as the event loop drives it, up to its release:
    messages sent, and flushes when the socket is writable. *)
Inductive conn_op : Type :=
  | OpSend (d : list Z)
  | OpFlush.

Fixpoint conn_run {K} `{Kernel K} (k : K) (c : t) (ops : list conn_op)
    : outcome (K * t * bool) :=
  match ops with
  | [] => Ok (k, c, true)
  | OpSend d :: ops =>
      '(k, c, r) ← SendOrKeep k c d (zlen d);
      if r <? 0 then Ok (k, c, false) else conn_run k c ops
  | OpFlush :: ops =>
      let '(k, c, r) := SendRemainData k c in
      if r <? 0 then Ok (k, c, false) else conn_run k c ops
  end.

#[export] Instance conn_eq_dec : EqDecision t.
Proof. solve_decision. Defined.
End CConnInfo.

Import CConnInfo.

(** Nothing kept is longer than a receive buffer. *)
Record conn_wf (c : CConnInfo.t) : Prop := {
  wf_send : zlen (m_RemainSendData c) ≤ XY_MAXBUFF_LEN;
  wf_recv : zlen (m_RemainRecvData c) ≤ XY_MAXBUFF_LEN;
}.

(** What a call on a connection leaves alone. *)
Record same_conn (c c' : CConnInfo.t) : Prop := {
  same_pos : m_ConnPos c' = m_ConnPos c;
  same_sock : m_SockID c' = m_SockID c;
  same_remote : m_RemoteAddr c' = m_RemoteAddr c;
  same_local : m_LocalAddr c' = m_LocalAddr c;
}.

#[export] Instance same_conn_refl : Reflexive same_conn.
Proof. by constructor. Qed.
#[export] Instance same_conn_trans : Transitive same_conn.
Proof. intros ??? [] []. constructor; congruence. Qed.

Section facts.
Context {K : Type} `{KernelLaws K}.
Implicit Types (k : K) (c : CConnInfo.t).

(** [k'] differs from [k] on the socket [fd] at most. *)
Definition only (fd : Z) k k' : Prop :=
  ∀ x, x ≠ fd → k_in k' x = k_in k x ∧ k_out k' x = k_out k x.

#[export] Instance only_refl fd : Reflexive (only fd).
Proof. by intros k x. Qed.
#[export] Instance only_trans fd : Transitive (only fd).
Proof. intros k1 k2 k3 H1 H2 x ?. destruct (H1 x), (H2 x); auto. split; congruence. Qed.

Lemma empty_spec d : empty d = true ↔ d = [].
Proof. by destruct d. Qed.

Lemma empty_false d : d ≠ [] → empty d = false.
Proof. by destruct d. Qed.

Lemma XY_MAXBUFF_LEN_int : i32 XY_MAXBUFF_LEN = XY_MAXBUFF_LEN.
Proof. done. Qed.

Lemma would_block_EAGAIN : would_block EAGAIN = true.
Proof. done. Qed.

(** The bytes that are on their way out: accepted by the kernel, or kept. *)
Definition outgoing k c : list Z := k_out k (m_SockID c) ++ m_RemainSendData c.

Lemma SendNew_stream k c d k' c' r :
  SendNew k c d = (k', c', r) →
  -1 ≤ r ≤ zlen d ∧ same_conn c c' ∧ only (m_SockID c) k k' ∧
  m_RemainSendData c' = m_RemainSendData c ∧ m_RemainRecvData c' = m_RemainRecvData c ∧
  k_in k' (m_SockID c) = k_in k (m_SockID c) ∧
  k_out k' (m_SockID c) = k_out k (m_SockID c) ++ take (Z.to_nat r) d.
Proof.
  unfold SendNew. destruct (k_write k (m_SockID c) d) as [[k1 w] e] eqn:Hw.
  pose proof (zlen_nonneg d).
  apply k_write_law in Hw as (Hr & Ho & Hx & Hi).
  assert (w ≤ 0 → take (Z.to_nat w) d = []) as Ht.
  { intros. by replace (Z.to_nat w) with 0%nat by lia. }
  destruct (Z.ltb_spec 0 w).
  - destruct (k_time k1) as [k2 now] eqn:Et. apply k_time_law in Et as [Hi2 Ho2].
    intros [= <- <- <-]. split_and!; try done; try lia.
    + intros x Hne. rewrite Hi2, Ho2, Hi, Hx; done.
    + by rewrite Hi2, Hi.
    + by rewrite Ho2, Ho.
  - assert (k_out k1 (m_SockID c) = k_out k (m_SockID c)) as Ho1.
    { rewrite Ho, Ht by lia. apply app_nil_r. }
    destruct (would_block e); intros [= <- <- <-]; split_and!; try done; try lia.
    all: try (intros x Hne; rewrite Hi, Hx; done).
    all: by rewrite ?Hi, ?Ho1, ?app_nil_r.
Qed.

(** Any of the bytes given to [write], from the front, may be accepted. *)
Lemma write_rest k c k1 w e :
  conn_wf c → m_RemainSendData c ≠ [] →
  k_write k (m_SockID c) (m_RemainSendData c) = (k1, w, e) →
  i32 (zlen (m_RemainSendData c)) = zlen (m_RemainSendData c) ∧
  0 < zlen (m_RemainSendData c) ∧ w ≤ zlen (m_RemainSendData c) ∧
  only (m_SockID c) k k1 ∧ k_in k1 (m_SockID c) = k_in k (m_SockID c) ∧
  (∀ k2, (∀ x, k_out k2 x = k_out k1 x) →
    k_out k2 (m_SockID c) ++ drop (Z.to_nat w) (m_RemainSendData c) = outgoing k c).
Proof.
  intros [Hs _] Hne Hw. apply k_write_law in Hw as (Hr & Ho & Hx & Hi).
  assert (0 < zlen (m_RemainSendData c)).
  { destruct (m_RemainSendData c); [done|]. rewrite zlen_cons.
    pose proof (zlen_nonneg l). lia. }
  split_and!; [|done..| | |].
  - apply i32_small. unfold XY_MAXBUFF_LEN in Hs. lia.
  - intros x Hn. rewrite Hi, Hx; done.
  - apply Hi.
  - intros k2 ->. unfold outgoing. by rewrite Ho, <- app_assoc, take_drop.
Qed.

Lemma Send_ok k c pBuff off len d :
  conn_wf c → mread pBuff off len = Ok d →
  ∃ k' c' r, Send k c pBuff off len = Ok (k', c', r) ∧
    -1 ≤ r ≤ len ∧ same_conn c c' ∧ only (m_SockID c) k k' ∧ conn_wf c' ∧
    m_RemainRecvData c' = m_RemainRecvData c ∧
    outgoing k' c' = outgoing k c ++ take (Z.to_nat r) d ∧
    (0 < r → m_RemainSendData c' = []).
Proof.
  intros Hwf Hd. pose proof (mread_zlen _ _ _ _ Hd) as Hl. pose proof (zlen_nonneg d).
  unfold Send. rewrite Hd. cbn [mbind outcome_bind].
  assert (∀ k0 c0, conn_wf c0 → m_RemainSendData c0 = [] → same_conn c c0 →
    m_RemainRecvData c0 = m_RemainRecvData c → only (m_SockID c) k k0 →
    k_out k0 (m_SockID c) = outgoing k c →
    ∃ k' c' r, Ok (SendNew k0 c0 d) = Ok (k', c', r) ∧
    -1 ≤ r ≤ len ∧ same_conn c c' ∧ only (m_SockID c) k k' ∧ conn_wf c' ∧
    m_RemainRecvData c' = m_RemainRecvData c ∧
    outgoing k' c' = outgoing k c ++ take (Z.to_nat r) d ∧
    (0 < r → m_RemainSendData c' = [])) as Hnew.
  { intros k0 c0 Hwf0 He Hsame Hrecv Hon Ho.
    destruct (SendNew k0 c0 d) as [[k' c'] r] eqn:Es.
    apply SendNew_stream in Es as (Hr & Hsm & Hon' & Hrs & Hrr & _ & Hout).
    rewrite (same_sock _ _ Hsame) in *. exists k', c', r.
    split_and!; try done; try lia; try congruence.
    - by trans c0.
    - by trans k0.
    - destruct Hwf0. constructor; rewrite ?Hrs, ?Hrr; done.
    - unfold outgoing at 1. rewrite (same_sock _ _ Hsm), (same_sock _ _ Hsame), Hout, Ho, Hrs, He.
      by rewrite app_nil_r. }
  destruct (decide (m_RemainSendData c = [])) as [He|He].
  { rewrite (proj2 (empty_spec _) He). cbn [negb]. apply Hnew; try done. unfold outgoing. by rewrite He, app_nil_r. }
  rewrite (empty_false _ He). cbn [negb].
  destruct (k_write k (m_SockID c) (m_RemainSendData c)) as [[k1 w] e] eqn:Hw.
  apply write_rest in Hw as (Hi32 & Hpos & Hle & Hon & Hi & Hout); [|done..].
  rewrite Hi32.
  destruct (Z.ltb_spec 0 w); cbn [andb]; [destruct (Z.ltb_spec w (zlen (m_RemainSendData c)))|].
  - destruct (k_time k1) as [k2 now] eqn:Et. apply k_time_law in Et as [Hi2 Ho2].
    eexists _, _, _. split; [done|]. split_and!; try done; try lia.
    + intros x Hx. destruct (Hon x Hx). by rewrite Hi2, Ho2.
    + destruct Hwf. constructor; cbn; [|done]. rewrite zlen_drop by lia. lia.
    + cbn. rewrite app_nil_r. by apply Hout.
  - rewrite (proj2 (Z.eqb_eq _ _)) by lia. apply Hnew; try done.
    + destruct Hwf. constructor; cbn; [|done]. done.
    + rewrite <- (Hout k1 (λ _, eq_refl)), drop_ge by (unfold zlen in *; lia).
      by rewrite app_nil_r.
  - rewrite (proj2 (Z.eqb_neq _ _)), (proj2 (Z.leb_le _ _)) by lia.
    specialize (Hout k1 (λ _, eq_refl)).
    replace (Z.to_nat w) with 0%nat in Hout by lia. rewrite drop_0 in Hout.
    destruct (would_block e); eexists _, _, _; (split; [done|]);
      split_and!; try done; try lia; by rewrite app_nil_r.
Qed.

Lemma AddSendData_ok c pBuff off len d :
  mread pBuff off len = Ok d →
  AddSendData c pBuff off len =
    if XY_MAXBUFF_LEN <? zlen (m_RemainSendData c) + len then Ok (c, -1)
    else Ok (set_send c (m_RemainSendData c ++ d), 0).
Proof.
  intros Hd. unfold AddSendData. rewrite Hd. cbn.
  destruct (m_RemainSendData c) eqn:E; cbn [empty negb]; [|done]. done.
Qed.

Lemma AddRecvData_ok c pBuff off len d :
  mread pBuff off len = Ok d →
  AddRecvData c pBuff off len =
    if XY_MAXBUFF_LEN <? zlen (m_RemainRecvData c) + len then Ok (c, -1)
    else Ok (set_recv c (m_RemainRecvData c ++ d), 0).
Proof.
  intros Hd. unfold AddRecvData. rewrite Hd. cbn.
  destruct (m_RemainRecvData c) eqn:E; cbn [empty negb]; [|done]. done.
Qed.

Lemma SendRemainData_ok k c k' c' r :
  conn_wf c → SendRemainData k c = (k', c', r) →
  same_conn c c' ∧ only (m_SockID c) k k' ∧ conn_wf c' ∧
  m_RemainRecvData c' = m_RemainRecvData c ∧ outgoing k' c' = outgoing k c ∧
  (r = 0 ∨ r = 1 ∨ r = -1) ∧ (r = 0 ↔ m_RemainSendData c' = []).
Proof.
  intros Hwf. unfold SendRemainData.
  destruct (decide (m_RemainSendData c = [])) as [He|He].
  { rewrite (proj2 (empty_spec _) He). cbn [negb]. intros [= <- <- <-].
    split_and!; auto; done. }
  rewrite (empty_false _ He). cbn [negb].
  destruct (k_write k (m_SockID c) (m_RemainSendData c)) as [[k1 w] e] eqn:Hw.
  apply write_rest in Hw as (Hi32 & Hpos & Hle & Hon & Hi & Hout); [|done..].
  rewrite Hi32.
  destruct (Z.ltb_spec 0 w); cbn [andb]; [destruct (Z.ltb_spec w (zlen (m_RemainSendData c)))|].
  - destruct (k_time k1) as [k2 now] eqn:Et. apply k_time_law in Et as [Hi2 Ho2].
    intros [= <- <- <-]. split_and!; try done; auto.
    + intros x Hx. destruct (Hon x Hx). by rewrite Hi2, Ho2.
    + destruct Hwf. constructor; cbn; [|done]. rewrite zlen_drop by lia. lia.
    + by apply Hout.
    + split; [done|]. cbn. intros Hd%(f_equal zlen). rewrite zlen_drop in Hd by lia. change (zlen []) with 0 in Hd. lia.
  - rewrite (proj2 (Z.eqb_eq _ _)) by lia. intros [= <- <- <-]. split_and!; try done; auto.
    + destruct Hwf. by constructor.
    + unfold outgoing at 1. cbn. rewrite <- (Hout k1 (λ _, eq_refl)), drop_ge; [done|].
      unfold zlen in *. lia.
  - rewrite (proj2 (Z.eqb_neq _ _)), (proj2 (Z.leb_le _ _)) by lia.
    specialize (Hout k1 (λ _, eq_refl)).
    replace (Z.to_nat w) with 0%nat in Hout by lia. rewrite drop_0 in Hout.
    destruct (would_block e); intros [= <- <- <-]; split_and!; try done; auto.
Qed.

Lemma PrependRemain_ok c (m d : list Z) n :
  conn_wf c → zlen d = n → 0 ≤ zlen m ≤ 2 ^ 31 →
  zlen (m_RemainRecvData c) + n ≤ zlen m →
  mread m (zlen (m_RemainRecvData c)) n = Ok d →
  ∃ b, PrependRemain c m n = Ok (set_recv c [], b, zlen (m_RemainRecvData c) + n) ∧
    zlen b = zlen m ∧
    mread b 0 (zlen (m_RemainRecvData c) + n) = Ok (m_RemainRecvData c ++ d).
Proof.
  intros Hwf Hd Hm Hfit Hr. unfold PrependRemain.
  pose proof (zlen_nonneg d). pose proof (zlen_nonneg (m_RemainRecvData c)).
  destruct (decide (m_RemainRecvData c = [])) as [He|He].
  { rewrite (proj2 (empty_spec _) He). cbn [negb].
    rewrite He in *. exists m. destruct c. cbn in *. subst.
    rewrite Z.add_0_l. done. }
  rewrite (empty_false _ He). cbn [negb].
  set (old := m_RemainRecvData c) in *.
  destruct (split_at m (zlen old)) as (m1 & m2 & -> & Hm1 & Hm2); [lia|].
  rewrite zlen_app in *.
  assert (mwrite (m1 ++ m2) 0 old = Ok (old ++ m2)) as ->.
  { rewrite mwrite_ok by (rewrite ?zlen_app; lia). rewrite take_0, drop_app_length'; [done|].
    unfold zlen in *. lia. }
  cbn. rewrite u32_small by lia. exists (old ++ m2).
  split_and!; [by rewrite (Z.add_comm n)|rewrite zlen_app; lia|].
  rewrite mread_ok in Hr by (rewrite ?zlen_app; lia). injection Hr as Hr.
  rewrite mread_ok by (rewrite ?zlen_app; lia). rewrite drop_0.
  rewrite drop_app_length' in Hr by (unfold zlen in *; lia).
  rewrite Z2Nat.inj_add by lia. rewrite take_app_add'; [by rewrite Hr|].
  unfold zlen. lia.
Qed.

Lemma Recv_ok k c (m : list Z) :
  conn_wf c → zlen m = XY_MAXBUFF_LEN →
  ∃ k' c' m' n r, Recv k c m XY_MAXBUFF_LEN = Ok (k', c', m', n, r) ∧
    same_conn c c' ∧ only (m_SockID c) k k' ∧ conn_wf c' ∧ zlen m' = zlen m ∧
    m_RemainSendData c' = m_RemainSendData c ∧ 0 ≤ n ≤ XY_MAXBUFF_LEN ∧
    k_out k' (m_SockID c) = k_out k (m_SockID c) ∧
    (r = 0 → m_RemainRecvData c' = [] ∧ ∃ d,
       mread m' 0 n = Ok (m_RemainRecvData c ++ d) ∧
       k_in k (m_SockID c) = d ++ k_in k' (m_SockID c)) ∧
    (r ≠ 0 → (r = 1 ∨ r = -1) ∧ m_RemainRecvData c' = m_RemainRecvData c ∧
       k_in k' (m_SockID c) = k_in k (m_SockID c)).
Proof.
  intros Hwf Hm. pose proof (wf_recv _ Hwf) as Hrem. unfold Recv.
  pose proof (zlen_nonneg (m_RemainRecvData c)) as Hnn.
  rewrite (proj2 (Z.ltb_ge _ _)), andb_false_r by lia.
  set (old := zlen (m_RemainRecvData c)) in *.
  assert ((if negb (empty (m_RemainRecvData c)) then (old, u32 (XY_MAXBUFF_LEN - old))
           else (0, XY_MAXBUFF_LEN)) = (old, XY_MAXBUFF_LEN - old)) as ->.
  { destruct (decide (m_RemainRecvData c = [])) as [He|He].
    - rewrite (proj2 (empty_spec _) He). unfold old. rewrite He. by rewrite zlen_nil, Z.sub_0_r.
    - rewrite (empty_false _ He). cbn [negb]. rewrite u32_small; [done|].
      unfold XY_MAXBUFF_LEN in *. lia. }
  destruct (k_read k (m_SockID c) (XY_MAXBUFF_LEN - old)) as [[[k1 r] e] d] eqn:Hr.
  apply k_read_law in Hr as (Hd & Hle & Hin & Hix & Hox); [|lia].
  destruct (mwrite_total m d old) as (b & Hb & Hbl); [lia|lia|]. rewrite Hb. cbn [mbind outcome_bind].
  assert (only (m_SockID c) k k1) as Hon by (intros x Hx; by rewrite Hix, Hox).
  assert (∀ c0, conn_wf c0 → m_RemainRecvData c0 = m_RemainRecvData c →
    ∃ b', PrependRemain c0 b (zlen d) = Ok (set_recv c0 [], b', old + zlen d) ∧
      zlen b' = zlen m ∧ mread b' 0 (old + zlen d) = Ok (m_RemainRecvData c ++ d)) as Hpre.
  { intros c0 Hwf0 Hc0. destruct (PrependRemain_ok c0 b d (zlen d)) as (b' & -> & Hb' & Hrd);
      rewrite ?Hc0 in *; try done.
    - rewrite Hbl, Hm. done.
    - fold old. lia.
    - by eapply mread_mwrite.
    - exists b'. split_and!; [done|lia|done]. }
  destruct (Z.ltb_spec 0 r).
  - destruct (k_time k1) as [k2 now] eqn:Et. apply k_time_law in Et as [Hi2 Ho2].
    destruct (Hpre (set_time c now)) as (b' & Hb' & Hl' & Hrd); [by destruct Hwf|done|].
    rewrite Hd, Z.max_r in Hb', Hrd by lia. rewrite Hb'. cbn [mbind outcome_bind].
    eexists _, _, _, _, _. split; [done|]. split_and!; try done; try lia.
    + intros x Hx. destruct (Hon x Hx). by rewrite Hi2, Ho2.
    + destruct Hwf. constructor; cbn; done.
    + by rewrite Ho2, Hox.
    + intros _. split; [done|]. exists d. split; [done|]. by rewrite Hi2.
  - assert (d = []) as -> by (destruct d; [done|rewrite zlen_cons in Hd; pose proof (zlen_nonneg d); lia]).
    destruct (Z.eqb_spec r 0); [|destruct (would_block e)].
    + eexists _, _, _, _, _. split; [done|]. split_and!; try done; try lia. auto.
    + destruct (Hpre c) as (b' & Hb' & Hl' & Hrd); [done..|].
      rewrite zlen_nil in Hb', Hrd. rewrite Hb'. cbn [mbind outcome_bind].
      eexists _, _, _, _, _. split; [done|]. split_and!; try done; try lia.
      * destruct Hwf. constructor; cbn; done.
      * intros _. split; [done|]. by exists [].
    + eexists _, _, _, _, _. split; [done|]. split_and!; try done; try lia. auto.
Qed.

Lemma SendOrKeep_ok k c (m d : list Z) len :
  conn_wf c → mread m 0 len = Ok d →
  ∃ k' c' r, SendOrKeep k c m len = Ok (k', c', r) ∧
    same_conn c c' ∧ only (m_SockID c) k k' ∧ conn_wf c' ∧
    m_RemainRecvData c' = m_RemainRecvData c ∧
    (r = 0 ∨ r = 1 ∨ r = -2 ∨ r = -3) ∧
    (0 ≤ r → outgoing k' c' = outgoing k c ++ d) ∧
    (r = 0 → m_RemainSendData c' = [] ∨ d = []).
Proof.
  intros Hwf Hd. pose proof (mread_zlen _ _ _ _ Hd) as Hl. pose proof (zlen_nonneg d).
  destruct (Send_ok k c m 0 len d Hwf Hd) as (k1 & c1 & r & Hs & Hr & Hsm & Hon & Hwf1 & Hrv & Hout & Hz).
  unfold SendOrKeep. rewrite Hs. cbn [mbind outcome_bind].
  destruct (Z.leb_spec 0 r); cbn [andb]; [destruct (Z.ltb_spec r len)|].
  - destruct (mread_app m (take (Z.to_nat r) d) (drop (Z.to_nat r) d) 0 r (len - r)) as [_ Hrest];
      [lia..|rewrite zlen_take by lia; lia|rewrite take_drop, Zplus_minus; done|].
    rewrite (AddSendData_ok _ _ _ _ _ Hrest).
    destruct (Z.ltb_spec XY_MAXBUFF_LEN (zlen (m_RemainSendData c1) + (len - r))); cbn [mbind outcome_bind].
    + eexists _, _, _. split; [done|]. split_and!; try done; auto.
    + eexists _, _, _. split; [done|]. split_and!; try done; auto.
      * destruct Hsm. by constructor.
      * destruct Hwf1. constructor; cbn; [|done]. rewrite zlen_app, zlen_drop by lia. lia.
      * intros _. unfold outgoing at 1. cbn. unfold outgoing in Hout at 1.
        rewrite app_assoc, Hout, <- app_assoc, take_drop. done.
  - rewrite (proj2 (Z.ltb_ge _ _)) by lia. eexists _, _, _. split; [done|].
    rewrite take_ge in Hout by (unfold zlen in *; lia).
    split_and!; try done; auto. intros _. destruct (decide (0 < r)); [auto|].
    right. destruct d; [done|]. rewrite zlen_cons in *. pose proof (zlen_nonneg d). lia.
  - rewrite (proj2 (Z.ltb_lt _ _)) by lia. eexists _, _, _. split; [done|].
    split_and!; try done; auto.
Qed.

(** The messages of a history. *)
Definition sent_msgs (ops : list conn_op) : list Z :=
  concat ((λ o, match o with OpSend d => d | OpFlush => [] end) <$> ops).

Lemma conn_run_ok k c ops :
  conn_wf c →
  ∃ k' c' alive, conn_run k c ops = Ok (k', c', alive) ∧
    same_conn c c' ∧ only (m_SockID c) k k' ∧ conn_wf c' ∧
    (alive = true → outgoing k' c' = outgoing k c ++ sent_msgs ops).
Proof.
  revert k c. induction ops as [|[d|] ops IH]; intros k c Hwf; cbn [conn_run].
  - eexists _, _, _. split; [done|]. split_and!; try done. intros _. by rewrite app_nil_r.
  - destruct (SendOrKeep_ok k c d d (zlen d)) as (k1 & c1 & r & -> & Hs & Ho & Hw & _ & Hr & Hout & _);
      [done|apply mread_all|]. cbn [mbind outcome_bind].
    destruct (Z.ltb_spec r 0).
    { eexists _, _, _. split; [done|]. done. }
    destruct (IH k1 c1 Hw) as (k2 & c2 & al & -> & Hs2 & Ho2 & Hw2 & Hout2).
    eexists _, _, _. split; [done|]. split_and!; [by trans c1| |done|].
    + rewrite (same_sock _ _ Hs) in Ho2. by trans k1.
    + intros Ha. rewrite Hout2, Hout, <- app_assoc by (done || lia). done.
  - destruct (SendRemainData k c) as [[k1 c1] r] eqn:E.
    destruct (SendRemainData_ok k c k1 c1 r Hwf E) as (Hs & Ho & Hw & _ & Hout & Hr & _).
    destruct (Z.ltb_spec r 0).
    { eexists _, _, _. split; [done|]. done. }
    destruct (IH k1 c1 Hw) as (k2 & c2 & al & -> & Hs2 & Ho2 & Hw2 & Hout2).
    eexists _, _, _. split; [done|]. split_and!; [by trans c1| |done|].
    + rewrite (same_sock _ _ Hs) in Ho2. by trans k1.
    + intros Ha. by rewrite Hout2, Hout by done.
Qed.
End facts.

Section props.
Context {K : Type} `{KernelLaws K}.
Implicit Types (k : K) (c : CConnInfo.t).

(** C21: whatever messages are sent over a connection and whenever it is
    flushed, as long as no call fails the bytes the socket has accepted followed
    by the bytes still kept are the messages, whole and in order, even when
    the socket takes only part of what it is given.  No other socket is
    touched, and at most 2048000 bytes are kept. *)
Theorem conn_send_stream k c ops :
  conn_wf c →
  ∃ k' c' alive, conn_run k c ops = Ok (k', c', alive) ∧ conn_wf c' ∧
    only (m_SockID c) k k' ∧
    (alive = true →
     k_out k' (m_SockID c) ++ m_RemainSendData c'
     = k_out k (m_SockID c) ++ m_RemainSendData c ++ sent_msgs ops).
Proof.
  intros Hwf. destruct (conn_run_ok k c ops Hwf) as (k' & c' & al & Hr & Hs & Ho & Hw & Hout).
  exists k', c', al. split_and!; try done. intros Ha. specialize (Hout Ha).
  unfold outgoing in Hout. by rewrite (same_sock _ _ Hs), <- app_assoc in Hout.
Qed.

(** [SendRemainData] returns 0 exactly when nothing is left to send, 1
    when the socket would block, and loses no byte either way. *)
Theorem SendRemainData_flushes k c :
  conn_wf c →
  ∃ k' c' r, SendRemainData k c = (k', c', r) ∧ (r = 0 ∨ r = 1 ∨ r = -1) ∧
    (r = 0 ↔ m_RemainSendData c' = []) ∧
    k_out k' (m_SockID c) ++ m_RemainSendData c' = k_out k (m_SockID c) ++ m_RemainSendData c.
Proof.
  intros Hwf. destruct (SendRemainData k c) as [[k' c'] r] eqn:E.
  destruct (SendRemainData_ok k c k' c' r Hwf E) as (Hs & _ & _ & _ & Hout & Hr & Hz).
  exists k', c', r. split_and!; try done. unfold outgoing in Hout.
  by rewrite (same_sock _ _ Hs) in Hout.
Qed.

(** [Recv] into the 2048000-byte receive buffer never writes outside it;
    when it returns 0 the buffer starts with the bytes kept from earlier calls
    followed by the next bytes of the socket, and nothing is kept; otherwise
    nothing was read and what was kept stays. *)
Theorem Recv_stream k c m :
  conn_wf c → zlen m = XY_MAXBUFF_LEN →
  ∃ k' c' m' n r, Recv k c m XY_MAXBUFF_LEN = Ok (k', c', m', n, r) ∧
    0 ≤ n ≤ XY_MAXBUFF_LEN ∧ zlen m' = zlen m ∧
    (r = 0 → m_RemainRecvData c' = [] ∧ ∃ d,
       mread m' 0 n = Ok (m_RemainRecvData c ++ d) ∧
       k_in k (m_SockID c) = d ++ k_in k' (m_SockID c)) ∧
    (r ≠ 0 → (r = 1 ∨ r = -1) ∧ m_RemainRecvData c' = m_RemainRecvData c ∧
       k_in k' (m_SockID c) = k_in k (m_SockID c)).
Proof.
  intros Hwf Hm. destruct (Recv_ok k c m Hwf Hm)
    as (k' & c' & m' & n & r & Hr & _ & _ & _ & Hl & _ & Hn & _ & H1 & H2).
  by exists k', c', m', n, r.
Qed.

(** A connection whose kept bytes fill the receive buffer, as a peer
    announcing a longer package makes it, has no room to read into: the
    [read] of zero bytes returns 0 and [Recv] reports that the peer closed
    the connection, although its bytes are still waiting. *)
Theorem Recv_full_reports_closed k c m k1 e :
  zlen (m_RemainRecvData c) = XY_MAXBUFF_LEN → zlen m = XY_MAXBUFF_LEN →
  k_read k (m_SockID c) 0 = (k1, 0, e, []) →
  Recv k c m XY_MAXBUFF_LEN = Ok (k1, c, m, XY_MAXBUFF_LEN, 1).
Proof.
  intros Hr Hm Hk. unfold Recv. rewrite Hr, Z.ltb_irrefl, andb_false_r.
  assert (m_RemainRecvData c ≠ []) as He by (intros E; by rewrite E in Hr).
  rewrite (empty_false _ He). cbn [negb]. rewrite Z.sub_diag. change (u32 0) with 0.
  rewrite Hk, mwrite_ok by (rewrite ?Hm; done). cbn [app]. rewrite Nat.add_0_r, take_drop. done.
Qed.
End props.

Module ConnExample.
Definition k0 : Sim.t := Sim.mk {[7 := [10; 11; 12; 13; 14]]} ∅ 2 [] 8 1000 5.
Definition c0 : CConnInfo.t := mk 300001 7 (1, 2) (3, 4) 0 [1; 2; 3] [9].

Definition buf : list Z := replicate (Z.to_nat XY_MAXBUFF_LEN) 0.
Definition c1 : CConnInfo.t := mk 300001 7 (1, 2) (3, 4) 0 [] buf.
End ConnExample.

Section examples.
Import ConnExample.
Lemma c0_wf : conn_wf c0.
Proof. by constructor. Qed.

Lemma conn_send_stream_witness :
  ∃ k' c', conn_run k0 c0 [OpSend [4; 5]; OpFlush; OpSend [6; 7; 8]] = Ok (k', c', true) ∧
    m_RemainSendData c' = [8] ∧
    k_out k' 7 ++ m_RemainSendData c' = [1; 2; 3; 4; 5; 6; 7; 8].
Proof.
  destruct (conn_send_stream k0 c0 [OpSend [4; 5]; OpFlush; OpSend [6; 7; 8]] c0_wf)
    as (k' & c' & al & Hr & _ & _ & Hs).
  exists k', c'. vm_compute in Hr. injection Hr as <- <- <-. split_and!; [done..|].
  by apply Hs.
Defined.

Lemma SendRemainData_flushes_witness :
  ∃ k' c', SendRemainData k0 c0 = (k', c', 1) ∧ k_out k' 7 ++ m_RemainSendData c' = [1; 2; 3].
Proof.
  destruct (SendRemainData_flushes k0 c0 c0_wf) as (k' & c' & r & Hr & _ & _ & Hs).
  exists k', c'. vm_compute in Hr. injection Hr as <- <- <-. split; [done|]. apply Hs.
Defined.

Lemma zlen_buf : zlen buf = XY_MAXBUFF_LEN.
Proof. unfold buf. by rewrite zlen_replicate, Z2Nat.id. Qed.

Lemma Recv_stream_witness :
  ∃ k' c' m' n r, Recv k0 c0 buf XY_MAXBUFF_LEN = Ok (k', c', m', n, r) ∧
    (r = 0 → ∃ d, mread m' 0 n = Ok ([9] ++ d)).
Proof.
  destruct (Recv_stream k0 c0 buf c0_wf zlen_buf)
    as (k' & c' & m' & n & r & Hr & _ & _ & H0 & _).
  exists k', c', m', n, r. split; [done|]. intros [_ (d & Hd & _)]%H0. by exists d.
Defined.

Lemma Recv_full_reports_closed_witness :
  Recv k0 c1 buf XY_MAXBUFF_LEN = Ok (k0, c1, buf, XY_MAXBUFF_LEN, 1).
Proof. apply (Recv_full_reports_closed k0 c1 buf k0 EAGAIN zlen_buf zlen_buf). reflexivity. Defined.
End examples.
