(* ===== verification/BusState.v ===== *)
(** The state of the bus daemon ([CBus] of bus/bus.h) and the operations on
    its connections: accepting peers, connecting to other clusters, releasing. *)
From stdpp Require Import gmap sorting.
From S2P Require Import Prelude Fifo Wire Kernel ConnInfo.

(** Connection numbers: 100-149 listen on TCP, 150-199 on UDP, 200000-299999
    are connections to other clusters, from 300000 on those they opened. *)
Definition LISTEN_SOCK_CPOS_MIN : Z := 100.
Definition LISTEN_SOCK_CPOS_MAX : Z := 149.
Definition LISTEN_UDP_CPOS_MIN : Z := 150.
Definition LISTEN_UDP_CPOS_MAX : Z := 199.
Definition CLUSTER_SOCK_CPOS_MIN : Z := 200000.
Definition CLUSTER_SOCK_CPOS_MAX : Z := 299999.
Definition CLIENT_SOCK_CPOS_MIN : Z := 300000.
Definition SOMAXCONN : Z := 128.

Module ClusterInfo.
Record t : Type := mk {
  ClusterIP : Z; ClusterPort : Z; ClusterID : Z; SocketID : Z; ConnPos : Z }.
Definition init : t := mk 0 0 0 (-1) 0.
Definition set_conn (i : t) (sock pos : Z) : t :=
  mk (ClusterIP i) (ClusterPort i) (ClusterID i) sock pos.
End ClusterInfo.

Module ServerInfo.
Record t (Q : Type) : Type := mk {
  ClusterID : Z; GroupID : Z; Status : Z; QueueKey : Z; QueueSize : Z; pQueue : option Q }.
Arguments mk {Q}.
Arguments ClusterID {Q}.
Arguments GroupID {Q}.
Arguments Status {Q}.
Arguments QueueKey {Q}.
Arguments QueueSize {Q}.
Arguments pQueue {Q}.
Definition init {Q} : t Q := mk 0 0 0 0 0 None.
Definition set_status {Q} (i : t Q) (s : Z) : t Q :=
  mk (ClusterID i) (GroupID i) s (QueueKey i) (QueueSize i) (pQueue i).
Definition set_queue {Q} (i : t Q) (q : Q) : t Q :=
  mk (ClusterID i) (GroupID i) (Status i) (QueueKey i) (QueueSize i) (Some q).
End ServerInfo.

(** The keys of a [std::map] in the order an iterator visits them. *)
Definition map_keys {A} (m : gmap Z A) : list Z := merge_sort Z.le (map_to_list m).*1.

Lemma elem_of_map_keys {A} (m : gmap Z A) k : k ∈ map_keys m ↔ is_Some (m !! k).
Proof.
  unfold map_keys. rewrite merge_sort_Permutation. rewrite list_elem_of_fmap. split.
  - intros ([k' a] & -> & Ha). apply elem_of_map_to_list in Ha. by exists a.
  - intros [a Ha]. exists (k, a). split; [done|]. by apply elem_of_map_to_list.
Qed.

Lemma NoDup_map_keys {A} (m : gmap Z A) : NoDup (map_keys m).
Proof. unfold map_keys. rewrite merge_sort_Permutation. apply NoDup_fst_map_to_list. Qed.

Module CBus.

(** [Q] is the type of the shared-memory queues.  The process has one epoll
    instance, so [m_EpollFD] is part of the kernel. *)
Record t (Q : Type) : Type := mk {
  m_ClusterID : Z; m_ConnPosCnt : Z; m_ClusterPosCnt : Z; m_pProcessBuff : list Z;
  m_UDPHelloTime : Z; m_TCPHelloTime : Z;
  m_PosConnMap : gmap Z CConnInfo.t;
  m_mapClusterInfo : gmap Z ClusterInfo.t;
  m_mapSvrInfo : gmap Z (ServerInfo.t Q);
  m_mapGrpInfo : gmap Z (list Z);
  m_ClusterQueue : Q }.
Arguments mk {Q}.
Arguments m_ClusterID {Q}.
Arguments m_ConnPosCnt {Q}.
Arguments m_ClusterPosCnt {Q}.
Arguments m_pProcessBuff {Q}.
Arguments m_UDPHelloTime {Q}.
Arguments m_TCPHelloTime {Q}.
Arguments m_PosConnMap {Q}.
Arguments m_mapClusterInfo {Q}.
Arguments m_mapSvrInfo {Q}.
Arguments m_mapGrpInfo {Q}.
Arguments m_ClusterQueue {Q}.

Section setters.
Context {Q : Type}.
Implicit Types b : t Q.
Definition set_cnt b (c : Z) : t Q :=
  mk (m_ClusterID b) c (m_ClusterPosCnt b) (m_pProcessBuff b) (m_UDPHelloTime b)
     (m_TCPHelloTime b) (m_PosConnMap b) (m_mapClusterInfo b) (m_mapSvrInfo b)
     (m_mapGrpInfo b) (m_ClusterQueue b).
Definition set_ccnt b (c : Z) : t Q :=
  mk (m_ClusterID b) (m_ConnPosCnt b) c (m_pProcessBuff b) (m_UDPHelloTime b)
     (m_TCPHelloTime b) (m_PosConnMap b) (m_mapClusterInfo b) (m_mapSvrInfo b)
     (m_mapGrpInfo b) (m_ClusterQueue b).
Definition set_buff b (m : list Z) : t Q :=
  mk (m_ClusterID b) (m_ConnPosCnt b) (m_ClusterPosCnt b) m (m_UDPHelloTime b)
     (m_TCPHelloTime b) (m_PosConnMap b) (m_mapClusterInfo b) (m_mapSvrInfo b)
     (m_mapGrpInfo b) (m_ClusterQueue b).
Definition set_conns b (m : gmap Z CConnInfo.t) : t Q :=
  mk (m_ClusterID b) (m_ConnPosCnt b) (m_ClusterPosCnt b) (m_pProcessBuff b)
     (m_UDPHelloTime b) (m_TCPHelloTime b) m (m_mapClusterInfo b) (m_mapSvrInfo b)
     (m_mapGrpInfo b) (m_ClusterQueue b).
Definition set_clusters b (m : gmap Z ClusterInfo.t) : t Q :=
  mk (m_ClusterID b) (m_ConnPosCnt b) (m_ClusterPosCnt b) (m_pProcessBuff b)
     (m_UDPHelloTime b) (m_TCPHelloTime b) (m_PosConnMap b) m (m_mapSvrInfo b)
     (m_mapGrpInfo b) (m_ClusterQueue b).
Definition set_servers b (m : gmap Z (ServerInfo.t Q)) : t Q :=
  mk (m_ClusterID b) (m_ConnPosCnt b) (m_ClusterPosCnt b) (m_pProcessBuff b)
     (m_UDPHelloTime b) (m_TCPHelloTime b) (m_PosConnMap b) (m_mapClusterInfo b) m
     (m_mapGrpInfo b) (m_ClusterQueue b).
Definition set_groups b (m : gmap Z (list Z)) : t Q :=
  mk (m_ClusterID b) (m_ConnPosCnt b) (m_ClusterPosCnt b) (m_pProcessBuff b)
     (m_UDPHelloTime b) (m_TCPHelloTime b) (m_PosConnMap b) (m_mapClusterInfo b)
     (m_mapSvrInfo b) m (m_ClusterQueue b).
Definition set_cqueue b (q : Q) : t Q :=
  mk (m_ClusterID b) (m_ConnPosCnt b) (m_ClusterPosCnt b) (m_pProcessBuff b)
     (m_UDPHelloTime b) (m_TCPHelloTime b) (m_PosConnMap b) (m_mapClusterInfo b)
     (m_mapSvrInfo b) (m_mapGrpInfo b) q.
(** [map.insert] of a connection: [None] when the number is taken. *)
Definition insert_conn b (pos : Z) (c : CConnInfo.t) : option (t Q) :=
  match m_PosConnMap b !! pos with
  | Some _ => None
  | None => Some (set_conns b (<[pos := c]> (m_PosConnMap b)))
  end.
End setters.

(** The loops that look for a free connection number: [wrap] brings a number
    that left its range back to the start of it. *)
Fixpoint free_pos {A} (fuel : nat) (m : gmap Z A) (wrap : Z → Z) (CurConnPos : Z) : outcome Z :=
  match fuel with
  | O => Spin
  | S fuel =>
      match m !! CurConnPos with
      | None => Ok CurConnPos
      | Some _ => free_pos fuel m wrap (wrap (u32 (CurConnPos + 1)))
      end
  end.

Definition wrap_client (CurConnPos : Z) : Z :=
  if CurConnPos <? CLIENT_SOCK_CPOS_MIN then CLIENT_SOCK_CPOS_MIN + 1 else CurConnPos.
Definition wrap_cluster (CurConnPos : Z) : Z :=
  if (CurConnPos <? CLUSTER_SOCK_CPOS_MIN) || (CLUSTER_SOCK_CPOS_MAX <? CurConnPos)
  then CLUSTER_SOCK_CPOS_MIN + 1 else CurConnPos.

Section operations.
Context {Q K : Type} `{Kernel K}.
Implicit Types (b : t Q) (k : K).

Definition EPOLL_CONN : Z := Z.lor EPOLLIN (Z.lor EPOLLERR EPOLLHUP).

(** [inet_addr] has been applied: [LocalIP] is the address. *)
Definition ListenTcp b k (LocalIP LocalPort : Z) : K * t Q * Z :=
  let '(k, s) := k_socket k SOCK_STREAM in
  if s =? -1 then (k, b, -1) else
  let '(k, r) := k_setsockopt k s SO_REUSEADDR in
  if r =? -1 then (k, b, -1) else
  let addr := (LocalIP, htons (u16 LocalPort)) in
  let '(k, r) := k_bind k s addr.1 addr.2 in
  if r =? -1 then (k, b, -1) else
  let '(k, r) := k_listen k s in
  if r =? -1 then (k, b, -1) else
  let '(k, r) := k_epoll_ctl k EPOLL_CTL_ADD s EPOLLIN LISTEN_SOCK_CPOS_MIN in
  if negb (r =? 0) then (k, b, -1) else
  let '(k, c) := CConnInfo.New k LISTEN_SOCK_CPOS_MIN s (0, 0) addr in
  match insert_conn b LISTEN_SOCK_CPOS_MIN c with
  | None =>
      let '(k, _) := k_epoll_ctl k EPOLL_CTL_DEL s 0 0 in (k_close k s, b, -1)
  | Some b => (k, b, 0)
  end.

Definition ListenUdp b k (LocalIP LocalPort : Z) : K * t Q * Z :=
  let '(k, s) := k_socket k SOCK_DGRAM in
  if s =? -1 then (k, b, -1) else
  let addr := (LocalIP, htons (u16 LocalPort)) in
  let '(k, r) := k_bind k s addr.1 addr.2 in
  if r =? -1 then (k, b, -1) else
  let '(k, r) := k_setsockopt k s SO_RCVTIMEO in
  if r =? -1 then (k, b, -1) else
  let '(k, r) := k_epoll_ctl k EPOLL_CTL_ADD s EPOLLIN LISTEN_UDP_CPOS_MIN in
  if negb (r =? 0) then (k, b, -1) else
  let '(k, c) := CConnInfo.New k LISTEN_UDP_CPOS_MIN s (0, 0) addr in
  match insert_conn b LISTEN_UDP_CPOS_MIN c with
  | None =>
      let '(k, _) := k_epoll_ctl k EPOLL_CTL_DEL s 0 0 in (k_close k s, b, -1)
  | Some b => (k, b, 0)
  end.

(** The number a new client connection gets. *)
Definition NextClientPos b : outcome (t Q * Z) :=
  let cnt := u32 (m_ConnPosCnt b + 1) in
  let cnt := if cnt <? CLIENT_SOCK_CPOS_MIN then CLIENT_SOCK_CPOS_MIN + 1 else cnt in
  pos ← free_pos (S (size (m_PosConnMap b))) (m_PosConnMap b) wrap_client cnt;
  Ok (set_cnt b cnt, pos).

(** The number a new connection to a cluster gets. *)
Definition NextClusterPos b : outcome (t Q * Z) :=
  let cnt := u32 (m_ClusterPosCnt b + 1) in
  let cnt := if (cnt <? CLUSTER_SOCK_CPOS_MIN) || (CLUSTER_SOCK_CPOS_MAX <? cnt)
             then CLUSTER_SOCK_CPOS_MIN + 1 else cnt in
  pos ← free_pos (S (size (m_PosConnMap b))) (m_PosConnMap b) wrap_cluster cnt;
  Ok (set_ccnt b cnt, pos).

Definition AcceptConn b k (ConnPos : Z) : outcome (K * t Q * Z) :=
  match m_PosConnMap b !! ConnPos with
  | None => Ok (k, b, -1)
  | Some l =>
      let '(k, NewSockID, RemoteAddr) := k_accept k (CConnInfo.m_SockID l) in
      if 0 <? NewSockID then
        '(b, CurConnPos) ← NextClientPos b;
        let '(k, FdFlags) := k_fcntl k NewSockID F_GETFL 0 in
        if FdFlags =? -1 then Ok (k_close k NewSockID, b, -1) else
        let '(k, r) := k_fcntl k NewSockID F_SETFL (Z.lor FdFlags O_NONBLOCK) in
        if r =? -1 then Ok (k_close k NewSockID, b, -1) else
        let '(k, r) := k_epoll_ctl k EPOLL_CTL_ADD NewSockID EPOLL_CONN CurConnPos in
        if negb (r =? 0) then Ok (k_close k NewSockID, b, -1) else
        let local := ((CConnInfo.m_LocalAddr l).1, ntohs (CConnInfo.m_LocalAddr l).2) in
        let '(k, c) := CConnInfo.New k CurConnPos NewSockID RemoteAddr local in
        match insert_conn b CurConnPos c with
        | None =>
            let '(k, _) := k_epoll_ctl k EPOLL_CTL_DEL NewSockID 0 0 in
            Ok (k_close k NewSockID, b, -1)
        | Some b => Ok (k, b, 0)
        end
      else Ok (k, b, -1)
  end.

(** Forgetting the connection of a cluster: what [ConnectCluster] does first
    and [DisconnetCluster] does. *)
Definition DropCluster b k (id : Z) (i : ClusterInfo.t) : K * t Q :=
  if negb (ClusterInfo.SocketID i =? -1) || negb (ClusterInfo.ConnPos i =? 0) then
    let '(k, _) := k_epoll_ctl k EPOLL_CTL_DEL (ClusterInfo.SocketID i) 0 0 in
    let k := k_close k (ClusterInfo.SocketID i) in
    let b := set_conns b (delete (ClusterInfo.ConnPos i) (m_PosConnMap b)) in
    (k, set_clusters b (<[id := ClusterInfo.set_conn i (-1) 0]> (m_mapClusterInfo b)))
  else (k, b).

Definition DisconnetCluster b k (ClusterID : Z) : K * t Q * Z :=
  if ClusterID =? m_ClusterID b then (k, b, 0) else
  match m_mapClusterInfo b !! ClusterID with
  | None => (k, b, 0)
  | Some i => let '(k, b) := DropCluster b k ClusterID i in (k, b, 0)
  end.

Definition ConnectCluster b k (ClusterID : Z) : outcome (K * t Q * Z) :=
  if ClusterID =? m_ClusterID b then Ok (k, b, 0) else
  match m_mapClusterInfo b !! ClusterID with
  | None => Ok (k, b, 0)
  | Some i =>
      let '(k, b) := DropCluster b k ClusterID i in
      let '(k, s) := k_socket k SOCK_STREAM in
      if s =? -1 then Ok (k, b, -1) else
      let addr := (ClusterInfo.ClusterIP i, htons (u16 (ClusterInfo.ClusterPort i))) in
      let '(k, r) := k_connect k s addr.1 addr.2 in
      if r =? -1 then Ok (k_close k s, b, -1) else
      let '(k, r, local) := k_getsockname k s in
      if negb (r =? 0) then Ok (k, b, -1) else
      '(b, CurConnPos) ← NextClusterPos b;
      let '(k, r) := k_epoll_ctl k EPOLL_CTL_ADD s EPOLL_CONN CurConnPos in
      if negb (r =? 0) then Ok (k_close k s, b, -1) else
      let '(k, c) := CConnInfo.New k CurConnPos s addr local in
      match insert_conn b CurConnPos c with
      | None =>
          let '(k, _) := k_epoll_ctl k EPOLL_CTL_DEL s 0 0 in Ok (k_close k s, b, -1)
      | Some b =>
          Ok (k, set_clusters b
                (<[ClusterID := ClusterInfo.set_conn i s CurConnPos]> (m_mapClusterInfo b)), 0)
      end
  end.

(** The cluster whose connection has a number, the first in the map's order. *)
Definition cluster_at b (pos : Z) : option ClusterInfo.t :=
  head (omap (λ id, match m_mapClusterInfo b !! id with
                    | Some i => if ClusterInfo.ConnPos i =? pos then Some i else None
                    | None => None end) (map_keys (m_mapClusterInfo b))).

(** The iterator passed to [ReleaseConn] is the number it points at. *)
Definition ReleaseConn b k (CurConnPos : Z) : outcome (K * t Q) :=
  match m_PosConnMap b !! CurConnPos with
  | None => Fault
  | Some c =>
      let '(k, _) := k_epoll_ctl k EPOLL_CTL_DEL (CConnInfo.m_SockID c) 0 0 in
      let k := k_close k (CConnInfo.m_SockID c) in
      let b := set_conns b (delete CurConnPos (m_PosConnMap b)) in
      if (CLUSTER_SOCK_CPOS_MIN <? CurConnPos) && (CurConnPos <? CLUSTER_SOCK_CPOS_MAX) then
        match cluster_at b CurConnPos with
        | Some i => let '(k, b, _) := DisconnetCluster b k (ClusterInfo.ClusterID i) in Ok (k, b)
        | None => Ok (k, b)
        end
      else Ok (k, b)
  end.

End operations.
End CBus.
