(* ===== verification/BusConn.v ===== *)
(** The connections of the bus: connection numbers are found whenever one is
    free, and cluster entries and connections stay consistent. *)
From stdpp Require Import gmap sorting.
From S2P Require Import Prelude Fifo Wire Kernel ConnInfo BusState.
Import CBus.

(** * The search for a free number *)
Section search.
Context {A : Type} (m : gmap Z A) (wrap : Z → Z) (lo hi : Z).
Hypothesis Hlo : 0 ≤ lo ≤ hi.
Hypothesis Hwrap : ∀ p, lo ≤ p ≤ hi → wrap (u32 (p + 1)) = if decide (p = hi) then lo else p + 1.

(** The [i]th number tried. *)
Definition tried (p i : Z) : Z := lo + (p - lo + i) mod (hi - lo + 1).

Lemma tried_0 p : lo ≤ p ≤ hi → tried p 0 = p.
Proof. intros. unfold tried. rewrite Z.add_0_r, Z.mod_small; lia. Qed.

Lemma tried_range p i : lo ≤ tried p i ≤ hi.
Proof. unfold tried. pose proof (Z.mod_pos_bound (p - lo + i) (hi - lo + 1)). lia. Qed.

Lemma tried_next p i :
  lo ≤ p ≤ hi → tried (wrap (u32 (p + 1))) i = tried p (i + 1).
Proof.
  intros Hp. rewrite Hwrap by done. unfold tried. destruct (decide (p = hi)) as [->|].
  - replace (hi - lo + (i + 1)) with (i + 1 * (hi - lo + 1)) by lia.
    by rewrite Z.mod_add, Z.sub_diag, Z.add_0_l by lia.
  - do 2 f_equal. lia.
Qed.

Lemma tried_inj p i j :
  0 ≤ i < hi - lo + 1 → 0 ≤ j < hi - lo + 1 → tried p i = tried p j → i = j.
Proof.
  unfold tried. intros Hi Hj He%Z.add_cancel_l. assert (0 < hi - lo + 1) by lia.
  set (L := hi - lo + 1) in *. clearbody L.
  assert ((i - j) mod L = 0) as Hm.
  { replace (i - j) with ((p - lo + i) - (p - lo + j)) by lia.
    by rewrite Zminus_mod, He, Z.sub_diag. }
  apply Z.mod_divide in Hm as [x Hx]; [|lia].
  assert (x < 1) by nia. assert (-1 < x) by nia. assert (x = 0) as -> by lia. lia.
Qed.

Lemma tried_all p q :
  lo ≤ p ≤ hi → lo ≤ q ≤ hi → ∃ i, 0 ≤ i < hi - lo + 1 ∧ tried p i = q.
Proof.
  intros Hp Hq. exists ((q - p) mod (hi - lo + 1)). split.
  - apply Z.mod_pos_bound. lia.
  - unfold tried. rewrite Zplus_mod_idemp_r.
    replace (p - lo + (q - p)) with (q - lo) by lia. rewrite Z.mod_small; lia.
Qed.

Lemma free_pos_cases n p :
  lo ≤ p ≤ hi →
  (∃ r, free_pos n m wrap p = Ok r ∧ m !! r = None ∧ lo ≤ r ≤ hi) ∨
  (free_pos n m wrap p = Spin ∧ ∀ i, 0 ≤ i < Z.of_nat n → is_Some (m !! tried p i)).
Proof.
  revert p. induction n as [|n IH]; intros p Hp; cbn [free_pos].
  { right. split; [done|lia]. }
  destruct (m !! p) as [a|] eqn:E; [|left; by exists p].
  assert (lo ≤ wrap (u32 (p + 1)) ≤ hi) as Hw by (rewrite Hwrap by done; case_decide; lia).
  destruct (IH _ Hw) as [?|[-> Hi]]; [by left|]. right. split; [done|]. intros i ?.
  destruct (decide (i = 0)) as [->|].
  - rewrite tried_0 by done. by exists a.
  - replace i with (i - 1 + 1) by lia. rewrite <- tried_next by done. apply Hi. lia.
Qed.

(** As many steps as there are entries are enough, when a number is free. *)
Lemma free_pos_total p q :
  lo ≤ p ≤ hi → lo ≤ q ≤ hi → m !! q = None →
  ∃ r, free_pos (S (size m)) m wrap p = Ok r ∧ m !! r = None ∧ lo ≤ r ≤ hi.
Proof.
  intros Hp Hq Hn. destruct (free_pos_cases (S (size m)) p Hp) as [?|[_ Hocc]]; [done|exfalso].
  destruct (decide (hi - lo + 1 ≤ Z.of_nat (S (size m)))).
  { destruct (tried_all p q) as (i & Hi & Hqi); [done..|].
    destruct (Hocc i) as [a Ha]; [lia|]. congruence. }
  set (l := tried p <$> seqZ 0 (Z.of_nat (S (size m)))).
  assert (NoDup l) as Hl.
  { apply NoDup_fmap_2_strong; [|apply NoDup_seqZ].
    intros i j Hi%elem_of_seqZ Hj%elem_of_seqZ. apply tried_inj; lia. }
  assert ((list_to_set l : gset Z) ⊆ dom m) as Hsub.
  { intros x Hx%elem_of_list_to_set. unfold l in Hx.
    apply list_elem_of_fmap in Hx as (i & -> & Hi%elem_of_seqZ).
    apply elem_of_dom, Hocc. lia. }
  apply subseteq_size in Hsub. rewrite size_list_to_set, size_dom in Hsub by done.
  unfold l in Hsub. rewrite length_fmap, length_seqZ in Hsub. lia.
Qed.

(** When every number of the range is taken the loop never ends. *)
Lemma free_pos_full n p :
  lo ≤ p ≤ hi → (∀ q, lo ≤ q ≤ hi → is_Some (m !! q)) → free_pos n m wrap p = Spin.
Proof.
  intros Hp Hall. destruct (free_pos_cases n p Hp) as [(r & _ & Hr & Hb)|[-> _]]; [|done].
  destruct (Hall r Hb). congruence.
Qed.
End search.

Lemma wrap_client_next p :
  CLIENT_SOCK_CPOS_MIN + 1 ≤ p ≤ 2 ^ 32 - 1 →
  wrap_client (u32 (p + 1)) =
  if decide (p = 2 ^ 32 - 1) then CLIENT_SOCK_CPOS_MIN + 1 else p + 1.
Proof.
  unfold wrap_client, CLIENT_SOCK_CPOS_MIN. intros. case_decide as Hp.
  - by rewrite Hp.
  - rewrite u32_small by lia. destruct (Z.ltb_spec (p + 1) 300000); lia.
Qed.

Lemma wrap_cluster_next p :
  CLUSTER_SOCK_CPOS_MIN + 1 ≤ p ≤ CLUSTER_SOCK_CPOS_MAX →
  wrap_cluster (u32 (p + 1)) =
  if decide (p = CLUSTER_SOCK_CPOS_MAX) then CLUSTER_SOCK_CPOS_MIN + 1 else p + 1.
Proof.
  unfold wrap_cluster, CLUSTER_SOCK_CPOS_MIN, CLUSTER_SOCK_CPOS_MAX. intros. case_decide as Hp.
  - by rewrite Hp.
  - rewrite u32_small by lia.
    destruct (Z.ltb_spec (p + 1) 200000); cbn [orb]; [lia|].
    destruct (Z.ltb_spec 299999 (p + 1)); lia.
Qed.

(** * Consistency of connections and cluster entries *)
Definition cluster_pos (p : Z) : Prop := CLUSTER_SOCK_CPOS_MIN < p ≤ CLUSTER_SOCK_CPOS_MAX.
Definition client_pos (p : Z) : Prop := CLIENT_SOCK_CPOS_MIN < p < 2 ^ 32.
Definition listen_pos (p : Z) : Prop := p = LISTEN_SOCK_CPOS_MIN ∨ p = LISTEN_UDP_CPOS_MIN.

Record conns_ok {Q} (b : t Q) : Prop := {
  co_conn p c : m_PosConnMap b !! p = Some c →
    CConnInfo.m_ConnPos c = p ∧ conn_wf c ∧ (listen_pos p ∨ cluster_pos p ∨ client_pos p);
  co_id id i : m_mapClusterInfo b !! id = Some i → ClusterInfo.ClusterID i = id;
  co_own i : m_mapClusterInfo b !! m_ClusterID b = Some i → ClusterInfo.ConnPos i = 0;
  co_link id i : m_mapClusterInfo b !! id = Some i →
    (ClusterInfo.SocketID i = -1 ∧ ClusterInfo.ConnPos i = 0) ∨
    (cluster_pos (ClusterInfo.ConnPos i) ∧ ∃ c,
       m_PosConnMap b !! ClusterInfo.ConnPos i = Some c ∧
       CConnInfo.m_SockID c = ClusterInfo.SocketID i);
  co_inj id id' i i' :
    m_mapClusterInfo b !! id = Some i → m_mapClusterInfo b !! id' = Some i' →
    ClusterInfo.ConnPos i = ClusterInfo.ConnPos i' → ClusterInfo.ConnPos i ≠ 0 → id = id';
  co_back p : is_Some (m_PosConnMap b !! p) → cluster_pos p →
    ∃ id i, m_mapClusterInfo b !! id = Some i ∧ ClusterInfo.ConnPos i = p;
  co_cnt : m_ConnPosCnt b = 0 ∨ client_pos (m_ConnPosCnt b);
  co_ccnt : m_ClusterPosCnt b = 0 ∨ cluster_pos (m_ClusterPosCnt b);
}.

Lemma conns_ok_ext {Q} (b b' : t Q) :
  conns_ok b → m_PosConnMap b' = m_PosConnMap b → m_mapClusterInfo b' = m_mapClusterInfo b →
  m_ClusterID b' = m_ClusterID b → m_ConnPosCnt b' = m_ConnPosCnt b →
  m_ClusterPosCnt b' = m_ClusterPosCnt b → conns_ok b'.
Proof. intros [] Hp Hc Hi Hn Hm. constructor; rewrite ?Hp, ?Hc, ?Hi, ?Hn, ?Hm; done. Qed.

(** What the connection operations never change. *)
Record same_cfg {Q} (b b' : t Q) : Prop := {
  sc_id : m_ClusterID b' = m_ClusterID b;
  sc_buff : m_pProcessBuff b' = m_pProcessBuff b;
  sc_svr : m_mapSvrInfo b' = m_mapSvrInfo b;
  sc_grp : m_mapGrpInfo b' = m_mapGrpInfo b;
  sc_queue : m_ClusterQueue b' = m_ClusterQueue b;
  sc_dom : ∀ id, is_Some (m_mapClusterInfo b' !! id) ↔ is_Some (m_mapClusterInfo b !! id);
}.

#[export] Instance same_cfg_refl {Q} : Reflexive (@same_cfg Q).
Proof. by constructor. Qed.
#[export] Instance same_cfg_trans {Q} : Transitive (@same_cfg Q).
Proof.
  intros ??? [] []. constructor; try congruence.
  intros id. by rewrite sc_dom1.
Qed.

Ltac cpos := unfold cluster_pos, client_pos, listen_pos, CLUSTER_SOCK_CPOS_MIN,
  CLUSTER_SOCK_CPOS_MAX, CLIENT_SOCK_CPOS_MIN, LISTEN_SOCK_CPOS_MIN, LISTEN_UDP_CPOS_MIN in *; lia.

Section facts.
Context {Q K : Type} `{Kernel K}.
Implicit Types (b : t Q) (k : K) (i : ClusterInfo.t) (c : CConnInfo.t).

(** The state after a cluster entry has lost its connection, and after it got one. *)
Definition unlink b (id : Z) i : t Q :=
  set_clusters (set_conns b (delete (ClusterInfo.ConnPos i) (m_PosConnMap b)))
    (<[id := ClusterInfo.set_conn i (-1) 0]> (m_mapClusterInfo b)).

Definition link b (id : Z) i (s p : Z) c : t Q :=
  set_clusters (set_conns b (<[p := c]> (m_PosConnMap b)))
    (<[id := ClusterInfo.set_conn i s p]> (m_mapClusterInfo b)).

Lemma insert_conns_ok b p c :
  conns_ok b → m_PosConnMap b !! p = None → CConnInfo.m_ConnPos c = p → conn_wf c →
  listen_pos p ∨ client_pos p →
  conns_ok (set_conns b (<[p := c]> (m_PosConnMap b))).
Proof.
  intros [] Hn Hc Hwf Hp. constructor; cbn; try done.
  - intros p' c'. destruct (decide (p' = p)) as [->|].
    + rewrite lookup_insert_eq. intros [= <-]. tauto.
    + rewrite lookup_insert_ne by done. auto.
  - intros id i Hi. destruct (co_link0 id i Hi) as [?|(? & c' & Hc' & ?)]; [auto|].
    right. split; [done|]. exists c'. split; [|done].
    rewrite lookup_insert_ne; [done|]. congruence.
  - intros p' [c' Hc'] Hr. apply co_back0; [|done].
    rewrite lookup_insert_ne in Hc'; [by exists c'|]. intros ->. cpos.
Qed.

Lemma delete_conns_ok b p :
  conns_ok b → ¬ cluster_pos p → conns_ok (set_conns b (delete p (m_PosConnMap b))).
Proof.
  intros [] Hp. constructor; cbn; try done.
  - intros p' c'. rewrite lookup_delete_Some. intros [_ ?]. auto.
  - intros id i Hi. destruct (co_link0 id i Hi) as [?|(? & c' & Hc' & ?)]; [auto|].
    right. split; [done|]. exists c'. rewrite lookup_delete_ne; [done|]. congruence.
  - intros p' [c' [_ Hc']%lookup_delete_Some] Hr. apply co_back0; [by exists c'|done].
Qed.

Lemma lookup_clusters b id i id' i' :
  <[id := i]> (m_mapClusterInfo b) !! id' = Some i' →
  (id' = id ∧ i' = i) ∨ (id' ≠ id ∧ m_mapClusterInfo b !! id' = Some i').
Proof.
  destruct (decide (id' = id)) as [->|].
  - rewrite lookup_insert_eq. intros [= <-]. auto.
  - rewrite lookup_insert_ne by done. auto.
Qed.

Lemma unlink_ok b id i :
  conns_ok b → m_mapClusterInfo b !! id = Some i → id ≠ m_ClusterID b →
  conns_ok (unlink b id i) ∧ same_cfg b (unlink b id i).
Proof.
  intros Hok Hi Hne. pose proof Hok as []. split; [constructor; cbn; try done|constructor; cbn; try done].
  - intros p c'. rewrite lookup_delete_Some. intros [_ ?]. auto.
  - intros id' i' [[-> ->]|[? Hi']]%lookup_clusters; cbn; eauto.
  - intros i' [[? ->]|[? Hi']]%lookup_clusters; cbn; [congruence|eauto].
  - intros id' i' [[-> ->]|[Hd Hi']]%lookup_clusters; [by left|].
    destruct (co_link0 id' i' Hi') as [?|(Hr & c' & Hc' & ?)]; [auto|]. right.
    split; [done|]. exists c'. rewrite lookup_delete_ne; [done|].
    intros He. destruct Hd. symmetry. apply (co_inj0 _ _ i i'); try done. rewrite He. cpos.
  - intros id1 id2 i1 i2 [[-> ->]|[? Hi1]]%lookup_clusters [[-> ->]|[? Hi2]]%lookup_clusters;
      cbn; try done; try congruence. intros. eauto.
  - intros p [c' [Hp Hc']%lookup_delete_Some] Hr.
    destruct (co_back0 p) as (id' & i' & Hi' & Hpos); [by exists c'|done|].
    exists id', i'. rewrite lookup_insert_ne; [done|]. congruence.
  - intros id'. destruct (decide (id' = id)) as [->|].
    + rewrite lookup_insert_eq, Hi. split; eauto.
    + by rewrite lookup_insert_ne by done.
Qed.

Lemma link_ok b id i s p c :
  conns_ok b → m_mapClusterInfo b !! id = Some i → id ≠ m_ClusterID b →
  ClusterInfo.ConnPos i = 0 → m_PosConnMap b !! p = None → cluster_pos p →
  CConnInfo.m_ConnPos c = p → CConnInfo.m_SockID c = s → conn_wf c →
  conns_ok (link b id i s p c) ∧ same_cfg b (link b id i s p c).
Proof.
  intros Hok Hi Hne Hz Hn Hp Hc Hs Hwf. pose proof Hok as [].
  split; [constructor; cbn; try done|constructor; cbn; try done].
  - intros p' c'. destruct (decide (p' = p)) as [->|].
    + rewrite lookup_insert_eq. intros [= <-]. tauto.
    + rewrite lookup_insert_ne by done. auto.
  - intros id' i' [[-> ->]|[? Hi']]%lookup_clusters; cbn; eauto.
  - intros i' [[? ->]|[? Hi']]%lookup_clusters; cbn; [congruence|eauto].
  - intros id' i' [[-> ->]|[Hd Hi']]%lookup_clusters; cbn.
    + right. split; [done|]. exists c. by rewrite lookup_insert_eq.
    + destruct (co_link0 id' i' Hi') as [?|(Hr & c' & Hc' & ?)]; [auto|]. right.
      split; [done|]. exists c'. rewrite lookup_insert_ne; [done|]. congruence.
  - assert (∀ id' i', m_mapClusterInfo b !! id' = Some i' → ClusterInfo.ConnPos i' ≠ p) as Hfresh.
    { intros id' i' Hi' He. destruct (co_link0 id' i' Hi') as [[_ Hz']|(_ & c' & Hc' & _)].
      - rewrite Hz' in He. cpos.
      - congruence. }
    intros id1 id2 i1 i2 [[-> ->]|[? Hi1]]%lookup_clusters [[-> ->]|[? Hi2]]%lookup_clusters;
      cbn; try done.
    + intros He. by destruct (Hfresh _ _ Hi2).
    + intros He. by destruct (Hfresh _ _ Hi1).
    + eauto.
  - intros p' [c' Hc'] Hr. destruct (decide (p' = p)) as [->|].
    { exists id, (ClusterInfo.set_conn i s p). by rewrite lookup_insert_eq. }
    rewrite lookup_insert_ne in Hc' by done.
    destruct (co_back0 p') as (id' & i' & Hi' & Hpos); [by exists c'|done|].
    exists id', i'. rewrite lookup_insert_ne; [done|]. intros ->. simplify_eq. cpos.
  - intros id'. destruct (decide (id' = id)) as [->|].
    + rewrite lookup_insert_eq, Hi. split; eauto.
    + by rewrite lookup_insert_ne by done.
Qed.

(** Number 0 is never given to a connection. *)
Lemma pos_0 b : conns_ok b → m_PosConnMap b !! 0 = None.
Proof.
  intros []. destruct (m_PosConnMap b !! 0) as [c|] eqn:E; [|done].
  destruct (co_conn0 0 c E) as (_ & _ & ?). cpos.
Qed.

Lemma set_conns_same b : set_conns b (m_PosConnMap b) = b.
Proof. by destruct b. Qed.
Lemma set_clusters_same b : set_clusters b (m_mapClusterInfo b) = b.
Proof. by destruct b. Qed.

Lemma DropCluster_unlink b k id i :
  conns_ok b → m_mapClusterInfo b !! id = Some i →
  ∃ k', DropCluster b k id i = (k', unlink b id i).
Proof.
  intros Hok Hi. unfold DropCluster.
  destruct (Z.eqb_spec (ClusterInfo.SocketID i) (-1)) as [Hs|Hs];
    destruct (Z.eqb_spec (ClusterInfo.ConnPos i) 0) as [Hp|Hp]; cbn [negb orb];
    try (destruct (k_epoll_ctl _ _ _ _ _); by eexists).
  eexists. f_equal. unfold unlink. rewrite Hp, delete_id by (by apply pos_0).
  rewrite set_conns_same, insert_id; [by rewrite set_clusters_same|].
  rewrite Hi. f_equal. destruct i. cbn in *. by subst.
Qed.

Lemma cluster_at_Some b p i :
  cluster_at b p = Some i →
  ∃ id, m_mapClusterInfo b !! id = Some i ∧ ClusterInfo.ConnPos i = p.
Proof.
  intros Hh%head_Some_elem_of. apply list_elem_of_omap in Hh as (id & _ & Hid).
  destruct (m_mapClusterInfo b !! id) as [i'|] eqn:E; [|done].
  destruct (Z.eqb_spec (ClusterInfo.ConnPos i') p); [|done]. injection Hid as ->. eauto.
Qed.

Lemma cluster_at_None b p id i :
  cluster_at b p = None → m_mapClusterInfo b !! id = Some i → ClusterInfo.ConnPos i ≠ p.
Proof.
  intros Hh%head_None Hi He.
  assert (i ∈ omap (λ id, match m_mapClusterInfo b !! id with
                    | Some i => if ClusterInfo.ConnPos i =? p then Some i else None
                    | None => None end) (map_keys (m_mapClusterInfo b))) as Hin.
  { apply list_elem_of_omap. exists id. split; [apply elem_of_map_keys; eauto|].
    rewrite Hi. by rewrite (proj2 (Z.eqb_eq _ _) He). }
  rewrite Hh in Hin. by apply not_elem_of_nil in Hin.
Qed.
End facts.

(** * A number is free while there are fewer entries than numbers *)
Lemma range_length (lo hi : Z) (l : list Z) :
  (∀ q, lo ≤ q ≤ hi → q ∈ l) → hi - lo + 1 ≤ zlen l.
Proof.
  intros Hl. assert (seqZ lo (hi - lo + 1) ⊆+ l) as Hs%submseteq_length.
  { apply NoDup_submseteq; [apply NoDup_seqZ|]. intros q ?%elem_of_seqZ. apply Hl. lia. }
  rewrite length_seqZ in Hs. unfold zlen. lia.
Qed.

Lemma range_free {A} (m : gmap Z A) lo hi (l : list Z) :
  (∀ q, lo ≤ q ≤ hi → is_Some (m !! q) → q ∈ l) → zlen l < hi - lo + 1 →
  ∃ q, lo ≤ q ≤ hi ∧ m !! q = None.
Proof.
  intros Hl Hlen.
  destruct (decide (Exists (λ q, m !! q = None) (seqZ lo (hi - lo + 1)))) as [He|Hn].
  - apply Exists_exists in He as (q & Hq%elem_of_seqZ & ?). exists q. split; [lia|done].
  - exfalso. enough (hi - lo + 1 ≤ zlen l) by lia. apply range_length. intros q Hq.
    apply Hl; [done|]. destruct (m !! q) eqn:E; [by eexists|]. destruct Hn.
    apply Exists_exists. exists q. split; [apply elem_of_seqZ; lia|done].
Qed.

Definition MAX_CLUSTERS : Z := CLUSTER_SOCK_CPOS_MAX - CLUSTER_SOCK_CPOS_MIN.

Section operations.
Context {Q K : Type} `{Kernel K}.
Implicit Types (b : t Q) (k : K) (i : ClusterInfo.t) (c : CConnInfo.t).

(** Fewer clusters are configured, and fewer connections open, than there are numbers. *)
Record room b : Prop := {
  room_clusters : Z.of_nat (size (m_mapClusterInfo b)) < MAX_CLUSTERS;
  room_conns : Z.of_nat (size (m_PosConnMap b)) < 2 ^ 32 - 1 - CLIENT_SOCK_CPOS_MIN;
}.

Lemma map_keys_length {A} (m : gmap Z A) : length (map_keys m) = size m.
Proof. unfold map_keys. by rewrite merge_sort_Permutation, length_fmap, length_map_to_list. Qed.

Lemma client_free b :
  Z.of_nat (size (m_PosConnMap b)) < 2 ^ 32 - 1 - CLIENT_SOCK_CPOS_MIN →
  ∃ q, CLIENT_SOCK_CPOS_MIN + 1 ≤ q ≤ 2 ^ 32 - 1 ∧ m_PosConnMap b !! q = None.
Proof.
  intros Hs. apply (range_free _ _ _ (map_keys (m_PosConnMap b))).
  - intros q _ ?. by apply elem_of_map_keys.
  - unfold zlen. rewrite map_keys_length. lia.
Qed.

Lemma cluster_free b :
  conns_ok b → Z.of_nat (size (m_mapClusterInfo b)) < MAX_CLUSTERS →
  ∃ q, CLUSTER_SOCK_CPOS_MIN + 1 ≤ q ≤ CLUSTER_SOCK_CPOS_MAX ∧ m_PosConnMap b !! q = None.
Proof.
  intros Hok Hs.
  apply (range_free _ _ _ ((λ x, ClusterInfo.ConnPos x.2) <$> map_to_list (m_mapClusterInfo b))).
  - intros q Hq Hc. destruct (co_back b Hok q) as (id & i & Hi & Hp); [done|cpos|].
    apply list_elem_of_fmap. exists (id, i). split; [done|]. by apply elem_of_map_to_list.
  - unfold zlen. rewrite length_fmap, length_map_to_list. unfold MAX_CLUSTERS in Hs. lia.
Qed.

Lemma NextClientPos_ok b :
  conns_ok b → Z.of_nat (size (m_PosConnMap b)) < 2 ^ 32 - 1 - CLIENT_SOCK_CPOS_MIN →
  ∃ cnt p, NextClientPos b = Ok (set_cnt b cnt, p) ∧ client_pos cnt ∧ client_pos p ∧
    m_PosConnMap b !! p = None.
Proof.
  intros Hok Hs. destruct (client_free b Hs) as (q & Hq & Hn). unfold NextClientPos.
  set (cnt := if u32 (m_ConnPosCnt b + 1) <? CLIENT_SOCK_CPOS_MIN then _ else _).
  assert (client_pos cnt) as Hcnt.
  { unfold cnt. pose proof (u32_range (m_ConnPosCnt b + 1)).
    destruct (co_cnt b Hok) as [Hz|Hc].
    - rewrite Hz. by split.
    - destruct (decide (m_ConnPosCnt b + 1 = 2 ^ 32)) as [->|]; [by split|].
      rewrite u32_small by cpos. destruct (Z.ltb_spec (m_ConnPosCnt b + 1) CLIENT_SOCK_CPOS_MIN); cpos. }
  destruct (free_pos_total (m_PosConnMap b) wrap_client (CLIENT_SOCK_CPOS_MIN + 1) (2 ^ 32 - 1))
    with (p := cnt) (q := q) as (p & -> & ? & ?); [cpos|apply wrap_client_next|cpos|done..|].
  cbn. exists cnt, p. split_and!; try done; cpos.
Qed.

Lemma NextClusterPos_ok b :
  conns_ok b → Z.of_nat (size (m_mapClusterInfo b)) < MAX_CLUSTERS →
  ∃ cnt p, NextClusterPos b = Ok (set_ccnt b cnt, p) ∧ cluster_pos cnt ∧ cluster_pos p ∧
    m_PosConnMap b !! p = None.
Proof.
  intros Hok Hs. destruct (cluster_free b Hok Hs) as (q & Hq & Hn). unfold NextClusterPos.
  set (cnt := if _ || _ then _ else _).
  assert (cluster_pos cnt) as Hcnt.
  { unfold cnt. destruct (co_ccnt b Hok) as [Hz|Hc].
    - rewrite Hz. by split.
    - rewrite u32_small by cpos.
      destruct (Z.ltb_spec (m_ClusterPosCnt b + 1) CLUSTER_SOCK_CPOS_MIN); cbn [orb]; [cpos|].
      destruct (Z.ltb_spec CLUSTER_SOCK_CPOS_MAX (m_ClusterPosCnt b + 1)); cpos. }
  destruct (free_pos_total (m_PosConnMap b) wrap_cluster (CLUSTER_SOCK_CPOS_MIN + 1) CLUSTER_SOCK_CPOS_MAX)
    with (p := cnt) (q := q) as (p & -> & ? & ?); [cpos|apply wrap_cluster_next|cpos|done..|].
  cbn. exists cnt, p. split_and!; try done; cpos.
Qed.

Lemma set_cnt_ok b cnt : conns_ok b → client_pos cnt → conns_ok (set_cnt b cnt).
Proof. intros [] ?. constructor; cbn; auto. Qed.
Lemma set_ccnt_ok b cnt : conns_ok b → cluster_pos cnt → conns_ok (set_ccnt b cnt).
Proof. intros [] ?. constructor; cbn; auto. Qed.

Lemma New_fields k p s ra la k' c :
  CConnInfo.New k p s ra la = (k', c) →
  CConnInfo.m_ConnPos c = p ∧ CConnInfo.m_SockID c = s ∧ conn_wf c ∧
  CConnInfo.m_RemainSendData c = [] ∧ CConnInfo.m_RemainRecvData c = [].
Proof.
  unfold CConnInfo.New. destruct (k_time k). intros [= <- <-]. by split_and!.
Qed.

Lemma DisconnetCluster_ok b k id :
  conns_ok b → ∃ k' b', DisconnetCluster b k id = (k', b', 0) ∧ conns_ok b' ∧ same_cfg b b' ∧
    (id = m_ClusterID b ∨ m_mapClusterInfo b !! id = None → b' = b) ∧
    (∀ i, id ≠ m_ClusterID b → m_mapClusterInfo b !! id = Some i → b' = unlink b id i).
Proof.
  intros Hok. unfold DisconnetCluster.
  destruct (Z.eqb_spec id (m_ClusterID b)) as [->|Hne]; [by eexists _, _|].
  destruct (m_mapClusterInfo b !! id) as [i|] eqn:Hi; [|by eexists _, _].
  destruct (DropCluster_unlink b k id i Hok Hi) as [k' ->].
  destruct (unlink_ok b id i Hok Hi Hne). eexists _, _. split_and!; try done.
  - by intros [|].
  - by intros i' _ [= <-].
Qed.

Lemma insert_conn_Some b p c b' :
  insert_conn b p c = Some b' →
  m_PosConnMap b !! p = None ∧ b' = set_conns b (<[p := c]> (m_PosConnMap b)).
Proof. unfold insert_conn. destruct (m_PosConnMap b !! p); [done|]. by intros [= <-]. Qed.

(** Runs through the system calls of an operation, failures first. *)
Ltac kstep := repeat first
  [ by eexists _, _, _
  | progress case_match
  | progress simplify_eq ].

Lemma ListenTcp_ok b k ip port :
  conns_ok b → ∃ k' b' r, ListenTcp b k ip port = (k', b', r) ∧ conns_ok b' ∧ same_cfg b b'.
Proof.
  intros Hok. unfold ListenTcp. kstep. eexists _, _, _. split; [done|].
  edestruct New_fields as (? & ? & ? & _); [eassumption|].
  edestruct insert_conn_Some as [? ->]; [eassumption|]. split; [|by constructor].
  apply insert_conns_ok; auto. left. by left.
Qed.

Lemma ListenUdp_ok b k ip port :
  conns_ok b → ∃ k' b' r, ListenUdp b k ip port = (k', b', r) ∧ conns_ok b' ∧ same_cfg b b'.
Proof.
  intros Hok. unfold ListenUdp. kstep. eexists _, _, _. split; [done|].
  edestruct New_fields as (? & ? & ? & _); [eassumption|].
  edestruct insert_conn_Some as [? ->]; [eassumption|]. split; [|by constructor].
  apply insert_conns_ok; auto. left. by right.
Qed.

Lemma AcceptConn_ok b k p0 :
  conns_ok b → room b →
  ∃ k' b' r, AcceptConn b k p0 = Ok (k', b', r) ∧ conns_ok b' ∧ same_cfg b b' ∧
    m_mapClusterInfo b' = m_mapClusterInfo b ∧ (r = 0 ∨ r = -1) ∧
    (r = -1 → m_PosConnMap b' = m_PosConnMap b) ∧
    (r = 0 → ∃ p c, client_pos p ∧ m_PosConnMap b !! p = None ∧
       m_PosConnMap b' = <[p := c]> (m_PosConnMap b) ∧
       CConnInfo.m_RemainSendData c = [] ∧ CConnInfo.m_RemainRecvData c = []).
Proof.
  intros Hok [_ Hroom]. unfold AcceptConn.
  destruct (m_PosConnMap b !! p0) as [l|]; [|eexists _, _, _; by split_and!; auto].
  destruct (k_accept k (CConnInfo.m_SockID l)) as [[k1 s] ra].
  destruct (0 <? s); [|eexists _, _, _; by split_and!; auto].
  destruct (NextClientPos_ok b Hok Hroom) as (cnt & p & -> & Hcnt & Hp & Hn).
  cbn [mbind outcome_bind].
  pose proof (set_cnt_ok b cnt Hok Hcnt) as Hok1.
  repeat first [eexists _, _, _; by split_and!; auto | progress case_match | progress simplify_eq].
  edestruct New_fields as (? & ? & ? & ? & ?); [eassumption|].
  edestruct insert_conn_Some as [? ->]; [eassumption|].
  eexists _, _, _. split; [done|]. split_and!; auto; try done.
  - apply insert_conns_ok; auto.
  - intros _. by eexists _, _.
Qed.

Lemma ConnectCluster_ok b k id :
  conns_ok b → room b →
  ∃ k' b' r, ConnectCluster b k id = Ok (k', b', r) ∧ conns_ok b' ∧ same_cfg b b' ∧
    (r = 0 ∨ r = -1) ∧
    (id = m_ClusterID b ∨ m_mapClusterInfo b !! id = None → b' = b) ∧
    (∀ i, id ≠ m_ClusterID b → m_mapClusterInfo b !! id = Some i →
       (r = -1 → m_mapClusterInfo b' !! id = Some (ClusterInfo.set_conn i (-1) 0)) ∧
       (r = 0 → ∃ s p c, m_mapClusterInfo b' !! id = Some (ClusterInfo.set_conn i s p) ∧
          cluster_pos p ∧ m_PosConnMap b' !! p = Some c ∧ CConnInfo.m_SockID c = s ∧ s ≠ -1 ∧
          CConnInfo.m_RemainSendData c = [] ∧ CConnInfo.m_RemainRecvData c = [])).
Proof.
  intros Hok [Hroom _]. unfold ConnectCluster.
  destruct (Z.eqb_spec id (m_ClusterID b)) as [->|Hne]; [eexists _, _, _; by split_and!; auto|].
  destruct (m_mapClusterInfo b !! id) as [i|] eqn:Hi; [|eexists _, _, _; by split_and!; auto].
  destruct (DropCluster_unlink b k id i Hok Hi) as [k1 ->].
  destruct (unlink_ok b id i Hok Hi Hne) as [Hok1 Hcfg].
  set (b1 := unlink b id i) in *.
  assert (m_mapClusterInfo b1 !! id = Some (ClusterInfo.set_conn i (-1) 0)) as Hi1
    by (cbn; apply lookup_insert_eq).
  assert (Z.of_nat (size (m_mapClusterInfo b1)) < MAX_CLUSTERS) as Hroom1.
  { unfold b1. cbn. by rewrite map_size_insert_Some by eauto. }
  assert (∀ b2 : t Q, conns_ok b2 → same_cfg b1 b2 → m_mapClusterInfo b2 = m_mapClusterInfo b1 →
    ∀ k', ∃ k2 b' r, Ok (k', b2, -1) = Ok (k2, b', r) ∧ conns_ok b' ∧ same_cfg b b' ∧
    (r = 0 ∨ r = -1) ∧
    (id = m_ClusterID b ∨ Some i = None → b' = b) ∧
    (∀ i0, id ≠ m_ClusterID b → Some i = Some i0 →
       (r = -1 → m_mapClusterInfo b' !! id = Some (ClusterInfo.set_conn i0 (-1) 0)) ∧
       (r = 0 → ∃ s p c, m_mapClusterInfo b' !! id = Some (ClusterInfo.set_conn i0 s p) ∧
          cluster_pos p ∧ m_PosConnMap b' !! p = Some c ∧ CConnInfo.m_SockID c = s ∧ s ≠ -1 ∧
          CConnInfo.m_RemainSendData c = [] ∧ CConnInfo.m_RemainRecvData c = []))) as Hfail.
  { intros b2 Hok2 Hc2 Hm2 k'. eexists _, _, _. split; [done|].
    split_and!; [done|by trans b1|by right|by intros [|]|].
    intros i0 _ [= <-]. split; [|done]. intros _. by rewrite Hm2. }
  destruct (k_socket k1 SOCK_STREAM) as [k2 s]. destruct (Z.eqb_spec s (-1)) as [|Hs]; [by apply Hfail|].
  destruct (k_connect k2 s _ _) as [k3 r3]. destruct (r3 =? -1); [by apply Hfail|].
  destruct (k_getsockname k3 s) as [[k4 r4] la]. destruct (r4 =? 0); cbn [negb]; [|by apply Hfail].
  destruct (NextClusterPos_ok b1 Hok1 Hroom1) as (cnt & p & -> & Hcnt & Hp & Hn).
  cbn [mbind outcome_bind].
  pose proof (set_ccnt_ok b1 cnt Hok1 Hcnt) as Hok2.
  destruct (k_epoll_ctl k4 _ _ _ _) as [k5 r5]. destruct (r5 =? 0); cbn [negb]; [|by apply Hfail].
  destruct (CConnInfo.New _ _ _ _ _) as [k6 c] eqn:Hc.
  apply New_fields in Hc as (Hc1 & Hc2 & Hcw & Hc3 & Hc4).
  unfold insert_conn. change (m_PosConnMap (set_ccnt b1 cnt)) with (m_PosConnMap b1).
  rewrite Hn.
  destruct (link_ok (set_ccnt b1 cnt) id (ClusterInfo.set_conn i (-1) 0) s p c) as [Hok3 Hcfg3]; try done.
  eexists _, _, _. split; [done|]. split_and!; [done| |by left|by intros [|]|].
  - trans b1; [done|]. trans (set_ccnt b1 cnt); [done|]. apply Hcfg3.
  - intros i0 _ [= <-]. split; [done|]. intros _. exists s, p, c. cbn.
    rewrite !lookup_insert_eq. by split_and!.
Qed.

(** A released connection is out of the map, and out of its cluster's entry. *)
Lemma ReleaseConn_ok b k p c :
  conns_ok b → m_PosConnMap b !! p = Some c → p ≠ CLUSTER_SOCK_CPOS_MAX →
  ∃ k' b', ReleaseConn b k p = Ok (k', b') ∧ conns_ok b' ∧ same_cfg b b' ∧
    m_PosConnMap b' = delete p (m_PosConnMap b) ∧
    (∀ id i, m_mapClusterInfo b' !! id = Some i → ClusterInfo.ConnPos i ≠ p) ∧
    (∀ id i, m_mapClusterInfo b !! id = Some i → ClusterInfo.ConnPos i ≠ p →
       m_mapClusterInfo b' !! id = Some i).
Proof.
  intros Hok Hc Hp. unfold ReleaseConn. rewrite Hc.
  destruct (k_epoll_ctl k _ _ _ _) as [k1 r1].
  destruct (decide (cluster_pos p)) as [Hcp|Hncp].
  2:{ destruct (_ && _) eqn:E; [exfalso; apply andb_true_iff in E; rewrite !Z.ltb_lt in E; cpos|].
      eexists _, _. split; [done|]. split_and!; try done; auto; [by apply delete_conns_ok|].
    intros id i Hi He. destruct (co_link b Hok id i Hi) as [[_ Hz]|[Hr _]].
    - rewrite He in Hz. by rewrite Hz, pos_0 in Hc.
    - by rewrite He in Hr. }
  rewrite (proj2 (Z.ltb_lt _ _)) by cpos. rewrite (proj2 (Z.ltb_lt _ _)) by cpos. cbn [andb].
  set (b1 := set_conns b (delete p (m_PosConnMap b))).
  destruct (co_back b Hok p) as (id & i & Hi & Hip); [by exists c|done|].
  destruct (cluster_at b1 p) as [i'|] eqn:Ea.
  2:{ by destruct (cluster_at_None b1 p id i Ea). }
  apply cluster_at_Some in Ea as (id' & Hi' & Hip').
  assert (id' = id) as ->.
  { apply (co_inj b Hok _ _ i' i); try done; [congruence|]. rewrite Hip'. cpos. }
  change (m_mapClusterInfo b !! id = Some i') in Hi'. simplify_eq.
  assert (id ≠ m_ClusterID b) as Hne.
  { intros ->. pose proof (co_own b Hok i Hi). rewrite H0 in *. cpos. }
  rewrite (co_id b Hok id i Hi). unfold DisconnetCluster.
  rewrite (proj2 (Z.eqb_neq _ _)) by done. cbn [m_mapClusterInfo set_conns b1]. rewrite Hi.
  unfold DropCluster. rewrite (proj2 (Z.eqb_neq (ClusterInfo.ConnPos i) 0)) by cpos.
  rewrite orb_true_r. destruct (k_epoll_ctl _ _ _ _ _) as [k2 r2].
  destruct (unlink_ok b id i Hok Hi Hne) as [Hok2 Hcfg2].
  eexists _, _. split; [done|]. subst b1. cbn [m_PosConnMap set_conns set_clusters].
  rewrite delete_delete_eq. split_and!; try done.
  - intros id' i' [[-> ->]|[? Hi']]%lookup_clusters; cbn; [cpos|].
    intros He. by destruct (co_inj b Hok id' id i' i); try done; cpos.
  - intros id' i' Hi' Hn. cbn. rewrite lookup_insert_ne; [done|]. congruence.
Qed.

(** * The connections as a state machine

    One step is one of the operations that open or close connections, under
    any behaviour of the system calls.  [ListenTcp] and [ListenUdp] are called
    by [Init]; a connection with the last number of the cluster range is the
    exception [ReleaseConn] does not clean up after. *)
Inductive conn_step : K * t Q → K * t Q → Prop :=
  | StepListenTcp b k ip port k' b' r :
      ListenTcp b k ip port = (k', b', r) → conn_step (k, b) (k', b')
  | StepListenUdp b k ip port k' b' r :
      ListenUdp b k ip port = (k', b', r) → conn_step (k, b) (k', b')
  | StepAccept b k p k' b' r :
      AcceptConn b k p = Ok (k', b', r) → conn_step (k, b) (k', b')
  | StepConnect b k id k' b' r :
      ConnectCluster b k id = Ok (k', b', r) → conn_step (k, b) (k', b')
  | StepDisconnect b k id k' b' r :
      DisconnetCluster b k id = (k', b', r) → conn_step (k, b) (k', b')
  | StepRelease b k p k' b' :
      p ≠ CLUSTER_SOCK_CPOS_MAX → ReleaseConn b k p = Ok (k', b') → conn_step (k, b) (k', b')
  | StepKernel b k k' : conn_step (k, b) (k', b).

Inductive reachable : K * t Q → K * t Q → Prop :=
  | ReachRefl s : reachable s s
  | ReachStep s s1 s2 : reachable s s1 → room s1.2 → conn_step s1 s2 → reachable s s2.

Lemma conn_step_ok s s' :
  conn_step s s' → room s.2 → conns_ok s.2 → conns_ok s'.2 ∧ same_cfg s.2 s'.2.
Proof.
  intros Hs Hroom Hok. destruct Hs as [b k ip port k' b' r Hs|b k ip port k' b' r Hs|b k p k' b' r Hs
    |b k id k' b' r Hs|b k id k' b' r Hs|b k p k' b' Hp Hs|b k k']; cbn [snd] in *; [..|done].
  - destruct (ListenTcp_ok b k ip port Hok) as (? & ? & ? & Hs' & ? & ?). rewrite Hs in Hs'. by simplify_eq.
  - destruct (ListenUdp_ok b k ip port Hok) as (? & ? & ? & Hs' & ? & ?). rewrite Hs in Hs'. by simplify_eq.
  - destruct (AcceptConn_ok b k p Hok Hroom) as (? & ? & ? & Hs' & ? & ? & _). rewrite Hs in Hs'. by simplify_eq.
  - destruct (ConnectCluster_ok b k id Hok Hroom) as (? & ? & ? & Hs' & ? & ? & _). rewrite Hs in Hs'. by simplify_eq.
  - destruct (DisconnetCluster_ok b k id Hok) as (? & ? & Hs' & ? & ? & _). rewrite Hs in Hs'. by simplify_eq.
  - destruct (m_PosConnMap b !! p) as [c|] eqn:Hc.
    + destruct (ReleaseConn_ok b k p c Hok Hc Hp) as (? & ? & Hs' & ? & ? & _). rewrite Hs in Hs'. by simplify_eq.
    + unfold ReleaseConn in Hs. by rewrite Hc in Hs.
Qed.

Lemma reachable_ok s s' : reachable s s' → conns_ok s.2 → conns_ok s'.2 ∧ same_cfg s.2 s'.2.
Proof.
  induction 1 as [s|s s1 s2 _ IH Hroom Hs]; intros Hok; [done|].
  destruct (IH Hok) as [Hok1 Hcfg]. destruct (conn_step_ok s1 s2 Hs Hroom Hok1).
  split; [done|]. by trans s1.2.
Qed.
End operations.
