(* ===== verification/BusRoute.v ===== *)
(** Routing in the bus daemon ([CBus] of bus/bus.cpp): what is done with a
    package from another cluster ([ProcessPkg]) and with a message from a local
    server ([ForwardMsg]), and the messages the daemons exchange. *)
From stdpp Require Import gmap sorting.
From S2P Require Import Prelude Fifo Wire Kernel ConnInfo BusState BusConn.
Import CBus.

Definition TO_SRV : Z := 0.
Definition TO_GRP_RND : Z := 1.
Definition TO_GRP_RNDNOME : Z := 2.
Definition TO_GRP_ALLNOME : Z := 3.
Definition TO_GRP_ALL : Z := 4.

Definition Cmd_HelloMessage : Z := 1.
Definition Cmd_Heartbeat : Z := 2.
Definition Cmd_Transfer : Z := 3.
Definition Cmd_StateChange : Z := 4.

(** The Protocol Buffers messages of bus.proto: the bytes of a message with
    all its fields set, and what [ParseFromArray] reads from bytes. *)
Class BusProto : Type := {
  pb_enc_cluster : Z → list Z;                  (** HelloMessage, HeartbeatMsg *)
  pb_dec_cluster : list Z → option Z;
  pb_dec_state : list Z → option (Z * Z);       (** StateChangeMsg: server, status *)
}.

(** A message parses back from its own bytes. *)
Class BusProtoLaws `{BusProto} : Prop :=
  pb_cluster_law id : 0 ≤ id < 2 ^ 32 → pb_dec_cluster (pb_enc_cluster id) = Some id.

(** [CRandomTool::Get] with [r] the result of [rand()], whose maximum is
    2^31 - 1: the doubles involved are exact for ranges below 2^22. *)
Module CRandomTool.
Definition Get (iMin iMax r : Z) : Z := iMin + (iMax - iMin) * r ÷ 2 ^ 31.

Lemma Get_range n r : 0 < n → 0 ≤ r < 2 ^ 31 → 0 ≤ Get 0 n r < n.
Proof.
  intros. unfold Get. rewrite Z.quot_div_nonneg by nia. split.
  - apply Z.add_nonneg_nonneg; [lia|]. apply Z.div_pos; nia.
  - rewrite Z.add_0_l. apply Z.div_lt_upper_bound; nia.
Qed.
End CRandomTool.

(** The header [ForwardMsg] gives a message for one destination. *)
Definition stamp (h : BusHeader.t) (dst now : Z) : BusHeader.t :=
  BusHeader.mk (BusHeader.PkgLen h) (BusHeader.CmdID h) (BusHeader.SrcID h) dst
    (if BusHeader.PkgTime h =? 0 then now else BusHeader.PkgTime h) TO_SRV (BusHeader.Flag h).

Module CBusRoute.
Section operations.
Context {Q K : Type} `{FifoOps Q} `{Kernel K} `{BusProto}.
Implicit Types (b : t Q) (k : K).

Definition set_conn b (p : Z) (c : CConnInfo.t) : t Q :=
  set_conns b (<[p := c]> (m_PosConnMap b)).
Definition set_server b (id : Z) (i : ServerInfo.t Q) : t Q :=
  set_servers b (<[id := i]> (m_mapSvrInfo b)).

Definition Send2Cluster b k (Info : ClusterInfo.t) (pSendBuff : list Z) (SendBuffLen : Z)
    : outcome (K * t Q * Z) :=
  if (ClusterInfo.SocketID Info =? -1) || (ClusterInfo.ConnPos Info =? 0) then Ok (k, b, 0) else
  let p := ClusterInfo.ConnPos Info in
  match m_PosConnMap b !! p with
  | None => Ok (k, b, -1)
  | Some c =>
      '(k, c, r) ← CConnInfo.SendOrKeep k c pSendBuff SendBuffLen;
      let b := set_conn b p c in
      if r <? 0 then '(k, b) ← ReleaseConn b k p; Ok (k, b, r)
      else if r =? 1 then
        let '(k, _) := k_epoll_ctl k EPOLL_CTL_MOD (CConnInfo.m_SockID c)
                         (Z.lor EPOLL_CONN EPOLLOUT) p in
        Ok (k, b, 0)
      else Ok (k, b, 0)
  end.

(** [Rsp] is the serialised message. *)
Definition Send2ClusterByMsg b k (Info : ClusterInfo.t) (CmdID : Z) (Rsp : list Z)
    : outcome (K * t Q * Z) :=
  let HeaderLen := BusHeader.GetHeaderLen in
  if XY_PKG_MAX_LEN - HeaderLen <? zlen Rsp then Ok (k, b, -1) else
  buf ← mwrite (replicate (Z.to_nat XY_PKG_MAX_LEN) 0) HeaderLen Rsp;
  let h := BusHeader.mk (u32 (HeaderLen + zlen Rsp)) CmdID 0 0 0 0 0 in
  '(buf, _) ← BusHeader.Write h buf 0;
  Send2Cluster b k Info buf (BusHeader.PkgLen h).

(** The loops over [m_mapClusterInfo] that skip the own cluster. *)
Fixpoint SendHeartBeet_loop b k (ids : list Z) : outcome (K * t Q) :=
  match ids with
  | [] => Ok (k, b)
  | id :: ids =>
      match m_mapClusterInfo b !! id with
      | None => SendHeartBeet_loop b k ids
      | Some i =>
          if ClusterInfo.ClusterID i =? m_ClusterID b then SendHeartBeet_loop b k ids
          else
            '(k, b, _) ← Send2ClusterByMsg b k i Cmd_Heartbeat (pb_enc_cluster (m_ClusterID b));
            SendHeartBeet_loop b k ids
      end
  end.

Definition SendHeartBeetMessage b k : outcome (K * t Q) :=
  SendHeartBeet_loop b k (map_keys (m_mapClusterInfo b)).

(** The datagram that says hello; [None] when the message does not fit. *)
Definition HelloPkg b : outcome (option (list Z * Z)) :=
  let HeaderLen := BusHeader.GetHeaderLen in
  let Msg := pb_enc_cluster (m_ClusterID b) in
  if 1024 - HeaderLen <? zlen Msg then Ok None else
  buf ← mwrite (replicate 1024 0) HeaderLen Msg;
  let h := BusHeader.mk (u32 (HeaderLen + zlen Msg)) Cmd_HelloMessage 0 0 0 0 0 in
  '(buf, _) ← BusHeader.Write h buf 0;
  Ok (Some (buf, BusHeader.PkgLen h)).

Fixpoint SendHello_loop b k (ids : list Z) : outcome K :=
  match ids with
  | [] => Ok k
  | id :: ids =>
      match m_mapClusterInfo b !! id with
      | None => SendHello_loop b k ids
      | Some i =>
          if ClusterInfo.ClusterID i =? m_ClusterID b then SendHello_loop b k ids
          else
            p ← HelloPkg b;
            match p with
            | None => Ok k
            | Some (buf, len) =>
                let '(k, s) := k_socket k SOCK_DGRAM in
                if s =? -1 then Ok k else
                d ← mread buf 0 len;
                let '(k, _) := k_sendto k s d (ClusterInfo.ClusterIP i)
                                 (htons (u16 (ClusterInfo.ClusterPort i))) in
                SendHello_loop b (k_close k s) ids
            end
      end
  end.

Definition SendHelloMessage b k : outcome K :=
  SendHello_loop b k (map_keys (m_mapClusterInfo b)).

(** [stack] is what the 1024-byte buffer held before. *)
Definition RecvHelloMessage b k (stack : list Z) (ConnPos : Z) : outcome (K * t Q) :=
  match m_PosConnMap b !! ConnPos with
  | None => Ok (k, b)
  | Some c =>
      let '(k, RecvSize, d) := k_recvfrom k (CConnInfo.m_SockID c) 1024 in
      if RecvSize <=? 0 then Ok (k, b) else
      buf ← mwrite stack 0 d;
      '(h, Offset) ← BusHeader.Read buf 0;
      if negb (BusHeader.CmdID h =? Cmd_HelloMessage) then Ok (k, b) else
      body ← mread buf Offset (RecvSize - Offset);
      match pb_dec_cluster body with
      | None => Ok (k, b)
      | Some ClusterID =>
          match m_mapClusterInfo b !! ClusterID with
          | None => Ok (k, b)
          | Some i =>
              if negb (ClusterID =? m_ClusterID b) &&
                 ((ClusterInfo.SocketID i =? -1) || (ClusterInfo.ConnPos i =? 0))
              then '(k, b, _) ← ConnectCluster b k ClusterID; Ok (k, b)
              else Ok (k, b)
          end
      end
  end.

(** Putting a message into the queue of a local server: 0, an error of the
    queue, or 0 when the server has no queue. *)
Definition Enqueue b (DstID : Z) (Info : ServerInfo.t Q) (buf : list Z) (PkgLen : Z)
    : outcome (t Q * Z) :=
  match ServerInfo.pQueue Info with
  | Some q =>
      d ← mread buf 0 PkgLen;
      '(q, Ret) ← q_in q d PkgLen;
      Ok (set_server b DstID (ServerInfo.set_queue Info q), Ret)
  | None => Ok (b, 0)
  end.

(** A package of [RecvLen] bytes or less at [o] in the receive buffer [m]. *)
Definition ProcessPkg b (m : list Z) (o RecvLen : Z) : outcome (t Q * Z) :=
  let HeaderLen := BusHeader.GetHeaderLen in
  if RecvLen <? HeaderLen then Ok (b, HeaderLen) else
  '(CurHeader, _) ← BusHeader.Read m o;
  let PkgLen := i32 (BusHeader.PkgLen CurHeader) in
  if RecvLen <? PkgLen then Ok (b, PkgLen) else
  if XY_PKG_MAX_LEN <? PkgLen then Ok (b, PkgLen) else
  d ← mread m o PkgLen;
  buf ← mwrite (m_pProcessBuff b) 0 d;
  let b := set_buff b buf in
  if negb (BusHeader.SendType CurHeader =? TO_SRV) then Ok (b, PkgLen)
  else if BusHeader.CmdID CurHeader =? Cmd_Heartbeat then
    _ ← mread buf HeaderLen (PkgLen - HeaderLen);
    Ok (b, PkgLen)
  else if BusHeader.CmdID CurHeader =? Cmd_StateChange then
    body ← mread buf HeaderLen (PkgLen - HeaderLen);
    match pb_dec_state body with
    | None => Ok (b, PkgLen)
    | Some (ServerID, Status) =>
        match m_mapSvrInfo b !! u32 ServerID with
        | None => Ok (b, PkgLen)
        | Some i => Ok (set_server b (u32 ServerID) (ServerInfo.set_status i Status), PkgLen)
        end
    end
  else
    match m_mapSvrInfo b !! BusHeader.DstID CurHeader with
    | None => Ok (b, PkgLen)
    | Some Info =>
        if ServerInfo.ClusterID Info =? m_ClusterID b then
          '(b, _) ← Enqueue b (BusHeader.DstID CurHeader) Info buf PkgLen;
          Ok (b, PkgLen)
        else Ok (b, PkgLen)
    end.

(** The members of a group a message may go to. *)
Definition group_members (vct : list Z) (SrcID : Z) (nome : bool) : list Z :=
  filter (λ id, negb ((id =? SrcID) && nome) = true) vct.

(** The servers a message is for, or an error. *)
Definition Destinations b k (h : BusHeader.t) : outcome (K * option (list Z)) :=
  let DstID := BusHeader.DstID h in
  let SendType := BusHeader.SendType h in
  if (SendType =? TO_GRP_RND) || (SendType =? TO_GRP_RNDNOME) then
    match m_mapGrpInfo b !! DstID with
    | None => Ok (k, None)
    | Some vct =>
        let vctServerID := group_members vct (BusHeader.SrcID h) (SendType =? TO_GRP_RNDNOME) in
        let Size := zlen vctServerID in
        if Size =? 0 then Ok (k, None) else
        let '(k, r) := k_rand k in
        dst ← aget vctServerID (CRandomTool.Get 0 Size r);
        Ok (k, Some [dst])
    end
  else if (SendType =? TO_GRP_ALLNOME) || (SendType =? TO_GRP_ALL) then
    match m_mapGrpInfo b !! DstID with
    | None => Ok (k, None)
    | Some vct =>
        Ok (k, Some (group_members vct (BusHeader.SrcID h) (SendType =? TO_GRP_ALLNOME)))
    end
  else Ok (k, Some [DstID]).

(** The delivery loop of [ForwardMsg]: the message is in [m_pProcessBuff],
    and [h] is [CurHeader]. *)
Fixpoint Deliver b k (h : BusHeader.t) (PkgLen : Z) (vctDstID : list Z)
    : outcome (K * t Q * Z) :=
  match vctDstID with
  | [] => Ok (k, b, 0)
  | DstID :: vctDstID =>
      let '(k, now) := if BusHeader.PkgTime h =? 0 then k_time k else (k, 0) in
      let h := stamp h DstID now in
      '(buf, _) ← BusHeader.Write h (m_pProcessBuff b) 0;
      let b := set_buff b buf in
      match m_mapSvrInfo b !! DstID with
      | None => Ok (k, b, -1)
      | Some Info =>
          if ServerInfo.ClusterID Info =? m_ClusterID b then
            '(b, Ret) ← Enqueue b DstID Info buf PkgLen;
            if Ret =? 0 then Deliver b k h PkgLen vctDstID else Ok (k, b, -1)
          else
            match m_mapClusterInfo b !! ServerInfo.ClusterID Info with
            | None => Deliver b k h PkgLen vctDstID
            | Some i =>
                '(k, b, Ret) ← Send2Cluster b k i buf PkgLen;
                if Ret =? 0 then Deliver b k h PkgLen vctDstID else Ok (k, b, -1)
            end
      end
  end.

(** A state change is passed on to every other cluster, until one fails. *)
Fixpoint ForwardState_loop b k (PkgLen : Z) (ids : list Z) : outcome (K * t Q * Z) :=
  match ids with
  | [] => Ok (k, b, 0)
  | id :: ids =>
      match m_mapClusterInfo b !! id with
      | None => ForwardState_loop b k PkgLen ids
      | Some i =>
          if ClusterInfo.ClusterID i =? m_ClusterID b then ForwardState_loop b k PkgLen ids
          else
            '(k, b, Ret) ← Send2Cluster b k i (m_pProcessBuff b) PkgLen;
            if Ret =? 0 then ForwardState_loop b k PkgLen ids else Ok (k, b, -1)
      end
  end.

Definition ForwardState b k (SendType PkgLen : Z) : outcome (K * t Q * Z) :=
  let HeaderLen := BusHeader.GetHeaderLen in
  if negb (SendType =? TO_SRV) then Ok (k, b, -1) else
  body ← mread (m_pProcessBuff b) HeaderLen (PkgLen - HeaderLen);
  match pb_dec_state body with
  | None => Ok (k, b, -1)
  | Some (ServerID, Status) =>
      match m_mapSvrInfo b !! u32 ServerID with
      | None => Ok (k, b, -1)
      | Some i =>
          let b := set_server b (u32 ServerID) (ServerInfo.set_status i Status) in
          ForwardState_loop b k PkgLen (map_keys (m_mapClusterInfo b))
      end
  end.

(** [pCurBuffPos] is [m_pProcessBuff], as [Run] calls it. *)
Definition ForwardMsg b k (RecvLen : Z) : outcome (K * t Q * Z) :=
  if RecvLen <? BusHeader.GetHeaderLen then Ok (k, b, -1) else
  '(CurHeader, _) ← BusHeader.Read (m_pProcessBuff b) 0;
  let PkgLen := i32 (BusHeader.PkgLen CurHeader) in
  if negb (RecvLen =? PkgLen) then Ok (k, b, -1) else
  if XY_PKG_MAX_LEN <? PkgLen then Ok (k, b, -1) else
  if BusHeader.CmdID CurHeader =? Cmd_StateChange
  then ForwardState b k (BusHeader.SendType CurHeader) PkgLen
  else
    '(k, dsts) ← Destinations b k CurHeader;
    match dsts with
    | None => Ok (k, b, -1)
    | Some vctDstID => Deliver b k CurHeader PkgLen vctDstID
    end.

End operations.
End CBusRoute.
