(* ===== verification/BusFacts.v ===== *)
(** What the routing operations of the bus do, against a view of the bus that
    only knows the messages waiting in each server's queue. *)
From stdpp Require Import gmap sorting functions.
From S2P Require Import Prelude Fifo Wire Kernel ConnInfo BusState BusConn BusRoute.
Import CBus CBusRoute.

#[local] Arguments Z.add : simpl never.
#[local] Arguments Z.eqb : simpl never.
#[local] Arguments Z.ltb : simpl never.
#[local] Arguments Z.leb : simpl never.

(** A message on the wire: the bytes of a header and a body. *)
Definition msg_bytes (h : BusHeader.t) (body : list Z) : list Z := bus_bytes h ++ body.

(** A package whose length field tells its length. *)
Record msg_ok (h : BusHeader.t) (body : list Z) : Prop := {
  msg_hdr : bus_ok h;
  msg_body : Forall byte_ok body;
  msg_len : BusHeader.PkgLen h = 26 + zlen body;
  msg_max : 26 + zlen body ≤ XY_PKG_MAX_LEN;
}.

Lemma zlen_msg_bytes h body : zlen (msg_bytes h body) = 26 + zlen body.
Proof. unfold msg_bytes. by rewrite zlen_app, zlen_bus_bytes. Qed.

Lemma msg_i32 h body : msg_ok h body → i32 (BusHeader.PkgLen h) = 26 + zlen body.
Proof.
  intros [_ _ Hl Hm]. rewrite Hl. apply i32_small. pose proof (zlen_nonneg body).
  unfold XY_PKG_MAX_LEN in Hm. lia.
Qed.

Lemma mread_front {A} (m a d : list A) o n :
  0 ≤ n → mread m o n = Ok (a ++ d) → mread m o (zlen a) = Ok a.
Proof.
  intros ? Hr. pose proof (mread_zlen _ _ _ _ Hr) as Hz. rewrite zlen_app in Hz.
  pose proof (zlen_nonneg d). pose proof (zlen_nonneg a).
  destruct (mread_app m a d o (zlen a) (zlen d)) as [? _]; [done..| |done].
  by rewrite Hz.
Qed.

Section view.
Context {Q : Type} `{FifoQueue Q}.
Implicit Types (b : t Q) (M : Z → list (list Z)).

(** The messages of every queue. *)
Definition holds b M : Prop :=
  ∀ id i q, m_mapSvrInfo b !! id = Some i → ServerInfo.pQueue i = Some q → q_rep q (M id).

(** Servers of this cluster with a queue, and what bounds it. *)
Definition route b (id : Z) : option Z :=
  i ← m_mapSvrInfo b !! id;
  if ServerInfo.ClusterID i =? m_ClusterID b then q_cap <$> ServerInfo.pQueue i else None.

(** A message offered to a server's queue. *)
Definition offer (rt : Z → option Z) M (id : Z) (d : list Z) : Z → list (list Z) :=
  match rt id with
  | Some cap => if q_fits cap (M id) d then <[id := M id ++ [d]]> M else M
  | None => M
  end.

Definition internal (h : BusHeader.t) : bool :=
  (BusHeader.CmdID h =? Cmd_Heartbeat) || (BusHeader.CmdID h =? Cmd_StateChange).

(** A package that arrived from another cluster. *)
Definition arrive (rt : Z → option Z) M (p : BusHeader.t * list Z) : Z → list (list Z) :=
  if (BusHeader.SendType p.1 =? TO_SRV) && negb (internal p.1)
  then offer rt M (BusHeader.DstID p.1) (msg_bytes p.1 p.2) else M.

(** Everything but the queues, the states of the servers and the buffer. *)
Record same_net b b' : Prop := {
  sn_id : m_ClusterID b' = m_ClusterID b;
  sn_cnt : m_ConnPosCnt b' = m_ConnPosCnt b;
  sn_ccnt : m_ClusterPosCnt b' = m_ClusterPosCnt b;
  sn_conns : m_PosConnMap b' = m_PosConnMap b;
  sn_clusters : m_mapClusterInfo b' = m_mapClusterInfo b;
  sn_grp : m_mapGrpInfo b' = m_mapGrpInfo b;
  sn_queue : m_ClusterQueue b' = m_ClusterQueue b;
  sn_route id : route b' id = route b id;
  sn_buff : zlen (m_pProcessBuff b') = zlen (m_pProcessBuff b);
}.

#[export] Instance same_net_refl : Reflexive same_net.
Proof. by constructor. Qed.
#[export] Instance same_net_trans : Transitive same_net.
Proof. intros ??? [] []. constructor; try congruence. Qed.

Lemma offer_ext rt rt' M id d : (∀ x, rt x = rt' x) → offer rt M id d = offer rt' M id d.
Proof. intros Hr. unfold offer. by rewrite Hr. Qed.

Lemma arrive_ext rt rt' M p : (∀ x, rt x = rt' x) → arrive rt M p = arrive rt' M p.
Proof. intros Hr. unfold arrive. by rewrite (offer_ext rt rt'). Qed.

Lemma route_set_buff b m id : route (set_buff b m) id = route b id.
Proof. done. Qed.

Lemma route_set_server b id i i' x :
  m_mapSvrInfo b !! id = Some i → ServerInfo.ClusterID i' = ServerInfo.ClusterID i →
  q_cap <$> ServerInfo.pQueue i' = q_cap <$> ServerInfo.pQueue i →
  route (set_server b id i') x = route b x.
Proof.
  intros Hi Hc Hq. unfold route. cbn. destruct (decide (x = id)) as [->|].
  - rewrite lookup_insert_eq, Hi. cbn. by rewrite Hc, Hq.
  - by rewrite lookup_insert_ne by done.
Qed.

Lemma holds_status b M id i s :
  holds b M → m_mapSvrInfo b !! id = Some i →
  holds (set_server b id (ServerInfo.set_status i s)) M.
Proof.
  intros Hh Hi x j q. cbn. destruct (decide (x = id)) as [->|].
  - rewrite lookup_insert_eq. intros [= <-]. cbn. eauto.
  - rewrite lookup_insert_ne by done. eauto.
Qed.

(** [InQueue] on the queue of a server: the message goes in if it fits. *)
Lemma Enqueue_ok b M id i buf d :
  holds b M → m_mapSvrInfo b !! id = Some i → 0 < zlen d ≤ q_max → mread buf 0 (zlen d) = Ok d →
  ServerInfo.ClusterID i = m_ClusterID b →
  ∃ b' r, Enqueue b id i buf (zlen d) = Ok (b', r) ∧ holds b' (offer (route b) M id d) ∧
    same_net b b' ∧ m_pProcessBuff b' = m_pProcessBuff b ∧
    r = match route b id with
        | Some cap => if q_fits cap (M id) d then Q_OK else Q_FULL
        | None => 0
        end.
Proof.
  intros Hh Hi Hd Hr Hc. unfold Enqueue, offer.
  assert (route b id = q_cap <$> ServerInfo.pQueue i) as Hrt.
  { unfold route. rewrite Hi. cbn. by rewrite Hc, Z.eqb_refl. }
  rewrite Hrt. destruct (ServerInfo.pQueue i) as [q|] eqn:Hq; cbn [fmap option_fmap option_map];
    [|by eexists _, _].
  rewrite Hr. cbn [mbind outcome_bind]. pose proof (Hh id i q Hi Hq) as Hrep.
  assert (∀ q', q_cap q' = q_cap q → same_net b (set_server b id (ServerInfo.set_queue i q'))) as Hnet.
  { intros q' Hcap. constructor; try done. intros x. apply (route_set_server _ _ i); try done.
    cbn. by rewrite Hq, Hcap. }
  assert (∀ q' ms, q_rep q' ms → holds (set_server b id (ServerInfo.set_queue i q')) (<[id := ms]> M)) as Hhold.
  { intros q' ms Hq' x j p. cbn. destruct (decide (x = id)) as [->|].
    - rewrite lookup_insert_eq, fn_lookup_insert. intros [= <-] [= <-]. done.
    - rewrite lookup_insert_ne, fn_lookup_insert_ne by done. apply Hh. }
  destruct (q_fits (q_cap q) (M id) d) eqn:Hf.
  - destruct (q_in_fits q (M id) d) as (q' & -> & Hq' & Hcap); [done..|]. cbn [mbind outcome_bind].
    eexists _, _. split; [done|]. split; [by apply Hhold|]. split; [by apply Hnet|done].
  - destruct (q_in_full q (M id) d) as (q' & -> & Hq' & Hcap); [done..|]. cbn [mbind outcome_bind].
    eexists _, _. split; [done|]. split; [|by split; [apply Hnet|]].
    intros x j p Hj Hp. generalize (Hhold q' (M id) Hq' x j p Hj Hp).
    destruct (decide (x = id)) as [->|]; [by rewrite fn_lookup_insert|by rewrite fn_lookup_insert_ne].
Qed.
End view.

Section process.
Context {Q : Type} `{FifoQueue Q} `{BusProto}.
Hypothesis Hmax : XY_PKG_MAX_LEN ≤ q_max.
Implicit Types (b : t Q) (M : Z → list (list Z)).

(** The state [ProcessPkg] works on: every queue holds messages, and the
    buffer has its size. *)
Definition ready b M : Prop := holds b M ∧ zlen (m_pProcessBuff b) = XY_PKG_MAX_LEN.

Lemma Read_msg m o n h body :
  msg_ok h body → 0 ≤ n → mread m o n = Ok (msg_bytes h body) → BusHeader.Read m o = Ok (h, 26).
Proof.
  intros Hm Hn Hr. apply bus_Read_bytes; [apply Hm|].
  apply mread_front in Hr; [|done]. by rewrite zlen_bus_bytes in Hr.
Qed.

Lemma mread_body h body rest :
  mread (msg_bytes h body ++ rest) 26 (26 + zlen body - 26) = Ok body.
Proof.
  pose proof (zlen_nonneg body). unfold msg_bytes. rewrite <- app_assoc.
  rewrite mread_ok; [|lia|lia|rewrite !zlen_app, zlen_bus_bytes; pose proof (zlen_nonneg rest); lia].
  rewrite drop_app_length' by (pose proof (zlen_bus_bytes h); unfold zlen in *; lia).
  rewrite take_app_length' by (unfold zlen; lia). done.
Qed.

(** Too few bytes: the answer is more than there are, and nothing happens. *)
Lemma ProcessPkg_short b m o RecvLen : RecvLen < 26 → ProcessPkg b m o RecvLen = Ok (b, 26).
Proof.
  intros. unfold ProcessPkg, BusHeader.GetHeaderLen.
  by rewrite (proj2 (Z.ltb_lt RecvLen 26)) by lia.
Qed.

Lemma ProcessPkg_incomplete b m o RecvLen h :
  26 ≤ RecvLen → BusHeader.Read m o = Ok (h, 26) → RecvLen < i32 (BusHeader.PkgLen h) →
  ProcessPkg b m o RecvLen = Ok (b, i32 (BusHeader.PkgLen h)).
Proof.
  intros Hl Hr Hp. unfold ProcessPkg, BusHeader.GetHeaderLen.
  rewrite (proj2 (Z.ltb_ge RecvLen 26)), Hr by lia. cbn [mbind outcome_bind].
  by rewrite (proj2 (Z.ltb_lt RecvLen _)) by lia.
Qed.

Lemma ProcessPkg_ok b M m o RecvLen h body :
  ready b M → msg_ok h body →
  mread m o (26 + zlen body) = Ok (msg_bytes h body) → 26 + zlen body ≤ RecvLen →
  ∃ b', ProcessPkg b m o RecvLen = Ok (b', 26 + zlen body) ∧
    ready b' (arrive (route b) M (h, body)) ∧ same_net b b' ∧
    m_pProcessBuff b' = msg_bytes h body ++ drop (length (msg_bytes h body)) (m_pProcessBuff b).
Proof.
  intros [Hh Hb] Hm Hr Hl. pose proof (zlen_nonneg body). pose proof (zlen_msg_bytes h body) as Hz.
  unfold ProcessPkg, BusHeader.GetHeaderLen.
  rewrite (proj2 (Z.ltb_ge RecvLen 26)) by lia.
  rewrite (Read_msg m o (26 + zlen body) h body Hm ltac:(lia) Hr). cbn [mbind outcome_bind].
  rewrite (msg_i32 h body Hm).
  rewrite (proj2 (Z.ltb_ge RecvLen _)), (proj2 (Z.ltb_ge XY_PKG_MAX_LEN _)), Hr
    by (try apply Hm; lia).
  cbn [mbind outcome_bind].
  rewrite mwrite_head by (rewrite Hz, Hb; apply Hm). cbn [mbind outcome_bind].
  set (buf := msg_bytes h body ++ _). set (b1 := set_buff b buf).
  assert (same_net b b1) as Hn1.
  { constructor; try done. unfold b1, buf. cbn [m_pProcessBuff set_buff]. rewrite zlen_app.
    assert (zlen (msg_bytes h body) ≤ zlen (m_pProcessBuff b)) by (rewrite Hz, Hb; apply Hm).
    unfold zlen in *. rewrite length_drop. lia. }
  assert (zlen buf = XY_PKG_MAX_LEN) as Hbuf by (rewrite <- Hb; apply Hn1).
  assert (holds b1 M) as Hh1 by done.
  unfold arrive, internal. cbn [fst snd].
  destruct (BusHeader.SendType h =? TO_SRV); cbn [negb andb]; [|by exists b1].
  destruct (BusHeader.CmdID h =? Cmd_Heartbeat); cbn [orb negb].
  { unfold buf. rewrite mread_body. cbn [mbind outcome_bind]. by exists b1. }
  destruct (BusHeader.CmdID h =? Cmd_StateChange); cbn [negb].
  { unfold buf at 1. rewrite mread_body. cbn [mbind outcome_bind].
    destruct (pb_dec_state body) as [[sid st]|]; [|by exists b1].
    destruct (m_mapSvrInfo b1 !! u32 sid) as [i|] eqn:Hi; [|by exists b1].
    eexists. split; [done|]. split; [split; [by apply holds_status|done]|]. split; [|done].
    trans b1; [done|]. constructor; try done. intros id. by apply (route_set_server _ _ i). }
  destruct (m_mapSvrInfo b1 !! BusHeader.DstID h) as [i|] eqn:Hi.
  2:{ exists b1. split; [done|]. split; [|done]. split; [|done].
      unfold offer. replace (route b (BusHeader.DstID h)) with (@None Z); [done|].
      unfold route. change (m_mapSvrInfo b) with (m_mapSvrInfo b1). by rewrite Hi. }
  destruct (Z.eqb_spec (ServerInfo.ClusterID i) (m_ClusterID b1)) as [Hc|Hc].
  - destruct (Enqueue_ok b1 M (BusHeader.DstID h) i buf (msg_bytes h body))
      as (b' & r & He & Hh' & Hn' & Hb' & _); try done.
    { rewrite Hz. destruct Hm. lia. }
    { apply mread_head. }
    rewrite Hz in He. rewrite He. cbn [mbind outcome_bind]. exists b'. split; [done|].
    split; [split; [done|by rewrite (sn_buff _ _ Hn')]|]. split; [by trans b1|done].
  - exists b1. split; [done|]. split; [|done]. split; [|done].
    unfold offer. replace (route b (BusHeader.DstID h)) with (@None Z); [done|].
    unfold route. change (m_mapSvrInfo b) with (m_mapSvrInfo b1). rewrite Hi. cbn.
    by rewrite (proj2 (Z.eqb_neq _ _)).
Qed.

(** A state change only changes the state of its server. *)
Lemma ProcessPkg_state b m o RecvLen h body sid st i :
  zlen (m_pProcessBuff b) = XY_PKG_MAX_LEN → msg_ok h body →
  mread m o (26 + zlen body) = Ok (msg_bytes h body) → 26 + zlen body ≤ RecvLen →
  BusHeader.SendType h = TO_SRV → BusHeader.CmdID h = Cmd_StateChange →
  pb_dec_state body = Some (sid, st) → m_mapSvrInfo b !! u32 sid = Some i →
  ∃ buf, ProcessPkg b m o RecvLen
    = Ok (set_server (set_buff b buf) (u32 sid) (ServerInfo.set_status i st), 26 + zlen body).
Proof.
  intros Hb Hm Hr Hl Ht Hcmd Hd Hi. pose proof (zlen_nonneg body). pose proof (zlen_msg_bytes h body) as Hz.
  unfold ProcessPkg, BusHeader.GetHeaderLen.
  rewrite (proj2 (Z.ltb_ge RecvLen 26)) by lia.
  rewrite (Read_msg m o (26 + zlen body) h body Hm ltac:(lia) Hr). cbn [mbind outcome_bind].
  rewrite (msg_i32 h body Hm).
  rewrite (proj2 (Z.ltb_ge RecvLen _)), (proj2 (Z.ltb_ge XY_PKG_MAX_LEN _)), Hr
    by (try apply Hm; lia).
  cbn [mbind outcome_bind].
  rewrite mwrite_head by (rewrite Hz, Hb; apply Hm). cbn [mbind outcome_bind].
  rewrite Ht, Hcmd. cbn [Z.eqb negb]. change (TO_SRV =? TO_SRV) with true. cbn [negb].
  change (Cmd_StateChange =? Cmd_Heartbeat) with false.
  change (Cmd_StateChange =? Cmd_StateChange) with true.
  rewrite mread_body. cbn [mbind outcome_bind]. rewrite Hd. cbn [m_mapSvrInfo set_buff].
  rewrite Hi. by eexists.
Qed.
End process.

(** * Forwarding *)

Definition with_time (h : BusHeader.t) (x : Z) : BusHeader.t :=
  BusHeader.mk (BusHeader.PkgLen h) (BusHeader.CmdID h) (BusHeader.SrcID h) (BusHeader.DstID h)
    x (BusHeader.SendType h) (BusHeader.Flag h).

Lemma elem_of_group_members id vct src nome :
  id ∈ group_members vct src nome ↔ id ∈ vct ∧ ¬ (nome = true ∧ id = src).
Proof.
  unfold group_members. rewrite list_elem_of_filter, negb_true_iff, andb_false_iff, Z.eqb_neq.
  destruct nome; naive_solver.
Qed.

Lemma group_members_filter vct src nome :
  group_members vct src nome = filter (λ id, ¬ (nome = true ∧ id = src)) vct.
Proof.
  apply list_filter_iff. intros id. rewrite negb_true_iff, andb_false_iff, Z.eqb_neq.
  destruct nome; naive_solver.
Qed.

Lemma NoDup_group_members vct src nome : NoDup vct → NoDup (group_members vct src nome).
Proof. apply NoDup_filter. Qed.

(** The header of a message in the buffer is overwritten in place. *)
Lemma Write_front h' (hd body rest : list Z) :
  zlen hd = 26 →
  BusHeader.Write h' (hd ++ body ++ rest) 0 = Ok (msg_bytes h' body ++ rest, 26).
Proof.
  intros Hh. apply bus_Write_bytes. pose proof (zlen_bus_bytes h').
  rewrite mwrite_head by (rewrite zlen_app; pose proof (zlen_nonneg (body ++ rest)); lia).
  rewrite drop_app_length' by (unfold zlen in *; lia). unfold msg_bytes. by rewrite <- app_assoc.
Qed.

Section forward.
Context {Q K : Type} `{FifoQueue Q} `{Kernel K} `{BusProto}.
Hypothesis Hmax : XY_PKG_MAX_LEN ≤ q_max.
Implicit Types (b : t Q) (M : Z → list (list Z)) (k : K).

(** The buffer holds a message: some header, this body. *)
Definition has_body b (body : list Z) : Prop :=
  ∃ hd rest, m_pProcessBuff b = hd ++ body ++ rest ∧ zlen hd = 26.

(** Local delivery of one message to a list of servers: it stops at the first
    queue that is full. *)
Fixpoint deliver_all (rt : Z → option Z) M (h : BusHeader.t) (body : list Z) (ds : list Z)
    : (Z → list (list Z)) * Z :=
  match ds with
  | [] => (M, 0)
  | d :: ds =>
      let m := msg_bytes (stamp h d 0) body in
      match rt d with
      | Some cap =>
          if q_fits cap (M d) m then deliver_all rt (<[d := M d ++ [m]]> M) h body ds
          else (M, -1)
      | None => deliver_all rt M h body ds
      end
  end.

Lemma deliver_all_ext rt rt' M h body ds :
  (∀ x, rt x = rt' x) → deliver_all rt M h body ds = deliver_all rt' M h body ds.
Proof.
  intros Hr. revert M. induction ds as [|d ds IH]; intros M; cbn [deliver_all]; [done|].
  rewrite Hr. destruct (rt' d); [|done]. by destruct (q_fits _ _ _).
Qed.

Lemma deliver_all_stamp rt M h body ds d now :
  BusHeader.PkgTime h ≠ 0 →
  deliver_all rt M (stamp h d now) body ds = deliver_all rt M h body ds.
Proof.
  intros Ht. revert M. induction ds as [|d' ds IH]; intros M; cbn [deliver_all]; [done|].
  assert (stamp (stamp h d now) d' 0 = stamp h d' 0) as ->.
  { unfold stamp. cbn. rewrite (proj2 (Z.eqb_neq (BusHeader.PkgTime h) 0) Ht).
    by rewrite (proj2 (Z.eqb_neq (BusHeader.PkgTime h) 0) Ht). }
  destruct (rt d'); [|done]. by destruct (q_fits _ _ _).
Qed.

(** The time is filled in once, for all destinations. *)
Lemma Deliver_time b k h n d ds k1 now :
  BusHeader.PkgTime h = 0 → k_time k = (k1, now) → now ≠ 0 →
  Deliver b k h n (d :: ds) = Deliver b k1 (with_time h now) n (d :: ds).
Proof.
  intros Hz Ht Hn. cbn [Deliver].
  change (BusHeader.PkgTime (with_time h now)) with now.
  rewrite (proj2 (Z.eqb_neq now 0) Hn), Hz, Ht. change (0 =? 0) with true.
  cbv beta iota. assert (stamp h d now = stamp (with_time h now) d 0) as ->; [|done].
  unfold stamp, with_time. cbn. rewrite Hz. change (0 =? 0) with true.
  by rewrite (proj2 (Z.eqb_neq now 0) Hn).
Qed.

(** A local member: the server entry exists and names this cluster. *)
Definition local b (id : Z) : Prop :=
  ∃ i, m_mapSvrInfo b !! id = Some i ∧ ServerInfo.ClusterID i = m_ClusterID b.

Lemma Enqueue_local b id i buf n b' r x :
  Enqueue b id i buf n = Ok (b', r) → m_mapSvrInfo b !! id = Some i → local b x → local b' x.
Proof.
  unfold Enqueue. intros He Hi (j & Hj & Hc). destruct (ServerInfo.pQueue i) as [q|]; [|injection He as <- <-; by exists j].
  apply bind_Ok in He as (d & _ & He). apply bind_Ok in He as ([q' r'] & _ & He).
  injection He as <- <-. unfold local. cbn. destruct (decide (x = id)) as [->|].
  - exists (ServerInfo.set_queue i q'). rewrite lookup_insert_eq. split; [done|]. cbn. congruence.
  - exists j. by rewrite lookup_insert_ne.
Qed.

Lemma Deliver_local b M k h body ds :
  holds b M → has_body b body → 26 + zlen body ≤ XY_PKG_MAX_LEN → BusHeader.PkgTime h ≠ 0 →
  Forall (local b) ds →
  ∃ b', Deliver b k h (26 + zlen body) ds = Ok (k, b', (deliver_all (route b) M h body ds).2) ∧
    holds b' (deliver_all (route b) M h body ds).1 ∧ same_net b b' ∧ has_body b' body.
Proof.
  intros Hh Hbuf Hlen Ht Hds. revert b M h Hh Hbuf Ht Hds.
  induction ds as [|d ds IH]; intros b M h Hh Hbuf Ht Hds; cbn [Deliver deliver_all].
  { by exists b. }
  apply Forall_cons in Hds as [(i & Hi & Hc) Hds].
  rewrite (proj2 (Z.eqb_neq (BusHeader.PkgTime h) 0) Ht).
  destruct Hbuf as (hd & rest & Hbf & Hhd).
  rewrite Hbf, Write_front by done. cbn [mbind outcome_bind].
  set (h' := stamp h d 0). set (m := msg_bytes h' body).
  set (b1 := set_buff b (m ++ rest)).
  change (m_mapSvrInfo b1) with (m_mapSvrInfo b). rewrite Hi.
  change (m_ClusterID b1) with (m_ClusterID b). rewrite (proj2 (Z.eqb_eq _ _) Hc).
  pose proof (zlen_msg_bytes h' body) as Hz. pose proof (zlen_nonneg body).
  assert (same_net b b1) as Hn1.
  { constructor; try done. unfold b1. cbn [m_pProcessBuff set_buff]. unfold m.
    rewrite Hbf, !zlen_app. lia. }
  destruct (Enqueue_ok b1 M d i (m ++ rest) m) as (b2 & r & He & Hh2 & Hn2 & Hb2 & Hr);
    [done|done|unfold m; rewrite Hz; lia|apply mread_head|done|].
  pose proof He as He'. unfold m at 2 in He. rewrite Hz in He. rewrite He. cbn [mbind outcome_bind].
  assert (same_net b b2) as Hn by (by trans b1).
  assert (has_body b2 body) as Hbody2.
  { exists (bus_bytes h'), rest. rewrite Hb2, zlen_bus_bytes. split; [|done].
    unfold b1, m, msg_bytes. cbn [m_pProcessBuff set_buff]. by rewrite <- app_assoc. }
  assert (Forall (local b2) ds) as Hds2.
  { apply (Forall_impl _ _ _ Hds). intros x Hx. by apply (Enqueue_local b1 d i (m ++ rest) (zlen m) b2 r). }
  assert (BusHeader.PkgTime h' ≠ 0) as Ht'.
  { unfold h', stamp. cbn. by rewrite (proj2 (Z.eqb_neq (BusHeader.PkgTime h) 0) Ht). }
  unfold offer in Hh2. change (route b1 d) with (route b d) in *.
  destruct (route b d) as [cap|]; [destruct (q_fits cap (M d) m)|]; subst r.
  - change (Q_OK =? 0) with true. destruct (IH b2 _ h' Hh2 Hbody2 Ht' Hds2) as (b3 & -> & Hh3 & Hn3 & Hb3).
    unfold h' in *. rewrite (deliver_all_ext (route b2) (route b)) in * by apply Hn.
    rewrite deliver_all_stamp in * by done. exists b3. split_and!; try done. by trans b2.
  - change (Q_FULL =? 0) with false. by exists b2.
  - change (0 =? 0) with true. destruct (IH b2 _ h' Hh2 Hbody2 Ht' Hds2) as (b3 & -> & Hh3 & Hn3 & Hb3).
    unfold h' in *. rewrite (deliver_all_ext (route b2) (route b)) in * by apply Hn.
    rewrite deliver_all_stamp in * by done. exists b3. split_and!; try done. by trans b2.
Qed.

(** On distinct servers the deliveries do not interfere. *)
Lemma deliver_all_each rt M h body ds M' :
  NoDup ds → deliver_all rt M h body ds = (M', 0) →
  ∀ id, M' id = if decide (id ∈ ds ∧ is_Some (rt id))
                then M id ++ [msg_bytes (stamp h id 0) body] else M id.
Proof.
  revert M. induction ds as [|d ds IH]; intros M Hnd Hd id; cbn in Hd.
  { injection Hd as ->. rewrite decide_False; [done|]. intros [?%elem_of_nil _]. done. }
  apply NoDup_cons in Hnd as [Hni Hnd].
  destruct (rt d) as [cap|] eqn:Hrt; [destruct (q_fits cap (M d) _)|]; [|done|].
  - rewrite (IH _ Hnd Hd id). destruct (decide (id = d)) as [->|].
    + rewrite decide_False by tauto. rewrite fn_lookup_insert, decide_True; [done|].
      split; [apply list_elem_of_here|by eexists].
    + rewrite fn_lookup_insert_ne by done. apply decide_ext. rewrite elem_of_cons. tauto.
  - rewrite (IH _ Hnd Hd id). apply decide_ext. rewrite elem_of_cons. split; [tauto|].
    intros [[->|?] Hs]; [|tauto]. rewrite Hrt in Hs. by destruct Hs.
Qed.

Lemma deliver_all_fail rt M h body ds :
  NoDup ds → (deliver_all rt M h body ds).2 ≠ 0 →
  (deliver_all rt M h body ds).2 = -1 ∧ ∃ id cap, id ∈ ds ∧ rt id = Some cap ∧
    q_fits cap (M id) (msg_bytes (stamp h id 0) body) = false.
Proof.
  revert M. induction ds as [|d ds IH]; intros M Hnd Hr; cbn in *; [done|].
  apply NoDup_cons in Hnd as [Hni Hnd].
  destruct (rt d) as [cap|] eqn:Hrt; [destruct (q_fits cap (M d) _) eqn:Hf|].
  - destruct (IH _ Hnd Hr) as (He & id & cap' & Hid & Hc & Hff). split; [done|].
    exists id, cap'. split_and!; [by apply list_elem_of_further|done|].
    rewrite fn_lookup_insert_ne in Hff; [done|]. by intros ->.
  - split; [done|]. exists d, cap. split_and!; [apply list_elem_of_here|done..].
  - destruct (IH _ Hnd Hr) as (He & id & cap' & Hid & Hc & Hff). split; [done|].
    exists id, cap'. split_and!; [by apply list_elem_of_further|done..].
Qed.
End forward.

(** * Sending to another cluster *)
Section send.
Context {Q K : Type} `{FifoQueue Q} `{KernelLaws K} `{BusProto}.
Hypothesis Hmax : XY_PKG_MAX_LEN ≤ q_max.
Implicit Types (b : t Q) (M : Z → list (list Z)) (k : K) (c : CConnInfo.t).

Lemma set_conn_ok b p c c' :
  conns_ok b → m_PosConnMap b !! p = Some c → same_conn c c' → conn_wf c' →
  conns_ok (set_conn b p c').
Proof.
  intros [] Hc [] Hwf. destruct (co_conn p c Hc) as (Hp & _ & Hr). constructor; cbn; try done.
  - intros p' c1. destruct (decide (p' = p)) as [->|].
    + rewrite lookup_insert_eq. intros [= <-]. split_and!; [congruence|done|done].
    + rewrite lookup_insert_ne by done. auto.
  - intros id i Hi. destruct (co_link id i Hi) as [?|(Hcp & c1 & Hc1 & Hs)]; [auto|]. right.
    split; [done|]. destruct (decide (ClusterInfo.ConnPos i = p)) as [He|].
    + exists c'. rewrite He, lookup_insert_eq. split; [done|]. rewrite He in Hc1. congruence.
    + exists c1. by rewrite lookup_insert_ne.
  - intros p' [c1 Hc1] Hcp. apply co_back; [|done]. destruct (decide (p' = p)) as [->|].
    + by exists c.
    + rewrite lookup_insert_ne in Hc1 by done. by exists c1.
Qed.

Lemma ReleaseConn_last b k c :
  m_PosConnMap b !! CLUSTER_SOCK_CPOS_MAX = Some c →
  ∃ k', ReleaseConn b k CLUSTER_SOCK_CPOS_MAX
        = Ok (k', set_conns b (delete CLUSTER_SOCK_CPOS_MAX (m_PosConnMap b))).
Proof.
  intros Hc. unfold ReleaseConn. rewrite Hc. destruct (k_epoll_ctl k _ _ _ _) as [k1 r1].
  change (CLUSTER_SOCK_CPOS_MAX <? CLUSTER_SOCK_CPOS_MAX) with false. rewrite andb_false_r.
  by eexists.
Qed.

Lemma ReleaseConn_gone b k p c :
  conns_ok b → m_PosConnMap b !! p = Some c →
  ∃ k' b', ReleaseConn b k p = Ok (k', b') ∧ m_PosConnMap b' = delete p (m_PosConnMap b) ∧
    same_cfg b b' ∧ (p ≠ CLUSTER_SOCK_CPOS_MAX → conns_ok b').
Proof.
  intros Hok Hc. destruct (decide (p = CLUSTER_SOCK_CPOS_MAX)) as [->|Hp].
  - destruct (ReleaseConn_last b k c Hc) as [k' ->]. eexists _, _. split; [done|]. done.
  - destruct (ReleaseConn_ok b k p c Hok Hc Hp) as (k' & b' & -> & ? & ? & ? & _).
    eexists _, _. split; [done|]. done.
Qed.

Definition linked (i : ClusterInfo.t) : Prop :=
  ClusterInfo.SocketID i ≠ -1 ∧ ClusterInfo.ConnPos i ≠ 0.

Lemma Send2Cluster_ok b k i c (buf d : list Z) n :
  conns_ok b → linked i → m_PosConnMap b !! ClusterInfo.ConnPos i = Some c →
  mread buf 0 n = Ok d →
  ∃ k' b' r, Send2Cluster b k i buf n = Ok (k', b', r) ∧ same_cfg b b' ∧
    (r = 0 ∨ r = -2 ∨ r = -3) ∧
    (r = 0 → ∃ c', b' = set_conn b (ClusterInfo.ConnPos i) c' ∧ conns_ok b' ∧
       outgoing k' c' = outgoing k c ++ d ∧ only (CConnInfo.m_SockID c) k k' ∧
       same_conn c c' ∧ CConnInfo.m_RemainRecvData c' = CConnInfo.m_RemainRecvData c) ∧
    (r ≠ 0 → m_PosConnMap b' = delete (ClusterInfo.ConnPos i) (m_PosConnMap b) ∧
       (ClusterInfo.ConnPos i ≠ CLUSTER_SOCK_CPOS_MAX → conns_ok b')).
Proof.
  intros Hok [Hs Hp] Hc Hd. unfold Send2Cluster.
  rewrite (proj2 (Z.eqb_neq _ _) Hs), (proj2 (Z.eqb_neq _ _) Hp), Hc. cbn [orb].
  destruct (co_conn b Hok _ c Hc) as (_ & Hwf & _).
  destruct (SendOrKeep_ok k c buf d n Hwf Hd)
    as (k1 & c1 & r & -> & Hsame & Hon & Hwf1 & Hrv & Hr & Hout & _).
  cbn [mbind outcome_bind]. set (p := ClusterInfo.ConnPos i) in *.
  pose proof (set_conn_ok b p c c1 Hok Hc Hsame Hwf1) as Hok1.
  assert (same_cfg b (set_conn b p c1)) as Hcfg by done.
  destruct (Z.ltb_spec r 0).
  - destruct (ReleaseConn_gone (set_conn b p c1) k1 p c1) as (k2 & b2 & -> & Hd2 & Hcfg2 & Hok2);
      [done|cbn; apply lookup_insert_eq|]. cbn [mbind outcome_bind].
    eexists _, _, _. split; [done|]. split_and!; [by trans (set_conn b p c1)|lia|lia|].
    intros _. split; [|done]. rewrite Hd2. cbn. by rewrite delete_insert_eq.
  - destruct (Z.eqb_spec r 1) as [->|].
    + destruct (k_epoll_ctl k1 _ _ _ _) as [k2 r2] eqn:He.
      apply k_epoll_law in He as [Hi2 Ho2].
      eexists _, _, _. split; [done|]. split_and!; [done|by left| |done].
      intros _. exists c1. split_and!; try done.
      * rewrite <- Hout by lia. unfold outgoing. by rewrite Ho2.
      * intros x Hx. destruct (Hon x Hx). by rewrite Hi2, Ho2.
    + eexists _, _, _. split; [done|]. split_and!; [done|by left| |done].
      intros _. exists c1. split_and!; try done. apply Hout. lia.
Qed.

Lemma ForwardMsg_enter b k h body rest :
  msg_ok h body → m_pProcessBuff b = msg_bytes h body ++ rest →
  BusHeader.CmdID h ≠ Cmd_StateChange →
  ForwardMsg b k (26 + zlen body) =
    ('(k, dsts) ← Destinations b k h;
     match dsts with
     | None => Ok (k, b, -1)
     | Some ds => Deliver b k h (26 + zlen body) ds
     end).
Proof.
  intros Hm Hb Hcmd. pose proof (zlen_nonneg body). unfold ForwardMsg, BusHeader.GetHeaderLen.
  rewrite (proj2 (Z.ltb_ge _ _)) by lia.
  assert (BusHeader.Read (m_pProcessBuff b) 0 = Ok (h, 26)) as ->.
  { apply (Read_msg _ _ (26 + zlen body) _ body); [done|lia|].
    rewrite Hb, <- (zlen_msg_bytes h). apply mread_head. }
  cbn [mbind outcome_bind]. rewrite (msg_i32 h body Hm), Z.eqb_refl. cbn [negb].
  rewrite (proj2 (Z.ltb_ge _ _)) by apply Hm. by rewrite (proj2 (Z.eqb_neq _ _) Hcmd).
Qed.

Lemma has_body_msg b h body rest : m_pProcessBuff b = msg_bytes h body ++ rest → has_body b body.
Proof.
  intros Hb. exists (bus_bytes h), rest. rewrite zlen_bus_bytes. split; [|done].
  rewrite Hb. unfold msg_bytes. by rewrite <- app_assoc.
Qed.

(** The time a message carries when it leaves: its own, or the current time. *)
Definition sent_time k (h : BusHeader.t) : Z :=
  if BusHeader.PkgTime h =? 0 then (k_time k).2 else BusHeader.PkgTime h.

Lemma Deliver_local_time b M k h body ds :
  holds b M → has_body b body → 26 + zlen body ≤ XY_PKG_MAX_LEN → sent_time k h ≠ 0 →
  Forall (local b) ds →
  ∃ k' b', Deliver b k h (26 + zlen body) ds
     = Ok (k', b', (deliver_all (route b) M (with_time h (sent_time k h)) body ds).2) ∧
    holds b' (deliver_all (route b) M (with_time h (sent_time k h)) body ds).1 ∧ same_net b b'.
Proof.
  intros Hh Hb Hl Ht Hds. unfold sent_time in *.
  destruct (Z.eqb_spec (BusHeader.PkgTime h) 0) as [Hz|Hz].
  - destruct ds as [|d ds]; [by eexists _, _|].
    destruct (k_time k) as [k1 now] eqn:Ek. cbn [snd] in *.
    rewrite (Deliver_time b k h _ d ds k1 now) by done.
    destruct (Deliver_local Hmax b M k1 (with_time h now) body (d :: ds)) as (b' & ? & ? & ? & _);
      try done. by eexists _, _.
  - assert (with_time h (BusHeader.PkgTime h) = h) as -> by (by destruct h).
    destruct (Deliver_local Hmax b M k h body ds) as (b' & ? & ? & ? & _); try done. by eexists _, _.
Qed.
End send.

(** * A message to a list of servers, of this cluster and of others *)
Section group.
Context {Q K : Type} `{FifoQueue Q} `{KernelLaws K} `{BusProto}.
Hypothesis Hmax : XY_PKG_MAX_LEN ≤ q_max.
Implicit Types (b : t Q) (M : Z → list (list Z)) (k : K) (c : CConnInfo.t).

(** The number of the connection to the cluster of a server, when it is of
    another cluster and that cluster is connected. *)
Definition remote_pos b (id : Z) : option Z :=
  i ← m_mapSvrInfo b !! id;
  if ServerInfo.ClusterID i =? m_ClusterID b then None else
  ci ← m_mapClusterInfo b !! ServerInfo.ClusterID i;
  if (ClusterInfo.SocketID ci =? -1) || (ClusterInfo.ConnPos ci =? 0) then None
  else Some (ClusterInfo.ConnPos ci).

(** Two open connections have two sockets. *)
Definition socks_distinct b : Prop :=
  ∀ p p' c c', m_PosConnMap b !! p = Some c → m_PosConnMap b !! p' = Some c' →
    CConnInfo.m_SockID c = CConnInfo.m_SockID c' → p = p'.

Record group_ready b M (body : list Z) : Prop := {
  gr_holds : holds b M;
  gr_conns : conns_ok b;
  gr_socks : socks_distinct b;
  gr_body : has_body b body;
}.

(** The servers a message can be sent to, and how, are the same. *)
Definition same_routes b b' : Prop := ∀ id,
  route b' id = route b id ∧ remote_pos b' id = remote_pos b id ∧
  (m_mapSvrInfo b' !! id = None ↔ m_mapSvrInfo b !! id = None).

(** Every connection is still there, and has [D] of its number more on its way. *)
Definition streams_grow k b k' b' (D : Z → list Z) : Prop := ∀ p c,
  m_PosConnMap b !! p = Some c → ∃ c', m_PosConnMap b' !! p = Some c' ∧ same_conn c c' ∧
    outgoing k' c' = outgoing k c ++ D p.

(** The copies of a message that leave on the connection [p]. *)
Definition copies_for b (h : BusHeader.t) (body : list Z) (ds : list Z) (p : Z) : list Z :=
  concat ((λ id, msg_bytes (stamp h id 0) body) <$> filter (λ id, remote_pos b id = Some p) ds).

(** Why a message [m] is not delivered to [id]: there is no such server, its
    queue has no room, or the connection to its cluster has been released. *)
Definition blocked b M b' (id : Z) (m : list Z) : Prop :=
  m_mapSvrInfo b !! id = None ∨
  (∃ cap, route b id = Some cap ∧ q_fits cap (M id) m = false) ∨
  (∃ p, remote_pos b id = Some p ∧ m_PosConnMap b' !! p = None).

#[export] Instance same_routes_refl : Reflexive same_routes.
Proof. by intros b id. Qed.
#[export] Instance same_routes_trans : Transitive same_routes.
Proof.
  intros b1 b2 b3 H12 H23 id. destruct (H12 id) as (? & ? & ?), (H23 id) as (? & ? & ?).
  split_and!; [congruence|congruence|tauto].
Qed.

Lemma streams_grow_nothing k b k' b' :
  m_PosConnMap b' = m_PosConnMap b → (∀ x, k_out k' x = k_out k x) →
  streams_grow k b k' b' (λ _, []).
Proof.
  intros Hc Ho p c Hp. exists c. rewrite Hc. split_and!; [done|done|].
  unfold outgoing. by rewrite Ho, app_nil_r.
Qed.

Lemma streams_grow_ext k b k' b' D D' :
  (∀ p, D' p = D p) → streams_grow k b k' b' D → streams_grow k b k' b' D'.
Proof. intros He Hs p c Hp. rewrite He. by apply Hs. Qed.

Lemma streams_grow_trans k b k1 b1 k2 b2 D D' :
  streams_grow k b k1 b1 D → streams_grow k1 b1 k2 b2 D' →
  streams_grow k b k2 b2 (λ p, D p ++ D' p).
Proof.
  intros H12 H23 p c Hp. destruct (H12 p c Hp) as (c1 & Hc1 & Hs1 & Ho1).
  destruct (H23 p c1 Hc1) as (c2 & Hc2 & Hs2 & Ho2). exists c2. split_and!; [done|by trans c1|].
  by rewrite Ho2, Ho1, app_assoc.
Qed.

Lemma Enqueue_routes b id i buf n b' r :
  Enqueue b id i buf n = Ok (b', r) → m_mapSvrInfo b !! id = Some i → same_net b b' →
  same_routes b b'.
Proof.
  intros He Hi [Hid _ _ _ Hcl _ _ Hrt _] x. split; [done|].
  assert (ServerInfo.ClusterID <$> m_mapSvrInfo b' !! x = ServerInfo.ClusterID <$> m_mapSvrInfo b !! x) as Hx.
  { unfold Enqueue in He. destruct (ServerInfo.pQueue i) as [q|]; [|by injection He as <- _].
    apply bind_Ok in He as (d & _ & He). apply bind_Ok in He as ([q' r'] & _ & He).
    injection He as <- _. cbn. destruct (decide (x = id)) as [->|].
    - by rewrite lookup_insert_eq, Hi.
    - by rewrite lookup_insert_ne. }
  unfold remote_pos. rewrite Hid, Hcl.
  destruct (m_mapSvrInfo b' !! x), (m_mapSvrInfo b !! x); cbn in *; simplify_eq; try done.
  by rewrite Hx.
Qed.

Lemma remote_pos_conn b id p :
  conns_ok b → remote_pos b id = Some p →
  ∃ i ci c, m_mapSvrInfo b !! id = Some i ∧ ServerInfo.ClusterID i ≠ m_ClusterID b ∧
    m_mapClusterInfo b !! ServerInfo.ClusterID i = Some ci ∧ linked ci ∧
    p = ClusterInfo.ConnPos ci ∧ m_PosConnMap b !! p = Some c.
Proof.
  intros Hok Hp. unfold remote_pos in Hp. apply bind_Some in Hp as (i & Hi & Hp).
  destruct (Z.eqb_spec (ServerInfo.ClusterID i) (m_ClusterID b)); [done|].
  apply bind_Some in Hp as (ci & Hci & Hp). exists i, ci.
  destruct (Z.eqb_spec (ClusterInfo.SocketID ci) (-1)); [done|].
  destruct (Z.eqb_spec (ClusterInfo.ConnPos ci) 0); [done|]. injection Hp as <-.
  destruct (co_link b Hok _ _ Hci) as [[? ?]|(_ & c & Hc & _)]; [done|]. by exists c.
Qed.

(** One copy to another cluster: added to the stream of the cluster's
    connection and to no other, or the connection is released. *)
Lemma Send2Cluster_group b M k body i (buf m : list Z) n :
  group_ready b M body → linked i → is_Some (m_PosConnMap b !! ClusterInfo.ConnPos i) →
  mread buf 0 n = Ok m →
  ∃ k' b' r, Send2Cluster b k i buf n = Ok (k', b', r) ∧ holds b' M ∧
    (r = 0 → group_ready b' M body ∧ same_routes b b' ∧
       streams_grow k b k' b' (λ p, if decide (p = ClusterInfo.ConnPos i) then m else [])) ∧
    (r ≠ 0 → m_PosConnMap b' !! ClusterInfo.ConnPos i = None).
Proof.
  intros [Hh Hok Hs Hbd] Hl [c Hc] Hm.
  destruct (Send2Cluster_ok b k i c buf m n Hok Hl Hc Hm)
    as (k' & b' & r & Hr & Hcfg & _ & Hr0 & Hr1).
  exists k', b', r. split; [done|].
  split; [by intros id j q; rewrite (sc_svr _ _ Hcfg); apply Hh|]. split.
  - intros Hz. destruct (Hr0 Hz) as (c' & -> & Hok' & Hout & Honly & Hsame & _).
    split; [|split; [done|]].
    + split; [done|done| |done]. intros p1 p2 c1 c2. cbn.
      destruct Hsame as [_ Hsk _ _]. intros Hc1 Hc2 He.
      apply lookup_insert_Some in Hc1 as [[<- <-]|[_ Hc1]];
        apply lookup_insert_Some in Hc2 as [[<- <-]|[_ Hc2]]; [done| | |by apply (Hs p1 p2 c1 c2)].
      * apply (Hs _ _ c c2); congruence.
      * apply (Hs _ _ c1 c); congruence.
    + intros p c0 Hp. cbn. destruct (decide (p = ClusterInfo.ConnPos i)) as [->|Hne].
      * assert (c0 = c) as -> by congruence. exists c'. by rewrite lookup_insert_eq.
      * exists c0. rewrite lookup_insert_ne by done. split_and!; [done|done|].
        rewrite app_nil_r. unfold outgoing. destruct (Honly (CConnInfo.m_SockID c0)) as [_ ->]; [|done].
        intros He. by apply Hne, (Hs _ _ c0 c).
  - intros Hz. destruct (Hr1 Hz) as [-> _]. apply lookup_delete_eq.
Qed.

(** The first destination: the message is delivered and the rest follows, or
    it is blocked and nothing follows. *)
Lemma Deliver_one b M k h body id :
  group_ready b M body → 26 + zlen body ≤ XY_PKG_MAX_LEN → BusHeader.PkgTime h ≠ 0 →
  let m := msg_bytes (stamp h id 0) body in
  ∃ k' b',
    ((∀ ds, Deliver b k h (26 + zlen body) (id :: ds) = Ok (k', b', -1)) ∧ holds b' M ∧
     blocked b M b' id m) ∨
    ((∀ ds, Deliver b k h (26 + zlen body) (id :: ds)
            = Deliver b' k' (stamp h id 0) (26 + zlen body) ds) ∧
     group_ready b' (offer (route b) M id m) body ∧ same_routes b b' ∧
     (deliver_all (route b) M h body [id]) = (offer (route b) M id m, 0) ∧
     streams_grow k b k' b' (copies_for b h body [id])).
Proof.
  intros [Hh Hok Hsk (hd & rest & Hbf & Hhd)] Hlen Ht m.
  pose proof (zlen_msg_bytes (stamp h id 0) body) as Hz. fold m in Hz. pose proof (zlen_nonneg body).
  set (b1 := set_buff b (m ++ rest)).
  assert (group_ready b1 M body) as Hg1.
  { split; [done|by apply (conns_ok_ext b)|done|]. exists (bus_bytes (stamp h id 0)), rest.
    rewrite zlen_bus_bytes. split; [|done]. 
    change (m_pProcessBuff b1) with (m ++ rest). unfold m, msg_bytes. by rewrite <- app_assoc. }
  assert (mread (m ++ rest) 0 (26 + zlen body) = Ok m) as Hrd by (rewrite <- Hz; apply mread_head).
  assert (∀ ds, Deliver b k h (26 + zlen body) (id :: ds) =
    match m_mapSvrInfo b !! id with
    | None => Ok (k, b1, -1)
    | Some Info =>
        if ServerInfo.ClusterID Info =? m_ClusterID b then
          '(b, Ret) ← Enqueue b1 id Info (m ++ rest) (26 + zlen body);
          if Ret =? 0 then Deliver b k (stamp h id 0) (26 + zlen body) ds else Ok (k, b, -1)
        else
          match m_mapClusterInfo b !! ServerInfo.ClusterID Info with
          | None => Deliver b1 k (stamp h id 0) (26 + zlen body) ds
          | Some i =>
              '(k, b, Ret) ← Send2Cluster b1 k i (m ++ rest) (26 + zlen body);
              if Ret =? 0 then Deliver b k (stamp h id 0) (26 + zlen body) ds else Ok (k, b, -1)
          end
    end) as HD.
  { intros ds. cbn [Deliver]. rewrite (proj2 (Z.eqb_neq (BusHeader.PkgTime h) 0) Ht).
    by rewrite Hbf, Write_front by done. }
  assert (∀ p, copies_for b h body [id] p = if decide (remote_pos b id = Some p) then m else []) as Hcp.
  { intros p. unfold copies_for. rewrite filter_cons. destruct (decide _); cbn; [|done].
    by rewrite app_nil_r. }
  destruct (m_mapSvrInfo b !! id) as [i|] eqn:Hi.
  2:{ exists k, b1. left. split; [done|]. split; [apply Hg1|by left]. }
  destruct (Z.eqb_spec (ServerInfo.ClusterID i) (m_ClusterID b)) as [Hc|Hc].
  - destruct (Enqueue_ok b1 M id i (m ++ rest) m) as (b2 & r & He & Hh2 & Hn2 & Hb2 & Hr);
      [apply Hg1|done|lia|apply mread_head|done|].
    pose proof (Enqueue_routes b1 id i _ _ b2 r He Hi Hn2) as Hrt2.
    rewrite Hz in He. rewrite He in HD. cbn [mbind outcome_bind] in HD.
    change (route b1 id) with (route b id) in *.
    assert (remote_pos b id = None) as Hrp.
    { unfold remote_pos. rewrite Hi. cbn. by rewrite (proj2 (Z.eqb_eq _ _) Hc). }
    exists k, b2. destruct (decide (r = 0)) as [->|Hr0].
    + right. split; [done|]. split_and!.
      * split; [done|apply (conns_ok_ext b1); [apply Hg1|apply Hn2..]| |].
        -- intros p p' c c'. rewrite !(sn_conns _ _ Hn2). apply Hsk.
        -- unfold has_body. rewrite Hb2. apply Hg1.
      * done.
      * cbn [deliver_all]. fold m. unfold offer. destruct (route b id) as [cap|]; [|done].
        by destruct (q_fits cap (M id) m).
      * intros p c Hp. exists c. rewrite (sn_conns _ _ Hn2), Hcp, Hrp, app_nil_r. by cbn.
    + left. rewrite (proj2 (Z.eqb_neq r 0) Hr0) in HD. split; [done|].
      unfold offer in Hh2. change (route b1 id) with (route b id) in Hh2.
      destruct (route b id) as [cap|] eqn:Hrt; [|done].
      destruct (q_fits cap (M id) m) eqn:Hf; [done|]. split; [done|]. right; left. by exists cap.
  - assert (route b id = None) as Hrt.
    { unfold route. rewrite Hi. cbn. by rewrite (proj2 (Z.eqb_neq _ _) Hc). }
    assert (remote_pos b id = ci ← m_mapClusterInfo b !! ServerInfo.ClusterID i;
      if (ClusterInfo.SocketID ci =? -1) || (ClusterInfo.ConnPos ci =? 0) then None
      else Some (ClusterInfo.ConnPos ci)) as Hrp.
    { unfold remote_pos. rewrite Hi. cbn. by rewrite (proj2 (Z.eqb_neq _ _) Hc). }
    unfold offer. rewrite Hrt. cbn [deliver_all]. rewrite Hrt.
    destruct (m_mapClusterInfo b !! ServerInfo.ClusterID i) as [ci|]; cbn in Hrp.
    2:{ exists k, b1. right. split; [done|]. split_and!; [done|done|done|].
        apply (streams_grow_ext _ _ _ _ (λ _, [])); [by intros p; rewrite Hcp, Hrp|].
        by apply streams_grow_nothing. }
    destruct (decide (linked ci)) as [Hlk|Hnl].
    + assert (remote_pos b id = Some (ClusterInfo.ConnPos ci)) as Hrp'.
      { rewrite Hrp. destruct Hlk as [? ?]. by rewrite !(proj2 (Z.eqb_neq _ _)). }
      destruct (remote_pos_conn b id _ Hok Hrp') as (_ & _ & c & _ & _ & _ & _ & _ & Hc0).
      destruct (Send2Cluster_group b1 M k body ci (m ++ rest) m _ Hg1 Hlk ltac:(by exists c) Hrd)
        as (k2 & b2 & r & He & Hh2 & Hr0 & Hr1).
      rewrite He in HD. cbn [mbind outcome_bind] in HD. exists k2, b2.
      destruct (Z.eqb_spec r 0) as [Hz0|Hz0].
      * right. destruct (Hr0 Hz0) as (Hg2 & Hrt2 & Hst2). split; [done|].
        split_and!; [done|done|done|].
        apply (streams_grow_ext _ _ _ _ (λ p, if decide (p = ClusterInfo.ConnPos ci) then m else [])); [|done].
        intros p. rewrite Hcp, Hrp'. apply decide_ext. naive_solver.
      * left. split; [done|]. split; [done|]. right; right. exists (ClusterInfo.ConnPos ci).
        split; [done|by apply Hr1].
    + assert (remote_pos b id = None ∧
              (ClusterInfo.SocketID ci =? -1) || (ClusterInfo.ConnPos ci =? 0) = true) as [Hrp' Hu].
      { rewrite Hrp. destruct (Z.eqb_spec (ClusterInfo.SocketID ci) (-1)); [done|].
        destruct (Z.eqb_spec (ClusterInfo.ConnPos ci) 0); [done|]. by destruct Hnl. }
      unfold Send2Cluster in HD. rewrite Hu in HD. cbn [mbind outcome_bind] in HD.
      exists k, b1. right. split; [done|]. split_and!; [done|done|done|].
      apply (streams_grow_ext _ _ _ _ (λ _, [])); [by intros p; rewrite Hcp, Hrp'|].
      by apply streams_grow_nothing.
Qed.
Lemma stamp_stamp h id id' :
  BusHeader.PkgTime h ≠ 0 → stamp (stamp h id 0) id' 0 = stamp h id' 0.
Proof.
  intros Ht. unfold stamp. cbn. by rewrite !(proj2 (Z.eqb_neq (BusHeader.PkgTime h) 0) Ht).
Qed.

Lemma deliver_all_cons rt M h body id ds M1 :
  deliver_all rt M h body [id] = (M1, 0) →
  deliver_all rt M h body (id :: ds) = deliver_all rt M1 h body ds.
Proof. cbn [deliver_all]. destruct (rt id); [destruct (q_fits _ _ _)|]; congruence. Qed.

Lemma copies_for_cons b b1 h body id ds p :
  same_routes b b1 → BusHeader.PkgTime h ≠ 0 →
  copies_for b h body (id :: ds) p
  = copies_for b h body [id] p ++ copies_for b1 (stamp h id 0) body ds p.
Proof.
  intros Hr Ht. unfold copies_for. change (id :: ds) with ([id] ++ ds).
  rewrite filter_app, fmap_app, concat_app. f_equal. f_equal.
  rewrite (list_filter_iff (λ x, remote_pos b x = Some p) (λ x, remote_pos b1 x = Some p)).
  - apply list_fmap_ext. intros _ x _. by rewrite stamp_stamp.
  - intros x. by destruct (Hr x) as (_ & -> & _).
Qed.

Lemma blocked_later b M b1 h body id b' id' :
  same_routes b b1 → id' ≠ id → BusHeader.PkgTime h ≠ 0 →
  blocked b1 (offer (route b) M id (msg_bytes (stamp h id 0) body)) b' id'
    (msg_bytes (stamp (stamp h id 0) id' 0) body) →
  blocked b M b' id' (msg_bytes (stamp h id' 0) body).
Proof.
  intros Hr Hne Ht. rewrite stamp_stamp by done. destruct (Hr id') as (Hrt & Hrp & Hn).
  assert (offer (route b) M id (msg_bytes (stamp h id 0) body) id' = M id') as Ho.
  { unfold offer. destruct (route b id); [|done]. destruct (q_fits _ _ _); [|done].
    by rewrite fn_lookup_insert_ne. }
  unfold blocked. rewrite Ho, Hrt, Hrp, Hn. done.
Qed.

(** All destinations in order: every one is delivered to, or the first that
    is blocked ends it. *)
Lemma Deliver_group b M k h body ds :
  group_ready b M body → 26 + zlen body ≤ XY_PKG_MAX_LEN → BusHeader.PkgTime h ≠ 0 → NoDup ds →
  ∃ k' b' r dn, Deliver b k h (26 + zlen body) ds = Ok (k', b', r) ∧
    (deliver_all (route b) M h body dn).2 = 0 ∧ holds b' (deliver_all (route b) M h body dn).1 ∧
    (r = 0 → dn = ds ∧ streams_grow k b k' b' (copies_for b h body ds)) ∧
    (r ≠ 0 → r = -1 ∧ ∃ id rest, ds = dn ++ id :: rest ∧
       blocked b M b' id (msg_bytes (stamp h id 0) body)).
Proof.
  intros Hg Hl Ht Hnd. revert b M k h Hg Ht. induction Hnd as [|id ds Hni Hnd IH]; intros b M k h Hg Ht.
  { exists k, b, 0, []. split_and!; [done|done|apply Hg| |done]. intros _. split; [done|].
    by apply streams_grow_nothing. }
  destruct (Deliver_one b M k h body id Hg Hl Ht)
    as (k1 & b1 & [(-> & Hh1 & Hb1)|(-> & Hg1 & Hr1 & Hd1 & Hs1)]).
  { exists k1, b1, (-1), []. split_and!; [done|done|done|done|]. intros _. split; [done|].
    by exists id, ds. }
  destruct (IH b1 _ k1 (stamp h id 0) Hg1) as (k' & b' & r & dn & -> & Hz & Hh & Hr0 & Hrn).
  { cbn. by rewrite (proj2 (Z.eqb_neq (BusHeader.PkgTime h) 0) Ht). }
  rewrite (deliver_all_ext (route b1) (route b)), deliver_all_stamp in Hz, Hh by (done || apply Hr1).
  exists k', b', r, (id :: dn). rewrite (deliver_all_cons _ _ _ _ _ _ _ Hd1).
  split_and!; [done|done|done|..].
  - intros Hz0. destruct (Hr0 Hz0) as [-> Hs]. split; [done|].
    apply (streams_grow_ext _ _ _ _ (λ p, copies_for b h body [id] p
             ++ copies_for b1 (stamp h id 0) body ds p)); [by intros p; apply copies_for_cons|].
    by apply streams_grow_trans with k1 b1.
  - intros Hz0. destruct (Hrn Hz0) as (-> & id' & rest & -> & Hb). split; [done|].
    exists id', rest. split; [done|]. apply (blocked_later b M b1 h body id); [done| |done|done].
    intros ->. apply Hni. apply elem_of_app. right. apply list_elem_of_here.
Qed.

Lemma Deliver_group_time b M k h body ds :
  group_ready b M body → 26 + zlen body ≤ XY_PKG_MAX_LEN → sent_time k h ≠ 0 → NoDup ds →
  let h' := with_time h (sent_time k h) in
  ∃ k' b' r dn, Deliver b k h (26 + zlen body) ds = Ok (k', b', r) ∧
    (deliver_all (route b) M h' body dn).2 = 0 ∧ holds b' (deliver_all (route b) M h' body dn).1 ∧
    (r = 0 → dn = ds ∧ streams_grow k b k' b' (copies_for b h' body ds)) ∧
    (r ≠ 0 → r = -1 ∧ ∃ id rest, ds = dn ++ id :: rest ∧
       blocked b M b' id (msg_bytes (stamp h' id 0) body)).
Proof.
  intros Hg Hl Ht Hnd h'. unfold sent_time in *.
  destruct (Z.eqb_spec (BusHeader.PkgTime h) 0) as [Hz|Hz].
  - destruct ds as [|d ds].
    { exists k, b, 0, []. split_and!; [done|done|apply Hg| |done]. intros _. split; [done|].
      by apply streams_grow_nothing. }
    destruct (k_time k) as [k1 now] eqn:Ek. cbn [snd] in *.
    rewrite (Deliver_time b k h _ d ds k1 now) by done.
    destruct (Deliver_group b M k1 h' body (d :: ds)) as (k' & b' & r & dn & ? & ? & ? & Hr0 & ?);
      [done..|].
    exists k', b', r, dn. split_and!; try done. intros Hr. destruct (Hr0 Hr) as [-> Hs].
    split; [done|]. intros p c Hp. destruct (Hs p c Hp) as (c' & ? & ? & Ho). exists c'.
    split_and!; [done..|]. rewrite Ho. apply k_time_law in Ek as [_ Ek]. unfold outgoing. by rewrite Ek.
  - assert (h' = h) as -> by (by destruct h). by apply Deliver_group.
Qed.
End group.
