(* ===== verification/BusRun.v ===== *)
(** The event loop of the bus daemon ([CBus::Run]): events on connections,
    the receive loop that cuts a byte stream into packages, and the queue of
    messages from local servers. *)
From stdpp Require Import gmap sorting functions.
From S2P Require Import Prelude Fifo Wire Kernel ConnInfo BusState BusConn BusRoute BusFacts.
Import CBus CBusRoute.

#[local] Arguments Z.add : simpl never.
#[local] Arguments Z.eqb : simpl never.
#[local] Arguments Z.ltb : simpl never.
#[local] Arguments Z.leb : simpl never.

Module CBusRun.
Section operations.
Context {Q K : Type} `{FifoOps Q} `{Kernel K} `{BusProto}.
Implicit Types (b : t Q) (k : K).

(** Bytes [o] to [o + RecvLen] of the receive buffer are cut into packages
    until they are used up, a rest is kept, or the connection is released.
    Every round that goes on takes at least one byte. *)
Fixpoint recv_loop (fuel : nat) b k (CurConnPos : Z) (m : list Z) (o RecvLen : Z)
    : outcome (K * t Q) :=
  match fuel with
  | O => Spin
  | S fuel =>
      if RecvLen <=? 0 then Ok (k, b) else
      '(b, ProcLen) ← ProcessPkg b m o RecvLen;
      if (RecvLen <? ProcLen) || (ProcLen =? 0) then
        match m_PosConnMap b !! CurConnPos with
        | None => Fault
        | Some c =>
            '(c, Ret2) ← CConnInfo.AddRecvData c m o RecvLen;
            let b := set_conn b CurConnPos c in
            if negb (Ret2 =? 0) then ReleaseConn b k CurConnPos else Ok (k, b)
        end
      else if ProcLen <? 0 then ReleaseConn b k CurConnPos
      else recv_loop fuel b k CurConnPos m (o + ProcLen) (RecvLen - ProcLen)
  end.

(** [EPOLLIN] on a connection: the kernel, the bus and the receive buffer. *)
Definition OnReadable b k (pRecvBuff : list Z) (CurConnPos : Z) : outcome (K * t Q * list Z) :=
  match m_PosConnMap b !! CurConnPos with
  | None => Ok (k, b, pRecvBuff)
  | Some c =>
      '(k, c, m, RecvLen, Ret) ← CConnInfo.Recv k c pRecvBuff XY_MAXBUFF_LEN;
      let b := set_conn b CurConnPos c in
      if (Ret =? 1) || (Ret <? 0) || (XY_MAXBUFF_LEN <? i32 RecvLen)
      then '(k, b) ← ReleaseConn b k CurConnPos; Ok (k, b, m)
      else
        let RecvLen := i32 RecvLen in
        '(k, b) ← recv_loop (S (Z.to_nat RecvLen)) b k CurConnPos m 0 RecvLen;
        Ok (k, b, m)
  end.

(** [EPOLLOUT] on a connection. *)
Definition OnWritable b k (CurConnPos : Z) : outcome (K * t Q) :=
  match m_PosConnMap b !! CurConnPos with
  | None => Ok (k, b)
  | Some c =>
      let '(k, c, Ret) := CConnInfo.SendRemainData k c in
      let b := set_conn b CurConnPos c in
      if Ret =? 1 then Ok (k, b)
      else if negb (Ret =? 0) then ReleaseConn b k CurConnPos
      else
        let '(k, _) := k_epoll_ctl k EPOLL_CTL_MOD (CConnInfo.m_SockID c) EPOLL_CONN CurConnPos in
        Ok (k, b)
  end.

Definition has_event (events flag : Z) : bool := negb (Z.land events flag =? 0).

(** One event of [epoll_wait]: its flags and the number of its connection. *)
Definition OnEvent b k (stack pRecvBuff : list Z) (ev : Z * Z) : outcome (K * t Q * list Z) :=
  let '(events, CurConnPos) := ev in
  if (LISTEN_SOCK_CPOS_MIN <=? CurConnPos) && (CurConnPos <=? LISTEN_SOCK_CPOS_MAX) then
    if has_event events EPOLLIN
    then '(k, b, _) ← AcceptConn b k CurConnPos; Ok (k, b, pRecvBuff)
    else Ok (k, b, pRecvBuff)
  else if (LISTEN_UDP_CPOS_MIN <=? CurConnPos) && (CurConnPos <=? LISTEN_UDP_CPOS_MAX) then
    '(k, b) ← RecvHelloMessage b k stack CurConnPos; Ok (k, b, pRecvBuff)
  else
    match m_PosConnMap b !! CurConnPos with
    | None => Ok (k, b, pRecvBuff)
    | Some _ =>
        if has_event events EPOLLERR || has_event events EPOLLHUP
        then '(k, b) ← ReleaseConn b k CurConnPos; Ok (k, b, pRecvBuff)
        else if has_event events EPOLLIN then OnReadable b k pRecvBuff CurConnPos
        else if has_event events EPOLLOUT
        then '(k, b) ← OnWritable b k CurConnPos; Ok (k, b, pRecvBuff)
        else Ok (k, b, pRecvBuff)
    end.

Fixpoint OnEvents b k (stack pRecvBuff : list Z) (evs : list (Z * Z))
    : outcome (K * t Q * list Z) :=
  match evs with
  | [] => Ok (k, b, pRecvBuff)
  | ev :: evs =>
      '(k, b, m) ← OnEvent b k stack pRecvBuff ev;
      OnEvents b k stack m evs
  end.

Definition MAX_QUEUEPKG_PER_LOOP : nat := 10.

(** At most [n] messages of the own queue are forwarded. *)
Fixpoint ForwardQueue (n : nat) b k : outcome (K * t Q) :=
  match n with
  | O => Ok (k, b)
  | S n =>
      '(q, Ret, RecvLen, d) ← q_out (m_ClusterQueue b) XY_PKG_MAX_LEN;
      buf ← mwrite (m_pProcessBuff b) 0 d;
      let b := set_buff (set_cqueue b q) buf in
      if negb (Ret =? 0) then Ok (k, b)
      else
        '(k, b, _) ← ForwardMsg b k RecvLen;
        ForwardQueue n b k
  end.

(** One round of the loop, with the events [epoll_wait] returned. *)
Record timers : Type := mk_timers { LastHelloTime : Z; LastHeartBeetTime : Z }.

Definition RunOnce b k (tm : timers) (stack pRecvBuff : list Z) (evs : list (Z * Z))
    : outcome (K * t Q * timers * list Z) :=
  '(k, b, m) ← OnEvents b k stack pRecvBuff evs;
  '(k, b) ← ForwardQueue MAX_QUEUEPKG_PER_LOOP b k;
  let '(k, NowTime) := k_time k in
  '(k, h) ← (if m_UDPHelloTime b <=? NowTime - LastHelloTime tm
             then k ← SendHelloMessage b k; Ok (k, NowTime) else Ok (k, LastHelloTime tm));
  '(k, b, t) ← (if m_TCPHelloTime b <=? NowTime - LastHeartBeetTime tm
                then '(k, b) ← SendHeartBeetMessage b k; Ok (k, b, NowTime)
                else Ok (k, b, LastHeartBeetTime tm));
  Ok (k, b, mk_timers h t, m).

(** The loop, until [StopFlag] is set after the last round. *)
Fixpoint Run b k (tm : timers) (stack pRecvBuff : list Z) (rounds : list (list (Z * Z)))
    : outcome (K * t Q * timers * list Z) :=
  match rounds with
  | [] => Ok (k, b, tm, pRecvBuff)
  | evs :: rounds =>
      '(k, b, tm, m) ← RunOnce b k tm stack pRecvBuff evs;
      Run b k tm stack m rounds
  end.

End operations.
End CBusRun.
Import CBusRun.

(** * Cutting a byte stream into packages *)
Definition wire (msgs : list (BusHeader.t * list Z)) : list Z :=
  concat ((λ p, msg_bytes p.1 p.2) <$> msgs).

Lemma wire_cons p msgs : wire (p :: msgs) = msg_bytes p.1 p.2 ++ wire msgs.
Proof. done. Qed.

Section receive.
Context {Q K : Type} `{FifoQueue Q} `{KernelLaws K} `{BusProto}.
Hypothesis Hmax : XY_PKG_MAX_LEN ≤ q_max.
Implicit Types (b : t Q) (M : Z → list (list Z)) (k : K) (c : CConnInfo.t)
  (msgs : list (BusHeader.t * list Z)).

Definition msgs_ok msgs : Prop := Forall (λ p, msg_ok p.1 p.2) msgs.

(** What arrives is delivered to the queues, message after message. *)
Definition arrivals (rt : Z → option Z) M msgs : Z → list (list Z) := foldl (arrive rt) M msgs.

Lemma arrivals_ext rt rt' M msgs :
  (∀ x, rt x = rt' x) → arrivals rt M msgs = arrivals rt' M msgs.
Proof.
  intros Hr. unfold arrivals. revert M. induction msgs as [|p msgs IH]; intros M; [done|].
  cbn. by rewrite (arrive_ext rt rt'), IH.
Qed.

(** Bytes at [o] of the buffer that start with a whole message, or with a
    proper part of one. *)
Lemma app_cut {A} (d f a r : list A) :
  d ++ f = a ++ r →
  (∃ d', d = a ++ d' ∧ d' ++ f = r) ∨ (∃ a', a = d ++ a' ∧ a' ≠ [] ∧ f = a' ++ r).
Proof.
  revert a. induction d as [|x d IH]; intros [|y a] Ha; cbn in *.
  - left. by exists [].
  - right. by exists (y :: a).
  - left. by exists (x :: d).
  - injection Ha as -> Ha. destruct (IH a Ha) as [(d' & -> & ?)|(a' & -> & ? & ?)].
    + left. by exists d'.
    + right. by exists a'.
Qed.

Lemma mread_after {A} (m : list A) o a d :
  mread m o (zlen (a ++ d)) = Ok (a ++ d) →
  mread m o (zlen a) = Ok a ∧ mread m (o + zlen a) (zlen d) = Ok d.
Proof.
  intros Hr. rewrite zlen_app in Hr. pose proof (zlen_nonneg a). pose proof (zlen_nonneg d).
  destruct (mread_app m a d o (zlen a) (zlen d)); by auto.
Qed.

Definition part_of_msg (d : list Z) : Prop :=
  d = [] ∨ ∃ h body a', msg_ok h body ∧ msg_bytes h body = d ++ a' ∧ a' ≠ [].

(** What is kept is less than the next message. *)
Definition behind (rem : list Z) (todo : list (BusHeader.t * list Z)) : Prop :=
  match todo with
  | [] => rem = []
  | p :: _ => zlen rem < zlen (msg_bytes p.1 p.2)
  end.

Lemma behind_nil msgs : behind [] msgs.
Proof.
  destruct msgs as [|[h body] msgs]; [done|]. unfold behind. rewrite zlen_msg_bytes. cbn [snd].
  change (zlen (@nil Z)) with 0. pose proof (zlen_nonneg body). lia.
Qed.

Lemma behind_end rem todo : behind rem todo → rem = wire todo → todo = [].
Proof.
  destruct todo as [|p todo]; [done|]. intros Hl ->. unfold behind in Hl. rewrite wire_cons, zlen_app in Hl.
  pose proof (zlen_nonneg (wire todo)). lia.
Qed.

Lemma behind_len rem todo : msgs_ok todo → behind rem todo → zlen rem ≤ XY_MAXBUFF_LEN.
Proof.
  destruct todo as [|p todo]; [by intros _ ->|].
  intros [Hp _]%Forall_cons Hl. unfold behind in Hl. rewrite zlen_msg_bytes in Hl. destruct Hp. unfold XY_PKG_MAX_LEN, XY_MAXBUFF_LEN in *. lia.
Qed.

(** A part of a message is kept, whatever its length. *)
Lemma recv_part fuel b k p c m o d :
  d ≠ [] → part_of_msg d → zlen d ≤ XY_MAXBUFF_LEN → mread m o (zlen d) = Ok d →
  m_PosConnMap b !! p = Some c → CConnInfo.m_RemainRecvData c = [] →
  recv_loop (S fuel) b k p m o (zlen d) = Ok (k, set_conn b p (CConnInfo.set_recv c d)).
Proof.
  intros Hne [?|(h & body & a' & Hm & Ha & Hne')] Hlen Hr Hc Hrv; [done|].
  assert (0 < zlen d) by (destruct d; [done|rewrite zlen_cons; pose proof (zlen_nonneg d); lia]).
  assert (0 < zlen a') by (destruct a'; [done|rewrite zlen_cons; pose proof (zlen_nonneg a'); lia]).
  pose proof (f_equal zlen Ha) as Hz. rewrite zlen_msg_bytes, zlen_app in Hz.
  assert (∃ n, ProcessPkg b m o (zlen d) = Ok (b, n) ∧ zlen d < n) as (n & Hp & Hn).
  { destruct (decide (zlen d < 26)).
    - exists 26. by rewrite ProcessPkg_short.
    - exists (26 + zlen body). split; [|lia]. rewrite <- (msg_i32 h body Hm).
      apply ProcessPkg_incomplete; [lia| |rewrite (msg_i32 h body Hm); lia].
      unfold msg_bytes in Ha. symmetry in Ha. apply app_cut in Ha as [(d' & -> & Hd')|(x & Hx & Hnx & _)].
      + apply bus_Read_bytes; [apply Hm|]. apply mread_after in Hr as [Hr _].
        by rewrite zlen_bus_bytes in Hr.
      + pose proof (f_equal zlen Hx) as Hzx. rewrite zlen_bus_bytes, zlen_app in Hzx.
        destruct x; [done|]. rewrite zlen_cons in Hzx. pose proof (zlen_nonneg x). lia. }
  cbn [recv_loop]. rewrite (proj2 (Z.leb_gt _ _)), Hp by lia. cbn [mbind outcome_bind].
  rewrite (proj2 (Z.ltb_lt _ _) Hn). cbn [orb]. rewrite Hc.
  rewrite (AddRecvData_ok _ _ _ _ d Hr), Hrv.
  rewrite (proj2 (Z.ltb_ge _ _)) by (change (zlen (@nil Z)) with 0; lia). cbn [mbind outcome_bind app].
  done.
Qed.

Lemma recv_loop_ok fuel b k p c m o d f msgs M :
  ready b M → msgs_ok msgs → d ++ f = wire msgs → zlen d ≤ XY_MAXBUFF_LEN →
  mread m o (zlen d) = Ok d → (Z.to_nat (zlen d) < fuel)%nat →
  m_PosConnMap b !! p = Some c → CConnInfo.m_RemainRecvData c = [] →
  ∃ b' c' done todo, recv_loop fuel b k p m o (zlen d) = Ok (k, b') ∧
    msgs = done ++ todo ∧ ready b' (arrivals (route b) M done) ∧
    m_PosConnMap b' = <[p := c']> (m_PosConnMap b) ∧ c' = CConnInfo.set_recv c (CConnInfo.m_RemainRecvData c') ∧
    CConnInfo.m_RemainRecvData c' ++ f = wire todo ∧ behind (CConnInfo.m_RemainRecvData c') todo ∧
    m_mapClusterInfo b' = m_mapClusterInfo b ∧ m_ClusterID b' = m_ClusterID b ∧
    m_ConnPosCnt b' = m_ConnPosCnt b ∧ m_ClusterPosCnt b' = m_ClusterPosCnt b ∧
    (∀ id, route b' id = route b id).
Proof.
  intros Hrd Hms Hd Hlen Hr Hfuel Hc Hrv. revert b d o msgs M Hrd Hms Hd Hlen Hr Hfuel Hc.
  induction fuel as [|fuel IH]; intros b d o msgs M Hrd Hms Hd Hlen Hr Hfuel Hc; [lia|].
  destruct (decide (d = [])) as [->|Hne].
  { exists b, c, [], msgs. rewrite Hrv. cbn [recv_loop]. rewrite insert_id by done.
    split_and!; try done; [by destruct c; cbn in *; subst|apply behind_nil]. }
  destruct msgs as [|[h body] msgs].
  { cbn in Hd. by apply app_nil in Hd as [? _]. }
  apply Forall_cons in Hms as [Hm Hms]. cbn [fst snd] in Hm.
  rewrite wire_cons in Hd. cbn [fst snd] in Hd.
  apply app_cut in Hd as [(d' & -> & Hd')|(a' & Ha & Hne' & ->)].
  - destruct (mread_after _ _ _ _ Hr) as [Hr1 Hr2].
    pose proof (zlen_msg_bytes h body) as Hz. rewrite Hz in Hr1, Hr2.
    pose proof (zlen_nonneg body). pose proof (zlen_nonneg d').
    rewrite zlen_app in *. rewrite Hz in *.
    destruct (ProcessPkg_ok Hmax b M m o (26 + zlen body + zlen d') h body)
      as (b1 & Hp & Hrd1 & Hn1 & _); try done; [lia|].
    cbn [recv_loop]. rewrite (proj2 (Z.leb_gt _ _)), Hp by lia. cbn [mbind outcome_bind].
    rewrite (proj2 (Z.ltb_ge _ _)), (proj2 (Z.eqb_neq _ _)), (proj2 (Z.ltb_ge _ 0)) by lia.
    cbn [orb]. replace (26 + zlen body + zlen d' - (26 + zlen body)) with (zlen d') by lia.
    destruct (IH b1 d' (o + (26 + zlen body)) msgs (arrive (route b) M (h, body)))
      as (b' & c' & dn & todo & -> & -> & Hrd' & Hc' & Hcc & Hf & Hpt & Hcl & Hid & Hcn & Hccn & Hrt);
      try done; [lia|lia|by rewrite (sn_conns _ _ Hn1)|].
    exists b', c', ((h, body) :: dn), todo. split_and!; try done.
    + cbn. rewrite (arrivals_ext (route b1) (route b)) in Hrd' by apply Hn1. done.
    + by rewrite Hc', (sn_conns _ _ Hn1).
    + by rewrite Hcl, (sn_clusters _ _ Hn1).
    + by rewrite Hid, (sn_id _ _ Hn1).
    + by rewrite Hcn, (sn_cnt _ _ Hn1).
    + by rewrite Hccn, (sn_ccnt _ _ Hn1).
    + intros id. by rewrite Hrt, (sn_route _ _ Hn1).
  - assert (part_of_msg d) as Hpart by (right; by exists h, body, a').
    rewrite (recv_part fuel b k p c m o d) by done.
    exists (set_conn b p (CConnInfo.set_recv c d)), (CConnInfo.set_recv c d), [], ((h, body) :: msgs).
    assert (0 < zlen a') by (destruct a'; [done|rewrite zlen_cons; pose proof (zlen_nonneg a'); lia]).
    split_and!; try done; [|unfold behind; cbn [fst snd]; rewrite Ha, zlen_app; cbn; lia].
    change (d ++ a' ++ wire msgs = wire ((h, body) :: msgs)).
    rewrite wire_cons. cbn [fst snd]. by rewrite Ha, <- app_assoc.
Qed.

(** A connection that has read part of a stream of messages. *)
Record reading b k M (p : Z) c msgs : Prop := {
  rd_conn : m_PosConnMap b !! p = Some c;
  rd_ok : conns_ok b;
  rd_ready : ready b M;
  rd_stream : CConnInfo.m_RemainRecvData c ++ k_in k (CConnInfo.m_SockID c) = wire msgs;
  rd_behind : behind (CConnInfo.m_RemainRecvData c) msgs;
}.

Lemma OnReadable_ok b k M m p c msgs :
  reading b k M p c msgs → msgs_ok msgs → zlen m = XY_MAXBUFF_LEN →
  ∃ k' b' m', OnReadable b k m p = Ok (k', b', m') ∧ zlen m' = XY_MAXBUFF_LEN ∧
    ((m_PosConnMap b' !! p = None ∧ ready b' M) ∨
     ∃ c' done todo, msgs = done ++ todo ∧ same_conn c c' ∧
       reading b' k' (arrivals (route b) M done) p c' todo ∧ (∀ id, route b' id = route b id)).
Proof.
  intros [Hc Hok Hrd Hst Hbe] Hms Hm. unfold OnReadable. rewrite Hc.
  destruct (co_conn b Hok p c Hc) as (Hpos & Hwf & _).
  destruct (Recv_ok k c m Hwf Hm)
    as (k1 & c1 & m1 & n & r & -> & Hs1 & Ho1 & Hwf1 & Hl1 & Hsd & Hn & Hout & Hr0 & Hr1).
  cbn [mbind outcome_bind].
  pose proof (set_conn_ok b p c c1 Hok Hc Hs1 Hwf1) as Hok1.
  assert (i32 n = n) as Hi by (apply i32_small; unfold XY_MAXBUFF_LEN in *; lia).
  rewrite Hi, (proj2 (Z.ltb_ge XY_MAXBUFF_LEN n)), orb_false_r by lia.
  destruct (decide (r = 0)) as [->|Hr].
  - change ((0 =? 1) || (0 <? 0)) with false.
    destruct Hr0 as (He1 & d & Hd & Hin); [done|].
    pose proof (mread_zlen _ _ _ _ Hd) as Hz.
    assert (m_PosConnMap (set_conn b p c1) !! p = Some c1) as Hc1 by apply lookup_insert_eq.
    rewrite <- Hz.
    destruct (recv_loop_ok (S (Z.to_nat (zlen (CConnInfo.m_RemainRecvData c ++ d))))
                (set_conn b p c1) k1 p c1 m1 0 (CConnInfo.m_RemainRecvData c ++ d)
                (k_in k1 (CConnInfo.m_SockID c)) msgs M)
      as (b' & c' & dn & todo & -> & -> & Hrd' & Hc' & Hcc & Hf & Hb' & Hcl & Hid & Hcn & Hccn & Hrt);
      try done; [by rewrite <- app_assoc, <- Hin|lia|by rewrite Hz|lia|].
    cbn [mbind outcome_bind]. eexists _, _, _. split; [done|]. split; [lia|]. right.
    assert (same_conn c c') as Hs'.
    { destruct Hs1. rewrite Hcc. constructor; cbn; done. }
    exists c', dn, todo. split_and!; [done..| |done].
    apply Forall_app in Hms as [_ Hms].
    constructor; try done.
    + by rewrite Hc', lookup_insert_eq.
    + apply (conns_ok_ext (set_conn (set_conn b p c1) p c')); try done.
      apply (set_conn_ok _ p c1); [done..| |].
      * rewrite Hcc. by constructor.
      * destruct Hwf1. rewrite Hcc. constructor; cbn; [done|]. by apply (behind_len _ todo).
    + by rewrite (same_sock _ _ Hs').
  - assert ((r =? 1) || (r <? 0) = true) as ->.
    { destruct (proj1 (Hr1 Hr)) as [->| ->]; done. }
    destruct (ReleaseConn_gone (set_conn b p c1) k1 p c1) as (k2 & b2 & -> & Hd2 & Hcfg & _);
      [done|apply lookup_insert_eq|].
    cbn [mbind outcome_bind]. eexists _, _, _. split; [done|]. split; [lia|]. left.
    split; [by rewrite Hd2, lookup_delete_eq|].
    destruct Hrd as [Hh Hb]. destruct Hcfg. split.
    + intros id i q. rewrite sc_svr. apply Hh.
    + by rewrite sc_buff.
Qed.

(** A connection found readable [n] times. *)
Fixpoint read_times (n : nat) b k (m : list Z) (p : Z) : outcome (K * t Q * list Z) :=
  match n with
  | O => Ok (k, b, m)
  | S n => '(k, b, m) ← OnReadable b k m p; read_times n b k m p
  end.
End receive.
