(* ===== verification/BusProps.v ===== *)
(** The properties of the bus daemon, with a run of each. *)
From stdpp Require Import gmap sorting functions.
From S2P Require Import Prelude Fifo ShmQueue Wire Kernel ConnInfo BusState BusConn BusRoute BusFacts BusRun.
Import CBus CBusRoute CBusRun.

#[local] Arguments Z.add : simpl never.
#[local] Arguments Z.eqb : simpl never.
#[local] Arguments Z.ltb : simpl never.
#[local] Arguments Z.leb : simpl never.

Section connections.
Context {Q K : Type} `{Kernel K}.
Implicit Types (b : t Q) (k : K) (i : ClusterInfo.t).

(** C9: whatever connections are accepted, opened, closed and released, in
    any order and however the system calls turn out, the tables of the bus
    agree, as long as every operation finds numbers that are not in use
    ([room]: fewer client connections and clusters than numbers), and the
    connection with the last number of the cluster range, 299999, is not
    released (which does break them: [ReleaseConn_last_stuck]).  Every connection is filed under its own number, of the right range;
    a cluster entry is either unconnected or names the connection with its
    socket; no two clusters share a connection; and every connection of the
    cluster range belongs to a cluster.  The servers, groups and queues do not
    change. *)
Theorem connections_consistent k b k' b' :
  reachable (k, b) (k', b') → conns_ok b → conns_ok b' ∧ same_cfg b b'.
Proof. intros Hr Hok. by apply (reachable_ok (k, b) (k', b')). Qed.

(** [ConnectCluster] always ends while there are fewer clusters than
    numbers; for a configured cluster other than the own one it leaves
    either a fresh connection with empty buffers under a number of the cluster
    range, filed in the cluster's entry, or, when a system call failed, an
    unconnected entry.  An unknown cluster or the own one changes nothing. *)
Theorem ConnectCluster_links k b id :
  conns_ok b → room b →
  ∃ k' b' r, ConnectCluster b k id = Ok (k', b', r) ∧ conns_ok b' ∧
    (id = m_ClusterID b ∨ m_mapClusterInfo b !! id = None → b' = b) ∧
    (∀ i, id ≠ m_ClusterID b → m_mapClusterInfo b !! id = Some i →
      (r = -1 ∧ m_mapClusterInfo b' !! id = Some (ClusterInfo.set_conn i (-1) 0)) ∨
      (r = 0 ∧ ∃ s p c, m_mapClusterInfo b' !! id = Some (ClusterInfo.set_conn i s p) ∧
         cluster_pos p ∧ m_PosConnMap b' !! p = Some c ∧ CConnInfo.m_SockID c = s ∧ s ≠ -1 ∧
         CConnInfo.m_RemainSendData c = [] ∧ CConnInfo.m_RemainRecvData c = [])).
Proof.
  intros Hok Hroom.
  destruct (ConnectCluster_ok b k id Hok Hroom) as (k' & b' & r & Hc & Hok' & _ & Hr & Hno & Hi).
  exists k', b', r. split_and!; try done. intros i Hne Hi0.
  destruct (Hi i Hne Hi0) as [Hf Hs]. destruct Hr as [->| ->]; auto.
Qed.

(** A released connection is out of the table, no cluster names it any
    more, and the entries of the other clusters are as they were, so that the
    next hello of the cluster connects again. *)
Theorem ReleaseConn_unlinks k b p c :
  conns_ok b → m_PosConnMap b !! p = Some c → p ≠ CLUSTER_SOCK_CPOS_MAX →
  ∃ k' b', ReleaseConn b k p = Ok (k', b') ∧ conns_ok b' ∧
    m_PosConnMap b' = delete p (m_PosConnMap b) ∧
    (∀ id i, m_mapClusterInfo b' !! id = Some i → ClusterInfo.ConnPos i ≠ p) ∧
    (∀ id i, m_mapClusterInfo b !! id = Some i → ClusterInfo.ConnPos i ≠ p →
       m_mapClusterInfo b' !! id = Some i).
Proof.
  intros Hok Hc Hp.
  destruct (ReleaseConn_ok b k p c Hok Hc Hp) as (k' & b' & Hr & Hok' & _ & Hrest).
  by exists k', b'.
Qed.

(** The connection with the last number of the cluster range, which
    [ConnectCluster] does hand out, is not unlinked when it is released: the
    cluster's entry goes on naming a connection that is gone.  Everything sent
    to the cluster fails from then on, and a hello does not connect again,
    since the entry looks connected. *)
Theorem ReleaseConn_last_stuck `{FifoOps Q, BusProto} k b id i c :
  conns_ok b → m_mapClusterInfo b !! id = Some i →
  ClusterInfo.ConnPos i = CLUSTER_SOCK_CPOS_MAX → m_PosConnMap b !! CLUSTER_SOCK_CPOS_MAX = Some c →
  ClusterInfo.SocketID i ≠ -1 →
  ∃ k' b', ReleaseConn b k CLUSTER_SOCK_CPOS_MAX = Ok (k', b') ∧
    m_mapClusterInfo b' !! id = Some i ∧ m_PosConnMap b' !! ClusterInfo.ConnPos i = None ∧
    (∀ k1 buf n, Send2Cluster b' k1 i buf n = Ok (k1, b', -1)) ∧
    (∀ k1 k2 l stack p r d buf h body,
       m_PosConnMap b' !! p = Some l → k_recvfrom k1 (CConnInfo.m_SockID l) 1024 = (k2, r, d) →
       mwrite stack 0 d = Ok buf → BusHeader.Read buf 0 = Ok (h, 26) → mread buf 26 (r - 26) = Ok body →
       pb_dec_cluster body = Some id → RecvHelloMessage b' k1 stack p = Ok (k2, b')).
Proof.
  intros Hok Hi Hp Hc Hs. destruct (ReleaseConn_last b k c Hc) as [k' Hr].
  eexists _, _. split; [exact Hr|]. cbn [m_mapClusterInfo set_conns m_PosConnMap].
  split; [done|]. rewrite Hp, lookup_delete_eq. split; [done|]. split.
  - intros k1 buf n. unfold Send2Cluster. rewrite Hp.
    rewrite (proj2 (Z.eqb_neq _ _) Hs). cbn [orb]. change (CLUSTER_SOCK_CPOS_MAX =? 0) with false.
    cbn [m_PosConnMap set_conns]. by rewrite lookup_delete_eq.
  - intros k1 k2 l stack p r d buf h body Hl Hrf Hw Hrd Hb Hd. unfold RecvHelloMessage.
    cbn [m_PosConnMap set_conns]. rewrite Hl, Hrf. destruct (r <=? 0); [done|].
    rewrite Hw. cbn [mbind outcome_bind]. rewrite Hrd. cbn [mbind outcome_bind].
    destruct (BusHeader.CmdID h =? Cmd_HelloMessage); [|done]. cbn [negb].
    rewrite Hb. cbn [mbind outcome_bind]. rewrite Hd. cbn [m_mapClusterInfo set_conns].
    rewrite Hi, Hp, (proj2 (Z.eqb_neq _ _) Hs). change (CLUSTER_SOCK_CPOS_MAX =? 0) with false.
    by rewrite andb_false_r.
Qed.
End connections.

Section routing.
Context {Q K : Type} `{FifoQueue Q} `{KernelLaws K} `{BusProto}.
Hypothesis Hmax : XY_PKG_MAX_LEN ≤ q_max.
Implicit Types (b : t Q) (M : Z → list (list Z)) (k : K).

(** C2: a stream of well-formed messages is delivered the same however TCP
    cuts it up.  After any number of reads the messages handled are the first
    [done] of the stream, each one once and in order, each offered whole to
    the queue of its destination; what is kept is less than the next message;
    and when the socket is used up every message has been handled.  If the
    connection is lost, the messages handled are again the first ones. *)
Theorem recv_segmentation n b k M m p c msgs :
  reading b k M p c msgs → msgs_ok msgs → zlen m = XY_MAXBUFF_LEN →
  ∃ k' b' m' done todo, read_times n b k m p = Ok (k', b', m') ∧ msgs = done ++ todo ∧
    ready b' (arrivals (route b) M done) ∧
    (m_PosConnMap b' !! p = None ∨
     ∃ c', reading b' k' (arrivals (route b) M done) p c' todo ∧
       (k_in k' (CConnInfo.m_SockID c') = [] → todo = [])).
Proof.
  intros Hrd Hms Hm. revert b k M m c msgs Hrd Hms Hm.
  induction n as [|n IH]; intros b k M m c msgs Hrd Hms Hm; cbn [read_times].
  { exists k, b, m, [], msgs. split_and!; try done; [apply Hrd|]. right. exists c. split; [done|].
    intros Hk. apply (behind_end (CConnInfo.m_RemainRecvData c)); [apply Hrd|].
    rewrite <- (rd_stream _ _ _ _ _ _ Hrd), Hk. by rewrite app_nil_r. }
  destruct (OnReadable_ok Hmax b k M m p c msgs Hrd Hms Hm)
    as (k1 & b1 & m1 & -> & Hm1 & [[Hc1 Hr1]|(c1 & d1 & t1 & -> & Hs & Hrd1 & Hrt)]);
    cbn [mbind outcome_bind].
  - assert (read_times n b1 k1 m1 p = Ok (k1, b1, m1)) as ->.
    { clear IH. induction n as [|n IH]; [done|]. cbn [read_times]. unfold OnReadable at 1.
      by rewrite Hc1. }
    exists k1, b1, m1, [], msgs. split_and!; try done. by left.
  - apply Forall_app in Hms as [_ Hms].
    destruct (IH b1 k1 _ m1 c1 t1 Hrd1 Hms Hm1) as (k2 & b2 & m2 & d2 & t2 & -> & -> & Hr2 & Hc2).
    assert (arrivals (route b1) (arrivals (route b) M d1) d2 = arrivals (route b) M (d1 ++ d2)) as Ha.
    { rewrite (arrivals_ext (route b1) (route b)) by done. unfold arrivals. by rewrite foldl_app. }
    rewrite Ha in *. exists k2, b2, m2, (d1 ++ d2), t2. by rewrite <- app_assoc.
Qed.

(** The length field of a package is not checked from below.  A length
    of 2^31 or more, negative as an [int], goes to [memcpy]; and a length
    shorter than the header, in a package that is not for a server, is
    answered as it is: with 0 the receive loop takes the package for
    incomplete, otherwise the next package is looked for inside this header. *)
Theorem ProcessPkg_bad_length b m o RecvLen h :
  BusHeader.GetHeaderLen ≤ RecvLen → BusHeader.Read m o = Ok (h, 26) →
  (2 ^ 31 ≤ BusHeader.PkgLen h < 2 ^ 32 → ProcessPkg b m o RecvLen = Fault) ∧
  (∀ d, 0 ≤ BusHeader.PkgLen h < BusHeader.GetHeaderLen → BusHeader.SendType h ≠ TO_SRV →
     mread m o (BusHeader.PkgLen h) = Ok d → zlen (m_pProcessBuff b) = XY_PKG_MAX_LEN →
     ∃ buf, ProcessPkg b m o RecvLen = Ok (set_buff b buf, BusHeader.PkgLen h)).
Proof.
  unfold BusHeader.GetHeaderLen. intros Hl Hr. split.
  - intros Hp. unfold ProcessPkg, BusHeader.GetHeaderLen.
    rewrite (proj2 (Z.ltb_ge _ _)), Hr by lia. cbn [mbind outcome_bind].
    assert (i32 (BusHeader.PkgLen h) = BusHeader.PkgLen h - 2 ^ 32) as ->.
    { unfold i32. rewrite mod_sub_once by lia. lia. }
    rewrite !(proj2 (Z.ltb_ge _ _)) by (unfold XY_PKG_MAX_LEN; lia).
    by rewrite mread_fault by lia.
  - intros d Hp Ht Hd Hb. unfold ProcessPkg, BusHeader.GetHeaderLen.
    rewrite (proj2 (Z.ltb_ge _ _)), Hr by lia. cbn [mbind outcome_bind].
    rewrite i32_small by lia.
    rewrite !(proj2 (Z.ltb_ge _ _)), Hd by (unfold XY_PKG_MAX_LEN; lia). cbn [mbind outcome_bind].
    rewrite mwrite_head by (rewrite (mread_zlen _ _ _ _ Hd), Hb; unfold XY_PKG_MAX_LEN; lia).
    cbn [mbind outcome_bind]. rewrite (proj2 (Z.eqb_neq _ _) Ht). by eexists.
Qed.

(** C25: [ProcessPkg] answers with more than it was given, and does
    nothing, while the package is incomplete; a complete package of any content
    whose length field is its length (26 bytes to XY_PKG_MAX_LEN) is answered
    with that length, and if it is for a server of this cluster it is put whole
    into that server's queue, when it fits, and into no other.  Other length
    fields: one of 2^31 or more, negative as an [int], goes to [memcpy] and is
    a fault; one shorter than the header, in a package that is not for a
    server, is answered as it is and changes no more than the buffer. *)
Theorem ProcessPkg_contract b M m o RecvLen :
  ready b M →
  (RecvLen < BusHeader.GetHeaderLen →
     ProcessPkg b m o RecvLen = Ok (b, BusHeader.GetHeaderLen)) ∧
  (∀ h, BusHeader.GetHeaderLen ≤ RecvLen → BusHeader.Read m o = Ok (h, 26) →
     RecvLen < i32 (BusHeader.PkgLen h) →
     ProcessPkg b m o RecvLen = Ok (b, i32 (BusHeader.PkgLen h))) ∧
  (∀ h body, msg_ok h body → mread m o (26 + zlen body) = Ok (msg_bytes h body) →
     26 + zlen body ≤ RecvLen →
     ∃ b', ProcessPkg b m o RecvLen = Ok (b', BusHeader.PkgLen h) ∧ ready b' (arrive (route b) M (h, body)) ∧
       same_net b b') ∧
  (∀ h, BusHeader.GetHeaderLen ≤ RecvLen → BusHeader.Read m o = Ok (h, 26) →
     (2 ^ 31 ≤ BusHeader.PkgLen h < 2 ^ 32 → ProcessPkg b m o RecvLen = Fault) ∧
     (∀ d, 0 ≤ BusHeader.PkgLen h < BusHeader.GetHeaderLen → BusHeader.SendType h ≠ TO_SRV →
        mread m o (BusHeader.PkgLen h) = Ok d →
        ∃ buf, ProcessPkg b m o RecvLen = Ok (set_buff b buf, BusHeader.PkgLen h))).
Proof.
  intros Hr. split_and!.
  - apply ProcessPkg_short.
  - intros h. apply ProcessPkg_incomplete.
  - intros h body Hm Hrd Hl. rewrite (msg_len h body Hm).
    destruct (ProcessPkg_ok Hmax b M m o RecvLen h body Hr Hm Hrd Hl) as (b' & Hp & Hr' & Hn & _).
    by exists b'.
  - intros h Hl Hrd. destruct (ProcessPkg_bad_length b m o RecvLen h Hl Hrd) as [Hneg Hsmall].
    split; [done|]. intros d Hp Ht Hd. apply (Hsmall d); [done..|apply Hr].
Qed.

(** A [StateChange] from another cluster sets the state of its server and
    changes nothing else of the tables. *)
Theorem ProcessPkg_state_change b M m o RecvLen h body sid st i :
  ready b M → msg_ok h body →
  mread m o (26 + zlen body) = Ok (msg_bytes h body) → 26 + zlen body ≤ RecvLen →
  BusHeader.SendType h = TO_SRV → BusHeader.CmdID h = Cmd_StateChange →
  pb_dec_state body = Some (sid, st) → m_mapSvrInfo b !! u32 sid = Some i →
  ∃ buf, ProcessPkg b m o RecvLen
    = Ok (set_servers (set_buff b buf)
            (<[u32 sid := ServerInfo.set_status i st]> (m_mapSvrInfo b)), BusHeader.PkgLen h).
Proof.
  intros [_ Hb] Hm Hr Hl Ht Hc Hd Hi. rewrite (msg_len h body Hm).
  by apply (ProcessPkg_state b m o RecvLen h body sid st i).
Qed.

(** Where a message goes.  A random group message has exactly one
    destination, a member of the group chosen by the random number, never the
    sender when it is excluded; a message to a whole group has all members,
    but the sender when it is excluded; anything else has the server it names.
    There is an error exactly when the group is unknown or, for a random
    message, has no member left. *)
Theorem Destinations_spec b k h k1 r :
  k_rand k = (k1, r) →
  let src := BusHeader.SrcID h in
  let g := m_mapGrpInfo b !! BusHeader.DstID h in
  (∀ nome, BusHeader.SendType h = (if nome : bool then TO_GRP_RNDNOME else TO_GRP_RND) →
     (∃ dst vct, Destinations b k h = Ok (k1, Some [dst]) ∧ g = Some vct ∧ dst ∈ vct ∧
        ¬ (nome = true ∧ dst = src)) ∨
     (Destinations b k h = Ok (k, None) ∧
      ∀ vct, g = Some vct → ∀ id, id ∈ vct → nome = true ∧ id = src)) ∧
  (∀ nome, BusHeader.SendType h = (if nome : bool then TO_GRP_ALLNOME else TO_GRP_ALL) →
     match g with
     | Some vct => ∃ ds, Destinations b k h = Ok (k, Some ds) ∧ sublist ds vct ∧
         ∀ id, id ∈ ds ↔ id ∈ vct ∧ ¬ (nome = true ∧ id = src)
     | None => Destinations b k h = Ok (k, None)
     end) ∧
  (BusHeader.SendType h ∉ [TO_GRP_RND; TO_GRP_RNDNOME; TO_GRP_ALLNOME; TO_GRP_ALL] →
     Destinations b k h = Ok (k, Some [BusHeader.DstID h])).
Proof.
  intros Hk src g. pose proof (k_rand_law _ _ _ Hk) as Hrange. split_and!.
  - intros nome Ht. unfold Destinations. fold g. rewrite Ht.
    assert (((if nome then TO_GRP_RNDNOME else TO_GRP_RND) =? TO_GRP_RND)
            || ((if nome then TO_GRP_RNDNOME else TO_GRP_RND) =? TO_GRP_RNDNOME) = true) as ->
      by by destruct nome.
    assert (((if nome then TO_GRP_RNDNOME else TO_GRP_RND) =? TO_GRP_RNDNOME) = nome) as ->
      by by destruct nome.
    destruct g as [vct|]; [|by right].
    set (l := group_members vct (BusHeader.SrcID h) nome).
    destruct (Z.eqb_spec (zlen l) 0) as [Hz|Hz].
    + right. split; [done|]. intros v [= <-] id Hid.
      assert (l = []) as Hl by (destruct l; [done|rewrite zlen_cons in Hz; pose proof (zlen_nonneg l); lia]).
      destruct (decide (nome = true ∧ id = src)) as [?|Hn]; [done|exfalso].
      assert (id ∈ l) as Hin by (by apply elem_of_group_members). rewrite Hl in Hin.
      by apply not_elem_of_nil in Hin.
    + left. rewrite Hk. pose proof (zlen_nonneg l).
      destruct (aget_total l (CRandomTool.Get 0 (zlen l) r)) as [dst Hdst].
      { apply CRandomTool.Get_range; lia. }
      rewrite Hdst. cbn [mbind outcome_bind]. exists dst, vct. split_and!; [done|done| |].
      all: apply aget_Some in Hdst as [_ Hdst]; apply list_elem_of_lookup_2 in Hdst;
        apply elem_of_group_members in Hdst; tauto.
  - intros nome Ht. unfold Destinations. fold g. rewrite Ht.
    assert (((if nome then TO_GRP_ALLNOME else TO_GRP_ALL) =? TO_GRP_RND)
            || ((if nome then TO_GRP_ALLNOME else TO_GRP_ALL) =? TO_GRP_RNDNOME) = false) as ->
      by by destruct nome.
    assert (((if nome then TO_GRP_ALLNOME else TO_GRP_ALL) =? TO_GRP_ALLNOME)
            || ((if nome then TO_GRP_ALLNOME else TO_GRP_ALL) =? TO_GRP_ALL) = true) as ->
      by by destruct nome.
    assert (((if nome then TO_GRP_ALLNOME else TO_GRP_ALL) =? TO_GRP_ALLNOME) = nome) as ->
      by by destruct nome.
    destruct g as [vct|]; [|done]. eexists. split; [done|]. split.
    + apply sublist_filter.
    + intros id. apply elem_of_group_members.
  - intros Hn. rewrite !not_elem_of_cons in Hn. unfold Destinations.
    by rewrite !(proj2 (Z.eqb_neq _ _)) by tauto.
Qed.

(** C5: a message to a whole group, whose members are servers of this
    cluster and of others, each listed once.  With result 0 every member of
    this cluster that has a queue, but the sender when it is excluded, has got
    exactly one copy, with its own number as destination, sent to a single
    server and stamped with the time, and no other queue has changed; and on
    every connection exactly the copies for the members of the cluster it leads
    to have been added, in the order of the group, to what is on its way
    ([outgoing]: taken by the socket or kept).  Members whose cluster is not
    connected or not configured are passed over.  Otherwise the result is -1:
    the copies for the members before some member [id] have been put into the
    queues, those after it get nothing, and [id] is a server the bus does not
    know, or its queue cannot take the message, or the connection to its
    cluster has failed and is released. *)
Theorem ForwardMsg_group b M k h body rest vct nome :
  holds b M → conns_ok b → socks_distinct b →
  msg_ok h body → m_pProcessBuff b = msg_bytes h body ++ rest →
  BusHeader.CmdID h ≠ Cmd_StateChange →
  BusHeader.SendType h = (if nome : bool then TO_GRP_ALLNOME else TO_GRP_ALL) →
  m_mapGrpInfo b !! BusHeader.DstID h = Some vct → NoDup vct → sent_time k h ≠ 0 →
  let copy id := msg_bytes (stamp (with_time h (sent_time k h)) id 0) body in
  let members := filter (λ id, ¬ (nome = true ∧ id = BusHeader.SrcID h)) vct in
  ∃ k' b' r M', ForwardMsg b k (26 + zlen body) = Ok (k', b', r) ∧ holds b' M' ∧
    (r = 0 →
       (∀ id, M' id = if decide (id ∈ members ∧ is_Some (route b id)) then M id ++ [copy id] else M id) ∧
       ∀ p c, m_PosConnMap b !! p = Some c → ∃ c', m_PosConnMap b' !! p = Some c' ∧ same_conn c c' ∧
         outgoing k' c' = outgoing k c ++ concat (copy <$> filter (λ id, remote_pos b id = Some p) members)) ∧
    (r ≠ 0 → r = -1 ∧ ∃ before id after, members = before ++ id :: after ∧
       (∀ x, M' x = if decide (x ∈ before ∧ is_Some (route b x)) then M x ++ [copy x] else M x) ∧
       (m_mapSvrInfo b !! id = None ∨
        (∃ cap, route b id = Some cap ∧ q_fits cap (M id) (copy id) = false) ∨
        (∃ p, remote_pos b id = Some p ∧ m_PosConnMap b' !! p = None))).
Proof.
  intros Hh Hok Hsk Hm Hb Hcmd Ht Hg Hnd Hst copy members.
  rewrite (ForwardMsg_enter b k h body rest) by done.
  assert (Destinations b k h = Ok (k, Some members)) as ->.
  { unfold Destinations, members. rewrite Ht, Hg, <- group_members_filter. by destruct nome. }
  assert (NoDup members) as Hnm by by apply NoDup_filter.
  cbn [mbind outcome_bind].
  destruct (Deliver_group_time Hmax b M k h body members)
    as (k' & b' & r & dn & -> & Hz & Hh' & Hr0 & Hrn); [|apply Hm|done|done|].
  { split; [done|done|done|]. by apply (has_body_msg b h body rest). }
  eexists k', b', r, _. split; [done|]. split; [exact Hh'|].
  assert (NoDup dn → ∀ x, (deliver_all (route b) M (with_time h (sent_time k h)) body dn).1 x
    = if decide (x ∈ dn ∧ is_Some (route b x)) then M x ++ [copy x] else M x) as Hput.
  { intros Hd. apply deliver_all_each; [done|]. rewrite <- Hz. apply surjective_pairing. }
  split.
  - intros Hr. destruct (Hr0 Hr) as [-> Hs]. split; [by apply Hput|exact Hs].
  - intros Hr. destruct (Hrn Hr) as (-> & id & after & He & Hbl). split; [done|].
    exists dn, id, after. split; [done|]. split; [|exact Hbl]. apply Hput.
    rewrite He in Hnm. by apply NoDup_app in Hnm as [? _].
Qed.

(** A message for one server of this cluster: it is put into that
    server's queue, stamped, and into no other; if it does not fit nothing is
    delivered and the result is -1. *)
Theorem ForwardMsg_local b M k h body rest cap :
  holds b M → msg_ok h body → m_pProcessBuff b = msg_bytes h body ++ rest →
  BusHeader.CmdID h ≠ Cmd_StateChange → BusHeader.SendType h = TO_SRV →
  route b (BusHeader.DstID h) = Some cap → sent_time k h ≠ 0 →
  let dst := BusHeader.DstID h in
  let copy := msg_bytes (stamp (with_time h (sent_time k h)) dst 0) body in
  ∃ k' b', ForwardMsg b k (26 + zlen body)
      = Ok (k', b', if q_fits cap (M dst) copy then 0 else -1) ∧
    holds b' (if q_fits cap (M dst) copy then <[dst := M dst ++ [copy]]> M else M) ∧
    same_net b b'.
Proof.
  intros Hh Hm Hb Hcmd Ht Hrt Hst dst copy.
  rewrite (ForwardMsg_enter b k h body rest) by done.
  assert (Destinations b k h = Ok (k, Some [dst])) as ->.
  { unfold Destinations. by rewrite Ht. }
  cbn [mbind outcome_bind].
  assert (local b dst) as Hl.
  { unfold route in Hrt. apply bind_Some in Hrt as (i & Hi & Hc). exists i. split; [done|].
    by destruct (Z.eqb_spec (ServerInfo.ClusterID i) (m_ClusterID b)). }
  destruct (Deliver_local_time Hmax b M k h body [dst]) as (k' & b' & -> & Hh' & Hn); try done;
    [by apply (has_body_msg b h body rest)|apply Hm|by constructor|].
  exists k', b'. cbn [deliver_all] in *. fold dst in Hrt. rewrite Hrt in *. fold copy in Hh' |- *.
  by destruct (q_fits cap (M dst) copy).
Qed.

(** C15: a message for a server of another cluster.  If that cluster is
    connected, result 0 means the message, stamped with its destination
    and time, has been added whole to what is on its way to that cluster's
    socket, after everything sent before; a failure releases the connection.
    If it is not connected the message is dropped and the result is 0. *)
Theorem ForwardMsg_remote b k h body rest i ci :
  conns_ok b → msg_ok h body → m_pProcessBuff b = msg_bytes h body ++ rest →
  BusHeader.CmdID h ≠ Cmd_StateChange → BusHeader.SendType h = TO_SRV →
  m_mapSvrInfo b !! BusHeader.DstID h = Some i → ServerInfo.ClusterID i ≠ m_ClusterID b →
  m_mapClusterInfo b !! ServerInfo.ClusterID i = Some ci →
  let copy := msg_bytes (stamp h (BusHeader.DstID h) (sent_time k h)) body in
  ∃ k' b' r, ForwardMsg b k (26 + zlen body) = Ok (k', b', r) ∧
    (¬ linked ci → r = 0 ∧ m_PosConnMap b' = m_PosConnMap b) ∧
    (∀ c, linked ci → m_PosConnMap b !! ClusterInfo.ConnPos ci = Some c →
      (r = 0 ∧ ∃ c', m_PosConnMap b' = <[ClusterInfo.ConnPos ci := c']> (m_PosConnMap b) ∧
         same_conn c c' ∧ outgoing k' c' = outgoing k c ++ copy) ∨
      (r = -1 ∧ m_PosConnMap b' = delete (ClusterInfo.ConnPos ci) (m_PosConnMap b))).
Proof.
  intros Hok Hm Hb Hcmd Ht Hi Hne Hci copy.
  rewrite (ForwardMsg_enter b k h body rest) by done.
  assert (Destinations b k h = Ok (k, Some [BusHeader.DstID h])) as ->.
  { unfold Destinations. by rewrite Ht. }
  cbn [mbind outcome_bind Deliver]. unfold sent_time in copy.
  set (kt := if BusHeader.PkgTime h =? 0 then k_time k else (k, 0)).
  assert (∃ k1 now, kt = (k1, now) ∧ copy = msg_bytes (stamp h (BusHeader.DstID h) now) body ∧
    ∀ c, outgoing k1 c = outgoing k c) as (k1 & now & -> & Hcopy & Hout1).
  { unfold kt, copy, stamp. destruct (BusHeader.PkgTime h =? 0).
    - destruct (k_time k) as [k1 now] eqn:E. exists k1, now. split_and!; [done..|].
      intros c. apply k_time_law in E as [_ Ho]. unfold outgoing. by rewrite Ho.
    - by exists k, 0. }
  destruct (has_body_msg b h body rest Hb) as (hd & rest' & Hbuf & Hhd).
  rewrite Hbuf, Write_front by done. cbn [mbind outcome_bind]. rewrite <- Hcopy.
  set (b1 := set_buff b (copy ++ rest')).
  change (m_mapSvrInfo b1) with (m_mapSvrInfo b). rewrite Hi.
  change (m_ClusterID b1) with (m_ClusterID b). rewrite (proj2 (Z.eqb_neq _ _) Hne).
  change (m_mapClusterInfo b1) with (m_mapClusterInfo b). rewrite Hci.
  assert (conns_ok b1) as Hok1 by by apply (conns_ok_ext b).
  assert (mread (copy ++ rest') 0 (26 + zlen body) = Ok copy) as Hrd.
  { unfold copy. rewrite <- (zlen_msg_bytes (stamp h (BusHeader.DstID h)
      (if BusHeader.PkgTime h =? 0 then (k_time k).2 else BusHeader.PkgTime h))). apply mread_head. }
  destruct (co_link b Hok _ _ Hci) as [[Hs Hp]|(Hcp & c & Hc & Hsock)].
  { unfold Send2Cluster. rewrite Hs. change (-1 =? -1) with true. cbn [orb mbind outcome_bind].
    change (0 =? 0) with true. eexists _, _, _. split; [done|]. split; [done|].
    intros c' [? _]. done. }
  destruct (decide (linked ci)) as [Hlk|Hnl].
  - destruct (Send2Cluster_ok b1 k1 ci c (copy ++ rest') copy (26 + zlen body) Hok1 Hlk Hc Hrd)
      as (k2 & b2 & r & -> & _ & Hr & H0r & H1r). cbn [mbind outcome_bind].
    destruct (Z.eqb_spec r 0) as [->|Hrn].
    + destruct (H0r eq_refl) as (c' & -> & _ & Ho & _ & Hs & _).
      eexists _, _, _. split; [done|]. split; [done|]. intros c0 _ Hc0. simplify_eq. left.
      split; [done|]. exists c'. by rewrite Ho, Hout1.
    + destruct (H1r Hrn) as [Hd _]. eexists _, _, _. split; [done|]. split; [done|].
      intros c0 _ _. right. by rewrite Hd.
  - assert (ClusterInfo.SocketID ci = -1) as Hs.
    { destruct (decide (ClusterInfo.SocketID ci = -1)); [done|]. destruct Hnl. split; [done|cpos]. }
    unfold Send2Cluster. rewrite Hs. change (-1 =? -1) with true. cbn [orb mbind outcome_bind].
    change (0 =? 0) with true. eexists _, _, _. split; [done|]. split; [done|]. done.
Qed.

(** The datagram [SendHelloMessage] of one bus sends is understood by
    [RecvHelloMessage] of another: it connects to the sender's cluster when
    that cluster is configured, is not its own, and is not connected, and does
    nothing otherwise. *)
Theorem hello_reconnects `{!BusProtoLaws} (b1 b2 : t Q) k k1 stack p l :
  0 ≤ m_ClusterID b1 < 2 ^ 32 → zlen (pb_enc_cluster (m_ClusterID b1)) ≤ 1024 - 26 →
  zlen stack = 1024 → m_PosConnMap b2 !! p = Some l →
  ∃ buf len d, HelloPkg b1 = Ok (Some (buf, len)) ∧ mread buf 0 len = Ok d ∧
    (k_recvfrom k (CConnInfo.m_SockID l) 1024 = (k1, zlen d, d) →
     RecvHelloMessage b2 k stack p =
       match m_mapClusterInfo b2 !! m_ClusterID b1 with
       | Some i =>
           if negb (m_ClusterID b1 =? m_ClusterID b2) &&
              ((ClusterInfo.SocketID i =? -1) || (ClusterInfo.ConnPos i =? 0))
           then '(k, b, _) ← ConnectCluster b2 k1 (m_ClusterID b1); Ok (k, b)
           else Ok (k1, b2)
       | None => Ok (k1, b2)
       end).
Proof.
  intros Hid Hfit Hstack Hl. set (enc := pb_enc_cluster (m_ClusterID b1)) in *.
  pose proof (zlen_nonneg enc).
  set (h := BusHeader.mk (u32 (26 + zlen enc)) Cmd_HelloMessage 0 0 0 0 0).
  assert (bus_ok h) as Hh by (constructor; cbn; [apply u32_range|unfold Cmd_HelloMessage; lia|lia..]).
  destruct (mwrite_total (replicate 1024 0) enc 26) as (m1 & Hm1 & Hl1);
    [lia|rewrite zlen_replicate; lia|]. rewrite zlen_replicate in Hl1.
  assert (∃ rest, m1 = replicate 26 0 ++ enc ++ rest) as (rest & ->).
  { rewrite mwrite_ok in Hm1 by (rewrite ?zlen_replicate; lia). injection Hm1 as <-.
    by eexists. }
  exists (msg_bytes h enc ++ rest), (26 + zlen enc), (msg_bytes h enc).
  assert (mread (msg_bytes h enc ++ rest) 0 (26 + zlen enc) = Ok (msg_bytes h enc)) as Hd.
  { rewrite <- (zlen_msg_bytes h). apply mread_head. }
  split_and!; [|done|].
  - unfold HelloPkg, BusHeader.GetHeaderLen. fold enc.
    rewrite (proj2 (Z.ltb_ge _ _)) by lia. rewrite Hm1. cbn [mbind outcome_bind]. fold h.
    rewrite Write_front by done. cbn [mbind outcome_bind]. unfold h. cbn [BusHeader.PkgLen].
    rewrite u32_small by lia. done.
  - intros Hrf. unfold RecvHelloMessage. rewrite Hl, Hrf, zlen_msg_bytes.
    rewrite (proj2 (Z.leb_gt _ _)) by lia.
    rewrite mwrite_head by (rewrite zlen_msg_bytes, Hstack; lia). cbn [mbind outcome_bind].
    set (tl := drop _ stack).
    assert (BusHeader.Read (msg_bytes h enc ++ tl) 0 = Ok (h, 26)) as ->.
    { apply bus_Read_bytes; [done|]. unfold msg_bytes. rewrite <- (zlen_bus_bytes h), <- app_assoc.
      apply mread_head. }
    cbn [mbind outcome_bind]. unfold h at 1. cbn [BusHeader.CmdID].
    change (Cmd_HelloMessage =? Cmd_HelloMessage) with true. cbn [negb].
    rewrite mread_body. cbn [mbind outcome_bind]. unfold enc. rewrite pb_cluster_law by done.
    by destruct (m_mapClusterInfo b2 !! m_ClusterID b1).
Qed.
End routing.

(** * A bus of cluster 1 with two servers, connected to cluster 2 *)
Module BusExample.
Definition queue : CShmQueue.t := CShmQueue.mk 0 0 96 (replicate 96 0) None.
Definition conn (pos sock : Z) : CConnInfo.t := CConnInfo.mk pos sock (0, 0) (0, 0) 0 [] [].
Definition server (cluster group : Z) (q : option CShmQueue.t) : ServerInfo.t CShmQueue.t :=
  ServerInfo.mk cluster group 0 1 96 q.
Definition c1 : ClusterInfo.t := ClusterInfo.mk 16777343 7000 1 (-1) 0.
Definition c2 : ClusterInfo.t := ClusterInfo.mk 16777343 7001 2 9 200001.
Definition c3 : ClusterInfo.t := ClusterInfo.mk 16777343 7002 3 (-1) 0.
Definition conns : gmap Z CConnInfo.t :=
  {[100 := conn 100 5; 150 := conn 150 6; 200001 := conn 200001 9; 300001 := conn 300001 10]}.
Definition bus (buf : list Z) : CBus.t CShmQueue.t :=
  CBus.mk 1 300001 200001 buf 5 5 conns {[1 := c1; 2 := c2; 3 := c3]}
    {[11 := server 1 100 (Some queue); 12 := server 1 100 (Some queue);
      21 := server 2 200 None; 31 := server 3 300 None]}
    {[100 := [11; 12]; 200 := [21]; 300 := [31]]} queue.

(** Messages of two bytes, and the kernel the bus runs on. *)
Definition hdr (dst ty : Z) : BusHeader.t := BusHeader.mk 28 65537 11 dst 0 ty 0.
Definition body : list Z := [7; 8].
Definition kernel : Sim.t := Sim.mk ∅ ∅ 20 [] 20 1000 5.
#[export] Instance proto : BusProto := {
  pb_enc_cluster x := 8 :: le_enc 4 x;
  pb_dec_cluster d := match d with _ :: d => Some (le_dec d) | [] => None end;
  pb_dec_state d := match d with [a; s] => Some (a, s) | _ => None end;
}.
#[export] Instance proto_laws : BusProtoLaws.
Proof. intros id Hid. cbn -[le_dec le_enc]. by rewrite le_dec_enc by lia. Qed.

(** A buffer of the full size. *)
Definition big : list Z := replicate (Z.to_nat XY_MAXBUFF_LEN) 0.
Lemma zlen_big : zlen big = XY_MAXBUFF_LEN.
Proof. unfold big. by rewrite zlen_replicate, Z2Nat.id. Qed.

(** The cases of a lookup in a map written out. *)
Ltac map_cases H :=
  repeat first
    [ apply lookup_insert_Some in H as [[<- <-]|[_ H]]
    | apply lookup_singleton_Some in H as [<- <-] ].

Lemma bus_conns_ok buf : conns_ok (bus buf).
Proof.
  constructor; unfold bus; cbn [m_PosConnMap m_mapClusterInfo m_ClusterID m_ConnPosCnt m_ClusterPosCnt].
  - intros p c Hp. unfold conns in Hp. map_cases Hp.
    all: split; [done|]; split; [by constructor|cpos].
  - intros id i Hi. map_cases Hi; done.
  - intros i Hi. by simplify_map_eq.
  - intros id i Hi. map_cases Hi; [by left| |by left].
    right. split; [by split|]. by exists (conn 200001 9).
  - intros id id' i i' Hi Hi'. map_cases Hi; map_cases Hi'; cbn; congruence.
  - intros p [c Hc] Hp. unfold conns in Hc. map_cases Hc; try cpos. by exists 2, c2.
  - right. cpos.
  - right. cpos.
Qed.

Lemma bus_holds buf : holds (bus buf) (λ _, []).
Proof.
  intros id i q Hi Hq. unfold bus in Hi. cbn [m_mapSvrInfo] in Hi.
  map_cases Hi; cbn in Hq; simplify_eq.
  all: split; [split; concrete|constructor|reflexivity|reflexivity].
Qed.

Lemma bus_room buf : room (bus buf).
Proof. by split. Qed.

Lemma msg_ok_hdr dst ty : 0 ≤ dst < 2 ^ 32 → 0 ≤ ty < 5 → msg_ok (hdr dst ty) body.
Proof.
  intros. split; [split; cbn; lia|repeat constructor; cbn; lia|done|done].
Qed.
(** The same bus after its counter has come to the end of the range. *)
Definition last : CBus.t CShmQueue.t :=
  CBus.mk 1 300001 299999 [] 5 5 {[299999 := conn 299999 9]}
    {[2 := ClusterInfo.set_conn c2 9 299999]} ∅ ∅ queue.
End BusExample.

Section examples.
Import BusExample.

Lemma connections_consistent_witness :
  ∃ k' b', ConnectCluster (bus []) kernel 3 = Ok (k', b', 0) ∧ conns_ok b' ∧ same_cfg (bus []) b'.
Proof.
  destruct (ConnectCluster_ok (bus []) kernel 3 (bus_conns_ok []) (bus_room []))
    as (k' & b' & r & Hr & _ & _ & [->| ->] & _ & Hi).
  2:{ vm_compute in Hr. discriminate Hr. }
  exists k', b'. split; [exact Hr|].
  apply (connections_consistent kernel (bus []) k' b'); [|apply bus_conns_ok].
  apply (ReachStep _ (kernel, bus [])); [constructor|apply bus_room|].
  by apply (StepConnect (bus []) kernel 3 k' b' 0).
Defined.

Lemma ConnectCluster_links_witness :
  ∃ k' b' s p c, ConnectCluster (bus []) kernel 3 = Ok (k', b', 0) ∧
    m_mapClusterInfo b' !! 3 = Some (ClusterInfo.set_conn c3 s p) ∧ m_PosConnMap b' !! p = Some c.
Proof.
  destruct (ConnectCluster_links kernel (bus []) 3 (bus_conns_ok []) (bus_room []))
    as (k' & b' & r & Hr & _ & _ & Hi).
  destruct (Hi c3) as [[-> _]|(-> & s & p & c & Hm & _ & Hc & _)]; [done|reflexivity| |].
  - vm_compute in Hr. discriminate Hr.
  - by exists k', b', s, p, c.
Defined.

Lemma ReleaseConn_unlinks_witness :
  ∃ k' b', ReleaseConn (bus []) kernel 200001 = Ok (k', b') ∧
    m_PosConnMap b' !! 200001 = None ∧ m_mapClusterInfo b' !! 3 = Some c3.
Proof.
  destruct (ReleaseConn_unlinks kernel (bus []) 200001 (conn 200001 9) (bus_conns_ok []))
    as (k' & b' & Hr & _ & Hd & _ & Ho); [reflexivity|done|].
  exists k', b'. split; [done|]. split; [by rewrite Hd, lookup_delete_eq|].
  by apply (Ho 3 c3).
Defined.

Lemma last_reached :
  (b ← NextClusterPos (CBus.set_ccnt (bus []) 299998); Ok b.2) = Ok 299999.
Proof. reflexivity. Qed.

Lemma last_ok : conns_ok last.
Proof.
  constructor; unfold last; cbn [m_PosConnMap m_mapClusterInfo m_ClusterID m_ConnPosCnt m_ClusterPosCnt].
  - intros p c Hp. map_cases Hp. split; [done|]; split; [by constructor|cpos].
  - intros id i Hi. by map_cases Hi.
  - intros i Hi. map_cases Hi. by simplify_map_eq.
  - intros id i Hi. map_cases Hi. right. split; [cbn; cpos|]. by exists (conn 299999 9).
  - intros id id' i i' Hi Hi'. map_cases Hi; map_cases Hi'; cbn; congruence.
  - intros p [c Hc] Hp. map_cases Hc. by eexists 2, _.
  - right. cpos.
  - right. cpos.
Qed.

Lemma ReleaseConn_last_stuck_witness :
  ∃ k' b', ReleaseConn last kernel 299999 = Ok (k', b') ∧
    Send2Cluster b' kernel (ClusterInfo.set_conn c2 9 299999) [1] 1 = Ok (kernel, b', -1).
Proof.
  destruct (ReleaseConn_last_stuck kernel last 2 (ClusterInfo.set_conn c2 9 299999) (conn 299999 9) last_ok)
    as (k' & b' & Hr & _ & _ & Hs & _); [reflexivity..|done|].
  exists k', b'. split; [exact Hr|apply Hs].
Defined.

Lemma max_ok : XY_PKG_MAX_LEN ≤ q_max (Q := CShmQueue.t).
Proof. cbn. unfold XY_PKG_MAX_LEN. lia. Qed.

(** Two messages on the wire, one for server 12 and one for server 11, and a
    kernel that hands them over twenty bytes at a time. *)
Let msgs : list (BusHeader.t * list Z) := [(hdr 12 0, body); (hdr 11 0, body)].
Let wired : Sim.t := Sim.mk {[10 := wire msgs]} ∅ 20 [] 20 1000 5.

Lemma recv_segmentation_witness :
  ∃ k' b' m' done todo,
    read_times 2 (bus big) (Sim.mk {[10 := wire [(hdr 12 0, body); (hdr 11 0, body)]]} ∅ 20 [] 20 1000 5)
      big 300001 = Ok (k', b', m') ∧
    [(hdr 12 0, body); (hdr 11 0, body)] = done ++ todo ∧
    holds b' (arrivals (route (bus big)) (λ _, []) done).
Proof.
  destruct (recv_segmentation max_ok 2 (bus big) wired (λ _, []) big 300001 (conn 300001 10) msgs)
    as (k' & b' & m' & dn & todo & Hr & Hm & [Hh _] & _).
  - constructor; [reflexivity|apply bus_conns_ok|split; [apply bus_holds|apply zlen_big]|reflexivity|].
    unfold behind, msgs. rewrite zlen_msg_bytes. done.
  - do 2 (apply Forall_cons; split; [apply msg_ok_hdr; cbn; lia|]). by constructor.
  - apply zlen_big.
  - exists k', b', m', dn, todo. exact (conj Hr (conj Hm Hh)).
Defined.

Let pkg : list Z := msg_bytes (hdr 12 0) body.
Lemma ProcessPkg_contract_witness :
  ∃ b', ProcessPkg (bus big) (msg_bytes (hdr 12 0) body) 0 28 = Ok (b', 28) ∧
    holds b' (arrive (route (bus big)) (λ _, []) (hdr 12 0, body)).
Proof.
  destruct (ProcessPkg_contract max_ok (bus big) (λ _, []) pkg 0 28) as (_ & _ & Hp & _).
  { split; [apply bus_holds|apply zlen_big]. }
  destruct (Hp (hdr 12 0) body) as (b' & Hr & [Hh _] & _);
    [apply msg_ok_hdr; lia|reflexivity|done|].
  exists b'. exact (conj Hr Hh).
Defined.

Let state_hdr : BusHeader.t := BusHeader.mk 28 Cmd_StateChange 0 0 0 TO_SRV 0.
Lemma ProcessPkg_state_change_witness :
  ∃ buf, ProcessPkg (bus big) (msg_bytes (BusHeader.mk 28 Cmd_StateChange 0 0 0 TO_SRV 0) [21; 2]) 0 28
    = Ok (set_servers (set_buff (bus big) buf)
            (<[21 := ServerInfo.set_status (server 2 200 None) 2]> (m_mapSvrInfo (bus big))), 28).
Proof.
  apply (ProcessPkg_state_change (bus big) (λ _, []) (msg_bytes state_hdr [21; 2]) 0 28 state_hdr
           [21; 2] 21 2 (server 2 200 None)); try reflexivity.
  - split; [apply bus_holds|apply zlen_big].
  - split; [by split; cbn; unfold Cmd_StateChange|repeat constructor; lia|done|done].
Defined.

Lemma ProcessPkg_bad_length_witness :
  ProcessPkg (bus []) (bus_bytes (BusHeader.mk (2 ^ 32 - 1) 0 0 0 0 0 0)) 0 26 = Fault.
Proof.
  apply (ProcessPkg_bad_length (bus []) _ 0 26 (BusHeader.mk (2 ^ 32 - 1) 0 0 0 0 0 0));
    [done|reflexivity|cbn; lia].
Defined.

Lemma Destinations_spec_witness :
  Destinations (bus []) kernel (hdr 100 TO_GRP_ALLNOME) = Ok (kernel, Some [12]) ∧
  Destinations (bus []) kernel (hdr 11 TO_SRV) = Ok (kernel, Some [11]).
Proof.
  assert (k_rand kernel = (kernel, 5)) as Hk by reflexivity.
  destruct (Destinations_spec (bus []) kernel (hdr 100 TO_GRP_ALLNOME) kernel 5 Hk) as (_ & Ha & _).
  specialize (Ha true eq_refl) as (ds & Hd & _).
  destruct (Destinations_spec (bus []) kernel (hdr 11 TO_SRV) kernel 5 Hk) as (_ & _ & Hs).
  split; [vm_compute in Hd; injection Hd as <-; reflexivity|].
  apply Hs. intros Hin.
  repeat (apply elem_of_cons in Hin as [Hin|Hin]; [vm_compute in Hin; discriminate Hin|]).
  by apply not_elem_of_nil in Hin.
Defined.

Lemma msgs_kernel : sent_time kernel (hdr 100 TO_GRP_ALL) ≠ 0.
Proof. done. Qed.

(** A group of a server of this cluster, the sender, and one of cluster 2. *)
Let mixed (buf : list Z) : CBus.t CShmQueue.t :=
  CBus.mk 1 300001 200001 buf 5 5 conns {[1 := c1; 2 := c2; 3 := c3]}
    {[11 := server 1 100 (Some queue); 12 := server 1 100 (Some queue); 21 := server 2 100 None]}
    {[100 := [11; 12; 21]]} queue.

Lemma ForwardMsg_group_witness :
  ∃ k' b' c' M',
    ForwardMsg
      (CBus.mk 1 300001 200001 (msg_bytes (hdr 100 TO_GRP_ALLNOME) body) 5 5 conns
         {[1 := c1; 2 := c2; 3 := c3]}
         {[11 := server 1 100 (Some queue); 12 := server 1 100 (Some queue); 21 := server 2 100 None]}
         {[100 := [11; 12; 21]]} queue) kernel 28 = Ok (k', b', 0) ∧
    holds b' M' ∧ M' 11 = [] ∧
    M' 12 = [msg_bytes (BusHeader.mk 28 65537 11 12 1000 0 0) body] ∧
    m_PosConnMap b' !! 200001 = Some c' ∧
    outgoing k' c' = msg_bytes (BusHeader.mk 28 65537 11 21 1000 0 0) body.
Proof.
  destruct (ForwardMsg_group max_ok (mixed (msg_bytes (hdr 100 TO_GRP_ALLNOME) body ++ [])) (λ _, []) kernel
              (hdr 100 TO_GRP_ALLNOME) body [] [11; 12; 21] true)
    as (k' & b' & r & M' & Hr & Hh & H0 & _);
    [| | | |reflexivity|discriminate|reflexivity|reflexivity| |discriminate|].
  - intros id i q Hi Hq. apply (bus_holds [] id i q); [|done]. unfold mixed in Hi. cbn [m_mapSvrInfo] in Hi.
    map_cases Hi; [reflexivity|reflexivity|discriminate Hq].
  - by apply (conns_ok_ext (bus [])); [apply bus_conns_ok|..].
  - intros p p' c c' Hc Hc' He. unfold mixed, conns in Hc, Hc'. cbn [m_PosConnMap] in Hc, Hc'.
    map_cases Hc; map_cases Hc'; cbn in He; congruence.
  - apply msg_ok_hdr; unfold TO_GRP_ALLNOME; lia.
  - apply (bool_decide_unpack _). vm_compute. constructor.
  - assert (r = 0) as -> by (vm_compute in Hr; by injection Hr).
    destruct (H0 eq_refl) as [Hq Hs].
    destruct (Hs 200001 (conn 200001 9)) as (c' & Hc & _ & Ho); [reflexivity|].
    exists k', b', c', M'. rewrite app_nil_r in Hr.
    split_and!; [exact Hr|exact Hh|exact (Hq 11)|exact (Hq 12)|exact Hc|exact Ho].
Defined.

Lemma ForwardMsg_local_witness :
  ∃ k' b', ForwardMsg (bus (msg_bytes (hdr 12 TO_SRV) body)) kernel 28 = Ok (k', b', 0) ∧
    holds b' (<[12 := [msg_bytes (BusHeader.mk 28 65537 11 12 1000 0 0) body]]> (λ _, [])).
Proof.
  destruct (ForwardMsg_local max_ok (bus (msg_bytes (hdr 12 TO_SRV) body ++ [])) (λ _, []) kernel
              (hdr 12 TO_SRV) body [] 96) as (k' & b' & Hr & Hh & _); try done.
  - apply bus_holds.
  - apply msg_ok_hdr; unfold TO_SRV; lia.
  - exists k', b'. rewrite app_nil_r in Hr. split; [exact Hr|exact Hh].
Defined.

Lemma ForwardMsg_remote_witness :
  ∃ k' b' c', ForwardMsg (bus (msg_bytes (hdr 21 TO_SRV) body)) kernel 28 = Ok (k', b', 0) ∧
    m_PosConnMap b' !! 200001 = Some c' ∧
    outgoing k' c' = msg_bytes (BusHeader.mk 28 65537 11 21 1000 0 0) body.
Proof.
  destruct (ForwardMsg_remote (bus (msg_bytes (hdr 21 TO_SRV) body ++ [])) kernel
              (hdr 21 TO_SRV) body [] (server 2 200 None) c2) as (k' & b' & r & Hr & _ & Hs); try done.
  - apply bus_conns_ok.
  - apply msg_ok_hdr; unfold TO_SRV; lia.
  - rewrite app_nil_r in Hr.
    destruct (Hs (conn 200001 9)) as [(-> & c' & Hc & _ & Ho)|[-> _]]; [by split|reflexivity| |].
    + exists k', b', c'. split; [exact Hr|]. rewrite Hc. split; [apply lookup_insert_eq|exact Ho].
    + vm_compute in Hr. discriminate Hr.
Defined.

(** Bus 1 says hello to a bus that is cluster 2 and has lost it. *)
Let bus2 : CBus.t CShmQueue.t :=
  CBus.mk 2 0 0 [] 5 5 {[150 := conn 150 6]} {[1 := c1; 2 := ClusterInfo.set_conn c2 (-1) 0]} ∅ ∅ queue.
Lemma hello_reconnects_witness :
  ∃ buf len d, HelloPkg (bus []) = Ok (Some (buf, len)) ∧ mread buf 0 len = Ok d ∧
    RecvHelloMessage
      (CBus.mk 2 0 0 [] 5 5 {[150 := conn 150 6]}
         {[1 := c1; 2 := ClusterInfo.set_conn c2 (-1) 0]} ∅ ∅ queue)
      (Sim.mk {[6 := d]} ∅ 20 [] 20 1000 5) (replicate 1024 0) 150
    = ('(k, b, _) ← ConnectCluster
         (CBus.mk 2 0 0 [] 5 5 {[150 := conn 150 6]}
            {[1 := c1; 2 := ClusterInfo.set_conn c2 (-1) 0]} ∅ ∅ queue)
         (Sim.mk {[6 := []]} ∅ 20 [] 20 1000 5) 1; Ok (k, b)).
Proof.
  assert (HelloPkg (bus []) =
    Ok (Some (msg_bytes (BusHeader.mk 31 Cmd_HelloMessage 0 0 0 0 0) [8; 1; 0; 0; 0] ++ replicate 993 0, 31)))
    as Hh by (vm_compute; reflexivity).
  pose (d := msg_bytes (BusHeader.mk 31 Cmd_HelloMessage 0 0 0 0 0) [8; 1; 0; 0; 0]).
  destruct (hello_reconnects (bus []) bus2 (Sim.mk {[6 := d]} ∅ 20 [] 20 1000 5)
              (Sim.mk {[6 := []]} ∅ 20 [] 20 1000 5) (replicate 1024 0) 150 (conn 150 6))
    as (buf & len & d' & Hp & Hd & Hr); [cbn; lia|done|done|reflexivity|].
  rewrite Hh in Hp. injection Hp as <- <-.
  assert (d' = d) as -> by (vm_compute in Hd; injection Hd as <-; reflexivity).
  exists (d ++ replicate 993 0), 31, d. split; [exact Hh|]. split; [exact Hd|].
  apply Hr. reflexivity.
Defined.
End examples.
