(* ===== verification/IniFile.v ===== *)
(** Configuration files ([CIniFile] of mmlib/ini_file): the text of a file in
    memory, searched for the value of an item of a section. *)
From Stdlib Require Import Ascii String.
From S2P Require Import Prelude.

#[local] Open Scope Z_scope.
#[local] Arguments Z.add : simpl never.
#[local] Arguments Z.eqb : simpl never.
#[local] Arguments Z.ltb : simpl never.
#[local] Arguments Z.leb : simpl never.

(** A C string, as the bytes before its NUL. *)
Definition bytes (s : string) : list Z := (λ c, Z.of_N (N_of_ascii c)) <$> list_ascii_of_string s.

Definition NL : Z := 10.
Definition CR : Z := 13.
Definition SP : Z := 32.
Definition TAB : Z := 9.
Definition SEMI : Z := 59.
Definition EQUALS : Z := 61.
Definition LBR : Z := 91.
Definition RBR : Z := 93.

(** * The string functions of the C library the code uses *)
Fixpoint cstr (m : list Z) : list Z :=
  match m with
  | [] => []
  | c :: m => if c =? 0 then [] else c :: cstr m
  end.

Fixpoint starts (s l : list Z) : bool :=
  match s, l with
  | [], _ => true
  | c :: s, d :: l => (c =? d) && starts s l
  | _, [] => false
  end.

Fixpoint find_sub (s l : list Z) (i : Z) : option Z :=
  if starts s l then Some i
  else match l with [] => None | _ :: l => find_sub s l (i + 1) end.

(** [strstr] on the string at offset [o]: the offset of the first match. *)
Definition strstr (m : list Z) (o : Z) (s : list Z) : option Z :=
  find_sub s (cstr (drop (Z.to_nat o) m)) o.

Definition is_space (c : Z) : bool := (c =? SP) || ((9 <=? c) && (c <=? 13)).
Definition is_digit (c : Z) : bool := (48 <=? c) && (c <=? 57).

Fixpoint skip_spaces (s : list Z) : list Z :=
  match s with
  | c :: s' => if is_space c then skip_spaces s' else s
  | [] => []
  end.

Fixpoint digits (s : list Z) (acc : Z) : Z :=
  match s with
  | c :: s => if is_digit c then digits s (acc * 10 + (c - 48)) else acc
  | [] => acc
  end.

(** [strtol] with base 10 saturates, [atoi] takes its low 32 bits. *)
Definition strtol (s : list Z) : Z :=
  let '(sign, s) := match skip_spaces s with
                    | 45 :: s => (-1, s) | 43 :: s => (1, s) | s => (1, s) end in
  Z.max (- 2 ^ 63) (Z.min (2 ^ 63 - 1) (sign * digits s 0)).
Definition atoi (s : list Z) : Z := i32 (strtol s).

Definition hex_digit (c : Z) : option Z :=
  if is_digit c then Some (c - 48)
  else if (97 <=? c) && (c <=? 102) then Some (c - 87)
  else if (65 <=? c) && (c <=? 70) then Some (c - 55) else None.

Fixpoint hex_digits (s : list Z) (acc : Z) : Z :=
  match s with
  | c :: s => match hex_digit c with Some d => hex_digits s (acc * 16 + d) | None => acc end
  | [] => acc
  end.

(** [sscanf] of an unsigned hexadecimal number: [None] leaves the variable as
    it is. *)
Definition scan_hex (s : list Z) : option Z :=
  match skip_spaces s with
  | c :: s' => match hex_digit c with
               | Some _ => Some (i32 (Z.min (2 ^ 64 - 1) (hex_digits (c :: s') 0)))
               | None => None end
  | [] => None
  end.

Definition strtoull (s : list Z) : Z :=
  let '(sign, s) := match skip_spaces s with
                    | 45 :: s => (-1, s) | 43 :: s => (1, s) | s => (1, s) end in
  u64 (sign * Z.min (2 ^ 64 - 1) (digits s 0)).

Definition is_blank (c : Z) : bool := (c =? SP) || (c =? TAB) || (c =? CR) || (c =? NL).

Fixpoint trim_left (s : list Z) : list Z :=
  match s with
  | c :: s' => if is_blank c then trim_left s' else s
  | [] => []
  end.

(** [TrimString]: the right end first. *)
Definition TrimString (s : list Z) : list Z := trim_left (rev (trim_left (rev s))).

Lemma cstr_no_nul s : 0 ∉ cstr s.
Proof.
  induction s as [|c s IH]; cbn; [apply not_elem_of_nil|].
  destruct (Z.eqb_spec c 0) as [->|]; [apply not_elem_of_nil|].
  apply not_elem_of_cons. by split.
Qed.

Lemma cstr_app_nul a b : 0 ∉ a → cstr (a ++ 0 :: b) = a.
Proof.
  induction a as [|c a IH]; cbn; [done|]. intros [? ?]%not_elem_of_cons.
  destruct (Z.eqb_spec c 0) as [->|]; [done|]. by rewrite IH.
Qed.

Lemma cstr_id s : 0 ∉ s → cstr s = s.
Proof.
  induction s as [|c s IH]; cbn; [done|]. intros [? ?]%not_elem_of_cons.
  destruct (Z.eqb_spec c 0) as [->|]; [done|]. by rewrite IH.
Qed.

Module CIniFile.

Definition SUCCESS : Z := 0.
Definition E_INI_FILE : Z := -401.

(** [m_szBuffer] has a NUL behind the [m_iSize] bytes of the file. *)
Record t : Type := mk { m_szBuffer : option (list Z); m_iSize : Z }.

(** The constructor: the contents of the file, if there is one. *)
Definition New (file : option (list Z)) : t :=
  match file with
  | None => mk None 0
  | Some d => if zlen d <=? 0 then mk None (zlen d) else mk (Some (d ++ [0])) (zlen d)
  end.

Definition IsValid (f : t) : bool :=
  match m_szBuffer f with None => false | Some _ => negb (m_iSize f <=? 0) end.

(** The section: the offset of its name, [None] for an error.  The loop also
    ends, without an error, when it has run through the file. *)
Fixpoint find_section (fuel : nat) (m : list Z) (size : Z) (szSection : list Z) (pszTemp : Z)
    : outcome (option Z) :=
  match fuel with
  | O => Spin
  | S fuel =>
      if pszTemp <? size then
        match strstr m pszTemp szSection with
        | None => Ok None
        | Some p =>
            if p =? 0 then Ok None else
            c1 ← aget m (p - 1); c2 ← aget m (p + zlen szSection);
            if negb (c1 =? LBR) || negb (c2 =? RBR)
            then find_section fuel m size szSection (p + zlen szSection)
            else if 1 <? p then
              c0 ← aget m (p - 2);
              if negb (c0 =? NL) then find_section fuel m size szSection (p + zlen szSection)
              else Ok (Some p)
            else Ok (Some p)
        end
      else Ok (Some pszTemp)
  end.

(** The next section, or the end of the file. *)
Fixpoint find_next (fuel : nat) (m : list Z) (size : Z) (pszTestSection : Z) : outcome Z :=
  match fuel with
  | O => Spin
  | S fuel =>
      match strstr m pszTestSection [LBR] with
      | None => Ok size
      | Some p =>
          c ← aget m (p - 1);
          if c =? NL then Ok p else find_next fuel m size (p + 1)
      end
  end.

(** The item: [Some (Some p)] is the offset of its name, [Some None] the end
    of the file, [None] an error. *)
Fixpoint find_item (fuel : nat) (m : list Z) (size pszNextSection : Z) (szItem : list Z)
    (pszTemp : Z) : outcome (option (option Z)) :=
  match fuel with
  | O => Spin
  | S fuel =>
      if pszTemp <? size then
        match strstr m pszTemp szItem with
        | None => Ok None
        | Some p =>
            if pszNextSection <=? p then Ok None else
            c1 ← aget m (p - 1);
            if negb (c1 =? NL)
            then find_item fuel m size pszNextSection szItem (p + zlen szItem)
            else
              c2 ← aget m (p + zlen szItem);
              if negb (c2 =? SP) && negb (c2 =? EQUALS) && negb (c2 =? TAB)
              then find_item fuel m size pszNextSection szItem (p + zlen szItem)
              else Ok (Some (Some p))
        end
      else Ok (Some None)
  end.

(** The value behind the equals sign: [n] counts the bytes looked at, [v] is
    what has been copied. *)
Fixpoint copy_value (fuel : nat) (m : list Z) (pszValue n : Z) (v : list Z) (iValueLen : Z)
    : outcome (list Z) :=
  match fuel with
  | O => Spin
  | S fuel =>
      if zlen v <? iValueLen - 1 then
        c ← aget m (pszValue + n);
        if (c =? CR) || (c =? NL) || (c =? 0) then Ok v
        else if ((c =? SP) || (c =? TAB)) && (zlen v =? 0)
        then copy_value fuel m pszValue (n + 1) v iValueLen
        else if c =? SEMI then
          if 0 <? n then
            c' ← aget m (pszValue + n + 1);
            if c' =? SEMI then copy_value fuel m pszValue (n + 2) (v ++ [c]) iValueLen
            else Ok v
          else Ok v
        else copy_value fuel m pszValue (n + 1) (v ++ [c]) iValueLen
      else Ok v
  end.

(** The string left in [szValue] and the result.  [szDefault] has room in it. *)
Definition GetString (f : t) (szSection szItem szDefault : list Z) (iValueLen : Z)
    : outcome (list Z * Z) :=
  match m_szBuffer f with
  | Some m =>
      if IsValid f then
        let size := m_iSize f in
        let fuel := S (List.length m) in
        s ← find_section fuel m size szSection 0;
        match s with
        | None => Ok (szDefault, E_INI_FILE)
        | Some pszTemp =>
            pszNextSection ← find_next fuel m size pszTemp;
            it ← find_item fuel m size pszNextSection szItem pszTemp;
            match it with
            | None => Ok (szDefault, E_INI_FILE)
            | Some None => Ok (TrimString szDefault, SUCCESS)
            | Some (Some pszItem) =>
                match strstr m pszItem [EQUALS] with
                | None => Ok (szDefault, E_INI_FILE)
                | Some e =>
                    if size <=? e + 1 then Ok (szDefault, E_INI_FILE) else
                    v ← copy_value fuel m (e + 1) 0 [] iValueLen;
                    Ok (TrimString v, SUCCESS)
                end
            end
        end
      else Ok (szDefault, E_INI_FILE)
  | None => Ok (szDefault, E_INI_FILE)
  end.

(** [*piValue] before and after, and the result. *)
Definition GetInt (f : t) (szSection szItem : list Z) (iDefault piValue : Z) : outcome (Z * Z) :=
  if negb (IsValid f) then Ok (piValue, E_INI_FILE) else
  '(szInt, r) ← GetString f szSection szItem [] 32;
  if negb (r =? 0) then Ok (iDefault, E_INI_FILE)
  else if starts (bytes "0x") szInt || starts (bytes "0X") szInt
  then Ok (default piValue (scan_hex (drop 2 szInt)), SUCCESS)
  else Ok (atoi szInt, SUCCESS).

Definition GetULongLong (f : t) (szSection szItem : list Z) (ullDefault pullValue : Z)
    : outcome (Z * Z) :=
  if negb (IsValid f) then Ok (pullValue, E_INI_FILE) else
  '(sz, r) ← GetString f szSection szItem [] 32;
  if negb (r =? 0) then Ok (ullDefault, E_INI_FILE) else Ok (strtoull sz, SUCCESS).

End CIniFile.

Module IniExample.
Definition file : list Z :=
  bytes "[BUS]" ++ [NL] ++ bytes "ClusterID = 3 ; comment" ++ [NL] ++ bytes "XID=1" ++ [NL] ++
  bytes "[LOG]" ++ [NL] ++ bytes "Path=	/tmp/a;;b" ++ [NL] ++ bytes "Key=0x1F" ++ [NL].
Definition ini : CIniFile.t := CIniFile.New (Some file).
Example get_id : CIniFile.GetInt ini (bytes "BUS") (bytes "ClusterID") 0 7 = Ok (3, 0).
Proof. vm_compute. reflexivity. Qed.
Example get_path : CIniFile.GetString ini (bytes "LOG") (bytes "Path") [] 64 = Ok (bytes "/tmp/a;b", 0).
Proof. vm_compute. reflexivity. Qed.
Example get_hex : CIniFile.GetInt ini (bytes "LOG") (bytes "Key") 0 7 = Ok (31, 0).
Proof. vm_compute. reflexivity. Qed.
Example get_other : CIniFile.GetInt ini (bytes "BUS") (bytes "Key") 5 7 = Ok (5, -401).
Proof. vm_compute. reflexivity. Qed.
Example get_sub : CIniFile.GetInt ini (bytes "BUS") (bytes "ID") 5 7 = Ok (5, -401).
Proof. vm_compute. reflexivity. Qed.
End IniExample.

(** * Searching *)
Section search.
Implicit Types (d s l m : list Z).

Lemma starts_nil l : starts [] l = true.
Proof. by destruct l. Qed.

Lemma starts_spec s l : starts s l = true ↔ ∃ r, l = s ++ r.
Proof.
  revert l. induction s as [|c s IH]; intros l; [rewrite starts_nil; split; eauto|].
  destruct l as [|x l]; cbn; [naive_solver|]. rewrite andb_true_iff, Z.eqb_eq, IH. naive_solver.
Qed.

Lemma find_sub_spec s l i :
  match find_sub s l i with
  | Some p => ∃ j, p = i + Z.of_nat j ∧ (j ≤ length l)%nat ∧ starts s (drop j l) = true ∧
                ∀ j', (j' < j)%nat → starts s (drop j' l) = false
  | None => ∀ j, (j ≤ length l)%nat → starts s (drop j l) = false
  end.
Proof.
  revert i. induction l as [|x l IH]; intros i; cbn [find_sub].
  - destruct (starts s []) eqn:E.
    + exists 0%nat. split_and!; [lia|lia|done|lia].
    + intros j ?. by replace j with 0%nat by (cbn in *; lia).
  - destruct (starts s (x :: l)) eqn:E.
    + exists 0%nat. split_and!; [lia|lia|done|lia].
    + specialize (IH (i + 1)). destruct (find_sub s l (i + 1)) as [p|].
      * destruct IH as (j & -> & ? & ? & Hj). exists (S j). split_and!; [lia|cbn; lia|done|].
        intros [|j'] ?; [done|]. apply Hj. lia.
      * intros [|j] ?; [done|]. apply IH. cbn in *. lia.
Qed.

(** The text of a file: no NUL inside. *)
Definition text_ok d : Prop := Forall (λ c, c ≠ 0) d.

Lemma cstr_text d r : text_ok d → cstr (d ++ 0 :: r) = d.
Proof.
  induction 1 as [|c d Hc Hd IH]; [done|]. cbn. by rewrite (proj2 (Z.eqb_neq _ _) Hc), IH.
Qed.

Lemma text_drop d n : text_ok d → text_ok (drop n d).
Proof. apply Forall_drop. Qed.

(** The bytes at an offset of the text start with [s]. *)
Definition here d s (p : Z) : Prop := 0 ≤ p ∧ starts s (drop (Z.to_nat p) d) = true.

#[global] Instance here_dec d s p : Decision (here d s p).
Proof. unfold here. apply _. Defined.

Lemma strstr_text d o s :
  text_ok d → 0 ≤ o ≤ zlen d →
  match strstr (d ++ [0]) o s with
  | Some p => o ≤ p ≤ zlen d ∧ here d s p ∧ ∀ q, o ≤ q < p → ¬ here d s q
  | None => ∀ q, o ≤ q ≤ zlen d → ¬ here d s q
  end.
Proof.
  intros Hd Ho. unfold strstr, here.
  assert (cstr (drop (Z.to_nat o) (d ++ [0])) = drop (Z.to_nat o) d) as ->.
  { rewrite drop_app_le by (unfold zlen in *; lia). apply cstr_text. by apply text_drop. }
  pose proof (find_sub_spec s (drop (Z.to_nat o) d) o) as Hf.
  rewrite length_drop in Hf.
  destruct (find_sub s _ o) as [p|].
  - destruct Hf as (j & -> & Hj & Hs & Hmin). rewrite drop_drop in Hs.
    replace (Z.to_nat (o + Z.of_nat j)) with (Z.to_nat o + j)%nat by lia.
    split_and!; [lia|unfold zlen in *; lia|lia|done|].
    intros q Hq [_ Hs']. specialize (Hmin (Z.to_nat (q - o))). rewrite drop_drop in Hmin.
    replace (Z.to_nat o + Z.to_nat (q - o))%nat with (Z.to_nat q) in Hmin by lia.
    rewrite Hmin in Hs'; [done|lia].
  - intros q Hq [_ Hs']. specialize (Hf (Z.to_nat (q - o))). rewrite drop_drop in Hf.
    replace (Z.to_nat o + Z.to_nat (q - o))%nat with (Z.to_nat q) in Hf by lia.
    rewrite Hf in Hs'; [done|unfold zlen in *; lia].
Qed.

(** The byte [i] of a match is the byte [i] of what is searched. *)
Lemma here_byte d s p i :
  here d s p → 0 ≤ i < zlen s → ∃ c, s !! Z.to_nat i = Some c ∧ aget (d ++ [0]) (p + i) = Ok c.
Proof.
  intros [Hp (r & Hr)%starts_spec] Hi.
  destruct (lookup_lt_is_Some_2 s (Z.to_nat i)) as [c Hc]; [unfold zlen in *; lia|].
  exists c. split; [done|]. apply aget_Some. split; [lia|].
  assert (drop (Z.to_nat p) d !! Z.to_nat i = Some c) as Hd by (rewrite Hr; by apply lookup_app_l_Some).
  rewrite lookup_drop in Hd. replace (Z.to_nat (p + i)) with (Z.to_nat p + Z.to_nat i)%nat by lia.
  by apply lookup_app_l_Some.
Qed.

Lemma here_len d s p : here d s p → p ≤ zlen d → p + zlen s ≤ zlen d.
Proof.
  intros [Hp (r & Hr)%starts_spec] Hl. apply (f_equal length) in Hr.
  rewrite length_drop, length_app in Hr. unfold zlen in *. lia.
Qed.

Lemma aget_text d i : 0 ≤ i ≤ zlen d → ∃ c, aget (d ++ [0]) i = Ok c.
Proof. intros. apply aget_total. rewrite zlen_app. change (zlen [0]) with 1. lia. Qed.
End search.

Section ini.
Import CIniFile.
Context (d : list Z) (Htext : text_ok d).
#[local] Notation m := (d ++ [0]).
#[local] Notation size := (zlen d).

(** A section and an item as the code recognises them, by where their names are. *)
Definition section_here (sec : list Z) (p : Z) : Prop :=
  here d sec p ∧ 1 ≤ p ∧ aget m (p - 1) = Ok LBR ∧ aget m (p + zlen sec) = Ok RBR ∧
  (p = 1 ∨ aget m (p - 2) = Ok NL).

Definition item_here (item : list Z) (p : Z) : Prop :=
  here d item p ∧ aget m (p - 1) = Ok NL ∧
  ∃ c, aget m (p + zlen item) = Ok c ∧ (c = SP ∨ c = EQUALS ∨ c = TAB).

(** A section begins at a bracket at the start of a line. *)
Definition bracket_here (p : Z) : Prop := here d [LBR] p ∧ aget m (p - 1) = Ok NL.

Definition first_from (P : Z → Prop) (lo p : Z) : Prop := lo ≤ p ∧ P p ∧ ∀ q, lo ≤ q < p → ¬ P q.

Lemma first_from_unique P lo p p' : first_from P lo p → first_from P lo p' → p = p'.
Proof.
  intros (Hp & Hpp & Hmin) (Hp' & Hpp' & Hmin').
  destruct (Z.lt_trichotomy p p') as [Hl|[?|Hl]]; [|done|]; exfalso.
  - by apply (Hmin' p).
  - by apply (Hmin p').
Qed.

Lemma find_item_ok fuel next item temp :
  0 < zlen item → NL ∉ item → 1 ≤ temp ≤ size → next ≤ size → size - temp < Z.of_nat fuel →
  ∃ r, find_item fuel m size next item temp = Ok r ∧
    match r with
    | Some (Some p) => p < next ∧ first_from (item_here item) temp p
    | _ => ∀ q, temp ≤ q < next → ¬ item_here item q
    end.
Proof.
  intros Hi Hnl Ht Hn Hf. revert temp Ht Hf.
  induction fuel as [|fuel IH]; intros temp Ht Hf; [lia|]. cbn [find_item].
  destruct (Z.ltb_spec temp size); [|eexists; split; [done|]; intros q Hq; exfalso; lia].
  pose proof (strstr_text d temp item Htext ltac:(lia)) as Hs.
  destruct (strstr m temp item) as [p|]; cbn [mbind outcome_bind].
  2:{ eexists. split; [done|]. intros q Hq [Hh _]. by apply (Hs q); [lia|]. }
  destruct Hs as (Hp & Hh & Hmin).
  destruct (Z.leb_spec next p).
  { eexists. split; [done|]. intros q Hq [Hq' _]. by apply (Hmin q); [lia|]. }
  pose proof (here_len _ _ _ Hh ltac:(lia)) as Hlen.
  assert (∀ q, p < q < p + zlen item → ¬ item_here item q) as Hskip.
  { intros q Hq (_ & Hb & _). destruct (here_byte d item p (q - 1 - p)) as (c & Hc & Hc'); [done|lia|].
    replace (p + (q - 1 - p)) with (q - 1) in Hc' by lia. rewrite Hb in Hc'. injection Hc' as <-.
    apply Hnl. by apply list_elem_of_lookup_2 in Hc. }
  assert (¬ item_here item p →
    ∃ r, find_item fuel m size next item (p + zlen item) = Ok r ∧
      match r with
      | Some (Some p) => p < next ∧ first_from (item_here item) temp p
      | _ => ∀ q, temp ≤ q < next → ¬ item_here item q
      end) as Hgo.
  { intros Hnp. assert (∀ q, temp ≤ q < p + zlen item → ¬ item_here item q) as Hno.
    { intros q Hq. destruct (decide (q < p)); [intros [Hq' _]; by apply (Hmin q); [lia|]|].
      destruct (decide (q = p)) as [->|]; [done|]. apply Hskip. lia. }
    destruct (IH (p + zlen item)) as (r & Hr & Hrs); [lia|lia|].
    exists r. split; [done|]. destruct r as [[p'|]|].
    - destruct Hrs as (? & ? & ? & Hm'). split; [done|]. split; [lia|]. split; [done|].
      intros q Hq. destruct (decide (q < p + zlen item)); [apply Hno; lia|apply Hm'; lia].
    - intros q Hq. destruct (decide (q < p + zlen item)); [apply Hno; lia|apply Hrs; lia].
    - intros q Hq. destruct (decide (q < p + zlen item)); [apply Hno; lia|apply Hrs; lia]. }
  destruct (aget_text d (p - 1)) as [c1 Hc1]; [lia|]. rewrite Hc1. cbn [mbind outcome_bind].
  destruct (Z.eqb_spec c1 NL) as [->|Hne]; cbn [negb].
  2:{ apply Hgo. intros (_ & Hb & _). congruence. }
  destruct (aget_text d (p + zlen item)) as [c2 Hc2]; [lia|]. rewrite Hc2. cbn [mbind outcome_bind].
  destruct (Z.eqb_spec c2 SP); [|destruct (Z.eqb_spec c2 EQUALS); [|destruct (Z.eqb_spec c2 TAB)]];
    cbn [negb andb].
  4:{ apply Hgo. intros (_ & _ & c & Hc & Hcs). rewrite Hc2 in Hc. injection Hc as ->. tauto. }
  all: eexists; split; [done|]; split; [done|]; split; [lia|]; split;
    [split; [done|]; split; [done|]; exists c2; tauto|];
    intros q Hq [Hq' _]; by apply (Hmin q); [lia|].
Qed.

Lemma find_section_ok fuel sec temp :
  0 < size → 0 < zlen sec → LBR ∉ sec → ¬ here d sec 0 → 0 ≤ temp ≤ size → size - temp < Z.of_nat fuel →
  ∃ r, find_section fuel m size sec temp = Ok r ∧
    match r with
    | Some p => 1 ≤ p ≤ size ∧ (first_from (section_here sec) temp p ∨
                  p = size ∧ ∀ q, temp ≤ q → ¬ section_here sec q)
    | None => ∀ q, temp ≤ q → ¬ section_here sec q
    end.
Proof.
  intros Hsize Hi Hbr Hz. revert temp.
  induction fuel as [|fuel IH]; intros temp Ht Hf; [lia|]. cbn [find_section].
  assert (∀ q, section_here sec q → q < size) as Hlt.
  { intros q (Hh & Hq & _ & Hb & _). apply aget_lt in Hb. rewrite zlen_app in Hb.
    change (zlen [0]) with 1 in Hb. lia. }
  destruct (Z.ltb_spec temp size).
  2:{ eexists. split; [done|]. split; [lia|]. right. split; [lia|]. intros q Hq Hs. apply Hlt in Hs. lia. }
  pose proof (strstr_text d temp sec Htext ltac:(lia)) as Hs.
  destruct (strstr m temp sec) as [p|]; cbn [mbind outcome_bind].
  2:{ eexists. split; [done|]. intros q Hq Hsq. pose proof (Hlt q Hsq). destruct Hsq as [Hh _].
      by apply (Hs q); [lia|]. }
  destruct Hs as (Hp & Hh & Hmin).
  destruct (Z.eqb_spec p 0) as [->|Hp0]; [done|].
  pose proof (here_len _ _ _ Hh ltac:(lia)) as Hlen.
  assert (∀ q, p < q < p + zlen sec → ¬ section_here sec q) as Hskip.
  { intros q Hq (_ & _ & Hb & _). destruct (here_byte d sec p (q - 1 - p)) as (c & Hc & Hc'); [done|lia|].
    replace (p + (q - 1 - p)) with (q - 1) in Hc' by lia. rewrite Hb in Hc'. injection Hc' as <-.
    apply Hbr. by apply list_elem_of_lookup_2 in Hc. }
  assert (¬ section_here sec p →
    ∃ r, find_section fuel m size sec (p + zlen sec) = Ok r ∧
    match r with
    | Some p => 1 ≤ p ≤ size ∧ (first_from (section_here sec) temp p ∨
                  p = size ∧ ∀ q, temp ≤ q → ¬ section_here sec q)
    | None => ∀ q, temp ≤ q → ¬ section_here sec q
    end) as Hgo.
  { intros Hnp. assert (∀ q, temp ≤ q < p + zlen sec → ¬ section_here sec q) as Hno.
    { intros q Hq. destruct (decide (q < p)); [intros [Hq' _]; by apply (Hmin q); [lia|]|].
      destruct (decide (q = p)) as [->|]; [done|]. apply Hskip. lia. }
    destruct (IH (p + zlen sec)) as (r & Hr & Hrs); [lia|lia|].
    exists r. split; [done|]. destruct r as [p'|].
    - destruct Hrs as (? & [(? & ? & Hm')|[-> Hall]]); (split; [lia|]).
      + left. split; [lia|]. split; [done|].
        intros q Hq. destruct (decide (q < p + zlen sec)); [apply Hno; lia|apply Hm'; lia].
      + right. split; [done|]. intros q Hq. destruct (decide (q < p + zlen sec)); [apply Hno; lia|apply Hall; lia].
    - intros q Hq. destruct (decide (q < p + zlen sec)); [apply Hno; lia|apply Hrs; lia]. }
  destruct (aget_text d (p - 1)) as [c1 Hc1]; [lia|].
  destruct (aget_text d (p + zlen sec)) as [c2 Hc2]; [lia|].
  rewrite Hc1, Hc2. cbn [mbind outcome_bind].
  destruct (Z.eqb_spec c1 LBR) as [->|Hne]; cbn [negb orb].
  2:{ apply Hgo. intros (_ & _ & Hb & _). congruence. }
  destruct (Z.eqb_spec c2 RBR) as [->|Hne]; cbn [negb].
  2:{ apply Hgo. intros (_ & _ & _ & Hb & _). congruence. }
  assert ((p = 1 ∨ aget m (p - 2) = Ok NL) →
    ∃ r, Ok (Some p) = Ok r ∧
    match r with
    | Some p => 1 ≤ p ≤ size ∧ (first_from (section_here sec) temp p ∨
                  p = size ∧ ∀ q, temp ≤ q → ¬ section_here sec q)
    | None => ∀ q, temp ≤ q → ¬ section_here sec q
    end) as Hdone.
  { intros Hb. eexists. split; [done|]. split; [lia|]. left. split; [lia|].
    split; [split_and!; done || lia|]. intros q Hq [Hq' _]. by apply (Hmin q); [lia|]. }
  destruct (Z.ltb_spec 1 p).
  - destruct (aget_text d (p - 2)) as [c0 Hc0]; [lia|]. rewrite Hc0. cbn [mbind outcome_bind].
    destruct (Z.eqb_spec c0 NL) as [->|Hne]; cbn [negb]; [apply Hdone; auto|].
    apply Hgo. intros (_ & _ & _ & _ & [?|Hb]); [lia|congruence].
  - apply Hdone. lia.
Qed.

Lemma find_next_ok fuel temp :
  1 ≤ temp ≤ size → size - temp < Z.of_nat fuel →
  ∃ next, find_next fuel m size temp = Ok next ∧ temp ≤ next ≤ size ∧
    (first_from bracket_here temp next ∨ (next = size ∧ ∀ q, temp ≤ q → ¬ bracket_here q)).
Proof.
  revert temp. induction fuel as [|fuel IH]; intros temp Ht Hf; [lia|]. cbn [find_next].
  assert (∀ q, bracket_here q → q ≤ size) as Hle.
  { intros q [Hh _]. destruct (here_byte d [LBR] q 0 Hh) as (c & _ & Hb); [done|].
    apply aget_lt in Hb. rewrite zlen_app in Hb. change (zlen [0]) with 1 in Hb. lia. }
  pose proof (strstr_text d temp [LBR] Htext ltac:(lia)) as Hs.
  destruct (strstr m temp [LBR]) as [p|].
  2:{ exists size. split; [done|]. split; [lia|]. right. split; [done|]. intros q Hq Hb.
      pose proof (Hle q Hb). destruct Hb as [Hh _]. by apply (Hs q); [lia|]. }
  destruct Hs as (Hp & Hh & Hmin).
  pose proof (here_len _ _ _ Hh ltac:(lia)) as Hlen. change (zlen [LBR]) with 1 in Hlen.
  destruct (aget_text d (p - 1)) as [c Hc]; [lia|]. rewrite Hc. cbn [mbind outcome_bind].
  destruct (Z.eqb_spec c NL) as [->|Hne].
  - exists p. split; [done|]. split; [lia|]. left. split; [lia|]. split; [done|].
    intros q Hq [Hq' _]. by apply (Hmin q); [lia|].
  - assert (∀ q, temp ≤ q < p + 1 → ¬ bracket_here q) as Hno.
    { intros q Hq. destruct (decide (q < p)); [intros [Hq' _]; by apply (Hmin q); [lia|]|].
      replace q with p by lia. intros [_ Hb]. congruence. }
    destruct (IH (p + 1)) as (next & Hr & Hb & Hn); [lia|lia|]. exists next. split; [done|].
    split; [lia|]. destruct Hn as [(? & ? & Hm')|[-> Hall]]; [left|right; split; [done|]].
    + split; [lia|]. split; [done|]. intros q Hq. destruct (decide (q < p + 1)); [apply Hno; lia|apply Hm'; lia].
    + intros q Hq. destruct (decide (q < p + 1)); [apply Hno; lia|apply Hall; lia].
Qed.

(** Copying a value stays in the text and ends; the value has room. *)
Lemma copy_value_ok fuel start n v len :
  0 ≤ start → 0 ≤ n → start + n ≤ size → size - (start + n) + 1 < Z.of_nat fuel → zlen v < len →
  ∃ w, copy_value fuel m start n v len = Ok w ∧ zlen w < len.
Proof.
  revert n v. induction fuel as [|fuel IH]; intros n v Hs Hn Hb Hf Hv; [lia|]. cbn [copy_value].
  destruct (Z.ltb_spec (zlen v) (len - 1)); [|by exists v].
  destruct (aget_text d (start + n)) as [c Hc]; [lia|]. rewrite Hc. cbn [mbind outcome_bind].
  destruct ((c =? CR) || (c =? NL) || (c =? 0)) eqn:E; [by exists v|].
  rewrite !orb_false_iff, !Z.eqb_neq in E. destruct E as [_ E].
  assert (start + n < size) as Hlt.
  { destruct (decide (start + n = size)) as [He|]; [|lia]. exfalso. apply E.
    apply aget_Some in Hc as [_ Hc]. rewrite He in Hc.
    rewrite lookup_app_r in Hc by (unfold zlen; lia).
    replace (Z.to_nat size - length d)%nat with 0%nat in Hc by (unfold zlen; lia). by injection Hc. }
  assert (zlen (v ++ [c]) < len) by (rewrite zlen_app; change (zlen [c]) with 1; lia).
  destruct (_ && _); [apply IH; lia|].
  destruct (c =? SEMI); [|apply IH; done || lia].
  destruct (0 <? n); [|by exists v].
  destruct (aget_text d (start + n + 1)) as [c' Hc']; [lia|]. rewrite Hc'. cbn [mbind outcome_bind].
  destruct (Z.eqb_spec c' SEMI) as [->|]; [|by exists v].
  apply IH; try lia. destruct (decide (start + n + 1 = size)) as [He|]; [|lia].
  exfalso. apply aget_Some in Hc' as [_ Hc']. rewrite He in Hc'.
  rewrite lookup_app_r in Hc' by (unfold zlen; lia).
  replace (Z.to_nat size - length d)%nat with 0%nat in Hc' by (unfold zlen; lia). by injection Hc'.
Qed.

(** [next] ends the section at [s]. *)
Definition section_end (s next : Z) : Prop :=
  first_from bracket_here s next ∨ (next = size ∧ ∀ x, s ≤ x → ¬ bracket_here x).

(** [w] is what stands behind the equals sign of the item. *)
Definition item_value (sec item : list Z) (len : Z) (w : list Z) : Prop :=
  ∃ s, first_from (section_here sec) 0 s ∧ ∃ next, section_end s next ∧
  ∃ q, first_from (item_here item) s q ∧ q < next ∧
  ∃ e, first_from (here d [EQUALS]) q e ∧ e + 1 < size ∧
    CIniFile.copy_value (S (S (length d))) m (e + 1) 0 [] len = Ok w.

Lemma item_value_item sec item len w s next :
  (first_from (section_here sec) 0 s ∨ s = size ∧ ∀ q, 0 ≤ q → ¬ section_here sec q) →
  section_end s next → item_value sec item len w → ∃ q, s ≤ q < next ∧ item_here item q.
Proof.
  intros Hs Hn (s' & Hs' & n' & Hn' & q & Hq & Hlt & _).
  destruct Hs as [Hs|[_ Hs]]; [|exfalso; apply (Hs s'); [destruct Hs'; lia|apply Hs']].
  pose proof (first_from_unique _ _ _ _ Hs Hs') as ->.
  destruct Hn as [Hn|[-> Hn]], Hn' as [Hn'|[-> Hn']].
  - pose proof (first_from_unique _ _ _ _ Hn Hn') as ->. exists q. split; [|apply Hq]. destruct Hq; lia.
  - exfalso. apply (Hn' next); apply Hn.
  - exfalso. apply (Hn n'); apply Hn'.
  - exists q. split; [|apply Hq]. destruct Hq; lia.
Qed.
End ini.

(** * Properties *)
Section props.
Import CIniFile.

(** What [GetString] gives. *)
Lemma GetString_value d sec item def len :
  text_ok d → 0 < zlen d → 0 < zlen sec → LBR ∉ sec → 0 < zlen item → NL ∉ item →
  ¬ here d sec 0 → 0 < len →
  ∃ v r, GetString (New (Some d)) sec item def len = Ok (v, r) ∧
    ((∃ w, item_value d sec item len w ∧ v = TrimString w ∧ r = SUCCESS) ∨
     ((∀ w, ¬ item_value d sec item len w) ∧
      ((v = def ∧ r = E_INI_FILE) ∨ (v = TrimString def ∧ r = SUCCESS)))).
Proof.
  intros Ht Hd Hsec Hbr Hitem Hnl Hz Hlen.
  assert (New (Some d) = mk (Some (d ++ [0])) (zlen d)) as ->.
  { unfold New. by rewrite (proj2 (Z.leb_gt _ _)) by lia. }
  unfold GetString, IsValid. cbn [m_szBuffer m_iSize].
  rewrite (proj2 (Z.leb_gt _ _)) by lia. cbn [negb].
  rewrite length_app, Nat.add_comm. change (S (length [0] + length d)) with (S (S (length d))).
  set (fuel := S (S (length d))).
  assert (zlen d + 1 < Z.of_nat fuel) as Hfuel by (unfold fuel, zlen; lia).
  destruct (find_section_ok d Ht fuel sec 0) as (r1 & -> & Hr1); [done..|lia|lia|].
  cbn [mbind outcome_bind]. destruct r1 as [s|].
  2:{ eexists _, _. split; [done|]. right. split; [|auto].
      intros w (s & (? & Hs & _) & _). by apply (Hr1 s). }
  destruct Hr1 as [Hs Hs1].
  destruct (find_next_ok d Ht fuel s) as (next & -> & Hn & Hn1); [lia|lia|]. cbn [mbind outcome_bind].
  destruct (find_item_ok d Ht fuel next item s) as (r2 & -> & Hr2); [done..|lia|lia|lia|].
  cbn [mbind outcome_bind].
  destruct r2 as [[q|]|].
  2,3: eexists _, _; (split; [done|]); right; (split; [|auto]);
    intros w Hw; apply (item_value_item d sec item len w s next Hs1 Hn1) in Hw as (q & ? & ?);
    by apply (Hr2 q).
  destruct Hr2 as [Hq Hq1]. pose proof (proj1 Hq1). destruct Hs1 as [Hs1|[-> _]]; [|lia].
  pose proof (strstr_text d q [EQUALS] Ht ltac:(lia)) as He.
  assert (∀ w, item_value d sec item len w → ∃ e, first_from (here d [EQUALS]) q e ∧ e + 1 < zlen d) as Hval.
  { intros w (s' & Hs' & next' & Hn' & q' & Hq' & _ & e & He' & Hl & _).
    pose proof (first_from_unique _ _ _ _ Hs' Hs1) as ->.
    pose proof (first_from_unique _ _ _ _ Hq' Hq1) as ->. by exists e. }
  destruct (strstr (d ++ [0]) q [EQUALS]) as [e|].
  2:{ eexists _, _. split; [done|]. right. split; [|auto]. intros w Hw.
      destruct (Hval w Hw) as (e & (He1 & Hh & _) & ?). by apply (He e); [lia|]. }
  destruct He as (He & Heh & Hemin).
  assert (first_from (here d [EQUALS]) q e) as Hfe by (split; [lia|done]).
  destruct (Z.leb_spec (zlen d) (e + 1)).
  { eexists _, _. split; [done|]. right. split; [|auto]. intros w Hw.
    destruct (Hval w Hw) as (e' & He' & ?). pose proof (first_from_unique _ _ _ _ He' Hfe). lia. }
  destruct (copy_value_ok d fuel (e + 1) 0 [] len) as (w & Hw & _);
    [lia..|change (zlen (@nil Z)) with 0; lia|].
  rewrite Hw. cbn [mbind outcome_bind]. eexists _, _. split; [done|]. left.
  exists w. split; [|done]. exists s. split; [done|]. exists next. split; [done|].
  exists q. split_and!; [done|done|]. exists e. split_and!; done || lia.
Qed.

(** Looking an item up in a text file never reads outside the text
    and always ends.  If the file has the section and the item in it, the value
    is the text behind the first equals sign after the first such item, up to
    the room for it, trimmed, and the result is 0.  Otherwise the value is the
    default. *)
Theorem GetString_first_item d sec item def len :
  text_ok d → 0 < zlen d → 0 < zlen sec → LBR ∉ sec → 0 < zlen item → NL ∉ item →
  ¬ here d sec 0 → 0 < len →
  ∃ v r, GetString (New (Some d)) sec item def len = Ok (v, r) ∧
    ((∃ w, item_value d sec item len w ∧ v = TrimString w ∧ r = SUCCESS) ∨
     ((∀ w, ¬ item_value d sec item len w) ∧
      ((v = def ∧ r = E_INI_FILE) ∨ (v = TrimString def ∧ r = SUCCESS)))).
Proof. apply GetString_value. Qed.
End props.

(** A file without a section [BUS] that ends in these letters: the search runs
    off the end of the file, and the default of the caller is not used. *)
Example GetInt_missing_section :
  CIniFile.GetInt (CIniFile.New (Some (bytes "[LOG]" ++ [NL] ++ bytes "Name=BUS")))
    (bytes "BUS") (bytes "ClusterID") 5 7 = Ok (0, CIniFile.SUCCESS).
Proof. vm_compute. reflexivity. Qed.

Section examples.
Import IniExample.
Lemma file_text : text_ok file.
Proof. repeat (apply Forall_cons; split; [discriminate|]). apply Forall_nil; exact I. Qed.

Lemma GetString_first_item_witness :
  ∃ w, item_value file (bytes "BUS") (bytes "ClusterID") 32 w ∧
    CIniFile.GetString (CIniFile.New (Some file)) (bytes "BUS") (bytes "ClusterID") [] 32
    = Ok (TrimString w, 0).
Proof.
  destruct (GetString_first_item file (bytes "BUS") (bytes "ClusterID") [] 32) as (v & r & Hg & Hv).
  - apply file_text.
  - reflexivity.
  - reflexivity.
  - apply (bool_decide_unpack _). vm_compute. exact I.
  - reflexivity.
  - apply (bool_decide_unpack _). vm_compute. exact I.
  - intros [_ Hs]. vm_compute in Hs. discriminate.
  - reflexivity.
  - destruct Hv as [(w & Hw & -> & ->)|(_ & [[_ ->]|[-> ->]])].
    + exact (ex_intro _ w (conj Hw Hg)).
    + vm_compute in Hg. discriminate.
    + vm_compute in Hg. discriminate.
Defined.
End examples.
