(* ===== verification/ConnState.v ===== *)
(** The state of the connection server ([CConn] of conn/conn.h), which sits
    between the clients and the bus, and its operations on connections:
    accepting, checking for silence, sending, releasing. *)
From stdpp Require Import gmap sorting.
From S2P Require Import Prelude Fifo Wire HashList Kernel ConnInfo BusState BusRoute.

#[local] Arguments Z.add : simpl never.
#[local] Arguments Z.eqb : simpl never.
#[local] Arguments Z.ltb : simpl never.
#[local] Arguments Z.leb : simpl never.

(** * Constants of common.h and cmd.h *)
Definition CONN_INVALID_TIME : Z := 86400.
Definition MAX_USER_SERVER_NUM : Z := 2.
Definition GROUP_CONN : Z := 100.
Definition GROUP_AUTH : Z := 200.
Definition SERVER_USER_BEGIN : Z := 400.
Definition CMD_PREFIX_CONN : Z := 1.
Definition CMD_PREFIX_AUTH : Z := 2.
Definition CMD_PREFIX_USER : Z := 4.
Definition CONN_UNAUTH : Z := 0.
Definition CONN_AUTH : Z := 1.
Definition GNS_USER_STATUS_ACTIVE : Z := 0.
Definition GNS_USER_STATUS_UNACTIVE : Z := 1.
Definition BUS_SVR_ONLINE : Z := 0.
Definition Cmd_Disconnect : Z := 0x10003.
Definition Cmd_LoginNotice : Z := 0x10004.
Definition Cmd_LoginSync_Req : Z := 0x10005.
Definition Cmd_LoginSync_Rsp : Z := 0x10006.
Definition Cmd_Auth_Register_Req : Z := 0x20001.
Definition Cmd_Auth_Register_Rsp : Z := 0x20002.
Definition Cmd_Auth_Login_Req : Z := 0x20003.
Definition Cmd_Auth_Login_Rsp : Z := 0x20004.
Definition Cmd_User_Register_Req : Z := 0x40001.
Definition Cmd_User_Register_Rsp : Z := 0x40002.

Definition GetUserServer (UserID : Z) : Z :=
  i32 (SERVER_USER_BEGIN + UserID / 100 mod MAX_USER_SERVER_NUM + 1).

(** * Data *)

(** [CConnInfo] of conn/conn.h has the members and the code of the bus's class
    of that name, and two more members. *)
Module ClientInfo.
Record t : Type := mk { info : CConnInfo.t; m_ConnType : Z; m_UserID : Z }.

Definition SetUserID (c : t) (UserID : Z) : t := mk (info c) (m_ConnType c) UserID.
Definition SetConnType (c : t) (type : Z) : t := mk (info c) type (m_UserID c).
Definition set_info (c : t) (i : CConnInfo.t) : t := mk i (m_ConnType c) (m_UserID c).
Definition SockID (c : t) : Z := CConnInfo.m_SockID (info c).

Section operations.
Context {K : Type} `{Kernel K}.
Implicit Types (k : K) (c : t).

Definition New k (ConnPos SockID : Z) (pRemoteAddr pLocalAddr : Z * Z) (flag : Z) : K * t :=
  let '(k, i) := CConnInfo.New k ConnPos SockID pRemoteAddr pLocalAddr in (k, mk i flag 0).

Definition Recv k c (pBuff : list Z) (pLen : Z) : outcome (K * t * list Z * Z * Z) :=
  '(k, i, b, len, r) ← CConnInfo.Recv k (info c) pBuff pLen;
  Ok (k, set_info c i, b, len, r).

Definition Send k c (pBuff : list Z) (off Len : Z) : outcome (K * t * Z) :=
  '(k, i, r) ← CConnInfo.Send k (info c) pBuff off Len;
  Ok (k, set_info c i, r).

Definition AddRecvData c (pBuff : list Z) (off Len : Z) : outcome (t * Z) :=
  '(i, r) ← CConnInfo.AddRecvData (info c) pBuff off Len;
  Ok (set_info c i, r).

Definition AddSendData c (pBuff : list Z) (off Len : Z) : outcome (t * Z) :=
  '(i, r) ← CConnInfo.AddSendData (info c) pBuff off Len;
  Ok (set_info c i, r).

Definition SendRemainData k c : K * t * Z :=
  let '(k, i, r) := CConnInfo.SendRemainData k (info c) in (k, set_info c i, r).
End operations.
End ClientInfo.

(** Where a user is logged in, as every connection server knows it. *)
Module ShmGnsInfo.
Record t : Type := mk {
  UserID : Z; ServerID : Z; ConnPos : Z; Status : Z; LastActiveTime : Z }.
(** Everything but the user is written when he comes or goes. *)
Definition set (i : t) (srv pos status time : Z) : t := mk (UserID i) srv pos status time.
#[export] Instance eq_dec : EqDecision t.
Proof. solve_decision. Defined.
End ShmGnsInfo.

(** The message mm::LoginData, and the struct of the same name. *)
Module LoginData.
Record t : Type := mk { UserID : Z; ServerID : Z; ConnPos : Z; LastActiveTime : Z }.
#[export] Instance eq_dec : EqDecision t.
Proof. solve_decision. Defined.
End LoginData.

(** The fields of a registration. *)
Record UserFields : Type := mk_fields {
  nickname : list Z; sex : Z; birthday : Z; telno : list Z; address : list Z; email : list Z }.

(** The Protocol Buffers messages of app.proto, mm.proto and bus.proto that the
    server reads and writes: what [ParseFromArray] reads from bytes, and the
    bytes [SerializeToArray] writes.  LoginDisconnect, LoginNotice and
    LoginSyncRsp are all a list of LoginData. *)
Class ConnProto : Type := {
  dec_LoginReq : list Z → option (Z * list Z * Z);       (** user, password, platform *)
  dec_RegisterReq : list Z → option (list Z * UserFields);
  dec_AuthRegisterRsp : list Z → option (Z * UserFields * Z);   (** user, fields, ret *)
  dec_UserRegisterRsp : list Z → option (Z * Z);          (** user, ret *)
  dec_AuthLoginRsp : list Z → option (Z * Z);             (** user (an int32), ret *)
  dec_LoginDatas : list Z → option (list LoginData.t);
  dec_LoginSyncReq : list Z → option Z;
  enc_AuthLoginReq : Z → list Z → Z → list Z;
  enc_AuthRegisterReq : list Z → UserFields → list Z;
  enc_UserRegisterReq : Z → UserFields → list Z;
  enc_RegisterRsp : Z → Z → list Z;                       (** user, ret *)
  enc_LoginRsp : Z → list Z;                              (** ret; the user is not set *)
  enc_LoginDatas : list LoginData.t → list Z;
  enc_LoginSyncReq : Z → list Z;
  enc_StateChange : Z → Z → list Z;                       (** server, status *)
  enc_ErrorMsg : Z → list Z;
}.

(** The fields of a LoginData are in the range of their types. *)
Definition login_data_ok (d : LoginData.t) : Prop :=
  0 ≤ LoginData.UserID d < 2 ^ 64 ∧ - 2 ^ 31 ≤ LoginData.ServerID d < 2 ^ 31 ∧
  0 ≤ LoginData.ConnPos d < 2 ^ 32 ∧ 0 ≤ LoginData.LastActiveTime d < 2 ^ 64.

(** Messages are bytes, and a list of logins parses back from its own bytes
    and has fields in range. *)
Class ConnProtoLaws `{ConnProto} : Prop := {
  enc_datas_law l : Forall login_data_ok l → dec_LoginDatas (enc_LoginDatas l) = Some l;
  dec_datas_law b l : dec_LoginDatas b = Some l → Forall login_data_ok l;
}.

Module CConn.

(** 100-199 listen, from 501 on are clients. *)
Definition LISTEN_SOCK_CPOS_MIN : Z := 100.
Definition LISTEN_SOCK_CPOS_MAX : Z := 199.
Definition CLIENT_SOCK_CPOS_MIN : Z := 500.

(** [m_itrCurCheckConn] is the number the iterator points at, [None] for
    [end()]. *)
Record t (Q : Type) : Type := mk {
  m_ServerID : Z; m_StateTime : Z; m_ConnPosCnt : Z;
  m_PosConnMap : gmap Z ClientInfo.t;
  m_itrCurCheckConn : option Z;
  m_CheckConnPos : Z; m_TimeOut : Z;
  m_RecvQueue : Q; m_SendQueue : Q;
  m_pProcessBuff : list Z; m_pSendBuff : list Z;
  m_MaxGnsNodeNum : Z;
  m_GnsInfoMap : CHashListNoLock.t ShmGnsInfo.t }.
Arguments mk {Q}.
Arguments m_ServerID {Q}.
Arguments m_StateTime {Q}.
Arguments m_ConnPosCnt {Q}.
Arguments m_PosConnMap {Q}.
Arguments m_itrCurCheckConn {Q}.
Arguments m_CheckConnPos {Q}.
Arguments m_TimeOut {Q}.
Arguments m_RecvQueue {Q}.
Arguments m_SendQueue {Q}.
Arguments m_pProcessBuff {Q}.
Arguments m_pSendBuff {Q}.
Arguments m_MaxGnsNodeNum {Q}.
Arguments m_GnsInfoMap {Q}.

Section setters.
Context {Q : Type}.
Implicit Types s : t Q.
Definition set_cnt s (x : Z) : t Q :=
  mk (m_ServerID s) (m_StateTime s) x (m_PosConnMap s) (m_itrCurCheckConn s) (m_CheckConnPos s)
     (m_TimeOut s) (m_RecvQueue s) (m_SendQueue s) (m_pProcessBuff s) (m_pSendBuff s)
     (m_MaxGnsNodeNum s) (m_GnsInfoMap s).
Definition set_conns s (x : gmap Z ClientInfo.t) : t Q :=
  mk (m_ServerID s) (m_StateTime s) (m_ConnPosCnt s) x (m_itrCurCheckConn s) (m_CheckConnPos s)
     (m_TimeOut s) (m_RecvQueue s) (m_SendQueue s) (m_pProcessBuff s) (m_pSendBuff s)
     (m_MaxGnsNodeNum s) (m_GnsInfoMap s).
Definition set_iter s (x : option Z) : t Q :=
  mk (m_ServerID s) (m_StateTime s) (m_ConnPosCnt s) (m_PosConnMap s) x (m_CheckConnPos s)
     (m_TimeOut s) (m_RecvQueue s) (m_SendQueue s) (m_pProcessBuff s) (m_pSendBuff s)
     (m_MaxGnsNodeNum s) (m_GnsInfoMap s).
Definition set_checkpos s (x : Z) : t Q :=
  mk (m_ServerID s) (m_StateTime s) (m_ConnPosCnt s) (m_PosConnMap s) (m_itrCurCheckConn s) x
     (m_TimeOut s) (m_RecvQueue s) (m_SendQueue s) (m_pProcessBuff s) (m_pSendBuff s)
     (m_MaxGnsNodeNum s) (m_GnsInfoMap s).
Definition set_recvq s (x : Q) : t Q :=
  mk (m_ServerID s) (m_StateTime s) (m_ConnPosCnt s) (m_PosConnMap s) (m_itrCurCheckConn s)
     (m_CheckConnPos s) (m_TimeOut s) x (m_SendQueue s) (m_pProcessBuff s) (m_pSendBuff s)
     (m_MaxGnsNodeNum s) (m_GnsInfoMap s).
Definition set_sendq s (x : Q) : t Q :=
  mk (m_ServerID s) (m_StateTime s) (m_ConnPosCnt s) (m_PosConnMap s) (m_itrCurCheckConn s)
     (m_CheckConnPos s) (m_TimeOut s) (m_RecvQueue s) x (m_pProcessBuff s) (m_pSendBuff s)
     (m_MaxGnsNodeNum s) (m_GnsInfoMap s).
Definition set_pbuff s (x : list Z) : t Q :=
  mk (m_ServerID s) (m_StateTime s) (m_ConnPosCnt s) (m_PosConnMap s) (m_itrCurCheckConn s)
     (m_CheckConnPos s) (m_TimeOut s) (m_RecvQueue s) (m_SendQueue s) x (m_pSendBuff s)
     (m_MaxGnsNodeNum s) (m_GnsInfoMap s).
Definition set_sbuff s (x : list Z) : t Q :=
  mk (m_ServerID s) (m_StateTime s) (m_ConnPosCnt s) (m_PosConnMap s) (m_itrCurCheckConn s)
     (m_CheckConnPos s) (m_TimeOut s) (m_RecvQueue s) (m_SendQueue s) (m_pProcessBuff s) x
     (m_MaxGnsNodeNum s) (m_GnsInfoMap s).
Definition set_gns s (x : CHashListNoLock.t ShmGnsInfo.t) : t Q :=
  mk (m_ServerID s) (m_StateTime s) (m_ConnPosCnt s) (m_PosConnMap s) (m_itrCurCheckConn s)
     (m_CheckConnPos s) (m_TimeOut s) (m_RecvQueue s) (m_SendQueue s) (m_pProcessBuff s)
     (m_pSendBuff s) (m_MaxGnsNodeNum s) x.
Definition set_conn s (p : Z) (c : ClientInfo.t) : t Q :=
  set_conns s (<[p := c]> (m_PosConnMap s)).
End setters.

(** [begin()] and [++] of an iterator of a [std::map]. *)
Definition begin_key {A} (m : gmap Z A) : option Z := head (map_keys m).
Definition next_key {A} (m : gmap Z A) (p : Z) : option Z :=
  head (filter (λ x, p < x) (map_keys m)).

Definition wrap_pos (CurConnPos : Z) : Z :=
  if CurConnPos <? CLIENT_SOCK_CPOS_MIN then CLIENT_SOCK_CPOS_MIN + 1 else CurConnPos.

Definition is_listen (p : Z) : bool :=
  (LISTEN_SOCK_CPOS_MIN <=? p) && (p <=? LISTEN_SOCK_CPOS_MAX).

Section operations.
Context {Q K : Type} `{FifoOps Q} `{Kernel K} `{ConnProto}.
Implicit Types (s : t Q) (k : K).

(** The number a new connection gets: the loop is the one of the bus. *)
Definition NextPos s : outcome (t Q * Z) :=
  let cnt := u32 (m_ConnPosCnt s + 1) in
  let cnt := if cnt <? CLIENT_SOCK_CPOS_MIN then CLIENT_SOCK_CPOS_MIN + 1 else cnt in
  pos ← CBus.free_pos (S (size (m_PosConnMap s))) (m_PosConnMap s) wrap_pos cnt;
  Ok (set_cnt s cnt, pos).

Definition insert_conn s (pos : Z) (c : ClientInfo.t) : option (t Q) :=
  match m_PosConnMap s !! pos with Some _ => None | None => Some (set_conn s pos c) end.

Definition AcceptConn s k (ConnPos type : Z) : outcome (K * t Q * Z) :=
  match m_PosConnMap s !! ConnPos with
  | None => Ok (k, s, -1)
  | Some l =>
      let '(k, NewSockID, RemoteAddr) := k_accept k (ClientInfo.SockID l) in
      if 0 <? NewSockID then
        '(s, CurConnPos) ← NextPos s;
        let '(k, FdFlags) := k_fcntl k NewSockID F_GETFL 0 in
        if FdFlags =? -1 then Ok (k_close k NewSockID, s, -1) else
        let '(k, r) := k_fcntl k NewSockID F_SETFL (Z.lor FdFlags O_NONBLOCK) in
        if r =? -1 then Ok (k_close k NewSockID, s, -1) else
        let '(k, r) := k_epoll_ctl k EPOLL_CTL_ADD NewSockID CBus.EPOLL_CONN CurConnPos in
        if negb (r =? 0) then Ok (k_close k NewSockID, s, -1) else
        let local := CConnInfo.m_LocalAddr (ClientInfo.info l) in
        let '(k, c) := ClientInfo.New k CurConnPos NewSockID RemoteAddr local type in
        match insert_conn s CurConnPos c with
        | None =>
            let '(k, _) := k_epoll_ctl k EPOLL_CTL_DEL NewSockID 0 0 in
            Ok (k_close k NewSockID, s, -1)
        | Some s => Ok (k, s, 0)
        end
      else Ok (k, s, -1)
  end.

(** * Messages to other servers, through the queue of the bus *)

(** [h] has been put in front of what is in [m_pSendBuff]; all goes out. *)
Definition EnqueueSend s (PkgLen : Z) : outcome (t Q * Z) :=
  d ← mread (m_pSendBuff s) 0 PkgLen;
  '(q, Ret) ← q_in (m_SendQueue s) d PkgLen;
  Ok (set_sendq s q, if Ret =? 0 then 0 else -1).

Definition bus_header s (PkgLen CmdID DstID SendType Flag : Z) : BusHeader.t :=
  BusHeader.mk (u32 PkgLen) CmdID (u32 (m_ServerID s)) DstID 0 SendType Flag.

(** [Send2Server] of a message, here its bytes. *)
Definition Send2ServerMsg s (Header : XYHeaderIn.t) (DstID SendType Flag : Z) (Message : list Z)
    : outcome (t Q * Z) :=
  let HeaderLen := BusHeader.GetHeaderLen + XYHeaderIn.GetHeaderLen in
  let h := bus_header s (HeaderLen + zlen Message) Cmd_Transfer DstID SendType Flag in
  '(buf, _) ← BusHeader.Write h (m_pSendBuff s) 0;
  '(buf, _) ← XYHeaderIn.Write Header buf BusHeader.GetHeaderLen;
  if XY_PKG_MAX_LEN - HeaderLen <? zlen Message then Ok (set_sbuff s buf, -1) else
  buf ← mwrite buf HeaderLen Message;
  EnqueueSend (set_sbuff s buf) (BusHeader.PkgLen h).

(** [Send2Server] of [PkgLen] bytes of [m_pProcessBuff]. *)
Definition Send2Server s (DstID SendType Flag PkgLen : Z) : outcome (t Q * Z) :=
  let HeaderLen := BusHeader.GetHeaderLen in
  let h := bus_header s (HeaderLen + PkgLen) Cmd_Transfer DstID SendType Flag in
  '(buf, _) ← BusHeader.Write h (m_pSendBuff s) 0;
  d ← mread (m_pProcessBuff s) 0 PkgLen;
  buf ← mwrite buf HeaderLen d;
  EnqueueSend (set_sbuff s buf) (BusHeader.PkgLen h).

Definition SendErrMsg2Server s k (DstID CmdID ErrCode : Z) : outcome (K * t Q * Z) :=
  let '(k, now) := k_time k in
  let Header := XYHeaderIn.mk (u32 (m_ServerID s)) CmdID 0 0 0 (u64 now) (u16 ErrCode) in
  '(s, r) ← Send2ServerMsg s Header DstID TO_SRV 0 (enc_ErrorMsg ErrCode);
  Ok (k, s, r).

Definition SendStateMessage s : outcome (t Q * Z) :=
  let HeaderLen := BusHeader.GetHeaderLen in
  let Msg := enc_StateChange (m_ServerID s) BUS_SVR_ONLINE in
  let h := bus_header s (HeaderLen + zlen Msg) Cmd_StateChange 0 TO_SRV 0 in
  '(buf, _) ← BusHeader.Write h (m_pSendBuff s) 0;
  if XY_PKG_MAX_LEN - HeaderLen <? zlen Msg then Ok (set_sbuff s buf, -1) else
  buf ← mwrite buf HeaderLen Msg;
  EnqueueSend (set_sbuff s buf) (BusHeader.PkgLen h).

(** A header of this server's own. *)
Definition own_header s (CmdID SN ConnPos UserID now : Z) : XYHeaderIn.t :=
  XYHeaderIn.mk (u32 (m_ServerID s)) CmdID SN ConnPos UserID (u64 now) 0.

(** * Releasing *)

(** Writing the fields of an entry of the GNS table through a pointer. *)
Definition gns_write s (ip srv pos status time : Z) : outcome (t Q) :=
  i ← CHashListNoLock.deref (m_GnsInfoMap s) ip;
  h ← CHashListNoLock.store (m_GnsInfoMap s) ip (ShmGnsInfo.set i srv pos status time);
  Ok (set_gns s h).

(** What a released connection of a user does to his GNS entry, and what the
    other connection servers are told. *)
Definition ReleaseUser s k (UserID p : Z) (bSend : bool) : outcome (K * t Q) :=
  let '(k, nowTime) := k_time k in
  ip ← CHashListNoLock.GetP (m_GnsInfoMap s) UserID;
  s ← match ip with
      | Some ip => gns_write s ip (m_ServerID s) p GNS_USER_STATUS_UNACTIVE (u64 nowTime)
      | None => Ok s
      end;
  if bSend then
    let '(k, now) := k_time k in
    let data := LoginData.mk UserID (m_ServerID s) p (u64 nowTime) in
    '(s, _) ← Send2ServerMsg s (own_header s Cmd_Disconnect 0 p UserID now)
                GROUP_CONN TO_GRP_ALLNOME 0 (enc_LoginDatas [data]);
    Ok (k, s)
  else Ok (k, s).

(** The iterator passed to [ReleaseConn] is the number it points at.  The log
    line after the erase, which reads the erased node, is left out. *)
Definition ReleaseConn s k (p : Z) (bSend : bool) : outcome (K * t Q) :=
  match m_PosConnMap s !! p with
  | None => Fault
  | Some c =>
      let '(k, _) := k_epoll_ctl k EPOLL_CTL_DEL (ClientInfo.SockID c) 0 0 in
      let k := k_close k (ClientInfo.SockID c) in
      let s := if bool_decide (m_itrCurCheckConn s = Some p)
               then set_iter s (next_key (m_PosConnMap s) p) else s in
      let UserID := ClientInfo.m_UserID c in
      '(k, s) ← (if negb (UserID =? 0) then ReleaseUser s k UserID p bSend else Ok (k, s));
      Ok (k, set_conns s (delete p (m_PosConnMap s)))
  end.

(** One connection is looked at per call. *)
Definition CheckConn s k : outcome (K * t Q) :=
  match m_itrCurCheckConn s with
  | None => Ok (k, set_iter s (begin_key (m_PosConnMap s)))
  | Some p =>
      match m_PosConnMap s !! p with
      | None => Fault
      | Some c =>
          if is_listen p then Ok (k, set_iter s (next_key (m_PosConnMap s) p)) else
          _ ← (if negb (ClientInfo.m_UserID c =? 0)
               then CHashListNoLock.GetP (m_GnsInfoMap s) (ClientInfo.m_UserID c) else Ok None);
          let '(k, now) := k_time k in
          if m_TimeOut s <? now - CConnInfo.m_LastActTime (ClientInfo.info c)
          then ReleaseConn s k p true
          else Ok (k, set_iter s (next_key (m_PosConnMap s) p))
      end
  end.

(** The first [SendBuffLen] bytes of [m_pSendBuff] go to a client: what the
    socket does not take is kept, as the bus does it. *)
Definition Send2Client s k (CurConnPos SendBuffLen : Z) : outcome (K * t Q * Z) :=
  let p := u32 CurConnPos in
  match m_PosConnMap s !! p with
  | None => Ok (k, s, -1)
  | Some c =>
      '(k, i, r) ← CConnInfo.SendOrKeep k (ClientInfo.info c) (m_pSendBuff s) SendBuffLen;
      let s := set_conn s p (ClientInfo.set_info c i) in
      if r <? 0 then '(k, s) ← ReleaseConn s k p true; Ok (k, s, r)
      else if r =? 1 then
        let '(k, _) := k_epoll_ctl k EPOLL_CTL_MOD (CConnInfo.m_SockID i)
                         (Z.lor CBus.EPOLL_CONN EPOLLOUT) p in
        Ok (k, s, 0)
      else Ok (k, s, 0)
  end.

End operations.
End CConn.
