(* ===== verification/ConnServe.v ===== *)
(** What the connection server does with packages: those of clients
    ([CConn::ProcessPkg]) and those of other servers ([CConn::DealPkg]); and the
    upkeep of the GNS table, which tells where each user is logged in. *)
From stdpp Require Import gmap sorting.
From S2P Require Import Prelude Fifo Wire HashList Kernel ConnInfo BusState BusRoute ConnState.
Import CConn.

#[local] Arguments Z.add : simpl never.
#[local] Arguments Z.eqb : simpl never.
#[local] Arguments Z.ltb : simpl never.
#[local] Arguments Z.leb : simpl never.

Module CConnServe.
Section operations.
Context {Q K : Type} `{FifoOps Q} `{Kernel K} `{ConnProto}.
Implicit Types (s : t Q) (k : K).

(** * Packages of clients *)

(** The requests a client may send before he is logged in; what the message is
    rewritten to goes to the auth servers.  -1: it does not parse. *)
Definition ForwardLogin s (h : XYHeaderIn.t) (body : list Z) : outcome (t Q * bool) :=
  match dec_LoginReq body with
  | None => Ok (s, false)
  | Some (UserID, Passwd, Plat) =>
      '(s, _) ← Send2ServerMsg s h GROUP_AUTH TO_GRP_RND 0 (enc_AuthLoginReq UserID Passwd Plat);
      Ok (s, true)
  end.

Definition ForwardRegister s (h : XYHeaderIn.t) (body : list Z) : outcome (t Q * bool) :=
  match dec_RegisterReq body with
  | None => Ok (s, false)
  | Some (Passwd, f) =>
      '(s, _) ← Send2ServerMsg s h GROUP_AUTH TO_GRP_RND 0 (enc_AuthRegisterReq Passwd f);
      Ok (s, true)
  end.

(** The switch on the command: the message is in [m_pProcessBuff], [h] is
    [CurHeaderIn]. *)
Definition Forward s (h : XYHeaderIn.t) (PkgInLen TotalPkgLen : Z) : outcome (t Q * bool) :=
  let CmdID := XYHeaderIn.CmdID h in
  let CmdPrefix := Z.shiftr CmdID 16 in
  if CmdPrefix =? CMD_PREFIX_CONN then Ok (s, true)
  else if CmdPrefix =? CMD_PREFIX_AUTH then
    if CmdID =? Cmd_Auth_Login_Req then
      body ← mread (m_pProcessBuff s) XYHeaderIn.GetHeaderLen PkgInLen; ForwardLogin s h body
    else if CmdID =? Cmd_Auth_Register_Req then
      body ← mread (m_pProcessBuff s) XYHeaderIn.GetHeaderLen PkgInLen; ForwardRegister s h body
    else '(s, _) ← Send2Server s GROUP_AUTH TO_GRP_RND 0 TotalPkgLen; Ok (s, true)
  else if CmdPrefix =? CMD_PREFIX_USER then
    '(s, _) ← Send2Server s (u32 (GetUserServer (XYHeaderIn.UserID h))) TO_SRV 0 TotalPkgLen;
    Ok (s, true)
  else Ok (s, true).

(** The header a package of a client gets: only the command, the sequence
    number and the result code are the client's. *)
Definition client_header s (c : ClientInfo.t) (h : XYHeader.t) (now : Z) : XYHeaderIn.t :=
  XYHeaderIn.mk (u32 (m_ServerID s)) (XYHeader.CmdID h) (XYHeader.SN h)
    (CConnInfo.m_ConnPos (ClientInfo.info c)) (ClientInfo.m_UserID c) (u64 now) (XYHeader.Ret h).

(** A package of [RecvLen] bytes or less at [o] in the receive buffer [m], of
    the connection [p]. *)
Definition ProcessPkg s k (m : list Z) (o RecvLen p : Z) : outcome (K * t Q * Z) :=
  let HeadLen := XYHeader.GetHeadLen in
  let HeaderInLen := XYHeaderIn.GetHeaderLen in
  if RecvLen <? HeadLen then Ok (k, s, HeadLen) else
  '(CurHeader, _) ← XYHeader.Read m o;
  let PkgLen := XYHeader.PkgLen CurHeader in
  if i32 PkgLen <? HeadLen then Ok (k, s, -1) else
  if XY_PKG_MAX_LEN - HeaderInLen <? i32 PkgLen - HeadLen then Ok (k, s, -1) else
  if u32 RecvLen <? PkgLen then Ok (k, s, i32 PkgLen) else
  let PkgInLen := i32 (PkgLen - HeadLen) in
  let TotalPkgLen := i32 (PkgLen - HeadLen + HeaderInLen) in
  d ← mread m (o + HeadLen) PkgInLen;
  buf ← mwrite (m_pProcessBuff s) HeaderInLen d;
  match m_PosConnMap s !! p with
  | None => Fault
  | Some c =>
      let '(k, now) := k_time k in
      let h := client_header s c CurHeader now in
      '(buf, _) ← XYHeaderIn.Write h buf 0;
      let s := set_pbuff s buf in
      if negb (XYHeaderIn.CmdID h =? Cmd_Auth_Login_Req) &&
         negb (XYHeaderIn.CmdID h =? Cmd_Auth_Register_Req) &&
         negb (ClientInfo.m_ConnType c =? CONN_AUTH)
      then Ok (k, s, i32 PkgLen)
      else
        '(s, ok) ← Forward s h PkgInLen TotalPkgLen;
        Ok (k, s, if ok : bool then i32 PkgLen else -1)
  end.

(** * Packages of other servers *)

(** An answer to the client: its own header and a message. *)
Definition SendRsp s k (h : XYHeaderIn.t) (CmdID ConnPos : Z) (Rsp : list Z)
    : outcome (K * t Q * Z) :=
  let HeaderLen := XYHeader.GetHeadLen in
  let CurHeader := XYHeader.mk (u32 (zlen Rsp + HeaderLen)) CmdID (XYHeaderIn.SN h) 0
                     (XYHeaderIn.Ret h) 0 in
  '(buf, _) ← XYHeader.Write CurHeader (m_pSendBuff s) 0;
  if XY_PKG_MAX_LEN - HeaderLen <? zlen Rsp then Ok (k, set_sbuff s buf, -1) else
  buf ← mwrite buf HeaderLen Rsp;
  '(k, s, _) ← Send2Client (set_sbuff s buf) k ConnPos (i32 (XYHeader.PkgLen CurHeader));
  Ok (k, s, 0).

Definition OnRegisterRsp s k (h : XYHeaderIn.t) (body : list Z) : outcome (K * t Q * Z) :=
  let ConnPos := i32 (XYHeaderIn.ConnPos h) in
  match dec_AuthRegisterRsp body with
  | None => Ok (k, s, -1)
  | Some (UserID, f, Result) =>
      if negb (Result =? 0)
      then SendRsp s k h Cmd_Auth_Register_Rsp ConnPos (enc_RegisterRsp UserID Result)
      else
        let '(k, now) := k_time k in
        let CurHeader := own_header s Cmd_User_Register_Req (XYHeaderIn.SN h) (u32 ConnPos)
                           (XYHeaderIn.UserID h) now in
        let ServerID := i32 (SERVER_USER_BEGIN + UserID mod MAX_USER_SERVER_NUM + 1) in
        '(s, _) ← Send2ServerMsg s CurHeader (u32 ServerID) TO_SRV 0 (enc_UserRegisterReq UserID f);
        Ok (k, s, 0)
  end.

Definition OnUserRegisterRsp s k (h : XYHeaderIn.t) (body : list Z) : outcome (K * t Q * Z) :=
  let ConnPos := i32 (XYHeaderIn.ConnPos h) in
  match dec_UserRegisterRsp body with
  | None => Ok (k, s, -1)
  | Some (UserID, Result) =>
      SendRsp s k h Cmd_Auth_Register_Rsp ConnPos (enc_RegisterRsp UserID Result)
  end.

(** Closing the connection the GNS entry at [ip] names, if it is the user's. *)
Definition KickUser s k (ip UserID : Z) : outcome (K * t Q) :=
  i ← CHashListNoLock.deref (m_GnsInfoMap s) ip;
  match m_PosConnMap s !! ShmGnsInfo.ConnPos i with
  | Some c => if ClientInfo.m_UserID c =? UserID
              then ReleaseConn s k (ShmGnsInfo.ConnPos i) false else Ok (k, s)
  | None => Ok (k, s)
  end.

(** The entry names this server, and the user is logged in. *)
Definition here_active s (i : ShmGnsInfo.t) : bool :=
  (ShmGnsInfo.ServerID i =? m_ServerID s) && (ShmGnsInfo.Status i =? GNS_USER_STATUS_ACTIVE).

(** A login at this server takes the user's entry over. *)
Definition LoginHere s k (UserID ConnPos nowTime : Z) : outcome (K * t Q) :=
  ip ← CHashListNoLock.GetP (m_GnsInfoMap s) UserID;
  match ip with
  | None =>
      '(g, _) ← CHashListNoLock.Insert (m_GnsInfoMap s) UserID
        (ShmGnsInfo.mk UserID (m_ServerID s) (u32 ConnPos) GNS_USER_STATUS_ACTIVE (u64 nowTime));
      Ok (k, set_gns s g)
  | Some ip =>
      i ← CHashListNoLock.deref (m_GnsInfoMap s) ip;
      '(k, s) ← (if here_active s i then KickUser s k ip UserID else Ok (k, s));
      s ← gns_write s ip (m_ServerID s) (u32 ConnPos) GNS_USER_STATUS_ACTIVE (u64 nowTime);
      Ok (k, s)
  end.

Definition OnLoginRsp s k (h : XYHeaderIn.t) (body : list Z) : outcome (K * t Q * Z) :=
  let ConnPos := i32 (XYHeaderIn.ConnPos h) in
  match dec_AuthLoginRsp body with
  | None => Ok (k, s, -1)
  | Some (userid, Result) =>
      let UserID := u64 userid in
      if Result =? 0 then
        match m_PosConnMap s !! u32 ConnPos with
        | None => Ok (k, s, -1)
        | Some c =>
            let c := ClientInfo.SetUserID (ClientInfo.SetConnType c CONN_AUTH) UserID in
            let s := set_conn s (u32 ConnPos) c in
            let '(k, nowTime) := k_time k in
            '(k, s) ← LoginHere s k UserID ConnPos nowTime;
            let '(k, now) := k_time k in
            let data := LoginData.mk UserID (m_ServerID s) (u32 ConnPos) (u64 nowTime) in
            let CurHeader := own_header s Cmd_LoginNotice (XYHeaderIn.SN h) (u32 ConnPos) UserID now in
            '(s, _) ← Send2ServerMsg s CurHeader GROUP_CONN TO_GRP_ALLNOME 0 (enc_LoginDatas [data]);
            SendRsp s k h Cmd_Auth_Login_Rsp ConnPos (enc_LoginRsp Result)
        end
      else SendRsp s k h Cmd_Auth_Login_Rsp ConnPos (enc_LoginRsp Result)
  end.

(** A login another server tells of: the newer of it and the entry counts. *)
Definition LoginThere s k (d : LoginData.t) : outcome (K * t Q) :=
  let UserID := LoginData.UserID d in
  let time := i64 (LoginData.LastActiveTime d) in
  ip ← CHashListNoLock.GetP (m_GnsInfoMap s) UserID;
  match ip with
  | None =>
      '(g, _) ← CHashListNoLock.Insert (m_GnsInfoMap s) UserID
        (ShmGnsInfo.mk UserID (LoginData.ServerID d) (LoginData.ConnPos d)
                       GNS_USER_STATUS_ACTIVE (u64 time));
      Ok (k, set_gns s g)
  | Some ip =>
      i ← CHashListNoLock.deref (m_GnsInfoMap s) ip;
      if ShmGnsInfo.LastActiveTime i <=? u64 time then
        '(k, s) ← (if here_active s i then KickUser s k ip UserID else Ok (k, s));
        s ← gns_write s ip (LoginData.ServerID d) (LoginData.ConnPos d)
              GNS_USER_STATUS_ACTIVE (u64 time);
        Ok (k, s)
      else Ok (k, s)
  end.

(** A logout another server tells of.  The connection number goes through an
    int and back. *)
Definition LogoutThere s k (d : LoginData.t) : outcome (K * t Q) :=
  let UserID := LoginData.UserID d in
  let time := i64 (LoginData.LastActiveTime d) in
  ip ← CHashListNoLock.GetP (m_GnsInfoMap s) UserID;
  match ip with
  | None => Ok (k, s)
  | Some ip =>
      i ← CHashListNoLock.deref (m_GnsInfoMap s) ip;
      if ShmGnsInfo.LastActiveTime i <=? u64 time then
        if here_active s i then KickUser s k ip UserID
        else
          s ← gns_write s ip (LoginData.ServerID d) (u32 (i32 (LoginData.ConnPos d)))
                GNS_USER_STATUS_UNACTIVE (u64 time);
          Ok (k, s)
      else Ok (k, s)
  end.

Fixpoint for_data (f : t Q → K → LoginData.t → outcome (K * t Q)) s k (l : list LoginData.t)
    : outcome (K * t Q) :=
  match l with
  | [] => Ok (k, s)
  | d :: l => '(k, s) ← f s k d; for_data f s k l
  end.

Definition OnLoginNotice s k (body : list Z) : outcome (K * t Q * Z) :=
  match dec_LoginDatas body with
  | None => Ok (k, s, -1)
  | Some l => '(k, s) ← for_data LoginThere s k l; Ok (k, s, 0)
  end.

Definition OnDisconnect s k (body : list Z) : outcome (K * t Q * Z) :=
  match dec_LoginDatas body with
  | None => Ok (k, s, -1)
  | Some l => '(k, s) ← for_data LogoutThere s k l; Ok (k, s, 0)
  end.

(** The answer to a LoginSyncReq is treated as a LoginNotice is. *)
Definition OnLoginSyncRsp s k (body : list Z) : outcome (K * t Q * Z) :=
  match dec_LoginDatas body with
  | None => Ok (k, s, -1)
  | Some l => '(k, s) ← for_data LoginThere s k l; Ok (k, s, 0)
  end.

(** * The users logged in here *)

(** [MemFullCallBackAll]: the entries of this server's users are collected. *)
Definition MemFullCallBackAll (srv : Z) (h : CHashListNoLock.t ShmGnsInfo.t) (ip : Z)
    (v : list LoginData.t) : outcome (CHashListNoLock.t ShmGnsInfo.t * list LoginData.t) :=
  i ← CHashListNoLock.deref h ip;
  if (ShmGnsInfo.ServerID i =? srv) && (ShmGnsInfo.Status i =? GNS_USER_STATUS_ACTIVE)
  then Ok (h, v ++ [LoginData.mk (ShmGnsInfo.UserID i) (ShmGnsInfo.ServerID i)
                      (ShmGnsInfo.ConnPos i) (i64 (ShmGnsInfo.LastActiveTime i))])
  else Ok (h, v).

Definition CollectUsers s : outcome (t Q * list LoginData.t) :=
  '(h, v) ← for_range 0 (m_MaxGnsNodeNum s) (λ i st,
     let '(h, v) := st in
     '(h, v, _) ← CHashListNoLock.ProcessAll h i (MemFullCallBackAll (m_ServerID s)) v;
     Ok (h, v)) (m_GnsInfoMap s, []);
  Ok (set_gns s h, v).

(** A LoginData as a message: the time is a time_t in the struct. *)
Definition data_msg (d : LoginData.t) : LoginData.t :=
  LoginData.mk (LoginData.UserID d) (LoginData.ServerID d) (LoginData.ConnPos d)
    (u64 (LoginData.LastActiveTime d)).

(** The loop that sends a list of logins: [Cur] is the message so far, which is
    sent after every 1001 logins and at the end, and never cleared. *)
Fixpoint SendLogins s k (CmdID DstID SendType : Z) (Cur : list LoginData.t) (j : Z)
    (l : list LoginData.t) : outcome (K * t Q) :=
  match l with
  | [] => Ok (k, s)
  | d :: l =>
      let Cur := Cur ++ [data_msg d] in
      let j := j + 1 in
      if (1000 <? j) || bool_decide (l = []) then
        let '(k, now) := k_time k in
        '(s, _) ← Send2ServerMsg s (own_header s CmdID 0 0 0 now) DstID SendType 0 (enc_LoginDatas Cur);
        SendLogins s k CmdID DstID SendType Cur 0 l
      else SendLogins s k CmdID DstID SendType Cur j l
  end.

Definition OnLoginSyncReq s k (h : XYHeaderIn.t) (body : list Z) : outcome (K * t Q * Z) :=
  match dec_LoginSyncReq body with
  | None => Ok (k, s, -1)
  | Some srv =>
      if srv =? m_ServerID s then Ok (k, s, -1) else
      '(s, v) ← CollectUsers s;
      '(k, s) ← SendLogins s k Cmd_LoginSync_Rsp (XYHeaderIn.SrcID h) TO_SRV [] 0 v;
      Ok (k, s, 0)
  end.

(** Everything else is for a client. *)
Definition PassOn s k (h : XYHeaderIn.t) (pCurBuffPos PkgLen : Z) : outcome (K * t Q * Z) :=
  let CurHeader := XYHeaderIn.CoverToXYHeader h PkgLen in
  '(buf, _) ← XYHeader.Write CurHeader (m_pSendBuff s) 0;
  d ← mread (m_pProcessBuff s) (pCurBuffPos + XYHeaderIn.GetHeaderLen)
        (PkgLen - XYHeaderIn.GetHeaderLen);
  buf ← mwrite buf XYHeader.GetHeadLen d;
  let s := set_sbuff s buf in
  if XYHeaderIn.ConnPos h =? 0 then Ok (k, s, 0) else
  '(k, s, _) ← Send2Client s k (i32 (XYHeaderIn.ConnPos h)) (i32 (XYHeader.PkgLen CurHeader));
  Ok (k, s, 0).

(** The package is in [m_pProcessBuff] from [pCurBuffPos] on. *)
Definition DealPkg s k (pCurBuffPos PkgLen : Z) : outcome (K * t Q * Z) :=
  '(h, _) ← XYHeaderIn.Read (m_pProcessBuff s) pCurBuffPos;
  let body := mread (m_pProcessBuff s) (pCurBuffPos + XYHeaderIn.GetHeaderLen)
                (PkgLen - XYHeaderIn.GetHeaderLen) in
  let CmdID := XYHeaderIn.CmdID h in
  if CmdID =? Cmd_Auth_Register_Rsp then body ← body; OnRegisterRsp s k h body
  else if CmdID =? Cmd_User_Register_Rsp then body ← body; OnUserRegisterRsp s k h body
  else if CmdID =? Cmd_Auth_Login_Rsp then body ← body; OnLoginRsp s k h body
  else if CmdID =? Cmd_LoginNotice then body ← body; OnLoginNotice s k body
  else if CmdID =? Cmd_Disconnect then body ← body; OnDisconnect s k body
  else if CmdID =? Cmd_LoginSync_Req then body ← body; OnLoginSyncReq s k h body
  else if CmdID =? Cmd_LoginSync_Rsp then body ← body; OnLoginSyncRsp s k body
  else PassOn s k h pCurBuffPos PkgLen.

(** * Upkeep of the GNS table *)

(** [MemFullCallBack], but for its log lines: entries of users gone for a day
    are removed. *)
Definition MemFullCallBack (h : CHashListNoLock.t ShmGnsInfo.t) (ip : Z) k
    : outcome (CHashListNoLock.t ShmGnsInfo.t * K) :=
  nd ← aget (CHashListNoLock.m_pstData h) ip;
  let i := CHashListNoLock.Data nd in
  let '(k, nowTime) := k_time k in
  if (ShmGnsInfo.Status i =? GNS_USER_STATUS_UNACTIVE) &&
     (ShmGnsInfo.LastActiveTime i <? u64 (nowTime - CONN_INVALID_TIME))
  then '(h, _) ← CHashListNoLock.Remove h (CHashListNoLock.KeyVal nd); Ok (h, k)
  else Ok (h, k).

(** One index of the table per call. *)
Definition CheckValid s k : outcome (K * t Q) :=
  '(h, k, _) ← CHashListNoLock.ProcessAll (m_GnsInfoMap s) (m_CheckConnPos s) MemFullCallBack k;
  if m_MaxGnsNodeNum s =? 0 then Fault else
  Ok (k, set_checkpos (set_gns s h) (Z.rem (m_CheckConnPos s + 1) (m_MaxGnsNodeNum s))).

End operations.
End CConnServe.
