(* ===== verification/ConnRun.v ===== *)
(** The connection server from start to stop ([CConn::Init] and [CConn::Run]):
    the addresses it listens on, the GNS table it finds in shared memory, and
    the event loop. *)
From stdpp Require Import gmap sorting.
From S2P Require Import Prelude Fifo Wire HashList Kernel ConnInfo BusState BusRoute BusRun.
From S2P Require Import ConnState ConnServe IniFile.
Import CConn CConnServe.

#[local] Arguments Z.add : simpl never.
#[local] Arguments Z.eqb : simpl never.
#[local] Arguments Z.ltb : simpl never.
#[local] Arguments Z.leb : simpl never.

Module CConnInit.

(** The tokens [strtok] finds between commas. *)
Fixpoint tokens (s cur : list Z) : list (list Z) :=
  match s with
  | [] => match cur with [] => [] | _ => [cur] end
  | c :: s => if c =? 44 then (match cur with [] => tokens s [] | _ => cur :: tokens s [] end)
              else tokens s (cur ++ [c])
  end.

Fixpoint skip_blanks (s : list Z) : list Z :=
  match s with
  | c :: s' => if c =? SP then skip_blanks s' else s
  | [] => []
  end.

(** One address: its IP and its port are copied into buffers of 32 and 16
    bytes.  [None]: it is not valid. *)
Definition ParseAddr (inet_addr : list Z → Z) (tok : list Z) : outcome (option (Z * Z)) :=
  let psz := skip_blanks tok in
  match find_sub [58] psz 0 with
  | None => Ok None
  | Some AddrDiv =>
      let IPStr := take (Z.to_nat AddrDiv) psz in
      let PortStr := drop (Z.to_nat (AddrDiv + 1)) psz in
      _ ← guard_ub (zlen IPStr <? 32); _ ← guard_ub (zlen PortStr <? 16);
      let LocalPort := u16 (atoi PortStr) in
      if LocalPort =? 0 then Ok None else Ok (Some (inet_addr IPStr, LocalPort))
  end.

Fixpoint ParseAddrs (inet_addr : list Z → Z) (toks : list (list Z)) : outcome (option (list (Z * Z))) :=
  match toks with
  | [] => Ok (Some [])
  | tok :: toks =>
      a ← ParseAddr inet_addr tok;
      match a with
      | None => Ok None
      | Some a => r ← ParseAddrs inet_addr toks; Ok (match r with Some l => Some (a :: l) | None => None end)
      end
  end.

(** The addresses of [ListenStr], or an error. *)
Definition ListenAddrs (inet_addr : list Z → Z) (ListenStr : list Z) : outcome (option (list (Z * Z))) :=
  r ← ParseAddrs inet_addr (tokens ListenStr []);
  Ok (match r with Some [] => None | r => r end).

Section operations.
Context {Q K : Type} `{FifoOps Q} `{Kernel K} `{ConnProto}.
Implicit Types (s : t Q) (k : K).

(** Listening on the [i]-th address and the ones after it. *)
Fixpoint ListenAll s k (i : Z) (addrs : list (Z * Z)) : K * t Q * Z :=
  match addrs with
  | [] => (k, s, 0)
  | (LocalIP, LocalPort) :: addrs =>
      let '(k, fd) := k_socket k SOCK_STREAM in
      if fd =? -1 then (k, s, -1) else
      let '(k, r) := k_setsockopt k fd SO_REUSEADDR in
      if r =? -1 then (k, s, -1) else
      let addr := (LocalIP, htons (u16 LocalPort)) in
      let '(k, r) := k_bind k fd addr.1 addr.2 in
      if r =? -1 then (k, s, -1) else
      let '(k, r) := k_listen k fd in
      if r =? -1 then (k, s, -1) else
      let p := u32 (LISTEN_SOCK_CPOS_MIN + i) in
      let '(k, r) := k_epoll_ctl k EPOLL_CTL_ADD fd EPOLLIN p in
      if negb (r =? 0) then (k, s, -1) else
      let '(k, c) := ClientInfo.New k p fd (0, 0) addr CONN_UNAUTH in
      match insert_conn s p c with
      | None =>
          let '(k, _) := k_epoll_ctl k EPOLL_CTL_DEL fd 0 0 in (k_close k fd, s, -1)
      | Some s => ListenAll s k (i + 1) addrs
      end
  end.

(** Room for the head, which begins with the magic bytes. *)
Definition GNS_MEM_HEAD_SIZE : Z := 256.

(** The users this server had when it stopped are logged out everywhere, the
    table is emptied, and the other connection servers are asked for theirs.
    [h] is what the shared memory holds, [magic] whether it has been used
    before, and the sizes are those of [CHashListNoLock.Init]. *)
Definition InitGns s k (HEAD INDEX NODE : Z) (h : CHashListNoLock.t ShmGnsInfo.t) (magic : bool)
    (GnsShmSize : Z) : outcome (K * t Q * Z) :=
  let zero := ShmGnsInfo.mk 0 0 0 0 0 in
  let n := m_MaxGnsNodeNum s in
  let GnsInfoMemSize := CHashListNoLock.CalcSize HEAD INDEX NODE n n in
  if n =? 0 then Ok (k, s, -1) else
  if GnsShmSize <? GnsInfoMemSize + GNS_MEM_HEAD_SIZE then Ok (k, s, -1) else
  let '(h, Ret) := CHashListNoLock.Init HEAD INDEX NODE h GnsInfoMemSize n n in
  if negb (Ret =? 0) then Ok (k, set_gns s h, -1) else
  h ← (if magic then Ok h else CHashListNoLock.Clear zero h);
  Ret ← CHashListNoLock.Verify h;
  let s := set_gns s h in
  if negb (Ret =? 0) then Ok (k, s, -1) else
  '(s, v) ← CollectUsers s;
  '(k, s) ← SendLogins s k Cmd_Disconnect GROUP_CONN TO_GRP_ALLNOME [] 0 v;
  h ← CHashListNoLock.Clear zero (m_GnsInfoMap s);
  let s := set_gns s h in
  let '(k, now) := k_time k in
  '(s, _) ← Send2ServerMsg s (own_header s Cmd_LoginSync_Req 0 0 0 now) GROUP_CONN TO_GRP_ALLNOME 0
              (enc_LoginSyncReq (m_ServerID s));
  Ok (k, s, 0).
End operations.
End CConnInit.

Module CConnRun.
Section operations.
Context {Q K : Type} `{FifoOps Q} `{Kernel K} `{ConnProto}.
Implicit Types (s : t Q) (k : K).

(** The bytes of the receive buffer from [o] on are cut into packages until
    they are used up, a rest is kept, or the connection is released. *)
Fixpoint recv_loop (fuel : nat) s k (p : Z) (m : list Z) (o RecvLen : Z) : outcome (K * t Q) :=
  match fuel with
  | O => Spin
  | S fuel =>
      if RecvLen <=? 0 then Ok (k, s) else
      match m_PosConnMap s !! p with
      | None => Fault
      | Some c =>
          let type := ClientInfo.m_ConnType c in
          '(k, s, ProcLen) ← (if (type =? CONN_UNAUTH) || (type =? CONN_AUTH)
                              then ProcessPkg s k m o RecvLen p else Ok (k, s, -1));
          if (RecvLen <? ProcLen) || (ProcLen =? 0) then
            match m_PosConnMap s !! p with
            | None => Fault
            | Some c =>
                '(c, Ret2) ← ClientInfo.AddRecvData c m o RecvLen;
                let s := set_conn s p c in
                if negb (Ret2 =? 0) then ReleaseConn s k p true else Ok (k, s)
            end
          else if ProcLen <? 0 then ReleaseConn s k p true
          else recv_loop fuel s k p m (o + ProcLen) (RecvLen - ProcLen)
      end
  end.

(** [EPOLLIN] on a connection. *)
Definition OnReadable s k (pRecvBuff : list Z) (p : Z) : outcome (K * t Q * list Z) :=
  match m_PosConnMap s !! p with
  | None => Ok (k, s, pRecvBuff)
  | Some c =>
      '(k, c, m, RecvLen, Ret) ← ClientInfo.Recv k c pRecvBuff XY_MAXBUFF_LEN;
      let s := set_conn s p c in
      if (Ret =? 1) || (Ret <? 0) || (XY_MAXBUFF_LEN <? i32 RecvLen)
      then '(k, s) ← ReleaseConn s k p true; Ok (k, s, m)
      else
        let RecvLen := i32 RecvLen in
        '(k, s) ← recv_loop (S (Z.to_nat RecvLen)) s k p m 0 RecvLen;
        Ok (k, s, m)
  end.

(** [EPOLLOUT] on a connection. *)
Definition OnWritable s k (p : Z) : outcome (K * t Q) :=
  match m_PosConnMap s !! p with
  | None => Ok (k, s)
  | Some c =>
      let '(k, c, Ret) := ClientInfo.SendRemainData k c in
      let s := set_conn s p c in
      if Ret =? 1 then Ok (k, s)
      else if negb (Ret =? 0) then ReleaseConn s k p true
      else
        let '(k, _) := k_epoll_ctl k EPOLL_CTL_MOD (ClientInfo.SockID c) CBus.EPOLL_CONN p in
        Ok (k, s)
  end.

(** One event of [epoll_wait]: its flags and the number of its connection. *)
Definition OnEvent s k (pRecvBuff : list Z) (ev : Z * Z) : outcome (K * t Q * list Z) :=
  let '(events, p) := ev in
  if is_listen p then
    if CBusRun.has_event events EPOLLIN
    then '(k, s, _) ← AcceptConn s k p CONN_UNAUTH; Ok (k, s, pRecvBuff)
    else Ok (k, s, pRecvBuff)
  else
    match m_PosConnMap s !! p with
    | None => Ok (k, s, pRecvBuff)
    | Some _ =>
        if CBusRun.has_event events EPOLLERR || CBusRun.has_event events EPOLLHUP
        then '(k, s) ← ReleaseConn s k p true; Ok (k, s, pRecvBuff)
        else if CBusRun.has_event events EPOLLIN then OnReadable s k pRecvBuff p
        else if CBusRun.has_event events EPOLLOUT
        then '(k, s) ← OnWritable s k p; Ok (k, s, pRecvBuff)
        else Ok (k, s, pRecvBuff)
    end.

Fixpoint OnEvents s k (pRecvBuff : list Z) (evs : list (Z * Z)) : outcome (K * t Q * list Z) :=
  match evs with
  | [] => Ok (k, s, pRecvBuff)
  | ev :: evs => '(k, s, m) ← OnEvent s k pRecvBuff ev; OnEvents s k m evs
  end.

Definition MAX_QUEUEPKG_PER_LOOP : nat := 100.

(** At most [n] packages of other servers are dealt with. *)
Fixpoint DealQueue (n : nat) s k : outcome (K * t Q) :=
  match n with
  | O => Ok (k, s)
  | S n =>
      '(q, Ret, SendLen, d) ← q_out (m_RecvQueue s) XY_PKG_MAX_LEN;
      buf ← mwrite (m_pProcessBuff s) 0 d;
      let s := set_pbuff (set_recvq s q) buf in
      if negb (Ret =? 0) then Ok (k, s)
      else
        '(k, s, _) ← DealPkg s k BusHeader.GetHeaderLen (SendLen - BusHeader.GetHeaderLen);
        DealQueue n s k
  end.

(** One round of the loop, with the events [epoll_wait] returned. *)
Definition RunOnce s k (LastStateTime : Z) (pRecvBuff : list Z) (evs : list (Z * Z))
    : outcome (K * t Q * Z * list Z) :=
  '(k, s, m) ← OnEvents s k pRecvBuff evs;
  '(k, s) ← DealQueue MAX_QUEUEPKG_PER_LOOP s k;
  let '(k, NowTime) := k_time k in
  '(s, last) ← (if m_StateTime s <=? NowTime - LastStateTime
                then '(s, _) ← SendStateMessage s; Ok (s, NowTime) else Ok (s, LastStateTime));
  '(k, s) ← CheckConn s k;
  '(k, s) ← CheckValid s k;
  Ok (k, s, last, m).

(** The loop, until [StopFlag] is set after the last round. *)
Fixpoint Run s k (LastStateTime : Z) (pRecvBuff : list Z) (rounds : list (list (Z * Z)))
    : outcome (K * t Q * Z * list Z) :=
  match rounds with
  | [] => Ok (k, s, LastStateTime, pRecvBuff)
  | evs :: rounds =>
      '(k, s, last, m) ← RunOnce s k LastStateTime pRecvBuff evs;
      Run s k last m rounds
  end.

End operations.
End CConnRun.
