(* ===== verification/ConnFacts.v ===== *)
(** What the operations of the connection server do, against a view of it that
    knows the messages in its send queue and the GNS table as a finite map. *)
From stdpp Require Import gmap sorting.
From S2P Require Import Prelude Fifo Wire HashList Kernel ConnInfo BusState BusConn BusRoute.
From S2P Require Import BusFacts ConnState ConnServe.
Import CConn CConnServe.

#[local] Arguments Z.add : simpl never.
#[local] Arguments Z.eqb : simpl never.
#[local] Arguments Z.ltb : simpl never.
#[local] Arguments Z.leb : simpl never.

Lemma mwrite_at {A} (a m d : list A) :
  zlen d ≤ zlen m → mwrite (a ++ m) (zlen a) d = Ok (a ++ d ++ drop (length d) m).
Proof.
  intros. pose proof (zlen_nonneg a). rewrite mwrite_ok by (rewrite ?zlen_app; lia).
  replace (Z.to_nat (zlen a)) with (length a) by (unfold zlen; lia).
  rewrite take_app_length. do 3 f_equal. rewrite drop_app_ge by lia. f_equal. lia.
Qed.

Lemma zlen_drop_length {A} (d m : list A) : zlen d ≤ zlen m → zlen (drop (length d) m) = zlen m - zlen d.
Proof. intros. unfold zlen in *. rewrite length_drop. lia. Qed.

(** * Messages in the send queue *)

(** A message to the bus of server [sid]. *)
Definition srv_header (sid cmd dst st fl len : Z) : BusHeader.t :=
  BusHeader.mk (u32 (26 + len)) cmd (u32 sid) dst 0 st fl.

Definition srv_msg (sid dst st fl : Z) (body : list Z) : list Z :=
  msg_bytes (srv_header sid Cmd_Transfer dst st fl (zlen body)) body.

(** What the bus asks of a message: its header tells its length, and fits. *)
Definition sendable (sid : Z) (d : list Z) : Prop :=
  ∃ h body, d = msg_bytes h body ∧ bus_ok h ∧ BusHeader.PkgLen h = 26 + zlen body ∧
    26 + zlen body ≤ XY_PKG_MAX_LEN ∧ BusHeader.SrcID h = u32 sid.

Lemma srv_msg_sendable sid cmd dst st fl body :
  0 ≤ cmd < 2 ^ 32 → 0 ≤ dst < 2 ^ 32 → - 2 ^ 7 ≤ st < 2 ^ 7 → - 2 ^ 7 ≤ fl < 2 ^ 7 →
  26 + zlen body ≤ XY_PKG_MAX_LEN →
  sendable sid (msg_bytes (srv_header sid cmd dst st fl (zlen body)) body).
Proof.
  intros ???? Hl. pose proof (zlen_nonneg body). unfold XY_PKG_MAX_LEN in *.
  exists (srv_header sid cmd dst st fl (zlen body)), body.
  split_and!; try done; [|cbn; rewrite u32_small; lia].
  constructor; cbn; try done; try apply u32_range; lia.
Qed.

Section push.
Context {Q : Type} `{FifoQueue Q}.
Implicit Types (ms : list (list Z)) (d : list Z).

(** A message offered to the send queue: it goes in if it is not too long for
    the buffer and fits the queue. *)
Definition push (cap : Z) ms d : list (list Z) := if q_fits cap ms d then ms ++ [d] else ms.

Definition emit (cap : Z) ms d : list (list Z) :=
  if XY_PKG_MAX_LEN <? zlen d then ms else push cap ms d.

(** The queue got more messages of this server. *)
Definition more (sid : Z) ms ms' : Prop :=
  ∃ l, ms' = ms ++ l ∧ Forall (sendable sid) l.

#[export] Instance more_refl sid : Reflexive (more sid).
Proof. intros ms. exists []. by rewrite app_nil_r. Qed.
#[export] Instance more_trans sid : Transitive (more sid).
Proof.
  intros ? ? ? (l & -> & ?) (l' & -> & ?). exists (l ++ l'). rewrite app_assoc.
  split; [done|]. by apply Forall_app.
Qed.

Lemma emit_more sid cap ms d :
  (zlen d ≤ XY_PKG_MAX_LEN → sendable sid d) → more sid ms (emit cap ms d).
Proof.
  intros Hd. unfold emit, push. destruct (Z.ltb_spec XY_PKG_MAX_LEN (zlen d)); [done|].
  destruct (q_fits cap ms d); [|done]. exists [d]. split; [done|]. constructor; auto.
Qed.
End push.

Section facts.
Context {Q K : Type} `{FifoQueue Q} `{KernelLaws K} `{ConnProtoLaws}.
Hypothesis Hmax : XY_PKG_MAX_LEN ≤ q_max.
Implicit Types (s : t Q) (k : K) (ms : list (list Z)) (g : gmap Z ShmGnsInfo.t).

(** The send queue holds [ms] and the GNS table [g]; the buffers are there. *)
Record crep s ms g : Prop := {
  cr_send : q_rep (m_SendQueue s) ms;
  cr_gns : hrep (m_GnsInfoMap s) g;
  cr_sbuff : zlen (m_pSendBuff s) = XY_PKG_MAX_LEN;
  cr_pbuff : zlen (m_pProcessBuff s) = XY_PKG_MAX_LEN;
}.

(** What serving packages never changes. *)
Record same_srv s s' : Prop := {
  sv_id : m_ServerID s' = m_ServerID s;
  sv_state : m_StateTime s' = m_StateTime s;
  sv_cnt : m_ConnPosCnt s' = m_ConnPosCnt s;
  sv_check : m_CheckConnPos s' = m_CheckConnPos s;
  sv_timeout : m_TimeOut s' = m_TimeOut s;
  sv_recvq : m_RecvQueue s' = m_RecvQueue s;
  sv_max : m_MaxGnsNodeNum s' = m_MaxGnsNodeNum s;
  sv_cap : q_cap (m_SendQueue s') = q_cap (m_SendQueue s);
  sv_size : same_size (m_GnsInfoMap s) (m_GnsInfoMap s');
}.

#[export] Instance same_srv_refl : Reflexive same_srv.
Proof. by constructor. Qed.
#[export] Instance same_srv_trans : Transitive same_srv.
Proof. intros ??? [] []. constructor; try congruence. by eapply same_size_trans. Qed.

(** [s'] differs from [s] in the send queue and its buffer only. *)
Record sent s s' : Prop := {
  st_srv : same_srv s s';
  st_conns : m_PosConnMap s' = m_PosConnMap s;
  st_iter : m_itrCurCheckConn s' = m_itrCurCheckConn s;
  st_pbuff : m_pProcessBuff s' = m_pProcessBuff s;
  st_gns : m_GnsInfoMap s' = m_GnsInfoMap s;
}.

Lemma EnqueueSend_ok s ms g d rest :
  crep s ms g → m_pSendBuff s = d ++ rest → 0 < zlen d ≤ XY_PKG_MAX_LEN →
  ∃ s' r, EnqueueSend s (zlen d) = Ok (s', r) ∧ sent s s' ∧
    crep s' (push (q_cap (m_SendQueue s)) ms d) g.
Proof.
  intros [Hq Hg Hs Hp] Hb Hd. unfold EnqueueSend. rewrite Hb, mread_head. cbn [mbind outcome_bind].
  unfold push. destruct (q_fits (q_cap (m_SendQueue s)) ms d) eqn:Ef.
  - destruct (q_in_fits (m_SendQueue s) ms d) as (q' & -> & Hr & Hc); [done|lia|done|].
    cbn [mbind outcome_bind]. eexists _, _. split; [done|]. by split.
  - destruct (q_in_full (m_SendQueue s) ms d) as (q' & -> & Hr & Hc); [done|lia|done|].
    cbn [mbind outcome_bind]. eexists _, _. split; [done|]. by split.
Qed.

Lemma set_sbuff_rep s ms g buf :
  crep s ms g → zlen buf = XY_PKG_MAX_LEN → crep (set_sbuff s buf) ms g ∧ sent s (set_sbuff s buf).
Proof. intros [] ?. by split; constructor. Qed.

Lemma sent_trans s1 s2 s3 : sent s1 s2 → sent s2 s3 → sent s1 s3.
Proof. intros [] []. constructor; try congruence. by trans s2. Qed.

(** Sending a message: it is offered to the queue, in one piece. *)
Lemma Send2ServerMsg_ok s ms g hdr dst st fl msg :
  crep s ms g →
  ∃ s' r, Send2ServerMsg s hdr dst st fl msg = Ok (s', r) ∧ sent s s' ∧
    crep s' (emit (q_cap (m_SendQueue s)) ms
               (srv_msg (m_ServerID s) dst st fl (xyin_bytes hdr ++ msg))) g.
Proof.
  intros Hrep. pose proof (cr_sbuff _ _ _ Hrep) as Hb. unfold Send2ServerMsg.
  set (h := bus_header s _ _ _ _ _). pose proof (zlen_nonneg msg).
  assert (h = srv_header (m_ServerID s) Cmd_Transfer dst st fl (zlen (xyin_bytes hdr ++ msg))) as Hh.
  { unfold h, bus_header, srv_header. rewrite zlen_app, zlen_xyin_bytes. do 2 f_equal. unfold BusHeader.GetHeaderLen, XYHeaderIn.GetHeaderLen. lia. }
  set (d := srv_msg _ _ _ _ _).
  assert (d = bus_bytes h ++ xyin_bytes hdr ++ msg) as Hd by (unfold d, srv_msg; by rewrite <- Hh).
  assert (zlen d = 60 + zlen msg) as Hz.
  { rewrite Hd, !zlen_app, zlen_bus_bytes, zlen_xyin_bytes. lia. }
  rewrite (bus_Write_bytes _ _ _ _ (mwrite_head (bus_bytes h) (m_pSendBuff s)
    ltac:(rewrite zlen_bus_bytes, Hb; done))). cbn [mbind outcome_bind].
  set (m1 := drop _ (m_pSendBuff s)).
  assert (zlen m1 = XY_PKG_MAX_LEN - 26) as Hm1.
  { unfold m1. rewrite zlen_drop_length; rewrite zlen_bus_bytes, Hb; done. }
  assert (XYHeaderIn.Write hdr (bus_bytes h ++ m1) BusHeader.GetHeaderLen
          = Ok (bus_bytes h ++ xyin_bytes hdr ++ drop (length (xyin_bytes hdr)) m1, 34)) as ->.
  { apply xyin_Write_bytes. change BusHeader.GetHeaderLen with 26.
    rewrite <- (zlen_bus_bytes h) at 1. apply mwrite_at. rewrite zlen_xyin_bytes, Hm1. done. }
  cbn [mbind outcome_bind]. set (m2 := drop _ m1).
  assert (zlen m2 = XY_PKG_MAX_LEN - 60) as Hm2.
  { unfold m2. rewrite zlen_drop_length; rewrite zlen_xyin_bytes, Hm1; done. }
  change (BusHeader.GetHeaderLen + XYHeaderIn.GetHeaderLen) with 60.
  unfold emit. rewrite Hz.
  destruct (Z.ltb_spec (XY_PKG_MAX_LEN - 60) (zlen msg)).
  - destruct (Z.ltb_spec XY_PKG_MAX_LEN (60 + zlen msg)); [|lia].
    destruct (set_sbuff_rep s ms g (bus_bytes h ++ xyin_bytes hdr ++ m2) Hrep) as [? ?].
    { rewrite !zlen_app, zlen_bus_bytes, zlen_xyin_bytes, Hm2. lia. }
    eexists _, _. split; [done|]. by split.
  - destruct (Z.ltb_spec XY_PKG_MAX_LEN (60 + zlen msg)); [lia|].
    rewrite app_assoc. replace 60 with (zlen (bus_bytes h ++ xyin_bytes hdr))
      by (rewrite zlen_app, zlen_bus_bytes, zlen_xyin_bytes; done).
    rewrite mwrite_at by lia. cbn [mbind outcome_bind]. set (m3 := drop _ m2).
    rewrite app_assoc, <- (app_assoc (bus_bytes h)), <- Hd.
    destruct (set_sbuff_rep s ms g (d ++ m3) Hrep) as [Hr1 Hs1].
    { rewrite zlen_app, Hz. unfold m3. rewrite zlen_drop_length; lia. }
    destruct (EnqueueSend_ok (set_sbuff s (d ++ m3)) ms g d m3 Hr1) as (s' & r & He & Hs2 & Hr2);
      [done|lia|].
    replace (BusHeader.PkgLen h) with (zlen d).
    2:{ unfold h, bus_header. cbn [BusHeader.PkgLen]. change (BusHeader.GetHeaderLen + XYHeaderIn.GetHeaderLen) with 60.
        rewrite Hz, u32_small; unfold XY_PKG_MAX_LEN in *; lia. }
    rewrite He. exists s', r. split; [done|]. split; [by eapply sent_trans|done].
Qed.

(** A header and a body behind it, put into the buffer and sent. *)
Lemma framed_ok s ms g h body :
  crep s ms g → BusHeader.PkgLen h = 26 + zlen body → 26 + zlen body ≤ XY_PKG_MAX_LEN →
  ∃ buf1 buf2 s' r, BusHeader.Write h (m_pSendBuff s) 0 = Ok (buf1, 26) ∧
    mwrite buf1 26 body = Ok buf2 ∧
    EnqueueSend (set_sbuff s buf2) (BusHeader.PkgLen h) = Ok (s', r) ∧ sent s s' ∧
    crep s' (push (q_cap (m_SendQueue s)) ms (msg_bytes h body)) g.
Proof.
  intros Hrep Hl Hm. pose proof (cr_sbuff _ _ _ Hrep) as Hb. pose proof (zlen_nonneg body).
  set (m1 := drop (length (bus_bytes h)) (m_pSendBuff s)).
  assert (zlen m1 = XY_PKG_MAX_LEN - 26) as Hm1.
  { unfold m1. rewrite zlen_drop_length; rewrite zlen_bus_bytes, Hb; done. }
  set (m2 := drop (length body) m1).
  exists (bus_bytes h ++ m1), (bus_bytes h ++ body ++ m2).
  destruct (set_sbuff_rep s ms g (bus_bytes h ++ body ++ m2) Hrep) as [Hr1 Hs1].
  { rewrite !zlen_app, zlen_bus_bytes. unfold m2. rewrite zlen_drop_length; lia. }
  destruct (EnqueueSend_ok _ ms g (msg_bytes h body) m2 Hr1) as (s' & r & He & Hs2 & Hr2);
    [unfold msg_bytes; by rewrite <- app_assoc|rewrite zlen_msg_bytes; lia|].
  exists s', r. split_and!; [| | |by eapply sent_trans|done].
  - apply bus_Write_bytes, mwrite_head. rewrite zlen_bus_bytes, Hb. done.
  - rewrite <- (zlen_bus_bytes h) at 1. apply mwrite_at. lia.
  - by rewrite Hl, <- (zlen_msg_bytes h).
Qed.

Lemma srv_header_len s n cmd dst st fl :
  0 ≤ n → 26 + n ≤ XY_PKG_MAX_LEN →
  bus_header s (BusHeader.GetHeaderLen + n) cmd dst st fl = srv_header (m_ServerID s) cmd dst st fl n ∧
  BusHeader.PkgLen (srv_header (m_ServerID s) cmd dst st fl n) = 26 + n.
Proof. intros ? Hn. split; [done|]. cbn. unfold XY_PKG_MAX_LEN in Hn. apply u32_small. lia. Qed.

(** Passing on what is in [m_pProcessBuff]. *)
Lemma Send2Server_ok s ms g dst st fl body :
  crep s ms g → mread (m_pProcessBuff s) 0 (zlen body) = Ok body → 26 + zlen body ≤ XY_PKG_MAX_LEN →
  ∃ s' r, Send2Server s dst st fl (zlen body) = Ok (s', r) ∧ sent s s' ∧
    crep s' (push (q_cap (m_SendQueue s)) ms (srv_msg (m_ServerID s) dst st fl body)) g.
Proof.
  intros Hrep Hr Hm. pose proof (zlen_nonneg body). unfold Send2Server.
  destruct (srv_header_len s (zlen body) Cmd_Transfer dst st fl) as [-> Hl]; [done..|].
  destruct (framed_ok s ms g (srv_header (m_ServerID s) Cmd_Transfer dst st fl (zlen body)) body Hrep Hl Hm)
    as (b1 & b2 & s' & r & -> & Hw & He & Hs & Hr'). cbn [mbind outcome_bind].
  rewrite Hr. cbn [mbind outcome_bind]. change BusHeader.GetHeaderLen with 26. rewrite Hw.
  cbn [mbind outcome_bind]. rewrite He. by exists s', r.
Qed.

(** The buffer is too short for the longest package. *)
Lemma Send2Server_overflow s ms g dst st fl body :
  crep s ms g → mread (m_pProcessBuff s) 0 (zlen body) = Ok body → XY_PKG_MAX_LEN < 26 + zlen body →
  Send2Server s dst st fl (zlen body) = Fault.
Proof.
  intros Hrep Hr Hm. pose proof (cr_sbuff _ _ _ Hrep) as Hb. unfold Send2Server.
  set (h := bus_header s _ _ _ _ _).
  rewrite (bus_Write_bytes h _ _ _ (mwrite_head (bus_bytes h) (m_pSendBuff s)
    ltac:(rewrite zlen_bus_bytes, Hb; done))). cbn [mbind outcome_bind].
  rewrite Hr. cbn [mbind outcome_bind]. unfold mwrite.
  replace (in_bounds _ _ _) with false; [done|]. symmetry. apply not_true_iff_false.
  rewrite in_bounds_spec. change BusHeader.GetHeaderLen with 26.
  rewrite zlen_app, zlen_drop_length; rewrite zlen_bus_bytes, Hb; unfold XY_PKG_MAX_LEN in *; lia.
Qed.

(** The server tells that it is up. *)
Lemma SendStateMessage_ok s ms g :
  crep s ms g →
  ∃ s' r, SendStateMessage s = Ok (s', r) ∧ sent s s' ∧
    let body := enc_StateChange (m_ServerID s) BUS_SVR_ONLINE in
    crep s' (emit (q_cap (m_SendQueue s)) ms
               (msg_bytes (srv_header (m_ServerID s) Cmd_StateChange 0 TO_SRV 0 (zlen body)) body)) g.
Proof.
  intros Hrep. unfold SendStateMessage. cbv zeta. set (body := enc_StateChange _ _).
  pose proof (zlen_nonneg body). pose proof (cr_sbuff _ _ _ Hrep) as Hb. unfold emit.
  rewrite zlen_msg_bytes. change BusHeader.GetHeaderLen with 26.
  destruct (Z.ltb_spec XY_PKG_MAX_LEN (26 + zlen body)).
  - set (h := bus_header s _ _ _ _ _).
    rewrite (bus_Write_bytes h _ _ _ (mwrite_head (bus_bytes h) (m_pSendBuff s)
      ltac:(rewrite zlen_bus_bytes, Hb; done))). cbn [mbind outcome_bind].
    rewrite (proj2 (Z.ltb_lt _ _)) by lia.
    destruct (set_sbuff_rep s ms g (bus_bytes h ++ drop (length (bus_bytes h)) (m_pSendBuff s)) Hrep) as [? ?].
    { rewrite zlen_app, zlen_drop_length; rewrite zlen_bus_bytes, Hb; done || lia. }
    eexists _, _. by split.
  - destruct (srv_header_len s (zlen body) Cmd_StateChange 0 TO_SRV 0) as [Hh Hl]; [done..|].
    change BusHeader.GetHeaderLen with 26 in Hh. rewrite Hh.
    destruct (framed_ok s ms g (srv_header (m_ServerID s) Cmd_StateChange 0 TO_SRV 0 (zlen body)) body Hrep Hl)
      as (b1 & b2 & s' & r & -> & Hw & He & Hs & Hr'); [done|]. cbn [mbind outcome_bind].
    rewrite (proj2 (Z.ltb_ge _ _)) by lia. rewrite Hw. cbn [mbind outcome_bind]. rewrite He. by exists s', r.
Qed.

(** * The GNS table and released connections *)

(** [s'] differs from [s] in the send queue and its buffer, and in entries of
    the GNS table whose pointers are still good. *)
Record touched s s' : Prop := {
  tc_srv : same_srv s s';
  tc_conns : m_PosConnMap s' = m_PosConnMap s;
  tc_iter : m_itrCurCheckConn s' = m_itrCurCheckConn s;
  tc_pbuff : m_pProcessBuff s' = m_pProcessBuff s;
  tc_ptr u : CHashListNoLock.GetP (m_GnsInfoMap s') u = CHashListNoLock.GetP (m_GnsInfoMap s) u;
}.

Lemma sent_touched s s' : sent s s' → touched s s'.
Proof. intros []. constructor; try done. intros u. by rewrite st_gns0. Qed.

#[export] Instance touched_refl : Reflexive touched.
Proof. by constructor. Qed.
#[export] Instance touched_trans : Transitive touched.
Proof. intros ??? [] []. constructor; try congruence. by etrans. Qed.

Lemma gns_write_ok s ms g u ip srv pos st tm :
  crep s ms g → CHashListNoLock.GetP (m_GnsInfoMap s) u = Ok (Some ip) →
  ∃ i s', g !! u = Some i ∧ CHashListNoLock.deref (m_GnsInfoMap s) ip = Ok i ∧
    gns_write s ip srv pos st tm = Ok s' ∧ touched s s' ∧
    crep s' ms (<[u := ShmGnsInfo.set i srv pos st tm]> g).
Proof.
  intros [Hq Hg Hs Hp] Hip. pose proof (GetP_hrep (m_GnsInfoMap s) g u Hg) as HG.
  destruct (g !! u) as [i|]; [|congruence]. destruct HG as (ip' & Hip' & Hd & Hw).
  rewrite Hip in Hip'. injection Hip' as <-.
  destruct (Hw (ShmGnsInfo.set i srv pos st tm)) as (h' & Hst & Hr).
  exists i, (set_gns s h'). split_and!; [done|done| | |by constructor].
  - unfold gns_write. rewrite Hd. cbn [mbind outcome_bind]. by rewrite Hst.
  - constructor; try done; [|by intros; apply (store_GetP _ _ _ _ _ Hst)].
    constructor; try done. apply (store_size _ _ _ _ Hst).
Qed.

(** The entry of a user whose connection has gone. *)
Definition logged_out g (u sid p tm : Z) : gmap Z ShmGnsInfo.t :=
  match g !! u with
  | Some i => <[u := ShmGnsInfo.set i sid p GNS_USER_STATUS_UNACTIVE tm]> g
  | None => g
  end.

Definition logout_msg (sid u p tm now : Z) : list Z :=
  srv_msg sid GROUP_CONN TO_GRP_ALLNOME 0
    (xyin_bytes (XYHeaderIn.mk (u32 sid) Cmd_Disconnect 0 p u (u64 now) 0) ++
     enc_LoginDatas [LoginData.mk u sid p tm]).

Lemma srv_msg_more sid cap ms dst st fl body :
  0 ≤ dst < 2 ^ 32 → - 2 ^ 7 ≤ st < 2 ^ 7 → - 2 ^ 7 ≤ fl < 2 ^ 7 →
  more sid ms (emit cap ms (srv_msg sid dst st fl body)).
Proof.
  intros. apply emit_more. unfold srv_msg. rewrite zlen_msg_bytes. intros.
  apply srv_msg_sendable; done.
Qed.

Lemma ReleaseUser_ok s k ms g u p bSend :
  crep s ms g →
  ∃ k' s' ms' now now2, ReleaseUser s k u p bSend = Ok (k', s') ∧ touched s s' ∧
    crep s' ms' (logged_out g u (m_ServerID s) p (u64 now)) ∧
    ms' = if bSend then emit (q_cap (m_SendQueue s)) ms (logout_msg (m_ServerID s) u p (u64 now) now2) else ms.
Proof.
  intros Hrep. unfold ReleaseUser. destruct (k_time k) as [k1 now] eqn:Et.
  pose proof (GetP_hrep (m_GnsInfoMap s) g u (cr_gns _ _ _ Hrep)) as HG. unfold logged_out.
  assert (∃ ip s1, CHashListNoLock.GetP (m_GnsInfoMap s) u = Ok ip ∧
    match ip with
    | Some ip => gns_write s ip (m_ServerID s) p GNS_USER_STATUS_UNACTIVE (u64 now)
    | None => Ok s
    end = Ok s1 ∧ touched s s1 ∧
    crep s1 ms (match g !! u with
      | Some i => <[u := ShmGnsInfo.set i (m_ServerID s) p GNS_USER_STATUS_UNACTIVE (u64 now)]> g
      | None => g end)) as (ip & s1 & -> & Hw & Ht & Hr1).
  { destruct (g !! u) as [i|] eqn:Eu.
    - destruct HG as (ip & Hip & _). exists (Some ip).
      destruct (gns_write_ok s ms g u ip (m_ServerID s) p GNS_USER_STATUS_UNACTIVE (u64 now) Hrep Hip)
        as (i' & s1 & Hi & _ & Hw & Ht & Hr). exists s1. rewrite Eu in Hi. injection Hi as ->. done.
    - exists None, s. done. }
  cbn [mbind outcome_bind]. rewrite Hw. cbn [mbind outcome_bind].
  destruct bSend.
  - destruct (k_time k1) as [k2 now2].
    destruct (Send2ServerMsg_ok s1 ms _ (own_header s1 Cmd_Disconnect 0 p u now2) GROUP_CONN TO_GRP_ALLNOME 0
      (enc_LoginDatas [LoginData.mk u (m_ServerID s1) p (u64 now)]) Hr1) as (s2 & r & -> & Hs2 & Hr2).
    cbn [mbind outcome_bind]. eexists _, _, _, now, now2. split; [done|].
    rewrite (sv_cap _ _ (tc_srv _ _ Ht)) in Hr2. unfold own_header in Hr2.
    rewrite !(sv_id _ _ (tc_srv _ _ Ht)) in Hr2.
    split; [by etrans; [|apply sent_touched]|]. split; [exact Hr2|done].
  - eexists _, _, _, now, now. done.
Qed.

(** What a release does, but for the messages. *)
Record released s s' (p : Z) (c : ClientInfo.t) g g' : Prop := {
  rl_srv : same_srv s s';
  rl_conns : m_PosConnMap s' = delete p (m_PosConnMap s);
  rl_iter : m_itrCurCheckConn s' =
    if decide (m_itrCurCheckConn s = Some p) then next_key (m_PosConnMap s) p else m_itrCurCheckConn s;
  rl_pbuff : m_pProcessBuff s' = m_pProcessBuff s;
  rl_ptr u : CHashListNoLock.GetP (m_GnsInfoMap s') u = CHashListNoLock.GetP (m_GnsInfoMap s) u;
  rl_gns : ∃ now, g' = if decide (ClientInfo.m_UserID c = 0) then g
                       else logged_out g (ClientInfo.m_UserID c) (m_ServerID s) p (u64 now);
}.

Lemma ReleaseConn_rep s k ms g p c bSend :
  crep s ms g → m_PosConnMap s !! p = Some c →
  ∃ k' s' ms' g', ReleaseConn s k p bSend = Ok (k', s') ∧ crep s' ms' g' ∧ released s s' p c g g' ∧
    more (m_ServerID s) ms ms' ∧ (bSend = false → ms' = ms).
Proof.
  intros Hrep Hc. unfold ReleaseConn. rewrite Hc. destruct (k_epoll_ctl k _ _ _ _) as [k1 r1].
  set (k2 := k_close k1 _). set (s1 := if bool_decide _ then _ else s).
  assert (crep s1 ms g) as Hr1 by (unfold s1; destruct Hrep; case_bool_decide; by constructor).
  assert (m_itrCurCheckConn s1 = if decide (m_itrCurCheckConn s = Some p)
    then next_key (m_PosConnMap s) p else m_itrCurCheckConn s) as Hit.
  { unfold s1. case_bool_decide; by case_decide. }
  assert (m_PosConnMap s1 = m_PosConnMap s ∧ m_GnsInfoMap s1 = m_GnsInfoMap s ∧
    m_pProcessBuff s1 = m_pProcessBuff s ∧ m_ServerID s1 = m_ServerID s ∧
    same_srv s s1) as (Hc1 & Hg1 & Hp1 & Hid1 & Hss).
  { unfold s1. case_bool_decide; split_and!; (done || by constructor). }
  destruct (Z.eqb_spec (ClientInfo.m_UserID c) 0) as [Hu|Hu]; cbn [negb].
  - cbn [mbind outcome_bind]. eexists _, _, ms, g. split; [done|]. split.
    { destruct Hr1. by constructor. }
    split; [|done]. constructor; cbn [m_PosConnMap m_itrCurCheckConn m_pProcessBuff m_GnsInfoMap set_conns].
    + destruct Hss. by constructor.
    + by rewrite Hc1.
    + done.
    + done.
    + intros u. by rewrite Hg1.
    + exists 0. by rewrite decide_True.
  - destruct (ReleaseUser_ok s1 k2 ms g (ClientInfo.m_UserID c) p bSend Hr1)
      as (k3 & s3 & ms' & now & now2 & -> & Ht & Hr3 & Hms). cbn [mbind outcome_bind].
    rewrite Hid1 in *. eexists _, _, ms', _. split; [done|]. split.
    { destruct Hr3. by constructor. }
    destruct Ht. split_and!.
    + constructor; cbn [m_PosConnMap m_itrCurCheckConn m_pProcessBuff m_GnsInfoMap set_conns]; try congruence.
      * trans s1; [done|]. destruct tc_srv0. by constructor.
      * exists now. by rewrite decide_False.
    + rewrite Hms. destruct bSend; [|done]. by apply srv_msg_more.
    + intros ->. done.
Qed.
End facts.
