(* ===== verification/ConnInv.v ===== *)
(** What always holds of the connection server: its table of connections, the
    iterator into it and the GNS table agree, and a user has one connection. *)
From stdpp Require Import gmap sorting.
From S2P Require Import Prelude Fifo Wire HashList Kernel ConnInfo BusState BusConn BusRoute.
From S2P Require Import BusFacts ConnState ConnServe ConnFacts.
Import CConn CConnServe.

#[local] Arguments Z.add : simpl never.
#[local] Arguments Z.eqb : simpl never.
#[local] Arguments Z.ltb : simpl never.
#[local] Arguments Z.leb : simpl never.

(** * Iterators of a map *)
Section iterators.
Context {A : Type}.
Implicit Types (m : gmap Z A) (p q : Z).

Lemma Sorted_map_keys m : StronglySorted Z.lt (map_keys m).
Proof.
  assert (StronglySorted Z.le (map_keys m)) as Hs.
  { apply (Sorted_StronglySorted); [intros ???; lia|]. unfold map_keys. apply Sorted_merge_sort. intros ??; lia. }
  pose proof (NoDup_map_keys m) as Hnd. induction Hs as [|x l Hs IH Hx]; [constructor|].
  apply NoDup_cons in Hnd as [Hn Hnd]. constructor; [by apply IH|].
  rewrite Forall_forall in Hx |- *. intros y Hy. specialize (Hx y Hy).
  assert (x ≠ y) by (by intros ->). lia.
Qed.

Lemma head_filter_spec (P : Z → Prop) `{∀ x, Decision (P x)} l :
  StronglySorted Z.lt l →
  match head (filter P l) with
  | Some q => q ∈ l ∧ P q ∧ ∀ x, x ∈ l → P x → q ≤ x
  | None => ∀ x, x ∈ l → ¬ P x
  end.
Proof.
  induction 1 as [|x l Hs IH Hx]; [cbn; intros x Hx; by apply not_elem_of_nil in Hx|].
  rewrite filter_cons. destruct (decide (P x)).
  - cbn. split_and!; [by left|done|]. intros y [->|Hy]%elem_of_cons ?; [lia|].
    rewrite Forall_forall in Hx. specialize (Hx y Hy). lia.
  - destruct (head (filter P l)) as [q|].
    + destruct IH as (? & ? & Hq). split_and!; [by right|done|].
      intros y [->|Hy]%elem_of_cons ?; [done|auto].
    + intros y [->|Hy]%elem_of_cons; auto.
Qed.

Lemma begin_key_spec m :
  match begin_key m with
  | Some q => is_Some (m !! q) ∧ ∀ x, is_Some (m !! x) → q ≤ x
  | None => ∀ x, m !! x = None
  end.
Proof.
  unfold begin_key. pose proof (Sorted_map_keys m) as Hs.
  pose proof (elem_of_map_keys m) as Hk. destruct (map_keys m) as [|q l]; cbn.
  - intros x. apply eq_None_not_Some. intros Hx%Hk. by apply not_elem_of_nil in Hx.
  - split; [apply Hk; by left|]. intros x [->|Hx]%Hk%elem_of_cons; [done|].
    inversion Hs as [|?? _ Hl]; subst. rewrite Forall_forall in Hl. specialize (Hl x Hx). lia.
Qed.

Lemma next_key_spec m p :
  match next_key m p with
  | Some q => is_Some (m !! q) ∧ p < q ∧ ∀ x, is_Some (m !! x) → p < x → q ≤ x
  | None => ∀ x, is_Some (m !! x) → x ≤ p
  end.
Proof.
  unfold next_key. pose proof (head_filter_spec (λ x, p < x) (map_keys m) (Sorted_map_keys m)) as Hh.
  destruct (head _) as [q|].
  - destruct Hh as (Hq & ? & Hmin). split_and!; [by apply elem_of_map_keys|done|].
    intros x Hx ?. apply Hmin; [by apply elem_of_map_keys|done].
  - intros x Hx. apply elem_of_map_keys in Hx. specialize (Hh x Hx). lia.
Qed.
End iterators.

(** * One connection per user *)
Section users.
Implicit Types (m : gmap Z ClientInfo.t) (g : gmap Z ShmGnsInfo.t).

(** A connection of a user is the one his GNS entry names. *)
Definition users_ok (sid : Z) m g : Prop :=
  ∀ p c, m !! p = Some c → ClientInfo.m_UserID c ≠ 0 →
  ∃ i, g !! ClientInfo.m_UserID c = Some i ∧ ShmGnsInfo.Status i = GNS_USER_STATUS_ACTIVE ∧
       ShmGnsInfo.ServerID i = sid ∧ ShmGnsInfo.ConnPos i = p.

Lemma users_ok_unique sid m g p p' c c' :
  users_ok sid m g → m !! p = Some c → m !! p' = Some c' →
  ClientInfo.m_UserID c = ClientInfo.m_UserID c' → ClientInfo.m_UserID c ≠ 0 → p = p'.
Proof.
  intros Hu Hc Hc' He Hne. destruct (Hu p c Hc Hne) as (i & Hi & _ & _ & <-).
  destruct (Hu p' c' Hc') as (i' & Hi' & _ & _ & <-); congruence.
Qed.

Lemma users_ok_release sid m g p c tm :
  users_ok sid m g → m !! p = Some c →
  users_ok sid (delete p m) (if decide (ClientInfo.m_UserID c = 0) then g
                             else logged_out g (ClientInfo.m_UserID c) sid p tm).
Proof.
  intros Hu Hc p' c' [Hne Hc']%lookup_delete_Some Hu'.
  destruct (Hu p' c' Hc' Hu') as (i & Hi & Ha). exists i. split; [|done].
  case_decide as H0; [done|]. unfold logged_out.
  destruct (g !! ClientInfo.m_UserID c) as [j|] eqn:Ej; [|done].
  rewrite lookup_insert_ne; [done|]. intros He. apply Hne.
  by apply (users_ok_unique sid m g p p' c c').
Qed.

(** Connections that keep their users. *)
Lemma users_ok_set sid m g p c c' :
  users_ok sid m g → m !! p = Some c → ClientInfo.m_UserID c' = ClientInfo.m_UserID c →
  users_ok sid (<[p := c']> m) g.
Proof.
  intros Hu Hc He q d. destruct (decide (q = p)) as [->|].
  - rewrite lookup_insert_eq. intros [= <-]. rewrite He. by apply Hu.
  - rewrite lookup_insert_ne by done. by apply Hu.
Qed.

(** The connection the entry of a user names is closed if it is his. *)
Definition kick m (q u : Z) : gmap Z ClientInfo.t :=
  match m !! q with
  | Some c => if ClientInfo.m_UserID c =? u then delete q m else m
  | None => m
  end.

Lemma kick_lookup m q u p c :
  kick m q u !! p = Some c → m !! p = Some c ∧ (p = q → ClientInfo.m_UserID c ≠ u).
Proof.
  unfold kick. destruct (m !! q) as [d|] eqn:Ed.
  - destruct (Z.eqb_spec (ClientInfo.m_UserID d) u).
    + intros [? ?]%lookup_delete_Some. by split.
    + intros Hc. split; [done|]. intros ->. congruence.
  - intros Hc. split; [done|]. intros ->. congruence.
Qed.

Definition active_at (sid : Z) (i : ShmGnsInfo.t) : bool :=
  (ShmGnsInfo.ServerID i =? sid) && (ShmGnsInfo.Status i =? GNS_USER_STATUS_ACTIVE).

Lemma active_at_true sid i :
  ShmGnsInfo.Status i = GNS_USER_STATUS_ACTIVE → ShmGnsInfo.ServerID i = sid → active_at sid i = true.
Proof. intros H1 H2. unfold active_at. by rewrite H1, H2, !Z.eqb_refl. Qed.

(** After the user's entry has been seen to, no connection is his, but [p]. *)
Definition seen_to (sid : Z) m g (u : Z) : gmap Z ClientInfo.t :=
  match g !! u with
  | Some i => if active_at sid i then kick m (ShmGnsInfo.ConnPos i) u else m
  | None => m
  end.

Lemma seen_to_lookup sid m g u p c :
  seen_to sid m g u !! p = Some c → m !! p = Some c.
Proof.
  unfold seen_to. destruct (g !! u) as [i|]; [|done]. destruct (active_at sid i); [|done].
  by intros [? _]%kick_lookup.
Qed.

Lemma seen_to_user sid m g u p c :
  users_ok sid m g → seen_to sid m g u !! p = Some c → ClientInfo.m_UserID c = u → u = 0.
Proof.
  intros Hok Hc Hu. destruct (decide (u = 0)) as [|Hne]; [done|exfalso].
  pose proof (seen_to_lookup _ _ _ _ _ _ Hc) as Hm.
  destruct (Hok p c Hm) as (i & Hi & Ha & Hs & Hp); [congruence|].
  rewrite Hu in Hi. unfold seen_to in Hc. rewrite Hi, active_at_true, Hp in Hc by done.
  apply kick_lookup in Hc as [_ Hk]. by apply Hk.
Qed.

(** An entry of user [u] may change once no connection is his. *)
Lemma users_ok_entry sid m g u i' :
  users_ok sid m g → users_ok sid (seen_to sid m g u) (<[u := i']> g).
Proof.
  intros Hu p c Hc Hne. pose proof (seen_to_lookup _ _ _ _ _ _ Hc) as Hm.
  rewrite lookup_insert_ne; [by apply Hu|]. intros He. apply Hne. rewrite <- He.
  by apply (seen_to_user sid m g u p c).
Qed.

(** A login at connection [p], which was another's before, or nobody's. *)
Lemma users_ok_login sid m g p c c' u i' :
  users_ok sid m g → m !! p = Some c → ClientInfo.m_UserID c' = u →
  ShmGnsInfo.Status i' = GNS_USER_STATUS_ACTIVE → ShmGnsInfo.ServerID i' = sid →
  ShmGnsInfo.ConnPos i' = p →
  users_ok sid (seen_to sid (<[p := c']> m) g u) (<[u := i']> g).
Proof.
  intros Hu Hc Hu' Ha Hs Hp q d Hd Hne. pose proof (seen_to_lookup _ _ _ _ _ _ Hd) as Hm.
  destruct (decide (q = p)) as [->|Hqp].
  { rewrite lookup_insert_eq in Hm. injection Hm as <-. exists i'. by rewrite Hu', lookup_insert_eq. }
  rewrite lookup_insert_ne in Hm by done. destruct (Hu q d Hm Hne) as (i & Hi & Hai & Hsi & Hpi).
  destruct (decide (ClientInfo.m_UserID d = u)) as [He|].
  - exfalso. rewrite He in Hi. unfold seen_to in Hd. rewrite Hi, active_at_true, Hpi in Hd by done.
    apply kick_lookup in Hd as [_ Hk]. by apply Hk.
  - rewrite lookup_insert_ne by done. by exists i.
Qed.
End users.

(** * The state of the server *)
Definition client_range (p : Z) : Prop := CLIENT_SOCK_CPOS_MIN < p < 2 ^ 32.

Section inv.
Context {Q K : Type} `{FifoQueue Q} `{KernelLaws K} `{ConnProtoLaws}.
Hypothesis Hmax : XY_PKG_MAX_LEN ≤ q_max.
Implicit Types (s : t Q) (k : K) (ms : list (list Z)) (g : gmap Z ShmGnsInfo.t)
  (c : ClientInfo.t).

Record conn_ok s g : Prop := {
  ck_conn p c : m_PosConnMap s !! p = Some c →
    CConnInfo.m_ConnPos (ClientInfo.info c) = p ∧ conn_wf (ClientInfo.info c) ∧
    (is_listen p = true ∨ client_range p);
  ck_iter p : m_itrCurCheckConn s = Some p → is_Some (m_PosConnMap s !! p);
  ck_gns u i : g !! u = Some i → ShmGnsInfo.UserID i = u;
  ck_check : 0 ≤ m_CheckConnPos s < m_MaxGnsNodeNum s;
  ck_index : CHashListNoLock.iIndexNodeNum (m_GnsInfoMap s) = m_MaxGnsNodeNum s;
  ck_cnt : m_ConnPosCnt s = 0 ∨ client_range (m_ConnPosCnt s);
}.

Lemma conn_pos_u32 s g p c : conn_ok s g → m_PosConnMap s !! p = Some c → u32 p = p.
Proof.
  intros Hok Hc. apply u32_small. destruct (ck_conn _ _ Hok p c Hc) as (_ & _ & [Hp|Hp]).
  - unfold is_listen in Hp. apply andb_true_iff in Hp as [?%Z.leb_le ?%Z.leb_le].
    unfold LISTEN_SOCK_CPOS_MIN, LISTEN_SOCK_CPOS_MAX in *. lia.
  - unfold client_range, CLIENT_SOCK_CPOS_MIN in Hp. lia.
Qed.

(** Everything that holds of a server between two packages. *)
Record serving s ms g : Prop := {
  se_rep : crep s ms g;
  se_ok : conn_ok s g;
  se_users : users_ok (m_ServerID s) (m_PosConnMap s) g;
}.

Lemma logged_out_user g u sid p tm x i :
  (∀ u i, g !! u = Some i → ShmGnsInfo.UserID i = u) →
  logged_out g u sid p tm !! x = Some i → ShmGnsInfo.UserID i = x.
Proof.
  intros Hg. unfold logged_out. destruct (g !! u) as [j|] eqn:Ej; [|apply Hg].
  intros [[-> <-]|[_ Hi]]%lookup_insert_Some; [|by apply Hg]. cbn. by apply Hg.
Qed.

Lemma released_conn_ok s s' p c g g' : conn_ok s g → released s s' p c g g' → conn_ok s' g'.
Proof.
  intros [Hc Hi Hg Hk Hx Hn] [[] Hco Hit _ _ [now ->]]. constructor.
  - intros q d. rewrite Hco. intros [_ ?]%lookup_delete_Some. by apply Hc.
  - intros q. rewrite Hit, Hco. case_decide as Hp.
    + pose proof (next_key_spec (m_PosConnMap s) p) as Hnx. intros Hq. rewrite Hq in Hnx.
      destruct Hnx as (? & ? & _). rewrite lookup_delete_ne; [done|lia].
    + intros Hq. rewrite lookup_delete_ne; [by apply Hi|]. by intros ->.
  - intros u i. destruct (decide (ClientInfo.m_UserID c = 0)); [apply Hg|by apply logged_out_user].
  - by rewrite sv_check, sv_max.
  - rewrite sv_max. destruct sv_size as [_ ->]. done.
  - by rewrite sv_cnt.
Qed.

(** Releasing a connection, of whatever user. *)
Lemma ReleaseConn_serving s k ms g p c bSend :
  serving s ms g → m_PosConnMap s !! p = Some c →
  ∃ k' s' ms' g', ReleaseConn s k p bSend = Ok (k', s') ∧ serving s' ms' g' ∧
    released s s' p c g g' ∧ more (m_ServerID s) ms ms'.
Proof.
  intros [Hrep Hok Hu] Hc.
  destruct (ReleaseConn_rep Hmax s k ms g p c bSend Hrep Hc) as (k' & s' & ms' & g' & Hr & Hrep' & Hrl & Hm & _).
  exists k', s', ms', g'. split_and!; try done. constructor; [done|by eapply released_conn_ok|].
  destruct Hrl as [[] Hco _ _ _ [now ->]]. rewrite sv_id, Hco. by apply users_ok_release.
Qed.

(** A connection that keeps its number, its socket and its user. *)
Definition same_client c c' : Prop :=
  same_conn (ClientInfo.info c) (ClientInfo.info c') ∧
  ClientInfo.m_ConnType c' = ClientInfo.m_ConnType c ∧ ClientInfo.m_UserID c' = ClientInfo.m_UserID c.

Lemma set_conn_rep s ms g p c : crep s ms g → crep (set_conn s p c) ms g.
Proof. intros []. by constructor. Qed.

Lemma set_conn_conn_ok s g p c c' :
  conn_ok s g → m_PosConnMap s !! p = Some c → same_conn (ClientInfo.info c) (ClientInfo.info c') →
  conn_wf (ClientInfo.info c') → conn_ok (set_conn s p c') g.
Proof.
  intros [Hc Hi Hg Hk Hx Hn] Hp Hs Hw. destruct (Hc p c Hp) as (Hpc & _ & Hpr).
  constructor; try done; cbn [m_PosConnMap set_conn set_conns].
  - intros q d. destruct (decide (q = p)) as [->|].
    + rewrite lookup_insert_eq. intros [= <-]. split_and!; try done. by rewrite (same_pos _ _ Hs).
    + rewrite lookup_insert_ne by done. by apply Hc.
  - intros q Hq. destruct (decide (q = p)) as [->|]; [by rewrite lookup_insert_eq|].
    rewrite lookup_insert_ne by done. by apply Hi.
Qed.

Lemma set_conn_serving s ms g p c c' :
  serving s ms g → m_PosConnMap s !! p = Some c → same_client c c' → conn_wf (ClientInfo.info c') →
  serving (set_conn s p c') ms g.
Proof.
  intros [Hrep Hok Hu] Hc (Hs & _ & Hus) Hw. constructor; [by apply set_conn_rep| |].
  - by eapply set_conn_conn_ok.
  - by eapply users_ok_set.
Qed.

(** What is sent to a client is added whole to what is on its way to him, or
    his connection is released; without a connection nothing happens. *)
Lemma Send2Client_ok s k ms g cp d rest :
  serving s ms g → m_pSendBuff s = d ++ rest →
  ∃ k' s' r ms' g', Send2Client s k cp (zlen d) = Ok (k', s', r) ∧ serving s' ms' g' ∧
    more (m_ServerID s) ms ms' ∧ same_srv s s' ∧
    match m_PosConnMap s !! u32 cp with
    | None => k' = k ∧ s' = s ∧ r = -1
    | Some c =>
        (r = 0 ∧ ms' = ms ∧ g' = g ∧ ∃ c', m_PosConnMap s' = <[u32 cp := c']> (m_PosConnMap s) ∧
           same_client c c' ∧
           outgoing k' (ClientInfo.info c') = outgoing k (ClientInfo.info c) ++ d) ∨
        (r < 0 ∧ m_PosConnMap s' = delete (u32 cp) (m_PosConnMap s))
    end.
Proof.
  intros Hse Hb. pose proof Hse as [Hrep Hok Hu]. unfold Send2Client. set (p := u32 cp).
  destruct (m_PosConnMap s !! p) as [c|] eqn:Hc.
  2:{ eexists _, _, _, ms, g. split; [done|]. split_and!; done. }
  destruct (ck_conn _ _ Hok p c Hc) as (_ & Hwf & _).
  destruct (SendOrKeep_ok k (ClientInfo.info c) (m_pSendBuff s) d (zlen d) Hwf)
    as (k1 & i1 & r & -> & Hsm & Hon & Hwf1 & _ & Hr & Hout & _); [rewrite Hb; apply mread_head|].
  cbn [mbind outcome_bind]. set (c1 := ClientInfo.set_info c i1).
  assert (same_client c c1) as Hcc by (split; [exact Hsm|done]).
  pose proof (set_conn_serving s ms g p c c1 Hse Hc Hcc Hwf1) as Hse1.
  assert (m_PosConnMap (set_conn s p c1) !! p = Some c1) as Hc1 by apply lookup_insert_eq.
  destruct (Z.ltb_spec r 0).
  - destruct (ReleaseConn_serving (set_conn s p c1) k1 ms g p c1 true Hse1 Hc1)
      as (k2 & s2 & ms2 & g2 & -> & Hse2 & Hrl & Hm). cbn [mbind outcome_bind].
    eexists _, _, _, ms2, g2. split; [done|]. split_and!; try done.
    + destruct Hrl as [[] _ _ _ _ _]. by constructor.
    + right. split; [done|]. rewrite (rl_conns _ _ _ _ _ _ Hrl). cbn. by rewrite delete_insert_eq.
  - assert (∀ k2, (∀ x, k_out k2 x = k_out k1 x) →
      outgoing k2 i1 = outgoing k (ClientInfo.info c) ++ d) as Hfin.
    { intros k2 Hk2. rewrite <- Hout by lia. unfold outgoing. by rewrite Hk2. }
    destruct (Z.eqb_spec r 1).
    + destruct (k_epoll_ctl k1 EPOLL_CTL_MOD _ _ _) as [k2 r2] eqn:Ee.
      apply k_epoll_law in Ee as [_ Ho]. eexists _, _, _, ms, g. split; [done|].
      split_and!; try done. left. split_and!; try done. exists c1. split_and!; try done. by apply Hfin.
    + eexists _, _, _, ms, g. split; [done|].
      split_and!; try done. left. split_and!; try done. exists c1. split_and!; try done. by apply Hfin.
Qed.

(** Looking at one connection. *)
Lemma set_iter_serving s ms g x :
  serving s ms g → (∀ p, x = Some p → is_Some (m_PosConnMap s !! p)) → serving (set_iter s x) ms g.
Proof. intros [[] [] ?] Hx. by constructor; [constructor|constructor|]. Qed.

Lemma begin_key_ok (m : gmap Z ClientInfo.t) p : begin_key m = Some p → is_Some (m !! p).
Proof. intros Hp. pose proof (begin_key_spec m) as Hb. rewrite Hp in Hb. by destruct Hb. Qed.

Lemma next_key_ok (m : gmap Z ClientInfo.t) q p : next_key m q = Some p → is_Some (m !! p).
Proof. intros Hp. pose proof (next_key_spec m q) as Hb. rewrite Hp in Hb. by destruct Hb. Qed.

(** The user's entry is looked up, for a log line. *)
Lemma check_lookup s ms g c :
  serving s ms g →
  ∃ ip, (if negb (ClientInfo.m_UserID c =? 0)
         then CHashListNoLock.GetP (m_GnsInfoMap s) (ClientInfo.m_UserID c) else Ok None) = Ok ip.
Proof.
  intros [Hr _ _]. destruct (negb _); [|by eexists].
  pose proof (GetP_hrep _ g (ClientInfo.m_UserID c) (cr_gns _ _ _ Hr)) as HG.
  destruct (g !! _); [destruct HG as (ip & ? & _)|]; by eexists.
Qed.

Lemma CheckConn_serving s k ms g :
  serving s ms g →
  ∃ k' s' ms' g', CheckConn s k = Ok (k', s') ∧ serving s' ms' g' ∧ same_srv s s' ∧
    more (m_ServerID s) ms ms'.
Proof.
  intros Hse. unfold CheckConn. destruct (m_itrCurCheckConn s) as [p|] eqn:Hp.
  2:{ eexists _, _, ms, g. split; [done|]. split_and!; [|by constructor|done].
      apply set_iter_serving; [done|apply begin_key_ok]. }
  destruct (ck_iter _ _ (se_ok _ _ _ Hse) p Hp) as [c Hc]. rewrite Hc.
  pose proof (set_iter_serving s ms g (next_key (m_PosConnMap s) p) Hse (next_key_ok _ _)) as Hnx.
  destruct (is_listen p); [eexists _, _, ms, g; split; [done|]; by split_and!; [|constructor|]|].
  destruct (check_lookup s ms g c Hse) as [ip ->]. cbn [mbind outcome_bind].
  destruct (k_time k) as [k1 now]. destruct (_ <? _).
  - destruct (ReleaseConn_serving s k1 ms g p c true Hse Hc) as (k2 & s2 & ms2 & g2 & -> & ? & Hrl & ?).
    eexists _, _, ms2, g2. split; [done|]. split_and!; try done. apply Hrl.
  - eexists _, _, ms, g. split; [done|]. by split_and!; [|constructor|].
Qed.
End inv.
