(* ===== verification/ConnSteps.v ===== *)
(** Each step of the connection server keeps what [ConnInv] says of it: new
    connections, packages of clients and of other servers, upkeep. *)
From stdpp Require Import gmap sorting.
From S2P Require Import Prelude Fifo Wire HashList Kernel ConnInfo BusState BusConn BusRoute.
From S2P Require Import BusFacts ConnState ConnServe ConnFacts ConnInv.
Import CConn CConnServe.

#[local] Arguments Z.add : simpl never.
#[local] Arguments Z.eqb : simpl never.
#[local] Arguments Z.ltb : simpl never.
#[local] Arguments Z.leb : simpl never.

Lemma wrap_pos_next p :
  CLIENT_SOCK_CPOS_MIN + 1 ≤ p ≤ 2 ^ 32 - 1 →
  wrap_pos (u32 (p + 1)) = if decide (p = 2 ^ 32 - 1) then CLIENT_SOCK_CPOS_MIN + 1 else p + 1.
Proof.
  unfold wrap_pos, CLIENT_SOCK_CPOS_MIN. intros. case_decide as Hp.
  - by rewrite Hp.
  - rewrite u32_small by lia. destruct (Z.ltb_spec (p + 1) 500); lia.
Qed.

(** * What is sent on for a package of a client *)
Section payload.
Context `{ConnProto}.

(** [None]: the package does not parse; [Some None]: nothing is sent. *)
Definition payload (h : XYHeaderIn.t) (body : list Z) : option (option (Z * Z * list Z)) :=
  let CmdID := XYHeaderIn.CmdID h in
  let CmdPrefix := Z.shiftr CmdID 16 in
  if CmdPrefix =? CMD_PREFIX_AUTH then
    if CmdID =? Cmd_Auth_Login_Req then
      match dec_LoginReq body with
      | None => None
      | Some (u, pw, pl) =>
          Some (Some (GROUP_AUTH, TO_GRP_RND, xyin_bytes h ++ enc_AuthLoginReq u pw pl))
      end
    else if CmdID =? Cmd_Auth_Register_Req then
      match dec_RegisterReq body with
      | None => None
      | Some (pw, f) => Some (Some (GROUP_AUTH, TO_GRP_RND, xyin_bytes h ++ enc_AuthRegisterReq pw f))
      end
    else Some (Some (GROUP_AUTH, TO_GRP_RND, xyin_bytes h ++ body))
  else if CmdPrefix =? CMD_PREFIX_USER then
    Some (Some (u32 (GetUserServer (XYHeaderIn.UserID h)), TO_SRV, xyin_bytes h ++ body))
  else Some None.

(** A package that is let through: the user is logged in, or wants to be. *)
Definition let_in (c : ClientInfo.t) (CmdID : Z) : bool :=
  (CmdID =? Cmd_Auth_Login_Req) || (CmdID =? Cmd_Auth_Register_Req) ||
  (ClientInfo.m_ConnType c =? CONN_AUTH).
End payload.

Section steps.
Context {Q K : Type} `{FifoQueue Q} `{KernelLaws K} `{ConnProtoLaws}.
Hypothesis Hmax : XY_PKG_MAX_LEN ≤ q_max.
Implicit Types (s : t Q) (k : K) (ms : list (list Z)) (g : gmap Z ShmGnsInfo.t)
  (c : ClientInfo.t).

(** * Accepting *)
Lemma NextPos_ok s g :
  conn_ok s g → Z.of_nat (size (m_PosConnMap s)) < 2 ^ 32 - 1 - CLIENT_SOCK_CPOS_MIN →
  ∃ cnt p, NextPos s = Ok (set_cnt s cnt, p) ∧ client_range cnt ∧ client_range p ∧
    m_PosConnMap s !! p = None.
Proof.
  intros Hok Hs.
  assert (∃ q, CLIENT_SOCK_CPOS_MIN + 1 ≤ q ≤ 2 ^ 32 - 1 ∧ m_PosConnMap s !! q = None) as (q & Hq & Hn).
  { apply (range_free _ _ _ (map_keys (m_PosConnMap s))).
    - intros q _ ?. by apply elem_of_map_keys.
    - unfold zlen. rewrite map_keys_length. lia. }
  unfold NextPos. set (cnt := if u32 (m_ConnPosCnt s + 1) <? CLIENT_SOCK_CPOS_MIN then _ else _).
  assert (client_range cnt) as Hcnt.
  { unfold cnt, client_range. pose proof (u32_range (m_ConnPosCnt s + 1)).
    unfold CLIENT_SOCK_CPOS_MIN.
    destruct (ck_cnt _ _ Hok) as [Hz|Hc]; [rewrite Hz; done|].
    unfold client_range, CLIENT_SOCK_CPOS_MIN in Hc.
    destruct (decide (m_ConnPosCnt s + 1 = 2 ^ 32)) as [->|]; [done|].
    rewrite u32_small by lia. destruct (Z.ltb_spec (m_ConnPosCnt s + 1) 500); lia. }
  unfold client_range in *. unfold CLIENT_SOCK_CPOS_MIN in *.
  destruct (free_pos_total (m_PosConnMap s) wrap_pos (500 + 1) (2 ^ 32 - 1))
    with (p := cnt) (q := q) as (p & -> & ? & ?); [lia|apply wrap_pos_next|lia|done..|].
  cbn. exists cnt, p. split_and!; try done; lia.
Qed.

Lemma insert_conn_serving s ms g p i type :
  serving s ms g → m_PosConnMap s !! p = None → client_range p →
  CConnInfo.m_ConnPos i = p → conn_wf i →
  serving (set_conn s p (ClientInfo.mk i type 0)) ms g.
Proof.
  intros [Hrep [] Hu] Hn Hp Hi Hw. constructor; [by apply set_conn_rep| |].
  - constructor; try done; cbn [m_PosConnMap set_conn set_conns].
    + intros q d [[<- <-]|[? ?]]%lookup_insert_Some; [by split_and!; [..|right]|by apply ck_conn].
    + intros q Hq. destruct (ck_iter q Hq) as [d Hd]. exists d. rewrite lookup_insert_ne; [done|].
      intros ->. congruence.
  - cbn [m_PosConnMap m_ServerID set_conn set_conns].
    intros q d [[<- <-]|[? ?]]%lookup_insert_Some Hne; [done|by apply Hu].
Qed.

(** A new connection has a number of its own, and no user. *)
Lemma AcceptConn_serving s k ms g p0 type :
  serving s ms g → Z.of_nat (size (m_PosConnMap s)) < 2 ^ 32 - 1 - CLIENT_SOCK_CPOS_MIN →
  ∃ k' s' r, AcceptConn s k p0 type = Ok (k', s', r) ∧ serving s' ms g ∧
    ((r = -1 ∧ m_PosConnMap s' = m_PosConnMap s) ∨
     (r = 0 ∧ ∃ p c, client_range p ∧ m_PosConnMap s !! p = None ∧
        m_PosConnMap s' = <[p := c]> (m_PosConnMap s) ∧ ClientInfo.m_UserID c = 0 ∧
        ClientInfo.m_ConnType c = type)).
Proof.
  intros Hse Hroom. unfold AcceptConn.
  destruct (m_PosConnMap s !! p0) as [l|]; [|eexists _, _, _; by split_and!; auto].
  destruct (k_accept k _) as [[k1 fd] ra].
  destruct (0 <? fd); [|eexists _, _, _; by split_and!; auto].
  destruct (NextPos_ok s g (se_ok _ _ _ Hse) Hroom) as (cnt & p & -> & Hcnt & Hp & Hn).
  cbn [mbind outcome_bind].
  assert (serving (set_cnt s cnt) ms g) as Hse1.
  { destruct Hse as [[] [] ?]. constructor; [by constructor| |done]. constructor; try done. by right. }
  destruct (k_fcntl k1 fd F_GETFL 0) as [k2 fl].
  destruct (fl =? -1); [eexists _, _, _; by split_and!; auto|].
  destruct (k_fcntl k2 fd F_SETFL _) as [k3 r3].
  destruct (r3 =? -1); [eexists _, _, _; by split_and!; auto|].
  destruct (k_epoll_ctl k3 _ _ _ _) as [k4 r4].
  destruct (negb (r4 =? 0)); [eexists _, _, _; by split_and!; auto|].
  unfold ClientInfo.New. destruct (CConnInfo.New k4 _ _ _ _) as [k5 i] eqn:Ei.
  apply New_fields in Ei as (Hi & _ & Hw & _).
  unfold insert_conn. cbn [m_PosConnMap set_cnt]. rewrite Hn.
  eexists _, _, _. split; [done|]. split; [by apply (insert_conn_serving (set_cnt s cnt))|].
  right. split; [done|]. by eexists p, _.
Qed.

(** * Packages of clients *)
Lemma sent_serving s s' ms ms' g :
  serving s ms g → sent s s' → crep s' ms' g → serving s' ms' g.
Proof.
  intros [_ [] Hu] [[] Hc Hi Hp Hg] Hrep. constructor; [done| |].
  - by constructor; rewrite ?Hc, ?Hi, ?Hg, ?sv_check, ?sv_max, ?sv_cnt.
  - by rewrite sv_id, Hc.
Qed.

Lemma set_pbuff_serving s ms g buf :
  serving s ms g → zlen buf = XY_PKG_MAX_LEN → serving (set_pbuff s buf) ms g.
Proof. intros [[] [] ?] ?. constructor; [by constructor|by constructor|done]. Qed.

Lemma Forward_ok s ms g h body rest :
  crep s ms g → m_pProcessBuff s = xyin_bytes h ++ body ++ rest →
  (Forward s h (zlen body) (34 + zlen body) = Fault ∧ XY_PKG_MAX_LEN < 60 + zlen body) ∨
  ∃ s', Forward s h (zlen body) (34 + zlen body) = Ok (s', bool_decide (is_Some (payload h body))) ∧
    sent s s' ∧
    crep s' (match payload h body with
             | Some (Some (dst, st, d)) => emit (q_cap (m_SendQueue s)) ms (srv_msg (m_ServerID s) dst st 0 d)
             | _ => ms end) g.
Proof.
  intros Hrep Hb. unfold Forward, payload. cbv zeta.
  assert (mread (m_pProcessBuff s) 34 (zlen body) = Ok body) as Hbody.
  { rewrite Hb. destruct (mread_app (xyin_bytes h ++ body ++ rest) (xyin_bytes h) body 0 34 (zlen body)) as [_ Hr];
      [lia|apply zlen_nonneg|by rewrite zlen_xyin_bytes| |done].
    rewrite app_assoc. replace (34 + zlen body) with (zlen (xyin_bytes h ++ body))
      by (rewrite zlen_app, zlen_xyin_bytes; lia). apply mread_head. }
  assert (zlen (xyin_bytes h ++ body) = 34 + zlen body) as Hz by (rewrite zlen_app, zlen_xyin_bytes; done).
  assert (∀ dst st,
    (Send2Server s dst st 0 (34 + zlen body) = Fault ∧ XY_PKG_MAX_LEN < 60 + zlen body) ∨
    ∃ s' r, Send2Server s dst st 0 (34 + zlen body) = Ok (s', r) ∧ sent s s' ∧
      crep s' (emit (q_cap (m_SendQueue s)) ms (srv_msg (m_ServerID s) dst st 0 (xyin_bytes h ++ body))) g) as Hraw.
  { intros dst st. rewrite <- Hz.
    assert (mread (m_pProcessBuff s) 0 (zlen (xyin_bytes h ++ body)) = Ok (xyin_bytes h ++ body)) as Hr.
    { rewrite Hb, app_assoc. apply mread_head. }
    destruct (decide (26 + zlen (xyin_bytes h ++ body) ≤ XY_PKG_MAX_LEN)).
    - right. destruct (Send2Server_ok Hmax s ms g dst st 0 _ Hrep Hr) as (s' & r & ? & ? & Hr'); [done|].
      exists s', r. split_and!; try done. unfold emit. unfold srv_msg in *. rewrite zlen_msg_bytes in *.
      by rewrite (proj2 (Z.ltb_ge _ _)) by lia.
    - left. split; [eapply Send2Server_overflow; [done..|lia]|lia]. }
  change XYHeaderIn.GetHeaderLen with 34. rewrite Hbody. cbn [mbind outcome_bind].
  destruct (Z.eqb_spec (Z.shiftr (XYHeaderIn.CmdID h) 16) CMD_PREFIX_CONN) as [->|].
  { right. exists s. by split_and!. }
  destruct (_ =? CMD_PREFIX_AUTH); [|destruct (_ =? CMD_PREFIX_USER)].
  - destruct (_ =? Cmd_Auth_Login_Req); [|destruct (_ =? Cmd_Auth_Register_Req)].
    + right. unfold ForwardLogin. destruct (dec_LoginReq body) as [[[u pw] pl]|]; [|by exists s].
      edestruct (Send2ServerMsg_ok Hmax s ms g h) as (s' & r & -> & ? & ?); [done|]. by exists s'.
    + right. unfold ForwardRegister. destruct (dec_RegisterReq body) as [[pw f]|]; [|by exists s].
      edestruct (Send2ServerMsg_ok Hmax s ms g h) as (s' & r & -> & ? & ?); [done|]. by exists s'.
    + destruct (Hraw GROUP_AUTH TO_GRP_RND) as [[-> ?]|(s' & r & -> & ? & ?)]; [by left|].
      right. by exists s'.
  - edestruct Hraw as [[-> ?]|(s' & r & -> & ? & ?)]; [by left|]. right. by exists s'.
  - right. by exists s.
Qed.

(** The ways a call of [ProcessPkg] can go. *)
Inductive process_case s k c (m : list Z) (o n : Z) (r : outcome (K * t Q * Z)) : Prop :=
  | pc_short : n < 17 → r = Ok (k, s, 17) → process_case s k c m o n r
  | pc_bad h : XYHeader.Read m o = Ok (h, 17) →
      (i32 (XYHeader.PkgLen h) < 17 ∨ XY_PKG_MAX_LEN - 34 < i32 (XYHeader.PkgLen h) - 17) →
      r = Ok (k, s, -1) → process_case s k c m o n r
  | pc_part h : XYHeader.Read m o = Ok (h, 17) → 17 ≤ XYHeader.PkgLen h < 2 ^ 31 →
      n < XYHeader.PkgLen h → r = Ok (k, s, XYHeader.PkgLen h) → process_case s k c m o n r
  | pc_stop h body k1 now rest : XYHeader.Read m o = Ok (h, 17) →
      XYHeader.PkgLen h = 17 + zlen body → 17 + zlen body ≤ n → 34 + zlen body ≤ XY_PKG_MAX_LEN →
      mread m (o + 17) (zlen body) = Ok body → k_time k = (k1, now) →
      let_in c (XYHeader.CmdID h) = false →
      34 + zlen body + zlen rest = XY_PKG_MAX_LEN →
      r = Ok (k1, set_pbuff s (xyin_bytes (client_header s c h now) ++ body ++ rest), 17 + zlen body) →
      process_case s k c m o n r
  | pc_go h body k1 now rest : XYHeader.Read m o = Ok (h, 17) →
      XYHeader.PkgLen h = 17 + zlen body → 17 + zlen body ≤ n → 34 + zlen body ≤ XY_PKG_MAX_LEN →
      mread m (o + 17) (zlen body) = Ok body → k_time k = (k1, now) →
      let_in c (XYHeader.CmdID h) = true →
      34 + zlen body + zlen rest = XY_PKG_MAX_LEN →
      (let hin := client_header s c h now in
       let s1 := set_pbuff s (xyin_bytes hin ++ body ++ rest) in
       r = ('(s', ok) ← Forward s1 hin (zlen body) (34 + zlen body);
            Ok (k1, s', if ok : bool then 17 + zlen body else -1))) →
      process_case s k c m o n r.

Lemma mread_le {A} (m d : list A) o n n' :
  mread m o n = Ok d → 0 ≤ n' ≤ n → mread m o n' = Ok (take (Z.to_nat n') d).
Proof.
  intros Hr Hn. pose proof (mread_zlen _ _ _ _ Hr) as Hz.
  destruct (mread_app m (take (Z.to_nat n') d) (drop (Z.to_nat n') d) o n' (n - n')) as [? _];
    [lia..|rewrite zlen_take by lia; lia|rewrite take_drop, Zplus_minus; done|done].
Qed.

Lemma mread_tail {A} (m d : list A) o n n' :
  mread m o n = Ok d → 0 ≤ n' ≤ n → mread m (o + n') (n - n') = Ok (drop (Z.to_nat n') d).
Proof.
  intros Hr Hn. pose proof (mread_zlen _ _ _ _ Hr) as Hz.
  destruct (mread_app m (take (Z.to_nat n') d) (drop (Z.to_nat n') d) o n' (n - n')) as [_ ?];
    [lia..|rewrite zlen_take by lia; lia|rewrite take_drop, Zplus_minus; done|done].
Qed.

Lemma ProcessPkg_cases s k p c m o n d :
  zlen (m_pProcessBuff s) = XY_PKG_MAX_LEN → m_PosConnMap s !! p = Some c →
  mread m o n = Ok d → 0 ≤ n ≤ XY_PKG_MAX_LEN →
  process_case s k c m o n (ProcessPkg s k m o n p).
Proof.
  intros Hpb Hc Hd Hn. unfold ProcessPkg. change XYHeader.GetHeadLen with 17.
  change XYHeaderIn.GetHeaderLen with 34.
  destruct (Z.ltb_spec n 17); [by apply pc_short|].
  pose proof (mread_le _ _ _ _ 17 Hd ltac:(lia)) as H17.
  destruct (xy_Read_fields m o _ H17) as (d1 & d2 & d3 & d4 & d5 & d6 & _ & _ & _ & _ & _ & _ & _ & Hrd).
  set (h := XYHeader.mk _ _ _ _ _ _) in Hrd. rewrite Hrd. cbn [mbind outcome_bind].
  assert (0 ≤ XYHeader.PkgLen h < 2 ^ 32) as Hpl by apply bswap_range.
  destruct (Z.ltb_spec (i32 (XYHeader.PkgLen h)) 17); [eapply pc_bad; [done|by left|done]|].
  destruct (Z.ltb_spec (XY_PKG_MAX_LEN - 34) (i32 (XYHeader.PkgLen h) - 17));
    [eapply pc_bad; [done|by right|done]|].
  assert (XYHeader.PkgLen h < 2 ^ 31) as Hp31.
  { destruct (decide (XYHeader.PkgLen h < 2 ^ 31)); [done|exfalso]. unfold i32 in *.
    replace (XYHeader.PkgLen h + 2 ^ 31) with (XYHeader.PkgLen h - 2 ^ 31 + 1 * 2 ^ 32) in * by lia.
    rewrite Z.mod_add, Z.mod_small in * by lia. lia. }
  rewrite (i32_small (XYHeader.PkgLen h)) in * by lia.
  rewrite (u32_small n) by (unfold XY_PKG_MAX_LEN in *; lia).
  destruct (Z.ltb_spec n (XYHeader.PkgLen h)); [by eapply pc_part|].
  rewrite !i32_small by (unfold XY_PKG_MAX_LEN in *; lia).
  pose proof (mread_le _ _ _ _ (XYHeader.PkgLen h) Hd ltac:(lia)) as Hall.
  pose proof (mread_tail _ _ _ _ 17 Hall ltac:(lia)) as Hbody. set (body := drop _ _) in Hbody.
  pose proof (mread_zlen _ _ _ _ Hbody) as Hzb. rewrite <- Hzb in Hbody |- *. rewrite Hbody.
  cbn [mbind outcome_bind]. pose proof (zlen_nonneg body).
  replace (zlen body + 34) with (34 + zlen body) by lia.
  rewrite (mwrite_ok (m_pProcessBuff s) body 34) by lia.
  cbn [mbind outcome_bind]. rewrite Hc. destruct (k_time k) as [k1 now] eqn:Et.
  set (hin := client_header s c h now). set (front := take _ (m_pProcessBuff s)).
  set (rest := drop _ (m_pProcessBuff s)).
  assert (zlen front = 34) as Hf.
  { unfold front. rewrite zlen_take; unfold XY_PKG_MAX_LEN in *; lia. }
  assert (34 + zlen body + zlen rest = XY_PKG_MAX_LEN) as Hrest.
  { unfold rest, zlen in *. rewrite length_drop. lia. }
  assert (XYHeaderIn.Write hin (front ++ body ++ rest) 0 = Ok (xyin_bytes hin ++ body ++ rest, 34)) as ->.
  { apply xyin_Write_bytes.
    replace (xyin_bytes hin ++ body ++ rest) with
      (xyin_bytes hin ++ drop (length (xyin_bytes hin)) (front ++ body ++ rest)).
    - apply mwrite_head. rewrite !zlen_app, zlen_xyin_bytes. pose proof (zlen_nonneg rest). lia.
    - f_equal. rewrite drop_app_length'; [done|]. pose proof (zlen_xyin_bytes hin). unfold zlen in *. lia. }
  cbn [mbind outcome_bind]. replace (XYHeader.PkgLen h) with (17 + zlen body) by lia.
  change (XYHeaderIn.CmdID hin) with (XYHeader.CmdID h).
  destruct (let_in c (XYHeader.CmdID h)) eqn:El.
  - assert (negb (XYHeader.CmdID h =? Cmd_Auth_Login_Req) && negb (XYHeader.CmdID h =? Cmd_Auth_Register_Req)
            && negb (ClientInfo.m_ConnType c =? CONN_AUTH) = false) as ->.
    { unfold let_in in El. by destruct (_ =? _), (_ =? _), (_ =? _). }
    apply (pc_go _ _ _ _ _ _ _ h body k1 now rest); done || lia.
  - assert (negb (XYHeader.CmdID h =? Cmd_Auth_Login_Req) && negb (XYHeader.CmdID h =? Cmd_Auth_Register_Req)
            && negb (ClientInfo.m_ConnType c =? CONN_AUTH) = true) as ->.
    { unfold let_in in El. by destruct (_ =? _), (_ =? _), (_ =? _). }
    apply (pc_stop _ _ _ _ _ _ _ h body k1 now rest); done || lia.
Qed.

(** Of a package that gets as far as [Forward]. *)
Lemma payload_dst h body dst st d : payload h body = Some (Some (dst, st, d)) → 0 ≤ dst < 2 ^ 32 ∧ -2^7 ≤ st < 2^7.
Proof.
  unfold payload. repeat case_match; intros [= <- <- _]; try done. split; [apply u32_range|done].
Qed.

Lemma Forward_more s ms h body :
  more (m_ServerID s) ms
    (match payload h body with
     | Some (Some (dst, st, d)) => emit (q_cap (m_SendQueue s)) ms (srv_msg (m_ServerID s) dst st 0 d)
     | _ => ms end).
Proof.
  destruct (payload h body) as [[[[dst st] d]|]|] eqn:E; [|done..].
  apply payload_dst in E as [? ?]. by apply srv_msg_more.
Qed.

(** The only access outside the buffers: a package that is too long for the
    send buffer by the headers put in front of it. *)
Definition too_long (m : list Z) (o n : Z) : Prop :=
  ∃ h, XYHeader.Read m o = Ok (h, 17) ∧ XY_PKG_MAX_LEN - 43 < XYHeader.PkgLen h ≤ n.

Lemma ProcessPkg_serving s k ms g p c m o n d :
  serving s ms g → m_PosConnMap s !! p = Some c →
  mread m o n = Ok d → 0 ≤ n ≤ XY_PKG_MAX_LEN →
  (ProcessPkg s k m o n p = Fault ∧ too_long m o n) ∨
  ∃ k' s' r ms', ProcessPkg s k m o n p = Ok (k', s', r) ∧ serving s' ms' g ∧
    more (m_ServerID s) ms ms' ∧ same_srv s s' ∧ m_PosConnMap s' = m_PosConnMap s ∧
    (r = -1 ∨ 17 ≤ r).
Proof.
  intros Hse Hc Hd Hn. pose proof Hse as [Hrep _ _].
  destruct (ProcessPkg_cases s k p c m o n d (cr_pbuff _ _ _ Hrep) Hc Hd Hn)
    as [? ->|h _ _ ->|h _ ? ? ->|h body k1 now rest ? ? ? ? ? ? ? Hz ->|h body k1 now rest Hh Hl Hln Hb Hr Ht Hlet Hz ->].
  - right. eexists _, _, _, ms. split; [done|]. split_and!; try done. by right.
  - right. eexists _, _, _, ms. split; [done|]. split_and!; try done. by left.
  - right. eexists _, _, _, ms. split; [done|]. split_and!; try done. right. lia.
  - right. pose proof (zlen_nonneg body). eexists _, _, _, ms. split; [done|]. split_and!; try done.
    + apply set_pbuff_serving; [done|]. rewrite !zlen_app, zlen_xyin_bytes. lia.
    + right. lia.
  - set (hin := client_header s c h now). cbv zeta. set (s1 := set_pbuff s _).
    assert (serving s1 ms g) as Hse1.
    { apply set_pbuff_serving; [done|]. rewrite !zlen_app, zlen_xyin_bytes. lia. }
    pose proof (zlen_nonneg body).
    destruct (Forward_ok s1 ms g hin body rest) as [[-> ?]|(s' & -> & Hs & Hr')]; [apply Hse1|done| |].
    + left. split; [done|]. exists h. split; [done|]. lia.
    + right. cbn [mbind outcome_bind]. eexists _, _, _, _. split; [done|].
      split; [by eapply sent_serving|]. split; [exact (Forward_more s1 ms hin body)|]. destruct Hs as [[] Hco _ _ _].
      split_and!; [by constructor|done|]. case_bool_decide; [right; lia|by left].
Qed.
End steps.
