(* ===== verification/ConnDeal.v ===== *)
(** What packages of other servers do to the connection server: logins and
    logouts on the GNS table and the connections, answers to clients, and the
    list of the users who are logged in here. *)
From stdpp Require Import gmap sorting.
From S2P Require Import Prelude Fifo Wire HashList Kernel ConnInfo BusState BusConn BusRoute.
From S2P Require Import BusFacts ConnState ConnServe ConnFacts ConnInv ConnSteps.
Import CConn CConnServe.

#[local] Arguments Z.add : simpl never.
#[local] Arguments Z.eqb : simpl never.
#[local] Arguments Z.ltb : simpl never.
#[local] Arguments Z.leb : simpl never.

Lemma u32_i32 x : u32 (i32 x) = u32 x.
Proof. unfold u32. apply i32_mod. Qed.

Section deal.
Context {Q K : Type} `{FifoQueue Q} `{KernelLaws K} `{ConnProtoLaws}.
Hypothesis Hmax : XY_PKG_MAX_LEN ≤ q_max.
Implicit Types (s : t Q) (k : K) (ms : list (list Z)) (g : gmap Z ShmGnsInfo.t)
  (c : ClientInfo.t) (i : ShmGnsInfo.t) (u : Z).

(** There is a free node in the GNS table. *)
Definition gns_room s : Prop :=
  CHashListNoLock.iUsedDataNodeNum (m_GnsInfoMap s) ≠ CHashListNoLock.iTotalDataNodeNum (m_GnsInfoMap s).

Lemma conn_ok_touched s s' g u i' :
  conn_ok s g → same_srv s s' → m_PosConnMap s' = m_PosConnMap s →
  m_itrCurCheckConn s' = m_itrCurCheckConn s → ShmGnsInfo.UserID i' = u →
  conn_ok s' (<[u := i']> g).
Proof.
  intros [] [] Hc Hi Hu. constructor; rewrite ?Hc, ?Hi, ?sv_check, ?sv_max, ?sv_cnt; try done.
  - intros x j [[<- <-]|[_ ?]]%lookup_insert_Some; [done|by apply ck_gns].
  - by rewrite (proj2 sv_size).
Qed.

(** The connection an entry names is closed, if it is the user's. *)
Lemma KickUser_ok s k ms g ip u i :
  crep s ms g → conn_ok s g → CHashListNoLock.GetP (m_GnsInfoMap s) u = Ok (Some ip) → g !! u = Some i →
  ∃ k' s' i', KickUser s k ip u = Ok (k', s') ∧ crep s' ms (<[u := i']> g) ∧
    conn_ok s' (<[u := i']> g) ∧ same_srv s s' ∧
    m_PosConnMap s' = kick (m_PosConnMap s) (ShmGnsInfo.ConnPos i) u ∧
    CHashListNoLock.GetP (m_GnsInfoMap s') u = Ok (Some ip) ∧ ShmGnsInfo.UserID i' = u ∧
    m_pProcessBuff s' = m_pProcessBuff s ∧
    (i' = i ∨ ∃ now, i' = ShmGnsInfo.mk u (m_ServerID s) (ShmGnsInfo.ConnPos i) GNS_USER_STATUS_UNACTIVE now).
Proof.
  intros Hrep Hok Hip Hi. unfold KickUser.
  pose proof (GetP_hrep _ g u (cr_gns _ _ _ Hrep)) as HG. rewrite Hi in HG.
  destruct HG as (ip' & Hip' & Hd & _). rewrite Hip in Hip'. injection Hip' as <-.
  rewrite Hd. cbn [mbind outcome_bind]. pose proof (ck_gns _ _ Hok u i Hi) as Hiu. unfold kick.
  assert (∃ k' s' i', Ok (k, s) = Ok (k', s') ∧ crep s' ms (<[u := i']> g) ∧
    conn_ok s' (<[u := i']> g) ∧ same_srv s s' ∧ m_PosConnMap s' = m_PosConnMap s ∧
    CHashListNoLock.GetP (m_GnsInfoMap s') u = Ok (Some ip) ∧ ShmGnsInfo.UserID i' = u ∧
    m_pProcessBuff s' = m_pProcessBuff s ∧
    (i' = i ∨ ∃ now, i' = ShmGnsInfo.mk u (m_ServerID s) (ShmGnsInfo.ConnPos i) GNS_USER_STATUS_UNACTIVE now)) as Hno.
  { exists k, s, i. rewrite insert_id by done. split_and!; try done. by left. }
  destruct (m_PosConnMap s !! ShmGnsInfo.ConnPos i) as [c|] eqn:Hc; [|exact Hno].
  destruct (Z.eqb_spec (ClientInfo.m_UserID c) u) as [Hu|]; [|exact Hno].
  destruct (ReleaseConn_rep Hmax s k ms g _ c false Hrep Hc) as (k' & s' & ms' & g' & Hr & Hrep' & Hrl & _ & Hms).
  rewrite Hms in Hrep' by done. rewrite Hr. pose proof (released_conn_ok _ _ _ _ _ _ Hok Hrl) as Hok'.
  destruct Hrl as [Hsv Hco _ Hpb Hptr [now Hg]].
  assert (∃ i', g' = <[u := i']> g ∧ ShmGnsInfo.UserID i' = u ∧ (i' = i ∨ ∃ now,
     i' = ShmGnsInfo.mk u (m_ServerID s) (ShmGnsInfo.ConnPos i) GNS_USER_STATUS_UNACTIVE now)) as (i' & -> & Hi' & Hor).
  { case_decide; [exists i; rewrite insert_id by done; by auto|].
    rewrite Hg, Hu. unfold logged_out. rewrite Hi. eexists. split; [done|]. split; [by cbn|].
    right. exists (u64 now). unfold ShmGnsInfo.set. by rewrite Hiu. }
  exists k', s', i'. split_and!; try done. by rewrite Hptr.
Qed.

(** The entry of a user is written anew, after his connection has been seen to. *)
Lemma take_over_ok s k ms g ip u i (srvf : t Q → Z) srv pos st tm :
  (∀ s', same_srv s s' → srvf s' = srv) → crep s ms g → conn_ok s g → CHashListNoLock.GetP (m_GnsInfoMap s) u = Ok (Some ip) → g !! u = Some i →
  let g' := <[u := ShmGnsInfo.mk u srv pos st tm]> g in
  ∃ k' s', ('(k, s) ← (if here_active s i then KickUser s k ip u else Ok (k, s));
            s ← gns_write s ip (srvf s) pos st tm; Ok (k, s)) = Ok (k', s') ∧
    crep s' ms g' ∧ conn_ok s' g' ∧ same_srv s s' ∧ m_pProcessBuff s' = m_pProcessBuff s ∧
    m_PosConnMap s' = seen_to (m_ServerID s) (m_PosConnMap s) g u.
Proof.
  intros Hsrv Hrep Hok Hip Hi g'. pose proof (ck_gns _ _ Hok u i Hi) as Hiu.
  assert (∃ k1 s1 i1, (if here_active s i then KickUser s k ip u else Ok (k, s)) = Ok (k1, s1) ∧
    crep s1 ms (<[u := i1]> g) ∧ conn_ok s1 (<[u := i1]> g) ∧ same_srv s s1 ∧
    m_PosConnMap s1 = seen_to (m_ServerID s) (m_PosConnMap s) g u ∧
    CHashListNoLock.GetP (m_GnsInfoMap s1) u = Ok (Some ip) ∧ ShmGnsInfo.UserID i1 = u ∧
    m_pProcessBuff s1 = m_pProcessBuff s) as (k1 & s1 & i1 & -> & Hr1 & Hok1 & Hs1 & Hc1 & Hp1 & Hu1 & Hb1).
  { unfold seen_to. rewrite Hi. change (active_at (m_ServerID s) i) with (here_active s i).
    destruct (here_active s i).
    - destruct (KickUser_ok s k ms g ip u i Hrep Hok Hip Hi)
        as (k1 & s1 & i1 & ? & ? & ? & ? & ? & ? & ? & ? & _). by exists k1, s1, i1.
    - exists k, s, i. rewrite insert_id by done. by split_and!. }
  cbn [mbind outcome_bind]. rewrite (Hsrv s1 Hs1).
  destruct (gns_write_ok s1 ms _ u ip srv pos st tm Hr1 Hp1) as (j & s2 & Hj & _ & -> & Ht & Hr2).
  cbn [mbind outcome_bind]. rewrite lookup_insert_eq in Hj. injection Hj as <-.
  rewrite insert_insert_eq in Hr2. unfold ShmGnsInfo.set in Hr2. rewrite Hu1 in Hr2.
  exists k1, s2. split; [done|]. split; [done|]. destruct Ht. split_and!.
  - assert (g' = <[u := ShmGnsInfo.mk u srv pos st tm]> (<[u := i1]> g)) as ->
      by by rewrite insert_insert_eq.
    by apply (conn_ok_touched s1 s2).
  - by trans s1.
  - congruence.
  - congruence.
Qed.

(** A new entry, if there is room for it. *)
Lemma gns_insert_ok s ms g u i :
  crep s ms g → conn_ok s g → g !! u = None → ShmGnsInfo.UserID i = u →
  ∃ h r, CHashListNoLock.Insert (m_GnsInfoMap s) u i = Ok (h, r) ∧
    ∃ g', crep (set_gns s h) ms g' ∧ conn_ok (set_gns s h) g' ∧ same_srv s (set_gns s h) ∧
    (g' = <[u := i]> g ∨ (¬ gns_room s ∧ g' = g)).
Proof.
  intros [] Hok Hn Hiu. pose proof (Insert_hrep _ g u i cr_gns) as HI. rewrite Hn in HI.
  destruct (Z.eqb_spec (CHashListNoLock.iUsedDataNodeNum (m_GnsInfoMap s))
              (CHashListNoLock.iTotalDataNodeNum (m_GnsInfoMap s))) as [He|He].
  - eexists _, _. split; [done|]. exists g. split_and!; try by constructor.
    + destruct Hok. by constructor.
    + right. split; [|done]. unfold gns_room. lia.
  - destruct HI as (h & HI & Hr & Ht). pose proof (Insert_size _ _ _ _ _ HI) as Hsz.
    eexists _, _. split; [done|]. exists (<[u := i]> g). split; [by constructor|].
    assert (same_srv s (set_gns s h)) as Hs by by constructor.
    split_and!; [by apply (conn_ok_touched s)|done|by left].
Qed.

(** A login here: the user's entry names the connection, and no other
    connection of this server is his. *)
Lemma LoginHere_ok s k ms g u cp now :
  crep s ms g → conn_ok s g → gns_room s ∨ is_Some (g !! u) →
  let g' := <[u := ShmGnsInfo.mk u (m_ServerID s) (u32 cp) GNS_USER_STATUS_ACTIVE (u64 now)]> g in
  ∃ k' s', LoginHere s k u cp now = Ok (k', s') ∧ crep s' ms g' ∧ conn_ok s' g' ∧ same_srv s s' ∧
    m_pProcessBuff s' = m_pProcessBuff s ∧
    m_PosConnMap s' = seen_to (m_ServerID s) (m_PosConnMap s) g u.
Proof.
  intros Hrep Hok Hroom g'. unfold LoginHere.
  pose proof (GetP_hrep _ g u (cr_gns _ _ _ Hrep)) as HG. destruct (g !! u) as [i|] eqn:Hi.
  - destruct HG as (ip & Hip & Hd & _). rewrite Hip. cbn [mbind outcome_bind]. rewrite Hd.
    cbn [mbind outcome_bind]. apply (take_over_ok s k ms g ip u i m_ServerID); try done. by intros s' [].
  - rewrite HG. cbn [mbind outcome_bind].
    destruct (gns_insert_ok s ms g u (ShmGnsInfo.mk u (m_ServerID s) (u32 cp) GNS_USER_STATUS_ACTIVE (u64 now))
      Hrep Hok Hi) as (h & r & -> & g1 & ? & ? & ? & [->|[Hn _]]); [done| |destruct Hroom as [?|[? ?]]; done].
    cbn [mbind outcome_bind]. eexists _, _. split; [done|]. split_and!; try done.
    unfold seen_to. by rewrite Hi.
Qed.

(** The time of a login in the GNS table. *)
Definition login_time (d : LoginData.t) : Z := u64 (i64 (LoginData.LastActiveTime d)).

(** Whether a login or logout of another server is the latest word. *)
Definition latest g (d : LoginData.t) : bool :=
  match g !! LoginData.UserID d with
  | Some i => ShmGnsInfo.LastActiveTime i <=? login_time d
  | None => true
  end.

Definition login_entry (d : LoginData.t) (st : Z) : ShmGnsInfo.t :=
  ShmGnsInfo.mk (LoginData.UserID d) (LoginData.ServerID d) (u32 (LoginData.ConnPos d)) st (login_time d).

(** A login elsewhere, when it is the latest word, replaces the entry and
    closes the connection the user has here. *)
Lemma LoginThere_ok s k ms g d :
  crep s ms g → conn_ok s g → u32 (LoginData.ConnPos d) = LoginData.ConnPos d →
  ∃ k' s' g', LoginThere s k d = Ok (k', s') ∧ crep s' ms g' ∧ conn_ok s' g' ∧ same_srv s s' ∧
    m_pProcessBuff s' = m_pProcessBuff s ∧
    ((latest g d = true ∧ g' = <[LoginData.UserID d := login_entry d GNS_USER_STATUS_ACTIVE]> g ∧
      m_PosConnMap s' = seen_to (m_ServerID s) (m_PosConnMap s) g (LoginData.UserID d)) ∨
     ((latest g d = false ∨ (g !! LoginData.UserID d = None ∧ ¬ gns_room s)) ∧
      g' = g ∧ m_PosConnMap s' = m_PosConnMap s)).
Proof.
  intros Hrep Hok Hcp. unfold LoginThere, latest, login_entry. rewrite Hcp. fold (login_time d).
  pose proof (GetP_hrep _ g (LoginData.UserID d) (cr_gns _ _ _ Hrep)) as HG.
  destruct (g !! LoginData.UserID d) as [i|] eqn:Hi.
  - destruct HG as (ip & Hip & Hd & _). rewrite Hip. cbn [mbind outcome_bind]. rewrite Hd.
    cbn [mbind outcome_bind]. destruct (Z.leb_spec (ShmGnsInfo.LastActiveTime i) (login_time d)).
    + destruct (take_over_ok s k ms g ip _ i (λ _, LoginData.ServerID d) (LoginData.ServerID d)
        (LoginData.ConnPos d) GNS_USER_STATUS_ACTIVE (login_time d) (λ _ _, eq_refl) Hrep Hok Hip Hi) as (k' & s' & -> & ? & ? & ? & ? & ?).
      eexists _, _, _. split; [done|]. split_and!; try done. left. by split_and!.
    + eexists _, _, g. split; [done|]. split_and!; try done. right. split_and!; try done. by left.
  - rewrite HG. cbn [mbind outcome_bind].
    destruct (gns_insert_ok s ms g _ (ShmGnsInfo.mk (LoginData.UserID d) (LoginData.ServerID d)
      (LoginData.ConnPos d) GNS_USER_STATUS_ACTIVE (login_time d)) Hrep Hok Hi)
      as (h & r & -> & g1 & ? & ? & ? & Hor); [done|].
    cbn [mbind outcome_bind]. eexists _, _, g1. split; [done|]. split_and!; try done.
    destruct Hor as [->|[? ->]].
    + left. split_and!; try done. unfold seen_to. by rewrite Hi.
    + right. split_and!; try done. by right.
Qed.

(** A logout elsewhere.  A user logged in here loses his connection; otherwise
    the entry is written anew. *)
Lemma LogoutThere_ok s k ms g d :
  crep s ms g → conn_ok s g → u32 (LoginData.ConnPos d) = LoginData.ConnPos d →
  ∃ k' s' g', LogoutThere s k d = Ok (k', s') ∧ crep s' ms g' ∧ conn_ok s' g' ∧ same_srv s s' ∧
    m_pProcessBuff s' = m_pProcessBuff s ∧
    match g !! LoginData.UserID d with
    | Some i =>
        if latest g d then
          if here_active s i then
            m_PosConnMap s' = kick (m_PosConnMap s) (ShmGnsInfo.ConnPos i) (LoginData.UserID d) ∧
            ∃ i', g' = <[LoginData.UserID d := i']> g ∧
              (i' = i ∨ ∃ now, i' = ShmGnsInfo.mk (LoginData.UserID d) (m_ServerID s)
                                 (ShmGnsInfo.ConnPos i) GNS_USER_STATUS_UNACTIVE now) 
          else m_PosConnMap s' = m_PosConnMap s ∧
               g' = <[LoginData.UserID d := login_entry d GNS_USER_STATUS_UNACTIVE]> g
        else g' = g ∧ m_PosConnMap s' = m_PosConnMap s
    | None => g' = g ∧ m_PosConnMap s' = m_PosConnMap s
    end.
Proof.
  intros Hrep Hok Hcp. unfold LogoutThere, latest, login_entry. rewrite u32_i32, Hcp. fold (login_time d).
  pose proof (GetP_hrep _ g (LoginData.UserID d) (cr_gns _ _ _ Hrep)) as HG.
  destruct (g !! LoginData.UserID d) as [i|] eqn:Hi.
  2:{ rewrite HG. cbn [mbind outcome_bind]. eexists _, _, g. split; [done|]. by split_and!. }
  destruct HG as (ip & Hip & Hd & _). rewrite Hip. cbn [mbind outcome_bind]. rewrite Hd.
  cbn [mbind outcome_bind]. destruct (Z.leb_spec (ShmGnsInfo.LastActiveTime i) (login_time d)).
  2:{ eexists _, _, g. split; [done|]. by split_and!. }
  destruct (here_active s i) eqn:Ea.
  - destruct (KickUser_ok s k ms g ip _ i Hrep Hok Hip Hi)
      as (k1 & s1 & i1 & -> & ? & ? & ? & ? & ? & ? & ? & Hor).
    eexists _, _, _. split; [done|]. split_and!; try done. exists i1. by split.
  - destruct (gns_write_ok s ms g _ ip (LoginData.ServerID d) (LoginData.ConnPos d) GNS_USER_STATUS_UNACTIVE
      (login_time d) Hrep Hip) as (j & s2 & Hj & _ & -> & Ht & Hr2).
    cbn [mbind outcome_bind]. rewrite Hi in Hj. injection Hj as <-.
    pose proof (ck_gns _ _ Hok _ i Hi) as Hiu. unfold ShmGnsInfo.set in Hr2. rewrite Hiu in Hr2.
    eexists _, _, _. split; [done|]. destruct Ht. split_and!; try done.
    by apply (conn_ok_touched s).
Qed.

(** * The same as steps that keep everything *)
Lemma LoginThere_serving s k ms g d :
  serving s ms g → login_data_ok d →
  ∃ k' s' g', LoginThere s k d = Ok (k', s') ∧ serving s' ms g' ∧ same_srv s s'.
Proof.
  intros [Hrep Hok Hu] (_ & _ & Hcp & _).
  destruct (LoginThere_ok s k ms g d Hrep Hok) as (k' & s' & g' & ? & ? & ? & Hs & _ & Hor);
    [by apply u32_small|].
  exists k', s', g'. split_and!; try done. constructor; [done..|]. rewrite (sv_id _ _ Hs).
  destruct Hor as [(_ & -> & ->)|(_ & -> & ->)]; [|done]. by apply users_ok_entry.
Qed.

Lemma users_ok_kick sid m g u i i' :
  users_ok sid m g → g !! u = Some i → active_at sid i = true →
  users_ok sid (kick m (ShmGnsInfo.ConnPos i) u) (<[u := i']> g).
Proof.
  intros Hu Hi Ha.
  assert (seen_to sid m g u = kick m (ShmGnsInfo.ConnPos i) u) as <-
    by (unfold seen_to; by rewrite Hi, Ha).
  by apply users_ok_entry.
Qed.

Lemma users_ok_unseen sid m g u i' :
  users_ok sid m g → (∀ i, g !! u = Some i → active_at sid i = false) → users_ok sid m (<[u := i']> g).
Proof.
  intros Hu Hn. assert (seen_to sid m g u = m) as <-; [|by apply users_ok_entry].
  unfold seen_to. destruct (g !! u) as [i|]; [|done]. by rewrite Hn.
Qed.

Lemma LogoutThere_serving s k ms g d :
  serving s ms g → login_data_ok d →
  ∃ k' s' g', LogoutThere s k d = Ok (k', s') ∧ serving s' ms g' ∧ same_srv s s'.
Proof.
  intros [Hrep Hok Hu] (_ & _ & Hcp & _).
  destruct (LogoutThere_ok s k ms g d Hrep Hok) as (k' & s' & g' & ? & ? & ? & Hs & _ & Hor);
    [by apply u32_small|].
  exists k', s', g'. split_and!; try done. constructor; [done..|]. rewrite (sv_id _ _ Hs).
  destruct (g !! LoginData.UserID d) as [i|] eqn:Hi; [|by destruct Hor as [-> ->]].
  destruct (latest g d); [|by destruct Hor as [-> ->]].
  destruct (here_active s i) eqn:Ea.
  - destruct Hor as (-> & i' & -> & _). by apply users_ok_kick.
  - destruct Hor as [-> ->]. apply users_ok_unseen; [done|]. intros j Hj. rewrite Hi in Hj. by injection Hj as <-.
Qed.

Lemma for_data_serving f s k ms g l :
  (∀ s k g d, serving s ms g → login_data_ok d →
    ∃ k' s' g', f s k d = Ok (k', s') ∧ serving s' ms g' ∧ same_srv s s') →
  serving s ms g → Forall login_data_ok l →
  ∃ k' s' g', for_data f s k l = Ok (k', s') ∧ serving s' ms g' ∧ same_srv s s'.
Proof.
  intros Hf Hse Hl. revert s k g Hse. induction Hl as [|d l Hd _ IH]; intros s k g Hse; cbn [for_data].
  { by exists k, s, g. }
  destruct (Hf s k g d Hse Hd) as (k1 & s1 & g1 & -> & Hse1 & Hs1). cbn [mbind outcome_bind].
  destruct (IH s1 k1 g1 Hse1) as (k2 & s2 & g2 & -> & ? & ?). exists k2, s2, g2.
  split_and!; try done. by trans s1.
Qed.
End deal.
