(* ===== verification/ConnSync.v ===== *)
(** Answers to clients, the list of the users logged in here, and every package
    of another server as one step of the connection server. *)
From stdpp Require Import gmap sorting.
From S2P Require Import Prelude Fifo Wire HashList Kernel ConnInfo BusState BusConn BusRoute.
From S2P Require Import BusFacts ConnState ConnServe ConnFacts ConnInv ConnSteps ConnDeal.
Import CConn CConnServe.

#[local] Arguments Z.add : simpl never.
#[local] Arguments Z.eqb : simpl never.
#[local] Arguments Z.ltb : simpl never.
#[local] Arguments Z.leb : simpl never.

(** * Logins sent in batches *)
Section batches.
Implicit Types (Cur l : list LoginData.t).

(** The messages [SendLogins] sends, as lists of logins. *)
Fixpoint batches Cur (j : Z) l : list (list LoginData.t) :=
  match l with
  | [] => []
  | d :: l =>
      let Cur := Cur ++ [data_msg d] in
      let j := j + 1 in
      if (1000 <? j) || bool_decide (l = []) then Cur :: batches Cur 0 l else batches Cur j l
  end.

(** Each of them repeats the ones before it. *)
Lemma batches_prefix Cur j l b :
  b ∈ batches Cur j l → ∃ n, b = Cur ++ take n (data_msg <$> l) ∧ (0 < n)%nat.
Proof.
  revert Cur j. induction l as [|d l IH]; intros Cur j Hb; cbn in Hb; [by apply not_elem_of_nil in Hb|].
  assert (∀ j, b ∈ batches (Cur ++ [data_msg d]) j l →
    ∃ n, b = Cur ++ take n (data_msg <$> d :: l) ∧ (0 < n)%nat) as Hgo.
  { intros j' Hb'. destruct (IH _ _ Hb') as (n & -> & _). exists (S n). cbn.
    rewrite <- app_assoc. split; [done|lia]. }
  destruct ((1000 <? j + 1) || bool_decide (l = [])) eqn:E; [|exact (Hgo _ Hb)].
  apply elem_of_cons in Hb as [Hb|Hb]; [|exact (Hgo _ Hb)].
  exists 1%nat. split; [|lia]. rewrite Hb. cbn. by rewrite take_0.
Qed.

Lemma batches_last Cur j l :
  l ≠ [] → last (batches Cur j l) = Some (Cur ++ (data_msg <$> l)).
Proof.
  revert Cur j. induction l as [|d l IH]; intros Cur j Hl; [done|]. cbn [batches].
  destruct (decide (l = [])) as [->|Hne].
  - rewrite bool_decide_true, orb_true_r by done. done.
  - rewrite (bool_decide_false (l = [])), orb_false_r by done.
    assert (∀ j, last (batches (Cur ++ [data_msg d]) j l) = Some (Cur ++ (data_msg <$> d :: l))) as Hgo.
    { intros j'. rewrite IH by done. by rewrite <- app_assoc. }
    destruct (1000 <? _); [|apply Hgo].
    rewrite last_cons, Hgo. done.
Qed.
End batches.

Section sync.
Context {Q K : Type} `{FifoQueue Q} `{KernelLaws K} `{ConnProtoLaws}.
Hypothesis Hmax : XY_PKG_MAX_LEN ≤ q_max.
Implicit Types (s : t Q) (k : K) (ms : list (list Z)) (g : gmap Z ShmGnsInfo.t)
  (c : ClientInfo.t) (i : ShmGnsInfo.t) (u : Z).

(** * Answers *)

(** The bytes [d] are on their way to the client of connection [cp], or his
    connection has been released; there may be none. *)
Definition to_client k s g k' s' g' (cp : Z) (d : list Z) : Prop :=
  match m_PosConnMap s !! u32 cp with
  | None => k' = k ∧ g' = g ∧ m_PosConnMap s' = m_PosConnMap s
  | Some c =>
      (g' = g ∧ ∃ c', m_PosConnMap s' = <[u32 cp := c']> (m_PosConnMap s) ∧ same_client c c' ∧
         outgoing k' (ClientInfo.info c') = outgoing k (ClientInfo.info c) ++ d) ∨
      m_PosConnMap s' = delete (u32 cp) (m_PosConnMap s)
  end.

Lemma set_sbuff_serving s ms g buf :
  serving s ms g → zlen buf = XY_PKG_MAX_LEN → serving (set_sbuff s buf) ms g.
Proof. intros [[] [] ?] ?. constructor; [by constructor|by constructor|done]. Qed.

Lemma to_client_ok s k ms g cp d rest :
  serving s ms g → zlen (d ++ rest) = XY_PKG_MAX_LEN →
  ∃ k' s' r ms' g', Send2Client (set_sbuff s (d ++ rest)) k cp (zlen d) = Ok (k', s', r) ∧
    serving s' ms' g' ∧ more (m_ServerID s) ms ms' ∧ same_srv s s' ∧
    to_client k s g k' s' g' cp d ∧ (m_PosConnMap s !! u32 cp = None → ms' = ms).
Proof.
  intros Hse Hz. pose proof (set_sbuff_serving s ms g _ Hse Hz) as Hse1.
  assert (m_PosConnMap s !! u32 cp = None → Send2Client (set_sbuff s (d ++ rest)) k cp (zlen d)
    = Ok (k, set_sbuff s (d ++ rest), -1)) as Hnone.
  { intros Hc. unfold Send2Client. cbn [m_PosConnMap set_sbuff]. by rewrite Hc. }
  unfold to_client. destruct (m_PosConnMap s !! u32 cp) as [c|] eqn:Hc.
  - destruct (Send2Client_ok Hmax (set_sbuff s (d ++ rest)) k ms g cp d rest Hse1)
      as (k' & s' & r & ms' & g' & Hr & ? & ? & [] & Hcase); [done|].
    cbn [m_PosConnMap set_sbuff] in Hcase. rewrite Hc in Hcase.
    exists k', s', r, ms', g'. split; [done|]. split; [done|]. split; [done|]. split; [by constructor|].
    split; [|done]. destruct Hcase as [(_ & _ & ? & ?)|[_ ?]]; [by left|by right].
  - rewrite Hnone by done. eexists _, _, _, ms, g. split; [done|]. by split_and!.
Qed.

(** The bytes of an answer. *)
Definition rsp_bytes (h : XYHeaderIn.t) (CmdID : Z) (Rsp : list Z) : list Z :=
  xy_bytes (XYHeader.mk (17 + zlen Rsp) CmdID (XYHeaderIn.SN h) 0 (XYHeaderIn.Ret h) 0) ++ Rsp.

Lemma SendRsp_ok s k ms g h CmdID cp Rsp :
  serving s ms g →
  ∃ k' s' r ms' g', SendRsp s k h CmdID cp Rsp = Ok (k', s', r) ∧
    serving s' ms' g' ∧ more (m_ServerID s) ms ms' ∧ same_srv s s' ∧
    if XY_PKG_MAX_LEN <? 17 + zlen Rsp then g' = g ∧ m_PosConnMap s' = m_PosConnMap s ∧ r = -1
    else to_client k s g k' s' g' cp (rsp_bytes h CmdID Rsp) ∧ r = 0.
Proof.
  intros Hse. pose proof (cr_sbuff _ _ _ (se_rep _ _ _ Hse)) as Hb. pose proof (zlen_nonneg Rsp).
  unfold SendRsp. set (h' := XYHeader.mk _ _ _ _ _ _). set (m1 := drop (length (xy_bytes h')) (m_pSendBuff s)).
  assert (zlen m1 = XY_PKG_MAX_LEN - 17) as Hm1.
  { unfold m1. rewrite zlen_drop_length; rewrite zlen_xy_bytes, Hb; done. }
  rewrite (xy_Write_bytes _ _ _ _ (mwrite_head (xy_bytes h') (m_pSendBuff s)
    ltac:(rewrite zlen_xy_bytes, Hb; done))). fold m1. cbn [mbind outcome_bind].
  change XYHeader.GetHeadLen with 17 in *.
  destruct (Z.ltb_spec (XY_PKG_MAX_LEN - 17) (zlen Rsp)).
  - rewrite (proj2 (Z.ltb_lt _ _)) by lia. eexists _, _, _, ms, g. split; [done|].
    split_and!; [|done|by constructor|done..].
    apply set_sbuff_serving; [done|]. rewrite zlen_app, zlen_xy_bytes. lia.
  - rewrite (proj2 (Z.ltb_ge _ _)) by lia.
    replace 17 with (zlen (xy_bytes h')) at 1 by apply zlen_xy_bytes.
    rewrite mwrite_at by lia. cbn [mbind outcome_bind]. set (m2 := drop _ m1).
    assert (xy_bytes h' ++ Rsp = rsp_bytes h CmdID Rsp) as Hd.
    { unfold rsp_bytes, h'. do 3 f_equal. rewrite Z.add_comm. apply u32_small. unfold XY_PKG_MAX_LEN in *. lia. }
    rewrite app_assoc, Hd. set (d := rsp_bytes h CmdID Rsp) in *.
    assert (zlen d = 17 + zlen Rsp) as Hzd by (rewrite <- Hd, zlen_app, zlen_xy_bytes; done).
    destruct (to_client_ok s k ms g cp d m2 Hse) as (k' & s' & r & ms' & g' & Hs & ? & ? & ? & ? & _).
    { rewrite zlen_app, Hzd. unfold m2. rewrite zlen_drop_length; lia. }
    replace (i32 (XYHeader.PkgLen h')) with (zlen d).
    2:{ unfold h'. cbn [XYHeader.PkgLen]. rewrite u32_small by (unfold XY_PKG_MAX_LEN in *; lia).
        rewrite i32_small; unfold XY_PKG_MAX_LEN in *; lia. }
    rewrite Hs. cbn [mbind outcome_bind]. by exists k', s', 0, ms', g'.
Qed.

(** A package nobody here knows goes to its client as it is. *)
Lemma PassOn_ok s k ms g h o n body :
  serving s ms g → mread (m_pProcessBuff s) (o + 34) (n - 34) = Ok body → n ≤ XY_PKG_MAX_LEN →
  ∃ k' s' r ms' g', PassOn s k h o n = Ok (k', s', r) ∧
    serving s' ms' g' ∧ more (m_ServerID s) ms ms' ∧ same_srv s s' ∧ r = 0 ∧
    if XYHeaderIn.ConnPos h =? 0 then k' = k ∧ g' = g ∧ m_PosConnMap s' = m_PosConnMap s
    else to_client k s g k' s' g' (XYHeaderIn.ConnPos h) (rsp_bytes h (XYHeaderIn.CmdID h) body).
Proof.
  intros Hse Hr Hn. pose proof (cr_sbuff _ _ _ (se_rep _ _ _ Hse)) as Hb. pose proof (zlen_nonneg body).
  pose proof (mread_zlen _ _ _ _ Hr) as Hz. unfold PassOn. change XYHeaderIn.GetHeaderLen with 34.
  change XYHeader.GetHeadLen with 17.
  assert (XYHeaderIn.CoverToXYHeader h n =
    XYHeader.mk (17 + zlen body) (XYHeaderIn.CmdID h) (XYHeaderIn.SN h) 0 (XYHeaderIn.Ret h) 0) as ->.
  { unfold XYHeaderIn.CoverToXYHeader. f_equal. change XYHeaderIn.GetHeaderLen with 34.
    change XYHeader.GetHeadLen with 17. rewrite u32_small; unfold XY_PKG_MAX_LEN in *; lia. }
  set (h' := XYHeader.mk _ _ _ _ _ _). set (m1 := drop (length (xy_bytes h')) (m_pSendBuff s)).
  assert (zlen m1 = XY_PKG_MAX_LEN - 17) as Hm1.
  { unfold m1. rewrite zlen_drop_length; rewrite zlen_xy_bytes, Hb; done. }
  rewrite (xy_Write_bytes _ _ _ _ (mwrite_head (xy_bytes h') (m_pSendBuff s)
    ltac:(rewrite zlen_xy_bytes, Hb; done))). fold m1. cbn [mbind outcome_bind].
  rewrite Hr. cbn [mbind outcome_bind].
  replace 17 with (zlen (xy_bytes h')) at 1 by apply zlen_xy_bytes.
  rewrite mwrite_at by lia. cbn [mbind outcome_bind]. set (m2 := drop _ m1).
  rewrite app_assoc. change (xy_bytes h' ++ body) with (rsp_bytes h (XYHeaderIn.CmdID h) body).
  set (d := rsp_bytes _ _ _) in *.
  assert (zlen d = 17 + zlen body) as Hzd by (unfold d, rsp_bytes; rewrite zlen_app, zlen_xy_bytes; done).
  assert (zlen (d ++ m2) = XY_PKG_MAX_LEN) as Hzm.
  { rewrite zlen_app, Hzd. unfold m2. rewrite zlen_drop_length; lia. }
  destruct (XYHeaderIn.ConnPos h =? 0).
  - eexists _, _, _, ms, g. split; [done|]. split_and!; [by apply set_sbuff_serving|done|by constructor|done..].
  - destruct (to_client_ok s k ms g (i32 (XYHeaderIn.ConnPos h)) d m2 Hse Hzm)
      as (k' & s' & r & ms' & g' & Hs & ? & ? & ? & Hc & _).
    replace (i32 (XYHeader.PkgLen h')) with (zlen d).
    2:{ unfold h'. cbn [XYHeader.PkgLen]. rewrite i32_small; unfold XY_PKG_MAX_LEN in *; lia. }
    rewrite Hs. cbn [mbind outcome_bind]. exists k', s', 0, ms', g'. split_and!; try done.
    unfold to_client in *. by rewrite u32_i32 in Hc.
Qed.

(** * The users logged in here *)

(** The login of an entry, if it is one of this server. *)
Definition my_login (srv : Z) (e : Z * ShmGnsInfo.t) : list LoginData.t :=
  if active_at srv e.2
  then [LoginData.mk (ShmGnsInfo.UserID e.2) (ShmGnsInfo.ServerID e.2) (ShmGnsInfo.ConnPos e.2)
          (i64 (ShmGnsInfo.LastActiveTime e.2))]
  else [].

Lemma foldl_my_login srv v (e : list (Z * ShmGnsInfo.t)) :
  foldl (λ v x, v ++ my_login srv x) v e = v ++ concat (my_login srv <$> e).
Proof.
  revert v. induction e as [|x e IH]; intros v; cbn; [by rewrite app_nil_r|].
  by rewrite IH, <- app_assoc.
Qed.

Lemma my_login_users srv (e : list (Z * ShmGnsInfo.t)) :
  (∀ u i, (u, i) ∈ e → ShmGnsInfo.UserID i = u) → NoDup e.*1 →
  NoDup (LoginData.UserID <$> concat (my_login srv <$> e)) ∧
  ∀ u, u ∈ LoginData.UserID <$> concat (my_login srv <$> e) → u ∈ e.*1.
Proof.
  induction e as [|[u i] e IH]; intros Hu Hnd; [split; [constructor|done]|]. cbn in Hnd.
  apply NoDup_cons in Hnd as [Hn Hnd]. destruct IH as [IH1 IH2]; [|done|].
  { intros v j Hj. apply Hu. by right. }
  cbn. unfold my_login at 1 3. cbn [snd]. destruct (active_at srv i); cbn.
  - rewrite (Hu u i) by by left. split.
    + apply NoDup_cons. split; [|done]. intros Hin. by apply Hn, IH2.
    + intros v [->|Hv]%elem_of_cons; [by left|right; by apply IH2].
  - split; [done|]. intros v Hv. right. by apply IH2.
Qed.

(** Exactly the users of this server are collected, each once. *)
Lemma CollectUsers_ok s ms g :
  serving s ms g →
  ∃ v, CollectUsers s = Ok (s, v) ∧ NoDup (LoginData.UserID <$> v) ∧
    ∀ d, d ∈ v ↔ ∃ u i, g !! u = Some i ∧ active_at (m_ServerID s) i = true ∧
      d = LoginData.mk u (m_ServerID s) (ShmGnsInfo.ConnPos i) (i64 (ShmGnsInfo.LastActiveTime i)).
Proof.
  intros [[_ Hg _ _] Hok _]. unfold CollectUsers.
  pose proof (ck_check _ _ Hok) as Hck. pose proof (ck_index _ _ Hok) as Hix.
  assert (CHashListNoLock.iIndexNodeNum (m_GnsInfoMap s) = zlen (CHashListNoLock.m_pstIndex (m_GnsInfoMap s))) as Hzi.
  { destruct Hg as (? & ? & ? & Hi & _). by apply hi_index in Hi. }
  set (n := m_MaxGnsNodeNum s) in *.
  edestruct (for_range_inv (λ j st, st.1 = m_GnsInfoMap s ∧ ∃ e, st.2 = concat (my_login (m_ServerID s) <$> e) ∧
    NoDup e.*1 ∧ ∀ u i, (u, i) ∈ e ↔ g !! u = Some i ∧ u mod n < j) 0 n) as (st & Hr & Hst & e & Hv & Hnd & He);
    [lia| | |].
  3:{ rewrite Hr. cbn [mbind outcome_bind]. destruct st as [h v]. cbn [fst snd] in *. subst h v.
      exists (concat (my_login (m_ServerID s) <$> e)). split; [by destruct s|].
      assert (∀ u i, (u, i) ∈ e → ShmGnsInfo.UserID i = u) as Hu.
      { intros u i Hin. apply He in Hin as [? _]. by apply (ck_gns _ _ Hok). }
      split; [by apply my_login_users|]. intros d. rewrite list_elem_of_In, in_concat. split.
      - intros (x & Hx & Hd). apply list_elem_of_In, list_elem_of_fmap in Hx as ([u i] & -> & Hin).
        unfold my_login in Hd. cbn [snd] in Hd. destruct (active_at (m_ServerID s) i) eqn:Ea; [|done].
        destruct Hd as [<-|[]]. exists u, i. rewrite (Hu u i Hin). apply He in Hin as [? _].
        split_and!; [done..|]. f_equal. unfold active_at in Ea. apply andb_true_iff in Ea as [?%Z.eqb_eq _]. done.
      - intros (u & i & Hi & Ha & ->). exists (my_login (m_ServerID s) (u, i)).
        assert ((u, i) ∈ e) as Hin. { apply He. split; [done|]. apply Z.mod_pos_bound. lia. }
        split; [apply list_elem_of_In, list_elem_of_fmap; by exists (u, i)|].
        unfold my_login. cbn [snd]. rewrite Ha. left. rewrite (Hu u i Hin). f_equal.
        unfold active_at in Ha. by apply andb_true_iff in Ha as [?%Z.eqb_eq _]. }
  { split; [done|]. exists []. split_and!; [done|constructor|]. intros u i. split; [intros Hx; by apply not_elem_of_nil in Hx|].
    intros [_ Hx]. pose proof (Z.mod_pos_bound u n ltac:(lia)). lia. }
  intros j [h v] Hj (Hh & e & Hv & Hnd & He). cbn [fst snd] in *. subst h v.
  destruct (ProcessAll_fold (MemFullCallBackAll (m_ServerID s)) (λ v x, v ++ my_login (m_ServerID s) x)
    (m_GnsInfoMap s) g j (concat (my_login (m_ServerID s) <$> e))) as (e' & -> & Hnd' & He');
    [|done|lia|].
  { intros v x nd Hx. unfold MemFullCallBackAll, CHashListNoLock.deref. rewrite Hx. cbn [mbind outcome_bind].
    unfold my_login, active_at. cbn [snd]. destruct (_ && _); [done|]. by rewrite app_nil_r. }
  cbn [mbind outcome_bind]. cbn [key_mod Z_key] in He'. rewrite <- Hzi, Hix in He'. eexists. split; [done|]. split; [done|]. exists (e ++ e'). cbn [snd].
  rewrite foldl_my_login, fmap_app, concat_app. split; [done|]. rewrite fmap_app. split.
  - apply NoDup_app. split_and!; [done| |done]. intros u Hu Hu'.
    apply list_elem_of_fmap in Hu as ([u1 i1] & -> & [_ ?]%He).
    apply list_elem_of_fmap in Hu' as ([u2 i2] & Hu & [_ ?]%He'). cbn in Hu. subst. lia.
  - intros u i. rewrite elem_of_app, He, He'. split; [intros [[? ?]|[? ?]]; split; (done || lia)|].
    intros [? ?]. destruct (decide (u mod n = j)); [by right|left; split; [done|lia]].
Qed.

(** A message of a batch. *)
Definition login_msg (sid cmd dst st now : Z) (l : list LoginData.t) : list Z :=
  srv_msg sid dst st 0 (xyin_bytes (XYHeaderIn.mk (u32 sid) cmd 0 0 0 (u64 now) 0) ++ enc_LoginDatas l).

Lemma SendLogins_ok s k ms g cmd dst st Cur j l :
  serving s ms g → 0 ≤ dst < 2 ^ 32 → - 2 ^ 7 ≤ st < 2 ^ 7 →
  ∃ k' s' times, SendLogins s k cmd dst st Cur j l = Ok (k', s') ∧
    let ms' := foldl (emit (q_cap (m_SendQueue s))) ms
      (zip_with (λ now b, login_msg (m_ServerID s) cmd dst st now b) times (batches Cur j l)) in
    length times = length (batches Cur j l) ∧
    serving s' ms' g ∧ sent s s' ∧ more (m_ServerID s) ms ms'.
Proof.
  intros Hse Hd Ht. revert s k ms Cur j Hse.
  assert (∀ s, sent s s) as Hrefl by (intros s; by constructor).
  induction l as [|d l IH]; intros s k ms Cur j Hse; cbn [SendLogins batches].
  { exists k, s, []. cbn. split_and!; done. }
  cbv zeta. destruct (_ || _); [|apply IH; done].
  destruct (k_time k) as [k1 now].
  destruct (Send2ServerMsg_ok Hmax s ms g (own_header s cmd 0 0 0 now) dst st 0
    (enc_LoginDatas (Cur ++ [data_msg d])) (se_rep _ _ _ Hse)) as (s1 & r & -> & Hs1 & Hr1).
  cbn [mbind outcome_bind]. set (ms1 := emit _ _ _) in Hr1.
  pose proof (sent_serving s s1 ms ms1 g Hse Hs1 Hr1) as Hse1.
  destruct (IH s1 k1 ms1 (Cur ++ [data_msg d]) 0 Hse1) as (k2 & s2 & times & -> & Hlen & Hse2 & Hs2 & Hm2).
  rewrite (sv_cap _ _ (st_srv _ _ Hs1)), (sv_id _ _ (st_srv _ _ Hs1)) in *.
  exists k2, s2, (now :: times). cbn. split; [done|]. split_and!; [by rewrite Hlen|done| |].
  - by eapply sent_trans.
  - etrans; [|exact Hm2]. by apply srv_msg_more.
Qed.

(** * Every package of another server *)
Lemma OnLoginRsp_serving s k ms g h body :
  serving s ms g → gns_room s →
  ∃ k' s' r ms' g', OnLoginRsp s k h body = Ok (k', s', r) ∧ serving s' ms' g' ∧ same_srv s s' ∧
    more (m_ServerID s) ms ms'.
Proof.
  intros Hse Hroom. unfold OnLoginRsp. set (cp := i32 (XYHeaderIn.ConnPos h)).
  destruct (dec_AuthLoginRsp body) as [[uid Result]|]; [|eexists _, _, _, ms, g; by split_and!].
  assert (∀ s1 k1 ms1 g1, serving s1 ms1 g1 → same_srv s s1 → more (m_ServerID s) ms ms1 →
    ∃ k' s' r ms' g', SendRsp s1 k1 h Cmd_Auth_Login_Rsp cp (enc_LoginRsp Result) = Ok (k', s', r) ∧
    serving s' ms' g' ∧ same_srv s s' ∧ more (m_ServerID s) ms ms') as Hrsp.
  { intros s1 k1 ms1 g1 Hse1 Hs1 Hm1.
    destruct (SendRsp_ok s1 k1 ms1 g1 h Cmd_Auth_Login_Rsp cp (enc_LoginRsp Result) Hse1)
      as (k' & s' & r & ms' & g' & ? & ? & Hm & ? & _).
    exists k', s', r, ms', g'. rewrite (sv_id _ _ Hs1) in Hm.
    split_and!; [done|done|by trans s1|by trans ms1]. }
  destruct (Z.eqb_spec Result 0) as [->|]; [|by apply (Hrsp s k ms g)].
  destruct (m_PosConnMap s !! u32 cp) as [c|] eqn:Hc; [|eexists _, _, _, ms, g; by split_and!].
  set (u := u64 uid). set (c1 := ClientInfo.SetUserID _ u). set (s1 := set_conn s (u32 cp) c1).
  destruct (k_time k) as [k1 now]. pose proof Hse as [Hrep Hok Hu].
  destruct (ck_conn _ _ Hok _ c Hc) as (_ & Hw & _).
  destruct (LoginHere_ok Hmax s1 k1 ms g u cp now) as (k2 & s2 & -> & Hr2 & Hok2 & Hs2 & _ & Hc2);
    [by apply set_conn_rep|by apply (set_conn_conn_ok s g _ c)|by left|].
  cbn [mbind outcome_bind].
  assert (serving s2 ms (<[u := ShmGnsInfo.mk u (m_ServerID s) (u32 cp) GNS_USER_STATUS_ACTIVE (u64 now)]> g)) as Hse2.
  { constructor; [done..|]. rewrite (sv_id _ _ Hs2), Hc2.
    by apply (users_ok_login (m_ServerID s) (m_PosConnMap s) g (u32 cp) c c1 u). }
  destruct (k_time k2) as [k3 now2].
  edestruct (Send2ServerMsg_ok Hmax s2 ms) as (s3 & r3 & -> & Hs3 & Hr3); [apply Hse2|].
  cbn [mbind outcome_bind]. pose proof (sent_serving _ _ _ _ _ Hse2 Hs3 Hr3) as Hse3.
  apply (Hrsp s3 k3 _ _ Hse3).
  - trans s2; [|apply Hs3]. destruct Hs2. by constructor.
  - rewrite (sv_id _ _ Hs2). by apply srv_msg_more.
Qed.

Lemma OnLoginSyncReq_serving s k ms g h body :
  serving s ms g → 0 ≤ XYHeaderIn.SrcID h < 2 ^ 32 →
  ∃ k' s' r ms', OnLoginSyncReq s k h body = Ok (k', s', r) ∧ serving s' ms' g ∧ same_srv s s' ∧
    more (m_ServerID s) ms ms'.
Proof.
  intros Hse Hsrc. unfold OnLoginSyncReq.
  destruct (dec_LoginSyncReq body) as [srv|]; [|eexists _, _, _, ms; by split_and!].
  destruct (srv =? m_ServerID s); [eexists _, _, _, ms; by split_and!|].
  destruct (CollectUsers_ok s ms g Hse) as (v & -> & _ & _). cbn [mbind outcome_bind].
  destruct (SendLogins_ok s k ms g Cmd_LoginSync_Rsp (XYHeaderIn.SrcID h) TO_SRV [] 0 v Hse)
    as (k' & s' & times & -> & _ & Hse' & Hs & Hm); [done|done|].
  cbn [mbind outcome_bind]. eexists _, _, _, _. split; [done|]. split_and!; [done|apply Hs|done].
Qed.

Lemma OnRegisterRsp_serving s k ms g h body :
  serving s ms g →
  ∃ k' s' r ms' g', OnRegisterRsp s k h body = Ok (k', s', r) ∧ serving s' ms' g' ∧ same_srv s s' ∧
    more (m_ServerID s) ms ms'.
Proof.
  intros Hse. unfold OnRegisterRsp.
  destruct (dec_AuthRegisterRsp body) as [[[u f] Result]|]; [|eexists _, _, _, ms, g; by split_and!].
  destruct (negb (Result =? 0)).
  - edestruct (SendRsp_ok s k ms g) as (k' & s' & r & ms' & g' & ? & ? & ? & ? & _); [done|].
    exists k', s', r, ms', g'. by split_and!.
  - destruct (k_time k) as [k1 now].
    edestruct (Send2ServerMsg_ok Hmax s ms g) as (s1 & r & -> & Hs1 & Hr1); [apply Hse|].
    cbn [mbind outcome_bind]. eexists _, _, _, _, g. split; [done|].
    split_and!; [by eapply sent_serving|apply Hs1|]. apply srv_msg_more; [apply u32_range|done..].
Qed.

Lemma OnUserRegisterRsp_serving s k ms g h body :
  serving s ms g →
  ∃ k' s' r ms' g', OnUserRegisterRsp s k h body = Ok (k', s', r) ∧ serving s' ms' g' ∧ same_srv s s' ∧
    more (m_ServerID s) ms ms'.
Proof.
  intros Hse. unfold OnUserRegisterRsp.
  destruct (dec_UserRegisterRsp body) as [[u Result]|]; [|eexists _, _, _, ms, g; by split_and!].
  edestruct (SendRsp_ok s k ms g) as (k' & s' & r & ms' & g' & ? & ? & ? & ? & _); [done|].
  exists k', s', r, ms', g'. by split_and!.
Qed.

Lemma for_datas_serving (f : t Q → K → LoginData.t → outcome (K * t Q)) s k ms g body :
  (∀ s k g d, serving s ms g → login_data_ok d →
    ∃ k' s' g', f s k d = Ok (k', s') ∧ serving s' ms g' ∧ same_srv s s') →
  serving s ms g →
  ∃ k' s' r g', match dec_LoginDatas body with
    | None => Ok (k, s, -1)
    | Some l => '(k, s) ← for_data f s k l; Ok (k, s, 0) end = Ok (k', s', r) ∧
    serving s' ms g' ∧ same_srv s s'.
Proof.
  intros Hf Hse. destruct (dec_LoginDatas body) as [l|] eqn:El; [|eexists _, _, _, g; by split_and!].
  apply dec_datas_law in El.
  destruct (for_data_serving f s k ms g l) as (k' & s' & g' & -> & ? & ?); try done.
  cbn [mbind outcome_bind]. eexists _, _, _, g'. by split_and!.
Qed.

(** No package of a server that is long enough for its headers breaks anything,
    as long as the GNS table has room. *)
Lemma DealPkg_serving s k ms g n :
  serving s ms g → gns_room s → 34 ≤ n → 26 + n ≤ XY_PKG_MAX_LEN →
  ∃ k' s' r ms' g', DealPkg s k 26 n = Ok (k', s', r) ∧ serving s' ms' g' ∧ same_srv s s' ∧
    more (m_ServerID s) ms ms'.
Proof.
  intros Hse Hroom Hn Hm. pose proof (cr_pbuff _ _ _ (se_rep _ _ _ Hse)) as Hpb. unfold DealPkg.
  destruct (mread_total (m_pProcessBuff s) 26 34) as (d34 & H34 & _); [lia..|].
  destruct (xyin_Read_fields _ _ _ H34) as (d1 & d2 & d3 & d4 & d5 & d6 & d7 & _ & _ & _ & _ & _ & _ & _ & _ & ->).
  set (h := XYHeaderIn.mk _ _ _ _ _ _ _). cbn [mbind outcome_bind].
  change XYHeaderIn.GetHeaderLen with 34.
  destruct (mread_total (m_pProcessBuff s) (26 + 34) (n - 34)) as (body & Hbody & _); [lia..|].
  rewrite Hbody. cbn [mbind outcome_bind].
  repeat match goal with |- context [if ?b then _ else _] => destruct b eqn:? end.
  - by apply (OnRegisterRsp_serving s k ms g).
  - by apply (OnUserRegisterRsp_serving s k ms g).
  - by apply (OnLoginRsp_serving s k ms g).
  - unfold OnLoginNotice. destruct (for_datas_serving LoginThere s k ms g body) as (k' & s' & r & g' & -> & ? & ?);
      [intros; by eapply LoginThere_serving|done|]. exists k', s', r, ms, g'. by split_and!.
  - unfold OnDisconnect. destruct (for_datas_serving LogoutThere s k ms g body) as (k' & s' & r & g' & -> & ? & ?);
      [intros; by eapply LogoutThere_serving|done|]. exists k', s', r, ms, g'. by split_and!.
  - destruct (OnLoginSyncReq_serving s k ms g h body Hse) as (k' & s' & r & ms' & ? & ? & ? & ?);
      [apply bswap_range|]. exists k', s', r, ms', g. by split_and!.
  - unfold OnLoginSyncRsp. destruct (for_datas_serving LoginThere s k ms g body) as (k' & s' & r & g' & -> & ? & ?);
      [intros; by eapply LoginThere_serving|done|]. exists k', s', r, ms, g'. by split_and!.
  - destruct (PassOn_ok s k ms g h 26 n body Hse Hbody) as (k' & s' & r & ms' & g' & ? & ? & ? & ? & _);
      [lia|]. exists k', s', r, ms', g'. by split_and!.
Qed.
End sync.
