(* ===== verification/ConnLoop.v ===== *)
(** The upkeep of the connection server: silent connections are released, and
    entries of users long gone are removed; and its event loop, round by
    round. *)
From stdpp Require Import gmap sorting.
From S2P Require Import Prelude Fifo Wire HashList Sweep Kernel ConnInfo BusState BusConn BusRoute.
From S2P Require Import BusFacts BusRun ConnState ConnServe ConnRun ConnFacts ConnInv ConnSteps.
From S2P Require Import ConnDeal ConnSync.
Import CConn CConnServe CConnRun.

#[local] Arguments Z.add : simpl never.
#[local] Arguments Z.eqb : simpl never.
#[local] Arguments Z.ltb : simpl never.
#[local] Arguments Z.leb : simpl never.

(** * How far the iterator is from a connection *)
Section ahead.
Implicit Types (m : gmap Z ClientInfo.t) (it : option Z) (p : Z).

(** The connections an iterator has to pass before it comes to [p], and the
    end of the map. *)
Definition ahead m it p : nat :=
  match it with
  | None => S (size (filter (λ x, x < p) (dom m)))
  | Some q => if decide (q ≤ p) then size (filter (λ x, q ≤ x < p) (dom m))
              else S (size (filter (λ x, q ≤ x ∨ x < p) (dom m)))
  end.

Lemma filter_size_le (P P' : Z → Prop) `{∀ x, Decision (P x), ∀ x, Decision (P' x)} (m m' : gmap Z ClientInfo.t) :
  m' ⊆ m → (∀ x, P' x → P x) → (size (filter P' (dom m')) ≤ size (filter P (dom m)))%nat.
Proof.
  intros Hm HP. apply subseteq_size. intros x [Hx Hd]%elem_of_filter. apply elem_of_filter.
  split; [by apply HP|]. by apply (subseteq_dom _ _ Hm).
Qed.

Lemma filter_size_lt (P P' : Z → Prop) `{∀ x, Decision (P x), ∀ x, Decision (P' x)}
    (m m' : gmap Z ClientInfo.t) q :
  m' ⊆ m → (∀ x, P' x → P x) → is_Some (m !! q) → P q → ¬ P' q →
  (size (filter P' (dom m')) < size (filter P (dom m)))%nat.
Proof.
  intros Hm HP Hq Hpq Hnq. apply subset_size. split.
  - intros x [Hx Hd]%elem_of_filter. apply elem_of_filter.
    split; [by apply HP|]. by apply (subseteq_dom _ _ Hm).
  - intros Hs. apply Hnq. assert (q ∈ filter P' (dom m')) as [? _]%elem_of_filter; [|done].
    apply Hs, elem_of_filter. split; [done|]. by apply elem_of_dom.
Qed.

Lemma filter_size_all (P : Z → Prop) `{∀ x, Decision (P x)} m p :
  is_Some (m !! p) → ¬ P p → (size (filter P (dom m)) < size m)%nat.
Proof.
  intros Hp Hn. rewrite <- size_dom. apply subset_size. split; [by intros x [_ Hx]%elem_of_filter|].
  intros Hs. apply Hn. assert (p ∈ filter P (dom m)) as [? _]%elem_of_filter; [|done].
  by apply Hs, elem_of_dom.
Qed.

Lemma ahead_le m it p : is_Some (m !! p) → (ahead m it p ≤ size m)%nat.
Proof.
  intros Hp. unfold ahead.
  destruct it as [q|]; [case_decide|]; [apply Nat.lt_le_incl| |]; apply (filter_size_all _ m p); done || lia.
Qed.

(** Past the connection it points at, which may be gone from the map by then. *)
Lemma ahead_next m m' q p :
  m' ⊆ m → is_Some (m !! q) → is_Some (m !! p) → q ≠ p →
  (ahead m' (next_key m q) p < ahead m (Some q) p)%nat.
Proof.
  intros Hm Hq Hp Hne. pose proof (next_key_spec m q) as Hn.
  destruct (next_key m q) as [q'|]; cbn [ahead].
  - destruct Hn as (Hq' & Hlt & Hmin). destruct (decide (q ≤ p)).
    + assert (q' ≤ p) by (apply Hmin; [done|lia]). rewrite decide_True by done.
      apply (filter_size_lt _ _ m m' q); done || lia.
    + destruct (decide (q' ≤ p)); [lia|]. apply le_n_S.
      apply (filter_size_lt _ _ m m' q); done || lia.
  - specialize (Hn p Hp) as ?. rewrite decide_False by lia. apply le_n_S.
    apply (filter_size_lt _ _ m m' q); done || lia.
Qed.

Lemma ahead_begin m p : is_Some (m !! p) → (ahead m (begin_key m) p < ahead m None p)%nat.
Proof.
  intros Hp. pose proof (begin_key_spec m) as Hb. destruct (begin_key m) as [q|]; cbn [ahead].
  - destruct Hb as [_ Hmin]. rewrite decide_True by by apply Hmin.
    apply le_n_S. apply filter_size_le; [done|lia].
  - destruct Hp as [c Hc]. rewrite Hb in Hc. done.
Qed.
End ahead.

Section upkeep.
Context {Q K : Type} `{FifoQueue Q} `{KernelLaws K} `{!KernelClock K} `{ConnProtoLaws}.
Hypothesis Hmax : XY_PKG_MAX_LEN ≤ q_max.
Implicit Types (s : t Q) (k : K) (ms : list (list Z)) (g : gmap Z ShmGnsInfo.t)
  (c : ClientInfo.t) (i : ShmGnsInfo.t) (u : Z).

(** * Silent connections *)

Lemma time_now k k' t : k_time k = (k', t) → k_now k ≤ k_now k'.
Proof. intros Ht. apply k_time_now in Ht. lia. Qed.

Lemma ReleaseUser_now s k u p b k' s' : ReleaseUser s k u p b = Ok (k', s') → k_now k ≤ k_now k'.
Proof.
  unfold ReleaseUser. destruct (k_time k) as [k1 t1] eqn:E1. apply time_now in E1.
  intros (ip & _ & (s1 & _ & Hr)%bind_Ok)%bind_Ok. destruct b; [|by injection Hr as <- _].
  destruct (k_time k1) as [k2 t2] eqn:E2. apply time_now in E2.
  apply bind_Ok in Hr as ([s2 r] & _ & [= <- _]). lia.
Qed.

Lemma ReleaseConn_now s k p b k' s' : ReleaseConn s k p b = Ok (k', s') → k_now k ≤ k_now k'.
Proof.
  unfold ReleaseConn. destruct (m_PosConnMap s !! p) as [c|]; [|done].
  destruct (k_epoll_ctl k _ _ _ _) as [k1 r1] eqn:E1. apply k_epoll_now in E1.
  pose proof (k_close_now k1 (ClientInfo.SockID c)) as E2.
  intros ([k3 s3] & Hu & [= <- _])%bind_Ok. destruct (negb _).
  - apply ReleaseUser_now in Hu. lia.
  - injection Hu as <- _. lia.
Qed.

(** A connection of a client that has been silent too long. *)
Definition silent s (now p : Z) c : Prop :=
  is_listen p = false ∧ m_TimeOut s < now - CConnInfo.m_LastActTime (ClientInfo.info c).

(** Connections are left but for those released for good reason. *)
Definition culled s s' (now : Z) : Prop :=
  m_PosConnMap s' ⊆ m_PosConnMap s ∧
  ∀ p c, m_PosConnMap s !! p = Some c → m_PosConnMap s' !! p = Some c ∨ silent s now p c.

Lemma CheckConn_step s k ms g :
  serving s ms g →
  ∃ k' s' ms' g', CheckConn s k = Ok (k', s') ∧ serving s' ms' g' ∧ same_srv s s' ∧
    more (m_ServerID s) ms ms' ∧ k_now k ≤ k_now k' ∧ culled s s' (k_now k') ∧
    ∀ p c, m_PosConnMap s !! p = Some c → silent s (k_now k) p c →
      m_PosConnMap s' !! p = None ∨
      (ahead (m_PosConnMap s') (m_itrCurCheckConn s') p < ahead (m_PosConnMap s) (m_itrCurCheckConn s) p)%nat.
Proof.
  intros Hse. unfold CheckConn. destruct (m_itrCurCheckConn s) as [q|] eqn:Hq.
  2:{ eexists _, _, ms, g. split; [done|]. split_and!; [|by constructor|done|done| |].
      - apply set_iter_serving; [done|apply begin_key_ok].
      - split; [done|by left].
      - intros p c Hp _. right. apply ahead_begin. by exists c. }
  destruct (ck_iter _ _ (se_ok _ _ _ Hse) q Hq) as [d Hd]. rewrite Hd.
  pose proof (set_iter_serving s ms g (next_key (m_PosConnMap s) q) Hse (next_key_ok _ _)) as Hnx.
  assert (∀ k', k_now k ≤ k_now k' → (∀ c, m_PosConnMap s !! q = Some c → ¬ silent s (k_now k) q c) →
    ∃ k2 s2 ms2 g2, Ok (k', set_iter s (next_key (m_PosConnMap s) q)) = Ok (k2, s2) ∧ serving s2 ms2 g2 ∧
      same_srv s s2 ∧ more (m_ServerID s) ms ms2 ∧ k_now k ≤ k_now k2 ∧ culled s s2 (k_now k2) ∧
      ∀ p c, m_PosConnMap s !! p = Some c → silent s (k_now k) p c →
        m_PosConnMap s2 !! p = None ∨
        (ahead (m_PosConnMap s2) (m_itrCurCheckConn s2) p < ahead (m_PosConnMap s) (Some q) p)%nat) as Hgo.
  { intros k' Hk' Hn. eexists _, _, ms, g. split; [done|]. split_and!; [done|by constructor|done|done| |].
    - split; [done|by left].
    - intros p c Hp Hsl. right. apply ahead_next; [done|by exists d|by exists c|].
      intros ->. by apply (Hn c Hp). }
  destruct (is_listen q) eqn:El.
  { apply Hgo; [done|]. intros c _ [? _]. congruence. }
  destruct (check_lookup s ms g d Hse) as [ip ->]. cbn [mbind outcome_bind].
  destruct (k_time k) as [k1 now] eqn:Et. apply k_time_now in Et.
  destruct (Z.ltb_spec (m_TimeOut s) (now - CConnInfo.m_LastActTime (ClientInfo.info d))).
  - destruct (ReleaseConn_serving Hmax s k1 ms g q d true Hse Hd) as (k2 & s2 & ms2 & g2 & Hr & ? & Hrl & ?).
    pose proof (ReleaseConn_now _ _ _ _ _ _ Hr). rewrite Hr. eexists _, _, ms2, g2. split; [done|].
    destruct Hrl as [Hsv Hco Hit _ _ _]. rewrite decide_True in Hit by done.
    split_and!; [done|done|done|lia| |].
    + split; [rewrite Hco; apply delete_subseteq|]. intros p c Hp. rewrite Hco.
      destruct (decide (p = q)) as [->|]; [|left; by rewrite lookup_delete_ne].
      right. rewrite Hd in Hp. injection Hp as <-. split; [done|lia].
    + intros p c Hp _. rewrite Hco, Hit. destruct (decide (q = p)) as [->|]; [left; apply lookup_delete_eq|].
      right. apply ahead_next; [apply delete_subseteq|by exists d|by exists c|done].
  - apply Hgo; [lia|]. intros c Hc [_ ?]. rewrite Hd in Hc. injection Hc as <-. lia.
Qed.

Fixpoint CheckConns (n : nat) s k : outcome (K * t Q) :=
  match n with
  | O => Ok (k, s)
  | S n => '(k, s) ← CheckConn s k; CheckConns n s k
  end.

Lemma CheckConns_step n s k ms g :
  serving s ms g →
  ∃ k' s' ms' g', CheckConns n s k = Ok (k', s') ∧ serving s' ms' g' ∧ same_srv s s' ∧
    more (m_ServerID s) ms ms' ∧ k_now k ≤ k_now k' ∧ culled s s' (k_now k') ∧
    ∀ p c, m_PosConnMap s !! p = Some c → silent s (k_now k) p c →
      (ahead (m_PosConnMap s) (m_itrCurCheckConn s) p < n)%nat → m_PosConnMap s' !! p = None.
Proof.
  revert s k ms g. induction n as [|n IH]; intros s k ms g Hse; cbn [CheckConns].
  { eexists _, _, ms, g. split; [done|]. split_and!; try done; [|lia]. split; [done|by left]. }
  destruct (CheckConn_step s k ms g Hse) as (k1 & s1 & ms1 & g1 & -> & Hse1 & Hs1 & Hm1 & Hk1 & [Hc1 Hc1'] & Ha1).
  cbn [mbind outcome_bind].
  destruct (IH s1 k1 ms1 g1 Hse1) as (k2 & s2 & ms2 & g2 & -> & Hse2 & Hs2 & Hm2 & Hk2 & [Hc2 Hc2'] & Ha2).
  rewrite (sv_id _ _ Hs1) in Hm2. unfold silent in *. rewrite (sv_timeout _ _ Hs1) in *.
  eexists _, _, ms2, g2. split; [done|].
  split_and!; [done|by trans s1|by trans ms1|lia| |].
  - split; [by trans (m_PosConnMap s1)|]. intros p c Hp. destruct (Hc1' p c Hp) as [Hp1|[? ?]]; [|right; split; [done|lia]].
    destruct (Hc2' p c Hp1) as [?|[? ?]]; [by left|right; split; [done|lia]].
  - intros p c Hp [Hl Hsl] Ha. destruct (Ha1 p c Hp) as [Hn|Hlt]; [done| |].
    + apply eq_None_not_Some. intros [c' Hc']. apply (lookup_weaken _ _ _ _ Hc') in Hc2. congruence.
    + destruct (m_PosConnMap s1 !! p) as [c'|] eqn:Hp1.
      * assert (c' = c) as ->. { apply (lookup_weaken _ _ _ _ Hp1) in Hc1. congruence. }
        apply (Ha2 p c Hp1); [split; [done|lia]|lia].
      * apply eq_None_not_Some. intros [c' Hc']. apply (lookup_weaken _ _ _ _ Hc') in Hc2. congruence.
Qed.

(** * Entries of users long gone *)
Definition stale (now : Z) i : Prop :=
  ShmGnsInfo.Status i = GNS_USER_STATUS_UNACTIVE ∧ ShmGnsInfo.LastActiveTime i < now - CONN_INVALID_TIME.

(** One call of [MemFullCallBack], on an entry. *)
Definition gns_test k (e : Z * ShmGnsInfo.t) : K * bool :=
  let '(k, nowTime) := k_time k in
  (k, (ShmGnsInfo.Status e.2 =? GNS_USER_STATUS_UNACTIVE) &&
      (ShmGnsInfo.LastActiveTime e.2 <? u64 (nowTime - CONN_INVALID_TIME))).

(** Times the clock can show. *)
Definition clock_ok (lo hi : Z) : Prop := CONN_INVALID_TIME ≤ lo ∧ hi < 2 ^ 63.

Lemma gns_test_spec k lo hi e :
  lo ≤ k_now k → k_now (gns_test k e).1 ≤ hi → clock_ok lo hi →
  ((gns_test k e).2 = true → stale hi e.2) ∧ (stale lo e.2 → (gns_test k e).2 = true).
Proof.
  unfold gns_test, stale, clock_ok, CONN_INVALID_TIME. destruct (k_time k) as [k1 now] eqn:Et.
  apply k_time_now in Et. cbn [fst snd]. intros. rewrite u64_small by lia.
  rewrite andb_true_iff, Z.eqb_eq, Z.ltb_lt. split; (intros [? ?]; split; [done|lia]).
Qed.

Lemma gns_test_now k e : k_now k ≤ k_now (gns_test k e).1.
Proof. unfold gns_test. destruct (k_time k) as [k1 now] eqn:Et. apply k_time_now in Et. cbn [fst]. lia. Qed.

Lemma MemFullCallBack_test (h : CHashListNoLock.t ShmGnsInfo.t) x k nd :
  aget (CHashListNoLock.m_pstData h) x = Ok nd →
  let e := (CHashListNoLock.KeyVal nd, CHashListNoLock.Data nd) in
  k_now k ≤ k_now (gns_test k e).1 ∧
  MemFullCallBack h x k =
    if (gns_test k e).2
    then '(h, _) ← CHashListNoLock.Remove h (CHashListNoLock.KeyVal nd); Ok (h, (gns_test k e).1)
    else Ok (h, (gns_test k e).1).
Proof.
  intros Hx e. split; [apply gns_test_now|]. unfold MemFullCallBack, gns_test. rewrite Hx.
  cbn [mbind outcome_bind]. by destruct (k_time k) as [k1 now].
Qed.

(** The order of kernels in time. *)
Definition later k k' : Prop := k_now k ≤ k_now k'.
#[export] Instance later_preorder : PreOrder later.
Proof. split; unfold later; [intros ?; lia|intros ???; lia]. Qed.

Definition unactive i : Prop := ShmGnsInfo.Status i = GNS_USER_STATUS_UNACTIVE.

Lemma purged_serving s s' ms g g' :
  serving s ms g → crep s' ms g' → m_ServerID s' = m_ServerID s → m_PosConnMap s' = m_PosConnMap s →
  m_itrCurCheckConn s' = m_itrCurCheckConn s → m_ConnPosCnt s' = m_ConnPosCnt s →
  0 ≤ m_CheckConnPos s' < m_MaxGnsNodeNum s' →
  CHashListNoLock.iIndexNodeNum (m_GnsInfoMap s') = m_MaxGnsNodeNum s' →
  purged g g' unactive → serving s' ms g'.
Proof.
  intros [_ [] Hu] Hrep Hid Hco Hit Hcnt Hpos Hix [Hsub Hg]. constructor; [done| |].
  - constructor; rewrite ?Hco, ?Hit, ?Hcnt; try done.
    intros u i Hi. apply ck_gns. by apply (lookup_weaken _ _ _ _ Hi).
  - rewrite Hid, Hco. intros p c Hc Hne. destruct (Hu p c Hc Hne) as (i & Hi & Ha & ? & ?).
    exists i. split_and!; try done. destruct (Hg _ _ Hi) as [?|Hn]; [done|]. unfold unactive in Hn. by rewrite Ha in Hn.
Qed.

(** What [CheckValid] changes. *)
Record checked s s' : Prop := {
  cv_id : m_ServerID s' = m_ServerID s;
  cv_conns : m_PosConnMap s' = m_PosConnMap s;
  cv_max : m_MaxGnsNodeNum s' = m_MaxGnsNodeNum s;
  cv_timeout : m_TimeOut s' = m_TimeOut s;
  cv_recvq : m_RecvQueue s' = m_RecvQueue s;
  cv_sendq : m_SendQueue s' = m_SendQueue s;
  cv_iter : m_itrCurCheckConn s' = m_itrCurCheckConn s;
}.

Lemma CheckValid_step s k ms g :
  serving s ms g →
  ∃ k' s' g', CheckValid s k = Ok (k', s') ∧ checked s s' ∧ k_now k ≤ k_now k' ∧
    m_CheckConnPos s' = (m_CheckConnPos s + 1) mod m_MaxGnsNodeNum s ∧
    serving s' ms g' ∧
    (clock_ok (k_now k) (k_now k') →
     looked_at (m_MaxGnsNodeNum s) stale (m_CheckConnPos s) (k_now k) (k_now k') g g').
Proof.
  intros Hse. pose proof Hse as [[Hq Hg Hs Hp] Hok _]. unfold CheckValid.
  pose proof (ck_check _ _ Hok) as Hck. pose proof (ck_index _ _ Hok) as Hix.
  destruct (ProcessAll_prune later gns_test MemFullCallBack MemFullCallBack_test (m_GnsInfoMap s) g (m_CheckConnPos s) k Hg) as (h & k' & g' & -> & Hk & Hg' & [_ Hsz] & Hoth & Hnone & Htest);
    [lia|].
  cbn [mbind outcome_bind]. rewrite Hix in *. destruct (Z.eqb_spec (m_MaxGnsNodeNum s) 0); [lia|].
  eexists _, _, g'. split; [done|]. rewrite Z.rem_mod_nonneg by lia.
  assert (∀ gone : ShmGnsInfo.t → Prop,
    (∀ k1 e, k_now k ≤ k_now k1 → k_now (gns_test k1 e).1 ≤ k_now k' → (gns_test k1 e).2 = true → gone e.2) →
    purged g g' gone) as Hpg.
  { intros gone Hgone. split.
    - apply map_subseteq_spec. intros u i Hi. destruct (g !! u) as [j|] eqn:Hj; [|by rewrite Hnone in Hi].
      destruct (decide (u mod m_MaxGnsNodeNum s = m_CheckConnPos s)); [|by rewrite <- Hj, <- Hoth].
      destruct (Htest u j Hj) as (k1 & _ & _ & Hu); [done|]. rewrite Hi in Hu. by destruct (_.2).
    - intros u i Hi. destruct (decide (u mod m_MaxGnsNodeNum s = m_CheckConnPos s)); [|left; by rewrite Hoth].
      destruct (Htest u i Hi) as (k1 & ? & ? & Hu); [done|]. specialize (Hgone k1 (u, i)).
      destruct (gns_test k1 (u, i)).2; [right; by apply Hgone|by left]. }
  split_and!; [by constructor|done|done| |].
  - apply (purged_serving s _ ms g g'); [done|by constructor|done..| | |].
    + apply Z.mod_pos_bound. cbn. lia.
    + cbn [m_GnsInfoMap set_checkpos set_gns m_MaxGnsNodeNum]. by rewrite Hsz.
    + apply Hpg. intros k1 e _ _. unfold gns_test, unactive. destruct (k_time k1). cbn [snd].
      rewrite andb_true_iff, Z.eqb_eq. by intros [? _].
  - intros Hclk. split.
    + apply Hpg. intros k1 e ? ?. by apply (gns_test_spec k1 (k_now k) (k_now k')).
    + intros u i Hi Hu Hst. destruct (Htest u i Hi Hu) as (k1 & ? & ? & ->).
      destruct (gns_test_spec k1 (k_now k) (k_now k') (u, i)) as [_ Ht]; [done..|]. by rewrite Ht.
Qed.

Fixpoint CheckValids (n : nat) s k : outcome (K * t Q) :=
  match n with
  | O => Ok (k, s)
  | S n => '(k, s) ← CheckValid s k; CheckValids n s k
  end.

Lemma stale_le lo hi i : lo ≤ hi → stale lo i → stale hi i.
Proof. intros ? [? ?]. split; [done|lia]. Qed.

Lemma CheckValids_step n s k ms g :
  serving s ms g →
  ∃ k' s' g', CheckValids n s k = Ok (k', s') ∧ checked s s' ∧ k_now k ≤ k_now k' ∧ serving s' ms g' ∧
    (clock_ok (k_now k) (k_now k') →
     swept (m_MaxGnsNodeNum s) stale n (m_CheckConnPos s) (k_now k) (k_now k') g g').
Proof.
  revert s k g. induction n as [|n IH]; intros s k g Hse; cbn [CheckValids];
    pose proof (ck_check _ _ (se_ok _ _ _ Hse)) as Hck.
  { exists k, s, g. split; [done|]. split_and!; [by constructor|done|done|]. intros _.
    apply swept_O. lia. }
  destruct (CheckValid_step s k ms g Hse) as (k1 & s1 & g1 & -> & [] & Hk1 & Hpos & Hse1 & Hv1).
  cbn [mbind outcome_bind].
  destruct (IH s1 k1 g1 Hse1) as (k2 & s2 & g2 & -> & [] & Hk2 & Hse2 & Hv2).
  exists k2, s2, g2. split; [done|]. split_and!; [constructor; congruence|lia|done|].
  intros [Hlo Hhi]. specialize (Hv1 ltac:(by split; lia)). specialize (Hv2 ltac:(by split; lia)).
  rewrite cv_max0, Hpos in Hv2.
  apply (swept_S (m_MaxGnsNodeNum s) stale ltac:(lia) stale_le n _ _ (k_now k1) _ _ g1); [lia|lia|done|done].
Qed.
End upkeep.
