(* ===== verification/ConnEvents.v ===== *)
(** The event loop of the connection server: what becomes of the events of the
    sockets, of the packages in the queue, and of a whole round; and all that
    can happen to the server, as a step relation. *)
From stdpp Require Import gmap sorting.
From S2P Require Import Prelude Fifo Wire HashList Sweep Kernel ConnInfo BusState BusConn BusRoute.
From S2P Require Import BusFacts BusRun ConnState ConnServe ConnRun ConnFacts ConnInv ConnSteps.
From S2P Require Import ConnDeal ConnSync ConnLoop.
Import CConn CConnServe CConnRun.

#[local] Arguments Z.add : simpl never.
#[local] Arguments Z.eqb : simpl never.
#[local] Arguments Z.ltb : simpl never.
#[local] Arguments Z.leb : simpl never.

Section events.
Context {Q K : Type} `{FifoQueue Q} `{KernelLaws K} `{ConnProtoLaws}.
Hypothesis Hmax : XY_PKG_MAX_LEN ≤ q_max.
Implicit Types (s : t Q) (k : K) (ms : list (list Z)) (g : gmap Z ShmGnsInfo.t)
  (c : ClientInfo.t) (i : ShmGnsInfo.t) (u : Z).

(** * Events of the sockets *)

(** One call with the server serving before and after, and no message lost. *)
Definition served s s' ms : Prop :=
  ∃ ms' g', serving s' ms' g' ∧ more (m_ServerID s) ms ms' ∧ same_srv s s'.

Lemma served_intro s s' ms ms' g' :
  serving s' ms' g' → more (m_ServerID s) ms ms' → same_srv s s' → served s s' ms.
Proof. intros. by exists ms', g'. Qed.

Lemma served_trans s s1 s' ms ms1 :
  same_srv s s1 → more (m_ServerID s) ms ms1 → served s1 s' ms1 → served s s' ms.
Proof.
  intros Hs Hm (ms' & g' & ? & Hm' & ?). rewrite (sv_id _ _ Hs) in Hm'. exists ms', g'.
  split; [done|]. split; [by trans ms1|by trans s1].
Qed.

Lemma set_conn_srv s p c : same_srv s (set_conn s p c).
Proof. by constructor. Qed.

(** Releasing always works, for whatever connection there is. *)
Lemma ReleaseConn_served s k ms g p c b :
  serving s ms g → m_PosConnMap s !! p = Some c →
  ∃ k' s', ReleaseConn s k p b = Ok (k', s') ∧ served s s' ms.
Proof.
  intros Hse Hc. destruct (ReleaseConn_serving Hmax s k ms g p c b Hse Hc)
    as (k' & s' & ms' & g' & ? & ? & Hrl & ?). exists k', s'. split; [done|].
  apply (served_intro _ _ _ ms' g'); try done. apply Hrl.
Qed.

Lemma set_conn_released s k ms g p c c' b :
  serving s ms g → m_PosConnMap s !! p = Some c → same_client c c' → conn_wf (ClientInfo.info c') →
  ∃ k' s', ReleaseConn (set_conn s p c') k p b = Ok (k', s') ∧ served s s' ms.
Proof.
  intros Hse Hc Hs Hw. pose proof (set_conn_serving s ms g p c c' Hse Hc Hs Hw) as Hse1.
  destruct (ReleaseConn_served (set_conn s p c') k ms g p c' b Hse1) as (k' & s' & ? & Hsv);
    [apply lookup_insert_eq|].
  exists k', s'. split; [done|]. by apply (served_trans s (set_conn s p c') s' ms ms).
Qed.

(** The packages in the receive buffer are dealt with, and the call returns;
    or one of them is too long for the buffer it is sent from. *)
Lemma recv_loop_served fuel s k ms g p c m o n d :
  serving s ms g → m_PosConnMap s !! p = Some c → CConnInfo.m_RemainRecvData (ClientInfo.info c) = [] →
  mread m o n = Ok d → 0 ≤ n ≤ XY_PKG_MAX_LEN → (Z.to_nat n < fuel)%nat →
  (recv_loop fuel s k p m o n = Fault ∧ ∃ o' n', too_long m o' n') ∨
  ∃ k' s', recv_loop fuel s k p m o n = Ok (k', s') ∧ served s s' ms.
Proof.
  revert s k ms o n d. induction fuel as [|fuel IH]; intros s k ms o n d Hse Hc Hrv Hd Hn Hf; [lia|].
  cbn [recv_loop]. destruct (Z.leb_spec n 0).
  { right. eexists _, _. split; [done|]. by apply (served_intro _ _ _ ms g). }
  rewrite Hc.
  assert (∀ k2 s2 ms2, serving s2 ms2 g → more (m_ServerID s) ms ms2 → same_srv s s2 →
    m_PosConnMap s2 = m_PosConnMap s →
    ∃ k' s', ReleaseConn s2 k2 p true = Ok (k', s') ∧ served s s' ms) as Hrel.
  { intros k2 s2 ms2 Hse2 Hm2 Hs2 Hc2.
    destruct (ReleaseConn_served s2 k2 ms2 g p c true Hse2) as (k' & s' & ? & Hsv); [by rewrite Hc2|].
    exists k', s'. split; [done|]. by apply (served_trans s s2 s' ms ms2). }
  destruct (_ || _).
  2:{ right. cbn [mbind outcome_bind]. rewrite (proj2 (Z.ltb_ge n (-1))) by lia.
      change (false || (-1 =? 0)) with false. cbv iota. change (-1 <? 0) with true. cbv iota.
      by apply (Hrel k s ms). }
  destruct (ProcessPkg_serving Hmax s k ms g p c m o n d Hse Hc Hd Hn)
    as [[-> ?]|(k1 & s1 & r & ms1 & -> & Hse1 & Hm1 & Hs1 & Hc1 & Hr)]; [left; split; [done|by exists o, n]|].
  cbn [mbind outcome_bind].
  destruct ((n <? r) || (r =? 0)) eqn:E.
  - right. rewrite Hc1, Hc. unfold ClientInfo.AddRecvData.
    rewrite (AddRecvData_ok _ _ _ _ d Hd), Hrv. pose proof (mread_zlen _ _ _ _ Hd) as Hz.
    change (zlen (@nil Z) + n) with (0 + n). rewrite (proj2 (Z.ltb_ge XY_MAXBUFF_LEN (0 + n)))
      by (unfold XY_MAXBUFF_LEN, XY_PKG_MAX_LEN in *; lia).
    cbn [mbind outcome_bind app]. eexists _, _. split; [done|]. rewrite <- Hc1 in Hc.
    apply (served_intro _ _ _ ms1 g).
    + apply (set_conn_serving _ _ _ _ c); try done.
      destruct (ck_conn _ _ (se_ok _ _ _ Hse1) p c Hc) as (_ & [] & _). constructor; [done|].
      cbn. unfold XY_MAXBUFF_LEN, XY_PKG_MAX_LEN in *. lia.
    + done.
    + trans s1; [done|apply set_conn_srv].
  - apply orb_false_iff in E as [E1%Z.ltb_ge E2%Z.eqb_neq]. destruct (Z.ltb_spec r 0).
    + right. by apply (Hrel k1 s1 ms1).
    + destruct (IH s1 k1 ms1 (o + r) (n - r) (drop (Z.to_nat r) d) Hse1) as [[-> ?]|(k' & s' & -> & Hsv)];
        try done; [by rewrite Hc1|apply (mread_tail _ _ _ n); [done|lia]|lia|lia|by left|].
      right. exists k', s'. split; [done|]. by apply (served_trans s s1 s' ms ms1).
Qed.

(** A package too long for the send buffer has come in. *)
Definition overlong (m : list Z) : Prop := ∃ o n, too_long m o n.

Lemma OnReadable_served s k ms g m p :
  serving s ms g → zlen m = XY_MAXBUFF_LEN →
  (OnReadable s k m p = Fault ∧ ∃ m', overlong m') ∨
  ∃ k' s' m', OnReadable s k m p = Ok (k', s', m') ∧ zlen m' = XY_MAXBUFF_LEN ∧ served s s' ms.
Proof.
  intros Hse Hm. unfold OnReadable. destruct (m_PosConnMap s !! p) as [c|] eqn:Hc.
  2:{ right. eexists _, _, _. split; [done|]. split; [done|]. by apply (served_intro _ _ _ ms g). }
  destruct (ck_conn _ _ (se_ok _ _ _ Hse) p c Hc) as (_ & Hwf & _). unfold ClientInfo.Recv.
  destruct (Recv_ok k (ClientInfo.info c) m Hwf Hm)
    as (k1 & c1 & m1 & n & r & -> & Hs1 & Ho1 & Hwf1 & Hl1 & Hsd & Hn & Hout & Hr0 & Hr1).
  cbn [mbind outcome_bind]. set (c1' := ClientInfo.set_info c c1).
  assert (same_client c c1') as Hcc by done.
  rewrite (i32_small n) by (unfold XY_MAXBUFF_LEN in *; lia).
  destruct ((r =? 1) || (r <? 0) || (XY_MAXBUFF_LEN <? n)) eqn:E.
  - right. destruct (set_conn_released s k1 ms g p c c1' true Hse Hc Hcc Hwf1) as (k2 & s2 & -> & ?).
    cbn [mbind outcome_bind]. eexists _, _, _. split; [done|]. split; [lia|done].
  - assert (r = 0) as ->.
    { destruct (decide (r = 0)); [done|]. destruct (Hr1 n0) as [[-> | ->] _]; done. }
    destruct Hr0 as (He & d & Hd & _); [done|].
    destruct (recv_loop_served (S (Z.to_nat n)) (set_conn s p c1') k1 ms g p c1' m1 0 n _
      (set_conn_serving s ms g p c c1' Hse Hc Hcc Hwf1) (lookup_insert_eq _ _ _) He Hd)
      as [[-> (o' & n' & ?)]|(k2 & s2 & -> & Hsv)]; [unfold XY_MAXBUFF_LEN, XY_PKG_MAX_LEN in *; lia|lia| |].
    + left. split; [done|]. by exists m1, o', n'.
    + right. cbn [mbind outcome_bind]. eexists _, _, _. split; [done|]. split; [lia|].
      by apply (served_trans s (set_conn s p c1') s2 ms ms).
Qed.

Lemma OnWritable_served s k ms g p :
  serving s ms g → ∃ k' s', OnWritable s k p = Ok (k', s') ∧ served s s' ms.
Proof.
  intros Hse. unfold OnWritable. destruct (m_PosConnMap s !! p) as [c|] eqn:Hc.
  2:{ eexists _, _. split; [done|]. by apply (served_intro _ _ _ ms g). }
  destruct (ck_conn _ _ (se_ok _ _ _ Hse) p c Hc) as (_ & Hwf & _).
  unfold ClientInfo.SendRemainData.
  destruct (CConnInfo.SendRemainData k (ClientInfo.info c)) as [[k1 c1] r] eqn:Es.
  apply SendRemainData_ok in Es as (Hs1 & _ & Hwf1 & _); [|done].
  set (c1' := ClientInfo.set_info c c1). assert (same_client c c1') as Hcc by done.
  pose proof (set_conn_serving s ms g p c c1' Hse Hc Hcc Hwf1) as Hse1.
  destruct (r =? 1); [|destruct (negb (r =? 0))].
  - eexists _, _. split; [done|]. by apply (served_intro _ _ _ ms g).
  - by apply (set_conn_released s k1 ms g p c c1').
  - destruct (k_epoll_ctl k1 _ _ _ _) as [k2 r2]. eexists _, _. split; [done|].
    by apply (served_intro _ _ _ ms g).
Qed.

(** * All that can happen *)

(** What no event changes. *)
Record same_site s s' : Prop := {
  ss_id : m_ServerID s' = m_ServerID s;
  ss_recvq : m_RecvQueue s' = m_RecvQueue s;
  ss_max : m_MaxGnsNodeNum s' = m_MaxGnsNodeNum s;
}.

#[export] Instance same_site_refl : Reflexive same_site.
Proof. by constructor. Qed.
#[export] Instance same_site_trans : Transitive same_site.
Proof. intros ??? [] []. constructor; congruence. Qed.

Definition works s s' ms : Prop :=
  ∃ ms' g', serving s' ms' g' ∧ more (m_ServerID s) ms ms' ∧ same_site s s'.

Lemma served_works s s' ms : served s s' ms → works s s' ms.
Proof. intros (ms' & g' & ? & ? & []). exists ms', g'. split_and!; [done..|by constructor]. Qed.

(** There are fewer connections than numbers for them. *)
Definition conn_room s : Prop := Z.of_nat (size (m_PosConnMap s)) < 2 ^ 32 - 1 - CLIENT_SOCK_CPOS_MIN.

Lemma AcceptConn_works s k ms g p type :
  serving s ms g → conn_room s → ∃ k' s' r, AcceptConn s k p type = Ok (k', s', r) ∧ works s s' ms.
Proof.
  intros Hse Hroom. destruct (AcceptConn_serving s k ms g p type Hse Hroom) as (k' & s' & r & Ha & Hse' & _).
  exists k', s', r. split; [done|]. exists ms, g. split_and!; [done..|].
  revert Ha. unfold AcceptConn. destruct (m_PosConnMap s !! p) as [l|]; [|by intros [= _ <- _]].
  destruct (k_accept k _) as [[k1 fd] ra]. destruct (0 <? fd); [|by intros [= _ <- _]].
  destruct (NextPos_ok s g (se_ok _ _ _ Hse) Hroom) as (cnt & q & -> & _). cbn [mbind outcome_bind].
  destruct (k_fcntl k1 fd F_GETFL 0) as [k2 fl]. destruct (fl =? -1); [by intros [= _ <- _]|].
  destruct (k_fcntl k2 fd F_SETFL _) as [k3 r3]. destruct (r3 =? -1); [by intros [= _ <- _]|].
  destruct (k_epoll_ctl k3 _ _ _ _) as [k4 r4]. destruct (negb (r4 =? 0)); [by intros [= _ <- _]|].
  destruct (ClientInfo.New k4 _ _ _ _ _) as [k5 c]. unfold insert_conn. cbn [m_PosConnMap set_cnt].
  destruct (m_PosConnMap s !! q); [|by intros [= _ <- _]].
  destruct (k_epoll_ctl k5 _ _ _ _) as [k6 r6]. by intros [= _ <- _].
Qed.

Lemma OnEvent_works s k ms g m ev :
  serving s ms g → conn_room s → zlen m = XY_MAXBUFF_LEN →
  (OnEvent s k m ev = Fault ∧ ∃ m', overlong m') ∨
  ∃ k' s' m', OnEvent s k m ev = Ok (k', s', m') ∧ zlen m' = XY_MAXBUFF_LEN ∧ works s s' ms.
Proof.
  intros Hse Hroom Hm. destruct ev as [ev p]. cbn [OnEvent].
  assert (works s s ms) as Hsame by (exists ms, g; by split_and!).
  assert (∀ o, (∃ k' s', o = Ok (k', s') ∧ served s s' ms) →
    ∃ k' s' m', ('(k, s) ← o; Ok (k, s, m)) = Ok (k', s', m') ∧ zlen m' = XY_MAXBUFF_LEN ∧ works s s' ms) as Hlift.
  { intros o (k' & s' & -> & Hs%served_works). by exists k', s', m. }
  destruct (is_listen p).
  { right. destruct (CBusRun.has_event ev EPOLLIN); [|by exists k, s, m].
    destruct (AcceptConn_works s k ms g p CONN_UNAUTH Hse Hroom) as (k' & s' & r & -> & ?).
    by exists k', s', m. }
  destruct (m_PosConnMap s !! p) as [c|] eqn:Hc; [|right; by exists k, s, m].
  destruct (_ || _); [right; by apply Hlift; eapply ReleaseConn_served|].
  destruct (CBusRun.has_event ev EPOLLIN).
  { destruct (OnReadable_served s k ms g m p Hse Hm) as [?|(k' & s' & m' & ? & ? & ?%served_works)];
      [by left|right; by exists k', s', m']. }
  right. destruct (CBusRun.has_event ev EPOLLOUT); [by eapply Hlift, OnWritable_served|by exists k, s, m].
Qed.

Lemma DealPkg_short s k n k' s' r : DealPkg s k 26 n = Ok (k', s', r) → 34 ≤ n.
Proof.
  destruct (decide (34 ≤ n)); [done|]. unfold DealPkg.
  intros ([h x] & _ & Hd)%bind_Ok. exfalso. revert Hd.
  change XYHeaderIn.GetHeaderLen with 34. rewrite (mread_fault (m_pProcessBuff s) (26 + 34) (n - 34)) by lia.
  cbv zeta. cbn [mbind outcome_bind].
  repeat (destruct (_ =? _); [done|]). unfold PassOn.
  destruct (XYHeader.Write _ _ _) as [[buf y]| |]; cbn [mbind outcome_bind]; try done.
  change XYHeaderIn.GetHeaderLen with 34. rewrite (mread_fault (m_pProcessBuff s) (26 + 34) (n - 34)) by lia. done.
Qed.
End events.
