(* ===== verification/ConnReach.v ===== *)
(** The connection server as a transition system: its loop's calls, the queues
    it shares with the bus and the kernel change its state.  What is reachable
    from a started server serves, and the loop takes only such steps. *)
From stdpp Require Import gmap sorting relations.
From S2P Require Import Prelude Fifo Wire HashList Sweep Kernel ConnInfo BusState BusConn BusRoute.
From S2P Require Import BusFacts BusRun ConnState ConnServe ConnRun ConnFacts ConnInv ConnSteps.
From S2P Require Import ConnDeal ConnSync ConnLoop ConnEvents.
Import CConn CConnServe CConnRun.

#[local] Arguments Z.add : simpl never.
#[local] Arguments Z.eqb : simpl never.
#[local] Arguments Z.ltb : simpl never.
#[local] Arguments Z.leb : simpl never.

Section reach.
Context {Q K : Type} `{FifoQueue Q} `{KernelLaws K} `{!KernelClock K} `{ConnProtoLaws}.
Hypothesis Hmax : XY_PKG_MAX_LEN ≤ q_max.
Implicit Types (s : t Q) (k : K) (ms rs : list (list Z)) (g : gmap Z ShmGnsInfo.t)
  (c : ClientInfo.t) (i : ShmGnsInfo.t) (u : Z).

(** * Steps *)
Inductive step : K * t Q → K * t Q → Prop :=
  | step_event k s m ev k' s' m' :
      zlen m = XY_MAXBUFF_LEN → OnEvent s k m ev = Ok (k', s', m') → step (k, s) (k', s')
  | step_deal k s q n d buf k' s' r :
      q_out (m_RecvQueue s) XY_PKG_MAX_LEN = Ok (q, 0, n, d) → mwrite (m_pProcessBuff s) 0 d = Ok buf →
      DealPkg (set_pbuff (set_recvq s q) buf) k BusHeader.GetHeaderLen (n - BusHeader.GetHeaderLen)
        = Ok (k', s', r) →
      step (k, s) (k', s')
  | step_no_pkg k s q Ret n d buf :
      q_out (m_RecvQueue s) XY_PKG_MAX_LEN = Ok (q, Ret, n, d) → Ret ≠ 0 →
      mwrite (m_pProcessBuff s) 0 d = Ok buf → step (k, s) (k, set_pbuff (set_recvq s q) buf)
  | step_state k s s' r : SendStateMessage s = Ok (s', r) → step (k, s) (k, s')
  | step_check k s k' s' : CheckConn s k = Ok (k', s') → step (k, s) (k', s')
  | step_valid k s k' s' : CheckValid s k = Ok (k', s') → step (k, s) (k', s')
  (** the bus puts packages, of any kind, into one queue and empties the other *)
  | step_bus_in k s q rs :
      q_rep q rs → Forall (λ d, zlen d ≤ XY_PKG_MAX_LEN) rs → step (k, s) (k, set_recvq s q)
  | step_bus_out k s q ms : q_rep q ms → step (k, s) (k, set_sendq s q)
  (** data come and go on the sockets, and time passes *)
  | step_kernel k k' s : step (k, s) (k', s).

(** The tables are not full. *)
Definition roomy s : Prop := conn_room s ∧ gns_room s.

(** A step from a state whose tables are not full. *)
Definition room_step (x y : K * t Q) : Prop := roomy x.2 ∧ step x y.

(** The server serves, and the queue from the bus holds packages. *)
Definition alive s : Prop :=
  ∃ ms g rs, serving s ms g ∧ q_rep (m_RecvQueue s) rs ∧ Forall (λ d, zlen d ≤ XY_PKG_MAX_LEN) rs.

Lemma works_alive s s' ms rs :
  q_rep (m_RecvQueue s) rs → Forall (λ d, zlen d ≤ XY_PKG_MAX_LEN) rs → works s s' ms → alive s'.
Proof. intros Hr Hf (ms' & g' & Hse & _ & []). exists ms', g', rs. by rewrite ss_recvq. Qed.

Lemma set_recvq_serving s ms g q : serving s ms g → serving (set_recvq s q) ms g.
Proof. intros [[] [] ?]. constructor; [by constructor|by constructor|done]. Qed.

(** A package taken from the queue lies in the process buffer. *)
Lemma q_out_alive s ms g rs :
  serving s ms g → q_rep (m_RecvQueue s) rs → Forall (λ d, zlen d ≤ XY_PKG_MAX_LEN) rs →
  ∃ q Ret n d rs' buf, q_out (m_RecvQueue s) XY_PKG_MAX_LEN = Ok (q, Ret, n, d) ∧
    mwrite (m_pProcessBuff s) 0 d = Ok buf ∧ q_rep q rs' ∧ Forall (λ d, zlen d ≤ XY_PKG_MAX_LEN) rs' ∧
    serving (set_pbuff (set_recvq s q) buf) ms g ∧
    (Ret = 0 → n = zlen d ∧ zlen d ≤ XY_PKG_MAX_LEN ∧ rs = d :: rs') ∧ (Ret ≠ 0 → rs = []).
Proof.
  intros Hse Hr Hf. pose proof (cr_pbuff _ _ _ (se_rep _ _ _ Hse)) as Hpb.
  destruct rs as [|d rs].
  - destruct (q_out_empty (m_RecvQueue s) XY_PKG_MAX_LEN Hr) as (q & m & -> & Hr' & _); [done|].
    destruct (mwrite_total (m_pProcessBuff s) [] 0) as (buf & Hw & Hz); [done|rewrite Hpb; done|].
    exists q, Q_EMPTY, m, [], [], buf. split_and!; try done.
    apply set_pbuff_serving; [by apply set_recvq_serving|]. by rewrite Hz.
  - apply Forall_cons in Hf as [Hd Hf].
    destruct (q_out_ok (m_RecvQueue s) d rs XY_PKG_MAX_LEN Hr) as (q & -> & Hr' & _);
      [split; [done|unfold XY_PKG_MAX_LEN; lia]|].
    destruct (mwrite_total (m_pProcessBuff s) d 0) as (buf & Hw & Hz); [done|lia|].
    exists q, Q_OK, (zlen d), d, rs, buf. split_and!; try done.
    apply set_pbuff_serving; [by apply set_recvq_serving|]. by rewrite Hz.
Qed.

Lemma q_rep_cap s ms g q ms' : serving s ms g → q_rep q ms' → serving (set_sendq s q) ms' g.
Proof. intros [[] [] ?] ?. constructor; [by constructor|by constructor|done]. Qed.

Lemma checked_alive s s' ms g rs :
  q_rep (m_RecvQueue s) rs → Forall (λ d, zlen d ≤ XY_PKG_MAX_LEN) rs → checked s s' → serving s' ms g →
  alive s'.
Proof. intros ? ? [] ?. exists ms, g, rs. by rewrite cv_recvq. Qed.

(** Each step keeps the server alive. *)
Lemma step_alive x y : room_step x y → alive x.2 → alive y.2.
Proof.
  intros [[Hcr Hgr] Hst] (ms & g & rs & Hse & Hr & Hf).
  destruct Hst as [k s m ev k' s' m' Hm He|k s q n d buf k' s' r Hq Hw Hd|k s q Ret n d buf Hq HR Hw
    |k s s' r He|k s k' s' He|k s k' s' He|k s q rs' Hq Hf'|k s q ms' Hq|k k' s]; cbn [fst snd] in *.
  - destruct (OnEvent_works Hmax s k ms g m ev Hse Hcr Hm) as [[Hf' _]|(k2 & s2 & m2 & He' & _ & Hw)]; [congruence|].
    rewrite He in He'. injection He' as <- <- <-. by apply (works_alive s s' ms rs).
  - destruct (q_out_alive s ms g rs Hse Hr Hf)
      as (q2 & Ret & n2 & d2 & rs' & buf2 & Hq2 & Hw2 & Hr2 & Hf2 & Hse2 & Hn & _).
    rewrite Hq in Hq2. injection Hq2 as <- <- <- <-. rewrite Hw in Hw2. injection Hw2 as <-.
    destruct Hn as (-> & Hle & _); [done|]. pose proof (DealPkg_short _ _ _ _ _ _ Hd) as H34.
    change BusHeader.GetHeaderLen with 26 in *.
    destruct (DealPkg_serving Hmax _ k ms g (zlen d - 26) Hse2) as (k2 & s2 & r2 & ms2 & g2 & Hd2 & Hse3 & [] & _);
      [done|done|lia|].
    rewrite Hd in Hd2. injection Hd2 as <- <- <-. exists ms2, g2, rs'. by rewrite sv_recvq.
  - destruct (q_out_alive s ms g rs Hse Hr Hf)
      as (q2 & Ret2 & n2 & d2 & rs' & buf2 & Hq2 & Hw2 & Hr2 & Hf2 & Hse2 & _).
    rewrite Hq in Hq2. injection Hq2 as <- <- <- <-. rewrite Hw in Hw2. injection Hw2 as <-.
    by exists ms, g, rs'.
  - destruct (SendStateMessage_ok Hmax s ms g (se_rep _ _ _ Hse)) as (s2 & r2 & He2 & Hs & Hr2).
    rewrite He in He2. injection He2 as <- <-. pose proof (sent_serving _ _ _ _ _ Hse Hs Hr2).
    eexists _, g, rs. split; [done|]. by rewrite (sv_recvq _ _ (st_srv _ _ Hs)).
  - destruct (CheckConn_serving Hmax s k ms g Hse) as (k2 & s2 & ms2 & g2 & He2 & Hse2 & [] & _).
    rewrite He in He2. injection He2 as <- <-. exists ms2, g2, rs. by rewrite sv_recvq.
  - destruct (CheckValid_step s k ms g Hse) as (k2 & s2 & g2 & He2 & Hc & _ & _ & Hse2 & _).
    rewrite He in He2. injection He2 as <- <-. by apply (checked_alive s s' ms g2 rs).
  - exists ms, g, rs'. split_and!; [by apply set_recvq_serving|done..].
  - exists ms', g, rs. split_and!; [by eapply q_rep_cap|done..].
  - by exists ms, g, rs.
Qed.

Lemma steps_alive x y : rtc room_step x y → alive x.2 → alive y.2.
Proof. induction 1 as [|x y z Hs _ IH]; [done|]. intros Hx. by apply IH, (step_alive x). Qed.

(** * The loop *)
Lemma mwrite_len {A} (m d m' : list A) o : mwrite m o d = Ok m' → zlen m' = zlen m.
Proof.
  unfold mwrite. destruct (in_bounds m o (zlen d)) eqn:E; [|done]. apply in_bounds_spec in E.
  intros [= <-]. unfold zlen in *. rewrite !length_app, length_take, length_drop. lia.
Qed.

Lemma PrependRemain_len (c c' : CConnInfo.t) m n m' n' :
  CConnInfo.PrependRemain c m n = Ok (c', m', n') → zlen m' = zlen m.
Proof.
  unfold CConnInfo.PrependRemain. destruct (negb _); [|by intros [= _ <- _]].
  intros (b & Hw & [= _ <- _])%bind_Ok. by eapply mwrite_len.
Qed.

Lemma Recv_len k (c c' : CConnInfo.t) m n k' m' n' r :
  CConnInfo.Recv k c m n = Ok (k', c', m', n', r) → zlen m' = zlen m.
Proof.
  unfold CConnInfo.Recv. destruct (_ && _); [by intros [= _ _ <- _ _]|].
  destruct (if negb _ then _ else _) as [pos len]. destruct (k_read k _ _) as [[[k1 got] e] d].
  intros (b & Hw%mwrite_len & Hb)%bind_Ok. revert Hb. rewrite <- Hw. destruct (0 <? got).
  - destruct (k_time k1) as [k2 now]. intros ([[c2 b2] l2] & Hp%PrependRemain_len & [= _ _ <- _ _])%bind_Ok. done.
  - destruct (got =? 0); [by intros [= _ _ <- _ _]|]. destruct (CConnInfo.would_block e); [|by intros [= _ _ <- _ _]].
    intros ([[c2 b2] l2] & Hp%PrependRemain_len & [= _ _ <- _ _])%bind_Ok. done.
Qed.

(** Events leave the receive buffer as long as it is. *)
Lemma OnEvent_len s k m ev k' s' m' : OnEvent s k m ev = Ok (k', s', m') → zlen m' = zlen m.
Proof.
  destruct ev as [ev p]. cbn [OnEvent]. destruct (is_listen p).
  { destruct (CBusRun.has_event ev EPOLLIN); [|by intros [= _ _ <-]].
    by intros ([[k1 s1] r1] & _ & [= _ _ <-])%bind_Ok. }
  destruct (m_PosConnMap s !! p) as [c|] eqn:Hc; [|by intros [= _ _ <-]].
  destruct (_ || _); [by intros ([k1 s1] & _ & [= _ _ <-])%bind_Ok|].
  destruct (CBusRun.has_event ev EPOLLIN).
  - unfold OnReadable. rewrite Hc.
    intros ([[[[k1 c1] m1] n1] r1] & Hr & Ho)%bind_Ok. unfold ClientInfo.Recv in Hr.
    apply bind_Ok in Hr as ([[[[k2 i2] m2] n2] r2] & Hr%Recv_len & [= _ _ <- _ _]). rewrite <- Hr.
    revert Ho. destruct (_ || _); by intros ([k3 s3] & _ & [= _ _ <-])%bind_Ok.
  - destruct (CBusRun.has_event ev EPOLLOUT); [|by intros [= _ _ <-]].
    by intros ([k1 s1] & _ & [= _ _ <-])%bind_Ok.
Qed.

Lemma OnEvents_steps s k m evs k' s' m' :
  zlen m = XY_MAXBUFF_LEN →
  OnEvents s k m evs = Ok (k', s', m') → rtc step (k, s) (k', s') ∧ zlen m' = XY_MAXBUFF_LEN.
Proof.
  intros Hm. revert s k m Hm. induction evs as [|ev evs IH]; intros s k m Hm; cbn [OnEvents].
  - by intros [= <- <- <-].
  - intros ([[k1 s1] m1] & He & Ho)%bind_Ok. pose proof (OnEvent_len _ _ _ _ _ _ _ He) as Hm1.
    destruct (IH s1 k1 m1) as [Hs ?]; [lia|done|]. split; [|done].
    eapply rtc_l; [exact (step_event _ _ _ _ _ _ _ Hm He)|done].
Qed.

Lemma DealQueue_steps n s k k' s' : DealQueue n s k = Ok (k', s') → rtc step (k, s) (k', s').
Proof.
  revert s k. induction n as [|n IH]; intros s k; cbn [DealQueue]; [by intros [= <- <-]|].
  intros ([[[q Ret] len] d] & Hq & (buf & Hw & Hd)%bind_Ok)%bind_Ok.
  destruct (Z.eqb_spec Ret 0) as [->|HR]; cbn [negb] in Hd.
  - apply bind_Ok in Hd as ([[k1 s1] r] & Hd & Hrest).
    eapply rtc_l; [exact (step_deal _ _ _ _ _ _ _ _ _ Hq Hw Hd)|by apply IH].
  - injection Hd as <- <-. apply rtc_once. exact (step_no_pkg _ _ _ _ _ _ _ Hq HR Hw).
Qed.

Lemma RunOnce_steps s k last m evs k' s' last' m' :
  zlen m = XY_MAXBUFF_LEN → RunOnce s k last m evs = Ok (k', s', last', m') →
  rtc step (k, s) (k', s') ∧ zlen m' = XY_MAXBUFF_LEN.
Proof.
  intros Hm. unfold RunOnce. intros ([[k1 s1] m1] & (He & Hm1)%OnEvents_steps & Hr)%bind_Ok; [|done].
  apply bind_Ok in Hr as ([k2 s2] & Hd%DealQueue_steps & Hr).
  destruct (k_time k2) as [k3 now]. apply bind_Ok in Hr as ([s3 l3] & Hst & Hr).
  apply bind_Ok in Hr as ([k4 s4] & Hc & Hr). apply bind_Ok in Hr as ([k5 s5] & Hv & [= <- <- _ <-]).
  split; [|done]. trans (k1, s1); [done|]. trans (k2, s2); [done|].
  eapply rtc_l; [apply (step_kernel k2 k3)|].
  trans (k3, s3).
  { destruct (_ <=? _); [|by injection Hst as <- _].
    apply bind_Ok in Hst as ([s6 r] & Hs & [= <- _]). apply rtc_once. exact (step_state _ _ _ _ Hs). }
  eapply rtc_l; [exact (step_check _ _ _ _ Hc)|]. apply rtc_once. exact (step_valid _ _ _ _ Hv).
Qed.

Lemma Run_steps s k last m rounds k' s' last' m' :
  zlen m = XY_MAXBUFF_LEN → Run s k last m rounds = Ok (k', s', last', m') → rtc step (k, s) (k', s').
Proof.
  revert s k last m. induction rounds as [|evs rounds IH]; intros s k last m Hm; cbn [Run].
  - by intros [= <- <- _ _].
  - intros ([[[k1 s1] l1] m1] & (Hs & Hm1)%RunOnce_steps & Hr)%bind_Ok; [|done].
    trans (k1, s1); [done|]. by eapply IH.
Qed.

(** ** Rounds in which nothing arrives *)

(** The message that tells the other servers this one is there. *)
Definition online_msg (sid : Z) : list Z :=
  let body := enc_StateChange sid BUS_SVR_ONLINE in
  msg_bytes (srv_header sid Cmd_StateChange 0 TO_SRV 0 (zlen body)) body.

Lemma state_sent s ms g :
  serving s ms g →
  ∃ s' r, SendStateMessage s = Ok (s', r) ∧ sent s s' ∧
    serving s' (emit (q_cap (m_SendQueue s)) ms (online_msg (m_ServerID s))) g ∧
    more (m_ServerID s) ms (emit (q_cap (m_SendQueue s)) ms (online_msg (m_ServerID s))).
Proof.
  intros Hse. destruct (SendStateMessage_ok Hmax s ms g (se_rep _ _ _ Hse)) as (s' & r & He & Hs & Hr).
  exists s', r. split; [done|]. split; [done|]. split; [by eapply sent_serving|].
  apply emit_more. unfold online_msg. rewrite zlen_msg_bytes. intros. by apply srv_msg_sendable.
Qed.

(** The state message is sent when it is due. *)
Definition after_state s ms (now last : Z) : list (list Z) :=
  if m_StateTime s <=? now - last then emit (q_cap (m_SendQueue s)) ms (online_msg (m_ServerID s)) else ms.

Lemma after_state_more s ms g now last :
  serving s ms g → more (m_ServerID s) ms (after_state s ms now last).
Proof.
  intros Hse. unfold after_state. destruct (_ <=? _); [|done].
  by destruct (state_sent s ms g Hse) as (? & ? & _ & _ & _ & ?).
Qed.

(** One round: one call of [CheckConn], one of [CheckValid], the state message
    when it is due. *)
Lemma idle_round s k last m ms g :
  serving s ms g → q_rep (m_RecvQueue s) [] →
  let now := (k_time k).2 in
  ∃ k' s' ms' g',
    RunOnce s k last m [] = Ok (k', s', if m_StateTime s <=? now - last then now else last, m) ∧
    serving s' ms' g' ∧ q_rep (m_RecvQueue s') [] ∧ m_ServerID s' = m_ServerID s ∧
    m_TimeOut s' = m_TimeOut s ∧ m_MaxGnsNodeNum s' = m_MaxGnsNodeNum s ∧
    more (m_ServerID s) (after_state s ms now last) ms' ∧ k_now k ≤ k_now k' ∧ culled s s' (k_now k') ∧
    m_CheckConnPos s' = (m_CheckConnPos s + 1) mod m_MaxGnsNodeNum s ∧
    ∀ p c, m_PosConnMap s !! p = Some c → silent s (k_now k) p c →
      m_PosConnMap s' !! p = None ∨
      (ahead (m_PosConnMap s') (m_itrCurCheckConn s') p < ahead (m_PosConnMap s) (m_itrCurCheckConn s) p)%nat.
Proof.
  intros Hse Hq now. unfold RunOnce. cbn [OnEvents mbind outcome_bind]. change MAX_QUEUEPKG_PER_LOOP with 100%nat.
  destruct (q_out_empty (m_RecvQueue s) XY_PKG_MAX_LEN Hq) as (q & n & Hout & Hq' & _); [done|].
  set (s1 := set_pbuff (set_recvq s q) (m_pProcessBuff s)).
  assert (serving s1 ms g) as Hse1.
  { apply set_pbuff_serving; [by apply set_recvq_serving|]. apply (cr_pbuff _ _ _ (se_rep _ _ _ Hse)). }
  assert (DealQueue 100 s k = Ok (k, s1)) as ->.
  { cbn [DealQueue]. rewrite Hout. cbn [mbind outcome_bind]. by rewrite mwrite_none. }
  cbn [mbind outcome_bind]. unfold now, after_state. destruct (k_time k) as [k1 t] eqn:Et. cbn [snd].
  pose proof (k_time_now _ _ _ Et) as Ht.
  assert (∃ s2 ms2, (if m_StateTime s1 <=? t - last then '(s, _) ← SendStateMessage s1; Ok (s, t) else Ok (s1, last))
      = Ok (s2, if m_StateTime s <=? t - last then t else last) ∧ sent s1 s2 ∧ serving s2 ms2 g ∧
      ms2 = if m_StateTime s <=? t - last then emit (q_cap (m_SendQueue s)) ms (online_msg (m_ServerID s)) else ms)
    as (s2 & ms2 & -> & Hsent & Hse2 & ->).
  { change (m_StateTime s1) with (m_StateTime s). destruct (m_StateTime s <=? t - last).
    - destruct (state_sent s1 ms g Hse1) as (s2 & r & -> & ? & ? & _). eexists s2, _. done.
    - exists s1, ms. split_and!; [done| |done|done]. by constructor. }
  cbn [mbind outcome_bind]. destruct Hsent as [Hsv Hcn Hit _ _].
  destruct (CheckConn_step Hmax s2 k1 _ g Hse2) as (k3 & s3 & ms3 & g3 & -> & Hse3 & Hs3 & Hm3 & Hk3 & [Hc3 Hc3'] & Ha3).
  cbn [mbind outcome_bind].
  destruct (CheckValid_step s3 k3 ms3 g3 Hse3) as (k4 & s4 & g4 & -> & [Vid Vco Vmax Vto Vrq _ Vit] & Hk4 & Hpos & Hse4 & _).
  cbn [mbind outcome_bind]. destruct Hsv as [Aid _ _ Ack Ato Arq Amax _ _], Hs3 as [Bid _ _ Bck Bto Brq Bmax _ _]. exists k4, s4, ms3, g4. unfold silent, culled in *.
  change (m_PosConnMap s1) with (m_PosConnMap s) in Hcn.
  change (m_itrCurCheckConn s1) with (m_itrCurCheckConn s) in Hit.
  change (m_TimeOut s1) with (m_TimeOut s) in *. rewrite Hcn, Hit, ?Ato in *.
  split; [done|]. split; [done|]. split_and!.
  - by rewrite Vrq, Brq, Arq.
  - by rewrite Vid, Bid, Aid.
  - by rewrite Vto, Bto.
  - by rewrite Vmax, Bmax, Amax.
  - by rewrite Aid in Hm3.
  - lia.
  - by rewrite Vco.
  - intros p c Hp. rewrite Vco. destruct (Hc3' p c Hp) as [?|[? ?]]; [by left|right; split; [done|lia]].
  - by rewrite Hpos, Bmax, Amax, Bck, Ack.
  - intros p c Hp [Hl Hsl]. rewrite Vco, Vit. apply (Ha3 p c Hp). split; [done|lia].
Qed.

(** Any number of such rounds. *)
Lemma idle_rounds n s k last m ms g :
  serving s ms g → q_rep (m_RecvQueue s) [] →
  ∃ k' s' last' ms' g', Run s k last m (replicate n []) = Ok (k', s', last', m) ∧ serving s' ms' g' ∧
    more (m_ServerID s) (if decide (n = 0%nat) then ms else after_state s ms (k_time k).2 last) ms' ∧
    k_now k ≤ k_now k' ∧ culled s s' (k_now k') ∧
    m_CheckConnPos s' = (m_CheckConnPos s + Z.of_nat n) mod m_MaxGnsNodeNum s ∧
    ∀ p c, m_PosConnMap s !! p = Some c → silent s (k_now k) p c →
      (ahead (m_PosConnMap s) (m_itrCurCheckConn s) p < n)%nat → m_PosConnMap s' !! p = None.
Proof.
  revert s k last ms g. induction n as [|n IH]; intros s k last ms g Hse Hq; cbn [replicate Run].
  { pose proof (ck_check _ _ (se_ok _ _ _ Hse)) as Hck. exists k, s, last, ms, g.
    split_and!; try done; [split; [done|by left]| |lia]. rewrite Z.mod_small; lia. }
  destruct (idle_round s k last m ms g Hse Hq)
    as (k1 & s1 & ms1 & g1 & -> & Hse1 & Hq1 & Hid & Hto & Hmx & Hm1 & Hk1 & [Hc1 Hc1'] & Hp1 & Ha1).
  cbn [mbind outcome_bind]. set (last1 := if m_StateTime s <=? (k_time k).2 - last then (k_time k).2 else last).
  destruct (IH s1 k1 last1 ms1 g1 Hse1 Hq1)
    as (k2 & s2 & last2 & ms2 & g2 & -> & Hse2 & Hm2 & Hk2 & [Hc2 Hc2'] & Hp2 & Ha2).
  unfold silent, culled in *. rewrite Hid, Hto, Hmx, Hp1 in *. exists k2, s2, last2, ms2, g2.
  pose proof (ck_check _ _ (se_ok _ _ _ Hse)) as Hck.
  split_and!; [done|done| |lia|by trans (m_PosConnMap s1)| | |].
  - rewrite decide_False by done. trans ms1; [done|]. destruct (decide (n = 0%nat)); [done|].
    pose proof (after_state_more s1 ms1 g1 (k_time k1).2 last1 Hse1) as Hmo. rewrite Hid in Hmo.
    by trans (after_state s1 ms1 (k_time k1).2 last1).
  - intros p c Hp. destruct (Hc1' p c Hp) as [Hps|[? ?]]; [|right; split; [done|lia]].
    destruct (Hc2' p c Hps) as [?|[? ?]]; [by left|right; split; [done|lia]].
  - rewrite Hp2, Zplus_mod_idemp_l. f_equal. lia.
  - intros p c Hp [Hl Hsl] Ha. destruct (Ha1 p c Hp) as [Hn|Hlt]; [done| |].
    + apply eq_None_not_Some. intros [c' Hc']. apply (lookup_weaken _ _ _ _ Hc') in Hc2. congruence.
    + destruct (m_PosConnMap s1 !! p) as [c'|] eqn:Hps.
      * assert (c' = c) as ->. { apply (lookup_weaken _ _ _ _ Hps) in Hc1. congruence. }
        apply (Ha2 p c Hps); [split; [done|lia]|lia].
      * apply eq_None_not_Some. intros [c' Hc']. apply (lookup_weaken _ _ _ _ Hc') in Hc2. congruence.
Qed.
End reach.
