(* ===== verification/ConnStart.v ===== *)
(** The start of the connection server: the sockets it listens on, and the GNS
    table as it was left, whose users are logged out before it is emptied. *)
From stdpp Require Import gmap sorting.
From S2P Require Import Prelude Fifo Wire HashList Sweep Kernel ConnInfo BusState BusConn BusRoute.
From S2P Require Import BusFacts ConnState ConnServe ConnRun ConnFacts ConnInv ConnSteps ConnDeal.
From S2P Require Import ConnSync ConnLoop ConnEvents ConnReach.
Import CConn CConnServe CConnInit.

#[local] Arguments Z.add : simpl never.
#[local] Arguments Z.eqb : simpl never.
#[local] Arguments Z.ltb : simpl never.
#[local] Arguments Z.leb : simpl never.

Section start.
Context {Q K : Type} `{FifoQueue Q} `{KernelLaws K} `{ConnProtoLaws}.
Hypothesis Hmax : XY_PKG_MAX_LEN ≤ q_max.
Implicit Types (s : t Q) (k : K) (ms : list (list Z)) (g : gmap Z ShmGnsInfo.t)
  (c : ClientInfo.t) (h : CHashListNoLock.t ShmGnsInfo.t).

(** Before the table is there: the buffers, the queue and sockets to listen on. *)
Record prepared s ms : Prop := {
  pr_send : q_rep (m_SendQueue s) ms;
  pr_sbuff : zlen (m_pSendBuff s) = XY_PKG_MAX_LEN;
  pr_pbuff : zlen (m_pProcessBuff s) = XY_PKG_MAX_LEN;
  pr_conn p c : m_PosConnMap s !! p = Some c →
    CConnInfo.m_ConnPos (ClientInfo.info c) = p ∧ conn_wf (ClientInfo.info c) ∧ is_listen p = true ∧
    ClientInfo.m_UserID c = 0;
  pr_iter : m_itrCurCheckConn s = None;
  pr_cnt : m_ConnPosCnt s = 0;
  pr_check : m_CheckConnPos s = 0;
  pr_max : 2 ≤ m_MaxGnsNodeNum s;
}.

(** * Listening *)

(** Up to a hundred addresses have numbers of their own. *)
Lemma ListenAll_ok s k ms i addrs :
  prepared s ms → 0 ≤ i → i + zlen addrs ≤ 100 → (∀ p, is_Some (m_PosConnMap s !! p) → p < 100 + i) →
  ∃ k' s' r, ListenAll s k i addrs = (k', s', r) ∧ prepared s' ms ∧ (r = 0 ∨ r = -1) ∧
    m_GnsInfoMap s' = m_GnsInfoMap s ∧ m_MaxGnsNodeNum s' = m_MaxGnsNodeNum s ∧
    m_ServerID s' = m_ServerID s ∧ m_RecvQueue s' = m_RecvQueue s ∧
    (r = 0 → ∀ j, i ≤ j < i + zlen addrs → is_Some (m_PosConnMap s' !! (100 + j))) ∧
    m_PosConnMap s ⊆ m_PosConnMap s'.
Proof.
  revert s k i. induction addrs as [|[ip port] addrs IH]; intros s k i Hpr Hi Hle Hlt.
  { eexists _, _, _. split; [done|]. split_and!; try done; [by left|]. intros _ j. rewrite zlen_nil. lia. }
  rewrite zlen_cons in Hle. pose proof (zlen_nonneg addrs).
  assert (∀ k', ∃ k2 s2 r, (k', s, -1) = (k2, s2, r) ∧ prepared s2 ms ∧ (r = 0 ∨ r = -1) ∧
    m_GnsInfoMap s2 = m_GnsInfoMap s ∧ m_MaxGnsNodeNum s2 = m_MaxGnsNodeNum s ∧
    m_ServerID s2 = m_ServerID s ∧ m_RecvQueue s2 = m_RecvQueue s ∧
    (r = 0 → ∀ j, i ≤ j < i + zlen ((ip, port) :: addrs) → is_Some (m_PosConnMap s2 !! (100 + j))) ∧
    m_PosConnMap s ⊆ m_PosConnMap s2) as Herr.
  { intros k'. eexists _, _, _. split; [done|]. split_and!; try done. by right. }
  cbn [ListenAll]. destruct (k_socket k _) as [k1 fd]. destruct (fd =? -1); [apply Herr|].
  destruct (k_setsockopt k1 _ _) as [k2 r2]. destruct (r2 =? -1); [apply Herr|].
  destruct (k_bind k2 _ _ _) as [k3 r3]. destruct (r3 =? -1); [apply Herr|].
  destruct (k_listen k3 _) as [k4 r4]. destruct (r4 =? -1); [apply Herr|].
  change LISTEN_SOCK_CPOS_MIN with 100. rewrite (u32_small (100 + i)) by lia.
  destruct (k_epoll_ctl k4 _ _ _ _) as [k5 r5]. destruct (negb (r5 =? 0)); [apply Herr|].
  unfold ClientInfo.New. destruct (CConnInfo.New k5 _ _ _ _) as [k6 ci] eqn:En.
  apply New_fields in En as (Hp & _ & Hw & _). unfold insert_conn.
  assert (m_PosConnMap s !! (100 + i) = None) as Hn.
  { destruct (m_PosConnMap s !! (100 + i)) eqn:E; [|done]. specialize (Hlt (100 + i) ltac:(by eexists)). lia. }
  rewrite Hn. set (s1 := set_conn s (100 + i) _).
  destruct (IH s1 k6 (i + 1)) as (k' & s' & r & -> & Hpr' & Hr & ? & ? & ? & ? & Hj & Hsub); [|lia|lia| |].
  - destruct Hpr. constructor; try done. unfold s1. cbn [m_PosConnMap set_conn set_conns].
    intros q c [[<- <-]|[_ Hc]]%lookup_insert_Some; [|by apply pr_conn0]. split_and!; try done.
    unfold is_listen, LISTEN_SOCK_CPOS_MIN, LISTEN_SOCK_CPOS_MAX. apply andb_true_iff. rewrite !Z.leb_le. lia.
  - intros q. unfold s1. cbn [m_PosConnMap set_conn set_conns].
    intros [c [[<- _]|[_ Hc]]%lookup_insert_Some]; [lia|]. specialize (Hlt q ltac:(by eexists)). lia.
  - exists k', s', r. split; [done|].
    assert (m_PosConnMap s ⊆ m_PosConnMap s1) as Hs1 by by apply insert_subseteq.
    split_and!; try done; [|by trans (m_PosConnMap s1)].
    intros -> j Hj'. rewrite zlen_cons in Hj'. destruct (decide (j = i)) as [->|].
    + eexists. eapply lookup_weaken; [|exact Hsub]. apply lookup_insert_eq.
    + apply Hj; [done|lia].
Qed.

(** * The GNS table *)
Lemma prepared_serving s ms g h :
  prepared s ms → hrep h g → (∀ u i, g !! u = Some i → ShmGnsInfo.UserID i = u) →
  CHashListNoLock.iIndexNodeNum h = m_MaxGnsNodeNum s → serving (set_gns s h) ms g.
Proof.
  intros [] Hh Hg Hx. constructor; [by constructor| |].
  - constructor; try done; cbn [m_PosConnMap m_itrCurCheckConn m_CheckConnPos m_ConnPosCnt m_MaxGnsNodeNum set_gns].
    + intros p c Hc. destruct (pr_conn0 p c Hc) as (? & ? & ? & _). split_and!; try done. by left.
    + by rewrite pr_iter0.
    + lia.
    + by left.
  - intros p c Hc. by destruct (pr_conn0 p c Hc) as (_ & _ & _ & ->).
Qed.

(** The users of this server, as the table says. *)
Definition mine (sid : Z) g (v : list LoginData.t) : Prop :=
  NoDup (LoginData.UserID <$> v) ∧
  ∀ d, d ∈ v ↔ ∃ u i, g !! u = Some i ∧ active_at sid i = true ∧
    d = LoginData.mk u sid (ShmGnsInfo.ConnPos i) (i64 (ShmGnsInfo.LastActiveTime i)).

Definition sync_req_msg (sid now : Z) : list Z :=
  srv_msg sid GROUP_CONN TO_GRP_ALLNOME 0
    (xyin_bytes (XYHeaderIn.mk (u32 sid) Cmd_LoginSync_Req 0 0 0 (u64 now) 0) ++ enc_LoginSyncReq sid).

(** What is in the queue after [InitGns]: the logouts, and the request. *)
Definition start_msgs (sid cap : Z) ms (times : list Z) (now : Z) (v : list LoginData.t) : list (list Z) :=
  emit cap (foldl (emit cap) ms
    (zip_with (λ now b, login_msg sid Cmd_Disconnect GROUP_CONN TO_GRP_ALLNOME now b) times (batches [] 0 v)))
    (sync_req_msg sid now).

(** [magic]: the memory holds a table. *)
Lemma InitGns_serving s k ms g h HEAD INDEX NODE (magic : bool) shm :
  prepared s ms →
  CHashListNoLock.CalcSize HEAD INDEX NODE (m_MaxGnsNodeNum s) (m_MaxGnsNodeNum s) + GNS_MEM_HEAD_SIZE ≤ shm →
  (if magic then hrep h g ∧ CHashListNoLock.iTotalDataNodeNum h = m_MaxGnsNodeNum s ∧
     CHashListNoLock.iIndexNodeNum h = m_MaxGnsNodeNum s ∧ (∀ u i, g !! u = Some i → ShmGnsInfo.UserID i = u)
   else g = ∅) →
  ∃ k' s' v times now, InitGns s k HEAD INDEX NODE h magic shm = Ok (k', s', 0) ∧
    mine (m_ServerID s) g v ∧ length times = length (batches [] 0 v) ∧
    serving s' (start_msgs (m_ServerID s) (q_cap (m_SendQueue s)) ms times now v) ∅ ∧ gns_room s' ∧
    m_PosConnMap s' = m_PosConnMap s ∧ m_RecvQueue s' = m_RecvQueue s ∧ m_ServerID s' = m_ServerID s ∧
    m_MaxGnsNodeNum s' = m_MaxGnsNodeNum s.
Proof.
  intros Hpr Hshm Hg. pose proof (pr_max _ _ Hpr) as Hn. unfold InitGns. set (n := m_MaxGnsNodeNum s) in *.
  set (sz := CHashListNoLock.CalcSize HEAD INDEX NODE n n) in *. set (zero := ShmGnsInfo.mk 0 0 0 0 0).
  destruct (Z.eqb_spec n 0); [lia|]. destruct (Z.ltb_spec shm (sz + GNS_MEM_HEAD_SIZE)); [lia|].
  assert (∃ h1 h2, CHashListNoLock.Init HEAD INDEX NODE h sz n n = (h1, 0) ∧
    (if magic then Ok h1 else CHashListNoLock.Clear zero h1) = Ok h2 ∧ hrep h2 g ∧
    CHashListNoLock.iIndexNodeNum h2 = n ∧ CHashListNoLock.iTotalDataNodeNum h2 = n ∧
    ∀ u i, g !! u = Some i → ShmGnsInfo.UserID i = u) as (h1 & h2 & -> & -> & Hh2 & Hx2 & Ht2 & Hgu).
  { destruct magic.
    - destruct Hg as (Hr & Ht & Hx & Hu).
      destruct (Init_hrep HEAD INDEX NODE h g sz n Hr Ht Hx Hn) as (h1 & ? & ? & ? & ?); [done|].
      by exists h1, h1.
    - subst g. unfold CHashListNoLock.Init. fold (CHashListNoLock.CalcSize HEAD INDEX NODE n n). fold sz.
      rewrite Z.ltb_irrefl. destruct (Z.ltb_spec n 1); [lia|]. destruct (Z.ltb_spec n 2); [lia|].
      set (h1 := CHashListNoLock.mk _ _ _ _ _ _ _).
      destruct (Clear_fresh zero h1) as (h2 & ? & ? & [Ht Hx] & _); [cbn; lia..|].
      exists h1, h2. split_and!; try done. }
  cbn [negb]. change (negb (0 =? 0)) with false. cbv iota. cbn [mbind outcome_bind].
  assert (CHashListNoLock.Verify h2 = Ok 0) as ->.
  { destruct Hh2 as (cs & es & fr & Hi & _). by eapply Verify_hinv. }
  cbn [mbind outcome_bind]. change (negb (0 =? 0)) with false. cbv iota.
  pose proof (prepared_serving s ms g h2 Hpr Hh2 Hgu Hx2) as Hse.
  destruct (CollectUsers_ok (set_gns s h2) ms g Hse) as (v & -> & Hnd & Hv). cbn [mbind outcome_bind].
  destruct (SendLogins_ok Hmax (set_gns s h2) k ms g Cmd_Disconnect GROUP_CONN TO_GRP_ALLNOME [] 0 v Hse)
    as (k1 & s1 & times & -> & Hlen & Hse1 & Hs1 & _); [done|done|].
  cbn [mbind outcome_bind]. rewrite (st_gns _ _ Hs1). cbn [m_GnsInfoMap set_gns].
  destruct (Clear_fresh zero h2) as (h3 & -> & Hh3 & [Ht3 Hx3] & Hr3); [lia..|]. cbn [mbind outcome_bind].
  destruct (k_time k1) as [k2 now].
  assert (serving (set_gns s1 h3) (foldl (emit (q_cap (m_SendQueue s))) ms
    (zip_with (λ now b, login_msg (m_ServerID s) Cmd_Disconnect GROUP_CONN TO_GRP_ALLNOME now b) times (batches [] 0 v))) ∅)
    as Hse2.
  { destruct Hse1 as [[] Hok1 _], Hs1 as [[] Hco Hit _ _]. cbn in *. constructor; [by constructor| |].
    - destruct Hok1. constructor; try done; cbn [m_GnsInfoMap m_MaxGnsNodeNum set_gns]. rewrite Hx3, Hx2. by symmetry.
    - intros p c Hc. cbn [m_PosConnMap set_gns] in Hc. rewrite Hco in Hc.
      by destruct (pr_conn _ _ Hpr p c Hc) as (_ & _ & _ & ->). }
  edestruct (Send2ServerMsg_ok Hmax (set_gns s1 h3)) as (s4 & r4 & -> & Hs4 & Hr4); [apply Hse2|].
  cbn [mbind outcome_bind]. pose proof (sent_serving _ _ _ _ _ Hse2 Hs4 Hr4) as Hse4.
  pose proof (sv_id _ _ (st_srv _ _ Hs1)) as Hid1. pose proof (sv_cap _ _ (st_srv _ _ Hs1)) as Hcap1.
  unfold own_header in Hse4. cbn [m_ServerID m_SendQueue set_gns] in Hid1, Hcap1, Hse4. rewrite Hid1, Hcap1 in Hse4.
  exists k2, s4, v, times, now. split; [done|]. split; [by split|]. split; [done|]. split; [exact Hse4|].
  destruct Hs4 as [[] Hco4 _ _ Hg4], Hs1 as [[] Hco1 _ _ _]. subst n. cbn in *. split_and!; try congruence.
Qed.
End start.
