(* ===== verification/ConnExample.v ===== *)
(** A connection server to run the theorems at: number 101, with one user
    logged in and one client who is not, on the simulated kernel. *)
From stdpp Require Import gmap sorting.
From S2P Require Import Prelude Fifo Ring ShmQueue Wire HashList Kernel ConnInfo BusState BusConn.
From S2P Require Import BusRoute BusFacts ConnState ConnServe ConnFacts ConnInv ConnDeal ConnEvents.
From S2P Require Import ConnReach ConnStart.
Import CConn.

Module ConnServerExample.

(** * Messages as bytes *)
Definition enc_data (d : LoginData.t) : list Z :=
  le_enc 8 (LoginData.UserID d) ++ le_enc 4 (u32 (LoginData.ServerID d)) ++
  le_enc 4 (LoginData.ConnPos d) ++ le_enc 8 (LoginData.LastActiveTime d).

Definition dec_data (b : list Z) : LoginData.t :=
  LoginData.mk (u64 (le_dec (take 8 b))) (i32 (le_dec (take 4 (drop 8 b))))
    (u32 (le_dec (take 4 (drop 12 b)))) (u64 (le_dec (take 8 (drop 16 b)))).

Fixpoint dec_datas (fuel : nat) (b : list Z) : option (list LoginData.t) :=
  match fuel, b with
  | _, [] => Some []
  | O, _ => None
  | S fuel, _ => if zlen b <? 24 then None else cons (dec_data b) <$> dec_datas fuel (drop 24 b)
  end.

Definition no_fields : UserFields := mk_fields [] 0 0 [] [] [].

#[export] Instance proto : ConnProto := {
  dec_LoginReq b := match b with u :: pw => Some (u, pw, 0) | [] => None end;
  dec_RegisterReq b := Some (b, no_fields);
  dec_AuthRegisterRsp b := match b with [u; r] => Some (u, no_fields, r) | _ => None end;
  dec_UserRegisterRsp b := match b with [u; r] => Some (u, r) | _ => None end;
  dec_AuthLoginRsp b := match b with [u; r] => Some (u, r) | _ => None end;
  dec_LoginDatas b := dec_datas (length b) b;
  dec_LoginSyncReq b := match b with [x] => Some x | _ => None end;
  enc_AuthLoginReq u pw pl := u :: pw;
  enc_AuthRegisterReq pw f := pw;
  enc_UserRegisterReq u f := [u];
  enc_RegisterRsp u r := [u; r];
  enc_LoginRsp r := [r];
  enc_LoginDatas l := concat (enc_data <$> l);
  enc_LoginSyncReq x := [x];
  enc_StateChange x st := [x; st];
  enc_ErrorMsg e := [e];
}.

Lemma length_enc_data d : length (enc_data d) = 24%nat.
Proof. unfold enc_data. by rewrite !length_app, !length_le_enc. Qed.

Lemma dec_enc_data d r : login_data_ok d → dec_data (enc_data d ++ r) = d.
Proof.
  intros (Hu & Hs & Hp & Ht). unfold dec_data, enc_data.
  assert (∀ n x (l : list Z), take n (le_enc n x ++ l) = le_enc n x) as Htk.
  { intros. by rewrite take_app_length' by by rewrite length_le_enc. }
  rewrite <- !app_assoc.
  change 16%nat with (8 + (4 + 4))%nat. change 12%nat with (8 + 4)%nat. rewrite <- !drop_drop.
  rewrite !drop_app_length' by by rewrite length_le_enc. rewrite !Htk, !le_dec_enc; [|done|done|apply u32_range|done].
  rewrite (u64_small (LoginData.UserID d)), (u64_small (LoginData.LastActiveTime d)), (u32_small (LoginData.ConnPos d)) by done. destruct d as [u sv p t]. cbn in *. f_equal. unfold i32, u32.
  rewrite Zplus_mod_idemp_l. rewrite Z.mod_small; lia.
Qed.

Lemma dec_datas_ok fuel b l : dec_datas fuel b = Some l → Forall login_data_ok l.
Proof.
  revert b l. induction fuel as [|fuel IH]; intros b l; cbn; [destruct b; [by intros [= <-]|done]|].
  destruct b as [|x b]; [by intros [= <-]|]. destruct (_ <? _); [done|].
  intros (l' & Hl' & ->)%fmap_Some. constructor; [|by eapply IH].
  unfold dec_data, login_data_ok. cbn [LoginData.UserID LoginData.ServerID LoginData.ConnPos LoginData.LastActiveTime].
  split_and!; first [apply u32_range|apply i32_range|apply Z.mod_pos_bound; lia].
Qed.

#[export] Instance proto_laws : ConnProtoLaws.
Proof.
  constructor; cbn [dec_LoginDatas enc_LoginDatas proto].
  - intros l Hl. assert (∀ fuel, (length (concat (enc_data <$> l)) ≤ fuel)%nat →
      dec_datas fuel (concat (enc_data <$> l)) = Some l) as Hd; [|by apply Hd].
    induction Hl as [|d l Hd Hl IH]; intros fuel Hf; [by destruct fuel|]. cbn [fmap list_fmap concat] in *.
    rewrite length_app, length_enc_data in Hf. destruct fuel as [|fuel]; [lia|]. cbn [dec_datas].
    set (r := concat (enc_data <$> l)) in *.
    destruct (enc_data d ++ r) as [|x y] eqn:E.
    { apply (f_equal length) in E. rewrite length_app, length_enc_data in E. done. }
    rewrite <- E. rewrite (proj2 (Z.ltb_ge _ _)).
    2:{ unfold zlen. rewrite length_app, length_enc_data. lia. }
    rewrite drop_app_length' by by rewrite length_enc_data. rewrite IH by lia. by rewrite dec_enc_data by done.
  - intros b l. apply dec_datas_ok.
Qed.

(** * The server *)
Definition big : list Z := replicate (Z.to_nat XY_PKG_MAX_LEN) 0.
Lemma zlen_buff : zlen big = XY_PKG_MAX_LEN.
Proof. unfold big. by rewrite zlen_replicate, Z2Nat.id. Qed.

Definition queue : CShmQueue.t := CShmQueue.mk 0 0 4096 (replicate 4096 0) None.
Definition client (pos sock last type user : Z) : ClientInfo.t :=
  ClientInfo.mk (CConnInfo.mk pos sock (0, 0) (0, 0) last [] []) type user.
Definition conns : gmap Z ClientInfo.t :=
  {[100 := client 100 5 0 CONN_UNAUTH 0; 501 := client 501 7 99900 CONN_AUTH 7;
    502 := client 502 8 100 CONN_UNAUTH 0]}.

Definition user7 : ShmGnsInfo.t := ShmGnsInfo.mk 7 101 501 GNS_USER_STATUS_ACTIVE 99000.
Definition user9 : ShmGnsInfo.t := ShmGnsInfo.mk 9 102 600 GNS_USER_STATUS_UNACTIVE 50.
Definition gns : gmap Z ShmGnsInfo.t := <[9 := user9]> (<[7 := user7]> ∅).
Definition zero : ShmGnsInfo.t := ShmGnsInfo.mk 0 0 0 0 0.
Definition raw : CHashListNoLock.t ShmGnsInfo.t := CHashListNoLock.mk 0 8 0 8 0 [] [].
Definition table : CHashListNoLock.t ShmGnsInfo.t :=
  match (h ← CHashListNoLock.Clear zero raw; '(h, _) ← CHashListNoLock.Insert h 7 user7;
         '(h, _) ← CHashListNoLock.Insert h 9 user9; Ok h) with Ok h => h | _ => raw end.

Definition server : CConn.t CShmQueue.t :=
  CConn.mk 101 30 502 conns None 0 300 queue queue big big 8 table.
Definition kernel : Sim.t := Sim.mk ∅ ∅ 20 [] 20 100000 5.

Lemma table_rep : hrep table gns.
Proof.
  destruct (Clear_hrep zero raw) as (h0 & Hc & Hr & _); [cbn; lia..|].
  unfold table. rewrite Hc. vm_compute in Hc. injection Hc as <-. cbn [mbind outcome_bind].
  pose proof (Insert_hrep _ ∅ 7 user7 Hr) as HI. rewrite lookup_empty in HI.
  change (_ =? _) with false in HI. destruct HI as (h1 & HI & Hr1 & _). rewrite HI.
  vm_compute in HI. injection HI as <-. cbn [mbind outcome_bind].
  pose proof (Insert_hrep _ _ 9 user9 Hr1) as HI. rewrite lookup_insert_ne, lookup_empty in HI by done.
  change (_ =? _) with false in HI. destruct HI as (h2 & HI & Hr2 & _). rewrite HI. exact Hr2.
Qed.

Lemma queue_rep : q_rep queue [].
Proof. split; [split; concrete|constructor|reflexivity|reflexivity]. Qed.

Ltac map_cases H :=
  repeat first
    [ apply lookup_insert_Some in H as [[<- <-]|[_ H]]
    | apply lookup_singleton_Some in H as [<- <-]
    | by apply lookup_empty_Some in H ].

Lemma server_serving : serving server [] gns.
Proof.
  constructor.
  - constructor; [apply queue_rep|apply table_rep|apply zlen_buff|apply zlen_buff].
  - constructor.
    + intros p c Hc. cbn [m_PosConnMap server] in Hc. unfold conns in Hc. map_cases Hc.
      all: split; [done|]; split; [by constructor|].
      1: by left.
      all: right; split; vm_compute; done.
    + intros p Hp. discriminate Hp.
    + intros u i Hi. unfold gns in Hi. by map_cases Hi.
    + cbn. lia.
    + vm_compute. reflexivity.
    + right. split; vm_compute; done.
  - intros p c Hc Hne. cbn [m_PosConnMap server] in Hc. unfold conns in Hc. map_cases Hc; try done.
    exists user7. by split_and!.
Qed.

Lemma server_alive : alive server.
Proof. exists [], gns, []. split; [apply server_serving|]. split; [apply queue_rep|constructor]. Qed.

Lemma server_roomy : roomy server.
Proof. split; [vm_compute; reflexivity|]. intros Hn. vm_compute in Hn. discriminate Hn. Qed.

Lemma queue_max : XY_PKG_MAX_LEN ≤ q_max (Q := CShmQueue.t).
Proof. cbn. unfold XY_PKG_MAX_LEN. lia. Qed.
End ConnServerExample.
