(* ===== verification/ConnProps.v ===== *)
(** The properties of the connection server, each at a concrete server too. *)
From stdpp Require Import gmap sorting relations.
From S2P Require Import Prelude Fifo ShmQueue Wire HashList Sweep Kernel ConnInfo BusState BusConn.
From S2P Require Import BusRoute BusFacts BusRun ConnState ConnServe ConnRun ConnFacts ConnInv.
From S2P Require Import ConnSteps ConnDeal ConnSync ConnLoop ConnEvents ConnReach ConnStart.
From S2P Require Import ConnExample.
Import CConn CConnServe CConnRun CConnInit.

#[local] Arguments Z.add : simpl never.
#[local] Arguments Z.eqb : simpl never.
#[local] Arguments Z.ltb : simpl never.
#[local] Arguments Z.leb : simpl never.

(** * Logins in any order *)
Section order.
Implicit Types (g : gmap Z ShmGnsInfo.t) (d : LoginData.t) (l : list LoginData.t).

(** What a login another server tells of does to the table. *)
Definition apply_login g d : gmap Z ShmGnsInfo.t :=
  if latest g d then <[LoginData.UserID d := login_entry d GNS_USER_STATUS_ACTIVE]> g else g.

(** Two logins of a user at one time are one. *)
Definition timely l : Prop :=
  ∀ d d', d ∈ l → d' ∈ l → LoginData.UserID d = LoginData.UserID d' → login_time d = login_time d' → d = d'.

Lemma latest_apply g d d' :
  latest (apply_login g d) d' =
    if decide (LoginData.UserID d' = LoginData.UserID d)
    then latest g d' && (negb (latest g d) || (login_time d <=? login_time d')) else latest g d'.
Proof.
  unfold apply_login, latest at 1. case_decide as Hu.
  - destruct (latest g d) eqn:El.
    + rewrite Hu, lookup_insert_eq. cbn. unfold latest in *. rewrite Hu.
      destruct (g !! LoginData.UserID d) as [i|]; [|done]. apply Z.leb_le in El.
      destruct (Z.leb_spec (login_time d) (login_time d')); [|by rewrite andb_false_r].
      rewrite andb_true_r. symmetry. apply Z.leb_le. lia.
    + fold (latest g d'). by rewrite andb_true_r.
  - destruct (latest g d); [|done]. by rewrite lookup_insert_ne.
Qed.

Lemma apply_login_comm g d d' :
  (LoginData.UserID d = LoginData.UserID d' → login_time d = login_time d' → d = d') →
  apply_login (apply_login g d) d' = apply_login (apply_login g d') d.
Proof.
  intros Heq. unfold apply_login at 1 3. rewrite !latest_apply.
  destruct (decide (LoginData.UserID d = LoginData.UserID d')) as [Hu|Hu].
  - rewrite !decide_True by done. unfold apply_login.
    assert (latest g d = true → login_time d ≤ login_time d' → latest g d' = true) as Hl.
    { unfold latest. rewrite Hu. destruct (g !! _); [|done]. rewrite !Z.leb_le. lia. }
    assert (latest g d' = true → login_time d' ≤ login_time d → latest g d = true) as Hl'.
    { unfold latest. rewrite Hu. destruct (g !! _); [|done]. rewrite !Z.leb_le. lia. }
    destruct (latest g d), (latest g d'); cbn; try done; rewrite ?Hu;
      destruct (Z.leb_spec (login_time d) (login_time d')), (Z.leb_spec (login_time d') (login_time d));
      try lia; rewrite ?insert_insert_eq; try done; [by rewrite (Heq Hu) by lia].
  - rewrite !decide_False by congruence. unfold apply_login.
    destruct (latest g d), (latest g d'); try done. by rewrite insert_insert_ne.
Qed.

Lemma apply_logins_perm l l' : l ≡ₚ l' → timely l → ∀ g, foldl apply_login g l = foldl apply_login g l'.
Proof.
  induction 1 as [|d l l' Hp IH|d d' l|l1 l2 l3 H1 IH1 H2 IH2]; intros Ht g; cbn.
  - done.
  - apply IH. intros x y Hx Hy. apply Ht; by right.
  - rewrite apply_login_comm; [done|]. apply Ht; [by left|by right; left].
  - rewrite IH1 by done. apply IH2. intros x y Hx Hy. apply Ht; by rewrite H1.
Qed.

Lemma logins_entry l g d : d ∈ l → foldl apply_login g l !! LoginData.UserID d ≠ None.
Proof.
  assert (∀ g x u, g !! u ≠ None → apply_login g x !! u ≠ None) as Hkeep.
  { intros g0 x u Hu. unfold apply_login. destruct (latest g0 x); [|done]. by intros [? _]%lookup_insert_None. }
  assert (∀ l g u, g !! u ≠ None → foldl apply_login g l !! u ≠ None) as Hkeeps.
  { induction l0 as [|x l0 IH]; intros g0 u Hu; [done|]. by apply IH, Hkeep. }
  revert g. induction l as [|x l IH]; intros g Hd; [by apply not_elem_of_nil in Hd|].
  apply elem_of_cons in Hd as [->|Hd]; [|by apply IH]. cbn. apply Hkeeps. unfold apply_login, latest.
  destruct (g !! LoginData.UserID x) as [i|] eqn:Hi; [destruct (_ <=? _)|]; by rewrite ?lookup_insert_eq, ?Hi.
Qed.

(** The entry that comes out is of the latest login. *)
Lemma apply_logins_latest l g u i :
  foldl apply_login g l !! u = Some i →
  (g !! u = Some i ∨ ∃ d, d ∈ l ∧ LoginData.UserID d = u ∧ i = login_entry d GNS_USER_STATUS_ACTIVE) ∧
  ∀ d, d ∈ l → LoginData.UserID d = u → login_time d ≤ ShmGnsInfo.LastActiveTime i.
Proof.
  revert i. induction l as [|d l IH] using rev_ind; intros i; cbn.
  { intros Hi. split; [by left|]. intros d Hd. by apply not_elem_of_nil in Hd. }
  rewrite foldl_app. cbn [foldl]. set (g' := foldl apply_login g l) in *. unfold apply_login, latest.
  destruct (decide (LoginData.UserID d = u)) as [<-|Hne].
  - destruct (g' !! LoginData.UserID d) as [j|] eqn:Hj; [destruct (Z.leb_spec (ShmGnsInfo.LastActiveTime j) (login_time d))|].
    + rewrite lookup_insert_eq. intros [= <-]. destruct (IH j eq_refl) as [_ Hmax].
      split; [right; exists d; set_solver|]. intros x [Hx| ->%list_elem_of_singleton]%elem_of_app Hu; [|by cbn].
      cbn. specialize (Hmax x Hx Hu). lia.
    + rewrite Hj. intros [= <-]. destruct (IH j eq_refl) as [Hor Hmax]. split.
      * destruct Hor as [?|(x & ? & ? & ?)]; [by left|right; exists x; set_solver].
      * intros x [Hx| ->%list_elem_of_singleton]%elem_of_app Hu; [by apply Hmax|lia].
    + rewrite lookup_insert_eq. intros [= <-]. split; [right; exists d; set_solver|].
      intros x [Hx| ->%list_elem_of_singleton]%elem_of_app Hu; [|by cbn].
      exfalso. rewrite <- Hu in Hj. clear -Hx Hj. unfold g' in Hj. apply (logins_entry l g x Hx) in Hj. done.
  - intros Hi. assert (g' !! u = Some i) as Hi'.
    { revert Hi. destruct (match _ with Some _ => _ | None => _ end); [|done]. by rewrite lookup_insert_ne. }
    destruct (IH i Hi') as [Hor Hmax]. split.
    * destruct Hor as [?|(x & ? & ? & ?)]; [by left|right; exists x; set_solver].
    * intros x [Hx| ->%list_elem_of_singleton]%elem_of_app Hu; [by apply Hmax|done].
Qed.
End order.

Section props.
Context {Q K : Type} `{FifoQueue Q} `{KernelLaws K} `{!KernelClock K} `{ConnProtoLaws}.
Hypothesis Hmax : XY_PKG_MAX_LEN ≤ q_max.
Implicit Types (s : t Q) (k : K) (ms rs : list (list Z)) (g : gmap Z ShmGnsInfo.t)
  (c : ClientInfo.t) (i : ShmGnsInfo.t) (u : Z).

(** * The server as a whole *)

(** C3: whatever the clients, the other servers, the bus and the network do,
    no user has two connections to this server, and his one connection is the
    one his entry in the GNS table names, as active at this server; provided the
    table has had a free node before each step. *)
Theorem one_connection_per_user k s k' s' :
  alive s → rtc room_step (k, s) (k', s') →
  (∀ p p' c c', m_PosConnMap s' !! p = Some c → m_PosConnMap s' !! p' = Some c' →
     ClientInfo.m_UserID c = ClientInfo.m_UserID c' → ClientInfo.m_UserID c ≠ 0 → p = p') ∧
  (∀ p c, m_PosConnMap s' !! p = Some c → ClientInfo.m_UserID c ≠ 0 →
     ∃ ip i, CHashListNoLock.GetP (m_GnsInfoMap s') (ClientInfo.m_UserID c) = Ok (Some ip) ∧
       CHashListNoLock.deref (m_GnsInfoMap s') ip = Ok i ∧
       ShmGnsInfo.Status i = GNS_USER_STATUS_ACTIVE ∧ ShmGnsInfo.ServerID i = m_ServerID s' ∧
       ShmGnsInfo.ConnPos i = p).
Proof.
  intros Ha Hst. pose proof (steps_alive Hmax _ _ Hst Ha) as (ms & g & rs & [Hr _ Hu] & _). cbn [snd] in *.
  split; [intros p p' c c' ????; by eapply (users_ok_unique _ _ g p p' c c')|].
  intros p c Hc Hne. destruct (Hu p c Hc Hne) as (i & Hi & ? & ? & ?).
  pose proof (GetP_hrep _ g (ClientInfo.m_UserID c) (cr_gns _ _ _ Hr)) as HG. rewrite Hi in HG.
  destruct HG as (ip & ? & ? & _). by exists ip, i.
Qed.


(** The loop of [CConn::Run], for any number of rounds, does nothing but
    the steps of the transition system. *)
Theorem Run_takes_steps s k last m rounds k' s' last' m' :
  zlen m = XY_MAXBUFF_LEN → Run s k last m rounds = Ok (k', s', last', m') → rtc step (k, s) (k', s').
Proof. apply Run_steps. Qed.

(** A server that starts with a table it finds in shared memory first tells
    the other connection servers that the users who were logged in here are
    gone, in batches, then empties the table and asks the others for theirs; and
    it serves.  Without a table it does the same with an empty one. *)
Theorem InitGns_starts s k ms g h HEAD INDEX NODE (magic : bool) shm :
  prepared s ms →
  CHashListNoLock.CalcSize HEAD INDEX NODE (m_MaxGnsNodeNum s) (m_MaxGnsNodeNum s) + GNS_MEM_HEAD_SIZE ≤ shm →
  (if magic then hrep h g ∧ CHashListNoLock.iTotalDataNodeNum h = m_MaxGnsNodeNum s ∧
     CHashListNoLock.iIndexNodeNum h = m_MaxGnsNodeNum s ∧ (∀ u i, g !! u = Some i → ShmGnsInfo.UserID i = u)
   else g = ∅) →
  ∃ k' s' v times now, InitGns s k HEAD INDEX NODE h magic shm = Ok (k', s', 0) ∧
    mine (m_ServerID s) g v ∧ length times = length (batches [] 0 v) ∧
    serving s' (start_msgs (m_ServerID s) (q_cap (m_SendQueue s)) ms times now v) ∅ ∧ gns_room s' ∧
    m_PosConnMap s' = m_PosConnMap s.
Proof.
  intros Hpr Hshm Hg. destruct (InitGns_serving Hmax s k ms g h HEAD INDEX NODE magic shm Hpr Hshm Hg)
    as (k' & s' & v & times & now & ? & ? & ? & ? & ? & ? & _). by exists k', s', v, times, now.
Qed.

(** * Clients that say nothing, users who are gone *)

(** C32: rounds of [CConn::Run] in which nothing arrives (no events, and
    nothing in the queue from the bus), [n] of them, one at least.  They return,
    and the server serves afterwards.  If the state message is due at the first
    round it goes, when there is room, into the queue to the bus, behind what
    waits there and before whatever else this server puts there.  Each round
    looks at one connection and one index of the GNS table: the position in the
    table has moved [n] on; no connection is released that has not been silent
    longer than [m_TimeOut]; and when there are more rounds than connections, every
    one that was silent that long at the start is released. *)
Theorem Run_idle_rounds n s k last m ms g :
  serving s ms g → q_rep (m_RecvQueue s) [] → (0 < n)%nat →
  let online := msg_bytes (srv_header (m_ServerID s) Cmd_StateChange 0 TO_SRV 0
                  (zlen (enc_StateChange (m_ServerID s) BUS_SVR_ONLINE)))
                  (enc_StateChange (m_ServerID s) BUS_SVR_ONLINE) in
  ∃ k' s' last' ms' g', Run s k last m (replicate n []) = Ok (k', s', last', m) ∧ serving s' ms' g' ∧
    more (m_ServerID s)
      (if m_StateTime s <=? (k_time k).2 - last then emit (q_cap (m_SendQueue s)) ms online else ms) ms' ∧
    m_CheckConnPos s' = (m_CheckConnPos s + Z.of_nat n) mod m_MaxGnsNodeNum s ∧
    m_PosConnMap s' ⊆ m_PosConnMap s ∧
    (∀ p c, m_PosConnMap s !! p = Some c → m_PosConnMap s' !! p = None → silent s (k_now k') p c) ∧
    ((size (m_PosConnMap s) < n)%nat →
       ∀ p c, m_PosConnMap s !! p = Some c → silent s (k_now k) p c → m_PosConnMap s' !! p = None).
Proof.
  intros Hse Hq Hn online.
  destruct (idle_rounds Hmax n s k last m ms g Hse Hq)
    as (k' & s' & last' & ms' & g' & Hr & Hse' & Hm & _ & [Hc Hc'] & Hp & Ha).
  rewrite decide_False in Hm by lia. exists k', s', last', ms', g'. split_and!; try done.
  - intros p c Hpc Hno. destruct (Hc' p c Hpc) as [?|?]; [congruence|done].
  - intros Hlt p c Hpc Hsl. apply (Ha p c Hpc Hsl). eapply Nat.le_lt_trans; [|exact Hlt].
    apply ahead_le. by exists c.
Qed.

(** C12: a connection that has been silent longer than [m_TimeOut] is released
    within as many calls of [CheckConn] as there are connections and one, and no
    connection is released that has not been silent that long. *)
Theorem silent_released s k ms g :
  serving s ms g →
  ∃ k' s', CheckConns (S (size (m_PosConnMap s))) s k = Ok (k', s') ∧
    m_PosConnMap s' ⊆ m_PosConnMap s ∧
    (∀ p c, m_PosConnMap s !! p = Some c → silent s (k_now k) p c → m_PosConnMap s' !! p = None) ∧
    (∀ p c, m_PosConnMap s !! p = Some c → m_PosConnMap s' !! p = None → silent s (k_now k') p c).
Proof.
  intros Hse. destruct (CheckConns_step Hmax (S (size (m_PosConnMap s))) s k ms g Hse)
    as (k' & s' & ms' & g' & ? & _ & _ & _ & _ & [? Hc] & Hs).
  exists k', s'. split_and!; [done|done| |].
  - intros p c Hp Hsl. apply (Hs p c Hp Hsl). apply Nat.lt_succ_r, ahead_le. by exists c.
  - intros p c Hp Hn. destruct (Hc p c Hp) as [?|?]; [congruence|done].
Qed.

(** C14: the entry of a user who has been gone for a day is out of the GNS table
    after [m_MaxGnsNodeNum] calls of [CheckValid], and no entry goes that is
    active or younger; so its nodes come back. *)
Theorem gone_forgotten s k ms g :
  serving s ms g →
  ∃ k' s' g', CheckValids (Z.to_nat (m_MaxGnsNodeNum s)) s k = Ok (k', s') ∧ serving s' ms g' ∧
    (clock_ok (k_now k) (k_now k') →
     g' ⊆ g ∧
     (∀ u i, g !! u = Some i → stale (k_now k) i → g' !! u = None) ∧
     (∀ u i, g !! u = Some i → g' !! u = None → stale (k_now k') i)).
Proof.
  intros Hse. destruct (CheckValids_step (Z.to_nat (m_MaxGnsNodeNum s)) s k ms g Hse)
    as (k' & s' & g' & ? & _ & _ & ? & Hp). exists k', s', g'. split; [done|]. split; [done|]. intros Hclk.
  apply (swept_all (m_MaxGnsNodeNum s) stale) in Hp; [done| |done].
  pose proof (ck_check _ _ (se_ok _ _ _ Hse)). lia.
Qed.

(** * Packages of clients *)

(** Of a client's package only the command, the sequence number, the
    result code and the body are his: it goes on with the server, the connection
    and the user the server knows him by.  Before he is logged in nothing but
    logins and registrations goes on; all of it goes to the servers its command
    names, and the connections stay as they are. *)
Theorem ProcessPkg_forwards s k ms g p c m o n d h body :
  serving s ms g → m_PosConnMap s !! p = Some c → mread m o n = Ok d → 0 ≤ n ≤ XY_PKG_MAX_LEN →
  XYHeader.Read m o = Ok (h, 17) → XYHeader.PkgLen h = 17 + zlen body → 17 + zlen body ≤ n →
  mread m (o + 17) (zlen body) = Ok body → 60 + zlen body ≤ XY_PKG_MAX_LEN →
  ∃ k' s' r now, ProcessPkg s k m o n p = Ok (k', s', r) ∧ m_PosConnMap s' = m_PosConnMap s ∧
    let hin := XYHeaderIn.mk (u32 (m_ServerID s)) (XYHeader.CmdID h) (XYHeader.SN h)
                 (CConnInfo.m_ConnPos (ClientInfo.info c)) (ClientInfo.m_UserID c) (u64 now) (XYHeader.Ret h) in
    if let_in c (XYHeader.CmdID h) then
      match payload hin body with
      | None => r = -1 ∧ serving s' ms g
      | Some None => r = 17 + zlen body ∧ serving s' ms g
      | Some (Some (dst, st, pl)) =>
          r = 17 + zlen body ∧
          serving s' (emit (q_cap (m_SendQueue s)) ms (srv_msg (m_ServerID s) dst st 0 pl)) g
      end
    else r = 17 + zlen body ∧ serving s' ms g.
Proof.
  intros Hse Hc Hd Hn Hh Hl Hln Hb H60. pose proof (zlen_nonneg body).
  destruct (ProcessPkg_cases s k p c m o n d (cr_pbuff _ _ _ (se_rep _ _ _ Hse)) Hc Hd Hn)
    as [? _|h' Hh' Hbad _|h' Hh' _ Hpart _|h' b' k1 now rest Hh' Hl' _ _ Hb' _ Hlet Hz ->
       |h' b' k1 now rest Hh' Hl' _ _ Hb' _ Hlet Hz ->]; [lia|..]; rewrite Hh in Hh'; injection Hh' as <-.
  - exfalso. rewrite Hl, i32_small in Hbad by (unfold XY_PKG_MAX_LEN in *; lia). lia.
  - lia.
  - replace (zlen b') with (zlen body) in * by lia. rewrite Hb in Hb'. injection Hb' as <-.
    exists k1, (set_pbuff s (xyin_bytes (client_header s c h now) ++ body ++ rest)), (17 + zlen body), now.
    split; [done|]. split; [done|].
    cbv zeta. rewrite Hlet. split; [done|]. apply set_pbuff_serving; [done|].
    rewrite !zlen_app, zlen_xyin_bytes. lia.
  - replace (zlen b') with (zlen body) in * by lia. rewrite Hb in Hb'. injection Hb' as <-.
    set (hin := client_header s c h now). cbv zeta. set (s1 := set_pbuff s _).
    assert (serving s1 ms g) as Hse1.
    { apply set_pbuff_serving; [done|]. rewrite !zlen_app, zlen_xyin_bytes. lia. }
    destruct (Forward_ok Hmax s1 ms g hin body rest) as [[_ ?]|(s' & -> & Hs & Hr')]; [apply Hse1|done|lia|].
    cbn [mbind outcome_bind]. pose proof (sent_serving _ _ _ _ _ Hse1 Hs Hr') as Hse'.
    exists k1, s', (if bool_decide (is_Some (payload hin body)) then 17 + zlen body else -1), now.
    split; [done|]. split; [apply Hs|]. cbv zeta. rewrite Hlet.
    change (XYHeaderIn.mk _ _ _ _ _ _ _) with hin.
    destruct (payload hin body) as [[[[dst st] pl]|]|]; cbn; done.
Qed.

(** A logged-in client can make the server write past the end of its send
    buffer: his package may be long enough that the headers put in front of it
    do not fit any more, by up to 26 bytes. *)
Theorem ProcessPkg_overflow s k ms g p c m o n d h body :
  serving s ms g → m_PosConnMap s !! p = Some c → mread m o n = Ok d → 0 ≤ n ≤ XY_PKG_MAX_LEN →
  XYHeader.Read m o = Ok (h, 17) → XYHeader.PkgLen h = 17 + zlen body → 17 + zlen body ≤ n →
  mread m (o + 17) (zlen body) = Ok body → ClientInfo.m_ConnType c = CONN_AUTH →
  Z.shiftr (XYHeader.CmdID h) 16 = CMD_PREFIX_USER →
  XY_PKG_MAX_LEN < 60 + zlen body → 34 + zlen body ≤ XY_PKG_MAX_LEN →
  ProcessPkg s k m o n p = Fault.
Proof.
  intros Hse Hc Hd Hn Hh Hl Hln Hb Ht Hcmd H60 H34. pose proof (zlen_nonneg body).
  destruct (ProcessPkg_cases s k p c m o n d (cr_pbuff _ _ _ (se_rep _ _ _ Hse)) Hc Hd Hn)
    as [? _|h' Hh' Hbad _|h' Hh' _ Hpart _|h' b' k1 now rest Hh' Hl' _ _ Hb' _ Hlet Hz _
       |h' b' k1 now rest Hh' Hl' _ _ Hb' _ Hlet Hz ->]; [lia|..]; rewrite Hh in Hh'; injection Hh' as <-.
  - exfalso. rewrite Hl, i32_small in Hbad by (unfold XY_PKG_MAX_LEN in *; lia). lia.
  - lia.
  - unfold let_in in Hlet. rewrite Ht, !orb_true_r in Hlet. done.
  - replace (zlen b') with (zlen body) in * by lia. rewrite Hb in Hb'. injection Hb' as <-.
    cbv zeta. set (hin := client_header s c h now). set (s1 := set_pbuff s _).
    assert (serving s1 ms g) as Hse1.
    { apply set_pbuff_serving; [done|]. rewrite !zlen_app, zlen_xyin_bytes. lia. }
    unfold Forward. change (XYHeaderIn.CmdID hin) with (XYHeader.CmdID h). rewrite Hcmd.
    change (CMD_PREFIX_USER =? CMD_PREFIX_CONN) with false. change (CMD_PREFIX_USER =? CMD_PREFIX_AUTH) with false.
    rewrite Z.eqb_refl. cbv iota. assert (zlen (xyin_bytes hin ++ body) = 34 + zlen body) as Hz2
      by (by rewrite zlen_app, zlen_xyin_bytes).
    rewrite <- Hz2, (Send2Server_overflow s1 ms g); [done|apply Hse1| |lia].
    unfold s1. cbn [m_pProcessBuff set_pbuff]. rewrite app_assoc. apply mread_head.
Qed.

(** * Users of other servers *)

Lemma LoginThere_all l s k ms g :
  serving s ms g → Forall login_data_ok l →
  CHashListNoLock.iUsedDataNodeNum (m_GnsInfoMap s) + zlen l
  ≤ CHashListNoLock.iTotalDataNodeNum (m_GnsInfoMap s) →
  ∃ k' s', for_data LoginThere s k l = Ok (k', s') ∧ serving s' ms (foldl apply_login g l).
Proof.
  revert s k g. induction l as [|d l IH]; intros s k g Hse Hl Hroom; cbn [for_data foldl]; [by exists k, s|].
  apply Forall_cons in Hl as [Hd Hl]. rewrite zlen_cons in Hroom. pose proof (zlen_nonneg l).
  assert (0 ≤ LoginData.ConnPos d < 2 ^ 32) as Hcp by (by destruct Hd as (_ & _ & ? & _)).
  destruct (LoginThere_ok Hmax s k ms g d (se_rep _ _ _ Hse) (se_ok _ _ _ Hse))
    as (k1 & s1 & g1 & HL & Hr1 & Hok1 & Hs1 & _ & Hor); [by apply u32_small|].
  destruct (LoginThere_serving Hmax s k ms g d Hse Hd) as (k1' & s1' & g1' & HL' & Hse1 & _).
  rewrite HL in HL'. injection HL' as <- <-. rewrite HL. cbn [mbind outcome_bind].
  assert (g1 = apply_login g d) as Hg1.
  { unfold apply_login. destruct Hor as [(-> & -> & _)|([->|[_ Hn]] & -> & _)]; [done..|].
    exfalso. apply Hn. unfold gns_room. lia. }
  assert (serving s1 ms g1) as Hse1'.
  { constructor; [done..|]. destruct Hse1 as [_ _ Hu]. rewrite (sv_id _ _ Hs1) in *.
    destruct Hse as [_ _ Hu0]. destruct Hor as [(_ & -> & ->)|(_ & -> & ->)]; [|done].
    by apply users_ok_entry. }
  rewrite <- Hg1. apply (IH s1 k1 g1 Hse1' Hl). destruct (sv_size _ _ Hs1) as [Ht _].
  assert (CHashListNoLock.iUsedDataNodeNum (m_GnsInfoMap s1)
          ≤ CHashListNoLock.iUsedDataNodeNum (m_GnsInfoMap s) + 1); [|lia].
  destruct (cr_gns _ _ _ Hr1) as (? & ? & ? & _ & _ & ->).
  destruct (cr_gns _ _ _ (se_rep _ _ _ Hse)) as (? & ? & ? & _ & _ & ->). rewrite Hg1. unfold apply_login.
  destruct (latest g d); [|lia]. rewrite map_size_insert. destruct (g !! LoginData.UserID d); unfold id; lia.
Qed.

(** C23: the table a server gets from logins at other servers does not depend on
    the order in which it is told of them: for every user the latest counts; when
    the list has no two different logins of one user in the same second ([timely]:
    of such two the last one told counts), and the table has a free node for each. *)
Theorem logins_in_any_order s k ms g body body' l l' :
  serving s ms g → dec_LoginDatas body = Some l → dec_LoginDatas body' = Some l' → l ≡ₚ l' → timely l →
  CHashListNoLock.iUsedDataNodeNum (m_GnsInfoMap s) + zlen l
    ≤ CHashListNoLock.iTotalDataNodeNum (m_GnsInfoMap s) →
  ∃ k1 s1 k2 s2 g', OnLoginNotice s k body = Ok (k1, s1, 0) ∧ OnLoginNotice s k body' = Ok (k2, s2, 0) ∧
    serving s1 ms g' ∧ serving s2 ms g' ∧
    ∀ u i, g' !! u = Some i →
      (g !! u = Some i ∨ ∃ d, d ∈ l ∧ LoginData.UserID d = u ∧ i = login_entry d GNS_USER_STATUS_ACTIVE) ∧
      ∀ d, d ∈ l → LoginData.UserID d = u → login_time d ≤ ShmGnsInfo.LastActiveTime i.
Proof.
  intros Hse Hb Hb' Hp Ht Hroom. pose proof (dec_datas_law _ _ Hb) as Hl. pose proof (dec_datas_law _ _ Hb') as Hl'.
  destruct (LoginThere_all l s k ms g Hse Hl Hroom) as (k1 & s1 & Hr1 & Hse1).
  destruct (LoginThere_all l' s k ms g Hse Hl') as (k2 & s2 & Hr2 & Hse2).
  { assert (zlen l' = zlen l) as -> by (unfold zlen; by rewrite Hp). done. }
  rewrite <- (apply_logins_perm l l' Hp Ht g) in Hse2.
  exists k1, s1, k2, s2, (foldl apply_login g l). unfold OnLoginNotice. rewrite Hb, Hb', Hr1, Hr2.
  split_and!; [done..|]. intros u i. apply apply_logins_latest.
Qed.

(** * Logging in *)

Definition here_entry s u cp now : ShmGnsInfo.t :=
  ShmGnsInfo.mk u (m_ServerID s) cp GNS_USER_STATUS_ACTIVE (u64 now).

Definition notice_msg s (h : XYHeaderIn.t) u cp now now2 : list Z :=
  srv_msg (m_ServerID s) GROUP_CONN TO_GRP_ALLNOME 0
    (xyin_bytes (XYHeaderIn.mk (u32 (m_ServerID s)) Cmd_LoginNotice (XYHeaderIn.SN h) cp u (u64 now2) 0) ++
     enc_LoginDatas [LoginData.mk u (m_ServerID s) cp (u64 now)]).

(** Up to the answer. *)
Lemma OnLoginRsp_taken s k ms g h body cp c uid :
  serving s ms g → gns_room s ∨ is_Some (g !! u64 uid) →
  dec_AuthLoginRsp body = Some (uid, 0) → u32 (i32 (XYHeaderIn.ConnPos h)) = cp →
  m_PosConnMap s !! cp = Some c →
  let u := u64 uid in
  let c1 := ClientInfo.SetUserID (ClientInfo.SetConnType c CONN_AUTH) u in
  ∃ k3 s3 now now2, let g3 := <[u := here_entry s u cp now]> g in
    let ms3 := emit (q_cap (m_SendQueue s)) ms (notice_msg s h u cp now now2) in
    serving s3 ms3 g3 ∧ same_srv s s3 ∧
    m_PosConnMap s3 = seen_to (m_ServerID s) (<[cp := c1]> (m_PosConnMap s)) g u ∧
    OnLoginRsp s k h body = SendRsp s3 k3 h Cmd_Auth_Login_Rsp (i32 (XYHeaderIn.ConnPos h)) (enc_LoginRsp 0).
Proof.
  intros Hse Hroom Hb Hcp Hc u c1. unfold OnLoginRsp. rewrite Hb, Hcp. change (0 =? 0) with true. cbv iota.
  rewrite Hc. fold u c1. set (s1 := set_conn s cp c1).
  destruct (k_time k) as [k1 now]. pose proof Hse as [Hrep Hok Hu].
  destruct (ck_conn _ _ Hok _ c Hc) as (_ & Hw & _).
  destruct (LoginHere_ok Hmax s1 k1 ms g u (i32 (XYHeaderIn.ConnPos h)) now) as (k2 & s2 & -> & Hr2 & Hok2 & Hs2 & _ & Hc2);
    [by apply set_conn_rep|by apply (set_conn_conn_ok s g _ c)|done|].
  rewrite Hcp in Hr2, Hok2. cbn [mbind outcome_bind].
  change (m_ServerID s1) with (m_ServerID s) in *. fold (here_entry s u cp now) in Hr2, Hok2.
  assert (serving s2 ms (<[u := here_entry s u cp now]> g)) as Hse2.
  { constructor; [done..|]. rewrite (sv_id _ _ Hs2), Hc2.
    by apply (users_ok_login (m_ServerID s) (m_PosConnMap s) g cp c c1 u). }
  destruct (k_time k2) as [k3 now2].
  edestruct (Send2ServerMsg_ok Hmax s2 ms) as (s3 & r3 & -> & Hs3 & Hr3); [apply Hse2|].
  cbn [mbind outcome_bind]. pose proof (sent_serving _ _ _ _ _ Hse2 Hs3 Hr3) as Hse3.
  exists k3, s3, now, now2. cbv zeta. split_and!; [|trans s2; [destruct Hs2; by constructor|apply Hs3]| |done].
  - unfold own_header in Hse3. rewrite (sv_id _ _ Hs2), (sv_cap _ _ Hs2) in Hse3. exact Hse3.
  - by rewrite (st_conns _ _ Hs3).
Qed.

(** The table has the user active at connection [cp] of this server. *)
Definition names s g u cp : bool :=
  match g !! u with
  | Some i => active_at (m_ServerID s) i && (ShmGnsInfo.ConnPos i =? cp)
  | None => false
  end.

Lemma seen_to_names s g u cp c1 :
  ClientInfo.m_UserID c1 = u →
  seen_to (m_ServerID s) (<[cp := c1]> (m_PosConnMap s)) g u !! cp = if names s g u cp then None else Some c1.
Proof.
  intros Hu. unfold seen_to, names. destruct (g !! u) as [i|]; [|apply lookup_insert_eq].
  destruct (active_at (m_ServerID s) i); [|apply lookup_insert_eq]. unfold kick. cbn [andb].
  destruct (Z.eqb_spec (ShmGnsInfo.ConnPos i) cp) as [->|Hp].
  - rewrite lookup_insert_eq, Hu, Z.eqb_refl. apply lookup_delete_eq.
  - rewrite lookup_insert_ne by done. destruct (m_PosConnMap s !! ShmGnsInfo.ConnPos i); [|apply lookup_insert_eq].
    destruct (_ =? _); [rewrite lookup_delete_ne by done|]; apply lookup_insert_eq.
Qed.

(** A login at this server takes the user's place: any other connection of
    his here is closed, the GNS table names the new one, the other connection
    servers are told, and the answer is on its way to the client, who is
    logged in now; unless the connection broke as it was sent. *)
Theorem login_takes_over s k ms g h body cp c uid :
  serving s ms g → gns_room s ∨ is_Some (g !! u64 uid) →
  dec_AuthLoginRsp body = Some (uid, 0) → u32 (i32 (XYHeaderIn.ConnPos h)) = cp →
  m_PosConnMap s !! cp = Some c → names s g (u64 uid) cp = false →
  17 + zlen (enc_LoginRsp 0) ≤ XY_PKG_MAX_LEN →
  ∃ k' s' now now2 ms' g', OnLoginRsp s k h body = Ok (k', s', 0) ∧ serving s' ms' g' ∧
    more (m_ServerID s) (emit (q_cap (m_SendQueue s)) ms (notice_msg s h (u64 uid) cp now now2)) ms' ∧
    (∀ p d, m_PosConnMap s' !! p = Some d → ClientInfo.m_UserID d = u64 uid → u64 uid ≠ 0 → p = cp) ∧
    (m_PosConnMap s' !! cp = None ∨
     ∃ pre c', m_PosConnMap s' !! cp = Some c' ∧ ClientInfo.m_UserID c' = u64 uid ∧
       ClientInfo.m_ConnType c' = CONN_AUTH ∧ g' !! u64 uid = Some (here_entry s (u64 uid) cp now) ∧
       outgoing k' (ClientInfo.info c') = pre ++ rsp_bytes h Cmd_Auth_Login_Rsp (enc_LoginRsp 0)).
Proof.
  intros Hse Hroom Hb Hcp Hc Hnm Hlen.
  destruct (OnLoginRsp_taken s k ms g h body cp c uid Hse Hroom Hb Hcp Hc)
    as (k3 & s3 & now & now2 & Hse3 & Hs3 & Hc3 & ->). set (u := u64 uid) in *.
  set (c1 := ClientInfo.SetUserID _ u) in Hc3.
  assert (m_PosConnMap s3 !! cp = Some c1) as Hc1 by (rewrite Hc3, seen_to_names, Hnm by done; done).
  destruct (SendRsp_ok Hmax s3 k3 _ _ h Cmd_Auth_Login_Rsp (i32 (XYHeaderIn.ConnPos h)) (enc_LoginRsp 0) Hse3)
    as (k' & s' & r & ms' & g' & -> & Hse' & Hm' & Hs' & Hr).
  rewrite (proj2 (Z.ltb_ge _ _)) in Hr by lia. destruct Hr as [Hto ->]. rewrite (sv_id _ _ Hs3) in Hm'.
  unfold to_client in Hto. rewrite Hcp, Hc1 in Hto.
  exists k', s', now, now2, ms', g'. split; [done|]. split; [done|]. split; [done|].
  assert (m_PosConnMap s' !! cp = None ∨ ∃ c', m_PosConnMap s' = <[cp := c']> (m_PosConnMap s3) ∧ same_client c1 c')
    as Hor by (destruct Hto as [(_ & c' & -> & ? & _)| ->]; [right; by exists c'|left; by rewrite lookup_delete_eq]).
  split.
  - intros p d Hp Hu Hne. destruct (decide (p = cp)) as [|Hpc]; [done|exfalso].
    assert (m_PosConnMap s3 !! p = Some d) as Hp3.
    { destruct Hto as [(_ & c' & Hm & _)|Hm]; rewrite Hm in Hp;
        [by rewrite lookup_insert_ne in Hp|by rewrite lookup_delete_ne in Hp]. }
    apply Hpc, (users_ok_unique _ _ _ p cp d c1 (se_users _ _ _ Hse3)); [done|done|by rewrite Hu|by rewrite Hu].
  - destruct Hto as [(-> & c' & Hm & (_ & Ht & Hu) & Ho)|Hm]; [right|left; by rewrite Hm, lookup_delete_eq].
    exists (outgoing k3 (ClientInfo.info c1)), c'. rewrite Hm, lookup_insert_eq, Hu, Ht.
    split_and!; try done. apply lookup_insert_eq.
Qed.

(** A login of a user whom the table has active at the very connection he
    logs in at again closes that connection, before an answer is sent, and
    leaves the table saying that he is active there. *)
Theorem relogin_disconnects s k ms g h body cp c uid :
  serving s ms g → dec_AuthLoginRsp body = Some (uid, 0) → u32 (i32 (XYHeaderIn.ConnPos h)) = cp →
  m_PosConnMap s !! cp = Some c → names s g (u64 uid) cp = true →
  ∃ k' s' r now ms' g', OnLoginRsp s k h body = Ok (k', s', r) ∧ serving s' ms' g' ∧
    m_PosConnMap s' !! cp = None ∧ g' !! u64 uid = Some (here_entry s (u64 uid) cp now).
Proof.
  intros Hse Hb Hcp Hc Hnm.
  assert (is_Some (g !! u64 uid)) as Hi by (unfold names in Hnm; by destruct (g !! u64 uid)).
  destruct (OnLoginRsp_taken s k ms g h body cp c uid Hse (or_intror Hi) Hb Hcp Hc)
    as (k3 & s3 & now & now2 & Hse3 & Hs3 & Hc3 & ->). set (u := u64 uid) in *.
  assert (m_PosConnMap s3 !! cp = None) as Hc1 by (rewrite Hc3, seen_to_names, Hnm by done; done).
  destruct (SendRsp_ok Hmax s3 k3 _ _ h Cmd_Auth_Login_Rsp (i32 (XYHeaderIn.ConnPos h)) (enc_LoginRsp 0) Hse3)
    as (k' & s' & r & ms' & g' & -> & Hse' & Hm' & Hs' & Hr).
  exists k', s', r, now, ms', g'. split; [done|]. split; [done|].
  assert (g' = <[u := here_entry s u cp now]> g ∧ m_PosConnMap s' = m_PosConnMap s3) as [-> ->].
  { destruct (XY_PKG_MAX_LEN <? _); [by destruct Hr as (-> & -> & _)|]. destruct Hr as [Hto _].
    unfold to_client in Hto. rewrite Hcp, Hc1 in Hto. by destruct Hto as (_ & -> & ->). }
  split; [done|apply lookup_insert_eq].
Qed.

(** * What other servers ask and send *)

(** Another connection server that asks for the users of this one is sent
    messages that repeat each other, each with some of the users more, and the
    last with exactly those the table has active here. *)
Theorem OnLoginSyncReq_answers s k ms g h body srv :
  serving s ms g → 0 ≤ XYHeaderIn.SrcID h < 2 ^ 32 → dec_LoginSyncReq body = Some srv → srv ≠ m_ServerID s →
  ∃ k' s' v times bs, OnLoginSyncReq s k h body = Ok (k', s', 0) ∧ mine (m_ServerID s) g v ∧
    length times = length bs ∧
    serving s' (foldl (emit (q_cap (m_SendQueue s))) ms
      (zip_with (λ now b, login_msg (m_ServerID s) Cmd_LoginSync_Rsp (XYHeaderIn.SrcID h) TO_SRV now b) times bs)) g ∧
    (∀ b, b ∈ bs → ∃ n, b = take n (data_msg <$> v) ∧ (0 < n)%nat) ∧
    (v ≠ [] → last bs = Some (data_msg <$> v)).
Proof.
  intros Hse Hsrc Hb Hne. unfold OnLoginSyncReq. rewrite Hb. destruct (Z.eqb_spec srv (m_ServerID s)); [done|].
  destruct (CollectUsers_ok s ms g Hse) as (v & -> & Hv). cbn [mbind outcome_bind].
  destruct (SendLogins_ok Hmax s k ms g Cmd_LoginSync_Rsp (XYHeaderIn.SrcID h) TO_SRV [] 0 v Hse)
    as (k' & s' & times & -> & Hlen & Hse' & _); [done|done|].
  cbn [mbind outcome_bind]. exists k', s', v, times, (batches [] 0 v). split_and!; try done.
  - intros b. apply batches_prefix.
  - apply batches_last.
Qed.

(** A package of another server that is not for the connection server
    itself goes to the client its header names, with the header a client
    understands in front of the body as it came: added whole to what is on its
    way to him, or his connection is released. *)
Theorem PassOn_delivers s k ms g h o n body c :
  serving s ms g → mread (m_pProcessBuff s) (o + 34) (n - 34) = Ok body → n ≤ XY_PKG_MAX_LEN →
  XYHeaderIn.ConnPos h ≠ 0 → m_PosConnMap s !! u32 (XYHeaderIn.ConnPos h) = Some c →
  ∃ k' s', PassOn s k h o n = Ok (k', s', 0) ∧
    (m_PosConnMap s' = delete (u32 (XYHeaderIn.ConnPos h)) (m_PosConnMap s) ∨
     ∃ c', m_PosConnMap s' = <[u32 (XYHeaderIn.ConnPos h) := c']> (m_PosConnMap s) ∧ same_client c c' ∧
       outgoing k' (ClientInfo.info c') = outgoing k (ClientInfo.info c) ++
         xy_bytes (XYHeader.mk (17 + zlen body) (XYHeaderIn.CmdID h) (XYHeaderIn.SN h) 0 (XYHeaderIn.Ret h) 0) ++ body).
Proof.
  intros Hse Hb Hn Hp Hc.
  destruct (PassOn_ok Hmax s k ms g h o n body Hse Hb Hn) as (k' & s' & r & ms' & g' & -> & _ & _ & _ & -> & Hto).
  exists k', s'. split; [done|]. rewrite (proj2 (Z.eqb_neq _ _)) in Hto by done.
  unfold to_client in Hto. rewrite Hc in Hto. destruct Hto as [(_ & c' & ? & ? & ?)|?]; [right|by left]. by exists c'.
Qed.
End props.

(** * At a concrete server *)
Section examples.
Import ConnServerExample.

Lemma first_check : CheckConn server kernel = Ok (kernel, set_iter server (Some 100)).
Proof.
  unfold CheckConn. change (m_itrCurCheckConn server) with (@None Z). cbv iota.
  assert (begin_key (m_PosConnMap server) = Some 100) as -> by (vm_compute; reflexivity). done.
Qed.

Lemma one_connection_per_user_witness :
  ∃ k' s', CheckConn server kernel = Ok (k', s') ∧
    ∀ p p' c c', m_PosConnMap s' !! p = Some c → m_PosConnMap s' !! p' = Some c' →
      ClientInfo.m_UserID c = 7 → ClientInfo.m_UserID c' = 7 → p = p'.
Proof.
  exists kernel, (set_iter server (Some 100)). split; [exact first_check|].
  destruct (one_connection_per_user queue_max kernel server kernel (set_iter server (Some 100)) server_alive)
    as [Hu _].
  - apply rtc_once. split; [exact server_roomy|]. exact (step_check _ _ _ _ first_check).
  - intros p p' c c' Hp Hp' Hc Hc'. apply (Hu p p' c c' Hp Hp'); [congruence|by rewrite Hc].
Defined.


Lemma Run_takes_steps_witness :
  rtc (step (K := Sim.t)) (kernel, server) (kernel, server).
Proof. exact (Run_takes_steps server kernel 0 big [] kernel server 0 big zlen_buff eq_refl). Defined.

(** Four rounds release the one of its three connections that is silent. *)
Lemma Run_idle_rounds_witness :
  ∃ k' s' last' ms' g', Run server kernel 0 big [[]; []; []; []] = Ok (k', s', last', big) ∧ serving s' ms' g' ∧
    m_PosConnMap s' !! 502 = None.
Proof.
  destruct (Run_idle_rounds queue_max 4 server kernel 0 big [] gns server_serving queue_rep)
    as (k' & s' & last' & ms' & g' & Hr & Hse & _ & _ & _ & _ & Hs); [lia|].
  exists k', s', last', ms', g'. split; [exact Hr|]. split; [exact Hse|].
  apply (Hs ltac:(vm_compute; lia) 502 (client 502 8 100 CONN_UNAUTH 0)); [reflexivity|split; reflexivity].
Defined.

(** The same server before its table is there, with nobody connected. *)
Definition fresh : CConn.t CShmQueue.t :=
  CConn.mk 101 30 0 {[100 := client 100 5 0 CONN_UNAUTH 0]} None 0 300 queue queue big big 8 raw.

Lemma fresh_prepared : prepared fresh [].
Proof.
  constructor; [apply queue_rep|apply zlen_buff|apply zlen_buff| |done..|cbn; lia].
  intros p c Hc. cbn [m_PosConnMap fresh] in Hc. map_cases Hc. by split_and!.
Qed.

Lemma InitGns_starts_witness :
  ∃ k' s' v times now, InitGns fresh kernel 48 16 48 table true 4096 = Ok (k', s', 0) ∧
    LoginData.mk 7 101 501 99000 ∈ v ∧
    serving s' (start_msgs 101 (q_cap queue) [] times now v) ∅.
Proof.
  destruct (InitGns_starts queue_max fresh kernel [] gns table 48 16 48 true 4096 fresh_prepared)
    as (k' & s' & v & times & now & Hr & [_ Hv] & _ & Hse & _); [vm_compute; discriminate| |].
  - split; [exact table_rep|]. split; [reflexivity|]. split; [reflexivity|].
    intros u i Hi. unfold gns in Hi. by map_cases Hi.
  - exists k', s', v, times, now. split; [exact Hr|]. split; [|exact Hse].
    apply Hv. exists 7, user7. split; [reflexivity|]. split; [reflexivity|reflexivity].
Defined.

Lemma silent_released_witness :
  ∃ k' s', CheckConns 4 server kernel = Ok (k', s') ∧ m_PosConnMap s' !! 502 = None.
Proof.
  destruct (silent_released queue_max server kernel [] gns server_serving) as (k' & s' & Hr & _ & Hs & _).
  exists k', s'. split; [exact Hr|].
  apply (Hs 502 (client 502 8 100 CONN_UNAUTH 0)); [reflexivity|split; reflexivity].
Defined.

Lemma gone_forgotten_witness :
  ∃ k' s' (g' : gmap Z ShmGnsInfo.t), CheckValids 8 server kernel = Ok (k', s') ∧
    (k_now k' < 2 ^ 63 → g' !! 9 = None ∧ g' !! 7 = Some user7).
Proof.
  destruct (gone_forgotten server kernel [] gns server_serving) as (k' & s' & g' & Hr & _ & Hg).
  exists k', s', g'. split; [exact Hr|]. intros Hk. destruct Hg as (Hsub & Hgone & Hkeep).
  - split; [vm_compute; discriminate|exact Hk].
  - split; [apply (Hgone 9 user9); [reflexivity|split; reflexivity]|].
    destruct (g' !! 7) as [i|] eqn:Hi; [|destruct (Hkeep 7 user7 eq_refl Hi) as [Hst _]; discriminate Hst].
    pose proof (lookup_weaken _ _ _ _ Hi Hsub) as Hi7. vm_compute in Hi7. injection Hi7 as <-. reflexivity.
Defined.

(** A request of user 7, of two bytes. *)
Definition req_header : XYHeader.t := XYHeader.mk 19 0x40005 3 0 0 0.
Definition request : list Z := xy_bytes req_header ++ [1; 2].

Lemma ProcessPkg_forwards_witness :
  ∃ k' s' now, ProcessPkg server kernel request 0 19 501 = Ok (k', s', 19) ∧
    serving s' (emit (q_cap queue) []
      (srv_msg 101 401 TO_SRV 0 (xyin_bytes (XYHeaderIn.mk 101 0x40005 3 501 7 (u64 now) 0) ++ [1; 2]))) gns.
Proof.
  destruct (ProcessPkg_forwards queue_max server kernel [] gns 501 (client 501 7 99900 CONN_AUTH 7) request 0 19
    request req_header [1; 2] server_serving)
    as (k' & s' & r & now & Hr & _ & Hc); try reflexivity; [split; vm_compute; discriminate|vm_compute; discriminate|].
  change (r = 19 ∧ serving s' (emit (q_cap queue) []
    (srv_msg 101 401 TO_SRV 0 (xyin_bytes (XYHeaderIn.mk 101 0x40005 3 501 7 (u64 now) 0) ++ [1; 2]))) gns) in Hc.
  destruct Hc as [-> Hc]. exists k', s', now. split; [exact Hr|exact Hc].
Defined.

(** A package one byte too long. *)
Definition long_body : list Z := replicate (Z.to_nat (XY_PKG_MAX_LEN - 59)) 0.
Lemma zlen_long : zlen long_body = XY_PKG_MAX_LEN - 59.
Proof. unfold long_body. by rewrite zlen_replicate, Z2Nat.id. Qed.
Definition long_header : XYHeader.t := XYHeader.mk (XY_PKG_MAX_LEN - 42) 0x40005 3 0 0 0.
Definition long_pkg : list Z := xy_bytes long_header ++ long_body.
Lemma zlen_long_pkg : zlen long_pkg = XY_PKG_MAX_LEN - 42.
Proof. unfold long_pkg. rewrite zlen_app, zlen_xy_bytes, zlen_long. done. Qed.

Lemma ProcessPkg_overflow_witness :
  ProcessPkg server kernel long_pkg 0 (XY_PKG_MAX_LEN - 42) 501 = Fault.
Proof.
  apply (ProcessPkg_overflow server kernel [] gns 501 (client 501 7 99900 CONN_AUTH 7) long_pkg 0
    (XY_PKG_MAX_LEN - 42) long_pkg long_header long_body server_serving).
  - reflexivity.
  - rewrite <- zlen_long_pkg. apply mread_all.
  - unfold XY_PKG_MAX_LEN. lia.
  - apply xy_Read_bytes; [constructor; cbn; unfold XY_PKG_MAX_LEN; lia|].
    unfold long_pkg. rewrite <- (zlen_xy_bytes long_header). apply mread_head.
  - rewrite zlen_long. reflexivity.
  - rewrite zlen_long. unfold XY_PKG_MAX_LEN. lia.
  - pose proof (mread_all long_pkg) as Hm. rewrite zlen_long_pkg in Hm.
    destruct (mread_app long_pkg (xy_bytes long_header) long_body 0 17 (zlen long_body)) as [_ Hr].
    + lia.
    + apply zlen_nonneg.
    + apply zlen_xy_bytes.
    + rewrite zlen_long. exact Hm.
    + exact Hr.
  - reflexivity.
  - reflexivity.
  - rewrite zlen_long. unfold XY_PKG_MAX_LEN. lia.
  - rewrite zlen_long. unfold XY_PKG_MAX_LEN. lia.
Defined.

(** User 9 logs in at 102 and, later, at 103. *)
Definition login1 : LoginData.t := LoginData.mk 9 102 601 60.
Definition login2 : LoginData.t := LoginData.mk 9 103 701 70.

Lemma logins_in_any_order_witness :
  ∃ k1 s1 k2 s2 g', OnLoginNotice server kernel (enc_LoginDatas [login1; login2]) = Ok (k1, s1, 0) ∧
    OnLoginNotice server kernel (enc_LoginDatas [login2; login1]) = Ok (k2, s2, 0) ∧
    serving s1 [] g' ∧ serving s2 [] g'.
Proof.
  destruct (logins_in_any_order queue_max server kernel [] gns (enc_LoginDatas [login1; login2])
    (enc_LoginDatas [login2; login1]) [login1; login2] [login2; login1] server_serving)
    as (k1 & s1 & k2 & s2 & g' & H1 & H2 & H3 & H4 & _).
  - reflexivity.
  - reflexivity.
  - apply perm_swap.
  - intros d d' Hd Hd' _ Ht.
    repeat (apply elem_of_cons in Hd as [->|Hd]); repeat (apply elem_of_cons in Hd' as [->|Hd']);
      try (by apply not_elem_of_nil in Hd); try (by apply not_elem_of_nil in Hd'); (reflexivity || discriminate Ht).
  - vm_compute. discriminate.
  - exists k1, s1, k2, s2, g'. exact (conj H1 (conj H2 (conj H3 H4))).
Defined.

(** The auth server says that user 8 of connection 502 may come in, and that
    user 7 of connection 501 may once more. *)
Definition rsp_header (cp : Z) : XYHeaderIn.t := XYHeaderIn.mk 201 Cmd_Auth_Login_Rsp 5 cp 0 0 0.

Lemma login_takes_over_witness :
  ∃ k' s', OnLoginRsp server kernel (rsp_header 502) [8; 0] = Ok (k', s', 0) ∧
    ∀ p d, m_PosConnMap s' !! p = Some d → ClientInfo.m_UserID d = 8 → p = 502.
Proof.
  destruct (login_takes_over queue_max server kernel [] gns (rsp_header 502) [8; 0] 502 (client 502 8 100 CONN_UNAUTH 0) 8
    server_serving) as (k' & s' & now & now2 & ms' & g' & Hr & _ & _ & Hu & _); try reflexivity.
  - left. exact (proj2 server_roomy).
  - discriminate.
  - exists k', s'. split; [exact Hr|]. intros p d Hp Hd. apply (Hu p d Hp Hd). discriminate.
Defined.

Lemma relogin_disconnects_witness :
  ∃ k' s' r, OnLoginRsp server kernel (rsp_header 501) [7; 0] = Ok (k', s', r) ∧ m_PosConnMap s' !! 501 = None.
Proof.
  destruct (relogin_disconnects queue_max server kernel [] gns (rsp_header 501) [7; 0] 501
    (client 501 7 99900 CONN_AUTH 7) 7 server_serving) as (k' & s' & r & now & ms' & g' & Hr & _ & Hn & _);
    try reflexivity.
  exists k', s', r. exact (conj Hr Hn).
Defined.

Lemma OnLoginSyncReq_answers_witness :
  ∃ k' s' (v : list LoginData.t), OnLoginSyncReq server kernel (XYHeaderIn.mk 102 Cmd_LoginSync_Req 0 0 0 0 0) [102] = Ok (k', s', 0) ∧
    LoginData.mk 7 101 501 99000 ∈ v.
Proof.
  destruct (OnLoginSyncReq_answers queue_max server kernel [] gns (XYHeaderIn.mk 102 Cmd_LoginSync_Req 0 0 0 0 0)
    [102] 102 server_serving) as (k' & s' & v & times & bs & Hr & [_ Hv] & _).
  - cbn. lia.
  - reflexivity.
  - discriminate.
  - exists k', s', v. split; [exact Hr|]. apply Hv. exists 7, user7.
    split; [reflexivity|]. split; [reflexivity|reflexivity].
Defined.

Lemma PassOn_delivers_witness :
  ∃ k' s', PassOn server kernel (XYHeaderIn.mk 401 0x40006 5 501 7 0 0) 0 36 = Ok (k', s', 0) ∧
    (m_PosConnMap s' = delete 501 conns ∨
     ∃ c', m_PosConnMap s' = <[501 := c']> conns ∧ same_client (client 501 7 99900 CONN_AUTH 7) c').
Proof.
  destruct (PassOn_delivers queue_max server kernel [] gns (XYHeaderIn.mk 401 0x40006 5 501 7 0 0) 0 36
    (take (Z.to_nat 2) (drop (Z.to_nat 34) big)) (client 501 7 99900 CONN_AUTH 7) server_serving)
    as (k' & s' & Hr & Hc).
  - apply (mread_ok big 34 2); [lia|lia|]. rewrite zlen_buff. unfold XY_PKG_MAX_LEN. lia.
  - unfold XY_PKG_MAX_LEN. lia.
  - discriminate.
  - reflexivity.
  - exists k', s'. split; [exact Hr|]. destruct Hc as [Hc|(c' & Hc & Hs & _)]; [left; exact Hc|right].
    exists c'. exact (conj Hc Hs).
Defined.
End examples.
