(* ===== verification/EndToEnd.v ===== *)
(** From a client to a server: the connection server and the bus of its
    machine, with the queue between them. *)
From stdpp Require Import gmap sorting.
From S2P Require Import Prelude Fifo ShmQueue Wire HashList Kernel ConnInfo BusState BusConn.
From S2P Require Import BusRoute BusFacts BusRun BusProps ConnState ConnServe ConnRun ConnFacts.
From S2P Require Import ConnInv ConnSteps ConnDeal ConnSync ConnLoop ConnEvents ConnReach ConnStart.
From S2P Require Import ConnExample ConnProps.

#[local] Arguments Z.add : simpl never.
#[local] Arguments Z.eqb : simpl never.
#[local] Arguments Z.ltb : simpl never.
#[local] Arguments Z.leb : simpl never.

Lemma be_enc_bytes n x : Forall byte_ok (be_enc n x).
Proof. apply Forall_rev_bytes, le_enc_bytes. Qed.

Lemma xyin_bytes_ok h : Forall byte_ok (xyin_bytes h).
Proof.
  unfold xyin_bytes. rewrite !Forall_app. split_and!; (apply be_enc_bytes || apply le_enc_bytes).
Qed.

Lemma srv_msg_ok sid dst st fl body :
  Forall byte_ok body → 0 ≤ dst < 2 ^ 32 → - 2 ^ 7 ≤ st < 2 ^ 7 → - 2 ^ 7 ≤ fl < 2 ^ 7 →
  26 + zlen body ≤ XY_PKG_MAX_LEN → msg_ok (srv_header sid Cmd_Transfer dst st fl (zlen body)) body.
Proof.
  intros ? ? ? ? Hl. pose proof (zlen_nonneg body). unfold XY_PKG_MAX_LEN in Hl.
  constructor; [|done|cbn; by rewrite u32_small by lia|done].
  constructor; cbn; try done; apply u32_range.
Qed.

Section delivery.
Context {Q K : Type} `{FifoQueue Q} `{KernelLaws K} `{ConnProtoLaws} `{BusProto}.
Hypothesis Hmax : XY_PKG_MAX_LEN ≤ q_max.
Implicit Types (s : CConn.t Q) (b : CBus.t Q) (k : K) (M : Z → list (list Z)).

(** A message in the queue of the bus for a server of its cluster. *)
Lemma ForwardQueue_local b k M sid dst fl body ms cap :
  q_rep (CBus.m_ClusterQueue b) (srv_msg sid dst TO_SRV fl body :: ms) → holds b M →
  zlen (CBus.m_pProcessBuff b) = XY_PKG_MAX_LEN →
  msg_ok (srv_header sid Cmd_Transfer dst TO_SRV fl (zlen body)) body →
  route b dst = Some cap → (k_time k).2 ≠ 0 →
  let copy := msg_bytes (BusHeader.mk (26 + zlen body) Cmd_Transfer (u32 sid) dst (k_time k).2 TO_SRV fl) body in
  ∃ k' b', CBusRun.ForwardQueue 1 b k = Ok (k', b') ∧
    holds b' (if q_fits cap (M dst) copy then <[dst := M dst ++ [copy]]> M else M).
Proof.
  intros Hq Hh Hpb Hmsg Hrt Ht copy. cbn [CBusRun.ForwardQueue].
  set (h := srv_header sid Cmd_Transfer dst TO_SRV fl (zlen body)) in *.
  pose proof (msg_len _ _ Hmsg) as Hl. pose proof (msg_max _ _ Hmsg) as Hm.
  assert (zlen (srv_msg sid dst TO_SRV fl body) = 26 + zlen body) as Hz by apply zlen_msg_bytes.
  destruct (q_out_ok _ _ ms XY_PKG_MAX_LEN Hq) as (q & -> & _); [unfold XY_PKG_MAX_LEN in *; lia|].
  cbn [mbind outcome_bind]. rewrite mwrite_head by lia. cbn [mbind outcome_bind].
  change (negb (Q_OK =? 0)) with false. cbv iota. rewrite Hz.
  set (b1 := CBus.set_buff (CBus.set_cqueue b q) _).
  destruct (ForwardMsg_local Hmax b1 M k h body (drop (length (srv_msg sid dst TO_SRV fl body)) (CBus.m_pProcessBuff b)) cap)
    as (k' & b' & -> & Hh' & _); [exact Hh|exact Hmsg|reflexivity|done|reflexivity|exact Hrt|exact Ht|].
  cbn [mbind outcome_bind]. exists k', b'. split; [done|].
  assert (msg_bytes (stamp (with_time h (sent_time k h)) (BusHeader.DstID h) 0) body = copy) as Hc.
  { unfold copy. f_equal. unfold sent_time. change (BusHeader.PkgTime h) with 0. change (0 =? 0) with true. cbv iota.
    unfold stamp, with_time. cbn [BusHeader.PkgTime BusHeader.PkgLen]. rewrite Hl.
    by rewrite (proj2 (Z.eqb_neq _ _)) by done. }
  rewrite Hc in Hh'. exact Hh'.
Qed.

(** What the connection server does: the package is sent on, with the header it
    makes of the client's. *)
Lemma client_request_queued s k ms g p c m o n d h body :
  serving s ms g → CConn.m_PosConnMap s !! p = Some c →
  mread m o n = Ok d → 0 ≤ n ≤ XY_PKG_MAX_LEN →
  XYHeader.Read m o = Ok (h, 17) → XYHeader.PkgLen h = 17 + zlen body → 17 + zlen body ≤ n →
  mread m (o + 17) (zlen body) = Ok body → 60 + zlen body ≤ XY_PKG_MAX_LEN →
  ClientInfo.m_ConnType c = CONN_AUTH → Z.shiftr (XYHeader.CmdID h) 16 = CMD_PREFIX_USER →
  let dst := u32 (GetUserServer (ClientInfo.m_UserID c)) in
  ∃ k' s' now, let hin := CConnServe.client_header s c h now in
    let msg := srv_msg (CConn.m_ServerID s) dst TO_SRV 0 (xyin_bytes hin ++ body) in
    CConnServe.ProcessPkg s k m o n p = Ok (k', s', 17 + zlen body) ∧
    serving s' (if q_fits (q_cap (CConn.m_SendQueue s)) ms msg then ms ++ [msg] else ms) g.
Proof.
  intros Hse Hc Hd Hn Hh Hl Hln Hb H60 Ht Hcmd dst. pose proof (zlen_nonneg body).
  assert (let_in c (XYHeader.CmdID h) = true) as Hlet by (unfold let_in; by rewrite Ht, !orb_true_r).
  destruct (ProcessPkg_cases s k p c m o n d (cr_pbuff _ _ _ (se_rep _ _ _ Hse)) Hc Hd Hn)
    as [? _|h' Hh' Hbad _|h' Hh' _ Hpart _|h' b' k1 now rest Hh' Hl' _ _ Hb' _ Hlet' Hz ->
       |h' b' k1 now rest Hh' Hl' _ _ Hb' _ _ Hz ->]; [lia|..]; rewrite Hh in Hh'; injection Hh' as <-.
  { exfalso. rewrite Hl, i32_small in Hbad by (unfold XY_PKG_MAX_LEN in *; lia). lia. }
  { lia. }
  { congruence. }
  replace (zlen b') with (zlen body) in * by lia. rewrite Hb in Hb'. injection Hb' as <-.
  set (hin := CConnServe.client_header s c h now) in *. set (s1 := CConn.set_pbuff s _).
  assert (serving s1 ms g) as Hse1.
  { apply set_pbuff_serving; [done|]. rewrite !zlen_app, zlen_xyin_bytes. lia. }
  destruct (Forward_ok Hmax s1 ms g hin body rest) as [[_ ?]|(s' & -> & Hs & Hr')]; [apply Hse1|done|lia|].
  pose proof (sent_serving _ _ _ _ _ Hse1 Hs Hr') as Hse'.
  assert (payload hin body = Some (Some (dst, TO_SRV, xyin_bytes hin ++ body))) as Hpl.
  { unfold payload. change (XYHeaderIn.CmdID hin) with (XYHeader.CmdID h). by rewrite Hcmd. }
  rewrite Hpl in Hse' |- *. unfold emit in Hse'.
  assert (zlen (srv_msg (CConn.m_ServerID s1) dst TO_SRV 0 (xyin_bytes hin ++ body)) = 60 + zlen body) as Hzm.
  { unfold srv_msg. rewrite zlen_msg_bytes, zlen_app, zlen_xyin_bytes. lia. }
  rewrite Hzm, (proj2 (Z.ltb_ge _ _)) in Hse' by lia.
  exists k1, s', now. split; [done|exact Hse'].
Qed.

(** What the server finds behind the bus header. *)
Lemma copy_fields hc hin body :
  xyin_ok hin →
  XYHeaderIn.Read (msg_bytes hc (xyin_bytes hin ++ body)) 26 = Ok (hin, 34) ∧
  mread (msg_bytes hc (xyin_bytes hin ++ body)) 60 (zlen body) = Ok body ∧
  zlen (msg_bytes hc (xyin_bytes hin ++ body)) = 60 + zlen body.
Proof.
  intros Hok. pose proof (zlen_nonneg body).
  assert (zlen (xyin_bytes hin ++ body) = 34 + zlen body) as Hzb by (by rewrite zlen_app, zlen_xyin_bytes).
  destruct (mread_app (msg_bytes hc (xyin_bytes hin ++ body)) (xyin_bytes hin) body 26 34 (zlen body)) as [? ?];
    [lia|lia|by rewrite zlen_xyin_bytes| |].
  { pose proof (mread_body hc (xyin_bytes hin ++ body) []) as Hb2. rewrite app_nil_r, Hzb in Hb2.
    by replace (26 + (34 + zlen body) - 26) with (34 + zlen body) in Hb2 by lia. }
  split_and!; [by apply xyin_Read_bytes|done|rewrite zlen_msg_bytes, Hzb; lia].
Qed.

(** C6: a request of a logged-in client reaches the server of its user.  Once
    the connection server has dealt with it the package is in the queue to the
    bus, behind what was there; and whenever it is the next for the bus, one
    round of its loop puts it into the queue of the server [GetUserServer] names,
    if that queue has room, and into no other.  That server reads from it the
    command, the sequence number and the body the client sent, and the
    connection and the user the connection server knows him by. *)
Theorem client_request_delivered s k ms g p c m o n d h body :
  serving s ms g → CConn.m_PosConnMap s !! p = Some c → Forall byte_ok m →
  mread m o n = Ok d → 0 ≤ n ≤ XY_PKG_MAX_LEN →
  XYHeader.Read m o = Ok (h, 17) → XYHeader.PkgLen h = 17 + zlen body → 17 + zlen body ≤ n →
  mread m (o + 17) (zlen body) = Ok body → 60 + zlen body ≤ XY_PKG_MAX_LEN →
  ClientInfo.m_ConnType c = CONN_AUTH → 0 ≤ ClientInfo.m_UserID c < 2 ^ 64 →
  Z.shiftr (XYHeader.CmdID h) 16 = CMD_PREFIX_USER →
  let sid := u32 (CConn.m_ServerID s) in
  let dst := u32 (GetUserServer (ClientInfo.m_UserID c)) in
  ∃ k' s' now, let hin := XYHeaderIn.mk sid (XYHeader.CmdID h) (XYHeader.SN h) p
                            (ClientInfo.m_UserID c) (u64 now) (XYHeader.Ret h) in
    let msg := srv_msg (CConn.m_ServerID s) dst TO_SRV 0 (xyin_bytes hin ++ body) in
    CConnServe.ProcessPkg s k m o n p = Ok (k', s', 17 + zlen body) ∧
    serving s' (if q_fits (q_cap (CConn.m_SendQueue s)) ms msg then ms ++ [msg] else ms) g ∧
    ∀ b (kb : K) M rest cap,
      q_rep (CBus.m_ClusterQueue b) (msg :: rest) → holds b M →
      zlen (CBus.m_pProcessBuff b) = XY_PKG_MAX_LEN → route b dst = Some cap → (k_time kb).2 ≠ 0 →
      ∃ kb' b' copy, CBusRun.ForwardQueue 1 b kb = Ok (kb', b') ∧
        holds b' (if q_fits cap (M dst) copy then <[dst := M dst ++ [copy]]> M else M) ∧
        XYHeaderIn.Read copy 26 = Ok (hin, 34) ∧ mread copy 60 (zlen body) = Ok body ∧ zlen copy = 60 + zlen body.
Proof.
  intros Hse Hc Hmb Hd Hn Hh Hl Hln Hb H60 Ht Hu Hcmd sid dst. pose proof (zlen_nonneg body).
  destruct (ck_conn _ _ (se_ok _ _ _ Hse) p c Hc) as (Hp & _ & _).
  assert (0 ≤ p < 2 ^ 32) as Hpr.
  { rewrite <- (conn_pos_u32 s g p c (se_ok _ _ _ Hse) Hc). apply u32_range. }
  destruct (client_request_queued s k ms g p c m o n d h body) as (k1 & s' & now & Hpr1 & Hse'); [done..|].
  unfold CConnServe.client_header in Hse'. rewrite Hp in Hse'.
  exists k1, s', now. cbv zeta. set (hin := XYHeaderIn.mk _ _ _ _ _ _ _) in *. split; [done|]. split; [exact Hse'|].
  intros b kb M rs cap Hq Hhold Hpb Hrt Htime.
  assert (zlen (xyin_bytes hin ++ body) = 34 + zlen body) as Hzb by (by rewrite zlen_app, zlen_xyin_bytes).
  assert (msg_ok (srv_header (CConn.m_ServerID s) Cmd_Transfer dst TO_SRV 0 (zlen (xyin_bytes hin ++ body)))
            (xyin_bytes hin ++ body)) as Hmsg.
  { apply srv_msg_ok; [|apply u32_range|done|done|lia]. apply Forall_app. split; [apply xyin_bytes_ok|].
    by apply (mread_Forall _ m (o + 17) (zlen body)). }
  destruct (ForwardQueue_local b kb M (CConn.m_ServerID s) dst 0 (xyin_bytes hin ++ body) rs cap)
    as (kb' & b' & Hf & Hh'); [done..|].
  eexists kb', b', _. split; [exact Hf|]. split; [exact Hh'|]. apply copy_fields.
  assert (∃ d17, mread m o 17 = Ok d17) as [d17 H17] by (eexists; by apply (mread_le m d o n 17); [|lia]).
  destruct (xy_Read_fields m o d17 H17) as (d1 & d2 & d3 & d4 & d5 & d6 & _ & _ & _ & _ & _ & _ & _ & Hrd).
  rewrite Hrd in Hh. injection Hh as <-.
  constructor; cbn; try done; try apply u32_range; try apply bswap_range. apply Z.mod_pos_bound. lia.
Qed.
End delivery.

(** * User 7 asks server 401 *)
Section examples.
Import ConnServerExample.
#[local] Existing Instance BusExample.proto.

(** The bus of the machine, with its own queue [q]. *)
Definition machine (q : CShmQueue.t) : CBus.t CShmQueue.t :=
  CBus.mk 1 300001 200001 big 5 5 ∅ ∅
    {[401 := ServerInfo.mk 1 400 0 1 4096 (Some queue)]} ∅ q.

Lemma machine_holds q : holds (machine q) (λ _, []).
Proof.
  intros id i x Hi Hx. cbn [CBus.m_mapSvrInfo machine] in Hi.
  apply lookup_singleton_Some in Hi as [<- <-]. injection Hx as <-. apply queue_rep.
Qed.

Lemma client_request_delivered_witness :
  ∃ k' s' now q kb' b' copy,
    CConnServe.ProcessPkg server kernel request 0 19 501 = Ok (k', s', 19) ∧
    CBusRun.ForwardQueue 1 (machine q) kernel = Ok (kb', b') ∧
    XYHeaderIn.Read copy 26 = Ok (XYHeaderIn.mk 101 0x40005 3 501 7 (u64 now) 0, 34) ∧
    mread copy 60 2 = Ok [1; 2] ∧ holds b' (<[401 := [copy]]> (λ _, [])).
Proof.
  destruct (client_request_delivered (K := Sim.t) queue_max server kernel [] gns 501 (client 501 7 99900 CONN_AUTH 7)
    request 0 19 request req_header [1; 2] server_serving) as (k' & s' & now & Hr & _ & Hbus).
  - reflexivity.
  - repeat (apply Forall_cons; split; [vm_compute; split; [discriminate|reflexivity]|]). constructor.
  - reflexivity.
  - split; vm_compute; discriminate.
  - reflexivity.
  - reflexivity.
  - vm_compute. discriminate.
  - reflexivity.
  - vm_compute. discriminate.
  - reflexivity.
  - split; vm_compute; [discriminate|reflexivity].
  - reflexivity.
  - set (msg := srv_msg _ _ _ _ _) in Hbus.
    assert (zlen msg = 62) as Hz.
    { unfold msg, srv_msg. rewrite zlen_msg_bytes, zlen_app, zlen_xyin_bytes. reflexivity. }
    destruct (q_in_fits queue [] msg queue_rep) as (q & _ & Hq & _).
    { rewrite Hz. split; vm_compute; [reflexivity|discriminate]. }
    { unfold q_fits, q_cap, shm_fifo, shm_fits. rewrite Hz. reflexivity. }
    destruct (Hbus (machine q) kernel (λ _, []) [] (q_cap queue) Hq (machine_holds q) zlen_buff)
      as (kb' & b' & copy & Hf & Hh & Hrd & Hbd & Hzc).
    + reflexivity.
    + discriminate.
    + exists k', s', now, q, kb', b', copy. split; [exact Hr|]. split; [exact Hf|]. split; [exact Hrd|].
      split; [exact Hbd|].
      assert (q_fits (q_cap queue) [] copy = true) as Hfit.
      { unfold q_fits, q_cap, shm_fifo, shm_fits. rewrite Hzc. reflexivity. }
      rewrite Hfit in Hh. exact Hh.
Defined.
End examples.
