(* ===== verification/UserState.v ===== *)
(** The users of the user server ([CUserShmApi] of user/user_shm_api.cpp): a hash
    table in shared memory, which the processes that load users from the
    database and write them back work on too. *)
From stdpp Require Import gmap sorting.
From S2P Require Import Prelude Fifo Wire HashList Kernel ConnInfo BusState BusRoute IniFile ConnState.

#[local] Arguments Z.add : simpl never.
#[local] Arguments Z.eqb : simpl never.
#[local] Arguments Z.ltb : simpl never.
#[local] Arguments Z.leb : simpl never.

(** * Constants of common.h *)
Definition MAX_NAME_LENGTH : Z := 24.
Definition MAX_FRIEND_NUM : Z := 200.
Definition MAX_REQUEST_NUM : Z := 50.
Definition MAX_PERSONAL_NOTE_LENGTH : Z := 256.
Definition MAX_TELNO_LENGTH : Z := 11.
Definition MAX_ADDR_LENGTH : Z := 256.
Definition MAX_EMAIL_LENGTH : Z := 64.
Definition USER_INVALID_TIME : Z := 86400.
Definition USER_STATUS_INIT : Z := 0.
Definition USER_STATUS_LOADED : Z := 2.

(** * Strings in arrays *)

(** [snprintf(buf, n, "%s", s.c_str())]: what does not fit is cut off. *)
Definition snprintf_s (buf : list Z) (n : Z) (s : list Z) : outcome (list Z) :=
  mwrite buf 0 (take (Z.to_nat (n - 1)) (cstr s) ++ [0]).

(** A char array read as a string: without a NUL reading leaves the array. *)
Definition carray (buf : list Z) : outcome (list Z) :=
  if bool_decide (0 ∈ buf) then Ok (cstr buf) else Fault.

(** * Data *)
Module FriendInfo.
Record t : Type := mk { UserID : Z; RemarkName : list Z; SeeStatus : Z }.
Definition zero : t := mk 0 (replicate (Z.to_nat MAX_NAME_LENGTH) 0) 0.
#[global] Instance eq_dec : EqDecision t.
Proof. solve_decision. Defined.
End FriendInfo.

Module RequestInfo.
Record t : Type := mk { UserID : Z; NickName : list Z; RequestTime : Z; IsValid : Z }.
Definition zero : t := mk 0 (replicate (Z.to_nat MAX_NAME_LENGTH) 0) 0 0.
#[global] Instance eq_dec : EqDecision t.
Proof. solve_decision. Defined.
End RequestInfo.

Module ShmUserInfo.
Record t : Type := mk {
  UserID : Z; Status : Z; LastActiveTime : Z; NickName : list Z; Level : Z; VipLevel : Z;
  Sex : Z; Birthday : Z; TelNo : list Z; Address : list Z; EMail : list Z;
  PersonalNote : list Z; FriendList : list FriendInfo.t; RequestList : list RequestInfo.t }.
(** The constructor's memset. *)
Definition zero : t :=
  mk 0 0 0 (replicate (Z.to_nat MAX_NAME_LENGTH) 0) 0 0 0 0
     (replicate (Z.to_nat MAX_TELNO_LENGTH) 0) (replicate (Z.to_nat MAX_ADDR_LENGTH) 0)
     (replicate (Z.to_nat MAX_EMAIL_LENGTH) 0) (replicate (Z.to_nat MAX_PERSONAL_NOTE_LENGTH) 0)
     (replicate (Z.to_nat MAX_FRIEND_NUM) FriendInfo.zero)
     (replicate (Z.to_nat MAX_REQUEST_NUM) RequestInfo.zero).
#[global] Instance eq_dec : EqDecision t.
Proof. solve_decision. Defined.
(** A request is put into the list. *)
Definition set_request (u : t) (l : list RequestInfo.t) (LastActiveTime : Z) : t :=
  mk (UserID u) (Status u) LastActiveTime (NickName u) (Level u) (VipLevel u) (Sex u) (Birthday u)
     (TelNo u) (Address u) (EMail u) (PersonalNote u) (FriendList u) l.
End ShmUserInfo.

Module CUserShmApi.

Record t : Type := mk {
  m_CheckUserPos : Z; m_MaxUserNodeNum : Z;
  m_UserInfoMap : CHashListNoLock.t ShmUserInfo.t }.
Definition set_map (s : t) (h : CHashListNoLock.t ShmUserInfo.t) : t :=
  mk (m_CheckUserPos s) (m_MaxUserNodeNum s) h.
Definition set_pos (s : t) (p : Z) : t := mk p (m_MaxUserNodeNum s) (m_UserInfoMap s).

Implicit Types (s : t).

(** ** Locks on bytes of the lock file: offset and length

    Nobody looks at what locking returns. *)
Definition LOCK_ALL : Z * Z := (0, 0).
Definition LOCK_HASHLIST_HEAD : Z * Z := (0, 1).
Definition LOCK_USER s (UserID : Z) : outcome (Z * Z) :=
  b ← umod UserID (u64 (m_MaxUserNodeNum s)); Ok (i32 (u64 (2 + b)), 1).
Definition LOCK_INDEX (Index : Z) : Z * Z := (i32 (2 + Index), 1).

(** ** Start *)
Definition USER_MEM_HEAD_SIZE : Z := 256.

(** The shared memory is found or made: [h] is what it holds, [magic] whether it
    was used before, [lock_ret] what opening the lock file returns; the sizes
    are those of [CHashListNoLock.Init]. *)
Definition Init s (HEAD INDEX NODE UserShmKey UserShmSize NodeNum : Z)
    (h : CHashListNoLock.t ShmUserInfo.t) (magic : bool) (lock_ret : Z) : outcome (t * Z) :=
  let s := mk (m_CheckUserPos s) NodeNum (m_UserInfoMap s) in
  if UserShmKey =? 0 then Ok (s, -1) else
  if UserShmSize =? 0 then Ok (s, -1) else
  if NodeNum =? 0 then Ok (s, -1) else
  let UserInfoMemSize := CHashListNoLock.CalcSize HEAD INDEX NODE NodeNum NodeNum in
  if UserShmSize <? UserInfoMemSize + USER_MEM_HEAD_SIZE then Ok (s, -1) else
  let '(h, Ret) := CHashListNoLock.Init HEAD INDEX NODE h UserInfoMemSize NodeNum NodeNum in
  if negb (Ret =? 0) then Ok (set_map s h, -1) else
  h ← (if magic then Ok h else CHashListNoLock.Clear ShmUserInfo.zero h);
  Ret ← CHashListNoLock.Verify h;
  if negb (Ret =? 0) then Ok (set_map s h, -1) else
  if negb (lock_ret =? 0) then Ok (set_map s h, -1) else Ok (set_map s h, 0).

(** ** Users *)
Definition InsertUserInfo s (Info : ShmUserInfo.t) : outcome (t * Z) :=
  let UserID := ShmUserInfo.UserID Info in
  if UserID =? 0 then Ok (s, -1) else
  _ ← LOCK_USER s UserID;
  '(h, Ret) ← CHashListNoLock.Insert (m_UserInfoMap s) UserID Info;
  Ok (set_map s h, if Ret =? 0 then 0 else -1).

Definition RemoveUserInfo s (UserID : Z) : outcome (t * Z) :=
  _ ← LOCK_USER s UserID;
  '(h, Ret) ← CHashListNoLock.Remove (m_UserInfoMap s) UserID;
  Ok (set_map s h, if Ret =? 0 then 0 else -1).

Definition GetUserInfo s (UserID : Z) (Info : ShmUserInfo.t) : outcome (Z * ShmUserInfo.t) :=
  _ ← LOCK_USER s UserID;
  '(Ret, Info) ← CHashListNoLock.Get (m_UserInfoMap s) UserID Info;
  Ok (if Ret =? 0 then 0 else -1, Info).

Definition UpdateUserInfo s (newUserInfo : ShmUserInfo.t) : outcome (t * Z) :=
  let UserID := ShmUserInfo.UserID newUserInfo in
  _ ← LOCK_USER s UserID;
  '(h, Ret) ← CHashListNoLock.Update (m_UserInfoMap s) UserID newUserInfo;
  Ok (set_map s h, if Ret =? 0 then 0 else -1).

Section timed.
Context {K : Type} `{Kernel K}.
Implicit Types k : K.

Definition RemoveUserInfoWhenInValid s k (UserID : Z) : outcome (K * t * Z) :=
  _ ← LOCK_USER s UserID;
  ip ← CHashListNoLock.GetP (m_UserInfoMap s) UserID;
  match ip with
  | None => Ok (k, s, -1)
  | Some ip =>
      let '(k, nowTime) := k_time k in
      i ← CHashListNoLock.deref (m_UserInfoMap s) ip;
      if u64 (nowTime - USER_INVALID_TIME) <=? ShmUserInfo.LastActiveTime i then Ok (k, s, 0) else
      '(h, Ret) ← CHashListNoLock.Remove (m_UserInfoMap s) UserID;
      Ok (k, set_map s h, if Ret =? 0 then 0 else -1)
  end.

(** Users gone for a day are noted down. *)
Definition MemFullCallBack (h : CHashListNoLock.t ShmUserInfo.t) (ip : Z) (st : K * list Z)
    : outcome (CHashListNoLock.t ShmUserInfo.t * (K * list Z)) :=
  nd ← aget (CHashListNoLock.m_pstData h) ip;
  let '(k, v) := st in
  let '(k, nowTime) := k_time k in
  if ShmUserInfo.LastActiveTime (CHashListNoLock.Data nd) <? u64 (nowTime - USER_INVALID_TIME)
  then Ok (h, (k, v ++ [CHashListNoLock.KeyVal nd])) else Ok (h, (k, v)).

(** One index of the table per call. *)
Definition CheckUserIsValid s k (v : list Z) : outcome (K * t * list Z) :=
  '(h, (k, v), _) ← CHashListNoLock.ProcessAll (m_UserInfoMap s) (m_CheckUserPos s)
                      MemFullCallBack (k, v);
  if m_MaxUserNodeNum s =? 0 then Fault else
  Ok (k, set_pos (set_map s h) (Z.rem (m_CheckUserPos s + 1) (m_MaxUserNodeNum s)), v).

(** The place of a new request: the first that is not in use, or that of the
    greatest time. *)
Fixpoint request_slot (l : list RequestInfo.t) (i MaxRequestTime Index : Z) : Z :=
  match l with
  | [] => Index
  | r :: l =>
      if (RequestInfo.UserID r =? 0) || (RequestInfo.IsValid r =? 0) then i
      else if MaxRequestTime <? RequestInfo.RequestTime r
      then request_slot l (i + 1) (RequestInfo.RequestTime r) i
      else request_slot l (i + 1) MaxRequestTime Index
  end.

Definition AddFriendReq s k (UserID OtherUserID : Z) (strNickName : list Z)
    : outcome (K * t * Z) :=
  _ ← LOCK_USER s OtherUserID;
  ip ← CHashListNoLock.GetP (m_UserInfoMap s) OtherUserID;
  match ip with
  | None => Ok (k, s, -1)
  | Some ip =>
      u ← CHashListNoLock.deref (m_UserInfoMap s) ip;
      let Index := request_slot (ShmUserInfo.RequestList u) 0 0 0 in
      r ← aget (ShmUserInfo.RequestList u) Index;
      NickName ← snprintf_s (RequestInfo.NickName r) MAX_NAME_LENGTH strNickName;
      let '(k, now1) := k_time k in
      l ← aset (ShmUserInfo.RequestList u) Index
            (RequestInfo.mk UserID NickName (u64 now1) (RequestInfo.IsValid r));
      let '(k, now2) := k_time k in
      h ← CHashListNoLock.store (m_UserInfoMap s) ip (ShmUserInfo.set_request u l (u64 now2));
      Ok (k, set_map s h, 0)
  end.
End timed.
End CUserShmApi.
