(* ===== verification/UserServe.v ===== *)
(** The user server ([CUser] of user/user_proc.cpp): registrations and requests
    for friendship.  A user who is not in memory is asked for from the loader,
    which sends the request back once he is. *)
From stdpp Require Import gmap sorting.
From S2P Require Import Prelude Fifo Wire HashList Kernel ConnInfo BusState BusRoute IniFile ConnState.
From S2P Require Import UserState.

#[local] Arguments Z.add : simpl never.
#[local] Arguments Z.eqb : simpl never.
#[local] Arguments Z.ltb : simpl never.
#[local] Arguments Z.leb : simpl never.

Definition Cmd_User_AddFriend_Req : Z := 0x40003.
Definition Cmd_User_AddFriend_Rsp : Z := 0x40004.
Definition Cmd_User_AddFriend_Req2 : Z := 0x40005.

(** The Protocol Buffers messages the user server reads and writes. *)
Class UserProto : Type := {
  dec_UserRegisterReq : list Z → option (Z * UserFields);
  dec_AddFriendReq : list Z → option Z;                    (** the other user *)
  dec_UserAddFriendReq : list Z → option (Z * list Z * Z); (** user, his name, the other *)
  dec_LoadUserInfoRsp : list Z → option (Z * list Z);      (** ret, request *)
  enc_UserRegisterRsp : Z → Z → list Z;                    (** user, ret *)
  enc_AddFriendRsp : Z → list Z;
  enc_UserAddFriendReq : Z → list Z → Z → list Z;
  enc_LoadUserInfoReq : Z → list Z → list Z;
  enc_WriteUserInfoReq : Z → list Z;
  enc_StateChangeMsg : Z → Z → list Z;
}.

(** A request passed on between user servers parses back; a request to the
    loader is not empty, and one to the writer short, as its only field is an
    integer of at most ten bytes. *)
Class UserProtoLaws `{UserProto} : Prop := {
  add_friend_law u name other :
    0 ≤ u < 2 ^ 64 → 0 ≤ other < 2 ^ 64 →
    dec_UserAddFriendReq (enc_UserAddFriendReq u name other) = Some (u, name, other);
  load_req_pos u request : 0 < zlen (enc_LoadUserInfoReq u request);
  write_req_len u : 0 < zlen (enc_WriteUserInfoReq u) ≤ 128;
}.

Module CUser.

Record t (Q : Type) : Type := mk {
  m_ServerID : Z; m_StateTime : Z;
  m_SendQueue : Q; m_RecvQueue : Q;
  m_LoaderSendQueue : Q; m_LoaderRecvQueue : Q; m_WriterQueue : Q;
  m_pSendBuff : list Z;
  m_UserShm : CUserShmApi.t }.
Arguments mk {Q}.
Arguments m_ServerID {Q}.
Arguments m_StateTime {Q}.
Arguments m_SendQueue {Q}.
Arguments m_RecvQueue {Q}.
Arguments m_LoaderSendQueue {Q}.
Arguments m_LoaderRecvQueue {Q}.
Arguments m_WriterQueue {Q}.
Arguments m_pSendBuff {Q}.
Arguments m_UserShm {Q}.

Section setters.
Context {Q : Type}.
Implicit Types s : t Q.
Definition set_send s (q : Q) (buf : list Z) : t Q :=
  mk (m_ServerID s) (m_StateTime s) q (m_RecvQueue s) (m_LoaderSendQueue s) (m_LoaderRecvQueue s)
     (m_WriterQueue s) buf (m_UserShm s).
Definition set_recv s (q : Q) : t Q :=
  mk (m_ServerID s) (m_StateTime s) (m_SendQueue s) q (m_LoaderSendQueue s) (m_LoaderRecvQueue s)
     (m_WriterQueue s) (m_pSendBuff s) (m_UserShm s).
Definition set_loader_send s (q : Q) : t Q :=
  mk (m_ServerID s) (m_StateTime s) (m_SendQueue s) (m_RecvQueue s) q (m_LoaderRecvQueue s)
     (m_WriterQueue s) (m_pSendBuff s) (m_UserShm s).
Definition set_loader_recv s (q : Q) : t Q :=
  mk (m_ServerID s) (m_StateTime s) (m_SendQueue s) (m_RecvQueue s) (m_LoaderSendQueue s) q
     (m_WriterQueue s) (m_pSendBuff s) (m_UserShm s).
Definition set_writer s (q : Q) : t Q :=
  mk (m_ServerID s) (m_StateTime s) (m_SendQueue s) (m_RecvQueue s) (m_LoaderSendQueue s)
     (m_LoaderRecvQueue s) q (m_pSendBuff s) (m_UserShm s).
Definition set_shm s (u : CUserShmApi.t) : t Q :=
  mk (m_ServerID s) (m_StateTime s) (m_SendQueue s) (m_RecvQueue s) (m_LoaderSendQueue s)
     (m_LoaderRecvQueue s) (m_WriterQueue s) (m_pSendBuff s) u.
End setters.

Section operations.
Context {Q K : Type} `{FifoOps Q} `{Kernel K} `{UserProto}.
Implicit Types (s : t Q) (k : K).

Definition GetServerID s : Z := i32 (m_ServerID s).

(** * Messages to other servers *)

(** [m_pSendBuff] holds the whole message: it goes into the queue. *)
Definition EnqueueSend s (PkgLen : Z) : outcome (t Q * Z) :=
  d ← mread (m_pSendBuff s) 0 PkgLen;
  '(q, Ret) ← q_in (m_SendQueue s) d PkgLen;
  Ok (set_send s q (m_pSendBuff s), if Ret =? 0 then 0 else -1).

Definition bus_header s (PkgLen CmdID DstID SendType Flag : Z) : BusHeader.t :=
  BusHeader.mk (u32 PkgLen) CmdID (u32 (GetServerID s)) DstID 0 SendType Flag.

(** [Send2Server] of a message, here its bytes. *)
Definition Send2Server s (Header : XYHeaderIn.t) (DstID SendType Flag : Z) (Message : list Z)
    : outcome (t Q * Z) :=
  let HeaderLen := BusHeader.GetHeaderLen + XYHeaderIn.GetHeaderLen in
  let h := bus_header s (HeaderLen + zlen Message) Cmd_Transfer DstID SendType Flag in
  '(buf, _) ← BusHeader.Write h (m_pSendBuff s) 0;
  '(buf, _) ← XYHeaderIn.Write Header buf BusHeader.GetHeaderLen;
  if XY_PKG_MAX_LEN - HeaderLen <? zlen Message then Ok (set_send s (m_SendQueue s) buf, -1) else
  buf ← mwrite buf HeaderLen Message;
  EnqueueSend (set_send s (m_SendQueue s) buf) (BusHeader.PkgLen h).

Definition SendStateMessage s : outcome (t Q * Z) :=
  let HeaderLen := BusHeader.GetHeaderLen in
  let Msg := enc_StateChangeMsg (GetServerID s) BUS_SVR_ONLINE in
  let h := bus_header s (HeaderLen + zlen Msg) Cmd_StateChange 0 TO_SRV 0 in
  '(buf, _) ← BusHeader.Write h (m_pSendBuff s) 0;
  if XY_PKG_MAX_LEN - HeaderLen <? zlen Msg then Ok (set_send s (m_SendQueue s) buf, -1) else
  buf ← mwrite buf HeaderLen Msg;
  EnqueueSend (set_send s (m_SendQueue s) buf) (BusHeader.PkgLen h).

(** * Loader and writer *)
Definition LoadUserInfo s (UserID : Z) (strRequest : list Z) : outcome (t Q * Z) :=
  let CurReq := enc_LoadUserInfoReq UserID strRequest in
  if XY_PKG_MAX_LEN <? zlen CurReq then Ok (s, -1) else
  '(q, Ret) ← q_in (m_LoaderSendQueue s) CurReq (zlen CurReq);
  Ok (set_loader_send s q, if Ret =? 0 then 0 else -1).

(** 0: the user is there.  1: he is being loaded. *)
Definition LoadUserInfoWhileNotExist s (UserID : Z) (strRequest : list Z) : outcome (t Q * Z) :=
  '(Ret, _) ← CUserShmApi.GetUserInfo (m_UserShm s) UserID ShmUserInfo.zero;
  if Ret =? 0 then Ok (s, 0) else
  '(s, Ret) ← LoadUserInfo s UserID strRequest;
  Ok (s, if Ret =? 0 then 1 else -1).

Definition WriteUserInfo s (UserID : Z) : outcome (t Q * Z) :=
  let CurReq := enc_WriteUserInfoReq UserID in
  if 256 <? zlen CurReq then Ok (s, -1) else
  '(q, Ret) ← q_in (m_WriterQueue s) CurReq (zlen CurReq);
  Ok (set_writer s q, if Ret =? 0 then 0 else -1).

(** * Packages *)

(** The header of an answer: what tells the connection is the request's. *)
Definition rsp_header (SrcID CmdID : Z) (h : XYHeaderIn.t) (now : Z) : XYHeaderIn.t :=
  XYHeaderIn.mk SrcID CmdID (XYHeaderIn.SN h) (XYHeaderIn.ConnPos h) (XYHeaderIn.UserID h) (u64 now) 0.

(** The user a registration makes. *)
Definition new_user (UserID : Z) (f : UserFields) (now : Z) : outcome ShmUserInfo.t :=
  let Info := ShmUserInfo.zero in
  NickName ← snprintf_s (ShmUserInfo.NickName Info) MAX_NAME_LENGTH (nickname f);
  TelNo ← snprintf_s (ShmUserInfo.TelNo Info) MAX_TELNO_LENGTH (telno f);
  Address ← snprintf_s (ShmUserInfo.Address Info) MAX_ADDR_LENGTH (address f);
  EMail ← snprintf_s (ShmUserInfo.EMail Info) MAX_EMAIL_LENGTH (email f);
  Ok (ShmUserInfo.mk UserID (ShmUserInfo.Status Info) (u64 now) NickName 0 0 (i8 (Z.rem (sex f) 2))
        (birthday f) TelNo Address EMail (ShmUserInfo.PersonalNote Info)
        (ShmUserInfo.FriendList Info) (ShmUserInfo.RequestList Info)).

Definition OnRegisterReq s k (h : XYHeaderIn.t) (body : list Z) : outcome (K * t Q * Z) :=
  match dec_UserRegisterReq body with
  | None => Ok (k, s, -1)
  | Some (UserID, f) =>
      let '(k, now) := k_time k in
      Info ← new_user UserID f now;
      '(u, _) ← CUserShmApi.InsertUserInfo (m_UserShm s) Info;
      '(s, _) ← WriteUserInfo (set_shm s u) UserID;
      let '(k, now) := k_time k in
      '(s, _) ← Send2Server s (rsp_header (u32 (GetServerID s)) Cmd_User_Register_Rsp h now)
                  (XYHeaderIn.SrcID h) TO_SRV 0 (enc_UserRegisterRsp UserID 0);
      Ok (k, s, 0)
  end.

(** The request is put down with the other user, who is here. *)
Definition AddFriendHere s k (h : XYHeaderIn.t) (UserID OtherUserID : Z) (strNickName pkg : list Z)
    : outcome (K * t Q * Z) :=
  '(s, Ret) ← LoadUserInfoWhileNotExist s OtherUserID pkg;
  if Ret =? 1 then Ok (k, s, 0) else
  if negb (Ret =? 0) then Ok (k, s, -1) else
  '(k, u, Ret) ← CUserShmApi.AddFriendReq (m_UserShm s) k UserID OtherUserID strNickName;
  let s := set_shm s u in
  if negb (Ret =? 0) then Ok (k, s, -1) else
  '(s, _) ← WriteUserInfo s OtherUserID;
  let '(k, now) := k_time k in
  '(s, _) ← Send2Server s (rsp_header (u32 (GetServerID s)) Cmd_User_AddFriend_Rsp h now)
              (XYHeaderIn.SrcID h) TO_SRV 0 (enc_AddFriendRsp 0);
  Ok (k, s, 0).

(** [pkg] is the whole package. *)
Definition OnAddFriendReq s k (h : XYHeaderIn.t) (body pkg : list Z) : outcome (K * t Q * Z) :=
  let UserID := XYHeaderIn.UserID h in
  match dec_AddFriendReq body with
  | None => Ok (k, s, -1)
  | Some OtherUserID =>
      '(s, Ret) ← LoadUserInfoWhileNotExist s UserID pkg;
      if Ret =? 1 then Ok (k, s, 0) else
      if negb (Ret =? 0) then Ok (k, s, -1) else
      '(Ret, CurUserInfo) ← CUserShmApi.GetUserInfo (m_UserShm s) UserID ShmUserInfo.zero;
      if negb (Ret =? 0) then Ok (k, s, -1) else
      strNickName ← carray (ShmUserInfo.NickName CurUserInfo);
      let ServerID := GetUserServer OtherUserID in
      if ServerID =? GetServerID s then AddFriendHere s k h UserID OtherUserID strNickName pkg
      else
        let '(k, now) := k_time k in
        '(s, _) ← Send2Server s (rsp_header (XYHeaderIn.SrcID h) Cmd_User_AddFriend_Req2 h now)
                    (u32 ServerID) TO_SRV 0 (enc_UserAddFriendReq UserID strNickName OtherUserID);
        Ok (k, s, 0)
  end.

(** The other user's server gets the request from the user's. *)
Definition OnAddFriendReq2 s k (h : XYHeaderIn.t) (body pkg : list Z) : outcome (K * t Q * Z) :=
  match dec_UserAddFriendReq body with
  | None => Ok (k, s, -1)
  | Some (UserID1, strNickName, UserID2) => AddFriendHere s k h UserID1 UserID2 strNickName pkg
  end.

(** The package of [PkgLen] bytes at [o] in [m]. *)
Definition DealPkg s k (m : list Z) (o PkgLen : Z) : outcome (K * t Q * Z) :=
  '(h, _) ← XYHeaderIn.Read m o;
  let body := mread m (o + XYHeaderIn.GetHeaderLen) (PkgLen - XYHeaderIn.GetHeaderLen) in
  let pkg := mread m o PkgLen in
  let CmdID := XYHeaderIn.CmdID h in
  if CmdID =? Cmd_User_Register_Req then body ← body; OnRegisterReq s k h body
  else if CmdID =? Cmd_User_AddFriend_Req then body ← body; pkg ← pkg; OnAddFriendReq s k h body pkg
  else if CmdID =? Cmd_User_AddFriend_Req2 then body ← body; pkg ← pkg; OnAddFriendReq2 s k h body pkg
  else Ok (k, s, 0).

(** * The loop *)
Fixpoint RemoveAll (u : CUserShmApi.t) k (v : list Z) : outcome (K * CUserShmApi.t) :=
  match v with
  | [] => Ok (k, u)
  | UserID :: v =>
      '(k, u, _) ← CUserShmApi.RemoveUserInfoWhenInValid u k UserID; RemoveAll u k v
  end.

Definition CheckValid s k : outcome (K * t Q) :=
  '(k, u, v) ← CUserShmApi.CheckUserIsValid (m_UserShm s) k [];
  '(k, u) ← RemoveAll u k v;
  Ok (k, set_shm s u).

(** A package from the bus.  [false]: the round ends here. *)
Definition FromBus s k (pRecvBuff : list Z) : outcome (K * t Q * list Z * bool) :=
  '(q, Ret, RecvLen, d) ← q_out (m_RecvQueue s) XY_PKG_MAX_LEN;
  buf ← mwrite pRecvBuff 0 d;
  let s := set_recv s q in
  if Ret =? Q_EMPTY then Ok (k, s, buf, true)
  else if negb (Ret =? 0) then Ok (k, s, buf, false)
  else
    _ ← BusHeader.Read buf 0;
    '(k, s, Ret) ← DealPkg s k buf BusHeader.GetHeaderLen (RecvLen - BusHeader.GetHeaderLen);
    Ok (k, s, buf, Ret =? 0).

(** An answer of the loader brings back the request that was waiting for it. *)
Definition FromLoader s k (pRecvBuff : list Z) : outcome (K * t Q * list Z * bool) :=
  '(q, Ret, RecvLen, d) ← q_out (m_LoaderRecvQueue s) XY_PKG_MAX_LEN;
  buf ← mwrite pRecvBuff 0 d;
  let s := set_loader_recv s q in
  if Ret =? Q_EMPTY then Ok (k, s, buf, true)
  else if negb (Ret =? 0) then Ok (k, s, buf, false)
  else
    rsp ← mread buf 0 RecvLen;
    match dec_LoadUserInfoRsp rsp with
    | None => Ok (k, s, buf, false)
    | Some (Result, strRequest) =>
        if negb (Result =? 0) then Ok (k, s, buf, false) else
        '(k, s, Ret) ← DealPkg s k (strRequest ++ [0]) 0 (zlen strRequest);
        Ok (k, s, buf, Ret =? 0)
    end.

Definition Upkeep s k (LastStateTime : Z) : outcome (K * t Q * Z) :=
  let '(k, NowTime) := k_time k in
  '(s, last) ← (if m_StateTime s <=? NowTime - LastStateTime
                then '(s, _) ← SendStateMessage s; Ok (s, NowTime) else Ok (s, LastStateTime));
  '(k, s) ← CheckValid s k;
  Ok (k, s, last).

(** One round of the loop. *)
Definition RunOnce s k (LastStateTime : Z) (pRecvBuff : list Z)
    : outcome (K * t Q * Z * list Z) :=
  '(k, s, buf, go) ← FromBus s k pRecvBuff;
  if negb go then Ok (k, s, LastStateTime, buf) else
  '(k, s, buf, go) ← FromLoader s k buf;
  if negb go then Ok (k, s, LastStateTime, buf) else
  '(k, s, last) ← Upkeep s k LastStateTime;
  Ok (k, s, last, buf).

(** [n] rounds. *)
Fixpoint Run (n : nat) s k (LastStateTime : Z) (pRecvBuff : list Z)
    : outcome (K * t Q * Z * list Z) :=
  match n with
  | O => Ok (k, s, LastStateTime, pRecvBuff)
  | S n =>
      '(k, s, last, buf) ← RunOnce s k LastStateTime pRecvBuff;
      Run n s k last buf
  end.
End operations.
End CUser.
