(* ===== verification/UserSpec.v ===== *)
(** What the user server promises: a map of users and three streams of messages,
    with what each package does to them. *)
From stdpp Require Import gmap sorting.
From S2P Require Import Prelude Fifo Wire HashList Kernel ConnInfo BusState BusConn BusRoute BusFacts.
From S2P Require Import IniFile ConnState ConnServe ConnFacts UserState UserServe.

#[local] Arguments Z.add : simpl never.
#[local] Arguments Z.eqb : simpl never.
#[local] Arguments Z.ltb : simpl never.
#[local] Arguments Z.leb : simpl never.

(** * Strings in arrays *)

(** What an array of [n] bytes holds of a string. *)
Definition cut (n : Z) (s : list Z) : list Z := take (Z.to_nat (n - 1)) (cstr s).

(** The array [buf] once it was put there. *)
Definition put_str (buf : list Z) (n : Z) (s : list Z) : list Z :=
  (cut n s ++ [0]) ++ drop (length (cut n s ++ [0])) buf.

(** An array of [n] bytes with a string in it. *)
Definition str_ok (n : Z) (buf : list Z) : Prop := zlen buf = n ∧ 0 ∈ buf.

Lemma cut_no_nul n s : 0 ∉ cut n s.
Proof.
  intros Hin. apply (cstr_no_nul s). unfold cut in Hin. apply elem_of_take in Hin as (i & Hi & _).
  by apply (list_elem_of_lookup_2 _ i).
Qed.

Lemma zlen_cut n s : 1 ≤ n → zlen (cut n s) ≤ n - 1.
Proof. intros. unfold cut. rewrite zlen_take by lia. lia. Qed.

Lemma cut_cut n s : cut n (cut n s) = cut n s.
Proof. unfold cut at 1. rewrite cstr_id by apply cut_no_nul. unfold cut. by rewrite take_take, Nat.min_id. Qed.

Lemma snprintf_s_ok buf n s : zlen buf = n → 1 ≤ n → snprintf_s buf n s = Ok (put_str buf n s).
Proof.
  intros Hb Hn. unfold snprintf_s, put_str. pose proof (zlen_cut n s Hn).
  apply mwrite_head. rewrite zlen_app, zlen_cons, zlen_nil. fold (cut n s). lia.
Qed.

Lemma put_str_ok buf n s : zlen buf = n → 1 ≤ n → str_ok n (put_str buf n s).
Proof.
  intros Hb Hn. pose proof (zlen_cut n s Hn). unfold put_str. split.
  - rewrite zlen_app, zlen_drop_length; rewrite zlen_app, zlen_cons, zlen_nil; lia.
  - apply elem_of_app. left. apply elem_of_app. right. by apply list_elem_of_singleton.
Qed.

Lemma put_str_cstr buf n s : cstr (put_str buf n s) = cut n s.
Proof. unfold put_str. rewrite <- app_assoc. apply cstr_app_nul, cut_no_nul. Qed.

Lemma carray_ok n buf : str_ok n buf → carray buf = Ok (cstr buf).
Proof. intros [_ H]. unfold carray. by rewrite bool_decide_true. Qed.

Lemma str_ok_zero n : 1 ≤ n → str_ok n (replicate (Z.to_nat n) 0).
Proof.
  intros. split; [rewrite zlen_replicate; lia|]. apply elem_of_replicate. split; [done|lia].
Qed.

(** * Users *)

(** A user as the arrays of the struct can hold him. *)
Record user_ok (u : Z) (i : ShmUserInfo.t) : Prop := {
  uo_id : ShmUserInfo.UserID i = u;
  uo_name : str_ok MAX_NAME_LENGTH (ShmUserInfo.NickName i);
  uo_tel : str_ok MAX_TELNO_LENGTH (ShmUserInfo.TelNo i);
  uo_addr : str_ok MAX_ADDR_LENGTH (ShmUserInfo.Address i);
  uo_mail : str_ok MAX_EMAIL_LENGTH (ShmUserInfo.EMail i);
  uo_note : str_ok MAX_PERSONAL_NOTE_LENGTH (ShmUserInfo.PersonalNote i);
  uo_requests : zlen (ShmUserInfo.RequestList i) = MAX_REQUEST_NUM;
  uo_request : Forall (λ r, str_ok MAX_NAME_LENGTH (RequestInfo.NickName r)) (ShmUserInfo.RequestList i);
}.

(** A registered user. *)
Definition registered (u : Z) (f : UserFields) (now : Z) : ShmUserInfo.t :=
  let z := ShmUserInfo.zero in
  ShmUserInfo.mk u 0 (u64 now) (put_str (ShmUserInfo.NickName z) MAX_NAME_LENGTH (nickname f)) 0 0
    (i8 (Z.rem (sex f) 2)) (birthday f) (put_str (ShmUserInfo.TelNo z) MAX_TELNO_LENGTH (telno f))
    (put_str (ShmUserInfo.Address z) MAX_ADDR_LENGTH (address f))
    (put_str (ShmUserInfo.EMail z) MAX_EMAIL_LENGTH (email f)) (ShmUserInfo.PersonalNote z)
    (ShmUserInfo.FriendList z) (ShmUserInfo.RequestList z).

Definition slot (i : ShmUserInfo.t) : Z := CUserShmApi.request_slot (ShmUserInfo.RequestList i) 0 0 0.

(** A user with one more request, or one replaced. *)
Definition befriended (i : ShmUserInfo.t) (from : Z) (name : list Z) (t1 t2 : Z) : ShmUserInfo.t :=
  let l := ShmUserInfo.RequestList i in
  let r := default RequestInfo.zero (l !! Z.to_nat (slot i)) in
  ShmUserInfo.set_request i
    (<[Z.to_nat (slot i) := RequestInfo.mk from (put_str (RequestInfo.NickName r) MAX_NAME_LENGTH name)
                              (u64 t1) (RequestInfo.IsValid r)]> l) (u64 t2).

Lemma request_slot_range l i mx idx :
  0 ≤ i → 0 ≤ idx → idx < i + zlen l → 0 ≤ CUserShmApi.request_slot l i mx idx < i + zlen l.
Proof.
  revert i mx idx. induction l as [|r l IH]; intros i mx idx; cbn [CUserShmApi.request_slot].
  { intros. lia. }
  rewrite zlen_cons. pose proof (zlen_nonneg l). intros. destruct (_ || _); [lia|].
  destruct (_ <? _).
  - pose proof (IH (i + 1) (RequestInfo.RequestTime r) i). lia.
  - destruct (decide (idx < i + 1 + zlen l)); [|lia]. pose proof (IH (i + 1) mx idx). lia.
Qed.

Lemma slot_range u i : user_ok u i → 0 ≤ slot i < MAX_REQUEST_NUM.
Proof.
  intros Hu. pose proof (uo_requests _ _ Hu) as Hl. unfold slot. rewrite <- Hl.
  apply (request_slot_range _ 0 0 0); [lia|lia|]. rewrite Hl. done.
Qed.

Lemma slot_lookup u i : user_ok u i → ∃ r, ShmUserInfo.RequestList i !! Z.to_nat (slot i) = Some r ∧
  str_ok MAX_NAME_LENGTH (RequestInfo.NickName r).
Proof.
  intros Hu. pose proof (slot_range u i Hu). pose proof (uo_requests _ _ Hu) as Hl.
  destruct (lookup_lt_is_Some_2 (ShmUserInfo.RequestList i) (Z.to_nat (slot i))) as [r Hr].
  { unfold zlen in Hl. lia. }
  exists r. split; [done|]. by apply (proj1 (Forall_lookup _ _) (uo_request _ _ Hu) _ _ Hr).
Qed.

Lemma registered_ok u f now : user_ok u (registered u f now).
Proof.
  constructor; cbn -[put_str replicate]; try done; try (apply put_str_ok; done).
  - by apply str_ok_zero.
  - apply Forall_replicate. by apply str_ok_zero.
Qed.

Lemma befriended_ok u i from name t1 t2 : user_ok u i → user_ok u (befriended i from name t1 t2).
Proof.
  intros Hu. destruct (slot_lookup u i Hu) as (r & Hr & Hn). destruct Hu.
  constructor; cbn; try done; [by rewrite zlen_insert|].
  apply Forall_insert; [done|]. cbn. rewrite Hr. cbn. apply put_str_ok; [apply Hn|done].
Qed.

(** * The specification *)

(** The users, and the messages to the bus, to the loader and to the writer. *)
Record view : Type := View {
  v_out : list (list Z); v_load : list (list Z); v_store : list (list Z);
  v_users : gmap Z ShmUserInfo.t }.

(** What never changes: the server's number, and how much the queues and the
    table hold. *)
Record limits : Type := Limits { l_id : Z; l_out : Z; l_load : Z; l_store : Z; l_users : Z }.

Section spec.
Context {Q : Type} `{FifoQueue Q} `{UserProto}.
Implicit Types (l : limits) (v : view) (h : XYHeaderIn.t).

Definition tell l v hdr (dst : Z) (body : list Z) : view :=
  View (emit (l_out l) (v_out v) (srv_msg (l_id l) dst TO_SRV 0 (xyin_bytes hdr ++ body)))
    (v_load v) (v_store v) (v_users v).

(** The loader is asked for a user, and keeps the package; or there is no room
    for it. *)
Definition ask l v (u : Z) (pkg : list Z) : view * bool :=
  let d := enc_LoadUserInfoReq u pkg in
  if XY_PKG_MAX_LEN <? zlen d then (v, false)
  else if q_fits (l_load l) (v_load v) d
  then (View (v_out v) (v_load v ++ [d]) (v_store v) (v_users v), true) else (v, false).

Definition save l v (u : Z) : view :=
  View (v_out v) (v_load v) (push (l_store l) (v_store v) (enc_WriteUserInfoReq u)) (v_users v).

Definition set_users v (g : gmap Z ShmUserInfo.t) : view := View (v_out v) (v_load v) (v_store v) g.

Definition parked (r : view * bool) : view * Z := (r.1, if r.2 then 0 else -1).

(** A new user, unless he is known or there is no room; he is saved, and the
    answer says that all went well, in any case. *)
Definition register l v h (u : Z) (f : UserFields) (t1 t2 : Z) : view * Z :=
  let g := v_users v in
  let room := negb (u =? 0) && bool_decide (g !! u = None) && negb (Z.of_nat (size g) =? l_users l) in
  let v := set_users v (if room then <[u := registered u f t1]> g else g) in
  (tell l (save l v u) (CUser.rsp_header (u32 (l_id l)) Cmd_User_Register_Rsp h t2)
     (XYHeaderIn.SrcID h) (enc_UserRegisterRsp u 0), 0).

(** A request for friendship is noted with the user it is for. *)
Definition friend_here l v h (from to : Z) (name pkg : list Z) (t1 t2 t3 : Z) : view * Z :=
  match v_users v !! to with
  | None => parked (ask l v to pkg)
  | Some i =>
      let v := set_users v (<[to := befriended i from name t1 t2]> (v_users v)) in
      (tell l (save l v to) (CUser.rsp_header (u32 (l_id l)) Cmd_User_AddFriend_Rsp h t3)
         (XYHeaderIn.SrcID h) (enc_AddFriendRsp 0), 0)
  end.

(** ... here, or it is passed on to the server of that user. *)
Definition friend l v h (to : Z) (pkg : list Z) (t1 t2 t3 : Z) : view * Z :=
  let from := XYHeaderIn.UserID h in
  match v_users v !! from with
  | None => parked (ask l v from pkg)
  | Some me =>
      let name := cstr (ShmUserInfo.NickName me) in
      if GetUserServer to =? l_id l then friend_here l v h from to name pkg t1 t2 t3
      else (tell l v (CUser.rsp_header (XYHeaderIn.SrcID h) Cmd_User_AddFriend_Req2 h t3)
              (u32 (GetUserServer to)) (enc_UserAddFriendReq from name to), 0)
  end.

Definition deal l v h (body : list Z) (t1 t2 t3 : Z) : view * Z :=
  let pkg := xyin_bytes h ++ body in
  let CmdID := XYHeaderIn.CmdID h in
  if CmdID =? Cmd_User_Register_Req then
    match dec_UserRegisterReq body with Some (u, f) => register l v h u f t1 t2 | None => (v, -1) end
  else if CmdID =? Cmd_User_AddFriend_Req then
    match dec_AddFriendReq body with Some to => friend l v h to pkg t1 t2 t3 | None => (v, -1) end
  else if CmdID =? Cmd_User_AddFriend_Req2 then
    match dec_UserAddFriendReq body with
    | Some (from, name, to) => friend_here l v h from to name pkg t1 t2 t3
    | None => (v, -1)
    end
  else (v, 0).

(** The users are good ones. *)
Definition users_good v : Prop := map_Forall user_ok (v_users v).

(** What holds of all users, holds of them afterwards if it holds of new ones and
    of those who get a request. *)
Lemma deal_users l v h body t1 t2 t3 (P : Z → ShmUserInfo.t → Prop) :
  map_Forall P (v_users v) → (∀ u f now, P u (registered u f now)) →
  (∀ u i from name t1 t2, P u i → P u (befriended i from name t1 t2)) →
  map_Forall P (v_users (deal l v h body t1 t2 t3).1).
Proof.
  intros Hv Hreg Hfr.
  assert (∀ u pkg, v_users (parked (ask l v u pkg)).1 = v_users v) as Hask.
  { intros u pkg. unfold parked, ask. destruct (_ <? _); [done|]. by destruct (q_fits _ _ _). }
  assert (∀ from to name pkg, map_Forall P
    (v_users (friend_here l v h from to name pkg t1 t2 t3).1)) as Hfh.
  { intros from to name pkg. unfold friend_here.
    destruct (v_users v !! to) as [i|] eqn:Hi; [|by rewrite Hask].
    cbn. apply map_Forall_insert_2; [|done]. apply Hfr. by apply Hv. }
  unfold deal. destruct (_ =? _).
  { destruct (dec_UserRegisterReq body) as [[u f]|]; [|done]. cbn.
    destruct (_ && _); [|done]. by apply map_Forall_insert_2. }
  destruct (_ =? _).
  { destruct (dec_AddFriendReq body) as [to|]; [|done]. unfold friend.
    destruct (v_users v !! _); [|by rewrite Hask]. by destruct (_ =? _). }
  destruct (_ =? _); [|done].
  by destruct (dec_UserAddFriendReq body) as [[[from name] to]|].
Qed.

Lemma deal_good l v h body t1 t2 t3 : users_good v → users_good (deal l v h body t1 t2 t3).1.
Proof.
  intros Hv. by apply deal_users; [|intros; apply registered_ok|intros; apply befriended_ok].
Qed.
End spec.
