(* ===== verification/UserFacts.v ===== *)
(** The user server keeps its promises: its operations do what [UserSpec] says
    of each package. *)
From stdpp Require Import gmap sorting.
From S2P Require Import Prelude Fifo Wire HashList Kernel ConnInfo BusState BusConn BusRoute BusFacts.
From S2P Require Import IniFile ConnState ConnServe ConnFacts UserState UserServe UserSpec.
Import CUser.

#[local] Arguments Z.add : simpl never.
#[local] Arguments Z.eqb : simpl never.
#[local] Arguments Z.ltb : simpl never.
#[local] Arguments Z.leb : simpl never.

(** An empty table. *)
Definition no_gns : CHashListNoLock.t ShmGnsInfo.t :=
  let zero := ShmGnsInfo.mk 0 0 0 0 0 in
  CHashListNoLock.mk 0 2 1 1 1 [CHashListNoLock.mk_index 0 0 0]
    [CHashListNoLock.mk_node 0 0 zero; CHashListNoLock.mk_node 0 0 zero].

Lemma no_gns_rep : hrep no_gns ∅.
Proof.
  destruct (Clear_hrep (ShmGnsInfo.mk 0 0 0 0 0) (CHashListNoLock.mk 0 2 0 1 0 [] []))
    as (h & Hc & Hr & _); [cbn; lia..|]. vm_compute in Hc. by injection Hc as <-.
Qed.

Section facts.
Context {Q K : Type} `{FifoQueue Q} `{Kernel K} `{!KernelClock K} `{UserProtoLaws}.
Hypothesis Hmax : XY_PKG_MAX_LEN ≤ q_max.
Implicit Types (s : t Q) (k : K) (v : view) (i : ShmUserInfo.t) (u : Z).

(** * The server and its view *)
Record shm_ok (m : CUserShmApi.t) (g : gmap Z ShmUserInfo.t) : Prop := {
  so_users : hrep (CUserShmApi.m_UserInfoMap m) g;
  so_nodes : 0 < CUserShmApi.m_MaxUserNodeNum m < 2 ^ 31;
  so_index : CHashListNoLock.iIndexNodeNum (CUserShmApi.m_UserInfoMap m) = CUserShmApi.m_MaxUserNodeNum m;
  so_pos : 0 ≤ CUserShmApi.m_CheckUserPos m < CUserShmApi.m_MaxUserNodeNum m;
}.

Record urep s v : Prop := {
  ur_send : q_rep (m_SendQueue s) (v_out v);
  ur_load : q_rep (m_LoaderSendQueue s) (v_load v);
  ur_store : q_rep (m_WriterQueue s) (v_store v);
  ur_sbuff : zlen (m_pSendBuff s) = XY_PKG_MAX_LEN;
  ur_shm : shm_ok (m_UserShm s) (v_users v);
}.

Definition limits_of s : limits :=
  Limits (GetServerID s) (q_cap (m_SendQueue s)) (q_cap (m_LoaderSendQueue s))
    (q_cap (m_WriterQueue s))
    (CHashListNoLock.iTotalDataNodeNum (CUserShmApi.m_UserInfoMap (m_UserShm s)) - 1).

(** What dealing with packages never changes. *)
Record same_site s s' : Prop := {
  ss_id : m_ServerID s' = m_ServerID s;
  ss_state : m_StateTime s' = m_StateTime s;
  ss_limits : limits_of s' = limits_of s;
  ss_recv : m_RecvQueue s' = m_RecvQueue s;
  ss_load : m_LoaderRecvQueue s' = m_LoaderRecvQueue s;
  ss_nodes : CUserShmApi.m_MaxUserNodeNum (m_UserShm s') = CUserShmApi.m_MaxUserNodeNum (m_UserShm s);
}.

#[export] Instance same_site_refl : Reflexive same_site.
Proof. by constructor. Qed.
#[export] Instance same_site_trans : Transitive same_site.
Proof. intros ??? [] []. constructor; congruence. Qed.

(** * The table *)
Lemma LOCK_USER_ok m g u : shm_ok m g → ∃ x, CUserShmApi.LOCK_USER m u = Ok x.
Proof.
  intros [_ Hn _ _]. unfold CUserShmApi.LOCK_USER. rewrite u64_small by lia.
  rewrite umod_pos by lia. eexists. done.
Qed.

Lemma set_map_ok m h g g' :
  shm_ok m g → hrep h g' → same_size (CUserShmApi.m_UserInfoMap m) h → shm_ok (CUserShmApi.set_map m h) g'.
Proof. intros [] Hh [_ Hs]. constructor; cbn; try done. congruence. Qed.

Lemma set_pos_ok m g p :
  shm_ok m g → 0 ≤ p < CUserShmApi.m_MaxUserNodeNum m → shm_ok (CUserShmApi.set_pos m p) g.
Proof. by intros [] ?. Qed.

Lemma InsertUserInfo_ok m g i :
  shm_ok m g →
  let u := ShmUserInfo.UserID i in
  let room := negb (u =? 0) && bool_decide (g !! u = None) &&
    negb (Z.of_nat (size g) =? CHashListNoLock.iTotalDataNodeNum (CUserShmApi.m_UserInfoMap m) - 1) in
  ∃ m', CUserShmApi.InsertUserInfo m i = Ok (m', if room then 0 else -1) ∧
    shm_ok m' (if room then <[u := i]> g else g) ∧
    same_size (CUserShmApi.m_UserInfoMap m) (CUserShmApi.m_UserInfoMap m') ∧
    CUserShmApi.m_MaxUserNodeNum m' = CUserShmApi.m_MaxUserNodeNum m.
Proof.
  intros Hm u room. unfold CUserShmApi.InsertUserInfo. fold u. unfold room.
  destruct (Z.eqb_spec u 0) as [Hu|Hu]; cbn [negb andb].
  { eexists. split; [done|]. by split_and!; [| |]. }
  destruct (LOCK_USER_ok m g u Hm) as [x ->]. cbn [mbind outcome_bind].
  pose proof (so_users _ _ Hm) as Hr. pose proof (Insert_hrep _ g u i Hr) as HI.
  pose proof Hr as (_ & _ & _ & _ & _ & Hsz).
  destruct (g !! u) as [j|] eqn:Hg.
  - rewrite HI. cbn [mbind outcome_bind]. eexists. split; [done|].
    split_and!; [by apply (set_map_ok m _ g)|done|done].
  - rewrite bool_decide_true by done. cbn [andb].
    destruct (Z.eqb_spec (CHashListNoLock.iUsedDataNodeNum (CUserShmApi.m_UserInfoMap m))
      (CHashListNoLock.iTotalDataNodeNum (CUserShmApi.m_UserInfoMap m))) as [He|He].
    + rewrite HI. rewrite (proj2 (Z.eqb_eq _ _)) by lia. cbn. eexists. split; [done|].
      split_and!; [by apply (set_map_ok m _ g)|done|done].
    + destruct HI as (h' & HI & Hr' & _). rewrite HI. rewrite (proj2 (Z.eqb_neq _ _)) by lia. cbn.
      eexists. split; [done|]. apply Insert_size in HI.
      split_and!; [by apply (set_map_ok m _ g)|done|done].
Qed.

Lemma GetUserInfo_ok m g u d :
  shm_ok m g →
  CUserShmApi.GetUserInfo m u d = Ok (match g !! u with Some i => (0, i) | None => (-1, d) end).
Proof.
  intros Hm. unfold CUserShmApi.GetUserInfo. destruct (LOCK_USER_ok m g u Hm) as [x ->].
  cbn [mbind outcome_bind]. rewrite (Get_hrep _ g u d (so_users _ _ Hm)). by destruct (g !! u).
Qed.

(** [Remove] keeps the sizes. *)
Lemma Remove_ok m g u i :
  shm_ok m g → g !! u = Some i →
  ∃ h, CHashListNoLock.Remove (CUserShmApi.m_UserInfoMap m) u = Ok (h, 0) ∧
    shm_ok (CUserShmApi.set_map m h) (delete u g) ∧ same_size (CUserShmApi.m_UserInfoMap m) h.
Proof.
  intros Hm Hi. destruct (Remove_chain _ g u i (so_users _ _ Hm) Hi) as (h & l1 & x & l2 & e1 & e2 & -> & Hr & Hs & _).
  exists h. split; [done|]. split; [by apply (set_map_ok m h g)|done].
Qed.

Lemma AddFriendReq_ok m g k from to name :
  shm_ok m g → map_Forall user_ok g →
  match g !! to with
  | None => CUserShmApi.AddFriendReq m k from to name = Ok (k, m, -1)
  | Some i => ∃ k' m' t1 t2, CUserShmApi.AddFriendReq m k from to name = Ok (k', m', 0) ∧
      shm_ok m' (<[to := befriended i from name t1 t2]> g) ∧
      same_size (CUserShmApi.m_UserInfoMap m) (CUserShmApi.m_UserInfoMap m') ∧
      CUserShmApi.m_MaxUserNodeNum m' = CUserShmApi.m_MaxUserNodeNum m ∧
      k_now k ≤ t1 ≤ t2 ∧ t2 ≤ k_now k'
  end.
Proof.
  intros Hm Hg. unfold CUserShmApi.AddFriendReq. destruct (LOCK_USER_ok m g to Hm) as [x Hx].
  pose proof (GetP_hrep _ g to (so_users _ _ Hm)) as HG.
  destruct (g !! to) as [i|] eqn:Hi; rewrite Hx; cbn [mbind outcome_bind]; [|by rewrite HG].
  destruct HG as (ip & -> & Hd & Hst). cbn [mbind outcome_bind]. rewrite Hd. cbn [mbind outcome_bind].
  destruct (slot_lookup to i) as (r & Hr & Hn); [by apply Hg|].
  pose proof (slot_range to i (Hg _ _ Hi)). fold (slot i).
  rewrite (aget_ok _ _ r) by (done || lia). cbn [mbind outcome_bind].
  rewrite (snprintf_s_ok _ _ _ (proj1 Hn)) by done. cbn [mbind outcome_bind].
  destruct (k_time k) as [k1 t1] eqn:E1. apply k_time_now in E1.
  rewrite aset_ok by (rewrite (uo_requests _ _ (Hg _ _ Hi)); done). cbn [mbind outcome_bind].
  destruct (k_time k1) as [k2 t2] eqn:E2. apply k_time_now in E2.
  destruct (Hst (befriended i from name t1 t2)) as (h' & Hh & Hr').
  assert (befriended i from name t1 t2 = ShmUserInfo.set_request i
    (<[Z.to_nat (slot i) := RequestInfo.mk from (put_str (RequestInfo.NickName r) MAX_NAME_LENGTH name)
       (u64 t1) (RequestInfo.IsValid r)]> (ShmUserInfo.RequestList i)) (u64 t2)) as <-.
  { unfold befriended. by rewrite Hr. }
  rewrite Hh. cbn [mbind outcome_bind]. exists k2, (CUserShmApi.set_map m h'), t1, t2. split; [done|].
  pose proof (store_size _ _ _ _ Hh). split_and!; try done; [by apply (set_map_ok m h' g)|lia..].
Qed.

(** * Messages *)

(** The buffer and the queue are those of a connection server: what it sends,
    the user server sends in the same way. *)
Definition as_conn s : CConn.t Q :=
  CConn.mk (GetServerID s) 0 0 ∅ None 0 0 (m_RecvQueue s) (m_SendQueue s) (m_pSendBuff s)
    (m_pSendBuff s) 0 no_gns.
Definition sent_by s (r : outcome (CConn.t Q * Z)) : outcome (t Q * Z) :=
  '(c, x) ← r; Ok (set_send s (CConn.m_SendQueue c) (CConn.m_pSendBuff c), x).

Lemma EnqueueSend_conn s n : EnqueueSend s n = sent_by s (CConn.EnqueueSend (as_conn s) n).
Proof.
  unfold EnqueueSend, sent_by, CConn.EnqueueSend. cbn. destruct (mread _ _ _); cbn; [|done..].
  by destruct (q_in _ _ _) as [[]| |].
Qed.

Lemma Send2Server_conn s hdr dst st fl msg :
  Send2Server s hdr dst st fl msg = sent_by s (CConn.Send2ServerMsg (as_conn s) hdr dst st fl msg).
Proof.
  unfold Send2Server, sent_by, CConn.Send2ServerMsg, bus_header, CConn.bus_header. cbn -[BusHeader.Write XYHeaderIn.Write].
  destruct (BusHeader.Write _ _ _) as [[buf ?]| |]; cbn -[XYHeaderIn.Write]; [|done..].
  destruct (XYHeaderIn.Write _ _ _) as [[buf2 ?]| |]; cbn; [|done..].
  destruct (_ <? _); cbn; [done|]. destruct (mwrite buf2 _ msg) as [buf3| |]; cbn; [|done..].
  rewrite EnqueueSend_conn. unfold sent_by, CConn.EnqueueSend. cbn.
  destruct (mread buf3 _ _); cbn; [|done..]. by destruct (q_in _ _ _) as [[]| |].
Qed.

(** [s'] differs from [s] in the queue to the bus. *)
Record told s s' : Prop := {
  td_srv : same_site s s';
  td_load : m_LoaderSendQueue s' = m_LoaderSendQueue s;
  td_store : m_WriterQueue s' = m_WriterQueue s;
  td_shm : m_UserShm s' = m_UserShm s;
}.

(** Anything a connection server sends and keeps its buffers, the user server
    can send. *)
Lemma sent_by_ok s v c r ms :
  urep s v → sent (as_conn s) c → crep c ms ∅ →
  ∃ s', sent_by s (Ok (c, r)) = Ok (s', r) ∧ told s s' ∧
    urep s' (View ms (v_load v) (v_store v) (v_users v)).
Proof.
  intros [] Hs []. eexists. split; [done|]. split; [|by constructor].
  constructor; try done. constructor; try done. unfold limits_of. cbn.
  f_equal. apply (sv_cap _ _ (st_srv _ _ Hs)).
Qed.

Lemma as_conn_rep s v : urep s v → crep (as_conn s) (v_out v) ∅.
Proof. intros []. constructor; try done. apply no_gns_rep. Qed.

Lemma user_Send2Server_ok s v hdr dst msg :
  urep s v →
  ∃ s' r, Send2Server s hdr dst TO_SRV 0 msg = Ok (s', r) ∧ told s s' ∧
    urep s' (tell (limits_of s) v hdr dst msg).
Proof.
  intros Hv. destruct (Send2ServerMsg_ok Hmax _ _ _ hdr dst TO_SRV 0 msg (as_conn_rep s v Hv))
    as (c & r & Hc & Hs & Hr).
  destruct (sent_by_ok s v c r _ Hv Hs Hr) as (s' & He & ? & ?).
  exists s', r. split; [|done]. by rewrite Send2Server_conn, Hc.
Qed.

#[local] Instance state_proto : ConnProto := {|
  dec_LoginReq _ := None; dec_RegisterReq _ := None; dec_AuthRegisterRsp _ := None;
  dec_UserRegisterRsp _ := None; dec_AuthLoginRsp _ := None; dec_LoginDatas _ := None;
  dec_LoginSyncReq _ := None; enc_AuthLoginReq _ _ _ := []; enc_AuthRegisterReq _ _ := [];
  enc_UserRegisterReq _ _ := []; enc_RegisterRsp _ _ := []; enc_LoginRsp _ := [];
  enc_LoginDatas _ := []; enc_LoginSyncReq _ := []; enc_StateChange := enc_StateChangeMsg;
  enc_ErrorMsg _ := [] |}.

Lemma SendStateMessage_conn s : SendStateMessage s = sent_by s (CConn.SendStateMessage (as_conn s)).
Proof.
  unfold SendStateMessage, sent_by, CConn.SendStateMessage, bus_header, CConn.bus_header.
  cbn -[BusHeader.Write].
  destruct (BusHeader.Write _ _ _) as [[buf ?]| |]; cbn; [|done..].
  destruct (_ <? _); cbn; [done|]. destruct (mwrite buf _ _) as [buf3| |]; cbn; [|done..].
  rewrite EnqueueSend_conn. unfold sent_by, CConn.EnqueueSend. cbn.
  destruct (mread buf3 _ _); cbn; [|done..]. by destruct (q_in _ _ _) as [[]| |].
Qed.

(** The bus is told that the server is up. *)
Definition state_msg (l : limits) : list Z :=
  let body := enc_StateChangeMsg (l_id l) BUS_SVR_ONLINE in
  msg_bytes (srv_header (l_id l) Cmd_StateChange 0 TO_SRV 0 (zlen body)) body.

Lemma SendStateMessage_told s v :
  urep s v →
  ∃ s' r, SendStateMessage s = Ok (s', r) ∧ told s s' ∧
    urep s' (View (emit (q_cap (m_SendQueue s)) (v_out v) (state_msg (limits_of s)))
               (v_load v) (v_store v) (v_users v)).
Proof.
  intros Hv. destruct (SendStateMessage_ok Hmax _ _ _ (as_conn_rep s v Hv)) as (c & r & Hc & Hs & Hr).
  destruct (sent_by_ok s v c r _ Hv Hs Hr) as (s' & He & ? & ?).
  exists s', r. split; [|done]. by rewrite SendStateMessage_conn, Hc.
Qed.

(** * Loader and writer *)

Lemma q_in_push (q : Q) ms d :
  q_rep q ms → 0 < zlen d ≤ XY_PKG_MAX_LEN →
  ∃ q' r, q_in q d (zlen d) = Ok (q', r) ∧ q_rep q' (push (q_cap q) ms d) ∧ q_cap q' = q_cap q ∧
    (r =? 0) = q_fits (q_cap q) ms d.
Proof.
  intros Hq Hd. unfold push. destruct (q_fits (q_cap q) ms d) eqn:Ef.
  - destruct (q_in_fits q ms d) as (q' & Hin & ? & ?); [done|lia|done|]. by exists q', Q_OK.
  - destruct (q_in_full q ms d) as (q' & Hin & ? & ?); [done|lia|done|]. by exists q', Q_FULL.
Qed.

Lemma LoadUserInfo_ok s v u pkg :
  urep s v →
  ∃ s', LoadUserInfo s u pkg = Ok (s', if (ask (limits_of s) v u pkg).2 then 0 else -1) ∧
    same_site s s' ∧ urep s' (ask (limits_of s) v u pkg).1.
Proof.
  intros Hv. unfold LoadUserInfo, ask. cbn [limits_of l_load]. set (d := enc_LoadUserInfoReq u pkg).
  destruct (Z.ltb_spec XY_PKG_MAX_LEN (zlen d)); [by exists s|].
  destruct (q_in_push (m_LoaderSendQueue s) (v_load v) d) as (q & r & -> & Hq & Hc & Hf);
    [apply Hv|pose proof (load_req_pos u pkg); subst d; lia|].
  cbn [mbind outcome_bind]. rewrite Hf. unfold push in Hq.
  destruct (q_fits _ _ _); (eexists; split; [done|]; split;
    [constructor; try done; unfold limits_of; cbn; by rewrite Hc|by destruct Hv; constructor]).
Qed.

Lemma LoadUserInfoWhileNotExist_ok s v u pkg :
  urep s v →
  match v_users v !! u with
  | Some _ => LoadUserInfoWhileNotExist s u pkg = Ok (s, 0)
  | None => ∃ s', LoadUserInfoWhileNotExist s u pkg
                  = Ok (s', if (ask (limits_of s) v u pkg).2 then 1 else -1) ∧
              same_site s s' ∧ urep s' (ask (limits_of s) v u pkg).1
  end.
Proof.
  intros Hv. unfold LoadUserInfoWhileNotExist. rewrite (GetUserInfo_ok _ _ u _ (ur_shm _ _ Hv)).
  cbn [mbind outcome_bind]. destruct (v_users v !! u) as [i|]; [done|].
  destruct (LoadUserInfo_ok s v u pkg Hv) as (s' & -> & ? & ?). cbn [mbind outcome_bind].
  exists s'. split; [|done]. by destruct (ask _ _ _ _).2.
Qed.

Lemma WriteUserInfo_ok s v u :
  urep s v →
  ∃ s' r, WriteUserInfo s u = Ok (s', r) ∧ same_site s s' ∧ m_UserShm s' = m_UserShm s ∧
    urep s' (save (limits_of s) v u).
Proof.
  intros Hv. unfold WriteUserInfo, save. cbn [limits_of l_store]. pose proof (write_req_len u).
  rewrite (proj2 (Z.ltb_ge _ _)) by lia.
  destruct (q_in_push (m_WriterQueue s) (v_store v) (enc_WriteUserInfoReq u)) as (q & r & -> & Hq & Hc & _);
    [apply Hv|unfold XY_PKG_MAX_LEN; lia|]. cbn [mbind outcome_bind].
  eexists _, _. split; [done|]. split; [constructor; try done; unfold limits_of; cbn; by rewrite Hc|].
  split; [done|]. by destruct Hv; constructor.
Qed.

(** * Packages *)

(** What an operation that returns [r] in state [s] did, if it was to bring the
    view to [vr] and to return its second part, given the times it saw. *)
Definition does s k (r : outcome (K * t Q * Z)) (vr : Z → Z → Z → view * Z) : Prop :=
  ∃ k' s' t1 t2 t3, r = Ok (k', s', (vr t1 t2 t3).2) ∧ urep s' (vr t1 t2 t3).1 ∧ same_site s s' ∧
    k_now k ≤ t1 ≤ t2 ∧ t2 ≤ t3 ≤ k_now k'.

Lemma does_now s s' k r z vr :
  r = Ok (k, s', z) → same_site s s' → urep s' (vr (k_now k) (k_now k) (k_now k)).1 →
  z = (vr (k_now k) (k_now k) (k_now k)).2 → does s k r vr.
Proof. intros -> Hs Hv ->. exists k, s', (k_now k), (k_now k), (k_now k). split_and!; try done; lia. Qed.

Lemma set_shm_ok s v m g :
  urep s v → shm_ok m g → same_size (CUserShmApi.m_UserInfoMap (m_UserShm s)) (CUserShmApi.m_UserInfoMap m) →
  CUserShmApi.m_MaxUserNodeNum m = CUserShmApi.m_MaxUserNodeNum (m_UserShm s) →
  urep (set_shm s m) (set_users v g) ∧ same_site s (set_shm s m).
Proof.
  intros [] Hm [Ht Hi] Hn. split; [by constructor|]. constructor; try done.
  unfold limits_of. cbn. by rewrite Ht.
Qed.

Lemma new_user_ok u f now : new_user u f now = Ok (registered u f now).
Proof.
  unfold new_user. rewrite !snprintf_s_ok by done. done.
Qed.

(** Saving and answering, in the order of the code. *)
Lemma save_tell s v k u hdr dst msg :
  urep s v →
  ∃ s1 r1 s2 r2, WriteUserInfo s u = Ok (s1, r1) ∧ GetServerID s1 = GetServerID s ∧
    Send2Server s1 (hdr s1) dst TO_SRV 0 msg = Ok (s2, r2) ∧ same_site s s2 ∧
    urep s2 (tell (limits_of s) (save (limits_of s) v u) (hdr s1) dst msg).
Proof.
  intros Hv. destruct (WriteUserInfo_ok s v u Hv) as (s1 & r1 & Hw & Hs1 & _ & Hv1).
  destruct (user_Send2Server_ok s1 _ (hdr s1) dst msg Hv1) as (s2 & r2 & Hr & [Hs2 _ _ _] & Hv2).
  exists s1, r1, s2, r2. split; [done|]. split; [unfold GetServerID; by rewrite (ss_id _ _ Hs1)|].
  split; [done|]. split; [by trans s1|]. by rewrite (ss_limits _ _ Hs1) in Hv2.
Qed.

Lemma OnRegisterReq_ok s v k h body :
  urep s v →
  does s k (OnRegisterReq s k h body) (λ t1 t2 _,
    match dec_UserRegisterReq body with Some (u, f) => register (limits_of s) v h u f t1 t2 | None => (v, -1) end).
Proof.
  intros Hv. unfold OnRegisterReq. destruct (dec_UserRegisterReq body) as [[u f]|]; [|by eapply does_now].
  destruct (k_time k) as [k1 t1] eqn:E1. apply k_time_now in E1.
  rewrite new_user_ok. cbn [mbind outcome_bind].
  destruct (InsertUserInfo_ok _ _ (registered u f t1) (ur_shm _ _ Hv)) as (m & -> & Hm & Hsz & Hn).
  cbn [mbind outcome_bind].
  change (ShmUserInfo.UserID (registered u f t1)) with u in Hm.
  destruct (set_shm_ok s v m _ Hv Hm Hsz Hn) as [Hv1 Hs1].
  destruct (k_time k1) as [k2 t2] eqn:E2. apply k_time_now in E2.
  destruct (save_tell _ _ k u (λ s, rsp_header (u32 (GetServerID s)) Cmd_User_Register_Rsp h t2)
    (XYHeaderIn.SrcID h) (enc_UserRegisterRsp u 0) Hv1) as (s1 & r1 & s2 & r2 & -> & Hid & Hsnd & Hs2 & Hv2).
  cbn [mbind outcome_bind] in *. rewrite Hsnd. cbn [mbind outcome_bind].
  exists k2, s2, t1, t2, t2. split; [done|]. rewrite Hid, (ss_limits _ _ Hs1) in Hv2.
  split; [exact Hv2|]. split; [by trans (set_shm s m)|lia].
Qed.

Lemma parked_does s v k u pkg (f : t Q → Z → outcome (K * t Q * Z)) :
  urep s v → v_users v !! u = None →
  (∀ s', f s' 1 = Ok (k, s', 0)) → (∀ s', f s' (-1) = Ok (k, s', -1)) →
  does s k ('(s, r) ← LoadUserInfoWhileNotExist s u pkg; f s r)
    (λ _ _ _, parked (ask (limits_of s) v u pkg)).
Proof.
  intros Hv Hu Hf1 Hfn. pose proof (LoadUserInfoWhileNotExist_ok s v u pkg Hv) as Hl. rewrite Hu in Hl.
  destruct Hl as (s' & -> & Hs & Hv'). cbn [mbind outcome_bind].
  apply (does_now s s' k _ (if (ask (limits_of s) v u pkg).2 then 0 else -1)); [|done..].
  by destruct (ask _ _ _ _).2.
Qed.

Lemma AddFriendHere_ok s v k h from to name pkg :
  urep s v → users_good v →
  does s k (AddFriendHere s k h from to name pkg)
    (friend_here (limits_of s) v h from to name pkg).
Proof.
  intros Hv Hg. unfold AddFriendHere, friend_here.
  pose proof (AddFriendReq_ok _ _ k from to name (ur_shm _ _ Hv) Hg) as Ha.
  destruct (v_users v !! to) as [i|] eqn:Hi; [|by apply parked_does].
  pose proof (LoadUserInfoWhileNotExist_ok s v to pkg Hv) as Hl. rewrite Hi in Hl. rewrite Hl.
  cbn [mbind outcome_bind]. change (0 =? 1) with false. change (negb (0 =? 0)) with false.
  cbn [mbind outcome_bind].
  destruct Ha as (k1 & m & t1 & t2 & -> & Hm & Hsz & Hn & ? & ?). cbn [mbind outcome_bind].
  change (negb (0 =? 0)) with false. cbn [mbind outcome_bind].
  destruct (set_shm_ok s v m _ Hv Hm Hsz Hn) as [Hv1 Hs1].
  destruct (k_time k1) as [k2 t3] eqn:E2. apply k_time_now in E2.
  destruct (save_tell _ _ k to (λ s, rsp_header (u32 (GetServerID s)) Cmd_User_AddFriend_Rsp h t3)
    (XYHeaderIn.SrcID h) (enc_AddFriendRsp 0) Hv1) as (s1 & r1 & s2 & r2 & -> & Hid & Hsnd & Hs2 & Hv2).
  cbn [mbind outcome_bind] in *. rewrite Hsnd. cbn [mbind outcome_bind].
  exists k2, s2, t1, t2, t3. split; [done|]. rewrite Hid, (ss_limits _ _ Hs1) in Hv2.
  split; [exact Hv2|]. split; [by trans (set_shm s m)|lia].
Qed.

Lemma OnAddFriendReq_ok s v k h body pkg :
  urep s v → users_good v →
  does s k (OnAddFriendReq s k h body pkg) (λ t1 t2 t3,
    match dec_AddFriendReq body with
    | Some to => friend (limits_of s) v h to pkg t1 t2 t3 | None => (v, -1) end).
Proof.
  intros Hv Hg. unfold OnAddFriendReq.
  destruct (dec_AddFriendReq body) as [to|]; [|by eapply does_now]. unfold friend.
  destruct (v_users v !! XYHeaderIn.UserID h) as [me|] eqn:Hme; [|by apply parked_does].
  pose proof (LoadUserInfoWhileNotExist_ok s v (XYHeaderIn.UserID h) pkg Hv) as Hl. rewrite Hme in Hl.
  rewrite Hl. cbn [mbind outcome_bind]. change (0 =? 1) with false. change (negb (0 =? 0)) with false.
  cbn [mbind outcome_bind]. rewrite (GetUserInfo_ok _ _ _ _ (ur_shm _ _ Hv)), Hme. cbn [mbind outcome_bind].
  change (negb (0 =? 0)) with false. cbn [mbind outcome_bind].
  rewrite (carray_ok MAX_NAME_LENGTH) by apply (uo_name _ _ (Hg _ _ Hme)). cbn [mbind outcome_bind].
  change (l_id (limits_of s)) with (GetServerID s).
  destruct (_ =? _); [by apply AddFriendHere_ok|].
  destruct (k_time k) as [k1 t1] eqn:E1. apply k_time_now in E1.
  destruct (user_Send2Server_ok s v (rsp_header (XYHeaderIn.SrcID h) Cmd_User_AddFriend_Req2 h t1)
    (u32 (GetUserServer to)) (enc_UserAddFriendReq (XYHeaderIn.UserID h) (cstr (ShmUserInfo.NickName me)) to) Hv)
    as (s1 & r1 & Hsnd & [Hs1 _ _ _] & Hv1). rewrite Hsnd. cbn [mbind outcome_bind].
  exists k1, s1, t1, t1, t1. split_and!; try done; lia.
Qed.

(** Every package does what the specification says of it. *)
Lemma DealPkg_ok s v k m o h body :
  urep s v → users_good v → xyin_ok h →
  mread m o (34 + zlen body) = Ok (xyin_bytes h ++ body) →
  does s k (DealPkg s k m o (34 + zlen body)) (deal (limits_of s) v h body).
Proof.
  intros Hv Hg Hh Hm. pose proof (zlen_nonneg body). unfold DealPkg, deal.
  destruct (mread_app m (xyin_bytes h) body o 34 (zlen body)) as [H34 Hb];
    [lia|lia|by rewrite zlen_xyin_bytes|done|].
  rewrite (xyin_Read_bytes h m o Hh H34). cbn [mbind outcome_bind].
  change XYHeaderIn.GetHeaderLen with 34. replace (34 + zlen body - 34) with (zlen body) by lia.
  rewrite Hb, Hm. cbn [mbind outcome_bind].
  destruct (_ =? Cmd_User_Register_Req); [by apply OnRegisterReq_ok|].
  destruct (_ =? Cmd_User_AddFriend_Req); [by apply OnAddFriendReq_ok|].
  destruct (_ =? Cmd_User_AddFriend_Req2); [|by eapply does_now].
  unfold OnAddFriendReq2. destruct (dec_UserAddFriendReq body) as [[[from name] to]|]; [|by eapply does_now].
  by apply AddFriendHere_ok.
Qed.
End facts.
