(* ===== verification/UserLoop.v ===== *)
(** The loop of the user server: users gone for a day are dropped from memory,
    and every round of the loop ends and leaves a server that serves. *)
From stdpp Require Import gmap sorting relations.
From S2P Require Import Prelude Fifo Wire HashList Sweep Kernel ConnInfo BusState BusConn BusRoute.
From S2P Require Import BusFacts IniFile ConnState ConnServe ConnFacts ConnLoop UserState UserServe.
From S2P Require Import UserSpec UserFacts.
Import CUser.

#[local] Arguments Z.add : simpl never.
#[local] Arguments Z.eqb : simpl never.
#[local] Arguments Z.ltb : simpl never.
#[local] Arguments Z.leb : simpl never.

Section table.
Context {K : Type} `{Kernel K} `{!KernelClock K}.
Implicit Types (k : K) (m : CUserShmApi.t) (g : gmap Z ShmUserInfo.t) (i : ShmUserInfo.t) (u : Z).

(** * Users long gone *)
Definition idle (now : Z) i : Prop := ShmUserInfo.LastActiveTime i < now - USER_INVALID_TIME.

Lemma idle_le lo hi i : lo ≤ hi → idle lo i → idle hi i.
Proof. unfold idle. lia. Qed.

Lemma idle_test k k' now lo hi i :
  k_time k = (k', now) → lo ≤ k_now k → k_now k' ≤ hi → clock_ok lo hi →
  (ShmUserInfo.LastActiveTime i < u64 (now - USER_INVALID_TIME) → idle hi i) ∧
  (idle lo i → ShmUserInfo.LastActiveTime i < u64 (now - USER_INVALID_TIME)).
Proof.
  intros Ht ?? [? ?]. apply k_time_now in Ht. unfold idle, USER_INVALID_TIME, CONN_INVALID_TIME in *.
  rewrite u64_small by lia. lia.
Qed.

(** What looking for them never changes. *)
Definition same_table m m' : Prop :=
  same_size (CUserShmApi.m_UserInfoMap m) (CUserShmApi.m_UserInfoMap m') ∧
  CUserShmApi.m_MaxUserNodeNum m' = CUserShmApi.m_MaxUserNodeNum m.

#[export] Instance same_table_refl : Reflexive same_table.
Proof. done. Qed.
#[export] Instance same_table_trans : Transitive same_table.
Proof. intros ??? [] []. split; [by eapply same_size_trans|congruence]. Qed.

Lemma RemoveUserInfoWhenInValid_ok m g k u :
  shm_ok m g →
  ∃ k' m' r g', CUserShmApi.RemoveUserInfoWhenInValid m k u = Ok (k', m', r) ∧ shm_ok m' g' ∧
    same_table m m' ∧ CUserShmApi.m_CheckUserPos m' = CUserShmApi.m_CheckUserPos m ∧
    k_now k ≤ k_now k' ∧ g' ⊆ g ∧
    (clock_ok (k_now k) (k_now k') → purged g g' (idle (k_now k')) ∧
     ∀ i, g !! u = Some i → idle (k_now k) i → g' !! u = None).
Proof.
  intros Hm. unfold CUserShmApi.RemoveUserInfoWhenInValid. destruct (LOCK_USER_ok m g u Hm) as [x ->].
  cbn [mbind outcome_bind]. pose proof (GetP_hrep _ g u (so_users _ _ Hm)) as HG.
  destruct (g !! u) as [i|] eqn:Hi.
  2:{ rewrite HG. cbn [mbind outcome_bind]. exists k, m, (-1), g. split_and!; try done.
      intros _. split; [apply purged_refl|]. by intros i. }
  destruct HG as (ip & -> & Hd & _). cbn [mbind outcome_bind].
  destruct (k_time k) as [k1 now] eqn:Et. rewrite Hd. cbn [mbind outcome_bind].
  pose proof (k_time_now _ _ _ Et).
  destruct (Z.leb_spec (u64 (now - USER_INVALID_TIME)) (ShmUserInfo.LastActiveTime i)) as [Hl|Hl].
  - exists k1, m, 0, g. split_and!; try done; [lia|]. intros Hclk. split; [apply purged_refl|].
    intros j [= <-] Hid. apply (idle_test k k1 now _ (k_now k1)) in Hid; [lia|done..].
  - destruct (Remove_ok m g u i Hm Hi) as (h & -> & Hm' & Hs). cbn [mbind outcome_bind].
    exists k1, (CUserShmApi.set_map m h), 0, (delete u g). split_and!; try done; [lia|apply delete_subseteq|].
    intros Hclk. split; [split; [apply delete_subseteq|]|by rewrite lookup_delete_eq].
    intros u' j Hj. destruct (decide (u' = u)) as [->|]; [right|left; by rewrite lookup_delete_ne].
    rewrite Hi in Hj. injection Hj as <-. by apply (idle_test k k1 now (k_now k)).
Qed.

Lemma RemoveAll_ok v m g k :
  shm_ok m g →
  ∃ k' m' g', RemoveAll m k v = Ok (k', m') ∧ shm_ok m' g' ∧ same_table m m' ∧
    CUserShmApi.m_CheckUserPos m' = CUserShmApi.m_CheckUserPos m ∧ k_now k ≤ k_now k' ∧ g' ⊆ g ∧
    (clock_ok (k_now k) (k_now k') → purged g g' (idle (k_now k')) ∧
     ∀ u i, u ∈ v → g !! u = Some i → idle (k_now k) i → g' !! u = None).
Proof.
  revert m g k. induction v as [|u v IH]; intros m g k Hm; cbn [RemoveAll].
  { exists k, m, g. split_and!; try done. intros _. split; [apply purged_refl|].
    intros u i Hu. by apply not_elem_of_nil in Hu. }
  destruct (RemoveUserInfoWhenInValid_ok m g k u Hm) as (k1 & m1 & r & g1 & -> & Hm1 & Ht1 & Hp1 & Hk1 & Hs1 & Hd1).
  cbn [mbind outcome_bind].
  destruct (IH m1 g1 k1 Hm1) as (k2 & m2 & g2 & -> & Hm2 & Ht2 & Hp2 & Hk2 & Hs2 & Hd2).
  exists k2, m2, g2. split_and!; try done; [by trans m1|congruence|lia|by trans g1|].
  intros [Hlo Hhi]. destruct Hd1 as [Hg1 Hd1]; [by split; lia|]. destruct Hd2 as [Hg2 Hd2]; [by split; lia|].
  split; [split; [by trans g1|]|].
  - intros u' i Hi. destruct (proj2 Hg1 u' i Hi) as [?|]; [by apply (proj2 Hg2)|].
    right. by apply (idle_le (k_now k1)).
  - intros u' i Hu Hi Hid. destruct (g1 !! u') as [i1|] eqn:Hi1; [|by eapply purged_none].
    pose proof (purged_same _ _ _ _ _ _ Hg1 Hi Hi1) as ->.
    apply elem_of_cons in Hu as [->|Hu]; [specialize (Hd1 i Hi Hid); congruence|].
    apply (Hd2 u' i Hu Hi1). by apply (idle_le (k_now k)).
Qed.

(** ** Noting them down *)
Definition note_test (st : K * list Z) (e : Z * ShmUserInfo.t) : (K * list Z) * bool :=
  let '(k, v) := st in
  let '(k, nowTime) := k_time k in
  ((k, if ShmUserInfo.LastActiveTime e.2 <? u64 (nowTime - USER_INVALID_TIME) then v ++ [e.1] else v), false).

Definition noted (st st' : K * list Z) : Prop := k_now st.1 ≤ k_now st'.1 ∧ st.2 ⊆ st'.2.
#[export] Instance noted_preorder : PreOrder noted.
Proof.
  split; [by intros [? ?]; split|]. intros ??? [? ?] [? ?]. split; [lia|].
  set_solver.
Qed.

Lemma MemFullCallBack_note h x st nd :
  aget (CHashListNoLock.m_pstData h) x = Ok nd →
  let e := (CHashListNoLock.KeyVal nd, CHashListNoLock.Data nd) in
  noted st (note_test st e).1 ∧
  CUserShmApi.MemFullCallBack h x st =
    if (note_test st e).2
    then '(h, _) ← CHashListNoLock.Remove h (CHashListNoLock.KeyVal nd); Ok (h, (note_test st e).1)
    else Ok (h, (note_test st e).1).
Proof.
  intros Hx e. destruct st as [k v]. unfold CUserShmApi.MemFullCallBack, note_test, noted. rewrite Hx.
  cbn [mbind outcome_bind]. destruct (k_time k) as [k1 now] eqn:Et. apply k_time_now in Et.
  cbn [fst snd]. split; [split; [lia|]|by destruct (_ <? _)].
  destruct (_ <? _); [|done]. intros y ?. apply elem_of_app. by left.
Qed.

Lemma CheckUserIsValid_ok m g k v :
  shm_ok m g →
  ∃ k' m' v', CUserShmApi.CheckUserIsValid m k v = Ok (k', m', v') ∧ shm_ok m' g ∧ same_table m m' ∧
    CUserShmApi.m_CheckUserPos m' = (CUserShmApi.m_CheckUserPos m + 1) mod CUserShmApi.m_MaxUserNodeNum m ∧
    k_now k ≤ k_now k' ∧
    (clock_ok (k_now k) (k_now k') → ∀ u i, g !! u = Some i →
       u mod CUserShmApi.m_MaxUserNodeNum m = CUserShmApi.m_CheckUserPos m → idle (k_now k) i → u ∈ v').
Proof.
  intros Hm. pose proof Hm as [Hr Hn Hix Hpos]. unfold CUserShmApi.CheckUserIsValid.
  destruct (ProcessAll_prune noted note_test CUserShmApi.MemFullCallBack MemFullCallBack_note
    (CUserShmApi.m_UserInfoMap m) g (CUserShmApi.m_CheckUserPos m) (k, v) Hr)
    as (h & [k' v'] & g' & -> & [Hk _] & Hr' & Hsz & Hoth & Hnone & Htest); [lia|].
  cbn [mbind outcome_bind fst snd] in *. rewrite Hix in *.
  destruct (Z.eqb_spec (CUserShmApi.m_MaxUserNodeNum m) 0); [lia|].
  assert (g' = g) as ->.
  { apply map_eq. intros u. destruct (g !! u) as [i|] eqn:Hi; [|by apply Hnone].
    destruct (decide (u mod CUserShmApi.m_MaxUserNodeNum m = CUserShmApi.m_CheckUserPos m)) as [Hu|]; [|by rewrite Hoth].
    destruct (Htest u i Hi Hu) as ([k1 v1] & _ & _ & ->). unfold note_test. by destruct (k_time k1). }
  eexists _, _, _. split; [done|]. rewrite Z.rem_mod_nonneg by lia.
  split_and!; try done.
  - apply set_pos_ok; [by apply (set_map_ok m h g)|]. apply Z.mod_pos_bound. cbn. lia.
  - intros Hclk u i Hi Hu Hid. destruct (Htest u i Hi Hu) as ([k1 v1] & [H1 _] & H2 & _).
    unfold noted, note_test in H2. destruct (k_time k1) as [k2 now] eqn:Et. cbn [fst snd] in *.
    destruct H2 as [H2 H3]. apply H3.
    apply (idle_test k1 k2 now (k_now k) (k_now k')) in Hid; [|done..].
    rewrite (proj2 (Z.ltb_lt _ _)) by done. apply elem_of_app. right. by apply list_elem_of_singleton.
Qed.
End table.

Lemma mread_mid (a b c : list Z) : mread ((a ++ b) ++ c) (zlen a) (zlen b) = Ok b.
Proof.
  pose proof (zlen_nonneg a). pose proof (zlen_nonneg b). pose proof (zlen_nonneg c).
  rewrite <- app_assoc, mread_ok by (rewrite ?zlen_app; lia). unfold zlen.
  by rewrite !Nat2Z.id, drop_app_length, take_app_length.
Qed.

(** * The loop *)
Section loop.
Context {Q K : Type} `{FifoQueue Q} `{Kernel K} `{!KernelClock K} `{UserProtoLaws}.
Hypothesis Hmax : XY_PKG_MAX_LEN ≤ q_max.
Implicit Types (s : t Q) (k : K) (v : view) (rs ls : list (list Z)).

(** What a round can do to the view. *)
Inductive vstep (l : limits) : view → view → Prop :=
  | vstep_deal v h body t1 t2 t3 : xyin_ok h → vstep l v (deal l v h body t1 t2 t3).1
  | vstep_state v : vstep l v (View (emit (l_out l) (v_out v) (state_msg l)) (v_load v) (v_store v) (v_users v))
  | vstep_purge v g : g ⊆ v_users v → vstep l v (set_users v g).

Lemma vstep_good l v v' : vstep l v v' → users_good v → users_good v'.
Proof.
  intros [w h body t1 t2 t3 _|w|w g Hg] Hv; [by apply deal_good|done|].
  intros u i Hi. apply Hv. by apply (lookup_weaken _ _ _ _ Hi).
Qed.

Lemma vsteps_good l v v' : rtc (vstep l) v v' → users_good v → users_good v'.
Proof. induction 1; [done|]. intros. eauto using vstep_good. Qed.

(** A package from the bus has its two headers; an answer of the loader has a
    package with its header in it, when he succeeded. *)
Definition bus_pkg (d : list Z) : Prop := Forall byte_ok d ∧ 60 ≤ zlen d ≤ XY_PKG_MAX_LEN.
Definition load_rsp (d : list Z) : Prop :=
  zlen d ≤ XY_PKG_MAX_LEN ∧
  ∀ req, dec_LoadUserInfoRsp d = Some (0, req) → Forall byte_ok req ∧ 34 ≤ zlen req.

(** The server serves: [rs] and [ls] wait for it. *)
Record alive s v rs ls : Prop := {
  al_rep : urep s v;
  al_good : users_good v;
  al_recv : q_rep (m_RecvQueue s) rs;
  al_load : q_rep (m_LoaderRecvQueue s) ls;
  al_pkgs : Forall bus_pkg rs;
  al_rsps : Forall load_rsp ls;
}.

Lemma DealPkg_any s v k m o n d :
  urep s v → users_good v → mread m o n = Ok d → Forall byte_ok d → 34 ≤ n →
  ∃ h body, d = xyin_bytes h ++ body ∧ xyin_ok h ∧
    does s k (DealPkg s k m o n) (deal (limits_of s) v h body).
Proof.
  intros Hv Hg Hm Hd Hn. pose proof (mread_zlen _ _ _ _ Hm) as Hz.
  destruct (split_at d 34) as (d1 & body & -> & Hz1 & Hz2); [lia|].
  apply Forall_app in Hd as [Hd1 Hd2].
  destruct (mread_app m d1 body o 34 (n - 34)) as [Hm1 _]; [lia|lia|done|by replace (34 + (n - 34)) with n by lia|].
  destruct (xyin_Read_Write m o d1 Hd1 Hm1) as (h & _ & Hh & Hb). subst d1.
  exists h, body. split_and!; [done|done|].
  replace n with (34 + zlen body) in * by lia. by apply DealPkg_ok.
Qed.

(** Dealing with a package is a step. *)
Lemma does_alive s v rs ls k r h body :
  alive s v rs ls → xyin_ok h → does s k r (deal (limits_of s) v h body) →
  ∃ k' s' z v', r = Ok (k', s', z) ∧ alive s' v' rs ls ∧ vstep (limits_of s) v v' ∧
    limits_of s' = limits_of s ∧ k_now k ≤ k_now k'.
Proof.
  intros [Hv Hg Hr Hl Hp Hq] Hh (k' & s' & t1 & t2 & t3 & -> & Hv' & [] & ? & ?).
  eexists k', s', _, _. split; [done|]. split.
  - constructor; try done; [by apply deal_good|by rewrite ss_recv|by rewrite ss_load].
  - split_and!; [by constructor|done|lia].
Qed.

Lemma set_recv_alive s v d rs ls q :
  alive s v (d ++ rs) ls → q_rep q rs → alive (set_recv s q) v rs ls.
Proof. intros [[] ? ? ? Hp ?] ?. apply Forall_app in Hp as [_ ?]. constructor; [by constructor|done..]. Qed.

Lemma set_loader_recv_alive s v d rs ls q :
  alive s v rs (d ++ ls) → q_rep q ls → alive (set_loader_recv s q) v rs ls.
Proof. intros [[] ? ? ? ? Hp] ?. apply Forall_app in Hp as [_ ?]. constructor; [by constructor|done..]. Qed.

(** What one part of a round does. *)
Definition round_part s k v rs ls (r : outcome (K * t Q * list Z * bool)) : Prop :=
  ∃ k' s' buf go v', r = Ok (k', s', buf, go) ∧ zlen buf = XY_PKG_MAX_LEN ∧
    (∃ rs' ls', alive s' v' rs' ls' ∧ rs' `suffix_of` rs ∧ ls' `suffix_of` ls) ∧
    rtc (vstep (limits_of s)) v v' ∧ limits_of s' = limits_of s ∧ k_now k ≤ k_now k'.

Lemma FromBus_ok s k buf v rs ls :
  alive s v rs ls → zlen buf = XY_PKG_MAX_LEN → round_part s k v rs ls (FromBus s k buf).
Proof.
  intros Ha Hb. unfold FromBus. pose proof (al_recv _ _ _ _ Ha) as Hq.
  destruct rs as [|d rs].
  { destruct (q_out_empty (m_RecvQueue s) XY_PKG_MAX_LEN) as (q & n & -> & Hq' & _); [done|done|].
    cbn [mbind outcome_bind]. rewrite mwrite_none. cbn [mbind outcome_bind]. rewrite Z.eqb_refl. eexists k, _, buf, true, v. split; [done|]. split; [done|].
    split; [|done]. exists [], ls. split; [|done]. by apply (set_recv_alive s v [] [] ls). }
  pose proof (al_pkgs _ _ _ _ Ha) as [[Hd Hz] _]%Forall_cons.
  destruct (q_out_ok (m_RecvQueue s) d rs XY_PKG_MAX_LEN) as (q & -> & Hq' & _); [done|split; [lia|done]|].
  cbn [mbind outcome_bind]. rewrite (mwrite_head d buf) by lia. cbn [mbind outcome_bind].
  set (m := d ++ _). assert (zlen m = XY_PKG_MAX_LEN) as Hzm.
  { unfold m. rewrite zlen_app, zlen_drop_length; lia. }
  change (Q_OK =? Q_EMPTY) with false. change (negb (Q_OK =? 0)) with false. cbn [mbind outcome_bind].
  destruct (split_at d 26) as (d1 & d2 & -> & Hz1 & Hz2); [lia|].
  pose proof Hd as [Hd1 Hd2]%Forall_app.
  destruct (bus_Read_Write m 0 d1 Hd1) as (hb & -> & _).
  { unfold m. rewrite <- app_assoc, <- Hz1. apply mread_head. }
  cbn [mbind outcome_bind].
  pose proof (set_recv_alive s v [d1 ++ d2] rs ls q Ha Hq') as Ha1.
  change BusHeader.GetHeaderLen with 26. replace (zlen (d1 ++ d2) - 26) with (zlen d2) by lia.
  destruct (DealPkg_any (set_recv s q) v k m 26 (zlen d2) d2) as (h & body & _ & Hh & Hdo);
    [apply Ha1|apply Ha1| |done|lia|].
  { unfold m. rewrite <- Hz1. apply mread_mid. }
  destruct (does_alive _ v rs ls k _ h body Ha1 Hh Hdo) as (k' & s' & z & v' & -> & Ha' & Hs & Hl & Hk).
  cbn [mbind outcome_bind]. eexists k', s', m, _, v'. split; [done|]. split; [done|].
  split; [exists rs, ls; split_and!; [done|by exists [d1 ++ d2]|done]|].
  split_and!; [by apply rtc_once|done|done].
Qed.

Lemma FromLoader_ok s k buf v rs ls :
  alive s v rs ls → zlen buf = XY_PKG_MAX_LEN → round_part s k v rs ls (FromLoader s k buf).
Proof.
  intros Ha Hb. unfold FromLoader. pose proof (al_load _ _ _ _ Ha) as Hq.
  destruct ls as [|d ls].
  { destruct (q_out_empty (m_LoaderRecvQueue s) XY_PKG_MAX_LEN) as (q & n & -> & Hq' & _); [done|done|].
    cbn [mbind outcome_bind]. rewrite mwrite_none. cbn [mbind outcome_bind].
    rewrite Z.eqb_refl. eexists k, _, buf, true, v. split; [done|]. split; [done|].
    split; [|done]. exists rs, []. split; [|done]. by apply (set_loader_recv_alive s v [] rs []). }
  pose proof (al_rsps _ _ _ _ Ha) as [[Hz Hrsp] _]%Forall_cons.
  destruct (q_out_ok (m_LoaderRecvQueue s) d ls XY_PKG_MAX_LEN) as (q & -> & Hq' & _); [done|split; [lia|done]|].
  cbn [mbind outcome_bind]. rewrite (mwrite_head d buf) by lia. cbn [mbind outcome_bind].
  set (m := d ++ _). assert (zlen m = XY_PKG_MAX_LEN) as Hzm.
  { unfold m. rewrite zlen_app, zlen_drop_length; lia. }
  change (Q_OK =? Q_EMPTY) with false. change (negb (Q_OK =? 0)) with false. cbn [mbind outcome_bind].
  assert (mread m 0 (zlen d) = Ok d) as -> by apply mread_head. cbn [mbind outcome_bind].
  pose proof (set_loader_recv_alive s v [d] rs ls q Ha Hq') as Ha1.
  assert (∀ go, round_part s k v rs (d :: ls) (Ok (k, set_loader_recv s q, m, go))) as Hnone.
  { intros go. eexists k, _, m, go, v. split; [done|]. split; [done|].
    split; [|done]. exists rs, ls. split_and!; [done|done|by exists [d]]. }
  destruct (dec_LoadUserInfoRsp d) as [[ret req]|] eqn:Er; [|apply Hnone].
  destruct (Z.eqb_spec ret 0) as [->|]; cbn [negb]; [|apply Hnone]. destruct (Hrsp req eq_refl) as [Hreq H34].
  destruct (DealPkg_any (set_loader_recv s q) v k (req ++ [0]) 0 (zlen req) req) as (h & body & _ & Hh & Hdo);
    [apply Ha1|apply Ha1|apply mread_head|done|done|].
  destruct (does_alive _ v rs ls k _ h body Ha1 Hh Hdo) as (k' & s' & z & v' & -> & Ha' & Hs & Hl & Hk).
  cbn [mbind outcome_bind]. eexists k', s', m, _, v'. split; [done|]. split; [done|].
  split; [exists rs, ls; split_and!; [done|done|by exists [d]]|].
  split_and!; [by apply rtc_once|done|done].
Qed.

Lemma CheckValid_ok s k v :
  urep s v →
  ∃ k' s' g, CheckValid s k = Ok (k', s') ∧ urep s' (set_users v g) ∧ g ⊆ v_users v ∧ same_site s s' ∧
    k_now k ≤ k_now k' ∧
    CUserShmApi.m_CheckUserPos (m_UserShm s') =
      (CUserShmApi.m_CheckUserPos (m_UserShm s) + 1) mod CUserShmApi.m_MaxUserNodeNum (m_UserShm s) ∧
    (clock_ok (k_now k) (k_now k') →
     looked_at (CUserShmApi.m_MaxUserNodeNum (m_UserShm s)) idle (CUserShmApi.m_CheckUserPos (m_UserShm s))
       (k_now k) (k_now k') (v_users v) g).
Proof.
  intros Hv. unfold CheckValid.
  destruct (CheckUserIsValid_ok (m_UserShm s) (v_users v) k [] (ur_shm _ _ Hv))
    as (k1 & m1 & w & -> & Hm1 & Ht1 & Hp1 & Hk1 & Hin). cbn [mbind outcome_bind].
  destruct (RemoveAll_ok w m1 (v_users v) k1 Hm1) as (k2 & m2 & g & -> & Hm2 & Ht2 & Hp2 & Hk2 & Hsub & Hd).
  cbn [mbind outcome_bind]. pose proof (same_table_trans _ _ _ Ht1 Ht2) as [Hsz Hn].
  destruct (set_shm_ok s v m2 g Hv Hm2 Hsz Hn) as [Hv2 Hs2].
  exists k2, (set_shm s m2), g. split_and!; try done; [lia|cbn; congruence|].
  intros [Hlo Hhi]. destruct Hd as [Hpg Hd]; [by split; lia|]. split; [done|].
  intros u i Hi Hu Hid. apply (Hd u i); [|done|by apply (idle_le (k_now k))].
  apply (Hin ltac:(by split; lia) u i Hi Hu Hid).
Qed.

Lemma Upkeep_ok s k last v rs ls :
  alive s v rs ls →
  ∃ k' s' last' v', Upkeep s k last = Ok (k', s', last') ∧ alive s' v' rs ls ∧
    rtc (vstep (limits_of s)) v v' ∧ limits_of s' = limits_of s ∧ k_now k ≤ k_now k'.
Proof.
  intros Ha. unfold Upkeep. destruct (k_time k) as [k1 now] eqn:Et. apply k_time_now in Et.
  assert (∀ s1 v1, alive s1 v1 rs ls → rtc (vstep (limits_of s)) v v1 → limits_of s1 = limits_of s →
    ∃ k' s' v', CheckValid s1 k1 = Ok (k', s') ∧ alive s' v' rs ls ∧
      rtc (vstep (limits_of s)) v v' ∧ limits_of s' = limits_of s ∧ k_now k ≤ k_now k') as Hcv.
  { intros s1 v1 Ha1 Hs1 Hl1. pose proof Ha1 as [Hv1 Hg1 ? ? ? ?].
    destruct (CheckValid_ok s1 k1 v1 Hv1) as (k2 & s2 & g & -> & Hv2 & Hsub & [] & Hk2 & _).
    exists k2, s2, (set_users v1 g). split; [done|].
    assert (vstep (limits_of s) v1 (set_users v1 g)) as Hst by by constructor.
    split_and!; [|by eapply rtc_r|congruence|lia].
    constructor; try done; [by eapply vstep_good|by rewrite ss_recv|by rewrite ss_load]. }
  destruct (m_StateTime s <=? now - last).
  - destruct (SendStateMessage_told Hmax s v (al_rep _ _ _ _ Ha)) as (s1 & r & -> & [[] _ _ _] & Hv1).
    cbn [mbind outcome_bind].
    set (v1 := View _ _ _ _) in Hv1.
    assert (alive s1 v1 rs ls) as Ha1.
    { destruct Ha. constructor; try done; [by rewrite ss_recv|by rewrite ss_load]. }
    destruct (Hcv s1 v1 Ha1) as (k' & s' & v' & -> & ?); [|done|by exists k', s', now, v'].
    apply rtc_once, (vstep_state (limits_of s)).
  - cbn [mbind outcome_bind]. destruct (Hcv s v) as (k' & s' & v' & -> & ?); [done..|].
    by exists k', s', last, v'.
Qed.

Lemma RunOnce_ok s k last buf v rs ls :
  alive s v rs ls → zlen buf = XY_PKG_MAX_LEN →
  ∃ k' s' last' buf' v' rs' ls', RunOnce s k last buf = Ok (k', s', last', buf') ∧ alive s' v' rs' ls' ∧
    zlen buf' = XY_PKG_MAX_LEN ∧ rs' `suffix_of` rs ∧ ls' `suffix_of` ls ∧
    rtc (vstep (limits_of s)) v v' ∧ limits_of s' = limits_of s ∧ k_now k ≤ k_now k'.
Proof.
  intros Ha Hb. unfold RunOnce.
  destruct (FromBus_ok s k buf v rs ls Ha Hb)
    as (k1 & s1 & b1 & go1 & v1 & -> & Hb1 & (rs1 & ls1 & Ha1 & Hrs1 & Hls1) & Hs1 & Hl1 & Hk1).
  cbn [mbind outcome_bind]. destruct go1; cbn [negb]; [|by exists k1, s1, last, b1, v1, rs1, ls1].
  destruct (FromLoader_ok s1 k1 b1 v1 rs1 ls1 Ha1 Hb1)
    as (k2 & s2 & b2 & go2 & v2 & -> & Hb2 & (rs2 & ls2 & Ha2 & Hrs2 & Hls2) & Hs2 & Hl2 & Hk2).
  cbn [mbind outcome_bind]. rewrite Hl1 in *.
  assert (rtc (vstep (limits_of s)) v v2) as Hs12 by by trans v1.
  destruct go2; cbn [negb].
  - destruct (Upkeep_ok s2 k2 last v2 rs2 ls2 Ha2) as (k3 & s3 & last3 & v3 & -> & Ha3 & Hs3 & Hl3 & Hk3).
    cbn [mbind outcome_bind]. rewrite Hl2 in *. exists k3, s3, last3, b2, v3, rs2, ls2.
    split_and!; [done|done|done|by trans rs1|by trans ls1|by trans v2|congruence|lia].
  - exists k2, s2, last, b2, v2, rs2, ls2. split_and!; [done|done|done|by trans rs1|by trans ls1|done|congruence|lia].
Qed.

Lemma Run_ok n s k last buf v rs ls :
  alive s v rs ls → zlen buf = XY_PKG_MAX_LEN →
  ∃ k' s' last' buf' v' rs' ls', Run n s k last buf = Ok (k', s', last', buf') ∧ alive s' v' rs' ls' ∧
    rtc (vstep (limits_of s)) v v' ∧ limits_of s' = limits_of s.
Proof.
  revert s k last buf v rs ls. induction n as [|n IH]; intros s k last buf v rs ls Ha Hb; cbn [Run].
  { by exists k, s, last, buf, v, rs, ls. }
  destruct (RunOnce_ok s k last buf v rs ls Ha Hb)
    as (k1 & s1 & last1 & b1 & v1 & rs1 & ls1 & -> & Ha1 & Hb1 & _ & _ & Hs1 & Hl1 & _).
  cbn [mbind outcome_bind].
  destruct (IH s1 k1 last1 b1 v1 rs1 ls1 Ha1 Hb1) as (k2 & s2 & last2 & b2 & v2 & rs2 & ls2 & -> & Ha2 & Hs2 & Hl2).
  rewrite Hl1 in *. exists k2, s2, last2, b2, v2, rs2, ls2. split_and!; [done|done|by trans v1|done].
Qed.

(** [n] calls of [CheckValid]. *)
Fixpoint CheckValids (n : nat) s k : outcome (K * t Q) :=
  match n with
  | O => Ok (k, s)
  | S n => '(k, s) ← CheckValid s k; CheckValids n s k
  end.

Lemma CheckValids_ok n s k v :
  urep s v →
  ∃ k' s' g, CheckValids n s k = Ok (k', s') ∧ urep s' (set_users v g) ∧ k_now k ≤ k_now k' ∧
    (clock_ok (k_now k) (k_now k') →
     swept (CUserShmApi.m_MaxUserNodeNum (m_UserShm s)) idle n (CUserShmApi.m_CheckUserPos (m_UserShm s))
       (k_now k) (k_now k') (v_users v) g).
Proof.
  revert s k v. induction n as [|n IH]; intros s k v Hv; cbn [CheckValids];
    pose proof (so_pos _ _ (ur_shm _ _ Hv)) as Hpos.
  { exists k, s, (v_users v). split_and!; [done|by destruct v|done|]. intros _. apply swept_O. lia. }
  destruct (CheckValid_ok s k v Hv) as (k1 & s1 & g1 & -> & Hv1 & _ & Hs1 & Hk1 & Hp1 & Hd1).
  cbn [mbind outcome_bind].
  destruct (IH s1 k1 _ Hv1) as (k2 & s2 & g2 & -> & Hv2 & Hk2 & Hd2).
  exists k2, s2, g2. split_and!; [done|done|lia|]. intros [Hlo Hhi].
  specialize (Hd1 ltac:(by split; lia)). specialize (Hd2 ltac:(by split; lia)).
  rewrite Hp1, (ss_nodes _ _ Hs1) in Hd2.
  apply (swept_S (CUserShmApi.m_MaxUserNodeNum (m_UserShm s)) idle ltac:(lia) idle_le n _ _ (k_now k1) _ _ g1);
    [lia|lia|done|done].
Qed.
End loop.
