(* ===== verification/Mysql.v ===== *)
(** The database: [CMySQL] (mmlib/mysql/mysql_wrap) over the C interface of
    MySQL, which is a class, with what the servers rely on of two statements,
    and a small database to run them with. *)
From Stdlib Require Import Ascii String.
From stdpp Require Import gmap.
From S2P Require Import Prelude IniFile.

#[local] Open Scope Z_scope.
#[local] Arguments Z.add : simpl never.
#[local] Arguments Z.eqb : simpl never.
#[local] Arguments Z.ltb : simpl never.
#[local] Arguments Z.leb : simpl never.

(** * Texts of statements *)

(** [%lu] and [%d] of a number that is not negative: 20 digits are enough for 64
    bits. *)
Fixpoint digits_of (fuel : nat) (n : Z) : list Z :=
  match fuel with
  | O => []
  | S fuel => if n <? 10 then [48 + n] else digits_of fuel (n / 10) ++ [48 + n mod 10]
  end.
Definition fmt_lu (n : Z) : list Z := digits_of 20 n.

(** [DB.Table_i]. *)
Definition table_name (DBName TableName : list Z) (i : Z) : list Z :=
  DBName ++ bytes "." ++ TableName ++ bytes "_" ++ fmt_lu i.

Definition select_text (table id : list Z) : list Z :=
  bytes "select data from " ++ table ++ bytes " where id=" ++ id ++ bytes " limit 1".
Definition replace_text (table id val : list Z) : list Z :=
  bytes "REPLACE INTO " ++ table ++ bytes " values ( " ++ id ++ bytes ",'" ++ val ++ bytes "')".

Lemma zlen_select_text table id : zlen (select_text table id) = 35 + zlen table + zlen id.
Proof.
  unfold select_text. rewrite !zlen_app. change (zlen (bytes "select data from ")) with 17.
  change (zlen (bytes " where id=")) with 10. change (zlen (bytes " limit 1")) with 8. lia.
Qed.

Lemma zlen_table_name DBName TableName i :
  zlen (table_name DBName TableName i) = 2 + zlen DBName + zlen TableName + zlen (fmt_lu i).
Proof.
  unfold table_name. rewrite !zlen_app. change (zlen (bytes ".")) with 1. change (zlen (bytes "_")) with 1. lia.
Qed.

(** * The C interface *)

(** A row: its columns, which can be NULL. *)
Definition row : Type := list (option (list Z)).

(** A result of 0 is success. *)
Class MySQL (D : Type) : Type := {
  mysql_ping : D → D * Z;
  mysql_connect : D → D * Z;                 (** with the parameters of the first time *)
  mysql_real_query : D → list Z → D * Z;
  mysql_store_result : D → D * option (list row);
  mysql_escape : list Z → list Z;
}.

(** A name in a statement has no blank in it. *)
Definition name_ok (table : list Z) : Prop := SP ∉ table.

(** [db_data d table id] is the column [data] of the row with that [id]. *)
Class MySQLLaws (D : Type) `{MySQL D} : Type := {
  db_data : D → list Z → Z → option (list Z);
  ping_law d d' r t i : mysql_ping d = (d', r) → db_data d' t i = db_data d t i;
  connect_law d d' r t i : mysql_connect d = (d', r) → db_data d' t i = db_data d t i;
  select_law d d' t i :
    name_ok t → 0 ≤ i < 2 ^ 64 → mysql_real_query d (select_text t (fmt_lu i)) = (d', 0) →
    (∀ u j, db_data d' u j = db_data d u j) ∧
    ∀ d2 rows, mysql_store_result d' = (d2, Some rows) →
      rows = match db_data d t i with Some x => [[Some x]] | None => [] end ∧
      ∀ u j, db_data d2 u j = db_data d u j;
  replace_law d d' t i x :
    name_ok t → 0 ≤ i < 2 ^ 64 →
    mysql_real_query d (replace_text t (fmt_lu i) (mysql_escape x)) = (d', 0) →
    db_data d' t i = Some x;
  escape_law x : (0 ∉ mysql_escape x) ∧ zlen (mysql_escape x) ≤ 2 * zlen x;
}.

Module CMySQL.

(** [m_pRes], which the constructor does not set, with the row fetched last and
    those still to come. *)
Inductive res : Type :=
  | Uninit
  | Null
  | Res (cur : option row) (rows : list row).

Record t (D : Type) : Type := mk { m_MYSQL : D; m_pRes : res; m_nAutoCommit : Z }.
Arguments mk {D}.
Arguments m_MYSQL {D}.
Arguments m_pRes {D}.
Arguments m_nAutoCommit {D}.

Section operations.
Context {D : Type} `{MySQL D}.
Implicit Types (c : t D) (d : D).

Definition set_db c d : t D := mk d (m_pRes c) (m_nAutoCommit c).
Definition set_res c (r : res) : t D := mk (m_MYSQL c) r (m_nAutoCommit c).

Definition IsValid c : t D * Z := let '(d, r) := mysql_ping (m_MYSQL c) in (set_db c d, r).

(** Both kinds of [Query] begin alike. *)
Definition Send c (sSQL : list Z) : t D * Z :=
  let '(c, r) := IsValid c in
  let '(d, liRetCode) := if negb (r =? 0) then mysql_connect (m_MYSQL c) else (m_MYSQL c, 0) in
  let c := set_db c d in
  if negb (liRetCode =? 0) then (c, -3) else
  let '(d, r) := mysql_real_query (m_MYSQL c) sSQL in
  let c := set_db c d in
  if negb (r =? 0) then (c, -1) else
  if m_nAutoCommit c =? 0 then
    let '(d, r) := mysql_real_query (m_MYSQL c) (bytes "commit") in
    let c := set_db c d in
    if negb (r =? 0) then (c, -2) else (c, 0)
  else (c, 0).

(** [Query(sSQL, nSQLLen)]. *)
Definition Query c (sSQL : list Z) : t D * Z := Send c sSQL.

(** [Query(sSQL, nSQLLen, nCount)]: the number of records too. *)
Definition QueryRes c (sSQL : list Z) (nCount : Z) : t D * Z * Z :=
  let '(c, r) := Send c sSQL in
  if negb (r =? 0) then (c, r, nCount) else
  let '(d, rows) := mysql_store_result (m_MYSQL c) in
  let c := set_db c d in
  match rows with
  | None => (set_res c Null, -3, nCount)
  | Some rows => (set_res c (Res None rows), 0, i32 (zlen rows))
  end.

(** The next row; [None] is a null pointer. *)
Definition FetchRecord c : outcome (t D * option row) :=
  match m_pRes c with
  | Uninit => Fault
  | Null => Ok (c, None)
  | Res _ [] => Ok (set_res c (Res None []), None)
  | Res _ (r :: rows) => Ok (set_res c (Res (Some r) rows), Some r)
  end.

(** The lengths of the columns of the row fetched last. *)
Definition FetchLength c : outcome (option (list Z)) :=
  match m_pRes c with
  | Uninit => Fault
  | Null | Res None _ => Ok None
  | Res (Some r) _ => Ok (Some ((λ x, match x with Some v => zlen v | None => 0 end) <$> r))
  end.

Definition ReleaseRes c : outcome (t D) :=
  match m_pRes c with
  | Uninit => Fault
  | _ => Ok (set_res c Null)
  end.

(** [EscapeString(sTo, ...)]: the text and its NUL are written to [sTo]. *)
Definition EscapeString (sTo sFrom : list Z) : outcome (list Z * Z) :=
  let d := mysql_escape sFrom in
  sTo ← mwrite sTo 0 (d ++ [0]); Ok (sTo, i32 (zlen d)).
End operations.
End CMySQL.

(** * What a query does *)
Section sending.
Import CMySQL.
Context {D : Type} `{MySQL D}.
Implicit Types (c : CMySQL.t D) (d : D).

(** A statement that was sent and succeeded was run, after what the wrapper does
    to be connected, which keeps [P]. *)
Lemma mysql_Send_ok (P : D → Prop) c sql c' :
  (∀ d d' r, mysql_ping d = (d', r) → P d → P d') → (∀ d d' r, mysql_connect d = (d', r) → P d → P d') →
  P (m_MYSQL c) → m_nAutoCommit c = 1 → Send c sql = (c', 0) →
  ∃ d, P d ∧ mysql_real_query d sql = (m_MYSQL c', 0) ∧ m_pRes c' = m_pRes c ∧ m_nAutoCommit c' = 1.
Proof.
  intros Hping Hconn HP Ha. unfold Send, IsValid.
  destruct (mysql_ping (m_MYSQL c)) as [d1 r1] eqn:E1. cbn [m_MYSQL set_db].
  destruct (if negb (r1 =? 0) then _ else _) as [d2 r2] eqn:E2.
  assert (P d2) as H2.
  { destruct (negb (r1 =? 0)); [by eapply Hconn; [|eapply Hping]|]. injection E2 as <- _. by eapply Hping. }
  destruct (negb (r2 =? 0)); [done|]. cbn [m_MYSQL set_db].
  destruct (mysql_real_query d2 sql) as [d3 r3] eqn:E3.
  destruct (Z.eqb_spec r3 0) as [->|]; cbn [negb]; [|done]. cbn [m_MYSQL set_db m_nAutoCommit].
  rewrite Ha. change (1 =? 0) with false. intros [= <-]. cbn [m_MYSQL m_pRes m_nAutoCommit].
  by exists d2.
Qed.

(** Sending a statement leaves the result of the last one. *)
Lemma Send_res c sql : m_pRes (Send c sql).1 = m_pRes c.
Proof.
  unfold Send, IsValid. destruct (mysql_ping (m_MYSQL c)) as [d1 r1]. cbn [m_MYSQL set_db].
  destruct (if negb (r1 =? 0) then _ else _) as [d2 r2]. destruct (negb (r2 =? 0)); [done|]. cbn [m_MYSQL set_db].
  destruct (mysql_real_query d2 sql) as [d3 r3]. destruct (negb (r3 =? 0)); [done|].
  cbn [m_MYSQL set_db m_nAutoCommit]. destruct (m_nAutoCommit c =? 0); [|done].
  destruct (mysql_real_query d3 _) as [d4 r4]. by destruct (negb (r4 =? 0)).
Qed.

Lemma Send_auto c sql : m_nAutoCommit (Send c sql).1 = m_nAutoCommit c.
Proof.
  unfold Send, IsValid. destruct (mysql_ping (m_MYSQL c)) as [d1 r1]. cbn [m_MYSQL set_db].
  destruct (if negb (r1 =? 0) then _ else _) as [d2 r2]. destruct (negb (r2 =? 0)); [done|]. cbn [m_MYSQL set_db].
  destruct (mysql_real_query d2 sql) as [d3 r3]. destruct (negb (r3 =? 0)); [done|].
  cbn [m_MYSQL set_db m_nAutoCommit]. destruct (m_nAutoCommit c =? 0) eqn:E; [|done].
  destruct (mysql_real_query d3 _) as [d4 r4]. by destruct (negb (r4 =? 0)).
Qed.
End sending.

Section facts.
Import CMySQL.
Context {D : Type} `{MySQLLaws D}.
Implicit Types (c : CMySQL.t D) (d : D) (t : list Z) (i : Z).

(** The connection is ready for a statement: no result of it is pending, and
    every statement is its own transaction. *)
Definition data c t i : option (list Z) := db_data (m_MYSQL c) t i.

(** The wrapper's pings and connecting leave the data. *)
Definition same_data d d' : Prop := ∀ t i, db_data d' t i = db_data d t i.

Lemma Send_data c sql c' :
  m_nAutoCommit c = 1 → Send c sql = (c', 0) →
  ∃ d, same_data (m_MYSQL c) d ∧ mysql_real_query d sql = (m_MYSQL c', 0) ∧ m_pRes c' = m_pRes c ∧ m_nAutoCommit c' = 1.
Proof.
  intros Ha Hs. apply (mysql_Send_ok (same_data (m_MYSQL c)) c sql c'); [..|done|done|done].
  - intros d d' r E Hd t i. by rewrite (ping_law _ _ _ _ _ E).
  - intros d d' r E Hd t i. by rewrite (connect_law _ _ _ _ _ E).
Qed.

(** A select that succeeds: the one row there is, or none. *)
Lemma QueryRes_select c t i c' n n' :
  name_ok t → 0 ≤ i < 2 ^ 64 → m_nAutoCommit c = 1 →
  QueryRes c (select_text t (fmt_lu i)) n = (c', 0, n') →
  m_nAutoCommit c' = 1 ∧ (∀ u j, data c' u j = data c u j) ∧
  match data c t i with
  | Some x => n' = 1 ∧ m_pRes c' = Res None [[Some x]]
  | None => n' = 0 ∧ m_pRes c' = Res None []
  end.
Proof.
  intros Ht Hi Ha. unfold QueryRes. destruct (Send c _) as [c1 r1] eqn:E1.
  destruct (Z.eqb_spec r1 0) as [->|]; cbn [negb]; [|congruence].
  destruct (Send_data c _ c1 Ha E1) as (d & Hd & Hq & _ & Ha1).
  destruct (select_law _ _ t i Ht Hi Hq) as [H1 Hs].
  destruct (mysql_store_result (m_MYSQL c1)) as [d2 [rows|]] eqn:E2; [|done].
  destruct (Hs d2 rows eq_refl) as [-> Hd2]. rewrite Hd. fold (data c t i).
  intros [= <- <-]. cbn [m_nAutoCommit set_res set_db m_pRes].
  split_and!; [done|intros u j; unfold data; cbn [m_MYSQL set_res set_db]; by rewrite Hd2, Hd|].
  by destruct (data c t i).
Qed.

(** A replace that succeeds. *)
Lemma Query_replace c t i x c' :
  name_ok t → 0 ≤ i < 2 ^ 64 → m_nAutoCommit c = 1 →
  Query c (replace_text t (fmt_lu i) (mysql_escape x)) = (c', 0) →
  m_pRes c' = m_pRes c ∧ m_nAutoCommit c' = 1 ∧ data c' t i = Some x.
Proof.
  intros Ht Hi Ha Hs. destruct (Send_data c _ c' Ha Hs) as (d & _ & Hq & ? & ?).
  split_and!; [done|done|]. by apply (replace_law d).
Qed.
End facts.

(** * A small database *)
Module SimDb.

(** The rows by the text of the statement that selects them. *)
Record t : Type := mk { s_rows : gmap (list Z) (list Z); s_res : option (list row) }.

Fixpoint until (c : Z) (l : list Z) : list Z :=
  match l with [] => [] | x :: l => if x =? c then [] else x :: until c l end.

(** A backslash is written before a backslash, and before a 0 for a NUL. *)
Fixpoint escape (l : list Z) : list Z :=
  match l with
  | [] => []
  | c :: l => (if c =? 0 then [92; 48] else if c =? 92 then [92; 92] else [c]) ++ escape l
  end.
Fixpoint unescape (l : list Z) : list Z :=
  match l with
  | 92 :: c :: l => (if c =? 48 then 0 else c) :: unescape l
  | c :: l => c :: unescape l
  | [] => []
  end.

(** The row a REPLACE writes. *)
Definition parse_replace (sql : list Z) : list Z * list Z :=
  let r := drop (length (bytes "REPLACE INTO ")) sql in
  let table := until 32 r in
  let r := drop (length table + length (bytes " values ( ")) r in
  let id := until 44 r in
  let r := drop (length id + length (bytes ",'")) r in
  (select_text table id, unescape (take (length r - 2) r)).

Definition query (d : t) (sql : list Z) : t * Z :=
  if starts (bytes "REPLACE INTO ") sql then
    let '(key, x) := parse_replace sql in (mk (<[key := x]> (s_rows d)) None, 0)
  else (mk (s_rows d) (Some (match s_rows d !! sql with Some x => [[Some x]] | None => [] end)), 0).

#[global] Instance ops : MySQL t := {|
  mysql_ping d := (d, 0);
  mysql_connect d := (d, 0);
  mysql_real_query := query;
  mysql_store_result d := (mk (s_rows d) None, s_res d);
  mysql_escape := escape;
|}.

Lemma until_app c a b : c ∉ a → until c (a ++ c :: b) = a.
Proof.
  induction a as [|x a IH]; cbn; [by rewrite Z.eqb_refl|]. intros [? ?]%not_elem_of_cons.
  destruct (Z.eqb_spec x c); [congruence|]. by rewrite IH.
Qed.

Lemma unescape_escape l : unescape (escape l) = l.
Proof.
  induction l as [|c l IH]; [done|]. cbn [escape]. destruct (Z.eqb_spec c 0) as [->|]; [cbn; by rewrite IH|].
  destruct (Z.eqb_spec c 92) as [->|]; [cbn; by rewrite IH|].
  change ([c] ++ escape l) with (c :: escape l). rewrite <- IH at 2. cbn [unescape].
  repeat case_match; congruence.
Qed.

Lemma digits_range fuel n : 0 ≤ n → Forall (λ c, 48 ≤ c ≤ 57) (digits_of fuel n).
Proof.
  revert n. induction fuel as [|fuel IH]; intros n Hn; cbn [digits_of]; [done|].
  destruct (Z.ltb_spec n 10); [constructor; [lia|done]|]. apply Forall_app. split.
  - apply IH. apply Z.div_pos; lia.
  - constructor; [|done]. pose proof (Z.mod_pos_bound n 10). lia.
Qed.

Lemma parse_replace_text table i x :
  name_ok table → 0 ≤ i → parse_replace (replace_text table (fmt_lu i) (escape x)) = (select_text table (fmt_lu i), x).
Proof.
  intros Ht Hi. unfold parse_replace, replace_text. rewrite drop_app_length.
  change (bytes " values ( " ++ ?l) with (32 :: bytes "values ( " ++ l).
  rewrite (until_app 32 table) by done.
  change (32 :: bytes "values ( " ++ ?l) with (bytes " values ( " ++ l).
  rewrite app_assoc, drop_app_length' by (by rewrite length_app).
  change (bytes ",'" ++ ?l) with (44 :: bytes "'" ++ l).
  rewrite (until_app 44).
  2:{ intros Hin. pose proof (digits_range 20 i Hi) as Hd. rewrite Forall_forall in Hd.
      specialize (Hd _ Hin). lia. }
  change (44 :: bytes "'" ++ ?l) with (bytes ",'" ++ l).
  rewrite app_assoc, drop_app_length' by (by rewrite length_app).
  rewrite length_app. change (length (bytes "')")) with 2%nat.
  rewrite Nat.add_sub, take_app_length, unescape_escape. done.
Qed.

Lemma escape_ok x : (0 ∉ escape x) ∧ zlen (escape x) ≤ 2 * zlen x.
Proof.
  induction x as [|c x [IH1 IH2]]; [split; [apply not_elem_of_nil|done]|]. cbn [escape].
  rewrite zlen_app, zlen_cons. split.
  - rewrite not_elem_of_app. split; [|done]. destruct (Z.eqb_spec c 0); [set_solver|].
    destruct (c =? 92); set_solver.
  - assert (zlen (if c =? 0 then [92; 48] else if c =? 92 then [92; 92] else [c]) ≤ 2); [|lia].
    destruct (c =? 0); [done|]. by destruct (c =? 92).
Qed.

#[global] Program Instance laws : MySQLLaws t := {|
  db_data d table i := s_rows d !! select_text table (fmt_lu i);
|}.
Next Obligation. by intros d d' r t i [= <- _]. Qed.
Next Obligation. by intros d d' r t i [= <- _]. Qed.
Next Obligation.
  intros d d' t i _ _. cbn -[select_text fmt_lu]. unfold query.
  change (starts (bytes "REPLACE INTO ") (select_text t (fmt_lu i))) with false.
  intros [= <-]. split; [done|]. by intros d2 rows [= <- <-].
Qed.
Next Obligation.
  intros d d' t i x Ht Hi. cbn -[replace_text fmt_lu]. unfold query.
  change (starts (bytes "REPLACE INTO ") (replace_text t (fmt_lu i) (escape x))) with true.
  cbv match. rewrite parse_replace_text by (done || lia). intros [= <-].
  cbn [s_rows]. by rewrite lookup_insert_eq.
Qed.
Next Obligation. apply escape_ok. Qed.
End SimDb.
