(* ===== verification/Conf.v ===== *)
(** The configuration files of the daemons: what can be read from a file of
    text, the lists of numbers in it, and the queues whose keys it names. *)
From Stdlib Require Import Ascii String.
From S2P Require Import Prelude Fifo ShmQueue IniFile Mysql.

#[local] Open Scope Z_scope.
#[local] Open Scope list_scope.
#[local] Arguments Z.add : simpl never.
#[local] Arguments Z.eqb : simpl never.
#[local] Arguments Z.ltb : simpl never.
#[local] Arguments Z.leb : simpl never.

(** [%d]. *)
Definition fmt_d (n : Z) : list Z := if n <? 0 then 45 :: fmt_lu (- n) else fmt_lu n.

(** * Lists separated by commas *)
Definition COMMA : Z := 44.
Definition COLON : Z := 58.

(** The strings [strtok] gives one after the other: empty ones are left out.
    [cur] is what the next one has so far. *)
Fixpoint tokens (cur s : list Z) : list (list Z) :=
  let done := match cur with [] => [] | _ => [cur] end in
  match s with
  | [] => done
  | c :: s => if c =? COMMA then done ++ tokens [] s else tokens (cur ++ [c]) s
  end.
Definition strtok (s : list Z) : list (list Z) := tokens [] (cstr s).

Fixpoint skip_sp (s : list Z) : list Z :=
  match s with c :: r => if c =? SP then skip_sp r else s | [] => [] end.

(** A list of numbers, as [unsigned int]. *)
Definition number_list (s : list Z) : list Z := (λ t, u32 (atoi (skip_sp t))) <$> strtok s.

(** The section of a number: [%d] of an [unsigned int]. *)
Definition section_of (kind : list Z) (id : Z) : list Z := kind ++ fmt_d (i32 id).

Example tokens_ex : number_list (bytes "1, 2,,30 ,x") = [1; 2; 30; 0].
Proof. reflexivity. Qed.

Lemma number_list_range s id : id ∈ number_list s → 0 ≤ id < 2 ^ 32.
Proof. intros (t & -> & _)%list_elem_of_fmap. apply u32_range. Qed.

(** * Reading a file *)

(** A name of a section the file can be asked for, and one of an item. *)
Definition sec_ok (d sec : list Z) : Prop := 0 < zlen sec ∧ LBR ∉ sec ∧ starts sec d = false.
Definition item_ok (item : list Z) : Prop := 0 < zlen item ∧ NL ∉ item.

Ltac item := by split; [vm_compute|apply (bool_decide_unpack _); vm_compute].

Section read.
Context (d : list Z) (Htext : text_ok d) (Hsome : 0 < zlen d).
Abbreviation ini := (CIniFile.New (Some d)).

Lemma ini_valid : CIniFile.IsValid ini = true.
Proof.
  unfold CIniFile.New. rewrite (proj2 (Z.leb_gt _ _)) by lia.
  unfold CIniFile.IsValid. cbn. by rewrite (proj2 (Z.leb_gt _ _)) by lia.
Qed.

Lemma read_string sec item def len :
  sec_ok d sec → item_ok item → 0 < len → ∃ v r, CIniFile.GetString ini sec item def len = Ok (v, r).
Proof.
  intros (Hs & Hb & Hst) [Hi Hn] Hl.
  destruct (GetString_value d sec item def len) as (v & r & Hg & _); [done..| |done|by eexists _, _].
  intros [_ Hh]. rewrite drop_0 in Hh. congruence.
Qed.

Lemma read_int sec item def v :
  sec_ok d sec → item_ok item → ∃ n r, CIniFile.GetInt ini sec item def v = Ok (n, r).
Proof.
  intros Hs Hi. unfold CIniFile.GetInt. rewrite ini_valid. cbn [negb].
  destruct (read_string sec item [] 32 Hs Hi) as (s & r & ->); [done|]. cbn [mbind outcome_bind].
  repeat case_match; by eexists _, _.
Qed.

Lemma read_ulonglong sec item def v :
  sec_ok d sec → item_ok item → ∃ n r, CIniFile.GetULongLong ini sec item def v = Ok (n, r).
Proof.
  intros Hs Hi. unfold CIniFile.GetULongLong. rewrite ini_valid. cbn [negb].
  destruct (read_string sec item [] 32 Hs Hi) as (s & r & ->); [done|]. cbn [mbind outcome_bind].
  repeat case_match; by eexists _, _.
Qed.
End read.

Lemma starts_app a b l : starts (a ++ b) l = true → starts a l = true.
Proof. rewrite !starts_spec. intros [r ->]. exists (b ++ r). by rewrite app_assoc. Qed.

Lemma fmt_d_chars n c : c ∈ fmt_d n → c = 45 ∨ 48 ≤ c ≤ 57.
Proof.
  unfold fmt_d. destruct (Z.ltb_spec n 0).
  - intros [->|Hc]%elem_of_cons; [by left|]. right. revert c Hc. rewrite <- Forall_forall. by apply SimDb.digits_range; lia.
  - intros Hc. right. revert c Hc. rewrite <- Forall_forall. by apply SimDb.digits_range.
Qed.

(** ** Files whose first character is not a capital letter

    The names of sections the daemons ask for begin with a capital letter.  A file
    that begins with such a name, outside of brackets, is read wrongly ([GetString]
    takes the name for the section); one that begins with a bracket, a comment, as
    those of the repository do, or a blank is not. *)
Definition capital (s : list Z) : bool := match s with c :: _ => (65 <=? c) && (c <=? 90) | [] => false end.
Record conf_text (d : list Z) : Prop := {
  ct_text : text_ok d;
  ct_some : d ≠ [];
  ct_head : capital d = false;
}.

(** It can be decided. *)
Definition is_conf_text (d : list Z) : bool :=
  forallb (λ c, negb (c =? 0)) d && negb (bool_decide (d = [])) && negb (capital d).
Lemma is_conf_text_ok d : is_conf_text d = true → conf_text d.
Proof.
  unfold is_conf_text. rewrite !andb_true_iff, !negb_true_iff. intros [[Ht Hs%bool_decide_eq_false] Hc]. split; [|done|done].
  apply Forall_forall. intros c Hc'. rewrite forallb_forall in Ht. apply list_elem_of_In, Ht in Hc'.
  intros ->. done.
Qed.

(** A file of these lines, and how those of the repository begin: ";;bus", then
    "configuration file" in Chinese, " bus.ini" (src/bus/conf/bus.ini and its like). *)
Definition conf_lines (l : list (list Z)) : list Z := concat ((λ s, s ++ [NL]) <$> l).
Definition first_line (name : string) : list Z :=
  bytes ";;" ++ bytes name ++ [0xe9; 0x85; 0x8d; 0xe7; 0xbd; 0xae; 0xe6; 0x96; 0x87; 0xe4; 0xbb; 0xb6] ++ bytes " " ++ bytes name ++ bytes ".ini".

Lemma conf_text_some d : conf_text d → 0 < zlen d.
Proof. intros [_ Hs _]. destruct d; [done|]. rewrite zlen_cons. pose proof (zlen_nonneg d). lia. Qed.

Lemma conf_sec d sec : conf_text d → capital sec = true → LBR ∉ sec → sec_ok d sec.
Proof.
  intros [_ _ Hh] Hz Hb. destruct sec as [|c sec]; [done|]. split; [rewrite zlen_cons; pose proof (zlen_nonneg sec); lia|].
  split; [done|]. destruct (starts (c :: sec) d) eqn:E; [|done].
  apply starts_spec in E as [r ->]. cbn [app capital] in *. congruence.
Qed.

Lemma conf_section_of d kind id : conf_text d → capital kind = true → LBR ∉ kind → sec_ok d (section_of kind id).
Proof.
  intros Hd Hz Hb. apply conf_sec; [done|by destruct kind|].
  unfold section_of. rewrite elem_of_app. intros [Hin|Hin]; [done|]. apply fmt_d_chars in Hin. unfold LBR in Hin. lia.
Qed.

(** One item after the other of such a file: the goal is a
    predicate of an [outcome] that begins with reading it. *)
Section items.
Context (d : list Z) (Hd : conf_text d).

Lemma get_int_ok sec it def x : sec_ok d sec → item_ok it → ∃ v r, CIniFile.GetInt (CIniFile.New (Some d)) sec it def x = Ok (v, r).
Proof. intros Hs Hi. apply (read_int d (ct_text _ Hd) (conf_text_some _ Hd) sec it def x Hs Hi). Qed.

Lemma get_string_ok sec it def len :
  sec_ok d sec → item_ok it → 0 < len → ∃ v r, CIniFile.GetString (CIniFile.New (Some d)) sec it def len = Ok (v, r).
Proof. intros Hs Hi Hl. by apply (read_string d (ct_text _ Hd) (conf_text_some _ Hd) sec it def len Hs Hi). Qed.
End items.

Ltac conf_section := apply conf_sec; [assumption|reflexivity|apply (bool_decide_unpack _); vm_compute; exact I].
Ltac get_int v :=
  match goal with |- _ (mbind _ (CIniFile.GetInt (CIniFile.New (Some ?d)) ?s ?i ?def ?x)) =>
    let E := fresh in let r := fresh "r" in
    destruct (get_int_ok d ltac:(assumption) s i def x ltac:(first [assumption|conf_section]) ltac:(item)) as (v & r & E);
    rewrite E; cbn [mbind outcome_bind] end.
Ltac get_string v :=
  match goal with |- _ (mbind _ (CIniFile.GetString (CIniFile.New (Some ?d)) ?s ?i ?def ?n)) =>
    let E := fresh in let r := fresh "r" in
    destruct (get_string_ok d ltac:(assumption) s i def n ltac:(first [assumption|conf_section]) ltac:(item) ltac:(reflexivity)) as (v & r & E);
    rewrite E; cbn [mbind outcome_bind] end.

(** The files there are: a path that names one names nothing, an empty file or
    such a text. *)
Definition conf_files (files : list Z → option (list Z)) : Prop :=
  ∀ p d, files p = Some d → d = [] ∨ conf_text d.

Lemma conf_valid files p :
  conf_files files → CIniFile.IsValid (CIniFile.New (files p)) = true → ∃ d, files p = Some d ∧ conf_text d.
Proof.
  intros Hf Hv. destruct (files p) as [d|] eqn:E; [|done]. exists d. split; [done|].
  destruct (Hf p d E) as [->|?]; [done|done].
Qed.

(** * Queues in shared memory *)

(** An object of its own, and [Init] with a key and a size. *)
Class QueueInit (Q : Type) : Type := { q_init : Z → Z → outcome (Q * Z) }.

(** What is in the queue of a key.  It is a function of the key, so objects made with
    one key have queues of their own here: keys of a configuration that are equal
    are left out. *)
Class QueueInitLaws (Q : Type) `{FifoQueue Q} `{!QueueInit Q} : Type := {
  q_stored : Z → list (list Z);
  q_init_total key size : ∃ q r, q_init (Q := Q) key size = Ok (q, r);
  q_init_rep key size q : q_init (Q := Q) key size = Ok (q, 0) → q_rep q (q_stored key);
}.

(** Shared-memory queues that are all new: [CShareMem::Create] makes them. *)
Definition fresh_queue : CShmQueue.t := CShmQueue.mk 0 0 0 [] None.
Definition fresh_init (key size : Z) : outcome (CShmQueue.t * Z) :=
  if (8 <? Z.abs size) && (Z.abs size <? 2 ^ 31)
  then CShmQueue.Init fresh_queue 0 0 0 (replicate (Z.to_nat (Z.abs size)) 0) size
  else CShmQueue.Init fresh_queue (-1) 0 0 [] size.

#[export] Instance shm_init : QueueInit CShmQueue.t := { q_init := fresh_init }.

#[export] Program Instance shm_init_laws : QueueInitLaws CShmQueue.t := { q_stored _ := [] }.
Next Obligation.
  intros key size. cbn. unfold fresh_init. destruct (Z.ltb_spec 8 (Z.abs size)), (Z.ltb_spec (Z.abs size) (2 ^ 31)); cbn [andb];
    try (by eexists _, _).
  destruct (Init_fresh fresh_queue (replicate (Z.to_nat (Z.abs size)) 0) size) as (q & Hq & _); [done| |by eexists _, _].
  by rewrite zlen_replicate, Z2Nat.id by lia.
Qed.
Next Obligation.
  intros key size q. cbn. unfold fresh_init. destruct (Z.ltb_spec 8 (Z.abs size)), (Z.ltb_spec (Z.abs size) (2 ^ 31)); cbn [andb];
    try (by intros [= _ ?]).
  destruct (Init_fresh fresh_queue (replicate (Z.to_nat (Z.abs size)) 0) size) as (q' & -> & Hr & _); [done| |by intros [= <-]].
  by rewrite zlen_replicate, Z2Nat.id by lia.
Qed.
