(* ===== verification/UserStore.v ===== *)
(** The processes beside the user server: the loader ([CLoaderUser] of
    user/loader_user.cpp) brings users from the database into the shared table,
    the writer ([CWriterUser] of user/writer_user.cpp) writes them back. *)
From stdpp Require Import gmap sorting.
From S2P Require Import Prelude Fifo Wire HashList Kernel ConnInfo BusState BusRoute IniFile ConnState.
From S2P Require Import UserState UserServe Mysql.

#[local] Arguments Z.add : simpl never.
#[local] Arguments Z.eqb : simpl never.
#[local] Arguments Z.ltb : simpl never.
#[local] Arguments Z.leb : simpl never.

Definition USER_DATABASE_NUM : Z := 2.
Definition USER_TABLE_NUM : Z := 2.
Definition GetUserDBIndex (UserID : Z) : Z := i32 (UserID mod USER_DATABASE_NUM).
Definition GetUserTableIndex (UserID : Z) : Z := i32 (UserID / 10 mod USER_TABLE_NUM).

(** The names of a database: C strings. *)
Record DBConfig : Type := mk_config { DBName : list Z; TableName : list Z }.

(** The table of a user. *)
Definition user_table (c : DBConfig) (UserID : Z) : list Z :=
  table_name (DBName c) (TableName c) (GetUserTableIndex UserID).

(** mm::DBUserInfo, but for the lists, which nobody sets. *)
Module DBUserInfo.
Record t : Type := mk {
  userid : Z; nickname : list Z; level : Z; viplevel : Z; sex : Z; birthday : Z;
  telno : list Z; address : list Z; email : list Z; personalnote : list Z }.
End DBUserInfo.

(** The Protocol Buffers messages of these processes. *)
Class StoreProto : Type := {
  dec_LoadUserInfoReq : list Z → option (Z * list Z);      (** user, request *)
  enc_LoadUserInfoRsp : Z → list Z → list Z;               (** ret, request *)
  dec_WriteUserInfoReq : list Z → option Z;
  enc_DBUserInfo : DBUserInfo.t → list Z;
  dec_DBUserInfo : list Z → option DBUserInfo.t;
}.

(** The fields are in the range of their types. *)
Record db_user_ok (u : DBUserInfo.t) : Prop := {
  du_id : 0 ≤ DBUserInfo.userid u < 2 ^ 64;
  du_level : 0 ≤ DBUserInfo.level u < 2 ^ 32;
  du_viplevel : 0 ≤ DBUserInfo.viplevel u < 2 ^ 32;
  du_sex : - 2 ^ 31 ≤ DBUserInfo.sex u < 2 ^ 31;
  du_birthday : 0 ≤ DBUserInfo.birthday u < 2 ^ 64;
}.

(** Messages parse back; a user takes at most 64 bytes more than his strings,
    and an answer of the loader at most 24 more than the request in it. *)
Class StoreProtoLaws `{UserProto} `{StoreProto} : Prop := {
  db_user_law u : db_user_ok u → dec_DBUserInfo (enc_DBUserInfo u) = Some u;
  db_user_len u :
    0 < zlen (enc_DBUserInfo u) ≤ 64 + zlen (DBUserInfo.nickname u) + zlen (DBUserInfo.telno u) +
      zlen (DBUserInfo.address u) + zlen (DBUserInfo.email u) + zlen (DBUserInfo.personalnote u);
  load_req_law u request : 0 ≤ u < 2 ^ 64 → dec_LoadUserInfoReq (enc_LoadUserInfoReq u request) = Some (u, request);
  load_rsp_law ret request :
    - 2 ^ 31 ≤ ret < 2 ^ 31 → dec_LoadUserInfoRsp (enc_LoadUserInfoRsp ret request) = Some (ret, request);
  load_rsp_len ret request : 0 < zlen (enc_LoadUserInfoRsp ret request) ≤ 24 + zlen request;
  write_req_law u : 0 ≤ u < 2 ^ 64 → dec_WriteUserInfoReq (enc_WriteUserInfoReq u) = Some u;
}.

(** * Strings used as formats *)

(** [snprintf(buf, n, s)]: the string is the format.  A [%] that is not followed
    by another asks for an argument that is not there. *)
Fixpoint printf (s : list Z) : outcome (list Z) :=
  match s with
  | [] => Ok []
  | 37 :: 37 :: s => r ← printf s; Ok (37 :: r)
  | 37 :: _ => Fault
  | c :: s => r ← printf s; Ok (c :: r)
  end.
Definition snprintf_fmt (buf : list Z) (n : Z) (s : list Z) : outcome (list Z) :=
  r ← printf (cstr s); snprintf_s buf n r.

Module CLoaderUser.

Record t (Q D : Type) : Type := mk {
  m_DBConfig : list DBConfig; m_DBConn : list (CMySQL.t D);
  m_LoaderRecvQueue : Q; m_LoaderSendQueue : Q; m_UserShm : CUserShmApi.t }.
Arguments mk {Q D}.
Arguments m_DBConfig {Q D}.
Arguments m_DBConn {Q D}.
Arguments m_LoaderRecvQueue {Q D}.
Arguments m_LoaderSendQueue {Q D}.
Arguments m_UserShm {Q D}.

Section operations.
Context {Q D K : Type} `{FifoOps Q} `{MySQL D} `{Kernel K} `{StoreProto}.
Implicit Types (s : t Q D) (k : K) (c : CMySQL.t D).

Definition set_conn s (i : Z) c : outcome (t Q D) :=
  l ← aset (m_DBConn s) i c;
  Ok (mk (m_DBConfig s) l (m_LoaderRecvQueue s) (m_LoaderSendQueue s) (m_UserShm s)).
Definition set_recv s (q : Q) : t Q D :=
  mk (m_DBConfig s) (m_DBConn s) q (m_LoaderSendQueue s) (m_UserShm s).
Definition set_send s (q : Q) : t Q D :=
  mk (m_DBConfig s) (m_DBConn s) (m_LoaderRecvQueue s) q (m_UserShm s).
Definition set_shm s (u : CUserShmApi.t) : t Q D :=
  mk (m_DBConfig s) (m_DBConn s) (m_LoaderRecvQueue s) (m_LoaderSendQueue s) u.

(** The user a message holds: what it does not set stays zero.  [None]: it does
    not parse. *)
Definition UserProtoString2Struct k (CurUserInfo : ShmUserInfo.t) (strProto : list Z)
    : outcome (K * option ShmUserInfo.t) :=
  match dec_DBUserInfo strProto with
  | None => Ok (k, None)
  | Some u =>
      let '(k, now) := k_time k in
      NickName ← snprintf_fmt (ShmUserInfo.NickName CurUserInfo) MAX_NAME_LENGTH (DBUserInfo.nickname u);
      TelNo ← snprintf_fmt (ShmUserInfo.TelNo CurUserInfo) MAX_TELNO_LENGTH (DBUserInfo.telno u);
      Address ← snprintf_fmt (ShmUserInfo.Address CurUserInfo) MAX_ADDR_LENGTH (DBUserInfo.address u);
      EMail ← snprintf_fmt (ShmUserInfo.EMail CurUserInfo) MAX_EMAIL_LENGTH (DBUserInfo.email u);
      PersonalNote ← snprintf_fmt (ShmUserInfo.PersonalNote CurUserInfo) MAX_PERSONAL_NOTE_LENGTH
                       (DBUserInfo.personalnote u);
      Ok (k, Some (ShmUserInfo.mk (DBUserInfo.userid u) USER_STATUS_LOADED (u64 now) NickName
        (i32 (DBUserInfo.level u)) (i32 (DBUserInfo.viplevel u)) (i8 (DBUserInfo.sex u))
        (ShmUserInfo.Birthday CurUserInfo) TelNo Address EMail PersonalNote
        (ShmUserInfo.FriendList CurUserInfo) (ShmUserInfo.RequestList CurUserInfo)))
  end.

(** The row that was fetched becomes a user of the table. *)
Definition InsertRow s k (CurRow : option row) (CurRowLen : option (list Z)) : outcome (K * t Q D * Z) :=
  match CurRow, CurRowLen with
  | Some CurRow, Some CurRowLen =>
      x ← aget CurRow 0; len ← aget CurRowLen 0;
      match x with
      | None => Ok (k, s, -1)
      | Some x =>
          if len =? 0 then Ok (k, s, -1) else
          '(k, u) ← UserProtoString2Struct k ShmUserInfo.zero (take (Z.to_nat len) x);
          match u with
          | None => Ok (k, s, -1)
          | Some u =>
              '(m, Ret) ← CUserShmApi.InsertUserInfo (m_UserShm s) u;
              Ok (k, set_shm s m, if Ret =? 0 then 0 else -1)
          end
      end
  | _, _ => Fault
  end.

(** The statement is put into an array, and sent with the length it would have
    without the end of the array. *)
Definition Statement (n : Z) (text : list Z) : outcome (list Z) :=
  SqlStr ← snprintf_s (replicate (Z.to_nat n) 0) n text; mread SqlStr 0 (zlen text).

(** The user is looked for in the database.  The result is 0 or -1. *)
Definition LoadUser s k (UserID : Z) : outcome (K * t Q D * Z) :=
  let DBIndex := GetUserDBIndex UserID in
  cfg ← aget (m_DBConfig s) DBIndex;
  sql ← Statement 256 (select_text (user_table cfg UserID) (fmt_lu UserID));
  c ← aget (m_DBConn s) DBIndex;
  let '(c, Ret, RecNum) := CMySQL.QueryRes c sql 0 in
  s ← set_conn s DBIndex c;
  if negb (Ret =? 0) then Ok (k, s, -1) else
  if RecNum =? 0 then Ok (k, s, -1) else
  if negb (RecNum =? 1) then Ok (k, s, -1) else
  '(c, CurRow) ← CMySQL.FetchRecord c;
  s ← set_conn s DBIndex c;
  CurRowLen ← CMySQL.FetchLength c;
  InsertRow s k CurRow CurRowLen.

Definition Answer s (Result : Z) (strRequest : list Z) : outcome (t Q D * Z) :=
  let CurRsp := enc_LoadUserInfoRsp Result strRequest in
  if XY_PKG_MAX_LEN + 16 <? zlen CurRsp then Ok (s, -1) else
  '(q, Ret) ← q_in (m_LoaderSendQueue s) CurRsp (zlen CurRsp);
  Ok (set_send s q, if Ret =? 0 then 0 else -1).

Definition ProcessLoaderUserInfo s k (UserID : Z) (strRequest : list Z) : outcome (K * t Q D * Z) :=
  '(k, s, Result) ← LoadUser s k UserID;
  c ← aget (m_DBConn s) (GetUserDBIndex UserID);
  c ← CMySQL.ReleaseRes c;
  s ← set_conn s (GetUserDBIndex UserID) c;
  '(s, Ret) ← Answer s Result strRequest;
  Ok (k, s, Ret).

(** One round of the loop of [Entity].  [false]: the process ends. *)
Definition EntityOnce s k : outcome (K * t Q D * bool) :=
  '(q, Ret, RecvLen, d) ← q_out (m_LoaderRecvQueue s) XY_PKG_MAX_LEN;
  let s := set_recv s q in
  if negb (Ret =? 0) then Ok (k, s, true) else
  match dec_LoadUserInfoReq d with
  | None => Ok (k, s, false)
  | Some (UserID, strRequest) =>
      '(k, s, _) ← ProcessLoaderUserInfo s k UserID strRequest; Ok (k, s, true)
  end.
End operations.
End CLoaderUser.

Module CWriterUser.

Record t (Q D : Type) : Type := mk {
  m_DBConfig : list DBConfig; m_DBConn : list (CMySQL.t D);
  m_WriterQueue : Q; m_UserShm : CUserShmApi.t }.
Arguments mk {Q D}.
Arguments m_DBConfig {Q D}.
Arguments m_DBConn {Q D}.
Arguments m_WriterQueue {Q D}.
Arguments m_UserShm {Q D}.

(** The size of ShmUserInfo: its fields, without gaps. *)
Definition SHM_USER_INFO_SIZE : Z :=
  8 + 4 + 8 + MAX_NAME_LENGTH + 4 + 4 + 1 + 8 + MAX_TELNO_LENGTH + MAX_ADDR_LENGTH + MAX_EMAIL_LENGTH +
  MAX_PERSONAL_NOTE_LENGTH + MAX_FRIEND_NUM * (8 + MAX_NAME_LENGTH + 1) +
  MAX_REQUEST_NUM * (8 + MAX_NAME_LENGTH + 8 + 1).

Section operations.
Context {Q D : Type} `{FifoOps Q} `{MySQL D} `{StoreProto}.
Implicit Types (s : t Q D) (c : CMySQL.t D).

Definition set_conn s (i : Z) c : outcome (t Q D) :=
  l ← aset (m_DBConn s) i c; Ok (mk (m_DBConfig s) l (m_WriterQueue s) (m_UserShm s)).
Definition set_queue s (q : Q) : t Q D := mk (m_DBConfig s) (m_DBConn s) q (m_UserShm s).

Definition Struct2ProtoStringUser (u : ShmUserInfo.t) : outcome (list Z) :=
  NickName ← carray (ShmUserInfo.NickName u);
  TelNo ← carray (ShmUserInfo.TelNo u);
  Address ← carray (ShmUserInfo.Address u);
  EMail ← carray (ShmUserInfo.EMail u);
  PersonalNote ← carray (ShmUserInfo.PersonalNote u);
  Ok (enc_DBUserInfo (DBUserInfo.mk (ShmUserInfo.UserID u) NickName (u32 (ShmUserInfo.Level u))
    (u32 (ShmUserInfo.VipLevel u)) (ShmUserInfo.Sex u) (ShmUserInfo.Birthday u) TelNo Address EMail
    PersonalNote)).

Definition CheckUserInfoValid (UserID : Z) (u : ShmUserInfo.t) : Z :=
  if negb (UserID =? ShmUserInfo.UserID u) then 1 else if 0 =? ShmUserInfo.UserID u then 2 else 0.

Definition ProcessWriterUserInfo s (UserID : Z) : outcome (t Q D * Z) :=
  '(Ret, u) ← CUserShmApi.GetUserInfo (m_UserShm s) UserID ShmUserInfo.zero;
  if negb (Ret =? 0) then Ok (s, -1) else
  if negb (CheckUserInfoValid UserID u =? 0) then Ok (s, -1) else
  let DBIndex := GetUserDBIndex UserID in
  strProto ← Struct2ProtoStringUser u;
  '(szValString, iValStringLen) ←
    CMySQL.EscapeString (replicate (Z.to_nat SHM_USER_INFO_SIZE) 0) strProto;
  if SHM_USER_INFO_SIZE <=? iValStringLen then Ok (s, -4) else
  cfg ← aget (m_DBConfig s) DBIndex;
  val ← carray szValString;
  let strSql := replace_text (user_table cfg UserID) (fmt_lu UserID) val in
  c ← aget (m_DBConn s) DBIndex;
  let '(c, Ret) := CMySQL.Query c strSql in
  s ← set_conn s DBIndex c;
  Ok (s, if negb (Ret =? 0) then -2 else 0).

(** One round of the loop of [Entity]. *)
Definition EntityOnce s : outcome (t Q D * bool) :=
  '(q, Ret, RecvLen, d) ← q_out (m_WriterQueue s) 128;
  let s := set_queue s q in
  if negb (Ret =? 0) then Ok (s, true) else
  match dec_WriteUserInfoReq d with
  | None => Ok (s, false)
  | Some UserID => '(s, _) ← ProcessWriterUserInfo s UserID; Ok (s, true)
  end.
End operations.
End CWriterUser.
