(* ===== verification/UserStoreFacts.v ===== *)
(** What the loader and the writer do to the table and the database, and what
    is left of a user who was written and loaded again. *)
From stdpp Require Import gmap sorting.
From S2P Require Import Prelude Fifo Wire HashList Kernel ConnInfo BusState BusConn BusRoute BusFacts.
From S2P Require Import IniFile ConnState ConnServe ConnFacts UserState UserServe UserSpec UserFacts.
From S2P Require Import Mysql UserStore.

#[local] Arguments Z.add : simpl never.
#[local] Arguments Z.eqb : simpl never.
#[local] Arguments Z.ltb : simpl never.
#[local] Arguments Z.leb : simpl never.

(** * Strings *)

(** A string that is not taken for a format. *)
Definition plain (s : list Z) : Prop := 37 ∉ s.

Lemma printf_plain s : plain s → printf s = Ok s.
Proof.
  unfold plain. induction s as [|c s IH]; [done|]. intros [Hc Hs]%not_elem_of_cons. specialize (IH Hs).
  assert (printf (c :: s) = r ← printf s; Ok (c :: r)) as ->; [|by rewrite IH].
  cbn [printf]. repeat case_match; congruence.
Qed.

Lemma printf_fault a b : plain a → head b ≠ Some 37 → printf (a ++ 37 :: b) = Fault.
Proof.
  unfold plain. intros Ha Hb. induction a as [|c a IH].
  - cbn. destruct b as [|c b]; [done|]. cbn in Hb. repeat case_match; congruence.
  - apply not_elem_of_cons in Ha as [Hc Ha]. specialize (IH Ha).
    assert (printf ((c :: a) ++ 37 :: b) = r ← printf (a ++ 37 :: b); Ok (c :: r)) as ->; [|by rewrite IH].
    cbn [printf app]. repeat case_match; congruence.
Qed.

Lemma cut_carray n buf : 1 ≤ n → str_ok n buf → cut n (cstr buf) = cstr buf.
Proof.
  intros Hn [Hz H0]. unfold cut. rewrite (cstr_id (cstr buf)) by apply cstr_no_nul.
  apply take_ge. clear Hn. assert (length (cstr buf) < length buf)%nat; [|unfold zlen in *; lia].
  clear n Hz. induction buf as [|c buf IH]; [by apply not_elem_of_nil in H0|]. cbn [cstr].
  destruct (Z.eqb_spec c 0); [cbn; lia|]. apply elem_of_cons in H0 as [?|?]; [congruence|].
  cbn. specialize (IH H). lia.
Qed.

(** Written into an array of zeros, a string of an array of the same size is
    there again. *)
Lemma snprintf_fmt_back n buf s :
  1 ≤ n → str_ok n s → plain (cstr s) → zlen buf = n →
  ∃ buf', snprintf_fmt buf n (cstr s) = Ok buf' ∧ str_ok n buf' ∧ cstr buf' = cstr s.
Proof.
  intros Hn Hs Hp Hb. unfold snprintf_fmt. rewrite (cstr_id (cstr s)) by apply cstr_no_nul.
  rewrite printf_plain by done. cbn [mbind outcome_bind]. rewrite snprintf_s_ok by done.
  eexists. split; [done|]. split; [by apply put_str_ok|]. rewrite put_str_cstr. by apply cut_carray.
Qed.

(** The message a user is written as. *)
Definition to_db (i : ShmUserInfo.t) : DBUserInfo.t :=
  DBUserInfo.mk (ShmUserInfo.UserID i) (cstr (ShmUserInfo.NickName i)) (u32 (ShmUserInfo.Level i))
    (u32 (ShmUserInfo.VipLevel i)) (ShmUserInfo.Sex i) (ShmUserInfo.Birthday i)
    (cstr (ShmUserInfo.TelNo i)) (cstr (ShmUserInfo.Address i)) (cstr (ShmUserInfo.EMail i))
    (cstr (ShmUserInfo.PersonalNote i)).

(** The fields are in the range of their types. *)
Record user_range (i : ShmUserInfo.t) : Prop := {
  ug_id : 0 ≤ ShmUserInfo.UserID i < 2 ^ 64;
  ug_level : - 2 ^ 31 ≤ ShmUserInfo.Level i < 2 ^ 31;
  ug_viplevel : - 2 ^ 31 ≤ ShmUserInfo.VipLevel i < 2 ^ 31;
  ug_sex : - 2 ^ 7 ≤ ShmUserInfo.Sex i < 2 ^ 7;
  ug_birthday : 0 ≤ ShmUserInfo.Birthday i < 2 ^ 64;
}.

Lemma to_db_ok i : user_range i → db_user_ok (to_db i).
Proof. intros []. constructor; cbn; try apply u32_range; lia. Qed.

(** None of a user's strings is taken for a format. *)
Definition plain_user (i : ShmUserInfo.t) : Prop :=
  plain (cstr (ShmUserInfo.NickName i)) ∧ plain (cstr (ShmUserInfo.TelNo i)) ∧
  plain (cstr (ShmUserInfo.Address i)) ∧ plain (cstr (ShmUserInfo.EMail i)) ∧
  plain (cstr (ShmUserInfo.PersonalNote i)).

(** [j] is [i] after he was written at some time and loaded at [now]: what he is
    called and how he is reached is kept; his birthday, his friends and the
    requests to him are not. *)
Record reloaded (i j : ShmUserInfo.t) (now : Z) : Prop := {
  rl_id : ShmUserInfo.UserID j = ShmUserInfo.UserID i;
  rl_name : cstr (ShmUserInfo.NickName j) = cstr (ShmUserInfo.NickName i);
  rl_level : ShmUserInfo.Level j = ShmUserInfo.Level i;
  rl_viplevel : ShmUserInfo.VipLevel j = ShmUserInfo.VipLevel i;
  rl_sex : ShmUserInfo.Sex j = ShmUserInfo.Sex i;
  rl_tel : cstr (ShmUserInfo.TelNo j) = cstr (ShmUserInfo.TelNo i);
  rl_addr : cstr (ShmUserInfo.Address j) = cstr (ShmUserInfo.Address i);
  rl_mail : cstr (ShmUserInfo.EMail j) = cstr (ShmUserInfo.EMail i);
  rl_note : cstr (ShmUserInfo.PersonalNote j) = cstr (ShmUserInfo.PersonalNote i);
  rl_status : ShmUserInfo.Status j = USER_STATUS_LOADED;
  rl_time : ShmUserInfo.LastActiveTime j = u64 now;
  rl_birthday : ShmUserInfo.Birthday j = 0;
  rl_friends : ShmUserInfo.FriendList j = ShmUserInfo.FriendList ShmUserInfo.zero;
  rl_requests : ShmUserInfo.RequestList j = ShmUserInfo.RequestList ShmUserInfo.zero;
}.

Lemma i32_u32 x : - 2 ^ 31 ≤ x < 2 ^ 31 → i32 (u32 x) = x.
Proof. intros. unfold i32, u32. rewrite Zplus_mod_idemp_l, Z.mod_small; lia. Qed.

Lemma i8_small x : - 2 ^ 7 ≤ x < 2 ^ 7 → i8 x = x.
Proof. intros. unfold i8. rewrite Z.mod_small; lia. Qed.

Section reload.
Context {K : Type} `{Kernel K} `{!KernelClock K} `{StoreProtoLaws}.
Implicit Types (k : K) (i : ShmUserInfo.t).

Lemma String2Struct_ok u i k :
  user_ok u i → user_range i → plain_user i →
  ∃ k' j now, CLoaderUser.UserProtoString2Struct k ShmUserInfo.zero (enc_DBUserInfo (to_db i)) = Ok (k', Some j) ∧
    reloaded i j now ∧ user_ok u j ∧ k_now k ≤ now ≤ k_now k'.
Proof.
  intros [] Hr (Hp1 & Hp2 & Hp3 & Hp4 & Hp5). unfold CLoaderUser.UserProtoString2Struct.
  rewrite db_user_law by by apply to_db_ok. destruct (k_time k) as [k1 now] eqn:Et. apply k_time_now in Et.
  cbn [to_db DBUserInfo.nickname DBUserInfo.telno DBUserInfo.address DBUserInfo.email DBUserInfo.personalnote].
  destruct (snprintf_fmt_back MAX_NAME_LENGTH (ShmUserInfo.NickName ShmUserInfo.zero) (ShmUserInfo.NickName i))
    as (b1 & -> & Ho1 & Hc1); [done..|].
  destruct (snprintf_fmt_back MAX_TELNO_LENGTH (ShmUserInfo.TelNo ShmUserInfo.zero) (ShmUserInfo.TelNo i))
    as (b2 & -> & Ho2 & Hc2); [done..|].
  destruct (snprintf_fmt_back MAX_ADDR_LENGTH (ShmUserInfo.Address ShmUserInfo.zero) (ShmUserInfo.Address i))
    as (b3 & -> & Ho3 & Hc3); [done..|].
  destruct (snprintf_fmt_back MAX_EMAIL_LENGTH (ShmUserInfo.EMail ShmUserInfo.zero) (ShmUserInfo.EMail i))
    as (b4 & -> & Ho4 & Hc4); [done..|].
  destruct (snprintf_fmt_back MAX_PERSONAL_NOTE_LENGTH (ShmUserInfo.PersonalNote ShmUserInfo.zero)
    (ShmUserInfo.PersonalNote i)) as (b5 & -> & Ho5 & Hc5); [done..|].
  cbn [mbind outcome_bind]. eexists k1, _, now. split; [done|]. destruct Hr. split_and!; [|..|lia|lia].
  - constructor; cbn -[u64]; try done; try by apply i32_u32. by apply i8_small.
  - constructor; cbn -[replicate]; try done. apply Forall_replicate. by apply str_ok_zero.
Qed.
End reload.

(** * The connections to the database *)

(** Every user has a connection; what is in the database under his id. *)
Record store_ok {D} (cfgs : list DBConfig) (conns : list (CMySQL.t D)) : Prop := {
  st_cfgs : zlen cfgs = USER_DATABASE_NUM;
  st_conns : zlen conns = USER_DATABASE_NUM;
  st_names : Forall (λ c, name_ok (DBName c) ∧ name_ok (TableName c) ∧ (0 ∉ DBName c) ∧ (0 ∉ TableName c) ∧
                          zlen (DBName c) + zlen (TableName c) ≤ 128) cfgs;
  st_auto : Forall (λ c, CMySQL.m_nAutoCommit c = 1) conns;
}.

Lemma GetUserDBIndex_range u : 0 ≤ GetUserDBIndex u < USER_DATABASE_NUM.
Proof.
  unfold GetUserDBIndex, USER_DATABASE_NUM. pose proof (Z.mod_pos_bound u 2). rewrite i32_small; lia.
Qed.

Lemma zlen_digits fuel n : zlen (digits_of fuel n) ≤ Z.of_nat fuel.
Proof.
  revert n. induction fuel as [|fuel IH]; intros n; cbn [digits_of]; [done|].
  destruct (n <? 10); [rewrite zlen_cons, zlen_nil; lia|]. rewrite zlen_app, zlen_cons, zlen_nil.
  specialize (IH (n / 10)). lia.
Qed.

Lemma fmt_no_nul n c : 0 ≤ n → c < 48 → c ∉ fmt_lu n.
Proof.
  intros Hn Hc Hin. pose proof (SimDb.digits_range 20 n Hn) as Hd. rewrite Forall_forall in Hd.
  specialize (Hd _ Hin). lia.
Qed.

(** A text that fits its array is sent as it is; of a longer one what is behind
    the array is sent too. *)
Lemma Statement_ok n text : 1 ≤ n → 0 ∉ text → zlen text < n → CLoaderUser.Statement n text = Ok text.
Proof.
  intros Hn H0 Hl. unfold CLoaderUser.Statement. pose proof (zlen_nonneg text).
  rewrite snprintf_s_ok by (rewrite ?zlen_replicate; lia). cbn [mbind outcome_bind].
  assert (cut n text = text) as Hcut.
  { unfold cut. rewrite cstr_id by done. apply take_ge. unfold zlen in *. lia. }
  unfold put_str. rewrite Hcut, <- app_assoc. apply mread_head.
Qed.

Lemma Statement_over n text : 1 ≤ n → n < zlen text → CLoaderUser.Statement n text = Fault.
Proof.
  intros Hn Hl. unfold CLoaderUser.Statement.
  assert (zlen (replicate (Z.to_nat n) 0) = n) as Hz by (rewrite zlen_replicate; lia).
  rewrite snprintf_s_ok by (done || lia). cbn [mbind outcome_bind].
  destruct (put_str_ok (replicate (Z.to_nat n) 0) n text Hz Hn) as [Hzp _].
  apply mread_fault. lia.
Qed.

Section conns.
Context {D : Type} `{MySQLLaws D}.
Implicit Types (cfgs : list DBConfig) (conns : list (CMySQL.t D)) (c : CMySQL.t D) (u : Z).

Definition conn_of conns u c : Prop := aget conns (GetUserDBIndex u) = Ok c.

Lemma store_conn cfgs conns u :
  store_ok cfgs conns → ∃ c, conn_of conns u c ∧ CMySQL.m_nAutoCommit c = 1.
Proof.
  intros [_ Hc _ Ha]. destruct (aget_total conns (GetUserDBIndex u)) as [c Hg].
  { rewrite Hc. apply GetUserDBIndex_range. }
  exists c. split; [done|]. rewrite Forall_lookup in Ha. apply (Ha (Z.to_nat (GetUserDBIndex u))).
  by apply aget_Some.
Qed.

Lemma db_set_conn_ok cfgs conns u c :
  store_ok cfgs conns → CMySQL.m_nAutoCommit c = 1 →
  ∃ conns', aset conns (GetUserDBIndex u) c = Ok conns' ∧ store_ok cfgs conns' ∧ conn_of conns' u c ∧
    ∀ v x, conn_of conns v x → conn_of conns' v x ∨ GetUserDBIndex v = GetUserDBIndex u.
Proof.
  intros [] Ha. pose proof (GetUserDBIndex_range u). rewrite aset_ok by lia. eexists. split; [done|].
  split_and!.
  - constructor; try done; [by rewrite zlen_insert|]. by apply Forall_insert.
  - unfold conn_of. rewrite aget_insert by lia. by rewrite decide_True.
  - intros v x Hv. unfold conn_of. rewrite aget_insert by lia.
    destruct (decide (GetUserDBIndex v = GetUserDBIndex u)); [by right|by left].
Qed.

(** A user's table, and the statement that selects him. *)
Lemma store_table cfgs conns u :
  store_ok cfgs conns → 0 ≤ u < 2 ^ 64 →
  ∃ cfg, aget cfgs (GetUserDBIndex u) = Ok cfg ∧ name_ok (user_table cfg u) ∧
    CLoaderUser.Statement 256 (select_text (user_table cfg u) (fmt_lu u))
      = Ok (select_text (user_table cfg u) (fmt_lu u)).
Proof.
  intros [Hl _ Hn _] Hu. destruct (aget_total cfgs (GetUserDBIndex u)) as [cfg Hg].
  { rewrite Hl. apply GetUserDBIndex_range. }
  exists cfg. split; [done|]. rewrite Forall_lookup in Hn.
  destruct (Hn (Z.to_nat (GetUserDBIndex u)) cfg) as (Hn1 & Hn2 & Hz1 & Hz2 & Hlen); [by apply aget_Some|].
  assert (0 ≤ GetUserTableIndex u) as Ht.
  { unfold GetUserTableIndex, USER_TABLE_NUM. pose proof (Z.mod_pos_bound (u / 10) 2). rewrite i32_small; lia. }
  split.
  - unfold name_ok, user_table, table_name in *. rewrite !not_elem_of_app. split_and!; try done.
    + vm_compute. set_solver.
    + vm_compute. set_solver.
    + apply fmt_no_nul; [done|unfold SP; lia].
  - set (text := select_text _ _).
    assert (0 ∉ text) as H0'.
    { unfold text, select_text, user_table, table_name. rewrite !not_elem_of_app.
      split_and!; first [assumption|apply fmt_no_nul; lia|by apply (bool_decide_unpack _)]. }
    apply (Statement_ok 256); [done|done|].
    unfold text, user_table. rewrite zlen_select_text, zlen_table_name. unfold fmt_lu.
    pose proof (zlen_digits 20 u). pose proof (zlen_digits 20 (GetUserTableIndex u)). lia.
Qed.
End conns.

(** * The loader *)
Section loader.
Context {Q D K : Type} `{FifoQueue Q} `{MySQLLaws D} `{Kernel K} `{!KernelClock K} `{StoreProtoLaws}.
Hypothesis Hmax : XY_PKG_MAX_LEN ≤ q_max.
Implicit Types (s : CLoaderUser.t Q D) (k : K) (g : gmap Z ShmUserInfo.t) (i : ShmUserInfo.t) (u : Z)
  (c : CMySQL.t D).
Import CLoaderUser.

(** The loader can work: it is connected, and the table is sound. *)
Definition loader_ok s g : Prop := store_ok (m_DBConfig s) (m_DBConn s) ∧ shm_ok (m_UserShm s) g.

(** What loading a user leaves alone. *)
Record same_loader s s' : Prop := {
  sl_cfg : m_DBConfig s' = m_DBConfig s;
  sl_recv : m_LoaderRecvQueue s' = m_LoaderRecvQueue s;
  sl_send : m_LoaderSendQueue s' = m_LoaderSendQueue s;
  sl_size : same_size (CUserShmApi.m_UserInfoMap (m_UserShm s)) (CUserShmApi.m_UserInfoMap (m_UserShm s'));
  sl_max : CUserShmApi.m_MaxUserNodeNum (m_UserShm s') = CUserShmApi.m_MaxUserNodeNum (m_UserShm s);
}.

#[export] Instance same_loader_trans : Transitive same_loader.
Proof. intros ??? [] []. constructor; try congruence. by eapply same_size_trans. Qed.

Lemma loader_set_conn s g u c :
  loader_ok s g → CMySQL.m_nAutoCommit c = 1 →
  ∃ s', set_conn s (GetUserDBIndex u) c = Ok s' ∧ loader_ok s' g ∧ conn_of (m_DBConn s') u c ∧
    same_loader s s' ∧ m_UserShm s' = m_UserShm s.
Proof.
  intros [Hst Hm] Ha. unfold set_conn.
  destruct (db_set_conn_ok _ _ u c Hst Ha) as (l & -> & Hst' & Hc & _). cbn [mbind outcome_bind].
  eexists. split; [done|]. by split_and!.
Qed.

(** There is room for a new user. *)
Definition room_for s g u : bool :=
  bool_decide (g !! u = None) &&
  negb (Z.of_nat (size g) =? CHashListNoLock.iTotalDataNodeNum (CUserShmApi.m_UserInfoMap (m_UserShm s)) - 1).

Lemma InsertRow_ok s k g u i :
  loader_ok s g → user_ok u i → user_range i → plain_user i → u ≠ 0 →
  let x := enc_DBUserInfo (to_db i) in
  ∃ k' s' j now, InsertRow s k (Some [Some x]) (Some [zlen x]) = Ok (k', s', if room_for s g u then 0 else -1) ∧
    reloaded i j now ∧ user_ok u j ∧ loader_ok s' (if room_for s g u then <[u := j]> g else g) ∧
    m_DBConn s' = m_DBConn s ∧ same_loader s s' ∧ k_now k ≤ now ≤ k_now k'.
Proof.
  intros [Hst Hm] Hi Hr Hp Hu x. unfold InsertRow.
  change (aget [Some x] 0) with (Ok (Some x)). change (aget [zlen x] 0) with (Ok (zlen x)).
  cbn [mbind outcome_bind]. pose proof (db_user_len (to_db i)).
  rewrite (proj2 (Z.eqb_neq _ _)) by (unfold x; lia).
  assert (take (Z.to_nat (zlen x)) x = x) as -> by (apply take_ge; unfold zlen; lia).
  unfold x. destruct (String2Struct_ok u i k Hi Hr Hp) as (k1 & j & now & -> & Hrl & Hj & Hk). cbn [mbind outcome_bind].
  destruct (InsertUserInfo_ok (m_UserShm s) g j Hm) as (m & -> & Hm' & Hsz & Hn). cbn [mbind outcome_bind].
  rewrite (uo_id _ _ Hj), (proj2 (Z.eqb_neq u 0) Hu) in Hm' |- *. cbn [negb andb] in *.
  unfold room_for. set (b := _ && _) in *.
  exists k1, (set_shm s m), j, now. split; [by destruct b|].
  split_and!; [done|done|by split|done|by constructor|lia|lia].
Qed.

(** The database has [x] for the user, and can be asked for it. *)
Record has s u (x : list Z) c : Prop := {
  has_conn : conn_of (m_DBConn s) u c;
  has_row cfg : aget (m_DBConfig s) (GetUserDBIndex u) = Ok cfg →
    (CMySQL.QueryRes c (select_text (user_table cfg u) (fmt_lu u)) 0).1.2 = 0 ∧
    data c (user_table cfg u) u = Some x;
}.

(** The row he is in is fetched. *)
Lemma LoadUser_row s k g u x c :
  loader_ok s g → 0 ≤ u < 2 ^ 64 → has s u x c →
  ∃ s' c', LoadUser s k u = InsertRow s' k (Some [Some x]) (Some [zlen x]) ∧ loader_ok s' g ∧
    conn_of (m_DBConn s') u c' ∧ CMySQL.m_pRes c' ≠ CMySQL.Uninit ∧ CMySQL.m_nAutoCommit c' = 1 ∧
    same_loader s s' ∧ m_UserShm s' = m_UserShm s.
Proof.
  intros Hl Hu [Hc Hrow]. pose proof Hl as [Hst _]. unfold LoadUser.
  destruct (store_table _ _ u Hst Hu) as (cfg & Hcfg & Hname & Hstm). destruct (Hrow cfg Hcfg) as [Hq1 Hd].
  rewrite Hcfg. cbn [mbind outcome_bind]. rewrite Hstm. cbn [mbind outcome_bind].
  destruct (store_conn _ _ u Hst) as (c' & Hc' & Ha).
  assert (c' = c) as -> by (unfold conn_of in *; congruence).
  unfold conn_of in Hc. rewrite Hc. cbn [mbind outcome_bind].
  destruct (CMySQL.QueryRes c _ 0) as [[c1 r] n] eqn:Eq. cbn in Hq1. subst r.
  destruct (QueryRes_select c (user_table cfg u) u c1 0 n Hname Hu Ha Eq) as (Ha1 & _ & Hres).
  rewrite Hd in Hres. destruct Hres as [-> Hres].
  destruct (loader_set_conn s g u c1 Hl Ha1) as (s1 & -> & Hl1 & _ & Hs1 & Hm1). cbn [mbind outcome_bind].
  change (negb (0 =? 0)) with false. change (1 =? 0) with false. change (negb (1 =? 1)) with false.
  unfold CMySQL.FetchRecord. rewrite Hres. cbn [mbind outcome_bind].
  set (c2 := CMySQL.set_res c1 _).
  destruct (loader_set_conn s1 g u c2 Hl1 Ha1) as (s2 & -> & Hl2 & Hc2 & Hs2 & Hm2). cbn [mbind outcome_bind].
  unfold CMySQL.FetchLength. cbn [CMySQL.m_pRes c2 CMySQL.set_res mbind outcome_bind fmap list_fmap].
  exists s2, c2. split_and!; try done; [by trans s1|congruence].
Qed.

Lemma LoadUser_ok s k g u i c :
  loader_ok s g → 0 < u < 2 ^ 64 → user_ok u i → user_range i → plain_user i →
  has s u (enc_DBUserInfo (to_db i)) c →
  ∃ k' s' j now c2, LoadUser s k u = Ok (k', s', if room_for s g u then 0 else -1) ∧
    reloaded i j now ∧ user_ok u j ∧ loader_ok s' (if room_for s g u then <[u := j]> g else g) ∧
    conn_of (m_DBConn s') u c2 ∧ CMySQL.m_pRes c2 ≠ CMySQL.Uninit ∧ CMySQL.m_nAutoCommit c2 = 1 ∧
    same_loader s s' ∧ k_now k ≤ now ≤ k_now k'.
Proof.
  intros Hl Hu Hi Hr Hp Hh.
  destruct (LoadUser_row s k g u _ c Hl ltac:(lia) Hh) as (s2 & c2 & -> & Hl2 & Hc2 & ? & ? & Hs2 & Hm2).
  assert (room_for s2 g u = room_for s g u) as <- by (unfold room_for; by rewrite Hm2).
  destruct (InsertRow_ok s2 k g u i Hl2 Hi Hr Hp ltac:(lia)) as (k' & s' & j & now & -> & ? & ? & ? & Hcn & Hs3 & ?).
  exists k', s', j, now, c2. rewrite Hcn. split_and!; try done; [by trans s2|lia|lia].
Qed.

(** The user of the request in the queue is loaded, and the request sent back. *)
Lemma ProcessLoaderUserInfo_ok s k g u i c req ls :
  loader_ok s g → 0 < u < 2 ^ 64 → user_ok u i → user_range i → plain_user i →
  has s u (enc_DBUserInfo (to_db i)) c →
  q_rep (m_LoaderSendQueue s) ls → 24 + zlen req ≤ XY_PKG_MAX_LEN →
  ∃ k' s' r j now, ProcessLoaderUserInfo s k u req = Ok (k', s', r) ∧
    reloaded i j now ∧ user_ok u j ∧ loader_ok s' (if room_for s g u then <[u := j]> g else g) ∧
    q_rep (m_LoaderSendQueue s')
      (push (q_cap (m_LoaderSendQueue s)) ls (enc_LoadUserInfoRsp (if room_for s g u then 0 else -1) req)) ∧
    m_LoaderRecvQueue s' = m_LoaderRecvQueue s ∧
    same_size (CUserShmApi.m_UserInfoMap (m_UserShm s)) (CUserShmApi.m_UserInfoMap (m_UserShm s')) ∧
    k_now k ≤ now ≤ k_now k'.
Proof.
  intros Hl Hu Hi Hr Hp Hh Hls Hlen. unfold ProcessLoaderUserInfo.
  destruct (LoadUser_ok s k g u i c) as (k1 & s1 & j & now & c2 & -> & Hrl & Hj & Hl1 & Hc2 & Hres & Ha2 & Hs1 & Hk);
    [done..|]. cbn [mbind outcome_bind]. unfold conn_of in Hc2. rewrite Hc2. cbn [mbind outcome_bind].
  assert (CMySQL.ReleaseRes c2 = Ok (CMySQL.set_res c2 CMySQL.Null)) as ->
    by (unfold CMySQL.ReleaseRes; by destruct (CMySQL.m_pRes c2)).
  cbn [mbind outcome_bind].
  destruct (loader_set_conn s1 _ u (CMySQL.set_res c2 CMySQL.Null) Hl1 Ha2) as (s2 & -> & Hl2 & _ & Hs2 & _).
  cbn [mbind outcome_bind]. unfold Answer. set (rsp := enc_LoadUserInfoRsp _ req).
  pose proof (load_rsp_len (if room_for s g u then 0 else -1) req) as Hz. fold rsp in Hz.
  rewrite (proj2 (Z.ltb_ge _ _)) by lia.
  pose proof (same_loader_trans _ _ _ Hs1 Hs2) as [Hcf Hrc Hsd Hsz Hmx].
  destruct (q_in_push Hmax (m_LoaderSendQueue s2) ls rsp) as (q & r & -> & Hq' & _ & _);
    [by rewrite Hsd|lia|]. cbn [mbind outcome_bind]. rewrite Hsd in Hq'.
  exists k1, (set_send s2 q), (if r =? 0 then 0 else -1), j, now.
  split_and!; try done; lia.
Qed.

(** A query that fails on a connection that was never used before. *)
Lemma ProcessLoaderUserInfo_unset s k g u c req :
  loader_ok s g → 0 ≤ u < 2 ^ 64 → conn_of (m_DBConn s) u c → CMySQL.m_pRes c = CMySQL.Uninit →
  (∀ cfg, aget (m_DBConfig s) (GetUserDBIndex u) = Ok cfg →
     (CMySQL.Send c (select_text (user_table cfg u) (fmt_lu u))).2 ≠ 0) →
  ProcessLoaderUserInfo s k u req = Fault.
Proof.
  intros Hl Hu Hc Hres Hq. pose proof Hl as [Hst _]. unfold ProcessLoaderUserInfo, LoadUser.
  destruct (store_table _ _ u Hst Hu) as (cfg & Hcfg & _ & Hstm). specialize (Hq cfg Hcfg).
  rewrite Hcfg. cbn [mbind outcome_bind]. rewrite Hstm. cbn [mbind outcome_bind].
  unfold conn_of in Hc. rewrite Hc. cbn [mbind outcome_bind]. unfold CMySQL.QueryRes.
  pose proof (Send_res c (select_text (user_table cfg u) (fmt_lu u))) as Hsr.
  destruct (CMySQL.Send c _) as [c1 r]. cbn [fst snd] in *. rewrite (proj2 (Z.eqb_neq _ _) Hq). cbn [negb].
  pose proof (GetUserDBIndex_range u) as Hru. rewrite <- (st_conns _ _ Hst) in Hru.
  assert (∃ s1, set_conn s (GetUserDBIndex u) c1 = Ok s1 ∧ aget (m_DBConn s1) (GetUserDBIndex u) = Ok c1)
    as (s1 & -> & Hg1).
  { unfold set_conn. rewrite aset_ok by done. eexists. split; [done|]. cbn. rewrite aget_insert by done.
    by rewrite decide_True. }
  cbn [mbind outcome_bind]. rewrite (proj2 (Z.eqb_neq _ _) Hq). cbn [negb mbind outcome_bind].
  rewrite Hg1. cbn [mbind outcome_bind]. unfold CMySQL.ReleaseRes. by rewrite Hsr, Hres.
Qed.
End loader.

(** * The writer *)
Lemma zlen_cstr n buf : 1 ≤ n → str_ok n buf → zlen (cstr buf) ≤ n - 1.
Proof. intros Hn Hb. rewrite <- (cut_carray n buf Hn Hb). by apply zlen_cut. Qed.

Section writer.
Context {Q D : Type} `{FifoQueue Q} `{MySQLLaws D} `{StoreProtoLaws}.
Implicit Types (s : CWriterUser.t Q D) (g : gmap Z ShmUserInfo.t) (i : ShmUserInfo.t) (u : Z) (c : CMySQL.t D).
Import CWriterUser.

Definition writer_ok s g : Prop := store_ok (m_DBConfig s) (m_DBConn s) ∧ shm_ok (m_UserShm s) g.

Lemma Struct2ProtoString_ok u i :
  user_ok u i → Struct2ProtoStringUser i = Ok (enc_DBUserInfo (to_db i)) ∧ 0 < zlen (enc_DBUserInfo (to_db i)) ≤ 670.
Proof.
  intros []. unfold Struct2ProtoStringUser.
  rewrite (carray_ok _ _ uo_name), (carray_ok _ _ uo_tel), (carray_ok _ _ uo_addr), (carray_ok _ _ uo_mail),
    (carray_ok _ _ uo_note).
  split; [done|]. pose proof (db_user_len (to_db i)) as Hl. cbn [to_db DBUserInfo.nickname DBUserInfo.telno
    DBUserInfo.address DBUserInfo.email DBUserInfo.personalnote] in Hl.
  pose proof (zlen_cstr MAX_NAME_LENGTH (ShmUserInfo.NickName i) ltac:(done) uo_name).
  pose proof (zlen_cstr MAX_TELNO_LENGTH (ShmUserInfo.TelNo i) ltac:(done) uo_tel).
  pose proof (zlen_cstr MAX_ADDR_LENGTH (ShmUserInfo.Address i) ltac:(done) uo_addr).
  pose proof (zlen_cstr MAX_EMAIL_LENGTH (ShmUserInfo.EMail i) ltac:(done) uo_mail).
  pose proof (zlen_cstr MAX_PERSONAL_NOTE_LENGTH (ShmUserInfo.PersonalNote i) ltac:(done) uo_note).
  unfold MAX_NAME_LENGTH, MAX_TELNO_LENGTH, MAX_ADDR_LENGTH, MAX_EMAIL_LENGTH, MAX_PERSONAL_NOTE_LENGTH in *. lia.
Qed.

(** What is escaped fits its array, and is read from it again. *)
Lemma EscapeString_ok x :
  zlen x ≤ 670 →
  ∃ buf n, CMySQL.EscapeString (replicate (Z.to_nat SHM_USER_INFO_SIZE) 0) x = Ok (buf, n) ∧
    n < SHM_USER_INFO_SIZE ∧ carray buf = Ok (mysql_escape x).
Proof.
  intros Hx. destruct (escape_law x) as [H0' Hl]. unfold CMySQL.EscapeString.
  change SHM_USER_INFO_SIZE with 9298. set (d := mysql_escape x) in *. pose proof (zlen_nonneg d).
  assert (Hz : zlen (replicate (Z.to_nat 9298) 0) = 9298) by (rewrite zlen_replicate; lia).
  set (z := replicate (Z.to_nat 9298) 0) in *. clearbody z.
  rewrite mwrite_head by (rewrite zlen_app, zlen_cons, zlen_nil; lia).
  cbn [mbind outcome_bind]. eexists _, _. split; [done|]. rewrite i32_small by lia. split; [lia|].
  rewrite <- app_assoc. unfold carray.
  rewrite bool_decide_true by (apply elem_of_app; right; by left).
  cbn [app]. by rewrite (cstr_app_nul d).
Qed.

Lemma ProcessWriterUserInfo_ok s g u c :
  writer_ok s g → 0 < u < 2 ^ 64 → map_Forall user_ok g → conn_of (m_DBConn s) u c →
  ∃ cfg, aget (m_DBConfig s) (GetUserDBIndex u) = Ok cfg ∧
  match g !! u with
  | None => ProcessWriterUserInfo s u = Ok (s, -1)
  | Some i =>
      let '(c1, r) := CMySQL.Query c (replace_text (user_table cfg u) (fmt_lu u)
                        (mysql_escape (enc_DBUserInfo (to_db i)))) in
      ∃ s', ProcessWriterUserInfo s u = Ok (s', if negb (r =? 0) then -2 else 0) ∧
        m_UserShm s' = m_UserShm s ∧ m_DBConfig s' = m_DBConfig s ∧
        aset (m_DBConn s) (GetUserDBIndex u) c1 = Ok (m_DBConn s') ∧
        (r = 0 → data c1 (user_table cfg u) u = Some (enc_DBUserInfo (to_db i)))
  end.
Proof.
  intros [Hst Hm] Hu Hg Hc. destruct (store_table _ _ u Hst) as (cfg & Hcfg & Hname & _); [lia|].
  exists cfg. split; [done|]. unfold ProcessWriterUserInfo. rewrite (GetUserInfo_ok _ g u _ Hm).
  cbn [mbind outcome_bind]. destruct (g !! u) as [i|] eqn:Hi; [|done].
  change (negb (0 =? 0)) with false. cbn [mbind outcome_bind]. pose proof (Hg _ _ Hi) as Hui.
  unfold CheckUserInfoValid. rewrite (uo_id _ _ Hui), Z.eqb_refl, (proj2 (Z.eqb_neq 0 u)) by lia.
  change (negb true) with false. cbv match. change (negb (0 =? 0)) with false. cbv match.
  destruct (Struct2ProtoString_ok u i Hui) as [-> Hz]. cbn [mbind outcome_bind].
  destruct (EscapeString_ok (enc_DBUserInfo (to_db i))) as (buf & n & -> & Hn & Hbuf); [lia|].
  cbn [mbind outcome_bind]. rewrite (proj2 (Z.leb_gt _ _)) by lia. rewrite Hcfg. cbn [mbind outcome_bind].
  rewrite Hbuf. cbn [mbind outcome_bind]. unfold conn_of in Hc. rewrite Hc. cbn [mbind outcome_bind].
  destruct (CMySQL.Query c _) as [c1 r] eqn:Eq.
  destruct (store_conn _ _ u Hst) as (c' & Hc' & Ha).
  assert (c' = c) as -> by (unfold conn_of in *; congruence).
  unfold set_conn. destruct (aset (m_DBConn s) (GetUserDBIndex u) c1) as [l| |] eqn:El.
  2,3: rewrite aset_ok in El; [done|rewrite (st_conns _ _ Hst); apply GetUserDBIndex_range].
  cbn [mbind outcome_bind]. eexists. split; [done|]. split_and!; try done.
  intros ->. assert (0 ≤ u < 2 ^ 64) as Hu' by lia.
  exact (proj2 (proj2 (Query_replace c (user_table cfg u) u _ c1 Hname Hu' Ha Eq))).
Qed.
End writer.
