(* ===== verification/UserLoad.v ===== *)
(** The user server with its loader and writer: what each hands to the others
    over the queues, the shared table and the database. *)
From stdpp Require Import gmap sorting relations.
From S2P Require Import Prelude Fifo Wire HashList Kernel ConnInfo BusState BusConn BusRoute BusFacts.
From S2P Require Import IniFile ConnState ConnServe ConnFacts UserState UserServe UserSpec UserFacts.
From S2P Require Import UserLoop Mysql UserStore UserStoreFacts.
Import CUser.

#[local] Arguments Z.add : simpl never.
#[local] Arguments Z.eqb : simpl never.
#[local] Arguments Z.ltb : simpl never.
#[local] Arguments Z.leb : simpl never.

(** A server with one more user, and one without him. *)
Definition with_user (u : Z) (i : ShmUserInfo.t) (v : view) : view := set_users v (<[u := i]> (v_users v)).
Definition without_user (u : Z) (r : view * Z) : view * Z := (set_users r.1 (delete u (v_users r.1)), r.2).

Section loading.
Context {Q D K : Type} `{FifoQueue Q} `{MySQLLaws D} `{Kernel K} `{!KernelClock K} `{StoreProtoLaws}
  `{!UserProtoLaws}.
Hypothesis Hmax : XY_PKG_MAX_LEN ≤ q_max.
Implicit Types (s : t Q) (k : K) (v : view) (h : XYHeaderIn.t) (i j : ShmUserInfo.t) (u : Z)
  (d : CLoaderUser.t Q D) (c : CMySQL.t D).

(** The user a package needs who is not in memory. *)
Definition missing (l : limits) v h (body : list Z) : option Z :=
  let absent u := match v_users v !! u with None => Some u | Some _ => None end in
  if XYHeaderIn.CmdID h =? Cmd_User_AddFriend_Req then
    to ← dec_AddFriendReq body;
    match v_users v !! XYHeaderIn.UserID h with
    | None => Some (XYHeaderIn.UserID h)
    | Some _ => if GetUserServer to =? l_id l then absent to else None
    end
  else if XYHeaderIn.CmdID h =? Cmd_User_AddFriend_Req2 then
    '(_, _, to) ← dec_UserAddFriendReq body; absent to
  else None.

Lemma deal_missing l v h body u t1 t2 t3 :
  missing l v h body = Some u →
  deal l v h body t1 t2 t3 = parked (ask l v u (xyin_bytes h ++ body)) ∧ v_users v !! u = None.
Proof.
  unfold missing, deal, friend, friend_here.
  destruct (Z.eqb_spec (XYHeaderIn.CmdID h) Cmd_User_AddFriend_Req) as [->|].
  { change (_ =? Cmd_User_Register_Req) with false. cbv match.
    destruct (dec_AddFriendReq body) as [to|]; [|done]. cbn [mbind option_bind].
    destruct (v_users v !! XYHeaderIn.UserID h) eqn:Hf; [|by intros [= <-]].
    destruct (_ =? _); [|done]. destruct (v_users v !! to) eqn:Ht; [done|]. by intros [= <-]. }
  destruct (Z.eqb_spec (XYHeaderIn.CmdID h) Cmd_User_AddFriend_Req2) as [->|]; [|done].
  change (_ =? Cmd_User_Register_Req) with false. cbv match.
  destruct (dec_UserAddFriendReq body) as [[[from name] to]|]; [|done]. cbn [mbind option_bind].
  destruct (v_users v !! to) eqn:Ht; [done|]. by intros [= <-].
Qed.

(** The loader works on the queues and the table of the server, and the server
    finds them as the loader left them. *)
Definition share s d : CLoaderUser.t Q D :=
  CLoaderUser.mk (CLoaderUser.m_DBConfig d) (CLoaderUser.m_DBConn d) (m_LoaderSendQueue s)
    (m_LoaderRecvQueue s) (m_UserShm s).
Definition shared d s : t Q :=
  set_shm (set_loader_recv (set_loader_send s (CLoaderUser.m_LoaderRecvQueue d))
    (CLoaderUser.m_LoaderSendQueue d)) (CLoaderUser.m_UserShm d).

(** A round of the loader takes the oldest request. *)
Lemma EntityOnce_takes d k u req rs :
  0 < u < 2 ^ 64 → q_rep (CLoaderUser.m_LoaderRecvQueue d) (enc_LoadUserInfoReq u req :: rs) →
  zlen (enc_LoadUserInfoReq u req) ≤ XY_PKG_MAX_LEN →
  ∃ q, q_rep q rs ∧ q_cap q = q_cap (CLoaderUser.m_LoaderRecvQueue d) ∧
    CLoaderUser.EntityOnce d k =
      ('(k, s, _) ← CLoaderUser.ProcessLoaderUserInfo (CLoaderUser.set_recv d q) k u req; Ok (k, s, true)).
Proof.
  intros Hu Hrq Hz. unfold CLoaderUser.EntityOnce.
  destruct (q_out_ok _ _ rs XY_PKG_MAX_LEN Hrq) as (q & -> & Hq & Hqc); [done|].
  exists q. split; [done|]. split; [done|].
  cbn [mbind outcome_bind]. change (negb (Q_OK =? 0)) with false. cbv match. by rewrite load_req_law by lia.
Qed.

(** One round of the loader, with one request in its queue. *)
Lemma EntityOnce_ok d k g c u i req :
  loader_ok d g → has d u (enc_DBUserInfo (to_db i)) c →
  user_ok u i → user_range i → plain_user i → 0 < u < 2 ^ 64 →
  q_rep (CLoaderUser.m_LoaderRecvQueue d) [enc_LoadUserInfoReq u req] →
  q_rep (CLoaderUser.m_LoaderSendQueue d) [] →
  zlen (enc_LoadUserInfoReq u req) ≤ XY_PKG_MAX_LEN → 24 + zlen req ≤ XY_PKG_MAX_LEN →
  let room := room_for d g u in
  ∃ k' d' j now, CLoaderUser.EntityOnce d k = Ok (k', d', true) ∧ reloaded i j now ∧ user_ok u j ∧
    shm_ok (CLoaderUser.m_UserShm d') (if room then <[u := j]> g else g) ∧
    q_rep (CLoaderUser.m_LoaderRecvQueue d') [] ∧
    q_cap (CLoaderUser.m_LoaderRecvQueue d') = q_cap (CLoaderUser.m_LoaderRecvQueue d) ∧
    q_rep (CLoaderUser.m_LoaderSendQueue d')
      (push (q_cap (CLoaderUser.m_LoaderSendQueue d)) [] (enc_LoadUserInfoRsp (if room then 0 else -1) req)) ∧
    same_size (CUserShmApi.m_UserInfoMap (CLoaderUser.m_UserShm d))
      (CUserShmApi.m_UserInfoMap (CLoaderUser.m_UserShm d')) ∧
    k_now k ≤ now ≤ k_now k'.
Proof.
  intros Hl Hh Hi Hr Hp Hu Hrq Hsq Hzr Hz room.
  destruct (EntityOnce_takes d k u req [] Hu Hrq Hzr) as (q & Hq & Hqc & ->).
  set (d1 := CLoaderUser.set_recv d q).
  destruct (ProcessLoaderUserInfo_ok Hmax d1 k g u i c req []) as
    (k1 & d2 & r & j & now & -> & Hrl & Hj & Hl2 & Hq2 & Hq1 & Hsz & Hk);
    [exact Hl|lia|done..|by destruct Hh; constructor|done|done|].
  cbn [mbind outcome_bind]. exists k1, d2, j, now.
  split_and!; try done; [apply Hl2|by rewrite Hq1|by rewrite Hq1|lia|lia].
Qed.

(** What the loader can do about the user: he is in the database, which answers,
    and can be put into the table. *)
Record stored d c u i : Prop := {
  st_ok : store_ok (CLoaderUser.m_DBConfig d) (CLoaderUser.m_DBConn d);
  st_has : has d u (enc_DBUserInfo (to_db i)) c;
  st_user : user_ok u i; st_range : user_range i;
}.

(** The round that loads him, seen by the server. *)
Lemma loader_round s v k d c u i req :
  urep s v → v_load v = [enc_LoadUserInfoReq u req] → q_rep (m_LoaderRecvQueue s) [] →
  stored d c u i → plain_user i → 0 < u < 2 ^ 64 →
  zlen (enc_LoadUserInfoReq u req) ≤ XY_PKG_MAX_LEN → 24 + zlen req ≤ XY_PKG_MAX_LEN →
  let room := bool_decide (v_users v !! u = None) && negb (Z.of_nat (size (v_users v)) =? l_users (limits_of s)) in
  let rsp := enc_LoadUserInfoRsp (if room then 0 else -1) req in
  ∃ k' d' j now, CLoaderUser.EntityOnce (share s d) k = Ok (k', d', true) ∧ reloaded i j now ∧ user_ok u j ∧
    urep (shared d' s) (View (v_out v) [] (v_store v) (if room then <[u := j]> (v_users v) else v_users v)) ∧
    limits_of (shared d' s) = limits_of s ∧
    q_rep (m_LoaderRecvQueue (shared d' s)) (push (q_cap (m_LoaderRecvQueue s)) [] rsp) ∧
    k_now k ≤ now ≤ k_now k'.
Proof.
  intros Hv Hl0 Hlr [Hst Hh Hi Hr] Hp Hu Hzr Hz room rsp.
  destruct (EntityOnce_ok (share s d) k (v_users v) c u i req) as
    (k' & d' & j & now & Hr2 & Hrl & Hj & Hm2 & Hrq & Hrc & Hsq & Hsz & Hk); try done.
  { split; [done|apply Hv]. }
  { by destruct Hh; constructor. }
  { cbn. rewrite <- Hl0. apply Hv. }
  exists k', d', j, now. split; [exact Hr2|]. split; [done|]. split; [done|].
  split; [by destruct Hv; constructor|]. split; [|done].
  destruct Hsz as [Ht _]. unfold limits_of. cbn in Ht, Hrc |- *. by rewrite Hrc, Ht.
Qed.

(** An answer of the loader brings the package back, or loses it. *)
Lemma FromLoader_rsp s k buf v h body ret ls :
  urep s v → users_good v → xyin_ok h → zlen buf = XY_PKG_MAX_LEN →
  let pkg := xyin_bytes h ++ body in
  let rsp := enc_LoadUserInfoRsp ret pkg in
  - 2 ^ 31 ≤ ret < 2 ^ 31 → zlen rsp ≤ XY_PKG_MAX_LEN → q_rep (m_LoaderRecvQueue s) (rsp :: ls) →
  ∃ k' s' buf' go, FromLoader s k buf = Ok (k', s', buf', go) ∧ q_rep (m_LoaderRecvQueue s') ls ∧
    if ret =? 0 then
      ∃ t1 t2 t3, let r := deal (limits_of s) v h body t1 t2 t3 in urep s' r.1 ∧ go = (r.2 =? 0) ∧ k_now k ≤ t1
    else urep s' v ∧ go = false.
Proof.
  intros Hv Hg Hh Hb pkg rsp Hret Hz Hq. unfold FromLoader.
  destruct (q_out_ok _ rsp ls XY_PKG_MAX_LEN Hq) as (q & -> & Hq' & Hqc); [done|].
  cbn [mbind outcome_bind]. rewrite (mwrite_head rsp buf) by lia. cbn [mbind outcome_bind].
  change (Q_OK =? Q_EMPTY) with false. change (negb (Q_OK =? 0)) with false. cbv match.
  assert (mread (rsp ++ drop (length rsp) buf) 0 (zlen rsp) = Ok rsp) as -> by apply mread_head.
  cbn [mbind outcome_bind]. unfold rsp. rewrite load_rsp_law by done.
  assert (urep (set_loader_recv s q) v) as Hv1 by by destruct Hv; constructor.
  destruct (ret =? 0); cbn [negb].
  2:{ eexists _, _, _, _. split; [done|]. done. }
  assert (zlen pkg = 34 + zlen body) as Hzp by (unfold pkg; rewrite zlen_app, zlen_xyin_bytes; lia).
  destruct (DealPkg_ok Hmax (set_loader_recv s q) v k (pkg ++ [0]) 0 h body Hv1 Hg Hh) as
    (k' & s' & t1 & t2 & t3 & Hr & Hv' & Hs & Hk & _).
  { rewrite <- Hzp. apply mread_head. }
  rewrite <- Hzp in Hr. rewrite Hr. cbn [mbind outcome_bind].
  eexists k', s', _, _. split; [done|]. split; [by rewrite (ss_load _ _ Hs)|].
  exists t1, t2, t3. split; [exact Hv'|]. split; [done|lia].
Qed.

(** The request of a package for a user who is not there. *)
Lemma DealPkg_asks s v k m o h body u :
  urep s v → users_good v → xyin_ok h → mread m o (34 + zlen body) = Ok (xyin_bytes h ++ body) →
  missing (limits_of s) v h body = Some u →
  let req := enc_LoadUserInfoReq u (xyin_bytes h ++ body) in
  zlen req ≤ XY_PKG_MAX_LEN → q_fits (q_cap (m_LoaderSendQueue s)) (v_load v) req = true →
  ∃ k' s', DealPkg s k m o (34 + zlen body) = Ok (k', s', 0) ∧ same_site s s' ∧ k_now k ≤ k_now k' ∧
    urep s' (View (v_out v) (v_load v ++ [req]) (v_store v) (v_users v)).
Proof.
  intros Hv Hg Hh Hm Hmiss req Hz Hf.
  destruct (DealPkg_ok Hmax s v k m o h body Hv Hg Hh Hm) as (k' & s' & t1 & t2 & t3 & -> & Hv' & Hs & ? & ?).
  destruct (deal_missing _ v h body u t1 t2 t3 Hmiss) as [Hdl _]. rewrite Hdl in Hv' |- *.
  unfold ask in Hv' |- *. fold req in Hv' |- *. rewrite (proj2 (Z.ltb_ge _ _)) in Hv' |- * by lia.
  cbn [l_load limits_of] in *. rewrite Hf in Hv' |- *.
  exists k', s'. split_and!; [done|done|lia|exact Hv'].
Qed.

(** The writer's result is what the loader finds, in the same database. *)
Lemma written_is_stored (w w' : CWriterUser.t Q D) g u i c c1 c2 d :
  writer_ok w g → 0 < u < 2 ^ 64 → map_Forall user_ok g → g !! u = Some i → user_range i →
  conn_of (CWriterUser.m_DBConn w) u c → CWriterUser.ProcessWriterUserInfo w u = Ok (w', 0) →
  conn_of (CWriterUser.m_DBConn w') u c1 →
  CLoaderUser.m_DBConfig d = CWriterUser.m_DBConfig w → store_ok (CLoaderUser.m_DBConfig d) (CLoaderUser.m_DBConn d) →
  conn_of (CLoaderUser.m_DBConn d) u c2 → CMySQL.m_MYSQL c2 = CMySQL.m_MYSQL c1 →
  (∀ cfg, aget (CLoaderUser.m_DBConfig d) (GetUserDBIndex u) = Ok cfg →
     (CMySQL.QueryRes c2 (select_text (user_table cfg u) (fmt_lu u)) 0).1.2 = 0) →
  stored d c2 u i.
Proof.
  intros Hw Hu Hg Hi Hrg Hc Hpr Hc1 Hcfg Hst Hc2 Hdb Hq. constructor; [done| |by apply Hg|done].
  constructor; [done|]. intros cfg Hcf. split; [by apply Hq|].
  destruct (ProcessWriterUserInfo_ok w g u c Hw Hu Hg Hc) as (cfg' & Hcfg' & Hp). rewrite Hi in Hp.
  rewrite Hcfg, Hcfg' in Hcf. injection Hcf as ->.
  destruct (CMySQL.Query c _) as [c3 r]. destruct Hp as (w2 & Hpr2 & _ & _ & Hset & Hdata).
  rewrite Hpr in Hpr2. injection Hpr2 as <- Hr0. unfold conn_of in Hc1.
  pose proof (GetUserDBIndex_range u) as Hru. rewrite <- (st_conns _ _ (proj1 Hw)) in Hru.
  rewrite aset_ok in Hset by done. injection Hset as Hset. rewrite <- Hset, aget_insert, decide_True in Hc1 by done.
  injection Hc1 as <-. unfold data in *. rewrite Hdb. apply Hdata.
  destruct (Z.eqb_spec r 0); [done|discriminate Hr0].
Qed.
End loading.
