(* ===== verification/UserExample.v ===== *)
(** User servers, a loader and a writer to run the theorems at, over queues in
    shared memory, the simulated kernel and the small database. *)
From Stdlib Require Import String.
From stdpp Require Import gmap sorting.
From S2P Require Import Prelude Fifo Ring ShmQueue Wire HashList Kernel ConnInfo BusState BusConn.
From S2P Require Import BusRoute BusFacts IniFile ConnState ConnServe ConnFacts ConnExample.
From S2P Require Import UserState UserServe UserSpec UserFacts UserLoop Mysql UserStore UserStoreFacts.
From S2P Require Import UserLoad.
Import CUser.
#[local] Open Scope Z_scope.

#[local] Arguments Z.add : simpl never.

Module UserServerExample.
Export ConnServerExample.

(** * Messages as bytes *)
#[export] Instance user_proto : UserProto := {
  dec_UserRegisterReq b := match b with u :: name => Some (u, mk_fields name 0 0 [] [] []) | [] => None end;
  dec_AddFriendReq b := match b with [u] => Some u | _ => None end;
  dec_UserAddFriendReq b := match b with u :: other :: name => Some (u, name, other) | _ => None end;
  dec_LoadUserInfoRsp b := match b with r :: request => Some (r, request) | [] => None end;
  enc_UserRegisterRsp u r := [u; r];
  enc_AddFriendRsp r := [r];
  enc_UserAddFriendReq u name other := u :: other :: name;
  enc_LoadUserInfoReq u request := u :: request;
  enc_WriteUserInfoReq u := [u];
  enc_StateChangeMsg x st := [x; st];
}.

#[export] Instance user_proto_laws : UserProtoLaws.
Proof.
  constructor; [done| |done].
  intros u r. cbn [enc_LoadUserInfoReq user_proto]. rewrite zlen_cons. pose proof (zlen_nonneg r). lia.
Qed.

(** A string with its length before it. *)
Definition enc_str (s : list Z) : list Z := zlen s :: s.
Definition dec_str (b : list Z) : option (list Z * list Z) :=
  match b with n :: b => Some (take (Z.to_nat n) b, drop (Z.to_nat n) b) | [] => None end.

Lemma dec_enc_str s b : dec_str (enc_str s ++ b) = Some (s, b).
Proof.
  unfold dec_str, enc_str, zlen. cbn. by rewrite Nat2Z.id, take_app_length, drop_app_length.
Qed.

#[export] Instance store_proto : StoreProto := {
  dec_LoadUserInfoReq b := match b with u :: request => Some (u, request) | [] => None end;
  enc_LoadUserInfoRsp r request := r :: request;
  dec_WriteUserInfoReq b := match b with [u] => Some u | _ => None end;
  enc_DBUserInfo u :=
    [DBUserInfo.userid u; DBUserInfo.level u; DBUserInfo.viplevel u; DBUserInfo.sex u; DBUserInfo.birthday u] ++
    enc_str (DBUserInfo.nickname u) ++ enc_str (DBUserInfo.telno u) ++ enc_str (DBUserInfo.address u) ++
    enc_str (DBUserInfo.email u) ++ enc_str (DBUserInfo.personalnote u) ++ [];
  dec_DBUserInfo b :=
    match b with
    | u :: l :: v :: x :: t :: b =>
        '(name, b) ← dec_str b; '(tel, b) ← dec_str b; '(addr, b) ← dec_str b; '(mail, b) ← dec_str b;
        '(note, b) ← dec_str b; Some (DBUserInfo.mk u name l v x t tel addr mail note)
    | _ => None
    end;
}.

#[export] Instance store_proto_laws : StoreProtoLaws.
Proof.
  constructor; cbn [enc_DBUserInfo dec_DBUserInfo store_proto]; try done.
  - intros [] _. cbn [app DBUserInfo.userid DBUserInfo.level DBUserInfo.viplevel DBUserInfo.sex
      DBUserInfo.birthday DBUserInfo.nickname DBUserInfo.telno DBUserInfo.address DBUserInfo.email
      DBUserInfo.personalnote].
    rewrite dec_enc_str. cbn [mbind option_bind]. do 4 (rewrite dec_enc_str; cbn [mbind option_bind]). done.
  - intros u. unfold enc_str. repeat rewrite ?zlen_cons, ?zlen_app. change (@zlen Z []) with 0.
    pose proof (zlen_nonneg (DBUserInfo.nickname u)). pose proof (zlen_nonneg (DBUserInfo.telno u)).
    pose proof (zlen_nonneg (DBUserInfo.address u)). pose proof (zlen_nonneg (DBUserInfo.email u)).
    pose proof (zlen_nonneg (DBUserInfo.personalnote u)). lia.
  - intros r req. cbn. rewrite zlen_cons. pose proof (zlen_nonneg req). lia.
Qed.

(** * Tables of users *)
Definition ann : ShmUserInfo.t := registered 7 (mk_fields [65; 110; 110] 0 0 [] [] []) 5000.
Definition bob : ShmUserInfo.t := registered 8 (mk_fields [66; 111; 98] 1 0 [] [] []) 99000.
Definition eve : ShmUserInfo.t := registered 107 (mk_fields [69; 118; 101] 1 0 [] [] []) 99000.

(** Room for three users. *)
Definition none_raw : CHashListNoLock.t ShmUserInfo.t := CHashListNoLock.mk 0 4 0 4 0 [] [].
Definition none : CUserShmApi.t :=
  CUserShmApi.mk 0 4 (match CHashListNoLock.Clear ShmUserInfo.zero none_raw with Ok h => h | _ => none_raw end).
Definition add (m : CUserShmApi.t) (i : ShmUserInfo.t) : CUserShmApi.t :=
  match CUserShmApi.InsertUserInfo m i with Ok (m, _) => m | _ => m end.
Definition shm_of (l : list ShmUserInfo.t) : CUserShmApi.t := foldl add none l.

(** A table with these users and nobody else. *)
Definition holds_users (m : CUserShmApi.t) (g : gmap Z ShmUserInfo.t) : Prop :=
  shm_ok m g ∧ CHashListNoLock.iTotalDataNodeNum (CUserShmApi.m_UserInfoMap m) = 4 ∧
  CUserShmApi.m_MaxUserNodeNum m = 4.

Lemma none_ok : holds_users none ∅.
Proof.
  destruct (Clear_hrep ShmUserInfo.zero none_raw) as (h & Hc & Hr & Ht); [cbn; lia..|].
  assert (∀ z : ShmUserInfo.t, ∃ h, CHashListNoLock.Clear z none_raw = Ok h ∧
    CHashListNoLock.iIndexNodeNum h = 4) as Hi.
  { intros z. eexists. split; [vm_compute; reflexivity|done]. }
  destruct (Hi ShmUserInfo.zero) as (h' & Hc' & Hi'). rewrite Hc in Hc'. injection Hc' as <-.
  unfold none. rewrite Hc. split; [|split; [exact Ht|done]]. constructor; cbn; [exact Hr|lia|exact Hi'|lia].
Qed.

Lemma add_ok m g i :
  holds_users m g → ShmUserInfo.UserID i ≠ 0 → g !! ShmUserInfo.UserID i = None → (size g < 3)%nat →
  holds_users (add m i) (<[ShmUserInfo.UserID i := i]> g).
Proof.
  intros (Hm & Ht & Hn) Hi Hg Hs. destruct (InsertUserInfo_ok m g i Hm) as (m' & Hadd & Hm' & [Ht' _] & Hn').
  unfold add. rewrite Hadd. rewrite Ht, (proj2 (Z.eqb_neq _ _) Hi), bool_decide_true in Hm' by done.
  rewrite (proj2 (Z.eqb_neq (Z.of_nat (size g)) (4 - 1))) in Hm' by lia.
  split_and!; [exact Hm'|by rewrite Ht'|by rewrite Hn'].
Qed.

Lemma one_ok i : ShmUserInfo.UserID i ≠ 0 → holds_users (shm_of [i]) {[ShmUserInfo.UserID i := i]}.
Proof. intros Hi. apply (add_ok none ∅ i none_ok Hi); [apply lookup_empty|rewrite map_size_empty; lia]. Qed.

Lemma two_ok i j :
  ShmUserInfo.UserID i ≠ 0 → ShmUserInfo.UserID j ≠ 0 → ShmUserInfo.UserID j ≠ ShmUserInfo.UserID i →
  holds_users (shm_of [i; j]) (<[ShmUserInfo.UserID j := j]> {[ShmUserInfo.UserID i := i]}).
Proof.
  intros Hi Hj Hne. apply (add_ok (shm_of [i]) _ j (one_ok i Hi) Hj).
  - by apply lookup_singleton_ne.
  - rewrite map_size_singleton. lia.
Qed.

(** * User servers *)
Definition user_server (id : Z) (l : list ShmUserInfo.t) : CUser.t CShmQueue.t :=
  mk id 30 queue queue queue queue queue big (shm_of l).
Definition view_of (g : gmap Z ShmUserInfo.t) : view := View [] [] [] g.

Lemma user_server_rep id l g : holds_users (shm_of l) g → urep (user_server id l) (view_of g).
Proof. intros (Hm & _). constructor; [apply queue_rep..|apply zlen_buff|exact Hm]. Qed.

Lemma user_server_limits id l g :
  holds_users (shm_of l) g → limits_of (user_server id l) = Limits (i32 id) (q_cap queue) (q_cap queue) (q_cap queue) 3.
Proof. intros (_ & Ht & _). unfold limits_of. cbn [m_UserShm user_server]. by rewrite Ht. Qed.

Lemma ann_ok : user_ok 7 ann.
Proof. apply registered_ok. Qed.
Lemma bob_ok : user_ok 8 bob.
Proof. apply registered_ok. Qed.
Lemma eve_ok : user_ok 107 eve.
Proof. apply registered_ok. Qed.

Definition bob_alone : gmap Z ShmUserInfo.t := {[8 := bob]}.
Definition ann_alone : gmap Z ShmUserInfo.t := {[7 := ann]}.
Definition ann_bob : gmap Z ShmUserInfo.t := <[8 := bob]> {[7 := ann]}.
Definition eve_alone : gmap Z ShmUserInfo.t := {[107 := eve]}.

Lemma ann_alone_ok : holds_users (shm_of [ann]) ann_alone ∧ map_Forall user_ok ann_alone.
Proof. split; [by apply (one_ok ann)|]. by apply map_Forall_singleton, ann_ok. Qed.

Lemma bob_alone_ok : holds_users (shm_of [bob]) bob_alone ∧ map_Forall user_ok bob_alone.
Proof. split; [by apply (one_ok bob)|]. by apply map_Forall_singleton, bob_ok. Qed.

Lemma ann_bob_ok : holds_users (shm_of [ann; bob]) ann_bob ∧ map_Forall user_ok ann_bob.
Proof.
  split; [by apply (two_ok ann bob)|]. apply map_Forall_insert_2; [apply bob_ok|].
  by apply map_Forall_singleton, ann_ok.
Qed.

Lemma eve_alone_ok : holds_users (shm_of [eve]) eve_alone ∧ map_Forall user_ok eve_alone.
Proof. split; [by apply (one_ok eve)|]. by apply map_Forall_singleton, eve_ok. Qed.

(** A package with its header, in a buffer. *)
Definition header (CmdID user : Z) : XYHeaderIn.t := XYHeaderIn.mk 101 CmdID 5 501 user 0 0.
Definition package (CmdID user : Z) (body : list Z) : list Z := xyin_bytes (header CmdID user) ++ body.

Lemma header_ok CmdID user : 0 ≤ CmdID < 2 ^ 32 → 0 ≤ user < 2 ^ 64 → xyin_ok (header CmdID user).
Proof. intros ??. by constructor. Qed.

Lemma mread_package CmdID user body :
  mread (package CmdID user body) 0 (34 + zlen body) = Ok (package CmdID user body).
Proof.
  rewrite <- (zlen_xyin_bytes (header CmdID user)), <- zlen_app. apply mread_all.
Qed.

(** * The loader and the writer *)
Definition config : DBConfig := mk_config [109; 109] [117; 115; 101; 114].
Definition conn (d : SimDb.t) : CMySQL.t SimDb.t := CMySQL.mk d CMySQL.Null 1.
Definition empty_db : SimDb.t := SimDb.mk ∅ None.
Definition loader (d : SimDb.t) (l : list ShmUserInfo.t) : CLoaderUser.t CShmQueue.t SimDb.t :=
  CLoaderUser.mk [config; config] [conn d; conn d] queue queue (shm_of l).
Definition writer (d : SimDb.t) (l : list ShmUserInfo.t) : CWriterUser.t CShmQueue.t SimDb.t :=
  CWriterUser.mk [config; config] [conn d; conn d] queue (shm_of l).

Lemma conns_ok d : store_ok [config; config] [conn d; conn d].
Proof.
  constructor; [done|done| |by repeat constructor].
  assert (name_ok (DBName config) ∧ name_ok (TableName config) ∧ (0 ∉ DBName config) ∧
    (0 ∉ TableName config) ∧ zlen (DBName config) + zlen (TableName config) ≤ 128) as Hc.
  { split_and!; [apply (bool_decide_unpack _); vm_compute; exact I..|done]. }
  by constructor; [|constructor].
Qed.

Lemma loader_works d l g : holds_users (shm_of l) g → loader_ok (loader d l) g.
Proof. intros (Hm & _). split; [apply conns_ok|exact Hm]. Qed.
Lemma writer_works d l g : holds_users (shm_of l) g → writer_ok (writer d l) g.
Proof. intros (Hm & _). split; [apply conns_ok|exact Hm]. Qed.

(** The small database answers every statement. *)
Lemma SimDb_select (d : SimDb.t) t u : (CMySQL.QueryRes (conn d) (select_text t (fmt_lu u)) 0).1.2 = 0.
Proof.
  unfold CMySQL.QueryRes, CMySQL.Send, CMySQL.IsValid, conn. cbn -[select_text fmt_lu]. unfold SimDb.query.
  change (starts (bytes "REPLACE INTO ") (select_text t (fmt_lu u))) with false. done.
Qed.

Lemma SimDb_query (d : SimDb.t) sql : (CMySQL.Query (conn d) sql).2 = 0.
Proof.
  unfold CMySQL.Query, CMySQL.Send, CMySQL.IsValid, conn. cbn -[SimDb.query]. unfold SimDb.query.
  destruct (starts _ sql); [|done]. by destruct (SimDb.parse_replace sql).
Qed.

(** The database with a user in it. *)
Definition db_with (i : ShmUserInfo.t) : SimDb.t :=
  let u := ShmUserInfo.UserID i in
  SimDb.mk {[select_text (user_table config u) (fmt_lu u) := enc_DBUserInfo (to_db i)]} None.

Lemma conn_of_both (d : SimDb.t) u : conn_of [conn d; conn d] u (conn d).
Proof.
  unfold conn_of. pose proof (GetUserDBIndex_range u) as Hr. unfold USER_DATABASE_NUM in Hr.
  assert (GetUserDBIndex u = 0 ∨ GetUserDBIndex u = 1) as [-> | ->] by lia; done.
Qed.
Lemma config_of_both u cfg : aget [config; config] (GetUserDBIndex u) = Ok cfg → cfg = config.
Proof.
  pose proof (GetUserDBIndex_range u) as Hr. unfold USER_DATABASE_NUM in Hr.
  assert (GetUserDBIndex u = 0 ∨ GetUserDBIndex u = 1) as [-> | ->] by lia; by intros [= <-].
Qed.

Lemma with_stored i l :
  user_ok (ShmUserInfo.UserID i) i → user_range i →
  stored (loader (db_with i) l) (conn (db_with i)) (ShmUserInfo.UserID i) i.
Proof.
  intros Hi Hr. constructor; [apply conns_ok| |done|done]. constructor; [apply conn_of_both|].
  intros cfg ->%config_of_both. split; [apply SimDb_select|]. unfold data. cbn -[select_text fmt_lu to_db].
  apply lookup_singleton_eq.
Qed.

Lemma registered_range u f now :
  0 ≤ u < 2 ^ 64 → 0 ≤ birthday f < 2 ^ 64 → user_range (registered u f now).
Proof.
  intros ??. constructor; cbn; try done. pose proof (Z.mod_pos_bound (Z.rem (sex f) 2 + 2 ^ 7) (2 ^ 8)).
  unfold i8. lia.
Qed.

Lemma ann_plain : plain_user ann.
Proof. unfold plain_user, plain. split_and!; apply (bool_decide_unpack _); vm_compute; exact I. Qed.

(** A user with a percent sign in his name. *)
Definition mallory : ShmUserInfo.t := registered 7 (mk_fields [77; 37; 115] 0 0 [] [] []) 5000.

(** A package that waits for user 7, and a server that asked for him. *)
Definition waiting : list Z := package Cmd_User_AddFriend_Req 7 [8].
Definition asked (l : list ShmUserInfo.t) : CUser.t CShmQueue.t :=
  match CUser.LoadUserInfo (user_server 401 l) 7 waiting with Ok (s, _) => s | _ => user_server 401 l end.

Lemma asked_rep l g :
  holds_users (shm_of l) g → urep (asked l) (View [] [enc_LoadUserInfoReq 7 waiting] [] g) ∧
  same_site (user_server 401 l) (asked l).
Proof.
  intros Hg. destruct (LoadUserInfo_ok queue_max (user_server 401 l) _ 7 waiting (user_server_rep 401 l g Hg))
    as (s' & Hs' & Hss & Hv).
  unfold asked. rewrite Hs'. split; [|done]. unfold ask in Hv.
  assert ((XY_PKG_MAX_LEN <? zlen (enc_LoadUserInfoReq 7 waiting)) = false) as Hz by (vm_compute; reflexivity).
  rewrite Hz in Hv.
  assert (q_fits (l_load (limits_of (user_server 401 l))) (v_load (view_of g)) (enc_LoadUserInfoReq 7 waiting) = true)
    as Hf by (cbn [limits_of l_load m_LoaderSendQueue user_server view_of v_load]; vm_compute; reflexivity).
  rewrite Hf in Hv. exact Hv.
Qed.
End UserServerExample.

(** A database that is down. *)
Module DownDb.
#[global] Instance ops : MySQL unit := {|
  mysql_ping d := (d, 1); mysql_connect d := (d, 1); mysql_real_query d _ := (d, 1);
  mysql_store_result d := (d, None); mysql_escape _ := [];
|}.
#[global] Program Instance laws : MySQLLaws unit := {| db_data _ _ _ := None |}.
Next Obligation. done. Qed.
Next Obligation. done. Qed.
Next Obligation. done. Qed.
Next Obligation. done. Qed.
Next Obligation. intros x. split; [apply not_elem_of_nil|]. pose proof (zlen_nonneg x). cbn. unfold zlen. cbn. lia. Qed.

Definition conn : CMySQL.t unit := CMySQL.mk tt CMySQL.Uninit 1.
Definition loader : CLoaderUser.t CShmQueue.t unit :=
  CLoaderUser.mk [UserServerExample.config; UserServerExample.config] [conn; conn]
    ConnServerExample.queue ConnServerExample.queue (UserServerExample.shm_of []).

Lemma down_conns_ok : store_ok (CLoaderUser.m_DBConfig loader) (CLoaderUser.m_DBConn loader).
Proof.
  destruct (UserServerExample.conns_ok UserServerExample.empty_db) as [? _ ? _].
  constructor; [done|done|done|by repeat constructor].
Qed.
End DownDb.

