(* ===== verification/UserProps.v ===== *)
(** What the user server, its loader and its writer do: the claims about them,
    each with an example where it applies. *)
From stdpp Require Import gmap sorting relations.
From S2P Require Import Prelude Fifo Ring ShmQueue Wire HashList Sweep Kernel ConnInfo BusState BusConn.
From S2P Require Import BusRoute BusFacts IniFile ConnState ConnServe ConnFacts ConnLoop ConnExample.
From S2P Require Import UserState UserServe UserSpec UserFacts UserLoop Mysql UserStore UserStoreFacts.
From S2P Require Import UserLoad UserExample.
Import CUser.

#[local] Arguments Z.add : simpl never.
#[local] Arguments Z.eqb : simpl never.
#[local] Arguments Z.ltb : simpl never.
#[local] Arguments Z.leb : simpl never.

(** * The user server *)
Section props.
Context {Q K : Type} `{FifoQueue Q} `{Kernel K} `{!KernelClock K} `{UserProtoLaws}.
Hypothesis Hmax : XY_PKG_MAX_LEN ≤ q_max.
Implicit Types (s : t Q) (k : K) (v : view) (h : XYHeaderIn.t) (i : ShmUserInfo.t) (u : Z)
  (rs ls : list (list Z)).

(** C22: whatever package comes, the server does with it what the specification
    says, at the times its clock shows: to the users, to what goes to the bus, to
    the loader and to the writer, and in what it returns. *)
Theorem DealPkg_refines s v k m o h body :
  urep s v → users_good v → xyin_ok h →
  mread m o (34 + zlen body) = Ok (xyin_bytes h ++ body) →
  ∃ k' s' t1 t2 t3, let r := deal (limits_of s) v h body t1 t2 t3 in
    DealPkg s k m o (34 + zlen body) = Ok (k', s', r.2) ∧ urep s' r.1 ∧ users_good r.1 ∧
    limits_of s' = limits_of s ∧ k_now k ≤ t1 ≤ t2 ∧ t2 ≤ t3 ≤ k_now k'.
Proof.
  intros Hv Hg Hh Hm. destruct (DealPkg_ok Hmax s v k m o h body Hv Hg Hh Hm)
    as (k' & s' & t1 & t2 & t3 & -> & Hv' & Hs & ? & ?).
  exists k', s', t1, t2, t3. split_and!; try done; [by apply deal_good|by rewrite (ss_limits _ _ Hs)|lia..].
Qed.

(** The loop of the user server never stops by itself and leaves a server
    that serves, whatever packages wait for it, and takes only steps of the
    specification: packages, messages of state and the dropping of users. *)
Theorem user_Run_serves n s k last buf v rs ls :
  alive s v rs ls → zlen buf = XY_PKG_MAX_LEN →
  ∃ k' s' last' buf' v' rs' ls', Run n s k last buf = Ok (k', s', last', buf') ∧ alive s' v' rs' ls' ∧
    rtc (vstep (limits_of s)) v v' ∧ limits_of s' = limits_of s.
Proof. apply (Run_ok Hmax). Qed.

(** A user who has been gone for a day is no longer in memory after as many
    rounds of upkeep as the table has indexes, and none who has been there less
    long is dropped. *)
Theorem idle_users_forgotten s k v :
  urep s v →
  ∃ k' s' g, let m := m_UserShm s in
    CheckValids (Z.to_nat (CUserShmApi.m_MaxUserNodeNum m)) s k = Ok (k', s') ∧ urep s' (set_users v g) ∧
    (clock_ok (k_now k) (k_now k') →
     g ⊆ v_users v ∧ (∀ u i, v_users v !! u = Some i → idle (k_now k) i → g !! u = None) ∧
     (∀ u i, v_users v !! u = Some i → g !! u = None → idle (k_now k') i)).
Proof.
  intros Hv. destruct (CheckValids_ok (Z.to_nat (CUserShmApi.m_MaxUserNodeNum (m_UserShm s))) s k v Hv)
    as (k' & s' & g & Hc & Hv' & _ & Hsw).
  exists k', s', g. split; [exact Hc|]. split; [exact Hv'|]. intros Hclk.
  pose proof (so_nodes _ _ (ur_shm _ _ Hv)).
  eapply swept_all; [|by apply Hsw]. lia.
Qed.

(** A registration that fails, of a user who is known already or when the
    table is full, changes no user, but is answered as if it had succeeded, and
    the writer is asked to save the user. *)
Theorem failed_register_reports_success s v k m o h u f body :
  urep s v → users_good v → xyin_ok h → mread m o (34 + zlen body) = Ok (xyin_bytes h ++ body) →
  XYHeaderIn.CmdID h = Cmd_User_Register_Req → dec_UserRegisterReq body = Some (u, f) →
  is_Some (v_users v !! u) ∨ Z.of_nat (size (v_users v)) = l_users (limits_of s) →
  ∃ k' s' now, let l := limits_of s in
    DealPkg s k m o (34 + zlen body) = Ok (k', s', 0) ∧
    urep s' (tell l (save l v u) (rsp_header (u32 (l_id l)) Cmd_User_Register_Rsp h now)
               (XYHeaderIn.SrcID h) (enc_UserRegisterRsp u 0)).
Proof.
  intros Hv Hg Hh Hm Hc Hd Hno. destruct (DealPkg_ok Hmax s v k m o h body Hv Hg Hh Hm)
    as (k' & s' & t1 & t2 & t3 & -> & Hv' & _ & _).
  exists k', s', t2. unfold deal in Hv' |- *. rewrite Hc, Z.eqb_refl, Hd in Hv' |- *.
  split; [done|]. unfold register in Hv'. destruct (negb (u =? 0) && _ && _) eqn:Er.
  - exfalso. apply andb_prop in Er as [[_ Hn]%andb_prop Hs]. apply bool_decide_eq_true in Hn.
    apply negb_true_iff, Z.eqb_neq in Hs. destruct Hno as [[i Hi]|?]; [congruence|done].
  - assert (set_users v (v_users v) = v) as Hvv by by destruct v. by rewrite Hvv in Hv'.
Qed.

(** ** Requests for friendship *)

(** The user has at most one request: the first of his list, and nobody marked
    it valid. *)
Definition one_request i : Prop :=
  ∃ r, RequestInfo.IsValid r = 0 ∧
    ShmUserInfo.RequestList i = r :: replicate (Z.to_nat (MAX_REQUEST_NUM - 1)) RequestInfo.zero.

Lemma one_request_slot i : one_request i → slot i = 0.
Proof.
  intros (r & Hr & Hl). unfold slot. rewrite Hl. cbn [CUserShmApi.request_slot].
  by rewrite Hr, Z.eqb_refl, orb_true_r.
Qed.

Lemma one_request_registered u f now : one_request (registered u f now).
Proof. by exists RequestInfo.zero. Qed.

(** A further request takes the place of the one before. *)
Lemma befriended_one i from name t1 t2 :
  one_request i →
  ∃ r, ShmUserInfo.RequestList (befriended i from name t1 t2) =
         r :: replicate (Z.to_nat (MAX_REQUEST_NUM - 1)) RequestInfo.zero ∧
    RequestInfo.UserID r = from ∧ cstr (RequestInfo.NickName r) = cut MAX_NAME_LENGTH name ∧
    RequestInfo.IsValid r = 0.
Proof.
  intros Hi. pose proof (one_request_slot i Hi) as Hs. destruct Hi as (r & Hr & Hl).
  unfold befriended. rewrite Hs, Hl. change (Z.to_nat 0) with O.
  eexists. split; [cbn; reflexivity|]. split_and!; [done|apply put_str_cstr|exact Hr].
Qed.

Lemma one_request_befriended i from name t1 t2 :
  one_request i → one_request (befriended i from name t1 t2).
Proof. intros Hi. destruct (befriended_one i from name t1 t2 Hi) as (r & Hl & _ & _ & Hr). by exists r. Qed.

Definition few_requests v : Prop := map_Forall (λ _, one_request) (v_users v).

Lemma deal_few l v h body t1 t2 t3 : few_requests v → few_requests (deal l v h body t1 t2 t3).1.
Proof.
  unfold few_requests. intros Hv. apply (deal_users l v h body t1 t2 t3 (λ _, one_request)); [done|..].
  - intros. apply one_request_registered.
  - intros. by apply one_request_befriended.
Qed.

Lemma vsteps_few l v v' : rtc (vstep l) v v' → few_requests v → few_requests v'.
Proof.
  induction 1 as [|v1 v2 v3 [v h body ? ? ?|v|v g Hg]]; [done|..]; intros Hf.
  - auto using deal_few.
  - auto.
  - apply IHrtc. intros u i Hi. apply (Hf u i). by eapply lookup_weaken.
Qed.

(** However many requests for friendship reach a user, the server keeps at
    most one of them, the last: as nobody marks a request valid, each one takes
    the place of the one before.  No run of the server leaves a user with two. *)
Theorem requests_overwrite n s k last buf v rs ls :
  alive s v rs ls → zlen buf = XY_PKG_MAX_LEN → few_requests v →
  (∃ k' s' last' buf' v' rs' ls', Run n s k last buf = Ok (k', s', last', buf') ∧ alive s' v' rs' ls' ∧
     few_requests v') ∧
  ∀ i from1 from2 name1 name2 t1 t2 t3 t4, one_request i →
    ∃ r, ShmUserInfo.RequestList (befriended (befriended i from1 name1 t1 t2) from2 name2 t3 t4) =
           r :: replicate (Z.to_nat (MAX_REQUEST_NUM - 1)) RequestInfo.zero ∧
      RequestInfo.UserID r = from2 ∧ cstr (RequestInfo.NickName r) = cut MAX_NAME_LENGTH name2.
Proof.
  intros Ha Hb Hf. split.
  - destruct (Run_ok Hmax n s k last buf v rs ls Ha Hb) as (k' & s' & last' & buf' & v' & rs' & ls' & Hr & Ha' & Hst & _).
    exists k', s', last', buf', v', rs', ls'. split_and!; [done..|]. by eapply vsteps_few.
  - intros i from1 from2 name1 name2 t1 t2 t3 t4 Hi.
    destruct (befriended_one _ from2 name2 t3 t4 (one_request_befriended i from1 name1 t1 t2 Hi))
      as (r & ? & ? & ? & _). by exists r.
Qed.

(** Where the user is makes no difference, if he is there. *)
Lemma friend_here_without l v h from me to name pkg pkg' t1 t2 t3 i :
  v_users v !! from = None → v_users v !! to = Some i →
  friend_here l v h from to name pkg t1 t2 t3 =
    without_user from (friend_here l (with_user from me v) h from to name pkg' t1 t2 t3).
Proof.
  intros Hf Hi. assert (from ≠ to) as Hne by congruence. unfold friend_here, without_user, with_user.
  cbn [v_users set_users]. rewrite Hi, lookup_insert_ne, Hi by done.
  cbn. unfold set_users. cbn. do 2 f_equal.
  rewrite delete_insert_ne, delete_insert_id by done. done.
Qed.

(** C33: a request for friendship between users of different servers does what
    it would do were both at the server of the one it is for: the first server
    puts into the queue to the bus, for that server, a package with the name of
    the user and what tells his connection; when it arrives there, that server
    notes the request, saves the user and answers the client like a server that
    had both.  Nothing is left of it at the first. *)
Theorem friendship_any_server s k v h body to me m o s2 v2 i :
  urep s v → users_good v → xyin_ok h → mread m o (34 + zlen body) = Ok (xyin_bytes h ++ body) →
  XYHeaderIn.CmdID h = Cmd_User_AddFriend_Req → dec_AddFriendReq body = Some to → 0 ≤ to < 2 ^ 64 →
  let from := XYHeaderIn.UserID h in
  v_users v !! from = Some me →
  urep s2 v2 → users_good v2 → v_users v2 !! from = None → v_users v2 !! to = Some i →
  GetUserServer to = GetServerID s2 → GetServerID s2 ≠ GetServerID s →
  ∃ k' s' now, let h' := rsp_header (XYHeaderIn.SrcID h) Cmd_User_AddFriend_Req2 h now in
    let body' := enc_UserAddFriendReq from (cstr (ShmUserInfo.NickName me)) to in
    DealPkg s k m o (34 + zlen body) = Ok (k', s', 0) ∧
    urep s' (tell (limits_of s) v h' (u32 (GetServerID s2)) body') ∧
    ∀ k2 m2 o2, mread m2 o2 (34 + zlen body') = Ok (xyin_bytes h' ++ body') →
      does s2 k2 (DealPkg s2 k2 m2 o2 (34 + zlen body'))
        (λ t1 t2 t3, without_user from (deal (limits_of s2) (with_user from me v2) h body t1 t2 t3)).
Proof.
  intros Hv Hg Hh Hm Hc Hd Hto from Hme Hv2 Hg2 Hf2 Hi Hsv Hne.
  destruct (DealPkg_ok Hmax s v k m o h body Hv Hg Hh Hm) as (k' & s' & t1 & t2 & t3 & -> & Hv' & _ & _).
  set (name := cstr (ShmUserInfo.NickName me)).
  assert (∀ l w x1 x2 x3, deal l w h body x1 x2 x3 = friend l w h to (xyin_bytes h ++ body) x1 x2 x3) as Hdeal.
  { intros. unfold deal. rewrite Hc, Hd. done. }
  rewrite Hdeal in Hv' |- *. unfold friend in Hv' |- *. fold from in Hv' |- *. rewrite Hme in Hv' |- *.
  change (l_id (limits_of s)) with (GetServerID s) in Hv' |- *. fold name in Hv' |- *.
  rewrite (proj2 (Z.eqb_neq _ _)) in Hv' |- * by congruence. rewrite Hsv in Hv' |- *.
  exists k', s', t3. split; [done|]. split; [exact Hv'|]. intros k2 m2 o2 Hm2.
  set (h' := rsp_header _ _ _ _) in *. set (body' := enc_UserAddFriendReq _ _ _) in *.
  assert (xyin_ok h') as Hh' by (destruct Hh; constructor; cbn; try done; unfold u64; apply Z.mod_pos_bound; lia).
  destruct (DealPkg_ok Hmax s2 v2 k2 m2 o2 h' body' Hv2 Hg2 Hh' Hm2) as (k3 & s3 & x1 & x2 & x3 & Hr & Hv3 & Hs3 & Hk).
  assert (deal (limits_of s2) v2 h' body' x1 x2 x3 =
    without_user from (deal (limits_of s2) (with_user from me v2) h body x1 x2 x3)) as He.
  { rewrite Hdeal. unfold friend. fold from. cbn [with_user set_users v_users]. rewrite lookup_insert_eq. fold name.
    change (l_id (limits_of s2)) with (GetServerID s2). rewrite Hsv, Z.eqb_refl.
    unfold deal. change (XYHeaderIn.CmdID h') with Cmd_User_AddFriend_Req2.
    change (_ =? Cmd_User_Register_Req) with false. change (_ =? Cmd_User_AddFriend_Req) with false.
    change (_ =? Cmd_User_AddFriend_Req2) with true. cbv match. unfold body'.
    rewrite add_friend_law by (done || apply Hh). by apply (friend_here_without _ v2 h' from me to name _ _ _ _ _ i). }
  rewrite He in Hr, Hv3. exists k3, s3, x1, x2, x3. done.
Qed.
End props.

(** * The user server, the loader and the writer *)
Section loading.
Context {Q D K : Type} `{FifoQueue Q} `{MySQLLaws D} `{Kernel K} `{!KernelClock K} `{StoreProtoLaws}
  `{!UserProtoLaws}.
Hypothesis Hmax : XY_PKG_MAX_LEN ≤ q_max.
Implicit Types (s : t Q) (k : K) (v : view) (h : XYHeaderIn.t) (i j : ShmUserInfo.t) (u : Z)
  (d : CLoaderUser.t Q D) (c : CMySQL.t D).

(** C16: a package that needs a user who is not in memory waits with the loader,
    which reads the user from the database into the shared table and gives the
    package back; the server then deals with it as it would have done with that
    user in memory.  For one package at a time: nothing else waits for the loader
    or from it ([second_load_loses_package] shows what happens otherwise); the user
    is in the database, the database answers, and none of his strings has a percent
    sign ([plain_user]; [percent_name_stops_loader] otherwise); the table of users
    has a free node; and the request and the answer fit a package and the queues. *)
Theorem load_on_demand s v k m o h body u i d c buf :
  urep s v → users_good v → v_load v = [] → q_rep (m_LoaderRecvQueue s) [] → zlen buf = XY_PKG_MAX_LEN →
  xyin_ok h → mread m o (34 + zlen body) = Ok (xyin_bytes h ++ body) →
  missing (limits_of s) v h body = Some u → 0 < u < 2 ^ 64 → stored d c u i → plain_user i →
  Z.of_nat (size (v_users v)) ≠ l_users (limits_of s) →
  let pkg := xyin_bytes h ++ body in
  let req := enc_LoadUserInfoReq u pkg in
  zlen req ≤ XY_PKG_MAX_LEN → q_fits (q_cap (m_LoaderSendQueue s)) [] req = true →
  24 + zlen pkg ≤ XY_PKG_MAX_LEN → q_fits (q_cap (m_LoaderRecvQueue s)) [] (enc_LoadUserInfoRsp 0 pkg) = true →
  ∃ k1 s1 k2 d2 k3 s3 buf' j now t1 t2 t3,
    DealPkg s k m o (34 + zlen body) = Ok (k1, s1, 0) ∧
    CLoaderUser.EntityOnce (share s1 d) k1 = Ok (k2, d2, true) ∧
    let r := deal (limits_of s) (with_user u j v) h body t1 t2 t3 in
    FromLoader (shared d2 s1) k2 buf = Ok (k3, s3, buf', r.2 =? 0) ∧
    reloaded i j now ∧ k_now k ≤ now ≤ t1 ∧ urep s3 r.1.
Proof.
  intros Hv Hg Hl0 Hlr Hb Hh Hm Hmiss Hu Hst Hp Hsz pkg req Hzr Hfr Hzp Hfp.
  destruct (deal_missing _ v h body u 0 0 0 Hmiss) as [_ Hnone].
  destruct (DealPkg_asks Hmax s v k m o h body u Hv Hg Hh Hm Hmiss) as (k1 & s1 & Hr1 & Hs1 & Hk1 & Hv1);
    [done|by rewrite Hl0|]. rewrite Hl0 in Hv1. cbn [app] in Hv1. fold pkg req in Hv1.
  pose proof (ss_limits _ _ Hs1) as Hlim.
  destruct (loader_round Hmax s1 _ k1 d c u i pkg Hv1 eq_refl) as
    (k2 & d2 & j & now & Hr2 & Hrl & Hj & Hv2 & Hlim2 & Hq2 & Hk2); [by rewrite (ss_load _ _ Hs1)|done..|].
  cbn [v_users v_out v_load v_store] in Hv2, Hq2. rewrite Hlim in Hlim2, Hv2, Hq2.
  rewrite bool_decide_true, (proj2 (Z.eqb_neq _ _) Hsz) in Hv2, Hq2 by done. cbn [andb negb] in Hv2, Hq2.
  unfold push in Hq2. rewrite (ss_load _ _ Hs1), Hfp in Hq2.
  assert (View (v_out v) [] (v_store v) (<[u:=j]> (v_users v)) = with_user u j v) as Hw
    by (unfold with_user, set_users; by rewrite Hl0).
  rewrite Hw in Hv2. assert (users_good (with_user u j v)) as Hg2 by by apply map_Forall_insert_2.
  pose proof (load_rsp_len 0 pkg) as Hzz.
  destruct (FromLoader_rsp Hmax (shared d2 s1) k2 buf (with_user u j v) h body 0 [] Hv2 Hg2 Hh Hb) as
    (k3 & s3 & buf' & go & Hr3 & _ & Hfin);
    [done|exact (Z.le_trans _ _ _ (proj2 Hzz) Hzp)|exact Hq2|].
  change (0 =? 0) with true in Hfin. destruct Hfin as (t1 & t2 & t3 & Hv3 & -> & Hk3).
  rewrite Hlim2 in Hr3, Hv3.
  exists k1, s1, k2, d2, k3, s3, buf', j, now, t1, t2, t3.
  split; [exact Hr1|]. split; [exact Hr2|]. split; [exact Hr3|]. split_and!; [done|lia|lia|exact Hv3].
Qed.

(** When a second package waits for the same user, or he registers in the
    meantime, the loader finds him in the table, says that loading failed, and
    the server drops the package: nothing of it is done and nobody is told. *)
Theorem second_load_loses_package s v k h body u i i0 d c buf :
  urep s v → users_good v → xyin_ok h → zlen buf = XY_PKG_MAX_LEN → q_rep (m_LoaderRecvQueue s) [] →
  let pkg := xyin_bytes h ++ body in
  v_load v = [enc_LoadUserInfoReq u pkg] → v_users v !! u = Some i0 →
  0 < u < 2 ^ 64 → stored d c u i → plain_user i →
  zlen (enc_LoadUserInfoReq u pkg) ≤ XY_PKG_MAX_LEN → 24 + zlen pkg ≤ XY_PKG_MAX_LEN →
  q_fits (q_cap (m_LoaderRecvQueue s)) [] (enc_LoadUserInfoRsp (-1) pkg) = true →
  ∃ k1 d1 k2 s2 buf', CLoaderUser.EntityOnce (share s d) k = Ok (k1, d1, true) ∧
    FromLoader (shared d1 s) k1 buf = Ok (k2, s2, buf', false) ∧
    urep s2 (View (v_out v) [] (v_store v) (v_users v)) ∧ q_rep (m_LoaderRecvQueue s2) [].
Proof.
  intros Hv Hg Hh Hb Hlr pkg Hl0 Hu0 Hu Hst Hp Hzr Hzp Hfp.
  destruct (loader_round Hmax s v k d c u i pkg Hv Hl0 Hlr Hst Hp Hu Hzr Hzp) as
    (k1 & d1 & j & now & Hr1 & _ & _ & Hv1 & _ & Hq1 & _).
  rewrite bool_decide_false in Hv1, Hq1 by congruence. cbn [andb] in Hv1, Hq1.
  unfold push in Hq1. rewrite Hfp in Hq1. pose proof (load_rsp_len (-1) pkg) as Hzz.
  destruct (FromLoader_rsp Hmax (shared d1 s) k1 buf _ h body (-1) [] Hv1 Hg Hh Hb) as
    (k2 & s2 & buf' & go & Hr2 & Hq2 & Hfin);
    [done|exact (Z.le_trans _ _ _ (proj2 Hzz) Hzp)|exact Hq1|].
  change (-1 =? 0) with false in Hfin. destruct Hfin as [Hv2 ->].
  by exists k1, d1, k2, s2, buf'.
Qed.

(** C35: a user the writer wrote, whose strings have no percent sign and whose
    numbers are in the ranges of their columns ([plain_user], [user_range]), is
    loaded again with his name, levels, sex and how he is reached; his birthday, his
    friends and the requests to him are lost ([reloaded]).  The loader has the
    writer's database, which answers, nothing else waits for the loader, and the
    table has a free node. *)
Theorem write_then_load (w w' : CWriterUser.t Q D) g u i c c1 d c2 s v k req :
  writer_ok w g → 0 < u < 2 ^ 64 → map_Forall user_ok g → g !! u = Some i → user_range i → plain_user i →
  conn_of (CWriterUser.m_DBConn w) u c → CWriterUser.ProcessWriterUserInfo w u = Ok (w', 0) →
  conn_of (CWriterUser.m_DBConn w') u c1 →
  CLoaderUser.m_DBConfig d = CWriterUser.m_DBConfig w → store_ok (CLoaderUser.m_DBConfig d) (CLoaderUser.m_DBConn d) →
  conn_of (CLoaderUser.m_DBConn d) u c2 → CMySQL.m_MYSQL c2 = CMySQL.m_MYSQL c1 →
  (∀ cfg, aget (CLoaderUser.m_DBConfig d) (GetUserDBIndex u) = Ok cfg →
     (CMySQL.QueryRes c2 (select_text (user_table cfg u) (fmt_lu u)) 0).1.2 = 0) →
  urep s v → v_load v = [enc_LoadUserInfoReq u req] → q_rep (m_LoaderRecvQueue s) [] →
  v_users v !! u = None → Z.of_nat (size (v_users v)) ≠ l_users (limits_of s) →
  zlen (enc_LoadUserInfoReq u req) ≤ XY_PKG_MAX_LEN → 24 + zlen req ≤ XY_PKG_MAX_LEN →
  ∃ k' d' j now, CLoaderUser.EntityOnce (share s d) k = Ok (k', d', true) ∧ reloaded i j now ∧
    shm_ok (CLoaderUser.m_UserShm d') (<[u := j]> (v_users v)).
Proof.
  intros Hw Hu Hg Hi Hrg Hp Hc Hpr Hc1 Hcfg Hst Hc2 Hdb Hq Hv Hl0 Hlr Hnone Hsz Hzr Hz.
  pose proof (written_is_stored w w' g u i c c1 c2 d Hw Hu Hg Hi Hrg Hc Hpr Hc1 Hcfg Hst Hc2 Hdb Hq) as Hsd.
  destruct (loader_round Hmax s v k d c2 u i req Hv Hl0 Hlr Hsd Hp Hu Hzr Hz) as
    (k1 & d1 & j & now & Hr1 & Hrl & _ & Hv1 & _). exists k1, d1, j, now. split; [done|]. split; [done|].
  rewrite bool_decide_true, (proj2 (Z.eqb_neq _ _) Hsz) in Hv1 by done. exact (ur_shm _ _ Hv1).
Qed.

(** A user whose name has a percent sign that is not followed by another
    stops the loader: the name is used as a format with no arguments. *)
Theorem percent_name_stops_loader s v k d c u i req a b :
  urep s v → v_load v = [enc_LoadUserInfoReq u req] → stored d c u i → 0 < u < 2 ^ 64 →
  zlen (enc_LoadUserInfoReq u req) ≤ XY_PKG_MAX_LEN →
  cstr (ShmUserInfo.NickName i) = a ++ 37 :: b → plain a → head b ≠ Some 37 →
  CLoaderUser.EntityOnce (share s d) k = Fault.
Proof.
  intros Hv Hl0 [Hst Hh Hi Hr] Hu Hz Hn Ha Hb. pose proof (ur_load _ _ Hv) as Hq. rewrite Hl0 in Hq.
  destruct (EntityOnce_takes (share s d) k u req [] Hu Hq Hz) as (q & _ & _ & ->).
  unfold CLoaderUser.ProcessLoaderUserInfo. set (d1 := CLoaderUser.set_recv _ q).
  set (x := enc_DBUserInfo (to_db i)) in *.
  destruct (LoadUser_row d1 k (v_users v) u x c) as (d2 & c2 & -> & _); [by split; [|apply Hv]|lia|by destruct Hh|].
  unfold CLoaderUser.InsertRow. change (aget [Some x] 0) with (Ok (Some x)).
  change (aget [zlen x] 0) with (Ok (zlen x)). unfold x.
  cbn [mbind outcome_bind]. pose proof (db_user_len (to_db i)). rewrite (proj2 (Z.eqb_neq _ _)) by lia.
  rewrite take_ge by (unfold zlen; lia).
  unfold CLoaderUser.UserProtoString2Struct. rewrite db_user_law by by apply to_db_ok.
  destruct (k_time k) as [k1 now]. cbn [to_db DBUserInfo.nickname]. unfold snprintf_fmt.
  rewrite (cstr_id (cstr _)) by apply cstr_no_nul. rewrite Hn, printf_fault by done. done.
Qed.

(** When the first query of a connection fails, as it does while the
    database is down, the loader frees a result it never had. *)
Theorem first_query_fails s v k d c u req :
  urep s v → store_ok (CLoaderUser.m_DBConfig d) (CLoaderUser.m_DBConn d) → 0 < u < 2 ^ 64 →
  v_load v = [enc_LoadUserInfoReq u req] → zlen (enc_LoadUserInfoReq u req) ≤ XY_PKG_MAX_LEN →
  conn_of (CLoaderUser.m_DBConn d) u c → CMySQL.m_pRes c = CMySQL.Uninit →
  (∀ cfg, aget (CLoaderUser.m_DBConfig d) (GetUserDBIndex u) = Ok cfg →
     (CMySQL.Send c (select_text (user_table cfg u) (fmt_lu u))).2 ≠ 0) →
  CLoaderUser.EntityOnce (share s d) k = Fault.
Proof.
  intros Hv Hst Hu Hl0 Hz Hc Hres Hq. pose proof (ur_load _ _ Hv) as Hqr. rewrite Hl0 in Hqr.
  destruct (EntityOnce_takes (share s d) k u req [] Hu Hqr Hz) as (q & _ & _ & ->).
  rewrite (ProcessLoaderUserInfo_unset _ k (v_users v) u c req); [done| |lia|done..].
  split; [exact Hst|apply Hv].
Qed.
End loading.

(** * At concrete servers *)
Section examples.
Import UserServerExample.

Lemma DealPkg_refines_witness :
  ∃ k' s' r v', DealPkg (user_server 401 [ann; bob]) kernel (package Cmd_User_AddFriend_Req 7 [8]) 0 (34 + zlen [8]) = Ok (k', s', r) ∧
    urep s' v' ∧ users_good v'.
Proof.
  destruct ann_bob_ok as [Ht Hg].
  destruct (DealPkg_refines queue_max (user_server 401 [ann; bob]) (view_of ann_bob) kernel
    (package Cmd_User_AddFriend_Req 7 [8]) 0 (header Cmd_User_AddFriend_Req 7) [8])
    as (k' & s' & t1 & t2 & t3 & Hr & Hv & Hgd & _).
  - by apply user_server_rep.
  - exact Hg.
  - by apply header_ok.
  - apply mread_package.
  - eexists k', s', _, _. split; [exact Hr|]. split; [exact Hv|exact Hgd].
Defined.

Lemma two_users_alive : alive (user_server 401 [ann; bob]) (view_of ann_bob) [] [].
Proof.
  destruct ann_bob_ok as [Ht Hg]. constructor; [by apply user_server_rep|exact Hg|apply queue_rep..|constructor|constructor].
Qed.

Lemma user_Run_serves_witness :
  ∃ k' s' last buf, Run 3 (user_server 401 [ann; bob]) kernel 0 big = Ok (k', s', last, buf) ∧
    limits_of s' = limits_of (user_server 401 [ann; bob]).
Proof.
  destruct (user_Run_serves queue_max 3 (user_server 401 [ann; bob]) kernel 0 big (view_of ann_bob) [] []
    two_users_alive zlen_buff) as (k' & s' & last & buf & v' & rs & ls & Hr & _ & _ & Hl).
  exists k', s', last, buf. split; [exact Hr|exact Hl].
Defined.

Lemma idle_users_forgotten_witness :
  ∃ k' s' (g : gmap Z ShmUserInfo.t),
    CheckValids 4 (user_server 401 [ann; bob]) kernel = Ok (k', s') ∧ urep s' (view_of g) ∧
    (k_now k' < 2 ^ 63 → g !! 7 = None ∧ (k_now k' < 180000 → is_Some (g !! 8))).
Proof.
  destruct ann_bob_ok as [Ht _].
  destruct (idle_users_forgotten (user_server 401 [ann; bob]) kernel (view_of ann_bob)
    (user_server_rep 401 _ _ Ht)) as (k' & s' & g & Hr & Hv & Hg).
  assert (CUserShmApi.m_MaxUserNodeNum (m_UserShm (user_server 401 [ann; bob])) = 4) as Hn by apply Ht.
  rewrite Hn in Hr. exists k', s', g. split; [exact Hr|]. split; [exact Hv|]. intros Hk.
  destruct Hg as (_ & Hgone & Hkeep); [by split|]. split.
  - apply (Hgone 7 ann); [|done]. unfold view_of, v_users, ann_bob.
    rewrite lookup_insert_ne by done. apply lookup_singleton_eq.
  - intros Hlt. apply not_eq_None_Some. intros H8. assert (idle (k_now k') bob) as Hid.
    { apply (Hkeep 8 bob); [|done]. unfold view_of, v_users, ann_bob. apply lookup_insert_eq. }
    unfold idle in Hid. change (ShmUserInfo.LastActiveTime bob) with 99000 in Hid. unfold USER_INVALID_TIME in Hid. lia.
Defined.

Lemma failed_register_reports_success_witness :
  ∃ k' s' now, DealPkg (user_server 401 [ann]) kernel (package Cmd_User_Register_Req 0 [7; 65]) 0 (34 + zlen [7; 65]) = Ok (k', s', 0) ∧
    let l := limits_of (user_server 401 [ann]) in
    urep s' (tell l (save l (view_of ann_alone) 7)
      (rsp_header (u32 (l_id l)) Cmd_User_Register_Rsp (header Cmd_User_Register_Req 0) now) 101
      (enc_UserRegisterRsp 7 0)).
Proof.
  destruct ann_alone_ok as [Ht Hg].
  destruct (failed_register_reports_success queue_max (user_server 401 [ann]) (view_of ann_alone) kernel
    (package Cmd_User_Register_Req 0 [7; 65]) 0 (header Cmd_User_Register_Req 0) 7 (mk_fields [65] 0 0 [] [] [])
    [7; 65]) as (k' & s' & now & Hr & Hv).
  - by apply user_server_rep.
  - exact Hg.
  - by apply header_ok.
  - apply mread_package.
  - done.
  - done.
  - left. exists ann. apply lookup_singleton_eq.
  - exists k', s', now. split; [exact Hr|exact Hv].
Defined.

Lemma requests_overwrite_witness :
  ∃ k' s' last buf v', Run 3 (user_server 401 [ann; bob]) kernel 0 big = Ok (k', s', last, buf) ∧ few_requests v'.
Proof.
  destruct (requests_overwrite queue_max 3 (user_server 401 [ann; bob]) kernel 0 big (view_of ann_bob) [] []
    two_users_alive zlen_buff) as [(k' & s' & last & buf & v' & rs & ls & Hr & _ & Hf) _].
  - unfold few_requests, view_of, v_users, ann_bob. apply map_Forall_insert_2; [apply one_request_registered|].
    apply map_Forall_singleton, one_request_registered.
  - exists k', s', last, buf, v'. split; [exact Hr|exact Hf].
Defined.

Lemma friendship_any_server_witness :
  ∃ k' s' d k2 s2 r, DealPkg (user_server 401 [ann]) kernel (package Cmd_User_AddFriend_Req 7 [107]) 0 (34 + zlen [107]) = Ok (k', s', 0) ∧
    DealPkg (user_server 402 [eve]) kernel d 0 (zlen d) = Ok (k2, s2, r).
Proof.
  destruct ann_alone_ok as [Ht1 Hg1]. destruct eve_alone_ok as [Ht2 Hg2].
  destruct (friendship_any_server queue_max (user_server 401 [ann]) kernel (view_of ann_alone)
    (header Cmd_User_AddFriend_Req 7) [107] 107 ann (package Cmd_User_AddFriend_Req 7 [107]) 0
    (user_server 402 [eve]) (view_of eve_alone) eve) as (k' & s' & now & Hr & _ & Hb).
  - by apply user_server_rep.
  - exact Hg1.
  - by apply header_ok.
  - apply mread_package.
  - done.
  - done.
  - done.
  - apply lookup_singleton_eq.
  - by apply user_server_rep.
  - exact Hg2.
  - by apply lookup_singleton_ne.
  - apply lookup_singleton_eq.
  - done.
  - done.
  - set (h' := rsp_header _ _ _ _) in *. set (body' := enc_UserAddFriendReq _ _ _) in *.
    assert (zlen (xyin_bytes h' ++ body') = 34 + zlen body') as Hz by (by rewrite zlen_app, zlen_xyin_bytes).
    destruct (Hb kernel (xyin_bytes h' ++ body') 0) as (k2 & s2 & t1 & t2 & t3 & Hr2 & _).
    { rewrite <- Hz. apply mread_all. }
    eexists k', s', (xyin_bytes h' ++ body'), k2, s2, _. split; [exact Hr|]. rewrite Hz. exact Hr2.
Defined.

Lemma load_on_demand_witness :
  ∃ k1 s1 k2 d2 k3 s3 buf' r j now,
    DealPkg (user_server 401 [bob]) kernel waiting 0 (34 + zlen [8]) = Ok (k1, s1, 0) ∧
    CLoaderUser.EntityOnce (share s1 (loader (db_with ann) [])) k1 = Ok (k2, d2, true) ∧
    FromLoader (shared d2 s1) k2 big = Ok (k3, s3, buf', r) ∧ reloaded ann j now.
Proof.
  destruct bob_alone_ok as [Ht Hg].
  destruct (load_on_demand queue_max (user_server 401 [bob]) (view_of bob_alone) kernel waiting 0
    (header Cmd_User_AddFriend_Req 7) [8] 7 ann (loader (db_with ann) []) (conn (db_with ann)) big)
    as (k1 & s1 & k2 & d2 & k3 & s3 & buf' & j & now & t1 & t2 & t3 & Hr1 & Hr2 & Hr3 & Hrl & _).
  - by apply user_server_rep.
  - exact Hg.
  - done.
  - apply queue_rep.
  - apply zlen_buff.
  - by apply header_ok.
  - apply mread_package.
  - unfold missing. change (XYHeaderIn.CmdID _ =? Cmd_User_AddFriend_Req) with true. cbn [dec_AddFriendReq user_proto mbind option_bind].
    change (XYHeaderIn.UserID (header Cmd_User_AddFriend_Req 7)) with 7.
    change (v_users (view_of bob_alone)) with bob_alone. unfold bob_alone. by rewrite lookup_singleton_ne.
  - lia.
  - apply with_stored; [apply ann_ok|by apply registered_range].
  - apply ann_plain.
  - rewrite (user_server_limits 401 _ _ Ht). unfold view_of, v_users, bob_alone. by rewrite map_size_singleton.
  - by vm_compute.
  - vm_compute. reflexivity.
  - by vm_compute.
  - vm_compute. reflexivity.
  - eexists k1, s1, k2, d2, k3, s3, buf', _, j, now.
    split; [exact Hr1|]. split; [exact Hr2|]. split; [exact Hr3|exact Hrl].
Defined.

Lemma second_load_loses_package_witness :
  ∃ k1 d1 k2 s2 buf', CLoaderUser.EntityOnce (share (asked [ann; bob]) (loader (db_with ann) [])) kernel = Ok (k1, d1, true) ∧
    FromLoader (shared d1 (asked [ann; bob])) k1 big = Ok (k2, s2, buf', false) ∧ urep s2 (view_of ann_bob).
Proof.
  destruct ann_bob_ok as [Ht Hg]. destruct (asked_rep _ _ Ht) as [Hv Hs].
  destruct (second_load_loses_package queue_max (asked [ann; bob]) _ kernel (header Cmd_User_AddFriend_Req 7) [8]
    7 ann ann (loader (db_with ann) []) (conn (db_with ann)) big Hv)
    as (k1 & d1 & k2 & s2 & buf' & Hr1 & Hr2 & Hv2 & _).
  - exact Hg.
  - by apply header_ok.
  - apply zlen_buff.
  - rewrite (ss_load _ _ Hs). apply queue_rep.
  - done.
  - unfold v_users, ann_bob. rewrite lookup_insert_ne by done. apply lookup_singleton_eq.
  - lia.
  - apply with_stored; [apply ann_ok|by apply registered_range].
  - apply ann_plain.
  - by vm_compute.
  - by vm_compute.
  - rewrite (ss_load _ _ Hs). vm_compute. reflexivity.
  - exists k1, d1, k2, s2, buf'. split; [exact Hr1|]. split; [exact Hr2|exact Hv2].
Defined.

Lemma write_then_load_witness :
  ∃ w' (d : CLoaderUser.t CShmQueue.t SimDb.t) k' d' j now, CWriterUser.ProcessWriterUserInfo (writer empty_db [ann]) 7 = Ok (w', 0) ∧
    CLoaderUser.EntityOnce (share (asked [bob]) d) kernel = Ok (k', d', true) ∧ reloaded ann j now.
Proof.
  destruct ann_alone_ok as [Ht Hg]. destruct bob_alone_ok as [Ht2 _]. destruct (asked_rep _ _ Ht2) as [Hv Hs].
  pose proof (writer_works empty_db _ _ Ht) as Hw.
  destruct (ProcessWriterUserInfo_ok (writer empty_db [ann]) ann_alone 7 (conn empty_db) Hw) as (cfg & _ & Hp);
    [lia|exact Hg|apply conn_of_both|].
  unfold ann_alone in Hp at 1. rewrite lookup_singleton_eq in Hp.
  set (sql := replace_text _ _ _) in Hp. pose proof (SimDb_query empty_db sql) as Hq0.
  destruct (CMySQL.Query (conn empty_db) sql) as [c1 r]. cbn [snd] in Hq0. subst r.
  destruct Hp as (w' & Hpr & _ & _ & Hset & _). change (if negb (0 =? 0) then -2 else 0) with 0 in Hpr.
  assert (conn_of (CWriterUser.m_DBConn w') 7 c1) as Hc1.
  { change (aset [conn empty_db; conn empty_db] 1 c1 = Ok (CWriterUser.m_DBConn w')) in Hset.
    change (Ok [conn empty_db; c1] = Ok (CWriterUser.m_DBConn w')) in Hset. injection Hset as <-. reflexivity. }
  destruct (write_then_load queue_max (writer empty_db [ann]) w' ann_alone 7 ann (conn empty_db) c1
    (loader (CMySQL.m_MYSQL c1) []) (conn (CMySQL.m_MYSQL c1)) (asked [bob])
    (View [] [enc_LoadUserInfoReq 7 waiting] [] bob_alone) kernel waiting Hw)
    as (k' & d' & j & now & Hr & Hrl & _).
  - lia.
  - exact Hg.
  - apply lookup_singleton_eq.
  - by apply registered_range.
  - apply ann_plain.
  - apply conn_of_both.
  - exact Hpr.
  - exact Hc1.
  - reflexivity.
  - apply conns_ok.
  - apply conn_of_both.
  - reflexivity.
  - intros cfg' _. apply SimDb_select.
  - exact Hv.
  - reflexivity.
  - rewrite (ss_load _ _ Hs). apply queue_rep.
  - by apply lookup_singleton_ne.
  - rewrite (ss_limits _ _ Hs), (user_server_limits 401 _ _ Ht2).
    unfold v_users, bob_alone. by rewrite map_size_singleton.
  - by vm_compute.
  - by vm_compute.
  - exists w', (loader (CMySQL.m_MYSQL c1) []), k', d', j, now. split; [exact Hpr|]. split; [exact Hr|exact Hrl].
Defined.

Lemma percent_name_stops_loader_witness :
  CLoaderUser.EntityOnce (share (asked [bob]) (loader (db_with mallory) [])) kernel = Fault.
Proof.
  destruct bob_alone_ok as [Ht _]. destruct (asked_rep _ _ Ht) as [Hv _].
  apply (percent_name_stops_loader (asked [bob]) _ kernel (loader (db_with mallory) []) (conn (db_with mallory))
    7 mallory waiting [77] [115] Hv).
  - reflexivity.
  - apply with_stored; [apply registered_ok|by apply registered_range].
  - lia.
  - by vm_compute.
  - vm_compute. reflexivity.
  - unfold plain. apply (bool_decide_unpack _). by vm_compute.
  - done.
Defined.

Lemma first_query_fails_witness :
  CLoaderUser.EntityOnce (share (asked [bob]) DownDb.loader) kernel = Fault.
Proof.
  destruct bob_alone_ok as [Ht _]. destruct (asked_rep _ _ Ht) as [Hv _].
  apply (first_query_fails (asked [bob]) _ kernel DownDb.loader DownDb.conn 7 waiting Hv).
  - apply DownDb.down_conns_ok.
  - lia.
  - reflexivity.
  - by vm_compute.
  - reflexivity.
  - reflexivity.
  - intros cfg _. done.
Defined.
End examples.
