(* ===== verification/AuthServe.v ===== *)
(** The authentication server ([CAuth] of auth/auth_proc.cpp): passwords are in
    a database, and statements are texts made of what clients send. *)
From Stdlib Require Import String.
From stdpp Require Import gmap sorting.
From S2P Require Import Prelude Fifo Wire HashList Kernel ConnInfo BusState BusRoute IniFile ConnState.
From S2P Require Import UserState UserServe Mysql UserStore.

#[local] Open Scope Z_scope.
#[local] Arguments Z.add : simpl never.
#[local] Arguments Z.eqb : simpl never.
#[local] Arguments Z.ltb : simpl never.
#[local] Arguments Z.leb : simpl never.

Definition AUTH_DATABASE_NUM : Z := 2.

(** * Texts of statements *)
Definition select_passwd_text (table id : list Z) : list Z :=
  (bytes "select passwd from " ++ table ++ bytes " where userid=" ++ id)%list.
Definition insert_text (table id pw : list Z) : list Z :=
  (bytes "insert into " ++ table ++ bytes " (userid, passwd) values (" ++ id ++ bytes ", '" ++ pw ++ bytes "')")%list.

(** The Protocol Buffers messages the server reads and writes; [userid] of
    AuthLoginRsp has 32 bits. *)
Class AuthProto : Type := {
  dec_AuthRegisterReq : list Z → option (list Z * UserFields);   (** password, fields *)
  dec_AuthLoginReq : list Z → option (Z * list Z * Z);           (** user, password, platform *)
  enc_AuthRegisterRsp : Z → UserFields → Z → list Z;             (** user, fields, ret *)
  enc_AuthLoginRsp : Z → Z → list Z;                             (** user, ret *)
  enc_AuthState : Z → Z → list Z;
}.

Module CAuth.

Record t (Q D : Type) : Type := mk {
  m_ServerID : Z; m_StateTime : Z;
  m_DBConfig : list DBConfig; m_DBConn : list (CMySQL.t D);
  m_SendQueue : Q; m_RecvQueue : Q;
  m_pSendBuff : list Z }.
Arguments mk {Q D}.
Arguments m_ServerID {Q D}.
Arguments m_StateTime {Q D}.
Arguments m_DBConfig {Q D}.
Arguments m_DBConn {Q D}.
Arguments m_SendQueue {Q D}.
Arguments m_RecvQueue {Q D}.
Arguments m_pSendBuff {Q D}.

Section operations.
Context {Q D K : Type} `{FifoOps Q} `{MySQL D} `{Kernel K} `{AuthProto}.
Implicit Types (s : t Q D) (k : K) (c : CMySQL.t D).

Definition set_conn s (i : Z) c : outcome (t Q D) :=
  l ← aset (m_DBConn s) i c;
  Ok (mk (m_ServerID s) (m_StateTime s) (m_DBConfig s) l (m_SendQueue s) (m_RecvQueue s) (m_pSendBuff s)).
Definition set_send s (q : Q) (buf : list Z) : t Q D :=
  mk (m_ServerID s) (m_StateTime s) (m_DBConfig s) (m_DBConn s) q (m_RecvQueue s) buf.
Definition set_recv s (q : Q) : t Q D :=
  mk (m_ServerID s) (m_StateTime s) (m_DBConfig s) (m_DBConn s) (m_SendQueue s) q (m_pSendBuff s).

Definition GetServerID s : Z := i32 (m_ServerID s).

(** * Messages, sent as the user server does *)
Definition EnqueueSend s (PkgLen : Z) : outcome (t Q D * Z) :=
  d ← mread (m_pSendBuff s) 0 PkgLen;
  '(q, Ret) ← q_in (m_SendQueue s) d PkgLen;
  Ok (set_send s q (m_pSendBuff s), if Ret =? 0 then 0 else -1).

Definition bus_header s (PkgLen CmdID DstID SendType Flag : Z) : BusHeader.t :=
  BusHeader.mk (u32 PkgLen) CmdID (u32 (GetServerID s)) DstID 0 SendType Flag.

Definition Send2Server s (Header : XYHeaderIn.t) (DstID SendType Flag : Z) (Message : list Z)
    : outcome (t Q D * Z) :=
  let HeaderLen := BusHeader.GetHeaderLen + XYHeaderIn.GetHeaderLen in
  let h := bus_header s (HeaderLen + zlen Message) Cmd_Transfer DstID SendType Flag in
  '(buf, _) ← BusHeader.Write h (m_pSendBuff s) 0;
  '(buf, _) ← XYHeaderIn.Write Header buf BusHeader.GetHeaderLen;
  if XY_PKG_MAX_LEN - HeaderLen <? zlen Message then Ok (set_send s (m_SendQueue s) buf, -1) else
  buf ← mwrite buf HeaderLen Message;
  EnqueueSend (set_send s (m_SendQueue s) buf) (BusHeader.PkgLen h).

Definition SendStateMessage s : outcome (t Q D * Z) :=
  let HeaderLen := BusHeader.GetHeaderLen in
  let Msg := enc_AuthState (GetServerID s) BUS_SVR_ONLINE in
  let h := bus_header s (HeaderLen + zlen Msg) Cmd_StateChange 0 TO_SRV 0 in
  '(buf, _) ← BusHeader.Write h (m_pSendBuff s) 0;
  if XY_PKG_MAX_LEN - HeaderLen <? zlen Msg then Ok (set_send s (m_SendQueue s) buf, -1) else
  buf ← mwrite buf HeaderLen Msg;
  EnqueueSend (set_send s (m_SendQueue s) buf) (BusHeader.PkgLen h).

(** * The database *)

(** [strResult != strPasswd]. *)
Definition CheckRow (CurRow : option row) (CurRowLen : option (list Z)) (strPasswd : list Z) : outcome Z :=
  match CurRow, CurRowLen with
  | Some CurRow, Some CurRowLen =>
      x ← aget CurRow 0; len ← aget CurRowLen 0;
      match x with
      | None => Ok 1
      | Some x =>
          if len =? 0 then Ok 1
          else Ok (if bool_decide (take (Z.to_nat len) x = strPasswd) then 0 else 2)
      end
  | _, _ => Fault
  end.

(** 0: let in.  1: an error.  2: a wrong password, or no such user.  The result
    of the query stays with the connection. *)
Definition LoginCheck s (UserID : Z) (strPasswd : list Z) (Plat : Z) : outcome (t Q D * Z) :=
  let DBIndex := GetUserDBIndex UserID in
  cfg ← aget (m_DBConfig s) DBIndex;
  sql ← CLoaderUser.Statement 1024 (select_passwd_text (user_table cfg UserID) (fmt_lu UserID));
  c ← aget (m_DBConn s) DBIndex;
  let '(c, Ret, RecNum) := CMySQL.QueryRes c sql 0 in
  s ← set_conn s DBIndex c;
  if negb (Ret =? 0) then Ok (s, 1) else
  if RecNum =? 0 then Ok (s, 2) else
  '(c, CurRow) ← CMySQL.FetchRecord c;
  s ← set_conn s DBIndex c;
  CurRowLen ← CMySQL.FetchLength c;
  r ← CheckRow CurRow CurRowLen strPasswd;
  Ok (s, r).

(** 0, or 1 for an error; and the new user's number, which is the time. *)
Definition Register s k (strPasswd : list Z) : outcome (K * t Q D * Z * Z) :=
  let '(k, now) := k_time k in
  let UserID := u64 now in
  let DBIndex := GetUserDBIndex UserID in
  cfg ← aget (m_DBConfig s) DBIndex;
  sql ← CLoaderUser.Statement 1024 (insert_text (user_table cfg UserID) (fmt_lu UserID) (cstr strPasswd));
  c ← aget (m_DBConn s) DBIndex;
  let '(c, Ret) := CMySQL.Query c sql in
  s ← set_conn s DBIndex c;
  Ok (k, s, UserID, if negb (Ret =? 0) then 1 else 0).

(** * Packages *)
Definition OnRegisterReq s k (h : XYHeaderIn.t) (body : list Z) : outcome (K * t Q D * Z) :=
  match dec_AuthRegisterReq body with
  | None => Ok (k, s, -1)
  | Some (strPasswd, f) =>
      '(k, s, UserID, Ret) ← Register s k strPasswd;
      let '(k, now) := k_time k in
      '(s, _) ← Send2Server s (CUser.rsp_header (u32 (GetServerID s)) Cmd_Auth_Register_Rsp h now)
                  (XYHeaderIn.SrcID h) TO_SRV 0 (enc_AuthRegisterRsp UserID f Ret);
      Ok (k, s, 0)
  end.

Definition OnLoginReq s k (h : XYHeaderIn.t) (body : list Z) : outcome (K * t Q D * Z) :=
  match dec_AuthLoginReq body with
  | None => Ok (k, s, -1)
  | Some (UserID, strPasswd, Plat) =>
      '(s, Result) ← LoginCheck s UserID strPasswd Plat;
      let '(k, now) := k_time k in
      '(s, _) ← Send2Server s (CUser.rsp_header (u32 (GetServerID s)) Cmd_Auth_Login_Rsp h now)
                  (XYHeaderIn.SrcID h) TO_SRV 0 (enc_AuthLoginRsp (i32 UserID) Result);
      Ok (k, s, 0)
  end.

(** The package of [PkgLen] bytes at [o] in [m]. *)
Definition DealPkg s k (m : list Z) (o PkgLen : Z) : outcome (K * t Q D * Z) :=
  '(h, _) ← XYHeaderIn.Read m o;
  let body := mread m (o + XYHeaderIn.GetHeaderLen) (PkgLen - XYHeaderIn.GetHeaderLen) in
  let CmdID := XYHeaderIn.CmdID h in
  if CmdID =? Cmd_Auth_Register_Req then body ← body; OnRegisterReq s k h body
  else if CmdID =? Cmd_Auth_Login_Req then body ← body; OnLoginReq s k h body
  else Ok (k, s, 0).

(** * The loop *)
Definition FromBus s k (pRecvBuff : list Z) : outcome (K * t Q D * list Z * bool) :=
  '(q, Ret, RecvLen, d) ← q_out (m_RecvQueue s) XY_PKG_MAX_LEN;
  buf ← mwrite pRecvBuff 0 d;
  let s := set_recv s q in
  if Ret =? Q_EMPTY then Ok (k, s, buf, true)
  else if negb (Ret =? 0) then Ok (k, s, buf, false)
  else
    _ ← BusHeader.Read buf 0;
    '(k, s, Ret) ← DealPkg s k buf BusHeader.GetHeaderLen (RecvLen - BusHeader.GetHeaderLen);
    Ok (k, s, buf, Ret =? 0).

Definition RunOnce s k (LastStateTime : Z) (pRecvBuff : list Z) : outcome (K * t Q D * Z * list Z) :=
  '(k, s, buf, go) ← FromBus s k pRecvBuff;
  if negb go then Ok (k, s, LastStateTime, buf) else
  let '(k, NowTime) := k_time k in
  if m_StateTime s <=? NowTime - LastStateTime
  then '(s, _) ← SendStateMessage s; Ok (k, s, NowTime, buf)
  else Ok (k, s, LastStateTime, buf).

(** [n] rounds. *)
Fixpoint Run (n : nat) s k (LastStateTime : Z) (pRecvBuff : list Z) : outcome (K * t Q D * Z * list Z) :=
  match n with
  | O => Ok (k, s, LastStateTime, pRecvBuff)
  | S n => '(k, s, last, buf) ← RunOnce s k LastStateTime pRecvBuff; Run n s k last buf
  end.
End operations.
End CAuth.
