(* ===== verification/AuthFacts.v ===== *)
(** What the authentication server does to its database and says to the
    connection servers. *)
From Stdlib Require Import String.
From stdpp Require Import gmap sorting.
From S2P Require Import Prelude Fifo Wire HashList Kernel ConnInfo BusState BusConn BusRoute BusFacts.
From S2P Require Import IniFile ConnState ConnServe ConnFacts UserState UserServe UserSpec UserFacts.
From S2P Require Import UserLoop Mysql UserStore UserStoreFacts AuthServe.
Import CAuth.

#[local] Open Scope Z_scope.
#[local] Open Scope list_scope.
#[local] Arguments Z.add : simpl never.
#[local] Arguments Z.eqb : simpl never.
#[local] Arguments Z.ltb : simpl never.
#[local] Arguments Z.leb : simpl never.

(** * The database of passwords *)

(** A text between quotes that ends where it should. *)
Definition literal (s : list Z) : Prop := (39 ∉ s) ∧ (92 ∉ s) ∧ (0 ∉ s).

(** [passwd d table id]: the column of that name in the row of the user, whose
    number is the key of the table; it can be NULL. *)
Class AuthDB (D : Type) `{MySQL D} : Type := {
  passwd : D → list Z → Z → option (option (list Z));
  ap_ping d d' r t i : mysql_ping d = (d', r) → passwd d' t i = passwd d t i;
  ap_connect d d' r t i : mysql_connect d = (d', r) → passwd d' t i = passwd d t i;
  ap_select d d' t i :
    name_ok t → 0 ≤ i < 2 ^ 64 → mysql_real_query d (select_passwd_text t (fmt_lu i)) = (d', 0) →
    ∀ d2 rows, mysql_store_result d' = (d2, Some rows) →
      rows = match passwd d t i with Some x => [[x]] | None => [] end ∧
      ∀ u j, passwd d2 u j = passwd d u j;
  ap_insert d d' t i pw :
    name_ok t → 0 ≤ i < 2 ^ 64 → literal pw → mysql_real_query d (insert_text t (fmt_lu i) pw) = (d', 0) →
    passwd d t i = None ∧ passwd d' t i = Some (Some pw);
  (** Two rows in one statement. *)
  ap_insert2 d d' t i pw j pw2 :
    name_ok t → 0 ≤ i < 2 ^ 64 → 0 ≤ j < 2 ^ 64 → literal pw → literal pw2 →
    mysql_real_query d (insert_text t (fmt_lu i) (pw ++ bytes "'), (" ++ fmt_lu j ++ bytes ", '" ++ pw2)) = (d', 0) →
    passwd d' t j = Some (Some pw2);
}.

(** What the server makes of what is stored. *)
Definition login_result (x : option (option (list Z))) (pw : list Z) : Z :=
  match x with
  | None => 2
  | Some None | Some (Some []) => 1
  | Some (Some x) => if bool_decide (x = pw) then 0 else 2
  end.

Lemma login_result_0 x pw : login_result x pw = 0 ↔ pw ≠ [] ∧ x = Some (Some pw).
Proof.
  destruct x as [[[|c x]|]|]; cbn; try (split; [discriminate|by intros [? [= <-]]]).
  case_bool_decide as E; [subst pw; done|]. split; [done|]. intros [_ [= ?]]. done.
Qed.

Section facts.
Context {Q D K : Type} `{FifoQueue Q} `{AuthDB D} `{Kernel K} `{!KernelClock K} `{AuthProto}.
Hypothesis Hmax : XY_PKG_MAX_LEN ≤ q_max.
Implicit Types (s : t Q D) (k : K) (c : CMySQL.t D) (u : Z) (pw : list Z) (ms : list (list Z)).

Definition passwd_of c t u : option (option (list Z)) := passwd (CMySQL.m_MYSQL c) t u.

(** * Queries *)
Lemma Send_passwd c sql c' :
  CMySQL.m_nAutoCommit c = 1 → CMySQL.Send c sql = (c', 0) →
  ∃ d, (∀ t u, passwd d t u = passwd_of c t u) ∧ mysql_real_query d sql = (CMySQL.m_MYSQL c', 0) ∧
    CMySQL.m_nAutoCommit c' = 1.
Proof.
  intros Ha Hs.
  destruct (mysql_Send_ok (λ d, ∀ t u, passwd d t u = passwd_of c t u) c sql c') as (d & ? & ? & _ & ?); try done.
  - intros d d' r E Hd t u. by rewrite (ap_ping _ _ _ _ _ E).
  - intros d d' r E Hd t u. by rewrite (ap_connect _ _ _ _ _ E).
  - by exists d.
Qed.

Lemma QueryRes_passwd c t u c' n n' :
  name_ok t → 0 ≤ u < 2 ^ 64 → CMySQL.m_nAutoCommit c = 1 →
  CMySQL.QueryRes c (select_passwd_text t (fmt_lu u)) n = (c', 0, n') →
  CMySQL.m_nAutoCommit c' = 1 ∧ (∀ t u, passwd_of c' t u = passwd_of c t u) ∧
  match passwd_of c t u with
  | Some x => n' = 1 ∧ CMySQL.m_pRes c' = CMySQL.Res None [[x]]
  | None => n' = 0 ∧ CMySQL.m_pRes c' = CMySQL.Res None []
  end.
Proof.
  intros Ht Hu Ha. unfold CMySQL.QueryRes. destruct (CMySQL.Send c _) as [c1 r1] eqn:E1.
  destruct (Z.eqb_spec r1 0) as [->|]; cbn [negb]; [|congruence].
  destruct (Send_passwd c _ c1 Ha E1) as (d & Hd & Hq & Ha1).
  destruct (mysql_store_result (CMySQL.m_MYSQL c1)) as [d2 [rows|]] eqn:E2; [|done].
  destruct (ap_select _ _ t u Ht Hu Hq d2 rows E2) as [-> Hd2]. rewrite Hd.
  intros [= <- <-]. cbn [CMySQL.m_nAutoCommit CMySQL.set_res CMySQL.set_db CMySQL.m_pRes].
  split_and!; [done|intros t' u'; unfold passwd_of; cbn; by rewrite Hd2, Hd|].
  by destruct (passwd_of c t u).
Qed.

Lemma QueryRes_auto c sql n : CMySQL.m_nAutoCommit (CMySQL.QueryRes c sql n).1.1 = CMySQL.m_nAutoCommit c.
Proof.
  unfold CMySQL.QueryRes. pose proof (Send_auto c sql) as Hs. destruct (CMySQL.Send c sql) as [c1 r]. cbn in Hs.
  destruct (negb (r =? 0)); [done|]. by destruct (mysql_store_result _) as [d [rows|]].
Qed.

(** * The server *)
Record arep s ms : Prop := {
  ar_send : q_rep (m_SendQueue s) ms;
  ar_sbuff : zlen (m_pSendBuff s) = XY_PKG_MAX_LEN;
  ar_db : store_ok (m_DBConfig s) (m_DBConn s);
}.

(** What dealing with packages never changes. *)
Record same_auth s s' : Prop := {
  sa_id : m_ServerID s' = m_ServerID s;
  sa_state : m_StateTime s' = m_StateTime s;
  sa_cfg : m_DBConfig s' = m_DBConfig s;
  sa_recv : m_RecvQueue s' = m_RecvQueue s;
  sa_cap : q_cap (m_SendQueue s') = q_cap (m_SendQueue s);
}.
#[export] Instance same_auth_refl : Reflexive same_auth.
Proof. by constructor. Qed.
#[export] Instance same_auth_trans : Transitive same_auth.
Proof. intros ??? [] []. constructor; congruence. Qed.

Lemma set_conn_keeps s ms u c :
  arep s ms → CMySQL.m_nAutoCommit c = 1 →
  ∃ s', set_conn s (GetUserDBIndex u) c = Ok s' ∧ arep s' ms ∧ same_auth s s' ∧ conn_of (m_DBConn s') u c ∧
    m_SendQueue s' = m_SendQueue s ∧ m_pSendBuff s' = m_pSendBuff s ∧
    (∀ v x, GetUserDBIndex v ≠ GetUserDBIndex u → conn_of (m_DBConn s) v x → conn_of (m_DBConn s') v x).
Proof.
  intros [Hq Hb Hdb] Ha. unfold set_conn.
  destruct (db_set_conn_ok _ _ u c Hdb Ha) as (l & -> & Hst & Hc & Hoth). cbn [mbind outcome_bind].
  eexists. split; [done|]. split_and!; try done. intros v x Hne Hv. by destruct (Hoth v x Hv).
Qed.

(** ** Messages *)
Definition as_conn s : CConn.t Q :=
  CConn.mk (GetServerID s) 0 0 ∅ None 0 0 (m_RecvQueue s) (m_SendQueue s) (m_pSendBuff s)
    (m_pSendBuff s) 0 no_gns.
Definition sent_by s (r : outcome (CConn.t Q * Z)) : outcome (t Q D * Z) :=
  '(c, x) ← r; Ok (set_send s (CConn.m_SendQueue c) (CConn.m_pSendBuff c), x).

Lemma auth_EnqueueSend_conn s n : EnqueueSend s n = sent_by s (CConn.EnqueueSend (as_conn s) n).
Proof.
  unfold EnqueueSend, sent_by, CConn.EnqueueSend. cbn. destruct (mread _ _ _); cbn; [|done..].
  by destruct (q_in _ _ _) as [[]| |].
Qed.

Lemma auth_Send2Server_conn s hdr dst st fl msg :
  Send2Server s hdr dst st fl msg = sent_by s (CConn.Send2ServerMsg (as_conn s) hdr dst st fl msg).
Proof.
  unfold Send2Server, sent_by, CConn.Send2ServerMsg, bus_header, CConn.bus_header. cbn -[BusHeader.Write XYHeaderIn.Write].
  destruct (BusHeader.Write _ _ _) as [[buf ?]| |]; cbn -[XYHeaderIn.Write]; [|done..].
  destruct (XYHeaderIn.Write _ _ _) as [[buf2 ?]| |]; cbn; [|done..].
  destruct (_ <? _); cbn; [done|]. destruct (mwrite buf2 _ msg) as [buf3| |]; cbn; [|done..].
  rewrite auth_EnqueueSend_conn. unfold sent_by, CConn.EnqueueSend. cbn.
  destruct (mread buf3 _ _); cbn; [|done..]. by destruct (q_in _ _ _) as [[]| |].
Qed.

Lemma auth_as_conn_rep s ms : arep s ms → crep (as_conn s) ms ∅.
Proof. intros []. constructor; try done. apply no_gns_rep. Qed.

Lemma auth_sent_by_ok s ms (x : CConn.t Q) r ms' :
  arep s ms → sent (as_conn s) x → crep x ms' ∅ →
  ∃ s', sent_by s (Ok (x, r)) = Ok (s', r) ∧ same_auth s s' ∧ m_DBConn s' = m_DBConn s ∧ arep s' ms'.
Proof.
  intros [] Hs []. eexists. split; [done|]. split; [|split; [done|by constructor]].
  constructor; try done. apply (sv_cap _ _ (st_srv _ _ Hs)).
Qed.

Definition answer s ms hdr (dst : Z) (body : list Z) : list (list Z) :=
  emit (q_cap (m_SendQueue s)) ms (srv_msg (GetServerID s) dst TO_SRV 0 (xyin_bytes hdr ++ body)).

Lemma auth_Send2Server_ok s ms hdr dst msg :
  arep s ms →
  ∃ s' r, Send2Server s hdr dst TO_SRV 0 msg = Ok (s', r) ∧ same_auth s s' ∧ m_DBConn s' = m_DBConn s ∧
    arep s' (answer s ms hdr dst msg).
Proof.
  intros Hv. destruct (Send2ServerMsg_ok Hmax _ _ _ hdr dst TO_SRV 0 msg (auth_as_conn_rep s ms Hv))
    as (c & r & Hc & Hs & Hr).
  destruct (auth_sent_by_ok s ms c r _ Hv Hs Hr) as (s' & He & ? & ? & ?).
  exists s', r. split; [by rewrite auth_Send2Server_conn, Hc|done].
Qed.

#[local] Instance state_proto : ConnProto := {|
  dec_LoginReq _ := None; dec_RegisterReq _ := None; dec_AuthRegisterRsp _ := None;
  dec_UserRegisterRsp _ := None; dec_AuthLoginRsp _ := None; dec_LoginDatas _ := None;
  dec_LoginSyncReq _ := None; enc_AuthLoginReq _ _ _ := []; enc_AuthRegisterReq _ _ := [];
  enc_UserRegisterReq _ _ := []; enc_RegisterRsp _ _ := []; enc_LoginRsp _ := [];
  enc_LoginDatas _ := []; enc_LoginSyncReq _ := []; enc_StateChange := enc_AuthState;
  enc_ErrorMsg _ := [] |}.

Lemma auth_SendStateMessage_conn s : SendStateMessage s = sent_by s (CConn.SendStateMessage (as_conn s)).
Proof.
  unfold SendStateMessage, sent_by, CConn.SendStateMessage, bus_header, CConn.bus_header.
  cbn -[BusHeader.Write].
  destruct (BusHeader.Write _ _ _) as [[buf ?]| |]; cbn; [|done..].
  destruct (_ <? _); cbn; [done|]. destruct (mwrite buf _ _) as [buf3| |]; cbn; [|done..].
  rewrite auth_EnqueueSend_conn. unfold sent_by, CConn.EnqueueSend. cbn.
  destruct (mread buf3 _ _); cbn; [|done..]. by destruct (q_in _ _ _) as [[]| |].
Qed.

Lemma SendStateMessage_sent s ms :
  arep s ms →
  ∃ s' r ms', SendStateMessage s = Ok (s', r) ∧ same_auth s s' ∧ m_DBConn s' = m_DBConn s ∧ arep s' ms'.
Proof.
  intros Hv. destruct (SendStateMessage_ok Hmax _ _ _ (auth_as_conn_rep s ms Hv)) as (c & r & Hc & Hs & Hr).
  destruct (auth_sent_by_ok s ms c r _ Hv Hs Hr) as (s' & He & ? & ? & ?).
  eexists s', r, _. split; [by rewrite auth_SendStateMessage_conn, Hc|done].
Qed.

(** ** Logins *)

(** What the query for a password answers. *)
Definition login_answer s c u pw : Z :=
  match aget (m_DBConfig s) (GetUserDBIndex u) with
  | Ok cfg =>
      if (CMySQL.QueryRes c (select_passwd_text (user_table cfg u) (fmt_lu u)) 0).1.2 =? 0
      then login_result (passwd_of c (user_table cfg u) u) pw else 1
  | _ => 1
  end.

Lemma user_table_ok cfgs conns u :
  store_ok (D := D) cfgs conns → 0 ≤ u < 2 ^ 64 →
  ∃ cfg, aget cfgs (GetUserDBIndex u) = Ok cfg ∧ name_ok (user_table cfg u) ∧ (0 ∉ user_table cfg u) ∧
    zlen (user_table cfg u) ≤ 150.
Proof.
  intros Hst Hu. destruct (store_table _ _ u Hst Hu) as (cfg & Hg & Hn & _). exists cfg.
  split; [done|]. split; [done|]. pose proof (st_names _ _ Hst) as Hns. rewrite Forall_lookup in Hns.
  destruct (Hns (Z.to_nat (GetUserDBIndex u)) cfg) as (_ & _ & H1' & H2' & Hlen); [by apply aget_Some|].
  assert (0 ≤ GetUserTableIndex u) as Ht.
  { unfold GetUserTableIndex, USER_TABLE_NUM. pose proof (Z.mod_pos_bound (u / 10) 2). rewrite i32_small; lia. }
  split.
  - unfold user_table, table_name. rewrite !not_elem_of_app.
    split_and!; first [assumption|apply fmt_no_nul; lia|by apply (bool_decide_unpack _)].
  - unfold user_table. rewrite zlen_table_name. unfold fmt_lu.
    pose proof (zlen_digits 20 (GetUserTableIndex u)). lia.
Qed.

Lemma select_passwd_ok cfgs conns u :
  store_ok (D := D) cfgs conns → 0 ≤ u < 2 ^ 64 →
  ∃ cfg, aget cfgs (GetUserDBIndex u) = Ok cfg ∧ name_ok (user_table cfg u) ∧
    CLoaderUser.Statement 1024 (select_passwd_text (user_table cfg u) (fmt_lu u))
      = Ok (select_passwd_text (user_table cfg u) (fmt_lu u)).
Proof.
  intros Hst Hu. destruct (user_table_ok _ _ u Hst Hu) as (cfg & Hg & Hn & H0' & Hl).
  exists cfg. split; [done|]. split; [done|]. apply Statement_ok; [done| |].
  - unfold select_passwd_text. rewrite !not_elem_of_app.
    split_and!; first [assumption|apply fmt_no_nul; lia|by apply (bool_decide_unpack _)].
  - unfold select_passwd_text. rewrite !zlen_app. change (zlen (bytes "select passwd from ")) with 19.
    change (zlen (bytes " where userid=")) with 14. unfold fmt_lu. pose proof (zlen_digits 20 u). lia.
Qed.

Lemma CheckRow_ok x pw :
  CheckRow (Some [x]) (Some [match x with Some v => zlen v | None => 0 end]) pw = Ok (login_result (Some x) pw).
Proof.
  unfold CheckRow. change (aget [x] 0) with (Ok x). set (n := match x with Some v => zlen v | None => 0 end).
  change (aget [n] 0) with (Ok n). cbn [mbind outcome_bind]. subst n. destruct x as [[|a v]|]; [done| |done].
  rewrite (proj2 (Z.eqb_neq _ _)) by (rewrite zlen_cons; pose proof (zlen_nonneg v); lia).
  by rewrite take_ge by (unfold zlen; lia).
Qed.

Lemma LoginCheck_ok s ms u pw plat c :
  arep s ms → 0 ≤ u < 2 ^ 64 → conn_of (m_DBConn s) u c →
  ∃ s', LoginCheck s u pw plat = Ok (s', login_answer s c u pw) ∧ arep s' ms ∧ same_auth s s' ∧
    m_SendQueue s' = m_SendQueue s ∧
    ∃ c', conn_of (m_DBConn s') u c' ∧
      (login_answer s c u pw ≠ 1 → ∀ t v, passwd_of c' t v = passwd_of c t v).
Proof.
  intros Hs Hu Hc. pose proof (ar_db _ _ Hs) as Hst. unfold LoginCheck, login_answer.
  destruct (select_passwd_ok _ _ u Hst Hu) as (cfg & Hcfg & Hname & Hstm).
  rewrite Hcfg. cbn [mbind outcome_bind]. rewrite Hstm. cbn [mbind outcome_bind].
  destruct (store_conn _ _ u Hst) as (c' & Hc' & Ha).
  assert (c' = c) as -> by (unfold conn_of in *; congruence).
  unfold conn_of in Hc. rewrite Hc. cbn [mbind outcome_bind].
  pose proof (QueryRes_auto c (select_passwd_text (user_table cfg u) (fmt_lu u)) 0) as Ha1.
  destruct (CMySQL.QueryRes c _ 0) as [[c1 r] n] eqn:Eq. cbn [fst snd] in *. rewrite Ha in Ha1.
  destruct (set_conn_keeps s ms u c1 Hs Ha1) as (s1 & -> & Hs1 & Hsa1 & Hc1 & Hq1 & _). cbn [mbind outcome_bind].
  destruct (Z.eqb_spec r 0) as [->|]; cbn [negb].
  2:{ exists s1. split_and!; try done. by exists c1. }
  destruct (QueryRes_passwd c (user_table cfg u) u c1 0 n Hname Hu Ha Eq) as (_ & Hp & Hres).
  destruct (passwd_of c (user_table cfg u) u) as [x|].
  2:{ destruct Hres as [-> _]. rewrite Z.eqb_refl. exists s1. split_and!; try done. by exists c1. }
  destruct Hres as [-> Hres]. change (1 =? 0) with false. cbv match.
  unfold CMySQL.FetchRecord. rewrite Hres. cbn [mbind outcome_bind].
  set (c2 := CMySQL.set_res c1 _).
  destruct (set_conn_keeps s1 ms u c2 Hs1 Ha1) as (s2 & -> & Hs2 & Hsa2 & Hc2 & Hq2 & _). cbn [mbind outcome_bind].
  unfold CMySQL.FetchLength. cbn [CMySQL.m_pRes c2 CMySQL.set_res mbind outcome_bind fmap list_fmap].
  rewrite CheckRow_ok. cbn [mbind outcome_bind]. exists s2. split; [done|]. split; [done|].
  split; [by trans s1|]. split; [congruence|]. exists c2. split; [done|]. intros _ t v. apply Hp.
Qed.

(** ** Registrations *)
Lemma zlen_insert_text t i pw : zlen (insert_text t i pw) = 43 + zlen t + zlen i + zlen pw.
Proof.
  unfold insert_text. rewrite !zlen_app. change (zlen (bytes "insert into ")) with 12.
  change (zlen (bytes " (userid, passwd) values (")) with 26. change (zlen (bytes ", '")) with 3.
  change (zlen (bytes "')")) with 2. lia.
Qed.

(** The statement a registration sends. *)
Definition register_text cfg u pw : list Z := insert_text (user_table cfg u) (fmt_lu u) (cstr pw).

Lemma Register_ok s ms k pw :
  arep s ms → zlen (cstr pw) ≤ 800 →
  ∃ k' now, k_time k = (k', now) ∧
  ∀ c, conn_of (m_DBConn s) (u64 now) c →
  ∃ cfg s', aget (m_DBConfig s) (GetUserDBIndex (u64 now)) = Ok cfg ∧ name_ok (user_table cfg (u64 now)) ∧
    let '(c', r) := CMySQL.Query c (register_text cfg (u64 now) pw) in
    Register s k pw = Ok (k', s', u64 now, if r =? 0 then 0 else 1) ∧ arep s' ms ∧ same_auth s s' ∧
    m_SendQueue s' = m_SendQueue s ∧ conn_of (m_DBConn s') (u64 now) c'.
Proof.
  intros Hs Hl. unfold Register. destruct (k_time k) as [k' now] eqn:Et.
  exists k', now. split; [done|]. intros c Hc. set (u := u64 now) in *. pose proof (ar_db _ _ Hs) as Hst.
  assert (0 ≤ u < 2 ^ 64) as Hu by (apply Z.mod_pos_bound; lia).
  destruct (user_table_ok _ _ u Hst Hu) as (cfg & Hcfg & Hname & H0' & Hz).
  rewrite Hcfg. cbn [mbind outcome_bind]. fold (register_text cfg u pw).
  assert (CLoaderUser.Statement 1024 (register_text cfg u pw) = Ok (register_text cfg u pw)) as ->.
  { apply Statement_ok; [done| |].
    - unfold register_text, insert_text. rewrite !not_elem_of_app.
      split_and!; first [assumption|apply fmt_no_nul; lia|apply cstr_no_nul|by apply (bool_decide_unpack _)].
    - unfold register_text. rewrite zlen_insert_text. unfold fmt_lu. pose proof (zlen_digits 20 u). lia. }
  cbn [mbind outcome_bind]. unfold conn_of in Hc. rewrite Hc. cbn [mbind outcome_bind].
  destruct (store_conn _ _ u Hst) as (c0 & Hc0 & Ha).
  assert (c0 = c) as -> by (unfold conn_of in *; congruence).
  unfold CMySQL.Query. pose proof (Send_auto c (register_text cfg u pw)) as Ha1.
  destruct (CMySQL.Send c _) as [c1 r] eqn:Eq. cbn [fst] in Ha1. rewrite Ha in Ha1.
  destruct (set_conn_keeps s ms u c1 Hs Ha1) as (s1 & -> & Hs1 & Hsa1 & Hc1 & Hq1 & _).
  cbn [mbind outcome_bind]. exists cfg, s1. split; [done|]. split; [done|].
  rewrite Eq. split; [by destruct (r =? 0)|done].
Qed.

(** A password that makes the statement longer than its array. *)
Lemma Register_over s ms k pw :
  arep s ms → 1024 - 43 < zlen (cstr pw) → Register s k pw = Fault.
Proof.
  intros Hs Hl. unfold Register. destruct (k_time k) as [k' now]. pose proof (ar_db _ _ Hs) as Hst.
  assert (0 ≤ u64 now < 2 ^ 64) as Hu by (apply Z.mod_pos_bound; lia).
  destruct (user_table_ok _ _ (u64 now) Hst Hu) as (cfg & Hcfg & _). rewrite Hcfg. cbn [mbind outcome_bind].
  rewrite Statement_over; [done|done|]. rewrite zlen_insert_text.
  pose proof (zlen_nonneg (user_table cfg (u64 now))). pose proof (zlen_nonneg (fmt_lu (u64 now))). lia.
Qed.

(** * Packages *)
Lemma OnLoginReq_ok s ms k h body u pw plat c :
  arep s ms → dec_AuthLoginReq body = Some (u, pw, plat) → 0 ≤ u < 2 ^ 64 → conn_of (m_DBConn s) u c →
  ∃ k' s' now, OnLoginReq s k h body = Ok (k', s', 0) ∧ same_auth s s' ∧ k_now k ≤ now ≤ k_now k' ∧
    arep s' (answer s ms (CUser.rsp_header (u32 (GetServerID s)) Cmd_Auth_Login_Rsp h now) (XYHeaderIn.SrcID h)
               (enc_AuthLoginRsp (i32 u) (login_answer s c u pw))).
Proof.
  intros Hs Hd Hu Hc. unfold OnLoginReq. rewrite Hd.
  destruct (LoginCheck_ok s ms u pw plat c Hs Hu Hc) as (s1 & -> & Hs1 & Hsa1 & Hq1 & _). cbn [mbind outcome_bind].
  destruct (k_time k) as [k1 now] eqn:Et. apply k_time_now in Et.
  assert (GetServerID s1 = GetServerID s) as Hid by (unfold GetServerID; by rewrite (sa_id _ _ Hsa1)).
  destruct (auth_Send2Server_ok s1 ms (CUser.rsp_header (u32 (GetServerID s1)) Cmd_Auth_Login_Rsp h now) (XYHeaderIn.SrcID h)
    (enc_AuthLoginRsp (i32 u) (login_answer s c u pw)) Hs1) as (s2 & r & -> & Hsa2 & _ & Hs2).
  cbn [mbind outcome_bind]. exists k1, s2, now. split; [done|]. split; [by trans s1|]. split; [lia|].
  unfold answer in Hs2. by rewrite Hid, Hq1 in Hs2.
Qed.

Lemma auth_OnRegisterReq_ok s ms k h body pw f :
  arep s ms → dec_AuthRegisterReq body = Some (pw, f) → zlen (cstr pw) ≤ 800 →
  ∃ k1 u, k_time k = (k1, u) ∧
  ∀ c, conn_of (m_DBConn s) (u64 u) c →
  ∃ k' s' now cfg, aget (m_DBConfig s) (GetUserDBIndex (u64 u)) = Ok cfg ∧ name_ok (user_table cfg (u64 u)) ∧
    let '(c', r) := CMySQL.Query c (register_text cfg (u64 u) pw) in
    OnRegisterReq s k h body = Ok (k', s', 0) ∧ same_auth s s' ∧ k_now k ≤ now ≤ k_now k' ∧
    arep s' (answer s ms (CUser.rsp_header (u32 (GetServerID s)) Cmd_Auth_Register_Rsp h now) (XYHeaderIn.SrcID h)
               (enc_AuthRegisterRsp (u64 u) f (if r =? 0 then 0 else 1))) ∧
    conn_of (m_DBConn s') (u64 u) c'.
Proof.
  intros Hs Hd Hl. unfold OnRegisterReq. rewrite Hd.
  destruct (Register_ok s ms k pw Hs Hl) as (k1 & u & Et & Hreg). exists k1, u. split; [done|]. intros c Hc.
  destruct (Hreg c Hc) as (cfg & s1 & Hcfg & Hname & Hr). destruct (k_time k1) as [k2 now] eqn:Et2.
  destruct (CMySQL.Query c _) as [c1 r] eqn:Eq. destruct Hr as (-> & Hs1 & Hsa1 & Hq1 & Hc1). cbn [mbind outcome_bind].
  rewrite Et2. apply k_time_now in Et, Et2.
  assert (GetServerID s1 = GetServerID s) as Hid by (unfold GetServerID; by rewrite (sa_id _ _ Hsa1)).
  destruct (auth_Send2Server_ok s1 ms (CUser.rsp_header (u32 (GetServerID s1)) Cmd_Auth_Register_Rsp h now) (XYHeaderIn.SrcID h)
    (enc_AuthRegisterRsp (u64 u) f (if r =? 0 then 0 else 1)) Hs1) as (s2 & r2 & -> & Hsa2 & Hdb2 & Hs2).
  cbn [mbind outcome_bind]. exists k2, s2, now, cfg. split; [done|]. split; [done|]. rewrite Eq.
  split; [done|]. split; [by trans s1|]. split; [lia|]. split; [|by rewrite Hdb2].
  unfold answer in Hs2. by rewrite Hid, Hq1 in Hs2.
Qed.

(** The package behind the header decides. *)
Lemma DealPkg_body s k m o h body :
  xyin_ok h → mread m o (34 + zlen body) = Ok (xyin_bytes h ++ body) →
  DealPkg s k m o (34 + zlen body) =
    if XYHeaderIn.CmdID h =? Cmd_Auth_Register_Req then OnRegisterReq s k h body
    else if XYHeaderIn.CmdID h =? Cmd_Auth_Login_Req then OnLoginReq s k h body else Ok (k, s, 0).
Proof.
  intros Hh Hm. unfold DealPkg. pose proof (zlen_nonneg body).
  destruct (mread_app m (xyin_bytes h) body o 34 (zlen body)) as [Hm1 Hm2];
    [lia|lia|by rewrite zlen_xyin_bytes|done|].
  rewrite (xyin_Read_bytes h m o Hh Hm1). cbn [mbind outcome_bind].
  change XYHeaderIn.GetHeaderLen with 34. replace (34 + zlen body - 34) with (zlen body) by lia. rewrite Hm2.
  cbn [mbind outcome_bind]. done.
Qed.
End facts.
