(* ===== verification/AuthLoop.v ===== *)
(** The loop of the authentication server. *)
From Stdlib Require Import String.
From stdpp Require Import gmap sorting.
From S2P Require Import Prelude Fifo Wire HashList Kernel ConnInfo BusState BusConn BusRoute BusFacts.
From S2P Require Import IniFile ConnState ConnServe ConnFacts UserState UserServe UserSpec UserFacts.
From S2P Require Import UserLoop Mysql UserStore UserStoreFacts AuthServe AuthFacts.
Import CAuth.

#[local] Open Scope Z_scope.
#[local] Open Scope list_scope.
#[local] Arguments Z.add : simpl never.
#[local] Arguments Z.eqb : simpl never.
#[local] Arguments Z.ltb : simpl never.
#[local] Arguments Z.leb : simpl never.

Section loop.
Context {Q D K : Type} `{FifoQueue Q} `{AuthDB D} `{Kernel K} `{!KernelClock K} `{AuthProto}.
Hypothesis Hmax : XY_PKG_MAX_LEN ≤ q_max.
Implicit Types (s : t Q D) (k : K) (ms rs : list (list Z)).

(** Packages the server can take: both headers, a user's number of 64 bits, a
    password that fits its statement. *)
Record auth_pkg (d : list Z) : Prop := {
  ap_bus : bus_pkg d;
  ap_login u pw plat : dec_AuthLoginReq (drop 60 d) = Some (u, pw, plat) → 0 ≤ u < 2 ^ 64;
  ap_register pw f : dec_AuthRegisterReq (drop 60 d) = Some (pw, f) → zlen (cstr pw) ≤ 800;
}.

(** The server serves: [rs] wait for it. *)
Record alive s ms rs : Prop := {
  aa_rep : arep s ms;
  aa_recv : q_rep (m_RecvQueue s) rs;
  aa_pkgs : Forall auth_pkg rs;
}.

Lemma DealPkg_alive s k ms rs m o n d :
  alive s ms rs → mread m o n = Ok d → Forall byte_ok d → 34 ≤ n →
  (∀ u pw plat, dec_AuthLoginReq (drop 34 d) = Some (u, pw, plat) → 0 ≤ u < 2 ^ 64) →
  (∀ pw f, dec_AuthRegisterReq (drop 34 d) = Some (pw, f) → zlen (cstr pw) ≤ 800) →
  ∃ k' s' r ms', DealPkg s k m o n = Ok (k', s', r) ∧ alive s' ms' rs.
Proof.
  intros [Hs Hq Hp] Hm Hd Hn Hlog Hreg. pose proof (mread_zlen _ _ _ _ Hm) as Hz.
  destruct (split_at d 34) as (d1 & body & -> & Hz1 & Hz2); [lia|].
  assert (drop 34 (d1 ++ body) = body) as Hdr by (apply drop_app_length'; unfold zlen in Hz1; lia).
  rewrite Hdr in Hlog, Hreg. apply Forall_app in Hd as [Hd1 Hd2].
  destruct (mread_app m d1 body o 34 (n - 34)) as [Hm1 _]; [lia|lia|done|by replace (34 + (n - 34)) with n by lia|].
  destruct (xyin_Read_Write m o d1 Hd1 Hm1) as (h & _ & Hh & Hb). subst d1.
  replace n with (34 + zlen body) in * by lia. rewrite (DealPkg_body s k m o h body Hh Hm).
  pose proof (ar_db _ _ Hs) as Hst.
  assert (∀ k1 s1 ms1, same_auth s s1 → arep s1 ms1 → ∃ k' s' r ms', Ok (k1, s1, 0) = Ok (k', s', r) ∧ alive s' ms' rs) as Hend.
  { intros k1 s1 ms1 [] Hs1. exists k1, s1, 0, ms1. split; [done|]. constructor; [done| |done]. by rewrite sa_recv. }
  destruct (_ =? _).
  - destruct (dec_AuthRegisterReq body) as [[pw f]|] eqn:Er.
    2:{ unfold OnRegisterReq. rewrite Er. by exists k, s, (-1), ms. }
    destruct (auth_OnRegisterReq_ok Hmax s ms k h body pw f Hs Er (Hreg _ _ eq_refl)) as (k1 & u & _ & Hok).
    destruct (store_conn _ _ (u64 u) Hst) as (c & Hc & _). destruct (Hok c Hc) as (k' & s' & now & cfg & _ & _ & Hr).
    destruct (CMySQL.Query c _) as [c1 r]. destruct Hr as (-> & Hsa & _ & Hs' & _). by eapply Hend.
  - destruct (_ =? _); [|by apply (Hend k s ms)].
    destruct (dec_AuthLoginReq body) as [[[u pw] plat]|] eqn:Er.
    2:{ unfold OnLoginReq. rewrite Er. by exists k, s, (-1), ms. }
    destruct (store_conn _ _ u Hst) as (c & Hc & _).
    destruct (OnLoginReq_ok Hmax s ms k h body u pw plat c Hs Er (Hlog _ _ _ eq_refl) Hc) as (k' & s' & now & -> & Hsa & _ & Hs').
    by eapply Hend.
Qed.

Lemma auth_FromBus_ok s k buf ms rs :
  alive s ms rs → zlen buf = XY_PKG_MAX_LEN →
  ∃ k' s' buf' go ms' rs', FromBus s k buf = Ok (k', s', buf', go) ∧ zlen buf' = XY_PKG_MAX_LEN ∧
    alive s' ms' rs' ∧ rs' `suffix_of` rs ∧ (rs ≠ [] → length rs' < length rs)%nat.
Proof.
  intros Ha Hb. unfold FromBus. pose proof (aa_recv _ _ _ Ha) as Hq.
  destruct rs as [|d rs].
  { destruct (q_out_empty (m_RecvQueue s) XY_PKG_MAX_LEN) as (q & n & -> & Hq' & _); [done|done|].
    cbn [mbind outcome_bind]. rewrite mwrite_none. cbn [mbind outcome_bind]. rewrite Z.eqb_refl.
    eexists k, _, buf, true, ms, []. split; [done|]. split; [done|]. split; [|done].
    destruct Ha as [[] ? ?]. constructor; [by constructor|done|done]. }
  pose proof (aa_pkgs _ _ _ Ha) as [[[Hd Hz] Hlog Hreg] Hrs]%Forall_cons.
  destruct (q_out_ok (m_RecvQueue s) d rs XY_PKG_MAX_LEN) as (q & -> & Hq' & _); [done|split; [lia|done]|].
  cbn [mbind outcome_bind]. rewrite (mwrite_head d buf) by lia. cbn [mbind outcome_bind].
  set (m := d ++ _). assert (zlen m = XY_PKG_MAX_LEN) as Hzm.
  { unfold m. rewrite zlen_app, zlen_drop_length; lia. }
  change (Q_OK =? Q_EMPTY) with false. change (negb (Q_OK =? 0)) with false. cbn [mbind outcome_bind].
  destruct (split_at d 26) as (d1 & d2 & -> & Hz1 & Hz2); [lia|].
  pose proof Hd as [Hd1 Hd2]%Forall_app.
  destruct (bus_Read_Write m 0 d1 Hd1) as (hb & -> & _).
  { unfold m. rewrite <- app_assoc, <- Hz1. apply mread_head. }
  cbn [mbind outcome_bind].
  assert (alive (set_recv s q) ms rs) as Ha1.
  { destruct Ha as [[] ? ?]. constructor; [by constructor|done|done]. }
  assert (drop 60 (d1 ++ d2) = drop 34 d2) as Hdr.
  { change 60%nat with (26 + 34)%nat. rewrite <- drop_drop, drop_app_length'; [done|]. unfold zlen in Hz1. lia. }
  rewrite Hdr in Hlog, Hreg.
  change BusHeader.GetHeaderLen with 26. replace (zlen (d1 ++ d2) - 26) with (zlen d2) by lia.
  destruct (DealPkg_alive (set_recv s q) k ms rs m 26 (zlen d2) d2 Ha1) as (k' & s' & r & ms' & -> & Ha');
    [|done|lia|done|done|].
  { unfold m. rewrite <- Hz1. apply mread_mid. }
  cbn [mbind outcome_bind]. eexists k', s', m, _, ms', rs. split; [done|]. split; [done|]. split; [done|].
  split; [by exists [d1 ++ d2]|]. cbn. lia.
Qed.

Lemma auth_RunOnce_ok s k last buf ms rs :
  alive s ms rs → zlen buf = XY_PKG_MAX_LEN →
  ∃ k' s' last' buf' ms' rs', RunOnce s k last buf = Ok (k', s', last', buf') ∧ zlen buf' = XY_PKG_MAX_LEN ∧
    alive s' ms' rs' ∧ rs' `suffix_of` rs ∧ (rs ≠ [] → length rs' < length rs)%nat.
Proof.
  intros Ha Hb. unfold RunOnce.
  destruct (auth_FromBus_ok s k buf ms rs Ha Hb) as (k1 & s1 & b1 & go & ms1 & rs1 & -> & Hb1 & Ha1 & Hsuf & Hlt).
  cbn [mbind outcome_bind]. destruct go; cbn [negb]; [|by exists k1, s1, last, b1, ms1, rs1].
  destruct (k_time k1) as [k2 now]. destruct (_ <=? _); [|by exists k2, s1, last, b1, ms1, rs1].
  destruct (SendStateMessage_sent Hmax s1 ms1 (aa_rep _ _ _ Ha1)) as (s2 & r & ms2 & -> & [] & _ & Hs2).
  cbn [mbind outcome_bind]. exists k2, s2, now, b1, ms2, rs1. split_and!; try done.
  constructor; [done|by rewrite sa_recv; apply Ha1|apply Ha1].
Qed.

Lemma auth_Run_ok n s k last buf ms rs :
  alive s ms rs → zlen buf = XY_PKG_MAX_LEN →
  ∃ k' s' last' buf' ms' rs', Run n s k last buf = Ok (k', s', last', buf') ∧ alive s' ms' rs' ∧
    (length rs' ≤ length rs - n)%nat.
Proof.
  revert s k last buf ms rs. induction n as [|n IH]; intros s k last buf ms rs Ha Hb; cbn [Run].
  { exists k, s, last, buf, ms, rs. split_and!; try done. lia. }
  destruct (auth_RunOnce_ok s k last buf ms rs Ha Hb) as (k1 & s1 & last1 & b1 & ms1 & rs1 & -> & Hb1 & Ha1 & Hsuf & Hlt).
  cbn [mbind outcome_bind].
  destruct (IH s1 k1 last1 b1 ms1 rs1 Ha1 Hb1) as (k2 & s2 & last2 & b2 & ms2 & rs2 & -> & Ha2 & Hle).
  exists k2, s2, last2, b2, ms2, rs2. split_and!; try done.
  destruct rs as [|d rs]; [|assert (length rs1 < length (d :: rs))%nat by (by apply Hlt); cbn in *; lia].
  apply suffix_nil_inv in Hsuf as ->. cbn in *. lia.
Qed.
End loop.
