(* ===== verification/AuthExample.v ===== *)
(** An authentication server to run the theorems at, and a database of
    passwords that reads its statements. *)
From Stdlib Require Import String.
From stdpp Require Import gmap sorting.
From S2P Require Import Prelude Fifo Ring ShmQueue Wire HashList Kernel ConnInfo BusState BusConn.
From S2P Require Import BusRoute BusFacts IniFile ConnState ConnServe ConnFacts ConnExample.
From S2P Require Import UserState UserServe UserSpec UserFacts UserLoop Mysql UserStore UserStoreFacts.
From S2P Require Import UserLoad UserExample AuthServe AuthFacts AuthLoop.
Import CAuth.

#[local] Open Scope Z_scope.
#[local] Open Scope list_scope.
#[local] Arguments Z.add : simpl never.

(** * The database *)
Module SimAuth.

(** Passwords by table and number, as written in the statements. *)
Record t : Type := mk { s_rows : gmap (list Z * list Z) (list Z); s_res : option (list row) }.

(** The rows between VALUES and the end. *)
Fixpoint parse_values (fuel : nat) (l : list Z) : list (list Z * list Z) :=
  match fuel with
  | O => []
  | S fuel =>
      let id := SimDb.until 44 l in
      let l := drop (length id + 3) l in
      let pw := SimDb.until 39 l in
      let l := drop (length pw + 2) l in
      (id, pw) :: match l with [] => [] | _ => parse_values fuel (drop 3 l) end
  end.

(** All of them or none: a number that is there already is an error. *)
Fixpoint put (rows : gmap (list Z * list Z) (list Z)) (name : list Z) (l : list (list Z * list Z))
    : option (gmap (list Z * list Z) (list Z)) :=
  match l with
  | [] => Some rows
  | (id, pw) :: l =>
      match rows !! (name, id) with None => put (<[(name, id) := pw]> rows) name l | Some _ => None end
  end.

Definition query (d : t) (sql : list Z) : t * Z :=
  if starts (bytes "select passwd from ") sql then
    let r := drop 19 sql in
    let name := SimDb.until 32 r in
    let id := drop (length name + 14) r in
    (mk (s_rows d) (Some (match s_rows d !! (name, id) with Some x => [[Some x]] | None => [] end)), 0)
  else if starts (bytes "insert into ") sql then
    let r := drop 12 sql in
    let name := SimDb.until 32 r in
    match put (s_rows d) name (parse_values (length sql) (drop (length name + 26) r)) with
    | Some rows => (mk rows None, 0)
    | None => (d, 1)
    end
  else (d, 1).

#[global] Instance ops : MySQL t := {|
  mysql_ping d := (d, 0);
  mysql_connect d := (d, 0);
  mysql_real_query := query;
  mysql_store_result d := (mk (s_rows d) None, s_res d);
  mysql_escape := SimDb.escape;
|}.

Lemma no_comma i : 0 ≤ i → 44 ∉ fmt_lu i.
Proof. intros Hi. by apply fmt_no_nul. Qed.

Lemma parse_values_row fuel id pw rest :
  44 ∉ id → 39 ∉ pw →
  parse_values (S fuel) (id ++ bytes ", '" ++ pw ++ bytes "')" ++ rest) =
    (id, pw) :: match rest with [] => [] | _ => parse_values fuel (drop 3 rest) end.
Proof.
  intros Hi Hp. cbn [parse_values].
  change (bytes ", '" ++ ?l) with (44 :: bytes " '" ++ l). rewrite SimDb.until_app by done.
  assert (drop (length id + 3) (id ++ 44 :: bytes " '" ++ pw ++ bytes "')" ++ rest) = pw ++ bytes "')" ++ rest) as ->.
  { rewrite drop_app_add. done. }
  change (bytes "')" ++ rest) with (39 :: 41 :: rest). rewrite SimDb.until_app by done.
  assert (drop (length pw + 2) (pw ++ 39 :: 41 :: rest) = rest) as -> by (rewrite drop_app_add; done).
  done.
Qed.

Lemma query_insert d t l :
  name_ok t →
  query d (bytes "insert into " ++ t ++ bytes " (userid, passwd) values (" ++ l) =
    match put (s_rows d) t (parse_values (12 + (length t + (26 + length l))) l) with
    | Some rows => (mk rows None, 0) | None => (d, 1)
    end.
Proof.
  intros Ht. unfold query.
  change (starts (bytes "select passwd from ") (bytes "insert into " ++ ?l)) with false.
  change (starts (bytes "insert into ") (bytes "insert into " ++ ?l)) with true. cbv match.
  assert (∀ l', drop 12 (bytes "insert into " ++ l') = l') as Hd by done. rewrite Hd.
  change (bytes " (userid, passwd) values (" ++ l) with (32 :: bytes "(userid, passwd) values (" ++ l).
  rewrite SimDb.until_app by done. rewrite drop_app_add.
  rewrite !length_app. cbn [length]. rewrite length_app. done.
Qed.

#[global] Program Instance laws : AuthDB t := {| passwd d t i := Some <$> s_rows d !! (t, fmt_lu i) |}.
Next Obligation. by intros d d' r t i [= <- _]. Qed.
Next Obligation. by intros d d' r t i [= <- _]. Qed.
Next Obligation.
  intros d d' t i Ht Hi. cbn -[select_passwd_text fmt_lu]. unfold query, select_passwd_text.
  change (starts (bytes "select passwd from ") (bytes "select passwd from " ++ ?l)) with true. cbv match.
  assert (∀ l', drop 19 (bytes "select passwd from " ++ l') = l') as -> by done.
  change (bytes " where userid=" ++ ?l) with (32 :: bytes "where userid=" ++ l).
  rewrite SimDb.until_app by done. rewrite drop_app_add. change (drop 14 (32 :: bytes "where userid=" ++ ?l)) with l.
  intros [= <-] d2 rows [= <- <-]. split; [by destruct (s_rows d !! _)|done].
Qed.
Next Obligation.
  intros d d' t i pw Ht Hi (Hq & _ & _). cbn -[insert_text fmt_lu]. unfold insert_text. rewrite query_insert by done.
  rewrite <- (app_nil_r (bytes "')")), Nat.add_succ_l. rewrite parse_values_row by (done || apply no_comma; lia).
  cbn [put]. destruct (s_rows d !! (t, fmt_lu i)) eqn:E; [done|]. intros [= <-]. split; [done|].
  cbn [s_rows]. by rewrite lookup_insert_eq.
Qed.
Next Obligation.
  intros d d' t i pw j pw2 Ht Hi Hj (Hq & _ & _) (Hq2 & _ & _). cbn -[insert_text fmt_lu bytes app]. unfold insert_text.
  rewrite query_insert by done. rewrite <- !app_assoc.
  assert (∀ l, bytes "'), (" ++ l = bytes "')" ++ bytes ", (" ++ l) as -> by done.
  rewrite !Nat.add_succ_l, parse_values_row by (done || apply no_comma; lia).
  change (match bytes ", (" ++ ?l with [] => [] | _ => ?b end) with b.
  assert (∀ l, drop 3 (bytes ", (" ++ l) = l) as -> by done.
  rewrite <- (app_nil_r (bytes "')")), parse_values_row by (done || apply no_comma; lia).
  cbn [put]. destruct (s_rows d !! (t, fmt_lu i)); [done|].
  destruct (<[(t, fmt_lu i):=pw]> (s_rows d) !! (t, fmt_lu j)); [done|]. intros [= <-].
  cbn [s_rows]. by rewrite lookup_insert_eq.
Qed.
End SimAuth.

(** * The server *)
Module AuthServerExample.
Export UserServerExample.

#[export] Instance auth_proto : AuthProto := {
  dec_AuthRegisterReq b := Some (b, no_fields);
  dec_AuthLoginReq b := match b with u :: pw => Some (u, pw, 0) | [] => None end;
  enc_AuthRegisterRsp u f r := [u; r];
  enc_AuthLoginRsp u r := [u; r];
  enc_AuthState x st := [x; st];
}.

Definition auth_conn (d : SimAuth.t) : CMySQL.t SimAuth.t := CMySQL.mk d CMySQL.Uninit 1.
Definition auth_server (d : SimAuth.t) : CAuth.t CShmQueue.t SimAuth.t :=
  CAuth.mk 301 30 [config; config] [auth_conn d; auth_conn d] queue queue big.
Definition nobody : SimAuth.t := SimAuth.mk ∅ None.
(** One user, 8, with the password "pw". *)
Definition one_user : SimAuth.t := SimAuth.mk {[(user_table config 8, fmt_lu 8) := [112; 119]]} None.

Lemma auth_server_rep d : arep (auth_server d) [].
Proof.
  constructor; [apply queue_rep|apply zlen_buff|].
  destruct (conns_ok empty_db) as [? _ ? _]. constructor; [done|done|done|by repeat constructor].
Qed.

Lemma auth_conn_of d u : conn_of (m_DBConn (auth_server d)) u (auth_conn d).
Proof.
  unfold conn_of. pose proof (GetUserDBIndex_range u) as Hr. unfold USER_DATABASE_NUM in Hr.
  assert (GetUserDBIndex u = 0 ∨ GetUserDBIndex u = 1) as [-> | ->] by lia; done.
Qed.

Lemma auth_select d r t u :
  (CMySQL.QueryRes (CMySQL.mk d r 1) (select_passwd_text t (fmt_lu u)) 0).1.2 = 0.
Proof.
  unfold CMySQL.QueryRes, CMySQL.Send, CMySQL.IsValid. cbn -[select_passwd_text fmt_lu].
  unfold SimAuth.query, select_passwd_text.
  change (starts (bytes "select passwd from ") (bytes "select passwd from " ++ ?l)) with true. done.
Qed.

(** The database answers whoever asks. *)
Lemma auth_answers (s : CAuth.t CShmQueue.t SimAuth.t) ms t u c :
  arep s ms → conn_of (m_DBConn s) u c → (CMySQL.QueryRes c (select_passwd_text t (fmt_lu u)) 0).1.2 = 0.
Proof.
  intros Hs Hc. destruct (store_conn _ _ u (ar_db _ _ Hs)) as (c' & Hc' & Ha).
  assert (c' = c) as -> by (unfold conn_of in *; congruence).
  destruct c as [d r a]. cbn in Ha. subst a. apply auth_select.
Qed.

(** A registration in the empty database. *)
Lemma auth_registers pw :
  zlen (cstr pw) ≤ 800 → (CMySQL.Query (auth_conn nobody) (register_text config 100000 pw)).2 = 0 →
  ∃ s1, Register (auth_server nobody) kernel pw = Ok (kernel, s1, 100000, 0) ∧ arep s1 [].
Proof.
  intros Hl Hq. destruct (Register_ok (auth_server nobody) [] kernel pw (auth_server_rep nobody) Hl)
    as (k' & now & Hk & Hok). change (k_time kernel) with (kernel, 100000) in Hk. injection Hk as <- <-.
  destruct (Hok (auth_conn nobody) (auth_conn_of nobody _)) as (cfg & s' & Hcfg & _ & Hr).
  change (u64 100000) with 100000 in *.
  assert (cfg = config) as -> by exact (config_of_both _ _ Hcfg).
  destruct (CMySQL.Query _ _) as [c1 r]. cbn in Hq. subst r. destruct Hr as (Hr & Hs' & _). by exists s'.
Qed.

Lemma literal_short (pw : list Z) : forallb (λ c, (48 <=? c) && (c <=? 57)) pw = true → literal pw.
Proof.
  intros Hp. rewrite forallb_forall in Hp. unfold literal.
  split_and!; intros Hin%list_elem_of_In%Hp; apply andb_prop in Hin as [?%Z.leb_le ?%Z.leb_le]; lia.
Qed.
End AuthServerExample.
