(* ===== verification/AuthProps.v ===== *)
(** What the authentication server does: the claims about it, each with an
    example where it applies. *)
From Stdlib Require Import String.
From stdpp Require Import gmap sorting.
From S2P Require Import Prelude Fifo Ring ShmQueue Wire HashList Kernel ConnInfo BusState BusConn.
From S2P Require Import BusRoute BusFacts IniFile ConnState ConnServe ConnFacts ConnInv ConnSteps.
From S2P Require Import ConnDeal ConnSync ConnExample ConnProps UserState UserServe UserSpec UserFacts.
From S2P Require Import UserLoop Mysql UserStore UserStoreFacts AuthServe AuthFacts AuthLoop AuthExample.
Import CAuth.

#[local] Open Scope Z_scope.
#[local] Open Scope list_scope.
#[local] Arguments Z.add : simpl never.
#[local] Arguments Z.eqb : simpl never.
#[local] Arguments Z.ltb : simpl never.
#[local] Arguments Z.leb : simpl never.

Section props.
Context {Q D K : Type} `{FifoQueue Q} `{AuthDB D} `{Kernel K} `{!KernelClock K} `{AuthProto}.
Hypothesis Hmax : XY_PKG_MAX_LEN ≤ q_max.
Implicit Types (s : t Q D) (k : K) (c : CMySQL.t D) (u v : Z) (pw : list Z) (ms rs : list (list Z)).

(** The database can be asked for the user's password. *)
Definition asked s c u : Prop :=
  ∀ cfg, aget (m_DBConfig s) (GetUserDBIndex u) = Ok cfg →
    (CMySQL.QueryRes c (select_passwd_text (user_table cfg u) (fmt_lu u)) 0).1.2 = 0.

(** The password the database has. *)
Definition stored_passwd s c u : option (option (list Z)) :=
  match aget (m_DBConfig s) (GetUserDBIndex u) with
  | Ok cfg => passwd_of c (user_table cfg u) u
  | _ => None
  end.

(** C19: a login is let in only with the password that is in the database for
    the user, and not with an empty one; with it, he is let in whenever the
    database answers; of any other password and of unknown users the answer is 2,
    of everything that goes wrong it is 1. *)
Theorem LoginCheck_decides s ms u pw plat c :
  arep s ms → 0 ≤ u < 2 ^ 64 → conn_of (m_DBConn s) u c →
  ∃ s' r, LoginCheck s u pw plat = Ok (s', r) ∧ arep s' ms ∧
    (r = 0 → pw ≠ [] ∧ stored_passwd s c u = Some (Some pw)) ∧
    (asked s c u → r = login_result (stored_passwd s c u) pw) ∧ (¬ asked s c u → r = 1).
Proof.
  intros Hs Hu Hc. destruct (LoginCheck_ok s ms u pw plat c Hs Hu Hc) as (s' & -> & Hs' & _).
  exists s', (login_answer s c u pw). split; [done|]. split; [done|].
  destruct (user_table_ok _ _ u (ar_db _ _ Hs) Hu) as (cfg & Hcfg & _).
  unfold login_answer, stored_passwd, asked. rewrite Hcfg. cbn [from_option].
  destruct (Z.eqb_spec (CMySQL.QueryRes c (select_passwd_text (user_table cfg u) (fmt_lu u)) 0).1.2 0) as [E|E].
  - split_and!; [apply login_result_0|done|]. intros Hn. exfalso. apply Hn. by intros cfg' [= <-].
  - split_and!; [done| |done]. intros Ha. by rewrite Ha in E.
Qed.

(** What a registration leaves: the statement was run. *)
Lemma Register_stored s ms k pw k' s1 u :
  arep s ms → zlen (cstr pw) ≤ 800 → Register s k pw = Ok (k', s1, u, 0) →
  ∃ cfg d c1, arep s1 ms ∧ 0 ≤ u < 2 ^ 64 ∧ u = u64 (k_time k).2 ∧
    aget (m_DBConfig s1) (GetUserDBIndex u) = Ok cfg ∧ name_ok (user_table cfg u) ∧
    mysql_real_query d (register_text cfg u pw) = (CMySQL.m_MYSQL c1, 0) ∧ conn_of (m_DBConn s1) u c1.
Proof.
  intros Hs Hl Hr. destruct (Register_ok s ms k pw Hs Hl) as (k1 & now & Hk & Hok).
  destruct (store_conn _ _ (u64 now) (ar_db _ _ Hs)) as (c & Hc & Ha).
  destruct (Hok c Hc) as (cfg & s' & Hcfg & Hname & Hq).
  destruct (CMySQL.Query c (register_text cfg (u64 now) pw)) as [c1 r] eqn:Eq.
  destruct Hq as (Hr' & Hs1 & Hsa & _ & Hc1). rewrite Hr in Hr'. injection Hr' as -> -> -> Hr0.
  destruct (Z.eqb_spec r 0) as [->|]; [|discriminate Hr0].
  destruct (Send_passwd c _ c1 Ha Eq) as (d & _ & Hq & _).
  exists cfg, d, c1. rewrite (sa_cfg _ _ Hsa), Hk. split; [done|]. split; [apply Z.mod_pos_bound; lia|done].
Qed.

(** What is stored decides. *)
Lemma LoginCheck_stored s ms v pw c pw' plat :
  arep s ms → 0 ≤ v < 2 ^ 64 → conn_of (m_DBConn s) v c → pw ≠ [] →
  stored_passwd s c v = Some (Some pw) → asked s c v →
  ∃ s', LoginCheck s v pw' plat = Ok (s', if bool_decide (pw' = pw) then 0 else 2) ∧ arep s' ms.
Proof.
  intros Hs Hv Hc Hne Hst Hask. destruct (LoginCheck_ok s ms v pw' plat c Hs Hv Hc) as (s' & -> & Hs' & _).
  exists s'. split; [|done]. do 2 f_equal. unfold login_answer. unfold stored_passwd in Hst. unfold asked in Hask.
  destruct (aget (m_DBConfig s) (GetUserDBIndex v)) as [cfg| |]; [|done..].
  rewrite (Hask cfg), Hst by done. change (0 =? 0) with true. cbv match.
  destruct pw as [|a pw]; [done|]. cbn [login_result].
  destruct (decide (pw' = a :: pw)) as [->|Hd]; [by rewrite !bool_decide_true|].
  by rewrite !bool_decide_false by congruence.
Qed.

(** C36: whoever registered with a password of 1 to 800 bytes, none of them a single
    quote, a backslash or a NUL ([literal]), is let in with it and with no other, as
    long as the database answers ([asked]). *)
Theorem register_then_login s ms k pw k' s1 u :
  arep s ms → zlen (cstr pw) ≤ 800 → literal pw → pw ≠ [] → Register s k pw = Ok (k', s1, u, 0) →
  ∃ c1, conn_of (m_DBConn s1) u c1 ∧
  (asked s1 c1 u → ∀ pw' plat, ∃ s2,
     LoginCheck s1 u pw' plat = Ok (s2, if bool_decide (pw' = pw) then 0 else 2) ∧ arep s2 ms).
Proof.
  intros Hs Hl Hlit Hne Hr. destruct (Register_stored _ _ _ _ _ _ _ Hs Hl Hr)
    as (cfg & d & c1 & Hs1 & Hu & _ & Hcfg & Hname & Hq & Hc1).
  exists c1. split; [done|]. intros Hask pw' plat. apply (LoginCheck_stored s1 ms u pw c1 pw' plat); try done.
  unfold stored_passwd, passwd_of. rewrite Hcfg. unfold register_text in Hq. destruct Hlit as (?&?&?).
  rewrite cstr_id in Hq by done. by apply (ap_insert d _ _ _ _ Hname Hu).
Qed.

(** C38: a password is part of the text of the statement.  With one that closes
    the quotes and goes on with a second row, whoever registers gives himself
    a second account, with any number [v] of the same table (of the same database) he likes and any
    password [pw2], and can log in as user [v] from then on. *)
Theorem password_is_sql s ms k pw v pw2 k' s1 u :
  arep s ms → 0 ≤ v < 2 ^ 64 → GetUserDBIndex v = GetUserDBIndex u → GetUserTableIndex v = GetUserTableIndex u →
  literal pw → literal pw2 → pw2 ≠ [] → zlen pw + zlen pw2 ≤ 700 →
  Register s k (pw ++ bytes "'), (" ++ fmt_lu v ++ bytes ", '" ++ pw2) = Ok (k', s1, u, 0) →
  ∃ c1, conn_of (m_DBConn s1) v c1 ∧
  (asked s1 c1 v → ∀ plat, ∃ s2, LoginCheck s1 v pw2 plat = Ok (s2, 0) ∧ arep s2 ms).
Proof.
  intros Hs Hv Hdb Htb Hlit Hlit2 Hne Hl Hr. set (p := pw ++ _) in Hr.
  assert (cstr p = p) as Hcs.
  { apply cstr_id. unfold p. rewrite !not_elem_of_app.
    split_and!; first [apply Hlit|apply Hlit2|apply fmt_no_nul; lia|by apply (bool_decide_unpack _)]. }
  assert (zlen (cstr p) ≤ 800) as Hp.
  { rewrite Hcs. unfold p. rewrite !zlen_app. change (zlen (bytes "'), (")) with 5. change (zlen (bytes ", '")) with 3.
    unfold fmt_lu. pose proof (zlen_digits 20 v). lia. }
  destruct (Register_stored _ _ _ _ _ _ _ Hs Hp Hr) as (cfg & d & c1 & Hs1 & Hu & _ & Hcfg & Hname & Hq & Hc1).
  unfold register_text in Hq. rewrite Hcs in Hq.
  assert (conn_of (m_DBConn s1) v c1) as Hcv by (unfold conn_of in *; by rewrite Hdb).
  assert (user_table cfg v = user_table cfg u) as Ht by (unfold user_table; by rewrite Htb).
  exists c1. split; [done|]. intros Hask plat.
  destruct (LoginCheck_stored s1 ms v pw2 c1 pw2 plat) as (s2 & Hc & Hs2); try done.
  - unfold stored_passwd, passwd_of. rewrite Hdb, Hcfg, Ht. by apply (ap_insert2 d _ _ _ pw v pw2 Hname Hu Hv).
  - exists s2. by rewrite bool_decide_true in Hc.
Qed.

(** The number of a new user is the time, in seconds: of two who register in
    the same second only the first is registered, the second is told of an
    error, and the password of the first stays. *)
Theorem same_second_refused s ms k pw k' s1 u pw2 :
  arep s ms → zlen (cstr pw) ≤ 800 → literal pw → zlen (cstr pw2) ≤ 800 → literal pw2 →
  Register s k pw = Ok (k', s1, u, 0) → u64 (k_time k').2 = u →
  ∃ k'' s2, Register s1 k' pw2 = Ok (k'', s2, u, 1) ∧ arep s2 ms.
Proof.
  intros Hs Hl Hlit Hl2 Hlit2 Hr Hk. destruct (Register_stored _ _ _ _ _ _ _ Hs Hl Hr)
    as (cfg & d & c1 & Hs1 & Hu & _ & Hcfg & Hname & Hq & Hc1).
  destruct (Register_ok s1 ms k' pw2 Hs1 Hl2) as (k2 & now & Hk2 & Hok). rewrite Hk2 in Hk. cbn in Hk.
  rewrite Hk in Hok. destruct (Hok c1 Hc1) as (cfg2 & s2 & Hcfg2 & Hname2 & Hq2). rewrite Hcfg in Hcfg2.
  injection Hcfg2 as <-. destruct (CMySQL.Query c1 (register_text cfg u pw2)) as [c2 r] eqn:E2.
  destruct Hq2 as (Hr2 & Hs2 & _). exists k2, s2. rewrite Hr2. split; [|done].
  destruct (Z.eqb_spec r 0) as [->|]; [exfalso|done].
  destruct (store_conn _ _ u (ar_db _ _ Hs1)) as (c0 & Hc0 & Ha).
  assert (c0 = c1) as -> by (unfold conn_of in *; congruence).
  destruct (Send_passwd c1 _ c2 Ha E2) as (d2 & Hd2 & Hq2 & _).
  unfold register_text in Hq, Hq2. destruct Hlit as (?&?&?), Hlit2 as (?&?&?).
  rewrite cstr_id in Hq, Hq2 by done.
  destruct (ap_insert d _ _ _ pw Hname Hu ltac:(done) Hq) as [_ Hin].
  destruct (ap_insert d2 _ _ _ pw2 Hname Hu ltac:(done) Hq2) as [Hno _].
  rewrite Hd2 in Hno. unfold passwd_of in Hno. congruence.
Qed.

(** The statement is built in an array of 1024 bytes and sent with the length it
    would have had: a request to register with a password of more than 981
    bytes makes the server send what is behind its array. *)
Theorem long_password_reads_on s ms k m o h body pw f :
  arep s ms → xyin_ok h → mread m o (34 + zlen body) = Ok (xyin_bytes h ++ body) →
  XYHeaderIn.CmdID h = Cmd_Auth_Register_Req → dec_AuthRegisterReq body = Some (pw, f) →
  981 < zlen (cstr pw) → DealPkg s k m o (34 + zlen body) = Fault.
Proof.
  intros Hs Hh Hm Hcmd Hd Hl. rewrite (DealPkg_body s k m o h body Hh Hm), Hcmd, Z.eqb_refl.
  unfold OnRegisterReq. rewrite Hd, (Register_over s ms k pw Hs) by lia. done.
Qed.

(** The server serves: whatever packages wait for it (with passwords that fit), after as
    many rounds of its loop it has dealt with all of them, and it goes on. *)
Theorem auth_Run_serves s k last buf ms rs :
  alive s ms rs → zlen buf = XY_PKG_MAX_LEN →
  ∃ k' s' last' buf' ms', Run (length rs) s k last buf = Ok (k', s', last', buf') ∧ alive s' ms' [].
Proof.
  intros Ha Hb. destruct (auth_Run_ok Hmax (length rs) s k last buf ms rs Ha Hb)
    as (k' & s' & last' & buf' & ms' & rs' & -> & Ha' & Hl).
  assert (rs' = []) as -> by (apply length_zero_iff_nil; lia). by exists k', s', last', buf', ms'.
Qed.
End props.

(** * Together with the connection server *)
Section together.
Context {Q K : Type} `{FifoQueue Q} `{KernelLaws K} `{ConnProtoLaws}.
Hypothesis Hmax : XY_PKG_MAX_LEN ≤ q_max.
Implicit Types (s : CConn.t Q) (k : K) (ms : list (list Z)).

(** The only connection an answer of the authentication server lets in is the
    one it is for, and only if it says so. *)
Lemma OnLoginRsp_grants s k ms g h body uid r :
  serving s ms g → gns_room s → dec_AuthLoginRsp body = Some (uid, r) →
  ∃ k' s' x ms' g', CConnServe.OnLoginRsp s k h body = Ok (k', s', x) ∧ serving s' ms' g' ∧
    ∀ p c, CConn.m_PosConnMap s' !! p = Some c → ClientInfo.m_ConnType c = CONN_AUTH →
      (∃ c0, CConn.m_PosConnMap s !! p = Some c0 ∧ same_client c0 c) ∨
      (r = 0 ∧ p = u32 (i32 (XYHeaderIn.ConnPos h)) ∧ ClientInfo.m_UserID c = u64 uid).
Proof.
  intros Hse Hroom Hd. set (cp := u32 (i32 (XYHeaderIn.ConnPos h))).
  assert (∀ s1 k1 ms1 g1, serving s1 ms1 g1 →
    ∃ k' s' x ms' g', CConnServe.SendRsp s1 k1 h Cmd_Auth_Login_Rsp (i32 (XYHeaderIn.ConnPos h)) (enc_LoginRsp r) = Ok (k', s', x) ∧
      serving s' ms' g' ∧
      ∀ p c, CConn.m_PosConnMap s' !! p = Some c → ∃ c0, CConn.m_PosConnMap s1 !! p = Some c0 ∧ same_client c0 c) as Hrsp.
  { intros s1 k1 ms1 g1 Hse1.
    destruct (SendRsp_ok Hmax s1 k1 ms1 g1 h Cmd_Auth_Login_Rsp (i32 (XYHeaderIn.ConnPos h)) (enc_LoginRsp r) Hse1)
      as (k' & s' & x & ms' & g' & He & Hse' & _ & _ & Hto).
    exists k', s', x, ms', g'. split; [done|]. split; [done|]. intros p c Hp.
    destruct (XY_PKG_MAX_LEN <? _); [destruct Hto as (_ & Hm & _); rewrite Hm in Hp; by exists c|].
    destruct Hto as [Hto _]. unfold to_client in Hto. fold cp in Hto.
    destruct (CConn.m_PosConnMap s1 !! cp) as [c1|] eqn:Ec; [|destruct Hto as (_ & _ & Hm); rewrite Hm in Hp; by exists c].
    destruct (decide (p = cp)) as [->|Hpc].
    - destruct Hto as [(_ & c' & Hm & Hsc & _)|Hm]; rewrite Hm in Hp.
      + rewrite lookup_insert_eq in Hp. injection Hp as <-. by exists c1.
      + by rewrite lookup_delete_eq in Hp.
    - exists c. split; [|done]. destruct Hto as [(_ & c' & Hm & _)|Hm]; rewrite Hm in Hp;
        [by rewrite lookup_insert_ne in Hp|by rewrite lookup_delete_ne in Hp]. }
  destruct (Z.eqb_spec r 0) as [->|Hr].
  - destruct (CConn.m_PosConnMap s !! cp) as [c1|] eqn:Ec.
    + destruct (OnLoginRsp_taken Hmax s k ms g h body cp c1 uid Hse (or_introl Hroom) Hd eq_refl Ec)
        as (k3 & s3 & now & now2 & Hse3 & _ & Hm3 & ->).
      destruct (Hrsp s3 k3 _ _ Hse3) as (k' & s' & x & ms' & g' & -> & Hse' & Hall).
      exists k', s', x, ms', g'. split; [done|]. split; [done|]. intros p c Hp Ht.
      destruct (Hall p c Hp) as (c0 & Hc0 & Hsc). rewrite Hm3 in Hc0.
      apply seen_to_lookup in Hc0. destruct (decide (p = cp)) as [->|Hpc].
      * right. rewrite lookup_insert_eq in Hc0. injection Hc0 as <-. split; [done|]. split; [done|].
        by destruct Hsc as (_ & _ & ->).
      * left. exists c0. by rewrite lookup_insert_ne in Hc0.
    + exists k, s, (-1), ms, g. unfold CConnServe.OnLoginRsp. rewrite Hd. change (0 =? 0) with true. cbv iota.
      fold cp. rewrite Ec. split; [done|]. split; [done|]. intros p c Hp _. left. by exists c.
  - destruct (Hrsp s k ms g Hse) as (k' & s' & x & ms' & g' & He & Hse' & Hall).
    exists k', s', x, ms', g'. split; [|split; [done|]].
    + unfold CConnServe.OnLoginRsp. rewrite Hd, (proj2 (Z.eqb_neq _ _) Hr). done.
    + intros p c Hp _. left. by apply Hall.
Qed.

(** C7: nobody is logged in without his password.  The connection server asks
    the authentication server, and takes its answer: of all connections only the
    one that asked can become a logged-in one by it, and only if the password
    it gave is in the database for the number it gave.  Who it then is, is
    what is left of that number in 32 bits: for numbers below 2^31 the
    number itself. *)
Theorem login_needs_password {D : Type} `{AuthDB D} `{!KernelClock K} `{AuthProto}
    (a : CAuth.t Q D) (ka : K) (as_ : list (list Z)) m o h body u pw plat c s k ms g :
  (∀ x r, - 2 ^ 31 ≤ x < 2 ^ 31 → 0 ≤ r ≤ 2 → dec_AuthLoginRsp (enc_AuthLoginRsp x r) = Some (x, r)) →
  arep a as_ → xyin_ok h → mread m o (34 + zlen body) = Ok (xyin_bytes h ++ body) →
  XYHeaderIn.CmdID h = Cmd_Auth_Login_Req → dec_AuthLoginReq body = Some (u, pw, plat) → 0 ≤ u < 2 ^ 64 →
  conn_of (m_DBConn a) u c → serving s ms g → gns_room s →
  ∃ ka' a' now r, let rsp := enc_AuthLoginRsp (i32 u) r in
    let h' := CUser.rsp_header (u32 (GetServerID a)) Cmd_Auth_Login_Rsp h now in
    CAuth.DealPkg a ka m o (34 + zlen body) = Ok (ka', a', 0) ∧
    arep a' (answer a as_ h' (XYHeaderIn.SrcID h) rsp) ∧
    ∃ k' s' x ms' g', CConnServe.OnLoginRsp s k h' rsp = Ok (k', s', x) ∧ serving s' ms' g' ∧
      ∀ p cl, CConn.m_PosConnMap s' !! p = Some cl → ClientInfo.m_ConnType cl = CONN_AUTH →
        (∃ cl0, CConn.m_PosConnMap s !! p = Some cl0 ∧ ClientInfo.m_ConnType cl0 = CONN_AUTH ∧
           ClientInfo.m_UserID cl0 = ClientInfo.m_UserID cl) ∨
        (p = XYHeaderIn.ConnPos h ∧ pw ≠ [] ∧ stored_passwd a c u = Some (Some pw) ∧
         ClientInfo.m_UserID cl = u64 (i32 u) ∧ (u < 2 ^ 31 → ClientInfo.m_UserID cl = u)).
Proof.
  intros Hlaw Ha Hh Hm Hcmd Hd Hu Hc Hse Hroom. rewrite (DealPkg_body a ka m o h body Hh Hm), Hcmd.
  change (Cmd_Auth_Login_Req =? Cmd_Auth_Register_Req) with false. rewrite Z.eqb_refl. cbv match.
  destruct (OnLoginReq_ok Hmax a as_ ka h body u pw plat c Ha Hd Hu Hc) as (ka' & a' & now & -> & _ & _ & Ha').
  set (r := login_answer a c u pw) in *. exists ka', a', now, r. split; [done|]. split; [done|].
  destruct (user_table_ok _ _ u (ar_db _ _ Ha) Hu) as (cfg & Hcfg & _).
  destruct (OnLoginRsp_grants s k ms g (CUser.rsp_header (u32 (GetServerID a)) Cmd_Auth_Login_Rsp h now)
    (enc_AuthLoginRsp (i32 u) r) (i32 u) r Hse Hroom) as (k' & s' & x & ms' & g' & -> & Hse' & Hall).
  { apply Hlaw; [apply i32_range|]. unfold r, login_answer. rewrite Hcfg. destruct (_ =? 0); [|lia].
    unfold login_result. repeat case_match; lia. }
  exists k', s', x, ms', g'. split; [done|]. split; [done|]. intros p cl Hp Ht.
  destruct (Hall p cl Hp Ht) as [(c0 & ? & _ & Ht0 & Hu0)|(Hr & -> & Hcl)]; [left|right].
  { exists c0. split; [done|]. split; congruence. }
  unfold r, login_answer, stored_passwd in *. rewrite Hcfg in Hr |- *.
  destruct (_ =? 0); [|done]. apply login_result_0 in Hr as [Hne Hr].
  split; [|split; [done|]; split; [done|]; split; [done|]; intros Hlt; rewrite Hcl, i32_small, u64_small; lia].
  unfold CUser.rsp_header. cbn [XYHeaderIn.ConnPos]. rewrite u32_i32. apply u32_small. apply Hh.
Qed.
End together.

(** * The claims at work *)
Section examples.
Import AuthServerExample.
#[local] Open Scope Z_scope.

Lemma LoginCheck_decides_witness :
  ∃ s' r, LoginCheck (auth_server one_user) 8 [112; 119] 1 = Ok (s', r) ∧ r = 0.
Proof.
  destruct (LoginCheck_decides (auth_server one_user) [] 8 [112; 119] 1 (auth_conn one_user))
    as (s' & r & Hr & _ & _ & Ha & _).
  - apply auth_server_rep.
  - lia.
  - apply auth_conn_of.
  - exists s', r. split; [exact Hr|]. rewrite Ha by (intros cfg _; apply auth_select). by vm_compute.
Defined.

Lemma register_then_login_witness :
  ∃ s1 s2, Register (auth_server nobody) kernel [49; 50] = Ok (kernel, s1, 100000, 0) ∧
    LoginCheck s1 100000 [49] 0 = Ok (s2, 2).
Proof.
  destruct (auth_registers [49; 50]) as (s1 & E & Hs1); [by vm_compute|by vm_compute|].
  destruct (register_then_login (auth_server nobody) [] kernel [49; 50] kernel s1 100000) as (c1 & Hc1 & Hlog).
  - apply auth_server_rep.
  - by vm_compute.
  - by apply literal_short.
  - done.
  - exact E.
  - destruct (Hlog ltac:(intros cfg _; exact (auth_answers s1 [] _ _ c1 Hs1 Hc1)) [49] 0) as (s2 & Hs2 & _).
    exists s1, s2. split; [exact E|exact Hs2].
Defined.

(** Registering at 100000 with the password "1'), (4294967304, '2" makes 4294967304, whose 32
    bits are those of user 8. *)
Lemma password_is_sql_witness :
  ∃ s1 s2, Register (auth_server nobody) kernel
      ([49] ++ bytes "'), (" ++ fmt_lu 4294967304 ++ bytes ", '" ++ [50]) = Ok (kernel, s1, 100000, 0) ∧
    LoginCheck s1 4294967304 [50] 0 = Ok (s2, 0) ∧ u64 (i32 4294967304) = 8.
Proof.
  destruct (auth_registers ([49] ++ bytes "'), (" ++ fmt_lu 4294967304 ++ bytes ", '" ++ [50]))
    as (s1 & E & Hs1); [by vm_compute|by vm_compute|].
  destruct (password_is_sql (auth_server nobody) [] kernel [49] 4294967304 [50] kernel s1 100000) as (c1 & Hc1 & Hlog).
  - apply auth_server_rep.
  - lia.
  - by vm_compute.
  - by vm_compute.
  - by apply literal_short.
  - by apply literal_short.
  - done.
  - by vm_compute.
  - exact E.
  - destruct (Hlog ltac:(intros cfg _; exact (auth_answers s1 [] _ _ c1 Hs1 Hc1)) 0) as (s2 & Hs2 & _).
    exists s1, s2. split; [exact E|]. split; [exact Hs2|reflexivity].
Defined.

Lemma same_second_refused_witness :
  ∃ s1 k'' s2, Register (auth_server nobody) kernel [49; 50] = Ok (kernel, s1, 100000, 0) ∧
    Register s1 kernel [51] = Ok (k'', s2, 100000, 1).
Proof.
  destruct (auth_registers [49; 50]) as (s1 & E & Hs1); [by vm_compute|by vm_compute|].
  destruct (same_second_refused (auth_server nobody) [] kernel [49; 50] kernel s1 100000 [51])
    as (k'' & s2 & Hr & _).
  - apply auth_server_rep.
  - by vm_compute.
  - by apply literal_short.
  - by vm_compute.
  - by apply literal_short.
  - exact E.
  - reflexivity.
  - exists s1, k'', s2. split; [exact E|exact Hr].
Defined.

Lemma long_password_reads_on_witness :
  DealPkg (auth_server nobody) kernel (package Cmd_Auth_Register_Req 0 (replicate 982 65)) 0
    (34 + zlen (replicate 982 65)) = Fault.
Proof.
  apply (long_password_reads_on (auth_server nobody) [] kernel _ 0 (header Cmd_Auth_Register_Req 0)
    (replicate 982 65) (replicate 982 65) no_fields).
  - apply auth_server_rep.
  - by apply header_ok.
  - apply mread_package.
  - reflexivity.
  - reflexivity.
  - by vm_compute.
Defined.

(** A request to log in waits. *)
Definition waiting_login : list Z :=
  msg_bytes (BusHeader.mk 63 Cmd_Transfer 101 301 0 TO_SRV 0) (package Cmd_Auth_Login_Req 0 [8; 112; 119]).

Lemma auth_Run_serves_witness :
  ∃ s k' s' last' buf' ms', alive s [] [waiting_login] ∧
    Run 1 s kernel 0 big = Ok (k', s', last', buf') ∧ alive s' ms' [].
Proof.
  assert (zlen waiting_login = 63) as Hz by (vm_compute; reflexivity).
  destruct (q_in_fits queue [] waiting_login queue_rep) as (q & _ & Hq & _).
  { rewrite Hz. split; vm_compute; [reflexivity|discriminate]. }
  { unfold q_fits, q_cap, shm_fifo, shm_fits. rewrite Hz. reflexivity. }
  assert (alive (set_recv (auth_server one_user) q) [] [waiting_login]) as Ha.
  { constructor.
    - destruct (auth_server_rep one_user) as [H1 H2 H3]. constructor; [exact H1|exact H2|exact H3].
    - exact Hq.
    - constructor; [|constructor]. constructor.
      + split; [|rewrite Hz; unfold XY_PKG_MAX_LEN; lia]. apply (bool_decide_unpack _). vm_compute. reflexivity.
      + intros u pw plat Hd. vm_compute in Hd. injection Hd as <- <- <-. lia.
      + intros pw f Hd. vm_compute in Hd. injection Hd as <- <-. vm_compute. discriminate. }
  destruct (auth_Run_serves queue_max (set_recv (auth_server one_user) q) kernel 0 big [] [waiting_login] Ha zlen_buff)
    as (k' & s' & last' & buf' & ms' & Hr & Ha').
  exists (set_recv (auth_server one_user) q), k', s', last', buf', ms'.
  split; [exact Ha|]. split; [exact Hr|exact Ha'].
Defined.

Lemma login_needs_password_witness :
  ∃ ka' a' now r k' s' x,
    CAuth.DealPkg (auth_server one_user) kernel (package Cmd_Auth_Login_Req 0 [8; 112; 119]) 0 37 = Ok (ka', a', 0) ∧
    CConnServe.OnLoginRsp server kernel (CUser.rsp_header 301 Cmd_Auth_Login_Rsp (header Cmd_Auth_Login_Req 0) now)
      (enc_AuthLoginRsp 8 r) = Ok (k', s', x).
Proof.
  destruct (login_needs_password queue_max (auth_server one_user) kernel [] (package Cmd_Auth_Login_Req 0 [8; 112; 119]) 0
    (header Cmd_Auth_Login_Req 0) [8; 112; 119] 8 [112; 119] 0 (auth_conn one_user) server kernel [] gns)
    as (ka' & a' & now & r & Hd & _ & k' & s' & x & ms' & g' & Hr & _).
  - reflexivity.
  - apply auth_server_rep.
  - by apply header_ok.
  - apply mread_package.
  - reflexivity.
  - reflexivity.
  - lia.
  - apply auth_conn_of.
  - exact server_serving.
  - exact (proj2 server_roomy).
  - exists ka', a', now, r, k', s', x. split; [exact Hd|exact Hr].
Defined.
End examples.
