(* ===== verification/LogFile.v ===== *)
(** The files of the logging code (mmlib/log/log.cpp and
    logsvr/logsvr_proc.cpp, which share it word for word): the file system as a
    class, what the code relies on of it, and the functions on log files. *)
From Stdlib Require Import Ascii String.
From S2P Require Import Prelude IniFile Mysql Conf.

#[local] Open Scope Z_scope.
#[local] Open Scope list_scope.
#[local] Arguments Z.add : simpl never.
#[local] Arguments Z.eqb : simpl never.
#[local] Arguments Z.ltb : simpl never.
#[local] Arguments Z.leb : simpl never.

(** * The file system

    Names are C strings.  A stream is what [fopen(name, "a")] returns; calls
    whose result the code ignores return the file system only.  [umask] is left
    out: nothing here depends on permissions. *)
Class Files (F : Type) : Type := {
  f_open : F → list Z → F * option Z;      (** [fopen] for appending *)
  f_setbuf : F → Z → F;                    (** [setbuf(stream, NULL)] *)
  f_close : F → Z → F;                     (** [fclose] *)
  f_print : F → Z → list Z → F;            (** [fprintf] of a text *)
  f_flush : F → Z → F;
  f_error : F → Z → bool;
  f_fileno : F → Z → Z;
  f_fstat : F → Z → Z * Z;                 (** a descriptor: result, size *)
  f_access : F → list Z → Z;
  f_unlink : F → list Z → F;
  f_rename : F → list Z → list Z → F;
  f_lstat : F → list Z → Z * bool;         (** result, is it a directory *)
  f_mkdir : F → list Z → F;
  f_creat : F → list Z → F * Z;            (** [open] with [O_RDWR|O_CREAT] *)
  f_setlk : F → Z → F * Z;                 (** [fcntl(F_SETLK, F_WRLCK)] *)
  f_unlck : F → Z → F;
  f_fdclose : F → Z → F;
  f_time : F → F * Z;
  f_timeofday : F → F * (Z * Z);
}.

(** Files have numbers of their own, which are not used again.  [f_names] are
    the files with a name, [f_data] their bytes, [f_file] the file of an open
    stream and [f_pend] what the stream still holds back. *)
Class FileViews (F : Type) : Type := {
  f_names : F → list Z → option Z;
  f_data : F → Z → list Z;
  f_file : F → Z → option Z;
  f_pend : F → Z → list Z;
}.

Section views.
Context {F : Type} `{FileViews F}.
Implicit Types (f : F).

Record same_files f f' : Prop := {
  sf_names p : f_names f' p = f_names f p;
  sf_data i : f_data f' i = f_data f i;
  sf_file h : f_file f' h = f_file f h;
  sf_pend h : f_pend f' h = f_pend f h;
}.

(** A file nothing refers to. *)
Definition unused f (i : Z) : Prop :=
  f_data f i = [] ∧ (∀ p, f_names f p ≠ Some i) ∧ ∀ h, f_file f h ≠ Some i.

(** [p] names the file [i] afterwards, which is new where there was none. *)
Record entered f f' p i : Prop := {
  en_name : f_names f' p = Some i;
  en_names q : q ≠ p → f_names f' q = f_names f q;
  en_data j : f_data f' j = f_data f j;
  en_old : f_names f p = Some i ∨ f_names f p = None ∧ unused f i;
}.

(** What a stream holds back is written out, all of it or the first part. *)
Record written f f' (h i : Z) (x y : list Z) : Prop := {
  wr_names p : f_names f' p = f_names f p;
  wr_file s : s ≠ h → f_file f' s = f_file f s;
  wr_pend s : s ≠ h → f_pend f' s = f_pend f s;
  wr_data j : j ≠ i → f_data f' j = f_data f j;
  wr_out : f_data f' i = f_data f i ++ x;
  wr_left : f_pend f' h = y;
}.
End views.

(** What the code relies on.  Nobody else changes the log files, a file has one
    name, and the directories can be written. *)
Class FilesLaws (F : Type) `{Files F, FileViews F} : Type := {
  open_law f p f' r :
    f_open f p = (f', r) →
    match r with
    | None => same_files f f'
    | Some h => f_file f h = None ∧ ∃ i, entered f f' p i ∧
        f_file f' h = Some i ∧ (∀ s, s ≠ h → f_file f' s = f_file f s) ∧
        f_pend f' h = [] ∧ (∀ s, s ≠ h → f_pend f' s = f_pend f s)
    end;
  setbuf_law f h : same_files f (f_setbuf f h);
  close_law f h i :
    f_file f h = Some i →
    ∃ x y, f_pend f h = x ++ y ∧ written f (f_close f h) h i x [] ∧ f_file (f_close f h) h = None;
  print_law f h i s :
    f_file f h = Some i →
    ∃ x y z, s = x ++ y ∧ ∃ w, f_pend f h ++ x = w ++ z ∧ written f (f_print f h s) h i w z ∧
      f_file (f_print f h s) h = Some i ∧ (f_error (f_print f h s) h = false → y = []);
  flush_law f h i :
    f_file f h = Some i →
    ∃ x y, f_pend f h = x ++ y ∧ written f (f_flush f h) h i x y ∧
      f_file (f_flush f h) h = Some i ∧ (f_error (f_flush f h) h = false → y = []);
  fstat_law f h i n : f_file f h = Some i → f_fstat f (f_fileno f h) = (0, n) → n = zlen (f_data f i);
  access_law f p : f_access f p = 0 ↔ is_Some (f_names f p);
  unlink_law f p :
    f_names (f_unlink f p) p = None ∧ (∀ q, q ≠ p → f_names (f_unlink f p) q = f_names f q) ∧
    (∀ i, f_data (f_unlink f p) i = f_data f i) ∧ (∀ h, f_file (f_unlink f p) h = f_file f h) ∧
    ∀ h, f_pend (f_unlink f p) h = f_pend f h;
  rename_law f p q i :
    f_names f p = Some i → p ≠ q →
    f_names (f_rename f p q) q = Some i ∧ f_names (f_rename f p q) p = None ∧
    (∀ x, x ≠ p → x ≠ q → f_names (f_rename f p q) x = f_names f x) ∧
    (∀ i, f_data (f_rename f p q) i = f_data f i) ∧ (∀ h, f_file (f_rename f p q) h = f_file f h) ∧
    ∀ h, f_pend (f_rename f p q) h = f_pend f h;
  mkdir_law f p : same_files f (f_mkdir f p);
  creat_law f p f' d :
    f_creat f p = (f', d) →
    (∀ h, f_file f' h = f_file f h) ∧ (∀ h, f_pend f' h = f_pend f h) ∧
    if d =? -1 then same_files f f' else ∃ i, entered f f' p i;
  setlk_law f d f' r : f_setlk f d = (f', r) → same_files f f';
  unlck_law f d : same_files f (f_unlck f d);
  fdclose_law f d : same_files f (f_fdclose f d);
  one_name_law f p q i : f_names f p = Some i → f_names f q = Some i → p = q;
  time_law f f' t : f_time f = (f', t) → same_files f f';
  timeofday_law f f' t : f_timeofday f = (f', t) → same_files f f';
}.

(** The disk is not full: every file can be opened and written. *)
Class FilesWork (F : Type) `{Files F} : Type := {
  work_open f p : is_Some (f_open f p).2;
  work_error f h : f_error f h = false;
}.

(** * Times *)
Record tm : Type := Tm { tm_year : Z; tm_mon : Z; tm_mday : Z; tm_hour : Z; tm_min : Z; tm_sec : Z }.

(** [localtime] of the C library, for the times of 32 bits. *)
Class LocalTime : Type := {
  localtime : Z → tm;
  localtime_year t : 0 ≤ t < 2 ^ 32 → 69 ≤ tm_year (localtime t) ≤ 206;
  localtime_mon t : 0 ≤ t < 2 ^ 32 → 0 ≤ tm_mon (localtime t) ≤ 11;
  localtime_mday t : 0 ≤ t < 2 ^ 32 → 1 ≤ tm_mday (localtime t) ≤ 31;
  localtime_hour t : 0 ≤ t < 2 ^ 32 → 0 ≤ tm_hour (localtime t) ≤ 23;
}.

(** * Texts *)

(** [snprintf] into an array of [n] bytes. *)
Definition cut_at (n : Z) (s : list Z) : list Z := take (Z.to_nat (n - 1)) s.

(** [%02d] and the like. *)
Definition pad (w : nat) (s : list Z) : list Z := replicate (w - length s) 48 ++ s.
Definition fmt_0d (w : nat) (n : Z) : list Z :=
  if n <? 0 then 45 :: pad (w - 1) (fmt_lu (- n)) else pad w (fmt_lu n).

Definition LOG_INFO : Z := 1.
Definition LOG_ERR : Z := 2.
Definition LOG_WARN : Z := 3.
Definition LOG_DEBUG : Z := 4.
Definition LOG_TRACE : Z := 5.
Definition LOG_MODULE_NAME_LEN : Z := 16.
Definition LOG_LENGTH_MAX : Z := 12288.
Definition LOG_DEFAULT_MAX_FILE_NUM : Z := 16.

(** The file of one level: stream, hour, time its size was looked at. *)
Record slot : Type := Slot { pf : option Z; iCurLogTime : Z; tLastSizeCheckTime : Z }.


Module LogFiles.
Section times.
Context `{LocalTime}.

Definition GetLogHeadTime (tSec tUsec : Z) : list Z :=
  let t := localtime tSec in
  cut_at 64 (fmt_0d 4 (1900 + tm_year t) ++ bytes "-" ++ fmt_0d 2 (tm_mon t + 1) ++ bytes "-" ++
             fmt_0d 2 (tm_mday t) ++ bytes " " ++ fmt_0d 2 (tm_hour t) ++ bytes ":" ++
             fmt_0d 2 (tm_min t) ++ bytes ":" ++ fmt_0d 2 (tm_sec t) ++ bytes "." ++ fmt_0d 6 tUsec).

Definition GetFileNameTime (tSec : Z) : list Z :=
  let t := localtime tSec in
  cut_at 64 (fmt_0d 4 (1900 + tm_year t) ++ fmt_0d 2 (tm_mon t + 1) ++ fmt_0d 2 (tm_mday t) ++
             fmt_0d 2 (tm_hour t)).
End times.

Section files.
Context {F : Type} `{Files F}.
Implicit Types (f : F).

Definition CheckDir f (szPath : list Z) : F :=
  if (f_lstat f szPath).1 <? 0 then f_mkdir f szPath else f.

(** One of the directories of the levels. *)
Definition SubDir f (szPath sub : list Z) : F :=
  let szDir := cut_at 256 (szPath ++ bytes "/" ++ sub) in
  if (f_lstat f szDir).1 <? 0 then f_mkdir f szDir else f.

Definition CheckDirAll f (szPath : list Z) : F :=
  let f := if (f_lstat f szPath).1 <? 0 then f_mkdir f szPath else f in
  if negb (f_lstat f szPath).2 then f else
  let f := SubDir f szPath (bytes "info") in
  let f := SubDir f szPath (bytes "error") in
  let f := SubDir f szPath (bytes "debug") in
  let f := SubDir f szPath (bytes "trace") in
  SubDir f szPath (bytes "warn").

Definition CheckFileSize f (fpFile : option Z) (iFileSize : Z) : Z :=
  match fpFile with
  | None => -1
  | Some h =>
      let iFD := f_fileno f h in
      if iFD <? 0 then 0 else
      let '(iRetVal, st_size) := f_fstat f iFD in
      if negb (iRetVal =? 0) then 0 else if iFileSize <? st_size then 1 else 0
  end.

(** [pszFileName.i]. *)
Definition numbered (pszFileName : list Z) (i : Z) : list Z :=
  cut_at 1024 (pszFileName ++ bytes "." ++ fmt_0d 2 i).

(** How many numbered files there are, up to the first gap; [n] names are left
    to look at, from [i] on. *)
Fixpoint count_files (n : nat) f (pszFileName : list Z) (i iCurrFileNum : Z) : Z :=
  match n with
  | O => iCurrFileNum
  | S n => if f_access f (numbered pszFileName i) =? 0
           then count_files n f pszFileName (i + 1) i else iCurrFileNum
  end.

(** Each of the files [i], ..., 1 gets the next number. *)
Fixpoint shift_files (n : nat) f (pszFileName : list Z) : F :=
  match n with
  | O => f
  | S n => shift_files n
             (f_rename f (numbered pszFileName (Z.of_nat (S n))) (numbered pszFileName (Z.of_nat (S n) + 1)))
             pszFileName
  end.

Definition RenameFile f (pszFileName : list Z) (iMaxFileNum : Z) : F * Z :=
  let '(f, m_iFile) := f_creat f pszFileName in
  if m_iFile =? -1 then (f, -1) else
  let '(f, iRetVal) := f_setlk f m_iFile in
  if negb (iRetVal =? 0) then (f_fdclose f m_iFile, -2) else
  let iMaxFileNum := if iMaxFileNum <=? 0 then LOG_DEFAULT_MAX_FILE_NUM else iMaxFileNum in
  let iCurrFileNum := count_files (Z.to_nat (iMaxFileNum - 1)) f pszFileName 1 0 in
  let '(f, iCurrFileNum) :=
    if iCurrFileNum =? iMaxFileNum - 1
    then (f_unlink f (numbered pszFileName iCurrFileNum), iCurrFileNum - 1) else (f, iCurrFileNum) in
  let f := shift_files (Z.to_nat iCurrFileNum) f pszFileName in
  let f := f_rename f pszFileName (cut_at 1024 (pszFileName ++ bytes ".01")) in
  let f := f_unlck f m_iFile in
  (f_fdclose f m_iFile, 0).

Definition close_opt f (h : option Z) : F :=
  match h with Some h => f_close f h | None => f end.

(** [dir/sub/hour.log]. *)
Definition FullName (szLogFilePath sub : list Z) (hour : Z) : list Z :=
  cut_at 1024 (szLogFilePath ++ bytes "/" ++ sub ++ bytes "/" ++ fmt_d hour ++ bytes ".log").

(** One case of the switches over the levels: the file of the hour, after a look at
    its size where that is due.  The flag tells whether the slot was changed. *)
Definition LevelCase (OpenFile : F → list Z → F * option Z) (sub : list Z) f (st : slot) (szLogFilePath : list Z)
    (hour tTimeNow iSizeCheckTimeVal iMaxFileSize iMaxFileNum : Z) : F * slot * bool :=
  let szLogFileFullName := FullName szLogFilePath sub hour in
  if negb (hour =? iCurLogTime st) then
    let f := close_opt f (pf st) in
    let '(f, h) := OpenFile f szLogFileFullName in
    (f, Slot h hour tTimeNow, true)
  else if (tTimeNow - tLastSizeCheckTime st <? 0) || (iSizeCheckTimeVal <? tTimeNow - tLastSizeCheckTime st) then
    if negb (CheckFileSize f (pf st) iMaxFileSize =? 0) then
      let f := close_opt f (pf st) in
      let '(f, h) := OpenFile f szLogFileFullName in
      let '(f, h) :=
        if negb (CheckFileSize f h iMaxFileSize =? 0) then
          let f := close_opt f h in
          let '(f, _) := RenameFile f szLogFileFullName iMaxFileNum in
          OpenFile f szLogFileFullName
        else (f, h) in
      (f, Slot h hour tTimeNow, true)
    else (f, Slot (pf st) (iCurLogTime st) tTimeNow, false)
  else (f, st, false).
End files.
End LogFiles.
