(* ===== verification/LogFileFacts.v ===== *)
(** What the functions on log files do: numbered names, renaming, the contents
    that a log keeps over its files. *)
From Stdlib Require Import Ascii String.
From S2P Require Import Prelude IniFile Mysql Conf LogFile.
Import LogFiles.

#[local] Open Scope Z_scope.
#[local] Open Scope list_scope.
#[local] Arguments Z.add : simpl never.
#[local] Arguments Z.eqb : simpl never.
#[local] Arguments Z.ltb : simpl never.
#[local] Arguments Z.leb : simpl never.
#[local] Arguments Z.mul : simpl never.

(** * Numbers as texts *)
Lemma digits_snoc s c acc :
  Forall (λ c, 48 ≤ c ≤ 57) s → digits (s ++ [c]) acc = digits [c] (digits s acc).
Proof.
  intros Hs. revert acc. induction Hs as [|d s Hd Hs IH]; intros acc; [done|]. cbn [digits app].
  unfold is_digit. rewrite !(proj2 (Z.leb_le _ _)) by lia. apply IH.
Qed.

Lemma digits_of_value fuel n : 0 ≤ n < 10 ^ Z.of_nat fuel → digits (digits_of fuel n) 0 = n.
Proof.
  revert n. induction fuel as [|fuel IH]; intros n Hn; [cbn in *; lia|]. cbn [digits_of].
  assert (∀ c acc, 0 ≤ c < 10 → digits [48 + c] acc = acc * 10 + c) as Hone.
  { intros c acc Hc. cbn [digits]. unfold is_digit. rewrite !(proj2 (Z.leb_le _ _)) by lia. cbn [andb]. lia. }
  destruct (Z.ltb_spec n 10); [rewrite Hone by lia; lia|].
  rewrite digits_snoc by (apply SimDb.digits_range, Z.div_pos; lia).
  rewrite Hone by (apply Z.mod_pos_bound; lia). rewrite IH.
  - pose proof (Z.div_mod n 10). lia.
  - rewrite Nat2Z.inj_succ, Z.pow_succ_r in Hn by lia.
    split; [apply Z.div_pos; lia|apply Z.div_lt_upper_bound; lia].
Qed.

Lemma digits_pad k s : digits (replicate k 48 ++ s) 0 = digits s 0.
Proof. induction k as [|k IH]; [done|exact IH]. Qed.

Lemma fmt_0d_value w n : 0 ≤ n < 10 ^ 20 → digits (fmt_0d w n) 0 = n.
Proof.
  intros Hn. unfold fmt_0d, pad. rewrite (proj2 (Z.ltb_ge _ _)) by lia. rewrite digits_pad.
  by apply digits_of_value.
Qed.

Lemma fmt_0d_digits w n : 0 ≤ n → Forall (λ c, 48 ≤ c ≤ 57) (fmt_0d w n).
Proof.
  intros Hn. unfold fmt_0d, pad. rewrite (proj2 (Z.ltb_ge _ _)) by lia. apply Forall_app. split.
  - apply Forall_forall. intros c [-> _]%elem_of_replicate. lia.
  - by apply SimDb.digits_range.
Qed.

Lemma length_digits_of fuel n : (length (digits_of fuel n) ≤ fuel)%nat.
Proof.
  revert n. induction fuel as [|fuel IH]; intros n; cbn [digits_of]; [done|].
  destruct (n <? 10); [cbn; lia|]. rewrite length_app. specialize (IH (n / 10)). cbn. lia.
Qed.

Lemma zlen_fmt_0d w n : 0 ≤ n → (w ≤ 20)%nat → zlen (fmt_0d w n) ≤ 20.
Proof.
  intros Hn Hw. unfold fmt_0d, pad. rewrite (proj2 (Z.ltb_ge _ _)) by lia. unfold zlen, fmt_lu.
  rewrite length_app, length_replicate. pose proof (length_digits_of 20 n). lia.
Qed.

(** Digits read one after the other. *)
Lemma digits_app s r : Forall (λ c, 48 ≤ c ≤ 57) s → digits (s ++ r) 0 = digits r (digits s 0).
Proof.
  intros Hs. assert (∀ acc, digits (s ++ r) acc = digits r (digits s acc)) as Ha; [|by apply Ha].
  induction Hs as [|c s Hc Hs IH]; intros acc; [done|]. cbn [digits app].
  unfold is_digit. rewrite !(proj2 (Z.leb_le _ _)) by lia. cbn [andb]. apply IH.
Qed.

Lemma digits_acc s acc :
  Forall (λ c, 48 ≤ c ≤ 57) s → digits s acc = acc * 10 ^ zlen s + digits s 0.
Proof.
  intros Hs. revert acc. induction Hs as [|c s Hc Hs IH]; intros acc; cbn [digits]; [rewrite zlen_nil; lia|].
  unfold is_digit. rewrite !(proj2 (Z.leb_le _ _)) by lia. cbn [andb].
  rewrite (IH (acc * 10 + _)), (IH (0 * 10 + _)), zlen_cons, Z.pow_add_r by (pose proof (zlen_nonneg s); lia). lia.
Qed.

Lemma length_digits_le fuel w n :
  (1 ≤ w)%nat → 0 ≤ n < 10 ^ Z.of_nat w → (length (digits_of fuel n) ≤ w)%nat.
Proof.
  revert w n. induction fuel as [|fuel IH]; intros w n Hw Hn; cbn [digits_of]; [cbn; lia|].
  destruct (Z.ltb_spec n 10); [cbn; lia|]. rewrite length_app. cbn [length].
  destruct w as [|[|w]]; [lia|cbn in Hn; lia|].
  specialize (IH (S w) (n / 10)). rewrite (Nat2Z.inj_succ (S w)), Z.pow_succ_r in Hn by lia.
  assert (n / 10 < 10 ^ Z.of_nat (S w)) by (apply Z.div_lt_upper_bound; lia).
  pose proof (Z.div_pos n 10). lia.
Qed.

Lemma zlen_fmt_exact w n : (1 ≤ w)%nat → 0 ≤ n < 10 ^ Z.of_nat w → zlen (fmt_0d w n) = Z.of_nat w.
Proof.
  intros Hw Hn. unfold fmt_0d, pad. rewrite (proj2 (Z.ltb_ge _ _)) by lia. unfold zlen, fmt_lu.
  rewrite length_app, length_replicate. pose proof (length_digits_le 20 w n Hw Hn). lia.
Qed.

(** A field of fixed width behind others. *)
Lemma digits_field s w n :
  Forall (λ c, 48 ≤ c ≤ 57) s → (1 ≤ w ≤ 20)%nat → 0 ≤ n < 10 ^ Z.of_nat w →
  Forall (λ c, 48 ≤ c ≤ 57) (s ++ fmt_0d w n) ∧ digits (s ++ fmt_0d w n) 0 = digits s 0 * 10 ^ Z.of_nat w + n.
Proof.
  intros Hs Hw Hn. assert (0 ≤ n < 10 ^ 20).
  { split; [lia|]. pose proof (Z.pow_le_mono_r 10 (Z.of_nat w) 20). lia. }
  split; [apply Forall_app; split; [done|apply fmt_0d_digits; lia]|].
  rewrite digits_app, digits_acc by (done || (apply fmt_0d_digits; lia)). rewrite zlen_fmt_exact, fmt_0d_value by (done || lia). done.
Qed.

Lemma atoi_digits s : s ≠ [] → Forall (λ c, 48 ≤ c ≤ 57) s → 0 ≤ digits s 0 < 2 ^ 31 → atoi s = digits s 0.
Proof.
  intros Hs Hd Hr. unfold atoi, strtol. destruct s as [|c s]; [done|]. inversion Hd as [|? ? Hc Hd']; subst.
  assert (skip_spaces (c :: s) = c :: s) as ->.
  { cbn [skip_spaces]. unfold is_space, SP. destruct (Z.eqb_spec c 32); [lia|].
    destruct (Z.leb_spec c 13); [lia|]. by rewrite andb_false_r. }
  cut (i32 (Z.max (- 2 ^ 63) (Z.min (2 ^ 63 - 1) (1 * digits (c :: s) 0))) = digits (c :: s) 0).
  { destruct c as [|p|p]; [lia| |lia]. do 6 (destruct p as [p|p|]; try (exfalso; lia)); exact id. }
  rewrite Z.mul_1_l, i32_small; lia.
Qed.

Lemma cut_at_fits n s : zlen s < n → cut_at n s = s.
Proof. intros Hs. unfold cut_at. apply take_ge. unfold zlen in Hs. lia. Qed.

(** * Numbered files *)
Definition name_fits (p : list Z) : Prop := zlen p ≤ 1000.

Lemma numbered_eq p i : name_fits p → 0 ≤ i → numbered p i = p ++ bytes "." ++ fmt_0d 2 i.
Proof.
  intros Hp Hi. unfold numbered. apply cut_at_fits. rewrite !zlen_app. change (zlen (bytes ".")) with 1.
  pose proof (zlen_fmt_0d 2 i Hi). unfold name_fits in Hp. lia.
Qed.

Lemma numbered_inj p i j :
  name_fits p → 0 ≤ i < 10 ^ 20 → 0 ≤ j < 10 ^ 20 → numbered p i = numbered p j → i = j.
Proof.
  intros Hp Hi Hj. rewrite !numbered_eq by (done || lia). intros Heq%app_inv_head%app_inv_head.
  rewrite <- (fmt_0d_value 2 i), <- (fmt_0d_value 2 j) by done. by rewrite Heq.
Qed.

Lemma numbered_ne p i : name_fits p → 0 ≤ i → numbered p i ≠ p.
Proof.
  intros Hp Hi Heq. rewrite numbered_eq in Heq by done. apply (f_equal (@zlen Z)) in Heq.
  rewrite !zlen_app in Heq. change (zlen (bytes ".")) with 1 in Heq. pose proof (zlen_nonneg (fmt_0d 2 i)). lia.
Qed.

(** * File systems that differ in names only *)
Section facts.
Context {F : Type} {OF : Files F} {VF : FileViews F} {LF : FilesLaws F}.
Implicit Types (f : F).

Record moved f f' : Prop := {
  mv_data i : f_data f' i = f_data f i;
  mv_file h : f_file f' h = f_file f h;
  mv_pend h : f_pend f' h = f_pend f h;
}.

Lemma moved_refl f : moved f f.
Proof. by constructor. Qed.
Lemma moved_trans f1 f2 f3 : moved f1 f2 → moved f2 f3 → moved f1 f3.
Proof. intros [] []. constructor; intros; congruence. Qed.
Lemma same_moved f f' : same_files f f' → moved f f'.
Proof. by intros []. Qed.
Lemma same_refl f : same_files f f.
Proof. by constructor. Qed.
Lemma same_trans f1 f2 f3 : same_files f1 f2 → same_files f2 f3 → same_files f1 f3.
Proof. intros [] []. constructor; intros; congruence. Qed.

Lemma CheckDir_same f p : same_files f (CheckDir f p).
Proof. unfold CheckDir. destruct (_ <? 0); [apply mkdir_law|apply same_refl]. Qed.

Lemma SubDir_same f p sub : same_files f (SubDir f p sub).
Proof. unfold SubDir. destruct (_ <? 0); [apply mkdir_law|apply same_refl]. Qed.

Lemma CheckDirAll_same f p : same_files f (CheckDirAll f p).
Proof.
  unfold CheckDirAll. set (f1 := if (f_lstat f p).1 <? 0 then f_mkdir f p else f).
  assert (same_files f f1) as H1 by (unfold f1; destruct (_ <? 0); [apply mkdir_law|apply same_refl]).
  destruct (negb _); [done|]. do 5 (eapply same_trans; [|apply SubDir_same]). done.
Qed.

(** ** Renaming *)
Lemma count_files_spec n f p i k :
  1 ≤ i → k = i - 1 → (∀ j, 1 ≤ j < i → is_Some (f_names f (numbered p j))) →
  let r := count_files n f p i k in
  k ≤ r ≤ k + Z.of_nat n ∧ (∀ j, 1 ≤ j ≤ r → is_Some (f_names f (numbered p j))) ∧
  (r < k + Z.of_nat n → f_names f (numbered p (r + 1)) = None).
Proof.
  revert i k. induction n as [|n IH]; intros i k Hi -> Hall; cbn [count_files].
  { split; [lia|]. split; [intros j Hj; apply Hall; lia|lia]. }
  destruct (Z.eqb_spec (f_access f (numbered p i)) 0) as [Ha|Ha].
  - apply access_law in Ha. destruct (IH (i + 1) i) as (Hr & Hex & Hno); [lia|lia| |].
    { intros j Hj. destruct (decide (j = i)) as [->|]; [done|]. apply Hall. lia. }
    split; [lia|]. split; [done|]. intros Hlt. apply Hno. lia.
  - split; [lia|]. split; [intros j Hj; apply Hall; lia|]. intros _.
    replace (i - 1 + 1) with i by lia. destruct (f_names f (numbered p i)) eqn:E; [|done].
    destruct Ha. apply access_law. by rewrite E.
Qed.

Lemma shift_files_names n f p :
  name_fits p → Z.of_nat n + 1 < 10 ^ 20 →
  (∀ i, 1 ≤ i ≤ Z.of_nat n → is_Some (f_names f (numbered p i))) →
  let f' := shift_files n f p in
  moved f f' ∧ (∀ i, 1 ≤ i ≤ Z.of_nat n → f_names f' (numbered p (i + 1)) = f_names f (numbered p i)) ∧
  ((0 < n)%nat → f_names f' (numbered p 1) = None) ∧
  ∀ q, (∀ i, 1 ≤ i ≤ Z.of_nat n + 1 → q ≠ numbered p i) → f_names f' q = f_names f q.
Proof.
  intros Hp. revert f. induction n as [|n IH]; intros f Hn Hall; cbn [shift_files].
  { split; [apply moved_refl|]. split; [lia|]. split; [lia|done]. }
  destruct (Hall (Z.of_nat (S n))) as [x Hx]; [lia|].
  assert (∀ i j, 0 ≤ i < 10 ^ 20 → 0 ≤ j < 10 ^ 20 → i ≠ j → numbered p i ≠ numbered p j) as Hne.
  { intros i j Hi Hj Hij Heq. by apply Hij, (numbered_inj p). }
  destruct (rename_law f (numbered p (Z.of_nat (S n))) (numbered p (Z.of_nat (S n) + 1)) x Hx)
    as (H1 & H2 & H3 & Hd & Hf & He); [apply Hne; lia|].
  set (f1 := f_rename _ _ _) in *.
  assert (∀ i, 1 ≤ i ≤ Z.of_nat n → f_names f1 (numbered p i) = f_names f (numbered p i)) as Hlow.
  { intros i Hi. apply H3; apply Hne; lia. }
  destruct (IH f1) as (Hm & Ha & Hb & Hc); [lia|intros i Hi; rewrite Hlow by done; apply Hall; lia|].
  split; [eapply moved_trans; [|exact Hm]; by constructor|]. split; [|split].
  - intros i Hi. destruct (decide (i = Z.of_nat (S n))) as [->|Hi'].
    + rewrite Hc, H1, Hx; [done|]. intros j Hj. apply Hne; lia.
    + rewrite Ha by lia. apply Hlow. lia.
  - intros _. destruct n; [exact H2|apply Hb; lia].
  - intros q Hq. rewrite Hc; [apply H3; apply Hq; lia|]. intros i Hi. apply Hq. lia.
Qed.

(** ** What a log holds, over its numbered files *)
Definition content f (p : list Z) : list Z :=
  match f_names f p with Some i => f_data f i | None => [] end.

(** [c n ++ ... ++ c 1]. *)
Fixpoint olds (c : Z → list Z) (n : nat) : list Z :=
  match n with O => [] | S m => c (Z.of_nat n) ++ olds c m end.
Definition history f (p : list Z) (n : nat) : list Z :=
  olds (λ i, content f (numbered p i)) n ++ content f p.

Lemma olds_ext c c' n : (∀ i, 1 ≤ i ≤ Z.of_nat n → c i = c' i) → olds c n = olds c' n.
Proof.
  induction n as [|n IH]; intros Hc; [done|]. cbn [olds]. rewrite Hc by lia. f_equal. apply IH.
  intros i Hi. apply Hc. lia.
Qed.

Lemma olds_first c c' n :
  (0 < n)%nat → (∀ i, 2 ≤ i ≤ Z.of_nat n → c i = c' i) →
  ∃ l, olds c n = l ++ c 1 ∧ olds c' n = l ++ c' 1.
Proof.
  induction n as [|n IH]; intros Hn Hc; [lia|]. destruct n as [|n].
  { exists []. cbn. by rewrite !app_nil_r. }
  destruct IH as (l & H1 & H2); [lia|intros i Hi; apply Hc; lia|].
  exists (c (Z.of_nat (S (S n))) ++ l). cbn [olds] in *. rewrite <- !app_assoc. split.
  - by rewrite H1.
  - rewrite <- Hc by lia. by rewrite H2.
Qed.

Lemma olds_shift c c' k n :
  (k < n)%nat → c (Z.of_nat k + 1) = [] → (∀ i, 1 ≤ i ≤ Z.of_nat k → c' (i + 1) = c i) →
  ((0 < k)%nat → c' 1 = []) → (k = 0%nat → c' 1 = []) →
  (∀ i, Z.of_nat k + 1 < i ≤ Z.of_nat n → c' i = c i) → olds c' n = olds c n.
Proof.
  intros Hk Hz Hs H1 H0 Hr. induction n as [|n IH]; [lia|]. cbn [olds].
  destruct (decide (k < n)%nat) as [Hlt|Hge].
  { rewrite Hr by lia. rewrite IH; [done|done|]. intros i Hi. apply Hr. lia. }
  assert (n = k) as -> by lia. clear IH. replace (Z.of_nat (S k)) with (Z.of_nat k + 1) by lia. rewrite Hz. cbn [app].
  clear Hr Hz Hge Hk. induction k as [|k IH].
  - cbn [olds]. replace (Z.of_nat 0 + 1) with 1 by lia. by rewrite H0.
  - rewrite (Hs (Z.of_nat (S k))) by lia. cbn [olds]. f_equal.
    replace (Z.of_nat (S k)) with (Z.of_nat k + 1) by lia. apply IH.
    + intros i Hi. apply Hs. lia.
    + intros _. apply H1. lia.
    + intros _. apply H1. lia.
Qed.

Lemma content_moved f f' p q : moved f f' → f_names f' p = f_names f q → content f' p = content f q.
Proof. intros [Hd _ _] Hn. unfold content. rewrite Hn. by destruct (f_names f q). Qed.

Lemma entered_content f f' p i q : entered f f' p i → content f' q = content f q.
Proof.
  intros [Hn Ho Hd Hold]. unfold content. destruct (decide (q = p)) as [->|Hne].
  - rewrite Hn, Hd. destruct Hold as [->|[-> [He _]]]; [done|exact He].
  - rewrite (Ho q Hne). by destruct (f_names f q).
Qed.

Lemma creat_moved f p f' d : f_creat f p = (f', d) → moved f f' ∧ ∀ q, content f' q = content f q.
Proof.
  intros Hc. apply creat_law in Hc as (Hf & He & Hc). destruct (d =? -1).
  - split; [by apply same_moved|]. intros q. apply content_moved; [by apply same_moved|]. by destruct Hc.
  - destruct Hc as [i Hi]. split; [|intros q; by apply (entered_content f f' p i)]. destruct Hi. by constructor.
Qed.

(** The number of numbered files a log keeps. *)
Definition max_files (iMaxFileNum : Z) : Z := if iMaxFileNum <=? 0 then LOG_DEFAULT_MAX_FILE_NUM else iMaxFileNum.
Definition kept (iMaxFileNum : Z) : nat := Z.to_nat (Z.max 1 (max_files iMaxFileNum - 1)).

Lemma history_content f f' p n : (∀ q, content f' q = content f q) → history f' p n = history f p n.
Proof. intros Hc. unfold history. rewrite Hc. f_equal. apply olds_ext. intros i _. apply Hc. Qed.

(** What a call of [RenameFile] that gets the lock leaves. *)
Record rotated f f' p (n : nat) (lost : list Z) : Prop := {
  ro_moved : moved f f';
  ro_gone : f_names f' p = None;
  ro_history : history f p n = lost ++ history f' p n;
  ro_others q : q ≠ p → (∀ i, 0 ≤ i ≤ Z.of_nat n → q ≠ numbered p i) → f_names f' q = f_names f q;
  ro_files i : 1 ≤ i ≤ Z.of_nat n → is_Some (f_names f' (numbered p i)) →
    ∃ q, f_names f' (numbered p i) = f_names f q ∧ (q = p ∨ ∃ j, 1 ≤ j ≤ Z.of_nat n ∧ q = numbered p j);
}.

(** What is lost at most: the file with the last number, when there are all. *)
Definition oldest f p (n : nat) (lost : list Z) : Prop :=
  lost = [] ∨ lost = content f (numbered p (Z.of_nat n)) ∧
              ∀ i, 1 ≤ i ≤ Z.of_nat n → is_Some (f_names f (numbered p i)).

(** The names of all files but [p] are those they were, and their contents. *)
Record quiet f f' p : Prop := {
  qu_data i : f_data f' i = f_data f i;
  qu_names q : q ≠ p → f_names f' q = f_names f q;
  qu_content q : content f' q = content f q;
}.

Lemma quiet_trans f1 f2 f3 p : quiet f1 f2 p → quiet f2 f3 p → quiet f1 f3 p.
Proof. intros [Hd Hn Hc] [Hd' Hn' Hc']. constructor; intros; [rewrite Hd'; apply Hd|rewrite Hn' by done; by apply Hn|by rewrite Hc']. Qed.

Lemma same_content f f' q : same_files f f' → content f' q = content f q.
Proof. intros [Hn Hd _ _]. unfold content. rewrite Hn. by destruct (f_names f q). Qed.

Lemma same_quiet f f' p : same_files f f' → quiet f f' p.
Proof. intros Hs. pose proof (λ q, same_content f f' q Hs). destruct Hs. by constructor. Qed.

Lemma entered_quiet f f' p i : entered f f' p i → quiet f f' p.
Proof. intros He. constructor; [apply (en_data _ _ _ _ He)|apply (en_names _ _ _ _ He)|]. intros q. by eapply entered_content. Qed.

Lemma quiet_history f f' p q n : quiet f f' p → history f' q n = history f q n.
Proof. intros [_ _ Hc]. by apply history_content. Qed.

Lemma rotated_same f f' f'' p n lost : rotated f f' p n lost → same_files f' f'' → rotated f f'' p n lost.
Proof.
  intros [Hm Hg Hh Ho Hf] Hs. pose proof (λ q, same_content f' f'' q Hs) as Hc. pose proof (sf_names _ _ Hs) as Hn.
  constructor.
  - eapply moved_trans; [done|by apply same_moved].
  - by rewrite Hn.
  - by rewrite (history_content f' f'').
  - intros q Hq Hi. rewrite Hn. by apply Ho.
  - intros i Hi. rewrite Hn. by apply Hf.
Qed.

(** Numbered files move up by one, the log gets the number 1. *)
Lemma shift_rotates f p k n :
  name_fits p → Z.of_nat n + 1 < 10 ^ 20 → (k < n)%nat → is_Some (f_names f p) →
  (∀ i, 1 ≤ i ≤ Z.of_nat k → is_Some (f_names f (numbered p i))) →
  f_names f (numbered p (Z.of_nat k + 1)) = None →
  rotated f (f_rename (shift_files k f p) p (numbered p 1)) p n [].
Proof.
  intros Hp Hn Hk [x Hx] Hall Hfree. destruct (shift_files_names k f p Hp) as (Hm & Ha & Hb & Hc); [lia|done|].
  assert (∀ i, 0 ≤ i → p ≠ numbered p i) as Hpn by (intros i Hi Heq; by apply (numbered_ne p i Hp Hi)).
  set (f1 := shift_files k f p) in *.
  assert (f_names f1 p = Some x) as Hx1 by (rewrite Hc; [done|]; intros i Hi; apply Hpn; lia).
  assert (f_names f1 (numbered p 1) = None) as Hone.
  { destruct k; [exact Hfree|apply Hb; lia]. }
  destruct (rename_law f1 p (numbered p 1) x Hx1) as (R1 & R2 & R3 & Rd & Rf & Re); [apply Hpn; lia|].
  set (f' := f_rename f1 p (numbered p 1)) in *. assert (moved f1 f') as Hm' by by constructor.
  assert (∀ i, 2 ≤ i < 10 ^ 20 → f_names f' (numbered p i) = f_names f1 (numbered p i)) as Hrest.
  { intros i Hi. apply R3; [intros Heq; by apply (Hpn i); [lia|]|]. intros Heq%numbered_inj; [lia|done|lia|lia]. }
  assert (∀ i, Z.of_nat k + 1 < i ≤ Z.of_nat n → f_names f1 (numbered p i) = f_names f (numbered p i)) as Hhigh.
  { intros i Hi. apply Hc. intros j Hj Heq%numbered_inj; [lia|done|lia|lia]. }
  constructor.
  - by eapply moved_trans.
  - done.
  - assert (content f' (numbered p 1) = content f p) as Hc1.
    { apply content_moved; [by eapply moved_trans|]. by rewrite R1, Hx. }
    assert (content f' p = []) as Hc0 by (unfold content; by rewrite R2).
    destruct (olds_first (λ i, content f' (numbered p i)) (λ i, content f1 (numbered p i)) n) as (l & E1 & E2); [lia| |].
    { intros i Hi. apply content_moved; [done|]. apply Hrest. lia. }
    assert (olds (λ i, content f1 (numbered p i)) n = olds (λ i, content f (numbered p i)) n) as E3.
    { apply (olds_shift _ _ k); [done| | | | |].
      - unfold content. by rewrite Hfree.
      - intros i Hi. apply content_moved; [done|]. by apply Ha.
      - intros _. unfold content. by rewrite Hone.
      - intros _. unfold content. by rewrite Hone.
      - intros i Hi. apply content_moved; [done|]. by apply Hhigh. }
    unfold history. rewrite E1, Hc0, Hc1, app_nil_r. rewrite <- E3, E2. unfold content at 1. by rewrite Hone, app_nil_r.
  - intros q Hq Hqi. rewrite R3; [|done|apply Hqi; lia]. apply Hc. intros i Hi. apply Hqi. lia.
  - intros i Hi _. destruct (decide (i = 1)) as [->|Hi1].
    { exists p. split; [by rewrite R1, Hx|by left]. }
    rewrite Hrest by lia. destruct (decide (i ≤ Z.of_nat k + 1)) as [Hle|Hgt].
    + exists (numbered p (i - 1)). split; [|right; exists (i - 1); split; [lia|done]].
      rewrite <- Ha by lia. do 2 f_equal. lia.
    + exists (numbered p i). split; [apply Hhigh; lia|]. right. exists i. split; [lia|done].
Qed.

(** With one file kept, the log takes the place of the file with number 1. *)
Lemma replace_rotates f p :
  name_fits p → is_Some (f_names f p) →
  ∃ lost, rotated f (f_rename (f_unlink f (numbered p 0)) p (numbered p 1)) p 1 lost ∧ oldest f p 1 lost.
Proof.
  intros Hp [x Hx]. pose proof (unlink_law f (numbered p 0)) as (U1 & U2 & Ud & Uf & Ue).
  set (f1 := f_unlink f (numbered p 0)) in *.
  destruct (rename_law f1 p (numbered p 1) x) as (R1 & R2 & R3 & Rd & Rf & Re).
  { rewrite U2; [done|]. intros He. by apply (numbered_ne p 0 Hp). }
  { intros Heq. by apply (numbered_ne p 1 Hp). }
  set (f' := f_rename f1 p (numbered p 1)) in *.
  assert (moved f f') as Hm by (eapply moved_trans; [|by apply (Build_moved f1 f')]; by constructor).
  exists (content f (numbered p 1)). split; [constructor|].
  - done.
  - done.
  - unfold history. cbn [olds]. change (Z.of_nat 1) with 1. rewrite !app_nil_r. f_equal.
    rewrite (content_moved f f' (numbered p 1) p Hm) by by rewrite R1.
    assert (content f' p = []) as -> by (unfold content; by rewrite R2). by rewrite app_nil_r.
  - intros q Hq Hi. rewrite R3; [|done|apply Hi; lia]. apply U2. apply Hi. lia.
  - intros i Hi _. assert (i = 1) as -> by lia. exists p. split; [by rewrite R1, Hx|by left].
  - unfold oldest. change (Z.of_nat 1) with 1. unfold content. destruct (f_names f (numbered p 1)) eqn:E; [right|by left].
    split; [done|]. intros i Hi. assert (i = 1) as -> by lia. by rewrite E.
Qed.

(** With all numbers taken, the file with the last one makes room. *)
Lemma drop_rotates f p n :
  name_fits p → Z.of_nat n + 1 < 10 ^ 20 → (0 < n)%nat → is_Some (f_names f p) →
  (∀ i, 1 ≤ i ≤ Z.of_nat n → is_Some (f_names f (numbered p i))) →
  ∃ lost, rotated f (f_rename (shift_files (Z.to_nat (Z.of_nat n - 1)) (f_unlink f (numbered p (Z.of_nat n))) p)
                              p (numbered p 1)) p n lost ∧ oldest f p n lost.
Proof.
  intros Hp Hn Hpos Hex Hall. pose proof (unlink_law f (numbered p (Z.of_nat n))) as (U1 & U2 & Ud & Uf & Ue).
  set (f1 := f_unlink f (numbered p (Z.of_nat n))) in *. assert (moved f f1) as Hm by by constructor.
  assert (p ≠ numbered p (Z.of_nat n)) as Hpn by (intros He; by apply (numbered_ne p (Z.of_nat n) Hp); [lia|]).
  destruct (shift_rotates f1 p (Z.to_nat (Z.of_nat n - 1)) n) as [Rm Rg Rh Ro Rf]; [done|lia|lia|by rewrite U2| | |].
  { intros i Hi. rewrite U2; [apply Hall; lia|]. intros He%numbered_inj; [lia|done|lia|lia]. }
  { by replace (Z.of_nat (Z.to_nat (Z.of_nat n - 1)) + 1) with (Z.of_nat n) by lia. }
  exists (content f (numbered p (Z.of_nat n))). split; [constructor|by right].
  - by eapply moved_trans.
  - done.
  - cbn [app] in Rh. rewrite <- Rh. destruct n as [|n]; [lia|].
    assert (content f1 (numbered p (Z.of_nat (S n))) = []) as Hc0 by (unfold content; by rewrite U1).
    unfold history. cbn [olds]. rewrite Hc0. cbn [app]. rewrite <- app_assoc. f_equal. f_equal.
    + apply olds_ext. intros i Hi. symmetry. apply content_moved; [done|]. apply U2.
      intros Heq%numbered_inj; [lia|done|lia|lia].
    + symmetry. apply content_moved; [done|]. by apply U2.
  - intros q Hq Hi. rewrite Ro by done. apply U2. apply Hi. lia.
  - intros i Hi Hs. destruct (Rf i Hi Hs) as (q & Hq & Hqi). exists q. split; [|done]. rewrite Hq in Hs |- *. apply U2.
    intros ->. rewrite U1 in Hs. by destruct Hs.
Qed.

Lemma rename_rotates f p M :
  name_fits p → 1 ≤ M < 2 ^ 31 → is_Some (f_names f p) →
  let r := count_files (Z.to_nat (M - 1)) f p 1 0 in
  let '(f1, r) := if r =? M - 1 then (f_unlink f (numbered p r), r - 1) else (f, r) in
  let n := Z.to_nat (Z.max 1 (M - 1)) in
  ∃ lost, rotated f (f_rename (shift_files (Z.to_nat r) f1 p) p (numbered p 1)) p n lost ∧ oldest f p n lost.
Proof.
  intros Hp HM Hex r. destruct (count_files_spec (Z.to_nat (M - 1)) f p 1 0) as (Hr & Hall & Hno); [lia|done|lia|].
  fold r in Hr, Hall, Hno. destruct (Z.eqb_spec r (M - 1)) as [Heq|Hne].
  - destruct (decide (M = 1)) as [->|HM1].
    + replace r with 0 by lia. by apply replace_rotates.
    + replace r with (M - 1) by lia. set (n := Z.to_nat (Z.max 1 (M - 1))).
      assert (Z.of_nat n = M - 1) as Hn by lia. pose proof (drop_rotates f p n Hp) as Hd. rewrite Hn in Hd.
      apply Hd; [lia|lia|done|]. intros i Hi. apply Hall. lia.
  - exists []. split; [|by left]. apply shift_rotates; [done|lia|lia|done| |].
    + intros i Hi. apply Hall. lia.
    + replace (Z.of_nat (Z.to_nat r) + 1) with (r + 1) by lia. apply Hno. lia.
Qed.

Lemma RenameFile_rotates f p max f' r :
  name_fits p → max < 2 ^ 31 → RenameFile f p max = (f', r) →
  (∀ h, f_file f' h = f_file f h) ∧ (∀ h, f_pend f' h = f_pend f h) ∧
  (quiet f f' p ∨
   ∃ g lost, quiet f g p ∧ rotated g f' p (kept max) lost ∧ oldest g p (kept max) lost ∧ is_Some (f_names g p)).
Proof.
  intros Hp Hmax. unfold RenameFile. destruct (f_creat f p) as [f1 d] eqn:Ec.
  pose proof (creat_law _ _ _ _ Ec) as (Hf & Hpe & Hen).
  destruct (d =? -1). { intros [= <- <-]. split; [done|]. split; [done|]. left. by apply same_quiet. }
  destruct Hen as [i0 Hen]. pose proof (entered_quiet _ _ _ _ Hen) as Hq1.
  destruct (f_setlk f1 d) as [f2 rl] eqn:El. apply setlk_law in El.
  assert (quiet f f2 p) as Hq2 by (eapply quiet_trans; [done|by apply same_quiet]).
  assert (∀ h, f_file f2 h = f_file f h) as Hf2 by (intros h; by rewrite (sf_file _ _ El)).
  assert (∀ h, f_pend f2 h = f_pend f h) as Hp2 by (intros h; by rewrite (sf_pend _ _ El)).
  destruct (negb (rl =? 0)).
  { intros [= <- <-]. pose proof (fdclose_law f2 d) as Hs.
    split; [intros h; by rewrite (sf_file _ _ Hs)|]. split; [intros h; by rewrite (sf_pend _ _ Hs)|]. left.
    eapply quiet_trans; [done|by apply same_quiet]. }
  assert (is_Some (f_names f2 p)) as Hex.
  { rewrite (sf_names _ _ El), (en_name _ _ _ _ Hen). by eexists. }
  fold (max_files max). assert (1 ≤ max_files max < 2 ^ 31) as HM.
  { unfold max_files, LOG_DEFAULT_MAX_FILE_NUM. destruct (Z.leb_spec max 0); lia. }
  pose proof (rename_rotates f2 p (max_files max) Hp HM Hex) as Hrot. cbv zeta in Hrot.
  replace (cut_at 1024 (p ++ bytes ".01")) with (numbered p 1) by done.
  destruct (if _ =? _ then _ else _) as [f3 c]. intros [= <- <-]. destruct Hrot as (lost & Hrot & Hlost).
  eapply rotated_same in Hrot; [|apply (unlck_law _ d)]. eapply rotated_same in Hrot; [|apply (fdclose_law _ d)].
  split; [intros h; by rewrite (mv_file _ _ (ro_moved _ _ _ _ _ Hrot))|].
  split; [intros h; by rewrite (mv_pend _ _ (ro_moved _ _ _ _ _ Hrot))|]. right. by exists f2, lost.
Qed.
End facts.
