(* ===== verification/LogServe.v ===== *)
(** The log server ([CLogSvrProc], logsvr/logsvr_proc.cpp): messages from a
    queue, written to files by module, and also by log number and by user
    where that is configured.  Its tables of open files are those of HashList:
    the locks of [CHashList] do nothing in one process (LockedHash). *)
From Stdlib Require Import Ascii String.
From stdpp Require Import gmap.
From S2P Require Import Prelude Fifo HashList IniFile Mysql Conf LogFile.

#[local] Open Scope Z_scope.
#[local] Open Scope list_scope.
#[local] Arguments Z.add : simpl never.
#[local] Arguments Z.eqb : simpl never.
#[local] Arguments Z.ltb : simpl never.
#[local] Arguments Z.leb : simpl never.

(** * Data (mmlib/log/log.h) *)

(** [CModuleName]: at most 16 characters; the rest of the array is zero, so
    that comparing names is comparing texts. *)
Module CModuleName.
Definition t : Type := list Z.
Definition of_str (pszModuleName : list Z) : t := take (Z.to_nat LOG_MODULE_NAME_LEN) (cstr pszModuleName).

(** Characters are signed, [0xF0000000] is [- 2 ^ 28] as an [int]. *)
Definition hash_char (h c : Z) : Z :=
  let h := i32 (Z.shiftl h 4 + i8 c) in
  let g := Z.land h (- 2 ^ 28) in
  let h := if negb (g =? 0) then Z.lxor h (Z.shiftr g 24) else h in
  Z.land h (Z.lnot g).
Definition Hash (m_szModuleName : t) : Z := fold_left hash_char m_szModuleName 0.

Lemma hash_char_nonneg h c : 0 ≤ hash_char h c.
Proof.
  unfold hash_char. set (x := i32 _). set (g := Z.land x _). apply Z.land_nonneg.
  destruct (Z.le_gt_cases 0 x) as [Hx|Hx].
  - left. assert (0 ≤ g) by (apply Z.land_nonneg; by left). destruct (negb _); [|done].
    apply Z.lxor_nonneg. pose proof (Z.shiftr_nonneg g 24). tauto.
  - right. assert (g < 0) by (apply Z.land_neg; lia). pose proof (Z.lnot_nonneg g). lia.
Qed.

Lemma Hash_nonneg k : 0 ≤ Hash k.
Proof.
  unfold Hash. assert (∀ l h, 0 ≤ h → 0 ≤ fold_left hash_char l h) as Hl.
  { induction l as [|c l IH]; intros h Hh; [done|]. cbn. apply IH, hash_char_nonneg. }
  by apply Hl.
Qed.
End CModuleName.

#[export] Program Instance name_key : HashKey CModuleName.t := {|
  key_zero := []; key_mod k n := Z.rem (CModuleName.Hash k) n |}.
Next Obligation. intros k n Hn. apply Z.rem_bound_pos; [apply CModuleName.Hash_nonneg|done]. Qed.

Definition LOG_OUTPUT_TYPE_SPEC_LOGID : Z := 3.
Definition LOG_OUTPUT_TYPE_SPEC_USERID : Z := 4.

(** The arrays of a configuration, as strings. *)
Record LogOutputConf : Type := Conf {
  iLogConfShmInitFlag : Z;
  iOutputLogLevel : Z;
  iOutputLogType : Z;
  szOutputPathDir : list Z;
  iMaxFileSize : Z;
  iFlushFlag : Z;
  iMaxFileNum : Z;
}.

Record CLogAllConf : Type := AllConf {
  m_pstGlobalConf : LogOutputConf;
  m_objModuleConf : CHashListNoLock.table CModuleName.t LogOutputConf;
  m_objLogIDConf : CHashListNoLock.table Z LogOutputConf;
  m_objUserIDConf : CHashListNoLock.table Z LogOutputConf;
}.

(** ** Log messages *)
Module LogHeader.
Definition size : Z := 48.

Record t : Type := mk {
  uiLogTimeSec : Z;
  uiLogTimeUSec : Z;
  iLogLevel : Z;
  iLogID : Z;
  iProcID : Z;
  szModuleName : list Z;
  ullUserID : Z;
  szLogContent : list Z;
}.

(** The string at an offset: one that does not end in the buffer is read past it. *)
Definition str_at (buf : list Z) (off : Z) : outcome (list Z) :=
  let s := drop (Z.to_nat off) buf in if bool_decide (0 ∈ s) then Ok (cstr s) else Fault.
Definition uint_at (buf : list Z) (off n : Z) : outcome Z := d ← mread buf off n; Ok (le_dec d).

(** A pointer to the structure: the members, at their offsets. *)
Definition of_buff (buf : list Z) : outcome t :=
  sec ← uint_at buf 0 4; usec ← uint_at buf 4 4; level ← uint_at buf 8 4; id ← uint_at buf 12 4;
  pid ← uint_at buf 16 4; name ← str_at buf 20; user ← uint_at buf 40 8; content ← str_at buf 48;
  Ok (mk sec usec (i32 level) (i32 id) (i32 pid) name user content).
End LogHeader.

(** * Open files *)

Record LogFilePInfo : Type := FileInfo {
  fi_Info : slot;
  fi_Error : slot;
  fi_Warn : slot;
  fi_Debug : slot;
  fi_Trace : slot;
}.

(** [memset(.., 0, ..)]: a null pointer and zeros. *)
Definition slot0 : slot := Slot None 0 0.
Definition info0 : LogFilePInfo := FileInfo slot0 slot0 slot0 slot0 slot0.

Definition LOG_BUFF_SIZE : Z := LogHeader.size + LOG_LENGTH_MAX + 1.

Module CLogSvrProc.
Import LogFiles.

Section files.
Context {F : Type} `{Files F}.
Implicit Types (f : F).

Definition OpenFile f (pszFileName : list Z) : F * option Z := f_open f pszFileName.

(** The cases of the switch in [WriteLogToFile]. *)
Definition LevelFile : list Z → F → slot → list Z → Z → Z → Z → Z → Z → F * slot * bool := LevelCase OpenFile.

Definition InfoFile := LevelFile (bytes "info").
Definition ErrorFile := LevelFile (bytes "error").
Definition WarnFile := LevelFile (bytes "warn").
Definition DebugFile := LevelFile (bytes "debug").
Definition TraceFile := LevelFile (bytes "trace").

(** The switch: the slots afterwards, the stream to print to, the flag. *)
Definition SwitchLevel f (info : LogFilePInfo) (level : Z) (szLogFilePath : list Z)
    (hour tTimeNow check size num : Z) : F * LogFilePInfo * option Z * bool :=
  let '(FileInfo i e w d t) := info in
  if level =? LOG_INFO then
    let '(f, i, u) := InfoFile f i szLogFilePath hour tTimeNow check size num in (f, FileInfo i e w d t, pf i, u)
  else if level =? LOG_ERR then
    let '(f, e, u) := ErrorFile f e szLogFilePath hour tTimeNow check size num in (f, FileInfo i e w d t, pf e, u)
  else if level =? LOG_WARN then
    let '(f, w, u) := WarnFile f w szLogFilePath hour tTimeNow check size num in (f, FileInfo i e w d t, pf w, u)
  else if level =? LOG_DEBUG then
    let '(f, d, u) := DebugFile f d szLogFilePath hour tTimeNow check size num in (f, FileInfo i e w d t, pf d, u)
  else if level =? LOG_TRACE then
    let '(f, t, u) := TraceFile f t szLogFilePath hour tTimeNow check size num in (f, FileInfo i e w d t, pf t, u)
  else (f, info, None, false).

Context `{LocalTime}.

(** The line of a message. *)
Definition HeadText (hd : LogHeader.t) : list Z :=
  cut_at 256 (GetLogHeadTime (LogHeader.uiLogTimeSec hd) (LogHeader.uiLogTimeUSec hd) ++ bytes "|" ++
              LogHeader.szModuleName hd ++ bytes "(" ++ fmt_d (LogHeader.iProcID hd) ++ bytes ")|" ++
              fmt_d (LogHeader.iLogID hd) ++ bytes "|" ++ fmt_lu (LogHeader.ullUserID hd) ++ bytes "||||").
Definition LineText (hd : LogHeader.t) : list Z := HeadText hd ++ LogHeader.szLogContent hd ++ [NL].

Definition HourOf (hd : LogHeader.t) : Z := atoi (GetFileNameTime (LogHeader.uiLogTimeSec hd)).

(** The directory a message goes to. *)
Definition PathOf (global conf : LogOutputConf) (hd : LogHeader.t) : list Z :=
  if iOutputLogType conf =? LOG_OUTPUT_TYPE_SPEC_LOGID then
    if bool_decide (szOutputPathDir conf = [])
    then cut_at 1024 (szOutputPathDir global ++ bytes "/" ++ fmt_d (LogHeader.iLogID hd))
    else cut_at 1024 (szOutputPathDir conf)
  else if iOutputLogType conf =? LOG_OUTPUT_TYPE_SPEC_USERID then
    if bool_decide (szOutputPathDir conf = [])
    then cut_at 1024 (szOutputPathDir global ++ bytes "/" ++ fmt_lu (LogHeader.ullUserID hd))
    else cut_at 1024 (szOutputPathDir conf)
  else cut_at 1024 (szOutputPathDir conf ++ bytes "/" ++ LogHeader.szModuleName hd).

Definition WriteLogToFile f (global : LogOutputConf) (m_iSizeCheckTimeVal : Z) (hd : LogHeader.t)
    (stLogFilePInfo : LogFilePInfo) (stLogOutputConf : LogOutputConf) : F * LogFilePInfo * Z :=
  let '(f, tTimeNow) := f_time f in
  let szLogFilePath := PathOf global stLogOutputConf hd in
  let '(f, info, pFile, flag) :=
    SwitchLevel f stLogFilePInfo (LogHeader.iLogLevel hd) szLogFilePath (HourOf hd) tTimeNow
      m_iSizeCheckTimeVal (iMaxFileSize global) (iMaxFileNum global) in
  let f := match pFile with
           | Some h =>
               if negb (f_error f h) then
                 let f := f_print f h (LineText hd) in
                 if iFlushFlag global =? 1 then f_flush f h else f
               else f
           | None => f end in
  (f, info, if (flag : bool) then 1 else 0).
End files.

(** * The server *)
Record t (Q : Type) : Type := mk {
  m_objLogConf : CLogAllConf;
  m_objLogQueue : Q;
  m_objModuleLogFilePHash : CHashListNoLock.table CModuleName.t LogFilePInfo;
  m_objSpecLogIDFilePHash : CHashListNoLock.table Z LogFilePInfo;
  m_objSpecUserIDFilePHash : CHashListNoLock.table Z LogFilePInfo;
  m_iSizeCheckTimeVal : Z;
}.
Arguments mk {Q}.
Arguments m_objLogConf {Q}.
Arguments m_objLogQueue {Q}.
Arguments m_objModuleLogFilePHash {Q}.
Arguments m_objSpecLogIDFilePHash {Q}.
Arguments m_objSpecUserIDFilePHash {Q}.
Arguments m_iSizeCheckTimeVal {Q}.

Section server.
Context {Q F : Type} `{FifoOps Q} `{Files F} `{LocalTime}.
Implicit Types (s : t Q) (f : F).

Definition set_queue s (q : Q) : t Q :=
  mk (m_objLogConf s) q (m_objModuleLogFilePHash s) (m_objSpecLogIDFilePHash s)
     (m_objSpecUserIDFilePHash s) (m_iSizeCheckTimeVal s).
Definition set_modules s tab : t Q :=
  mk (m_objLogConf s) (m_objLogQueue s) tab (m_objSpecLogIDFilePHash s)
     (m_objSpecUserIDFilePHash s) (m_iSizeCheckTimeVal s).
Definition set_logids s tab : t Q :=
  mk (m_objLogConf s) (m_objLogQueue s) (m_objModuleLogFilePHash s) tab
     (m_objSpecUserIDFilePHash s) (m_iSizeCheckTimeVal s).
Definition set_users s tab : t Q :=
  mk (m_objLogConf s) (m_objLogQueue s) (m_objModuleLogFilePHash s) (m_objSpecLogIDFilePHash s)
     tab (m_iSizeCheckTimeVal s).

(** What the three outputs of [Run] do with a table of open files: find or make
    the entry, write the line, put the entry back.  The result is the table, the
    update flag, which the outputs share, and whether the round goes on. *)
Definition Output {KEY : Type} `{EqDecision KEY} `{HashKey KEY} s f (hd : LogHeader.t)
    (tab : CHashListNoLock.table KEY LogFilePInfo) (key : KEY) (conf : LogOutputConf)
    (szLogFilePath : list Z) (flag : bool)
    : outcome (F * CHashListNoLock.table KEY LogFilePInfo * bool * bool) :=
  '(iRetVal, info) ← CHashListNoLock.Get tab key info0;
  let write f tab info flag :=
    let '(f, info, iRetVal) :=
      WriteLogToFile f (m_pstGlobalConf (m_objLogConf s)) (m_iSizeCheckTimeVal s) hd info conf in
    let flag := flag || (iRetVal =? 1) in
    if (flag : bool) then
      '(tab, iRetVal) ← CHashListNoLock.Update tab key info;
      Ok (f, tab, flag, iRetVal =? 0)
    else Ok (f, tab, flag, true) in
  if iRetVal =? CHashListNoLock.E_HASH_LIST_NO_NODE then
    '(tab, iRetVal) ← CHashListNoLock.Insert tab key info0;
    if negb (iRetVal =? CHashListNoLock.SUCCESS) then Ok (f, tab, true, false)
    else write (CheckDirAll f szLogFilePath) tab info0 true
  else if negb (iRetVal =? CHashListNoLock.SUCCESS) then Ok (f, tab, flag, false)
  else write f tab info flag.

Definition OutputModule s f (hd : LogHeader.t) : outcome (F * t Q * bool * bool) :=
  let global := m_pstGlobalConf (m_objLogConf s) in
  '(f, tab, flag, go) ←
    Output s f hd (m_objModuleLogFilePHash s) (CModuleName.of_str (LogHeader.szModuleName hd)) global
      (cut_at 1024 (szOutputPathDir global ++ bytes "/" ++ LogHeader.szModuleName hd)) false;
  Ok (f, set_modules s tab, flag, go).

(** The configuration of a log number or a user: there is one if the table is
    not empty and has the key. *)
Definition SpecConf (tab : CHashListNoLock.table Z LogOutputConf) (key : Z) : outcome (option LogOutputConf) :=
  if 1 <? CHashListNoLock.GetUsedDataNum tab then
    '(r, conf) ← CHashListNoLock.Get tab key (Conf 0 0 0 [] 0 0 0);
    Ok (if r =? 0 then Some conf else None)
  else Ok None.

(** The numbers are converted to the keys of the tables, [unsigned int]. *)
Definition OutputLogID s f (hd : LogHeader.t) (flag : bool) : outcome (F * t Q * bool * bool) :=
  let global := m_pstGlobalConf (m_objLogConf s) in
  conf ← SpecConf (m_objLogIDConf (m_objLogConf s)) (u32 (LogHeader.iLogID hd));
  match conf with
  | None => Ok (f, s, flag, true)
  | Some conf =>
      '(f, tab, flag, go) ←
        Output s f hd (m_objSpecLogIDFilePHash s) (u32 (LogHeader.iLogID hd)) conf
          (if bool_decide (szOutputPathDir conf = [])
           then cut_at 1024 (szOutputPathDir global ++ bytes "/" ++ fmt_d (LogHeader.iLogID hd))
           else cut_at 1024 (szOutputPathDir conf)) flag;
      Ok (f, set_logids s tab, flag, go)
  end.

(** The configuration is found by the whole user number, the open files by its
    lower half. *)
Definition OutputUserID s f (hd : LogHeader.t) (flag : bool) : outcome (F * t Q * bool * bool) :=
  let global := m_pstGlobalConf (m_objLogConf s) in
  conf ← SpecConf (m_objUserIDConf (m_objLogConf s)) (LogHeader.ullUserID hd);
  match conf with
  | None => Ok (f, s, flag, true)
  | Some conf =>
      '(f, tab, flag, go) ←
        Output s f hd (m_objSpecUserIDFilePHash s) (u32 (LogHeader.ullUserID hd)) conf
          (if bool_decide (szOutputPathDir conf = [])
           then cut_at 1024 (szOutputPathDir global ++ bytes "/" ++ fmt_lu (LogHeader.ullUserID hd))
           else cut_at 1024 (szOutputPathDir conf)) flag;
      Ok (f, set_users s tab, flag, go)
  end.

Definition valid_header (hd : LogHeader.t) : bool :=
  negb (LogHeader.uiLogTimeSec hd =? 0) && (0 <? LogHeader.iLogLevel hd) && (LogHeader.iLogLevel hd <=? 5) &&
  negb (LogHeader.iProcID hd =? 0) && negb (bool_decide (LogHeader.szModuleName hd = [])).

(** A message in the buffer. *)
Definition DealLog s f (buf : list Z) : outcome (F * t Q) :=
  hd ← LogHeader.of_buff buf;
  if negb (valid_header hd) then Ok (f, s) else
  '(f, s, flag, go) ← OutputModule s f hd;
  if negb go then Ok (f, s) else
  '(f, s, flag, go) ← OutputLogID s f hd flag;
  if negb go then Ok (f, s) else
  '(f, s, _, _) ← OutputUserID s f hd flag;
  Ok (f, s).

(** One round of the loop. *)
Definition RunOnce s f (m_szLogFromQueueBuff : list Z) : outcome (F * t Q * list Z) :=
  '(q, iRetVal, iRecvLen, d) ← q_out (m_objLogQueue s) LOG_BUFF_SIZE;
  buf ← mwrite m_szLogFromQueueBuff 0 d;
  let s := set_queue s q in
  if iRetVal =? Q_EMPTY then Ok (f, s, buf)
  else if negb (iRetVal =? Q_OK) then Ok (f, s, buf)
  else if iRecvLen <? LogHeader.size then Ok (f, s, buf)
  else
    buf ← aset buf iRecvLen 0;
    '(f, s) ← DealLog s f buf;
    Ok (f, s, buf).

Fixpoint Run (n : nat) s f buf : outcome (F * t Q * list Z) :=
  match n with
  | O => Ok (f, s, buf)
  | S n => '(f, s, buf) ← RunOnce s f buf; Run n s f buf
  end.
End server.
End CLogSvrProc.
