(* ===== verification/LogServeFacts.v ===== *)
(** What the log server does to its files: a line goes to the end of the log of
    its hour, and a log that has grown too long is renamed before. *)
From Stdlib Require Import Ascii String.
From stdpp Require Import gmap.
From S2P Require Import Prelude Fifo HashList IniFile Mysql Conf LogFile LogFileFacts LogServe.
Import LogFiles CLogSvrProc.

#[local] Open Scope Z_scope.
#[local] Open Scope list_scope.
#[local] Arguments Z.add : simpl never.
#[local] Arguments Z.eqb : simpl never.
#[local] Arguments Z.ltb : simpl never.
#[local] Arguments Z.leb : simpl never.
#[local] Arguments Z.mul : simpl never.

Section files.
Context {F : Type} {OF : Files F} {VF : FileViews F} {LF : FilesLaws F} {WF : FilesWork F}.
Implicit Types (f : F).

(** ** Streams

    A slot had the stream [a] and has the stream [b]: the other open streams are
    as they were, and no other stream is open. *)
Record streams f f' (a b : option Z) : Prop := {
  st_other s : is_Some (f_file f s) → a ≠ Some s → f_file f' s = f_file f s ∧ f_pend f' s = f_pend f s;
  st_new h : b = Some h → a = Some h ∨ f_file f h = None;
  st_open s : is_Some (f_file f' s) → b = Some s ∨ is_Some (f_file f s) ∧ a ≠ Some s;
}.

Lemma streams_trans f1 f2 f3 a b c : streams f1 f2 a b → streams f2 f3 b c → streams f1 f3 a c.
Proof.
  intros [Ho Hn Hp] [Ho' Hn' Hp']. constructor.
  - intros s Hs Ha. destruct (Ho s Hs Ha) as [E1 E2]. rewrite <- E1, <- E2. apply Ho'; [by rewrite E1|].
    intros Hb. destruct (Hn s Hb) as [?|E]; [done|]. rewrite E in Hs. by destruct Hs.
  - intros h Hc. destruct (Hn' h Hc) as [Hb|Hb]; [by apply Hn|]. destruct (f_file f1 h) as [i|] eqn:E; [|by right].
    destruct (decide (a = Some h)) as [->|Ha]; [by left|]. destruct (Ho h) as [E1 _]; [by rewrite E|done|]. congruence.
  - intros s Hs. destruct (Hp' s Hs) as [Hc|[Hs2 Hb]]; [by left|]. destruct (Hp s Hs2) as [?|?]; [done|by right].
Qed.

Lemma streams_same f f' a :
  (∀ h, f_file f' h = f_file f h) → (∀ h, f_pend f' h = f_pend f h) →
  (∀ h, a = Some h → is_Some (f_file f h)) → streams f f' a a.
Proof.
  intros Hf Hp Ha. constructor; [done|by left|]. intros s Hs. rewrite Hf in Hs.
  destruct (decide (a = Some s)); [by left|by right].
Qed.

(** An open stream that holds nothing back, of the file with that name. *)
Definition stream_of f (h : Z) (p : list Z) : Prop :=
  ∃ i, f_file f h = Some i ∧ f_names f p = Some i ∧ f_pend f h = [].

Lemma close_quiet f h i p :
  f_file f h = Some i → f_pend f h = [] → quiet f (f_close f h) p ∧ streams f (f_close f h) (Some h) None.
Proof.
  intros Hf Hp. destruct (close_law f h i Hf) as (x & y & Hxy & [Wn Wf We Wd Wo Wl] & Hc). rewrite Hp in Hxy.
  symmetry in Hxy. apply app_eq_nil in Hxy as [-> ->]. rewrite app_nil_r in Wo.
  assert (∀ j, f_data (f_close f h) j = f_data f j) as Hd by (intros j; destruct (decide (j = i)) as [->|]; auto).
  split; [constructor; [done|done|]|constructor; [|done|]].
  - intros q. unfold content. rewrite Wn. by destruct (f_names f q).
  - intros s _ Hs. assert (s ≠ h) by congruence. auto.
  - intros s Hs. right. destruct (decide (s = h)) as [->|Hne]; [rewrite Hc in Hs; by destruct Hs|].
    rewrite <- Wf by done. split; [done|congruence].
Qed.

Lemma close_opt_quiet f a p :
  (∀ h, a = Some h → is_Some (f_file f h) ∧ f_pend f h = []) →
  quiet f (close_opt f a) p ∧ streams f (close_opt f a) a None.
Proof.
  intros Ha. destruct a as [h|]; cbn [close_opt].
  - destruct (Ha h eq_refl) as [[i Hi] Hp]. by apply (close_quiet f h i).
  - split; [by apply same_quiet|]. by apply streams_same.
Qed.

Lemma open_quiet f p :
  ∃ f' h, f_open f p = (f', Some h) ∧ quiet f f' p ∧ streams f f' None (Some h) ∧ stream_of f' h p.
Proof.
  destruct (work_open f p) as [h Hh]. destruct (f_open f p) as [f' r] eqn:E. cbn in Hh. subst r.
  pose proof (open_law _ _ _ _ E) as (Hn & i & He & Hf & Ho & Hp & Hpo). exists f', h. split; [done|].
  split; [by eapply entered_quiet|]. split.
  - constructor.
    + intros s Hs _. assert (s ≠ h) by (intros ->; rewrite Hn in Hs; by destruct Hs). auto.
    + intros x [= ->]. by right.
    + intros s Hs. destruct (decide (s = h)) as [->|Hne]; [by left|]. right. by rewrite <- Ho.
  - exists i. split; [done|]. split; [by destruct He|done].
Qed.

(** ** Logs that are renamed when they are long *)
Definition full_files f (p : list Z) (n : nat) (size : Z) : Prop :=
  ∀ i, 1 ≤ i ≤ Z.of_nat n → is_Some (f_names f (numbered p i)) → size < zlen (content f (numbered p i)).

(** What becomes of the bytes [old] of a log with [n] numbered files of more
    than [size] bytes: nothing is lost while they fit the files; of more than that
    the first are lost, and then there are [n] full files' worth of the last at least. *)
Definition shrunk (n : nat) (size : Z) (old new : list Z) : Prop :=
  ∃ lost, old = lost ++ new ∧ (zlen old ≤ (Z.of_nat n + 1) * size → lost = []) ∧
    (lost = [] ∨ Z.of_nat n * (size + 1) ≤ zlen new).

Lemma shrunk_refl n size l : shrunk n size l l.
Proof. exists []. by split_and!; [| |left]. Qed.

Lemma shrunk_app n size old new l : shrunk n size old new → shrunk n size (old ++ l) (new ++ l).
Proof.
  intros (lost & -> & Hfit & Htail). pose proof (zlen_nonneg l). exists lost. split; [by rewrite app_assoc|]. split.
  - rewrite zlen_app. intros. apply Hfit. lia.
  - rewrite zlen_app. destruct Htail; [by left|right; lia].
Qed.

Lemma shrunk_trans n size a b c : shrunk n size a b → shrunk n size b c → shrunk n size a c.
Proof.
  intros (x & -> & Hfx & Hx) (y & -> & Hfy & Hy). exists (x ++ y). split; [by rewrite app_assoc|].
  rewrite zlen_app in Hfx, Hx. pose proof (zlen_nonneg x). pose proof (zlen_nonneg y). split.
  - rewrite zlen_app. intros Hz. rewrite Hfx by lia. cbn. apply Hfy. lia.
  - destruct Hy as [->|Hy]; [|by right]. destruct Hx as [->|Hx]; [by left|right]. rewrite zlen_nil in Hx. lia.
Qed.

(** Time passes for the log [p]. *)
Record log_step f f' (p : list Z) (n : nat) (size : Z) : Prop := {
  ls_data i : f_data f' i = f_data f i;
  ls_names q : q ≠ p → (∀ i, 0 ≤ i ≤ Z.of_nat n → q ≠ numbered p i) → f_names f' q = f_names f q;
  ls_history : shrunk n size (history f p n) (history f' p n);
  ls_full : full_files f' p n size;
}.

Lemma quiet_step f f' p n size : name_fits p → full_files f p n size → quiet f f' p → log_step f f' p n size.
Proof.
  intros Hp Hfull [Hd Hn Hc]. constructor; [done|by intros; apply Hn| |].
  - rewrite (history_content f f') by done. apply shrunk_refl.
  - intros i Hi. rewrite Hn, Hc; [by apply Hfull|]. apply numbered_ne; [done|lia].
Qed.

Lemma quiet_full f f' p n size : name_fits p → quiet f f' p → full_files f p n size → full_files f' p n size.
Proof. intros Hp Hq Hf. by apply (ls_full f f'), quiet_step. Qed.

Lemma olds_long (c : Z → list Z) n size :
  (∀ i, 1 ≤ i ≤ Z.of_nat n → size < zlen (c i)) → Z.of_nat n * (size + 1) ≤ zlen (olds c n).
Proof.
  induction n as [|n IH]; intros Hc; [by cbn|]. cbn [olds]. rewrite zlen_app.
  pose proof (Hc (Z.of_nat (S n))). specialize (IH ltac:(intros; apply Hc; lia)). lia.
Qed.

Lemma rotated_step f f' p n size lost :
  name_fits p → full_files f p n size → size < zlen (content f p) →
  rotated f f' p n lost → oldest f p n lost → log_step f f' p n size.
Proof.
  intros Hp Hfull Hsize [Hm Hg Hh Ho Hf] Hold. constructor.
  - apply Hm.
  - done.
  - exists lost. split; [done|]. destruct Hold as [->|[-> Hall]]; [by split; [|left]|].
    assert (∀ i, 1 ≤ i ≤ Z.of_nat n → size < zlen (content f (numbered p i))) as Hlong.
    { intros. by apply Hfull; [|apply Hall]. }
    pose proof (olds_long (λ i, content f (numbered p i)) n size Hlong) as Hl. split.
    + intros Hlen. exfalso. unfold history in Hlen. rewrite zlen_app in Hlen. lia.
    + right. destruct n as [|n]; [pose proof (zlen_nonneg (history f' p 0)); lia|].
      assert (history f' p (S n) = olds (λ i, content f (numbered p i)) n ++ content f p) as ->.
      { unfold history at 1 in Hh. cbn [olds] in Hh. rewrite <- app_assoc in Hh. by apply app_inv_head in Hh. }
      rewrite zlen_app. assert (Z.of_nat n * (size + 1) ≤ zlen (olds (λ i, content f (numbered p i)) n))
        by (apply olds_long; intros; apply Hlong; lia). lia.
  - intros i Hi Hs. destruct (Hf i Hi Hs) as (q & Hq & [->|(j & Hj & ->)]); rewrite (content_moved f f' _ _ Hm Hq); [done|].
    apply Hfull; [done|]. by rewrite <- Hq.
Qed.

Lemma step_quiet f f' f'' p n size : name_fits p → log_step f f' p n size → quiet f' f'' p → log_step f f'' p n size.
Proof.
  intros Hp [Hd Hn Hh Hf] Hq. pose proof (quiet_history f' f'' p p n Hq) as Hqh. pose proof (quiet_full _ _ _ _ _ Hp Hq Hf).
  destruct Hq as [Hd' Hn' Hc']. constructor; [intros; by rewrite Hd'| | |done].
  - intros q Hqp Hqi. rewrite Hn' by done. by apply Hn.
  - by rewrite Hqh.
Qed.

Lemma quiet_step_trans f f' f'' p n size : quiet f f' p → log_step f' f'' p n size → log_step f f'' p n size.
Proof.
  intros Hq [Hd Hn Hh Hf]. pose proof (quiet_history f f' p p n Hq) as Hqh. destruct Hq as [Hd' Hn' Hc'].
  constructor; [intros; by rewrite Hd| | |done].
  - intros q Hqp Hqi. rewrite Hn by done. by apply Hn'.
  - by rewrite <- Hqh.
Qed.

Lemma CheckFileSize_long f h i size :
  f_file f h = Some i → CheckFileSize f (Some h) size ≠ 0 → size < zlen (f_data f i).
Proof.
  intros Hf. unfold CheckFileSize. destruct (f_fileno f h <? 0); [done|].
  destruct (f_fstat f (f_fileno f h)) as [r n] eqn:E. destruct (Z.eqb_spec r 0) as [->|]; [|done]. cbn [negb].
  rewrite <- (fstat_law f h i n Hf E). destruct (Z.ltb_spec size n); [done|congruence].
Qed.

(** ** One level *)
Definition slot_ok f (dir sub : list Z) (st : slot) : Prop :=
  pf st = None ∧ iCurLogTime st = 0 ∨
  ∃ h, pf st = Some h ∧ stream_of f h (FullName dir sub (iCurLogTime st)).

Lemma slot_ok_open f dir sub st h :
  slot_ok f dir sub st → pf st = Some h → is_Some (f_file f h) ∧ f_pend f h = [].
Proof.
  intros [[Hp _]|(x & Hp & i & Hf & _ & He)] Hh; [congruence|]. simplify_eq. rewrite Hf. split; [by eexists|done].
Qed.

(** A stream that is open and up to date gives way to one of the log [p]. *)
Lemma reopen f p a :
  (∀ h, a = Some h → is_Some (f_file f h) ∧ f_pend f h = []) →
  ∃ f' h, f_open (close_opt f a) p = (f', Some h) ∧ quiet f f' p ∧ streams f f' a (Some h) ∧ stream_of f' h p.
Proof.
  intros Ha. destruct (close_opt_quiet f a p Ha) as [Hq Hs]. destruct (open_quiet (close_opt f a) p) as (f' & h & Ho & Hq' & Hs' & Hst).
  exists f', h. split; [done|]. split; [by eapply quiet_trans|]. split; [by eapply streams_trans|done].
Qed.

Lemma stream_of_open f h p : stream_of f h p → ∀ x, Some h = Some x → is_Some (f_file f x) ∧ f_pend f x = [].
Proof. intros (i & Hf & _ & He) x [= <-]. rewrite Hf. split; [by eexists|done]. Qed.

(** The log is renamed, and begun again. *)
Lemma rename_reopen f p h size num :
  name_fits p → num < 2 ^ 31 → full_files f p (kept num) size → stream_of f h p →
  CheckFileSize f (Some h) size ≠ 0 →
  ∃ f' h', f_open (RenameFile (close_opt f (Some h)) p num).1 p = (f', Some h') ∧
    log_step f f' p (kept num) size ∧ streams f f' (Some h) (Some h') ∧ stream_of f' h' p.
Proof.
  intros Hp Hnum Hfull Hst Hsize. pose proof (close_opt_quiet f (Some h) p (stream_of_open _ _ _ Hst)) as [Hq1 Hs1].
  destruct Hst as (i & Hf & Hn & He). apply (CheckFileSize_long f h i size Hf) in Hsize.
  assert (content f p = f_data f i) as Hci by (unfold content; by rewrite Hn).
  set (f1 := close_opt f (Some h)) in *. destruct (RenameFile f1 p num) as [f2 r] eqn:Er.
  destruct (RenameFile_rotates f1 p num f2 r Hp Hnum Er) as (Hf2 & Hp2 & Hrot). cbn [fst].
  destruct (open_quiet f2 p) as (f3 & h3 & Ho3 & Hq3 & Hs3 & Hst3). exists f3, h3. split; [done|]. split; [|split; [|done]].
  - eapply step_quiet; [done| |done]. pose proof (quiet_full _ _ _ _ _ Hp Hq1 Hfull) as Hfull1.
    destruct Hrot as [Hq2|(g & lost & Hg & Hrot & Hold & _)].
    + apply quiet_step; [done|done|by eapply quiet_trans].
    + eapply quiet_step_trans; [eapply quiet_trans; [exact Hq1|exact Hg]|]. eapply rotated_step; [done| | |done|done].
      * by eapply quiet_full.
      * rewrite (qu_content _ _ _ Hg), (qu_content _ _ _ Hq1), Hci. done.
  - eapply streams_trans; [exact Hs1|]. eapply streams_trans; [|exact Hs3]. by apply streams_same.
Qed.

Lemma LevelFile_ok sub f st dir hour now check size num :
  let p := FullName dir sub hour in
  name_fits p → num < 2 ^ 31 → full_files f p (kept num) size → slot_ok f dir sub st → hour ≠ 0 →
  ∃ f' st' u, LevelFile sub f st dir hour now check size num = (f', st', u) ∧
    log_step f f' p (kept num) size ∧ streams f f' (pf st) (pf st') ∧
    (∃ h, pf st' = Some h ∧ stream_of f' h p) ∧ iCurLogTime st' = hour ∧
    (u = false → pf st' = pf st ∧ iCurLogTime st' = iCurLogTime st).
Proof.
  intros p Hp Hnum Hfull Hslot Hhour. unfold LevelFile, LevelCase, OpenFile. fold p.
  pose proof (λ h, slot_ok_open f dir sub st h Hslot) as Hopen.
  destruct (Z.eqb_spec hour (iCurLogTime st)) as [Heq|Hne]; cbn [negb].
  2:{ destruct (reopen f p (pf st) Hopen) as (f' & h & -> & Hq & Hs & Hst). eexists f', _, true. split; [done|].
      split; [by apply quiet_step|]. split; [done|]. split; [by exists h|]. by split. }
  destruct Hslot as [[_ Hz]|(h & Hh & Hst)]; [congruence|]. rewrite <- Heq in Hst. fold p in Hst.
  assert (streams f f (pf st) (pf st)) as Hsame by (apply streams_same; [done|done|intros x Hx; by apply Hopen]).
  assert (log_step f f p (kept num) size) as Hquiet by by apply quiet_step, same_quiet.
  destruct (_ || _).
  2:{ eexists f, st, false. split; [done|]. split; [done|]. split; [done|]. split; [by exists h|]. by split. }
  destruct (Z.eqb_spec (CheckFileSize f (pf st) size) 0) as [|Hlong]; cbn [negb].
  { eexists f, _, false. split; [done|]. cbn. split; [done|]. split; [done|]. split; [by exists h|]. by split. }
  destruct (reopen f p (pf st) Hopen) as (f1 & h1 & -> & Hq1 & Hs1 & Hst1).
  destruct (Z.eqb_spec (CheckFileSize f1 (Some h1) size) 0) as [|Hlong1]; cbn [negb].
  { eexists f1, _, true. split; [done|]. cbn. split; [by apply quiet_step|]. split; [done|]. split; [by exists h1|]. by split. }
  destruct (rename_reopen f1 p h1 size num Hp Hnum) as (f2 & h2 & Ho2 & Hl2 & Hs2 & Hst2); [by eapply quiet_full|done|done|].
  destruct (RenameFile _ _ _) as [g r]. cbn [fst] in Ho2. rewrite Ho2. eexists f2, _, true. split; [done|]. cbn.
  split; [by eapply quiet_step_trans|]. split; [by eapply streams_trans|]. split; [by exists h2|]. by split.
Qed.

(** ** A line *)

(** [line] is put behind what the log [p] holds. *)
Lemma print_line f h p i line :
  f_file f h = Some i → f_names f p = Some i → f_pend f h = [] →
  let f' := f_flush (f_print f h line) h in
  (∀ q, f_names f' q = f_names f q) ∧ (∀ s, f_file f' s = f_file f s) ∧ (∀ s, f_pend f' s = f_pend f s) ∧
  f_data f' i = f_data f i ++ line ∧ ∀ j, j ≠ i → f_data f' j = f_data f j.
Proof.
  intros Hf Hn He. destruct (print_law f h i line Hf) as (x & y & z & Hxy & w & Hwz & [Wn Wf We Wd Wo Wl] & Hf1 & Hy).
  rewrite Hy in Hxy by apply work_error. rewrite app_nil_r in Hxy. subst x. rewrite He in Hwz. cbn [app] in Hwz.
  set (f1 := f_print f h line) in *.
  destruct (flush_law f1 h i Hf1) as (x' & y' & Hxy' & [Vn Vf Ve Vd Vo Vl] & Hf2 & Hy').
  rewrite Hy' in Hxy', Vl by apply work_error. rewrite app_nil_r in Hxy'. rewrite Wl in Hxy'. subst x'.
  cbv zeta. split_and!.
  - intros q. by rewrite Vn, Wn.
  - intros s. destruct (decide (s = h)) as [->|Hs]; [by rewrite Hf2, Hf|]. by rewrite Vf, Wf.
  - intros s. destruct (decide (s = h)) as [->|Hs]; [by rewrite Vl, He|]. by rewrite Ve, We.
  - rewrite Vo, Wo, <- app_assoc. by rewrite Hwz.
  - intros j Hj. by rewrite Vd, Wd.
Qed.
End files.
