(* ===== verification/LogLoop.v ===== *)
(** The log server at work: names of logs, the tables of open files, and what a
    run does with the messages that wait. *)
From Stdlib Require Import Ascii String.
From stdpp Require Import gmap.
From S2P Require Import Prelude Fifo HashList IniFile Mysql Conf LogFile LogFileFacts LogServe LogServeFacts.
Import LogFiles CLogSvrProc.

#[local] Open Scope Z_scope.
#[local] Open Scope list_scope.
#[local] Arguments Z.add : simpl never.
#[local] Arguments Z.eqb : simpl never.
#[local] Arguments Z.ltb : simpl never.
#[local] Arguments Z.leb : simpl never.
#[local] Arguments Z.mul : simpl never.

(** * Hours *)
Section hours.
Context {TL : LocalTime}.

Lemma HourOf_value hd :
  let t := localtime (LogHeader.uiLogTimeSec hd) in
  0 ≤ LogHeader.uiLogTimeSec hd < 2 ^ 32 →
  HourOf hd = (1900 + tm_year t) * 1000000 + (tm_mon t + 1) * 10000 + tm_mday t * 100 + tm_hour t ∧
  1969010100 ≤ HourOf hd < 2 ^ 31.
Proof.
  intros t Ht. pose proof (localtime_year _ Ht) as Hy. pose proof (localtime_mon _ Ht) as Hm.
  pose proof (localtime_mday _ Ht) as Hd. pose proof (localtime_hour _ Ht) as Hh. fold t in Hy, Hm, Hd, Hh.
  unfold HourOf, GetFileNameTime. fold t. change (10 ^ Z.of_nat 4) with 10000.
  assert (Forall (λ c, 48 ≤ c ≤ 57) (fmt_0d 4 (1900 + tm_year t)) ∧
          digits (fmt_0d 4 (1900 + tm_year t)) 0 = 1900 + tm_year t) as [F1 V1].
  { split; [apply fmt_0d_digits; lia|apply fmt_0d_value; lia]. }
  destruct (digits_field _ 2 (tm_mon t + 1) F1) as [F2 V2]; [lia|cbn; lia|].
  destruct (digits_field _ 2 (tm_mday t) F2) as [F3 V3]; [lia|cbn; lia|].
  destruct (digits_field _ 2 (tm_hour t) F3) as [F4 V4]; [lia|cbn; lia|].
  rewrite V1 in V2. rewrite V2 in V3. rewrite V3 in V4. rewrite <- !app_assoc in F4, V4.
  assert (zlen (fmt_0d 4 (1900 + tm_year t)) = 4) as Hz1 by (rewrite zlen_fmt_exact by (lia || cbn; lia); done).
  assert (∀ n, 0 ≤ n < 100 → zlen (fmt_0d 2 n) = 2) as Hz2 by (intros n Hn; rewrite zlen_fmt_exact by (lia || cbn; lia); done).
  rewrite cut_at_fits by (rewrite !zlen_app, Hz1, !Hz2 by lia; lia).
  change (10 ^ Z.of_nat 2) with 100 in V4.
  rewrite atoi_digits; rewrite ?V4; [lia| |done|lia].
  intros Hnil. rewrite Hnil in V4. cbn in V4. lia.
Qed.
End hours.

(** * Levels *)
Definition level_dir (l : Z) : list Z :=
  if l =? LOG_INFO then bytes "info" else if l =? LOG_ERR then bytes "error" else
  if l =? LOG_WARN then bytes "warn" else if l =? LOG_DEBUG then bytes "debug" else bytes "trace".
Definition slot_of (info : LogFilePInfo) (l : Z) : slot :=
  if l =? LOG_INFO then fi_Info info else if l =? LOG_ERR then fi_Error info else
  if l =? LOG_WARN then fi_Warn info else if l =? LOG_DEBUG then fi_Debug info else fi_Trace info.
Definition set_slot (info : LogFilePInfo) (l : Z) (st : slot) : LogFilePInfo :=
  let '(FileInfo i e w d t) := info in
  if l =? LOG_INFO then FileInfo st e w d t else if l =? LOG_ERR then FileInfo i st w d t else
  if l =? LOG_WARN then FileInfo i e st d t else if l =? LOG_DEBUG then FileInfo i e w st t else FileInfo i e w d st.

Definition level_ok (l : Z) : Prop := 1 ≤ l ≤ 5.

Lemma level_cases l : level_ok l → l = 1 ∨ l = 2 ∨ l = 3 ∨ l = 4 ∨ l = 5.
Proof. unfold level_ok. lia. Qed.

Ltac levels :=
  repeat match goal with H : level_ok ?l |- _ =>
    apply level_cases in H; destruct H as [->|[->|[->|[->| ->]]]] end.

Lemma level_dir_inj l l' : level_ok l → level_ok l' → level_dir l = level_dir l' → l = l'.
Proof. intros Hl Hl'. levels; by vm_compute. Qed.

Lemma level_dir_slash l : 47 ∉ level_dir l.
Proof. unfold level_dir. repeat case_match; by apply (bool_decide_unpack _). Qed.

Lemma slot_of_set info l l' st :
  level_ok l → level_ok l' → slot_of (set_slot info l st) l' = if decide (l' = l) then st else slot_of info l'.
Proof. intros Hl Hl'. destruct info. levels; done. Qed.

Lemma set_slot_of info l : level_ok l → set_slot info l (slot_of info l) = info.
Proof. intros Hl. destruct info. by levels. Qed.

Section switch.
Context {F : Type} {OF : Files F}.

Lemma SwitchLevel_eq (f : F) info l dir hour now check size num :
  level_ok l →
  SwitchLevel f info l dir hour now check size num =
    let '(f, st, u) := LevelFile (level_dir l) f (slot_of info l) dir hour now check size num in
    (f, set_slot info l st, pf st, u).
Proof. intros Hl. destruct info. unfold SwitchLevel. levels; done. Qed.
End switch.

(** * Names of logs *)

(** The directory of a module, and its log of a level and an hour. *)
Definition module_dir (P k : list Z) : list Z := cut_at 1024 (P ++ bytes "/" ++ k).
Definition log_name (P k : list Z) (l hour : Z) : list Z := FullName (module_dir P k) (level_dir l) hour.

Definition dir_fits (P : list Z) : Prop := zlen P ≤ 255.
Definition name_ok16 (k : list Z) : Prop := zlen k ≤ 16.

Lemma split_last (s : Z) (x y a b : list Z) : s ∉ a → s ∉ b → x ++ s :: a = y ++ s :: b → x = y ∧ a = b.
Proof.
  intros Ha Hb Heq. apply app_eq_inv in Heq as [(k & -> & Hk)|(k & -> & Hk)].
  - destruct k as [|c k]; [rewrite app_nil_r; by injection Hk as ->|]. injection Hk as <- ->.
    exfalso. apply Hb. rewrite elem_of_app. right. by left.
  - destruct k as [|c k]; [rewrite app_nil_r; by injection Hk as ->|]. injection Hk as <- ->.
    exfalso. apply Ha. rewrite elem_of_app. right. by left.
Qed.

Lemma fmt_d_nonneg n : 0 ≤ n → fmt_d n = fmt_0d 0 n.
Proof. intros Hn. unfold fmt_d, fmt_0d, pad. by rewrite (proj2 (Z.ltb_ge _ _)) by lia. Qed.

Lemma log_name_eq P k l hour :
  dir_fits P → name_ok16 k → 0 ≤ hour →
  log_name P k l hour = ((P ++ 47 :: k) ++ 47 :: level_dir l) ++ 47 :: (fmt_0d 0 hour ++ bytes ".log") ∧
  name_fits (log_name P k l hour).
Proof.
  unfold dir_fits, name_ok16, name_fits. intros HP Hk Hh.
  assert (zlen (level_dir l) ≤ 5) by (unfold level_dir; repeat case_match; by vm_compute).
  pose proof (zlen_fmt_0d 0 hour Hh ltac:(lia)). unfold log_name, FullName, module_dir. rewrite fmt_d_nonneg by done.
  change (bytes "/") with [47]. change (bytes ".log") with [46; 108; 111; 103].
  rewrite (cut_at_fits 1024 (P ++ [47] ++ k)) by (rewrite !zlen_app; change (zlen [47]) with 1; lia).
  assert (∀ a b c d e : list Z, (a ++ [47] ++ b) ++ [47] ++ c ++ [47] ++ d ++ e = ((a ++ 47 :: b) ++ 47 :: c) ++ 47 :: (d ++ e)) as Ha.
  { intros. by rewrite <- !app_assoc. }
  rewrite Ha. assert (zlen (((P ++ 47 :: k) ++ 47 :: level_dir l) ++ 47 :: (fmt_0d 0 hour ++ [46; 108; 111; 103])) ≤ 1000).
  { rewrite !zlen_app, !zlen_cons, !zlen_app, !zlen_cons, zlen_nil. lia. }
  rewrite cut_at_fits by lia. done.
Qed.

Lemma fmt_slash w n : 0 ≤ n → 47 ∉ fmt_0d w n.
Proof. intros Hn Hin. pose proof (fmt_0d_digits w n Hn) as Hd. rewrite Forall_forall in Hd. apply Hd in Hin. lia. Qed.

Lemma log_name_inj P k l hour k' l' hour' :
  dir_fits P → name_ok16 k → name_ok16 k' → level_ok l → level_ok l' → 0 ≤ hour < 10 ^ 20 → 0 ≤ hour' < 10 ^ 20 →
  log_name P k l hour = log_name P k' l' hour' → k = k' ∧ l = l' ∧ hour = hour'.
Proof.
  intros HP Hk Hk' Hl Hl' Hh Hh'.
  destruct (log_name_eq P k l hour) as [-> _]; [done..|lia|]. destruct (log_name_eq P k' l' hour') as [-> _]; [done..|lia|].
  assert (∀ h, 0 ≤ h → 47 ∉ fmt_0d 0 h ++ bytes ".log") as Hno.
  { intros h Hh0. rewrite not_elem_of_app. split; [by apply fmt_slash|by apply (bool_decide_unpack _)]. }
  intros [H1 Hd]%(split_last 47); [|apply Hno; lia..]. apply split_last in H1 as [H1 Hld]; [|apply level_dir_slash..].
  apply app_inv_head in H1. injection H1 as ->. apply level_dir_inj in Hld; [|done..]. apply app_inv_tail in Hd.
  split; [done|]. split; [done|]. by rewrite <- (fmt_0d_value 0 hour), <- (fmt_0d_value 0 hour'), Hd.
Qed.

(** A numbered file is not a log. *)
Lemma log_name_numbered P k l hour k' l' hour' i :
  dir_fits P → name_ok16 k → name_ok16 k' → 0 ≤ hour → 0 ≤ hour' → 0 ≤ i →
  log_name P k l hour ≠ numbered (log_name P k' l' hour') i.
Proof.
  intros HP Hk Hk' Hh Hh' Hi. destruct (log_name_eq P k l hour HP Hk Hh) as [-> _].
  destruct (log_name_eq P k' l' hour' HP Hk' Hh') as [_ Hf]. rewrite numbered_eq by done.
  intros Heq. assert (∃ l0 c, fmt_0d 2 i = l0 ++ [c] ∧ 48 ≤ c ≤ 57) as (l0 & c & Hc & Hr).
  { pose proof (fmt_0d_digits 2 i Hi) as Hd. destruct (last (fmt_0d 2 i)) as [c|] eqn:E.
    - apply last_Some in E as [l0 E]. exists l0, c. split; [done|]. rewrite E in Hd. apply Forall_app in Hd as [_ Hd]. by inversion Hd.
    - apply last_None in E. apply (f_equal length) in E. unfold fmt_0d, pad in E. rewrite (proj2 (Z.ltb_ge _ _)) in E by lia.
      rewrite length_app, length_replicate in E. cbn [length] in E. lia. }
  rewrite Hc in Heq. change (bytes ".log") with ([46; 108; 111] ++ [103]) in Heq.
  apply (f_equal last) in Heq. rewrite !app_comm_cons, !app_assoc, !last_snoc in Heq. injection Heq as <-. lia.
Qed.

Lemma numbered_both p q i j :
  name_fits p → name_fits q → 0 ≤ i → 0 ≤ j → numbered p i = numbered q j → p = q.
Proof.
  intros Hp Hq Hi Hj. rewrite !numbered_eq by done. change (bytes ".") with [46]. cbn [app]. intros Heq.
  apply split_last in Heq as [-> _]; [done| |].
  all: intros Hin; match goal with H : _ ∈ fmt_0d ?w ?n |- _ => pose proof (fmt_0d_digits w n ltac:(done)) as Hd end;
    rewrite Forall_forall in Hd; apply Hd in Hin; lia.
Qed.
