(* ===== verification/LogRun.v ===== *)
(** The tables of open files of the log server, and its loop. *)
From Stdlib Require Import Ascii String.
From stdpp Require Import gmap.
From S2P Require Import Prelude Fifo HashList IniFile Mysql Conf LogFile LogFileFacts LogServe LogServeFacts LogLoop.
Import CHashListNoLock LogFiles CLogSvrProc.

#[local] Open Scope Z_scope.
#[local] Open Scope list_scope.
#[local] Arguments Z.add : simpl never.
#[local] Arguments Z.eqb : simpl never.
#[local] Arguments Z.ltb : simpl never.
#[local] Arguments Z.leb : simpl never.
#[local] Arguments Z.mul : simpl never.

(** A configuration the theorems are about: every line flushed, a directory that
    fits its array. *)
Record conf_ok (g : LogOutputConf) : Prop := {
  co_dir : dir_fits (szOutputPathDir g);
  co_num : iMaxFileNum g < 2 ^ 31;
  co_flush : iFlushFlag g = 1;
  co_logid : iOutputLogType g ≠ LOG_OUTPUT_TYPE_SPEC_LOGID;
  co_userid : iOutputLogType g ≠ LOG_OUTPUT_TYPE_SPEC_USERID;
}.

Section tables.
Context {F : Type} {OF : Files F} {VF : FileViews F} {LF : FilesLaws F} {WF : FilesWork F} {TL : LocalTime}.
Variable g : LogOutputConf.
Hypothesis Hg : conf_ok g.
Implicit Types (f : F) (m : gmap CModuleName.t LogFilePInfo) (k : CModuleName.t) (l hour : Z).
Notation log := (log_name (szOutputPathDir g)).
Notation num := (kept (iMaxFileNum g)).
Notation size := (iMaxFileSize g).

(** The slot of a module and a level. *)
Definition slot_at m k l : option slot := (λ info, slot_of info l) <$> m !! k.

(** What holds of the open files: they are the logs they are kept for, no two
    entries share a stream, no stream is open that is in no entry. *)
Record logs_ok f m : Prop := {
  lo_name k : is_Some (m !! k) → name_ok16 k;
  lo_slot k l st : slot_at m k l = Some st → level_ok l →
    slot_ok f (module_dir (szOutputPathDir g) k) (level_dir l) st ∧ 0 ≤ iCurLogTime st < 2 ^ 31;
  lo_one k l st k' l' st' h : slot_at m k l = Some st → slot_at m k' l' = Some st' → level_ok l → level_ok l' →
    pf st = Some h → pf st' = Some h → k = k' ∧ l = l';
  lo_open h : is_Some (f_file f h) → ∃ k l st, slot_at m k l = Some st ∧ level_ok l ∧ pf st = Some h;
  lo_full k l hour : name_ok16 k → level_ok l → 0 ≤ hour < 2 ^ 31 → full_files f (log k l hour) num size;
}.

(** A line has been put to the log [p]. *)
Record line_step f f' (p line : list Z) : Prop := {
  ln_history : shrunk num size (history f p num ++ line) (history f' p num);
  ln_other q : q ≠ p → (∀ i, 0 ≤ i ≤ Z.of_nat num → q ≠ numbered p i) → content f' q = content f q;
}.

Lemma slot_at_insert m k info k' l' :
  slot_at (<[k := info]> m) k' l' = if decide (k' = k) then Some (slot_of info l') else slot_at m k' l'.
Proof.
  unfold slot_at. destruct (decide (k' = k)) as [->|Hne].
  - by rewrite lookup_insert_eq.
  - by rewrite lookup_insert_ne.
Qed.

(** Equality of the parts of the slots that matter. *)
Lemma logs_ok_slots f m m' :
  logs_ok f m → (∀ k, is_Some (m' !! k) → name_ok16 k) →
  (∀ k l st', slot_at m' k l = Some st' → level_ok l → pf st' = None ∧ iCurLogTime st' = 0 ∨
     ∃ st, slot_at m k l = Some st ∧ pf st = pf st' ∧ iCurLogTime st = iCurLogTime st') →
  (∀ k l st h, slot_at m k l = Some st → level_ok l → pf st = Some h → ∃ st', slot_at m' k l = Some st' ∧ pf st' = Some h) →
  logs_ok f m'.
Proof.
  intros [Hn Hs Ho Hp Hf] Hn' Hback Hfor. constructor; [done| | | |done].
  - intros k l st' Hst' Hl. destruct (Hback k l st' Hst' Hl) as [[Hpf Hcur]|(st & Hst & Hpf & Hcur)].
    + split; [by left|]. rewrite Hcur. lia.
    + destruct (Hs k l st Hst Hl) as [Hok Hr]. unfold slot_ok in *. by rewrite <- Hpf, <- Hcur.
  - intros k l st k' l' st' h Hst Hst' Hl Hl' Hh Hh'.
    destruct (Hback k l st Hst Hl) as [[? _]|(x & Hx & Hpx & _)]; [congruence|].
    destruct (Hback k' l' st' Hst' Hl') as [[? _]|(y & Hy & Hpy & _)]; [congruence|].
    apply (Ho k l x k' l' y h); congruence.
  - intros h Hh. destruct (Hp h Hh) as (k & l & st & Hst & Hl & Hpf). destruct (Hfor k l st h Hst Hl Hpf) as (st' & Hst' & Hpf').
    by exists k, l, st'.
Qed.

Lemma logs_ok_same f f' m : same_files f f' → logs_ok f m → logs_ok f' m.
Proof.
  intros Hs [Hn Hsl Ho Hp Hf]. constructor; [done| |done| |].
  - intros k l st Hst Hl. destruct (Hsl k l st Hst Hl) as [[Hok|(h & Hh & i & H1 & H2 & H3)] Hr]; (split; [|done]); [by left|].
    right. exists h. split; [done|]. exists i. by rewrite (sf_file _ _ Hs), (sf_names _ _ Hs), (sf_pend _ _ Hs).
  - intros h. rewrite (sf_file _ _ Hs). apply Hp.
  - intros k l hour Hk Hl Hh i Hi. rewrite (sf_names _ _ Hs), (same_content _ _ _ Hs). by apply Hf.
Qed.

Lemma log_fits k l hour : name_ok16 k → 0 ≤ hour → name_fits (log k l hour).
Proof. intros Hk Hh. apply log_name_eq; [apply Hg|done|done]. Qed.

(** The rest of the logs is not concerned. *)
Lemma other_history f f' k l hour k' l' hour' line :
  name_ok16 k → name_ok16 k' → level_ok l → level_ok l' → 0 ≤ hour < 2 ^ 31 → 0 ≤ hour' < 2 ^ 31 →
  line_step f f' (log k l hour) line → (k', l', hour') ≠ (k, l, hour) →
  history f' (log k' l' hour') num = history f (log k' l' hour') num.
Proof.
  intros Hk Hk' Hl Hl' Hh Hh' [_ Ho] Hne.
  assert (log k' l' hour' ≠ log k l hour) as Hp.
  { intros Heq. apply log_name_inj in Heq as (-> & -> & ->); [done|apply Hg|done..|lia|lia]. }
  assert (∀ i j, 0 ≤ i → 0 ≤ j → numbered (log k' l' hour') i ≠ numbered (log k l hour) j) as Hn.
  { intros i j Hi Hj Heq. apply Hp. eapply numbered_both; [| | | |exact Heq]; try done; apply log_fits; (done || lia). }
  unfold history. f_equal.
  - apply olds_ext. intros i Hi. apply Ho; [|intros j Hj; apply Hn; lia].
    intros Heq. symmetry in Heq. revert Heq. apply log_name_numbered; [apply Hg|done|done|lia..].
  - apply Ho; [done|]. intros i Hi. apply log_name_numbered; [apply Hg|done|done|lia..].
Qed.

(** A slot gets a stream of its log, and a line is printed. *)
Section write.
Variables (f f1 : F) (m : gmap CModuleName.t LogFilePInfo) (k : CModuleName.t) (info : LogFilePInfo).
Variables (l hour : Z) (st' : slot) (h : Z) (line : list Z).
Notation p := (log k l hour).
Notation f2 := (f_flush (f_print f1 h line) h).
Notation m2 := (<[k := set_slot info l st']> m).
Hypotheses (Hok : logs_ok f m) (Hm : m !! k = Some info) (Hl : level_ok l) (Hh : 0 ≤ hour < 2 ^ 31).
Hypotheses (Hstep : log_step f f1 p num size) (Hstr : streams f f1 (pf (slot_of info l)) (pf st')).
Hypotheses (Hpf : pf st' = Some h) (Hst : stream_of f1 h p) (Hcur : iCurLogTime st' = hour).

Lemma write_name : name_ok16 k.
Proof. apply (lo_name _ _ Hok). by rewrite Hm. Qed.

Lemma write_fits : name_fits p.
Proof. apply log_fits; [apply write_name|lia]. Qed.

Lemma write_print :
  ∃ i, f_names f1 p = Some i ∧ (∀ q, f_names f2 q = f_names f1 q) ∧ (∀ s, f_file f2 s = f_file f1 s) ∧
    (∀ s, f_pend f2 s = f_pend f1 s) ∧ (∀ q, content f2 q = content f1 q ++ if decide (q = p) then line else []).
Proof.
  destruct Hst as (i & Hf & Hn & He). exists i. destruct (print_line f1 h p i line Hf Hn He) as (Pn & Pf & Pe & Pd & Po).
  split_and!; [done..|]. intros q. unfold content. rewrite Pn. destruct (decide (q = p)) as [->|Hne].
  - by rewrite Hn.
  - rewrite app_nil_r. destruct (f_names f1 q) as [j|] eqn:E; [|done]. apply Po. intros ->.
    apply Hne. by apply (one_name_law f1 q p i).
Qed.

Lemma write_line_step : line_step f f2 p line.
Proof.
  destruct write_print as (i & _ & _ & _ & _ & Hc).
  assert (history f2 p num = history f1 p num ++ line) as Hh2.
  { unfold history. rewrite Hc, decide_True by done. rewrite app_assoc. f_equal. f_equal. apply olds_ext.
    intros j Hj. rewrite Hc, decide_False, app_nil_r; [done|]. apply numbered_ne; [apply write_fits|lia]. }
  constructor.
  - rewrite Hh2. apply shrunk_app, (ls_history _ _ _ _ _ Hstep).
  - intros q Hq Hi. rewrite Hc, decide_False, app_nil_r by done. unfold content.
    rewrite (ls_names _ _ _ _ _ Hstep) by done. destruct (f_names f q); [|done]. apply (ls_data _ _ _ _ _ Hstep).
Qed.

Lemma write_slot_at k' l' :
  level_ok l' → slot_at m2 k' l' = if decide (k' = k ∧ l' = l) then Some st' else slot_at m k' l'.
Proof using Hm Hl.
  intros Hl'. rewrite slot_at_insert. destruct (decide (k' = k)) as [->|Hne].
  - rewrite (slot_of_set info l l' st' Hl Hl'). unfold slot_at. rewrite Hm. cbn.
    destruct (decide (l' = l)) as [->|]; [by rewrite decide_True|]. by rewrite decide_False by by intros [_ ?].
  - by rewrite decide_False by by intros [? _].
Qed.

Lemma write_old : slot_at m k l = Some (slot_of info l).
Proof. unfold slot_at. by rewrite Hm. Qed.

(** The stream of another slot is what it was. *)
Lemma write_other k' l' st x :
  slot_at m k' l' = Some st → level_ok l' → ¬ (k' = k ∧ l' = l) → pf st = Some x →
  is_Some (f_file f x) ∧ pf (slot_of info l) ≠ Some x.
Proof.
  intros Hs Hl' Hne Hx. destruct (lo_slot _ _ Hok _ _ _ Hs Hl') as [Hso _]. split.
  - by apply (slot_ok_open _ _ _ _ _ Hso).
  - intros Hp. apply Hne. by apply (lo_one _ _ Hok k' l' st k l (slot_of info l) x Hs write_old).
Qed.

Lemma write_logs_ok : logs_ok f2 m2.
Proof.
  destruct write_print as (i & Hn & Pn & Pf & Pe & Pc). constructor.
  - intros k' Hk'. destruct (decide (k' = k)) as [->|Hne]; [apply write_name|].
    rewrite lookup_insert_ne in Hk' by done. by apply (lo_name _ _ Hok).
  - intros k' l' st Hs Hl'. rewrite write_slot_at in Hs by done. destruct (decide _) as [[-> ->]|Hne].
    { injection Hs as <-. split; [|by rewrite Hcur]. right. exists h. split; [done|]. rewrite Hcur.
      destruct Hst as (j & H1 & H2 & H3). exists j. rewrite Pf, Pn, Pe. by split_and!. }
    destruct (lo_slot _ _ Hok _ _ _ Hs Hl') as [Hso Hr]. split; [|done].
    destruct Hso as [?|(x & Hx & j & H1 & H2 & H3)]; [by left|]. right. exists x. split; [done|].
    destruct (write_other k' l' st x Hs Hl' Hne Hx) as [Hxo Hxn].
    destruct (st_other _ _ _ _ Hstr x Hxo Hxn) as [E1 E2]. exists j. rewrite Pf, Pn, Pe, E1, E2. split_and!; [done| |done].
    assert (name_ok16 k') as Hk' by (apply (lo_name _ _ Hok); unfold slot_at in Hs; destruct (m !! k'); done).
    change (FullName _ _ _) with (log k' l' (iCurLogTime st)) in *. rewrite (ls_names _ _ _ _ _ Hstep); [done| |].
    + intros Heq. apply log_name_inj in Heq as (-> & -> & _); [|apply Hg|done|apply write_name|done|done|lia|lia]. by apply Hne.
    + intros j' Hj'. apply log_name_numbered; [apply Hg|done|apply write_name|lia..].
  - intros k1 l1 s1 k2 l2 s2 x H1 H2 Hl1 Hl2 Hp1 Hp2. rewrite write_slot_at in H1, H2 by done.
    destruct (decide (k1 = k ∧ l1 = l)) as [[-> ->]|N1], (decide (k2 = k ∧ l2 = l)) as [[-> ->]|N2]; [done| | |].
    + injection H1 as <-. destruct (write_other k2 l2 s2 x H2 Hl2 N2 Hp2) as [Ho Hn'].
      destruct (st_new _ _ _ _ Hstr x Hp1) as [?|E]; [done|]. rewrite E in Ho. by destruct Ho.
    + injection H2 as <-. destruct (write_other k1 l1 s1 x H1 Hl1 N1 Hp1) as [Ho Hn'].
      destruct (st_new _ _ _ _ Hstr x Hp2) as [?|E]; [done|]. rewrite E in Ho. by destruct Ho.
    + by apply (lo_one _ _ Hok k1 l1 s1 k2 l2 s2 x).
  - intros x Hx. rewrite Pf in Hx. destruct (st_open _ _ _ _ Hstr x Hx) as [Hnew|[Hold Hne]].
    + exists k, l, st'. rewrite write_slot_at by done. by rewrite decide_True.
    + destruct (lo_open _ _ Hok x Hold) as (k' & l' & st & Hs & Hl' & Hp). exists k', l', st. rewrite write_slot_at by done.
      rewrite decide_False; [done|]. intros [-> ->]. rewrite write_old in Hs. by injection Hs as <-.
  - intros k' l' hour' Hk' Hl' Hh' j Hj. rewrite Pn. intros Hsome.
    assert (numbered (log k' l' hour') j ≠ p) as Hnp.
    { intros Heq. symmetry in Heq. revert Heq. apply log_name_numbered; [apply Hg|apply write_name|done|lia..]. }
    rewrite Pc, decide_False, app_nil_r by done. destruct (decide (log k' l' hour' = p)) as [Heq|Hne].
    { rewrite Heq in Hsome |- *. by apply (ls_full _ _ _ _ _ Hstep). }
    assert (f_names f1 (numbered (log k' l' hour') j) = f_names f (numbered (log k' l' hour') j)) as Hnm.
    { apply (ls_names _ _ _ _ _ Hstep); [done|]. intros j' Hj' Heq. apply Hne.
      eapply numbered_both; [| | | |exact Heq]; [apply log_fits; [done|lia]|apply write_fits|lia|lia]. }
    rewrite Hnm in Hsome. pose proof (lo_full _ _ Hok k' l' hour' Hk' Hl' Hh' j Hj Hsome) as Hsz.
    unfold content in Hsz |- *. rewrite Hnm. destruct (f_names f _); [|done]. by rewrite (ls_data _ _ _ _ _ Hstep).
Qed.
End write.

Lemma PathOf_module hd : PathOf g g hd = module_dir (szOutputPathDir g) (LogHeader.szModuleName hd).
Proof. unfold PathOf. by rewrite !(proj2 (Z.eqb_neq _ _)) by apply Hg. Qed.

(** A message that can be written. *)
Record log_msg (hd : LogHeader.t) : Prop := {
  lm_sec : 0 ≤ LogHeader.uiLogTimeSec hd < 2 ^ 32;
  lm_level : level_ok (LogHeader.iLogLevel hd);
  lm_name : name_ok16 (LogHeader.szModuleName hd);
  lm_cstr : 0 ∉ LogHeader.szModuleName hd;
}.
Definition module_of (hd : LogHeader.t) : CModuleName.t := CModuleName.of_str (LogHeader.szModuleName hd).
Lemma module_of_ok hd : name_ok16 (module_of hd).
Proof.
  unfold module_of, CModuleName.of_str, name_ok16, LOG_MODULE_NAME_LEN. rewrite zlen_take by done. lia.
Qed.

(** The log it belongs to. *)
Definition log_of (hd : LogHeader.t) : list Z := log (module_of hd) (LogHeader.iLogLevel hd) (HourOf hd).

Lemma module_name hd : log_msg hd → LogHeader.szModuleName hd = module_of hd.
Proof.
  intros [_ _ Hn H0]. unfold module_of, CModuleName.of_str.
  rewrite cstr_id by done. symmetry. apply take_ge. unfold name_ok16, zlen in Hn. unfold LOG_MODULE_NAME_LEN. lia.
Qed.

Lemma line_step_before f f1 f2 p line :
  same_files f f1 → line_step f1 f2 p line → line_step f f2 p line.
Proof.
  intros Hs [Hh Ho]. pose proof (λ q, same_content f f1 q Hs) as Hc. constructor.
  - by rewrite (history_content f f1) in Hh by done.
  - intros q Hq Hi. rewrite Ho by done. apply Hc.
Qed.

Lemma WriteLogToFile_ok f m hd info check :
  let k := module_of hd in
  logs_ok f m → m !! k = Some info → log_msg hd →
  ∃ f' info' r, WriteLogToFile f g check hd info g = (f', info', r) ∧ (r = 0 ∨ r = 1) ∧
    logs_ok f' (<[k := info']> m) ∧ line_step f f' (log_of hd) (LineText hd) ∧ (r = 0 → logs_ok f' m).
Proof.
  intros k Hok Hm Hmsg. pose proof (lm_sec _ Hmsg) as Hsec. pose proof (lm_level _ Hmsg) as Hl. unfold WriteLogToFile. destruct (f_time f) as [f0 now] eqn:Et. apply time_law in Et.
  apply (logs_ok_same _ _ _ Et) in Hok. rewrite PathOf_module, (module_name hd Hmsg), SwitchLevel_eq by done. fold k.
  destruct (HourOf_value hd Hsec) as [_ Hh]. set (l := LogHeader.iLogLevel hd) in *.
  assert (slot_at m k l = Some (slot_of info l)) as Hsl by (unfold slot_at; by rewrite Hm).
  destruct (LevelFile_ok (level_dir l) f0 (slot_of info l) (module_dir (szOutputPathDir g) k) (HourOf hd) now check size (iMaxFileNum g))
    as (f1 & st & u & -> & Hstep & Hstr & (h & Hpf & Hst) & Hcur & Hu).
  { apply log_fits; [|lia]. apply (lo_name _ _ Hok). by rewrite Hm. }
  { apply Hg. }
  { apply (lo_full _ _ Hok); [apply (lo_name _ _ Hok); by rewrite Hm|done|lia]. }
  { apply (lo_slot _ _ Hok _ _ _ Hsl Hl). }
  { lia. }
  rewrite Hpf, work_error, (co_flush _ Hg). cbn [negb]. change (1 =? 1) with true. cbv iota.
  assert (0 ≤ HourOf hd < 2 ^ 31) as Hh' by lia.
  pose proof (write_logs_ok f0 f1 m k info l (HourOf hd) st h (LineText hd) Hok Hm Hl Hh' Hstep Hstr Hpf Hst Hcur) as Hok2.
  pose proof (write_line_step f0 f1 m k info l (HourOf hd) h (LineText hd) Hok Hm Hh' Hstep Hst) as Hline.
  eexists _, _, _. split; [done|]. split; [destruct u; auto|]. split; [done|]. split; [by eapply line_step_before|].
  destruct u; [done|]. intros _. destruct (Hu eq_refl) as [Hup Huc]. eapply logs_ok_slots; [exact Hok2|apply Hok| |].
  - intros k' l' st' Hs' Hl'. right. rewrite write_slot_at by done. destruct (decide _) as [[-> ->]|]; [|by exists st'].
    exists st. rewrite Hsl in Hs'. injection Hs' as <-. by split_and!.
  - intros k' l' st' x Hs' Hl' Hp. rewrite write_slot_at in Hs' by done. destruct (decide _) as [[-> ->]|]; [|by exists st'].
    injection Hs' as <-. exists (slot_of info l). split; [done|]. by rewrite <- Hup.
Qed.

(** ** The table *)
Context {Q : Type} {OQ : FifoOps Q}.
Implicit Types (s : CLogSvrProc.t Q) (tab : CHashListNoLock.table CModuleName.t LogFilePInfo).

Lemma insert_info0 f m k : logs_ok f m → m !! k = None → name_ok16 k → logs_ok f (<[k := info0]> m).
Proof.
  intros Hok Hm Hk. eapply logs_ok_slots; [exact Hok| | |].
  - intros k' Hk'. destruct (decide (k' = k)) as [->|Hne]; [done|]. rewrite lookup_insert_ne in Hk' by done.
    by apply (lo_name _ _ Hok).
  - intros k' l st Hs Hl. rewrite slot_at_insert in Hs. destruct (decide (k' = k)); [|right; by exists st].
    injection Hs as <-. left. by levels.
  - intros k' l st x Hs Hl Hp. exists st. split; [|done]. rewrite slot_at_insert, decide_False; [done|].
    intros ->. unfold slot_at in Hs. by rewrite Hm in Hs.
Qed.


Lemma OutputModule_ok s f m hd :
  m_pstGlobalConf (m_objLogConf s) = g → hrep (m_objModuleLogFilePHash s) m → logs_ok f m → log_msg hd →
  is_Some (m !! module_of hd) ∨
    iUsedDataNodeNum (m_objModuleLogFilePHash s) ≠ iTotalDataNodeNum (m_objModuleLogFilePHash s) →
  ∃ f' tab m' u, OutputModule s f hd = Ok (f', set_modules s tab, u, true) ∧ hrep tab m' ∧ logs_ok f' m' ∧
    iTotalDataNodeNum tab = iTotalDataNodeNum (m_objModuleLogFilePHash s) ∧
    dom m' = {[module_of hd]} ∪ dom m ∧ line_step f f' (log_of hd) (LineText hd).
Proof.
  intros Hglob Hrep Hok Hmsg Hroom. unfold OutputModule, Output. rewrite Hglob.
  change (CModuleName.of_str (LogHeader.szModuleName hd)) with (module_of hd). set (k := module_of hd) in *. set (tab := m_objModuleLogFilePHash s) in *.
  rewrite (Get_hrep tab m k info0 Hrep). cbn [mbind outcome_bind].
  destruct (m !! k) as [info|] eqn:Em; cbn [negb].
  - change (SUCCESS =? E_HASH_LIST_NO_NODE) with false. change (SUCCESS =? SUCCESS) with true. cbn [negb]. cbv iota.
    destruct (WriteLogToFile_ok f m hd info (m_iSizeCheckTimeVal s) Hok Em Hmsg) as (f' & info' & r & -> & Hr & Hok' & Hline & Hz).
    fold k in Hok'. cbn [orb]. destruct Hr as [->| ->].
    + change (0 =? 1) with false. cbv iota. cbn [mbind outcome_bind]. exists f', tab, m, false. split; [done|].
      split; [done|]. split; [by apply Hz|]. split; [done|]. split; [|done]. apply elem_of_dom_2 in Em. set_solver.
    + change (1 =? 1) with true. cbv iota. pose proof (Update_hrep tab m k info' Hrep) as Hup. rewrite Em in Hup.
      destruct Hup as (tab' & -> & Hrep' & Htot). cbn [mbind outcome_bind]. exists f', tab', (<[k := info']> m), true.
      split; [done|]. split; [done|]. split; [done|]. split; [done|]. split; [by rewrite dom_insert_L|done].
  - change (E_HASH_LIST_NO_NODE =? E_HASH_LIST_NO_NODE) with true. cbv iota.
    pose proof (Insert_hrep tab m k info0 Hrep) as Hins. rewrite Em in Hins. destruct Hroom as [[? ?]|Hroom]; [done|].
    rewrite (proj2 (Z.eqb_neq _ _)) in Hins by done. destruct Hins as (tab1 & -> & Hrep1 & Htot1).
    cbn [mbind outcome_bind]. change (SUCCESS =? SUCCESS) with true. cbn [negb]. cbv iota.
    set (dir := cut_at 1024 _). assert (logs_ok (CheckDirAll f dir) (<[k := info0]> m)) as Hok1.
    { eapply logs_ok_same; [apply CheckDirAll_same|]. apply insert_info0; [done|done|apply module_of_ok]. }
    destruct (WriteLogToFile_ok _ _ hd info0 (m_iSizeCheckTimeVal s) Hok1) as (f' & info' & r & -> & _ & Hok' & Hline & _);
      [by rewrite lookup_insert_eq|done|].
    fold k in Hok'. rewrite insert_insert_eq in Hok'. cbn [orb]. cbv iota.
    pose proof (Update_hrep tab1 _ k info' Hrep1) as Hup. rewrite lookup_insert_eq in Hup.
    destruct Hup as (tab' & -> & Hrep' & Htot). rewrite insert_insert_eq in Hrep'. cbn [mbind outcome_bind].
    exists f', tab', (<[k := info']> m), true. split; [done|]. split; [done|]. split; [done|]. split; [congruence|].
    split; [by rewrite dom_insert_L|]. eapply line_step_before; [apply CheckDirAll_same|done].
Qed.
End tables.

(** * Messages *)

(** What the server reads of a message. *)
Definition header_of (d : list Z) : option LogHeader.t :=
  if zlen d <? LogHeader.size then None else
  match LogHeader.of_buff (d ++ [0]) with
  | Ok hd => if valid_header hd then Some hd else None
  | _ => None
  end.

(** A message: bytes that leave room for the NUL behind them, a name that ends in its array. *)
Record msg_ok (d : list Z) : Prop := {
  mo_bytes : Forall byte_ok d;
  mo_len : zlen d < LOG_BUFF_SIZE;
  mo_name hd : header_of d = Some hd → name_ok16 (LogHeader.szModuleName hd);
}.

Lemma uint_at_app d r o n : 0 ≤ o → 0 ≤ n → o + n ≤ zlen d → LogHeader.uint_at (d ++ r) o n = LogHeader.uint_at d o n.
Proof.
  intros Ho Hn Hle. unfold LogHeader.uint_at. pose proof (zlen_nonneg r). rewrite !mread_ok by (rewrite ?zlen_app; lia).
  rewrite drop_app_le by (unfold zlen in *; lia). rewrite take_app_le; [done|]. rewrite length_drop. unfold zlen in *. lia.
Qed.

Lemma cstr_until a r : cstr (a ++ 0 :: r) = cstr (a ++ [0]).
Proof. induction a as [|c a IH]; [done|]. cbn. by rewrite IH. Qed.

Lemma str_at_app d r o : 0 ≤ o ≤ zlen d → LogHeader.str_at (d ++ 0 :: r) o = Ok (cstr (drop (Z.to_nat o) d ++ [0])).
Proof.
  intros Ho. unfold LogHeader.str_at. rewrite drop_app_le by (unfold zlen in *; lia).
  rewrite bool_decide_eq_true_2; [by rewrite cstr_until|]. apply elem_of_app. right. by left.
Qed.

Lemma uint_at_ok d o n :
  Forall byte_ok d → 0 ≤ o → 0 ≤ n → o + n ≤ zlen d →
  ∃ x, LogHeader.uint_at d o n = Ok x ∧ 0 ≤ x < 2 ^ (8 * n).
Proof.
  intros Hd Ho Hn Hle. unfold LogHeader.uint_at. rewrite mread_ok by done. eexists. split; [done|].
  set (x := take _ _). replace n with (zlen x). { apply le_dec_bound. by apply Forall_take, Forall_drop. }
  unfold x. rewrite zlen_take, zlen_drop by lia. lia.
Qed.

(** The message in the buffer, with the NUL behind it, and anything behind that. *)
Lemma of_buff_msg d r :
  Forall byte_ok d → LogHeader.size ≤ zlen d →
  ∃ hd, LogHeader.of_buff (d ++ 0 :: r) = Ok hd ∧ LogHeader.of_buff (d ++ [0]) = Ok hd ∧
    0 ≤ LogHeader.uiLogTimeSec hd < 2 ^ 32 ∧ 0 ∉ LogHeader.szModuleName hd.
Proof.
  unfold LogHeader.size. intros Hd Hz.
  destruct (uint_at_ok d 0 4 Hd) as (sec & E1 & Hsec); [lia..|]. destruct (uint_at_ok d 4 4 Hd) as (us & E2 & _); [lia..|].
  destruct (uint_at_ok d 8 4 Hd) as (lv & E3 & _); [lia..|]. destruct (uint_at_ok d 12 4 Hd) as (id & E4 & _); [lia..|].
  destruct (uint_at_ok d 16 4 Hd) as (pid & E5 & _); [lia..|]. destruct (uint_at_ok d 40 8 Hd) as (u & E6 & _); [lia..|].
  assert (∀ r', LogHeader.of_buff (d ++ 0 :: r') = Ok (LogHeader.mk sec us (i32 lv) (i32 id) (i32 pid)
    (cstr (drop 20 d ++ [0])) u (cstr (drop 48 d ++ [0])))) as Hr.
  { intros r'. unfold LogHeader.of_buff. rewrite !uint_at_app by lia. rewrite E1, E2, E3, E4, E5, E6, !str_at_app by lia. done. }
  eexists. split; [apply Hr|]. split; [apply Hr|]. cbn. split; [exact Hsec|]. apply cstr_no_nul.
Qed.

Lemma header_of_log d hd : msg_ok d → header_of d = Some hd → log_msg hd.
Proof.
  intros [Hd _ Hn] Hh. specialize (Hn hd Hh). unfold header_of in Hh. destruct (Z.ltb_spec (zlen d) LogHeader.size); [done|].
  destruct (of_buff_msg d [] Hd) as (x & _ & Hx & Hsec & Hc); [done|]. rewrite Hx in Hh.
  destruct (valid_header x) eqn:Hv; [|done]. injection Hh as ->. constructor; [done| |done|done].
  unfold valid_header in Hv. rewrite !andb_true_iff, Z.ltb_lt, Z.leb_le in Hv. unfold level_ok. lia.
Qed.

(** * The loop *)
Section loop.
Context {F Q : Type} {OF : Files F} {VF : FileViews F} {LF : FilesLaws F} {WF : FilesWork F} {TL : LocalTime}.
Context {OQ : FifoOps Q} {LQ : FifoQueue Q}.
Variable g : LogOutputConf.
Hypothesis Hg : conf_ok g.
Implicit Types (s : t Q) (f : F) (m : gmap CModuleName.t LogFilePInfo) (ds : list (list Z)).
Notation num := (kept (iMaxFileNum g)).

Definition modules ds : gset CModuleName.t := list_to_set (module_of <$> omap header_of ds).

(** The server serves, with no log numbers or users configured: [ds] wait, and
    their modules have room in the table. *)
Record serving s f m ds : Prop := {
  sv_conf : m_pstGlobalConf (m_objLogConf s) = g;
  sv_logids : GetUsedDataNum (m_objLogIDConf (m_objLogConf s)) ≤ 1;
  sv_users : GetUsedDataNum (m_objUserIDConf (m_objLogConf s)) ≤ 1;
  sv_table : hrep (m_objModuleLogFilePHash s) m;
  sv_logs : logs_ok g f m;
  sv_queue : q_rep (m_objLogQueue s) ds;
  sv_msgs : Forall msg_ok ds;
  sv_room : Z.of_nat (size (dom m ∪ modules ds)) < iTotalDataNodeNum (m_objModuleLogFilePHash s);
}.

Lemma modules_cons d ds :
  modules (d :: ds) = match header_of d with Some hd => {[module_of hd]} ∪ modules ds | None => modules ds end.
Proof. unfold modules. cbn [omap list_omap]. by destruct (header_of d). Qed.

Lemma SpecConf_none tab key : GetUsedDataNum tab ≤ 1 → SpecConf tab key = Ok None.
Proof. intros Hn. unfold SpecConf. by rewrite (proj2 (Z.ltb_ge _ _)) by done. Qed.

(** A message has been dealt with. *)
Definition dealt f f' (d : list Z) : Prop :=
  match header_of d with Some hd => line_step g f f' (log_of g hd) (LineText hd) | None => f' = f end.

Lemma DealLog_ok s f m d ds r :
  serving s f m ds → msg_ok d → LogHeader.size ≤ zlen d →
  Z.of_nat (size (dom m ∪ modules (d :: ds))) < iTotalDataNodeNum (m_objModuleLogFilePHash s) →
  ∃ f' s' m', DealLog s f (d ++ 0 :: r) = Ok (f', s') ∧ serving s' f' m' ds ∧ dealt f f' d.
Proof.
  intros Hs Hd Hz Hroom. unfold DealLog, dealt.
  destruct (of_buff_msg d r (mo_bytes _ Hd) Hz) as (hd & -> & Hhd & _). cbn [mbind outcome_bind].
  rewrite modules_cons in Hroom. assert (header_of d = if valid_header hd then Some hd else None) as Hh.
  { unfold header_of. by rewrite (proj2 (Z.ltb_ge _ _)), Hhd by done. }
  rewrite Hh in Hroom |- *. destruct (valid_header hd) eqn:Hv; cbn [negb]; [|by exists f, s, m].
  pose proof (header_of_log d hd Hd Hh) as Hmsg. destruct Hs as [Hc Hl Hu Ht Hok Hq Hms Hr].
  destruct (OutputModule_ok g Hg s f m hd Hc Ht Hok Hmsg) as (f' & tab & m' & u & -> & Ht' & Hok' & Htot & Hdom & Hline).
  { destruct (m !! module_of hd) as [info|] eqn:Em; [by left|]. right. destruct Ht as (_ & _ & _ & _ & _ & Hused).
    rewrite Hused, <- size_dom. assert (size (dom m) < size (dom m ∪ ({[module_of hd]} ∪ modules ds)))%nat; [|lia].
    apply subset_size. apply not_elem_of_dom in Em. set_solver. }
  cbn [mbind outcome_bind negb]. unfold OutputLogID, OutputUserID. cbn [set_modules m_objLogConf].
  rewrite SpecConf_none by done. cbn [mbind outcome_bind negb set_modules m_objLogConf]. rewrite SpecConf_none by done.
  cbn [mbind outcome_bind]. exists f', (set_modules s tab), m'. split; [done|]. split; [|done].
  constructor; cbn; try done. rewrite Hdom, Htot. by replace ({[module_of hd]} ∪ dom m ∪ modules ds) with (dom m ∪ ({[module_of hd]} ∪ modules ds)) by set_solver.
Qed.

Lemma serving_queue s f m ds ds' q :
  serving s f m ds → q_rep q ds' → ds' `suffix_of` ds → serving (set_queue s q) f m ds'.
Proof.
  intros [Hc Hl Hu Ht Hok Hq Hms Hr] Hq' [pre Hpre]. constructor; cbn; try done.
  - rewrite Hpre in Hms. by apply Forall_app in Hms as [_ ?].
  - eapply Z.le_lt_trans; [|exact Hr]. apply Nat2Z.inj_le, subseteq_size. unfold modules. rewrite Hpre, omap_app, fmap_app, list_to_set_app. set_solver.
Qed.

Lemma log_RunOnce_ok s f m ds buf :
  serving s f m ds → zlen buf = LOG_BUFF_SIZE →
  ∃ f' s' m' buf', RunOnce s f buf = Ok (f', s', buf') ∧ zlen buf' = LOG_BUFF_SIZE ∧
    serving s' f' m' (tail ds) ∧ match ds with d :: _ => dealt f f' d | [] => f' = f end.
Proof.
  intros Hs Hb. unfold RunOnce. pose proof (sv_queue _ _ _ _ Hs) as Hq. destruct ds as [|d ds].
  { destruct (q_out_empty (m_objLogQueue s) LOG_BUFF_SIZE) as (q & n & -> & Hq' & _); [done|done|].
    cbn [mbind outcome_bind]. rewrite mwrite_none. cbn [mbind outcome_bind]. rewrite Z.eqb_refl.
    exists f, (set_queue s q), m, buf. split; [done|]. split; [done|]. split; [|done]. by eapply serving_queue. }
  pose proof (sv_msgs _ _ _ _ Hs) as [Hd Hms]%Forall_cons. pose proof (mo_len _ Hd) as Hlen.
  destruct (q_out_ok (m_objLogQueue s) d ds LOG_BUFF_SIZE) as (q & -> & Hq' & _); [done|change LOG_BUFF_SIZE with 12337 in *; lia|].
  cbn [mbind outcome_bind]. rewrite (mwrite_head d buf) by lia. cbn [mbind outcome_bind].
  change (Q_OK =? Q_EMPTY) with false. change (Q_OK =? Q_OK) with true. cbn [negb tail]. cbv iota.
  assert (serving (set_queue s q) f m ds) as Hs1 by (eapply serving_queue; [done|done|by exists [d]]).
  assert (zlen (d ++ drop (length d) buf) = LOG_BUFF_SIZE) as Hb'.
  { rewrite zlen_app. unfold zlen in *. rewrite length_drop. lia. }
  destruct (Z.ltb_spec (zlen d) LogHeader.size) as [Hlt|Hge].
  { exists f, (set_queue s q), m, (d ++ drop (length d) buf). split; [done|]. split; [done|]. split; [done|].
    unfold dealt, header_of. by rewrite (proj2 (Z.ltb_lt _ _)) by done. }
  pose proof (zlen_nonneg d). rewrite aset_ok by lia. cbn [mbind outcome_bind].
  assert (∃ r, <[Z.to_nat (zlen d) := 0]> (d ++ drop (length d) buf) = d ++ 0 :: r) as [r Hr].
  { destruct (drop (length d) buf) as [|c r] eqn:E.
    - rewrite app_nil_r in Hb'. lia.
    - exists r. unfold zlen. rewrite Nat2Z.id. rewrite insert_app_r_alt by lia. by rewrite Nat.sub_diag. }
  rewrite Hr. destruct (DealLog_ok (set_queue s q) f m d ds r Hs1 Hd Hge) as (f' & s' & m' & -> & Hs' & Hdealt).
  { apply (sv_room _ _ _ _ Hs). }
  cbn [mbind outcome_bind]. exists f', s', m', (d ++ 0 :: r). split; [done|]. split; [|done].
  rewrite <- Hr, zlen_insert. done.
Qed.

(** The lines for a log. *)
Definition lines_for ds (p : list Z) : list Z :=
  concat ((λ hd, if decide (log_of g hd = p) then LineText hd else []) <$> omap header_of ds).

Lemma lines_for_cons d ds p :
  lines_for (d :: ds) p =
    match header_of d with Some hd => if decide (log_of g hd = p) then LineText hd else [] | None => [] end ++ lines_for ds p.
Proof. unfold lines_for. cbn [omap list_omap]. by destruct (header_of d). Qed.

(** The log [p] has got [lines] behind what it had, and has lost at most the
    first of it all, as [shrunk] says. *)
Definition log_kept f f' (p lines : list Z) : Prop :=
  shrunk num (iMaxFileSize g) (history f p num ++ lines) (history f' p num).

Lemma log_kept_trans f1 f2 f3 p l1 l2 : log_kept f1 f2 p l1 → log_kept f2 f3 p l2 → log_kept f1 f3 p (l1 ++ l2).
Proof.
  intros H12 H23. unfold log_kept. rewrite app_assoc. eapply shrunk_trans; [|exact H23]. by apply shrunk_app.
Qed.

Lemma dealt_kept f f' d k l hour :
  msg_ok d → dealt f f' d → name_ok16 k → level_ok l → 0 ≤ hour < 2 ^ 31 →
  let p := log_name (szOutputPathDir g) k l hour in
  log_kept f f' p (match header_of d with Some hd => if decide (log_of g hd = p) then LineText hd else [] | None => [] end).
Proof.
  intros Hd Hdealt Hk Hl Hh p. unfold dealt in Hdealt. destruct (header_of d) as [hd|] eqn:Eh.
  2:{ subst f'. unfold log_kept. rewrite app_nil_r. apply shrunk_refl. }
  pose proof (header_of_log d hd Hd Eh) as Hmsg. destruct (decide _) as [Heq|Hne].
  { rewrite <- Heq. apply (ln_history _ _ _ _ _ Hdealt). }
  destruct (HourOf_value hd (lm_sec _ Hmsg)) as [_ Hhr].
  unfold log_of in Hdealt, Hne.
  assert (history f' p num = history f p num) as Hsame; [|unfold log_kept; rewrite app_nil_r, Hsame; apply shrunk_refl].
  eapply (other_history g Hg); [apply module_of_ok|done|apply Hmsg|done| |done|exact Hdealt|]; [lia|].
  intros Heq. apply Hne. injection Heq as -> -> ->. done.
Qed.

Lemma log_Run_ok n s f m ds buf :
  serving s f m ds → zlen buf = LOG_BUFF_SIZE →
  ∃ f' s' m' buf', Run n s f buf = Ok (f', s', buf') ∧ serving s' f' m' (drop n ds) ∧
    ∀ k l hour, name_ok16 k → level_ok l → 0 ≤ hour < 2 ^ 31 →
      let p := log_name (szOutputPathDir g) k l hour in log_kept f f' p (lines_for (take n ds) p).
Proof.
  revert s f m ds buf. induction n as [|n IH]; intros s f m ds buf Hs Hb; cbn [Run].
  { exists f, s, m, buf. split; [done|]. split; [done|]. intros k l hour _ _ _. unfold log_kept. cbn. rewrite app_nil_r. apply shrunk_refl. }
  destruct (log_RunOnce_ok s f m ds buf Hs Hb) as (f1 & s1 & m1 & buf1 & -> & Hb1 & Hs1 & Hd). cbn [mbind outcome_bind].
  destruct (IH s1 f1 m1 (tail ds) buf1 Hs1 Hb1) as (f2 & s2 & m2 & buf2 & -> & Hs2 & Hk). exists f2, s2, m2, buf2.
  split; [done|]. split; [by destruct ds; rewrite ?drop_nil in *|]. intros k l hour Hn Hl Hh. destruct ds as [|d ds].
  - subst f1. cbn [tail] in Hk. specialize (Hk k l hour Hn Hl Hh). cbv zeta in Hk. by rewrite take_nil in Hk |- *.
  - cbn [take tail]. rewrite lines_for_cons. eapply log_kept_trans; [|by apply Hk].
    pose proof (sv_msgs _ _ _ _ Hs) as [? _]%Forall_cons. by apply dealt_kept.
Qed.
End loop.
