(* ===== verification/LogClient.v ===== *)
(** The logging of every daemon ([CLog], mmlib/log/log.cpp): whether a line is
    wanted, the message for the log server, and the files written here when the
    server's queue is full or local files are wanted. *)
From Stdlib Require Import Ascii String.
From stdpp Require Import gmap.
From S2P Require Import Prelude Fifo HashList IniFile Mysql Conf LogFile LogServe.

#[local] Open Scope Z_scope.
#[local] Open Scope list_scope.
#[local] Arguments Z.add : simpl never.
#[local] Arguments Z.eqb : simpl never.
#[local] Arguments Z.ltb : simpl never.
#[local] Arguments Z.leb : simpl never.

Definition LOG_SIZE_CHECK_TIMEVAL : Z := 10.
Definition LOG_CONFSHM_INIT_FLAG : Z := 0x1AFFAAFF.
Definition LOG_DEFAULT_LOG_LEVEL : Z := LOG_WARN.
Definition LOG_DEFAULT_LOG_PATH : list Z := bytes "/tmp/log".
Definition LOG_DEFAULT_MAX_FILE_SIZE : Z := 1024000000.
Definition LOG_DEFAULT_MIN_FILE_SIZE : Z := 10240000.

Module CLog.
Import LogFiles.

Definition SELFLOG_MAX_SIZE : Z := 1024000000.

(** [m_iLocalLogLevel] is a [char]. *)
Record t (Q : Type) : Type := mk {
  m_iInitFlag : Z;
  m_objModuleName : CModuleName.t;
  m_objLogConf : CLogAllConf;
  m_objLogQueue : Q;
  m_files : LogFilePInfo;
  m_szLogBuff : list Z;
  m_iLocalLogFlag : Z;
  m_szLocalLogPath : list Z;
  m_iLocalLogLevel : Z;
}.
Arguments mk {Q}.
Arguments m_iInitFlag {Q}.
Arguments m_objModuleName {Q}.
Arguments m_objLogConf {Q}.
Arguments m_objLogQueue {Q}.
Arguments m_files {Q}.
Arguments m_szLogBuff {Q}.
Arguments m_iLocalLogFlag {Q}.
Arguments m_szLocalLogPath {Q}.
Arguments m_iLocalLogLevel {Q}.

Section files.
Context {F : Type} `{Files F}.
Implicit Types (f : F).

(** The streams are not buffered. *)
Definition OpenFile f (pszFileName : list Z) : F * option Z :=
  let '(f, h) := f_open f pszFileName in
  match h with Some h => (f_setbuf f h, Some h) | None => (f, None) end.

Definition LevelFile : list Z → F → slot → list Z → Z → Z → Z → Z → Z → F * slot * bool := LevelCase OpenFile.
Definition InfoFile := LevelFile (bytes "info").
Definition ErrorFile := LevelFile (bytes "error").
Definition WarnFile := LevelFile (bytes "warn").
Definition DebugFile := LevelFile (bytes "debug").
Definition TraceFile := LevelFile (bytes "trace").

Definition SwitchLevel f (info : LogFilePInfo) (iPriority : Z) (szLogFilePath : list Z)
    (hour tTimeNow check size num : Z) : F * LogFilePInfo * option Z :=
  let '(FileInfo i e w d t) := info in
  if iPriority =? LOG_INFO then
    let '(f, i, _) := InfoFile f i szLogFilePath hour tTimeNow check size num in (f, FileInfo i e w d t, pf i)
  else if iPriority =? LOG_ERR then
    let '(f, e, _) := ErrorFile f e szLogFilePath hour tTimeNow check size num in (f, FileInfo i e w d t, pf e)
  else if iPriority =? LOG_WARN then
    let '(f, w, _) := WarnFile f w szLogFilePath hour tTimeNow check size num in (f, FileInfo i e w d t, pf w)
  else if iPriority =? LOG_DEBUG then
    let '(f, d, _) := DebugFile f d szLogFilePath hour tTimeNow check size num in (f, FileInfo i e w d t, pf d)
  else if iPriority =? LOG_TRACE then
    let '(f, t, _) := TraceFile f t szLogFilePath hour tTimeNow check size num in (f, FileInfo i e w d t, pf t)
  else (f, info, None).
End files.

Section client.
Context {Q F : Type} `{FifoOps Q} `{Files F} `{LocalTime}.
Implicit Types (c : t Q) (f : F).

Definition global c : LogOutputConf := m_pstGlobalConf (m_objLogConf c).

Definition set_queue c (q : Q) : t Q :=
  mk (m_iInitFlag c) (m_objModuleName c) (m_objLogConf c) q (m_files c) (m_szLogBuff c)
     (m_iLocalLogFlag c) (m_szLocalLogPath c) (m_iLocalLogLevel c).
Definition set_buff c (buf : list Z) : t Q :=
  mk (m_iInitFlag c) (m_objModuleName c) (m_objLogConf c) (m_objLogQueue c) (m_files c) buf
     (m_iLocalLogFlag c) (m_szLocalLogPath c) (m_iLocalLogLevel c).
Definition set_files c (info : LogFilePInfo) : t Q :=
  mk (m_iInitFlag c) (m_objModuleName c) (m_objLogConf c) (m_objLogQueue c) info (m_szLogBuff c)
     (m_iLocalLogFlag c) (m_szLocalLogPath c) (m_iLocalLogLevel c).
Definition set_local c (flag : Z) (path : list Z) (level : Z) : t Q :=
  mk (m_iInitFlag c) (m_objModuleName c) (m_objLogConf c) (m_objLogQueue c) (m_files c) (m_szLogBuff c)
     flag path level.
Definition set_conf c (init : Z) (name : CModuleName.t) (conf : CLogAllConf) : t Q :=
  mk init name conf (m_objLogQueue c) (m_files c) (m_szLogBuff c)
     (m_iLocalLogFlag c) (m_szLocalLogPath c) (m_iLocalLogLevel c).

(** The constructor; [m_szLogBuff] is not initialised. *)
Definition New (conf : CLogAllConf) (q : Q) (m_szLogBuff : list Z) : t Q :=
  mk 0 [] conf q info0 m_szLogBuff 0 [] 0.

(** The level a table has for a key. *)
Definition SpecLevel {KEY : Type} `{EqDecision KEY} `{HashKey KEY}
    (tab : CHashListNoLock.table KEY LogOutputConf) (key : KEY) (iPriority : Z) : outcome bool :=
  if 1 <? CHashListNoLock.GetUsedDataNum tab then
    '(r, conf) ← CHashListNoLock.Get tab key (Conf 0 0 0 [] 0 0 0);
    Ok ((r =? CHashListNoLock.SUCCESS) && (iPriority <=? iOutputLogLevel conf))
  else Ok false.

Definition IsShouldWrite c (iLogID ullUserID iPriority : Z) : outcome bool :=
  if negb (m_iInitFlag c =? 1) then Ok false
  else if (iPriority <? LOG_INFO) || (LOG_TRACE <? iPriority) then Ok false
  else if (m_iLocalLogFlag c =? 1) && (iPriority <=? m_iLocalLogLevel c) then Ok true
  else if iOutputLogLevel (global c) <? iPriority then
    m ← SpecLevel (m_objModuleConf (m_objLogConf c)) (m_objModuleName c) iPriority;
    i ← SpecLevel (m_objLogIDConf (m_objLogConf c)) (u32 iLogID) iPriority;
    u ← SpecLevel (m_objUserIDConf (m_objLogConf c)) ullUserID iPriority;
    Ok (m || i || u)
  else Ok true.

Definition GetLogLevel c : Z := iOutputLogLevel (global c).

Definition SetLocalFlag c f (iLocalFlag iLogLevel : Z) (pszLogPath : list Z) : F * t Q :=
  if iLocalFlag =? 1 then
    let c := set_local c 1 (cut_at 1024 (cstr pszLogPath)) (i8 iLogLevel) in
    (CheckDirAll f (m_szLocalLogPath c), c)
  else (f, set_local c 0 (m_szLocalLogPath c) (m_iLocalLogLevel c)).

(** The members of the [LogHeader] in [m_szLogBuff], 48 bytes. *)
Definition head_bytes (tv_sec tv_usec iPriority iLogID pid : Z) (name : CModuleName.t) (ullUserID : Z) : list Z :=
  le_enc 4 tv_sec ++ le_enc 4 tv_usec ++ le_enc 4 iPriority ++ le_enc 4 iLogID ++ le_enc 4 pid ++
  (name ++ replicate (17 - length name) 0) ++ replicate 3 0 ++ le_enc 8 ullUserID.

(** The text in front of a line in a local file. *)
Definition HeadText (tv_sec tv_usec pid iLogID : Z) (name : CModuleName.t) (ullUserID : Z) : list Z :=
  cut_at 256 (GetLogHeadTime (u32 tv_sec) (u32 tv_usec) ++ bytes "|" ++ name ++ bytes "(" ++ fmt_d pid ++ bytes ")|" ++
              fmt_d iLogID ++ bytes "|" ++ fmt_lu (u32 ullUserID) ++ bytes "|" ++
              fmt_lu (u16 (ullUserID / 2 ^ 32)) ++ bytes "|" ++ fmt_lu ullUserID ++ bytes "||||").

(** A line into the local file of its level and hour. *)
Definition WriteLocal c f (tv_sec tv_usec pid iLogID ullUserID iPriority : Z) (szLogContent : list Z) : F * t Q :=
  let hour := atoi (GetFileNameTime (u32 tv_sec)) in
  let '(szLogFilePath, size, num) :=
    if m_iLocalLogFlag c =? 1 then (cut_at 1024 (m_szLocalLogPath c), SELFLOG_MAX_SIZE, 10)
    else (cut_at 1024 (szOutputPathDir (global c) ++ bytes "/" ++ m_objModuleName c),
          iMaxFileSize (global c), iMaxFileNum (global c)) in
  let '(f, info, pFile) :=
    SwitchLevel f (m_files c) iPriority szLogFilePath hour tv_sec LOG_SIZE_CHECK_TIMEVAL size num in
  let f := match pFile with
           | Some h =>
               if negb (f_error f h)
               then f_print f h (HeadText tv_sec tv_usec pid iLogID (m_objModuleName c) ullUserID ++ szLogContent ++ [NL])
               else f
           | None => f end in
  (f, set_files c info).

(** [CLog::LogInternal].  [snprintf] returns the length of the whole text. *)
Definition LogInternal c f (pid iLogID ullUserID iPriority : Z) (pszLogContent : list Z) : outcome (F * t Q) :=
  if negb (m_iInitFlag c =? 1) then Ok (f, c) else
  w ← IsShouldWrite c iLogID ullUserID iPriority;
  if negb w then Ok (f, c) else
  let '(f, (tv_sec, tv_usec)) := f_timeofday f in
  buf ← mwrite (m_szLogBuff c) 0 (head_bytes tv_sec tv_usec iPriority iLogID pid (m_objModuleName c) ullUserID);
  let szLogContent := cut_at LOG_LENGTH_MAX pszLogContent in
  buf ← mwrite buf LogHeader.size (szLogContent ++ [0]);
  let iLogBodyLen := zlen pszLogContent in
  let c := set_buff c buf in
  if negb (m_iLocalLogFlag c =? 1) then
    d ← mread buf 0 (iLogBodyLen + LogHeader.size);
    '(q, iRetVal) ← q_in (m_objLogQueue c) d (iLogBodyLen + LogHeader.size);
    let c := set_queue c q in
    if iRetVal =? Q_OK then Ok (f, c)
    else Ok (WriteLocal c f tv_sec tv_usec pid iLogID ullUserID iPriority szLogContent)
  else Ok (WriteLocal c f tv_sec tv_usec pid iLogID ullUserID iPriority szLogContent).
End client.
End CLog.

(** The function of C, after the formatting of its arguments into the text. *)
Definition LogInternal {Q F : Type} `{FifoOps Q} `{Files F} `{LocalTime} (g_objLog : CLog.t Q) (f : F)
    (pid iLogID ullUserID iPriority : Z) (text : list Z) : outcome (F * CLog.t Q) :=
  CLog.LogInternal g_objLog f pid iLogID ullUserID iPriority (cut_at LOG_LENGTH_MAX text).

(** The macro [Log]. *)
Definition Log {Q F : Type} `{FifoOps Q} `{Files F} `{LocalTime} (g_objLog : CLog.t Q) (f : F)
    (pid iLogID ullUserID iLogLevel : Z) (text : list Z) : outcome (F * CLog.t Q) :=
  w ← CLog.IsShouldWrite g_objLog iLogID ullUserID iLogLevel;
  if (w : bool) then LogInternal g_objLog f pid iLogID ullUserID iLogLevel text else Ok (f, g_objLog).
