(* ===== verification/LogInit.v ===== *)
(** How the log server and its clients come to their configuration
    ([CLogSvrProc::Init], logsvr/logsvr_proc.cpp, and [CLog::Open],
    mmlib/log/log.cpp): the queue, the configuration in shared memory, which the
    server fills from its file, and the tables of open files. *)
From Stdlib Require Import Ascii String.
From stdpp Require Import gmap.
From S2P Require Import Prelude Fifo ShmQueue HashList IniFile Mysql Conf LogFile LogServe LogClient.

#[local] Open Scope Z_scope.
#[local] Open Scope list_scope.
#[local] Arguments Z.add : simpl never.
#[local] Arguments Z.eqb : simpl never.
#[local] Arguments Z.ltb : simpl never.
#[local] Arguments Z.leb : simpl never.

Definition LOG_QUEUE_SIZE : Z := 67108864.
Definition LOG_CONF_SHM_SIZE : Z := 1048576.
Definition LOG_MAX_SPEC_MODULE_NUM : Z := 100.
Definition LOG_MAX_SPEC_LOGID_NUM : Z := 100.
Definition LOG_MAX_SPEC_USERID_NUM : Z := 100.
Definition LOG_OUTPUT_TYPE_NORMAL : Z := 1.
Definition LOG_OUTPUT_TYPE_SPEC_MODULE : Z := 2.

(** What the operating system says: to [CShareMem::Create] and
    [CShareMem::Attach] and [CSemLockPro::creat] for the queue, whose segment
    holds [sh_queue], to the same for the configuration, and to
    [pthread_mutex_init]. *)
Record SharedMemory : Type := Shared {
  sh_queue_create : Z;
  sh_queue_attach : Z;
  sh_queue_sem : Z;
  sh_queue : list Z;
  sh_conf_create : Z;
  sh_conf_attach : Z;
  sh_mutex : Z;
}.

(** * The configuration in shared memory *)
Module LogShm.
Import CHashListNoLock.

(** Sizes in bytes; the nodes are packed. *)
Definition HEAD_SIZE : Z := 20.
Definition INDEX_NODE_SIZE : Z := 12.
Definition KEY_MODULE : Z := LOG_MODULE_NAME_LEN + 1.
Definition KEY_UINT : Z := 4.
Definition KEY_ULL : Z := 8.
Definition CONF_SIZE : Z := 1292.
Definition FILES_SIZE : Z := 104.
Definition NODE_SIZE (key data : Z) : Z := key + 4 + data.

Definition TableSize (key data n : Z) : Z := CalcSize HEAD_SIZE INDEX_NODE_SIZE (NODE_SIZE key data) n n.
Definition InitTable {KEY A : Type} (key data : Z) (tab : table KEY A) (iMemSize n : Z) : table KEY A * Z :=
  Init HEAD_SIZE INDEX_NODE_SIZE (NODE_SIZE key data) tab iMemSize n n.

Definition iModuleConfHashListSize : Z := TableSize KEY_MODULE CONF_SIZE LOG_MAX_SPEC_MODULE_NUM.
Definition iLogIDConfHashListSize : Z := TableSize KEY_UINT CONF_SIZE LOG_MAX_SPEC_LOGID_NUM.
Definition iUserIDConfHashListSize : Z := TableSize KEY_ULL CONF_SIZE LOG_MAX_SPEC_USERID_NUM.
Definition all_conf_size : Z :=
  CONF_SIZE + iModuleConfHashListSize + iLogIDConfHashListSize + iUserIDConfHashListSize.

Definition set_global (c : CLogAllConf) (g : LogOutputConf) : CLogAllConf :=
  AllConf g (m_objModuleConf c) (m_objLogIDConf c) (m_objUserIDConf c).

Definition zero_conf : LogOutputConf := Conf 0 0 0 [] 0 0 0.

(** The three tables emptied. *)
Definition ClearTables (c : CLogAllConf) : outcome CLogAllConf :=
  m ← Clear zero_conf (m_objModuleConf c);
  i ← Clear zero_conf (m_objLogIDConf c);
  u ← Clear zero_conf (m_objUserIDConf c);
  Ok (AllConf (m_pstGlobalConf c) m i u).

(** Are they as they should be? *)
Definition VerifyTables (c : CLogAllConf) : outcome (Z * Z * Z) :=
  m ← Verify (m_objModuleConf c); i ← Verify (m_objLogIDConf c); u ← Verify (m_objUserIDConf c);
  Ok (m, i, u).
End LogShm.

(** * The server *)
Module CLogSvrInit.
Import LogShm LogFiles CLogSvrProc.

Definition SECTION : list Z := bytes "LOG_SVR".
Definition DEFAULT_PATH : list Z := bytes "/usr/local/log".

(** The first part of the file: the configuration of all modules, how often
    sizes are looked at, how many modules there may be. *)
Definition ReadGlobal (ini : CIniFile.t) : outcome (LogOutputConf * Z * Z) :=
  '(iLogLevel, _) ← CIniFile.GetInt ini SECTION (bytes "LogLevel") 3 3;
  '(szLogPath, _) ← CIniFile.GetString ini SECTION (bytes "LogPath") DEFAULT_PATH 1024;
  '(iMaxFileSize, _) ← CIniFile.GetInt ini SECTION (bytes "MaxFileSize") 1024000000 1024000000;
  '(iFlushFlag, _) ← CIniFile.GetInt ini SECTION (bytes "FlushFlag") 1 1;
  '(m_iMaxModuleNum, _) ← CIniFile.GetInt ini SECTION (bytes "MaxModuleNum") 100 100;
  '(m_iSizeCheckTimeVal, _) ← CIniFile.GetInt ini SECTION (bytes "SizeCheckTimeVal") 1 1;
  '(iMaxFileNum, _) ← CIniFile.GetInt ini SECTION (bytes "MaxFileNum") 16 16;
  Ok (Conf LOG_CONFSHM_INIT_FLAG iLogLevel LOG_OUTPUT_TYPE_NORMAL szLogPath iMaxFileSize iFlushFlag iMaxFileNum,
      m_iSizeCheckTimeVal, m_iMaxModuleNum).

(** The sections of single modules, log numbers and users. *)
Definition SpecModule (ini : CIniFile.t) (i : Z) (tab : CHashListNoLock.table CModuleName.t LogOutputConf)
    : outcome (CHashListNoLock.table CModuleName.t LogOutputConf) :=
  let szSecName := cut_at 256 (bytes "SPEC_MODULE_" ++ fmt_d i) in
  '(szModuleName, _) ← CIniFile.GetString ini szSecName (bytes "ModuleName") [] 32;
  if bool_decide (szModuleName = []) then Ok tab else
  '(iOutputLogLevel, _) ← CIniFile.GetInt ini szSecName (bytes "LogLevel") 0 0;
  '(tab, _) ← CHashListNoLock.Insert tab (CModuleName.of_str szModuleName)
                (Conf 0 iOutputLogLevel LOG_OUTPUT_TYPE_SPEC_MODULE [] 0 0 0);
  Ok tab.

Definition SpecLogID (ini : CIniFile.t) (i : Z) (tab : CHashListNoLock.table Z LogOutputConf)
    : outcome (CHashListNoLock.table Z LogOutputConf) :=
  let szSecName := cut_at 256 (bytes "SPEC_LOGID_" ++ fmt_d i) in
  '(iSpecLogID, _) ← CIniFile.GetInt ini szSecName (bytes "LogID") 0 0;
  if iSpecLogID =? 0 then Ok tab else
  '(iOutputLogLevel, _) ← CIniFile.GetInt ini szSecName (bytes "LogLevel") 0 0;
  '(szOutputPathDir, _) ← CIniFile.GetString ini szSecName (bytes "LogPath") [] 256;
  '(tab, _) ← CHashListNoLock.Insert tab (u32 iSpecLogID)
                (Conf 0 iOutputLogLevel LOG_OUTPUT_TYPE_SPEC_LOGID szOutputPathDir 0 0 0);
  Ok tab.

Definition SpecUserID (ini : CIniFile.t) (i : Z) (tab : CHashListNoLock.table Z LogOutputConf)
    : outcome (CHashListNoLock.table Z LogOutputConf) :=
  let szSecName := cut_at 256 (bytes "SPEC_USERID_" ++ fmt_d i) in
  '(ullSpecUserID, _) ← CIniFile.GetULongLong ini szSecName (bytes "UserID") 0 0;
  if ullSpecUserID =? 0 then Ok tab else
  '(iOutputLogLevel, _) ← CIniFile.GetInt ini szSecName (bytes "LogLevel") 0 0;
  '(szOutputPathDir, _) ← CIniFile.GetString ini szSecName (bytes "LogPath") [] 256;
  '(tab, _) ← CHashListNoLock.Insert tab ullSpecUserID
                (Conf 0 iOutputLogLevel LOG_OUTPUT_TYPE_SPEC_USERID szOutputPathDir 0 0 0);
  Ok tab.

(** All of them; the three numbers of sections are read before. *)
Definition ReadSpecs (ini : CIniFile.t) (c : CLogAllConf) : outcome CLogAllConf :=
  '(iSpecModuleConfNum, _) ← CIniFile.GetInt ini SECTION (bytes "SpecModuleConfNum") 0 0;
  '(iSpecLogIDConfNum, _) ← CIniFile.GetInt ini SECTION (bytes "SpecLogIDConfNum") 0 0;
  '(iSpecUserIDConfNum, _) ← CIniFile.GetInt ini SECTION (bytes "SpecUserIDConfNum") 0 0;
  m ← for_range 1 (iSpecModuleConfNum + 1) (SpecModule ini) (m_objModuleConf c);
  i ← for_range 1 (iSpecLogIDConfNum + 1) (SpecLogID ini) (m_objLogIDConf c);
  u ← for_range 1 (iSpecUserIDConfNum + 1) (SpecUserID ini) (m_objUserIDConf c);
  Ok (AllConf (m_pstGlobalConf c) m i u).

(** A table of open files, in memory of [malloc] that holds anything. *)
Definition InitFiles {KEY : Type} `{EqDecision KEY} `{HashKey KEY} (key : Z) (malloc : bool)
    (tab : CHashListNoLock.table KEY LogFilePInfo) (m_iMaxModuleNum : Z)
    : outcome (CHashListNoLock.table KEY LogFilePInfo * Z) :=
  if negb malloc then Ok (tab, -1) else
  let '(tab, iRetVal) := InitTable key FILES_SIZE tab (TableSize key FILES_SIZE m_iMaxModuleNum) m_iMaxModuleNum in
  if negb (iRetVal =? 0) then Ok (tab, -1) else
  tab ← CHashListNoLock.Clear info0 tab; Ok (tab, 0).

Section init.
Context {F : Type} `{Files F}.
Notation server := (CLogSvrProc.t CShmQueue.t).
Implicit Types (s : server) (f : F).

Definition set_conf s (c : CLogAllConf) : server :=
  mk c (m_objLogQueue s) (m_objModuleLogFilePHash s) (m_objSpecLogIDFilePHash s)
     (m_objSpecUserIDFilePHash s) (m_iSizeCheckTimeVal s).
Definition set_check s (v : Z) : server :=
  mk (m_objLogConf s) (m_objLogQueue s) (m_objModuleLogFilePHash s) (m_objSpecLogIDFilePHash s)
     (m_objSpecUserIDFilePHash s) v.

(** The configuration in the shared memory, from the file. *)
Definition InitConf s (ini : CIniFile.t) (global : LogOutputConf) : outcome (server * Z) :=
  let c := m_objLogConf s in
  if LOG_CONF_SHM_SIZE <? all_conf_size then Ok (s, -1) else
  let '(m, iRetVal) := InitTable KEY_MODULE CONF_SIZE (m_objModuleConf c) iModuleConfHashListSize LOG_MAX_SPEC_MODULE_NUM in
  let c := AllConf (m_pstGlobalConf c) m (m_objLogIDConf c) (m_objUserIDConf c) in
  if negb (iRetVal =? 0) then Ok (set_conf s c, -1) else
  let '(i, iRetVal) := InitTable KEY_UINT CONF_SIZE (m_objLogIDConf c) iLogIDConfHashListSize LOG_MAX_SPEC_LOGID_NUM in
  let c := AllConf (m_pstGlobalConf c) (m_objModuleConf c) i (m_objUserIDConf c) in
  if negb (iRetVal =? 0) then Ok (set_conf s c, -1) else
  let '(u, iRetVal) := InitTable KEY_ULL CONF_SIZE (m_objUserIDConf c) iUserIDConfHashListSize LOG_MAX_SPEC_USERID_NUM in
  let c := AllConf (m_pstGlobalConf c) (m_objModuleConf c) (m_objLogIDConf c) u in
  if negb (iRetVal =? 0) then Ok (set_conf s c, -1) else
  let c := set_global c global in
  c ← ClearTables c;
  '(rm, ri, ru) ← VerifyTables c;
  if negb (rm =? 0) || negb (ri =? 0) || negb (ru =? 0) then Ok (set_conf s c, -1) else
  c ← ReadSpecs ini c;
  Ok (set_conf s c, 0).

(** The tables of open files. *)
Definition InitTables s (mallocs : bool * bool * bool) (m_iMaxModuleNum : Z) : outcome (server * Z) :=
  let '(a, b, c) := mallocs in
  '(tab, iRetVal) ← InitFiles KEY_MODULE a (m_objModuleLogFilePHash s) m_iMaxModuleNum;
  let s := set_modules s tab in
  if negb (iRetVal =? 0) then Ok (s, -1) else
  '(tab, iRetVal) ← InitFiles KEY_UINT b (m_objSpecLogIDFilePHash s) m_iMaxModuleNum;
  let s := set_logids s tab in
  if negb (iRetVal =? 0) then Ok (s, -1) else
  '(tab, iRetVal) ← InitFiles KEY_UINT c (m_objSpecUserIDFilePHash s) m_iMaxModuleNum;
  let s := set_users s tab in
  if negb (iRetVal =? 0) then Ok (s, -1) else Ok (s, 0).

(** [m_objLogConf] and the tables of [s] are what the memory holds before. *)
Definition Init s f (file : option (list Z)) (sh : SharedMemory) (mallocs : bool * bool * bool)
    : outcome (F * server * Z) :=
  let ini := CIniFile.New file in
  if negb (CIniFile.IsValid ini) then Ok (f, s, -1) else
  '(global, check, m_iMaxModuleNum) ← ReadGlobal ini;
  let s := set_check s check in
  let f := CheckDir f (cut_at 1024 (szOutputPathDir global ++ bytes "/logsvr")) in
  '(q, iRetVal) ← CShmQueue.Init (m_objLogQueue s) (sh_queue_create sh) (sh_queue_attach sh) (sh_queue_sem sh)
                    (sh_queue sh) LOG_QUEUE_SIZE;
  let s := set_queue s q in
  if negb (iRetVal =? 0) then Ok (f, s, -1) else
  if negb (sh_conf_create sh =? 0) && negb (sh_conf_create sh =? 1) then Ok (f, s, -1) else
  if negb (sh_conf_attach sh =? 0) then Ok (f, s, -1) else
  let global := Conf (iLogConfShmInitFlag global) (iOutputLogLevel global) (iOutputLogType global)
                     (cut_at 256 (szOutputPathDir global)) (iMaxFileSize global) (iFlushFlag global) (iMaxFileNum global) in
  '(s, iRetVal) ← InitConf s ini global;
  if negb (iRetVal =? 0) then Ok (f, s, -1) else
  if negb (sh_mutex sh =? 0) then Ok (f, s, -1) else
  '(s, iRetVal) ← InitTables s mallocs m_iMaxModuleNum;
  if negb (iRetVal =? 0) then Ok (f, s, -1) else
  Ok (CheckDir f (szOutputPathDir (m_pstGlobalConf (m_objLogConf s))), s, 0).
End init.
End CLogSvrInit.

(** * The client *)
Module CLogOpen.
Import LogShm LogFiles CLog.

Definition SELFLOG_PATH : list Z := bytes "/tmp/Log".

(** What is put where no server has been. *)
Definition default_conf : LogOutputConf :=
  Conf LOG_CONFSHM_INIT_FLAG LOG_DEFAULT_LOG_LEVEL 1 (cut_at 256 LOG_DEFAULT_LOG_PATH)
       LOG_DEFAULT_MAX_FILE_SIZE 1 LOG_DEFAULT_MAX_FILE_NUM.

Definition clear_flag (g : LogOutputConf) : LogOutputConf :=
  Conf 0 (iOutputLogLevel g) (iOutputLogType g) (szOutputPathDir g) (iMaxFileSize g) (iFlushFlag g) (iMaxFileNum g).
Definition set_max (g : LogOutputConf) (size num : Z) : LogOutputConf :=
  Conf (iLogConfShmInitFlag g) (iOutputLogLevel g) (iOutputLogType g) (szOutputPathDir g) size (iFlushFlag g) num.

(** Looks at what is in the memory: tables that cannot be those of a server are
    made new, with the configuration above; files that could become too small
    are made larger. *)
Definition OpenConf (c : CLogAllConf) : outcome (CLogAllConf * Z) :=
  if LOG_CONF_SHM_SIZE <? all_conf_size then Ok (c, -1) else
  let '(m, iRetVal) := InitTable KEY_MODULE CONF_SIZE (m_objModuleConf c) iModuleConfHashListSize LOG_MAX_SPEC_MODULE_NUM in
  let c := AllConf (m_pstGlobalConf c) m (m_objLogIDConf c) (m_objUserIDConf c) in
  if negb (iRetVal =? 0) then Ok (c, -1) else
  let '(i, iRetVal) := InitTable KEY_UINT CONF_SIZE (m_objLogIDConf c) iLogIDConfHashListSize LOG_MAX_SPEC_LOGID_NUM in
  let c := AllConf (m_pstGlobalConf c) (m_objModuleConf c) i (m_objUserIDConf c) in
  if negb (iRetVal =? 0) then Ok (c, -1) else
  let '(u, iRetVal) := InitTable KEY_ULL CONF_SIZE (m_objUserIDConf c) iUserIDConfHashListSize LOG_MAX_SPEC_USERID_NUM in
  let c := AllConf (m_pstGlobalConf c) (m_objModuleConf c) (m_objLogIDConf c) u in
  let c := if negb (iRetVal =? 0) then set_global c (clear_flag (m_pstGlobalConf c)) else c in
  '(rm, ri, ru) ← VerifyTables c;
  let c := if negb (rm =? 0) then set_global c (clear_flag (m_pstGlobalConf c)) else c in
  let c := if negb (ri =? 0) then set_global c (clear_flag (m_pstGlobalConf c)) else c in
  let c := if negb (ru =? 0) then set_global c (clear_flag (m_pstGlobalConf c)) else c in
  c ← (if negb (iLogConfShmInitFlag (m_pstGlobalConf c) =? LOG_CONFSHM_INIT_FLAG)
       then ClearTables (set_global c default_conf) else Ok c);
  let g := m_pstGlobalConf c in
  if iMaxFileSize g <? LOG_DEFAULT_MIN_FILE_SIZE
  then Ok (set_global c (set_max g LOG_DEFAULT_MIN_FILE_SIZE LOG_DEFAULT_MAX_FILE_NUM), 0)
  else Ok (c, 0).

Section open.
Context {F : Type} `{Files F}.
Notation client := (CLog.t CShmQueue.t).
Implicit Types (c : client) (f : F).

(** [m_objLogConf] of [c] is what the memory holds before; [level] is the
    environment's LOG_SELFLOG_LEVEL. *)
Definition Open c f (pszModuleName : list Z) (level : option (list Z)) (sh : SharedMemory) : outcome (F * client) :=
  let name := CModuleName.of_str pszModuleName in
  let c := set_conf c (m_iInitFlag c) name (m_objLogConf c) in
  let m_iSelfLogLevel := match level with Some s => atoi s | None => 3 end in
  let f := if 0 <? m_iSelfLogLevel then CheckDir f SELFLOG_PATH else f in
  if m_iInitFlag c =? 1 then Ok (f, c) else
  '(q, iRetVal) ← CShmQueue.Init (m_objLogQueue c) (sh_queue_create sh) (sh_queue_attach sh) (sh_queue_sem sh)
                    (sh_queue sh) LOG_QUEUE_SIZE;
  let c := set_queue c q in
  if negb (iRetVal =? 0) then Ok (f, c) else
  if negb (sh_conf_create sh =? 0) && negb (sh_conf_create sh =? 1) then Ok (f, c) else
  if negb (sh_conf_attach sh =? 0) then Ok (f, c) else
  '(conf, iRetVal) ← OpenConf (m_objLogConf c);
  let c := set_conf c (m_iInitFlag c) name conf in
  if negb (iRetVal =? 0) then Ok (f, c) else
  if negb (sh_mutex sh =? 0) then Ok (f, c) else
  let f := CheckDirAll f (cut_at 1024 (szOutputPathDir (m_pstGlobalConf conf) ++ bytes "/" ++ name)) in
  Ok (f, set_conf c 1 name conf).
End open.
End CLogOpen.
