(* ===== verification/LogSim.v ===== *)
(** A file system and a calendar to run the logging code with. *)
From Stdlib Require Import Ascii String.
From S2P Require Import Prelude IniFile Mysql Conf LogFile.

#[local] Open Scope Z_scope.
#[local] Open Scope list_scope.
#[local] Arguments Z.add : simpl never.
#[local] Arguments Z.eqb : simpl never.
#[local] Arguments Z.ltb : simpl never.
#[local] Arguments Z.leb : simpl never.

(** Files are numbered by their place in a list, streams by theirs; nothing is
    held back.  Seconds have 32 bits and are not 0. *)
Module FileSim.
Record entry : Type := Entry { e_name : option (list Z); e_data : list Z }.
Record t : Type := mk { files : list entry; opened : list (option Z); now : Z }.

Fixpoint find_name (l : list entry) (p : list Z) (i : Z) : option Z :=
  match l with
  | [] => None
  | e :: l => if bool_decide (e_name e = Some p) then Some i else find_name l p (i + 1)
  end.
Definition name (s : t) (p : list Z) : option Z := find_name (files s) p 0.
Definition data (s : t) (i : Z) : list Z :=
  if i <? 0 then [] else match files s !! Z.to_nat i with Some e => e_data e | None => [] end.
Definition exists_file (s : t) (i : Z) : bool := (0 <=? i) && (i <? zlen (files s)).
Definition stream (s : t) (h : Z) : option Z :=
  if h <? 0 then None else
  match opened s !! Z.to_nat h with
  | Some (Some i) => if exists_file s i then Some i else None
  | _ => None
  end.

(** The file with a name, made if there is none. *)
Definition enter (s : t) (p : list Z) : t * Z :=
  match name s p with
  | Some i => (s, i)
  | None => (mk (files s ++ [Entry (Some p) []])
                ((λ o, match o with Some i => if exists_file s i then Some i else None | None => None end) <$> opened s)
                (now s), zlen (files s))
  end.

Definition clear (p : list Z) (e : entry) : entry :=
  if bool_decide (e_name e = Some p) then Entry None (e_data e) else e.

#[global] Instance sim_files : Files t := {
  f_open s p := let '(s, i) := enter s p in (mk (files s) (opened s ++ [Some i]) (now s), Some (zlen (opened s)));
  f_setbuf s h := s;
  f_close s h := if h <? 0 then s else mk (files s) (<[Z.to_nat h := None]> (opened s)) (now s);
  f_print s h x :=
    match stream s h with
    | Some i => mk (alter (λ e, Entry (e_name e) (e_data e ++ x)) (Z.to_nat i) (files s)) (opened s) (now s)
    | None => s end;
  f_flush s h := s;
  f_error s h := false;
  f_fileno s h := h;
  f_fstat s h := (0, match stream s h with Some i => zlen (data s i) | None => 0 end);
  f_access s p := match name s p with Some _ => 0 | None => -1 end;
  f_unlink s p := mk (clear p <$> files s) (opened s) (now s);
  f_rename s p q :=
    match name s p with
    | Some i => if bool_decide (p = q) then s else
        mk (alter (λ e, Entry (Some q) (e_data e)) (Z.to_nat i) (clear p <$> (clear q <$> files s))) (opened s) (now s)
    | None => s end;
  f_lstat s p := (0, true);
  f_mkdir s p := s;
  f_creat s p := ((enter s p).1, 3);
  f_setlk s d := (s, 0);
  f_unlck s d := s;
  f_fdclose s d := s;
  f_time s := (s, now s);
  f_timeofday s := (s, (Z.max 1 (u32 (now s)), 0));
}.

#[global] Instance sim_views : FileViews t := {
  f_names := name; f_data := data; f_file := stream; f_pend _ _ := [];
}.

#[global] Instance sim_work : FilesWork t.
Proof. split; [|done]. intros s p. cbn. destruct (enter s p). by eexists. Qed.

(** ** Names *)
Lemma find_name_spec l p i :
  match find_name l p i with
  | Some j => ∃ n e, j = i + Z.of_nat n ∧ l !! n = Some e ∧ e_name e = Some p ∧
      ∀ n' e', (n' < n)%nat → l !! n' = Some e' → e_name e' ≠ Some p
  | None => ∀ e, e ∈ l → e_name e ≠ Some p
  end.
Proof.
  revert i. induction l as [|e l IH]; intros i; cbn [find_name]; [by intros e ?%not_elem_of_nil|].
  case_bool_decide as He.
  - exists 0%nat, e. split; [lia|]. split; [done|]. split; [done|]. intros n' e' Hn. lia.
  - specialize (IH (i + 1)). destruct (find_name l p (i + 1)) as [j|].
    + destruct IH as (n & x & -> & Hn & Hx & Hmin). exists (S n), x. split; [lia|]. split; [done|]. split; [done|].
      intros [|n'] e' Hlt He'; [by injection He' as <-|]. eapply Hmin; [|exact He']. lia.
    + intros x [->|Hx]%elem_of_cons; [done|]. by apply IH.
Qed.

Lemma name_Some s p i :
  name s p = Some i → 0 ≤ i < zlen (files s) ∧ ∃ e, files s !! Z.to_nat i = Some e ∧ e_name e = Some p.
Proof.
  intros Hn. unfold name in Hn. pose proof (find_name_spec (files s) p 0) as Hf. rewrite Hn in Hf.
  destruct Hf as (n & e & -> & He & Hp & _). pose proof (lookup_lt_Some _ _ _ He) as Hlt.
  replace (Z.to_nat (0 + Z.of_nat n)) with n by lia. split; [unfold zlen; lia|]. by exists e.
Qed.

(** Lists whose entries have the name [p] in the same places. *)
Lemma find_name_ext l l' p i :
  length l = length l' →
  (∀ n e e', l !! n = Some e → l' !! n = Some e' → e_name e = Some p ↔ e_name e' = Some p) →
  find_name l p i = find_name l' p i.
Proof.
  revert l' i. induction l as [|e l IH]; intros [|e' l'] i Hlen Hp; try done. cbn [find_name].
  rewrite (bool_decide_ext _ _ (Hp 0%nat e e' eq_refl eq_refl)). case_bool_decide; [done|].
  apply IH; [by injection Hlen|]. intros n x x' Hx Hx'. by apply (Hp (S n) x x').
Qed.

Lemma find_name_none l p i : (∀ e, e ∈ l → e_name e ≠ Some p) → find_name l p i = None.
Proof.
  intros Hl. pose proof (find_name_spec l p i) as Hf. destruct (find_name l p i) as [j|]; [|done].
  destruct Hf as (n & e & _ & He & Hp & _). apply list_elem_of_lookup_2 in He. by apply Hl in He.
Qed.

Lemma find_name_app l e p i :
  find_name (l ++ [e]) p i =
    match find_name l p i with
    | Some j => Some j | None => if bool_decide (e_name e = Some p) then Some (i + zlen l) else None end.
Proof.
  revert i. induction l as [|x l IH]; intros i; cbn [find_name app].
  - rewrite zlen_nil. by replace (i + 0) with i by lia.
  - destruct (bool_decide (e_name x = Some p)); [done|]. rewrite IH. destruct (find_name l p (i + 1)); [done|]. rewrite zlen_cons.
    by replace (i + 1 + zlen l) with (i + (1 + zlen l)) by lia.
Qed.

Lemma clear_name p e q : q ≠ p → e_name (clear p e) = Some q ↔ e_name e = Some q.
Proof. intros Hq. unfold clear. case_bool_decide as He; [|done]. cbn. rewrite He. split; congruence. Qed.
Lemma clear_gone p e : e_name (clear p e) ≠ Some p.
Proof. unfold clear. by case_bool_decide. Qed.
Lemma clear_data p e : e_data (clear p e) = e_data e.
Proof. unfold clear. by case_bool_decide. Qed.

Lemma same_data l l' n a b :
  (∀ n, e_data <$> l !! n = e_data <$> l' !! n) →
  ∀ i, data (mk l n a) i = data (mk l' n b) i.
Proof.
  intros Hl i. unfold data. cbn [files]. destruct (i <? 0); [done|]. specialize (Hl (Z.to_nat i)).
  destruct (l !! _), (l' !! _); cbn in Hl; congruence.
Qed.

Lemma same_stream l l' n a b : length l = length l' → ∀ h, stream (mk l n a) h = stream (mk l' n b) h.
Proof. intros Hl h. unfold stream, exists_file, zlen. cbn [files opened]. by rewrite Hl. Qed.

Lemma enter_entered s p s' i : enter s p = (s', i) → entered s s' p i ∧ (∀ h, stream s' h = stream s h) ∧
  length (opened s') = length (opened s).
Proof.
  unfold enter. destruct (name s p) as [j|] eqn:En.
  { intros [= <- <-]. split; [|done]. constructor; [done|done|done|by left]. }
  intros [= <- <-]. set (s' := mk _ _ _).
  assert (∀ q, name s' q = match name s q with Some x => Some x | None => if bool_decide (Some p = Some q) then Some (0 + zlen (files s)) else None end) as Hn.
  { intros q. unfold name, s'. cbn [files]. by rewrite find_name_app. }
  assert (∀ h, stream s' h = stream s h) as Hst.
  { intros h. unfold stream, s'. cbn [files opened]. destruct (h <? 0); [done|]. rewrite list_lookup_fmap.
    destruct (opened s !! Z.to_nat h) as [[x|]|]; [|done|done]. cbn. unfold exists_file. cbn [files].
    rewrite zlen_app. change (zlen [Entry (Some p) []]) with 1.
    destruct (Z.leb_spec 0 x); [|done]. cbn [andb]. destruct (Z.ltb_spec x (zlen (files s))) as [Hlt|Hge]; [|done].
    cbn [andb]. by rewrite (proj2 (Z.leb_le 0 x)), (proj2 (Z.ltb_lt x (zlen (files s) + 1))) by lia. }
  split; [|split; [exact Hst|cbn; by rewrite length_fmap]]. constructor.
  - change (name s' p = Some (zlen (files s))). rewrite Hn, En, bool_decide_true by done. done.
  - intros q Hq. change (name s' q = name s q). rewrite Hn. destruct (name s q); [done|]. by rewrite bool_decide_false by congruence.
  - intros j. change (data s' j = data s j). unfold data, s'. cbn [files]. destruct (Z.ltb_spec j 0); [done|].
    destruct (decide (Z.to_nat j < length (files s))%nat) as [Hlt|Hge].
    + by rewrite lookup_app_l.
    + rewrite lookup_app_r, (lookup_ge_None_2 (files s)) by lia. by destruct (Z.to_nat j - length (files s))%nat.
  - right. split; [done|]. split_and!.
    + change (data s (zlen (files s)) = []). unfold data. destruct (_ <? 0); [done|]. rewrite lookup_ge_None_2; [done|]. unfold zlen. lia.
    + intros q Hq. apply name_Some in Hq as [? _]. lia.
    + intros h Hh. change (stream s h = Some (zlen (files s))) in Hh. unfold stream in Hh. destruct (h <? 0); [done|]. destruct (opened s !! _) as [[x|]|]; [|done|done].
      unfold exists_file in Hh. destruct (Z.ltb_spec x (zlen (files s))); [|by rewrite andb_false_r in Hh].
      destruct (_ && _); [|done]. injection Hh as ->. lia.
Qed.

(** ** The laws *)
Lemma stream_open s p s' i h :
  enter s p = (s', i) → h = zlen (opened s') →
  let s2 := mk (files s') (opened s' ++ [Some i]) (now s') in
  stream s2 h = Some i ∧ (∀ x, x ≠ h → stream s2 x = stream s' x).
Proof.
  intros He -> s2. apply enter_entered in He as (He & _ & _). pose proof (en_name _ _ _ _ He) as Hn.
  apply name_Some in Hn as [Hi _]. unfold stream, s2, exists_file. cbn [files opened]. split.
  - pose proof (zlen_nonneg (opened s')). rewrite (proj2 (Z.ltb_ge _ _)) by lia. rewrite lookup_app_r by (unfold zlen; lia).
    replace (Z.to_nat (zlen (opened s')) - length (opened s'))%nat with 0%nat by (unfold zlen; lia). cbn.
    by rewrite (proj2 (Z.leb_le 0 i)), (proj2 (Z.ltb_lt i _)) by lia.
  - intros x Hx. destruct (Z.ltb_spec x 0); [done|]. destruct (decide (Z.to_nat x < length (opened s'))%nat) as [Hlt|Hge].
    + by rewrite lookup_app_l.
    + rewrite (lookup_ge_None_2 (opened s')) by lia. rewrite lookup_ge_None_2; [done|].
      rewrite length_app. cbn. unfold zlen in Hx. lia.
Qed.

Lemma open_ok s p s' r :
  f_open s p = (s', r) → ∃ h i, r = Some h ∧ f_file s h = None ∧ entered s s' p i ∧ f_file s' h = Some i ∧
    ∀ x, x ≠ h → f_file s' x = f_file s x.
Proof.
  cbn. destruct (enter s p) as [s1 i] eqn:Ee. intros [= <- <-]. pose proof (enter_entered _ _ _ _ Ee) as ([Hn Ho Hd Hold] & Hs & Hl).
  assert (zlen (opened s) = zlen (opened s1)) as Hz by (unfold zlen; by rewrite Hl).
  destruct (stream_open s p s1 i (zlen (opened s)) Ee Hz) as [H1 H2].
  assert (zlen (opened s1) = zlen (opened s)) as Hz' by done.
  exists (zlen (opened s1)), i. split; [done|]. split; [|split; [|split]].
  - change (stream s (zlen (opened s1)) = None). rewrite Hz'. unfold stream. pose proof (zlen_nonneg (opened s)).
    rewrite (proj2 (Z.ltb_ge _ _)) by lia. rewrite lookup_ge_None_2; [done|]. unfold zlen. lia.
  - constructor; done.
  - rewrite Hz'. exact H1.
  - intros x Hx. rewrite Hz' in Hx. etransitivity; [by apply H2|]. apply Hs.
Qed.

Lemma close_ok s h i :
  stream s h = Some i → stream (f_close s h) h = None ∧ ∀ x, x ≠ h → stream (f_close s h) x = stream s x.
Proof.
  intros Hh. cbn. unfold stream in Hh |- *. destruct (Z.ltb_spec h 0); [done|]. cbn [opened]. split.
  - destruct (opened s !! Z.to_nat h) as [o|] eqn:E; [|done].
    rewrite list_lookup_insert_eq; [done|]. by apply lookup_lt_Some in E.
  - intros x Hx. destruct (Z.ltb_spec x 0); [done|]. by rewrite list_lookup_insert_ne by lia.
Qed.

Lemma print_ok s h i x :
  stream s h = Some i →
  data (f_print s h x) i = data s i ++ x ∧ (∀ j, j ≠ i → data (f_print s h x) j = data s j) ∧
  (∀ p, name (f_print s h x) p = name s p) ∧ ∀ y, stream (f_print s h x) y = stream s y.
Proof.
  intros Hh. cbn. rewrite Hh. cbv beta iota. set (l := alter _ _ _).
  assert (0 ≤ i < zlen (files s)) as Hi.
  { unfold stream in Hh. destruct (h <? 0); [done|]. destruct (opened s !! _) as [[y|]|]; [|done|done].
    destruct (exists_file s y) eqn:E; [|done]. injection Hh as ->. unfold exists_file in E.
    rewrite andb_true_iff, Z.leb_le, Z.ltb_lt in E. done. }
  destruct (lookup_lt_is_Some_2 (files s) (Z.to_nat i)) as [e He]; [unfold zlen in Hi; lia|].
  split_and!.
  - unfold data. cbn [files]. rewrite (proj2 (Z.ltb_ge _ _)) by lia. unfold l. by rewrite list_lookup_alter_eq, He.
  - intros j Hj. unfold data. cbn [files]. destruct (Z.ltb_spec j 0); [done|]. unfold l. by rewrite list_lookup_alter_ne by lia.
  - intros p. apply find_name_ext; [cbn [files]; unfold l; by rewrite length_alter|]. intros n e1 e2. cbn [files]. unfold l.
    destruct (decide (n = Z.to_nat i)) as [->|Hne].
    + rewrite list_lookup_alter_eq, He. cbn. by intros [= <-] [= <-].
    + rewrite list_lookup_alter_ne by done. intros -> [= ->]. done.
  - destruct s as [fs o n0]. apply same_stream. unfold l. by rewrite length_alter.
Qed.

Lemma clear_same s p :
  let s' := mk (clear p <$> files s) (opened s) (now s) in
  name s' p = None ∧ (∀ q, q ≠ p → name s' q = name s q) ∧ (∀ i, data s' i = data s i) ∧ ∀ h, stream s' h = stream s h.
Proof.
  intros s'. split_and!.
  - apply find_name_none. intros e (x & -> & _)%list_elem_of_fmap. apply clear_gone.
  - intros q Hq. apply find_name_ext; [cbn [files s']; by rewrite length_fmap|]. intros n e e'. cbn [files s']. rewrite list_lookup_fmap.
    intros He He'. rewrite He' in He. cbn in He. injection He as <-. exact (clear_name p e' q Hq).
  - intros i. destruct s as [l o n]. apply same_data. intros n'. cbn [files]. rewrite list_lookup_fmap. destruct (l !! n'); [|done].
    cbn. by rewrite clear_data.
  - destruct s as [l o n]. apply same_stream. cbn [files]. by rewrite length_fmap.
Qed.

Lemma rename_ok s p q i :
  name s p = Some i → p ≠ q →
  let s' := f_rename s p q in
  name s' q = Some i ∧ name s' p = None ∧ (∀ x, x ≠ p → x ≠ q → name s' x = name s x) ∧
  (∀ j, data s' j = data s j) ∧ ∀ h, stream s' h = stream s h.
Proof.
  intros Hn Hpq. cbn. rewrite Hn, bool_decide_false by done. apply name_Some in Hn as [Hi (e & He & Hp)].
  set (l := clear p <$> (clear q <$> files s)). set (n := Z.to_nat i) in *. set (l' := alter _ n l).
  assert (∀ k x, l' !! k = Some x → k ≠ n → ∃ y, files s !! k = Some y ∧ x = clear p (clear q y)) as Hother.
  { intros k x Hk Hne. unfold l', l in Hk. rewrite list_lookup_alter_ne, !list_lookup_fmap in Hk by done.
    destruct (files s !! k) as [y|]; [|done]. injection Hk as <-. by exists y. }
  assert (l' !! n = Some (Entry (Some q) (e_data e))) as Hnth.
  { unfold l', l. rewrite list_lookup_alter_eq, !list_lookup_fmap, He. cbn. by rewrite !clear_data. }
  assert (length l' = length (files s)) as Hlen by (unfold l', l; by rewrite length_alter, !length_fmap).
  split_and!.
  - unfold name. cbn [files]. pose proof (find_name_spec l' q 0) as Hf. destruct (find_name l' q 0) as [j|].
    + destruct Hf as (k & x & -> & Hk & Hx & _). destruct (decide (k = n)) as [->|Hne]; [f_equal; lia|].
      destruct (Hother k x Hk Hne) as (y & _ & ->). exfalso. apply clear_name in Hx; [|done]. by apply clear_gone in Hx.
    + apply list_elem_of_lookup_2 in Hnth. by apply Hf in Hnth.
  - apply find_name_none. cbn [files]. intros x Hx Hxp. apply list_elem_of_lookup in Hx as [k Hk].
    destruct (decide (k = n)) as [->|Hne]; [rewrite Hnth in Hk; injection Hk as <-; cbn in Hxp; congruence|].
    destruct (Hother k x Hk Hne) as (y & _ & ->). by apply clear_gone in Hxp.
  - intros x Hxp Hxq. apply find_name_ext; [done|]. cbn [files]. intros k a b Ha Hb. destruct (decide (k = n)) as [->|Hne].
    + rewrite Hnth in Ha. injection Ha as <-. rewrite He in Hb. injection Hb as <-. cbn. rewrite Hp. split; congruence.
    + destruct (Hother k a Ha Hne) as (y & Hy & ->). rewrite Hy in Hb. injection Hb as <-. by rewrite !clear_name.
  - destruct s as [fs o t0]. cbn [files opened now] in *. apply same_data. intros k. destruct (decide (k = n)) as [->|Hne].
    + by rewrite Hnth, He.
    + unfold l', l. rewrite list_lookup_alter_ne, !list_lookup_fmap by done. destruct (fs !! k); [|done]. cbn. by rewrite !clear_data.
  - destruct s as [fs o t0]. by apply same_stream.
Qed.

Lemma written_nothing s s' h i x :
  (∀ p, name s' p = name s p) → (∀ y, y ≠ h → stream s' y = stream s y) → (∀ j, j ≠ i → data s' j = data s j) →
  data s' i = data s i ++ x → written s s' h i x [].
Proof. intros. by constructor. Qed.

#[global] Instance sim_laws : FilesLaws t.
Proof.
  constructor.
  - intros s p s' r Ho. destruct (open_ok s p s' r Ho) as (h & i & -> & Hn & He & Hf & Hx). split; [done|]. by exists i.
  - intros s h. by constructor.
  - intros s h i Hh. destruct (close_ok s h i Hh) as [Hc Hx]. exists [], []. split; [done|]. split; [|done].
    assert (files (f_close s h) = files s) as Hfs by (cbn; by destruct (h <? 0)).
    apply written_nothing; [intros p; unfold name; by rewrite Hfs|done| |]; intros; unfold data; rewrite Hfs; [done|by rewrite app_nil_r].
  - intros s h i x Hh. destruct (print_ok s h i x Hh) as (Hd & Ho & Hn & Hst). exists x, [], []. split; [by rewrite app_nil_r|].
    exists x. split; [by rewrite app_nil_r|]. split; [by apply written_nothing|]. split; [|done]. etransitivity; [apply Hst|done].
  - intros s h i Hh. exists [], []. split; [done|]. split; [apply written_nothing; try done; by rewrite app_nil_r|]. by split.
  - intros s h i n Hh. cbn. change (stream s h = Some i) in Hh. rewrite Hh. by intros [= <-].
  - intros s p. cbn. destruct (name s p); [|by split; [|intros [? ?]]]. split; [by eexists|done].
  - intros s p. destruct (clear_same s p) as (H1 & H2 & H3 & H4). by split_and!.
  - intros s p q i Hn Hpq. destruct (rename_ok s p q i Hn Hpq) as (H1 & H2 & H3 & H4 & H5). by split_and!.
  - intros s p. by constructor.
  - intros s p s' d. cbn. destruct (enter s p) as [s1 i] eqn:Ee. intros [= <- <-].
    destruct (enter_entered _ _ _ _ Ee) as (He & Hs & _). split; [exact Hs|]. split; [done|]. by exists i.
  - intros s d s' r [= <- _]. by constructor.
  - intros s d. by constructor.
  - intros s d. by constructor.
  - intros s p q i H1 H2. apply name_Some in H1 as [_ (e1 & E1 & N1)]. apply name_Some in H2 as [_ (e2 & E2 & N2)].
    rewrite E1 in E2. injection E2 as <-. congruence.
  - intros s s' x [= <- _]. by constructor.
  - intros s s' x [= <- _]. by constructor.
Qed.
End FileSim.

(** A calendar of twelve months of 31 days. *)
#[export] Program Instance SimTime : LocalTime := {
  localtime t := Tm (70 + t / (372 * 86400)) ((t / (31 * 86400)) mod 12) (1 + (t / 86400) mod 31)
                    ((t / 3600) mod 24) ((t / 60) mod 60) (t mod 60);
}.
Next Obligation.
  intros t Ht. cbn [tm_year]. pose proof (Z.div_pos t (372 * 86400)).
  assert (t / (372 * 86400) < 137) by (apply Z.div_lt_upper_bound; lia). lia.
Qed.
Next Obligation. intros t _. cbn [tm_mon]. pose proof (Z.mod_pos_bound (t / (31 * 86400)) 12). lia. Qed.
Next Obligation. intros t _. cbn [tm_mday]. pose proof (Z.mod_pos_bound (t / 86400) 31). lia. Qed.
Next Obligation. intros t _. cbn [tm_hour]. pose proof (Z.mod_pos_bound (t / 3600) 24). lia. Qed.
