(* ===== verification/LogClientFacts.v ===== *)
(** What [CLog] does: when a line is wanted, and that the message it puts into
    the queue is the one the log server reads. *)
From Stdlib Require Import Ascii String.
From stdpp Require Import gmap.
From S2P Require Import Prelude Fifo HashList IniFile Mysql Conf LogFile LogFileFacts LogServe LogServeFacts.
From S2P Require Import LogLoop LogRun LogClient.
Import CHashListNoLock CLog.

#[local] Open Scope Z_scope.
#[local] Open Scope list_scope.
#[local] Arguments Z.add : simpl never.
#[local] Arguments Z.eqb : simpl never.
#[local] Arguments Z.ltb : simpl never.
#[local] Arguments Z.leb : simpl never.

(** * Levels *)

(** A configuration, if there is one, lets lines of this level through. *)
Definition allowed (o : option LogOutputConf) (iPriority : Z) : Prop :=
  match o with Some conf => iPriority ≤ iOutputLogLevel conf | None => False end.
#[export] Instance allowed_dec o p : Decision (allowed o p).
Proof. unfold allowed. destruct o; apply _. Defined.

Lemma SpecLevel_hrep {KEY} `{Countable KEY} `{!HashKey KEY} (tab : table KEY LogOutputConf) (m : gmap KEY LogOutputConf) key p :
  hrep tab m → SpecLevel tab key p = Ok (bool_decide (allowed (m !! key) p)).
Proof.
  intros Hr. unfold SpecLevel. rewrite (Get_hrep tab m key _ Hr). pose proof Hr as (_ & _ & _ & _ & _ & Hused).
  unfold GetUsedDataNum. rewrite Hused. destruct (m !! key) as [conf|] eqn:Em; cbn [mbind outcome_bind].
  - assert (size m ≠ 0%nat) as Hs. { intros ->%map_size_empty_iff. by rewrite lookup_empty in Em. }
    rewrite (proj2 (Z.ltb_lt _ _)) by lia. rewrite Z.eqb_refl. cbn [andb]. f_equal.
    rewrite (bool_decide_ext _ (p ≤ iOutputLogLevel conf)) by done. case_bool_decide; [by apply Z.leb_le|by apply Z.leb_gt; lia].
  - by destruct (1 <? 1 + Z.of_nat (size m)).
Qed.

Section level.
Context {Q : Type}.
Implicit Types (c : CLog.t Q).

(** When a line is wanted. *)
Definition wanted c (mm : gmap CModuleName.t LogOutputConf) (mi mu : gmap Z LogOutputConf)
    (iLogID ullUserID iPriority : Z) : Prop :=
  m_iInitFlag c = 1 ∧ 1 ≤ iPriority ≤ 5 ∧
  (m_iLocalLogFlag c = 1 ∧ iPriority ≤ m_iLocalLogLevel c ∨ iPriority ≤ iOutputLogLevel (global c) ∨
   allowed (mm !! m_objModuleName c) iPriority ∨ allowed (mi !! u32 iLogID) iPriority ∨
   allowed (mu !! ullUserID) iPriority).
#[export] Instance wanted_dec c mm mi mu id user p : Decision (wanted c mm mi mu id user p).
Proof. unfold wanted. apply _. Defined.

(** The tables of the configuration. *)
Record conf_rep c (mm : gmap CModuleName.t LogOutputConf) (mi mu : gmap Z LogOutputConf) : Prop := {
  cr_module : hrep (m_objModuleConf (m_objLogConf c)) mm;
  cr_logid : hrep (m_objLogIDConf (m_objLogConf c)) mi;
  cr_user : hrep (m_objUserIDConf (m_objLogConf c)) mu;
}.

Lemma IsShouldWrite_wanted c mm mi mu id user p :
  conf_rep c mm mi mu → IsShouldWrite c id user p = Ok (bool_decide (wanted c mm mi mu id user p)).
Proof.
  intros [Hm Hi Hu]. unfold IsShouldWrite. change LOG_INFO with 1. change LOG_TRACE with 5.
  assert (∀ b : bool, (b = true ↔ wanted c mm mi mu id user p) → Ok b = Ok (bool_decide (wanted c mm mi mu id user p))) as Hb.
  { intros b Hb. f_equal. case_bool_decide; destruct b; tauto || (try done; exfalso; tauto) || naive_solver. }
  destruct (Z.eqb_spec (m_iInitFlag c) 1) as [Hf|Hf]; cbn [negb]; [|apply Hb; unfold wanted; naive_solver].
  destruct (Z.ltb_spec p 1), (Z.ltb_spec 5 p); cbn [orb]; try (apply Hb; unfold wanted; split; [done|lia]).
  destruct ((m_iLocalLogFlag c =? 1) && (p <=? m_iLocalLogLevel c)) eqn:El.
  { apply andb_true_iff in El as [?%Z.eqb_eq ?%Z.leb_le]. apply Hb. unfold wanted. naive_solver. }
  apply andb_false_iff in El. rewrite Z.eqb_neq, Z.leb_gt in El.
  destruct (Z.ltb_spec (iOutputLogLevel (global c)) p); [|apply Hb; unfold wanted; naive_solver lia].
  rewrite (SpecLevel_hrep _ mm _ _ Hm). cbn [mbind outcome_bind].
  rewrite (SpecLevel_hrep _ mi _ _ Hi). cbn [mbind outcome_bind].
  rewrite (SpecLevel_hrep _ mu _ _ Hu). cbn [mbind outcome_bind]. apply Hb.
  rewrite !orb_true_iff, !bool_decide_eq_true. unfold wanted. split; [naive_solver lia|].
  intros (_ & _ & [[? ?]|[?|[?|[?|?]]]]); [lia|lia|auto..].
Qed.
End level.

(** * Messages *)
Lemma uint_part a b c o n : zlen a = o → zlen b = n → LogHeader.uint_at (a ++ b ++ c) o n = Ok (le_dec b).
Proof.
  intros <- <-. unfold LogHeader.uint_at. rewrite app_assoc, mread_ok; [|pose proof (zlen_nonneg a); pose proof (zlen_nonneg b);
    pose proof (zlen_nonneg c); rewrite ?zlen_app; lia..].
  rewrite <- app_assoc. unfold zlen. rewrite !Nat2Z.id. by rewrite drop_app_length, take_app_length.
Qed.

(** The members of a message, at their places. *)
Lemma of_buff_parts (a1 a2 a3 a4 a5 n p a7 r : list Z) name content r1 r2 :
  zlen a1 = 4 → zlen a2 = 4 → zlen a3 = 4 → zlen a4 = 4 → zlen a5 = 4 → zlen n = 17 → zlen p = 3 → zlen a7 = 8 →
  n = name ++ 0 :: r1 → 0 ∉ name → r = content ++ 0 :: r2 → 0 ∉ content →
  LogHeader.of_buff (a1 ++ a2 ++ a3 ++ a4 ++ a5 ++ n ++ p ++ a7 ++ r) =
    Ok (LogHeader.mk (le_dec a1) (le_dec a2) (i32 (le_dec a3)) (i32 (le_dec a4)) (i32 (le_dec a5)) name (le_dec a7) content).
Proof.
  intros Z1 Z2 Z3 Z4 Z5 Zn Zp Z7 Hn Hname Hr Hcont. set (d := a1 ++ _). unfold LogHeader.of_buff.
  assert (LogHeader.uint_at d 0 4 = Ok (le_dec a1)) as -> by (apply (uint_part []); done). cbn [mbind outcome_bind].
  assert (LogHeader.uint_at d 4 4 = Ok (le_dec a2)) as -> by (by apply (uint_part a1)). cbn [mbind outcome_bind].
  assert (LogHeader.uint_at d 8 4 = Ok (le_dec a3)) as ->.
  { unfold d. rewrite (app_assoc a1). apply uint_part; rewrite ?zlen_app; lia. }
  cbn [mbind outcome_bind]. assert (LogHeader.uint_at d 12 4 = Ok (le_dec a4)) as ->.
  { unfold d. rewrite (app_assoc a1), (app_assoc _ a3). apply uint_part; rewrite ?zlen_app; lia. }
  cbn [mbind outcome_bind]. assert (LogHeader.uint_at d 16 4 = Ok (le_dec a5)) as ->.
  { unfold d. rewrite (app_assoc a1), (app_assoc _ a3), (app_assoc _ a4). apply uint_part; rewrite ?zlen_app; lia. }
  cbn [mbind outcome_bind]. assert (∃ h1, d = h1 ++ n ++ p ++ a7 ++ r ∧ zlen h1 = 20) as (h1 & Hd & Hh1).
  { exists (a1 ++ a2 ++ a3 ++ a4 ++ a5). split; [unfold d; by rewrite <- !app_assoc|rewrite !zlen_app; lia]. }
  assert (LogHeader.str_at d 20 = Ok name) as ->.
  { unfold LogHeader.str_at. rewrite Hd, drop_app_length' by (unfold zlen in Hh1; lia). rewrite Hn, <- app_assoc. cbn [app].
    rewrite bool_decide_eq_true_2; [by rewrite cstr_app_nul|]. apply elem_of_app. right. by left. }
  cbn [mbind outcome_bind]. assert (LogHeader.uint_at d 40 8 = Ok (le_dec a7)) as ->.
  { rewrite Hd, (app_assoc h1), (app_assoc _ p). apply uint_part; rewrite ?zlen_app; lia. }
  cbn [mbind outcome_bind]. assert (LogHeader.str_at d 48 = Ok content) as ->; [|done].
  unfold LogHeader.str_at. rewrite Hd, (app_assoc h1), (app_assoc _ p), (app_assoc _ a7).
  assert (zlen (((h1 ++ n) ++ p) ++ a7) = 48) as Hz by (rewrite !zlen_app; lia).
  rewrite drop_app_length' by (clear -Hz; unfold zlen in Hz; lia).
  rewrite Hr, bool_decide_eq_true_2; [by rewrite cstr_app_nul|]. apply elem_of_app. right. by left.
Qed.

Lemma le_dec_enc_mod n x : le_dec (le_enc n x) = x mod 2 ^ (8 * Z.of_nat n).
Proof.
  revert x. induction n as [|n IH]; intros x; cbn [le_enc le_dec]; [by rewrite Z.mod_1_r|]. rewrite IH.
  replace (8 * Z.of_nat (S n)) with (8 + 8 * Z.of_nat n) by lia. rewrite Z.pow_add_r by lia.
  symmetry. rewrite Z.rem_mul_r by lia. done.
Qed.

Lemma i32_le_dec x : - 2 ^ 31 ≤ x < 2 ^ 31 → i32 (le_dec (le_enc 4 x)) = x.
Proof.
  intros Hx. rewrite le_dec_enc_mod. change (2 ^ (8 * Z.of_nat 4)) with (2 ^ 32). unfold i32.
  rewrite Z.add_mod_idemp_l, Z.mod_small by lia. lia.
Qed.

Section client.
Context {F Q : Type} {OF : Files F} {VF : FileViews F} {LF : FilesLaws F} {TL : LocalTime}.
Context {OQ : FifoOps Q} {LQ : FifoQueue Q}.
Implicit Types (c : CLog.t Q) (f : F).

(** A client that has been opened, and what the operating system gives it. *)
Record client_ok c : Prop := {
  cl_buff : zlen (m_szLogBuff c) = LOG_BUFF_SIZE;
  cl_name : 0 < zlen (m_objModuleName c) ≤ 16;
  cl_cstr : 0 ∉ m_objModuleName c;
  cl_bytes : Forall byte_ok (m_objModuleName c);
}.
Record call_ok (sec usec pid id user : Z) : Prop := {
  ca_sec : 0 < sec < 2 ^ 32;
  ca_usec : 0 ≤ usec < 2 ^ 32;
  ca_pid : 0 < pid < 2 ^ 31;
  ca_id : - 2 ^ 31 ≤ id < 2 ^ 31;
  ca_user : 0 ≤ user < 2 ^ 64;
}.
(** A text of C. *)
Record text_of (text : list Z) : Prop := {
  tx_cstr : 0 ∉ text;
  tx_bytes : Forall byte_ok text;
}.

Definition message c (sec usec prio id pid user : Z) (text : list Z) : list Z :=
  head_bytes sec usec prio id pid (m_objModuleName c) user ++ text.

Lemma zlen_head_bytes c sec usec prio id pid user :
  client_ok c → zlen (head_bytes sec usec prio id pid (m_objModuleName c) user) = 48.
Proof.
  intros [_ Hn _ _]. unfold head_bytes. rewrite !zlen_app, !zlen_le_enc, !zlen_replicate. unfold zlen in *. lia.
Qed.

Lemma message_header c sec usec prio id pid user text :
  client_ok c → call_ok sec usec pid id user → text_of text → 1 ≤ prio ≤ 5 →
  header_of (message c sec usec prio id pid user text) =
    Some (LogHeader.mk sec usec prio id pid (m_objModuleName c) user text).
Proof.
  intros Hc [Hs Hu Hp Hi Hus] [Ht _] Hprio. pose proof (zlen_head_bytes c sec usec prio id pid user Hc) as Hz.
  unfold header_of, message. rewrite zlen_app, Hz. change LogHeader.size with 48. pose proof (zlen_nonneg text).
  rewrite (proj2 (Z.ltb_ge _ _)) by lia. unfold head_bytes. rewrite <- !app_assoc. destruct Hc as [_ Hn H0 _].
  assert (replicate (17 - length (m_objModuleName c)) 0 = 0 :: replicate (16 - length (m_objModuleName c)) 0) as Hr.
  { replace (17 - length (m_objModuleName c))%nat with (S (16 - length (m_objModuleName c))) by (unfold zlen in Hn; lia). done. }
  pose proof (of_buff_parts (le_enc 4 sec) (le_enc 4 usec) (le_enc 4 prio) (le_enc 4 id) (le_enc 4 pid)
    (m_objModuleName c ++ replicate (17 - length (m_objModuleName c)) 0) (replicate 3 0) (le_enc 8 user) (text ++ [0])
    (m_objModuleName c) text (replicate (16 - length (m_objModuleName c)) 0) []) as Hb.
  rewrite <- !app_assoc in Hb. rewrite Hb; try (by rewrite zlen_le_enc); try done.
  - rewrite !i32_le_dec, !le_dec_enc by (cbn; lia). unfold CLogSvrProc.valid_header. cbn.
    rewrite !(proj2 (Z.eqb_neq _ _)) by lia. rewrite (proj2 (Z.ltb_lt _ _)), (proj2 (Z.leb_le _ _)) by lia.
    rewrite bool_decide_false; [done|]. intros He. apply (f_equal (@zlen Z)) in He. rewrite zlen_nil in He. lia.
  - rewrite zlen_app, zlen_replicate. unfold zlen in *. lia.
  - by rewrite Hr.
Qed.

Lemma message_ok c sec usec prio id pid user text :
  client_ok c → call_ok sec usec pid id user → text_of text → 1 ≤ prio ≤ 5 → zlen text < LOG_LENGTH_MAX →
  msg_ok (message c sec usec prio id pid user text).
Proof.
  intros Hc Hca Ht Hp Hz. pose proof (zlen_head_bytes c sec usec prio id pid user Hc) as Hz'. constructor.
  - unfold message, head_bytes. destruct Hc as [_ _ _ Hb]. destruct Ht as [_ Htb].
    rewrite !Forall_app. split_and!; first [apply le_enc_bytes|done|apply Forall_replicate; unfold byte_ok; lia].
  - unfold message. rewrite zlen_app, Hz'. change LOG_BUFF_SIZE with 12337. change LOG_LENGTH_MAX with 12288 in Hz. lia.
  - intros hd. rewrite message_header by done. intros [= <-]. unfold name_ok16. cbn. apply Hc.
Qed.

(** Up to the queue: the message and the rest of the buffer. *)
Lemma LogInternal_enters c f f1 mm mi mu sec usec pid id user prio text :
  client_ok c → conf_rep c mm mi mu → wanted c mm mi mu id user prio → m_iLocalLogFlag c ≠ 1 →
  f_timeofday f = (f1, (sec, usec)) →
  ∃ rest, let buf := message c sec usec prio id pid user (cut_at LOG_LENGTH_MAX text) ++ 0 :: rest in
    zlen buf = LOG_BUFF_SIZE ∧
    CLog.LogInternal c f pid id user prio text =
      (d ← mread buf 0 (zlen text + LogHeader.size);
       '(q, iRetVal) ← q_in (m_objLogQueue c) d (zlen text + LogHeader.size);
       let c := set_queue (set_buff c buf) q in
       if iRetVal =? Q_OK then Ok (f1, c)
       else Ok (WriteLocal c f1 sec usec pid id user prio (cut_at LOG_LENGTH_MAX text))).
Proof.
  intros Hc Hconf Hw Hloc Hf. unfold CLog.LogInternal.
  rewrite (proj2 (Z.eqb_eq _ _)) by apply Hw. cbn [negb]. rewrite (IsShouldWrite_wanted c mm mi mu) by done.
  rewrite bool_decide_true by done. cbn [mbind outcome_bind negb]. rewrite Hf. unfold message.
  set (hb := head_bytes _ _ _ _ _ _ _). assert (zlen hb = 48) as Hh by by apply zlen_head_bytes.
  pose proof (cl_buff _ Hc) as Hb. change LOG_BUFF_SIZE with 12337 in *. set (ct := cut_at LOG_LENGTH_MAX text).
  assert (zlen ct ≤ 12287) as Hct.
  { unfold ct, cut_at. change (LOG_LENGTH_MAX - 1) with 12287. rewrite zlen_take by done. lia. }
  destruct (split_at (m_szLogBuff c) 48) as (b1 & b2 & Hb12 & Hb1 & Hb2); [lia|].
  rewrite (mwrite_head hb), Hb12, drop_app_length' by (unfold zlen in *; lia). cbn [mbind outcome_bind].
  destruct (split_at b2 (zlen ct + 1)) as (b3 & b4 & -> & Hb3 & Hb4); [pose proof (zlen_nonneg ct); lia|].
  rewrite mwrite_ok; [|done|change LogHeader.size with 48; rewrite !zlen_app in *; change (zlen [0]) with 1; lia].
  change LogHeader.size with 48. rewrite take_app_length' by (unfold zlen in Hh; lia).
  assert (drop (Z.to_nat 48 + length (ct ++ [0])) (hb ++ b3 ++ b4) = b4) as Hdrop.
  { rewrite app_assoc. apply drop_app_length'. rewrite !length_app. change (length [0]) with 1%nat. unfold zlen in *. lia. }
  rewrite Hdrop. cbn [mbind outcome_bind]. exists b4. cbv zeta.
  replace (hb ++ (ct ++ [0]) ++ b4) with ((hb ++ ct) ++ 0 :: b4) by by rewrite <- !app_assoc.
  split; [|by rewrite (proj2 (Z.eqb_neq _ _)) by done].
  rewrite !zlen_app, zlen_cons in *. lia.
Qed.

(** A wanted line goes into the queue, if it has room for it. *)
Lemma LogInternal_queues c f f1 mm mi mu ms sec usec pid id user prio text :
  let d := message c sec usec prio id pid user text in
  client_ok c → zlen text < LOG_LENGTH_MAX →
  conf_rep c mm mi mu → wanted c mm mi mu id user prio → m_iLocalLogFlag c ≠ 1 →
  f_timeofday f = (f1, (sec, usec)) →
  q_rep (m_objLogQueue c) ms → zlen d ≤ q_max → q_fits (q_cap (m_objLogQueue c)) ms d = true →
  ∃ c', CLog.LogInternal c f pid id user prio text = Ok (f1, c') ∧ q_rep (m_objLogQueue c') (ms ++ [d]).
Proof.
  intros d Hc Hz Hconf Hw Hloc Hf Hq Hmax Hfit.
  destruct (LogInternal_enters c f f1 mm mi mu sec usec pid id user prio text) as (rest & _ & ->); [done..|].
  rewrite cut_at_fits by done. fold d. assert (zlen d = zlen text + LogHeader.size) as Hd.
  { unfold d, message. rewrite zlen_app, zlen_head_bytes by done. change LogHeader.size with 48. lia. }
  rewrite <- Hd, mread_head. cbn [mbind outcome_bind]. pose proof (zlen_nonneg text).
  destruct (q_in_fits (m_objLogQueue c) ms d Hq) as (q' & -> & Hq' & _); [change LogHeader.size with 48 in Hd; lia|done|].
  cbn [mbind outcome_bind]. rewrite Z.eqb_refl. eexists. by split.
Qed.

(** The function of C++ with a longer text: more is put into the queue than the buffer has. *)
Lemma LogInternal_overruns c f f1 mm mi mu sec usec pid id user prio text :
  client_ok c → LOG_LENGTH_MAX + 1 < zlen text →
  conf_rep c mm mi mu → wanted c mm mi mu id user prio → m_iLocalLogFlag c ≠ 1 →
  f_timeofday f = (f1, (sec, usec)) → CLog.LogInternal c f pid id user prio text = Fault.
Proof.
  intros Hc Hz Hconf Hw Hloc Hf.
  destruct (LogInternal_enters c f f1 mm mi mu sec usec pid id user prio text) as (rest & Hb & ->); [done..|].
  rewrite mread_fault; [done|]. right. right. rewrite Hb. change LOG_BUFF_SIZE with 12337. change LogHeader.size with 48.
  change LOG_LENGTH_MAX with 12288 in Hz. lia.
Qed.
End client.

(** * A line on its way to the server *)
Section arrives.
Context {F Q : Type} {OF : Files F} {VF : FileViews F} {LF : FilesLaws F} {WF : FilesWork F} {TL : LocalTime}.
Context {OQ : FifoOps Q} {LQ : FifoQueue Q}.
Implicit Types (s : CLogSvrProc.t Q) (f : F) (hd : LogHeader.t).
Import CLogSvrProc.

Lemma line_arrives g s f f1 m ds c mm mi mu sec usec pid id user prio text buf :
  let d := message c sec usec prio id pid user text in
  let hd := LogHeader.mk sec usec prio id pid (CLog.m_objModuleName c) user text in
  let p := log_of g hd in
  conf_ok g → serving g s f m ds → zlen buf = LOG_BUFF_SIZE →
  client_ok c → call_ok sec usec pid id user → text_of text → zlen text < LOG_LENGTH_MAX →
  conf_rep c mm mi mu → wanted c mm mi mu id user prio → CLog.m_iLocalLogFlag c ≠ 1 →
  CLog.m_objLogQueue c = m_objLogQueue s → zlen d ≤ q_max → q_fits (q_cap (m_objLogQueue s)) ds d = true →
  Z.of_nat (size (dom m ∪ modules (ds ++ [d]))) < iTotalDataNodeNum (m_objModuleLogFilePHash s) →
  f_timeofday f = (f1, (sec, usec)) →
  ∃ c' f' s' m' buf', LogClient.LogInternal c f pid id user prio text = Ok (f1, c') ∧
    Run (S (length ds)) (set_queue s (CLog.m_objLogQueue c')) f1 buf = Ok (f', s', buf') ∧
    serving g s' f' m' [] ∧ log_kept g f1 f' p (lines_for g ds p ++ LineText hd).
Proof.
  intros d hd p Hg Hs Hb Hc Hca Ht Hz Hconf Hw Hloc Hq Hmax Hfit Hroom Hf.
  pose proof (sv_queue _ _ _ _ _ Hs) as Hrep. rewrite <- Hq in Hrep, Hfit.
  unfold LogClient.LogInternal. rewrite cut_at_fits by done.
  destruct (LogInternal_queues c f f1 mm mi mu ds sec usec pid id user prio text) as (c' & -> & Hrep'); [done..|].
  fold d in Hrep'. assert (1 ≤ prio ≤ 5) as Hp by apply Hw.
  assert (header_of d = Some hd) as Hd by by apply message_header.
  assert (serving g (set_queue s (CLog.m_objLogQueue c')) f1 m (ds ++ [d])) as Hs1.
  { destruct Hs as [H1 H2 H3 H4 H5 H6 H7 H8]. constructor; try done.
    - eapply logs_ok_same; [by eapply timeofday_law|done].
    - apply Forall_app. split; [done|]. constructor; [|constructor]. by apply message_ok. }
  destruct (log_Run_ok g Hg (S (length ds)) _ f1 m (ds ++ [d]) buf Hs1 Hb) as (f' & s' & m' & buf' & Hrun & Hs' & Hk).
  exists c', f', s', m', buf'. split; [done|]. split; [done|]. rewrite drop_ge in Hs' by (rewrite length_app; cbn; lia).
  split; [done|]. rewrite take_ge in Hk by (rewrite length_app; cbn; lia).
  assert (log_msg hd) as Hmsg by (eapply header_of_log; [|exact Hd]; by apply message_ok).
  destruct (HourOf_value hd (lm_sec _ Hmsg)) as [_ Hh].
  specialize (Hk (module_of hd) (LogHeader.iLogLevel hd) (HourOf hd) (module_of_ok hd) (lm_level _ Hmsg)).
  fold (log_of g hd) in Hk. fold p in Hk. unfold lines_for in Hk |- *. rewrite omap_app, fmap_app, concat_app in Hk.
  cbn [omap list_omap] in Hk. rewrite Hd in Hk. cbn [fmap list_fmap concat] in Hk.
  rewrite decide_True, app_nil_r in Hk by done. apply Hk. lia.
Qed.
End arrives.
