(* ===== verification/LogInitFacts.v ===== *)
(** What [CLogSvrProc::Init] and [CLog::Open] leave behind: a server that serves,
    and a client with the server's configuration and queue. *)
From Stdlib Require Import Ascii String.
From stdpp Require Import gmap.
From S2P Require Import Prelude Fifo ShmQueue HashList IniFile Mysql Conf LogFile LogFileFacts.
From S2P Require Import LogServe LogServeFacts LogLoop LogRun LogClient LogClientFacts LogInit.
Import CHashListNoLock LogShm.

#[local] Open Scope Z_scope.
#[local] Open Scope list_scope.
#[local] Arguments Z.add : simpl never.
#[local] Arguments Z.eqb : simpl never.
#[local] Arguments Z.ltb : simpl never.
#[local] Arguments Z.leb : simpl never.
#[local] Arguments Z.mul : simpl never.

(** * Reading the file *)

(** A text file that does not begin with the name of one of the server's sections. *)
Record ini_text (d : list Z) : Prop := {
  it_text : text_ok d;
  it_some : 0 < zlen d;
  it_main : starts CLogSvrInit.SECTION d = false;
  it_spec : starts (bytes "SPEC_") d = false;
}.

Section read.
Context (d : list Z) (Hd : ini_text d).
Abbreviation ini := (CIniFile.New (Some d)).

Lemma main_sec : sec_ok d CLogSvrInit.SECTION.
Proof. split; [by vm_compute|]. split; [by apply (bool_decide_unpack _); vm_compute|apply Hd]. Qed.

(** The sections of single modules, log numbers and users. *)
Lemma spec_sec (kind : list Z) i :
  1 ≤ i → LBR ∉ kind → zlen kind < 20 → sec_ok d (cut_at 256 (bytes "SPEC_" ++ kind ++ fmt_d i)).
Proof.
  intros Hi Hk Hz. assert (fmt_d i = fmt_lu i) as -> by (unfold fmt_d; by rewrite (proj2 (Z.ltb_ge _ _)) by lia).
  pose proof (SimDb.digits_range 20 i ltac:(lia)) as Hdig.
  change (digits_of 20 i) with (fmt_lu i) in Hdig. pose proof (length_digits_of 20 i) as Hlen.
  change (digits_of 20 i) with (fmt_lu i) in Hlen.
  assert (zlen (bytes "SPEC_") = 5) as H5 by by vm_compute.
  rewrite cut_at_fits by (rewrite !zlen_app, H5; unfold zlen in *; lia). split; [|split].
  - rewrite zlen_app, H5. pose proof (zlen_nonneg (kind ++ fmt_lu i)). lia.
  - rewrite !elem_of_app. intros [Hin|[Hin|Hin]]; [|done|].
    + revert Hin. by apply (bool_decide_unpack _); vm_compute.
    + rewrite Forall_forall in Hdig. apply Hdig in Hin. unfold LBR in Hin. lia.
  - destruct (starts _ d) eqn:E; [|done]. apply starts_app in E. by rewrite (it_spec _ Hd) in E.
Qed.
End read.



(** * Tables *)
Section tables.
Context {KEY A : Type} `{Countable KEY} `{!HashKey KEY}.
Implicit Types (tab : table KEY A) (m : gmap KEY A).

(** A table of [n] nodes with as many indexes. *)
Definition sized tab n m : Prop := hrep tab m ∧ iTotalDataNodeNum tab = n ∧ iIndexNodeNum tab = n.

Lemma InitTable_sizes key data tab n :
  2 ≤ n → ∃ tab', InitTable key data tab (TableSize key data n) n = (tab', 0) ∧
    iTotalDataNodeNum tab' = n ∧ iIndexNodeNum tab' = n ∧ m_pstIndex tab' = m_pstIndex tab.
Proof.
  intros Hn. unfold InitTable, TableSize, Init, CalcSize. rewrite (proj2 (Z.ltb_ge _ _)) by lia.
  rewrite (proj2 (Z.ltb_ge n 1)), (proj2 (Z.ltb_ge n 2)) by lia. by eexists.
Qed.

(** A table found in memory, of the right size. *)
Lemma InitTable_found key data tab n m :
  2 ≤ n → sized tab n m → ∃ tab', InitTable key data tab (TableSize key data n) n = (tab', 0) ∧ sized tab' n m.
Proof.
  intros Hn (Hr & Ht & Hi). unfold InitTable, TableSize.
  destruct (Init_hrep HEAD_SIZE INDEX_NODE_SIZE (NODE_SIZE key data) tab m
    (CalcSize HEAD_SIZE INDEX_NODE_SIZE (NODE_SIZE key data) n n) n Hr Ht Hi Hn) as (tab' & -> & Hr' & Ht' & Hi'); [lia|].
  by exists tab'.
Qed.

Lemma Clear_sized (zero : A) tab n :
  2 ≤ n → iTotalDataNodeNum tab = n → iIndexNodeNum tab = n → ∃ tab', Clear zero tab = Ok tab' ∧ sized tab' n ∅.
Proof.
  intros Hn Ht Hi. destruct (Clear_fresh zero tab) as (tab' & -> & Hr & [Ht' Hi'] & _); [lia..|].
  exists tab'. split; [done|]. split; [done|]. split; congruence.
Qed.

Lemma Verify_sized tab n m : sized tab n m → Verify tab = Ok 0.
Proof. intros [(cs & es & fr & Hi & _) _]. by apply (Verify_hinv tab cs es fr). Qed.

(** Whatever comes of it, an insertion leaves such a table. *)
Lemma Insert_sized tab n m k v :
  sized tab n m → ∃ tab' r m', Insert tab k v = Ok (tab', r) ∧ sized tab' n m'.
Proof.
  intros (Hr & Ht & Hi). pose proof (Insert_hrep tab m k v Hr) as HI. destruct (m !! k).
  { exists tab, E_HASH_LIST_NODE_EXIST, m. by split. }
  destruct (_ =? _); [by exists tab, E_HASH_LIST_NO_SPACE, m|].
  destruct HI as (tab' & HI & Hr' & _). exists tab', SUCCESS, (<[k := v]> m). split; [done|].
  apply Insert_size in HI as [Ht' Hi']. split; [done|]. split; congruence.
Qed.

Lemma sized_used tab n : sized tab n ∅ → GetUsedDataNum tab ≤ 1.
Proof. intros ((? & ? & ? & _ & _ & Hu) & _). unfold GetUsedDataNum. rewrite Hu, map_size_empty. lia. Qed.
End tables.

Lemma InitFiles_ok {KEY} `{Countable KEY} `{!HashKey KEY} key (tab : table KEY LogFilePInfo) n :
  2 ≤ n → ∃ tab', CLogSvrInit.InitFiles key true tab n = Ok (tab', 0) ∧ sized tab' n ∅.
Proof.
  intros Hn. unfold CLogSvrInit.InitFiles. cbn [negb].
  destruct (InitTable_sizes key FILES_SIZE tab n Hn) as (tab1 & -> & Ht & Hi & _). cbn [negb].
  change (negb (0 =? 0)) with false. cbv iota.
  destruct (Clear_sized info0 tab1 n Hn Ht Hi) as (tab2 & -> & Hs). by exists tab2.
Qed.

(** The tables of a configuration, as they are in shared memory. *)
Record conf_sized (c : CLogAllConf) (mm : gmap CModuleName.t LogOutputConf) (mi mu : gmap Z LogOutputConf) : Prop := {
  cs_module : sized (m_objModuleConf c) LOG_MAX_SPEC_MODULE_NUM mm;
  cs_logid : sized (m_objLogIDConf c) LOG_MAX_SPEC_LOGID_NUM mi;
  cs_user : sized (m_objUserIDConf c) LOG_MAX_SPEC_USERID_NUM mu;
}.

(** The three tables have the room they need. *)
Lemma conf_fits : (LOG_CONF_SHM_SIZE <? all_conf_size) = false.
Proof. by vm_compute. Qed.

Definition tables_of_size (c : CLogAllConf) : Prop :=
  (iTotalDataNodeNum (m_objModuleConf c) = 100 ∧ iIndexNodeNum (m_objModuleConf c) = 100) ∧
  (iTotalDataNodeNum (m_objLogIDConf c) = 100 ∧ iIndexNodeNum (m_objLogIDConf c) = 100) ∧
  (iTotalDataNodeNum (m_objUserIDConf c) = 100 ∧ iIndexNodeNum (m_objUserIDConf c) = 100).

Lemma ClearTables_ok c :
  tables_of_size c → ∃ c', ClearTables c = Ok c' ∧ m_pstGlobalConf c' = m_pstGlobalConf c ∧ conf_sized c' ∅ ∅ ∅.
Proof.
  intros ([Tm Im] & [Ti Ii] & [Tu Iu]). unfold ClearTables.
  destruct (Clear_sized zero_conf (m_objModuleConf c) 100 ltac:(lia) Tm Im) as (m & -> & Hm). cbn [mbind outcome_bind].
  destruct (Clear_sized zero_conf (m_objLogIDConf c) 100 ltac:(lia) Ti Ii) as (i & -> & Hi). cbn [mbind outcome_bind].
  destruct (Clear_sized zero_conf (m_objUserIDConf c) 100 ltac:(lia) Tu Iu) as (u & -> & Hu). cbn [mbind outcome_bind].
  eexists. split; [done|]. by split.
Qed.

Lemma VerifyTables_ok c mm mi mu : conf_sized c mm mi mu → VerifyTables c = Ok (0, 0, 0).
Proof.
  intros [Hm Hi Hu]. unfold VerifyTables.
  rewrite (Verify_sized _ _ _ Hm), (Verify_sized _ _ _ Hi), (Verify_sized _ _ _ Hu). done.
Qed.

(** * The sections of single modules, log numbers and users *)
Lemma for_range_none {S} lo hi (f : Z → S → outcome S) s : hi ≤ lo → for_range lo hi f s = Ok s.
Proof. intros Hh. unfold for_range. by replace (Z.to_nat (hi - lo)) with 0%nat by lia. Qed.

(** The number a section has for an item, 0 where it has none. *)
Definition number_of (ini : CIniFile.t) (item : list Z) : Z :=
  match CIniFile.GetInt ini CLogSvrInit.SECTION item 0 0 with Ok (n, _) => n | _ => 0 end.

Section specs.
Context (d : list Z) (Hd : ini_text d).
Abbreviation ini := (CIniFile.New (Some d)).

Lemma read_number item : item_ok item → ∃ r, CIniFile.GetInt ini CLogSvrInit.SECTION item 0 0 = Ok (number_of ini item, r).
Proof.
  intros Hi. destruct (read_int d (it_text _ Hd) (it_some _ Hd) CLogSvrInit.SECTION item 0 0 (main_sec d Hd) Hi) as (n & r & Hg).
  exists r. unfold number_of. by rewrite Hg.
Qed.

Lemma SpecModule_ok i tab m :
  1 ≤ i → sized tab 100 m → ∃ tab' m', CLogSvrInit.SpecModule ini i tab = Ok tab' ∧ sized tab' 100 m'.
Proof.
  intros Hi Hs. unfold CLogSvrInit.SpecModule. pose proof (spec_sec d Hd (bytes "MODULE_") i Hi) as Hsec.
  change (bytes "SPEC_" ++ bytes "MODULE_" ++ fmt_d i) with (bytes "SPEC_MODULE_" ++ fmt_d i) in Hsec.
  specialize (Hsec ltac:(by apply (bool_decide_unpack _); vm_compute) ltac:(by vm_compute)).
  destruct (read_string d (it_text _ Hd) (it_some _ Hd) _ (bytes "ModuleName") [] 32 Hsec) as (name & r & ->); [item|done|]. cbn [mbind outcome_bind].
  case_bool_decide; [by exists tab, m|].
  destruct (read_int d (it_text _ Hd) (it_some _ Hd) _ (bytes "LogLevel") 0 0 Hsec) as (level & r' & ->); [item|]. cbn [mbind outcome_bind].
  set (conf := Conf _ _ _ _ _ _ _).
  destruct (Insert_sized tab 100 m (CModuleName.of_str name) conf Hs) as (tab' & r2 & m' & -> & Hs'). by exists tab', m'.
Qed.

Lemma SpecLogID_ok i tab m :
  1 ≤ i → sized tab 100 m → ∃ tab' m', CLogSvrInit.SpecLogID ini i tab = Ok tab' ∧ sized tab' 100 m'.
Proof.
  intros Hi Hs. unfold CLogSvrInit.SpecLogID. pose proof (spec_sec d Hd (bytes "LOGID_") i Hi) as Hsec.
  change (bytes "SPEC_" ++ bytes "LOGID_" ++ fmt_d i) with (bytes "SPEC_LOGID_" ++ fmt_d i) in Hsec.
  specialize (Hsec ltac:(by apply (bool_decide_unpack _); vm_compute) ltac:(by vm_compute)).
  destruct (read_int d (it_text _ Hd) (it_some _ Hd) _ (bytes "LogID") 0 0 Hsec) as (id & r & ->); [item|]. cbn [mbind outcome_bind].
  destruct (id =? 0); [by exists tab, m|].
  destruct (read_int d (it_text _ Hd) (it_some _ Hd) _ (bytes "LogLevel") 0 0 Hsec) as (level & r' & ->); [item|]. cbn [mbind outcome_bind].
  destruct (read_string d (it_text _ Hd) (it_some _ Hd) _ (bytes "LogPath") [] 256 Hsec) as (path & r2 & ->); [item|done|]. cbn [mbind outcome_bind].
  set (conf := Conf _ _ _ _ _ _ _).
  destruct (Insert_sized tab 100 m (u32 id) conf Hs) as (tab' & r3 & m' & -> & Hs'). by exists tab', m'.
Qed.

Lemma SpecUserID_ok i tab m :
  1 ≤ i → sized tab 100 m → ∃ tab' m', CLogSvrInit.SpecUserID ini i tab = Ok tab' ∧ sized tab' 100 m'.
Proof.
  intros Hi Hs. unfold CLogSvrInit.SpecUserID. pose proof (spec_sec d Hd (bytes "USERID_") i Hi) as Hsec.
  change (bytes "SPEC_" ++ bytes "USERID_" ++ fmt_d i) with (bytes "SPEC_USERID_" ++ fmt_d i) in Hsec.
  specialize (Hsec ltac:(by apply (bool_decide_unpack _); vm_compute) ltac:(by vm_compute)).
  destruct (read_ulonglong d (it_text _ Hd) (it_some _ Hd) _ (bytes "UserID") 0 0 Hsec) as (id & r & ->); [item|]. cbn [mbind outcome_bind].
  destruct (id =? 0); [by exists tab, m|].
  destruct (read_int d (it_text _ Hd) (it_some _ Hd) _ (bytes "LogLevel") 0 0 Hsec) as (level & r' & ->); [item|]. cbn [mbind outcome_bind].
  destruct (read_string d (it_text _ Hd) (it_some _ Hd) _ (bytes "LogPath") [] 256 Hsec) as (path & r2 & ->); [item|done|]. cbn [mbind outcome_bind].
  set (conf := Conf _ _ _ _ _ _ _).
  destruct (Insert_sized tab 100 m id conf Hs) as (tab' & r3 & m' & -> & Hs'). by exists tab', m'.
Qed.

(** A loop over such sections; none if their number is not positive. *)
Lemma specs_ok {KEY} `{Countable KEY} `{!HashKey KEY} (f : Z → table KEY LogOutputConf → outcome (table KEY LogOutputConf)) n tab m :
  (∀ i tab m, 1 ≤ i → sized tab 100 m → ∃ tab' m', f i tab = Ok tab' ∧ sized tab' 100 m') → sized tab 100 m →
  ∃ tab' m', for_range 1 (n + 1) f tab = Ok tab' ∧ sized tab' 100 m' ∧ (n ≤ 0 → m' = m).
Proof.
  intros Hf Hs. destruct (Z.le_gt_cases n 0) as [Hn|Hn]; [exists tab, m; by rewrite for_range_none by lia|].
  destruct (for_range_inv (λ i tab, 1 ≤ i ∧ ∃ m', sized tab 100 m') 1 (n + 1) f tab) as (tab' & -> & _ & m' & Hs').
  - lia.
  - split; [lia|]. by exists m.
  - intros i t Hi [_ [m1 Ht]]. destruct (Hf i t m1) as (t' & m2 & -> & Ht'); [lia|done|]. exists t'. split; [done|].
    split; [lia|]. by exists m2.
  - exists tab', m'. split; [done|]. split; [done|]. lia.
Qed.

Lemma ReadSpecs_ok c mm mi mu :
  conf_sized c mm mi mu → ∃ c' mm' mi' mu', CLogSvrInit.ReadSpecs ini c = Ok c' ∧
    m_pstGlobalConf c' = m_pstGlobalConf c ∧ conf_sized c' mm' mi' mu' ∧
    (number_of ini (bytes "SpecModuleConfNum") ≤ 0 → mm' = mm) ∧
    (number_of ini (bytes "SpecLogIDConfNum") ≤ 0 → mi' = mi) ∧
    (number_of ini (bytes "SpecUserIDConfNum") ≤ 0 → mu' = mu).
Proof.
  intros [Hm Hi Hu]. unfold CLogSvrInit.ReadSpecs.
  destruct (read_number (bytes "SpecModuleConfNum")) as (r1 & ->); [item|]. cbn [mbind outcome_bind].
  destruct (read_number (bytes "SpecLogIDConfNum")) as (r2 & ->); [item|]. cbn [mbind outcome_bind].
  destruct (read_number (bytes "SpecUserIDConfNum")) as (r3 & ->); [item|]. cbn [mbind outcome_bind].
  destruct (specs_ok (CLogSvrInit.SpecModule ini) (number_of ini (bytes "SpecModuleConfNum")) _ mm SpecModule_ok Hm)
    as (m & mm' & -> & Hm' & Em). cbn [mbind outcome_bind].
  destruct (specs_ok (CLogSvrInit.SpecLogID ini) (number_of ini (bytes "SpecLogIDConfNum")) _ mi SpecLogID_ok Hi)
    as (i & mi' & -> & Hi' & Ei). cbn [mbind outcome_bind].
  destruct (specs_ok (CLogSvrInit.SpecUserID ini) (number_of ini (bytes "SpecUserIDConfNum")) _ mu SpecUserID_ok Hu)
    as (u & mu' & -> & Hu' & Eu). cbn [mbind outcome_bind].
  eexists _, mm', mi', mu'. split; [done|]. split; [done|]. by split.
Qed.
End specs.

(** * The start of the server *)
Section start.
Context {F : Type} {OF : Files F} {VF : FileViews F} {LF : FilesLaws F} {TL : LocalTime}.
Implicit Types (f : F) (s : CLogSvrProc.t CShmQueue.t) (sh : SharedMemory).

(** The queue is had; it has these messages in it. *)
Definition queue_had (q : CShmQueue.t) sh (q' : CShmQueue.t) : Prop :=
  CShmQueue.Init q (sh_queue_create sh) (sh_queue_attach sh) (sh_queue_sem sh) (sh_queue sh) LOG_QUEUE_SIZE = Ok (q', 0).
Definition queue_found (q : CShmQueue.t) sh (ds : list (list Z)) : Prop := ∃ q', queue_had q sh q' ∧ rep q' ds.

Lemma queue_had_unique q sh a b : queue_had q sh a → queue_had q sh b → a = b.
Proof. unfold queue_had. congruence. Qed.

(** So is the shared memory of the configuration, and the mutex. *)
Record shm_ok sh : Prop := {
  so_create : sh_conf_create sh = 0 ∨ sh_conf_create sh = 1;
  so_attach : sh_conf_attach sh = 0;
  so_mutex : sh_mutex sh = 0;
}.

(** The path gets into its array. *)
Definition in_memory (g : LogOutputConf) : LogOutputConf :=
  Conf (iLogConfShmInitFlag g) (iOutputLogLevel g) (iOutputLogType g) (cut_at 256 (szOutputPathDir g))
       (iMaxFileSize g) (iFlushFlag g) (iMaxFileNum g).

Lemma InitConf_ok d s g :
  ini_text d → ∃ s' mm mi mu, CLogSvrInit.InitConf s (CIniFile.New (Some d)) g = Ok (s', 0) ∧
    (∃ c, s' = CLogSvrInit.set_conf s c ∧ m_pstGlobalConf c = g ∧ conf_sized c mm mi mu) ∧
    (number_of (CIniFile.New (Some d)) (bytes "SpecModuleConfNum") ≤ 0 → mm = ∅) ∧
    (number_of (CIniFile.New (Some d)) (bytes "SpecLogIDConfNum") ≤ 0 → mi = ∅) ∧
    (number_of (CIniFile.New (Some d)) (bytes "SpecUserIDConfNum") ≤ 0 → mu = ∅).
Proof.
  intros Hd. unfold CLogSvrInit.InitConf. rewrite conf_fits.
  unfold iModuleConfHashListSize, iLogIDConfHashListSize, iUserIDConfHashListSize.
  destruct (InitTable_sizes KEY_MODULE CONF_SIZE (m_objModuleConf (CLogSvrProc.m_objLogConf s)) 100) as (m & Em & Hm1 & Hm2 & _); [lia|].
  change LOG_MAX_SPEC_MODULE_NUM with 100. rewrite Em. change (negb (0 =? 0)) with false. cbv iota.
  cbn [m_objLogIDConf m_objUserIDConf m_objModuleConf m_pstGlobalConf].
  destruct (InitTable_sizes KEY_UINT CONF_SIZE (m_objLogIDConf (CLogSvrProc.m_objLogConf s)) 100) as (i & Ei & Hi1 & Hi2 & _); [lia|].
  change LOG_MAX_SPEC_LOGID_NUM with 100. rewrite Ei. change (negb (0 =? 0)) with false. cbv iota.
  cbn [m_objLogIDConf m_objUserIDConf m_objModuleConf m_pstGlobalConf].
  destruct (InitTable_sizes KEY_ULL CONF_SIZE (m_objUserIDConf (CLogSvrProc.m_objLogConf s)) 100) as (u & Eu & Hu1 & Hu2 & _); [lia|].
  change LOG_MAX_SPEC_USERID_NUM with 100. rewrite Eu. change (negb (0 =? 0)) with false. cbv iota.
  set (c0 := set_global _ g). destruct (ClearTables_ok c0) as (c1 & -> & Eg & Hc1); [done|]. cbn [mbind outcome_bind].
  rewrite (VerifyTables_ok c1 _ _ _ Hc1). cbn [mbind outcome_bind]. change (negb (0 =? 0)) with false. cbn [orb]. cbv iota.
  destruct (ReadSpecs_ok d Hd c1 ∅ ∅ ∅ Hc1) as (c2 & mm & mi & mu & -> & Eg2 & Hc2 & H1 & H2 & H3). cbn [mbind outcome_bind].
  eexists _, mm, mi, mu. split; [done|]. split; [|done]. exists c2. split; [done|]. split; [|done]. by rewrite Eg2, Eg.
Qed.

Lemma InitTables_ok s n :
  2 ≤ n → ∃ a b c, CLogSvrInit.InitTables s (true, true, true) n =
      Ok (CLogSvrProc.set_users (CLogSvrProc.set_logids (CLogSvrProc.set_modules s a) b) c, 0) ∧
    sized a n ∅ ∧ sized b n ∅ ∧ sized c n ∅.
Proof.
  intros Hn. unfold CLogSvrInit.InitTables.
  destruct (InitFiles_ok KEY_MODULE (CLogSvrProc.m_objModuleLogFilePHash s) n Hn) as (a & -> & Ha). cbn [mbind outcome_bind].
  change (negb (0 =? 0)) with false. cbv iota. cbn [CLogSvrProc.set_modules CLogSvrProc.m_objSpecLogIDFilePHash].
  destruct (InitFiles_ok KEY_UINT (CLogSvrProc.m_objSpecLogIDFilePHash s) n Hn) as (b & -> & Hb). cbn [mbind outcome_bind].
  change (negb (0 =? 0)) with false. cbv iota. cbn [CLogSvrProc.set_logids CLogSvrProc.set_modules CLogSvrProc.m_objSpecUserIDFilePHash].
  destruct (InitFiles_ok KEY_UINT (CLogSvrProc.m_objSpecUserIDFilePHash s) n Hn) as (c & -> & Hc). cbn [mbind outcome_bind].
  change (negb (0 =? 0)) with false. cbv iota. exists a, b, c. by split_and!.
Qed.

Lemma Init_ok d s f sh g0 check n ds :
  ini_text d → CLogSvrInit.ReadGlobal (CIniFile.New (Some d)) = Ok (g0, check, n) → 2 ≤ n →
  queue_found (CLogSvrProc.m_objLogQueue s) sh ds → shm_ok sh →
  ∃ f' s' mm mi mu, CLogSvrInit.Init s f (Some d) sh (true, true, true) = Ok (f', s', 0) ∧ same_files f f' ∧
    m_pstGlobalConf (CLogSvrProc.m_objLogConf s') = in_memory g0 ∧ conf_sized (CLogSvrProc.m_objLogConf s') mm mi mu ∧
    q_rep (CLogSvrProc.m_objLogQueue s') ds ∧ queue_had (CLogSvrProc.m_objLogQueue s) sh (CLogSvrProc.m_objLogQueue s') ∧
    CLogSvrProc.m_iSizeCheckTimeVal s' = check ∧
    sized (CLogSvrProc.m_objModuleLogFilePHash s') n ∅ ∧ sized (CLogSvrProc.m_objSpecLogIDFilePHash s') n ∅ ∧
    sized (CLogSvrProc.m_objSpecUserIDFilePHash s') n ∅ ∧
    (number_of (CIniFile.New (Some d)) (bytes "SpecModuleConfNum") ≤ 0 → mm = ∅) ∧
    (number_of (CIniFile.New (Some d)) (bytes "SpecLogIDConfNum") ≤ 0 → mi = ∅) ∧
    (number_of (CIniFile.New (Some d)) (bytes "SpecUserIDConfNum") ≤ 0 → mu = ∅).
Proof.
  intros Hd Hg Hn (q & Hq & Hrep) [Hc Ha Hm]. unfold CLogSvrInit.Init, queue_had in *. rewrite (ini_valid d (it_some _ Hd)), Hg.
  cbn [negb mbind outcome_bind]. change (CLogSvrProc.m_objLogQueue (CLogSvrInit.set_check s check)) with (CLogSvrProc.m_objLogQueue s).
  rewrite Hq. cbn [mbind outcome_bind]. change (negb (0 =? 0)) with false. cbv iota.
  assert (negb (sh_conf_create sh =? 0) && negb (sh_conf_create sh =? 1) = false) as -> by (by destruct Hc as [-> | ->]).
  rewrite Ha, Hm. change (negb (0 =? 0)) with false. cbv iota. fold (in_memory g0).
  set (s1 := CLogSvrProc.set_queue _ q).
  destruct (InitConf_ok d s1 (in_memory g0) Hd) as (s2 & mm & mi & mu & -> & (c & -> & Ec & Hcs) & H1 & H2 & H3).
  cbn [mbind outcome_bind]. change (negb (0 =? 0)) with false. cbv iota.
  destruct (InitTables_ok (CLogSvrInit.set_conf s1 c) n Hn) as (ta & tb & tc & -> & Hta & Htb & Htc).
  cbn [mbind outcome_bind]. change (negb (0 =? 0)) with false. cbv iota.
  eexists _, _, mm, mi, mu. split; [done|]. split; [|by split_and!].
  eapply same_trans; apply CheckDir_same.
Qed.

(** With no log numbers or users configured it is the server of the theorems on the loop. *)
Lemma Init_serving d s f sh g0 check n ds :
  ini_text d → CLogSvrInit.ReadGlobal (CIniFile.New (Some d)) = Ok (g0, check, n) → 2 ≤ n →
  queue_found (CLogSvrProc.m_objLogQueue s) sh ds → shm_ok sh →
  number_of (CIniFile.New (Some d)) (bytes "SpecLogIDConfNum") ≤ 0 →
  number_of (CIniFile.New (Some d)) (bytes "SpecUserIDConfNum") ≤ 0 →
  logs_ok (in_memory g0) f ∅ → Forall msg_ok ds → Z.of_nat (size (modules ds)) < n →
  ∃ f' s' mm, CLogSvrInit.Init s f (Some d) sh (true, true, true) = Ok (f', s', 0) ∧
    serving (in_memory g0) s' f' ∅ ds ∧ conf_sized (CLogSvrProc.m_objLogConf s') mm ∅ ∅ ∧
    iTotalDataNodeNum (CLogSvrProc.m_objModuleLogFilePHash s') = n ∧
    queue_had (CLogSvrProc.m_objLogQueue s) sh (CLogSvrProc.m_objLogQueue s').
Proof.
  intros Hd Hg Hn Hq Hsh Hi Hu Hlogs Hmsgs Hroom.
  destruct (Init_ok d s f sh g0 check n ds Hd Hg Hn Hq Hsh)
    as (f' & s' & mm & mi & mu & -> & Hf & Eg & Hcs & Hqr & Hq' & _ & (Ht & Et & _) & _ & _ & _ & H2 & H3).
  exists f', s', mm. specialize (H2 Hi). specialize (H3 Hu). subst mi mu. split; [done|]. split; [|by split_and!].
  pose proof Hcs as [_ Hsi Hsu]. constructor; [done|by eapply sized_used|by eapply sized_used|done| |done|done|].
  - by eapply logs_ok_same.
  - rewrite dom_empty_L, union_empty_l_L, Et. done.
Qed.
End start.

(** * The start of a client *)

(** Files that could become too small are made larger, and sixteen. *)
Definition enlarged (g : LogOutputConf) : LogOutputConf :=
  if iMaxFileSize g <? LOG_DEFAULT_MIN_FILE_SIZE
  then CLogOpen.set_max g LOG_DEFAULT_MIN_FILE_SIZE LOG_DEFAULT_MAX_FILE_NUM else g.

(** On the configuration of a server. *)
Lemma OpenConf_found c mm mi mu :
  conf_sized c mm mi mu → iLogConfShmInitFlag (m_pstGlobalConf c) = LOG_CONFSHM_INIT_FLAG →
  ∃ c', CLogOpen.OpenConf c = Ok (c', 0) ∧ conf_sized c' mm mi mu ∧ m_pstGlobalConf c' = enlarged (m_pstGlobalConf c).
Proof.
  intros [Hm Hi Hu] Hf. unfold CLogOpen.OpenConf. rewrite conf_fits.
  unfold iModuleConfHashListSize, iLogIDConfHashListSize, iUserIDConfHashListSize.
  destruct (InitTable_found KEY_MODULE CONF_SIZE (m_objModuleConf c) 100 mm) as (m & Em & Hm'); [lia|done|].
  change LOG_MAX_SPEC_MODULE_NUM with 100. rewrite Em. change (negb (0 =? 0)) with false. cbv iota.
  cbn [m_objLogIDConf m_objUserIDConf m_objModuleConf m_pstGlobalConf].
  destruct (InitTable_found KEY_UINT CONF_SIZE (m_objLogIDConf c) 100 mi) as (i & Ei & Hi'); [lia|done|].
  change LOG_MAX_SPEC_LOGID_NUM with 100. rewrite Ei. change (negb (0 =? 0)) with false. cbv iota.
  cbn [m_objLogIDConf m_objUserIDConf m_objModuleConf m_pstGlobalConf].
  destruct (InitTable_found KEY_ULL CONF_SIZE (m_objUserIDConf c) 100 mu) as (u & Eu & Hu'); [lia|done|].
  change LOG_MAX_SPEC_USERID_NUM with 100. rewrite Eu. change (negb (0 =? 0)) with false. cbv iota.
  set (c1 := AllConf _ _ _ _). assert (conf_sized c1 mm mi mu) as Hc1 by by split.
  rewrite (VerifyTables_ok c1 _ _ _ Hc1). cbn [mbind outcome_bind]. change (negb (0 =? 0)) with false. cbv iota.
  change (m_pstGlobalConf c1) with (m_pstGlobalConf c). rewrite Hf, Z.eqb_refl. cbn [negb mbind outcome_bind].
  change (m_pstGlobalConf c1) with (m_pstGlobalConf c). unfold enlarged.
  destruct (_ <? _); (eexists; split; [done|]); by split.
Qed.

(** On memory of zeros. *)
Definition zeroed {KEY A} (tab : table KEY A) : Prop := m_pstIndex tab = replicate 100 (mk_index 0 0 0).

Lemma Verify_zeroed {KEY A} (tab : table KEY A) :
  zeroed tab → iIndexNodeNum tab = 100 → Verify tab = Ok E_HASH_LIST_VERIFY_INDEX_HASHVAL.
Proof.
  intros Hz Hi. unfold Verify.
  destruct (for_range_inv (λ i s, (i = 0 ∧ s = inl 1) ∨ (i = 1 ∧ ∃ n, s = inl n) ∨
    (2 ≤ i ∧ s = inr E_HASH_LIST_VERIFY_INDEX_HASHVAL)) 0 (iIndexNodeNum tab) (verify_index tab) (inl 1))
    as (s & -> & Hs); [lia|by left| |].
  - intros i s Hb Hs. rewrite Hi in Hb.
    assert (aget (m_pstIndex tab) i = Ok (mk_index 0 0 0)) as Hix.
    { apply aget_Some. split; [lia|]. rewrite Hz. apply lookup_replicate_2. lia. }
    destruct Hs as [[-> ->]|[[-> [n ->]]|[Hi2 ->]]].
    + unfold verify_index. rewrite Hix. cbn [mbind outcome_bind iHashVal ipDataNodeList iDataNodeNum].
      change (negb (0 =? 0)) with false. cbv iota. exists (inl (1 + 0)). split; [by destruct (length (m_pstData tab))|].
      right. left. split; [done|by eexists].
    + exists (inr E_HASH_LIST_VERIFY_INDEX_HASHVAL). unfold verify_index. rewrite Hix. split; [done|]. right. right. by split.
    + exists (inr E_HASH_LIST_VERIFY_INDEX_HASHVAL). split; [done|]. right. right. split; [lia|done].
  - rewrite Hi in Hs. destruct Hs as [[? _]|[[? _]|[_ ->]]]; [lia|lia|done].
Qed.

Lemma OpenConf_new c :
  zeroed (m_objModuleConf c) → zeroed (m_objLogIDConf c) → zeroed (m_objUserIDConf c) →
  ∃ c', CLogOpen.OpenConf c = Ok (c', 0) ∧ conf_sized c' ∅ ∅ ∅ ∧ m_pstGlobalConf c' = CLogOpen.default_conf.
Proof.
  intros Zm Zi Zu. unfold CLogOpen.OpenConf. rewrite conf_fits.
  unfold iModuleConfHashListSize, iLogIDConfHashListSize, iUserIDConfHashListSize.
  destruct (InitTable_sizes KEY_MODULE CONF_SIZE (m_objModuleConf c) 100) as (m & Em & Hm1 & Hm2 & Xm); [lia|].
  change LOG_MAX_SPEC_MODULE_NUM with 100. rewrite Em. change (negb (0 =? 0)) with false. cbv iota.
  cbn [m_objLogIDConf m_objUserIDConf m_objModuleConf m_pstGlobalConf].
  destruct (InitTable_sizes KEY_UINT CONF_SIZE (m_objLogIDConf c) 100) as (i & Ei & Hi1 & Hi2 & Xi); [lia|].
  change LOG_MAX_SPEC_LOGID_NUM with 100. rewrite Ei. change (negb (0 =? 0)) with false. cbv iota.
  cbn [m_objLogIDConf m_objUserIDConf m_objModuleConf m_pstGlobalConf].
  destruct (InitTable_sizes KEY_ULL CONF_SIZE (m_objUserIDConf c) 100) as (u & Eu & Hu1 & Hu2 & Xu); [lia|].
  change LOG_MAX_SPEC_USERID_NUM with 100. rewrite Eu. change (negb (0 =? 0)) with false. cbv iota.
  unfold VerifyTables. cbn [m_objLogIDConf m_objUserIDConf m_objModuleConf m_pstGlobalConf].
  rewrite (Verify_zeroed m) by (done || (unfold zeroed; by rewrite Xm)).
  rewrite (Verify_zeroed i) by (done || (unfold zeroed; by rewrite Xi)).
  rewrite (Verify_zeroed u) by (done || (unfold zeroed; by rewrite Xu)).
  cbn [mbind outcome_bind]. change (negb (E_HASH_LIST_VERIFY_INDEX_HASHVAL =? 0)) with true. cbv iota.
  cbn [set_global m_pstGlobalConf]. change (iLogConfShmInitFlag _ =? LOG_CONFSHM_INIT_FLAG) with false. cbn [negb].
  match goal with |- context [ClearTables ?x] => set (c1 := x) end.
  destruct (ClearTables_ok c1) as (c2 & -> & Eg & Hc2); [done|].
  cbn [mbind outcome_bind]. rewrite Eg. change (iMaxFileSize (m_pstGlobalConf c1) <? LOG_DEFAULT_MIN_FILE_SIZE) with false.
  by exists c2.
Qed.

Section open.
Context {F : Type} {OF : Files F} {VF : FileViews F} {LF : FilesLaws F} {TL : LocalTime}.
Implicit Types (f : F) (c : CLog.t CShmQueue.t) (sh : SharedMemory).

(** An object nobody has opened, for a module of this name. *)
Record unopened c (name : list Z) : Prop := {
  uo_init : CLog.m_iInitFlag c ≠ 1;
  uo_buff : zlen (CLog.m_szLogBuff c) = LOG_BUFF_SIZE;
  uo_local : CLog.m_iLocalLogFlag c ≠ 1;
  uo_name : 0 < zlen (cstr name);
  uo_bytes : Forall byte_ok name;
}.

Lemma of_str_ok name :
  0 < zlen (cstr name) → Forall byte_ok name →
  0 < zlen (CModuleName.of_str name) ≤ 16 ∧ 0 ∉ CModuleName.of_str name ∧ Forall byte_ok (CModuleName.of_str name).
Proof.
  intros Hz Hb. unfold CModuleName.of_str, LOG_MODULE_NAME_LEN. split_and!.
  - rewrite zlen_take by done. lia.
  - rewrite zlen_take by done. lia.
  - intros Hin. apply elem_of_take in Hin as (i & Hi & _). apply list_elem_of_lookup_2 in Hi. by apply cstr_no_nul in Hi.
  - apply Forall_take. unfold cstr. clear Hz. induction Hb as [|x l Hx Hl IH]; cbn; [done|]. destruct (_ =? _); [done|by constructor].
Qed.

Lemma Open_ok c f name level sh conf mm mi mu ds :
  unopened c name → queue_found (CLog.m_objLogQueue c) sh ds → shm_ok sh →
  CLogOpen.OpenConf (CLog.m_objLogConf c) = Ok (conf, 0) → conf_sized conf mm mi mu →
  ∃ f' c', CLogOpen.Open c f name level sh = Ok (f', c') ∧ same_files f f' ∧ client_ok c' ∧ conf_rep c' mm mi mu ∧
    CLog.m_objLogConf c' = conf ∧ CLog.m_iInitFlag c' = 1 ∧ CLog.m_objModuleName c' = CModuleName.of_str name ∧
    CLog.m_iLocalLogFlag c' ≠ 1 ∧ q_rep (CLog.m_objLogQueue c') ds ∧
    queue_had (CLog.m_objLogQueue c) sh (CLog.m_objLogQueue c').
Proof.
  intros [Hi Hb Hl Hn Hby] (q & Hq & Hrep) [Hc Ha Hm] Hconf Hcs. unfold CLogOpen.Open, queue_had in *.
  cbn [CLog.set_conf CLog.m_iInitFlag CLog.m_objLogQueue]. rewrite (proj2 (Z.eqb_neq _ _)) by done. cbv iota.
  rewrite Hq. cbn [mbind outcome_bind]. change (negb (0 =? 0)) with false. cbv iota.
  assert (negb (sh_conf_create sh =? 0) && negb (sh_conf_create sh =? 1) = false) as -> by (by destruct Hc as [-> | ->]).
  rewrite Ha, Hm. change (negb (0 =? 0)) with false. cbv iota.
  cbn [CLog.set_queue CLog.set_conf CLog.m_objLogConf CLog.m_iInitFlag]. rewrite Hconf. cbn [mbind outcome_bind].
  change (negb (0 =? 0)) with false. cbv iota.
  destruct (of_str_ok name Hn Hby) as (H1 & H2 & H3). eexists _, _. split; [done|]. split.
  { eapply same_trans; [|apply CheckDirAll_same]. destruct (0 <? _); [apply CheckDir_same|apply same_refl]. }
  split; [by constructor|]. split; [|done]. destruct Hcs as [[? _] [? _] [? _]]. by constructor.
Qed.
End open.

(** * From the start to a line in a file *)
Lemma enlarged_big g : LOG_DEFAULT_MIN_FILE_SIZE ≤ iMaxFileSize g → enlarged g = g.
Proof. intros Hg. unfold enlarged. by rewrite (proj2 (Z.ltb_ge _ _)) by done. Qed.

Lemma ReadGlobal_type ini g check n :
  CLogSvrInit.ReadGlobal ini = Ok (g, check, n) →
  iOutputLogType g = LOG_OUTPUT_TYPE_NORMAL ∧ iLogConfShmInitFlag g = LOG_CONFSHM_INIT_FLAG.
Proof.
  unfold CLogSvrInit.ReadGlobal. intros Hg. repeat (apply bind_Ok in Hg as ([? ?] & _ & Hg)). by injection Hg as <- <- <-.
Qed.

Lemma in_memory_ok ini g check n :
  CLogSvrInit.ReadGlobal ini = Ok (g, check, n) → iFlushFlag g = 1 → iMaxFileNum g < 2 ^ 31 → conf_ok (in_memory g).
Proof.
  intros [Ht _]%ReadGlobal_type Hf Hn. constructor; cbn; rewrite ?Ht; try done.
  unfold dir_fits, cut_at. rewrite zlen_take by done. lia.
Qed.

(** A queue somebody has got is of the size asked for. *)
Lemma queue_cap q0 sh q : queue_had q0 sh q → q_cap q = LOG_QUEUE_SIZE - 8.
Proof.
  unfold queue_had, CShmQueue.Init. destruct (_ && _); [by intros [= _ ?]|]. destruct (negb _); [by intros [= _ ?]|].
  intros Hq. apply bind_Ok in Hq as (hd & _ & Hq). apply bind_Ok in Hq as (tl & _ & Hq). apply bind_Ok in Hq as (dt & _ & Hq).
  destruct (negb _); [by injection Hq as _ ?|]. injection Hq as <-. by vm_compute.
Qed.

Section compose.
Context {F : Type} {OF : Files F} {VF : FileViews F} {LF : FilesLaws F} {WF : FilesWork F} {TL : LocalTime}.
Implicit Types (f : F).

(** A client on the memory and the queue of a server that has just started. *)
Lemma opened_line_arrives g s f1 mm n c0 name level sh :
  conf_ok g → serving g s f1 ∅ [] → conf_sized (CLogSvrProc.m_objLogConf s) mm ∅ ∅ →
  iTotalDataNodeNum (CLogSvrProc.m_objModuleLogFilePHash s) = n → 2 ≤ n →
  iLogConfShmInitFlag g = LOG_CONFSHM_INIT_FLAG → LOG_DEFAULT_MIN_FILE_SIZE ≤ iMaxFileSize g →
  unopened c0 name → shm_ok sh → CLog.m_objLogConf c0 = CLogSvrProc.m_objLogConf s →
  queue_had (CLog.m_objLogQueue c0) sh (CLogSvrProc.m_objLogQueue s) →
  ∃ f2 c, CLogOpen.Open c0 f1 name level sh = Ok (f2, c) ∧
  ∀ f3 sec usec pid id user prio text buf,
    call_ok sec usec pid id user → text_of text → zlen text < LOG_LENGTH_MAX → 1 ≤ prio ≤ 5 → prio ≤ iOutputLogLevel g →
    f_timeofday f2 = (f3, (sec, usec)) → zlen buf = LOG_BUFF_SIZE →
    let hd := LogHeader.mk sec usec prio id pid (CModuleName.of_str name) user text in
    ∃ c' f' s' m' buf', LogClient.LogInternal c f2 pid id user prio text = Ok (f3, c') ∧
      CLogSvrProc.Run 1 (CLogSvrProc.set_queue s (CLog.m_objLogQueue c')) f3 buf = Ok (f', s', buf') ∧
      serving g s' f' m' [] ∧ log_kept g f3 f' (log_of g hd) (CLogSvrProc.LineText hd).
Proof.
  intros Hg Hs Hcs Hn Hn2 Hfl Hbig Hu Hsh Hmem Hq. pose proof (sv_conf _ _ _ _ _ Hs) as Hgc.
  destruct (OpenConf_found (CLog.m_objLogConf c0) mm ∅ ∅) as (conf & Hconf & Hcs' & Eg); [by rewrite Hmem|by rewrite Hmem, Hgc|].
  rewrite Hmem, Hgc, enlarged_big in Eg by done.
  destruct (Open_ok c0 f1 name level sh conf mm ∅ ∅ []) as (f2 & c & Ho & Hf2 & Hc & Hrep & Hcc & Hi & Hname & Hloc & _ & Hq2);
    [done| |done..|].
  { eexists. split; [exact Hq|]. exact (sv_queue _ _ _ _ _ Hs). }
  exists f2, c. split; [done|]. intros f3 sec usec pid id user prio text buf Hca Ht Hz Hp Hl Hf3 Hb hd.
  assert (CLog.m_objLogQueue c = CLogSvrProc.m_objLogQueue s) as Hqc by (unfold queue_had in *; congruence).
  set (d := message c sec usec prio id pid user text).
  assert (48 ≤ zlen d < 48 + 12288) as Hzd.
  { unfold d, message. rewrite zlen_app, zlen_head_bytes by done. pose proof (zlen_nonneg text).
    change LOG_LENGTH_MAX with 12288 in Hz. lia. }
  destruct (line_arrives g s f2 f3 ∅ [] c mm ∅ ∅ sec usec pid id user prio text buf)
    as (c' & f' & s' & m' & buf' & H1 & H2 & H3 & H4); [done| |done..| | | | | | |done|].
  - destruct Hs as [S1 S2 S3 S4 S5 S6 S7 S8]. constructor; try done. by eapply logs_ok_same.
  - split; [done|]. split; [done|]. right. left. unfold CLog.global. by rewrite Hcc, Eg.
  - done.
  - done.
  - fold d. change (q_max (Q := CShmQueue.t)) with (2 ^ 31 - 1). lia.
  - fold d. rewrite (queue_cap _ _ _ Hq). change (q_fits (Q := CShmQueue.t)) with shm_fits. unfold shm_fits.
    apply Z.leb_le. change (zlen (frames [])) with 0. change (LOG_QUEUE_SIZE - 8 - 1 - 0) with 67108855. lia.
  - fold d. unfold modules. cbn [app omap list_omap]. unfold d. rewrite message_header by done.
    cbn [fmap list_fmap list_to_set]. rewrite dom_empty_L, union_empty_l_L, union_empty_r_L, size_singleton, Hn. lia.
  - exists c', f', s', m', buf'. unfold lines_for in H4. cbn [omap list_omap fmap list_fmap concat app] in H4.
    rewrite Hname in H4. done.
Qed.
End compose.
