(* ===== verification/LogExample.v ===== *)
(** A log server, a client and a disk to run the theorems at. *)
From Stdlib Require Import Ascii String.
From stdpp Require Import gmap.
From S2P Require Import Prelude Fifo ShmQueue HashList IniFile ConnExample Mysql Conf LogFile LogFileFacts.
From S2P Require Import LogServe LogServeFacts LogLoop LogRun LogClient LogClientFacts LogInit LogInitFacts LogSim.
Import CHashListNoLock CLogSvrProc.

#[local] Open Scope Z_scope.
#[local] Open Scope list_scope.

Module LogServerExample.

(** Lines up to errors, files of a thousand bytes and at most three of them. *)
Definition conf : LogOutputConf := Conf LOG_CONFSHM_INIT_FLAG LOG_ERR 0 (bytes "/l") 1000 1 3.
Definition user_conf (type : Z) : LogOutputConf := Conf LOG_CONFSHM_INIT_FLAG LOG_TRACE type (bytes "/u") 1000 1 3.

Section tables.
Context {KEY A : Type} `{Countable KEY} `{!HashKey KEY}.
Variable zero : A.

Definition raw_table (n : Z) : table KEY A := CHashListNoLock.mk 0 n 0 2 0 [] [].
Definition empty_table (n : Z) : table KEY A := match Clear zero (raw_table n) with Ok h => h | _ => raw_table n end.
Definition table_with (n : Z) (k : KEY) (v : A) : table KEY A :=
  match Insert (empty_table n) k v with Ok (h, _) => h | _ => empty_table n end.

Lemma empty_table_rep n : 2 ≤ n → hrep (empty_table n) ∅ ∧ iTotalDataNodeNum (empty_table n) = n.
Proof.
  intros Hn. unfold empty_table. destruct (Clear_hrep zero (raw_table n)) as (h & -> & Hh & Ht); [cbn; lia..|]. done.
Qed.

Lemma table_with_rep n k v : 2 ≤ n → hrep (table_with n k v) {[k := v]} ∧ iTotalDataNodeNum (table_with n k v) = n.
Proof.
  intros Hn. destruct (empty_table_rep n Hn) as [He Ht]. unfold table_with.
  pose proof (Insert_hrep _ ∅ k v He) as HI. rewrite lookup_empty in HI. destruct He as (_ & _ & _ & _ & _ & Hs).
  rewrite map_size_empty in Hs. rewrite (proj2 (Z.eqb_neq _ _)) in HI by lia. destruct HI as (h & -> & Hh & Hth).
  split; [|lia]. by rewrite insert_empty in Hh.
Qed.
End tables.

Definition no_conf {KEY : Type} `{Countable KEY} `{!HashKey KEY} : table KEY LogOutputConf :=
  empty_table (Conf 0 0 0 [] 0 0 0) 4.
Definition all_conf : CLogAllConf := AllConf conf no_conf no_conf no_conf.

(** * Client, server and disk *)
Definition disk : FileSim.t := FileSim.mk [] [] 1000000000.
Definition server : t CShmQueue.t :=
  mk all_conf ConnServerExample.queue (empty_table info0 8) (empty_table info0 8) (empty_table info0 8) 10.
Definition buff : list Z := replicate (Z.to_nat LOG_BUFF_SIZE) 0.
Definition client : CLog.t CShmQueue.t := CLog.mk 1 (bytes "bus") all_conf ConnServerExample.queue info0 buff 0 [] 0.
Definition text : list Z := bytes "link lost".
Definition header : LogHeader.t := LogHeader.mk 1000000000 0 LOG_ERR 7 99 (bytes "bus") 5 text.
Definition waiting : list Z := message client 1000000000 0 LOG_ERR 7 99 5 text.

Lemma conf_is_ok : conf_ok conf.
Proof. constructor; vm_compute; done. Qed.

Lemma zlen_logbuff : zlen buff = LOG_BUFF_SIZE.
Proof. unfold buff. by rewrite zlen_replicate, Z2Nat.id. Qed.

Lemma disk_logs g : logs_ok g disk ∅.
Proof.
  assert (∀ k l st, slot_at ∅ k l = Some st → False) as Hno. { intros k l st Hs. unfold slot_at in Hs. by rewrite lookup_empty in Hs. }
  constructor.
  - intros k [? Hk]. by rewrite lookup_empty in Hk.
  - intros k l st Hs. by apply Hno in Hs.
  - intros k l st k' l' st' h Hs. by apply Hno in Hs.
  - intros h [i Hi]. cbn in Hi. unfold FileSim.stream in Hi. cbn in Hi. by destruct (h <? 0).
  - intros k l hour _ _ _ i _ [j Hj]. cbn in Hj. done.
Qed.

Lemma client_is_ok : client_ok client.
Proof.
  constructor.
  - exact zlen_logbuff.
  - vm_compute. by split.
  - apply (bool_decide_unpack _). by vm_compute.
  - apply (bool_decide_unpack _). by vm_compute.
Qed.

Lemma call_is_ok sec : 0 < sec < 2 ^ 32 → LogClientFacts.call_ok sec 0 99 7 5.
Proof. intros Hs. constructor; lia. Qed.

Lemma text_is_ok : text_of text.
Proof. constructor; apply (bool_decide_unpack _); by vm_compute. Qed.

Lemma client_conf : conf_rep client ∅ ∅ ∅.
Proof. constructor; by apply empty_table_rep. Qed.

Lemma client_wants : wanted client ∅ ∅ ∅ 7 5 LOG_ERR.
Proof. apply (bool_decide_unpack _). by vm_compute. Qed.

Lemma waiting_ok : msg_ok waiting.
Proof. apply message_ok; [apply client_is_ok|by apply call_is_ok|apply text_is_ok|by vm_compute|by vm_compute]. Qed.

Lemma waiting_header : header_of waiting = Some header.
Proof. apply message_header; [apply client_is_ok|by apply call_is_ok|apply text_is_ok|by vm_compute]. Qed.

Lemma zlen_waiting : zlen waiting = 57.
Proof. by vm_compute. Qed.

Lemma serving_now : serving conf server disk ∅ [].
Proof.
  constructor.
  - reflexivity.
  - by vm_compute.
  - by vm_compute.
  - by apply empty_table_rep.
  - apply disk_logs.
  - apply ConnServerExample.queue_rep.
  - constructor.
  - by vm_compute.
Qed.

(** The queue with the message. *)
Lemma queue_waiting : ∃ q, q_rep q [waiting].
Proof.
  destruct (q_in_fits ConnServerExample.queue [] waiting ConnServerExample.queue_rep) as (q & _ & Hq & _).
  - rewrite zlen_waiting. by vm_compute.
  - unfold q_fits, q_cap, shm_fifo, shm_fits. rewrite zlen_waiting. reflexivity.
  - by exists q.
Qed.

Lemma serving_waiting q : q_rep q [waiting] → serving conf (set_queue server q) disk ∅ [waiting].
Proof.
  intros Hq. destruct serving_now as [H1 H2 H3 H4 H5 _ _ _]. constructor; try done.
  - constructor; [apply waiting_ok|constructor].
Qed.

(** * The start *)
Definition file : list Z :=
  bytes "[LOG_SVR]" ++ [NL] ++ bytes "LogLevel = 2" ++ [NL] ++ bytes "LogPath = /l" ++ [NL] ++
  bytes "MaxFileSize = 20000000" ++ [NL] ++ bytes "MaxFileNum = 3" ++ [NL] ++ bytes "FlushFlag = 1" ++ [NL] ++
  bytes "MaxModuleNum = 8" ++ [NL] ++ bytes "SizeCheckTimeVal = 10" ++ [NL] ++ bytes "SpecModuleConfNum = 1" ++ [NL] ++
  bytes "[SPEC_MODULE_1]" ++ [NL] ++ bytes "ModuleName = bus" ++ [NL] ++ bytes "LogLevel = 5" ++ [NL].
Definition file_conf : LogOutputConf := Conf LOG_CONFSHM_INIT_FLAG LOG_ERR 1 (bytes "/l") 20000000 1 3.

Lemma file_ok : ini_text file.
Proof. constructor; [apply (bool_decide_unpack _); by vm_compute|by vm_compute..]. Qed.

Lemma file_global : CLogSvrInit.ReadGlobal (CIniFile.New (Some file)) = Ok (file_conf, 10, 8).
Proof. by vm_compute. Qed.

Definition no_queue : CShmQueue.t := CShmQueue.mk 0 0 0 [] None.
Definition before : CLogSvrProc.t CShmQueue.t :=
  CLogSvrProc.mk (AllConf (Conf 0 0 0 [] 0 0 0) (raw_table 0) (raw_table 0) (raw_table 0)) no_queue
    (raw_table 0) (raw_table 0) (raw_table 0) 0.
Definition segment : list Z := replicate (Z.to_nat LOG_QUEUE_SIZE) 0.
Definition fresh : SharedMemory := Shared 0 0 0 segment 0 0 0.

Lemma fresh_ok : shm_ok fresh.
Proof. constructor; [by left|done|done]. Qed.

Lemma fresh_queue : queue_found no_queue fresh [].
Proof.
  destruct (Init_fresh no_queue segment LOG_QUEUE_SIZE) as (q & Hq & Hr & _).
  - by vm_compute.
  - unfold segment. by rewrite zlen_replicate, Z2Nat.id.
  - exists q. unfold queue_had, fresh. cbn [sh_queue_create sh_queue_attach sh_queue_sem sh_queue]. split; [exact Hq|exact Hr].
Qed.

(** The queue as another process finds it. *)
Definition found (q : CShmQueue.t) : SharedMemory :=
  Shared CShmQueue.SHM_EXIST 0 0
    (CShmQueue.uint_bytes (CShmQueue.uiHead q) ++ CShmQueue.uint_bytes (CShmQueue.uiTail q) ++ CShmQueue.m_pQueueData q) 1 0 0.

Lemma found_ok q : shm_ok (found q).
Proof. constructor; [by right|done|done]. Qed.

Lemma found_queue q0 sh q ds : queue_had q0 sh q → rep q ds → queue_had q (found q) q.
Proof.
  intros Hq Hr. pose proof (queue_cap _ _ _ Hq) as Hcap. change (q_cap q) with (CShmQueue.m_QueueDataSize q) in Hcap.
  destruct (Init_attached q q ds Hr) as (q' & Hi & _). unfold queue_had, found.
  cbn [sh_queue_create sh_queue_attach sh_queue_sem sh_queue].
  replace LOG_QUEUE_SIZE with (CShmQueue.m_QueueDataSize q + 8) by (rewrite Hcap; lia). rewrite Hi. f_equal. f_equal.
  pose proof Hr as [[Hs ? ? ?] _ _ _]. unfold CShmQueue.Init in Hi. cbn in Hi.
  rewrite Z.abs_eq in Hi by lia. pose proof (zlen_uint_bytes (CShmQueue.uiHead q)). pose proof (zlen_uint_bytes (CShmQueue.uiTail q)).
  rewrite !mread_ok in Hi by (repeat rewrite zlen_app; lia). cbn in Hi.
  rewrite drop_0, take_app_length' in Hi by (unfold zlen in *; lia).
  rewrite drop_app_length', take_app_length' in Hi by (unfold zlen in *; lia).
  rewrite app_assoc, drop_app_length' in Hi by (rewrite length_app; unfold zlen in *; lia).
  rewrite take_ge in Hi by (unfold zlen in *; lia).
  rewrite !le_dec_uint_bytes, u32_small in Hi by lia.
  replace (CShmQueue.m_QueueDataSize q + 8 - 8) with (CShmQueue.m_QueueDataSize q) in Hi by lia.
  injection Hi as <-. by destruct q.
Qed.

Definition newcomer (conf : CLogAllConf) (q : CShmQueue.t) : CLog.t CShmQueue.t :=
  CLog.mk 0 [] conf q info0 buff 0 [] 0.

Lemma newcomer_unopened conf q : unopened (newcomer conf q) (bytes "bus").
Proof. constructor; [done|exact zlen_logbuff|done|by vm_compute|by apply (bool_decide_unpack _); vm_compute]. Qed.

(** Memory nobody has used. *)
Definition zero_table {KEY : Type} : CHashListNoLock.table KEY LogOutputConf :=
  CHashListNoLock.mk 0 0 0 0 0 (replicate 100 (CHashListNoLock.mk_index 0 0 0)) [].
Definition zero_memory : CLogAllConf := AllConf (Conf 0 0 0 [] 0 0 0) zero_table zero_table zero_table.
End LogServerExample.
