(* ===== verification/LogProps.v ===== *)
(** Properties of the logging: the server, the clients, and a line on its way
    from one to the other. *)
From Stdlib Require Import Ascii String.
From stdpp Require Import gmap.
From S2P Require Import Prelude Fifo ShmQueue HashList IniFile ConnExample Mysql Conf LogFile LogFileFacts.
From S2P Require Import LogServe LogServeFacts LogLoop LogRun LogClient LogClientFacts LogInit LogInitFacts LogSim LogExample.
Import CHashListNoLock CLogSvrProc.

#[local] Open Scope Z_scope.
#[local] Open Scope list_scope.
#[local] Arguments Z.add : simpl never.
#[local] Arguments Z.eqb : simpl never.
#[local] Arguments Z.ltb : simpl never.
#[local] Arguments Z.leb : simpl never.

Section props.
Context {F Q : Type} {OF : Files F} {VF : FileViews F} {LF : FilesLaws F} {TL : LocalTime}.
Context {OQ : FifoOps Q} {LQ : FifoQueue Q}.
Implicit Types (s : CLogSvrProc.t Q) (f : F) (hd : LogHeader.t).

(** C17: on a disk that works ([FilesWork]: every file can be opened, and no stream
    reports an error), under a configuration that flushes every line and has no
    outputs of its own for log numbers or users ([conf_ok], [serving]), with
    messages of the right form that fit the buffer with their NUL and room in the
    table of open files for all their modules ([serving]): every message that waits
    ends up as a line of the log of its module, level and hour, in order, also where
    logs are renamed on the way.  A log with [num] numbered files loses nothing as
    long as what it has got fits the number and size of its files; when it loses,
    what it loses is the first of all it has got, and what is left of the newest is
    at least what [num] full files hold; no stream is left open or used after it was
    closed. *)
Theorem log_run_keeps_lines `{!FilesWork F} g s f m ds buf n :
  conf_ok g → serving g s f m ds → zlen buf = LOG_BUFF_SIZE →
  ∃ f' s' m' buf', Run n s f buf = Ok (f', s', buf') ∧ serving g s' f' m' (drop n ds) ∧
    ∀ k l hour, name_ok16 k → level_ok l → 0 ≤ hour < 2 ^ 31 →
      let p := log_name (szOutputPathDir g) k l hour in
      log_kept g f f' p (lines_for g (take n ds) p).
Proof. intros Hg Hs Hb. exact (log_Run_ok g Hg n s f m ds buf Hs Hb). Qed.

(** A line a client logs, if its level is wanted and the queue has room, is
    read by the server as it was meant, and put into the log of the client's module
    behind what waited before it. *)
Theorem logged_line_arrives `{!FilesWork F} g s f f1 m ds c mm mi mu sec usec pid id user prio text buf :
  let d := message c sec usec prio id pid user text in
  let hd := LogHeader.mk sec usec prio id pid (CLog.m_objModuleName c) user text in
  let p := log_of g hd in
  conf_ok g → serving g s f m ds → zlen buf = LOG_BUFF_SIZE →
  client_ok c → LogClientFacts.call_ok sec usec pid id user → text_of text → zlen text < LOG_LENGTH_MAX →
  conf_rep c mm mi mu → wanted c mm mi mu id user prio → CLog.m_iLocalLogFlag c ≠ 1 →
  CLog.m_objLogQueue c = m_objLogQueue s → zlen d ≤ q_max → q_fits (q_cap (m_objLogQueue s)) ds d = true →
  Z.of_nat (size (dom m ∪ modules (ds ++ [d]))) < iTotalDataNodeNum (m_objModuleLogFilePHash s) →
  f_timeofday f = (f1, (sec, usec)) →
  ∃ c' f' s' m' buf', LogInternal c f pid id user prio text = Ok (f1, c') ∧
    Run (S (length ds)) (set_queue s (CLog.m_objLogQueue c')) f1 buf = Ok (f', s', buf') ∧
    serving g s' f' m' [] ∧ log_kept g f1 f' p (lines_for g ds p ++ LineText hd).
Proof. apply line_arrives. Qed.

(** A line is wanted exactly when its level is let through by the local level, the
    global one, or that of the module, the log number or the user. *)
Theorem IsShouldWrite_decides (c : CLog.t Q) mm mi mu id user prio :
  conf_rep c mm mi mu → CLog.IsShouldWrite c id user prio = Ok (bool_decide (wanted c mm mi mu id user prio)).
Proof. apply IsShouldWrite_wanted. Qed.

(** Open files of users are kept by the lower half of the user's number: once one
    user's file is open, lines of any other with the same lower half go there, not to
    the directory configured for him. *)
Theorem users_share_files s f f1 now m mu hd user conf info h flag :
  let st := slot_of info (LogHeader.iLogLevel hd) in
  hrep (m_objUserIDConf (m_objLogConf s)) mu → mu !! LogHeader.ullUserID hd = Some conf →
  iOutputLogType conf = LOG_OUTPUT_TYPE_SPEC_USERID → iFlushFlag (m_pstGlobalConf (m_objLogConf s)) = 1 →
  u32 user = u32 (LogHeader.ullUserID hd) →
  hrep (m_objSpecUserIDFilePHash s) m → m !! u32 user = Some info →
  level_ok (LogHeader.iLogLevel hd) → pf st = Some h → iCurLogTime st = HourOf hd →
  f_time f = (f1, now) → 0 ≤ now - tLastSizeCheckTime st ≤ m_iSizeCheckTimeVal s → f_error f1 h = false →
  ∃ s' flag', OutputUserID s f hd flag = Ok (f_flush (f_print f1 h (LineText hd)) h, s', flag', true).
Proof.
  intros st Hmu Hu Htype Hflush Heq Hm Hinfo Hl Hpf Hcur Ht Hnow He. unfold OutputUserID, SpecConf.
  pose proof Hmu as (_ & _ & _ & _ & _ & Hused). unfold GetUsedDataNum. rewrite Hused, (Get_hrep _ mu _ _ Hmu), Hu.
  assert (size mu ≠ 0%nat) as Hs. { intros ->%map_size_empty_iff. by rewrite lookup_empty in Hu. }
  rewrite (proj2 (Z.ltb_lt _ _)) by lia. cbn [mbind outcome_bind]. change (SUCCESS =? 0) with true. cbv iota.
  unfold Output. rewrite (Get_hrep _ m _ _ Hm), <- Heq, Hinfo. cbn [mbind outcome_bind].
  change (SUCCESS =? E_HASH_LIST_NO_NODE) with false. change (SUCCESS =? SUCCESS) with true. cbn [negb]. cbv iota.
  assert (∀ dir, LevelFile (level_dir (LogHeader.iLogLevel hd)) f1 st dir (HourOf hd) now (m_iSizeCheckTimeVal s)
    (iMaxFileSize (m_pstGlobalConf (m_objLogConf s))) (iMaxFileNum (m_pstGlobalConf (m_objLogConf s))) = (f1, st, false)) as Hlev.
  { intros dir. unfold LevelFile, LogFiles.LevelCase. rewrite Hcur, Z.eqb_refl. cbn [negb].
    by rewrite (proj2 (Z.ltb_ge _ _)), (proj2 (Z.ltb_ge _ _)) by lia. }
  unfold WriteLogToFile. rewrite Ht, SwitchLevel_eq by done. fold st. rewrite Hlev, Hpf, He. cbn [negb]. rewrite Hflush.
  change (1 =? 1) with true. change (0 =? 1) with false. cbv iota. destruct flag; cbn [orb].
  - pose proof (Update_hrep _ m (u32 user) (set_slot info (LogHeader.iLogLevel hd) st) Hm) as Hup. rewrite Hinfo in Hup.
    destruct Hup as (tab & -> & _). cbn [mbind outcome_bind]. eexists _, _. done.
  - cbn [mbind outcome_bind]. eexists _, _. done.
Qed.

(** The table of modules is never cleaned up: when it is full, lines of a new
    module are written nowhere, not even where its log number or user is configured. *)
Theorem full_module_table_drops s f m hd buf :
  LogHeader.of_buff buf = Ok hd → valid_header hd = true →
  hrep (m_objModuleLogFilePHash s) m → m !! CModuleName.of_str (LogHeader.szModuleName hd) = None →
  iUsedDataNodeNum (m_objModuleLogFilePHash s) = iTotalDataNodeNum (m_objModuleLogFilePHash s) →
  DealLog s f buf = Ok (f, s).
Proof.
  intros Hb Hv Hm Hk Hfull. unfold DealLog. rewrite Hb. cbn [mbind outcome_bind]. rewrite Hv. cbn [negb].
  unfold OutputModule, Output. rewrite (Get_hrep _ m _ _ Hm), Hk. cbn [mbind outcome_bind].
  change (E_HASH_LIST_NO_NODE =? E_HASH_LIST_NO_NODE) with true. cbv iota.
  pose proof (Insert_hrep _ m (CModuleName.of_str (LogHeader.szModuleName hd)) info0 Hm) as Hins. rewrite Hk, Hfull, Z.eqb_refl in Hins.
  rewrite Hins. cbn [mbind outcome_bind]. change (E_HASH_LIST_NO_SPACE =? SUCCESS) with false. cbn [negb mbind outcome_bind].
  by destruct s.
Qed.

(** The longest message that can be taken from the queue leaves no room in the
    buffer for the NUL the server puts behind it. *)
Theorem longest_message_overruns s f d ds buf :
  q_rep (m_objLogQueue s) (d :: ds) → zlen d = LOG_BUFF_SIZE → zlen buf = LOG_BUFF_SIZE →
  RunOnce s f buf = Fault.
Proof.
  intros Hq Hd Hb. unfold RunOnce.
  destruct (q_out_ok (m_objLogQueue s) d ds LOG_BUFF_SIZE) as (q & -> & _); [done|rewrite Hd; done|].
  cbn [mbind outcome_bind]. rewrite (mwrite_head d buf) by lia. cbn [mbind outcome_bind].
  change (Q_OK =? Q_EMPTY) with false. change (Q_OK =? Q_OK) with true. cbn [negb]. cbv iota.
  rewrite Hd. change (LOG_BUFF_SIZE <? LogHeader.size) with false. cbv iota.
  assert (zlen (d ++ drop (length d) buf) = LOG_BUFF_SIZE) as Hz.
  { rewrite zlen_app. unfold zlen in *. rewrite length_drop. lia. }
  unfold aset. rewrite (proj2 (Z.ltb_ge _ _)) by lia. by rewrite andb_false_r.
Qed.
End props.

Section start.
Context {F : Type} {OF : Files F} {VF : FileViews F} {LF : FilesLaws F} {TL : LocalTime}.
Implicit Types (f : F) (s : CLogSvrProc.t CShmQueue.t) (c : CLog.t CShmQueue.t) (sh : SharedMemory).

(** A client that opens the log takes the configuration that is in shared memory, but
    sets files of less than ten million bytes to that size, and to sixteen, for the
    server and all others too; on memory of zeros it makes a configuration of its own. *)
Theorem Open_attaches c f name level sh ds :
  unopened c name → queue_found (CLog.m_objLogQueue c) sh ds → shm_ok sh →
  let conf := CLog.m_objLogConf c in
  (∀ mm mi mu, conf_sized conf mm mi mu → iLogConfShmInitFlag (m_pstGlobalConf conf) = LOG_CONFSHM_INIT_FLAG →
     ∃ f' c', CLogOpen.Open c f name level sh = Ok (f', c') ∧ client_ok c' ∧ conf_rep c' mm mi mu ∧
       CLog.global c' = enlarged (m_pstGlobalConf conf) ∧ q_rep (CLog.m_objLogQueue c') ds ∧
       ∀ id user prio, wanted c' mm mi mu id user prio ↔ 1 ≤ prio ≤ 5 ∧
         (prio ≤ iOutputLogLevel (m_pstGlobalConf conf) ∨ allowed (mm !! CModuleName.of_str name) prio ∨
          allowed (mi !! u32 id) prio ∨ allowed (mu !! user) prio)) ∧
  (zeroed (m_objModuleConf conf) → zeroed (m_objLogIDConf conf) → zeroed (m_objUserIDConf conf) →
     ∃ f' c', CLogOpen.Open c f name level sh = Ok (f', c') ∧ client_ok c' ∧ conf_rep c' ∅ ∅ ∅ ∧
       CLog.global c' = CLogOpen.default_conf).
Proof.
  intros Hu Hq Hsh conf. split.
  - intros mm mi mu Hcs Hf. destruct (OpenConf_found conf mm mi mu Hcs Hf) as (conf' & Hc & Hcs' & Eg).
    destruct (Open_ok c f name level sh conf' mm mi mu ds Hu Hq Hsh Hc Hcs')
      as (f' & c' & Ho & _ & Hok & Hrep & Ec & Hi & Hn & Hl & Hqr & _).
    assert (CLog.global c' = enlarged (m_pstGlobalConf conf)) as Hg by (unfold CLog.global; by rewrite Ec).
    exists f', c'. split; [done|]. split; [done|]. split; [done|]. split; [done|]. split; [done|].
    intros id user prio. unfold wanted. rewrite Hg, Hi, Hn.
    replace (iOutputLogLevel (enlarged (m_pstGlobalConf conf))) with (iOutputLogLevel (m_pstGlobalConf conf)).
    + naive_solver.
    + unfold enlarged. by destruct (_ <? _).
  - intros Zm Zi Zu. destruct (OpenConf_new conf Zm Zi Zu) as (conf' & Hc & Hcs' & Eg).
    destruct (Open_ok c f name level sh conf' ∅ ∅ ∅ ds Hu Hq Hsh Hc Hcs') as (f' & c' & Ho & _ & Hok & Hrep & Ec & _).
    exists f', c'. split; [done|]. split; [done|]. split; [done|]. unfold CLog.global. by rewrite Ec.
Qed.

(** C18: from the start: a log server that starts with a file of its configuration, and a
    client that opens the log then; the first line the client logs, of a level the
    file lets through, ends up in the log of its module.  The configuration flushes
    every line, has files of at least 10240000 bytes (smaller ones [Open] would set
    to that) and no sections for log numbers or users. *)
Theorem first_line_is_written `{!FilesWork F} d s f sh g check n :
  ini_text d → CLogSvrInit.ReadGlobal (CIniFile.New (Some d)) = Ok (g, check, n) → 2 ≤ n →
  iFlushFlag g = 1 → iMaxFileNum g < 2 ^ 31 → LOG_DEFAULT_MIN_FILE_SIZE ≤ iMaxFileSize g →
  number_of (CIniFile.New (Some d)) (bytes "SpecLogIDConfNum") ≤ 0 →
  number_of (CIniFile.New (Some d)) (bytes "SpecUserIDConfNum") ≤ 0 →
  queue_found (m_objLogQueue s) sh [] → shm_ok sh → logs_ok (in_memory g) f ∅ →
  ∃ f1 s1, CLogSvrInit.Init s f (Some d) sh (true, true, true) = Ok (f1, s1, 0) ∧
    queue_had (m_objLogQueue s) sh (m_objLogQueue s1) ∧
  ∀ c0 name level sh', unopened c0 name → shm_ok sh' → CLog.m_objLogConf c0 = m_objLogConf s1 →
    queue_had (CLog.m_objLogQueue c0) sh' (m_objLogQueue s1) →
  ∃ f2 c, CLogOpen.Open c0 f1 name level sh' = Ok (f2, c) ∧
  ∀ f3 sec usec pid id user prio text buf,
    LogClientFacts.call_ok sec usec pid id user → text_of text → zlen text < LOG_LENGTH_MAX → 1 ≤ prio ≤ 5 →
    prio ≤ iOutputLogLevel g → f_timeofday f2 = (f3, (sec, usec)) → zlen buf = LOG_BUFF_SIZE →
    let hd := LogHeader.mk sec usec prio id pid (CModuleName.of_str name) user text in
    ∃ c' f' s' m' buf', LogInternal c f2 pid id user prio text = Ok (f3, c') ∧
      Run 1 (set_queue s1 (CLog.m_objLogQueue c')) f3 buf = Ok (f', s', buf') ∧
      serving (in_memory g) s' f' m' [] ∧ log_kept (in_memory g) f3 f' (log_of (in_memory g) hd) (LineText hd).
Proof.
  intros Hd Hg Hn Hfl Hnum Hbig Hi Hu Hq Hsh Hlogs.
  destruct (Init_serving d s f sh g check n [] Hd Hg Hn Hq Hsh Hi Hu Hlogs) as (f1 & s1 & mm & Hinit & Hs & Hcs & Ht & Hqh);
    [constructor|change (Z.of_nat (size (modules []))) with 0; lia|].
  exists f1, s1. split; [exact Hinit|]. split; [exact Hqh|]. intros c0 name level sh' Huo Hsh' Hmem Hq'.
  apply (opened_line_arrives (in_memory g) s1 f1 mm n c0 name level sh'); try done.
  - by eapply in_memory_ok.
  - apply (ReadGlobal_type _ _ _ _ Hg).
Qed.
End start.


(** * At the example server *)
Import LogServerExample.

Lemma log_run_keeps_lines_witness :
  ∃ q f' s' m' buf', q_rep q [waiting] ∧ Run 1 (set_queue server q) disk buff = Ok (f', s', buf') ∧
    serving conf s' f' m' [] ∧ log_kept conf disk f' (log_of conf header) (LineText header).
Proof.
  destruct queue_waiting as (q & Hq).
  destruct (log_run_keeps_lines conf (set_queue server q) disk ∅ [waiting] buff 1 conf_is_ok (serving_waiting q Hq) zlen_logbuff)
    as (f' & s' & m' & buf' & Hr & Hs & Hk).
  exists q, f', s', m', buf'. split; [exact Hq|]. split; [exact Hr|]. split; [exact Hs|].
  specialize (Hk (module_of header) LOG_ERR (HourOf header) (module_of_ok header)).
  unfold lines_for in Hk. cbn [take omap list_omap] in Hk. rewrite waiting_header in Hk.
  cbn [fmap list_fmap concat] in Hk. rewrite app_nil_r, decide_True in Hk by reflexivity.
  apply Hk; [by vm_compute|by vm_compute].
Defined.

Lemma logged_line_arrives_witness :
  ∃ c' f' s' m' buf', LogInternal client disk 99 7 5 LOG_ERR text = Ok (disk, c') ∧
    Run 1 (set_queue server (CLog.m_objLogQueue c')) disk buff = Ok (f', s', buf') ∧
    serving conf s' f' m' [] ∧ log_kept conf disk f' (log_of conf header) (LineText header).
Proof.
  apply (logged_line_arrives conf server disk disk ∅ [] client ∅ ∅ ∅ 1000000000 0 99 7 5 LOG_ERR text buff).
  - apply conf_is_ok.
  - apply serving_now.
  - apply zlen_logbuff.
  - apply client_is_ok.
  - by apply call_is_ok.
  - apply text_is_ok.
  - by vm_compute.
  - apply client_conf.
  - apply client_wants.
  - by vm_compute.
  - reflexivity.
  - change (zlen waiting ≤ q_max). rewrite zlen_waiting. by vm_compute.
  - change (q_fits (q_cap ConnServerExample.queue) [] waiting = true). unfold q_fits, q_cap, shm_fifo, shm_fits.
    rewrite zlen_waiting. reflexivity.
  - by vm_compute.
  - reflexivity.
Defined.

Lemma IsShouldWrite_decides_witness :
  CLog.IsShouldWrite client 7 5 LOG_ERR = Ok true ∧ CLog.IsShouldWrite client 7 5 LOG_WARN = Ok false.
Proof.
  split.
  - rewrite (IsShouldWrite_decides client ∅ ∅ ∅ 7 5 LOG_ERR client_conf). by vm_compute.
  - rewrite (IsShouldWrite_decides client ∅ ∅ ∅ 7 5 LOG_WARN client_conf). by vm_compute.
Defined.

(** A table of two nodes has room for one module. *)
Lemma full_module_table_drops_witness :
  let s := CLogSvrProc.mk all_conf ConnServerExample.queue (table_with info0 2 (bytes "conn") info0)
             (empty_table info0 8) (empty_table info0 8) 10 in
  DealLog s disk (waiting ++ [0]) = Ok (disk, s).
Proof.
  destruct (table_with_rep info0 2 (bytes "conn") info0) as [Hr Ht]; [done|].
  intros s. apply (full_module_table_drops s disk {[bytes "conn" := info0]} header).
  - by vm_compute.
  - by vm_compute.
  - exact Hr.
  - by vm_compute.
  - by vm_compute.
Defined.

Lemma Open_attaches_witness :
  ∃ f' c', CLogOpen.Open (newcomer zero_memory no_queue) disk (bytes "bus") None fresh = Ok (f', c') ∧
    conf_rep c' ∅ ∅ ∅ ∧ CLog.global c' = CLogOpen.default_conf.
Proof.
  destruct (Open_attaches (newcomer zero_memory no_queue) disk (bytes "bus") None fresh []
    (newcomer_unopened _ _) fresh_queue fresh_ok) as [_ Hnew].
  destruct (Hnew eq_refl eq_refl eq_refl) as (f' & c' & Ho & _ & Hr & Hg). exists f', c'.
  split; [exact Ho|]. split; [exact Hr|exact Hg].
Defined.

Lemma first_line_is_written_witness :
  ∃ f1 s1 f2 c c' f' s' m' buf', CLogSvrInit.Init before disk (Some file) fresh (true, true, true) = Ok (f1, s1, 0) ∧
    CLogOpen.Open (newcomer (m_objLogConf s1) (m_objLogQueue s1)) f1 (bytes "bus") None (found (m_objLogQueue s1)) = Ok (f2, c) ∧
    LogInternal c f2 99 7 5 LOG_ERR text = Ok (f2, c') ∧
    Run 1 (set_queue s1 (CLog.m_objLogQueue c')) f2 buff = Ok (f', s', buf') ∧ serving file_conf s' f' m' [].
Proof.
  destruct (first_line_is_written file before disk fresh file_conf 10 8) as (f1 & s1 & Hi & Hq & Hc).
  - apply file_ok.
  - apply file_global.
  - lia.
  - reflexivity.
  - reflexivity.
  - by vm_compute.
  - by vm_compute.
  - by vm_compute.
  - apply fresh_queue.
  - apply fresh_ok.
  - apply disk_logs.
  - destruct fresh_queue as (q & Hq1 & Hr1). pose proof (queue_had_unique _ _ _ _ Hq1 Hq) as ->.
    destruct (Hc (newcomer (m_objLogConf s1) (m_objLogQueue s1)) (bytes "bus") None (found (m_objLogQueue s1)))
      as (f2 & c & Ho & Hl).
    + apply newcomer_unopened.
    + apply found_ok.
    + reflexivity.
    + exact (found_queue _ _ _ _ Hq Hr1).
    + destruct (Hl f2 (Z.max 1 (u32 (FileSim.now f2))) 0 99 7 5 LOG_ERR text buff)
        as (c' & f' & s' & m' & buf' & H1 & H2 & H3 & _).
      * apply call_is_ok. pose proof (u32_range (FileSim.now f2)). lia.
      * apply text_is_ok.
      * vm_compute. reflexivity.
      * split; vm_compute; discriminate.
      * apply Z.le_refl.
      * reflexivity.
      * exact zlen_logbuff.
      * exists f1, s1, f2, c, c', f', s', m', buf'. split; [exact Hi|]. split; [exact Ho|]. split; [exact H1|].
        split; [exact H2|exact H3].
Defined.
