(* ===== verification/BusInit.v ===== *)
(** How the bus comes to its tables ([CBus::Init], bus/bus.cpp): the clusters,
    servers and groups of the file all daemons share, the queues of the servers
    of its own cluster, and the sockets it listens on. *)
From Stdlib Require Import Ascii String.
From stdpp Require Import gmap.
From S2P Require Import Prelude Fifo ShmQueue Wire Kernel ConnInfo BusState ConnState IniFile Mysql Conf.

#[local] Open Scope Z_scope.
#[local] Open Scope list_scope.
#[local] Arguments Z.add : simpl never.
#[local] Arguments Z.eqb : simpl never.
#[local] Arguments Z.ltb : simpl never.

Module CBusInit.
Import CBus.

Section init.
Context {Q K : Type} `{Kernel K} `{QueueInit Q}.
(** The files there are, by path; [inet_addr]. *)
Variable files : list Z → option (list Z).
Variable inet_addr : list Z → Z.
Implicit Types (b : t Q) (k : K) (BusFile : CIniFile.t).

Definition CLUSTER_ : list Z := bytes "CLUSTER_".
Definition SERVER_ : list Z := bytes "SERVER_".

(** The constructor; [q] is the queue object before its [Init]. *)
Definition New (q : Q) : t Q := mk 0 0 0 [] 0 0 ∅ ∅ ∅ ∅ q.

Definition set_conf b (ClusterID UDPHelloTime TCPHelloTime : Z) (buf : list Z) : t Q :=
  mk ClusterID (m_ConnPosCnt b) (m_ClusterPosCnt b) buf UDPHelloTime TCPHelloTime
     (m_PosConnMap b) (m_mapClusterInfo b) (m_mapSvrInfo b) (m_mapGrpInfo b) (m_ClusterQueue b).

(** A server joins its group. *)
Definition JoinGroup b (GroupID ServerID : Z) : t Q :=
  set_groups b (<[GroupID := default [] (m_mapGrpInfo b !! GroupID) ++ [ServerID]]> (m_mapGrpInfo b)).

(** [map.insert]: [None] if the server has an entry. *)
Definition insert_server b (ServerID : Z) (Info : ServerInfo.t Q) : option (t Q) :=
  match m_mapSvrInfo b !! ServerID with
  | Some _ => None
  | None => Some (set_servers b (<[ServerID := Info]> (m_mapSvrInfo b)))
  end.

(** A number of a section, an [unsigned int] that is 0 before. *)
Definition get_uint BusFile (sec item : list Z) : outcome Z :=
  '(v, _) ← CIniFile.GetInt BusFile sec item 0 0; Ok (u32 v).

(** A server of this cluster: it has a queue. *)
Definition InitOwnServer b BusFile (ClusterID ServerID : Z) : outcome (t Q * Z) :=
  let strSvr := section_of SERVER_ ServerID in
  tmpClusterID ← get_uint BusFile strSvr (bytes "ClusterID");
  tmpSvrID ← get_uint BusFile strSvr (bytes "ServerID");
  tmpGroupID ← get_uint BusFile strSvr (bytes "GroupID");
  '(QueueKey, _) ← CIniFile.GetInt BusFile strSvr (bytes "QueueKey") 0 0;
  '(QueueSize, _) ← CIniFile.GetInt BusFile strSvr (bytes "QueueSize") 0 0;
  if (tmpClusterID =? 0) || negb (tmpClusterID =? ClusterID) || (tmpSvrID =? 0) ||
     negb (tmpSvrID =? ServerID) || (tmpGroupID =? 0)
  then Ok (b, -1) else
  let b := JoinGroup b tmpGroupID ServerID in
  if (QueueKey =? 0) || (QueueSize =? 0) then Ok (b, -1) else
  '(pQueue, r) ← q_init QueueKey QueueSize;
  if negb (r =? 0) then Ok (b, -1) else
  match insert_server b ServerID (ServerInfo.mk ClusterID tmpGroupID BUS_SVR_ONLINE QueueKey QueueSize (Some pQueue)) with
  | None => Ok (b, -1)
  | Some b => Ok (b, 0)
  end.

(** A server of another cluster. *)
Definition InitOtherServer b BusFile (ClusterID ServerID : Z) : outcome (t Q * Z) :=
  let strSvr := section_of SERVER_ ServerID in
  tmpClusterID ← get_uint BusFile strSvr (bytes "ClusterID");
  tmpGroupID ← get_uint BusFile strSvr (bytes "GroupID");
  if (tmpClusterID =? 0) || negb (tmpClusterID =? ClusterID) || (tmpGroupID =? 0) then Ok (b, -1) else
  let b := JoinGroup b tmpGroupID ServerID in
  match insert_server b ServerID (ServerInfo.mk ClusterID tmpGroupID 0 0 0 None) with
  | None => Ok (b, -1)
  | Some b => Ok (b, 0)
  end.

Definition InitServer b BusFile (ClusterID ServerID : Z) : outcome (t Q * Z) :=
  if ClusterID =? m_ClusterID b then InitOwnServer b BusFile ClusterID ServerID
  else InitOtherServer b BusFile ClusterID ServerID.

(** The servers of a cluster. *)
Fixpoint InitServers b BusFile (ClusterID : Z) (ids : list Z) : outcome (t Q * Z) :=
  match ids with
  | [] => Ok (b, 0)
  | ServerID :: ids =>
      '(b, r) ← InitServer b BusFile ClusterID ServerID;
      if negb (r =? 0) then Ok (b, -1) else InitServers b BusFile ClusterID ids
  end.

(** A cluster of the list. *)
Definition InitCluster b k BusFile (ClusterID : Z) : outcome (K * t Q * Z) :=
  let strCluster := section_of CLUSTER_ ClusterID in
  '(CurIPStr, _) ← CIniFile.GetString BusFile strCluster (bytes "ListenIP") [] 16;
  '(CurPort, _) ← CIniFile.GetInt BusFile strCluster (bytes "ListenPort") 0 0;
  tmpClusterID ← get_uint BusFile strCluster (bytes "ClusterID");
  if bool_decide (CurIPStr = []) || (CurPort =? 0) then Ok (k, b, -1) else
  if negb (tmpClusterID =? ClusterID) || (ClusterID =? 0) then Ok (k, b, -1) else
  match m_mapClusterInfo b !! ClusterID with
  | Some _ => Ok (k, b, -1)
  | None =>
      let b := set_clusters b (<[ClusterID := ClusterInfo.mk (inet_addr CurIPStr) CurPort ClusterID (-1) 0]>
                                 (m_mapClusterInfo b)) in
      let '(k, b, r) :=
        if ClusterID =? m_ClusterID b then
          let '(k, b, r) := ListenTcp b k (inet_addr CurIPStr) CurPort in
          if negb (r =? 0) then (k, b, -1) else
          let '(k, b, r) := ListenUdp b k (inet_addr CurIPStr) CurPort in
          if negb (r =? 0) then (k, b, -1) else (k, b, 0)
        else (k, b, 0) in
      if negb (r =? 0) then Ok (k, b, -1) else
      '(aszSvrList, _) ← CIniFile.GetString BusFile strCluster (bytes "SrvList") [] 1024;
      '(b, r) ← InitServers b BusFile ClusterID (number_list aszSvrList);
      Ok (k, b, r)
  end.

Fixpoint InitClusters b k BusFile (ids : list Z) : outcome (K * t Q * Z) :=
  match ids with
  | [] => Ok (k, b, 0)
  | ClusterID :: ids =>
      '(k, b, r) ← InitCluster b k BusFile ClusterID;
      if negb (r =? 0) then Ok (k, b, -1) else InitClusters b k BusFile ids
  end.

(** The file all daemons share. *)
Definition InitBus b k BusFile : outcome (K * t Q * Z) :=
  '(GCIMKey, _) ← CIniFile.GetInt BusFile (bytes "BUS_GLOBAL") (bytes "GCIMKey") 0 0;
  '(GCIMSize, _) ← CIniFile.GetInt BusFile (bytes "BUS_GLOBAL") (bytes "GCIMSize") 0 0;
  '(aszClusterList, _) ← CIniFile.GetString BusFile (bytes "BUS_GLOBAL") (bytes "ClusterList") [] 1024;
  if (GCIMKey =? 0) || (GCIMSize =? 0) then Ok (k, b, -1) else
  '(q, Ret) ← q_init GCIMKey GCIMSize;
  let b := set_cqueue b q in
  if negb (Ret =? 0) then Ok (k, b, -1) else
  let vctClusterID := number_list aszClusterList in
  if bool_decide (vctClusterID = []) then Ok (k, b, -1) else
  InitClusters b k BusFile vctClusterID.

(** [buf] is what [malloc] gives, [EpollFD] what [epoll_create] does. *)
Definition Init b k (pConfFile buf : list Z) (EpollFD : Z) : outcome (K * t Q * Z) :=
  let IniFile := CIniFile.New (files pConfFile) in
  if negb (CIniFile.IsValid IniFile) then Ok (k, b, -1) else
  '(ClusterID, _) ← CIniFile.GetInt IniFile (bytes "BUS") (bytes "ClusterID") 0 (m_ClusterID b);
  '(UDPHelloTime, _) ← CIniFile.GetInt IniFile (bytes "BUS") (bytes "UDPHelloTime") 0 (m_UDPHelloTime b);
  '(TCPHelloTime, _) ← CIniFile.GetInt IniFile (bytes "BUS") (bytes "TCPHelloTime") 0 (m_TCPHelloTime b);
  '(BusConfPath, _) ← CIniFile.GetString IniFile (bytes "BUS") (bytes "BusConfPath") [] 256;
  '(ModuleName, _) ← CIniFile.GetString IniFile (bytes "LOG") (bytes "ModuleName") (bytes "bus") 256;
  let b := set_conf b (u32 ClusterID) UDPHelloTime TCPHelloTime (m_pProcessBuff b) in
  if m_ClusterID b =? 0 then Ok (k, b, -1) else
  if bool_decide (BusConfPath = []) then Ok (k, b, -1) else
  if bool_decide (ModuleName = []) then Ok (k, b, -1) else
  let b := set_conf b (u32 ClusterID) UDPHelloTime TCPHelloTime buf in
  if EpollFD =? -1 then Ok (k, b, -1) else
  let BusFile := CIniFile.New (files BusConfPath) in
  if negb (CIniFile.IsValid BusFile) then Ok (k, b, -1) else
  InitBus b k BusFile.
End init.
End CBusInit.
