(* ===== verification/BusInitProps.v ===== *)
(** What [CBus::Init] leaves behind, for any files: tables that fit together, the
    state the theorems on connections and routing start from; and a network of
    two clusters the bus is set up from. *)
From Stdlib Require Import Ascii String.
From stdpp Require Import gmap.
From S2P Require Import Prelude Fifo ShmQueue Wire Kernel ConnInfo BusState BusConn BusRoute BusFacts.
From S2P Require Import ConnState IniFile Mysql Conf BusInit.

Import CBus CBusInit.

#[local] Open Scope Z_scope.
#[local] Open Scope list_scope.
#[local] Arguments Z.add : simpl never.
#[local] Arguments Z.eqb : simpl never.
#[local] Arguments Z.ltb : simpl never.

Section facts.
Context {Q K : Type} `{FifoQueue Q} `{Kernel K} `{!QueueInit Q}.
Implicit Types (b : t Q) (k : K) (i : ServerInfo.t Q) (l : list Z).

(** Servers, groups and clusters fit together: every server is in the group it
    names and in no other, and only those of the own cluster have a queue. *)
Record tables_ok b : Prop := {
  ti_server id i : m_mapSvrInfo b !! id = Some i →
    ServerInfo.GroupID i ≠ 0 ∧ ServerInfo.ClusterID i ≠ 0 ∧ is_Some (m_mapClusterInfo b !! ServerInfo.ClusterID i);
  ti_queue id i : m_mapSvrInfo b !! id = Some i →
    if decide (ServerInfo.ClusterID i = m_ClusterID b)
    then ∃ q, ServerInfo.pQueue i = Some q ∧ q_init (ServerInfo.QueueKey i) (ServerInfo.QueueSize i) = Ok (q, 0)
    else ServerInfo.pQueue i = None;
  ti_group g l : m_mapGrpInfo b !! g = Some l → NoDup l ∧ l ≠ [] ∧
    ∀ id, id ∈ l ↔ ∃ i, m_mapSvrInfo b !! id = Some i ∧ ServerInfo.GroupID i = g;
  ti_member id i : m_mapSvrInfo b !! id = Some i → is_Some (m_mapGrpInfo b !! ServerInfo.GroupID i);
}.

(** Other tables of servers and groups. *)
Definition with_tables b (svr : gmap Z (ServerInfo.t Q)) (grp : gmap Z (list Z)) : t Q :=
  set_groups (set_servers b svr) grp.

Lemma with_tables_self b : with_tables b (m_mapSvrInfo b) (m_mapGrpInfo b) = b.
Proof. by destruct b. Qed.

Lemma conns_ok_tables b svr grp : conns_ok b → conns_ok (with_tables b svr grp).
Proof. intros []. by constructor. Qed.

(** A server that has no entry yet joins its group and gets one. *)
Lemma join_ok b id i :
  tables_ok b → m_mapSvrInfo b !! id = None → ServerInfo.GroupID i ≠ 0 → ServerInfo.ClusterID i ≠ 0 →
  is_Some (m_mapClusterInfo b !! ServerInfo.ClusterID i) →
  (if decide (ServerInfo.ClusterID i = m_ClusterID b)
   then ∃ q, ServerInfo.pQueue i = Some q ∧ q_init (ServerInfo.QueueKey i) (ServerInfo.QueueSize i) = Ok (q, 0)
   else ServerInfo.pQueue i = None) →
  tables_ok (set_servers (JoinGroup b (ServerInfo.GroupID i) id) (<[id := i]> (m_mapSvrInfo b))).
Proof.
  intros [Hs Hq Hg Hm] Hid Hgi Hci Hcl Hqi. set (g := ServerInfo.GroupID i) in *. constructor; cbn.
  - intros x j [[<- <-]|[? Hj]]%lookup_insert_Some; [done|by apply (Hs x)].
  - intros x j [[<- <-]|[? Hj]]%lookup_insert_Some; [done|by apply (Hq x)].
  - assert (∀ l, m_mapGrpInfo b !! g = Some l → id ∉ l) as Hnew.
    { intros l Hl Hin. apply Hg in Hl as (_ & _ & Hl). apply Hl in Hin as (j & Hj & _). congruence. }
    intros x l [[<- <-]|[Hx Hl]]%lookup_insert_Some.
    + destruct (m_mapGrpInfo b !! g) as [l|] eqn:El; cbn [default].
      * pose proof (Hg g l El) as (Hnd & _ & Hin). split; [|split].
        -- apply NoDup_app. split; [done|]. split; [|apply NoDup_singleton]. intros y Hy ->%list_elem_of_singleton. by apply (Hnew l).
        -- by destruct l.
        -- intros y. rewrite elem_of_app, list_elem_of_singleton. split.
           ++ intros [Hy| ->]; [|exists i; by rewrite lookup_insert_eq]. destruct (decide (y = id)) as [->|Hne]; [by apply Hnew in Hy|].
              apply Hin in Hy as (j & Hj & Hgj). exists j. by rewrite lookup_insert_ne.
           ++ intros (j & [[<- <-]|[? Hj]]%lookup_insert_Some & Hgj); [by right|]. left. apply Hin. by exists j.
      * split; [apply NoDup_singleton|]. split; [done|]. intros y. cbn. rewrite list_elem_of_singleton. split.
        -- intros ->. exists i. by rewrite lookup_insert_eq.
        -- intros (j & [[<- <-]|[? Hj]]%lookup_insert_Some & Hgj); [done|]. apply Hm in Hj as [? Hj]. by rewrite Hgj, El in Hj.
    + pose proof (Hg x l Hl) as (Hnd & Hne & Hin). split; [done|]. split; [done|]. intros y. rewrite Hin. split.
      * intros (j & Hj & Hgj). exists j. by rewrite lookup_insert_ne by congruence.
      * intros (j & [[<- <-]|[? Hj]]%lookup_insert_Some & Hgj); [done|]. by exists j.
  - intros x j [[<- <-]|[? Hj]]%lookup_insert_Some.
    + fold g. rewrite lookup_insert_eq. by eexists.
    + apply Hm in Hj as Hg'. destruct (decide (g = ServerInfo.GroupID j)) as [Heq|Hne].
      * rewrite <- Heq, lookup_insert_eq. by eexists.
      * by rewrite lookup_insert_ne.
Qed.

(** * Reading the shared file *)
Section read.
Context (d : list Z) (Hd : conf_text d).
Abbreviation BusFile := (CIniFile.New (Some d)).

Lemma section_ok kind id : kind = CLUSTER_ ∨ kind = SERVER_ → sec_ok d (section_of kind id).
Proof.
  intros Hk. apply conf_section_of; [done|destruct Hk as [-> | ->]; by vm_compute|].
  destruct Hk as [-> | ->]; by apply (bool_decide_unpack _); vm_compute.
Qed.

Lemma get_uint_ok sec it : sec_ok d sec → item_ok it → ∃ v, get_uint BusFile sec it = Ok v.
Proof.
  intros Hs Hi. unfold get_uint. destruct (read_int d (ct_text _ Hd) (conf_text_some _ Hd) sec it 0 0 Hs Hi) as (n & r & ->).
  by eexists.
Qed.

End read.
End facts.

Ltac get_uint v :=
  match goal with |- _ (mbind _ (get_uint (CIniFile.New (Some ?d)) ?s ?i)) =>
    let E := fresh in destruct (get_uint_ok d ltac:(assumption) s i ltac:(assumption) ltac:(item)) as [v E];
    rewrite E; clear E; cbn [mbind outcome_bind] end.

Section init_facts.
Context {Q K : Type} `{FifoQueue Q} `{Kernel K} `{!QueueInit Q} `{!QueueInitLaws Q}.
Implicit Types (b : t Q) (k : K).

Lemma set_servers_with b id i g :
  set_servers (JoinGroup b g id) (<[id := i]> (m_mapSvrInfo b)) =
  with_tables b (<[id := i]> (m_mapSvrInfo b)) (m_mapGrpInfo (JoinGroup b g id)).
Proof. by destruct b. Qed.

Lemma JoinGroup_with b g id : JoinGroup b g id = with_tables b (m_mapSvrInfo b) (m_mapGrpInfo (JoinGroup b g id)).
Proof. by destruct b. Qed.

(** What a step of the reading of the servers does: it changes the two tables
    only, and leaves them fitting if it succeeds. *)
Definition servers_read b (o : outcome (t Q * Z)) : Prop :=
  ∃ X Y r, o = Ok (with_tables b X Y, r) ∧ (r = 0 ∨ r = -1) ∧ (r = 0 → tables_ok (with_tables b X Y)).

Lemma read_failed b : servers_read b (Ok (b, -1)).
Proof. exists (m_mapSvrInfo b), (m_mapGrpInfo b), (-1). rewrite with_tables_self. split_and!; auto. done. Qed.

Lemma read_failed_joined b g id : servers_read b (Ok (JoinGroup b g id, -1)).
Proof. rewrite JoinGroup_with. eexists _, _, (-1). split_and!; auto. done. Qed.

Lemma read_joined b id i :
  tables_ok b → ServerInfo.GroupID i ≠ 0 → ServerInfo.ClusterID i ≠ 0 →
  is_Some (m_mapClusterInfo b !! ServerInfo.ClusterID i) →
  (if decide (ServerInfo.ClusterID i = m_ClusterID b)
   then ∃ q, ServerInfo.pQueue i = Some q ∧ q_init (ServerInfo.QueueKey i) (ServerInfo.QueueSize i) = Ok (q, 0)
   else ServerInfo.pQueue i = None) →
  servers_read b (match insert_server (JoinGroup b (ServerInfo.GroupID i) id) id i with
                  | None => Ok (JoinGroup b (ServerInfo.GroupID i) id, -1)
                  | Some b' => Ok (b', 0)
                  end).
Proof.
  intros Ht Hg Hc Hcl Hq. unfold insert_server. change (m_mapSvrInfo (JoinGroup b (ServerInfo.GroupID i) id)) with (m_mapSvrInfo b).
  destruct (m_mapSvrInfo b !! id) eqn:E; [apply read_failed_joined|].
  pose proof (join_ok b id i Ht E Hg Hc Hcl Hq) as Hj. rewrite set_servers_with in Hj |- *.
  eexists _, _, 0. split; [done|]. split; [by left|done].
Qed.

Section servers.
Context (d : list Z) (Hd : conf_text d).
Abbreviation BusFile := (CIniFile.New (Some d)).

Lemma InitServer_ok b ClusterID id :
  tables_ok b → is_Some (m_mapClusterInfo b !! ClusterID) → servers_read b (InitServer b BusFile ClusterID id).
Proof.
  intros Ht Hcl. assert (sec_ok d (section_of SERVER_ id)) as Hsec by (apply section_ok; auto).
  unfold InitServer. destruct (Z.eqb_spec ClusterID (m_ClusterID b)) as [Hown|Hother].
  - unfold InitOwnServer. get_uint vc. get_uint vs. get_uint vg. get_int qk. get_int qs.
    destruct (Z.eqb_spec vc 0); [apply read_failed|]. destruct (Z.eqb_spec vc ClusterID) as [->|]; [|apply read_failed].
    destruct (Z.eqb_spec vs 0); [apply read_failed|]. destruct (Z.eqb_spec vs id) as [->|]; [|apply read_failed].
    destruct (Z.eqb_spec vg 0); [apply read_failed|]. cbn [orb negb]. cbv zeta.
    destruct (_ || _); [apply read_failed_joined|].
    destruct (q_init_total qk qs) as (q & Ret & Hq). rewrite Hq. cbn [mbind outcome_bind].
    destruct (Z.eqb_spec Ret 0) as [->|]; cbn [negb]; [|apply read_failed_joined].
    apply (read_joined b id (ServerInfo.mk ClusterID vg BUS_SVR_ONLINE qk qs (Some q))); try done.
    cbn. rewrite decide_True by done. by exists q.
  - unfold InitOtherServer. get_uint vc. get_uint vg.
    destruct (Z.eqb_spec vc 0); [apply read_failed|]. destruct (Z.eqb_spec vc ClusterID) as [->|]; [|apply read_failed].
    destruct (Z.eqb_spec vg 0); [apply read_failed|]. cbn [orb negb]. cbv zeta.
    apply (read_joined b id (ServerInfo.mk ClusterID vg 0 0 0 None)); try done. cbn. by rewrite decide_False.
Qed.

Lemma InitServers_ok b ClusterID ids :
  tables_ok b → is_Some (m_mapClusterInfo b !! ClusterID) → servers_read b (InitServers b BusFile ClusterID ids).
Proof.
  revert b. induction ids as [|id ids IH]; intros b Ht Hcl; cbn [InitServers].
  { exists (m_mapSvrInfo b), (m_mapGrpInfo b), 0. rewrite with_tables_self. auto. }
  destruct (InitServer_ok b ClusterID id Ht Hcl) as (X & Y & r & -> & [-> | ->] & Hr); cbn [mbind outcome_bind].
  - change (negb (0 =? 0)) with false. cbv iota.
    destruct (IH (with_tables b X Y) (Hr eq_refl) Hcl) as (X' & Y' & r' & -> & ? & ?). by exists X', Y', r'.
  - change (negb (-1 =? 0)) with true. cbv iota. eexists _, _, (-1). split_and!; [done|by right|done].
Qed.
End servers.

(** * Clusters *)
Definition listening b : Prop :=
  is_Some (m_PosConnMap b !! LISTEN_SOCK_CPOS_MIN) ∧ is_Some (m_PosConnMap b !! LISTEN_UDP_CPOS_MIN).

(** The clusters [ids] have been read into [b]: nothing else has changed, and
    there are the two sockets if one of them is the bus's own. *)
Record clusters_added b b' (ids : list Z) : Prop := {
  ca_id : m_ClusterID b' = m_ClusterID b;
  ca_buff : m_pProcessBuff b' = m_pProcessBuff b;
  ca_queue : m_ClusterQueue b' = m_ClusterQueue b;
  ca_conns : conns_ok b';
  ca_tables : tables_ok b → tables_ok b';
  ca_dom id : is_Some (m_mapClusterInfo b' !! id) ↔ is_Some (m_mapClusterInfo b !! id) ∨ id ∈ ids;
  ca_sub : m_PosConnMap b ⊆ m_PosConnMap b';
  ca_listen : m_ClusterID b ∈ ids → listening b';
}.

Definition clusters_read b (ids : list Z) (o : outcome (K * t Q * Z)) : Prop :=
  ∃ k b' r, o = Ok (k, b', r) ∧ (r = 0 ∨ r = -1) ∧ (r = 0 → clusters_added b b' ids).

Lemma clusters_failed b ids k b' : clusters_read b ids (Ok (k, b', -1)).
Proof. eexists _, _, _. split; [done|]. split; [by right|done]. Qed.

Lemma clusters_added_nil b : conns_ok b → clusters_added b b [].
Proof. intros Hc. constructor; try done; [|by intros ?%elem_of_nil]. intros id. rewrite elem_of_nil. tauto. Qed.

Lemma listening_sub b b' : m_PosConnMap b ⊆ m_PosConnMap b' → listening b → listening b'.
Proof. intros Hs [[x Hx] [y Hy]]. split; eexists; by eapply lookup_weaken. Qed.

Lemma clusters_added_cons b b1 b' id ids :
  clusters_added b b1 [id] → clusters_added b1 b' ids → clusters_added b b' (id :: ids).
Proof.
  intros [] []. constructor; try congruence; auto.
  - intros x. rewrite ca_dom1, ca_dom0, !elem_of_cons, elem_of_nil. tauto.
  - by transitivity (m_PosConnMap b1).
  - intros [Heq|Hin]%elem_of_cons; [|apply ca_listen1; congruence].
    apply (listening_sub b1); [done|]. apply ca_listen0. rewrite Heq. by left.
Qed.

(** Tables fit if more clusters are known. *)
Lemma tables_ok_more b b' :
  m_ClusterID b' = m_ClusterID b → m_mapSvrInfo b' = m_mapSvrInfo b → m_mapGrpInfo b' = m_mapGrpInfo b →
  (∀ id, is_Some (m_mapClusterInfo b !! id) → is_Some (m_mapClusterInfo b' !! id)) → tables_ok b → tables_ok b'.
Proof.
  intros Hi Hs Hg Hc []. constructor; rewrite ?Hs, ?Hg, ?Hi; try done.
  intros id i Hid. destruct (ti_server0 id i Hid) as (? & ? & ?). auto.
Qed.

(** A cluster that has no connection yet. *)
Definition add_cluster b (id ip port : Z) : t Q :=
  set_clusters b (<[id := ClusterInfo.mk ip port id (-1) 0]> (m_mapClusterInfo b)).

Lemma add_cluster_conns b id ip port : m_mapClusterInfo b !! id = None → conns_ok b → conns_ok (add_cluster b id ip port).
Proof.
  intros Hn []. constructor; cbn; try done.
  - intros x i [[-> ->]|[? Hi]]%lookup_clusters; [done|by apply co_id].
  - intros i [[_ ->]|[? Hi]]%lookup_clusters; [done|by apply co_own].
  - intros x i [[-> ->]|[? Hi]]%lookup_clusters; [by left|by apply (co_link x)].
  - intros x y i j [[-> ->]|[? Hi]]%lookup_clusters [[-> ->]|[? Hj]]%lookup_clusters; cbn; try done; by apply co_inj.
  - intros p Hp Hc. destruct (co_back p Hp Hc) as (x & i & Hx & Hpos). exists x, i. split; [|done].
    rewrite lookup_insert_ne; [done|congruence].
Qed.

(** The two sockets. *)
Lemma ListenTcp_conn b k ip port k' b' r :
  ListenTcp b k ip port = (k', b', r) →
  m_PosConnMap b ⊆ m_PosConnMap b' ∧ (r = 0 → is_Some (m_PosConnMap b' !! LISTEN_SOCK_CPOS_MIN)).
Proof.
  unfold ListenTcp. intros Hl. repeat (case_match; simplify_eq; try (by split; [|try (by intros ->); try done])).
  match goal with Hi : insert_conn _ _ _ = Some _ |- _ => apply insert_conn_Some in Hi as [? ->] end. cbn. split; [by apply insert_subseteq|]. intros _. by rewrite lookup_insert_eq.
Qed.

Lemma ListenUdp_conn b k ip port k' b' r :
  ListenUdp b k ip port = (k', b', r) →
  m_PosConnMap b ⊆ m_PosConnMap b' ∧ (r = 0 → is_Some (m_PosConnMap b' !! LISTEN_UDP_CPOS_MIN)).
Proof.
  unfold ListenUdp. intros Hl. repeat (case_match; simplify_eq; try (by split; [|try (by intros ->); try done])).
  match goal with Hi : insert_conn _ _ _ = Some _ |- _ => apply insert_conn_Some in Hi as [? ->] end. cbn. split; [by apply insert_subseteq|]. intros _. by rewrite lookup_insert_eq.
Qed.

Lemma add_cluster_dom b id ip port x :
  is_Some (m_mapClusterInfo (add_cluster b id ip port) !! x) ↔ is_Some (m_mapClusterInfo b !! x) ∨ x ∈ [id].
Proof.
  cbn. rewrite list_elem_of_singleton. destruct (decide (x = id)) as [->|Hne].
  - rewrite lookup_insert_eq. split; [by right|by eexists].
  - rewrite lookup_insert_ne by done. naive_solver.
Qed.

(** A cluster that is not the bus's own. *)
Lemma added_other b id ip port :
  id ≠ m_ClusterID b → m_mapClusterInfo b !! id = None → conns_ok b → clusters_added b (add_cluster b id ip port) [id].
Proof.
  intros Hid Hn Hc. constructor; try done.
  - by apply add_cluster_conns.
  - apply tables_ok_more; try done. intros x Hx. apply add_cluster_dom. by left.
  - apply add_cluster_dom.
  - by intros ?%list_elem_of_singleton.
Qed.

(** The bus's own: it listens. *)
Lemma added_own b k ip port id c k1 b1 k2 b2 :
  id = m_ClusterID b → m_mapClusterInfo b !! id = None → conns_ok b →
  ListenTcp (add_cluster b id ip port) k ip c = (k1, b1, 0) → ListenUdp b1 k1 ip c = (k2, b2, 0) →
  clusters_added b b2 [id].
Proof.
  intros Hid Hn Hc Ht Hu.
  destruct (ListenTcp_ok _ k ip c (add_cluster_conns b id ip port Hn Hc)) as (? & ? & ? & Ht' & Hc1 & S1).
  rewrite Ht in Ht'. injection Ht' as <- <- <-.
  destruct (ListenUdp_ok _ k1 ip c Hc1) as (? & ? & ? & Hu' & Hc2 & S2). rewrite Hu in Hu'. injection Hu' as <- <- <-.
  pose proof (ListenTcp_conn _ _ _ _ _ _ _ Ht) as [Hs1 Hl1]. pose proof (ListenUdp_conn _ _ _ _ _ _ _ Hu) as [Hs2 Hl2].
  pose proof (transitivity S1 S2) as []. constructor; try done.
  - apply tables_ok_more; try done. intros x Hx. apply sc_dom, add_cluster_dom. by left.
  - intros x. rewrite sc_dom. apply add_cluster_dom.
  - by transitivity (m_PosConnMap b1).
  - intros _. split; [|by apply Hl2]. destruct (Hl1 eq_refl) as [y Hy]. exists y. by eapply lookup_weaken.
Qed.

Lemma added_servers b b' ids X Y :
  clusters_added b b' ids → (tables_ok b' → tables_ok (with_tables b' X Y)) → clusters_added b (with_tables b' X Y) ids.
Proof. intros [] Ht. constructor; try done; [by apply conns_ok_tables|auto]. Qed.

Section clusters.
Context (d : list Z) (Hd : conf_text d) (inet_addr : list Z → Z).
Abbreviation BusFile := (CIniFile.New (Some d)).

(** The sockets of a cluster. *)
Lemma InitCluster_ok b k id :
  conns_ok b → tables_ok b → clusters_read b [id] (InitCluster inet_addr b k BusFile id).
Proof.
  intros Hc Ht. assert (sec_ok d (section_of CLUSTER_ id)) as Hsec by (apply section_ok; auto).
  unfold InitCluster. get_string ipstr. get_int port. get_uint vc.
  destruct (_ || _); [apply clusters_failed|]. destruct (_ || _); [apply clusters_failed|].
  destruct (m_mapClusterInfo b !! id) as [i|] eqn:Hn; [apply clusters_failed|].
  fold (add_cluster b id (inet_addr ipstr) port).
  assert (∀ k1 b1, clusters_added b b1 [id] → clusters_read b [id]
    ('(aszSvrList, _) ← CIniFile.GetString BusFile (section_of CLUSTER_ id) (bytes "SrvList") [] 1024;
     '(b, r) ← InitServers b1 BusFile id (number_list aszSvrList); Ok (k1, b, r))) as Hservers.
  { intros k1 b1 Ha. get_string svrs.
    destruct (InitServers_ok d Hd b1 id (number_list svrs)) as (X & Y & r' & -> & Hr & Hok);
      [by apply Ha|apply Ha; right; by left|].
    cbn [mbind outcome_bind]. eexists _, _, _. split; [done|]. split; [done|]. intros ->.
    apply added_servers; auto. }
  cbv zeta. destruct (Z.eqb_spec id (m_ClusterID b)) as [Hown|Hother].
  - change (m_ClusterID (add_cluster b id (inet_addr ipstr) port)) with (m_ClusterID b). rewrite Hown, Z.eqb_refl.
    rewrite Hown in *.
    destruct (ListenTcp _ k _ _) as [[k1 b1] r1] eqn:Et. destruct (Z.eqb_spec r1 0) as [->|]; [|apply clusters_failed].
    destruct (ListenUdp _ _ _ _) as [[k2 b2] r2] eqn:Eu. destruct (Z.eqb_spec r2 0) as [->|]; [|apply clusters_failed].
    apply Hservers. by eapply added_own.
  - change (m_ClusterID (add_cluster b id (inet_addr ipstr) port)) with (m_ClusterID b).
    rewrite (proj2 (Z.eqb_neq _ _) Hother). apply Hservers. by apply added_other.
Qed.

Lemma InitClusters_ok b k ids :
  conns_ok b → tables_ok b → clusters_read b ids (InitClusters inet_addr b k BusFile ids).
Proof.
  revert b k. induction ids as [|id ids IH]; intros b k Hc Ht; cbn [InitClusters].
  { eexists _, _, 0. split; [done|]. split; [by left|]. intros _. by apply clusters_added_nil. }
  destruct (InitCluster_ok b k id Hc Ht) as (k1 & b1 & r & -> & [-> | ->] & Ha); cbn [mbind outcome_bind].
  - change (negb (0 =? 0)) with false. cbv iota. specialize (Ha eq_refl).
    destruct (IH b1 k1) as (k2 & b2 & r' & -> & ? & Ha'); [apply Ha|by apply Ha|].
    eexists _, _, _. split; [done|]. split; [done|]. intros Hr. by apply (clusters_added_cons b b1); [|apply Ha'].
  - apply clusters_failed.
Qed.

Definition bus_read b (o : outcome (K * t Q * Z)) : Prop :=
  ∃ k' b' r, o = Ok (k', b', r) ∧ (r = 0 ∨ r = -1) ∧
    (r = 0 → ∃ key size q ids, q_init key size = Ok (q, 0) ∧ clusters_added (set_cqueue b q) b' ids ∧ ids ≠ []).

Lemma bus_failed b k b' : bus_read b (Ok (k, b', -1)).
Proof. eexists _, _, _. split; [done|]. split; [by right|done]. Qed.

Lemma InitBus_ok b k : conns_ok b → tables_ok b → bus_read b (InitBus inet_addr b k BusFile).
Proof.
  intros Hc Ht.
  assert (sec_ok d (bytes "BUS_GLOBAL")) as Hsec.
  { apply conf_sec; [done|done|]. apply (bool_decide_unpack _). by vm_compute. }
  unfold InitBus. get_int key. get_int sz. get_string lst.
  destruct (_ || _); [apply bus_failed|].
  destruct (q_init_total key sz) as (q & Ret & Hq). rewrite Hq. cbn [mbind outcome_bind]. cbv zeta.
  destruct (Z.eqb_spec Ret 0) as [->|]; cbn [negb]; [|apply bus_failed].
  case_bool_decide as Hids; [apply bus_failed|].
  destruct (InitClusters_ok (set_cqueue b q) k (number_list lst)) as (k' & b' & r' & -> & Hr & Ha).
  { destruct Hc. by constructor. } { by apply (tables_ok_more b). }
  eexists _, _, _. split; [done|]. split; [done|]. intros H0'. by exists key, sz, q, (number_list lst); auto.
Qed.
End clusters.

(** What is in the queues of the servers. *)
Definition stored b (id : Z) : list (list Z) :=
  match m_mapSvrInfo b !! id with Some i => q_stored (ServerInfo.QueueKey i) | None => [] end.

Lemma tables_hold b : tables_ok b → holds b (stored b).
Proof.
  intros Ht id i q Hi Hq. unfold stored. rewrite Hi. pose proof (ti_queue _ Ht id i Hi) as Hqi. case_decide.
  - destruct Hqi as (q' & Hq' & Hinit). rewrite Hq in Hq'. injection Hq' as <-. by eapply q_init_rep.
  - by rewrite Hq in Hqi.
Qed.

(** * [CBus::Init] *)
Lemma New_ok (q : Q) : conns_ok (New q) ∧ tables_ok (New q).
Proof. split; constructor; try done; auto. by intros ? [? ?]. Qed.

Lemma set_conf_ok b id u c buf : conns_ok b → tables_ok b → m_mapClusterInfo b = ∅ → m_mapSvrInfo b = ∅ →
  conns_ok (set_conf b id u c buf) ∧ tables_ok (set_conf b id u c buf).
Proof.
  intros [] [] Hcl Hs. split; constructor; try done; cbn.
  - intros i. by rewrite Hcl, lookup_empty.
  - intros x i. by rewrite Hs, lookup_empty.
Qed.

(** What [Init] promises of the bus it has set up. *)
Record initialized (b : t Q) : Prop := {
  in_id : m_ClusterID b ≠ 0;
  in_conns : conns_ok b;
  in_tables : tables_ok b;
  in_ready : ready b (stored b);
  in_queue : ∃ key, q_rep (m_ClusterQueue b) (q_stored key);
  in_listen : is_Some (m_mapClusterInfo b !! m_ClusterID b) → listening b;
}.

Lemma bus_Init_ok files inet_addr (q : Q) k path buf fd :
  conf_files files → zlen buf = XY_PKG_MAX_LEN →
  ∃ k' b' r, Init files inet_addr (New q) k path buf fd = Ok (k', b', r) ∧ (r = 0 ∨ r = -1) ∧ (r = 0 → initialized b').
Proof.
  intros Hf Hbuf.
  set (P o := ∃ k' b' r, o = Ok (k', b', r) ∧ (r = 0 ∨ r = -1) ∧ (r = 0 → initialized b')). 
  change (P (Init files inet_addr (New q) k path buf fd)).
  assert (∀ k' b', P (Ok (k', b', -1))) as Hfail by (intros; eexists _, _, _; split; [done|]; split; [by right|done]).
  unfold Init. destruct (CIniFile.IsValid (CIniFile.New (files path))) eqn:Hv; [|apply Hfail].
  destruct (conf_valid _ _ Hf Hv) as (d & Hp & Hd). rewrite Hp. cbn [negb].
  assert (sec_ok d (bytes "BUS")) as Hb. { apply conf_sec; [done|done|]. apply (bool_decide_unpack _). by vm_compute. }
  assert (sec_ok d (bytes "LOG")) as Hl. { apply conf_sec; [done|done|]. apply (bool_decide_unpack _). by vm_compute. }
  get_int cid. get_int u. get_int c. get_string bpath. get_string mname. cbv zeta.
  destruct (Z.eqb_spec (m_ClusterID (set_conf (New q) (u32 cid) u c (m_pProcessBuff (New q)))) 0) as [|Hid]; [apply Hfail|].
  cbn in Hid. case_bool_decide; [apply Hfail|]. case_bool_decide; [apply Hfail|].
  destruct (fd =? -1); [apply Hfail|].
  destruct (CIniFile.IsValid (CIniFile.New (files bpath))) eqn:Hv2; [|apply Hfail].
  destruct (conf_valid _ _ Hf Hv2) as (d2 & Hp2 & Hd2). rewrite Hp2. cbn [negb].
  destruct (New_ok q) as [Hc0 Ht0].
  assert (conns_ok (set_conf (New q) (u32 cid) u c buf) ∧ tables_ok (set_conf (New q) (u32 cid) u c buf)) as [Hc Ht]
    by by apply set_conf_ok.
  destruct (InitBus_ok d2 Hd2 inet_addr _ k Hc Ht) as (k' & b' & r' & Heq & Hr & Ha).
  exists k', b', r'. split; [exact Heq|]. split; [done|]. intros H0'.
  destruct (Ha H0') as (key & sz & q' & ids & Hq & Hca & _).
  assert (tables_ok b') as Htab.
  { apply (ca_tables _ _ _ Hca). by apply (tables_ok_more (set_conf (New q) (u32 cid) u c buf)). }
  constructor; try apply Hca.
  - rewrite (ca_id _ _ _ Hca). done.
  - done.
  - split; [by apply tables_hold|]. by rewrite (ca_buff _ _ _ Hca).
  - exists key. rewrite (ca_queue _ _ _ Hca). by eapply q_init_rep.
  - intros [[? Hx]|Hin]%Hca; [done|]. apply (ca_listen _ _ _ Hca). by rewrite <- (ca_id _ _ _ Hca).
Qed.
End init_facts.

(** ** A file for one bus, and the one all share *)
Module BusInitExample.
Definition own_file (id : string) : list Z :=
  conf_lines [first_line "bus"; [13]; bytes "[BUS]"; bytes "ClusterID = " ++ bytes id; bytes "BusConfPath = ../busconf/bus.ini";
    bytes "UDPHelloTime = 5"; bytes "TCPHelloTime = 120"; []; bytes "[LOG]"; bytes "LogLocal = 0"; bytes "ModuleName = bus"].
Definition shared_file : list Z := conf_lines
  [bytes "[BUS_GLOBAL]"; bytes "GCIMKey = 9"; bytes "GCIMSize = 64"; bytes "ClusterList = 1, 2";
   bytes "[CLUSTER_1]"; bytes "ListenIP = 10.0.0.1"; bytes "ListenPort = 7000"; bytes "ClusterID = 1"; bytes "SrvList = 11,12";
   bytes "[CLUSTER_2]"; bytes "ListenIP = 10.0.0.2"; bytes "ListenPort = 7000"; bytes "ClusterID = 2"; bytes "SrvList = 21";
   bytes "[SERVER_11]"; bytes "ClusterID = 1"; bytes "ServerID = 11"; bytes "GroupID = 100"; bytes "QueueKey = 5"; bytes "QueueSize = 64";
   bytes "[SERVER_12]"; bytes "ClusterID = 1"; bytes "ServerID = 12"; bytes "GroupID = 100"; bytes "QueueKey = 6"; bytes "QueueSize = 64";
   bytes "[SERVER_21]"; bytes "ClusterID = 2"; bytes "GroupID = 200"].
Definition files (id : string) (p : list Z) : option (list Z) :=
  if bool_decide (p = bytes "/b") then Some (own_file id)
  else if bool_decide (p = bytes "../busconf/bus.ini") then Some shared_file else None.

Definition kernel : Sim.t := Sim.mk ∅ ∅ 20 [] 20 1000 5.
Definition addr (s : list Z) : Z := le_dec (take 4 s).
Definition buff : list Z := replicate (Z.to_nat XY_PKG_MAX_LEN) 0.
Definition start (id : string) (buf : list Z) : outcome (Sim.t * t CShmQueue.t * Z) :=
  Init (files id) addr (New fresh_queue) kernel (bytes "/b") buf 3.

Lemma bus_files_text id : id = "1"%string ∨ id = "7"%string → conf_files (files id).
Proof.
  intros Hid p d. unfold files. repeat case_bool_decide; [| |done]; intros [= <-]; right.
  - destruct Hid as [-> | ->]; apply is_conf_text_ok; by vm_compute.
  - apply is_conf_text_ok. by vm_compute.
Qed.
End BusInitExample.

(** C26: [CBus::Init], for configuration files, each missing or a text that is not
    empty, has no NUL and does not begin with a capital letter ([conf_files]; those
    of the repository begin with ";;"), any kernel, and the queues the keys in them
    stand for, each with messages or none: it returns 0 or -1, and if it returns 0
    the bus has a cluster of its own, every connection is as the connection
    operations need it, every server belongs to a cluster of the list and to exactly
    the one group it names, servers of the own cluster (and no others) have the
    queue of their key, with what was in it when it was attached, the buffer has its
    size, and the bus listens, if its own cluster is in the list: this is the state
    from which connections stay consistent and messages are routed.  (Queues are
    values here: two servers the files give one key have two equal queues, where the
    code has one shared by both.) *)
Theorem Init_builds_tables {Q K : Type} `{FifoQueue Q} `{Kernel K} `{!QueueInit Q} `{!QueueInitLaws Q}
    files inet_addr (q : Q) (k : K) path buf fd :
  conf_files files → zlen buf = XY_PKG_MAX_LEN →
  ∃ k' b' r, Init files inet_addr (New q) k path buf fd = Ok (k', b', r) ∧ (r = 0 ∨ r = -1) ∧
    (r = 0 → m_ClusterID b' ≠ 0 ∧ conns_ok b' ∧ tables_ok b' ∧ ready b' (stored b') ∧
      (∃ key, q_rep (m_ClusterQueue b') (q_stored key)) ∧
      (is_Some (m_mapClusterInfo b' !! m_ClusterID b') → listening b')).
Proof.
  intros Hf Hb. destruct (bus_Init_ok files inet_addr q k path buf fd Hf Hb) as (k' & b' & r & Heq & Hr & Hi).
  exists k', b', r. split; [done|]. split; [done|]. intros H0'. by destruct (Hi H0').
Qed.

(** A cluster that is not in the list of clusters: [Init] succeeds, with no socket
    to listen on. *)
Theorem Init_without_own_cluster :
  match BusInitExample.start "7" [] with
  | Ok (_, b, r) => r = 0 ∧ m_PosConnMap b = ∅ ∧ m_mapClusterInfo b !! m_ClusterID b = None
  | _ => False
  end.
Proof. vm_compute. by split_and!. Qed.

(** The bus of cluster 1: it listens, and knows the groups. *)
Lemma Init_builds_tables_witness :
  match BusInitExample.start "1" [] with
  | Ok (_, b, r) => r = 0 ∧ m_ClusterID b = 1 ∧ m_mapGrpInfo b = {[100 := [11; 12]; 200 := [21]]} ∧
      size (m_PosConnMap b) = 2%nat ∧ (ServerInfo.ClusterID <$> m_mapSvrInfo b) = {[11 := 1; 12 := 1; 21 := 2]}
  | _ => False
  end ∧
  ∃ k' b' r, BusInitExample.start "1" BusInitExample.buff = Ok (k', b', r) ∧ (r = 0 → ready b' (stored b')).
Proof.
  split; [vm_compute; by split_and!|].
  destruct (Init_builds_tables (BusInitExample.files "1") BusInitExample.addr fresh_queue BusInitExample.kernel (bytes "/b")
              BusInitExample.buff 3) as (k' & b' & r & Hi & _ & Hr).
  - by apply BusInitExample.bus_files_text; left.
  - unfold BusInitExample.buff. by rewrite zlen_replicate, Z2Nat.id.
  - exists k', b', r. split; [exact Hi|]. intros H0'. apply Hr, H0'.
Defined.
