(* ===== verification/ConnInit.v ===== *)
(** The start of the connection server ([CConn::Init], conn/conn.cpp): its own
    file, the file all daemons share, the addresses it listens on, its queues and
    the GNS table in shared memory. *)
From Stdlib Require Import Ascii String.
From stdpp Require Import gmap.
From S2P Require Import Prelude Fifo ShmQueue Wire HashList Kernel ConnInfo BusState ConnState.
From S2P Require Import ConnServe ConnRun IniFile Mysql Conf.

#[local] Open Scope Z_scope.
#[local] Open Scope list_scope.
#[local] Arguments Z.add : simpl never.
#[local] Arguments Z.eqb : simpl never.
#[local] Arguments Z.ltb : simpl never.

Module CConnStart.
Import CConn CConnServe CConnInit.

Section init.
Context {Q K : Type} `{FifoOps Q} `{Kernel K} `{ConnProto} `{QueueInit Q}.
(** The files there are, by path; [inet_addr]. *)
Variable files : list Z → option (list Z).
Variable inet_addr : list Z → Z.
(** The sizes of the parts of a hash list. *)
Variables HEAD INDEX NODE : Z.
(** [CShareMem::Create] and [Attach] of the memory of the GNS table, of a key and
    a size: nothing if they fail, or whether it begins with the magic bytes and
    the table in it. *)
Variable gns_mem : Z → Z → option (bool * CHashListNoLock.t ShmGnsInfo.t).
Implicit Types (s : t Q) (k : K).

(** The constructor; the queues, the number of nodes and the table are what
    they are before [Init]. *)
Definition New (RecvQueue SendQueue : Q) (MaxGnsNodeNum : Z) (GnsInfoMap : CHashListNoLock.t ShmGnsInfo.t) : t Q :=
  mk 0 0 0 ∅ None 0 0 RecvQueue SendQueue [] [] MaxGnsNodeNum GnsInfoMap.

Definition set_conf s (ServerID StateTime TimeOut MaxGnsNodeNum : Z) : t Q :=
  mk ServerID StateTime (m_ConnPosCnt s) (m_PosConnMap s) (m_itrCurCheckConn s) (m_CheckConnPos s) TimeOut
     (m_RecvQueue s) (m_SendQueue s) (m_pProcessBuff s) (m_pSendBuff s) MaxGnsNodeNum (m_GnsInfoMap s).

(** The two queues: that of the server, and that to the bus. *)
Definition InitQueues s (RecvKey RecvSize SendKey SendSize : Z) : outcome (t Q * Z) :=
  '(q, Ret) ← q_init RecvKey RecvSize;
  let s := set_recvq s q in
  if negb (Ret =? 0) then Ok (s, -1) else
  '(q, Ret) ← q_init SendKey SendSize;
  let s := set_sendq s q in
  if negb (Ret =? 0) then Ok (s, -1) else Ok (s, 0).

(** The memory of the table, and the table. *)
Definition OpenGns s k (GnsShmKey GnsShmSize : Z) : outcome (K * t Q * Z) :=
  if GnsShmKey =? 0 then Ok (k, s, -1) else
  if GnsShmSize =? 0 then Ok (k, s, -1) else
  match gns_mem GnsShmKey GnsShmSize with
  | None => Ok (k, s, -1)
  | Some (magic, h) => InitGns s k HEAD INDEX NODE h magic GnsShmSize
  end.

(** Sockets to listen on, and the table. *)
Definition Serve s k (ListenStr : list Z) (RecvKey RecvSize SendKey SendSize EpollFD GnsShmKey GnsShmSize : Z)
    : outcome (K * t Q * Z) :=
  addrs ← ListenAddrs inet_addr ListenStr;
  match addrs with
  | None => Ok (k, s, -1)
  | Some vctListenConnMetaList =>
      '(s, Ret) ← InitQueues s RecvKey RecvSize SendKey SendSize;
      if negb (Ret =? 0) then Ok (k, s, -1) else
      if EpollFD =? -1 then Ok (k, s, -1) else
      let '(k, s, Ret) := ListenAll s k 0 vctListenConnMetaList in
      if negb (Ret =? 0) then Ok (k, s, -1) else
      OpenGns s k GnsShmKey GnsShmSize
  end.

(** [pbuff] and [sbuff] are what [malloc] gives, [EpollFD] what [epoll_create] does. *)
Definition Init s k (pConfFile pbuff sbuff : list Z) (EpollFD : Z) : outcome (K * t Q * Z) :=
  let IniFile := CIniFile.New (files pConfFile) in
  if negb (CIniFile.IsValid IniFile) then Ok (k, s, -1) else
  '(ServerID, _) ← CIniFile.GetInt IniFile (bytes "CONN") (bytes "ServerID") 0 (m_ServerID s);
  '(ListenStr, _) ← CIniFile.GetString IniFile (bytes "CONN") (bytes "Listen") [] 1024;
  '(TimeOut, _) ← CIniFile.GetInt IniFile (bytes "CONN") (bytes "TimeOut") 600 (m_TimeOut s);
  '(StateTime, _) ← CIniFile.GetInt IniFile (bytes "CONN") (bytes "StateTime") 0 (m_StateTime s);
  '(BusConfPath, _) ← CIniFile.GetString IniFile (bytes "CONN") (bytes "BusConfPath") [] 256;
  '(GnsShmKey, _) ← CIniFile.GetInt IniFile (bytes "CONN") (bytes "GnsShmKey") 0 0;
  '(GnsShmSize, _) ← CIniFile.GetInt IniFile (bytes "CONN") (bytes "GnsShmSize") 0 0;
  '(NodeNum, _) ← CIniFile.GetInt IniFile (bytes "CONN") (bytes "NodeNum") 0 (m_MaxGnsNodeNum s);
  '(ModuleName, _) ← CIniFile.GetString IniFile (bytes "LOG") (bytes "ModuleName") (bytes "conn") 256;
  let s := set_conf s ServerID StateTime TimeOut NodeNum in
  if bool_decide (BusConfPath = []) then Ok (k, s, -1) else
  let strServerID := section_of (bytes "SERVER_") ServerID in
  let BusFile := CIniFile.New (files BusConfPath) in
  if negb (CIniFile.IsValid BusFile) then Ok (k, s, -1) else
  '(SendKey, _) ← CIniFile.GetInt BusFile (bytes "BUS_GLOBAL") (bytes "GCIMKey") 0 0;
  '(SendSize, _) ← CIniFile.GetInt BusFile (bytes "BUS_GLOBAL") (bytes "GCIMSize") 0 0;
  '(RecvKey, _) ← CIniFile.GetInt BusFile strServerID (bytes "QueueKey") 0 0;
  '(RecvSize, _) ← CIniFile.GetInt BusFile strServerID (bytes "QueueSize") 0 0;
  if bool_decide (ModuleName = []) then Ok (k, s, -1) else
  let s := set_sbuff (set_pbuff s pbuff) sbuff in
  Serve s k ListenStr RecvKey RecvSize SendKey SendSize EpollFD GnsShmKey GnsShmSize.
End init.
End CConnStart.
