(* ===== verification/ConnInitProps.v ===== *)
(** What [CConn::Init] leaves behind, for any files: the state in which the
    connection server serves, from its configuration to its service. *)
From Stdlib Require Import Ascii String.
From stdpp Require Import gmap sorting relations.
From S2P Require Import Prelude Fifo Wire HashList Sweep Kernel ConnInfo BusState BusConn BusRoute.
From S2P Require Import BusFacts ConnState ConnServe ConnRun ConnFacts ConnInv ConnSteps ConnDeal.
From S2P Require Import ConnSync ConnLoop ConnEvents ConnReach ConnStart IniFile Mysql Conf ConnInit ShmQueue ConnExample.

Import CConn CConnServe CConnInit CConnStart.

#[local] Open Scope Z_scope.
#[local] Open Scope list_scope.
#[local] Arguments Z.add : simpl never.
#[local] Arguments Z.eqb : simpl never.
#[local] Arguments Z.ltb : simpl never.
#[local] Arguments Z.leb : simpl never.

(** * The addresses *)




Section facts.
Context {Q K : Type} `{FifoQueue Q} `{KernelLaws K} `{ConnProtoLaws} `{!QueueInit Q} `{!QueueInitLaws Q}.
Hypothesis Hmax : XY_PKG_MAX_LEN ≤ q_max.
Implicit Types (s : t Q) (k : K) (ms : list (list Z)) (g : gmap Z ShmGnsInfo.t) (h : CHashListNoLock.t ShmGnsInfo.t).


(** * The table *)




(** * [CConn::Init] *)
Section init.
Context (files : list Z → option (list Z)) (inet_addr : list Z → Z) (HEAD INDEX NODE : Z)
        (gns_mem : Z → Z → option (bool * CHashListNoLock.t ShmGnsInfo.t)).










End init.
End facts.

Section props.
Context {Q K : Type} `{FifoQueue Q} `{KernelLaws K} `{!KernelClock K} `{ConnProtoLaws} `{!QueueInit Q} `{!QueueInitLaws Q}.
Hypothesis Hmax : XY_PKG_MAX_LEN ≤ q_max.
Context (files : list Z → option (list Z)) (inet_addr : list Z → Z) (HEAD INDEX NODE : Z)
        (gns_mem : Z → Z → option (bool * CHashListNoLock.t ShmGnsInfo.t)).

End props.

(** ** A server with two addresses, and a table that still has a user *)
#[local] Existing Instance ConnServerExample.proto.
#[local] Existing Instance ConnServerExample.proto_laws.
Module ConnInitExample.



End ConnInitExample.

