(* ===== verification/ServerInit.v ===== *)
(** The start of the user server, its loader and writer, and the authentication
    server: [CUser::Init], [CUserShmApi::Init] (user/user_proc.cpp,
    user/user_shm_api.cpp), [CLoaderUser::Init], [CWriterUser::Init],
    [CAuth::Init], and the opening of their databases ([CMySQL::Connect]). *)
From Stdlib Require Import Ascii String.
From stdpp Require Import gmap.
From S2P Require Import Prelude Fifo ShmQueue Wire HashList Kernel ConnInfo BusState ConnState.
From S2P Require Import IniFile Mysql Conf UserState UserServe UserStore AuthServe.

#[local] Open Scope Z_scope.
#[local] Open Scope list_scope.
#[local] Arguments Z.add : simpl never.
#[local] Arguments Z.eqb : simpl never.
#[local] Arguments Z.ltb : simpl never.

(** * Queues *)
Section attach.
Context {Q : Type} `{QueueInit Q}.

(** A queue, if its key and size are given: -1 otherwise, or if its [Init] fails. *)
Definition Attach (q : Q) (key size : Z) : outcome (Q * Z) :=
  if (key =? 0) || (size =? 0) then Ok (q, -1) else
  '(q, Ret) ← q_init key size;
  Ok (q, if negb (Ret =? 0) then -1 else 0).
End attach.

(** * Databases *)

(** [mysql_init] and [mysql_real_connect] with host, user, password, database and
    port: a connection, or the number [CMySQL::Connect] returns. *)
Class MySQLOpen (D : Type) : Type := { mysql_open : list Z → list Z → list Z → list Z → Z → D + Z }.

Module CMySQLOpen.
Section connect.
Context {D : Type} `{MySQLOpen D}.

(** The rest of a [DBConfig]. *)
Record DBAddr : Type := mk_addr { Host : list Z; Port : Z; User : list Z; Pass : list Z }.

(** The constructor, of an object that is nothing yet. *)
Definition New (d : D) : CMySQL.t D := CMySQL.mk d CMySQL.Uninit 1.

Definition Connect (c : CMySQL.t D) (a : DBAddr) (DBName : list Z) : CMySQL.t D * Z :=
  match mysql_open (Host a) (User a) (Pass a) DBName (Port a) with
  | inl d => (CMySQL.mk d (CMySQL.m_pRes c) (CMySQL.m_nAutoCommit c), 0)
  | inr r => (c, r)
  end.

(** One database of the file. *)
Definition ReadDB (DBFile : CIniFile.t) (i : Z) : outcome (DBConfig * DBAddr) :=
  let str := section_of (bytes "DB_") i in
  '(host, _) ← CIniFile.GetString DBFile str (bytes "Host") [] 32;
  '(port, _) ← CIniFile.GetInt DBFile str (bytes "Port") 0 0;
  '(user, _) ← CIniFile.GetString DBFile str (bytes "User") [] 256;
  '(pass, _) ← CIniFile.GetString DBFile str (bytes "Pass") [] 256;
  '(db, _) ← CIniFile.GetString DBFile str (bytes "DB") [] 256;
  '(table, _) ← CIniFile.GetString DBFile str (bytes "Table") [] 256;
  Ok (mk_config db table, mk_addr host port user pass).

(** [n] databases from the [i]-th on. *)
Fixpoint ReadDBs (DBFile : CIniFile.t) (i : Z) (n : nat) : outcome (list (DBConfig * DBAddr)) :=
  match n with
  | O => Ok []
  | S n => c ← ReadDB DBFile i; l ← ReadDBs DBFile (i + 1) n; Ok (c :: l)
  end.

(** They are connected one after the other, until one fails. *)
Fixpoint ConnectAll (conns : list (CMySQL.t D)) (dbs : list (DBConfig * DBAddr)) : list (CMySQL.t D) * Z :=
  match conns, dbs with
  | c :: conns, (cfg, a) :: dbs =>
      let '(c, Ret) := Connect c a (DBName cfg) in
      if negb (Ret =? 0) then (c :: conns, -1) else
      let '(conns, Ret) := ConnectAll conns dbs in (c :: conns, Ret)
  | _, _ => (conns, 0)
  end.
End connect.
End CMySQLOpen.
Import CMySQLOpen.

(** * The table of users *)
Section servers.
Context {Q D : Type} `{QueueInit Q} `{MySQLOpen D}.
(** The files there are, by path; the sizes of the parts of a hash list; the
    memory of the users, of a key and a size: nothing if [Create] or [Attach]
    fails, or whether it begins with the magic bytes and the table in it; what
    [CFileLock::Init] returns for a path. *)
Variable files : list Z → option (list Z).
Variables HEAD INDEX NODE : Z.
Variable user_mem : Z → Z → option (bool * CHashListNoLock.t ShmUserInfo.t).
Variable lock_init : list Z → Z.

Definition InitUserShm (u : CUserShmApi.t) (pConfFile : list Z) : outcome (CUserShmApi.t * Z) :=
  let IniFile := CIniFile.New (files pConfFile) in
  if negb (CIniFile.IsValid IniFile) then Ok (u, -1) else
  '(UserShmKey, _) ← CIniFile.GetInt IniFile (bytes "USER") (bytes "UserShmKey") 0 0;
  '(UserShmSize, _) ← CIniFile.GetInt IniFile (bytes "USER") (bytes "UserShmSize") 0 0;
  '(NodeNum, _) ← CIniFile.GetInt IniFile (bytes "USER") (bytes "NodeNum") 0 (CUserShmApi.m_MaxUserNodeNum u);
  '(UserLockPath, _) ← CIniFile.GetString IniFile (bytes "USER") (bytes "UserLockPath") (bytes "user.lock") 256;
  match user_mem UserShmKey UserShmSize with
  | None => Ok (CUserShmApi.mk (CUserShmApi.m_CheckUserPos u) NodeNum (CUserShmApi.m_UserInfoMap u), -1)
  | Some (magic, h) => CUserShmApi.Init u HEAD INDEX NODE UserShmKey UserShmSize NodeNum h magic (lock_init UserLockPath)
  end.

(** * The user server *)

(** The constructor; queues and table are what they are before [Init]. *)
Definition NewUser (sq rq lsq lrq wq : Q) (u : CUserShmApi.t) : CUser.t Q := CUser.mk 0 0 sq rq lsq lrq wq [] u.

(** The keys and sizes of its five queues. *)
Record UserQueues : Type := mk_queues {
  RecvQ : Z * Z; SendQ : Z * Z; LoaderSendQ : Z * Z; LoaderRecvQ : Z * Z; WriterQ : Z * Z }.

Definition InitUserQueues (s : CUser.t Q) (ks : UserQueues) : outcome (CUser.t Q * Z) :=
  '(q, Ret) ← Attach (CUser.m_RecvQueue s) (RecvQ ks).1 (RecvQ ks).2;
  let s := CUser.set_recv s q in
  if negb (Ret =? 0) then Ok (s, -1) else
  '(q, Ret) ← Attach (CUser.m_SendQueue s) (SendQ ks).1 (SendQ ks).2;
  let s := CUser.set_send s q (CUser.m_pSendBuff s) in
  if negb (Ret =? 0) then Ok (s, -1) else
  '(q, Ret) ← Attach (CUser.m_LoaderSendQueue s) (LoaderSendQ ks).1 (LoaderSendQ ks).2;
  let s := CUser.set_loader_send s q in
  if negb (Ret =? 0) then Ok (s, -1) else
  '(q, Ret) ← Attach (CUser.m_LoaderRecvQueue s) (LoaderRecvQ ks).1 (LoaderRecvQ ks).2;
  let s := CUser.set_loader_recv s q in
  if negb (Ret =? 0) then Ok (s, -1) else
  '(q, Ret) ← Attach (CUser.m_WriterQueue s) (WriterQ ks).1 (WriterQ ks).2;
  let s := CUser.set_writer s q in
  if negb (Ret =? 0) then Ok (s, -1) else Ok (s, 0).

(** [buf] is what [malloc] gives for [m_pSendBuff]. *)
Definition InitUser (s : CUser.t Q) (pConfFile buf : list Z) : outcome (CUser.t Q * Z) :=
  let IniFile := CIniFile.New (files pConfFile) in
  if negb (CIniFile.IsValid IniFile) then Ok (s, -1) else
  '(ServerID, _) ← CIniFile.GetInt IniFile (bytes "USER") (bytes "ServerID") 0 (CUser.m_ServerID s);
  '(BusConfPath, _) ← CIniFile.GetString IniFile (bytes "USER") (bytes "BusConfPath") [] 256;
  '(StateTime, _) ← CIniFile.GetInt IniFile (bytes "USER") (bytes "StateTime") 0 (CUser.m_StateTime s);
  '(LSKey, _) ← CIniFile.GetInt IniFile (bytes "USER") (bytes "LoaderSendShmKey") 0 0;
  '(LSSize, _) ← CIniFile.GetInt IniFile (bytes "USER") (bytes "LoaderSendShmSize") 0 0;
  '(LRKey, _) ← CIniFile.GetInt IniFile (bytes "USER") (bytes "LoaderRecvShmKey") 0 0;
  '(LRSize, _) ← CIniFile.GetInt IniFile (bytes "USER") (bytes "LoaderRecvShmSize") 0 0;
  '(WKey, _) ← CIniFile.GetInt IniFile (bytes "USER") (bytes "WriterShmKey") 0 0;
  '(WSize, _) ← CIniFile.GetInt IniFile (bytes "USER") (bytes "WriterShmSize") 0 0;
  '(ModuleName, _) ← CIniFile.GetString IniFile (bytes "LOG") (bytes "ModuleName") (bytes "user") 256;
  let s := CUser.mk (u32 ServerID) StateTime (CUser.m_SendQueue s) (CUser.m_RecvQueue s) (CUser.m_LoaderSendQueue s)
             (CUser.m_LoaderRecvQueue s) (CUser.m_WriterQueue s) (CUser.m_pSendBuff s) (CUser.m_UserShm s) in
  if CUser.m_ServerID s =? 0 then Ok (s, -1) else
  if bool_decide (BusConfPath = []) then Ok (s, -1) else
  if bool_decide (ModuleName = []) then Ok (s, -1) else
  let BusFile := CIniFile.New (files BusConfPath) in
  if negb (CIniFile.IsValid BusFile) then Ok (s, -1) else
  let strServer := section_of (bytes "SERVER_") (CUser.m_ServerID s) in
  '(SKey, _) ← CIniFile.GetInt BusFile (bytes "BUS_GLOBAL") (bytes "GCIMKey") 0 0;
  '(SSize, _) ← CIniFile.GetInt BusFile (bytes "BUS_GLOBAL") (bytes "GCIMSize") 0 0;
  '(RKey, _) ← CIniFile.GetInt BusFile strServer (bytes "QueueKey") 0 0;
  '(RSize, _) ← CIniFile.GetInt BusFile strServer (bytes "QueueSize") 0 0;
  '(s, Ret) ← InitUserQueues s (mk_queues (RKey, RSize) (SKey, SSize) (LSKey, LSSize) (LRKey, LRSize) (WKey, WSize));
  if negb (Ret =? 0) then Ok (s, -1) else
  let s := CUser.set_send s (CUser.m_SendQueue s) buf in
  '(u, Ret) ← InitUserShm (CUser.m_UserShm s) pConfFile;
  let s := CUser.set_shm s u in
  if negb (Ret =? 0) then Ok (s, -1) else Ok (s, 0).

(** * The loader and the writer *)

(** [Entity] connects what [Init] has read: the addresses are given back. *)
Definition InitLoader (s : CLoaderUser.t Q D) (pConfFile : list Z) : outcome (CLoaderUser.t Q D * list (DBConfig * DBAddr) * Z) :=
  let CurConf := CIniFile.New (files pConfFile) in
  if negb (CIniFile.IsValid CurConf) then Ok (s, [], -1) else
  '(RKey, _) ← CIniFile.GetInt CurConf (bytes "LOADER") (bytes "LoaderRecvShmKey") 0 0;
  '(RSize, _) ← CIniFile.GetInt CurConf (bytes "LOADER") (bytes "LoaderRecvShmSize") 0 0;
  '(SKey, _) ← CIniFile.GetInt CurConf (bytes "LOADER") (bytes "LoaderSendShmKey") 0 0;
  '(SSize, _) ← CIniFile.GetInt CurConf (bytes "LOADER") (bytes "LoaderSendShmSize") 0 0;
  '(DBConfPath, _) ← CIniFile.GetString CurConf (bytes "LOADER") (bytes "DBConfPath") [] 256;
  '(UserConfPath, _) ← CIniFile.GetString CurConf (bytes "LOADER") (bytes "UserConfPath") [] 256;
  '(u, Ret) ← InitUserShm (CLoaderUser.m_UserShm s) UserConfPath;
  let s := CLoaderUser.set_shm s u in
  if negb (Ret =? 0) then Ok (s, [], -1) else
  '(q, Ret) ← Attach (CLoaderUser.m_LoaderRecvQueue s) RKey RSize;
  let s := CLoaderUser.set_recv s q in
  if negb (Ret =? 0) then Ok (s, [], -1) else
  '(q, Ret) ← Attach (CLoaderUser.m_LoaderSendQueue s) SKey SSize;
  let s := CLoaderUser.set_send s q in
  if negb (Ret =? 0) then Ok (s, [], -1) else
  let DBFile := CIniFile.New (files DBConfPath) in
  if negb (CIniFile.IsValid DBFile) then Ok (s, [], -1) else
  dbs ← ReadDBs DBFile 0 (Z.to_nat USER_DATABASE_NUM);
  Ok (CLoaderUser.mk dbs.*1 (CLoaderUser.m_DBConn s) (CLoaderUser.m_LoaderRecvQueue s) (CLoaderUser.m_LoaderSendQueue s)
        (CLoaderUser.m_UserShm s), dbs, 0).

(** The beginning of [Entity]. *)
Definition ConnectLoader (s : CLoaderUser.t Q D) (dbs : list (DBConfig * DBAddr)) : CLoaderUser.t Q D * Z :=
  let '(conns, Ret) := ConnectAll (CLoaderUser.m_DBConn s) dbs in
  (CLoaderUser.mk (CLoaderUser.m_DBConfig s) conns (CLoaderUser.m_LoaderRecvQueue s) (CLoaderUser.m_LoaderSendQueue s)
     (CLoaderUser.m_UserShm s), Ret).

Definition InitWriter (s : CWriterUser.t Q D) (pConfFile : list Z) : outcome (CWriterUser.t Q D * list (DBConfig * DBAddr) * Z) :=
  let CurConf := CIniFile.New (files pConfFile) in
  if negb (CIniFile.IsValid CurConf) then Ok (s, [], -1) else
  '(WKey, _) ← CIniFile.GetInt CurConf (bytes "WRITER") (bytes "WriterShmKey") 0 0;
  '(WSize, _) ← CIniFile.GetInt CurConf (bytes "WRITER") (bytes "WriterShmSize") 0 0;
  '(DBConfPath, _) ← CIniFile.GetString CurConf (bytes "WRITER") (bytes "DBConfPath") [] 256;
  '(UserConfPath, _) ← CIniFile.GetString CurConf (bytes "WRITER") (bytes "UserConfPath") [] 256;
  '(u, Ret) ← InitUserShm (CWriterUser.m_UserShm s) UserConfPath;
  let s := CWriterUser.mk (CWriterUser.m_DBConfig s) (CWriterUser.m_DBConn s) (CWriterUser.m_WriterQueue s) u in
  if negb (Ret =? 0) then Ok (s, [], -1) else
  '(q, Ret) ← Attach (CWriterUser.m_WriterQueue s) WKey WSize;
  let s := CWriterUser.set_queue s q in
  if negb (Ret =? 0) then Ok (s, [], -1) else
  let DBFile := CIniFile.New (files DBConfPath) in
  if negb (CIniFile.IsValid DBFile) then Ok (s, [], -1) else
  dbs ← ReadDBs DBFile 0 (Z.to_nat USER_DATABASE_NUM);
  Ok (CWriterUser.mk dbs.*1 (CWriterUser.m_DBConn s) (CWriterUser.m_WriterQueue s) (CWriterUser.m_UserShm s), dbs, 0).

Definition ConnectWriter (s : CWriterUser.t Q D) (dbs : list (DBConfig * DBAddr)) : CWriterUser.t Q D * Z :=
  let '(conns, Ret) := ConnectAll (CWriterUser.m_DBConn s) dbs in
  (CWriterUser.mk (CWriterUser.m_DBConfig s) conns (CWriterUser.m_WriterQueue s) (CWriterUser.m_UserShm s), Ret).

(** * The authentication server *)

(** The constructor; [d] is what a connection is before it is opened. *)
Definition NewAuth (sq rq : Q) (d : D) : CAuth.t Q D :=
  CAuth.mk 0 0 (replicate (Z.to_nat AUTH_DATABASE_NUM) (mk_config [] [])) (replicate (Z.to_nat AUTH_DATABASE_NUM) (CMySQLOpen.New d)) sq rq [].

Definition InitAuth (s : CAuth.t Q D) (pConfFile buf : list Z) : outcome (CAuth.t Q D * Z) :=
  let IniFile := CIniFile.New (files pConfFile) in
  if negb (CIniFile.IsValid IniFile) then Ok (s, -1) else
  '(ServerID, _) ← CIniFile.GetInt IniFile (bytes "AUTH") (bytes "ServerID") 0 (CAuth.m_ServerID s);
  '(BusConfPath, _) ← CIniFile.GetString IniFile (bytes "AUTH") (bytes "BusConfPath") [] 256;
  '(DBConfPath, _) ← CIniFile.GetString IniFile (bytes "AUTH") (bytes "DBConfPath") [] 256;
  '(StateTime, _) ← CIniFile.GetInt IniFile (bytes "AUTH") (bytes "StateTime") 0 (CAuth.m_StateTime s);
  '(ModuleName, _) ← CIniFile.GetString IniFile (bytes "LOG") (bytes "ModuleName") (bytes "auth") 256;
  let s := CAuth.mk (u32 ServerID) StateTime (CAuth.m_DBConfig s) (CAuth.m_DBConn s) (CAuth.m_SendQueue s)
             (CAuth.m_RecvQueue s) (CAuth.m_pSendBuff s) in
  if CAuth.m_ServerID s =? 0 then Ok (s, -1) else
  if bool_decide (BusConfPath = []) then Ok (s, -1) else
  if bool_decide (ModuleName = []) then Ok (s, -1) else
  let BusFile := CIniFile.New (files BusConfPath) in
  if negb (CIniFile.IsValid BusFile) then Ok (s, -1) else
  let strServer := section_of (bytes "SERVER_") (CAuth.m_ServerID s) in
  '(SKey, _) ← CIniFile.GetInt BusFile (bytes "BUS_GLOBAL") (bytes "GCIMKey") 0 0;
  '(SSize, _) ← CIniFile.GetInt BusFile (bytes "BUS_GLOBAL") (bytes "GCIMSize") 0 0;
  '(RKey, _) ← CIniFile.GetInt BusFile strServer (bytes "QueueKey") 0 0;
  '(RSize, _) ← CIniFile.GetInt BusFile strServer (bytes "QueueSize") 0 0;
  if (SKey =? 0) || (SSize =? 0) then Ok (s, -1) else
  if (RKey =? 0) || (RSize =? 0) then Ok (s, -1) else
  '(q, Ret) ← Attach (CAuth.m_RecvQueue s) RKey RSize;
  let s := CAuth.set_recv s q in
  if negb (Ret =? 0) then Ok (s, -1) else
  '(q, Ret) ← Attach (CAuth.m_SendQueue s) SKey SSize;
  let s := CAuth.set_send s q (CAuth.m_pSendBuff s) in
  if negb (Ret =? 0) then Ok (s, -1) else
  let DBFile := CIniFile.New (files DBConfPath) in
  if negb (CIniFile.IsValid DBFile) then Ok (s, -1) else
  dbs ← ReadDBs DBFile 0 (Z.to_nat AUTH_DATABASE_NUM);
  let '(conns, Ret) := ConnectAll (CAuth.m_DBConn s) dbs in
  let s := CAuth.mk (CAuth.m_ServerID s) (CAuth.m_StateTime s) dbs.*1 conns (CAuth.m_SendQueue s) (CAuth.m_RecvQueue s)
             (CAuth.m_pSendBuff s) in
  if negb (Ret =? 0) then Ok (s, -1) else
  Ok (CAuth.set_send s (CAuth.m_SendQueue s) buf, 0).
End servers.
