(* ===== verification/ServerInitProps.v ===== *)
(** What the servers with a database and the user server are when they have
    started, for any files, and that they serve from then on. *)
From Stdlib Require Import Ascii String.
From stdpp Require Import gmap sorting relations.
From S2P Require Import Prelude Fifo ShmQueue Wire HashList Kernel ConnInfo BusState ConnState.
From S2P Require Import IniFile Mysql Conf UserState UserServe UserSpec UserFacts UserLoop UserStore UserStoreFacts.
From S2P Require Import AuthServe AuthFacts AuthLoop ServerInit ConnExample UserExample AuthExample.

Import CMySQLOpen.

#[local] Open Scope Z_scope.
#[local] Open Scope list_scope.
#[local] Arguments Z.add : simpl never.
#[local] Arguments Z.eqb : simpl never.
#[local] Arguments Z.ltb : simpl never.
#[local] Arguments Z.leb : simpl never.

(** * Queues *)
Section attach.
Context {Q : Type} `{FifoQueue Q} `{!QueueInit Q} `{!QueueInitLaws Q}.

Lemma Attach_ok (q : Q) key size :
  ∃ q' r, Attach q key size = Ok (q', r) ∧ (r = 0 ∨ r = -1) ∧ (r = 0 → q_rep q' (q_stored key)).
Proof.
  unfold Attach. destruct (_ || _); [eexists _, _; split_and!; [done|by right|done]|].
  destruct (q_init_total key size) as (q' & r & Hq). rewrite Hq. cbn [mbind outcome_bind].
  destruct (Z.eqb_spec r 0) as [->|]; cbn [negb]; eexists _, _; split_and!; try done; [by left| |by right].
  intros _. by eapply q_init_rep.
Qed.
End attach.

Ltac attach q Hq :=
  match goal with |- _ (mbind _ (Attach ?q0 ?key ?size)) =>
    let r := fresh "r" in let E := fresh in let Hr := fresh in
    destruct (Attach_ok q0 key size) as (q & r & E & Hr & Hq); rewrite E; clear E; cbn [mbind outcome_bind]; cbv zeta;
    destruct Hr as [-> | ->];
    [specialize (Hq eq_refl); change (negb (0 =? 0)) with false | clear Hq; change (negb (-1 =? 0)) with true]; cbv iota
  end.

(** * The table of users *)

(** What may be in the memory of a table of [n] nodes: nothing anybody has used,
    or a table of as many nodes, of users as the operations leave them. *)
Definition users_found (n : Z) (magic : bool) (h : CHashListNoLock.t ShmUserInfo.t) g : Prop :=
  if magic then hrep h g ∧ CHashListNoLock.iTotalDataNodeNum h = n ∧ CHashListNoLock.iIndexNodeNum h = n ∧ map_Forall user_ok g
  else g = ∅.

Lemma GetInt_range f sec it def x v r :
  CIniFile.GetInt f sec it def x = Ok (v, r) → - 2 ^ 31 ≤ def < 2 ^ 31 → - 2 ^ 31 ≤ x < 2 ^ 31 → - 2 ^ 31 ≤ v < 2 ^ 31.
Proof.
  unfold CIniFile.GetInt. destruct (negb _); [by intros [= <- <-]|]. intros ([s r'] & _ & He)%bind_Ok Hd Hx.
  destruct (negb _); [by injection He as <- <-|]. destruct (_ || _).
  - injection He as <- <-. destruct (scan_hex (drop 2 s)) eqn:E; [|done]. cbn. revert E. unfold scan_hex.
    repeat case_match; try done; intros [= <-]; apply i32_range.
  - injection He as <- <-. apply i32_range.
Qed.

Section shm.
Context (files : list Z → option (list Z)) (HEAD INDEX NODE : Z)
  (user_mem : Z → Z → option (bool * CHashListNoLock.t ShmUserInfo.t)) (lock_init : list Z → Z).
Implicit Types (u : CUserShmApi.t) (g : gmap Z ShmUserInfo.t).

Definition user_mem_ok (path : list Z) (max : Z) : Prop := ∀ n r key size magic h,
  CIniFile.GetInt (CIniFile.New (files path)) (bytes "USER") (bytes "NodeNum") 0 max = Ok (n, r) →
  user_mem key size = Some (magic, h) → ∃ g, users_found n magic h g.

(** The table is there, with the users it had. *)
Definition shm_started u : Prop := ∃ key size magic h g,
  user_mem key size = Some (magic, h) ∧ users_found (CUserShmApi.m_MaxUserNodeNum u) magic h g ∧
  shm_ok u g ∧ map_Forall user_ok g.

Definition shm_starts (o : outcome (CUserShmApi.t * Z)) : Prop :=
  ∃ u r, o = Ok (u, r) ∧ (r = 0 ∨ r = -1) ∧ (r = 0 → shm_started u).

Lemma shm_not u : shm_starts (Ok (u, -1)).
Proof. eexists _, _. split_and!; [done|by right|done]. Qed.

Lemma user_Init_ok u key size n magic h lock :
  CUserShmApi.m_CheckUserPos u = 0 → n < 2 ^ 31 → user_mem key size = Some (magic, h) → (∃ g, users_found n magic h g) →
  shm_starts (CUserShmApi.Init u HEAD INDEX NODE key size n h magic lock).
Proof.
  intros Hpos Hn31 Hmem [g Hg]. unfold CUserShmApi.Init. cbv zeta.
  destruct (key =? 0); [apply shm_not|]. destruct (size =? 0); [apply shm_not|]. destruct (Z.eqb_spec n 0); [apply shm_not|].
  destruct (Z.ltb_spec size (CHashListNoLock.CalcSize HEAD INDEX NODE n n + CUserShmApi.USER_MEM_HEAD_SIZE)); [apply shm_not|].
  set (sz := CHashListNoLock.CalcSize HEAD INDEX NODE n n) in *.
  destruct (CHashListNoLock.Init HEAD INDEX NODE h sz n n) as [h1 r1] eqn:Ei.
  destruct (Z.eqb_spec r1 0) as [->|]; cbn [negb]; [|apply shm_not].
  assert (2 ≤ n) as Hn2.
  { unfold CHashListNoLock.Init in Ei. repeat case_match; try (by injection Ei); lia. }
  assert (∃ h2, (if magic then Ok h1 else CHashListNoLock.Clear ShmUserInfo.zero h1) = Ok h2 ∧ hrep h2 g ∧
    CHashListNoLock.iIndexNodeNum h2 = n ∧ map_Forall user_ok g) as (h2 & -> & Hh2 & Hx2 & Hgu).
  { destruct magic.
    - destruct Hg as (Hr & Ht & Hx & Hu).
      destruct (Init_hrep HEAD INDEX NODE h g sz n Hr Ht Hx Hn2) as (h1' & Ei' & ? & ? & ?); [unfold sz; lia|].
      rewrite Ei in Ei'. injection Ei' as <-. by exists h1.
    - cbn in Hg. subst g. destruct (Clear_fresh ShmUserInfo.zero h1) as (h2 & ? & ? & [? ?] & _);
        [unfold CHashListNoLock.Init in Ei; repeat case_match; try (by injection Ei); injection Ei as <-; cbn; lia..|].
      exists h2. split_and!; try done.
      unfold CHashListNoLock.Init in Ei. repeat case_match; try (by injection Ei). injection Ei as <-. cbn in *. congruence. }
  cbn [mbind outcome_bind]. assert (CHashListNoLock.Verify h2 = Ok 0) as ->.
  { destruct Hh2 as (cs & es & fr & Hi & _). by eapply Verify_hinv. }
  cbn [mbind outcome_bind]. change (negb (0 =? 0)) with false. cbv iota. destruct (lock =? 0); cbn [negb]; [|apply shm_not].
  eexists _, _. split; [done|]. split; [by left|]. intros _. exists key, size, magic, h, g. split; [done|].
  split; [done|]. split; [|done]. constructor; cbn; [done|lia|done|]. rewrite Hpos. lia.
Qed.

Lemma InitUserShm_ok u path :
  conf_files files → user_mem_ok path (CUserShmApi.m_MaxUserNodeNum u) →
  CUserShmApi.m_CheckUserPos u = 0 → - 2 ^ 31 ≤ CUserShmApi.m_MaxUserNodeNum u < 2 ^ 31 →
  shm_starts (InitUserShm files HEAD INDEX NODE user_mem lock_init u path).
Proof.
  intros Hf Hm Hp Hr. unfold InitUserShm, user_mem_ok in *.
  destruct (CIniFile.IsValid (CIniFile.New (files path))) eqn:Hv; [|apply shm_not].
  destruct (conf_valid _ _ Hf Hv) as (d & Hd & Hd'). rewrite Hd in *. cbn [negb].
  get_int key. get_int sz. get_int n.
  assert (- 2 ^ 31 ≤ n < 2 ^ 31) as Hn by (eapply GetInt_range; [eassumption|done|done]).
  assert (∀ magic h, user_mem key sz = Some (magic, h) → ∃ g, users_found n magic h g) as Hg by (intros; by eapply Hm).
  get_string lock. destruct (user_mem key sz) as [[magic h]|] eqn:Em; [|apply shm_not].
  apply user_Init_ok; [done|lia|done|by apply Hg].
Qed.
End shm.

(** * The user server *)
Section user.
Context {Q : Type} `{FifoQueue Q} `{UserProto} `{!QueueInit Q} `{!QueueInitLaws Q}.
Context (files : list Z → option (list Z)) (HEAD INDEX NODE : Z)
  (user_mem : Z → Z → option (bool * CHashListNoLock.t ShmUserInfo.t)) (lock_init : list Z → Z).
Implicit Types (s : CUser.t Q).








End user.

(** * Databases *)
Definition names_fit (c : DBConfig) : Prop :=
  name_ok (DBName c) ∧ name_ok (TableName c) ∧ (0 ∉ DBName c) ∧ (0 ∉ TableName c) ∧
  zlen (DBName c) + zlen (TableName c) ≤ 128.

Definition returns {A} (o : outcome A) : Prop := ∃ x, o = Ok x.

Lemma ReadDB_ok d i : conf_text d → returns (ReadDB (CIniFile.New (Some d)) i).
Proof.
  intros Hd. unfold ReadDB. assert (sec_ok d (section_of (bytes "DB_") i)) as Hsec.
  { apply conf_section_of; [done|done|]. apply (bool_decide_unpack _). by vm_compute. }
  get_string host. get_int port. get_string user. get_string pass. get_string db. get_string table. by eexists.
Qed.

Lemma ReadDBs_ok d i n : conf_text d → ∃ l, ReadDBs (CIniFile.New (Some d)) i n = Ok l ∧ length l = n.
Proof.
  intros Hd. revert i. induction n as [|n IH]; intros i; cbn [ReadDBs]; [by eexists|].
  destruct (ReadDB_ok d i Hd) as (c & ->). cbn [mbind outcome_bind].
  destruct (IH (i + 1)) as (l & -> & <-). cbn [mbind outcome_bind]. by eexists.
Qed.

Section connect.
Context {D : Type} `{MySQLOpen D}.
Implicit Types (conns : list (CMySQL.t D)).

Lemma ConnectAll_ok conns dbs :
  ∃ conns' r, ConnectAll conns dbs = (conns', r) ∧ (r = 0 ∨ r = -1) ∧ length conns' = length conns ∧
    (Forall (λ c, CMySQL.m_nAutoCommit c = 1) conns → Forall (λ c, CMySQL.m_nAutoCommit c = 1) conns').
Proof.
  revert dbs. induction conns as [|c conns IH]; intros dbs; cbn [ConnectAll].
  { eexists _, _. split_and!; [done|by left|done|done]. }
  destruct dbs as [|[cfg a] dbs]; [eexists _, _; split_and!; [done|by left|done|done]|].
  destruct (Connect c a (DBName cfg)) as [c' Ret] eqn:Ec.
  assert (CMySQL.m_nAutoCommit c' = CMySQL.m_nAutoCommit c) as Ha.
  { unfold Connect in Ec. case_match; by injection Ec as <- <-. }
  destruct (negb (Ret =? 0)).
  - eexists _, _. split_and!; [done|by right|done|]. intros Hf. inversion Hf as [|?? Hc Hr]; subst. constructor; [by rewrite Ha|done].
  - destruct (IH dbs) as (conns' & r & -> & Hr & Hl & Hf). eexists _, _. split_and!; [done|done|by cbn; rewrite Hl|].
    intros Hall. inversion Hall as [|?? Hc Hcs]; subst. constructor; [by rewrite Ha|auto].
Qed.
End connect.

(** * The loader and the writer *)
Section stores.
Context {Q D : Type} `{FifoQueue Q} `{MySQLOpen D} `{!QueueInit Q} `{!QueueInitLaws Q}.
Context (files : list Z → option (list Z)) (HEAD INDEX NODE : Z)
  (user_mem : Z → Z → option (bool * CHashListNoLock.t ShmUserInfo.t)) (lock_init : list Z → Z).
Implicit Types (s : CLoaderUser.t Q D) (w : CWriterUser.t Q D).

(** Ready to load: the table, the queues, and as many databases as there are. *)
Definition loader_started (dbs : list (DBConfig * DBAddr)) s : Prop := ∃ rkey skey,
  shm_started user_mem (CLoaderUser.m_UserShm s) ∧ CLoaderUser.m_DBConfig s = dbs.*1 ∧ zlen dbs = USER_DATABASE_NUM ∧
  q_rep (CLoaderUser.m_LoaderRecvQueue s) (q_stored rkey) ∧ q_rep (CLoaderUser.m_LoaderSendQueue s) (q_stored skey).

Definition loader_starts s0 (o : outcome (CLoaderUser.t Q D * list (DBConfig * DBAddr) * Z)) : Prop :=
  ∃ s dbs r, o = Ok (s, dbs, r) ∧ (r = 0 ∨ r = -1) ∧
    (r = 0 → loader_started dbs s ∧ CLoaderUser.m_DBConn s = CLoaderUser.m_DBConn s0).

Lemma loader_not s0 s : loader_starts s0 (Ok (s, [], -1)).
Proof. eexists _, _, _. split_and!; [done|by right|done]. Qed.

Definition writer_started (dbs : list (DBConfig * DBAddr)) w : Prop := ∃ wkey,
  shm_started user_mem (CWriterUser.m_UserShm w) ∧ CWriterUser.m_DBConfig w = dbs.*1 ∧ zlen dbs = USER_DATABASE_NUM ∧
  q_rep (CWriterUser.m_WriterQueue w) (q_stored wkey).

Definition writer_starts w0 (o : outcome (CWriterUser.t Q D * list (DBConfig * DBAddr) * Z)) : Prop :=
  ∃ w dbs r, o = Ok (w, dbs, r) ∧ (r = 0 ∨ r = -1) ∧
    (r = 0 → writer_started dbs w ∧ CWriterUser.m_DBConn w = CWriterUser.m_DBConn w0).

Lemma writer_not w0 w : writer_starts w0 (Ok (w, [], -1)).
Proof. eexists _, _, _. split_and!; [done|by right|done]. Qed.

(** The file of the user server says how many users there are. *)
Context (u0 : CUserShmApi.t).
Hypothesis Hfiles : conf_files files.
Hypothesis Hmem : ∀ path, user_mem_ok files user_mem path (CUserShmApi.m_MaxUserNodeNum u0).
Hypothesis Hpos : CUserShmApi.m_CheckUserPos u0 = 0.
Hypothesis Hmax0 : - 2 ^ 31 ≤ CUserShmApi.m_MaxUserNodeNum u0 < 2 ^ 31.

Lemma InitLoader_ok s path :
  CLoaderUser.m_UserShm s = u0 → loader_starts s (InitLoader files HEAD INDEX NODE user_mem lock_init s path).
Proof using Hfiles Hmem Hpos Hmax0.
  intros Hu. unfold InitLoader.
  destruct (CIniFile.IsValid (CIniFile.New (files path))) eqn:Hv; [|apply loader_not].
  destruct (conf_valid _ _ Hfiles Hv) as (d & Hd & Hd'). rewrite Hd. cbn [negb].
  get_int rk. get_int rs. get_int sk. get_int ss. get_string dpath. get_string upath.
  destruct (InitUserShm_ok files HEAD INDEX NODE user_mem lock_init u0 upath) as (u & Ret & E & Hr & Hs); [done..|].
  rewrite Hu, E. cbn [mbind outcome_bind]. cbv zeta. destruct (Z.eqb_spec Ret 0) as [->|]; cbn [negb]; [|apply loader_not].
  specialize (Hs eq_refl). attach q1 Hq1; [|apply loader_not]. attach q2 Hq2; [|apply loader_not].
  destruct (CIniFile.IsValid (CIniFile.New (files dpath))) eqn:Hv2; [|apply loader_not].
  destruct (conf_valid _ _ Hfiles Hv2) as (d2 & Hd2 & Hd2'). rewrite Hd2. cbn [negb].
  destruct (ReadDBs_ok d2 0 (Z.to_nat USER_DATABASE_NUM) Hd2') as (dbs & -> & Hl). cbn [mbind outcome_bind].
  eexists _, _, _. split; [done|]. split; [by left|]. intros _. split; [|done]. exists rk, sk.
  split_and!; try done. unfold zlen. by rewrite Hl.
Qed.

Lemma InitWriter_ok w path :
  CWriterUser.m_UserShm w = u0 → writer_starts w (InitWriter files HEAD INDEX NODE user_mem lock_init w path).
Proof using Hfiles Hmem Hpos Hmax0.
  intros Hu. unfold InitWriter.
  destruct (CIniFile.IsValid (CIniFile.New (files path))) eqn:Hv; [|apply writer_not].
  destruct (conf_valid _ _ Hfiles Hv) as (d & Hd & Hd'). rewrite Hd. cbn [negb].
  get_int wk. get_int ws. get_string dpath. get_string upath.
  destruct (InitUserShm_ok files HEAD INDEX NODE user_mem lock_init u0 upath) as (u & Ret & E & Hr & Hs); [done..|].
  rewrite Hu, E. cbn [mbind outcome_bind]. cbv zeta. destruct (Z.eqb_spec Ret 0) as [->|]; cbn [negb]; [|apply writer_not].
  specialize (Hs eq_refl). attach q1 Hq1; [|apply writer_not].
  destruct (CIniFile.IsValid (CIniFile.New (files dpath))) eqn:Hv2; [|apply writer_not].
  destruct (conf_valid _ _ Hfiles Hv2) as (d2 & Hd2 & Hd2'). rewrite Hd2. cbn [negb].
  destruct (ReadDBs_ok d2 0 (Z.to_nat USER_DATABASE_NUM) Hd2') as (dbs & -> & Hl). cbn [mbind outcome_bind].
  eexists _, _, _. split; [done|]. split; [by left|]. intros _. split; [|done]. exists wk.
  split_and!; try done. unfold zlen. by rewrite Hl.
Qed.

(** Connected, they are ready for the database. *)
Lemma connected_ok (cfgs : list DBConfig) (conns conns' : list (CMySQL.t D)) dbs r :
  cfgs = dbs.*1 → zlen dbs = USER_DATABASE_NUM → zlen conns = USER_DATABASE_NUM →
  Forall (λ c, CMySQL.m_nAutoCommit c = 1) conns → Forall names_fit cfgs →
  ConnectAll conns dbs = (conns', r) → store_ok cfgs conns'.
Proof.
  intros -> Hd Hc Ha Hn Hcon. destruct (ConnectAll_ok conns dbs) as (l & r' & Hcon' & _ & Hl & Hf).
  rewrite Hcon in Hcon'. injection Hcon' as <- <-. constructor; try done.
  - unfold zlen. by rewrite length_fmap.
  - unfold zlen. by rewrite Hl.
  - auto.
Qed.
End stores.

(** * The authentication server *)
Section auth.
Context {Q D : Type} `{FifoQueue Q} `{AuthProto} `{MySQLOpen D} `{!QueueInit Q} `{!QueueInitLaws Q}.
Context (files : list Z → option (list Z)).
Implicit Types (s : CAuth.t Q D).

Definition auth_started s : Prop := ∃ rkey skey,
  q_rep (CAuth.m_SendQueue s) (q_stored skey) ∧ q_rep (CAuth.m_RecvQueue s) (q_stored rkey) ∧
  zlen (CAuth.m_pSendBuff s) = XY_PKG_MAX_LEN ∧
  (Forall names_fit (CAuth.m_DBConfig s) → store_ok (CAuth.m_DBConfig s) (CAuth.m_DBConn s)).

Definition auth_starts (o : outcome (CAuth.t Q D * Z)) : Prop :=
  ∃ s r, o = Ok (s, r) ∧ (r = 0 ∨ r = -1) ∧ (r = 0 → auth_started s).

Lemma auth_not s : auth_starts (Ok (s, -1)).
Proof. eexists _, _. split_and!; [done|by right|done]. Qed.

Lemma InitAuth_ok s path buf :
  conf_files files → zlen (CAuth.m_DBConn s) = AUTH_DATABASE_NUM →
  Forall (λ c, CMySQL.m_nAutoCommit c = 1) (CAuth.m_DBConn s) → zlen buf = XY_PKG_MAX_LEN →
  auth_starts (InitAuth files s path buf).
Proof.
  intros Hf Hz Ha Hb. unfold InitAuth.
  destruct (CIniFile.IsValid (CIniFile.New (files path))) eqn:Hv; [|apply auth_not].
  destruct (conf_valid _ _ Hf Hv) as (d & Hd & Hd'). rewrite Hd. cbn [negb].
  get_int sid. get_string bpath. get_string dpath. get_int state. get_string mname. cbv zeta.
  case_match; [apply auth_not|]. case_bool_decide; [apply auth_not|]. case_bool_decide; [apply auth_not|].
  destruct (CIniFile.IsValid (CIniFile.New (files bpath))) eqn:Hv2; [|apply auth_not].
  destruct (conf_valid _ _ Hf Hv2) as (d2 & Hd2 & Hd2'). rewrite Hd2. cbn [negb].
  get_int sk. get_int ss.
  match goal with |- context [section_of ?a ?b] => assert (sec_ok d2 (section_of a b)) as Hsec end.
  { apply conf_section_of; [done|done|]. apply (bool_decide_unpack _). by vm_compute. }
  get_int rk. get_int rs. destruct (_ || _); [apply auth_not|]. destruct (_ || _); [apply auth_not|].
  attach q1 Hq1; [|apply auth_not]. attach q2 Hq2; [|apply auth_not].
  destruct (CIniFile.IsValid (CIniFile.New (files dpath))) eqn:Hv3; [|apply auth_not].
  destruct (conf_valid _ _ Hf Hv3) as (d3 & Hd3 & Hd3'). rewrite Hd3. cbn [negb].
  destruct (ReadDBs_ok d3 0 (Z.to_nat AUTH_DATABASE_NUM) Hd3') as (dbs & -> & Hl). cbn [mbind outcome_bind].
  cbn [CAuth.m_DBConn CAuth.set_send CAuth.set_recv].
  destruct (ConnectAll (CAuth.m_DBConn s) dbs) as [conns Ret] eqn:Ec. cbv zeta.
  destruct (Z.eqb_spec Ret 0) as [->|]; cbn [negb]; [|apply auth_not].
  eexists _, _. split; [done|]. split; [by left|]. intros _. exists rk, sk. split_and!; try done. intros Hn.
  eapply connected_ok; [done| |exact Hz|done|done|exact Ec]. unfold zlen. by rewrite Hl.
Qed.
End auth.

Section user.
Context {Q K : Type} `{FifoQueue Q} `{Kernel K} `{!KernelClock K} `{UserProtoLaws} `{!QueueInit Q} `{!QueueInitLaws Q}.
Hypothesis Hmax : XY_PKG_MAX_LEN ≤ q_max.
Context (files : list Z → option (list Z)) (HEAD INDEX NODE : Z)
  (user_mem : Z → Z → option (bool * CHashListNoLock.t ShmUserInfo.t)) (lock_init : list Z → Z).

End user.

Section auth.
Context {Q D K : Type} `{FifoQueue Q} `{AuthDB D} `{MySQLOpen D} `{Kernel K} `{!KernelClock K} `{AuthProto} `{!QueueInit Q} `{!QueueInitLaws Q}.
Hypothesis Hmax : XY_PKG_MAX_LEN ≤ q_max.
Context (files : list Z → option (list Z)).

(** [CAuth::Init], from configuration files that are missing or are texts that
    do not begin with a capital letter ([conf_files]) and with any databases: it returns 0 or -1, and if it returns 0 the two queues are
    those of the bus's file, the databases are connected, and, if the names of
    the databases and tables fit into a statement, the server deals with every
    package that waits for it and goes on. *)
Theorem auth_Init_then_serves (sq rq : Q) (d : D) path buf :
  conf_files files → zlen buf = XY_PKG_MAX_LEN →
  ∃ s r, InitAuth files (NewAuth sq rq d) path buf = Ok (s, r) ∧ (r = 0 ∨ r = -1) ∧
    (r = 0 → ∃ rkey skey, q_rep (CAuth.m_SendQueue s) (q_stored skey) ∧ q_rep (CAuth.m_RecvQueue s) (q_stored rkey) ∧
      (Forall names_fit (CAuth.m_DBConfig s) → Forall auth_pkg (q_stored rkey) →
       ∀ (k : K) last rbuf, zlen rbuf = XY_PKG_MAX_LEN →
       ∃ k' s' last' buf' ms',
         CAuth.Run (length (q_stored (Q := Q) rkey)) s k last rbuf = Ok (k', s', last', buf') ∧ AuthLoop.alive s' ms' [])).
Proof.
  intros Hf Hb.
  destruct (InitAuth_ok files (NewAuth sq rq d) path buf Hf) as (s & r & Hi & Hr & Hs); [done|by repeat constructor|done|].
  exists s, r. split; [exact Hi|]. split; [done|]. intros H0'. destruct (Hs H0') as (rkey & skey & Hsq & Hrq & Hz & Hst).
  exists rkey, skey. split; [done|]. split; [done|]. intros Hn Hp k last rbuf Hrb.
  assert (AuthLoop.alive s (q_stored skey) (q_stored rkey)) as Ha.
  { constructor; [|done|done]. constructor; [done|done|by apply Hst]. }
  destruct (auth_Run_ok Hmax (length (q_stored (Q := Q) rkey)) s k last rbuf _ _ Ha Hrb) as (k' & s' & last' & buf' & ms' & rs' & -> & Ha' & Hl).
  assert (rs' = []) as -> by (apply length_zero_iff_nil; lia). by exists k', s', last', buf', ms'.
Qed.
End auth.

(** * The loader and the writer *)
Section stores.
Context {Q D : Type} `{FifoQueue Q} `{MySQL D} `{MySQLOpen D} `{!QueueInit Q} `{!QueueInitLaws Q}.
Context (files : list Z → option (list Z)) (HEAD INDEX NODE : Z)
  (user_mem : Z → Z → option (bool * CHashListNoLock.t ShmUserInfo.t)) (lock_init : list Z → Z) (u : CUserShmApi.t).
Hypothesis Hfiles : conf_files files.
Hypothesis Hmem : ∀ path, user_mem_ok files user_mem path (CUserShmApi.m_MaxUserNodeNum u).
Hypothesis Hpos : CUserShmApi.m_CheckUserPos u = 0.
Hypothesis Hnum : - 2 ^ 31 ≤ CUserShmApi.m_MaxUserNodeNum u < 2 ^ 31.

(** Initialised and connected, the loader and the writer are what their theorems
    start from, if the names in the file of databases fit into a statement. *)
Lemma loader_Init_ready (cfgs : list DBConfig) (d : D) (rq sq : Q) path :
  ∃ s dbs r, InitLoader files HEAD INDEX NODE user_mem lock_init
      (CLoaderUser.mk cfgs (replicate 2 (CMySQLOpen.New d)) rq sq u) path = Ok (s, dbs, r) ∧ (r = 0 ∨ r = -1) ∧
    (r = 0 → Forall names_fit (CLoaderUser.m_DBConfig s) → ∀ s', ConnectLoader s dbs = (s', 0) → ∃ g, loader_ok s' g).
Proof using All.
  destruct (InitLoader_ok files HEAD INDEX NODE user_mem lock_init u Hfiles Hmem Hpos Hnum
    (CLoaderUser.mk cfgs (replicate 2 (CMySQLOpen.New d)) rq sq u) path eq_refl) as (s & dbs & r & Hi & Hr & Hs).
  exists s, dbs, r. split; [exact Hi|]. split; [done|]. intros H0' Hn s' Hcon.
  destruct (Hs H0') as [(rkey & skey & (_ & _ & _ & _ & g & _ & _ & Hg & _) & Hc & Hz & _) Hconns]. exists g.
  unfold ConnectLoader in Hcon. destruct (ConnectAll _ dbs) as [conns Ret] eqn:Ec. injection Hcon as <- _. split; [|exact Hg]. cbn.
  rewrite Hconns in Ec. cbn [CLoaderUser.m_DBConn] in Ec. eapply connected_ok; [exact Hc|exact Hz| | |exact Hn|exact Ec]; [done|by repeat constructor].
Qed.

Lemma writer_Init_ready (cfgs : list DBConfig) (d : D) (wq : Q) path :
  ∃ s dbs r, InitWriter files HEAD INDEX NODE user_mem lock_init
      (CWriterUser.mk cfgs (replicate 2 (CMySQLOpen.New d)) wq u) path = Ok (s, dbs, r) ∧ (r = 0 ∨ r = -1) ∧
    (r = 0 → Forall names_fit (CWriterUser.m_DBConfig s) → ∀ s', ConnectWriter s dbs = (s', 0) → ∃ g, writer_ok s' g).
Proof using All.
  destruct (InitWriter_ok files HEAD INDEX NODE user_mem lock_init u Hfiles Hmem Hpos Hnum
    (CWriterUser.mk cfgs (replicate 2 (CMySQLOpen.New d)) wq u) path eq_refl) as (s & dbs & r & Hi & Hr & Hs).
  exists s, dbs, r. split; [exact Hi|]. split; [done|]. intros H0' Hn s' Hcon.
  destruct (Hs H0') as [(wkey & (_ & _ & _ & _ & g & _ & _ & Hg & _) & Hc & Hz & _) Hconns]. exists g.
  unfold ConnectWriter in Hcon. destruct (ConnectAll _ dbs) as [conns Ret] eqn:Ec. injection Hcon as <- _. split; [|exact Hg]. cbn.
  rewrite Hconns in Ec. cbn [CWriterUser.m_DBConn] in Ec. eapply connected_ok; [exact Hc|exact Hz| | |exact Hn|exact Ec]; [done|by repeat constructor].
Qed.
End stores.

(** * Files to start from *)
Module ServerInitExample.
Definition user_file : list Z := conf_lines
  [first_line "user"; []; bytes "[USER]"; bytes "ServerID = 401"; bytes "BusConfPath = /c"; bytes "StateTime = 30";
   bytes "LoaderSendShmKey = 11"; bytes "LoaderSendShmSize = 600"; bytes "LoaderRecvShmKey = 12"; bytes "LoaderRecvShmSize = 600";
   bytes "WriterShmKey = 13"; bytes "WriterShmSize = 600"; bytes "UserShmKey = 77"; bytes "UserShmSize = 40000"; bytes "NodeNum = 4"].
Definition auth_file : list Z := conf_lines
  [first_line "auth"; []; bytes "[AUTH]"; bytes "ServerID = 301"; bytes "BusConfPath = /c"; bytes "DBConfPath = /d"].
Definition db_file : list Z := conf_lines
  [bytes "[DB_0]"; bytes "Host = a"; bytes "DB = mm"; bytes "Table = user"; bytes "[DB_1]"; bytes "Host = b"; bytes "DB = mm"; bytes "Table = user"].
Definition shared_file : list Z := conf_lines
  [bytes "[BUS_GLOBAL]"; bytes "GCIMKey = 9"; bytes "GCIMSize = 600"; bytes "[SERVER_401]"; bytes "QueueKey = 5"; bytes "QueueSize = 600";
   bytes "[SERVER_301]"; bytes "QueueKey = 6"; bytes "QueueSize = 600"].
Definition all_files : list (list Z * list Z) :=
  [(bytes "/u", user_file); (bytes "/a", auth_file); (bytes "/d", db_file); (bytes "/c", shared_file)].
Definition files (p : list Z) : option (list Z) := snd <$> head (filter (λ f, f.1 = p) all_files).

(** The memory has user 7 in it. *)
Definition user_mem (key size : Z) : option (bool * CHashListNoLock.t ShmUserInfo.t) :=
  if key =? 77 then Some (true, CUserShmApi.m_UserInfoMap (UserServerExample.shm_of [UserServerExample.ann])) else None.
#[export] Instance open : MySQLOpen SimAuth.t := {
  mysql_open host user pass db port := if bool_decide (host = []) then inr (-2) else inl AuthServerExample.one_user }.

Lemma server_files_text : conf_files files.
Proof.
  intros p d. unfold files. destruct (filter _ _) as [|[q x] l] eqn:E; [done|]. intros [= <-]. right.
  assert ((q, x) ∈ all_files) as Hin. { eapply (list_elem_of_filter (λ f, f.1 = p)). rewrite E. by left. }
  revert Hin. unfold all_files. rewrite !elem_of_cons, elem_of_nil.
  intros [[= _ ->]|[[= _ ->]|[[= _ ->]|[[= _ ->]|[]]]]]; (apply is_conf_text_ok; by vm_compute).
Qed.
End ServerInitExample.
Import ServerInitExample.
#[local] Existing Instance UserServerExample.user_proto.
#[local] Existing Instance UserServerExample.user_proto_laws.
#[local] Existing Instance AuthServerExample.auth_proto.

Definition auth_start (buf : list Z) : outcome (CAuth.t CShmQueue.t SimAuth.t * Z) :=
  InitAuth files (NewAuth fresh_queue fresh_queue AuthServerExample.nobody) (bytes "/a") buf.


Lemma auth_Init_then_serves_witness :
  match auth_start [] with Ok (s, r) => r = 0 ∧ CAuth.m_DBConfig s = [UserServerExample.config; UserServerExample.config] | _ => False end ∧
  ∃ s r, auth_start ConnServerExample.big = Ok (s, r) ∧
    (r = 0 → ∃ rkey skey, q_rep (CAuth.m_SendQueue s) (q_stored skey) ∧ q_rep (CAuth.m_RecvQueue s) (q_stored rkey)).
Proof.
  split; [vm_compute; by split|].
  destruct (auth_Init_then_serves (K := Sim.t) ConnServerExample.queue_max files fresh_queue fresh_queue AuthServerExample.nobody (bytes "/a")
    ConnServerExample.big) as (s & r & Hi & _ & Hr).
  - exact server_files_text.
  - exact ConnServerExample.zlen_buff.
  - exists s, r. split; [exact Hi|]. intros H0'. destruct (Hr H0') as (rkey & skey & Hs & Hq & _). by exists rkey, skey.
Defined.
