(* ===== verification/MemPool.v ===== *)
(** Pools in a block of memory: [CFixedsizeMemPool]
    (mmlib/mem_pool/fixedsize_mem_pool.h), nodes of one size with a ring of free
    ones, and [CMemPool] (mmlib/mem_pool/mem_pool.h), maps made of chains of its
    nodes. *)
From S2P Require Import Prelude.

#[local] Open Scope Z_scope.
#[local] Open Scope list_scope.
#[local] Arguments Z.add : simpl never.
#[local] Arguments Z.eqb : simpl never.
#[local] Arguments Z.ltb : simpl never.

(** [a % b] of ints: a zero divisor is undefined. *)
Definition crem (a b : Z) : outcome Z := if b =? 0 then Fault else Ok (Z.rem a b).

(** * Marks of used nodes, a bit each *)
Definition get_bit (l : list Z) (i : Z) : outcome bool :=
  b ← aget l (Z.quot i 8); Ok (negb (Z.land b (Z.shiftl 1 (Z.rem i 8)) =? 0)).
Definition set_bit (l : list Z) (i : Z) : outcome (list Z) :=
  b ← aget l (Z.quot i 8); aset l (Z.quot i 8) (u8 (Z.lor b (Z.shiftl 1 (Z.rem i 8)))).
Definition clear_bit (l : list Z) (i : Z) : outcome (list Z) :=
  b ← aget l (Z.quot i 8); aset l (Z.quot i 8) (u8 (Z.land b (Z.lnot (Z.shiftl 1 (Z.rem i 8))))).

Module CFixedsizeMemPool.

Definition SUCCESS : Z := 0.
Definition ERROR : Z := -1.
Definition E_NODE_NUM : Z := -101.
Definition E_MEM_SIZE : Z := -102.
Definition E_DATAP_ERR : Z := -103.
Definition E_VERIFY_CYCLE_LIST_ERR : Z := -104.
Definition E_VERIFY_USEDNODE_NUM : Z := -105.
Definition E_VERIFY_USEDBIT_FLAG : Z := -106.

(** The head, the parts behind it, and [m_iGetNextPos] of the object.  A pointer
    to a node is its number. *)
Record t (A : Type) : Type := mk {
  iMemSize : Z; iNodeNum : Z; iUsedNodeNum : Z; iFreeHead : Z; iFreeTail : Z;
  m_piFreeList : list Z; m_pucUsedBit : list Z; m_pDataBuff : list A;
  m_iGetNextPos : Z }.
Arguments mk {A}.
Arguments iMemSize {A}.
Arguments iNodeNum {A}.
Arguments iUsedNodeNum {A}.
Arguments iFreeHead {A}.
Arguments iFreeTail {A}.
Arguments m_piFreeList {A}.
Arguments m_pucUsedBit {A}.
Arguments m_pDataBuff {A}.
Arguments m_iGetNextPos {A}.

Section pool.
(** [sizeof(DATATYPE)], and a DATATYPE whose bytes are zero. *)
Context {A : Type} (SIZE : Z) (zero : A).
Implicit Types (p : t A).

Definition HEAD_SIZE : Z := 20.

(** An object before [Init]. *)
Definition new : t A := mk 0 0 0 0 0 [] [] [] 0.

Definition set_data p (d : list A) : t A :=
  mk (iMemSize p) (iNodeNum p) (iUsedNodeNum p) (iFreeHead p) (iFreeTail p) (m_piFreeList p) (m_pucUsedBit p) d
     (m_iGetNextPos p).
Definition set_next p (i : Z) : t A :=
  mk (iMemSize p) (iNodeNum p) (iUsedNodeNum p) (iFreeHead p) (iFreeTail p) (m_piFreeList p) (m_pucUsedBit p)
     (m_pDataBuff p) i.

Definition CalculateMemSize (iNodeNum : Z) : Z :=
  i32 (u64 (HEAD_SIZE + 4 * u64 iNodeNum + SIZE * u64 iNodeNum + u64 (Z.quot (iNodeNum + 7) 8))).

(** The bytes the parts of a pool of [n] nodes lie in, with no wrap-around. *)
Definition PoolBytes (n : Z) : Z := HEAD_SIZE + 4 * n + Z.quot (n + 7) 8 + SIZE * n.

(** The memory [pvMem] points to, [iMemSize] bytes, as the parts of a pool of
    [iNodeNum] nodes; [None] is a null pointer.  The size is compared with one
    computed in an int; clearing the parts writes behind the memory when they are
    larger, and so does looking at the head of a smaller memory. *)
Definition Init (pvMem : Z → option (t A)) (pNextPos iMemSize' iNodeNum' iClearFlag : Z) : outcome (option (t A) * Z) :=
  if iNodeNum' <? 0 then Ok (None, E_NODE_NUM) else
  let n := if iNodeNum' =? 0 then i32 (u64 (iMemSize' - HEAD_SIZE) / (4 + SIZE + 1)) else iNodeNum' in
  match pvMem n with
  | None => Ok (None, E_MEM_SIZE)
  | Some p =>
      if iMemSize' <? CalculateMemSize n then Ok (None, E_MEM_SIZE) else
      if iClearFlag =? 1 then
        if (n <? 0) || (iMemSize' <? PoolBytes n) then Fault else
        Ok (Some (mk iMemSize' n 0 0 (n - 1) (Z.of_nat <$> seq 0 (Z.to_nat n))
                  (replicate (Z.to_nat (Z.quot (n + 7) 8)) 0) (replicate (Z.to_nat n) zero) pNextPos), SUCCESS)
      else
        if iMemSize' <? HEAD_SIZE then Fault else
        let p := set_next p pNextPos in
        if negb (iMemSize p =? iMemSize') then Ok (Some p, E_MEM_SIZE) else
        if negb (iNodeNum p =? n) then Ok (Some p, E_NODE_NUM) else Ok (Some p, SUCCESS)
  end.

Definition Verify p : outcome Z :=
  bad ← for_range 0 (iNodeNum p) (λ i bad,
          if bad : bool then Ok true else f ← aget (m_piFreeList p) i; Ok (iNodeNum p <=? f)) false;
  if bad : bool then Ok E_VERIFY_CYCLE_LIST_ERR else
  r ← crem (i32 (i32 (iFreeTail p + iNodeNum p) - iFreeHead p)) (iNodeNum p);
  if negb (iNodeNum p - (r + 1) =? iUsedNodeNum p) then Ok E_VERIFY_USEDNODE_NUM else
  iUsedNumFromBitFlag ← for_range 0 (iNodeNum p) (λ i c,
          u ← get_bit (m_pucUsedBit p) i; Ok (if u : bool then c + 1 else c)) 0;
  Ok (if negb (iUsedNumFromBitFlag =? iUsedNodeNum p) then E_VERIFY_USEDBIT_FLAG else SUCCESS).

(** [pData] points [off] bytes behind the beginning of the data. *)
Definition VerifyData p (off : Z) : Z :=
  let iMemOffSet := HEAD_SIZE + 4 * iNodeNum p + Z.quot (iNodeNum p + 7) 8 + off in
  let iDataOffSet := i32 (u64 (iMemOffSet - HEAD_SIZE - (4 * iNodeNum p - Z.quot (iNodeNum p + 7) 8))) in
  if u64 iDataOffSet mod SIZE =? 0 then SUCCESS else ERROR.

Definition AllocateNode p : outcome (t A * option Z) :=
  next ← crem (iFreeHead p + 1) (iNodeNum p);
  if next =? iFreeTail p then Ok (p, None) else
  i ← aget (m_piFreeList p) (iFreeHead p);
  bits ← set_bit (m_pucUsedBit p) i;
  Ok (mk (iMemSize p) (iNodeNum p) (iUsedNodeNum p + 1) next (iFreeTail p) (m_piFreeList p) bits (m_pDataBuff p)
         (m_iGetNextPos p), Some i).

Definition ReleaseNode p (off : Z) : outcome (t A * Z) :=
  if (off <? 0) || (iNodeNum p * SIZE <? off) || negb (Z.rem off SIZE =? 0) then Ok (p, E_DATAP_ERR) else
  let iMaskPos := Z.quot off SIZE in
  u ← get_bit (m_pucUsedBit p) iMaskPos;
  if negb u then Ok (p, 0) else
  fl ← aset (m_piFreeList p) (iFreeTail p) iMaskPos;
  bits ← clear_bit (m_pucUsedBit p) iMaskPos;
  tail ← crem (iFreeTail p + 1) (iNodeNum p);
  Ok (mk (iMemSize p) (iNodeNum p) (iUsedNodeNum p - 1) (iFreeHead p) tail fl bits (m_pDataBuff p) (m_iGetNextPos p), 0).

(** The first used node of [n] from the [i]-th on. *)
Fixpoint next_used (bits : list Z) (n : nat) (i : Z) : outcome (option Z) :=
  match n with
  | O => Ok None
  | S n => u ← get_bit bits i; if u : bool then Ok (Some i) else next_used bits n (i + 1)
  end.

Definition GetNextNode p (iFirstNodeFlag : Z) : outcome (t A * option Z) :=
  let p := if negb (iFirstNodeFlag =? 0) then set_next p 0 else p in
  r ← next_used (m_pucUsedBit p) (Z.to_nat (iNodeNum p - m_iGetNextPos p)) (m_iGetNextPos p);
  Ok (match r with Some i => (set_next p (i + 1), Some i) | None => (p, None) end).
End pool.
End CFixedsizeMemPool.

Module CMemPool.
Import CFixedsizeMemPool.

Definition MAP_BLOCK_DATA_NUM : Z := 50.

Definition SUCCESS : Z := 0.
Definition ERROR : Z := -1.
Definition MEM_POOL_INIT_FAILED : Z := -101.
Definition MEM_POOL_VERIFY_FAILED : Z := -102.
Definition MEM_POOL_NOT_INITED : Z := -103.
Definition INVALID_MAP_HANDLE : Z := -104.
Definition NODE_NOT_EXIST : Z := -105.
Definition NODE_EXIST : Z := -106.
Definition MEM_POOL_ALLOCATE_FAILED : Z := -107.
Definition MEM_POOL_RELEASE_FAILED : Z := -108.

(** A piece of a map. *)
Record DataBlock (KEY A : Type) : Type := Block {
  iUsedDataNum : Z; iNextHandle : Z; astKey : list KEY; astData : list A }.
Arguments Block {KEY A}.
Arguments iUsedDataNum {KEY A}.
Arguments iNextHandle {KEY A}.
Arguments astKey {KEY A}.
Arguments astData {KEY A}.

(** The pool, the map worked on and its first block, by numbers of nodes. *)
Record t (KEY A : Type) : Type := mk {
  m_objFMP : CFixedsizeMemPool.t (DataBlock KEY A);
  m_iMapHandle : Z; m_pHeadDataBlock : Z; m_iFMPInitFlag : Z }.
Arguments mk {KEY A}.
Arguments m_objFMP {KEY A}.
Arguments m_iMapHandle {KEY A}.
Arguments m_pHeadDataBlock {KEY A}.
Arguments m_iFMPInitFlag {KEY A}.

Section pool.
(** The size of a block, and keys and data whose bytes are zero. *)
Context {KEY A : Type} `{EqDecision KEY} (SIZE : Z) (zkey : KEY) (zdata : A).
Implicit Types (p : t KEY A) (b : DataBlock KEY A) (Key : KEY) (Data : A).

(** An object before [InitMemPool]: no map; the pointer to its first block is
    null, and that is no node. *)
Definition new : t KEY A := mk CFixedsizeMemPool.new (-1) (-2) 0.

Definition zero_block : DataBlock KEY A :=
  Block 0 0 (replicate (Z.to_nat MAP_BLOCK_DATA_NUM) zkey) (replicate (Z.to_nat MAP_BLOCK_DATA_NUM) zdata).

Definition set_fmp p (f : CFixedsizeMemPool.t (DataBlock KEY A)) : t KEY A :=
  mk f (m_iMapHandle p) (m_pHeadDataBlock p) (m_iFMPInitFlag p).
Definition set_map p (h : Z) : t KEY A := mk (m_objFMP p) h h (m_iFMPInitFlag p).
Definition set_next b (h : Z) : DataBlock KEY A := Block (iUsedDataNum b) h (astKey b) (astData b).

Definition block p (h : Z) : outcome (DataBlock KEY A) := aget (m_pDataBuff (m_objFMP p)) h.
Definition set_block p (h : Z) b : outcome (t KEY A) :=
  d ← aset (m_pDataBuff (m_objFMP p)) h b; Ok (set_fmp p (set_data (m_objFMP p) d)).

Definition InitMemPool p (pvMem : Z → option (CFixedsizeMemPool.t (DataBlock KEY A))) (iMemSize iNodeNum iClearFlag : Z)
    : outcome (t KEY A * Z) :=
  '(f, r) ← Init SIZE zero_block pvMem (m_iGetNextPos (m_objFMP p)) iMemSize iNodeNum iClearFlag;
  let p := match f with Some f => set_fmp p f | None => p end in
  if negb (r =? CFixedsizeMemPool.SUCCESS) then Ok (p, MEM_POOL_INIT_FAILED)
  else Ok (mk (m_objFMP p) (m_iMapHandle p) (m_pHeadDataBlock p) 1, SUCCESS).

Definition VerifyMemPool p : outcome Z :=
  if negb (m_iFMPInitFlag p =? 1) then Ok MEM_POOL_NOT_INITED else
  r ← Verify (m_objFMP p);
  Ok (if negb (r =? CFixedsizeMemPool.SUCCESS) then MEM_POOL_VERIFY_FAILED else SUCCESS).

(** A block of the pool, all zero but for the end of a chain. *)
Definition NewBlock p : outcome (t KEY A * option Z) :=
  '(f, r) ← AllocateNode (m_objFMP p);
  let p := set_fmp p f in
  match r with
  | None => Ok (p, None)
  | Some h => p ← set_block p h (set_next zero_block (-1)); Ok (p, Some h)
  end.

Definition NewMap p : outcome (t KEY A * Z) :=
  if negb (m_iFMPInitFlag p =? 1) then Ok (p, MEM_POOL_NOT_INITED) else
  '(p, r) ← NewBlock p;
  match r with
  | None => Ok (p, MEM_POOL_ALLOCATE_FAILED)
  | Some h => Ok (set_map p h, h)
  end.

Definition InitWithHandle p (iMapHandle : Z) : t KEY A * Z :=
  if negb (m_iFMPInitFlag p =? 1) then (p, MEM_POOL_NOT_INITED) else
  if (iMapHandle <? 0) || (iNodeNum (m_objFMP p) <=? iMapHandle) then (p, INVALID_MAP_HANDLE) else
  (set_map p iMapHandle, SUCCESS).

(** What every operation on a map looks at first. *)
Definition CheckMap p : option Z :=
  if negb (m_iFMPInitFlag p =? 1) then Some MEM_POOL_NOT_INITED else
  if (m_iMapHandle p <? 0) || (iNodeNum (m_objFMP p) <=? m_iMapHandle p) then Some INVALID_MAP_HANDLE else None.

(** The blocks from [h] on are given back, each after its link is read. *)
Fixpoint release_loop (fuel : nat) p (h : Z) : outcome (t KEY A * Z) :=
  match fuel with
  | O => Spin
  | S fuel =>
      if h =? -1 then Ok (p, SUCCESS) else
      b ← block p h;
      '(f, r) ← ReleaseNode SIZE (m_objFMP p) (h * SIZE);
      let p := set_fmp p f in
      if negb (r =? CFixedsizeMemPool.SUCCESS) then Ok (p, MEM_POOL_RELEASE_FAILED)
      else release_loop fuel p (iNextHandle b)
  end.

Definition fuel_of p : nat := S (S (Z.to_nat (iNodeNum (m_objFMP p)))).

Definition ReleaseMap p : outcome (t KEY A * Z) :=
  match CheckMap p with
  | Some e => Ok (p, e)
  | None =>
      '(p, r) ← release_loop (fuel_of p) p (m_pHeadDataBlock p);
      if negb (r =? SUCCESS) then Ok (p, r) else
      Ok (mk (m_objFMP p) (-1) (m_pHeadDataBlock p) (m_iFMPInitFlag p), SUCCESS)
  end.

(** The first of [n] pairs from the [i]-th on with this key. *)
Fixpoint find_key b Key (n : nat) (i : Z) : outcome (option Z) :=
  match n with
  | O => Ok None
  | S n => k ← aget (astKey b) i; if bool_decide (k = Key) then Ok (Some i) else find_key b Key n (i + 1)
  end.

(** The search in the blocks from [h] on: where the key is, or the last block,
    [last] if there is none. *)
Fixpoint find_loop (fuel : nat) p Key (h last : Z) : outcome (Z * Z + Z) :=
  match fuel with
  | O => Spin
  | S fuel =>
      if h =? -1 then Ok (inr last) else
      b ← block p h;
      r ← find_key b Key (Z.to_nat (iUsedDataNum b)) 0;
      match r with
      | Some i => Ok (inl (h, i))
      | None => find_loop fuel p Key (iNextHandle b) h
      end
  end.

(** The data is found at a place: a block and a number in it. *)
Definition GetNode p Key : outcome (Z * option (Z * Z)) :=
  match CheckMap p with
  | Some e => Ok (e, None)
  | None =>
      r ← find_loop (fuel_of p) p Key (m_pHeadDataBlock p) (-1);
      Ok (match r with inl at' => (SUCCESS, Some at') | inr _ => (NODE_NOT_EXIST, None) end)
  end.

(** What is at such a place, and what a caller can put there. *)
Definition deref p (at' : Z * Z) : outcome A := b ← block p at'.1; aget (astData b) at'.2.
Definition store p (at' : Z * Z) Data : outcome (t KEY A) :=
  b ← block p at'.1; d ← aset (astData b) at'.2 Data;
  set_block p at'.1 (Block (iUsedDataNum b) (iNextHandle b) (astKey b) d).

(** [n] data from the [i]-th on. *)
Fixpoint all_data b (n : nat) (i : Z) : outcome (list A) :=
  match n with
  | O => Ok []
  | S n => x ← aget (astData b) i; l ← all_data b n (i + 1); Ok (x :: l)
  end.
Fixpoint all_loop (fuel : nat) p (h : Z) : outcome (list A) :=
  match fuel with
  | O => Spin
  | S fuel =>
      if h =? -1 then Ok [] else
      b ← block p h;
      l ← all_data b (Z.to_nat (iUsedDataNum b)) 0;
      rest ← all_loop fuel p (iNextHandle b);
      Ok (l ++ rest)
  end.

Definition GetAllNode p (vstAllData : list A) : outcome (Z * list A) :=
  match CheckMap p with
  | Some e => Ok (e, vstAllData)
  | None => l ← all_loop (fuel_of p) p (m_pHeadDataBlock p); Ok (SUCCESS, l)
  end.

(** A pair is put behind those of a block. *)
Definition AddPair p (h : Z) Key Data : outcome (t KEY A) :=
  b ← block p h;
  ks ← aset (astKey b) (iUsedDataNum b) Key;
  ds ← aset (astData b) (iUsedDataNum b) Data;
  set_block p h (Block (iUsedDataNum b + 1) (iNextHandle b) ks ds).

(** A pair is put into a new block behind the last one. *)
Definition AppendBlock p (last : Z) Key Data : outcome (t KEY A * Z) :=
  '(p, r) ← NewBlock p;
  match r with
  | None => Ok (p, MEM_POOL_ALLOCATE_FAILED)
  | Some h =>
      b ← block p last; p ← set_block p last (set_next b h);
      p ← AddPair p h Key Data; Ok (p, SUCCESS)
  end.

Definition InsertNode p Key Data : outcome (t KEY A * Z) :=
  match CheckMap p with
  | Some e => Ok (p, e)
  | None =>
      r ← find_loop (fuel_of p) p Key (m_pHeadDataBlock p) (-1);
      match r with
      | inl _ => Ok (p, NODE_EXIST)
      | inr last =>
          b ← block p last;
          if iUsedDataNum b =? MAP_BLOCK_DATA_NUM then
            AppendBlock p last Key Data
          else p ← AddPair p last Key Data; Ok (p, SUCCESS)
      end
  end.

Definition GetMapInfo p : Z * Z * Z :=
  (iMemSize (m_objFMP p), iNodeNum (m_objFMP p), iUsedNodeNum (m_objFMP p)).
End pool.
End CMemPool.
