(* ===== verification/MemPoolFacts.v ===== *)
(** The pool of nodes of one size: which nodes are free, and in which order they
    are used again. *)
From S2P Require Import Prelude Ring MemPool.

#[local] Open Scope Z_scope.
#[local] Open Scope list_scope.
#[local] Arguments Z.add : simpl never.
#[local] Arguments Z.eqb : simpl never.
#[local] Arguments Z.ltb : simpl never.

(** * Bits *)
Lemma land_bit b k : 0 ≤ k → negb (Z.land b (Z.shiftl 1 k) =? 0) = Z.testbit b k.
Proof.
  intros Hk. assert (∀ n, 0 ≤ n → Z.testbit (Z.land b (Z.shiftl 1 k)) n = Z.testbit b n && (n =? k)) as Hn.
  { intros n Hn. rewrite Z.land_spec, Z.shiftl_spec by done. f_equal.
    destruct (Z.eqb_spec n k) as [->|]; [by rewrite Z.sub_diag|]. destruct (Z.lt_ge_cases n k).
    - apply Z.testbit_neg_r. lia.
    - apply (Z.bits_above_log2 1); [done|]. cbn. lia. }
  destruct (Z.eqb_spec (Z.land b (Z.shiftl 1 k)) 0) as [E|E]; cbn.
  - specialize (Hn k Hk). rewrite E, Z.eqb_refl, andb_true_r, Z.bits_0 in Hn. done.
  - destruct (Z.testbit b k) eqn:Hb; [done|]. exfalso. apply E, Z.bits_inj'. intros n Hn'. rewrite Hn, Z.bits_0 by done.
    destruct (Z.eqb_spec n k) as [->|]; [by rewrite Hb|by rewrite andb_false_r].
Qed.

Lemma u8_bit b k : 0 ≤ k < 8 → Z.testbit (u8 b) k = Z.testbit b k.
Proof. intros Hk. unfold u8. rewrite Z.mod_pow2_bits_low; [done|lia]. Qed.

Lemma bit_quot i : 0 ≤ i → Z.quot i 8 = i / 8 ∧ Z.rem i 8 = i mod 8 ∧ 0 ≤ i mod 8 < 8.
Proof.
  intros Hi. pose proof (Z.mod_pos_bound i 8). rewrite Z.quot_div_nonneg, Z.rem_mod_nonneg by lia. split_and!; [done|done|lia|lia].
Qed.

Lemma shifted_bit k j : 0 ≤ k → 0 ≤ j → Z.testbit (Z.shiftl 1 k) j = (j =? k).
Proof.
  intros Hk Hj. rewrite Z.shiftl_spec by done. destruct (Z.eqb_spec j k) as [->|]; [by rewrite Z.sub_diag|].
  destruct (Z.lt_ge_cases j k); [apply Z.testbit_neg_r; lia|]. apply (Z.bits_above_log2 1); [done|]. cbn. lia.
Qed.

Section bits.
Implicit Types (l : list Z) (i j : Z).

Lemma get_bit_ok l i : 0 ≤ i < 8 * zlen l → ∃ b, aget l (i / 8) = Ok b ∧ get_bit l i = Ok (Z.testbit b (i mod 8)).
Proof.
  intros Hi. destruct (bit_quot i) as (Hq & Hr & Hm); [lia|]. unfold get_bit. rewrite Hq, Hr.
  destruct (aget_total l (i / 8)) as [b Hb]; [split; [apply Z.div_pos; lia|apply Z.div_lt_upper_bound; lia]|].
  exists b. split; [done|]. rewrite Hb. cbn [mbind outcome_bind]. by rewrite land_bit by lia.
Qed.

(** One bit is written: [x] is its value afterwards. *)
Definition written (x : bool) l i l' : Prop :=
  zlen l' = zlen l ∧ get_bit l' i = Ok x ∧ ∀ j, 0 ≤ j < 8 * zlen l → j ≠ i → get_bit l' j = get_bit l j.

Lemma write_bit (x : bool) l i b b' :
  0 ≤ i < 8 * zlen l → aget l (i / 8) = Ok b →
  (∀ k, 0 ≤ k < 8 → Z.testbit b' k = if decide (k = i mod 8) then x else Z.testbit b k) →
  ∃ l', aset l (i / 8) b' = Ok l' ∧ written x l i l'.
Proof.
  intros Hi Hb Hk. pose proof (aget_lt _ _ _ Hb) as Hlt. destruct (aset_total l (i / 8) b' Hlt) as (l' & Hs & Hz & Hg & Ho).
  exists l'. split; [done|]. split; [done|]. split.
  - destruct (get_bit_ok l' i) as (c & Hc & ->); [lia|]. rewrite Hg in Hc. injection Hc as <-.
    rewrite Hk by (apply Z.mod_pos_bound; lia). by rewrite decide_True.
  - intros j Hj Hne. destruct (get_bit_ok l' j) as (c & Hc & ->); [lia|]. destruct (get_bit_ok l j) as (d & Hd & ->); [lia|].
    f_equal. destruct (decide (j / 8 = i / 8)) as [E|E].
    + rewrite E in Hc, Hd. rewrite Hg in Hc. rewrite Hb in Hd. injection Hc as <-. injection Hd as <-.
      rewrite Hk by (apply Z.mod_pos_bound; lia). rewrite decide_False; [done|]. intros Em. apply Hne.
      rewrite (Z.div_mod j 8), (Z.div_mod i 8) by lia. lia.
    + rewrite Ho in Hc by done. congruence.
Qed.

Lemma set_bit_ok l i : 0 ≤ i < 8 * zlen l → ∃ l', set_bit l i = Ok l' ∧ written true l i l'.
Proof.
  intros Hi. destruct (get_bit_ok l i Hi) as (b & Hb & _). destruct (bit_quot i) as (Hq & Hr & Hm); [lia|].
  unfold set_bit. rewrite Hq, Hr, Hb. cbn [mbind outcome_bind]. apply (write_bit true l i b); [done|done|].
  intros k Hk. rewrite u8_bit, Z.lor_spec, shifted_bit by lia. case_decide as E; [subst k; rewrite Z.eqb_refl; apply orb_true_r|].
  rewrite (proj2 (Z.eqb_neq _ _)) by done. apply orb_false_r.
Qed.

Lemma clear_bit_ok l i : 0 ≤ i < 8 * zlen l → ∃ l', clear_bit l i = Ok l' ∧ written false l i l'.
Proof.
  intros Hi. destruct (get_bit_ok l i Hi) as (b & Hb & _). destruct (bit_quot i) as (Hq & Hr & Hm); [lia|].
  unfold clear_bit. rewrite Hq, Hr, Hb. cbn [mbind outcome_bind]. apply (write_bit false l i b); [done|done|].
  intros k Hk. rewrite u8_bit, Z.land_spec, Z.lnot_spec, shifted_bit by lia.
  case_decide as E; [subst k; rewrite Z.eqb_refl; apply andb_false_r|]. rewrite (proj2 (Z.eqb_neq _ _)) by done. apply andb_true_r.
Qed.

Lemma get_bit_zeros n i : 0 ≤ i < 8 * Z.of_nat n → get_bit (replicate n 0) i = Ok false.
Proof.
  intros Hi. destruct (get_bit_ok (replicate n 0) i) as (b & Hb & ->); [unfold zlen; rewrite length_replicate; lia|].
  apply aget_Some in Hb as [_ [-> _]%lookup_replicate_1]. by rewrite Z.bits_0.
Qed.
End bits.

(** * One cell of a ring *)
Lemma rget_1 {A} (m : list A) o x : aget m o = Ok x → rget m o 1 = [x].
Proof.
  intros [Ho Hx]%aget_Some. unfold rget, ring_read. change (Z.to_nat 1) with 1%nat.
  by rewrite (drop_S _ _ _ Hx).
Qed.

Lemma rput_1 {A} (m : list A) o x : 0 ≤ o < zlen m → rput m o [x] = <[Z.to_nat o := x]> m.
Proof.
  intros Ho. unfold zlen in Ho. unfold rput, ring_write. cbn [length]. rewrite (proj2 (Nat.leb_le _ _)) by lia.
  rewrite insert_take_drop by lia. f_equal. cbn. f_equal. f_equal. lia.
Qed.

(** Numbers below a bound are no more than it. *)
Lemma NoDup_below (l : list Z) n : NoDup l → (∀ i, i ∈ l → 0 ≤ i < n) → zlen l ≤ Z.max 0 n.
Proof.
  intros Hnd Hr. assert (l ⊆+ seqZ 0 n) as Hs.
  { apply NoDup_submseteq; [done|]. intros i Hi. apply elem_of_seqZ. specialize (Hr i Hi). lia. }
  apply submseteq_length in Hs. rewrite length_seqZ in Hs. unfold zlen. lia.
Qed.

(** * The free nodes *)
Section fixed.
Import CFixedsizeMemPool.
Context {A : Type} (SIZE : Z) (zero : A).
Implicit Types (p : t A) (free : list Z).

(** Nodes [free] are free, the first the next to be used; the others are in
    use, but for the last node, which is never used. *)
Record frep p free : Prop := {
  fr_num : 2 ≤ iNodeNum p < 2 ^ 30;
  fr_list : zlen (m_piFreeList p) = iNodeNum p;
  fr_bits : zlen (m_pucUsedBit p) = (iNodeNum p + 7) / 8;
  fr_data : zlen (m_pDataBuff p) = iNodeNum p;
  fr_head : 0 ≤ iFreeHead p < iNodeNum p;
  fr_tail : iFreeTail p = (iFreeHead p + zlen free) mod iNodeNum p;
  fr_free : rget (m_piFreeList p) (iFreeHead p) (zlen free) = free;
  fr_len : 1 ≤ zlen free < iNodeNum p;
  fr_nodup : NoDup free;
  fr_range i : i ∈ free → 0 ≤ i < iNodeNum p - 1;
  fr_used i : 0 ≤ i < 8 * zlen (m_pucUsedBit p) →
    get_bit (m_pucUsedBit p) i = Ok (bool_decide (i < iNodeNum p - 1 ∧ i ∉ free));
  fr_cnt : iUsedNodeNum p = iNodeNum p - 1 - zlen free;
  fr_cells : Forall (λ f, f < iNodeNum p) (m_piFreeList p);
}.

(** In use. *)
Definition used p free (i : Z) : Prop := 0 ≤ i < iNodeNum p - 1 ∧ i ∉ free.

(** What no operation changes. *)
Record same_pool p p' : Prop := {
  sp_size : iMemSize p' = iMemSize p;
  sp_num : iNodeNum p' = iNodeNum p;
  sp_data : m_pDataBuff p' = m_pDataBuff p;
}.

Lemma fr_bit_range p free i : frep p free → 0 ≤ i < iNodeNum p → 0 ≤ i < 8 * zlen (m_pucUsedBit p).
Proof. intros [] Hi. rewrite fr_bits0. split; [lia|]. pose proof (Z.div_mod (iNodeNum p + 7) 8). pose proof (Z.mod_pos_bound (iNodeNum p + 7) 8). lia. Qed.

Lemma crem_ok a n : 0 ≤ a → 0 < n → crem a n = Ok (a mod n).
Proof. intros Ha Hn. unfold crem. rewrite (proj2 (Z.eqb_neq n 0)) by lia. by rewrite Z.rem_mod_nonneg by lia. Qed.

(** The first free node is given away, unless it is the only one. *)
Lemma AllocateNode_ok p free :
  frep p free →
  match free with
  | i :: (_ :: _) as rest =>
      ∃ p', AllocateNode p = Ok (p', Some i) ∧ frep p' rest ∧ same_pool p p' ∧ used p' rest i
  | _ => AllocateNode p = Ok (p, None)
  end.
Proof.
  intros Hf. pose proof Hf as []. unfold AllocateNode. rewrite crem_ok by lia. cbn [mbind outcome_bind]. rewrite fr_tail0.
  destruct free as [|i rest]; [change (zlen (@nil Z)) with 0 in fr_len0; lia|]. rewrite zlen_cons in *.
  destruct rest as [|j rest]; [by rewrite zlen_nil, Z.eqb_refl|]. set (r := j :: rest) in *.
  assert (0 < zlen r) as Hr by (unfold r; rewrite zlen_cons; pose proof (zlen_nonneg rest); lia).
  rewrite (proj2 (Z.eqb_neq ((iFreeHead p + 1) mod iNodeNum p) _)).
  2:{ intros E. destruct (mod_cases (iNodeNum p) (iFreeHead p + 1)) as [[E1 ?]|[E1 ?]], (mod_cases (iNodeNum p) (iFreeHead p + (1 + zlen r))) as [[E2 ?]|[E2 ?]]; lia. }
  destruct (aget_total (m_piFreeList p) (iFreeHead p)) as [x Hx]; [lia|].
  rewrite rget_app in fr_free0 by lia. rewrite (rget_1 _ _ _ Hx) in fr_free0. cbn [app] in fr_free0. injection fr_free0 as -> Hrest.
  rewrite Hx. cbn [mbind outcome_bind]. apply NoDup_cons in fr_nodup0 as [Hni Hnd].
  pose proof (fr_range0 i ltac:(by left)) as Hi.
  destruct (set_bit_ok (m_pucUsedBit p) i) as (bits & -> & Hz & Hb & Ho); [apply (fr_bit_range p (i :: r)); [done|lia]|].
  cbn [mbind outcome_bind]. eexists. split; [done|]. pose proof (Z.mod_pos_bound (iFreeHead p + 1) (iNodeNum p)).
  split; [|by split_and!]. constructor; cbn; try done.
  - by rewrite Hz.
  - lia.
  - rewrite Zplus_mod_idemp_l. f_equal. lia.
  - by rewrite <- fr_list0.
  - lia.
  - intros k Hk. apply fr_range0. by right.
  - intros k Hk. rewrite Hz in Hk. destruct (decide (k = i)) as [->|Hne].
    + rewrite Hb, bool_decide_true; [done|split; [lia|done]].
    + rewrite Ho, fr_used0 by done. f_equal. apply bool_decide_ext. rewrite not_elem_of_cons. naive_solver.
  - lia.
Qed.

(** A node in use comes behind the free ones; any other is left alone. *)
Lemma ReleaseNode_ok p free i :
  frep p free → 0 < SIZE → 0 ≤ i < iNodeNum p →
  if bool_decide (i < iNodeNum p - 1 ∧ i ∉ free)
  then ∃ p', ReleaseNode SIZE p (i * SIZE) = Ok (p', 0) ∧ frep p' (free ++ [i]) ∧ same_pool p p'
  else ReleaseNode SIZE p (i * SIZE) = Ok (p, 0).
Proof.
  intros Hf Hs Hi. pose proof Hf as []. unfold ReleaseNode. rewrite (proj2 (Z.ltb_ge (i * SIZE) 0)) by nia.
  rewrite (proj2 (Z.ltb_ge (iNodeNum p * SIZE) _)) by nia. rewrite Z.rem_mul, Z.quot_mul by lia. cbn [orb negb Z.eqb]. cbv zeta.
  change (negb (0 =? 0)) with false. cbv iota.
  rewrite fr_used0 by by apply (fr_bit_range p free). cbn [mbind outcome_bind].
  case_bool_decide as Hu; cbn [negb]; [|done]. destruct Hu as [Hlt Hni].
  assert (NoDup (free ++ [i])) as Hnd.
  { apply NoDup_app. split; [done|]. split; [|apply NoDup_singleton]. by intros x Hx ->%list_elem_of_singleton. }
  assert (∀ x, x ∈ free ++ [i] → 0 ≤ x < iNodeNum p - 1) as Hrange.
  { intros x [Hx| ->%list_elem_of_singleton]%elem_of_app; [auto|lia]. }
  pose proof (NoDup_below _ _ Hnd Hrange) as Hlen. rewrite zlen_app in Hlen. change (zlen [i]) with 1 in Hlen.
  pose proof (Z.mod_pos_bound (iFreeHead p + zlen free) (iNodeNum p)) as Htail. rewrite <- fr_tail0 in Htail.
  rewrite aset_ok by lia. cbn [mbind outcome_bind].
  destruct (clear_bit_ok (m_pucUsedBit p) i) as (bits & -> & Hz & Hb & Ho); [by apply (fr_bit_range p free)|].
  cbn [mbind outcome_bind]. rewrite crem_ok by lia. cbn [mbind outcome_bind].
  eexists. split; [done|]. split; [|done]. constructor; cbn; try done; rewrite ?zlen_app; change (zlen [i]) with 1.
  - by rewrite zlen_insert.
  - by rewrite Hz.
  - rewrite fr_tail0, Zplus_mod_idemp_l. f_equal. lia.
  - rewrite <- rput_1 by lia. rewrite rget_app by (rewrite ?zlen_rput; change (zlen [i]) with 1; lia). rewrite zlen_rput by (change (zlen [i]) with 1; lia).
    assert (iFreeTail p = (iFreeHead p + zlen free) mod zlen (m_piFreeList p)) as Ht by by rewrite fr_list0.
    rewrite <- Ht. f_equal.
    + rewrite Ht, rget_rput_disjoint; [done|lia|lia|change (zlen [i]) with 1; lia].
    + apply (rget_rput (m_piFreeList p) (iFreeTail p) [i]); [lia|change (zlen [i]) with 1; lia].
  - lia.
  - intros k Hk. rewrite Hz in Hk. destruct (decide (k = i)) as [->|Hne].
    + rewrite Hb. rewrite bool_decide_false; [done|]. intros [_ Hn]. apply Hn, elem_of_app. right. by left.
    + rewrite Ho, fr_used0 by done. f_equal. apply bool_decide_ext. rewrite not_elem_of_app, list_elem_of_singleton. naive_solver.
  - lia.
  - apply Forall_insert; [done|lia].
Qed.

(** A memory that has room for the pool, and whose size is an int. *)
Definition fits (n size : Z) : Prop := PoolBytes SIZE n ≤ size < 2 ^ 31.

Lemma fits_ok n size : 0 < SIZE → 2 ≤ n → fits n size → n < 2 ^ 30 ∧ CalculateMemSize SIZE n = PoolBytes SIZE n ∧ HEAD_SIZE ≤ size.
Proof.
  intros HS Hn [H1 H2]. unfold CalculateMemSize, PoolBytes in *. rewrite Z.quot_div_nonneg in * by lia.
  pose proof (Z.div_pos (n + 7) 8 ltac:(lia) ltac:(lia)). unfold HEAD_SIZE in *. assert (n * 1 ≤ SIZE * n) by nia.
  rewrite (u64_small n), (u64_small (_ / _)) by lia. rewrite (u64_small (_ + _)) by lia. rewrite i32_small by lia. lia.
Qed.

(** A pool that was just cleared. *)
Lemma Init_cleared (mem : Z → option (t A)) next size n p0 :
  0 < SIZE → 2 ≤ n → mem n = Some p0 → fits n size →
  ∃ p, Init SIZE zero mem next size n 1 = Ok (Some p, SUCCESS) ∧ frep p (seqZ 0 (n - 1)) ∧
    iNodeNum p = n ∧ iMemSize p = size ∧ m_pDataBuff p = replicate (Z.to_nat n) zero.
Proof.
  intros HS Hn Hm Hs. destruct (fits_ok n size HS Hn Hs) as (Hlt30 & Hcs & _). destruct Hs as [Hs1 Hs2].
  unfold Init. rewrite (proj2 (Z.ltb_ge n 0)), (proj2 (Z.eqb_neq n 0)) by lia. cbv zeta. rewrite Hm, Hcs.
  rewrite (proj2 (Z.ltb_ge size (PoolBytes _ _))), ?(proj2 (Z.ltb_ge n 0)) by lia. change (1 =? 1) with true. cbn [orb]. cbv iota.
  eexists. split; [done|]. split; [|done].
  assert (zlen (Z.of_nat <$> seq 0 (Z.to_nat n)) = n) as Hfl by (unfold zlen; rewrite length_fmap, length_seq; lia).
  assert (zlen (seqZ 0 (n - 1)) = n - 1) as Hsq by (unfold zlen; rewrite length_seqZ; lia).
  assert (zlen (replicate (Z.to_nat (Z.quot (n + 7) 8)) 0) = (n + 7) / 8) as Hbz.
  { rewrite zlen_replicate, Z.quot_div_nonneg by lia. rewrite Z2Nat.id; [done|]. apply Z.div_pos; lia. }
  constructor; cbn [iNodeNum m_piFreeList m_pucUsedBit m_pDataBuff iFreeHead iFreeTail iUsedNodeNum]; rewrite ?Hsq; try done; try lia.
  - rewrite zlen_replicate. lia.
  - rewrite Z.mod_small; lia.
  - unfold rget, ring_read. rewrite drop_0. cbn [Z.to_nat take]. rewrite app_nil_r.
    rewrite <- fmap_take, take_seq. apply list_eq. intros i. rewrite !list_lookup_fmap.
    destruct (decide (i < Z.to_nat (n - 1))%nat) as [Hi|Hi].
    + rewrite lookup_seqZ_lt by lia. rewrite lookup_seq_lt by lia. done.
    + rewrite lookup_seqZ_ge by lia. rewrite lookup_seq_ge by lia. done.
  - apply NoDup_seqZ.
  - intros i Hi%elem_of_seqZ. lia.
  - intros i Hi. rewrite Hbz in Hi. rewrite get_bit_zeros.
    + rewrite bool_decide_false; [done|]. intros [Hlt Hni]. apply Hni, elem_of_seqZ. lia.
    + unfold zlen in Hbz. rewrite length_replicate in Hbz. lia.
  - apply Forall_fmap, Forall_forall. intros i Hi%elem_of_seq. cbn. lia.
Qed.

(** * What is in use *)
Definition in_use p free (i : Z) : Prop := i < iNodeNum p - 1 ∧ i ∉ free.
#[local] Instance in_use_dec p free i : Decision (in_use p free i) := ltac:(unfold in_use; apply _).

Lemma filter_ext_in {B} (P Q : B → Prop) `{!∀ x, Decision (P x), !∀ x, Decision (Q x)} (l : list B) :
  (∀ x, x ∈ l → P x ↔ Q x) → filter P l = filter Q l.
Proof.
  induction l as [|x l IH]; intros He; [done|]. rewrite !filter_cons, IH by (intros; apply He; by right).
  pose proof (He x ltac:(by left)). repeat case_decide; naive_solver.
Qed.

Lemma free_used_perm free n :
  NoDup free → (∀ i, i ∈ free → 0 ≤ i < n) → free ++ filter (λ i, i ∉ free) (seqZ 0 n) ≡ₚ seqZ 0 n.
Proof.
  intros Hnd Hr. apply NoDup_Permutation.
  - apply NoDup_app. split; [done|]. split; [|apply NoDup_filter, NoDup_seqZ].
    intros x Hx [Hn _]%list_elem_of_filter. done.
  - apply NoDup_seqZ.
  - intros x. rewrite elem_of_app, list_elem_of_filter, elem_of_seqZ. split.
    + intros [Hx|[_ ?]]; [specialize (Hr x Hx); lia|lia].
    + intros Hx. destruct (decide (x ∈ free)); [by left|by right].
Qed.

Lemma used_count p free :
  frep p free → zlen (filter (in_use p free) (seqZ 0 (iNodeNum p))) = iNodeNum p - 1 - zlen free.
Proof.
  intros []. pose proof (free_used_perm free (iNodeNum p - 1) fr_nodup0 fr_range0) as Hp%Permutation_length.
  rewrite length_app, length_seqZ in Hp.
  replace (iNodeNum p) with (iNodeNum p - 1 + 1) at 1 by lia. rewrite seqZ_app, filter_app by lia.
  rewrite (filter_ext_in _ (λ i, i ∉ free) (seqZ 0 (iNodeNum p - 1))) by (intros i Hi%elem_of_seqZ; unfold in_use; naive_solver lia).
  rewrite (filter_ext_in _ (λ _, False) (seqZ (0 + _) 1)) by (intros i Hi%elem_of_seqZ; unfold in_use; naive_solver lia).
  change (filter (λ _, False) (seqZ (0 + (iNodeNum p - 1)) 1)) with (@nil Z). rewrite app_nil_r. unfold zlen in *. lia.
Qed.

(** A pool that is in order passes its own check. *)
Lemma Verify_ok p free : frep p free → Verify p = Ok SUCCESS.
Proof.
  intros Hf. pose proof Hf as []. unfold Verify.
  destruct (for_range_inv (λ _ bad, bad = false) 0 (iNodeNum p) (λ i bad,
    if bad : bool then Ok true else f ← aget (m_piFreeList p) i; Ok (iNodeNum p <=? f)) false) as (bad & -> & ->); [lia|done| |].
  { intros j s Hj ->. destruct (aget_total (m_piFreeList p) j) as [x Hx]; [lia|]. rewrite Hx. exists false. split; [|done].
    cbn [mbind outcome_bind]. f_equal. apply Z.leb_gt. apply aget_Some in Hx as [_ Hx]. exact (Forall_lookup_1 _ _ _ _ fr_cells0 Hx). }
  cbn [mbind outcome_bind].
  pose proof (Z.mod_pos_bound (iFreeHead p + zlen free) (iNodeNum p)) as Htail. rewrite <- fr_tail0 in Htail.
  rewrite (i32_small (iFreeTail p + iNodeNum p)), i32_small, crem_ok by lia. cbn [mbind outcome_bind].
  assert ((iFreeTail p + iNodeNum p - iFreeHead p) mod iNodeNum p = zlen free) as ->.
  { apply mod_once; [lia|]. destruct (mod_cases (iNodeNum p) (iFreeHead p + zlen free)) as [[E ?]|[E ?]]; lia. }
  rewrite (proj2 (Z.eqb_eq _ (iUsedNodeNum p))) by lia. cbn [negb].
  destruct (for_range_inv (λ i c, c = zlen (filter (in_use p free) (seqZ 0 i))) 0 (iNodeNum p) (λ i c,
    u ← get_bit (m_pucUsedBit p) i; Ok (if u : bool then c + 1 else c)) 0) as (c & -> & ->); [lia|done| |].
  { intros j s Hj ->. rewrite fr_used0 by by apply (fr_bit_range p free). cbn [mbind outcome_bind]. eexists. split; [done|].
    rewrite seqZ_app, filter_app, zlen_app by lia. rewrite Z.add_0_l.
    rewrite (seqZ_cons j 1) by lia. change (seqZ (Z.succ j) (Z.pred 1)) with (@nil Z). rewrite filter_cons, filter_nil.
    case_bool_decide as Hu; case_decide as Hd; unfold in_use in *; [done|naive_solver|naive_solver|unfold zlen; cbn [length]; lia]. }
  cbn [mbind outcome_bind]. rewrite (used_count p free Hf), fr_cnt0, Z.eqb_refl. done.
Qed.

(** The next node in use is found, in order. *)
Lemma next_used_ok p free n i :
  frep p free → 0 ≤ i → i + Z.of_nat n ≤ iNodeNum p →
  ∃ r, next_used (m_pucUsedBit p) n i = Ok r ∧
    match r with
    | Some j => i ≤ j < i + Z.of_nat n ∧ used p free j ∧ ∀ k, i ≤ k < j → ¬ used p free k
    | None => ∀ k, i ≤ k < i + Z.of_nat n → ¬ used p free k
    end.
Proof.
  intros Hf. revert i. induction n as [|n IH]; intros i Hi Hn; cbn [next_used].
  { exists None. split; [done|]. lia. }
  rewrite (fr_used _ _ Hf) by (apply (fr_bit_range p free); [done|lia]). cbn [mbind outcome_bind].
  case_bool_decide as Hu.
  - exists (Some i). split; [done|]. unfold used. split; [lia|]. split; [naive_solver|]. lia.
  - destruct (IH (i + 1)) as (r & -> & Hr); [lia|lia|]. exists r. split; [done|].
    assert (¬ used p free i) as Hni by (unfold used; naive_solver). destruct r as [j|].
    + destruct Hr as (? & ? & Hk). split; [lia|]. split; [done|]. intros k ?. destruct (decide (k = i)) as [->|]; [done|]. apply Hk. lia.
    + intros k ?. destruct (decide (k = i)) as [->|]; [done|]. apply Hr. lia.
Qed.

Lemma frep_next p free i : frep p free → frep (set_next p i) free.
Proof. by intros []. Qed.

Lemma frep_data p free d : frep p free → zlen d = iNodeNum p → frep (set_data p d) free.
Proof. by intros [] ?. Qed.

(** All used nodes are found by [GetNextNode], from the first on, in order. *)
Lemma GetNextNode_ok (f : t A) free flag :
  frep f free → 0 ≤ m_iGetNextPos f →
  ∃ f' r, GetNextNode f flag = Ok (f', r) ∧ frep f' free ∧ same_pool f f' ∧
    let from := if flag =? 0 then m_iGetNextPos f else 0 in
    match r with
    | Some i => from ≤ i ∧ used f free i ∧ (∀ k, from ≤ k < i → ¬ used f free k) ∧ m_iGetNextPos f' = i + 1
    | None => ∀ k, from ≤ k → ¬ used f free k
    end.
Proof.
  intros Hf Hpos. unfold GetNextNode. set (f0 := if negb (flag =? 0) then set_next f 0 else f).
  assert (frep f0 free ∧ same_pool f f0 ∧ m_iGetNextPos f0 = if flag =? 0 then m_iGetNextPos f else 0) as (Hf0 & [S1 S2 S3] & Hn0).
  { unfold f0. destruct (flag =? 0); cbn [negb]; [done|]. split; [by apply frep_next|done]. }
  cbv zeta. rewrite Hn0, S2. set (from := if flag =? 0 then m_iGetNextPos f else 0).
  assert (0 ≤ from) by (unfold from; destruct (flag =? 0); lia). assert (∀ k, used f0 free k ↔ used f free k) as Hu by (intros k; unfold used; by rewrite S2).
  destruct (Z.lt_ge_cases (iNodeNum f) from) as [Hlt|Hge].
  - replace (Z.to_nat (iNodeNum f - from)) with 0%nat by lia. cbn [next_used mbind outcome_bind].
    exists f0, None. split; [done|]. split; [done|]. split; [done|]. intros k Hk [Hk' _]. lia.
  - destruct (next_used_ok f0 free (Z.to_nat (iNodeNum f - from)) from Hf0) as (r & -> & Hr); [lia|lia|]. cbn [mbind outcome_bind]. destruct r as [i|].
    + destruct Hr as (Hi & Hui & Hk). eexists _, (Some i). split; [done|]. split; [by apply frep_next|]. split; [done|].
      split; [lia|]. split; [by apply Hu|]. split; [|done]. intros k Hki. rewrite <- Hu. by apply Hk.
    + exists f0, None. split; [done|]. split; [done|]. split; [done|]. intros k Hk Huk. destruct (Z.lt_ge_cases k (iNodeNum f)).
      * apply (Hr k); [lia|]. by apply Hu.
      * destruct Huk. lia.
Qed.
End fixed.
