(* ===== verification/MemPoolSpec.v ===== *)
(** What a pool of maps promises: finite maps, each under its handle, as
    association lists in the order of insertion; [CMemPool] as its caller uses
    it, one call after the other. *)
From S2P Require Import Prelude MemPool.
From stdpp Require Import gmap.

#[local] Open Scope Z_scope.
#[local] Open Scope list_scope.

Import CMemPool.

Section spec.
Context {KEY A : Type} `{EqDecision KEY} (SIZE : Z) (zkey : KEY) (zdata : A).

(** The calls: another object at the same memory, a new map, an old one by its handle, and on the map worked on an
    insertion, a search, a search whose result is written to, all data, and its
    release. *)
Inductive op : Type :=
  | Attach | New | Use (h : Z) | InsertKey (k : KEY) (x : A) | Get (k : KEY) | Put (k : KEY) (x : A) | All | Release.
Inductive ret : Type := RCode (r : Z) | RGet (r : Z) (x : option A) | RAll (r : Z) (l : list A).

(** A call of the program, with what its caller does with a pointer it gets. *)
Definition step (p : t KEY A) (o : op) : outcome (t KEY A * ret) :=
  match o with
  | Attach =>
      '(p, r) ← InitMemPool SIZE zkey zdata new (λ _, Some (m_objFMP p))
        (CFixedsizeMemPool.iMemSize (m_objFMP p)) (CFixedsizeMemPool.iNodeNum (m_objFMP p)) 0;
      Ok (p, RCode r)
  | New => '(p, r) ← NewMap zkey zdata p; Ok (p, RCode r)
  | Use h => let '(p, r) := InitWithHandle p h in Ok (p, RCode r)
  | InsertKey k x => '(p, r) ← InsertNode zkey zdata p k x; Ok (p, RCode r)
  | Get k =>
      '(r, at') ← GetNode p k;
      match at' with Some at' => x ← deref p at'; Ok (p, RGet r (Some x)) | None => Ok (p, RGet r None) end
  | Put k x =>
      '(r, at') ← GetNode p k;
      match at' with Some at' => p ← store p at' x; Ok (p, RCode r) | None => Ok (p, RCode r) end
  | All => '(r, l) ← GetAllNode p []; Ok (p, RAll r l)
  | Release => '(p, r) ← ReleaseMap SIZE p; Ok (p, RCode r)
  end.

(** [n] calls of a client that chooses each by what the earlier ones returned. *)
Definition client : Type := list (op * ret) → op.
Fixpoint run (n : nat) (c : client) (hist : list (op * ret)) (p : t KEY A) : outcome (t KEY A * list (op * ret)) :=
  match n with
  | O => Ok (p, hist)
  | S n => '(p, r) ← step p (c hist); run n c (hist ++ [(c hist, r)]) p
  end.

(** ** The specification *)
Record spec : Type := Spec { maps : gmap Z (list (KEY * A)); current : option Z }.

Definition lookup_pair (kvs : list (KEY * A)) (k : KEY) : option A :=
  (λ f, f.2.2) <$> list_find (λ kv, kv.1 = k) kvs.
Definition put_pair (kvs : list (KEY * A)) (k : KEY) (x : A) : list (KEY * A) :=
  (λ kv, if decide (kv.1 = k) then (k, x) else kv) <$> kvs.

(** The blocks a map takes, and those all maps take. *)
Definition blocks_of (kvs : list (KEY * A)) : Z := Z.max 1 ((zlen kvs + (MAP_BLOCK_DATA_NUM - 1)) / MAP_BLOCK_DATA_NUM).
Definition used_blocks (s : spec) : Z := foldr (λ hk c, blocks_of hk.2 + c) 0 (map_to_list (maps s)).

(** The map worked on. *)
Definition current_map (s : spec) : option (Z * list (KEY * A)) :=
  h ← current s; kvs ← maps s !! h; Some (h, kvs).

(** [N] nodes: two of them are never used. *)
Section capacity.
Context (N : Z).

Definition full (s : spec) : Prop := used_blocks s = N - 2.

Definition insert_spec (s : spec) (h : Z) (kvs : list (KEY * A)) (k : KEY) (x : A) (r : ret) (s' : spec) : Prop :=
  match lookup_pair kvs k with
  | Some _ => r = RCode NODE_EXIST ∧ s' = s
  | None =>
      full s ∧ kvs ≠ [] ∧ zlen kvs mod MAP_BLOCK_DATA_NUM = 0 ∧ r = RCode MEM_POOL_ALLOCATE_FAILED ∧ s' = s
      ∨ (¬ full s ∨ kvs = [] ∨ zlen kvs mod MAP_BLOCK_DATA_NUM ≠ 0) ∧
        r = RCode SUCCESS ∧ s' = Spec (<[h := kvs ++ [(k, x)]]> (maps s)) (current s)
  end.

Definition spec_step (s : spec) (o : op) (r : ret) (s' : spec) : Prop :=
  match o with
  | Attach => r = RCode SUCCESS ∧ s' = Spec (maps s) None
  | New =>
      full s ∧ r = RCode MEM_POOL_ALLOCATE_FAILED ∧ s' = s
      ∨ ¬ full s ∧ ∃ h, 0 ≤ h < N - 1 ∧ maps s !! h = None ∧ r = RCode h ∧ s' = Spec (<[h := []]> (maps s)) (Some h)
  | Use h =>
      if decide (0 ≤ h < N) then r = RCode SUCCESS ∧ s' = Spec (maps s) (Some h)
      else r = RCode INVALID_MAP_HANDLE ∧ s' = s
  | InsertKey k x =>
      match current_map s with
      | None => r = RCode INVALID_MAP_HANDLE ∧ s' = s
      | Some (h, kvs) => insert_spec s h kvs k x r s'
      end
  | Get k =>
      s' = s ∧
      match current_map s with
      | None => r = RGet INVALID_MAP_HANDLE None
      | Some (h, kvs) => r = (if lookup_pair kvs k is Some x then RGet SUCCESS (Some x) else RGet NODE_NOT_EXIST None)
      end
  | Put k x =>
      match current_map s with
      | None => r = RCode INVALID_MAP_HANDLE ∧ s' = s
      | Some (h, kvs) =>
          if lookup_pair kvs k is Some _ then r = RCode SUCCESS ∧ s' = Spec (<[h := put_pair kvs k x]> (maps s)) (current s)
          else r = RCode NODE_NOT_EXIST ∧ s' = s
      end
  | All =>
      s' = s ∧ r = match current_map s with None => RAll INVALID_MAP_HANDLE [] | Some (h, kvs) => RAll SUCCESS (kvs.*2) end
  | Release =>
      match current_map s with
      | None => r = RCode INVALID_MAP_HANDLE ∧ s' = s
      | Some (h, _) => r = RCode SUCCESS ∧ s' = Spec (delete h (maps s)) None
      end
  end.

(** A handle within the pool that is used belongs to a map that lives (an
    [InitWithHandle] takes every number of a node, and a search from a node that
    holds no map may never end). *)
Definition legal (s : spec) (o : op) : Prop :=
  match o with Use h => 0 ≤ h < N → is_Some (maps s !! h) | _ => True end.

Inductive history : list (op * ret) → spec → Prop :=
  | history_nil : history [] (Spec ∅ None)
  | history_step hist s o r s' :
      history hist s → legal s o → spec_step s o r s' → history (hist ++ [(o, r)]) s'.
End capacity.
End spec.
Arguments op : clear implicits.
Arguments ret : clear implicits.
Arguments spec : clear implicits.
Arguments client : clear implicits.
