(* ===== verification/MemPoolProps.v ===== *)
(** Maps in a pool: how chains of blocks stand for lists of pairs, and that the
    operations of [CMemPool] do what [MemPoolSpec] says, with every node in one
    chain or free; from [InitMemPool] on, whatever its callers do, it answers as
    finite maps and its own check finds nothing. *)
From S2P Require Import Prelude Ring MemPool MemPoolFacts MemPoolSpec.
From stdpp Require Import gmap.

#[local] Open Scope Z_scope.
#[local] Open Scope list_scope.
#[local] Arguments Z.add : simpl never.
#[local] Arguments Z.sub : simpl never.
#[local] Arguments Z.mul : simpl never.
#[local] Arguments Z.eqb : simpl never.
#[local] Arguments Z.ltb : simpl never.

Import CFixedsizeMemPool CMemPool.

Lemma last_default {B} (x y : B) (l : list B) : default x (last (y :: l)) = default y (last l).
Proof.
  destruct l as [|z l]; [done|]. rewrite last_cons_cons. destruct (last (z :: l)) eqn:E; [done|]. by apply last_None in E.
Qed.

Section chains.
Context {KEY A : Type} `{EqDecision KEY} (SIZE : Z) (zkey : KEY) (zdata : A).
Implicit Types (p : t KEY A) (b : DataBlock KEY A) (d : list (DataBlock KEY A)) (kvs : list (KEY * A))
  (l : list (Z * list (KEY * A))) (free : list Z).

(** ** Blocks and chains *)
Record holds b kvs : Prop := {
  ho_num : iUsedDataNum b = zlen kvs;
  ho_max : zlen kvs ≤ MAP_BLOCK_DATA_NUM;
  ho_keys : zlen (astKey b) = MAP_BLOCK_DATA_NUM;
  ho_datas : zlen (astData b) = MAP_BLOCK_DATA_NUM;
  ho_pair i k x : kvs !! i = Some (k, x) → astKey b !! i = Some k ∧ astData b !! i = Some x;
}.

(** The chain from [h] on is these nodes with these pairs; only its last block
    has room. *)
Fixpoint chain d (h : Z) l : Prop :=
  match l with
  | [] => h = -1
  | (n, kvs) :: l =>
      h = n ∧ ∃ b, aget d n = Ok b ∧ holds b kvs ∧ (l = [] ∨ zlen kvs = MAP_BLOCK_DATA_NUM) ∧ chain d (iNextHandle b) l
  end.

Definition nodes l : list Z := l.*1.
Definition pairs l : list (KEY * A) := concat (l.*2).

Lemma pairs_cons n kvs l : pairs ((n, kvs) :: l) = kvs ++ pairs l.
Proof. done. Qed.
Lemma pairs_app l l' : pairs (l ++ l') = pairs l ++ pairs l'.
Proof. unfold pairs. by rewrite fmap_app, concat_app. Qed.

(** A chain is read and changed at one of its blocks. *)
Lemma chain_at d h l1 n kvs l2 :
  chain d h (l1 ++ (n, kvs) :: l2) →
  ∃ b, aget d n = Ok b ∧ holds b kvs ∧ (l2 = [] ∨ zlen kvs = MAP_BLOCK_DATA_NUM) ∧ chain d (iNextHandle b) l2.
Proof.
  revert h. induction l1 as [|[m kvs'] l1 IH]; intros h; cbn; [naive_solver|]. intros (-> & b & _ & _ & _ & Hc). by apply (IH _ Hc).
Qed.

Lemma chain_put d d' h l1 n kvs l2 b' kvs' l2' :
  chain d h (l1 ++ (n, kvs) :: l2) → (∀ m, m ∈ nodes l1 → aget d' m = aget d m) →
  aget d' n = Ok b' → holds b' kvs' → l2' = [] ∨ zlen kvs' = MAP_BLOCK_DATA_NUM → chain d' (iNextHandle b') l2' →
  chain d' h (l1 ++ (n, kvs') :: l2').
Proof.
  intros Hc Ha Hb Hh Hf Ht. revert h Hc. induction l1 as [|[m kvs0] l1 IH]; intros h; cbn [app chain].
  - intros (-> & _). split; [done|]. by exists b'.
  - intros (-> & b & Hm & Hh' & [E|E] & Hc); [by destruct l1|]. split; [done|]. exists b.
    rewrite Ha by (cbn; by left). split; [done|]. split; [done|]. split; [by right|].
    apply IH; [|done]. intros k Hk. apply Ha. cbn. by right.
Qed.

Lemma blocks_frame d d' h l : chain d h l → (∀ m, m ∈ nodes l → aget d' m = aget d m) → chain d' h l.
Proof.
  revert h. induction l as [|[n kvs] l IH]; intros h; cbn [chain]; [done|]. intros (-> & b & Hb & Hh & Hf & Hc) Ha.
  split; [done|]. exists b. rewrite Ha by (cbn; by left). split; [done|]. split; [done|]. split; [done|].
  apply IH; [done|]. intros m Hm. apply Ha. cbn. by right.
Qed.

Lemma chain_head d h l : chain d h l → l ≠ [] → ∃ kvs l', l = (h, kvs) :: l'.
Proof. destruct l as [|[n kvs] l]; [done|]. intros (-> & _) _. eauto. Qed.

(** ** Keys *)
Lemma find_key_ok b kvs Key n i :
  holds b kvs → (i + n = length kvs)%nat →
  ∃ r, find_key b Key n (Z.of_nat i) = Ok r ∧
    match r with
    | Some j => 0 ≤ j ∧ ∃ x, kvs !! Z.to_nat j = Some (Key, x)
    | None => ∀ j x, (i ≤ j)%nat → kvs !! j ≠ Some (Key, x)
    end.
Proof.
  intros Hh. revert i. induction n as [|n IH]; intros i Hn; cbn [find_key].
  { exists None. split; [done|]. intros j x Hj Hx. apply lookup_lt_Some in Hx. lia. }
  destruct (lookup_lt_is_Some_2 kvs i) as [[k x] Hx]; [lia|]. destruct (ho_pair _ _ Hh _ _ _ Hx) as [Hk Hd].
  rewrite (aget_ok (astKey b) (Z.of_nat i) k) by (rewrite ?Nat2Z.id; first [lia|done]). cbn [mbind outcome_bind].
  case_bool_decide as E; [subst k; exists (Some (Z.of_nat i)); rewrite Nat2Z.id; split; [done|]; split; [lia|eauto]|].
  destruct (IH (S i)) as (r & Hr & Hspec); [lia|]. replace (Z.of_nat i + 1) with (Z.of_nat (S i)) by lia.
  exists r. split; [done|]. destruct r; [done|]. intros j y Hj Hy. destruct (decide (j = i)) as [->|]; [congruence|].
  apply (Hspec j y); [lia|done].
Qed.

Lemma find_loop_ok p Key fuel h l la :
  chain (m_pDataBuff (m_objFMP p)) h l → (length l < fuel)%nat → (∀ n, n ∈ nodes l → 0 ≤ n) →
  ∃ r, find_loop fuel p Key h la = Ok r ∧
    match r with
    | inl (n, j) => ∃ l1 kvs l2 x, l = l1 ++ (n, kvs) :: l2 ∧ 0 ≤ j ∧ kvs !! Z.to_nat j = Some (Key, x)
    | inr la' => Key ∉ (pairs l).*1 ∧ la' = default la (last (nodes l))
    end.
Proof.
  revert h l la. induction fuel as [|fuel IH]; intros h l la Hc Hf Hn; [lia|]. cbn [find_loop].
  destruct l as [|[n kvs] l]; cbn in Hc.
  { subst h. exists (inr la). split; [done|]. split; [|done]. apply not_elem_of_nil. }
  destruct Hc as (-> & b & Hb & Hh & Hfull & Hc). rewrite (proj2 (Z.eqb_neq n (-1))) by (specialize (Hn n ltac:(cbn; by left)); lia).
  unfold block. rewrite Hb. cbn [mbind outcome_bind].
  destruct (find_key_ok b kvs Key (length kvs) 0 Hh eq_refl) as (r & Hr & Hspec). rewrite (ho_num _ _ Hh). unfold zlen. rewrite Nat2Z.id.
  change (Z.of_nat 0) with 0 in Hr. rewrite Hr. cbn [mbind outcome_bind]. destruct r as [j|].
  { destruct Hspec as (? & x & Hx). exists (inl (n, j)). split; [done|]. by exists [], kvs, l, x. }
  destruct (IH (iNextHandle b) l n Hc) as (r & -> & Hr'); [cbn in Hf; lia|intros m Hm; apply Hn; cbn; by right|].
  exists r. split; [done|]. destruct r as [[m j]|la'].
  - destruct Hr' as (l1 & kvs' & l2 & x & -> & Hj & Hx). by exists ((n, kvs) :: l1), kvs', l2, x.
  - destruct Hr' as [Hnk ->]. split.
    + rewrite pairs_cons, fmap_app, elem_of_app. intros [([k x] & E & Hin)%list_elem_of_fmap|]; [|done].
      cbn in E. subst k. apply list_elem_of_lookup in Hin as [i Hi]. apply (Hspec i x); [lia|done].
    + symmetry. apply last_default.
Qed.

Lemma all_data_ok b kvs n i :
  holds b kvs → (i + n = length kvs)%nat → all_data b n (Z.of_nat i) = Ok ((drop i kvs).*2).
Proof.
  intros Hh. revert i. induction n as [|n IH]; intros i Hn; cbn [all_data].
  { by rewrite drop_ge by lia. }
  destruct (lookup_lt_is_Some_2 kvs i) as [[k x] Hx]; [lia|]. destruct (ho_pair _ _ Hh _ _ _ Hx) as [Hk Hd].
  rewrite (aget_ok (astData b) (Z.of_nat i) x) by (rewrite ?Nat2Z.id; first [lia|done]). cbn [mbind outcome_bind].
  replace (Z.of_nat i + 1) with (Z.of_nat (S i)) by lia. rewrite IH by lia. cbn [mbind outcome_bind]. by rewrite (drop_S _ _ _ Hx).
Qed.

Lemma all_loop_ok p fuel h l :
  chain (m_pDataBuff (m_objFMP p)) h l → (length l < fuel)%nat → (∀ n, n ∈ nodes l → 0 ≤ n) →
  all_loop fuel p h = Ok ((pairs l).*2).
Proof.
  revert h l. induction fuel as [|fuel IH]; intros h l Hc Hf Hn; [lia|]. cbn [all_loop].
  destruct l as [|[n kvs] l]; cbn in Hc; [by subst h|].
  destruct Hc as (-> & b & Hb & Hh & Hfull & Hc). rewrite (proj2 (Z.eqb_neq n (-1))) by (specialize (Hn n ltac:(cbn; by left)); lia).
  unfold block. rewrite Hb. cbn [mbind outcome_bind]. rewrite (ho_num _ _ Hh). unfold zlen at 1. rewrite Nat2Z.id.
  change 0 with (Z.of_nat 0). rewrite (all_data_ok b kvs (length kvs) 0 Hh eq_refl). cbn [mbind outcome_bind].
  rewrite (IH _ l Hc); [|cbn in Hf; lia|intros m Hm; apply Hn; cbn; by right]. cbn [mbind outcome_bind].
  by rewrite pairs_cons, fmap_app, drop_0.
Qed.
End chains.

#[local] Arguments Z.leb : simpl never.

Section rep.
Context {KEY A : Type} `{EqDecision KEY} (SIZE : Z) (zkey : KEY) (zdata : A).
Implicit Types (p : t KEY A) (b : DataBlock KEY A) (d : list (DataBlock KEY A)) (kvs : list (KEY * A))
  (l : list (Z * list (KEY * A))) (free : list Z) (ch : gmap Z (list (Z * list (KEY * A)))) (s : spec KEY A).

(** ** Association lists *)
Lemma lookup_pair_Some kvs j k x : NoDup (kvs.*1) → kvs !! j = Some (k, x) → lookup_pair kvs k = Some x.
Proof.
  intros Hnd Hj. unfold lookup_pair.
  assert (list_find (λ kv : KEY * A, kv.1 = k) kvs = Some (j, (k, x))) as ->; [|done].
  apply list_find_Some. split; [done|]. split; [done|]. intros i [k' y] Hi Hlt E. cbn in E. subst k'.
  assert (j = i) as ->; [|lia]. apply (NoDup_lookup kvs.*1 j i k); [done| |]; rewrite list_lookup_fmap.
  - by rewrite Hj.
  - by rewrite Hi.
Qed.

Lemma lookup_pair_None kvs k : k ∉ kvs.*1 → lookup_pair kvs k = None.
Proof.
  intros Hk. unfold lookup_pair. rewrite (proj2 (list_find_None _ _)); [done|]. apply Forall_forall. intros [k' x] Hin E.
  cbn in E. subst k'. apply Hk, list_elem_of_fmap. by exists (k, x).
Qed.

Lemma put_pair_app kvs kvs' k x : put_pair (kvs ++ kvs') k x = put_pair kvs k x ++ put_pair kvs' k x.
Proof. apply fmap_app. Qed.
Lemma put_pair_none kvs k x : k ∉ kvs.*1 → put_pair kvs k x = kvs.
Proof.
  intros Hk. unfold put_pair. induction kvs as [|[k' y] kvs IH]; [done|]. cbn in *. rewrite not_elem_of_cons in Hk.
  destruct Hk as [Hne Hk]. rewrite IH by done. case_decide; [congruence|done].
Qed.
Lemma put_pair_keys kvs k x : (put_pair kvs k x).*1 = kvs.*1.
Proof. unfold put_pair. induction kvs as [|[k' y] kvs IH]; [done|]. cbn. rewrite IH. case_decide; by subst. Qed.
Lemma put_pair_at kvs j k x y :
  NoDup (kvs.*1) → kvs !! j = Some (k, y) → put_pair kvs k x = <[j := (k, x)]> kvs.
Proof.
  revert j. induction kvs as [|[k' z] kvs IH]; intros [|j] Hnd Hj; cbn in *; try done; apply NoDup_cons in Hnd as [Hk Hnd].
  - injection Hj as -> ->. rewrite decide_True by done. f_equal. by apply put_pair_none.
  - rewrite decide_False.
    + f_equal. by apply IH.
    + intros ->. apply Hk, list_elem_of_fmap. exists (k, y). split; [done|]. by eapply list_elem_of_lookup_2.
Qed.

(** ** Chains of maps *)
Definition all_nodes ch : list Z := concat ((λ hl, nodes hl.2) <$> map_to_list ch).

#[local] Instance concat_perm {B} : Proper ((≡ₚ) ==> (≡ₚ)) (@concat B).
Proof.
  intros l1 l2 Hp. induction Hp; cbn; [done|by f_equiv| |by etrans].
  rewrite !app_assoc. f_equiv. apply Permutation_app_comm.
Qed.

Lemma all_nodes_delete ch h l : ch !! h = Some l → all_nodes ch ≡ₚ nodes l ++ all_nodes (delete h ch).
Proof. intros Hh. unfold all_nodes. by rewrite <- (map_to_list_delete ch h l Hh). Qed.
Lemma all_nodes_insert ch h l : all_nodes (<[h := l]> ch) ≡ₚ nodes l ++ all_nodes (delete h ch).
Proof. rewrite <- insert_delete_eq. unfold all_nodes. by rewrite map_to_list_insert by apply lookup_delete_eq. Qed.
Lemma elem_of_all_nodes ch n : n ∈ all_nodes ch ↔ ∃ h l, ch !! h = Some l ∧ n ∈ nodes l.
Proof.
  unfold all_nodes. rewrite list_elem_of_In, in_concat. split.
  - intros (x & Hx & Hn). apply list_elem_of_In in Hx, Hn. apply list_elem_of_fmap in Hx as ([h l] & -> & Hm).
    apply elem_of_map_to_list in Hm. eauto.
  - intros (h & l & Hm & Hn). exists (nodes l). rewrite <- !list_elem_of_In. split; [|done].
    apply list_elem_of_fmap. exists (h, l). split; [done|]. by apply elem_of_map_to_list.
Qed.

(** The chain of a map: its keys are different, and none of its later blocks is
    empty. *)
Record good d (h : Z) l : Prop := {
  go_chain : chain d h l;
  go_some : l ≠ [];
  go_keys : NoDup ((pairs l).*1);
  go_tail : Forall (λ nk, nk.2 ≠ []) (tail l);
}.

Lemma chain_bounds d h l :
  chain d h l → Forall (λ nk, nk.2 ≠ []) l → MAP_BLOCK_DATA_NUM * (zlen l - 1) ≤ zlen (pairs l) ≤ MAP_BLOCK_DATA_NUM * zlen l
    ∧ (l ≠ [] → MAP_BLOCK_DATA_NUM * (zlen l - 1) < zlen (pairs l)).
Proof.
  revert h. induction l as [|[n kvs] l IH]; intros h Hc Hne.
  { unfold zlen. cbn. unfold MAP_BLOCK_DATA_NUM. split; [lia|done]. }
  destruct Hc as (_ & b & _ & Hh & Hf & Hc). apply Forall_cons in Hne as [Hk Hne]. cbn in Hk.
  destruct (IH _ Hc Hne) as [Hb Hl]. rewrite pairs_cons, zlen_app, zlen_cons. pose proof (ho_max _ _ Hh). pose proof (zlen_nonneg kvs).
  assert (0 < zlen kvs) by (destruct kvs; [done|]; rewrite zlen_cons; pose proof (zlen_nonneg kvs); lia).
  destruct Hf as [->|Hf].
  - unfold zlen, pairs, MAP_BLOCK_DATA_NUM in *. cbn in *. lia.
  - unfold MAP_BLOCK_DATA_NUM in *. destruct l as [|x l]; [|specialize (Hl ltac:(done))]; unfold zlen in *; cbn in *; lia.
Qed.

Lemma good_blocks d h l : good d h l → blocks_of (pairs l) = zlen l.
Proof.
  intros [Hc Hs _ Ht]. destruct l as [|[n kvs] l]; [done|]. destruct Hc as (_ & b & _ & Hh & Hf & Hc). cbn in Ht.
  destruct (chain_bounds _ _ _ Hc Ht) as [Hb Hl]. pose proof (ho_max _ _ Hh). pose proof (zlen_nonneg kvs). unfold blocks_of.
  rewrite pairs_cons, zlen_app, zlen_cons. unfold MAP_BLOCK_DATA_NUM in *. destruct l as [|x l].
  - unfold pairs. cbn. change (zlen (@nil (KEY * A))) with 0. change (zlen (@nil (Z * list (KEY * A)))) with 0.
    assert ((zlen kvs + 0 + (50 - 1)) / 50 < 2) by (apply Z.div_lt_upper_bound; lia). lia.
  - destruct Hf as [?|Hf]; [done|]. specialize (Hl ltac:(done)).
    rewrite <- (Z.div_unique (zlen kvs + zlen (pairs (x :: l)) + (50 - 1)) 50 (1 + zlen (x :: l))
      (zlen kvs + zlen (pairs (x :: l)) + (50 - 1) - 50 * (1 + zlen (x :: l)))) by lia.
    pose proof (zlen_nonneg (x :: l)). lia.
Qed.

(** The last block is full when the number of pairs says so. *)
Lemma good_full d h l1 n kvs :
  good d h (l1 ++ [(n, kvs)]) →
  zlen kvs = MAP_BLOCK_DATA_NUM ↔
  pairs (l1 ++ [(n, kvs)]) ≠ [] ∧ zlen (pairs (l1 ++ [(n, kvs)])) mod MAP_BLOCK_DATA_NUM = 0.
Proof.
  intros [Hc _ _ Ht]. pose proof (chain_at d h l1 n kvs [] Hc) as (b & _ & Hh & _).
  pose proof (ho_max _ _ Hh). pose proof (zlen_nonneg kvs).
  assert (zlen (pairs (l1 ++ [(n, kvs)])) = MAP_BLOCK_DATA_NUM * zlen l1 + zlen kvs) as E.
  { rewrite pairs_app, zlen_app. rewrite pairs_cons. change (pairs []) with (@nil (KEY * A)). rewrite app_nil_r. f_equal.
    clear -Hc. revert h Hc. induction l1 as [|[m kvs1] l1 IH]; intros h Hc; [done|]. destruct Hc as (_ & b & _ & _ & [Hf|Hf] & Hc).
    - by destruct l1.
    - rewrite pairs_cons, zlen_app, zlen_cons, (IH _ Hc). lia. }
  rewrite E. assert (kvs ≠ [] ∨ l1 = []) as Hk.
  { destruct l1 as [|x l1]; [by right|left]. cbn in Ht. apply Forall_app in Ht as [_ Ht]. by apply Forall_cons in Ht as [? _]. }
  rewrite (Z.mul_comm MAP_BLOCK_DATA_NUM), Z.add_comm, Z.mod_add by done. split.
  - intros E'. rewrite E', Z.mod_same by done. split; [|done]. intros Hn. rewrite Hn, E' in E. unfold zlen, MAP_BLOCK_DATA_NUM in E. cbn in E. lia.
  - intros [Hn Hm]. destruct (decide (zlen kvs = MAP_BLOCK_DATA_NUM)) as [|Hne]; [done|]. exfalso.
    rewrite Z.mod_small in Hm by (unfold MAP_BLOCK_DATA_NUM in *; lia). assert (kvs = []) as -> by (destruct kvs; [done|unfold zlen in Hm; cbn in Hm; lia]).
    destruct Hk as [?| ->]; done.
Qed.

(** ** The pool and its maps *)
Abbreviation data p := (m_pDataBuff (m_objFMP p)).

Record rep (N : Z) p free ch s : Prop := {
  rp_init : m_iFMPInitFlag p = 1;
  rp_pool : frep (m_objFMP p) free;
  rp_num : iNodeNum (m_objFMP p) = N;
  rp_maps : maps s = pairs <$> ch;
  rp_nodes : free ++ all_nodes ch ≡ₚ seqZ 0 (N - 1);
  rp_chain h l : ch !! h = Some l → good (data p) h l;
  rp_current :
    match current s with
    | Some h => is_Some (ch !! h) ∧ m_iMapHandle p = h ∧ m_pHeadDataBlock p = h
    | None => m_iMapHandle p = -1
    end;
}.

(** What the writing of blocks leaves alone. *)
Record same_ctl p p' : Prop := {
  sc_map : m_iMapHandle p' = m_iMapHandle p;
  sc_head : m_pHeadDataBlock p' = m_pHeadDataBlock p;
  sc_flag : m_iFMPInitFlag p' = m_iFMPInitFlag p;
  sc_num : iNodeNum (m_objFMP p') = iNodeNum (m_objFMP p);
  sc_size : iMemSize (m_objFMP p') = iMemSize (m_objFMP p);
}.
Lemma same_ctl_trans p1 p2 p3 : same_ctl p1 p2 → same_ctl p2 p3 → same_ctl p1 p3.
Proof. intros [] []. split; congruence. Qed.

(** One block is written. *)
Record wrote p p' free h b : Prop := {
  wr_pool : frep (m_objFMP p') free;
  wr_ctl : same_ctl p p';
  wr_at : aget (data p') h = Ok b;
  wr_off j : j ≠ h → aget (data p') j = aget (data p) j;
}.

Lemma set_block_ok p free h b :
  frep (m_objFMP p) free → 0 ≤ h < iNodeNum (m_objFMP p) → ∃ p', set_block p h b = Ok p' ∧ wrote p p' free h b.
Proof.
  intros Hf Hh. unfold set_block. destruct (aset_total (data p) h b) as (d & -> & Hz & Hat & Ho); [by rewrite (fr_data _ _ Hf)|].
  cbn [mbind outcome_bind]. eexists. split; [done|]. split; [|done|done|done].
  apply frep_data; [done|]. by rewrite Hz, (fr_data _ _ Hf).
Qed.

Lemma zero_holds : holds (set_next (zero_block zkey zdata) (-1)) [].
Proof.
  split; [done|done| | |done]; cbn; rewrite zlen_replicate; unfold MAP_BLOCK_DATA_NUM; lia.
Qed.

Lemma NewBlock_ok p free :
  frep (m_objFMP p) free →
  zlen free = 1 ∧ NewBlock zkey zdata p = Ok (p, None)
  ∨ ∃ i rest p', free = i :: rest ∧ zlen free ≠ 1 ∧ NewBlock zkey zdata p = Ok (p', Some i) ∧
      wrote p p' rest i (set_next (zero_block zkey zdata) (-1)).
Proof.
  intros Hf. pose proof (AllocateNode_ok _ _ Hf) as Ha. pose proof (fr_len _ _ Hf) as Hl. unfold NewBlock.
  destruct free as [|i [|j rest]]; [change (zlen (@nil Z)) with 0 in Hl; lia|left; split; [done|]|right].
  - rewrite Ha. cbn [mbind outcome_bind]. by destruct p.
  - destruct Ha as (f & -> & Hf' & [Hsz Hnum Hd] & [Hi _]). cbn [mbind outcome_bind].
    destruct (set_block_ok (set_fmp p f) (j :: rest) i (set_next (zero_block zkey zdata) (-1))) as (p' & -> & [Hp Hc Hat Ho]); [done|cbn in *; lia|].
    cbn [mbind outcome_bind]. exists i, (j :: rest), p'. split; [done|]. split; [rewrite !zlen_cons; pose proof (zlen_nonneg rest); lia|].
    split; [done|]. split; [done| |done|].
    + destruct Hc as [H1 H2 H3 H4 H5]. cbn in *. split; congruence.
    + intros k Hk. rewrite Ho by done. cbn. by rewrite Hd.
Qed.

Lemma holds_snoc b kvs k x ks ds :
  holds b kvs → zlen kvs < MAP_BLOCK_DATA_NUM →
  ks = <[Z.to_nat (zlen kvs) := k]> (astKey b) → ds = <[Z.to_nat (zlen kvs) := x]> (astData b) →
  holds (Block (iUsedDataNum b + 1) (iNextHandle b) ks ds) (kvs ++ [(k, x)]).
Proof.
  intros Hh Hlt -> ->. destruct Hh as [Hn Hm Hk Hd Hp]. change (zlen kvs) with (Z.of_nat (length kvs)) in *. rewrite Nat2Z.id.
  assert (zlen (kvs ++ [(k, x)]) = Z.of_nat (length kvs) + 1) as Hz by (by rewrite zlen_app).
  split; cbn; rewrite ?zlen_insert; [lia|lia|done|done|].
  intros i k' x' [Hi|[Hi Hx]]%lookup_app_Some.
  - pose proof (lookup_lt_Some _ _ _ Hi). rewrite !list_lookup_insert_ne by lia. by apply Hp.
  - apply list_lookup_singleton_Some in Hx as [Hi0 [= -> ->]]. assert (i = length kvs) as -> by lia.
    unfold zlen in Hk, Hd. split; apply list_lookup_insert_eq; lia.
Qed.

Lemma AddPair_ok p free h b kvs k x :
  frep (m_objFMP p) free → aget (data p) h = Ok b → holds b kvs → zlen kvs < MAP_BLOCK_DATA_NUM →
  ∃ p' b', AddPair p h k x = Ok p' ∧ wrote p p' free h b' ∧ holds b' (kvs ++ [(k, x)]) ∧ iNextHandle b' = iNextHandle b.
Proof.
  intros Hf Hb Hh Hlt. pose proof (zlen_nonneg kvs). pose proof Hh as [Hn Hm Hk Hd Hp].
  unfold AddPair, block. rewrite Hb. cbn [mbind outcome_bind]. rewrite Hn, aset_ok by lia. cbn [mbind outcome_bind].
  rewrite aset_ok by lia. cbn [mbind outcome_bind].
  match goal with |- ∃ _ _, set_block p h ?b' = _ ∧ _ => destruct (set_block_ok p free h b') as (p' & Hs & Hw) end.
  { done. } { rewrite <- (fr_data _ _ Hf). by apply aget_lt in Hb. }
  eexists p', _. split; [exact Hs|]. split; [done|]. split; [|done]. rewrite <- Hn at 1.
  apply (holds_snoc b kvs k x); [done|done|done|done].
Qed.

(** ** What the representation says *)
Section facts.
Context (N : Z) (p : t KEY A) (free : list Z) (ch : gmap Z (list (Z * list (KEY * A)))) (s : spec KEY A).
Hypothesis Hrep : rep N p free ch s.

Lemma rep_split h l : ch !! h = Some l → free ++ nodes l ++ all_nodes (delete h ch) ≡ₚ seqZ 0 (N - 1).
Proof. intros Hh. rewrite <- (all_nodes_delete ch h l Hh). apply (rp_nodes _ _ _ _ _ Hrep). Qed.

Lemma rep_nodup h l :
  ch !! h = Some l → NoDup (nodes l) ∧ (∀ n, n ∈ nodes l → n ∉ free ∧ n ∉ all_nodes (delete h ch) ∧ 0 ≤ n < N - 1).
Proof.
  intros Hh. pose proof (rep_split h l Hh) as Hp. pose proof (NoDup_seqZ 0 (N - 1)) as Hnd. rewrite <- Hp in Hnd.
  apply NoDup_app in Hnd as (_ & Hf & (Hn & Hd & _)%NoDup_app). split; [done|]. intros n Hin. split_and!.
  - intros Hin'. apply (Hf n Hin'), elem_of_app. by left.
  - by apply Hd.
  - assert (n ∈ seqZ 0 (N - 1)) as Hs%elem_of_seqZ by (rewrite <- Hp, !elem_of_app; auto). lia.
  - assert (n ∈ seqZ 0 (N - 1)) as Hs%elem_of_seqZ by (rewrite <- Hp, !elem_of_app; auto). lia.
Qed.

Lemma rep_handle h l : ch !! h = Some l → 0 ≤ h < N - 1 ∧ h ∉ free.
Proof.
  intros Hh. destruct (rep_nodup h l Hh) as [_ Hn]. destruct (rp_chain _ _ _ _ _ Hrep h l Hh) as [Hc Hs _ _].
  destruct (chain_head _ _ _ Hc Hs) as (kvs & l' & ->). destruct (Hn h) as (? & ? & ?); [cbn; by left|done].
Qed.

Lemma rep_fuel h l : ch !! h = Some l → (length l < fuel_of p)%nat.
Proof.
  intros Hh. pose proof (Permutation_length (rep_split h l Hh)) as Hl. unfold fuel_of. rewrite (rp_num _ _ _ _ _ Hrep).
  unfold nodes in Hl. rewrite !length_app, length_fmap, length_seqZ in Hl. lia.
Qed.

Lemma rep_used : used_blocks s = N - 1 - zlen free.
Proof.
  assert (used_blocks s = zlen (all_nodes ch)) as ->.
  { unfold used_blocks, all_nodes. rewrite (rp_maps _ _ _ _ _ Hrep), map_to_list_fmap.
    assert (∀ hl, hl ∈ map_to_list ch → good (data p) hl.1 hl.2) as Hg.
    { intros [h l] Hin%elem_of_map_to_list. by apply (rp_chain _ _ _ _ _ Hrep). }
    revert Hg. generalize (map_to_list ch) as m. induction m as [|[h l] m IH]; intros Hg; [done|].
    rewrite !fmap_cons. cbn [foldr concat prod_map fst snd].
    rewrite zlen_app, IH by (intros; apply Hg; by right). rewrite (good_blocks (data p) h l) by apply (Hg (h, l) ltac:(by left)).
    unfold nodes, zlen. by rewrite length_fmap. }
  pose proof (Permutation_length (rp_nodes _ _ _ _ _ Hrep)) as Hl. rewrite length_app, length_seqZ in Hl.
  pose proof (fr_len _ _ (rp_pool _ _ _ _ _ Hrep)). rewrite (rp_num _ _ _ _ _ Hrep) in *. unfold zlen in *. lia.
Qed.

Lemma rep_full : full N s ↔ zlen free = 1.
Proof. unfold full. rewrite rep_used. lia. Qed.

Lemma rep_maps_lookup h : maps s !! h = pairs <$> ch !! h.
Proof. by rewrite (rp_maps _ _ _ _ _ Hrep), lookup_fmap. Qed.

Lemma rep_current_map :
  match current_map s with
  | None => current s = None ∧ CheckMap p = Some INVALID_MAP_HANDLE
  | Some (h, kvs) =>
      CheckMap p = None ∧ current s = Some h ∧ m_pHeadDataBlock p = h ∧ ∃ l, ch !! h = Some l ∧ kvs = pairs l ∧ maps s !! h = Some kvs
  end.
Proof.
  unfold current_map, CheckMap. rewrite (rp_init _ _ _ _ _ Hrep). change (1 =? 1) with true. cbn [negb].
  pose proof (rp_current _ _ _ _ _ Hrep) as Hc. rewrite (rp_num _ _ _ _ _ Hrep). destruct (current s) as [h|]; cbn [mbind option_bind].
  - destruct Hc as ([l Hl] & -> & Hh). rewrite rep_maps_lookup, Hl. cbn. pose proof (rep_handle h l Hl).
    rewrite (proj2 (Z.ltb_ge h 0)), (proj2 (Z.leb_gt N h)) by lia. cbn. split; [done|]. split; [done|]. split; [done|].
    exists l. by rewrite rep_maps_lookup, Hl.
  - rewrite Hc. done.
Qed.

(** A map changes: its chain is another, made of its nodes and of free ones. *)
Lemma rep_change p' free' h l l' :
  ch !! h = Some l → frep (m_objFMP p') free' → same_ctl p p' →
  (∀ j, j ∉ nodes l → j ∉ free → aget (data p') j = aget (data p) j) →
  good (data p') h l' → free' ++ nodes l' ≡ₚ free ++ nodes l →
  rep N p' free' (<[h := l']> ch) (Spec (<[h := pairs l']> (maps s)) (current s)).
Proof.
  intros Hh Hf [C1 C2 C3 C4 C5] Ho Hg Hp. destruct Hrep as [Hi Hpool Hnum Hm Hn Hc Hcur]. split.
  - congruence.
  - done.
  - congruence.
  - cbn [maps]. by rewrite Hm, fmap_insert.
  - rewrite all_nodes_insert, app_assoc, Hp, <- app_assoc. by apply rep_split.
  - intros h2 l2 Hl2. destruct (decide (h2 = h)) as [->|Hne].
    + rewrite lookup_insert_eq in Hl2. by injection Hl2 as <-.
    + rewrite lookup_insert_ne in Hl2 by done. destruct (Hc h2 l2 Hl2) as [G1 G2 G3 G4]. split; [|done|done|done].
      apply (blocks_frame _ _ _ _ G1). intros m Hm'. apply Ho; [|exact (proj1 (proj2 (rep_nodup h2 l2 Hl2) m Hm'))].
      intros Hin. apply (proj1 (proj2 (proj2 (rep_nodup h l Hh) m Hin))), elem_of_all_nodes. exists h2, l2. by rewrite lookup_delete_ne.
  - cbn [current]. destruct (current s) as [h2|]; [|congruence]. destruct Hcur as (Hs & H1 & H2). split; [|split; congruence].
    destruct (decide (h2 = h)) as [->|Hne]; [by rewrite lookup_insert_eq|by rewrite lookup_insert_ne].
Qed.
End facts.

(** ** The operations *)
Lemma release_loop_ok fuel p free h l :
  0 < SIZE → frep (m_objFMP p) free → chain (data p) h l → (length l < fuel)%nat → NoDup (nodes l) →
  (∀ n, n ∈ nodes l → n ∉ free ∧ 0 ≤ n < iNodeNum (m_objFMP p) - 1) →
  ∃ p', release_loop SIZE fuel p h = Ok (p', SUCCESS) ∧ frep (m_objFMP p') (free ++ nodes l) ∧ data p' = data p ∧ same_ctl p p'.
Proof.
  intros HS. revert p free h l. induction fuel as [|fuel IH]; intros p free h l Hf Hc Hl Hnd Hn; [lia|]. cbn [release_loop].
  destruct l as [|[n kvs] l]; cbn in Hc.
  { subst h. exists p. split; [done|]. change (nodes []) with (@nil Z). rewrite app_nil_r. by split_and!. }
  destruct Hc as (-> & b & Hb & Hh & Hfull & Hc). change (nodes ((n, kvs) :: l)) with (n :: nodes l) in *.
  destruct (Hn n ltac:(by left)) as [Hnf Hr]. rewrite (proj2 (Z.eqb_neq n (-1))) by lia.
  unfold block. rewrite Hb. cbn [mbind outcome_bind].
  pose proof (ReleaseNode_ok SIZE (m_objFMP p) free n Hf HS ltac:(lia)) as Hrel.
  rewrite bool_decide_true in Hrel by (split; [lia|done]). destruct Hrel as (f & -> & Hf' & [Hs1 Hs2 Hs3]). cbn [mbind outcome_bind].
  change (negb (0 =? CFixedsizeMemPool.SUCCESS)) with false. cbv iota. apply NoDup_cons in Hnd as [Hni Hnd].
  destruct (IH (set_fmp p f) (free ++ [n]) (iNextHandle b) l) as (p' & -> & Hf2 & Hd & Hctl).
  - done.
  - cbn. by rewrite Hs3.
  - cbn in Hl. lia.
  - done.
  - intros m Hm. destruct (Hn m ltac:(by right)) as [Hmf Hmr]. cbn. rewrite Hs2. split; [|done].
    rewrite elem_of_app, list_elem_of_singleton. intros [?| ->]; done.
  - exists p'. split; [done|]. rewrite <- app_assoc in Hf2. split; [done|]. split; [rewrite Hd; cbn; done|].
    destruct Hctl as [H1 H2 H3 H4 H5]. cbn in *. split; congruence.
Qed.

Section steps.
Context (N : Z) (p : t KEY A) (free : list Z) (ch : gmap Z (list (Z * list (KEY * A)))) (s : spec KEY A).
Hypothesis Hrep : rep N p free ch s.

(** A call does what the specification says. *)
Definition sim (o : op KEY A) : Prop :=
  ∃ p' free' ch' r s', step SIZE zkey zdata p o = Ok (p', r) ∧ rep N p' free' ch' s' ∧ spec_step N s o r s' ∧
    iMemSize (m_objFMP p') = iMemSize (m_objFMP p).

Lemma sim_same o r : step SIZE zkey zdata p o = Ok (p, r) → spec_step N s o r s → sim o.
Proof. intros Hs Hspec. by exists p, free, ch, r, s. Qed.

Lemma Attach_sim : 0 < SIZE → fits SIZE N (iMemSize (m_objFMP p)) → sim Attach.
Proof.
  intros HS Hsize. pose proof Hrep as [Hi Hpool Hnum Hm Hn Hc Hcur].
  assert (step SIZE zkey zdata p Attach = ('(p, r) ← InitMemPool SIZE zkey zdata new (λ _, Some (m_objFMP p))
    (iMemSize (m_objFMP p)) (iNodeNum (m_objFMP p)) 0; Ok (p, RCode r))) as Hstep by done.
  pose proof (fr_num _ _ Hpool). destruct (fits_ok SIZE N _ HS ltac:(lia) Hsize) as (_ & Hcs & Hhd). destruct Hsize as [Hsize _]. revert Hstep. unfold InitMemPool, Init. rewrite Hnum in *.
  rewrite (proj2 (Z.ltb_ge N 0)), (proj2 (Z.eqb_neq N 0)) by lia. cbv zeta. rewrite Hcs, (proj2 (Z.ltb_ge (iMemSize _) (PoolBytes _ _))) by lia.
  change (0 =? 1) with false. cbv iota. rewrite (proj2 (Z.ltb_ge (iMemSize _) HEAD_SIZE)) by lia. cbn [iMemSize iNodeNum CFixedsizeMemPool.set_next]. rewrite Hnum, !Z.eqb_refl. cbn [negb mbind outcome_bind].
  change (negb (CFixedsizeMemPool.SUCCESS =? CFixedsizeMemPool.SUCCESS)) with false. cbv iota. cbn [mbind outcome_bind]. intros Hstep.
  eexists _, free, ch, (RCode SUCCESS), (Spec (maps s) None). split; [exact Hstep|]. split; [|done].
  split; [done|by apply frep_next|done|done|done|done|done].
Qed.

Lemma New_sim : sim New.
Proof.
  pose proof Hrep as [Hi Hpool Hnum Hm Hn Hc Hcur].
  assert (step SIZE zkey zdata p New = ('(p, r) ← NewMap zkey zdata p; Ok (p, RCode r))) as Hstep by done.
  revert Hstep. unfold NewMap. rewrite Hi. change (negb (1 =? 1)) with false. cbv iota.
  destruct (NewBlock_ok p free Hpool) as [[Hl ->]|(i & rest & p' & -> & Hl & -> & [Hp' [C1 C2 C3 C4 C5] Hat Ho])];
    cbn [mbind outcome_bind]; intros Hstep.
  { apply (sim_same _ _ Hstep). left. split; [|done]. by apply (rep_full _ _ _ _ _ Hrep). }
  assert (ch !! i = None) as Hci.
  { destruct (ch !! i) as [l|] eqn:E; [|done]. destruct (rep_handle _ _ _ _ _ Hrep i l E) as [_ Hni]. exfalso. apply Hni. by left. }
  exists (set_map p' i), rest, (<[i := [(i, [])]]> ch), (RCode i), (Spec (<[i := []]> (maps s)) (Some i)).
  split; [done|]. assert (0 ≤ i < N - 1) as Hr by (rewrite <- Hnum; apply (fr_range _ _ Hpool); by left). split; [|split; [|done]].
  - split; [by rewrite <- Hi|done|by rewrite <- Hnum| | | |].
    + cbn [maps]. by rewrite Hm, fmap_insert.
    + rewrite all_nodes_insert, delete_id by done. rewrite <- Hn. change (nodes [(i, [])]) with [i].
      rewrite app_assoc. f_equiv. by rewrite Permutation_app_comm.
    + intros h l. destruct (decide (h = i)) as [->|Hne].
      * rewrite lookup_insert_eq. intros [= <-]. split; [|done|apply NoDup_nil_2|constructor]. split; [done|].
        eexists. split; [exact Hat|]. split; [apply zero_holds|]. split; [by left|done].
      * rewrite lookup_insert_ne by done. intros Hl'. destruct (Hc h l Hl') as [G1 G2 G3 G4]. split; [|done|done|done].
        apply (blocks_frame _ _ _ _ G1). intros m Hm'. apply Ho. intros ->.
        apply (proj1 (proj2 (rep_nodup _ _ _ _ _ Hrep h l Hl') _ Hm')). by left.
    + cbn. split; [by rewrite lookup_insert_eq|done].
  - right. split; [by rewrite (rep_full _ _ _ _ _ Hrep)|]. exists i. split; [done|]. split; [|done].
    by rewrite (rep_maps_lookup _ _ _ _ _ Hrep), Hci.
Qed.

Lemma Use_sim h : legal N s (Use h : op KEY A) → sim (Use h).
Proof.
  intros Hlegal. pose proof Hrep as [Hi Hpool Hnum Hm Hn Hc Hcur].
  assert (step SIZE zkey zdata p (Use h) = let '(p, r) := InitWithHandle p h in Ok (p, RCode r)) as Hstep by done.
  revert Hstep. unfold InitWithHandle. rewrite Hi, Hnum. change (negb (1 =? 1)) with false. cbv iota.
  destruct (decide (0 ≤ h < N)) as [Hr|Hr].
  - rewrite (proj2 (Z.ltb_ge h 0)), (proj2 (Z.leb_gt N h)) by lia. intros Hstep.
    exists (set_map p h), free, ch, (RCode SUCCESS), (Spec (maps s) (Some h)). split; [done|]. split; [|split; [|done]].
    + split; [done..|]. cbn. split; [|done]. specialize (Hlegal Hr). rewrite (rep_maps_lookup _ _ _ _ _ Hrep) in Hlegal.
      by apply fmap_is_Some in Hlegal.
    + cbn. by rewrite decide_True.
  - assert ((h <? 0) || (N <=? h) = true) as ->.
    { destruct (Z.ltb_spec h 0); [done|]. cbn. apply Z.leb_le. lia. }
    intros Hstep. apply (sim_same _ _ Hstep). cbn. by rewrite decide_False.
Qed.

(** What a search finds. *)
Lemma find_ok h l k :
  ch !! h = Some l →
  ∃ r, find_loop (fuel_of p) p k h (-1) = Ok r ∧
    match r with
    | inl (n, j) => ∃ l1 kvs l2 x, l = l1 ++ (n, kvs) :: l2 ∧ 0 ≤ j ∧ kvs !! Z.to_nat j = Some (k, x) ∧ lookup_pair (pairs l) k = Some x
    | inr la => lookup_pair (pairs l) k = None ∧ k ∉ (pairs l).*1 ∧ ∃ l1 kvs, l = l1 ++ [(la, kvs)]
    end.
Proof.
  intros Hh. destruct (rp_chain _ _ _ _ _ Hrep h l Hh) as [G1 G2 G3 G4].
  destruct (find_loop_ok p k (fuel_of p) h l (-1) G1) as (r & Hr & Hspec); [by apply (rep_fuel _ _ _ _ _ Hrep h)| |].
  { intros n Hn. by destruct (proj2 (rep_nodup _ _ _ _ _ Hrep h l Hh) n Hn) as (_ & _ & ? & _). }
  exists r. split; [done|]. destruct r as [[n j]|la].
  - destruct Hspec as (l1 & kvs & l2 & x & -> & Hj & Hx). exists l1, kvs, l2, x. split_and!; [done|done|done|].
    rewrite pairs_app, pairs_cons in *. apply (lookup_pair_Some _ (length (pairs l1) + Z.to_nat j)); [done|].
    rewrite lookup_app_r by lia. replace (length (pairs l1) + Z.to_nat j - length (pairs l1))%nat with (Z.to_nat j) by lia.
    rewrite lookup_app_l; [done|]. by eapply lookup_lt_Some.
  - destruct Hspec as [Hk ->]. split; [by apply lookup_pair_None|]. split; [done|].
    destruct (exists_last G2) as (l1 & [n kvs] & ->). exists l1, kvs. unfold nodes. rewrite fmap_app. change ([(n, kvs)].*1) with [n]. by rewrite last_snoc.
Qed.

(** A block in the middle of a chain. *)
Lemma at_block h l1 n kvs l2 :
  ch !! h = Some (l1 ++ (n, kvs) :: l2) →
  ∃ b, aget (data p) n = Ok b ∧ holds b kvs ∧ 0 ≤ n < iNodeNum (m_objFMP p) ∧ n ∉ nodes l1 ∧ n ∉ nodes l2.
Proof.
  intros Hh. destruct (rp_chain _ _ _ _ _ Hrep h _ Hh) as [G1 _ _ _]. destruct (chain_at _ _ _ _ _ _ G1) as (b & Hb & Hhb & _).
  exists b. split; [done|]. split; [done|]. destruct (rep_nodup _ _ _ _ _ Hrep h _ Hh) as [Hnd Hn].
  unfold nodes in *. rewrite fmap_app, fmap_cons in *. cbn [fst] in *. apply NoDup_app in Hnd as (_ & Hd & [Hn2 _]%NoDup_cons).
  destruct (Hn n) as (_ & _ & ?); [apply elem_of_app; right; by left|]. rewrite (rp_num _ _ _ _ _ Hrep). split; [lia|]. split; [|done].
  intros Hin. apply (Hd n Hin). by left.
Qed.

Lemma Get_sim k : sim (Get k).
Proof.
  assert (step SIZE zkey zdata p (Get k) = ('(r, at') ← GetNode p k;
    match at' with Some at' => x ← deref p at'; Ok (p, RGet r (Some x)) | None => Ok (p, RGet r None) end)) as Hstep by done.
  revert Hstep. unfold GetNode. pose proof (rep_current_map _ _ _ _ _ Hrep) as Hcur.
  destruct (current_map s) as [[h kvs]|] eqn:Ecur.
  - destruct Hcur as (-> & Hcs & -> & l & Hl & -> & Hms). destruct (find_ok h l k Hl) as ([[n j]|la] & -> & Hr); cbn [mbind outcome_bind].
    + destruct Hr as (l1 & kvs & l2 & x & -> & Hj & Hx & Hlook). destruct (at_block h l1 n kvs l2 Hl) as (b & Hb & Hhb & _).
      destruct (ho_pair _ _ Hhb _ _ _ Hx) as [_ Hdx]. unfold deref, block. cbn [fst snd]. rewrite Hb. cbn [mbind outcome_bind].
      rewrite (aget_ok _ _ _ Hj Hdx). cbn [mbind outcome_bind]. intros Hstep. apply (sim_same _ _ Hstep). cbn [spec_step].
      rewrite Ecur, Hlook. done.
    + intros Hstep. apply (sim_same _ _ Hstep). cbn [spec_step]. rewrite Ecur, (proj1 Hr). done.
  - destruct Hcur as [_ ->]. cbn [mbind outcome_bind]. intros Hstep. apply (sim_same _ _ Hstep). cbn [spec_step]. by rewrite Ecur.
Qed.

Lemma All_sim : sim All.
Proof.
  assert (step SIZE zkey zdata p All = ('(r, l) ← GetAllNode p []; Ok (p, RAll r l))) as Hstep by done.
  revert Hstep. unfold GetAllNode. pose proof (rep_current_map _ _ _ _ _ Hrep) as Hcur.
  destruct (current_map s) as [[h kvs]|] eqn:Ecur.
  - destruct Hcur as (-> & Hcs & -> & l & Hl & -> & Hms). destruct (rp_chain _ _ _ _ _ Hrep h _ Hl) as [G1 _ _ _].
    rewrite (all_loop_ok p (fuel_of p) h l G1); cbn [mbind outcome_bind].
    + intros Hstep. apply (sim_same _ _ Hstep). cbn [spec_step]. by rewrite Ecur.
    + by apply (rep_fuel _ _ _ _ _ Hrep h).
    + intros n Hn. by destruct (proj2 (rep_nodup _ _ _ _ _ Hrep h l Hl) n Hn) as (_ & _ & ? & _).
  - destruct Hcur as [_ ->]. cbn [mbind outcome_bind]. intros Hstep. apply (sim_same _ _ Hstep). cbn [spec_step]. by rewrite Ecur.
Qed.

Lemma holds_put b kvs j k x y :
  holds b kvs → kvs !! j = Some (k, y) →
  holds (Block (iUsedDataNum b) (iNextHandle b) (astKey b) (<[j := x]> (astData b))) (<[j := (k, x)]> kvs).
Proof.
  intros [H1 H2 H3 H4 H5] Hj. split; cbn; rewrite ?zlen_insert; [done|done|done|done|].
  intros i k' x' Hi. destruct (decide (i = j)) as [->|Hne].
  - rewrite list_lookup_insert_eq in Hi by (by eapply lookup_lt_Some). injection Hi as <- <-. destruct (H5 j k y Hj) as [Hk Hy].
    split; [done|]. apply list_lookup_insert_eq. by eapply lookup_lt_Some.
  - rewrite list_lookup_insert_ne in Hi by done. rewrite list_lookup_insert_ne by done. by apply H5.
Qed.

Lemma Put_sim k x : sim (Put k x).
Proof.
  assert (step SIZE zkey zdata p (Put k x) = ('(r, at') ← GetNode p k;
    match at' with Some at' => p ← store p at' x; Ok (p, RCode r) | None => Ok (p, RCode r) end)) as Hstep by done.
  revert Hstep. unfold GetNode. pose proof (rep_current_map _ _ _ _ _ Hrep) as Hcur.
  destruct (current_map s) as [[h kvs]|] eqn:Ecur.
  2:{ destruct Hcur as [_ ->]. cbn [mbind outcome_bind]. intros Hstep. apply (sim_same _ _ Hstep). cbn [spec_step]. by rewrite Ecur. }
  destruct Hcur as (-> & Hcs & -> & l & Hl & -> & Hms). destruct (find_ok h l k Hl) as ([[n j]|la] & -> & Hr); cbn [mbind outcome_bind].
  2:{ intros Hstep. apply (sim_same _ _ Hstep). cbn [spec_step]. by rewrite Ecur, (proj1 Hr). }
  destruct Hr as (l1 & kvs & l2 & y & -> & Hj & Hy & Hlook). destruct (at_block h l1 n kvs l2 Hl) as (b & Hb & Hhb & Hn & Hn1 & Hn2).
  destruct (ho_pair _ _ Hhb _ _ _ Hy) as [_ Hdy]. unfold store, block. cbn [fst snd]. rewrite Hb. cbn [mbind outcome_bind].
  rewrite aset_ok by (apply lookup_lt_Some in Hdy; unfold zlen; lia). cbn [mbind outcome_bind].
  set (b' := Block _ _ _ _). destruct (set_block_ok p free n b' (rp_pool _ _ _ _ _ Hrep) Hn) as (p' & -> & [W1 W2 W3 W4]).
  cbn [mbind outcome_bind]. intros Hstep.
  pose proof (holds_put b kvs (Z.to_nat j) k x y Hhb Hy) as Hb'. change (holds b' (<[Z.to_nat j := (k, x)]> kvs)) in Hb'.
  set (kvs' := <[Z.to_nat j := (k, x)]> kvs) in *. destruct (rp_chain _ _ _ _ _ Hrep h _ Hl) as [G1 G2 G3 G4].
  assert (pairs (l1 ++ (n, kvs') :: l2) = put_pair (pairs (l1 ++ (n, kvs) :: l2)) k x) as Hpairs.
  { rewrite !pairs_app, !pairs_cons in *. rewrite !fmap_app in G3. rewrite !put_pair_app. apply NoDup_app in G3 as (_ & D1 & (D2 & D3 & _)%NoDup_app).
    assert (k ∈ kvs.*1) as Hk. { apply list_elem_of_fmap. exists (k, y). split; [done|]. by eapply list_elem_of_lookup_2. }
    rewrite (put_pair_at kvs (Z.to_nat j) k x y D2 Hy). rewrite (put_pair_none (pairs l2)) by by apply D3.
    rewrite (put_pair_none (pairs l1)); [done|]. intros Hin. apply (D1 k Hin), elem_of_app. by left. }
  assert (zlen kvs' = zlen kvs) as Hz by apply zlen_insert.
  exists p', free, (<[h := l1 ++ (n, kvs') :: l2]> ch), (RCode SUCCESS), (Spec (<[h := put_pair (pairs (l1 ++ (n, kvs) :: l2)) k x]> (maps s)) (current s)).
  split; [done|]. split; [|split; [cbn [spec_step]; by rewrite Ecur, Hlook|by destruct W2]].
  rewrite <- Hpairs. apply (rep_change _ _ _ _ _ Hrep p' free h (l1 ++ (n, kvs) :: l2)); [done|done|done| | |].
  - intros i Hi _. apply W4. intros ->. apply Hi. unfold nodes. rewrite fmap_app. apply elem_of_app. right. by left.
  - destruct (chain_at _ _ _ _ _ _ G1) as (b0 & Hb0 & _ & Hfull & Ht). assert (b0 = b) as -> by congruence. split.
    + apply (chain_put (data p) (data p') h l1 n kvs l2 b'); [done| |done|done|by rewrite Hz|].
      * intros m Hm. apply W4. by intros ->.
      * apply (blocks_frame _ _ _ _ Ht). intros m Hm. apply W4. by intros ->.
    + by destruct l1.
    + by rewrite Hpairs, put_pair_keys.
    + destruct l1 as [|z l1]; [done|]. cbn in *. apply Forall_app in G4 as [G4 [G5 G6]%Forall_cons]. apply Forall_app. split; [done|].
      constructor; [|done]. cbn in *. intros E. rewrite E in Hz. destruct kvs; [done|]. unfold zlen in Hz. cbn in Hz. lia.
  - unfold nodes. by rewrite !fmap_app.
Qed.

Lemma Release_sim : 0 < SIZE → sim Release.
Proof.
  intros HS. assert (step SIZE zkey zdata p Release = ('(p, r) ← ReleaseMap SIZE p; Ok (p, RCode r))) as Hstep by done.
  revert Hstep. unfold ReleaseMap. pose proof (rep_current_map _ _ _ _ _ Hrep) as Hcur.
  destruct (current_map s) as [[h kvs]|] eqn:Ecur.
  2:{ destruct Hcur as [_ ->]. cbn [mbind outcome_bind]. intros Hstep. apply (sim_same _ _ Hstep). cbn [spec_step]. by rewrite Ecur. }
  destruct Hcur as (-> & Hcs & -> & l & Hl & -> & Hms). pose proof Hrep as [Hi Hpool Hnum Hm Hn Hc Hcur].
  destruct (rp_chain _ _ _ _ _ Hrep h _ Hl) as [G1 G2 G3 G4]. destruct (rep_nodup _ _ _ _ _ Hrep h l Hl) as [Hnd Hin].
  destruct (release_loop_ok (fuel_of p) p free h l HS Hpool G1) as (p' & -> & Hf & Hd & [C1 C2 C3 C4 C5]); [by apply (rep_fuel _ _ _ _ _ Hrep h)|done| |].
  { intros n Hn'. rewrite Hnum. destruct (Hin n Hn') as (? & _ & ?). done. }
  cbn [mbind outcome_bind]. change (negb (SUCCESS =? SUCCESS)) with false. cbv iota. cbn [mbind outcome_bind]. intros Hstep.
  eexists _, (free ++ nodes l), (delete h ch), (RCode SUCCESS), (Spec (delete h (maps s)) None).
  split; [exact Hstep|]. split; [|split; [cbn [spec_step]; by rewrite Ecur|done]]. split.
  - cbn. congruence.
  - done.
  - cbn. congruence.
  - cbn [maps]. by rewrite Hm, fmap_delete.
  - rewrite <- app_assoc. by apply (rep_split _ _ _ _ _ Hrep).
  - cbn. rewrite Hd. intros h2 l2. destruct (decide (h2 = h)) as [->|Hne]; [by rewrite lookup_delete_eq|].
    rewrite lookup_delete_ne by done. apply Hc.
  - done.
Qed.

(** A pair put behind the last one of a chain, in its last block or in a new one. *)
Lemma good_snoc d d' h l1 n kvs b' k x :
  good d h (l1 ++ [(n, kvs)]) → (∀ m, m ∈ nodes l1 → aget d' m = aget d m) → k ∉ (pairs (l1 ++ [(n, kvs)])).*1 →
  aget d' n = Ok b' → holds b' (kvs ++ [(k, x)]) → iNextHandle b' = -1 →
  good d' h (l1 ++ [(n, kvs ++ [(k, x)])]) ∧ pairs (l1 ++ [(n, kvs ++ [(k, x)])]) = pairs (l1 ++ [(n, kvs)]) ++ [(k, x)].
Proof.
  intros [G1 G2 G3 G4] Ha Hk Hb Hh Hnext.
  assert (pairs (l1 ++ [(n, kvs ++ [(k, x)])]) = pairs (l1 ++ [(n, kvs)]) ++ [(k, x)]) as E.
  { rewrite !pairs_app, !pairs_cons. change (pairs []) with (@nil (KEY * A)). by rewrite !app_nil_r, app_assoc. }
  split; [|done]. split.
  - by apply (chain_put d d' h l1 n kvs [] b'); [done|done|done|done|left|].
  - by destruct l1.
  - rewrite E, fmap_app. apply NoDup_app. split; [done|]. split; [|apply NoDup_singleton]. by intros y Hy ->%list_elem_of_singleton.
  - destruct l1 as [|z l1]; [done|]. cbn in *. apply Forall_app in G4 as [G4 _]. apply Forall_app. split; [done|].
    constructor; [|done]. by destruct kvs.
Qed.

Lemma good_block d d' h l1 n kvs b' i b2 k x :
  good d h (l1 ++ [(n, kvs)]) → zlen kvs = MAP_BLOCK_DATA_NUM → (∀ m, m ∈ nodes l1 → aget d' m = aget d m) →
  k ∉ (pairs (l1 ++ [(n, kvs)])).*1 → aget d' n = Ok b' → holds b' kvs → iNextHandle b' = i →
  aget d' i = Ok b2 → holds b2 [(k, x)] → iNextHandle b2 = -1 →
  good d' h (l1 ++ [(n, kvs); (i, [(k, x)])]) ∧ pairs (l1 ++ [(n, kvs); (i, [(k, x)])]) = pairs (l1 ++ [(n, kvs)]) ++ [(k, x)].
Proof.
  intros [G1 G2 G3 G4] Hfull Ha Hk Hb Hh Hnext Hb2 Hh2 Hnext2.
  assert (pairs (l1 ++ [(n, kvs); (i, [(k, x)])]) = pairs (l1 ++ [(n, kvs)]) ++ [(k, x)]) as E.
  { rewrite !pairs_app, !pairs_cons. change (pairs []) with (@nil (KEY * A)). by rewrite !app_nil_r, app_assoc. }
  split; [|done]. split.
  - apply (chain_put d d' h l1 n kvs [] b'); [done|done|done|done|by right|]. cbn [chain]. split; [done|]. exists b2.
    split; [done|]. split; [done|]. split; [by left|done].
  - by destruct l1.
  - rewrite E, fmap_app. apply NoDup_app. split; [done|]. split; [|apply NoDup_singleton]. by intros y Hy ->%list_elem_of_singleton.
  - assert (Forall (λ nk : Z * list (KEY * A), nk.2 ≠ []) [(i, [(k, x)])]) as Hi by by repeat constructor.
    destruct l1 as [|z l1]; [done|]. cbn in *. apply Forall_app in G4 as [G4 G5]. apply Forall_app. split; [done|].
    apply Forall_cons in G5 as [G5 _]. constructor; done.
Qed.

(** The chain of a map and its last block. *)
Section last_block.
Context (h la : Z) (l1 : list (Z * list (KEY * A))) (kvs : list (KEY * A)) (k : KEY) (x : A).
Hypothesis Hl : ch !! h = Some (l1 ++ [(la, kvs)]).
Hypothesis Hk : k ∉ (pairs (l1 ++ [(la, kvs)])).*1.

(** The pair is there now. *)
Definition added p' free' : Prop :=
  ∃ ch', rep N p' free' ch' (Spec (<[h := pairs (l1 ++ [(la, kvs)]) ++ [(k, x)]]> (maps s)) (current s)) ∧
    iMemSize (m_objFMP p') = iMemSize (m_objFMP p).

Lemma last_node : la ∈ nodes (l1 ++ [(la, kvs)]).
Proof. unfold nodes. rewrite fmap_app. apply elem_of_app. right. by left. Qed.
Lemma earlier_node m : m ∈ nodes l1 → m ∈ nodes (l1 ++ [(la, kvs)]) ∧ m ≠ la.
Proof.
  intros Hm. destruct (at_block h l1 la kvs [] Hl) as (_ & _ & _ & _ & Hn & _). split; [|by intros ->].
  unfold nodes. rewrite fmap_app. apply elem_of_app. by left.
Qed.

Lemma last_next b : aget (data p) la = Ok b → iNextHandle b = -1.
Proof.
  intros Hb. destruct (rp_chain _ _ _ _ _ Hrep h _ Hl) as [G1 _ _ _]. destruct (chain_at _ _ _ _ _ _ G1) as (b0 & Hb0 & _ & _ & Ht).
  assert (b0 = b) as -> by congruence. done.
Qed.

Lemma AppendBlock_ok b :
  aget (data p) la = Ok b → holds b kvs → zlen kvs = MAP_BLOCK_DATA_NUM →
  zlen free = 1 ∧ AppendBlock zkey zdata p la k x = Ok (p, MEM_POOL_ALLOCATE_FAILED)
  ∨ zlen free ≠ 1 ∧ ∃ p' free', AppendBlock zkey zdata p la k x = Ok (p', SUCCESS) ∧ added p' free'.
Proof.
  intros Hb Hhb Hf. unfold AppendBlock. destruct (rep_nodup _ _ _ _ _ Hrep h _ Hl) as [_ Hin].
  destruct (NewBlock_ok p free (rp_pool _ _ _ _ _ Hrep)) as [[Hlf ->]|(i & rest & p1 & Efree & Hlf & -> & [V1 V2 V3 V4])]; cbn [mbind outcome_bind];
    [by left|right; split; [done|]].
  assert (∀ m, m ∈ nodes (l1 ++ [(la, kvs)]) → m ≠ i) as Hini.
  { intros m Hm ->. apply (proj1 (Hin i Hm)). rewrite Efree. by left. }
  pose proof (Hini la last_node) as Hila. destruct (at_block h l1 la kvs [] Hl) as (_ & _ & _ & Hn & _).
  unfold block. rewrite (V4 la), Hb by done. cbn [mbind outcome_bind].
  destruct (set_block_ok p1 rest la (set_next b i) V1) as (p2 & -> & [W1 W2 W3 W4]); [by destruct V2 as [_ _ _ -> _]|]. cbn [mbind outcome_bind].
  destruct (AddPair_ok p2 rest i (set_next (zero_block zkey zdata) (-1)) [] k x W1) as (p3 & b3 & -> & [X1 X2 X3 X4] & Hh3 & Hnext3);
    [by rewrite W4|apply zero_holds|done|]. cbn [mbind outcome_bind app] in *.
  destruct (good_block (data p) (data p3) h l1 la kvs (set_next b i) i b3 k x) as [Hg Hpairs];
    [by apply (rp_chain _ _ _ _ _ Hrep)|done| |done| |by destruct Hhb|done|done|done|done|].
  { intros m [Hm Hne]%earlier_node. rewrite X4, W4, V4; auto. }
  { rewrite X4; [done|]. by intros <-. }
  exists p3, rest. split; [done|]. pose proof (same_ctl_trans _ _ _ (same_ctl_trans _ _ _ V2 W2) X2) as Hctl.
  eexists. split; [|by destruct Hctl]. rewrite <- Hpairs.
  apply (rep_change _ _ _ _ _ Hrep p3 rest h (l1 ++ [(la, kvs)])); [done|done|done| |done|].
  - intros m Hm Hmf. assert (m ≠ i) by (intros ->; apply Hmf; rewrite Efree; by left).
    assert (m ≠ la) by (intros ->; by apply Hm, last_node). rewrite X4, W4, V4; auto.
  - rewrite Efree. unfold nodes. rewrite !fmap_app. change ([(la, kvs); (i, [(k, x)])].*1) with [la; i]. change ([(la, kvs)].*1) with [la].
    change (i :: rest) with ([i] ++ rest). rewrite <- (app_assoc [i] rest). rewrite (Permutation_app_comm [i]).
    rewrite <- !app_assoc. done.
Qed.

Lemma AddLast_ok b :
  aget (data p) la = Ok b → holds b kvs → zlen kvs < MAP_BLOCK_DATA_NUM →
  ∃ p', AddPair p la k x = Ok p' ∧ added p' free.
Proof.
  intros Hb Hhb Hf. pose proof (last_next b Hb) as Hnext.
  destruct (AddPair_ok p free la b kvs k x (rp_pool _ _ _ _ _ Hrep) Hb Hhb Hf) as (p' & b' & -> & [X1 X2 X3 X4] & Hh' & Hnext').
  exists p'. split; [done|].
  destruct (good_snoc (data p) (data p') h l1 la kvs b' k x) as [Hg Hpairs];
    [by apply (rp_chain _ _ _ _ _ Hrep)|by intros m [_ Hm]%earlier_node; apply X4|done|done|done|congruence|].
  eexists. split; [|by destruct X2]. rewrite <- Hpairs.
  apply (rep_change _ _ _ _ _ Hrep p' free h (l1 ++ [(la, kvs)])); [done|done|done| |done|].
  - intros m Hm _. apply X4. intros ->. by apply Hm, last_node.
  - unfold nodes. by rewrite !fmap_app.
Qed.
End last_block.

Lemma Insert_sim k x : sim (InsertKey k x).
Proof.
  assert (step SIZE zkey zdata p (InsertKey k x) = ('(p, r) ← InsertNode zkey zdata p k x; Ok (p, RCode r))) as Hstep by done.
  revert Hstep. unfold InsertNode. pose proof (rep_current_map _ _ _ _ _ Hrep) as Hcur.
  destruct (current_map s) as [[h kvs]|] eqn:Ecur.
  2:{ destruct Hcur as [_ ->]. cbn [mbind outcome_bind]. intros Hstep. apply (sim_same _ _ Hstep). cbn [spec_step]. by rewrite Ecur. }
  destruct Hcur as (-> & Hcs & -> & l & Hl & -> & Hms). destruct (find_ok h l k Hl) as ([[n j]|la] & -> & Hr); cbn [mbind outcome_bind].
  { destruct Hr as (l1 & kvs & l2 & y & -> & Hj & Hy & Hlook). intros Hstep. apply (sim_same _ _ Hstep). cbn [spec_step].
    unfold insert_spec. by rewrite Ecur, Hlook. }
  destruct Hr as (Hlook & Hk & l1 & kvs & ->). destruct (at_block h l1 la kvs [] Hl) as (b & Hb & Hhb & _).
  pose proof (good_full _ _ _ _ _ (rp_chain _ _ _ _ _ Hrep h _ Hl)) as Hfull. pose proof (rep_full _ _ _ _ _ Hrep) as Hfs.
  pose proof (ho_max _ _ Hhb). unfold block. rewrite Hb. cbn [mbind outcome_bind]. rewrite (ho_num _ _ Hhb).
  destruct (Z.eqb_spec (zlen kvs) MAP_BLOCK_DATA_NUM) as [Hf|Hf].
  - destruct (AppendBlock_ok h la l1 kvs k x Hl Hk b Hb Hhb Hf) as [[Hlf ->]|(Hlf & p' & free' & -> & ch' & Hrep' & Hs')];
      cbn [mbind outcome_bind]; intros Hstep.
    + apply (sim_same _ _ Hstep). cbn [spec_step]. rewrite Ecur. unfold insert_spec. rewrite Hlook. left.
      apply Hfull in Hf as [? ?]. split_and!; [by apply Hfs|done..].
    + exists p', free', ch', (RCode SUCCESS). eexists. split; [done|]. split; [exact Hrep'|]. split; [|done].
      cbn [spec_step]. rewrite Ecur. unfold insert_spec. rewrite Hlook. right. split; [|done]. left. by rewrite Hfs.
  - destruct (AddLast_ok h la l1 kvs k x Hl Hk b Hb Hhb ltac:(lia)) as (p' & -> & ch' & Hrep' & Hs'). cbn [mbind outcome_bind]. intros Hstep.
    exists p', free, ch', (RCode SUCCESS). eexists. split; [done|]. split; [exact Hrep'|]. split; [|done].
    cbn [spec_step]. rewrite Ecur. unfold insert_spec. rewrite Hlook. right. split; [|done].
    destruct (decide (pairs (l1 ++ [(la, kvs)]) = [])) as [|Hne]; [by right; left|right; right]. intros Hm. apply Hf, Hfull. by split.
Qed.
End steps.
End rep.

Section props.
Context {KEY A : Type} `{EqDecision KEY} (SIZE : Z) (zkey : KEY) (zdata : A).
Implicit Types (p : t KEY A) (s : spec KEY A) (c : client KEY A) (hist : list (op KEY A * ret A)).

(** The pool of a cleared memory has no maps. *)
Lemma InitMemPool_rep (mem : Z → option (CFixedsizeMemPool.t (DataBlock KEY A))) (m0 : CFixedsizeMemPool.t (DataBlock KEY A)) size N :
  0 < SIZE → 2 ≤ N → mem N = Some m0 → fits SIZE N size →
  ∃ p, InitMemPool SIZE zkey zdata new mem size N 1 = Ok (p, SUCCESS) ∧ iMemSize (m_objFMP p) = size ∧
    rep N p (seqZ 0 (N - 1)) ∅ (Spec ∅ None).
Proof.
  intros HS HN Hm Hs. unfold InitMemPool.
  destruct (Init_cleared SIZE (zero_block zkey zdata) mem (m_iGetNextPos (m_objFMP (@new KEY A))) size N m0 HS HN Hm Hs)
    as (f & -> & Hf & Hnum & Hsize & _). cbn [mbind outcome_bind].
  change (negb (CFixedsizeMemPool.SUCCESS =? CFixedsizeMemPool.SUCCESS)) with false. cbv iota.
  eexists. split; [done|]. split; [done|]. split; [done|done|done| | | |done].
  - cbn [maps]. by rewrite fmap_empty.
  - unfold all_nodes. rewrite map_to_list_empty. cbn [fmap list_fmap concat]. by rewrite app_nil_r.
  - done.
Qed.

Lemma step_sim N p free ch s (o : op KEY A) :
  0 < SIZE → rep N p free ch s → fits SIZE N (iMemSize (m_objFMP p)) → legal N s o → sim SIZE zkey zdata N p s o.
Proof.
  intros HS Hrep Hsize Hl. destruct o as [| |h|k x|k|k x| |].
  - by eapply Attach_sim.
  - by eapply New_sim.
  - by eapply Use_sim.
  - by eapply Insert_sim.
  - by eapply Get_sim.
  - by eapply Put_sim.
  - by eapply All_sim.
  - by eapply Release_sim.
Qed.

Lemma run_sim N c n p free ch s hist :
  0 < SIZE → rep N p free ch s → fits SIZE N (iMemSize (m_objFMP p)) → history N hist s →
  (∀ hist s, history N hist s → legal N s (c hist)) →
  ∃ p' free' ch' s' hist', run SIZE zkey zdata n c hist p = Ok (p', hist') ∧ length hist' = (length hist + n)%nat ∧
    history N hist' s' ∧ rep N p' free' ch' s' ∧ iMemSize (m_objFMP p') = iMemSize (m_objFMP p).
Proof.
  intros HS. revert p free ch s hist. induction n as [|n IH]; intros p free ch s hist Hrep Hsize Hh Hc; cbn [run].
  { exists p, free, ch, s, hist. split_and!; try done. }
  destruct (step_sim N p free ch s (c hist) HS Hrep Hsize (Hc hist s Hh)) as (p1 & free1 & ch1 & r & s1 & -> & Hrep1 & Hspec & Hs1).
  cbn [mbind outcome_bind].
  destruct (IH p1 free1 ch1 s1 (hist ++ [(c hist, r)]) Hrep1) as (p' & free' & ch' & s' & hist' & -> & Hlen & Hh' & Hrep' & Hs'); [by rewrite Hs1| |done|].
  { by eapply history_step; [done|apply Hc|]. }
  exists p', free', ch', s', hist'. split; [done|]. rewrite length_app in Hlen. cbn in Hlen. split; [lia|]. split; [done|]. split; [done|congruence].
Qed.

(** C28: a [CMemPool] over cleared memory that has room for its nodes (head, free
    list, marks and data together, counted without wrap-around, in a memory of fewer
    than 2^31 bytes), used by any [legal] client: it chooses each call by what the
    earlier ones returned, lets other objects attach to the memory, and gives
    [InitWithHandle] only handles of maps that live, or numbers that are none of the
    pool's nodes.  Every call returns, none faults, and each returns what the
    specification allows, maps under handles that are association lists in the
    order of insertion.  A new map or a 51st pair of a block is refused just when
    all but two nodes hold blocks; releasing a map gives all its blocks back, and
    no block is shared or lost.  Afterwards the pool passes [VerifyMemPool], and
    [GetMapInfo] counts the blocks the maps take.  ([cleared_node_loops] and
    [wrapped_size_faults] below show what happens without the two conditions.) *)
Theorem MemPool_refines (mem : Z → option (CFixedsizeMemPool.t (DataBlock KEY A))) (m0 : CFixedsizeMemPool.t (DataBlock KEY A)) size N c n :
  0 < SIZE → 2 ≤ N → mem N = Some m0 → PoolBytes SIZE N ≤ size < 2 ^ 31 →
  (∀ hist s, history N hist s → legal N s (c hist)) →
  ∃ p p' hist s, InitMemPool SIZE zkey zdata new mem size N 1 = Ok (p, SUCCESS) ∧
    run SIZE zkey zdata n c [] p = Ok (p', hist) ∧ length hist = n ∧ history N hist s ∧
    VerifyMemPool p' = Ok SUCCESS ∧ GetMapInfo p' = (size, N, used_blocks s).
Proof.
  intros HS HN Hm Hsize Hc. destruct (InitMemPool_rep mem m0 size N HS HN Hm Hsize) as (p & Hi & Hps & Hrep). exists p.
  destruct (run_sim N c n p _ _ _ [] HS Hrep ltac:(by rewrite Hps) (history_nil N) Hc) as (p' & free' & ch' & s' & hist & Hr & Hlen & Hh & Hrep' & Hs').
  exists p', hist, s'. split; [done|]. split; [done|]. split; [done|]. split; [done|]. pose proof (rp_pool _ _ _ _ _ Hrep') as Hpool. split.
  - unfold VerifyMemPool. rewrite (rp_init _ _ _ _ _ Hrep'), (Verify_ok _ _ Hpool). done.
  - unfold GetMapInfo. by rewrite (rep_used _ _ _ _ _ Hrep'), (fr_cnt _ _ Hpool), (rp_num _ _ _ _ _ Hrep'), Hs', Hps.
Qed.

End props.

(** [VerifyData] subtracts the size of the marks where it means to add it: it
    rejects the nodes of a pool. *)
Lemma VerifyData_rejects :
  match CFixedsizeMemPool.Init 408 0 (λ _, Some CFixedsizeMemPool.new) 0 65536 100 1 with
  | Ok (Some f, r) => r = CFixedsizeMemPool.SUCCESS ∧ VerifyData 408 f 0 = CFixedsizeMemPool.ERROR
  | _ => False
  end.
Proof. vm_compute. split; reflexivity. Qed.

(** 6000000 nodes do not fit into 100 bytes; computed in an int their size is
    negative, and [Init] takes the memory and clears what is behind it. *)
Lemma wrapped_size_faults :
  CalculateMemSize 408 6000000 < 0 ∧
  CFixedsizeMemPool.Init 408 0 (λ _, Some CFixedsizeMemPool.new) 0 100 6000000 1 = Fault.
Proof. vm_compute. split; reflexivity. Qed.

(** ** Four nodes: one map, released, and what is left of it *)
Module MemPoolExample.
Definition calls : list (op Z Z) :=
  [New; InsertKey 1 10; InsertKey 1 11; Get 1; Put 1 12; Get 1; New; New; Use 7; Release; All; Attach; New].
Definition c : client Z Z := λ hist, nth (length hist) calls All.

Lemma calls_legal s : Forall (legal 4 s) calls.
Proof. unfold calls. repeat constructor; cbn; lia. Qed.

Lemma c_legal hist s : history 4 hist s → legal 4 s (c hist).
Proof.
  intros _. unfold c. destruct (nth_in_or_default (length hist) calls All) as [Hin| ->]; [|done].
  exact (proj1 (Forall_forall _ _) (calls_legal s) _ (proj2 (list_elem_of_In _ _) Hin)).
Qed.

(** What the calls return. *)
Lemma calls_return :
  match InitMemPool 408 0 0 new (λ _, Some CFixedsizeMemPool.new) 65536 4 1 with
  | Ok (p, r) => r = SUCCESS ∧
    snd <$> match run 408 0 0 13 c [] p with Ok (_, hist) => hist | _ => [] end =
    [RCode 0; RCode 0; RCode NODE_EXIST; RGet 0 (Some 10); RCode 0; RGet 0 (Some 12); RCode 1; RCode MEM_POOL_ALLOCATE_FAILED;
     RCode INVALID_MAP_HANDLE; RCode 0; RAll INVALID_MAP_HANDLE []; RCode 0; RCode 2]
  | _ => False
  end.
Proof. vm_compute. split; reflexivity. Qed.

(** A search from a cleared node that holds no map goes round for ever: its block is
    linked to node 0. *)
Lemma cleared_node_loops fuel k la (p : t Z Z) :
  block p 0 = Ok (zero_block 0 0) → find_loop fuel p k 0 la = Spin.
Proof.
  intros Hb. revert la. induction fuel as [|fuel IH]; intros la; [done|]. cbn [find_loop].
  change (0 =? -1) with false. rewrite Hb. cbn [mbind outcome_bind zero_block iUsedDataNum iNextHandle].
  change (Z.to_nat 0) with 0%nat. cbn [find_key mbind outcome_bind]. apply IH.
Qed.
End MemPoolExample.

Lemma MemPool_refines_witness :
  ∃ p p' hist s, InitMemPool 408 0 0 new (λ _, Some CFixedsizeMemPool.new) 65536 4 1 = Ok (p, SUCCESS) ∧
    run 408 0 0 13 MemPoolExample.c [] p = Ok (p', hist) ∧ length hist = 13%nat ∧ history 4 hist s ∧
    VerifyMemPool p' = Ok SUCCESS ∧ GetMapInfo p' = (65536, 4, used_blocks s).
Proof.
  apply (MemPool_refines 408 0 0 (λ _, Some CFixedsizeMemPool.new) CFixedsizeMemPool.new 65536 4 MemPoolExample.c 13).
  - lia.
  - lia.
  - reflexivity.
  - vm_compute. split; [discriminate|reflexivity].
  - exact MemPoolExample.c_legal.
Defined.
