(* ===== verification/Md5.v ===== *)
(** [MD5] (mmlib/md5/md5.cpp): the digest of what is fed in pieces. *)
From S2P Require Import Prelude.

#[local] Open Scope Z_scope.
#[local] Open Scope list_scope.

Module MD5.

(** * One block *)
Definition lnot32 (x : Z) : Z := u32 (Z.lnot x).
Definition F (x y z : Z) : Z := Z.lor (Z.land x y) (Z.land (lnot32 x) z).
Definition G (x y z : Z) : Z := Z.lor (Z.land x z) (Z.land y (lnot32 z)).
Definition H (x y z : Z) : Z := Z.lxor (Z.lxor x y) z.
Definition I (x y z : Z) : Z := Z.lxor y (Z.lor x (lnot32 z)).
Definition ROTATE_LEFT (x n : Z) : Z := Z.lor (u32 (Z.shiftl x n)) (Z.shiftr x (32 - n)).

(** [_state]; also the variables [a], [b], [c], [d]. *)
Record words : Type := Words { wa : Z; wb : Z; wc : Z; wd : Z }.

(** FF (a, b, c, d, x, s, ac) with [f] for F, and its like.  The next call of the
    source has the variables (d, a, b, c), so they are turned here. *)
Definition FF (f : Z → Z → Z → Z) (x s ac : Z) (v : words) : words :=
  let a := u32 (wa v + u32 (f (wb v) (wc v) (wd v) + x + ac)) in
  let a := u32 (ROTATE_LEFT a s + wb v) in
  Words (wd v) a (wb v) (wc v).

(** The calls of a round: the word, the shift and the constant of each. *)
Definition S1 : list Z := [7; 12; 17; 22].
Definition S2 : list Z := [5; 9; 14; 20].
Definition S3 : list Z := [4; 11; 16; 23].
Definition S4 : list Z := [6; 10; 15; 21].
Definition K1 : list (Z * Z) :=
  [(0, 0xd76aa478); (1, 0xe8c7b756); (2, 0x242070db); (3, 0xc1bdceee); (4, 0xf57c0faf); (5, 0x4787c62a);
   (6, 0xa8304613); (7, 0xfd469501); (8, 0x698098d8); (9, 0x8b44f7af); (10, 0xffff5bb1); (11, 0x895cd7be);
   (12, 0x6b901122); (13, 0xfd987193); (14, 0xa679438e); (15, 0x49b40821)].
Definition K2 : list (Z * Z) :=
  [(1, 0xf61e2562); (6, 0xc040b340); (11, 0x265e5a51); (0, 0xe9b6c7aa); (5, 0xd62f105d); (10, 0x2441453);
   (15, 0xd8a1e681); (4, 0xe7d3fbc8); (9, 0x21e1cde6); (14, 0xc33707d6); (3, 0xf4d50d87); (8, 0x455a14ed);
   (13, 0xa9e3e905); (2, 0xfcefa3f8); (7, 0x676f02d9); (12, 0x8d2a4c8a)].
Definition K3 : list (Z * Z) :=
  [(5, 0xfffa3942); (8, 0x8771f681); (11, 0x6d9d6122); (14, 0xfde5380c); (1, 0xa4beea44); (4, 0x4bdecfa9);
   (7, 0xf6bb4b60); (10, 0xbebfbc70); (13, 0x289b7ec6); (0, 0xeaa127fa); (3, 0xd4ef3085); (6, 0x4881d05);
   (9, 0xd9d4d039); (12, 0xe6db99e5); (15, 0x1fa27cf8); (2, 0xc4ac5665)].
Definition K4 : list (Z * Z) :=
  [(0, 0xf4292244); (7, 0x432aff97); (14, 0xab9423a7); (5, 0xfc93a039); (12, 0x655b59c3); (3, 0x8f0ccc92);
   (10, 0xffeff47d); (1, 0x85845dd1); (8, 0x6fa87e4f); (15, 0xfe2ce6e0); (6, 0xa3014314); (13, 0x4e0811a1);
   (4, 0xf7537e82); (11, 0xbd3af235); (2, 0x2ad7d2bb); (9, 0xeb86d391)].

Definition round (f : Z → Z → Z → Z) (ss : list Z) (ks : list (Z * Z)) (x : list Z) (v : words) : words :=
  foldl (λ v c, FF f (nth (Z.to_nat c.2.1) x 0) (nth (c.1 mod 4) ss 0) c.2.2 v) v (zip (seq 0 16) ks).

(** Four bytes are a word, the least significant first. *)
Fixpoint decode (input : list Z) : list Z :=
  match input with
  | b0 :: b1 :: b2 :: b3 :: rest =>
      Z.lor (Z.lor (Z.lor b0 (Z.shiftl b1 8)) (Z.shiftl b2 16)) (Z.shiftl b3 24) :: decode rest
  | _ => []
  end.
Definition encode (input : list Z) : list Z :=
  concat ((λ w, [Z.land w 255; Z.land (Z.shiftr w 8) 255; Z.land (Z.shiftr w 16) 255; Z.land (Z.shiftr w 24) 255]) <$> input).

Definition transform (_state : words) (block : list Z) : words :=
  let x := decode block in
  let v := round I S4 K4 x (round H S3 K3 x (round G S2 K2 x (round F S1 K1 x _state))) in
  Words (u32 (wa _state + wa v)) (u32 (wb _state + wb v)) (u32 (wc _state + wc v)) (u32 (wd _state + wd v)).

(** * The object *)
Record t : Type := Obj {
  _state : words; _count0 : Z; _count1 : Z; _buffer : list Z; _digest : list Z; _finished : bool }.

Definition state0 : words := Words 0x67452301 0xefcdab89 0x98badcfe 0x10325476.
Definition reset (m : t) : t := Obj state0 0 0 (_buffer m) (_digest m) false.

Definition PADDING : list Z := 0x80 :: replicate 63 0.
Definition HEX : list Z := [48; 49; 50; 51; 52; 53; 54; 55; 56; 57; 97; 98; 99; 100; 101; 102].
Definition BUFFER_SIZE : Z := 1024.

(** The whole blocks of [input] from [i] on, [i] an unsigned int. *)
Fixpoint blocks_loop (fuel : nat) (input : list Z) (s : words) (i : Z) : outcome (words * Z) :=
  match fuel with
  | O => Spin
  | S fuel =>
      if u32 (i + 63) <? zlen input then
        block ← mread input i 64;
        blocks_loop fuel input (transform s block) (u32 (i + 64))
      else Ok (s, i)
  end.

Definition update (m : t) (input : list Z) : outcome t :=
  let length := zlen input in
  let index := Z.land (Z.shiftr (_count0 m) 3) 63 in
  let bits := u32 (Z.shiftl (u32 length) 3) in
  let c0 := u32 (_count0 m + bits) in
  let c1 := if c0 <? bits then u32 (_count1 m + 1) else _count1 m in
  let c1 := u32 (c1 + Z.shiftr (u32 length) 29) in
  let partLen := 64 - index in
  if partLen <=? length then
    piece ← mread input 0 partLen;
    buffer ← mwrite (_buffer m) index piece;
    '(s, i) ← blocks_loop (S (S (List.length input))) input (transform (_state m) buffer) partLen;
    rest ← mread input i (length - i);
    buffer ← mwrite buffer 0 rest;
    Ok (Obj s c0 c1 buffer (_digest m) false)
  else
    buffer ← mwrite (_buffer m) index input;
    Ok (Obj (_state m) c0 c1 buffer (_digest m) false).

(** A file is read in pieces; [None] is one that could not be opened. *)
Fixpoint file_loop (fuel : nat) (m : t) (rest : list Z) : outcome t :=
  match fuel with
  | O => Spin
  | S fuel =>
      let buffer := take (Z.to_nat BUFFER_SIZE) rest in
      m ← (if 0 <? zlen buffer then update m buffer else Ok m);
      if zlen buffer <? BUFFER_SIZE then Ok m else file_loop fuel m (drop (Z.to_nat BUFFER_SIZE) rest)
  end.
Definition update_file (m : t) (file : option (list Z)) : outcome t :=
  match file with None => Ok m | Some bytes => file_loop (S (length bytes)) m bytes end.

Definition final (m : t) : outcome t :=
  let bits := encode [_count0 m; _count1 m] in
  let index := Z.land (Z.shiftr (_count0 m) 3) 63 in
  let padLen := if index <? 56 then 56 - index else 120 - index in
  padding ← mread PADDING 0 padLen;
  m1 ← update m padding;
  m2 ← update m1 bits;
  let s := _state m2 in
  Ok (Obj (_state m) (_count0 m) (_count1 m) (_buffer m2) (encode [wa s; wb s; wc s; wd s]) (_finished m2)).

Definition set_finished (m : t) (f : bool) : t := Obj (_state m) (_count0 m) (_count1 m) (_buffer m) (_digest m) f.

Definition digest (m : t) : outcome (t * list Z) :=
  m ← (if negb (_finished m) then final (set_finished m true) else Ok m);
  Ok (m, _digest m).

Definition bytesToHexString (input : list Z) : list Z :=
  concat ((λ b, [nth (Z.to_nat (b / 16)) HEX 0; nth (Z.to_nat (b mod 16)) HEX 0]) <$> input).
Definition toString (m : t) : outcome (t * list Z) :=
  '(m, d) ← digest m; Ok (m, bytesToHexString d).

(** All whole blocks of a message, one after the other. *)
Fixpoint absorb (n : nat) (s : words) (msg : list Z) : words :=
  match n with
  | O => s
  | S n => absorb n (transform s (take 64 msg)) (drop 64 msg)
  end.
End MD5.

(** * The reference: the digest of a whole message

    Written from the text of RFC 1321 and with nothing of the code: words are
    numbers below 2^32, the auxiliary functions are given bit by bit, the table
    [T] is computed from the sine, the word and the shift of an operation are
    computed from its number, and the four registers are a list in which an
    operation changes one. *)
Module RFC1321.

Definition W : Z := 2 ^ 32.

(** 3.4: the auxiliary functions, on each of the 32 bits. *)
Definition bitwise (f : bool → bool → bool → bool) (x y z : Z) : Z :=
  foldr (λ i w, Z.b2z (f (Z.testbit x i) (Z.testbit y i) (Z.testbit z i)) * 2 ^ i + w) 0 (seqZ 0 32).
Definition auxF (x y z : bool) : bool := if x then y else z.
Definition auxG (x y z : bool) : bool := if z then x else y.
Definition auxH (x y z : bool) : bool := xorb x (xorb y z).
Definition auxI (x y z : bool) : bool := xorb y (x || negb z).
Definition aux (r : nat) : bool → bool → bool → bool := nth r [auxF; auxG; auxH; auxI] auxF.

(** 3.4: T[i] is the integer part of 4294967296 times abs(sin(i)), i in radians.
    The sine by its power series, in fixed point with 256 binary places. *)
Definition ONE : Z := 2 ^ 256.
Fixpoint sin_from (n : nat) (i k term : Z) : Z :=
  match n with
  | O => 0
  | S n => term - sin_from n i (k + 2) (term * i * i / ((k + 1) * (k + 2)))
  end.
Definition sin (i : Z) : Z := sin_from 200 i 1 (i * ONE).
Definition T (i : Z) : Z := 2 ^ 32 * Z.abs (sin i) / ONE.

(** 2: X <<< s. *)
Definition rotl (x s : Z) : Z := x * 2 ^ s mod W + x / 2 ^ (32 - s).

(** 3.4: operation [i], from 0, of the 64 on a block: [k] is the word of the block,
    [s] the shift; a = b + ((a + F(b,c,d) + X[k] + T[i]) <<< s) with A, D, C, B for
    a in turn. *)
Definition word_of (i : nat) : nat :=
  (match (i / 16)%nat with 0 => i | 1 => 5 * i + 1 | 2 => 3 * i + 5 | _ => 7 * i end mod 16)%nat.
Definition shift_of (i : nat) : Z :=
  nth (i mod 4) (nth (i / 16) [[7; 12; 17; 22]; [5; 9; 14; 20]; [4; 11; 16; 23]; [6; 10; 15; 21]] []) 0.
Definition reg (regs : list Z) (j : nat) : Z := nth (j mod 4) regs 0.
Definition operation (X : list Z) (regs : list Z) (i : nat) : list Z :=
  let p := (4 - i mod 4)%nat in
  let a := reg regs p in let b := reg regs (p + 1) in let c := reg regs (p + 2) in let d := reg regs (p + 3) in
  let sum := (a + bitwise (aux (i / 16)) b c d + nth (word_of i) X 0 + T (Z.of_nat i + 1)) mod W in
  <[(p mod 4)%nat := (b + rotl sum (shift_of i)) mod W]> regs.

(** 2: four bytes of a block are a word, low-order byte first. *)
Definition words_of (block : list Z) : list Z :=
  (λ j, le_dec (take 4 (drop (4 * j) block))) <$> seq 0 16.
Definition process (regs : list Z) (block : list Z) : list Z :=
  zip_with (λ x y, (x + y) mod W) regs (foldl (operation (words_of block)) regs (seq 0 64)).

(** 3.1, 3.2: a bit 1, bits 0 up to 448 modulo 512, the length in bits as 64 bits. *)
Definition padded (msg : list Z) : list Z :=
  msg ++ 128 :: replicate (Z.to_nat ((55 - zlen msg) mod 64)) 0 ++ le_enc 8 (8 * zlen msg).
(** 3.3: the bytes of A, B, C and D, low-order first. *)
Definition initial : list Z :=
  le_dec <$> [[0x01; 0x23; 0x45; 0x67]; [0x89; 0xab; 0xcd; 0xef]; [0xfe; 0xdc; 0xba; 0x98]; [0x76; 0x54; 0x32; 0x10]].
Fixpoint process_all (n : nat) (regs msg : list Z) : list Z :=
  match n with
  | O => regs
  | S n => process_all n (process regs (take 64 msg)) (drop 64 msg)
  end.
(** 3.5 *)
Definition md5 (msg : list Z) : list Z :=
  concat (le_enc 4 <$> process_all (length (padded msg) / 64) initial (padded msg)).
End RFC1321.
