(* ===== verification/Md5Props.v ===== *)
(** What an [MD5] object has taken in, and that it agrees with its reference:
    pieces, files and digests in any order. *)
From S2P Require Import Prelude Wire Md5.

#[local] Open Scope Z_scope.
#[local] Open Scope list_scope.
#[local] Arguments Z.add : simpl never.
#[local] Arguments Z.sub : simpl never.
#[local] Arguments Z.mul : simpl never.
#[local] Arguments Z.ltb : simpl never.
#[local] Arguments Z.leb : simpl never.

Import MD5.

(** * Blocks of a message *)
Lemma absorb_app n s a b : (64 * n ≤ length a)%nat → absorb n s (a ++ b) = absorb n s a.
Proof.
  revert s a. induction n as [|n IH]; intros s a Hn; [done|]. cbn [absorb].
  rewrite take_app_le, drop_app_le by lia. apply IH. rewrite length_drop. lia.
Qed.

Lemma absorb_add n k s a : absorb (n + k) s a = absorb k (absorb n s a) (drop (64 * n) a).
Proof.
  revert s a. induction n as [|n IH]; intros s a; [by rewrite drop_0|]. cbn [absorb Nat.add]. rewrite IH, drop_drop.
  do 2 f_equal. lia.
Qed.

(** * Counting bits *)
Lemma index_ok n : 0 ≤ n → Z.land (Z.shiftr (u32 (8 * n)) 3) 63 = n mod 64.
Proof.
  intros Hn. change 63 with (Z.ones 6). rewrite Z.land_ones by done. rewrite Z.shiftr_div_pow2 by done. unfold u32.
  change (2 ^ 3) with 8. change (2 ^ 6) with 64. change (2 ^ 32) with (8 * 2 ^ 29).
  rewrite Z.mul_mod_distr_l by done. rewrite (Z.mul_comm 8), Z.div_mul by done.
  change (2 ^ 29) with (64 * 2 ^ 23). rewrite Z.rem_mul_r by done. rewrite Z.mul_comm, Z.mod_add by done. by rewrite Z.mod_mod.
Qed.

Lemma bits_ok d : 0 ≤ d < 2 ^ 32 → u32 (Z.shiftl (u32 d) 3) = u32 (8 * d) ∧ Z.shiftr (u32 d) 29 = 8 * d / 2 ^ 32.
Proof.
  intros Hd. unfold u32. rewrite (Z.mod_small d) by done. rewrite Z.shiftl_mul_pow2, Z.shiftr_div_pow2 by done.
  change (2 ^ 3) with 8. split; [f_equal; lia|]. change (2 ^ 32) with (8 * 2 ^ 29). by rewrite Z.div_mul_cancel_l.
Qed.

Lemma count_ok x y :
  0 ≤ x → 0 ≤ y →
  let c0 := u32 (u32 x + u32 y) in
  c0 = u32 (x + y) ∧
  u32 ((if c0 <? u32 y then u32 (u32 (x / 2 ^ 32) + 1) else u32 (x / 2 ^ 32)) + y / 2 ^ 32) = u32 ((x + y) / 2 ^ 32).
Proof.
  intros Hx Hy. unfold u32. split; [by rewrite <- Z.add_mod|].
  pose proof (Z.div_mod x (2 ^ 32)) as Ex. pose proof (Z.div_mod y (2 ^ 32)) as Ey.
  pose proof (Z.mod_pos_bound x (2 ^ 32)) as Bx. pose proof (Z.mod_pos_bound y (2 ^ 32)) as By.
  set (qx := x / 2 ^ 32) in *. set (qy := y / 2 ^ 32) in *. set (rx := x mod 2 ^ 32) in *. set (ry := y mod 2 ^ 32) in *.
  destruct (Z.lt_ge_cases (rx + ry) (2 ^ 32)) as [Hc|Hc].
  - rewrite (Z.mod_small (rx + ry)) by lia. rewrite (proj2 (Z.ltb_ge _ _)) by lia. rewrite Zplus_mod_idemp_l.
    f_equal. apply (Z.div_unique _ _ _ (rx + ry)); lia.
  - assert ((rx + ry) mod 2 ^ 32 = rx + ry - 2 ^ 32) as ->.
    { symmetry. apply (Z.mod_unique _ _ 1); lia. }
    rewrite (proj2 (Z.ltb_lt _ _)) by lia. rewrite Zplus_mod_idemp_l, <- Z.add_assoc, Zplus_mod_idemp_l.
    f_equal. apply (Z.div_unique _ _ _ (rx + ry - 2 ^ 32)); lia.
Qed.

(** * What was taken in *)
Definition whole (msg : list Z) : nat := length msg / 64.
Definition over (msg : list Z) : nat := length msg mod 64.

Lemma whole_over msg : length msg = (64 * whole msg + over msg)%nat ∧ (over msg < 64)%nat.
Proof. unfold whole, over. pose proof (Nat.div_mod (length msg) 64). pose proof (Nat.mod_upper_bound (length msg) 64). lia. Qed.
Lemma over_Z msg : Z.of_nat (over msg) = zlen msg mod 64.
Proof. unfold over, zlen. by rewrite Nat2Z.inj_mod. Qed.

Record absorbed (m : t) (msg : list Z) : Prop := {
  ab_state : _state m = absorb (whole msg) state0 msg;
  ab_count0 : _count0 m = u32 (8 * zlen msg);
  ab_count1 : _count1 m = u32 (8 * zlen msg / 2 ^ 32);
  ab_len : length (_buffer m) = 64%nat;
  ab_buffer : take (over msg) (_buffer m) = drop (64 * whole msg) msg;
}.

Lemma reset_absorbed m : length (_buffer m) = 64%nat → absorbed (reset m) [].
Proof. intros Hl. by split. Qed.

(** Blocks of one piece. *)
Lemma blocks_loop_ok fuel input s i :
  0 ≤ i ≤ zlen input → zlen input ≤ 2 ^ 32 - 64 → zlen input - i < Z.of_nat fuel →
  let n := Z.to_nat ((zlen input - i) / 64) in
  blocks_loop fuel input s i = Ok (absorb n s (drop (Z.to_nat i) input), i + 64 * Z.of_nat n).
Proof.
  revert s i. induction fuel as [|fuel IH]; intros s i Hi Hl Hf n; [lia|]. cbn [blocks_loop].
  assert (u32 (i + 63) = i + 63) as -> by (unfold u32; rewrite Z.mod_small; lia).
  destruct (Z.ltb_spec (i + 63) (zlen input)) as [Hlt|Hge].
  - rewrite mread_ok by lia. cbn [mbind outcome_bind]. assert (u32 (i + 64) = i + 64) as -> by (unfold u32; rewrite Z.mod_small; lia).
    rewrite IH by lia. assert ((zlen input - i) / 64 = (zlen input - (i + 64)) / 64 + 1) as E.
    { replace (zlen input - i) with (zlen input - (i + 64) + 1 * 64) by lia. by rewrite Z.div_add. }
    pose proof (Z.div_pos (zlen input - (i + 64)) 64 ltac:(lia) ltac:(lia)) as Hq.
    unfold n. rewrite E. rewrite (Z2Nat.inj_add _ 1) by lia. change (Z.to_nat 1) with 1%nat. rewrite Nat.add_1_r. cbn [absorb].
    rewrite drop_drop. do 2 f_equal; [|lia]. f_equal. f_equal. lia.
  - assert (n = 0%nat) as ->; [|by rewrite Z.add_0_r].
    unfold n. rewrite Z.div_small by lia. done.
Qed.

Lemma mwrite_0 {B} (b d : list B) : (length d ≤ length b)%nat → mwrite b 0 d = Ok (d ++ drop (length d) b).
Proof. intros Hl. rewrite mwrite_ok by (unfold zlen; lia). done. Qed.

Lemma whole_app msg d q r :
  (over msg + length d = 64 * q + r)%nat → (r < 64)%nat → whole (msg ++ d) = (whole msg + q)%nat ∧ over (msg ++ d) = r.
Proof.
  intros He Hr. destruct (whole_over msg) as [Hw Ho]. unfold whole at 1, over at 1. rewrite length_app. split.
  - symmetry. apply (Nat.div_unique _ _ _ r); lia.
  - symmetry. apply (Nat.mod_unique _ _ (whole msg + q)); lia.
Qed.

Lemma absorb_more msg d n :
  (64 - over msg ≤ length d)%nat →
  absorb (whole msg + (1 + n)) state0 (msg ++ d) =
  absorb n (transform (absorb (whole msg) state0 msg) (drop (64 * whole msg) msg ++ take (64 - over msg) d)) (drop (64 - over msg) d).
Proof.
  intros Hd. destruct (whole_over msg) as [Hw Ho]. rewrite absorb_add, absorb_app by lia. cbn [absorb Nat.add].
  rewrite drop_app_le by lia. rewrite take_app, drop_app. rewrite !length_drop.
  rewrite (take_ge (drop _ msg)), (drop_ge (drop _ msg)) by (rewrite length_drop; lia). cbn [app].
  by replace (64 - (length msg - 64 * whole msg))%nat with (64 - over msg)%nat by lia.
Qed.

(** A piece is taken in. *)
Lemma update_ok m msg d :
  absorbed m msg → zlen d ≤ 2 ^ 32 - 64 →
  ∃ m', update m d = Ok m' ∧ absorbed m' (msg ++ d) ∧ _finished m' = false ∧ _digest m' = _digest m ∧
    (Z.of_nat (over msg) + zlen d ≤ 64 → take (over msg) (_buffer m') = take (over msg) (_buffer m)).
Proof.
  intros [Hst H0 H1 Hlen Hbuf] Hd. unfold update. rewrite H0, H1. destruct (whole_over msg) as [Hw Ho].
  rewrite index_ok by (unfold zlen; lia). rewrite <- over_Z. pose proof (zlen_nonneg d) as Hd0. pose proof (zlen_nonneg msg).
  destruct (bits_ok (zlen d)) as [-> ->]; [lia|]. destruct (count_ok (8 * zlen msg) (8 * zlen d)) as [Hc0 Hc1]; [lia|lia|].
  cbv zeta in *. rewrite Hc0 in *. rewrite Hc1. rewrite <- Z.mul_add_distr_l, <- zlen_app.
  destruct (Z.leb_spec (64 - Z.of_nat (over msg)) (zlen d)) as [Hge|Hlt].
  - set (r := over msg) in *. assert ((64 - r ≤ length d)%nat) as Hrd by (unfold zlen in *; lia).
    rewrite mread_ok by lia. cbn [mbind outcome_bind]. rewrite drop_0.
    replace (Z.to_nat (64 - Z.of_nat r)) with (64 - r)%nat by lia. set (piece := take (64 - r) d).
    assert (length piece = (64 - r)%nat) as Hpl by (unfold piece; rewrite length_take; lia).
    rewrite mwrite_ok by (unfold zlen; lia). cbn [mbind outcome_bind]. rewrite Nat2Z.id, Hbuf.
    rewrite (drop_ge (_buffer m)) by lia. rewrite app_nil_r. set (block := drop (64 * whole msg) msg ++ piece).
    assert (length block = 64%nat) as Hbl by (unfold block; rewrite length_app, length_drop; lia).
    rewrite blocks_loop_ok by (unfold zlen in *; lia). cbn [mbind outcome_bind].
    set (n := Z.to_nat ((zlen d - (64 - Z.of_nat r)) / 64)).
    assert (Z.of_nat n = (zlen d - (64 - Z.of_nat r)) / 64) as Hn by (unfold n; rewrite Z2Nat.id; [done|apply Z.div_pos; lia]).
    pose proof (Z.mod_pos_bound (zlen d - (64 - Z.of_nat r)) 64 ltac:(lia)) as Hm.
    pose proof (Z.div_mod (zlen d - (64 - Z.of_nat r)) 64 ltac:(lia)) as Edm. rewrite <- Hn in Edm.
    set (rest := (zlen d - (64 - Z.of_nat r)) mod 64) in *.
    replace (64 - Z.of_nat r + 64 * Z.of_nat n) with (Z.of_nat (64 - r + 64 * n)) by lia.
    rewrite mread_ok by lia. cbn [mbind outcome_bind]. rewrite Nat2Z.id.
    rewrite (take_ge (drop _ d)) by (rewrite length_drop; unfold zlen in *; lia).
    rewrite mwrite_0 by (rewrite length_drop; unfold zlen in *; lia). cbn [mbind outcome_bind].
    destruct (whole_app msg d (1 + n) (Z.to_nat rest)) as [Ew Eo]; [unfold r, zlen in *; lia|lia|].
    eexists. split; [done|]. split; [|split; [done|split; [done|]]].
    + split; cbn [_state _count0 _count1 _buffer].
      * rewrite Ew, absorb_more, <- Hst by lia. by replace (Z.to_nat (64 - Z.of_nat r)) with (64 - r)%nat by lia.
      * done.
      * done.
      * rewrite length_app, !length_drop. unfold zlen in *. lia.
      * rewrite Eo, Ew. rewrite take_app_le by (rewrite length_drop; unfold zlen in *; lia).
        rewrite take_ge by (rewrite length_drop; unfold zlen in *; lia). rewrite drop_app_ge by lia. f_equal. lia.
    + intros Hle. cbn [_buffer]. assert (rest = 0 ∧ n = 0%nat) as [-> ->] by lia.
      rewrite (drop_ge d) by (unfold zlen in *; lia). cbn [app length]. rewrite drop_0.
      unfold block. rewrite take_app_le by (rewrite length_drop; lia). apply take_ge. rewrite length_drop. lia.
  - rewrite mwrite_ok by (unfold zlen in *; lia). cbn [mbind outcome_bind]. rewrite Nat2Z.id.
    destruct (whole_app msg d 0 (over msg + length d)) as [Ew Eo]; [lia|unfold zlen in *; lia|]. rewrite Nat.add_0_r in Ew.
    eexists. split; [done|]. split; [|split; [done|split; [done|]]].
    + split; cbn [_state _count0 _count1 _buffer].
      * by rewrite Ew, absorb_app by lia.
      * done.
      * done.
      * rewrite !length_app, length_take, length_drop. unfold zlen in *. lia.
      * rewrite Eo, Ew, Hbuf. rewrite drop_app_le by lia. rewrite app_assoc. rewrite take_app_le by (rewrite length_app, length_drop; lia).
        rewrite take_ge; [done|]. rewrite length_app, length_drop. lia.
    + intros _. cbn [_buffer]. rewrite Hbuf. rewrite take_app_le by (rewrite length_drop; lia). rewrite take_ge by (rewrite length_drop; lia). done.
Qed.

(** * The code's round functions and those of the RFC *)
Lemma bits_fold (g : Z → bool) x n :
  (∀ i, 0 ≤ i < Z.of_nat n → g i = Z.testbit x i) →
  foldr (λ i w, Z.b2z (g i) * 2 ^ i + w) 0 (seqZ 0 (Z.of_nat n)) = x mod 2 ^ Z.of_nat n.
Proof.
  induction n as [|n IH]; intros Hg; [by rewrite Z.mod_1_r|].
  rewrite seqZ_S, foldr_app. cbn [foldr]. rewrite Z.add_0_l.
  assert (∀ l y, foldr (λ i w, Z.b2z (g i) * 2 ^ i + w) y l = foldr (λ i w, Z.b2z (g i) * 2 ^ i + w) 0 l + y) as E.
  { induction l as [|i l IHl]; intros y; cbn [foldr]; [lia|]. rewrite IHl. lia. }
  rewrite E, IH by (intros; apply Hg; lia). rewrite Hg by lia. rewrite Z.testbit_spec' by lia.
  replace (Z.of_nat (S n)) with (Z.of_nat n + 1) by lia. rewrite Z.pow_add_r by lia. change (2 ^ 1) with 2. rewrite Z.rem_mul_r by lia. lia.
Qed.

Lemma bitwise_u32 f w x y z :
  (∀ i, 0 ≤ i < 32 → Z.testbit w i = f (Z.testbit x i) (Z.testbit y i) (Z.testbit z i)) → RFC1321.bitwise f x y z = u32 w.
Proof.
  intros Hf. unfold RFC1321.bitwise. change 32 with (Z.of_nat 32) at 1. rewrite (bits_fold _ w); [done|].
  intros i Hi. by rewrite Hf.
Qed.

Lemma lnot32_bit x i : 0 ≤ i < 32 → Z.testbit (lnot32 x) i = negb (Z.testbit x i).
Proof. intros Hi. unfold lnot32, u32. rewrite Z.mod_pow2_bits_low by lia. by rewrite Z.lnot_spec by lia. Qed.

(** The macros are the auxiliary functions. *)
Definition code_aux (r : nat) : Z → Z → Z → Z := nth r [F; G; H; I] F.
Lemma aux_ok r x y z : (r < 4)%nat → RFC1321.bitwise (RFC1321.aux r) x y z = u32 (code_aux r x y z).
Proof.
  intros Hr. apply bitwise_u32. intros i Hi.
  destruct r as [|[|[|[|r]]]]; [..|lia]; unfold code_aux, RFC1321.aux; cbn [nth]; unfold F, G, H, I;
    rewrite ?Z.lor_spec, ?Z.lxor_spec, ?Z.land_spec, ?Z.lor_spec, ?lnot32_bit by done;
    by destruct (Z.testbit x i), (Z.testbit y i), (Z.testbit z i).
Qed.

Lemma lor_add a b n : 0 ≤ n → 0 ≤ a < 2 ^ n → Z.lor a (b * 2 ^ n) = a + b * 2 ^ n.
Proof.
  intros Hn Ha. assert (Z.land a (b * 2 ^ n) = 0) as E.
  { apply Z.bits_inj'. intros i Hi. rewrite Z.land_spec, Z.bits_0. destruct (Z.lt_ge_cases i n).
    - rewrite Z.mul_pow2_bits_low by lia. by rewrite andb_false_r.
    - rewrite <- (Z.mod_small a (2 ^ n)) by done. by rewrite Z.mod_pow2_bits_high by lia. }
  rewrite <- Z.lxor_lor by done. symmetry. by apply Z.add_nocarry_lxor.
Qed.

Lemma rotl_ok x n : 0 ≤ x < 2 ^ 32 → 0 ≤ n ≤ 32 → ROTATE_LEFT x n = RFC1321.rotl x n.
Proof.
  intros Hx Hn. unfold ROTATE_LEFT, RFC1321.rotl, RFC1321.W, u32. rewrite Z.shiftl_mul_pow2, Z.shiftr_div_pow2 by lia.
  assert (2 ^ 32 = 2 ^ (32 - n) * 2 ^ n) as E by (rewrite <- Z.pow_add_r by lia; f_equal; lia).
  pose proof (Z.pow_pos_nonneg 2 n ltac:(lia) ltac:(lia)). pose proof (Z.pow_pos_nonneg 2 (32 - n) ltac:(lia) ltac:(lia)).
  assert (x * 2 ^ n mod 2 ^ 32 = x mod 2 ^ (32 - n) * 2 ^ n) as -> by (rewrite E; by rewrite Z.mul_mod_distr_r by lia).
  rewrite Z.lor_comm, lor_add; [lia|lia|]. split; [apply Z.div_pos; lia|]. apply Z.div_lt_upper_bound; lia.
Qed.

(** * Words of a block *)
Lemma words_seq n block :
  length block = (4 * n)%nat → Forall byte_ok block →
  decode block = (λ j, le_dec (take 4 (drop (4 * j) block))) <$> seq 0 n.
Proof.
  revert block. induction n as [|n IH]; intros block Hl Hb; [by destruct block|].
  destruct block as [|b0 [|b1 [|b2 [|b3 block]]]]; try (cbn in Hl; lia).
  inversion_clear Hb as [|? ? H0 Hb']. inversion_clear Hb' as [|? ? H1 Hb]. inversion_clear Hb as [|? ? H2 Hb']. inversion_clear Hb' as [|? ? H3 Hb].
  cbn [decode seq fmap list_fmap]. f_equal.
  - rewrite !Z.shiftl_mul_pow2 by lia. unfold byte_ok in *.
    rewrite (lor_add b0 b1), (lor_add (b0 + _) b2), (lor_add (b0 + _ + _) b3) by lia. cbn [Nat.mul Nat.add drop take le_dec]. rewrite take_0. cbn [le_dec]. lia.
  - rewrite IH by (try done; cbn in Hl; lia). rewrite <- fmap_S_seq, <- list_fmap_compose. apply list_fmap_ext. intros k j Hj. cbn [compose].
    by replace (4 * S j)%nat with (S (S (S (S (4 * j))))) by lia.
Qed.

(** * The 64 operations *)
(** The code's calls in their order. *)
Definition call : Type := nat * (Z * Z).
Definition do_call (f : Z → Z → Z → Z) (ss : list Z) (x : list Z) (v : words) (c : call) : words :=
  FF f (nth (Z.to_nat c.2.1) x 0) (nth (c.1 mod 4) ss 0) c.2.2 v.

(** The variables of operation [i] hold the registers, turned by its number. *)
Definition turned (i : nat) (regs : list Z) (v : words) : Prop :=
  length regs = 4%nat ∧
  let p := (4 - i mod 4)%nat in
  v = Words (RFC1321.reg regs p) (RFC1321.reg regs (p + 1)) (RFC1321.reg regs (p + 2)) (RFC1321.reg regs (p + 3)).

(** The call is that of operation [i]. *)
Definition agrees (r : nat) (ss : list Z) (i : nat) (c : call) : bool :=
  Nat.eqb (i / 16) r && Nat.eqb (RFC1321.word_of i) (Z.to_nat c.2.1) && (RFC1321.shift_of i =? nth (c.1 mod 4) ss 0)%Z &&
  (0 <=? RFC1321.shift_of i) && (RFC1321.shift_of i <=? 32) && (RFC1321.T (Z.of_nat i + 1) =? c.2.2).

#[local] Opaque RFC1321.T RFC1321.word_of RFC1321.shift_of.

Lemma operation_turned i regs v a :
  turned i regs v → turned (S i) (<[((4 - i mod 4) mod 4)%nat := a]> regs) (Words (wd v) a (wb v) (wc v)).
Proof.
  intros [Hl ->]. split; [by rewrite length_insert|]. cbn [wa wb wc wd].
  destruct regs as [|r0 [|r1 [|r2 [|r3 [|]]]]]; try done.
  assert (S i mod 4 = (i mod 4 + 1) mod 4)%nat as -> by (rewrite Nat.Div0.add_mod_idemp_l; f_equal; lia).
  pose proof (Nat.mod_upper_bound i 4 ltac:(lia)) as Hm. destruct (i mod 4)%nat as [|[|[|[|m]]]]; [done|done|done|done|lia].
Qed.

Lemma operation_ok r ss x i c regs v :
  (r < 4)%nat → agrees r ss i c = true → turned i regs v →
  turned (S i) (RFC1321.operation x regs i) (do_call (code_aux r) ss x v c).
Proof.
  intros Hr Hc Ht. unfold agrees in Hc. rewrite !andb_true_iff in Hc. destruct Hc as [[[[[H1 H2] H3] H4] H5] H6].
  apply Nat.eqb_eq in H1, H2. apply Z.eqb_eq in H3, H6. apply Z.leb_le in H4, H5.
  unfold RFC1321.operation, do_call, FF. rewrite H1, H2, H6, aux_ok by done. rewrite <- H3.
  pose proof (operation_turned i regs v) as Ho. destruct Ht as [Hl Hv]. cbv zeta in Hv. rewrite Hv. cbn [wa wb wc wd].
  set (p := (4 - i mod 4)%nat) in *. set (a := RFC1321.reg regs p). set (b := RFC1321.reg regs (p + 1)).
  set (c0 := RFC1321.reg regs (p + 2)). set (d := RFC1321.reg regs (p + 3)).
  assert (u32 (a + u32 (code_aux r b c0 d + nth (Z.to_nat c.2.1) x 0 + c.2.2)) =
          (a + u32 (code_aux r b c0 d) + nth (Z.to_nat c.2.1) x 0 + c.2.2) mod RFC1321.W) as ->.
  { unfold u32, RFC1321.W. rewrite Zplus_mod_idemp_r. rewrite <- !(Z.add_assoc a). rewrite <- (Zplus_mod_idemp_r (_ mod _ + _ + _)).
    rewrite <- (Z.add_assoc (_ mod _)), Zplus_mod_idemp_l, Zplus_mod_idemp_r. f_equal. lia. }
  set (sum := _ mod RFC1321.W). rewrite rotl_ok by (try done; apply Z.mod_pos_bound; done).
  rewrite (Z.add_comm _ b). rewrite Hv in Ho. apply Ho. by split.
Qed.

Lemma round_turned r ss x off l regs v :
  (r < 4)%nat → forallb (λ '(i, c), agrees r ss i c) (zip (seq off (length l)) l) = true → turned off regs v →
  turned (off + length l) (foldl (RFC1321.operation x) regs (seq off (length l))) (foldl (do_call (code_aux r) ss x) v l).
Proof.
  intros Hr. revert off regs v. induction l as [|c l IH]; intros off regs v Hc Ht; [by rewrite Nat.add_0_r|].
  cbn [length seq zip zip_with forallb] in Hc. apply andb_true_iff in Hc as [Hc1 Hc2]. cbn [length seq foldl].
  rewrite <- Nat.add_succ_comm. apply IH; [done|]. by apply operation_ok.
Qed.

(** The four rounds of the code are the 64 operations, table and all. *)
Lemma rounds_ok x regs v :
  turned 0 regs v →
  turned 64 (foldl (RFC1321.operation x) regs (seq 0 64)) (round I S4 K4 x (round H S3 K3 x (round G S2 K2 x (round F S1 K1 x v)))).
Proof.
  intros Ht. assert (seq 0 64 = seq 0 16 ++ seq 16 16 ++ seq 32 16 ++ seq 48 16) as -> by done.
  rewrite !foldl_app. unfold round.
  apply (round_turned 3 S4 x 48 (zip (seq 0 16) K4)); [lia|by vm_compute|].
  apply (round_turned 2 S3 x 32 (zip (seq 0 16) K3)); [lia|by vm_compute|].
  apply (round_turned 1 S2 x 16 (zip (seq 0 16) K2)); [lia|by vm_compute|].
  by apply (round_turned 0 S1 x 0 (zip (seq 0 16) K1)); [lia|vm_compute|].
Qed.

(** * Blocks and digests *)
Definition regs_of (s : words) : list Z := [wa s; wb s; wc s; wd s].

Lemma transform_ok s block :
  length block = 64%nat → Forall byte_ok block → regs_of (transform s block) = RFC1321.process (regs_of s) block.
Proof.
  intros Hl Hb. unfold transform, RFC1321.process. rewrite (words_seq 16) by done. fold (RFC1321.words_of block).
  destruct (rounds_ok (RFC1321.words_of block) (regs_of s) s) as [Hr ->]; [by destruct s|].
  destruct (foldl _ _ _) as [|r0 [|r1 [|r2 [|r3 [|]]]]]; done.
Qed.

Lemma absorb_rfc n s msg :
  (64 * n ≤ length msg)%nat → Forall byte_ok msg → regs_of (absorb n s msg) = RFC1321.process_all n (regs_of s) msg.
Proof.
  revert s msg. induction n as [|n IH]; intros s msg Hl Hb; [done|]. cbn [absorb RFC1321.process_all].
  rewrite IH, transform_ok; [done|rewrite length_take; lia|by apply Forall_take|rewrite length_drop; lia|by apply Forall_drop].
Qed.

Lemma encode_le l : encode l = concat (le_enc 4 <$> l).
Proof.
  unfold encode. f_equal. apply list_fmap_ext. intros _ w _. cbn [le_enc]. change 255 with (Z.ones 8).
  rewrite !Z.land_ones, !Z.shiftr_div_pow2 by done. rewrite !Z.div_div by done. done.
Qed.

Lemma encode_bits n : encode [u32 n; u32 (n / 2 ^ 32)] = le_enc 8 n.
Proof.
  rewrite encode_le. cbn [fmap list_fmap concat]. rewrite app_nil_r. unfold u32. change (2 ^ 32) with (2 ^ (8 * Z.of_nat 4)).
  rewrite !le_enc_mod. cbn [le_enc app]. by rewrite !Z.div_div by done.
Qed.

(** What the code does to the message at its end. *)
Definition zeros (msg : list Z) : list Z := replicate (Z.to_nat ((55 - zlen msg) mod 64)) 0.
Definition pad (msg : list Z) : list Z :=
  let n := 8 * zlen msg in
  msg ++ [0x80] ++ zeros msg ++ encode [u32 n; u32 (n / 2 ^ 32)].

Lemma md5_absorb msg :
  Forall byte_ok msg →
  RFC1321.md5 msg = encode (regs_of (absorb (length (pad msg) / 64) state0 (pad msg))).
Proof.
  intros Hb. unfold RFC1321.md5. assert (RFC1321.padded msg = pad msg) as -> by (unfold pad; by rewrite encode_bits).
  rewrite encode_le, absorb_rfc; [done|apply Nat.Div0.mul_div_le|]. unfold pad. rewrite encode_bits.
  repeat apply Forall_app_2; [done|by repeat constructor|by apply Forall_replicate|apply le_enc_bytes].
Qed.

(** * The end of a message *)
Definition pad_len (msg : list Z) : Z := if zlen msg mod 64 <? 56 then 56 - zlen msg mod 64 else 120 - zlen msg mod 64.

Lemma padding_ok msg : mread PADDING 0 (pad_len msg) = Ok ([0x80] ++ zeros msg).
Proof.
  pose proof (Z.mod_pos_bound (zlen msg) 64 ltac:(lia)) as Hb. unfold pad_len, zeros.
  assert ((55 - zlen msg) mod 64 = (if zlen msg mod 64 <? 56 then 56 - zlen msg mod 64 else 120 - zlen msg mod 64) - 1) as ->.
  { symmetry. pose proof (Z.div_mod (zlen msg) 64). destruct (Z.ltb_spec (zlen msg mod 64) 56).
    - apply (Z.mod_unique _ _ (- (zlen msg / 64))); lia.
    - apply (Z.mod_unique _ _ (- (zlen msg / 64) - 1)); lia. }
  assert (1 ≤ (if zlen msg mod 64 <? 56 then 56 - zlen msg mod 64 else 120 - zlen msg mod 64) ≤ 64) as Hn
    by (destruct (Z.ltb_spec (zlen msg mod 64) 56); lia).
  revert Hn. generalize (if zlen msg mod 64 <? 56 then 56 - zlen msg mod 64 else 120 - zlen msg mod 64) as n. intros n Hn.
  rewrite mread_ok by (change (zlen PADDING) with 64; lia). f_equal. rewrite drop_0. unfold PADDING.
  replace (Z.to_nat n) with (S (Z.to_nat (n - 1))) by lia. cbn [take app]. f_equal. rewrite take_replicate. f_equal. lia.
Qed.

Lemma encode_len l : length (encode l) = (4 * length l)%nat.
Proof. unfold encode. induction l as [|w l IH]; [done|]. cbn in *. lia. Qed.

Lemma zeros_len msg : 1 + zlen (zeros msg) = pad_len msg.
Proof.
  pose proof (padding_ok msg) as Hp%mread_zlen. rewrite zlen_app in Hp. unfold zlen in *. cbn in Hp. lia.
Qed.

Lemma pad_over msg : over (msg ++ [0x80] ++ zeros msg) = 56%nat.
Proof.
  unfold over. rewrite !length_app. pose proof (zeros_len msg) as Hz. pose proof (over_Z msg) as Ho. unfold pad_len in Hz.
  destruct (whole_over msg) as [Hw Hlt]. rewrite <- Ho in Hz. unfold zlen in Hz. cbn [length].
  destruct (Z.ltb_spec (Z.of_nat (over msg)) 56); symmetry.
  - apply (Nat.mod_unique _ _ (whole msg)); lia.
  - apply (Nat.mod_unique _ _ (whole msg + 1)); lia.
Qed.

(** [final] leaves the digest of what was taken in; the object can take in more
    unless the padding filled another block. *)
Lemma final_ok m msg :
  absorbed m msg → Forall byte_ok msg →
  ∃ m', final m = Ok m' ∧ _digest m' = RFC1321.md5 msg ∧ _finished m' = false ∧ length (_buffer m') = 64%nat ∧
    ((over msg < 56)%nat → absorbed m' msg).
Proof.
  intros Ha Hbytes. pose proof Ha as [Hst H0 H1 Hlen Hbuf]. unfold final. rewrite H0, H1.
  rewrite index_ok by (unfold zlen; lia). fold (pad_len msg). rewrite padding_ok. cbn [mbind outcome_bind].
  pose proof (zeros_len msg) as Hz. pose proof (Z.mod_pos_bound (zlen msg) 64 ltac:(lia)) as Hm.
  assert (zlen ([128] ++ zeros msg) = pad_len msg) as Hpl by (rewrite zlen_app; unfold zlen in *; cbn; lia).
  assert (pad_len msg ≤ 64) as Hpb by (unfold pad_len; destruct (Z.ltb_spec (zlen msg mod 64) 56); lia).
  destruct (update_ok m msg ([0x80] ++ zeros msg) Ha) as (m1 & -> & Ha1 & Hf1 & Hd1 & Hb1); [lia|]. cbn [mbind outcome_bind].
  set (bits := encode [u32 (8 * zlen msg); u32 (8 * zlen msg / 2 ^ 32)]).
  assert (zlen bits = 8) as Hbits by (unfold zlen, bits; by rewrite encode_len).
  destruct (update_ok m1 _ bits Ha1) as (m2 & -> & Ha2 & Hf2 & Hd2 & Hb2); [lia|]. cbn [mbind outcome_bind].
  eexists. split; [done|]. cbn [_digest _finished _buffer]. split; [|split; [done|split; [apply (ab_len _ _ Ha2)|]]].
  - rewrite md5_absorb by done. unfold regs_of. assert (pad msg = (msg ++ [0x80] ++ zeros msg) ++ bits) as -> by (unfold pad; by rewrite <- !app_assoc).
    by rewrite (ab_state _ _ Ha2).
  - intros Ho. rewrite pad_over in Hb2. split; cbn [_state _count0 _count1 _buffer]; [done|done|done|apply (ab_len _ _ Ha2)|].
    rewrite <- Hbuf. specialize (Hb2 ltac:(lia)).
    rewrite <- (Nat.min_l (over msg) 56) by lia. rewrite <- !take_take. rewrite Hb2, !take_take, Nat.min_l by lia.
    apply Hb1. rewrite Hpl. unfold pad_len. rewrite <- over_Z. destruct (Z.ltb_spec (Z.of_nat (over msg)) 56); lia.
Qed.

(** * Files *)
Lemma file_loop_ok fuel m msg rest :
  absorbed m msg → (length rest < fuel)%nat → _finished m = false →
  ∃ m', file_loop fuel m rest = Ok m' ∧ absorbed m' (msg ++ rest) ∧ _finished m' = false.
Proof.
  revert m msg rest. induction fuel as [|fuel IH]; intros m msg rest Ha Hl Hfin; [lia|]. cbn [file_loop].
  set (piece := take (Z.to_nat BUFFER_SIZE) rest). assert (zlen piece ≤ 1024) as Hp by (unfold piece, zlen; rewrite length_take; unfold BUFFER_SIZE; lia).
  assert (∃ m1, (if 0 <? zlen piece then update m piece else Ok m) = Ok m1 ∧ absorbed m1 (msg ++ piece) ∧ _finished m1 = false) as (m1 & -> & Ha1 & Hf1).
  { destruct (Z.ltb_spec 0 (zlen piece)).
    - destruct (update_ok m msg piece Ha) as (m1 & ? & ? & ? & _); [lia|]. eauto.
    - assert (piece = []) as -> by (destruct piece; [done|rewrite zlen_cons in *; pose proof (zlen_nonneg piece); lia]).
      exists m. by rewrite app_nil_r. }
  cbn [mbind outcome_bind]. destruct (Z.ltb_spec (zlen piece) BUFFER_SIZE) as [Hlt|Hge].
  - exists m1. split; [done|]. split; [|done]. assert (piece = rest) as E; [|by rewrite <- E]. apply take_ge.
    unfold piece, zlen, BUFFER_SIZE in Hlt. rewrite length_take in Hlt. unfold BUFFER_SIZE. lia.
  - destruct (IH m1 (msg ++ piece) (drop (Z.to_nat BUFFER_SIZE) rest) Ha1) as (m' & -> & Ha' & Hf'); [|done|].
    + unfold piece, zlen, BUFFER_SIZE in Hge. rewrite length_take in Hge. rewrite length_drop. unfold BUFFER_SIZE. lia.
    + exists m'. split; [done|]. split; [|done]. rewrite <- app_assoc in Ha'. unfold piece in Ha'. by rewrite take_drop in Ha'.
Qed.

(** * What callers do *)
Inductive op : Type := Bytes (d : list Z) | File (f : option (list Z)) | Digest | Reset.

(** The calls on an object, and the digests returned as texts. *)
Definition step (m : t) (o : op) : outcome (t * list (list Z)) :=
  match o with
  | Bytes d => m ← update m d; Ok (m, [])
  | File f => m ← update_file m f; Ok (m, [])
  | Digest => '(m, s) ← toString m; Ok (m, [s])
  | Reset => Ok (reset m, [])
  end.
Fixpoint run (m : t) (ops : list op) : outcome (t * list (list Z)) :=
  match ops with
  | [] => Ok (m, [])
  | o :: ops => '(m, out) ← step m o; '(m, rest) ← run m ops; Ok (m, out ++ rest)
  end.

(** The digests the reference gives. *)
Fixpoint answers (msg : list Z) (ops : list op) : list (list Z) :=
  match ops with
  | [] => []
  | Bytes d :: ops => answers (msg ++ d) ops
  | File f :: ops => answers (msg ++ default [] f) ops
  | Digest :: ops => bytesToHexString (RFC1321.md5 msg) :: answers msg ops
  | Reset :: ops => answers [] ops
  end.

(** Pieces are shorter than 2^32 bytes; after a digest of a message that needed
    another block for its padding, the object is only used again after [reset]. *)
Fixpoint safe (msg : list Z) (ops : list op) : Prop :=
  match ops with
  | [] => True
  | Bytes d :: ops => zlen d ≤ 2 ^ 32 - 64 ∧ Forall byte_ok d ∧ safe (msg ++ d) ops
  | File f :: ops => Forall byte_ok (default [] f) ∧ safe (msg ++ default [] f) ops
  | Digest :: ops => (zlen msg mod 64 < 56 ∨ match ops with [] | Reset :: _ => True | _ => False end) ∧ safe msg ops
  | Reset :: ops => safe [] ops
  end.

Lemma digest_ok m msg :
  absorbed m msg → Forall byte_ok msg → _finished m = false →
  ∃ m', toString m = Ok (m', bytesToHexString (RFC1321.md5 msg)) ∧ _finished m' = false ∧ length (_buffer m') = 64%nat ∧
    ((over msg < 56)%nat → absorbed m' msg).
Proof.
  intros Ha Hb Hf. unfold toString, digest. rewrite Hf. cbn [negb].
  destruct (final_ok (set_finished m true) msg) as (m' & -> & Hd & Hf' & Hl & Ha'); [by destruct Ha|done|].
  cbn [mbind outcome_bind]. rewrite Hd. by exists m'.
Qed.

(** The object is as good as new before [reset]. *)
Definition ready (m : t) (msg : list Z) (ops : list op) : Prop :=
  _finished m = false ∧ length (_buffer m) = 64%nat ∧
  (absorbed m msg ∨ match ops with [] | Reset :: _ => True | _ => False end).

Lemma absorbed_ready m msg ops : absorbed m msg → _finished m = false → ready m msg ops.
Proof. intros Ha Hf. split; [done|]. split; [by destruct Ha|by left]. Qed.

Lemma run_ok m msg ops : ready m msg ops → Forall byte_ok msg → safe msg ops → ∃ m', run m ops = Ok (m', answers msg ops).
Proof.
  revert m msg. induction ops as [|o ops IH]; intros m msg (Hf & Hl & Ha) Hb Hs; [by exists m|].
  destruct o as [d|f| |]; cbn [run step answers safe] in *.
  - destruct Ha as [Ha|[]]. destruct Hs as (Hd & Hbd & Hs). destruct (update_ok m msg d Ha Hd) as (m1 & -> & Ha1 & Hf1 & _). cbn [mbind outcome_bind].
    destruct (IH m1 _ (absorbed_ready _ _ _ Ha1 Hf1) ltac:(by apply Forall_app_2) Hs) as (m' & ->). by exists m'.
  - destruct Ha as [Ha|[]]. destruct Hs as [Hbf Hs].
    assert (∃ m1, update_file m f = Ok m1 ∧ absorbed m1 (msg ++ default [] f) ∧ _finished m1 = false) as (m1 & -> & Ha1 & Hf1).
    { destruct f as [bytes|]; cbn [update_file default].
      - apply file_loop_ok; [done|apply Nat.lt_succ_diag_r|done].
      - exists m. by rewrite app_nil_r. }
    cbn [mbind outcome_bind]. destruct (IH m1 _ (absorbed_ready _ _ _ Ha1 Hf1) ltac:(by apply Forall_app_2) Hs) as (m' & ->). by exists m'.
  - destruct Ha as [Ha|[]]. destruct Hs as [Hd Hs]. destruct (digest_ok m msg Ha Hb Hf) as (m1 & -> & Hf1 & Hl1 & Ha1). cbn [mbind outcome_bind].
    destruct (IH m1 msg) as (m' & ->); [|done|done|by exists m']. split; [done|]. split; [done|].
    destruct Hd as [Hlt|Hd]; [left; apply Ha1; rewrite <- over_Z in Hlt; lia|by right].
  - cbn [mbind outcome_bind]. destruct (IH (reset m) [] (absorbed_ready _ _ _ (reset_absorbed m Hl) eq_refl) (Forall_nil_2 _) Hs) as (m' & ->).
    by exists m'.
Qed.

(** C31: an [MD5] object is the digest of RFC 1321, written from the text of the RFC
    and not from the code.  Pieces of fewer than 2^32 - 63 bytes, contents of files
    and [reset] in any order: every digest asked for on the way is that of all bytes
    since the last [reset], in hexadecimal, and no buffer is left, whatever was in
    it.  [safe] leaves out one use: an object that has given a digest of a message
    with 56 to 63 bytes over a multiple of 64 (its padding needs another block) is
    not used again before [reset] ([digest_twice_differs] below is such a use). *)
Theorem MD5_digests (m : t) (ops : list op) :
  length (_buffer m) = 64%nat → safe [] ops → ∃ m', run (reset m) ops = Ok (m', answers [] ops).
Proof. intros Hl Hs. apply run_ok; [|done|done]. by apply absorbed_ready; [apply reset_absorbed|]. Qed.

(** * Examples *)
Module Md5Example.
Definition m0 : t := Obj (Words 0 0 0 0) 7 7 (replicate 64 9) (replicate 16 9) true.
Definition abc : list Z := [97; 98; 99].

(** 900150983cd24fb0d6963f7d28e17f72 and d41d8cd98f00b204e9800998ecf8427e: the test
    suite of the RFC. *)
Lemma abc_digest :
  RFC1321.md5 abc = [0x90; 0x01; 0x50; 0x98; 0x3c; 0xd2; 0x4f; 0xb0; 0xd6; 0x96; 0x3f; 0x7d; 0x28; 0xe1; 0x7f; 0x72].
Proof. vm_compute. reflexivity. Qed.
Lemma empty_digest :
  RFC1321.md5 [] = [0xd4; 0x1d; 0x8c; 0xd9; 0x8f; 0x00; 0xb2; 0x04; 0xe9; 0x80; 0x09; 0x98; 0xec; 0xf8; 0x42; 0x7e].
Proof. vm_compute. reflexivity. Qed.

(** The digest of 56 bytes asked for twice: [update] in [final] takes back that the
    object is finished, and the padding is in the place of the bytes. *)
Lemma digest_twice_differs :
  match run (reset m0) [Bytes (replicate 56 97); Digest; Digest] with
  | Ok (_, [a; b]) => bool_decide (a = bytesToHexString (RFC1321.md5 (replicate 56 97))) && negb (bool_decide (a = b))
  | _ => false
  end = true.
Proof. vm_compute. reflexivity. Qed.
End Md5Example.

Lemma MD5_digests_witness :
  ∃ m', run (reset Md5Example.m0) [Bytes Md5Example.abc; Digest; File (Some (replicate 100 98)); Reset; File None; Bytes []; Digest]
    = Ok (m', answers [] [Bytes Md5Example.abc; Digest; File (Some (replicate 100 98)); Reset; File None; Bytes []; Digest]).
Proof.
  apply (MD5_digests Md5Example.m0).
  - reflexivity.
  - cbn. unfold zlen, byte_ok. cbn. repeat split; try (left; reflexivity); try lia; repeat constructor; lia.
Defined.
