(* ===== verification/Uuid.v ===== *)
(** [SimpleUUID64] (mmlib/simple_uuid64/simple_uuid64.cpp): numbers made of a time,
    a worker and a count. *)
From S2P Require Import Prelude.

#[local] Open Scope Z_scope.
#[local] Open Scope list_scope.
#[local] Arguments Z.add : simpl never.
#[local] Arguments Z.mul : simpl never.
#[local] Arguments Z.leb : simpl never.

Module SimpleUUID64.

(** [FNVHash]: bytes are [char]s, so they count as signed. *)
Definition FNV_32_INIT : Z := i32 0x811c9dc5.
Definition FNV_32_PRIME : Z := 0x01000193.
Definition Fnv1a (bytes : list Z) : Z := foldl (λ h b, i32 (Z.lxor h (i8 b) * FNV_32_PRIME)) FNV_32_INIT bytes.
Definition FNVHash (bytes : list Z) : Z := Z.rem (Fnv1a bytes) 0x400.
Definition FNVHash_seed (bytes : list Z) (seed : Z) : Z := Z.lxor (Z.rem (Fnv1a bytes) 0x400) (Z.land seed 0x3FF).

(** The bytes of an unsigned int. *)
Definition bytes_of (x : Z) : list Z :=
  [Z.land x 255; Z.land (Z.shiftr x 8) 255; Z.land (Z.shiftr x 16) 255; Z.land (Z.shiftr x 24) 255].
(** The worker number of the constructor that hashes one, in a process [pid]. *)
Definition HashedWorker (worker_id pid : Z) : Z := FNVHash_seed (bytes_of worker_id) pid.

Section generate.
(** The beginning of 2011 in milliseconds: [mktime] depends on the time zone. *)
Context (UUID_EPOCH_MS : Z).

(** [now] is what [gettimeofday] says, [m_seq_number] is shared by all objects of
    the process. *)
Definition Generate (m_worker_num m_seq_number : Z) (now : Z * Z) : Z * Z :=
  let now_uuid_epoch_ms := u64 (i64 (now.1 * 1000 + Z.quot now.2 1000)) in
  let now_uuid_epoch_ms := u64 (now_uuid_epoch_ms - UUID_EPOCH_MS) in
  let result := u64 (Z.shiftl now_uuid_epoch_ms 22) in
  let result := u64 (result + Z.shiftl (Z.land m_worker_num 0x3FF) 12) in
  let result := u64 (result + Z.land m_seq_number 0xFFF) in
  let m_seq_number := m_seq_number + 1 in
  (result, if 0x1000 <=? m_seq_number then 0 else m_seq_number).

(** The calls of a process, each with the worker number of its object and the time. *)
Fixpoint generate (m_seq_number : Z) (calls : list (Z * (Z * Z))) : list Z :=
  match calls with
  | [] => []
  | (w, now) :: calls => let '(id, s) := Generate w m_seq_number now in id :: generate s calls
  end.

(** ** The parts of a number *)
Definition millis (now : Z * Z) : Z := now.1 * 1000 + now.2 / 1000 - UUID_EPOCH_MS.

(** 41 bits of milliseconds, and one more. *)
Definition timely (c : Z * (Z * Z)) : Prop :=
  0 ≤ c.2.1 < 2 ^ 52 ∧ 0 ≤ c.2.2 < 1000000 ∧ 0 ≤ millis c.2 < 2 ^ 42.

Lemma Generate_parts w s now :
  timely (w, now) → 0 ≤ s < 4096 → 0 ≤ UUID_EPOCH_MS →
  Generate w s now = (millis now * 2 ^ 22 + w mod 1024 * 2 ^ 12 + s, (s + 1) mod 4096).
Proof.
  intros (Ht & Hu & Hm) Hs He. cbn [fst snd] in *. unfold Generate, millis in *.
  rewrite Z.quot_div_nonneg by lia. pose proof (Z.div_pos now.2 1000 ltac:(lia) ltac:(lia)).
  assert (now.2 / 1000 < 1000) by (apply Z.div_lt_upper_bound; lia).
  assert (i64 (now.1 * 1000 + now.2 / 1000) = now.1 * 1000 + now.2 / 1000) as -> by (unfold i64; rewrite Z.mod_small; lia).
  assert (u64 (now.1 * 1000 + now.2 / 1000) = now.1 * 1000 + now.2 / 1000) as -> by (unfold u64; rewrite Z.mod_small; lia).
  set (ms := now.1 * 1000 + now.2 / 1000 - UUID_EPOCH_MS) in *.
  assert (u64 ms = ms) as -> by (unfold u64; rewrite Z.mod_small; lia).
  change 0x3FF with (Z.ones 10). change 0xFFF with (Z.ones 12). rewrite !Z.land_ones, !Z.shiftl_mul_pow2 by done.
  change (2 ^ 10) with 1024. pose proof (Z.mod_pos_bound w 1024 ltac:(lia)) as Hw. rewrite (Z.mod_small s) by (change (2 ^ 12) with 4096; lia).
  change (2 ^ 22) with 4194304 in *. change (2 ^ 12) with 4096 in *. change (2 ^ 42) with 4398046511104 in *.
  rewrite (u64_small (ms * _)) by lia. rewrite (u64_small (ms * _ + _)) by lia. rewrite u64_small by lia. f_equal.
  destruct (Z.leb_spec 4096 (s + 1)); [assert (s = 4095) as -> by lia; done|by rewrite Z.mod_small by lia].
Qed.

Lemma generate_nth s calls i w now :
  0 ≤ s < 4096 → 0 ≤ UUID_EPOCH_MS → Forall timely calls → calls !! i = Some (w, now) →
  generate s calls !! i = Some (millis now * 2 ^ 22 + w mod 1024 * 2 ^ 12 + (s + Z.of_nat i) mod 4096).
Proof.
  intros Hs He Hc. revert s i Hs. induction Hc as [|[w0 now0] calls Ht Hc IH]; intros s i Hs Hi; [done|]. cbn [generate].
  rewrite Generate_parts by done. destruct i as [|i].
  - injection Hi as -> ->. cbn. rewrite Z.add_0_r. by rewrite (Z.mod_small s).
  - cbn in Hi. cbn. rewrite (IH _ i); [|apply Z.mod_pos_bound; lia|done]. do 2 f_equal. rewrite Zplus_mod_idemp_l. f_equal. lia.
Qed.

(** However the objects of a process are called, two numbers are equal only if
    they were made for the same worker (modulo 1024) in the same millisecond, a
    multiple of 4096 calls apart; and one of a later millisecond is larger. *)
Theorem ids_unique (calls : list (Z * (Z * Z))) i j w1 w2 t1 t2 :
  0 ≤ UUID_EPOCH_MS → Forall timely calls → calls !! i = Some (w1, t1) → calls !! j = Some (w2, t2) →
  ∃ a b, generate 0 calls !! i = Some a ∧ generate 0 calls !! j = Some b ∧ 0 ≤ a < 2 ^ 64 ∧
    (a = b ↔ millis t1 = millis t2 ∧ w1 mod 1024 = w2 mod 1024 ∧ (4096 | Z.of_nat i - Z.of_nat j)) ∧
    (millis t1 < millis t2 → a < b).
Proof.
  intros He Hc Hi Hj. pose proof (Forall_lookup_1 _ _ _ _ Hc Hi) as (_ & _ & H1). pose proof (Forall_lookup_1 _ _ _ _ Hc Hj) as (_ & _ & H2).
  cbn [fst snd] in *. eexists _, _. split; [by apply (generate_nth 0 calls i w1 t1)|]. split; [by apply (generate_nth 0 calls j w2 t2)|].
  rewrite !Z.add_0_l.
  pose proof (Z.mod_pos_bound w1 1024 ltac:(lia)). pose proof (Z.mod_pos_bound w2 1024 ltac:(lia)).
  pose proof (Z.mod_pos_bound (Z.of_nat i) 4096 ltac:(lia)). pose proof (Z.mod_pos_bound (Z.of_nat j) 4096 ltac:(lia)).
  change (2 ^ 22) with 4194304. change (2 ^ 12) with 4096. change (2 ^ 42) with 4398046511104 in *. change (2 ^ 64) with 18446744073709551616.
  split; [lia|]. split; [|lia].
  assert ((4096 | Z.of_nat i - Z.of_nat j) ↔ Z.of_nat i mod 4096 = Z.of_nat j mod 4096) as ->; [|lia].
  rewrite <- Z.mod_divide by done. rewrite <- Z.cong_iff_0. done.
Qed.
End generate.
End SimpleUUID64.

Import SimpleUUID64.

(** Two objects in one millisecond, and the next. *)
Lemma ids_unique_witness :
  ∃ a b, generate 1293811200000 0 [(5, (1600000000, 999)); (5, (1600000000, 0)); (6, (1600000000, 1000))] !! 0%nat = Some a ∧
    generate 1293811200000 0 [(5, (1600000000, 999)); (5, (1600000000, 0)); (6, (1600000000, 1000))] !! 1%nat = Some b ∧ 0 ≤ a < 2 ^ 64 ∧
    (a = b ↔ millis 1293811200000 (1600000000, 999) = millis 1293811200000 (1600000000, 0) ∧ 5 mod 1024 = 5 mod 1024 ∧
      (4096 | Z.of_nat 0 - Z.of_nat 1)) ∧
    (millis 1293811200000 (1600000000, 999) < millis 1293811200000 (1600000000, 0) → a < b).
Proof.
  apply (ids_unique 1293811200000).
  - lia.
  - do 3 (apply Forall_cons_2; [by unfold timely; split_and!; vm_compute|]). apply Forall_nil_2.
  - reflexivity.
  - reflexivity.
Defined.
