(* ===== verification/StrTool.v ===== *)
(** Strings of [CStrTool] (mmlib/util/util.cpp): replacing, splitting, joining,
    numbers and bytes as texts.  A [string] is a list of bytes. *)
From S2P Require Import Prelude.

#[local] Open Scope Z_scope.
#[local] Open Scope list_scope.

Module CStrTool.

Abbreviation str := (list Z).

(** * [std::string] *)
Fixpoint starts (s sub : str) : bool :=
  match sub, s with
  | [], _ => true
  | c :: sub, d :: s => (c =? d) && starts s sub
  | _ :: _, [] => false
  end.

(** [find] in [s], [i] bytes of the string before it. *)
Fixpoint find_at (s sub : str) (i : nat) : option nat :=
  if starts s sub then Some i else match s with [] => None | _ :: s => find_at s sub (S i) end.
Definition find (s sub : str) (pos : nat) : option nat :=
  if (length s <? pos)%nat then None else find_at (drop pos s) sub pos.

Definition is_in (set : str) (c : Z) : bool := existsb (Z.eqb c) set.
Definition find_first (f : Z → bool) (s : str) (pos : nat) : option nat :=
  (λ r, (pos + r.1)%nat) <$> list_find (λ c, f c = true) (drop pos s).
Definition find_first_of (s set : str) (pos : nat) : option nat := find_first (is_in set) s pos.
Definition find_first_not_of (s set : str) (pos : nat) : option nat := find_first (λ c, negb (is_in set c)) s pos.

(** [substr]: a beginning behind the end is an exception. *)
Definition substr (s : str) (pos : nat) (n : nat) : outcome str :=
  if (length s <? pos)%nat then Fault else Ok (take n (drop pos s)).
Definition substr_end (s : str) (pos : nat) : outcome str := substr s pos (length s).

(** * Replacing *)
Fixpoint MyReplaceAll (fuel : nat) (strInput strOld strNew : str) : outcome str :=
  match fuel with
  | O => Spin
  | S fuel =>
      match find strInput strOld 0 with
      | None => Ok strInput
      | Some pos => MyReplaceAll fuel (take pos strInput ++ strNew ++ drop (pos + length strOld) strInput) strOld strNew
      end
  end.

Fixpoint replace_loop (fuel : nat) (sStr sOldSub sNewSub : str) (bReplaceAll : bool) (iStartPos : nat) (sRes : str)
    : outcome str :=
  match fuel with
  | O => Spin
  | S fuel =>
      match find sStr sOldSub iStartPos with
      | None => Ok (sRes ++ drop iStartPos sStr)
      | Some iPos =>
          let sRes := sRes ++ take (iPos - iStartPos) (drop iStartPos sStr) ++ sNewSub in
          let iStartPos := (iPos + length sOldSub)%nat in
          if bReplaceAll then replace_loop fuel sStr sOldSub sNewSub bReplaceAll iStartPos sRes
          else Ok (sRes ++ drop iStartPos sStr)
      end
  end.
Definition StringReplace (sStr sOldSub sNewSub : str) (bReplaceAll : bool) (sRes : str) : outcome str :=
  match sOldSub with
  | [] => Ok (sRes ++ sStr)
  | _ => replace_loop (S (length sStr)) sStr sOldSub sNewSub bReplaceAll 0 sRes
  end.

(** [strpbrk]: every byte of [pszRemove] is replaced. *)
Fixpoint strip_loop (fuel : nat) (Str pszRemove : str) (chReplaceWith : Z) (p : nat) : outcome str :=
  match fuel with
  | O => Spin
  | S fuel =>
      match find_first_of Str pszRemove p with
      | None => Ok Str
      | Some p => strip_loop fuel (<[p := chReplaceWith]> Str) pszRemove chReplaceWith (S p)
      end
  end.
Definition StripString (Str pszRemove : str) (chReplaceWith : Z) : outcome str :=
  strip_loop (S (length Str)) Str pszRemove chReplaceWith 0.

(** * Splitting and joining *)
Fixpoint split_loop (fuel : nat) (sFull pszDelim : str) (iBeginIndex : nat) (vsResult : list str) : outcome (list str) :=
  match fuel with
  | O => Spin
  | S fuel =>
      match find_first_of sFull pszDelim iBeginIndex with
      | None => s ← substr_end sFull iBeginIndex; Ok (vsResult ++ [s])
      | Some iEndIndex =>
          s ← substr sFull iBeginIndex (iEndIndex - iBeginIndex);
          split_loop fuel sFull pszDelim (S iEndIndex) (vsResult ++ [s])
      end
  end.
Definition SplitStringUsing (sFull pszDelim : str) (vsResult : list str) : outcome (list str) :=
  match sFull, pszDelim with
  | [], _ | _, [] => Ok (vsResult ++ [sFull])
  | _, _ => split_loop (S (length sFull)) sFull pszDelim 0 vsResult
  end.

Fixpoint MySplit_loop (fuel : nat) (str separator : str) (start : nat) (dest : list (list Z)) : outcome (list (list Z)) :=
  match fuel with
  | O => Spin
  | S fuel =>
      match find_first_of str separator start with
      | None => s ← substr_end str start; Ok (dest ++ [s])
      | Some index =>
          s ← substr str start (index - start);
          match find_first_not_of str separator index with
          | None => Ok (dest ++ [s])
          | Some start => MySplit_loop fuel str separator start (dest ++ [s])
          end
      end
  end.
Definition MySplit (src separator : str) (dest : list str) : outcome (list str) :=
  match src, separator with
  | [], _ | _, [] => Ok dest
  | _, _ => MySplit_loop (S (length src)) src separator 0 dest
  end.

Fixpoint MySplit2_loop (fuel : nat) (str separator : str) (dest : list (list Z)) : outcome (list (list Z)) :=
  match fuel with
  | O => Spin
  | S fuel =>
      match find_first_of str separator 0 with
      | None => Ok (dest ++ [str])
      | Some index =>
          s ← substr str 0 (index - 0); str ← substr_end str (index + 1); MySplit2_loop fuel str separator (dest ++ [s])
      end
  end.
Definition MySplit2 (src separator : str) (dest : list str) : outcome (list str) :=
  match src, separator with
  | [], _ | _, [] => Ok dest
  | _, _ => MySplit2_loop (S (length src)) src separator dest
  end.

Definition JsonArray2Map (fuel : nat) (strJasonArray : str) (vctRst : list str) : outcome (list str) :=
  match strJasonArray with
  | [] => Ok vctRst
  | _ =>
      strTmp ← MyReplaceAll fuel strJasonArray [91] [];
      strTmp ← MyReplaceAll fuel strTmp [93] [];
      MySplit strTmp [44] vctRst
  end.

(** The items, the delimiter before each but the first. *)
Fixpoint join_rest (vsItems : list str) (pszDelim : str) : str :=
  match vsItems with [] => [] | s :: rest => pszDelim ++ s ++ join_rest rest pszDelim end.
Definition JoinStrings (vsItems : list str) (pszDelim : str) : str :=
  match vsItems with [] => [] | s :: rest => s ++ join_rest rest pszDelim end.

(** * Numbers and bytes as texts *)
Definition ITOA_BUFFER_LEN : Z := 32.
Definition ITOA_BUFFER_OFFSET : Z := 11.

(** do *p-- = '0' + i % 10; i /= 10; while (i > 0). *)
Fixpoint digit_loop (fuel : nat) (szBuf : str) (p i : Z) : outcome (str * Z) :=
  match fuel with
  | O => Spin
  | S fuel =>
      szBuf ← aset szBuf p (48 + Z.rem i 10);
      let i := Z.quot i 10 in
      if 0 <? i then digit_loop fuel szBuf (p - 1) i else Ok (szBuf, p - 1)
  end.

(** The text from [p] on, up to its end. *)
Definition text_at (szBuf : str) (p : Z) : outcome str :=
  if p <? 0 then Fault else
  match list_find (λ c, c = 0) (drop (Z.to_nat p) szBuf) with
  | Some (n, _) => Ok (take n (drop (Z.to_nat p) szBuf))
  | None => Fault
  end.

Definition ITOA_FUEL : nat := 12.
Definition SimpleItoa (szBuf : str) (i : Z) : outcome str :=
  let p := ITOA_BUFFER_OFFSET in
  szBuf ← aset szBuf p 0;
  let p := p - 1 in
  if 0 <=? i then
    '(szBuf, p) ← digit_loop ITOA_FUEL szBuf p i; text_at szBuf (p + 1)
  else if -10 <? i then
    let i := - i in
    szBuf ← aset szBuf p (48 + i); szBuf ← aset szBuf (p - 1) 45; text_at szBuf (p - 1)
  else
    let i := i32 (- i32 (i + 10)) in
    szBuf ← aset szBuf p (48 + Z.rem i 10);
    '(szBuf, p) ← digit_loop ITOA_FUEL szBuf (p - 1) (i32 (Z.quot i 10 + 1));
    szBuf ← aset szBuf p 45; text_at szBuf p.

(** Five buffers take turns. *)
Definition STR2HEX_MAX_BUFF_LEN : Z := 10240.
Definition CHAR_NUM_PER_BYTE : Z := 3.
Definition MAX_HEX_BUFF_NUM : Z := 5.
Definition HEX_BUFF_LEN : Z := (STR2HEX_MAX_BUFF_LEN + 1) * CHAR_NUM_PER_BYTE.

Record hex_buffs : Type := HexBuffs { iCurHexBuffIdx : Z; szStr2HexBuff : list str }.

Definition hex_digit (d : Z) : Z := if d <? 10 then 48 + d else 55 + d.
(** "%02X ", with its end. *)
Definition hex_byte (b : Z) : str := [hex_digit (b / 16); hex_digit (b mod 16); 32; 0].

Fixpoint hex_loop (buff : str) (bytes : list Z) (i : Z) : outcome str :=
  match bytes with
  | [] => Ok buff
  | b :: bytes =>
      let room := HEX_BUFF_LEN - i * CHAR_NUM_PER_BYTE in
      buff ← mwrite buff (i * CHAR_NUM_PER_BYTE) (take (Z.to_nat (room - 1)) (take 3 (hex_byte b)) ++ [0]);
      hex_loop buff bytes (i + 1)
  end.

(** The text in a buffer, by its number. *)
Definition Str2Hex (h : hex_buffs) (pvBuff : list Z) (iSize : Z) : outcome (hex_buffs * Z) :=
  let k := Z.rem (iCurHexBuffIdx h + 1) MAX_HEX_BUFF_NUM in
  let iSize := if STR2HEX_MAX_BUFF_LEN <? iSize then STR2HEX_MAX_BUFF_LEN else iSize in
  bytes ← (if iSize <? 0 then Ok [] else mread pvBuff 0 iSize);
  buff ← aget (szStr2HexBuff h) k;
  buff ← hex_loop buff bytes 0;
  buff ← (if iSize =? 0 then aset buff 0 0 else Ok buff);
  bufs ← aset (szStr2HexBuff h) k buff;
  Ok (HexBuffs k bufs, k).

(** * Sums *)
(** Pairs of bytes as shorts; a last odd byte does not count. *)
Fixpoint sum_loop (n : nat) (bytes : list Z) (ushSum : Z) : outcome Z :=
  match n, bytes with
  | O, _ => Ok ushSum
  | S n, a :: b :: bytes => sum_loop n bytes (u16 (Z.lxor ushSum (i16 (a + 256 * b))))
  | S _, _ => Fault
  end.
Definition CheckSum (pvBuff : list Z) (iSize : Z) : outcome Z := sum_loop (Z.to_nat (Z.quot iSize 2)) pvBuff 0.

(** Bytes of a text are [char]s. *)
Definition DJBHash (s : str) : Z :=
  Z.land (foldl (λ hash c, u32 (u32 (Z.shiftl hash 5) + hash + u32 (i8 c))) 5381 s) (u32 (Z.lnot (u32 (Z.shiftl 1 31)))).
End CStrTool.
