(* ===== verification/StrToolProps.v ===== *)
(** What the string functions of [CStrTool] compute, and what their callers rely
    on. *)
From S2P Require Import Prelude IniFile Mysql Conf LogFileFacts StrTool.

#[local] Open Scope Z_scope.
#[local] Open Scope list_scope.
#[local] Arguments Z.add : simpl never.
#[local] Arguments Z.sub : simpl never.
#[local] Arguments Z.mul : simpl never.
#[local] Arguments Z.ltb : simpl never.
#[local] Arguments Z.leb : simpl never.
#[local] Arguments Z.pow : simpl never.

Import CStrTool.

(** More fuel gives no more digits. *)
Lemma digits_of_fuel f1 f2 n :
  0 ≤ n < 10 ^ Z.of_nat (S f1) → n < 10 ^ Z.of_nat (S f2) → digits_of (S f1) n = digits_of (S f2) n.
Proof.
  revert f2 n. induction f1 as [|f1 IH]; intros f2 n H1 H2.
  - change (10 ^ Z.of_nat 1) with 10 in H1. cbn [digits_of]. by rewrite (proj2 (Z.ltb_lt _ _)) by lia.
  - destruct f2 as [|f2].
    + change (10 ^ Z.of_nat 1) with 10 in H2. cbn [digits_of]. by rewrite (proj2 (Z.ltb_lt _ _)) by lia.
    + change (digits_of (S (S f1)) n) with (if n <? 10 then [48 + n] else digits_of (S f1) (n / 10) ++ [48 + n mod 10]).
      change (digits_of (S (S f2)) n) with (if n <? 10 then [48 + n] else digits_of (S f2) (n / 10) ++ [48 + n mod 10]).
      destruct (Z.ltb_spec n 10); [done|]. f_equal.
      rewrite (Nat2Z.inj_succ (S f1)), Z.pow_succ_r in H1 by lia. rewrite (Nat2Z.inj_succ (S f2)), Z.pow_succ_r in H2 by lia.
      apply IH; [split; [apply Z.div_pos; lia|apply Z.div_lt_upper_bound; lia]|apply Z.div_lt_upper_bound; lia].
Qed.

Lemma drop_aset (buf buf' : list Z) p x :
  aset buf p x = Ok buf' → 0 ≤ p < zlen buf → drop (Z.to_nat p) buf' = x :: drop (Z.to_nat (p + 1)) buf ∧ zlen buf' = zlen buf.
Proof.
  intros Ha Hp. rewrite aset_ok in Ha by done. injection Ha as <-. rewrite zlen_insert. split; [|done].
  unfold zlen in Hp. rewrite (drop_S _ x) by (apply list_lookup_insert_eq; lia). f_equal.
  rewrite drop_insert_lt by lia. f_equal. lia.
Qed.

(** The digits of [i], before what is there already. *)
Lemma digit_loop_ok k fuel buf p i :
  0 ≤ i < 10 ^ Z.of_nat (S k) → (S k ≤ fuel)%nat → Z.of_nat k ≤ p < zlen buf →
  ∃ buf' p', digit_loop fuel buf p i = Ok (buf', p') ∧ p - Z.of_nat (S k) ≤ p' < p ∧ zlen buf' = zlen buf ∧
    drop (Z.to_nat (p' + 1)) buf' = digits_of (S k) i ++ drop (Z.to_nat (p + 1)) buf.
Proof.
  revert fuel buf p i. induction k as [|k IH]; intros fuel buf p i Hi Hf Hp; (destruct fuel as [|fuel]; [lia|]); cbn [digit_loop];
    rewrite Z.rem_mod_nonneg, Z.quot_div_nonneg by lia; pose proof (Z.mod_pos_bound i 10 ltac:(lia));
    destruct (aset buf p (48 + i mod 10)) as [buf1| |] eqn:Ea; try (rewrite aset_ok in Ea by lia; done); cbn [mbind outcome_bind];
    destruct (drop_aset _ _ _ _ Ea ltac:(lia)) as [Hd Hz].
  - change (10 ^ Z.of_nat 1) with 10 in Hi. rewrite Z.div_small by lia. change (0 <? 0) with false. cbv iota.
    exists buf1, (p - 1). split; [done|]. split; [lia|]. split; [done|]. rewrite Z.sub_add, Hd. cbn [digits_of].
    by rewrite (proj2 (Z.ltb_lt _ _)), Z.mod_small by lia.
  - change (digits_of (S (S k)) i) with (if i <? 10 then [48 + i] else digits_of (S k) (i / 10) ++ [48 + i mod 10]).
    rewrite (Nat2Z.inj_succ (S k)), Z.pow_succ_r in Hi by lia. pose proof (Z.div_mod i 10 ltac:(lia)) as Edm.
    destruct (Z.ltb_spec i 10) as [Hlt|Hge].
    + rewrite Z.div_small by lia. change (0 <? 0) with false. cbv iota. exists buf1, (p - 1). split; [done|]. split; [lia|].
      split; [done|]. by rewrite Z.sub_add, Hd, Z.mod_small by lia.
    + rewrite (proj2 (Z.ltb_lt 0 _)) by (apply Z.div_str_pos; lia).
      destruct (IH fuel buf1 (p - 1) (i / 10)) as (buf' & p' & -> & Hp' & Hz' & Hd'); [|lia|lia|].
      { split; [apply Z.div_pos; lia|apply Z.div_lt_upper_bound; lia]. }
      exists buf', p'. split; [done|]. split; [lia|]. split; [congruence|]. rewrite Hd', Z.sub_add, Hd. by rewrite <- app_assoc.
Qed.

Lemma text_at_ok buf p s rest :
  0 ≤ p → drop (Z.to_nat p) buf = s ++ 0 :: rest → Forall (λ c, c ≠ 0) s → text_at buf p = Ok s.
Proof.
  intros Hp Hd Hs. unfold text_at. rewrite (proj2 (Z.ltb_ge _ _)) by lia. rewrite Hd.
  assert (list_find (λ c, c = 0) (s ++ 0 :: rest) = Some (length s, 0)) as ->.
  { apply list_find_Some. split; [by rewrite list_lookup_middle|]. split; [done|]. intros j y Hj Hlt.
    rewrite lookup_app_l in Hj by done. exact (Forall_lookup_1 _ _ _ _ Hs Hj). }
  by rewrite take_app_length.
Qed.

Lemma digits_no_nul f n : 0 ≤ n → Forall (λ c, c ≠ 0) (digits_of f n).
Proof. intros Hn. eapply Forall_impl; [by apply SimDb.digits_range|]. cbn. lia. Qed.

Lemma pow10_10 : 10 ^ Z.of_nat 10 = 10000000000.
Proof. done. Qed.
Lemma pow10_20 : 10 ^ Z.of_nat 20 = 100000000000000000000.
Proof. done. Qed.

Lemma SimpleItoa_ok buf i :
  zlen buf = ITOA_BUFFER_LEN → - 2 ^ 31 ≤ i < 2 ^ 31 → SimpleItoa buf i = Ok (fmt_d i).
Proof.
  unfold ITOA_BUFFER_LEN, SimpleItoa, ITOA_BUFFER_OFFSET. intros Hl Hi. change (2 ^ 31) with 2147483648 in *.
  destruct (aset buf 11 0) as [buf0| |] eqn:E0; try (rewrite aset_ok in E0 by lia; done). cbn [mbind outcome_bind]. cbv zeta.
  destruct (drop_aset _ _ _ _ E0 ltac:(lia)) as [Hd0 Hz0]. change (11 - 1) with 10. unfold fmt_d.
  destruct (Z.leb_spec 0 i) as [Hpos|Hneg].
  { rewrite (proj2 (Z.ltb_ge i 0)) by lia.
    destruct (digit_loop_ok 9 ITOA_FUEL buf0 10 i) as (buf1 & p & -> & Hp & Hz1 & Hd1); [rewrite pow10_10; lia|unfold ITOA_FUEL; lia|lia|]. cbn [mbind outcome_bind].
    unfold fmt_lu. rewrite (digits_of_fuel 19 9) by (rewrite ?pow10_20, ?pow10_10; lia).
    apply (text_at_ok _ _ _ (drop 12 buf)); [lia| |by apply digits_no_nul]. rewrite Hd1. change (10 + 1) with 11. by rewrite Hd0. }
  rewrite (proj2 (Z.ltb_lt i 0)) by lia. destruct (Z.ltb_spec (-10) i) as [Hs|Hs].
  - destruct (aset buf0 10 (48 + - i)) as [buf1| |] eqn:E1; try (rewrite aset_ok in E1 by lia; done). cbn [mbind outcome_bind].
    destruct (drop_aset _ _ _ _ E1 ltac:(lia)) as [Hd1 Hz1]. change (10 - 1) with 9.
    destruct (aset buf1 9 45) as [buf2| |] eqn:E2; try (rewrite aset_ok in E2 by lia; done). cbn [mbind outcome_bind].
    destruct (drop_aset _ _ _ _ E2 ltac:(lia)) as [Hd2 Hz2].
    unfold fmt_lu. change (digits_of 20 (- i)) with (if - i <? 10 then [48 + - i] else digits_of 19 (- i / 10) ++ [48 + - i mod 10]).
    rewrite (proj2 (Z.ltb_lt (- i) 10)) by lia.
    apply (text_at_ok _ _ _ (drop 12 buf)); [lia| |by repeat constructor; lia]. rewrite Hd2. change (9 + 1) with 10. rewrite Hd1.
    change (10 + 1) with 11. by rewrite Hd0.
  - rewrite (i32_small (i + 10)), (i32_small (- (i + 10))) by lia. set (j := - (i + 10)).
    rewrite Z.rem_mod_nonneg, Z.quot_div_nonneg by lia. pose proof (Z.mod_pos_bound j 10 ltac:(lia)) as Hm.
    assert (j / 10 + 1 = - i / 10 ∧ j mod 10 = - i mod 10) as [Eq Em].
    { unfold j. replace (- i) with (- (i + 10) + 1 * 10) by lia. by rewrite Z.div_add, Z.mod_add. }
    pose proof (Z.div_pos (- i) 10 ltac:(lia) ltac:(lia)). assert (- i / 10 < 1000000000) by (apply Z.div_lt_upper_bound; lia).
    rewrite Eq, (i32_small (- i / 10)) by lia.
    destruct (aset buf0 10 (48 + j mod 10)) as [buf1| |] eqn:E1; try (rewrite aset_ok in E1 by lia; done). cbn [mbind outcome_bind].
    destruct (drop_aset _ _ _ _ E1 ltac:(lia)) as [Hd1 Hz1]. change (10 - 1) with 9.
    destruct (digit_loop_ok 8 ITOA_FUEL buf1 9 (- i / 10)) as (buf2 & p & -> & Hp & Hz2 & Hd2); [change (10 ^ Z.of_nat 9) with 1000000000; lia|unfold ITOA_FUEL; lia|lia|].
    cbn [mbind outcome_bind]. destruct (aset buf2 p 45) as [buf3| |] eqn:E3; try (rewrite aset_ok in E3 by lia; done). cbn [mbind outcome_bind].
    destruct (drop_aset _ _ _ _ E3 ltac:(lia)) as [Hd3 Hz3].
    assert (fmt_lu (- i) = digits_of 9 (- i / 10) ++ [48 + j mod 10]) as ->.
    { unfold fmt_lu. change (digits_of 20 (- i)) with (if - i <? 10 then [48 + - i] else digits_of 19 (- i / 10) ++ [48 + - i mod 10]).
      rewrite (proj2 (Z.ltb_ge _ _)) by lia. rewrite Em. f_equal. apply (digits_of_fuel 18 8); [split; [lia|]|].
      - change (10 ^ Z.of_nat 19) with 10000000000000000000. lia.
      - change (10 ^ Z.of_nat 9) with 1000000000. lia. }
    apply (text_at_ok _ _ _ (drop 12 buf)); [lia| |].
    + rewrite Hd3, Hd2. change (9 + 1) with 10. rewrite Hd1. change (10 + 1) with 11. rewrite Hd0. cbn [app]. f_equal. by rewrite <- app_assoc.
    + constructor; [done|]. apply Forall_app. split; [by apply digits_no_nul|]. repeat constructor. lia.
Qed.

(** * Searching *)
Lemma starts_with_spec s sub : starts s sub = true ↔ ∃ t, s = sub ++ t.
Proof.
  revert s. induction sub as [|c sub IH]; intros s; [split; [by exists s|destruct s; done]|].
  destruct s as [|d s]; cbn; [split; [done|by intros (t & ?)]|].
  rewrite andb_true_iff, Z.eqb_eq, IH. split.
  - intros [-> (t & ->)]. by exists t.
  - intros (t & [= -> ->]). eauto.
Qed.

Lemma find_at_spec s sub i :
  match find_at s sub i with
  | Some j => ∃ k, j = (i + k)%nat ∧ (k ≤ length s)%nat ∧ starts (drop k s) sub = true ∧ ∀ k', (k' < k)%nat → starts (drop k' s) sub = false
  | None => ∀ k, starts (drop k s) sub = false
  end.
Proof.
  revert i. induction s as [|c s IH]; intros i; cbn [find_at].
  - destruct (starts [] sub) eqn:E; [exists 0%nat; split_and!; [lia|lia|done|lia]|]. intros k. by rewrite drop_nil.
  - destruct (starts (c :: s) sub) eqn:E; [exists 0%nat; split_and!; [lia|lia|done|lia]|]. specialize (IH (S i)).
    destruct (find_at s sub (S i)) as [j|].
    + destruct IH as (k & -> & Hk & Hs & Hb). exists (S k). split_and!; [lia|cbn; lia|done|]. intros [|k'] ?; [done|]. apply Hb. lia.
    + intros [|k]; [done|]. apply IH.
Qed.

(** The first place of [sub] in [s], which is [a] before it and [b] behind. *)
Definition first_at (s sub a b : str) : Prop :=
  s = a ++ sub ++ b ∧ ∀ k, (k < length a)%nat → starts (drop k s) sub = false.
Definition lacks (s sub : str) : Prop := ∀ k, starts (drop k s) sub = false.

Lemma find_spec s sub pos :
  (pos ≤ length s)%nat →
  match find s sub pos with
  | Some j => ∃ a b, j = (pos + length a)%nat ∧ first_at (drop pos s) sub a b
  | None => lacks (drop pos s) sub
  end.
Proof.
  intros Hp. unfold find. rewrite (proj2 (Nat.ltb_ge _ _)) by lia. pose proof (find_at_spec (drop pos s) sub pos) as Hf.
  destruct (find_at (drop pos s) sub pos) as [j|]; [|done]. destruct Hf as (k & -> & Hk & Hs & Hb).
  apply starts_with_spec in Hs as Hs'. destruct Hs' as (t & Ht). exists (take k (drop pos s)), t.
  rewrite length_take_le by done. split; [done|]. split; [by rewrite <- Ht, take_drop|].
  rewrite length_take_le by done. done.
Qed.

(** * Replacing *)
Lemma lacks_shorter s sub : (length s < length sub)%nat → lacks s sub.
Proof.
  intros Hl k. destruct (starts (drop k s) sub) eqn:E; [|done]. apply starts_with_spec in E as (t & E).
  apply (f_equal length) in E. rewrite length_drop, length_app in E. lia.
Qed.

(** Each replacement makes the text shorter. *)
Lemma MyReplaceAll_shorter fuel s old new :
  (length new < length old)%nat → (length s < fuel)%nat →
  ∃ r, MyReplaceAll fuel s old new = Ok r ∧ lacks r old.
Proof.
  intros Hn. revert s. induction fuel as [|fuel IH]; intros s Hf; [lia|]. cbn [MyReplaceAll].
  pose proof (find_spec s old 0 ltac:(lia)) as Hs. rewrite drop_0 in Hs. destruct (find s old 0) as [j|].
  - destruct Hs as (a & b & -> & Hab & _). apply IH. apply (f_equal length) in Hab.
    rewrite !length_app, length_take, length_drop. rewrite !length_app in Hab. lia.
  - by exists s.
Qed.

(** A replacement that brings back what it replaces never ends. *)
Lemma MyReplaceAll_spins fuel s old x y :
  (∃ a b, s = a ++ old ++ b) → MyReplaceAll fuel s old (x ++ old ++ y) = Spin.
Proof.
  revert s. induction fuel as [|fuel IH]; intros s (a & b & Hs); [done|]. cbn [MyReplaceAll].
  pose proof (find_spec s old 0 ltac:(lia)) as Hf. rewrite drop_0 in Hf. destruct (find s old 0) as [j|].
  - apply IH. exists (take j s ++ x), (y ++ drop (j + length old) s). by rewrite <- !app_assoc.
  - specialize (Hf (length a)). rewrite Hs, drop_app_length in Hf.
    assert (starts (old ++ b) old = true) by (apply starts_with_spec; by exists b). congruence.
Qed.

(** * Joined texts *)
Lemma join_cons p q ps d : JoinStrings (p :: q :: ps) d = p ++ d ++ JoinStrings (q :: ps) d.
Proof. done. Qed.
Lemma join_one p d : JoinStrings [p] d = p.
Proof. apply app_nil_r. Qed.

(** The places of [old] from left to right, none inside another, are between these
    pieces. *)
Fixpoint cuts (pieces : list str) (old : str) : Prop :=
  match pieces with
  | [] => False
  | [p] => lacks p old
  | p :: (_ :: _) as rest =>
      (∀ k, (k < length p)%nat → starts (drop k (JoinStrings pieces old)) old = false) ∧ cuts rest old
  end.

Lemma replace_loop_ok fuel s old new pos res :
  old ≠ [] → (pos ≤ length s)%nat → (length s - pos < fuel)%nat →
  ∃ pieces, drop pos s = JoinStrings pieces old ∧ cuts pieces old ∧
    replace_loop fuel s old new true pos res = Ok (res ++ JoinStrings pieces new).
Proof.
  intros Hold. revert pos res. induction fuel as [|fuel IH]; intros pos res Hp Hf; [lia|]. cbn [replace_loop].
  pose proof (find_spec s old pos Hp) as Hs. destruct (find s old pos) as [j|].
  - destruct Hs as (a & b & -> & Hab & Hfirst). assert (0 < length old)%nat as Hol by (destruct old; [done|cbn; lia]).
    pose proof (f_equal length Hab) as Hlen. rewrite length_drop, !length_app in Hlen.
    assert (drop (pos + length a + length old) s = b) as Hb.
    { by rewrite <- !drop_drop, Hab, drop_app_length, drop_app_length. }
    destruct (IH (pos + length a + length old)%nat (res ++ a ++ new)) as (pieces & Hj & Hc & Hr); [lia|lia|].
    replace (pos + length a - pos)%nat with (length a) by lia. rewrite Hab, take_app_length, Hr.
    rewrite Hb in Hj. destruct pieces as [|q ps]; [done|]. exists (a :: q :: ps). rewrite !join_cons, <- Hj. split; [done|].
    split; [split; [by rewrite join_cons, <- Hj, <- Hab|done]|]. by rewrite <- !app_assoc.
  - exists [drop pos s]. by rewrite !join_one.
Qed.

(** Every place is replaced, and only the first if so wanted. *)
Lemma StringReplace_ok s old new res :
  old ≠ [] →
  ∃ pieces, s = JoinStrings pieces old ∧ cuts pieces old ∧ StringReplace s old new true res = Ok (res ++ JoinStrings pieces new).
Proof.
  intros Hold. destruct (replace_loop_ok (S (length s)) s old new 0 res Hold) as (pieces & Hj & Hc & Hr); [lia|lia|].
  exists pieces. split; [done|]. split; [done|]. by destruct old.
Qed.

(** * Splitting *)
(** The pieces between bytes with [f]. *)
Fixpoint split_on (f : Z → bool) (s : str) : list str :=
  match s with
  | [] => [[]]
  | c :: s => if f c then [] :: split_on f s else match split_on f s with p :: ps => (c :: p) :: ps | [] => [[c]] end
  end.

Lemma split_on_some f s : ∃ p ps, split_on f s = p :: ps.
Proof. destruct s as [|c s]; [by exists [], []|]. cbn. destruct (f c); [eauto|]. destruct (split_on f s); eauto. Qed.

Lemma split_on_app f a s : Forall (λ c, f c = false) a →
  split_on f (a ++ s) = match split_on f s with p :: ps => (a ++ p) :: ps | [] => [] end.
Proof.
  destruct (split_on_some f s) as (p & ps & E). induction 1 as [|c a Hc Ha IH]; cbn [app split_on]; [by rewrite E|].
  rewrite E in *. rewrite Hc, IH. done.
Qed.
Lemma split_on_none f s : Forall (λ c, f c = false) s → split_on f s = [s].
Proof. intros Hs. rewrite <- (app_nil_r s) at 1. rewrite split_on_app by done. cbn. by rewrite app_nil_r. Qed.

Lemma find_first_spec f s pos :
  match find_first f s pos with
  | Some j => ∃ a c b, j = (pos + length a)%nat ∧ drop pos s = a ++ c :: b ∧ f c = true ∧ Forall (λ c, f c = false) a
  | None => Forall (λ c, f c = false) (drop pos s)
  end.
Proof.
  unfold find_first. destruct (list_find (λ c, f c = true) (drop pos s)) as [[k c]|] eqn:E; cbn.
  - apply list_find_Some in E as (Hk & Hc & Hb). exists (take k (drop pos s)), c, (drop (S k) (drop pos s)).
    rewrite length_take_le by (apply lookup_lt_Some in Hk; lia). split; [done|]. split; [by rewrite take_drop_middle|]. split; [done|].
    apply Forall_lookup. intros i x Hi. apply lookup_take_Some in Hi as [Hi Hlt].
    specialize (Hb i x Hi Hlt). by destruct (f x).
  - apply list_find_None in E. eapply Forall_impl; [exact E|]. intros x Hx. cbn in Hx. by destruct (f x).
Qed.

Lemma split_loop_ok fuel s d pos res :
  (pos ≤ length s)%nat → (length s - pos < fuel)%nat →
  split_loop fuel s d pos res = Ok (res ++ split_on (is_in d) (drop pos s)).
Proof.
  revert pos res. induction fuel as [|fuel IH]; intros pos res Hp Hf; [lia|]. cbn [split_loop].
  pose proof (find_first_spec (is_in d) s pos) as Hs. unfold find_first_of. destruct (find_first (is_in d) s pos) as [j|].
  - destruct Hs as (a & c & b & -> & Hd & Hc & Ha). pose proof (f_equal length Hd) as Hlen. rewrite length_drop, length_app in Hlen. cbn in Hlen.
    unfold substr. rewrite (proj2 (Nat.ltb_ge _ _)) by lia. cbn [mbind outcome_bind]. rewrite IH by lia.
    rewrite <- app_assoc. do 2 f_equal. replace (pos + length a - pos)%nat with (length a) by lia. rewrite Hd, take_app_length.
    rewrite split_on_app by done. cbn [split_on]. rewrite Hc, app_nil_r. cbn [app]. f_equal. f_equal.
    replace (S (pos + length a)) with (pos + (length a + 1))%nat by lia. rewrite <- drop_drop, Hd, <- drop_drop, drop_app_length. done.
  - unfold substr_end, substr. rewrite (proj2 (Nat.ltb_ge _ _)) by lia. cbn [mbind outcome_bind].
    rewrite take_ge by (rewrite length_drop; lia). by rewrite split_on_none.
Qed.

Lemma SplitStringUsing_ok s d res : SplitStringUsing s d res = Ok (res ++ split_on (is_in d) s).
Proof.
  unfold SplitStringUsing. destruct s as [|c s]; [done|]. destruct d as [|x d].
  - rewrite split_on_none; [done|]. by apply Forall_true.
  - by rewrite split_loop_ok by lia.
Qed.

Lemma MySplit2_ok s d res :
  s ≠ [] → d ≠ [] → MySplit2 s d res = Ok (res ++ split_on (is_in d) s).
Proof.
  intros Hs Hd. unfold MySplit2. destruct s as [|c0 s0]; [done|]. destruct d as [|x0 d0]; [done|]. clear Hs Hd.
  set (d := x0 :: d0). generalize (c0 :: s0) as s. intros s.
  assert (∀ fuel s res, (length s < fuel)%nat → MySplit2_loop fuel s d res = Ok (res ++ split_on (is_in d) s)) as Hl; [|apply Hl; lia].
  clear. intros fuel. induction fuel as [|fuel IH]; intros s res Hf; [lia|]. cbn [MySplit2_loop].
  pose proof (find_first_spec (is_in d) s 0) as Hs. rewrite drop_0 in Hs. unfold find_first_of. destruct (find_first (is_in d) s 0) as [j|].
  - destruct Hs as (a & c & b & -> & Hd & Hc & Ha). pose proof (f_equal length Hd) as Hlen. rewrite length_app in Hlen. cbn in Hlen.
    unfold substr_end, substr. rewrite !(proj2 (Nat.ltb_ge _ _)) by lia. cbn [mbind outcome_bind].
    rewrite (IH (take (length s) (drop (0 + length a + 1) s))) by (rewrite length_take, length_drop; lia).
    rewrite <- app_assoc. do 2 f_equal.
    rewrite (take_ge (drop (0 + length a + 1) s)) by (rewrite length_drop; lia). cbn [Nat.add]. rewrite Nat.sub_0_r, drop_0.
    rewrite <- drop_drop, Hd, take_app_length, drop_app_length. rewrite split_on_app by done. cbn [split_on]. by rewrite Hc, app_nil_r.
  - by rewrite split_on_none.
Qed.

Lemma split_on_seps f a s : Forall (λ c, f c = true) a → split_on f (a ++ s) = replicate (length a) [] ++ split_on f s.
Proof. induction 1 as [|c a Hc Ha IH]; [done|]. cbn. by rewrite Hc, IH. Qed.

(** [MySplit] leaves the empty pieces out, but not the first. *)
Definition kept (l : list str) : list str :=
  match l with p :: ps => p :: filter (λ q, q ≠ []) ps | [] => [] end.

Lemma filter_empties n (l : list str) : filter (λ q : str, q ≠ []) (replicate n [] ++ l) = filter (λ q, q ≠ []) l.
Proof. induction n as [|n IH]; [done|]. cbn [replicate app]. rewrite filter_cons. by case_decide. Qed.

Lemma kept_step f a (x t : str) :
  Forall (λ c, f c = false) a → x ≠ [] → Forall (λ c, f c = true) x →
  kept (split_on f (a ++ x ++ t)) = a :: filter (λ q, q ≠ []) (split_on f t).
Proof.
  intros Ha Hx Hs. destruct x as [|c x]; [done|]. apply Forall_cons in Hs as [Hc Hs].
  rewrite split_on_app by done. cbn [app split_on]. rewrite Hc, app_nil_r. cbn [kept]. f_equal.
  by rewrite split_on_seps, filter_empties.
Qed.

Lemma kept_word f c t : f c = false → filter (λ q : str, q ≠ []) (split_on f (c :: t)) = kept (split_on f (c :: t)).
Proof.
  intros Hc. cbn [split_on]. rewrite Hc. destruct (split_on_some f t) as (p & ps & ->). cbn [kept]. rewrite filter_cons. by case_decide.
Qed.

Lemma MySplit_ok s d res : s ≠ [] → d ≠ [] → MySplit s d res = Ok (res ++ kept (split_on (is_in d) s)).
Proof.
  intros Hs Hd. unfold MySplit. destruct s as [|c0 s0]; [done|]. destruct d as [|x0 d0]; [done|]. clear Hs Hd.
  set (d := x0 :: d0). generalize (c0 :: s0) as s. intros s.
  assert (∀ fuel start res, (start ≤ length s)%nat → (length s - start < fuel)%nat →
    MySplit_loop fuel s d start res = Ok (res ++ kept (split_on (is_in d) (drop start s)))) as Hl; [|by rewrite Hl by lia].
  clear. intros fuel. induction fuel as [|fuel IH]; intros start res Hst Hf; [lia|]. cbn [MySplit_loop]. unfold find_first_of, find_first_not_of.
  pose proof (find_first_spec (is_in d) s start) as Hs. destruct (find_first (is_in d) s start) as [j|].
  2:{ unfold substr_end, substr. rewrite (proj2 (Nat.ltb_ge _ _)) by lia. cbn [mbind outcome_bind].
      rewrite take_ge by (rewrite length_drop; lia). by rewrite split_on_none. }
  destruct Hs as (a & c & b & -> & Hd & Hc & Ha). pose proof (f_equal length Hd) as Hlen. rewrite length_drop, length_app in Hlen. cbn in Hlen.
  unfold substr at 1. rewrite (proj2 (Nat.ltb_ge _ _)) by lia. cbn [mbind outcome_bind].
  replace (start + length a - start)%nat with (length a) by lia. rewrite Hd, take_app_length.
  assert (drop (start + length a) s = c :: b) as Hcb by (by rewrite <- drop_drop, Hd, drop_app_length).
  pose proof (find_first_spec (λ c, negb (is_in d c)) s (start + length a)) as Hn. rewrite Hcb in Hn.
  destruct (find_first (λ c, negb (is_in d c)) s (start + length a)) as [j|].
  - destruct Hn as (x & c' & t & -> & Hxt & Hc' & Hx). pose proof (f_equal length Hxt) as Hlen2. rewrite length_app in Hlen2. cbn in Hlen2.
    assert (Forall (λ c, is_in d c = true) x) as Hx' by (eapply Forall_impl; [exact Hx|]; intros y Hy; by apply negb_false_iff).
    assert (x ≠ []) as Hx0. { intros ->. injection Hxt as <- <-. rewrite Hc in Hc'. done. }
    assert (0 < length x)%nat by (destruct x; [done|cbn; lia]).
    rewrite IH by lia. rewrite <- app_assoc. do 2 f_equal. rewrite Hxt. rewrite kept_step by done. cbn [app]. f_equal.
    rewrite <- (drop_drop s). rewrite Hcb, Hxt, drop_app_length. symmetry. apply kept_word. by apply negb_true_iff.
  - assert (Forall (λ c, is_in d c = true) (c :: b)) as Hx by (eapply Forall_impl; [exact Hn|]; intros y Hy; by apply negb_false_iff).
    rewrite <- (app_nil_r (c :: b)), kept_step by done. done.
Qed.

(** * Splitting and joining undo each other *)
Lemma is_in_one c x : is_in [c] x = (x =? c).
Proof. cbn. by rewrite orb_false_r. Qed.

Lemma join_split c s : JoinStrings (split_on (is_in [c]) s) [c] = s.
Proof.
  induction s as [|x s IH]; [done|]. destruct (split_on_some (is_in [c]) s) as (p & ps & E). cbn [split_on]. rewrite E in *.
  destruct (is_in [c] x) eqn:Hx.
  - rewrite join_cons, IH. rewrite is_in_one in Hx. apply Z.eqb_eq in Hx as ->. done.
  - rewrite <- IH. destruct ps; [by rewrite !join_one|by rewrite !join_cons].
Qed.

Lemma split_join c items :
  items ≠ [] → Forall (λ s, c ∉ s) items → split_on (is_in [c]) (JoinStrings items [c]) = items.
Proof.
  intros Hne Hi. assert (∀ s, c ∉ s → Forall (λ x, is_in [c] x = false) s) as Hs.
  { intros s Hc. apply Forall_forall. intros x Hx. rewrite is_in_one. apply Z.eqb_neq. by intros ->. }
  induction Hi as [|s items Hc Hi IH]; [done|]. destruct items as [|s2 items].
  - rewrite join_one. by apply split_on_none, Hs.
  - rewrite join_cons, split_on_app by by apply Hs. cbn [app split_on]. rewrite is_in_one, Z.eqb_refl, app_nil_r.
    by rewrite IH.
Qed.

(** [SimpleItoa] of any int, the least one too, is its decimal text, which
    [atoi] reads back; whatever is in the buffer, no write is outside of it and no
    operation on ints overflows. *)
Theorem SimpleItoa_decimal (buf : list Z) (i : Z) :
  zlen buf = ITOA_BUFFER_LEN → - 2 ^ 31 ≤ i < 2 ^ 31 → SimpleItoa buf i = Ok (fmt_d i) ∧ atoi (fmt_d i) = i.
Proof.
  intros Hb Hi. split; [by apply SimpleItoa_ok|]. unfold atoi, strtol, fmt_d. change (2 ^ 31) with 2147483648 in Hi.
  change (2 ^ 63) with 9223372036854775808.
  assert (∀ n, 0 ≤ n ≤ 2147483648 → digits (fmt_lu n) 0 = n) as Hv.
  { intros n Hn. apply digits_of_value. change (10 ^ Z.of_nat 20) with 100000000000000000000. lia. }
  destruct (Z.ltb_spec i 0).
  - cbn [skip_spaces]. change (is_space 45) with false. cbv iota beta. rewrite Hv by lia. rewrite i32_small; lia.
  - assert (∃ c s, fmt_lu i = c :: s ∧ 48 ≤ c ≤ 57) as (c & s & E & Hc).
    { pose proof (SimDb.digits_range 20 i ltac:(lia)) as Hd. change (digits_of 20 i) with (fmt_lu i) in Hd.
      destruct (fmt_lu i) as [|c s] eqn:E; [|apply Forall_cons in Hd as [Hc _]; eauto].
      unfold fmt_lu in E. cbn [digits_of] in E. destruct (i <? 10); [done|]. by apply app_eq_nil in E as [_ ?]. }
    rewrite <- (Hv i) at 2 by lia. rewrite E. cbn [skip_spaces].
    assert (is_space c = false) as ->.
    { unfold is_space, SP. rewrite (proj2 (Z.eqb_neq _ _)), (proj2 (Z.leb_gt c 13)) by lia. by rewrite andb_false_r. }
    assert ((match c :: s with 45 :: s0 => (-1, s0) | 43 :: s0 => (1, s0) | s0 => (1, s0) end) = (1, c :: s)) as ->.
    { assert (c = 48 ∨ c = 49 ∨ c = 50 ∨ c = 51 ∨ c = 52 ∨ c = 53 ∨ c = 54 ∨ c = 55 ∨ c = 56 ∨ c = 57) as Hcs by lia.
      by destruct Hcs as [->|[->|[->|[->|[->|[->|[->|[->|[->| ->]]]]]]]]]. }
    cbv iota beta. rewrite <- E, Hv by lia. rewrite i32_small; lia.
Qed.

Lemma SimpleItoa_decimal_witness :
  SimpleItoa (replicate 32 7) (-2147483648) = Ok (fmt_d (-2147483648)) ∧ atoi (fmt_d (-2147483648)) = -2147483648.
Proof.
  apply (SimpleItoa_decimal (replicate 32 7) (-2147483648)).
  - reflexivity.
  - lia.
Defined.

(** C40: [MyReplaceAll] ends, with no place left to replace, when what it puts in is
    shorter than what it takes out; when it contains it, the call never returns once
    there is one such place.  [StringReplace] always ends: it replaces the places
    found from left to right, and does not look into what it put there. *)
Theorem replace_ends (s old new res : list Z) :
  old ≠ [] →
  ((length new < length old)%nat → ∃ r, MyReplaceAll (S (length s)) s old new = Ok r ∧ lacks r old) ∧
  ((∃ x y, new = x ++ old ++ y) → (∃ a b, s = a ++ old ++ b) → ∀ fuel, MyReplaceAll fuel s old new = Spin) ∧
  ∃ pieces, s = JoinStrings pieces old ∧ cuts pieces old ∧ StringReplace s old new true res = Ok (res ++ JoinStrings pieces new).
Proof.
  intros Hold. split; [intros Hl; apply MyReplaceAll_shorter; lia|]. split; [|by apply StringReplace_ok].
  intros (x & y & ->) Hs fuel. by apply MyReplaceAll_spins.
Qed.

Lemma replace_ends_witness :
  (∃ r, MyReplaceAll 4 [97; 98; 99] [98] [] = Ok r ∧ lacks r [98]) ∧
  (∀ fuel, MyReplaceAll fuel [97; 98; 99] [98] [98; 98] = Spin) ∧
  ∃ pieces, [97; 98; 99] = JoinStrings pieces [98] ∧ cuts pieces [98] ∧
    StringReplace [97; 98; 99] [98] [98; 98] true [] = Ok ([] ++ JoinStrings pieces [98; 98]).
Proof.
  split; [|split].
  - apply (replace_ends [97; 98; 99] [98] [] [] ltac:(discriminate)). cbn. lia.
  - apply (replace_ends [97; 98; 99] [98] [98; 98] [] ltac:(discriminate)).
    + by exists [], [98].
    + by exists [97], [99].
  - apply (replace_ends [97; 98; 99] [98] [98; 98] [] ltac:(discriminate)).
Defined.

(** A text split at a byte and joined again is the text; items without that byte
    joined by it and split again are the items; [MySplit2] splits in the same way,
    [MySplit] leaves out the empty pieces behind the first. *)
Theorem split_and_join (c : Z) (s : list Z) (items : list (list Z)) :
  (∃ l, SplitStringUsing s [c] [] = Ok l ∧ JoinStrings l [c] = s ∧
     (s ≠ [] → MySplit2 s [c] [] = Ok l ∧ MySplit s [c] [] = Ok (kept l))) ∧
  (items ≠ [] → Forall (λ s, c ∉ s) items → SplitStringUsing (JoinStrings items [c]) [c] [] = Ok items).
Proof.
  split.
  - exists (split_on (is_in [c]) s). split; [apply SplitStringUsing_ok|]. split; [apply join_split|].
    intros Hs. split; [by apply MySplit2_ok|by apply MySplit_ok].
  - intros Hne Hi. rewrite SplitStringUsing_ok. cbn [app]. by rewrite split_join.
Qed.

(** * Bytes in hexadecimal *)
Definition hex_text (bytes : list Z) : list Z := concat ((λ b, [hex_digit (b / 16); hex_digit (b mod 16); 32]) <$> bytes).

Lemma hex_text_len bytes : length (hex_text bytes) = (3 * length bytes)%nat.
Proof. unfold hex_text. induction bytes as [|b bytes IH]; [done|]. cbn in *. lia. Qed.

Lemma hex_text_no_nul bytes : Forall (λ b, 0 ≤ b < 256) bytes → Forall (λ c, c ≠ 0) (hex_text bytes).
Proof.
  intros Hb. unfold hex_text. induction Hb as [|b bytes Hb Hbs IH]; [constructor|]. cbn [fmap list_fmap concat app].
  pose proof (Z.div_pos b 16). pose proof (Z.mod_pos_bound b 16).
  assert (∀ d, 0 ≤ d → hex_digit d ≠ 0) as Hd by (intros d ?; unfold hex_digit; destruct (d <? 10); lia).
  repeat (apply Forall_cons; split; [first [apply Hd; lia|done]|]). exact IH.
Qed.

Lemma hex_loop_ok buff bytes i :
  zlen buff = HEX_BUFF_LEN → 0 ≤ i → i + zlen bytes ≤ STR2HEX_MAX_BUFF_LEN → bytes ≠ [] →
  ∃ rest, hex_loop buff bytes i = Ok (take (Z.to_nat (3 * i)) buff ++ hex_text bytes ++ 0 :: rest) ∧
    zlen (take (Z.to_nat (3 * i)) buff ++ hex_text bytes ++ 0 :: rest) = HEX_BUFF_LEN.
Proof.
  unfold HEX_BUFF_LEN, STR2HEX_MAX_BUFF_LEN, CHAR_NUM_PER_BYTE. revert buff i. induction bytes as [|b bytes IH]; intros buff i Hb Hi Hl Hne; [done|].
  rewrite zlen_cons in Hl. pose proof (zlen_nonneg bytes). cbn [hex_loop]. unfold HEX_BUFF_LEN, STR2HEX_MAX_BUFF_LEN, CHAR_NUM_PER_BYTE.
  rewrite (take_ge (take 3 _)) by (cbn; lia). set (d := take 3 (hex_byte b) ++ [0]).
  rewrite mwrite_ok by (change (zlen d) with 4; lia). cbn [mbind outcome_bind]. change (length d) with 4%nat.
  replace (Z.to_nat (i * 3)) with (Z.to_nat (3 * i)) by (f_equal; lia).
  set (buff1 := take (Z.to_nat (3 * i)) buff ++ d ++ drop (Z.to_nat (3 * i) + 4) buff).
  assert (zlen buff1 = (10240 + 1) * 3) as Hb1.
  { unfold buff1. rewrite !zlen_app, zlen_take by lia. change (zlen d) with 4. unfold zlen in *. rewrite length_drop. lia. }
  assert (take (Z.to_nat (3 * (i + 1))) buff1 = take (Z.to_nat (3 * i)) buff ++ take 3 (hex_byte b)) as Ht.
  { unfold buff1, d. rewrite take_app. rewrite take_take. unfold zlen in Hb. rewrite length_take, !Nat.min_r, Nat.min_l by lia.
    f_equal. replace (Z.to_nat (3 * (i + 1)) - Z.to_nat (3 * i))%nat with 3%nat by lia. done. }
  destruct bytes as [|b2 bytes].
  - exists (drop (Z.to_nat (3 * i) + 4) buff). cbn [hex_loop]. unfold hex_text. cbn [fmap list_fmap concat app]. split; [done|exact Hb1].
  - destruct (IH buff1 (i + 1)) as (rest & Hr & Hz); [done|lia|rewrite !zlen_cons in *; lia|done|].
    exists rest. rewrite Hr. rewrite Ht in *. rewrite <- app_assoc in *. split; [done|exact Hz].
Qed.

(** The buffers before and after a call: the text is in the next one, and the other
    four, with what the last calls returned, are left. *)
Record hex_ok (h : hex_buffs) : Prop := {
  hx_idx : 0 ≤ iCurHexBuffIdx h < MAX_HEX_BUFF_NUM;
  hx_num : zlen (szStr2HexBuff h) = MAX_HEX_BUFF_NUM;
  hx_len k b : aget (szStr2HexBuff h) k = Ok b → zlen b = HEX_BUFF_LEN;
}.
Definition hex_at (h : hex_buffs) (k : Z) : outcome (list Z) := b ← aget (szStr2HexBuff h) k; text_at b 0.

Theorem Str2Hex_text (h : hex_buffs) (bytes : list Z) (iSize : Z) :
  hex_ok h → 0 ≤ iSize ≤ zlen bytes → Forall (λ b, 0 ≤ b < 256) bytes →
  ∃ h' k, Str2Hex h bytes iSize = Ok (h', k) ∧ hex_ok h' ∧ k = (iCurHexBuffIdx h + 1) mod MAX_HEX_BUFF_NUM ∧ iCurHexBuffIdx h' = k ∧
    hex_at h' k = Ok (hex_text (take (Z.to_nat (Z.min iSize STR2HEX_MAX_BUFF_LEN)) bytes)) ∧
    ∀ j, j ≠ k → hex_at h' j = hex_at h j.
Proof.
  intros [Hi Hn Hl] Hs Hb. unfold Str2Hex. rewrite Z.rem_mod_nonneg by (unfold MAX_HEX_BUFF_NUM in *; lia).
  pose proof (Z.mod_pos_bound (iCurHexBuffIdx h + 1) MAX_HEX_BUFF_NUM ltac:(done)) as Hk. set (k := (iCurHexBuffIdx h + 1) mod MAX_HEX_BUFF_NUM) in *.
  assert ((if STR2HEX_MAX_BUFF_LEN <? iSize then STR2HEX_MAX_BUFF_LEN else iSize) = Z.min iSize STR2HEX_MAX_BUFF_LEN) as ->
    by (destruct (Z.ltb_spec STR2HEX_MAX_BUFF_LEN iSize); lia).
  set (n := Z.min iSize STR2HEX_MAX_BUFF_LEN). assert (0 ≤ n ≤ iSize ∧ n ≤ STR2HEX_MAX_BUFF_LEN) as [Hn1 Hn2] by (unfold n, STR2HEX_MAX_BUFF_LEN; lia).
  rewrite (proj2 (Z.ltb_ge n 0)) by lia. rewrite mread_ok by lia. cbn [mbind outcome_bind]. rewrite drop_0.
  destruct (aget_total (szStr2HexBuff h) k) as [b Hbk]; [by rewrite Hn|]. rewrite Hbk. cbn [mbind outcome_bind]. pose proof (Hl k b Hbk) as Hlb.
  set (d := take (Z.to_nat n) bytes). assert (zlen d = n) as Hd by (unfold d; rewrite zlen_take; lia).
  assert (∃ b1, (buff ← hex_loop b d 0; if n =? 0 then aset buff 0 0 else Ok buff) = Ok b1 ∧ zlen b1 = HEX_BUFF_LEN ∧ text_at b1 0 = Ok (hex_text d)) as (b1 & Hb1 & Hz1 & Ht1).
  { destruct (Z.eqb_spec n 0) as [E|E].
    - assert (d = []) as -> by (destruct d; [done|rewrite zlen_cons in Hd; pose proof (zlen_nonneg d); lia]). cbn [hex_loop mbind outcome_bind].
      destruct b as [|c b]; [by unfold HEX_BUFF_LEN in Hlb|]. exists (0 :: b). split; [|split; [done|done]].
      rewrite aset_ok by (rewrite zlen_cons; pose proof (zlen_nonneg b); lia). done.
    - destruct (hex_loop_ok b d 0 Hlb) as (rest & -> & Hz); [lia|lia|intros E'; rewrite E' in Hd; by apply E|]. cbn [mbind outcome_bind].
      eexists. split; [done|]. split; [exact Hz|]. apply (text_at_ok _ _ _ rest); [lia|done|].
      apply hex_text_no_nul. apply Forall_take. exact Hb. }
  destruct (hex_loop b d 0) as [b0| |] eqn:E0; cbn [mbind outcome_bind] in Hb1 |- *; try done. rewrite Hb1. cbn [mbind outcome_bind].
  destruct (aset_total (szStr2HexBuff h) k b1) as (bufs & -> & Hz & Hat & Ho); [by rewrite Hn|]. cbn [mbind outcome_bind].
  eexists _, k. split; [done|]. split; [|split; [done|split; [done|split]]].
  - split; cbn; [done|by rewrite Hz|]. intros j c Hj. destruct (decide (j = k)) as [->|Hne]; [congruence|]. rewrite Ho in Hj by done. by apply (Hl j).
  - unfold hex_at. cbn [szStr2HexBuff]. by rewrite Hat.
  - intros j Hj. unfold hex_at. cbn [szStr2HexBuff]. by rewrite Ho.
Qed.
